(* ===== verification/_CoqProject ===== *)
-Q . S2P
Prelude.v
Js.v
Sql.v
Telemetry.v
Protobuf.v
Base64Url.v
Crypto.v
LiveTicket.v
LiveFrame.v
LiveHub.v
Authz.v
CheckPersistence.v
ControlTables.v
JsString.v
Web.v
Assertions.v
JsonFacts.v
Validation.v
Envelopes.v
Executor.v
Lease.v
ServiceStateSync.v
RoundRobin.v
MachineLiveness.v
ChecksWorker.v
Notifications.v
Outbox.v
Discovery.v
RetentionTables.v
ControlPlane.v
AuditLog.v
ResourceLifecycle.v
TelemetryRetention.v
SoftDeleteTelemetry.v
ControlRetention.v
SoftDelete.v
PurgeProtocol.v
ArtifactRetention.v
RetentionFrame.v
RetentionWorker.v
WorkspaceAccess.v
Invitations.v
ServiceCompiler.v
Interleave.v
ConfigTables.v
ServiceConfig.v
ServiceLimits.v
ServiceDelivery.v
SiteAppearance.v
QueryBatches.v
MachineInventory.v
StatusTimeline.v
PublicStatus.v
PublicStatusPrivacy.v
PublicStatusPages.v
StatusSnapshot.v
MemberData.v
TextDecoder.v
HistoryCursor.v
MachineHistory.v
ServiceHistory.v
MachinePages.v
ServicePages.v
ServiceEdit.v
WorkspacePages.v
DashboardPage.v
MachineSettings.v
Transaction.v
MachineActions.v
IncidentActions.v
ChannelConfig.v
NotificationActions.v
WorkspaceSettings.v
Setup.v
RequestGate.v
AdminPages.v
LivePage.v
AgentCommands.v
SetupEnvironment.v
