(* ===== verification/Prelude.v ===== *)
(** * AlphaPing: the TypeScript control plane and its workers

    AlphaPing monitors services and machines.  Agents (Rust, not modelled) report to an ingest
    worker; everything else is TypeScript on Cloudflare: Workers that run on a schedule, one
    Durable Object, the web application's server code, and two D1 databases, the control database
    (workspaces, members, machines, services, checks, invitations, notification rules) and the
    telemetry database (results, states, history).  This development translates that code into
    functions, statement by statement, and proves what it promises.  The prelude below has the
    error monad, the notations, the automation ([bool_hyps], [ok_inv], the hint database
    [alphaping]) and the lemmas on lists and integers that the files share.

    ** The parts, and how they interact

    - Foundations.  [Js], [JsString] (strings, doubles, JSON), [Sql] (statements on tables),
      [Base64Url], [Crypto] (WebCrypto as a class), [Web] (headers, URLs as a class).
    - Live channel.  [Protobuf], [LiveTicket], [LiveFrame] ([packages/contracts/src]) and
      [LiveHub] ([workers/live/src]): an agent's encrypted frames reach the viewers whose tickets
      the web application has signed.
    - Checks.  The scheduler [ChecksWorker] takes a lease ([Lease]), finds due checks
      ([Telemetry]), parses their stored configuration ([Validation], [Assertions]), resolves
      their secrets ([Envelopes]), executes them ([Executor]) and records the result
      ([CheckPersistence]); it also marks silent machines offline ([MachineLiveness], paging by
      [RoundRobin]) and carries configuration changes over to the telemetry database
      ([ServiceStateSync]).  All under [workers/checks/src] and [packages/db/src/repositories].
    - Notifications ([workers/notifications/src]).  [Discovery] turns the queue of state events
      into deliveries, [Outbox] claims and settles them, [Notifications] talks to the providers.
    - Retention ([workers/retention/src]).  [RetentionWorker] gives every workspace its turn and
      composes [TelemetryRetention], [ControlRetention], [SoftDeleteTelemetry], [SoftDelete] and
      [ArtifactRetention]; [RetentionTables] and [ControlPlane] are the tables they work on,
      [RetentionFrame] says what none of them can do.
    - Web application ([apps/web/src/lib/server]).  [Authz] decides who may see and change what,
      in TypeScript and inside SQL conditions; [AuditLog] writes the audit rows;
      [ServiceCompiler] turns the form of a check into the configuration the workers and agents
      read, [ServiceConfig] stores it ([ConfigTables]; [ServiceLimits] and [ServiceDelivery] have
      the theorems); [ResourceLifecycle] deletes and restores, against the retention worker
      ([PurgeProtocol]); [WorkspaceAccess] and [Invitations] decide who belongs to a workspace.
    - Administration.  [MachineActions] (with [MachineSettings]) adds and configures machines and
      issues their enrollment tokens, [AgentCommands] queues commands for their Agents,
      [IncidentActions] opens and updates incidents, [NotificationActions] (with [ChannelConfig])
      keeps channels and rules, [WorkspaceSettings] the settings, [Setup] sets an installation up
      once [SetupEnvironment] is satisfied, and creates workspaces.  [Interleave] has programs whose
      accesses to one database interleave with those of others, and [Transaction] the statements
      of a batch; these actions are such programs.
    - Members' pages ([packages/db/src/repositories]).  [MemberData] has their tables and access,
      [MachinePages], [ServicePages] (with [ServiceEdit]), [WorkspacePages], [DashboardPage] and
      [AdminPages] what they show, [MachineHistory] and [ServiceHistory] (with [HistoryCursor] and
      [TextDecoder]) the history page by page, and [LivePage] the live view up to the hub.
    - Public status pages.  [PublicStatus] reads what everybody may see ([PublicStatusPrivacy],
      [PublicStatusPages] have the theorems; [QueryBatches], [MachineInventory], [StatusTimeline],
      [SiteAppearance] its parts), [StatusSnapshot] keeps a copy for when the database fails.
      [RequestGate] is what every request passes first: bounded bodies, hostnames of status
      pages, limits on sign-in attempts, sessions.

    ** How state and operations correspond to the code

    A function of the source is a definition of the same name; a comment before it names the file
    and the symbol or lines.  What throws returns [res]: an error of SvelteKit is its status and
    message in one string.  Rows are records with the columns the modelled statements use, tables
    are lists of rows with their keys stated as invariants, a statement is one of the operators of
    [Sql] with the [WHERE] clause as a boolean, a [batch] is a function that is all or nothing, and
    what migrations declare (unique keys, cascades, triggers) is part of the batch.  An operation
    that reads and later writes takes the state it reads and [meanwhile], an arbitrary function
    (or, where it matters, a run of a step relation) that says what others do in between.
    [Date.now()], random bytes, UUIDs and the network are arguments.

    ** What the theorems show

    - Security: [hub_no_replay], [hub_connections_bounded], [finish_sends_authenticated],
      [verifyLiveTicket_sound], [seal_then_decrypt]; [authorization_checks_agree];
      [executeHttp_redirects_safe], [parseHttpRequest_safe], [notifications_confined];
      [invitation_single_use], [membership_update_safe], [queued_command_allowed].
    - Confidentiality: who is shown what, in [machine_page_confined], [service_page_confined],
      [incident_center_confined] and, for the public, [status_page_confined] (which says what
      the page of a resource with a summary profile still depends on, average latencies included)
      and [public_domain_confined]; and that what an administrator is shown or chooses is what is
      enforced, [access_panel_enforced] (for a container, on top of what its machine gives) and
      [public_policy_takes_effect] (within the two hundred the pages show).
    - Invariants of the control database under any number of concurrent actions:
      [one_enrollment_token], [setup_only_once], [incident_state_is_last_update] (of the update
      committed last), [notification_limits_hold], [configuration_limits_hold]; and single actions
      that do all of what was asked or nothing, [machine_update_exact], [new_workspace_ready].
    - Exactly-once and exclusion: [processCheck_exactly_once], [persistCheckResult_idempotent],
      [discovery_exactly_once] (the first run only sets the cursor), [outbox_delivers_exclusively],
      [scheduler_and_retention_leases_exclude] (a refinement of one abstract lease).
    - Progress: [delivery_settles], [retention_drains], [retention_reaches_everyone] (successive
      runs, while they go well), [sync_job_converges].
    - Data: [batch_service_follows_checks], [closing_rollup_exact], [check_latest_monotone],
      [prepareCheckBlockWrite_preserves], [retention_only_expired], [machine_purge] (nine
      relations are clean, the notification rules stay), [live_resources_recoverable] (unless the
      address of a service was taken), [workspace_recoverable_until].
    - From one end to the other: what the form of a check accepts is what the worker runs
      ([compiled_check_runs], [entered_secrets_reach_worker]); what is entered for a channel is
      what is sent ([configured_channel_sends]); a ticket from the page is only for a member who may
      view the machine, and opens a connection to the hub ([live_page_connects]); the browser
      reads what the server read ([fallback_shows_machine]); the pages of a list or a history, put together, are all of it
      ([pages_list_everything], [machine_raw_paged], [check_raw_paged], [service_pages_partition]).
    - Faults of the code, proved: [blocked_workspace_stalls], [sparse_check_never_closes],
      [busy_container_uncached], [machine_raw_overflows],
      [assertion_edit], [deleted_service_locks_incident], [enabled_rule_id]; and as recorded
      runs, [stale_size_overflows_agent], [crossed_posts_disagree], [taken_address_refused],
      [large_payload_refused].

    ** Bounds and fuel

    Loops that are not structural run on fuel: the wire decoders start with one unit per byte plus
    one, enough by [decoders_terminate]; the JSON parser with twice the text's length plus two,
    enough for every printed value by [json_parse_stringify]; number formatting with 17 digits, the
    most a double needs.  Timestamps are safe integers; where an integer must be one
    ([Number.isSafeInteger], [Number.isInteger]) the test is part of the definition.

    ** What is idealised

    Strings are their UTF-8 bytes: [.length] is exact on ASCII text, [trim] and [toLowerCase] act
    on ASCII; there are no lone surrogates and no byte order marks.  Objects keep the order of
    insertion.  Latencies are whole milliseconds; averages are exact for totals below 2^52.
    Promises that run together are sequenced, except where a step relation or [meanwhile] models
    their interleaving.  Databases fail only where a definition says so (the telemetry database of
    [ServiceStateSync], constraints, triggers); console output is left out.

    ** What is not modelled

    Svelte pages and browser state (presentation), the Rust agent, ingest worker and crates (another
    language), the schema declarations (their rows and constraints are in the files above), the
    documentation site, scripts and tests.  Of the server code: the route files that only call the
    functions modelled here and turn their errors into responses, the looks of a dashboard as
    they are edited, releases and installers of the Agent, and the authentication library.
    Third-party and platform code is a parameter: WebCrypto, [URL], ipaddr.js, JSONPath, RE2, zlib, fetch and
    sockets, R2, SQLite's [json_tree], string collation, [hashPassword]; the laws used of it are
    named classes or hypotheses with an instance that satisfies them. *)

From Stdlib Require Import ZArith Lia Bool String Ascii List.
From stdpp Require Import base tactics list strings.
#[global] Set Default Goal Selector "!".
Open Scope Z_scope.

(** ** The error monad of throwing code

    A TypeScript function that may [throw new Error(m)] returns [res A]: [Ok a] when it
    returns [a], [Err m] when it throws an error whose message (or class) is [m]. *)
Inductive res (A : Type) : Type :=
| Ok (a : A)
| Err (e : string).
Arguments Ok {A} a.
Arguments Err {A} e.

Definition rbind {A B} (m : res A) (k : A -> res B) : res B :=
  match m with Ok a => k a | Err e => Err e end.

Definition is_ok {A} (m : res A) : bool := match m with Ok _ => true | Err _ => false end.

(** [try { m } catch { h }] where the handler ignores the error. *)
Definition rcatch {A} (m : res A) (h : A) : A := match m with Ok a => a | Err _ => h end.

Declare Scope js_scope.
Delimit Scope js_scope with js.
Notation "'let*' x ':=' m 'in' k" := (rbind m (fun x => k))
  (at level 10, x name, m at level 100, k at level 200) : js_scope.
Notation "'let*' ' p ':=' m 'in' k" := (rbind m (fun p => k))
  (at level 10, p pattern, m at level 100, k at level 200) : js_scope.
(** [if (b) throw new Error(e); k] *)
Notation "'throw_if' b 'as' e 'in' k" := (if b then Err e else k)
  (at level 10, b at level 100, e at level 100, k at level 200) : js_scope.
Open Scope js_scope.

#[export] Instance res_eq_dec {A} `{!EqDecision A} : EqDecision (res A).
Proof. solve_decision. Defined.

Fixpoint mapM_res {A B} (f : A -> res B) (l : list A) : res (list B) :=
  match l with
  | [] => Ok []
  | x :: l' => let* y := f x in let* ys := mapM_res f l' in Ok (y :: ys)
  end.

Lemma Ok_inj {A} (a b : A) : Ok a = Ok b -> a = b.
Proof. congruence. Qed.

Lemma rbind_ok {A B} (m : res A) (k : A -> res B) b :
  rbind m k = Ok b <-> exists a, m = Ok a /\ k a = Ok b.
Proof. destruct m; simpl; naive_solver. Qed.

Lemma mapM_res_ok {A B} (f : A -> res B) l ys :
  mapM_res f l = Ok ys <-> Forall2 (fun x y => f x = Ok y) l ys.
Proof.
  revert ys. induction l as [|x l IH]; intros ys; simpl.
  - split; [intros [= <-]; constructor | intros H; by inversion H].
  - rewrite rbind_ok. split.
    + intros (y & Hy & Hk). apply rbind_ok in Hk as (ys' & Hys & [= <-]).
      constructor; [done|]. by apply IH.
    + intros H. inversion H as [|? y ? ys' Hy Hys]; subst. exists y. split; [done|].
      apply rbind_ok. exists ys'. split; [by apply IH | done].
Qed.

(** ** Tactics shared by the development *)

(** Split boolean conjunctions/disjunctions and reflect the integer tests of the code. *)
Ltac bool_hyps :=
  repeat match goal with
  | H : (_ && _)%bool = true |- _ => apply andb_true_iff in H; destruct H
  | H : (_ || _)%bool = false |- _ => apply orb_false_iff in H; destruct H
  | H : negb _ = true |- _ => apply negb_true_iff in H
  | H : negb _ = false |- _ => apply negb_false_iff in H
  | H : (_ <=? _) = true |- _ => apply Z.leb_le in H
  | H : (_ <=? _) = false |- _ => apply Z.leb_gt in H
  | H : (_ <? _) = true |- _ => apply Z.ltb_lt in H
  | H : (_ <? _) = false |- _ => apply Z.ltb_ge in H
  | H : (_ =? _) = true |- _ => apply Z.eqb_eq in H
  | H : (_ =? _) = false |- _ => apply Z.eqb_neq in H
  | H : (_ =? _)%nat = true |- _ => apply Nat.eqb_eq in H
  | H : (_ =? _)%nat = false |- _ => apply Nat.eqb_neq in H
  | H : (_ <? _)%nat = true |- _ => apply Nat.ltb_lt in H
  | H : (_ <? _)%nat = false |- _ => apply Nat.ltb_ge in H
  | H : (_ <=? _)%nat = true |- _ => apply Nat.leb_le in H
  | H : (_ <=? _)%nat = false |- _ => apply Nat.leb_gt in H
  | H : bool_decide _ = true |- _ => apply bool_decide_eq_true in H
  | H : bool_decide _ = false |- _ => apply bool_decide_eq_false in H
  | H : String.eqb _ _ = true |- _ => apply String.eqb_eq in H
  | H : String.eqb _ _ = false |- _ => apply String.eqb_neq in H
  end.

(** Case split on the innermost test of an [if]/[match] in a hypothesis or the goal. *)
Ltac split_match :=
  match goal with
  | H : context [match ?x with _ => _ end] |- _ =>
      lazymatch x with context [match _ with _ => _ end] => fail | _ => destruct x eqn:? end
  | |- context [match ?x with _ => _ end] =>
      lazymatch x with context [match _ with _ => _ end] => fail | _ => destruct x eqn:? end
  end.

(** Invert a hypothesis [m = Ok _] of a monadic definition: follow the successful path. *)
Ltac ok_step :=
  match goal with
  | H : rbind _ _ = Ok _ |- _ => apply rbind_ok in H; destruct H as (? & ? & ?)
  | H : (if ?b then Err _ else _) = Ok _ |- _ =>
      let E := fresh "G" in destruct b eqn:E; [discriminate H|]
  | H : (if ?b then _ else Err _) = Ok _ |- _ =>
      let E := fresh "G" in destruct b eqn:E; [|discriminate H]
  | H : match ?x with Some _ => _ | None => Err _ end = Ok _ |- _ =>
      let E := fresh "G" in destruct x eqn:E; [|discriminate H]
  | H : match ?x with pair _ _ => _ end = Ok _ |- _ => destruct x as [? ?] eqn:?
  | H : Ok _ = Ok _ |- _ => injection H as H
  | H : Err _ = Ok _ |- _ => discriminate H
  end.
Ltac ok_inv := repeat ok_step.

(** Discharge the first premise of a hypothesis: its proof is asked for first. *)
Ltac forward H :=
  match type of H with ?P -> _ => let h := fresh in assert (h : P); [|specialize (H h); clear h] end.

(** ** Batches: [for (offset = 0; offset < xs.length; offset += n) xs.slice(offset, offset + n)] *)

Fixpoint chunks_fuel {A} (fuel n : nat) (l : list A) : list (list A) :=
  match fuel, l with
  | S f, _ :: _ => take n l :: chunks_fuel f n (drop n l)
  | _, _ => []
  end.

Definition chunks {A} (n : nat) (l : list A) : list (list A) := chunks_fuel (length l) n l.

Lemma chunks_fuel_concat {A} (n fuel : nat) (l : list A) :
  (0 < n)%nat -> (length l <= fuel)%nat -> concat (chunks_fuel fuel n l) = l.
Proof.
  intros Hn. revert l. induction fuel as [|f IH]; intros l Hl.
  - destruct l; [done | simpl in Hl; lia].
  - destruct l as [|x l']; [done|]. cbn [chunks_fuel concat].
    rewrite IH by (rewrite length_drop; simpl in *; lia). apply take_drop.
Qed.

(** The batches of a batched loop, put back together, are the list. *)
Lemma chunks_concat {A} (n : nat) (l : list A) : (0 < n)%nat -> concat (chunks n l) = l.
Proof. intros Hn. by apply chunks_fuel_concat. Qed.

Lemma chunks_bounded {A} (n : nat) (l : list A) :
  (0 < n)%nat -> Forall (fun b => (0 < length b <= n)%nat) (chunks n l).
Proof.
  intros Hn. unfold chunks. generalize (length l). intros fuel. revert l.
  induction fuel as [|f IH]; intros l; destruct l as [|x l']; simpl; try constructor; auto.
  rewrite length_take. simpl. lia.
Qed.

(** ** Lists *)

Definition last_opt {A} (l : list A) : option A := last l.

Lemma existsb_exists_elem {A} (f : A -> bool) l :
  existsb f l = true <-> exists x, x ∈ l /\ f x = true.
Proof. rewrite existsb_exists. by setoid_rewrite <- list_elem_of_In. Qed.

Lemma existsb_false_elem {A} (f : A -> bool) l :
  existsb f l = false <-> forall x, x ∈ l -> f x = false.
Proof.
  induction l as [|a l IH]; simpl.
  - split; [intros _ x Hx; by apply elem_of_nil in Hx | done].
  - rewrite orb_false_iff, IH. setoid_rewrite elem_of_cons. naive_solver.
Qed.

Lemma forallb_elem {A} (f : A -> bool) l :
  forallb f l = true <-> forall x, x ∈ l -> f x = true.
Proof. rewrite forallb_forall. by setoid_rewrite <- list_elem_of_In. Qed.

Definition sumZ (l : list Z) : Z := foldr Z.add 0 l.
Definition count_if {A} (f : A -> bool) (l : list A) : Z := Z.of_nat (length (List.filter f l)).

Lemma sumZ_app l1 l2 : sumZ (l1 ++ l2) = sumZ l1 + sumZ l2.
Proof. induction l1; simpl; lia. Qed.

Lemma count_if_nonneg {A} (f : A -> bool) l : 0 <= count_if f l.
Proof. unfold count_if. lia. Qed.

Lemma count_if_cons {A} (f : A -> bool) x l :
  count_if f (x :: l) = (if f x then 1 else 0) + count_if f l.
Proof. unfold count_if. simpl. destruct (f x); simpl length; lia. Qed.

Lemma count_if_app {A} (f : A -> bool) l1 l2 :
  count_if f (l1 ++ l2) = count_if f l1 + count_if f l2.
Proof. induction l1 as [|x l1 IH]; [done|]. simpl app. rewrite !count_if_cons, IH. lia. Qed.

Lemma filter_In_elem {A} (f : A -> bool) l x :
  x ∈ List.filter f l <-> x ∈ l /\ f x = true.
Proof. rewrite !list_elem_of_In. apply filter_In. Qed.

(** ** Options read as SQL or JSON nulls *)

(** SQL [a > b] with a nullable left operand: NULL compares as not true. *)
Definition null_gt (a : option Z) (b : Z) : bool :=
  match a with Some v => b <? v | None => false end.
Definition coalesce {A} (o : option A) (d : A) : A := match o with Some a => a | None => d end.

(** [Math.round(a / b)] on safe integers with [b > 0]: the nearest integer, halves up. *)
Definition round_div (a b : Z) : Z := (2 * a + b) / (2 * b).

Lemma round_div_bounds a b k :
  0 < b -> 0 <= a -> a <= k * b -> 0 <= round_div a b <= k.
Proof.
  intros Hb Ha Hk. unfold round_div. split.
  - apply Z.div_pos; lia.
  - apply Z.lt_succ_r. apply Z.div_lt_upper_bound; nia.
Qed.

Lemma round_div_mul k b : 0 < b -> round_div (k * b) b = k.
Proof.
  intros Hb. unfold round_div.
  replace (2 * (k * b) + b) with (k * (2 * b) + b) by ring.
  rewrite Z.div_add_l by lia. rewrite Z.div_small by lia. lia.
Qed.

Create HintDb alphaping.
#[export] Hint Resolve chunks_concat chunks_bounded count_if_nonneg : alphaping.
#[export] Hint Rewrite @count_if_cons @count_if_app sumZ_app : alphaping.
