(* ===== verification/Js.v ===== *)
(** * Js: the part of the JavaScript runtime the modelled code uses

    Numbers are IEEE-754 doubles ([SpecFloat.spec_float]); a number the code has checked to
    be a safe integer is carried on as a [Z].  Strings are byte strings, read as their UTF-8
    encoding (so [TextEncoder]/[TextDecoder] are the identity and [length] is exact on ASCII
    text).  [JSON.parse] is an executable parser with correctly rounded numbers;
    [JSON.stringify] is defined on the values the program serialises ([jout]: null,
    booleans, integers, doubles, strings, arrays, objects), with the round-trip theorem at the end. *)

From Stdlib Require Import ZArith Lia Bool String Ascii List Strings.Byte.
From Stdlib Require Import SpecFloat.
From stdpp Require Import base tactics list strings.
From S2P Require Import Prelude.
Open Scope string_scope.
Open Scope Z_scope.
#[global] Arguments String.append : simpl nomatch.


(** ** Bytes *)

Notation byte := Byte.byte.

Definition bz (b : byte) : Z := Z.of_N (Byte.to_N b).
Definition byte_of_Z (z : Z) : byte :=
  match Byte.of_N (Z.to_N (z mod 256)) with Some b => b | None => Byte.x00 end.

#[export] Instance byte_eq_dec : EqDecision byte.
Proof. intros x y. destruct (Byte.byte_eq_dec x y); [by left | by right]. Defined.

Lemma bz_range b : 0 <= bz b < 256.
Proof. unfold bz. pose proof (Byte.to_N_bounded b). lia. Qed.

Lemma bz_byte_of_Z z : bz (byte_of_Z z) = z mod 256.
Proof.
  unfold byte_of_Z, bz. pose proof (Z.mod_pos_bound z 256 ltac:(lia)) as Hm.
  destruct (Byte.of_N (Z.to_N (z mod 256))) as [b|] eqn:E.
  - apply Byte.to_of_N in E. rewrite E. lia.
  - apply Byte.of_N_None_iff in E. lia.
Qed.

Lemma byte_of_Z_bz b : byte_of_Z (bz b) = b.
Proof.
  unfold byte_of_Z. rewrite Z.mod_small by apply bz_range.
  unfold bz. rewrite N2Z.id, Byte.of_to_N. done.
Qed.

Lemma bz_inj a b : bz a = bz b -> a = b.
Proof. intros H. by rewrite <- (byte_of_Z_bz a), H, byte_of_Z_bz. Qed.

Definition blen (bs : list byte) : Z := Z.of_nat (length bs).

(** [bytes[i]]: [undefined] out of range. *)
Definition byte_at (bs : list byte) (i : Z) : option Z :=
  if i <? 0 then None else bz <$> (bs !! Z.to_nat i).

(** [bytes.slice(a, b)] and [bytes.subarray(a, b)] for [0 <= a]: clamped at the end. *)
Definition slice (bs : list byte) (a b : Z) : list byte :=
  take (Z.to_nat (b - a)) (drop (Z.to_nat a) bs).

(** ** Strings *)

(** [new TextEncoder().encode(s)] and [new TextDecoder().decode(bytes)]. *)
Definition encode_utf8 (s : string) : list byte := String.list_byte_of_string s.
Definition decode_utf8 (bs : list byte) : string := String.string_of_list_byte bs.

Lemma decode_encode_utf8 s : decode_utf8 (encode_utf8 s) = s.
Proof. apply String.string_of_list_byte_of_string. Qed.
Lemma encode_decode_utf8 bs : encode_utf8 (decode_utf8 bs) = bs.
Proof. apply String.list_byte_of_string_of_list_byte. Qed.

Definition slen (s : string) : Z := Z.of_nat (String.length s).

Definition chr (n : N) : ascii := Ascii.ascii_of_N n.
Definition ord (c : ascii) : N := Ascii.N_of_ascii c.
Definition in_range (lo hi : N) (c : ascii) : bool := ((lo <=? ord c) && (ord c <=? hi))%N.

Definition is_digit : ascii -> bool := in_range 48 57.
Definition is_upper : ascii -> bool := in_range 65 90.
Definition is_lower : ascii -> bool := in_range 97 122.
Definition is_space (c : ascii) : bool := in_range 9 13 c || (ord c =? 32)%N.
Definition is_hex (c : ascii) : bool := is_digit c || in_range 65 70 c || in_range 97 102 c.

Fixpoint str_forall (p : ascii -> bool) (s : string) : bool :=
  match s with EmptyString => true | String c s' => p c && str_forall p s' end.
Definition str_in (s : string) (l : list string) : bool := existsb (String.eqb s) l.
Lemma str_in_elem x l : str_in x l = true <-> x ∈ l.
Proof. unfold str_in. rewrite existsb_exists_elem. setoid_rewrite String.eqb_eq. naive_solver. Qed.
Definition str_exists (p : ascii -> bool) (s : string) : bool :=
  negb (str_forall (fun c => negb (p c)) s).
Fixpoint str_map (f : ascii -> ascii) (s : string) : string :=
  match s with EmptyString => "" | String c s' => String (f c) (str_map f s') end.
Fixpoint str_filter (p : ascii -> bool) (s : string) : string :=
  match s with
  | EmptyString => ""
  | String c s' => if p c then String c (str_filter p s') else str_filter p s'
  end.
Fixpoint str_drop (n : nat) (s : string) : string :=
  match n, s with S n', String _ s' => str_drop n' s' | _, _ => s end.
Fixpoint str_take (n : nat) (s : string) : string :=
  match n, s with S n', String c s' => String c (str_take n' s') | _, _ => "" end.
Fixpoint str_rev_app (s acc : string) : string :=
  match s with EmptyString => acc | String c s' => str_rev_app s' (String c acc) end.
Definition str_rev (s : string) : string := str_rev_app s "".

(** [s.toLowerCase()] on ASCII letters. *)
Definition to_lower (s : string) : string :=
  str_map (fun c => if is_upper c then chr (ord c + 32) else c) s.
(** [s.startsWith(p)], [s.endsWith(p)], [s.includes(p)]. *)
Definition starts_with (p s : string) : bool := String.prefix p s.
Definition ends_with (p s : string) : bool := String.prefix (str_rev p) (str_rev s).
Fixpoint includes (p s : string) : bool :=
  String.prefix p s || match s with EmptyString => false | String _ s' => includes p s' end.
(** [s.trim()] *)
Fixpoint trim_left (s : string) : string :=
  match s with
  | String c s' => if is_space c then trim_left s' else s
  | EmptyString => ""
  end.
Definition trim (s : string) : string := str_rev (trim_left (str_rev (trim_left s))).
(** [s.slice(0, n)] *)
Definition str_slice0 (n : Z) (s : string) : string := str_take (Z.to_nat n) s.
(** [s.split(sep)] for a one-character separator. *)
Fixpoint split_on (sep : ascii) (s : string) : list string :=
  match s with
  | EmptyString => [""]
  | String c s' =>
      if Ascii.eqb c sep then "" :: split_on sep s'
      else match split_on sep s' with
           | h :: t => String c h :: t
           | [] => [String c ""]
           end
  end.
Fixpoint str_join (sep : string) (l : list string) : string :=
  match l with [] => "" | [x] => x | x :: l' => x ++ sep ++ str_join sep l' end.

Lemma str_app_assoc (a b c : string) : (a ++ b) ++ c = a ++ (b ++ c).
Proof. induction a as [|x a IH]; [done|]. simpl. by rewrite IH. Qed.
Lemma str_app_nil_r (a : string) : a ++ "" = a.
Proof. induction a as [|x a IH]; [done|]. simpl. by rewrite IH. Qed.
Lemma str_length_app (a b : string) :
  String.length (a ++ b) = (String.length a + String.length b)%nat.
Proof. induction a as [|x a IH]; [done|]. simpl. by rewrite IH. Qed.
Lemma slen_nonneg s : 0 <= slen s.
Proof. unfold slen. lia. Qed.
Lemma str_forall_app p a b : str_forall p (a ++ b) = str_forall p a && str_forall p b.
Proof. induction a as [|x a IH]; [done|]. simpl. by rewrite IH, andb_assoc. Qed.
Lemma str_forall_impl (p q : ascii -> bool) s :
  (forall c, p c = true -> q c = true) -> str_forall p s = true -> str_forall q s = true.
Proof.
  intros Hpq. induction s as [|c s IH]; [done|]. simpl. rewrite !andb_true_iff. naive_solver.
Qed.
Lemma prefix_app p s : String.prefix p (p ++ s) = true.
Proof. induction p as [|c p IH]; simpl; [by destruct s|]. by destruct (ascii_dec c c). Qed.
Lemma prefix_drop p s : String.prefix p s = true -> s = p ++ str_drop (String.length p) s.
Proof.
  revert s. induction p as [|c p IH]; intros [|d s]; simpl; try done.
  destruct (ascii_dec c d) as [->|]; [|done]. intros H. f_equal. by apply IH.
Qed.
Lemma str_drop_app p s : str_drop (String.length p) (p ++ s) = s.
Proof. induction p as [|c p IH]; [by destruct s|]. done. Qed.

Lemma slen_app a b : slen (a ++ b) = slen a + slen b.
Proof. unfold slen. rewrite str_length_app. lia. Qed.
Lemma slen_cons c s : slen (String c s) = 1 + slen s.
Proof. unfold slen. simpl. lia. Qed.
Lemma blen_encode_utf8 s : blen (encode_utf8 s) = slen s.
Proof.
  unfold blen, slen, encode_utf8, String.list_byte_of_string. f_equal. rewrite length_map.
  induction s as [|c s IH]; [done|]. simpl. by f_equal.
Qed.

(** Splitting a text with no separator inside its parts. *)
Lemma split_on_none sep s :
  str_forall (fun c => negb (Ascii.eqb c sep)) s = true -> split_on sep s = [s].
Proof.
  induction s as [|c s IH]; [done|]. simpl. rewrite andb_true_iff, negb_true_iff.
  intros [-> Hs]. by rewrite IH.
Qed.
Lemma split_on_app sep a s :
  str_forall (fun c => negb (Ascii.eqb c sep)) a = true ->
  split_on sep (a ++ String sep s) = a :: split_on sep s.
Proof.
  induction a as [|c a IH]; simpl.
  - intros _. by rewrite Ascii.eqb_refl.
  - rewrite andb_true_iff, negb_true_iff. intros [-> Ha]. by rewrite IH.
Qed.

Lemma split_join sep s : str_join (String sep "") (split_on sep s) = s.
Proof.
  induction s as [|c s IH]; [done|]. simpl. destruct (Ascii.eqb_spec c sep) as [->|Hne].
  - destruct (split_on sep s) as [|h t] eqn:E.
    + destruct s; simpl in E; [done|]. destruct (Ascii.eqb _ _); [done|].
      by destruct (split_on sep s).
    + simpl. simpl in IH. by rewrite IH.
  - destruct (split_on sep s) as [|h t] eqn:E; simpl in *; [by subst|].
    destruct t; simpl in *; by f_equal.
Qed.

(** ** Numbers *)

Definition number := spec_float.

(** [Number(z)] for an integer: the nearest double. *)
Definition num_of_Z (z : Z) : number := binary_normalize 53 1024 z 0 false.

(** The integer a double denotes, when it denotes one ([Number.isInteger]). *)
Definition num_int (f : number) : option Z :=
  match f with
  | S754_zero _ => Some 0
  | S754_finite s m e =>
      let sgn (z : Z) := if s then - z else z in
      if 0 <=? e then Some (sgn (Zpos m * 2 ^ e))
      else if Zpos m mod 2 ^ (- e) =? 0 then Some (sgn (Zpos m / 2 ^ (- e))) else None
  | _ => None
  end.

Definition max_safe : Z := 9007199254740991.
Definition safe_z (z : Z) : bool := (- max_safe <=? z) && (z <=? max_safe).
(** [Number.isSafeInteger(f)], with the integer. *)
Definition safe_int (f : number) : option Z :=
  match num_int f with Some z => if safe_z z then Some z else None | None => None end.
(** [a < b] on doubles. *)
Definition num_lt (a b : number) : bool := SFltb a b.

(** A decimal literal [m * 10^k], correctly rounded to a double. *)
Definition dec_to_num (neg : bool) (m : Z) (k : Z) : number :=
  match m with
  | Zpos p =>
      if 0 <=? k then
        if 400 <? k then S754_infinity neg
        else match Zpos p * 10 ^ k with
             | Zpos q => binary_round 53 1024 neg q 0
             | _ => S754_zero neg
             end
      else if k <? - (400 + Z.log2 (Zpos p)) then S754_zero neg
      else let '(q, e, l) := SFdiv_core_binary 53 1024 (Zpos p) 0 (10 ^ (- k)) 0 in
           binary_round_aux 53 1024 neg q e l
  | _ => S754_zero neg
  end.

Lemma iter_xO p d : Zpos (Pos.iter xO p d) = Zpos p * 2 ^ Zpos d.
Proof.
  rewrite <- Pos2Z.inj_pow. induction d as [|d IH] using Pos.peano_ind; [simpl; lia|].
  rewrite Pos.iter_succ, Pos.pow_succ_r, Pos2Z.inj_xO, IH, !Pos2Z.inj_mul. lia.
Qed.

Lemma digits_iter_xO p d : digits2_pos (Pos.iter xO p d) = (digits2_pos p + d)%positive.
Proof.
  induction d as [|d IH] using Pos.peano_ind; [simpl; lia|].
  rewrite Pos.iter_succ. cbn [digits2_pos]. lia.
Qed.

Lemma digits_bound p n : Zpos p < 2 ^ n -> Zpos (digits2_pos p) <= n.
Proof.
  intros Hp. assert (Hs : forall q, 2 ^ (Zpos (digits2_pos q) - 1) <= Zpos q).
  { induction q as [q IH|q IH|]; cbn [digits2_pos]; [| |simpl; lia];
      rewrite Pos2Z.inj_succ;
      replace (Z.succ (Zpos (digits2_pos q)) - 1) with (Z.succ (Zpos (digits2_pos q) - 1)) by lia;
      rewrite Z.pow_succ_r by lia; lia. }
  specialize (Hs p).
  destruct (Z_lt_le_dec n 0) as [Hn|Hn]; [rewrite Z.pow_neg_r in Hp by lia; lia|].
  assert (2 ^ (Zpos (digits2_pos p) - 1) < 2 ^ n) by lia.
  apply Z.pow_lt_mono_r_iff in H; lia.
Qed.

Lemma round_aux_exact s m e :
  Zpos (digits2_pos m) + e <= 971 -> -1074 <= e -> Zpos (digits2_pos m) = 53 ->
  binary_round_aux 53 1024 s (Zpos m) e loc_Exact = S754_finite s m e.
Proof.
  intros H1 H2 H3. unfold binary_round_aux, shr_fexp, fexp, emin, Zdigits2.
  rewrite H3. replace (Z.max (53 + e - 53) (3 - 1024 - 53) - e) with 0 by lia.
  cbn [shr shr_record_of_loc shr_m loc_of_shr_record round_nearest_even].
  rewrite H3. replace (Z.max (53 + e - 53) (3 - 1024 - 53) - e) with 0 by lia.
  cbn [shr shr_record_of_loc shr_m].
  destruct (e <=? 1024 - 53) eqn:E; [done|]. bool_hyps. lia.
Qed.

(** A positive integer below 2^53 is a double, exactly. *)
Lemma binary_round_int s p :
  Zpos p <= max_safe -> num_int (binary_round 53 1024 s p 0) = Some (if s then - Zpos p else Zpos p).
Proof.
  intros Hp. unfold max_safe in Hp. pose proof (digits_bound p 53 ltac:(lia)) as Hd.
  unfold binary_round. rewrite Z.add_0_r.
  assert (Hf : fexp 53 1024 (Zpos (digits2_pos p)) = Zpos (digits2_pos p) - 53).
  { unfold fexp, emin. lia. }
  rewrite Hf. unfold shl_align. rewrite Z.sub_0_r.
  destruct (Zpos (digits2_pos p) - 53) as [|q|q] eqn:E; [| lia |].
  - rewrite round_aux_exact by lia. cbn [num_int]. simpl (0 <=? 0). 
    rewrite Z.pow_0_r, Z.mul_1_r. done.
  - rewrite round_aux_exact by (rewrite ?digits_iter_xO; lia).
    cbn [num_int]. change (0 <=? Z.neg q) with false. cbv iota.
    rewrite Pos2Z.opp_neg, iter_xO, Z.mod_mul, Z.div_mul by (pose proof (Z.pow_pos_nonneg 2 (Zpos q)); lia).
    done.
Qed.

Lemma num_of_Z_int z : safe_z z = true -> num_int (num_of_Z z) = Some z.
Proof.
  unfold safe_z. intros H. bool_hyps. destruct z as [|p|p]; [done| |]; simpl.
  - by rewrite binary_round_int.
  - rewrite binary_round_int; [done | lia].
Qed.
Lemma safe_int_of_Z z : safe_z z = true -> safe_int (num_of_Z z) = Some z.
Proof. intros H. unfold safe_int. by rewrite num_of_Z_int, H. Qed.

(** ** JSON values *)

Inductive json : Type :=
| JNull
| JBool (b : bool)
| JNum (n : number)
| JStr (s : string)
| JArr (l : list json)
| JObj (l : list (string * json)).

(** Object properties: [undefined] is [None].  Setting keeps the position of an
    existing key, as JavaScript objects do. *)
Definition props := list (string * json).
Fixpoint obj_get {A} (k : string) (l : list (string * A)) : option A :=
  match l with
  | [] => None
  | (k', v) :: l' => if String.eqb k k' then Some v else obj_get k l'
  end.
Fixpoint obj_set {A} (k : string) (v : A) (l : list (string * A)) : list (string * A) :=
  match l with
  | [] => [(k, v)]
  | (k', v') :: l' => if String.eqb k k' then (k', v) :: l' else (k', v') :: obj_set k v l'
  end.

(** [typeof v === "string"], and so on: the typed content, when the test succeeds. *)
Definition as_string (v : option json) : option string :=
  match v with Some (JStr s) => Some s | _ => None end.
Definition as_number (v : option json) : option number :=
  match v with Some (JNum n) => Some n | _ => None end.
Definition as_safe_int (v : option json) : option Z :=
  match v with Some (JNum n) => safe_int n | _ => None end.
Definition as_integer (v : option json) : option Z :=
  match v with Some (JNum n) => num_int n | _ => None end.
Definition is_nullish (v : option json) : bool :=
  match v with None | Some JNull => true | _ => false end.
(** [v === "literal"] and [v === n] *)
Definition is_str (lit : string) (v : option json) : bool :=
  match v with Some (JStr s) => String.eqb s lit | _ => false end.
Definition is_int (z : Z) (v : option json) : bool :=
  match as_integer v with Some n => n =? z | None => false end.
(** [typeof v !== "object" || v === null || Array.isArray(v)] fails: an object. *)
Definition as_record (e : string) (v : json) : res props :=
  match v with JObj l => Ok l | _ => Err e end.

Lemma obj_get_set {A} k k' (v : A) l :
  obj_get k' (obj_set k v l) = if String.eqb k' k then Some v else obj_get k' l.
Proof.
  induction l as [|[k0 v0] l IH]; simpl; [done|].
  destruct (String.eqb_spec k k0) as [->|Hne]; simpl.
  - by destruct (String.eqb_spec k' k0).
  - rewrite IH. destruct (String.eqb_spec k' k0) as [->|]; [|done].
    destruct (String.eqb_spec k0 k); [congruence | done].
Qed.

(** ** JSON.parse *)

Definition quote : ascii := Ascii.ascii_of_N 34.
Definition bslash : ascii := "\"%char.

Fixpoint skip_ws (s : string) : string :=
  match s with
  | String c s' =>
      if ((ord c =? 32) || (ord c =? 9) || (ord c =? 10) || (ord c =? 13))%N then skip_ws s' else s
  | EmptyString => ""
  end.

Definition hex_val (c : ascii) : option N :=
  if is_digit c then Some (ord c - 48)%N
  else if in_range 65 70 c then Some (ord c - 55)%N
  else if in_range 97 102 c then Some (ord c - 87)%N
  else None.
Definition hex4 (a b c d : ascii) : option N :=
  match hex_val a, hex_val b, hex_val c, hex_val d with
  | Some a, Some b, Some c, Some d => Some (((a * 16 + b) * 16 + c) * 16 + d)%N
  | _, _, _, _ => None
  end.

(** The UTF-8 bytes of a code point. *)
Definition utf8 (n : N) : string :=
  (if n <? 128 then String (chr n) ""
   else if n <? 2048 then String (chr (192 + n / 64)) (String (chr (128 + n mod 64)) "")
   else if n <? 65536 then
     String (chr (224 + n / 4096))
       (String (chr (128 + (n / 64) mod 64)) (String (chr (128 + n mod 64)) ""))
   else
     String (chr (240 + n / 262144)) (String (chr (128 + (n / 4096) mod 64))
       (String (chr (128 + (n / 64) mod 64)) (String (chr (128 + n mod 64)) ""))))%N.

(** One-character escapes: the character after the backslash, and what it stands for. *)
Definition unescape (c : ascii) : option ascii :=
  match ord c with
  | 34%N => Some (chr 34) | 92%N => Some (chr 92) | 47%N => Some (chr 47)
  | 98%N => Some (chr 8) | 102%N => Some (chr 12) | 110%N => Some (chr 10)
  | 114%N => Some (chr 13) | 116%N => Some (chr 9) | _ => None
  end.

Definition bind_str (pre : string) (r : option (string * string)) : option (string * string) :=
  match r with Some (v, rest) => Some (pre ++ v, rest) | None => None end.

(** The text after an opening quote, up to and including the closing one. *)
Fixpoint parse_str (s : string) : option (string * string) :=
  match s with
  | EmptyString => None
  | String c s1 =>
      if Ascii.eqb c quote then Some ("", s1)
      else if (ord c <? 32)%N then None
      else if Ascii.eqb c bslash then
        match s1 with
        | String "u" (String a (String b (String c (String d s2)))) =>
            match hex4 a b c d with
            | None => None
            | Some hi =>
                if ((55296 <=? hi) && (hi <=? 56319))%N then
                  match s2 with
                  | String "\" (String "u" (String e (String f (String g (String h s3))))) =>
                      match hex4 e f g h with
                      | None => None
                      | Some lo =>
                          if ((56320 <=? lo) && (lo <=? 57343))%N
                          then bind_str (utf8 (65536 + (hi - 55296) * 1024 + (lo - 56320)))
                                 (parse_str s3)
                          else bind_str (utf8 hi) (parse_str s2)
                      end
                  | _ => bind_str (utf8 hi) (parse_str s2)
                  end
                else bind_str (utf8 hi) (parse_str s2)
            end
        | String e s2 =>
            match unescape e with
            | Some c => bind_str (String c "") (parse_str s2)
            | None => None
            end
        | EmptyString => None
        end
      else bind_str (String c "") (parse_str s1)
  end.

(** Decimal digits: the value accumulated, how many there are, and the rest. *)
Fixpoint parse_digits (s : string) (acc : Z) (n : Z) : Z * Z * string :=
  match s with
  | String c s' =>
      if is_digit c then parse_digits s' (acc * 10 + (Z.of_N (ord c) - 48)) (n + 1)
      else (acc, n, s)
  | EmptyString => (acc, n, "")
  end.

Definition parse_exponent (s : string) : option (Z * string) :=
  match s with
  | String c s1 =>
      if Ascii.eqb c "e" || Ascii.eqb c "E" then
        let '(neg, s2) := match s1 with
                          | String "-" s2 => (true, s2)
                          | String "+" s2 => (false, s2)
                          | _ => (false, s1)
                          end in
        let '(v, n, s3) := parse_digits s2 0 0 in
        if n =? 0 then None else Some ((if neg then - v else v), s3)
      else Some (0, s)
  | EmptyString => Some (0, s)
  end.

(** [-? (0 | [1-9][0-9]* ) (. [0-9]+)? ([eE] [+-]? [0-9]+)?] *)
Definition parse_num (s : string) : option (number * string) :=
  let '(neg, s1) := match s with String "-" s1 => (true, s1) | _ => (false, s) end in
  let '(ip, n, s2) := parse_digits s1 0 0 in
  if (n =? 0) || (match s1 with String "0" _ => 1 <? n | _ => false end) then None
  else
    let '(m, k, s3) :=
      match s2 with
      | String "." s3 => let '(m, fn, s4) := parse_digits s3 ip 0 in (m, fn, s4)
      | _ => (ip, 0, s2)
      end in
    if (match s2 with String "." _ => k =? 0 | _ => false end) then None
    else match parse_exponent s3 with
         | Some (e, s4) => Some (dec_to_num neg m (e - k), s4)
         | None => None
         end.

Fixpoint parse_lit (lit s : string) : option string :=
  match lit, s with
  | EmptyString, _ => Some s
  | String a lit', String b s' => if Ascii.eqb a b then parse_lit lit' s' else None
  | _, _ => None
  end.

Fixpoint parse_value (fuel : nat) (s : string) : option (json * string) :=
  match fuel with
  | O => None
  | S f =>
      match skip_ws s with
      | String c s1 as s0 =>
          if Ascii.eqb c quote then
            match parse_str s1 with Some (v, r) => Some (JStr v, r) | None => None end
          else if Ascii.eqb c "[" then
            match skip_ws s1 with
            | String "]" r => Some (JArr [], r)
            | _ => match parse_elems f s1 with Some (l, r) => Some (JArr l, r) | None => None end
            end
          else if Ascii.eqb c "{" then
            match skip_ws s1 with
            | String "}" r => Some (JObj [], r)
            | _ => match parse_members f s1 [] with
                   | Some (l, r) => Some (JObj l, r)
                   | None => None
                   end
            end
          else if Ascii.eqb c "t" then
            match parse_lit "true" s0 with Some r => Some (JBool true, r) | None => None end
          else if Ascii.eqb c "f" then
            match parse_lit "false" s0 with Some r => Some (JBool false, r) | None => None end
          else if Ascii.eqb c "n" then
            match parse_lit "null" s0 with Some r => Some (JNull, r) | None => None end
          else match parse_num s0 with Some (n, r) => Some (JNum n, r) | None => None end
      | EmptyString => None
      end
  end
with parse_elems (fuel : nat) (s : string) : option (list json * string) :=
  match fuel with
  | O => None
  | S f =>
      match parse_value f s with
      | Some (v, r) =>
          match skip_ws r with
          | String "]" r' => Some ([v], r')
          | String "," r' =>
              match parse_elems f r' with Some (l, r'') => Some (v :: l, r'') | None => None end
          | _ => None
          end
      | None => None
      end
  end
with parse_members (fuel : nat) (s : string) (acc : props) : option (props * string) :=
  match fuel with
  | O => None
  | S f =>
      match skip_ws s with
      | String c s1 =>
          if Ascii.eqb c quote then
            match parse_str s1 with
            | Some (k, r) =>
                match skip_ws r with
                | String ":" r1 =>
                    match parse_value f r1 with
                    | Some (v, r2) =>
                        match skip_ws r2 with
                        | String "}" r3 => Some (obj_set k v acc, r3)
                        | String "," r3 => parse_members f r3 (obj_set k v acc)
                        | _ => None
                        end
                    | None => None
                    end
                | _ => None
                end
            | None => None
            end
          else None
      | EmptyString => None
      end
  end.

(** [JSON.parse(s)]; each nesting level, element and member consumes a character, so twice
    the length is always enough fuel. *)
Definition json_parse (s : string) : res json :=
  match parse_value (2 * String.length s + 2) s with
  | Some (v, r) => if String.eqb (skip_ws r) "" then Ok v else Err "SyntaxError"
  | None => Err "SyntaxError"
  end.

(** ** [String(number)] *)

Fixpoint dec_digits (fuel : nat) (z : Z) (acc : string) : string :=
  match fuel with
  | O => acc
  | S f =>
      let acc' := String (chr (Z.to_N (48 + z mod 10))) acc in
      if z <? 10 then acc' else dec_digits f (z / 10) acc'
  end.
(** [String(z)] for a non-negative integer, and for an integer. *)
Definition nat_to_string (z : Z) : string := dec_digits (S (Z.to_nat (Z.log2 z))) z "".
Definition z_to_string (z : Z) : string :=
  if z <? 0 then String "-" (nat_to_string (- z)) else nat_to_string z.

(** [Number.isFinite(x)] *)
Definition is_finite (x : number) : bool := match x with S754_zero _ | S754_finite _ _ _ => true | _ => false end.

(** Whether two doubles are the same (non-zero, finite) value. *)
Definition same_finite (a b : number) : bool :=
  match a, b with
  | S754_finite s m e, S754_finite s' m' e' => Bool.eqb s s' && Pos.eqb m m' && Z.eqb e e'
  | _, _ => false
  end.

Definition pow10_num (n : Z) : Z := 10 ^ Z.max 0 n.

(** The least [n] from the guess on with [p / q < 10 ^ n]. *)
Fixpoint dec_exponent (fuel : nat) (p q n : Z) : Z :=
  match fuel with
  | O => n
  | S f => if p * pow10_num (- n) <? q * pow10_num n then n else dec_exponent f p q (n + 1)
  end.

(** The shortest digits [s] and their count [k] with [s * 10 ^ (n - k)] reading back as [x = p / q]. *)
Fixpoint shortest (fuel : nat) (x : number) (p q n k : Z) : Z * Z :=
  let num := p * pow10_num (k - n) in
  let den := q * pow10_num (n - k) in
  let lo := num / den in
  let ok s := same_finite (dec_to_num false s (n - k)) x in
  let near := if 2 * (num - lo * den) <? den then lo else lo + 1 in
  let far := if near =? lo then lo + 1 else lo in
  if ok near then (near, k)
  else if ok far then (far, k)
  else match fuel with O => (near, k) | S f => shortest f x p q n (k + 1) end.

Fixpoint zeros (n : nat) : string := match n with O => "" | S n' => String "0" (zeros n') end.
Definition exponent_suffix (e : Z) : string :=
  "e" ++ (if e <? 0 then "-" else "+") ++ nat_to_string (Z.abs e).
(** [s * 10 ^ (n - k)], [k] digits, written as the language writes it. *)
Definition format_digits (s k n : Z) : string :=
  let digits := nat_to_string s in
  if (k <=? n) && (n <=? 21) then digits ++ zeros (Z.to_nat (n - k))
  else if (0 <? n) && (n <=? 21) then str_take (Z.to_nat n) digits ++ "." ++ str_drop (Z.to_nat n) digits
  else if (-6 <? n) && (n <=? 0) then "0." ++ zeros (Z.to_nat (- n)) ++ digits
  else if k =? 1 then digits ++ exponent_suffix (n - 1)
  else str_take 1 digits ++ "." ++ str_drop 1 digits ++ exponent_suffix (n - 1).

(** [String(x)] *)
Definition num_to_string (x : number) : string :=
  match x with
  | S754_zero _ => "0"
  | S754_nan => "NaN"
  | S754_infinity s => if s then "-Infinity" else "Infinity"
  | S754_finite s m e =>
      let p := Zpos m * 2 ^ Z.max 0 e in
      let q := 2 ^ Z.max 0 (- e) in
      let guess := (Z.log2 p - Z.log2 q - 1) * 30103 / 100000 - 1 in
      let n := dec_exponent 8 p q guess in
      let '(digits, k) := shortest 17 (S754_finite false m e) p q n 1 in
      (if s then "-" else "") ++
      (if digits =? 10 ^ k then format_digits 1 1 (n + 1) else format_digits digits k n)
  end.

(** ** JSON.stringify *)

(** The values the program serialises. *)
Inductive jout : Type :=
| ONull
| OBool (b : bool)
| OInt (z : Z)
| ONum (x : number)
| OStr (s : string)
| OArr (l : list jout)
| OObj (l : list (string * jout)).

Section jout_induction.
Context (P : jout -> Prop).
Hypothesis Hnull : P ONull.
Hypothesis Hbool : forall b, P (OBool b).
Hypothesis Hint : forall z, P (OInt z).
Hypothesis Hnum : forall x, P (ONum x).
Hypothesis Hstr : forall s, P (OStr s).
Hypothesis Harr : forall l, Forall P l -> P (OArr l).
Hypothesis Hobj : forall l, Forall (fun kv => P kv.2) l -> P (OObj l).
Fixpoint jout_ind' (o : jout) : P o :=
  match o with
  | ONull => Hnull | OBool b => Hbool b | OInt z => Hint z | ONum x => Hnum x | OStr s => Hstr s
  | OArr l => Harr l ((fix go l : Forall P l :=
      match l with [] => Forall_nil_2 _ | x :: l' => Forall_cons_2 _ _ _ (jout_ind' x) (go l') end) l)
  | OObj l => Hobj l ((fix go l : Forall (fun kv => P kv.2) l :=
      match l with
      | [] => Forall_nil_2 _
      | x :: l' => Forall_cons_2 _ _ _ (jout_ind' x.2) (go l')
      end) l)
  end.
End jout_induction.

Definition hex_digit (n : N) : ascii := (if n <? 10 then chr (48 + n) else chr (87 + n))%N.
Definition esc_char (c : ascii) : string :=
  match ord c with
  | 34%N => String bslash (String quote "")
  | 92%N => String bslash (String bslash "")
  | 8%N => "\b" | 12%N => "\f" | 10%N => "\n" | 13%N => "\r" | 9%N => "\t"
  | n => if (n <? 32)%N then "\u00" ++ String (hex_digit (n / 16)) (String (hex_digit (n mod 16)) "")
         else String c ""
  end.
Fixpoint esc_str (s : string) : string :=
  match s with EmptyString => "" | String c s' => esc_char c ++ esc_str s' end.
Definition quoted (s : string) : string := String quote (esc_str s ++ String quote "").

Fixpoint json_stringify (o : jout) : string :=
  match o with
  | ONull => "null"
  | OBool b => if b then "true" else "false"
  | OInt z => z_to_string z
  | ONum x => if is_finite x then num_to_string x else "null"
  | OStr s => quoted s
  | OArr l => String "[" (str_join "," (map json_stringify l) ++ "]")
  | OObj l => String "{"
      (str_join "," (map (fun kv => quoted kv.1 ++ String ":" (json_stringify kv.2)) l) ++ "}")
  end.

(** The value [JSON.parse] gives back. *)
Fixpoint json_of (o : jout) : json :=
  match o with
  | ONull => JNull | OBool b => JBool b | OInt z => JNum (num_of_Z z)
  | ONum x => if is_finite x then JNum x else JNull
  | OStr s => JStr s
  | OArr l => JArr (map json_of l)
  | OObj l => JObj (map (fun kv => (kv.1, json_of kv.2)) l)
  end.

(** Integers are safe, numbers read back as they were, and keys are distinct. *)
Fixpoint jout_ok (o : jout) : Prop :=
  match o with
  | OInt z => safe_z z = true
  | ONum x => is_finite x = true -> parse_num (num_to_string x) = Some (x, "")
  | OArr l => foldr (fun x P => jout_ok x /\ P) True l
  | OObj l => NoDup (map fst l) /\ foldr (fun kv P => jout_ok kv.2 /\ P) True l
  | _ => True
  end.

(** ** The round trip *)

Lemma parse_str_esc c s : parse_str (esc_char c ++ s) = bind_str (String c "") (parse_str s).
Proof. destruct c as [[] [] [] [] [] [] [] []]; reflexivity. Qed.

Lemma parse_str_quoted v s : parse_str (esc_str v ++ String quote s) = Some (v, s).
Proof.
  induction v as [|c v IH]; [done|]. cbn [esc_str].
  rewrite str_app_assoc, parse_str_esc, IH. done.
Qed.

Lemma is_digit_chr d : 0 <= d < 10 ->
  is_digit (chr (Z.to_N (48 + d))) = true /\ Z.of_N (ord (chr (Z.to_N (48 + d)))) - 48 = d.
Proof.
  intros Hd. assert (d = 0 \/ d = 1 \/ d = 2 \/ d = 3 \/ d = 4 \/ d = 5 \/ d = 6 \/ d = 7 \/ d = 8 \/ d = 9) as H by lia.
  repeat destruct H as [-> | H]; try subst; done.
Qed.

(** What a JSON number may be followed by. *)
Definition num_end (s : string) : bool :=
  match s with
  | EmptyString => true
  | String c _ => negb (is_digit c || Ascii.eqb c "." || Ascii.eqb c "e" || Ascii.eqb c "E")
  end.

Lemma parse_digits_end s a n : num_end s = true -> parse_digits s a n = (a, n, s).
Proof.
  destruct s as [|c s]; [done|]. simpl. intros H. bool_hyps. by rewrite H.
Qed.

(** Printing a non-negative integer in front of [acc], then reading digits. *)
Lemma dec_digits_spec f z acc :
  0 <= z < 10 ^ Z.of_nat f -> (0 < f)%nat ->
  exists k, 0 < k /\ (z < 10 -> k = 1) /\
    (forall a n, parse_digits (dec_digits f z acc) a n = parse_digits acc (a * 10 ^ k + z) (n + k)) /\
    (exists c s, dec_digits f z acc = String c s /\ is_digit c = true /\ (Ascii.eqb c "0" = true -> z = 0)).
Proof.
  revert z acc. induction f as [|f IH]; intros z acc Hz Hf; [lia|].
  pose proof (Z.mod_pos_bound z 10 ltac:(lia)) as Hm.
  destruct (is_digit_chr (z mod 10) Hm) as [Hd Hv].
  cbn [dec_digits]. destruct (z <? 10) eqn:E; bool_hyps.
  - exists 1. rewrite Z.mod_small in * by lia. split_and!; try lia.
    + intros a n. cbn [parse_digits]. by rewrite Hd, Hv, Z.pow_1_r.
    + eexists _, _. split_and!; [done|done|]. intros Hc. apply Ascii.eqb_eq in Hc.
      rewrite Hc in Hv. change (Z.of_N (ord "0"%char)) with 48 in Hv. lia.
  - rewrite Nat2Z.inj_succ, Z.pow_succ_r in Hz by lia.
    assert (Hf' : (0 < f)%nat).
    { destruct f; [|lia]. rewrite Z.pow_0_r in Hz. lia. }
    assert (0 < z / 10) as Hq by (apply Z.div_str_pos; lia).
    destruct (IH (z / 10) (String (chr (Z.to_N (48 + z mod 10))) acc))
      as (k & Hk & _ & Hp & c & s & Heq & Hc & H0);
      [split; [lia | apply Z.div_lt_upper_bound; lia] | done |].
    exists (k + 1). split_and!; [lia | lia | |].
    + intros a n. rewrite Hp. cbn [parse_digits]. rewrite Hd, Hv.
      rewrite Z.pow_add_r, Z.pow_1_r by lia.
      pose proof (Z.div_mod z 10 ltac:(lia)) as Hdm.
      replace (n + k + 1) with (n + (k + 1)) by lia.
      replace ((a * 10 ^ k + z / 10) * 10 + z mod 10) with (a * (10 ^ k * 10) + z) by lia. done.
    + exists c, s. split_and!; [done|done|]. intros Hc0. specialize (H0 Hc0). lia.
Qed.

Lemma dec_digits_app f z acc s : dec_digits f z acc ++ s = dec_digits f z (acc ++ s).
Proof.
  revert z acc. induction f as [|f IH]; intros z acc; [done|]. cbn [dec_digits].
  destruct (z <? 10); [done|]. by rewrite IH.
Qed.

Lemma nat_to_string_spec z rest : 0 <= z -> num_end rest = true ->
  exists k c s, nat_to_string z ++ rest = String c s /\ is_digit c = true /\
    (Ascii.eqb c "0" = true -> k = 1) /\ 0 < k /\
    parse_digits (nat_to_string z ++ rest) 0 0 = (z, k, rest).
Proof.
  intros Hz Hr. unfold nat_to_string. rewrite dec_digits_app. cbn [String.append].
  destruct (dec_digits_spec (S (Z.to_nat (Z.log2 z))) z rest)
    as (k & Hk & H1 & Hp & c & s & Heq & Hc & H0); [|lia|].
  { split; [done|]. destruct (Z.eq_dec z 0) as [->|]; [done|].
    pose proof (Z.log2_nonneg z). rewrite Nat2Z.inj_succ, Z2Nat.id by done.
    destruct (Z.log2_spec z) as [_ Hl]; [lia|].
    pose proof (Z.pow_le_mono_l 2 10 (Z.succ (Z.log2 z))). lia. }
  exists k, c, s. split_and!; [done|done| |done|].
  - intros H. apply H1. specialize (H0 H). lia.
  - rewrite Hp, parse_digits_end by done. f_equal; f_equal; lia.
Qed.

Lemma parse_exponent_end s : num_end s = true -> parse_exponent s = Some (0, s).
Proof.
  destruct s as [|c s]; [done|]. simpl. rewrite negb_true_iff, !orb_false_iff.
  by intros [[[_ _] ->] ->].
Qed.

Lemma parse_num_digits c s rest z k (neg : bool) :
  is_digit c = true -> (Ascii.eqb c "0" = true -> k = 1) -> 0 < k -> num_end rest = true ->
  parse_digits (String c s) 0 0 = (z, k, rest) ->
  parse_num (if neg then String "-" (String c s) else String c s) = Some (dec_to_num neg z 0, rest).
Proof.
  intros Hc H0 Hk Hr Hp.
  assert (Hs1 : (match String c s with String "0" _ => 1 <? k | _ => false end) = false).
  { destruct (Ascii.eqb c "0") eqn:E.
    - rewrite H0 by done. by destruct c as [[] [] [] [] [] [] [] []].
    - destruct c as [[] [] [] [] [] [] [] []]; done. }
  assert (Hdot : forall A (x : string -> A) y, match rest with String "." r => x r | _ => y end = y).
  { intros A x y. destruct rest as [|c' r]; [done|].
    simpl in Hr. destruct c' as [[] [] [] [] [] [] [] []]; done. }
  assert (Hneg : parse_num (if neg then String "-" (String c s) else String c s) =
    let '(ip, n, s2) := parse_digits (String c s) 0 0 in
    if (n =? 0) || (match String c s with String "0" _ => 1 <? n | _ => false end) then None
    else
      let '(m, k, s3) :=
        match s2 with
        | String "." s3 => let '(m, fn, s4) := parse_digits s3 ip 0 in (m, fn, s4)
        | _ => (ip, 0, s2)
        end in
      if (match s2 with String "." _ => k =? 0 | _ => false end) then None
      else match parse_exponent s3 with
           | Some (e, s4) => Some (dec_to_num neg m (e - k), s4)
           | None => None
           end).
  { destruct neg; [done|]. destruct c as [[] [] [] [] [] [] [] []]; done. }
  rewrite Hneg, Hp, Hs1, orb_false_r. destruct (k =? 0) eqn:E; bool_hyps; [lia|].
  rewrite (Hdot _ _ (z, 0, rest)), (Hdot _ _ false), parse_exponent_end by done. done.
Qed.

Lemma dec_to_num_int neg z : 0 <= z ->
  dec_to_num neg z 0 =
    (match z with Zpos p => binary_round 53 1024 neg p 0 | _ => S754_zero neg end).
Proof. intros Hz. destruct z; simpl; [done| |lia]. by rewrite Pos.mul_1_r. Qed.

Lemma parse_num_z z rest : num_end rest = true ->
  parse_num (z_to_string z ++ rest) = Some (num_of_Z z, rest).
Proof.
  intros Hr. unfold z_to_string. destruct (z <? 0) eqn:E; bool_hyps.
  - destruct (nat_to_string_spec (- z) rest ltac:(lia) Hr) as (k & c & s & Heq & Hc & H0 & Hk & Hp).
    cbn [String.append]. rewrite Heq in *.
    rewrite (parse_num_digits c s rest (- z) k true) by done.
    rewrite dec_to_num_int by lia. destruct z; simpl in *; try lia. done.
  - destruct (nat_to_string_spec z rest ltac:(lia) Hr) as (k & c & s & Heq & Hc & H0 & Hk & Hp).
    rewrite Heq in *. rewrite (parse_num_digits c s rest z k false) by done.
    rewrite dec_to_num_int by lia. destruct z; simpl in *; try lia; done.
Qed.

Lemma z_to_string_inj a b : z_to_string a = z_to_string b -> a = b.
Proof.
  assert (Hn : forall a b, 0 <= a -> 0 <= b -> nat_to_string a = nat_to_string b -> a = b).
  { intros x y Hx Hy E. destruct (nat_to_string_spec x "" Hx eq_refl) as (k & _ & _ & _ & _ & _ & _ & H1).
    destruct (nat_to_string_spec y "" Hy eq_refl) as (k' & _ & _ & _ & _ & _ & _ & H2). rewrite E in H1. congruence. }
  assert (Hd : forall x y, 0 <= x -> nat_to_string x <> "-" ++ y).
  { intros x y Hx E. destruct (nat_to_string_spec x "" Hx eq_refl) as (_ & c & s & Hc & Hdig & _).
    rewrite str_app_nil_r, E in Hc. cbn in Hc. injection Hc as <- _. done. }
  unfold z_to_string. destruct (a <? 0) eqn:Ea, (b <? 0) eqn:Eb; bool_hyps; intros E.
  - cbn in E. injection E as E. apply Hn in E; lia.
  - symmetry in E. by apply Hd in E.
  - by apply Hd in E.
  - by apply Hn.
Qed.

(** A number that ends a text also ends where something follows it. *)
Lemma parse_digits_more t rest a n : num_end rest = true ->
  parse_digits (t ++ rest) a n = let '(v, k, r) := parse_digits t a n in (v, k, r ++ rest).
Proof.
  intros Hr. revert a n. induction t as [|c t IH]; intros a n; cbn [String.append parse_digits]; [by apply parse_digits_end|].
  destruct (is_digit c); [apply IH | done].
Qed.
Lemma parse_exponent_more t rest e : num_end rest = true -> parse_exponent t = Some (e, "") -> parse_exponent (t ++ rest) = Some (e, rest).
Proof.
  intros Hr. destruct t as [|c t]; [intros [= <-]; by apply parse_exponent_end|]. cbn [String.append]. unfold parse_exponent.
  destruct (_ || _); [|done].
  assert (Hs : forall s, (let '(v, n, s3) := parse_digits (s ++ rest) 0 0 in (v, n, s3)) = let '(v, n, s3) := parse_digits s 0 0 in (v, n, s3 ++ rest)).
  { intros s. rewrite parse_digits_more by done. by destruct (parse_digits s 0 0) as [[? ?] ?]. }
  assert (Hstep : forall (neg : bool) s, (let '(v, n, s3) := parse_digits s 0 0 in if n =? 0 then None else Some (if neg then - v else v, s3)) = Some (e, "") ->
    (let '(v, n, s3) := parse_digits (s ++ rest) 0 0 in if n =? 0 then None else Some (if neg then - v else v, s3)) = Some (e, rest)).
  { intros neg s. rewrite parse_digits_more by done. destruct (parse_digits s 0 0) as [[v n] r]. destruct (n =? 0); [done|]. by intros [= <- ->]. }
  destruct t as [|d t]; [done|]. cbn [String.append].
  assert (Hsign : forall A (x y : string -> A) z s, match String d s with String "-" s2 => x s2 | String "+" s2 => y s2 | _ => z end =
    if Ascii.eqb d "-" then x s else if Ascii.eqb d "+" then y s else z) by (intros; by destruct d as [[] [] [] [] [] [] [] []]).
  rewrite !Hsign. destruct (Ascii.eqb d "-"); [exact (Hstep true t)|]. destruct (Ascii.eqb d "+"); [exact (Hstep false t) | exact (Hstep false (String d t))].
Qed.
Lemma parse_num_more t rest x : num_end rest = true -> parse_num t = Some (x, "") -> parse_num (t ++ rest) = Some (x, rest).
Proof.
  intros Hr. set (body := fun (neg : bool) s1 =>
    let '(ip, n, s2) := parse_digits s1 0 0 in
    if (n =? 0) || (match s1 with String "0" _ => 1 <? n | _ => false end) then None
    else
      let '(m, k, s3) := match s2 with String "." s3 => let '(m, fn, s4) := parse_digits s3 ip 0 in (m, fn, s4) | _ => (ip, 0, s2) end in
      if (match s2 with String "." _ => k =? 0 | _ => false end) then None
      else match parse_exponent s3 with Some (e, s4) => Some (dec_to_num neg m (e - k), s4) | None => None end).
  assert (Hbody : forall neg s, body neg s = Some (x, "") -> body neg (s ++ rest) = Some (x, rest)).
  { intros neg s. unfold body. rewrite parse_digits_more by done. destruct (parse_digits s 0 0) as [[ip n] s2] eqn:Ed.
    destruct s as [|c s]; [by injection Ed as <- <- <-|]. cbn [String.append].
    cbv beta iota. destruct (_ || _); [done|]. clear Ed.
    assert (Hplain : match parse_exponent s2 with Some (e, s4) => Some (dec_to_num neg ip (e - 0), s4) | None => None end = Some (x, "") ->
      match parse_exponent (s2 ++ rest) with Some (e, s4) => Some (dec_to_num neg ip (e - 0), s4) | None => None end = Some (x, rest)).
    { destruct (parse_exponent s2) as [[e s4]|] eqn:Ee; [|done]. intros [= <- ->]. by rewrite (parse_exponent_more s2 rest e). }
    destruct s2 as [|d s2].
    - intros H. specialize (Hplain H). cbn [String.append] in *. destruct rest as [|d r]; [exact Hplain|]. cbn [num_end] in Hr. bool_hyps.
      destruct d as [[] [] [] [] [] [] [] []]; first [exact Hplain | done].
    - cbn [String.append]. destruct (Ascii.eqb d ".") eqn:Edot.
      + apply Ascii.eqb_eq in Edot as ->. rewrite parse_digits_more by done. destruct (parse_digits s2 ip 0) as [[m k] s4].
        destruct (k =? 0); [done|]. destruct (parse_exponent s4) as [[e s5]|] eqn:Ee; [|done]. intros [= <- ->]. by rewrite (parse_exponent_more s4 rest e).
      + destruct d as [[] [] [] [] [] [] [] []]; first [exact Hplain | done]. }
  destruct t as [|c t]; [done|]. cbn [String.append].
  assert (Hsign : forall s, parse_num (String c s) = if Ascii.eqb c "-" then body true s else body false (String c s))
    by (intros; by destruct c as [[] [] [] [] [] [] [] []]).
  rewrite !Hsign. destruct (Ascii.eqb c "-"); [exact (Hbody true t) | exact (Hbody false (String c t))].
Qed.
Lemma parse_num_head t x r : parse_num t = Some (x, r) -> exists c s, t = String c s /\ (is_digit c = true \/ c = "-"%char).
Proof.
  destruct t as [|c t]; [done|]. intros H. exists c, t. split; [done|]. destruct (is_digit c) eqn:E; [by left|]. right.
  destruct (Ascii.eqb c "-") eqn:Em; [by apply Ascii.eqb_eq in Em|]. exfalso.
  assert (Hd : parse_digits (String c t) 0 0 = (0, 0, String c t)) by (cbn [parse_digits]; by rewrite E).
  unfold parse_num in H. destruct c as [[] [] [] [] [] [] [] []]; try done; cbn in Hd, H; discriminate.
Qed.

(** The first character of a printed number. *)
Lemma z_to_string_head z rest : exists c s, z_to_string z ++ rest = String c s /\
  (is_digit c = true \/ c = "-"%char).
Proof.
  unfold z_to_string. destruct (z <? 0) eqn:E; bool_hyps.
  - eexists _, _. split; [reflexivity | by right].
  - destruct (nat_to_string_spec z "" E eq_refl) as (k & c & s & Heq & Hc & _).
    rewrite str_app_nil_r in Heq. rewrite Heq. exists c, (s ++ rest). by split; [|left].
Qed.

(** Characters a JSON value can begin with. *)
Definition head_ok (c : ascii) : bool :=
  is_digit c || existsb (Ascii.eqb c) ["-"; "n"; "t"; "f"; quote; "["; "{"]%char.

Lemma stringify_head o rest : jout_ok o ->
  exists c s, json_stringify o ++ rest = String c s /\ head_ok c = true.
Proof.
  intros Hok. destruct o as [|[]|z|x|s|l|l]; simpl; try (eexists _, _; split; [reflexivity|done]).
  - destruct (z_to_string_head z rest) as (c & s & -> & [Hc| ->]); eexists _, _; split; try done.
    unfold head_ok. by rewrite Hc.
  - destruct (is_finite x) eqn:E; [|eexists _, _; split; [reflexivity|done]].
    destruct (parse_num_head _ _ _ (Hok E)) as (c & s & -> & Hc). exists c, (s ++ rest). split; [done|].
    unfold head_ok. destruct Hc as [-> | ->]; done.
Qed.

Lemma head_not_ws c s : head_ok c = true -> skip_ws (String c s) = String c s.
Proof. destruct c as [[] [] [] [] [] [] [] []]; done. Qed.

Lemma parse_value_num f c s : is_digit c = true \/ c = "-"%char ->
  parse_value (S f) (String c s) =
    match parse_num (String c s) with Some (n, r) => Some (JNum n, r) | None => None end.
Proof. intros [H| ->]; [|done]. destruct c as [[] [] [] [] [] [] [] []]; done. Qed.

Fixpoint osize (o : jout) : nat :=
  match o with
  | OArr l => S (foldr (fun x n => S (osize x) + n) 0 l)
  | OObj l => S (foldr (fun kv n => S (osize kv.2) + n) 0 l)
  | _ => 1
  end%nat.

Definition value_rt (o : jout) : Prop := forall f rest,
  jout_ok o -> (osize o <= f)%nat -> num_end rest = true ->
  parse_value f (json_stringify o ++ rest) = Some (json_of o, rest).

Definition esize (l : list jout) : nat := foldr (fun x n => S (osize x) + n)%nat 0%nat l.
Definition msize (l : list (string * jout)) : nat :=
  foldr (fun kv n => S (osize kv.2) + n)%nat 0%nat l.

Lemma parse_elems_rt l : Forall value_rt l -> l <> [] -> forall f rest,
  foldr (fun x P => jout_ok x /\ P) True l -> (esize l <= f)%nat ->
  parse_elems f (str_join "," (map json_stringify l) ++ String "]" rest) =
    Some (map json_of l, rest).
Proof.
  induction 1 as [|x l Hx Hl IH]; intros Hne f rest Hok Hf; [done|].
  destruct f as [|f]; [simpl in Hf; lia|]. destruct Hok as [Hokx Hok].
  cbn [parse_elems]. cbn [esize foldr] in Hf.
  destruct l as [|y l].
  - cbn [map str_join]. rewrite Hx; [done|done|lia|done].
  - change (str_join "," (map json_stringify (x :: y :: l)))
      with (json_stringify x ++ String "," (str_join "," (map json_stringify (y :: l)))).
    rewrite str_app_assoc. cbn [String.append]. rewrite Hx; [|done|lia|done].
    change (skip_ws (String "," ?s)) with (String "," s). cbv beta iota.
    rewrite IH; [done|done|done|]. unfold esize in *. simpl in *. lia.
Qed.

Lemma obj_set_fresh {A} k (v : A) l : ~ In k (map fst l) -> obj_set k v l = (l ++ [(k, v)])%list.
Proof.
  induction l as [|[k' v'] l IH]; simpl; [done|]. intros H.
  destruct (String.eqb_spec k k') as [->|]; [tauto|]. f_equal. tauto.
Qed.

Lemma parse_members_rt l : Forall (fun kv => value_rt kv.2) l -> l <> [] -> forall f rest acc,
  NoDup (map fst (acc ++ map (fun kv => (kv.1, json_of kv.2)) l)%list) ->
  foldr (fun kv P => jout_ok kv.2 /\ P) True l -> (msize l <= f)%nat ->
  parse_members f
    (str_join "," (map (fun kv => quoted kv.1 ++ String ":" (json_stringify kv.2)) l)
       ++ String "}" rest) acc =
    Some ((acc ++ map (fun kv => (kv.1, json_of kv.2)) l)%list, rest).
Proof.
  induction 1 as [|[k x] l Hx Hl IH]; intros Hne f rest acc Hnd Hok Hf; [done|].
  destruct f as [|f]; [simpl in Hf; lia|]. destruct Hok as [Hokx Hok].
  cbn [msize foldr] in Hf. simpl in Hx, Hokx, Hf.
  assert (Hset : obj_set k (json_of x) acc = (acc ++ [(k, json_of x)])%list).
  { apply obj_set_fresh. intros Hin. rewrite map_app in Hnd. apply NoDup_app in Hnd as (_ & Hd & _).
    apply (Hd k); [by apply list_elem_of_In | by left]. }
  assert (Hhead : forall r, parse_members (S f)
      ((quoted k ++ String ":" (json_stringify x)) ++ r) acc =
      match parse_value f (json_stringify x ++ r) with
      | Some (v, r2) =>
          match skip_ws r2 with
          | String "}" r3 => Some (obj_set k v acc, r3)
          | String "," r3 => parse_members f r3 (obj_set k v acc)
          | _ => None
          end
      | None => None
      end).
  { intros r. rewrite str_app_assoc. unfold quoted. cbn [String.append].
    rewrite str_app_assoc. cbn [String.append].
    cbn [parse_members]. rewrite head_not_ws by done. cbn [Ascii.eqb].
    rewrite Ascii.eqb_refl, parse_str_quoted. done. }
  destruct l as [|y l].
  - cbn [map str_join]. rewrite Hhead, Hx by (done || lia). simpl. by rewrite Hset.
  - change (str_join "," (map (fun kv => quoted kv.1 ++ String ":" (json_stringify kv.2)) ((k, x) :: y :: l)))
      with ((quoted k ++ String ":" (json_stringify x)) ++
        String "," (str_join "," (map (fun kv => quoted kv.1 ++ String ":" (json_stringify kv.2)) (y :: l)))).
    rewrite (str_app_assoc (quoted k ++ _)), Hhead. cbn [String.append].
    rewrite Hx; [|done|lia|done]. change (skip_ws (String "," ?s)) with (String "," s).
    cbv beta iota. rewrite Hset, IH.
    + by rewrite <- app_assoc.
    + done.
    + by rewrite <- app_assoc.
    + done.
    + unfold msize in *. simpl in *. lia.
Qed.

Lemma parse_value_rt o : value_rt o.
Proof.
  induction o as [|b|z|x|s|l IH|l IH] using jout_ind'; intros f rest Hok Hf Hr;
    (destruct f as [|f]; [simpl in Hf; lia|]).
  - done.
  - by destruct b.
  - destruct (z_to_string_head z rest) as (c & s & Heq & Hc). simpl json_stringify.
    pose proof (parse_num_z z rest Hr) as Hn. rewrite Heq in *.
    by rewrite parse_value_num, Hn by done.
  - cbn [json_stringify json_of]. destruct (is_finite x) eqn:E; [|done]. cbn [jout_ok] in Hok.
    destruct (parse_num_head _ _ _ (Hok E)) as (c & s & Heq & Hc). pose proof (parse_num_more _ rest x Hr (Hok E)) as Hn.
    rewrite Heq in *. cbn [String.append] in *. by rewrite parse_value_num, Hn by done.
  - simpl. rewrite str_app_assoc. simpl. by rewrite parse_str_quoted.
  - destruct l as [|x l]; [done|].
    change (json_stringify (OArr (x :: l)) ++ rest)
      with (String "[" (str_join "," (map json_stringify (x :: l)) ++ "]") ++ rest).
    cbn [String.append]. rewrite str_app_assoc. cbn [String.append].
    destruct (stringify_head x (match l with [] => String "]" rest | _ =>
      "," ++ str_join "," (map json_stringify l) ++ String "]" rest end)) as (c & s & Heq & Hc); [apply Hok|].
    assert (Hs1 : str_join "," (map json_stringify (x :: l)) ++ String "]" rest = String c s).
    { rewrite <- Heq. destruct l; [done|]. cbn [map str_join]. by rewrite !str_app_assoc. }
    pose proof (parse_elems_rt (x :: l) IH ltac:(done) f rest Hok) as He.
    rewrite Hs1 in *. cbn [parse_value]. rewrite head_not_ws by done.
    rewrite He by (unfold esize; simpl in *; lia).
    rewrite head_not_ws by done. destruct c as [[] [] [] [] [] [] [] []]; done.
  - destruct l as [|x l]; [done|]. destruct Hok as [Hnd Hok].
    pose proof (parse_members_rt (x :: l) IH ltac:(done) f rest []) as He.
    change (json_stringify (OObj (x :: l)) ++ rest) with (String "{" (str_join ","
      (map (fun kv => quoted kv.1 ++ String ":" (json_stringify kv.2)) (x :: l)) ++ "}") ++ rest).
    cbn [String.append]. rewrite str_app_assoc. cbn [String.append].
    assert (exists s, str_join ","
      (map (fun kv => quoted kv.1 ++ String ":" (json_stringify kv.2)) (x :: l)) ++ String "}" rest
      = String quote s) as [s Hs] by (destruct l; eexists; reflexivity).
    rewrite Hs in *. cbn [parse_value]. rewrite head_not_ws by done.
    simpl (Ascii.eqb "{" _). cbv iota. rewrite head_not_ws by done.
    rewrite He; [done| |done|unfold msize; simpl in *; lia].
    rewrite app_nil_l, map_map. exact Hnd.
Qed.

Lemma str_length_quoted s : (2 <= String.length (quoted s))%nat.
Proof. unfold quoted. simpl. rewrite str_length_app. simpl. lia. Qed.

Lemma str_length_join sep l : l <> [] -> String.length sep = 1%nat ->
  String.length (str_join sep l) = (foldr (fun s n => S (String.length s) + n) 0 l - 1)%nat.
Proof.
  intros Hne Hs. induction l as [|x l IH]; [done|]. destruct l as [|y l].
  - simpl. lia.
  - change (str_join sep (x :: y :: l)) with (x ++ sep ++ str_join sep (y :: l)).
    rewrite !str_length_app, IH by done. simpl. lia.
Qed.

Lemma dec_digits_long f z acc : (String.length acc <= String.length (dec_digits f z acc))%nat.
Proof. revert z acc. induction f as [|f IH]; intros z acc; cbn [dec_digits]; [done|]. destruct (z <? 10); [simpl; lia|]. etransitivity; [|apply IH]. simpl. lia. Qed.
Lemma num_to_string_long x : (1 <= String.length (num_to_string x))%nat.
Proof.
  assert (Hd : forall z, (1 <= String.length (nat_to_string z))%nat).
  { intros z. unfold nat_to_string. cbn [dec_digits]. destruct (z <? 10); [simpl; lia|]. etransitivity; [|apply dec_digits_long]. simpl. lia. }
  assert (Hf : forall s k n, (1 <= String.length (format_digits s k n))%nat).
  { intros s k n. specialize (Hd s). unfold format_digits.
    destruct (_ && _); [rewrite str_length_app; lia|]. destruct (_ && _); [rewrite !str_length_app; cbn [String.length]; lia|].
    destruct (_ && _); [cbn [String.append String.length]; lia|]. destruct (k =? 1); rewrite !str_length_app; [lia | cbn [String.length]; lia]. }
  destruct x as [| [] | |s m e]; try (simpl; lia). unfold num_to_string. cbv zeta. destruct (shortest _ _ _ _ _ _) as [digits k].
  rewrite str_length_app. destruct (digits =? 10 ^ k); [specialize (Hf 1 1) | specialize (Hf digits k)];
    match goal with |- context [format_digits _ _ ?n] => specialize (Hf n) end; lia.
Qed.
Lemma osize_length o : (osize o <= 2 * String.length (json_stringify o))%nat.
Proof.
  induction o as [|b|z|x|s|l IH|l IH] using jout_ind'; [simpl; lia | destruct b; simpl; lia | ..].
  - simpl. destruct (z_to_string_head z "") as (c & s & Heq & _).
    rewrite str_app_nil_r in Heq. rewrite Heq. simpl. lia.
  - cbn [osize json_stringify]. pose proof (num_to_string_long x). destruct (is_finite x); simpl; lia.
  - pose proof (str_length_quoted s). simpl. lia.
  - simpl json_stringify. destruct l as [|x l]; [simpl; lia|]. cbn [String.length].
    rewrite str_length_app, str_length_join by done. revert IH. generalize (x :: l). intros l' IH.
    enough (esize l' <= 2 * foldr (fun s n => S (String.length s) + n) 0 (map json_stringify l'))%nat
      by (unfold esize in *; simpl in *; lia).
    unfold esize. induction IH as [|y l' Hy _ IH']; simpl in *; lia.
  - cbn [json_stringify]. destruct l as [|x l]; [simpl; lia|]. cbn [String.length].
    rewrite str_length_app, str_length_join by done. revert IH. generalize (x :: l). intros l' IH.
    enough (msize l' <= 2 * foldr (fun s n => S (String.length s) + n) 0
      (map (fun kv => quoted kv.1 ++ String ":" (json_stringify kv.2)) l'))%nat
      by (unfold msize in *; simpl in *; lia).
    unfold msize. induction IH as [|y l' Hy _ IH']; simpl in *; [lia|].
    rewrite str_length_app. simpl. lia.
Qed.

(** [JSON.parse(JSON.stringify(v))] gives the value back. *)
Lemma json_parse_stringify o : jout_ok o -> json_parse (json_stringify o) = Ok (json_of o).
Proof.
  intros Hok. unfold json_parse. pose proof (osize_length o).
  rewrite <- (str_app_nil_r (json_stringify o)) at 2.
  rewrite parse_value_rt by (done || lia). done.
Qed.

(** ** [Number(s)] *)

Fixpoint digits_value (base : Z) (s : string) (acc : Z) : option Z :=
  match s with
  | EmptyString => Some acc
  | String c s' =>
      match hex_val c with
      | Some d => if Z.of_N d <? base then digits_value base s' (acc * base + Z.of_N d) else None
      | None => None
      end
  end.

(** Decimal literals: optional sign, digits with an optional fraction (either may be empty,
    not both), optional exponent. *)
Definition js_decimal (s : string) : number :=
  let '(neg, s1) := match s with
                    | String "-" r => (true, r) | String "+" r => (false, r) | _ => (false, s)
                    end in
  if String.eqb s1 "Infinity" then S754_infinity neg else
  let '(ip, n, s2) := parse_digits s1 0 0 in
  let '(m, k, s3) := match s2 with
                     | String "." r => parse_digits r ip 0
                     | _ => (ip, 0, s2)
                     end in
  if n + k =? 0 then S754_nan
  else match parse_exponent s3 with
       | Some (e, EmptyString) => dec_to_num neg m (e - k)
       | _ => S754_nan
       end.

Definition radix_literal (base : Z) (s : string) : number :=
  if String.eqb s "" then S754_nan
  else match digits_value base s 0 with Some v => num_of_Z v | None => S754_nan end.

Definition js_number (s : string) : number :=
  match trim s with
  | EmptyString => S754_zero false
  | String "0" (String c r) as t =>
      if Ascii.eqb c "x" || Ascii.eqb c "X" then radix_literal 16 r
      else if Ascii.eqb c "o" || Ascii.eqb c "O" then radix_literal 8 r
      else if Ascii.eqb c "b" || Ascii.eqb c "B" then radix_literal 2 r
      else js_decimal t
  | t => js_decimal t
  end.

Lemma trim_no_space s : str_forall (fun c => negb (is_space c)) s = true -> trim s = s.
Proof.
  assert (Hl : forall s, str_forall (fun c => negb (is_space c)) s = true -> trim_left s = s).
  { intros [|c t]; [done|]. simpl. rewrite andb_true_iff, negb_true_iff. by intros [-> _]. }
  assert (Hra : forall s acc, str_forall (fun c => negb (is_space c)) s = true ->
    str_forall (fun c => negb (is_space c)) acc = true ->
    str_forall (fun c => negb (is_space c)) (str_rev_app s acc) = true).
  { induction s0 as [|c t IH]; intros acc Hs Ha; [done|]. simpl in *.
    apply andb_true_iff in Hs as [Hc Hs]. apply IH; [done|]. simpl. by rewrite Hc. }
  assert (Hrr : forall s acc acc', str_rev_app (str_rev_app s acc) acc' = str_rev_app acc (s ++ acc')).
  { induction s0 as [|c t IH]; intros acc acc'; [done|]. simpl. rewrite IH. done. }
  intros Hs. unfold trim. rewrite (Hl s Hs). unfold str_rev. rewrite Hl; [|by apply Hra].
  rewrite Hrr. simpl. apply str_app_nil_r.
Qed.

Lemma parse_digits_count s a n : let '(_, k, r) := parse_digits s a n in k + slen r = n + slen s.
Proof.
  revert a n. induction s as [|c s IH]; intros a n; [done|]. cbn [parse_digits].
  destruct (is_digit c); [|done]. specialize (IH (a * 10 + (Z.of_N (ord c) - 48)) (n + 1)).
  destruct (parse_digits s _ _) as [[v k] r]. rewrite slen_cons. lia.
Qed.

(** [Number(String(z))] *)
Lemma js_number_z z : 0 <= z -> js_number (z_to_string z) = num_of_Z z.
Proof.
  intros Hz. unfold z_to_string. rewrite (proj2 (Z.ltb_ge _ _)) by done.
  destruct (nat_to_string_spec z "" Hz eq_refl) as (k & c & s & Heq & Hc & H0 & Hk & Hp).
  rewrite str_app_nil_r in *. rewrite Heq in *.
  pose proof (parse_digits_count (String c s) 0 0) as Hcount. rewrite Hp in Hcount.
  rewrite slen_cons in Hcount. change (slen "") with 0 in Hcount.
  assert (Hall : forall s a n v k, parse_digits s a n = (v, k, "") -> str_forall is_digit s = true).
  { induction s0 as [|d t IH]; intros a n v k' Hd; [done|]. cbn [parse_digits] in Hd. cbn [str_forall].
    destruct (is_digit d); [|discriminate]. by eapply IH. }
  assert (Hns : str_forall (fun c => negb (is_space c)) (String c s) = true).
  { eapply str_forall_impl; [|by eapply Hall]. intros d. destruct d as [[] [] [] [] [] [] [] []]; done. }
  assert (Hdec : js_decimal (String c s) = num_of_Z z).
  { assert (Hgo : js_decimal (String c s) =
      if String.eqb (String c s) "Infinity" then S754_infinity false else
      let '(ip, n, s2) := parse_digits (String c s) 0 0 in
      let '(m, k, s3) := match s2 with String "." r => parse_digits r ip 0 | _ => (ip, 0, s2) end in
      if n + k =? 0 then S754_nan
      else match parse_exponent s3 with
           | Some (e, EmptyString) => dec_to_num false m (e - k)
           | _ => S754_nan
           end) by (destruct c as [[] [] [] [] [] [] [] []]; done).
    rewrite Hgo, Hp. destruct (String.eqb_spec (String c s) "Infinity") as [E|_].
    { injection E as -> _. done. }
    rewrite (proj2 (Z.eqb_neq _ _)) by lia. cbn [parse_exponent]. rewrite dec_to_num_int by done.
    destruct z; done || lia. }
  unfold js_number. rewrite (trim_no_space _ Hns).
  assert (s = "" \/ Ascii.eqb c "0" = false) as [->|Hne].
  { destruct (Ascii.eqb c "0") eqn:E; [|by right]. left. specialize (H0 eq_refl).
    destruct s; [done|]. rewrite slen_cons in Hcount. pose proof (slen_nonneg s). lia. }
  - rewrite <- Hdec. destruct c as [[] [] [] [] [] [] [] []]; done.
  - rewrite <- Hdec. destruct c as [[] [] [] [] [] [] [] []]; try done; destruct s; done.
Qed.

(** ** Lengths of numbers, and numbers read back *)

Lemma dec_digits_length f z acc n : 0 <= z < 10 ^ Z.of_nat n -> (0 < n)%nat ->
  slen (dec_digits f z acc) <= Z.of_nat n + slen acc.
Proof.
  revert z acc n. induction f as [|f IH]; intros z acc n Hz Hn; [simpl; lia|].
  cbn [dec_digits]. destruct (z <? 10) eqn:E; bool_hyps; [rewrite slen_cons; lia|].
  destruct n as [|[|n]]; [lia | simpl in Hz; lia|].
  rewrite (Nat2Z.inj_succ (S n)), Z.pow_succ_r in Hz by lia.
  etransitivity; [apply (IH _ _ (S n))|rewrite slen_cons; lia]; [|lia].
  split; [apply Z.div_pos; lia | apply Z.div_lt_upper_bound; lia].
Qed.
Lemma z_to_string_length z : safe_z z = true -> slen (z_to_string z) <= 17.
Proof.
  unfold safe_z, max_safe, z_to_string, nat_to_string. intros Hz. bool_hyps.
  destruct (z <? 0) eqn:E; bool_hyps; rewrite ?slen_cons.
  - pose proof (dec_digits_length (S (Z.to_nat (Z.log2 (- z)))) (- z) "" 16 ltac:(simpl; lia) ltac:(lia)).
    change (slen "") with 0 in *. lia.
  - pose proof (dec_digits_length (S (Z.to_nat (Z.log2 z))) z "" 16 ltac:(simpl; lia) ltac:(lia)).
    change (slen "") with 0 in *. lia.
Qed.
Lemma as_safe_int_num z : safe_z z = true -> as_safe_int (Some (JNum (num_of_Z z))) = Some z.
Proof. apply safe_int_of_Z. Qed.
