(* ===== verification/Sql.v ===== *)
(** * Sql: the table statements the workers run, as functions

    A table is the list of its rows; [key] is the primary key.  A statement gives the new
    table and the number of rows it changed (D1's [meta.changes], SQLite's [changes()]).
    Every component that keeps state in D1 uses these operators, so the lemmas on key
    uniqueness and on what a lookup sees after a statement are proved once. *)

From Stdlib Require Import ZArith Lia Bool List String Ascii.
From stdpp Require Import base tactics list sorting.
From S2P Require Import Prelude.
Open Scope Z_scope.

Section Table.
Context {R K : Type} `{!EqDecision K} (key : R -> K).

Definition key_is (k : K) (r : R) : bool := bool_decide (key r = k).
(** [SELECT ... WHERE key = k] / [.first()] *)
Definition find_key (k : K) (t : list R) : option R := List.find (key_is k) t.
Definition has_key (k : K) (t : list R) : bool := existsb (key_is k) t.

(** [UPDATE t SET f WHERE p] *)
Definition update_where (p : R -> bool) (f : R -> R) (t : list R) : list R * Z :=
  (map (fun r => if p r then f r else r) t, count_if p t).
(** [DELETE FROM t WHERE p] *)
Definition delete_where (p : R -> bool) (t : list R) : list R * Z :=
  (List.filter (fun r => negb (p r)) t, count_if p t).
(** [INSERT OR IGNORE INTO t VALUES r] *)
Definition insert_or_ignore (r : R) (t : list R) : list R * Z :=
  if has_key (key r) t then (t, 0) else ((t ++ [r])%list, 1).
(** [INSERT INTO t VALUES r ON CONFLICT(key) DO UPDATE SET upd WHERE guard]; [guard] and
    [upd] see the stored row first and the [excluded] row second. *)
Definition upsert (guard : R -> R -> bool) (upd : R -> R -> R) (r : R) (t : list R) : list R * Z :=
  if has_key (key r) t
  then update_where (fun old => key_is (key r) old && guard old r) (fun old => upd old r) t
  else ((t ++ [r])%list, 1).

(** [INSERT ... ON CONFLICT ... RETURNING ...] with [.first()]: the row the statement wrote. *)
Definition upsert_returning (guard : R -> R -> bool) (upd : R -> R -> R) (r : R) (t : list R)
  : option R * list R :=
  let '(t', n) := upsert guard upd r t in (if n =? 0 then None else find_key (key r) t', t').

(** The primary key is unique. *)
Definition keys_unique (t : list R) : Prop := NoDup (map key t).

Lemma key_is_true k r : key_is k r = true <-> key r = k.
Proof. unfold key_is. by rewrite bool_decide_eq_true. Qed.

Lemma has_key_elem k t : has_key k t = true <-> k ∈ map key t.
Proof.
  unfold has_key. rewrite existsb_exists_elem, list_elem_of_fmap.
  setoid_rewrite key_is_true. naive_solver.
Qed.

Lemma find_key_None k t : find_key k t = None <-> has_key k t = false.
Proof.
  unfold find_key, has_key. induction t as [|r t IH]; [done|]. simpl.
  destruct (key_is k r); simpl; [done | exact IH].
Qed.

Lemma find_key_Some k t r : find_key k t = Some r -> r ∈ t /\ key r = k.
Proof.
  intros H. apply List.find_some in H as [Hin Hk].
  by rewrite list_elem_of_In, <- key_is_true.
Qed.

Lemma find_key_unique k t r :
  keys_unique t -> r ∈ t -> key r = k -> find_key k t = Some r.
Proof.
  unfold keys_unique, find_key. induction t as [|r0 t IH]; intros Hnd Hin Hk.
  - by apply elem_of_nil in Hin.
  - simpl in *. apply NoDup_cons in Hnd as [Hnin Hnd].
    apply elem_of_cons in Hin as [->|Hin].
    + unfold key_is. rewrite bool_decide_eq_true_2 by done. done.
    + unfold key_is. rewrite bool_decide_eq_false_2; [by apply IH|].
      intros Heq. apply Hnin. rewrite Heq, <- Hk. by apply list_elem_of_fmap_2.
Qed.

Lemma find_key_app k t r :
  find_key k (t ++ [r])%list =
    match find_key k t with Some x => Some x | None => if key_is k r then Some r else None end.
Proof.
  unfold find_key. induction t as [|r0 t IH]; simpl; [by destruct (key_is k r)|].
  by destruct (key_is k r0).
Qed.

Lemma map_key_update p f t :
  (forall r, p r = true -> key (f r) = key r) -> map key (update_where p f t).1 = map key t.
Proof.
  intros Hf. simpl. rewrite map_map. apply map_ext. intros r. destruct (p r) eqn:E; auto.
Qed.

Lemma update_where_unique p f t :
  (forall r, p r = true -> key (f r) = key r) -> keys_unique t ->
  keys_unique (update_where p f t).1.
Proof. unfold keys_unique. intros Hf Ht. by rewrite map_key_update. Qed.

Lemma find_key_update k p f t :
  (forall r, p r = true -> key (f r) = key r) ->
  find_key k (update_where p f t).1 = (fun r => if p r then f r else r) <$> find_key k t.
Proof.
  intros Hf. unfold find_key. simpl. induction t as [|r t IH]; [done|]. simpl.
  assert (key (if p r then f r else r) = key r) as Hk by (destruct (p r) eqn:E; auto).
  unfold key_is at 1 3. rewrite Hk. destruct (bool_decide (key r = k)); [done | exact IH].
Qed.

Lemma delete_where_unique p t : keys_unique t -> keys_unique (delete_where p t).1.
Proof.
  unfold keys_unique, delete_where. simpl. induction t as [|r t IH]; [done|]. simpl.
  intros Hnd. apply NoDup_cons in Hnd as [Hnin Hnd].
  destruct (p r); simpl; [by apply IH|]. constructor; [|by apply IH].
  intros Hin. apply Hnin. apply list_elem_of_fmap in Hin as (x & -> & Hx).
  apply list_elem_of_fmap_2. by apply filter_In_elem in Hx as [? _].
Qed.

Lemma keys_unique_app t r : keys_unique t -> has_key (key r) t = false -> keys_unique (t ++ [r])%list.
Proof.
  unfold keys_unique. intros Ht Hk. rewrite map_app. apply NoDup_app. split_and!; [done| |].
  - intros k Hin Hk'. apply list_elem_of_singleton in Hk' as ->.
    apply has_key_elem in Hin. congruence.
  - apply NoDup_singleton.
Qed.

Lemma insert_or_ignore_unique r t : keys_unique t -> keys_unique (insert_or_ignore r t).1.
Proof.
  unfold insert_or_ignore. intros Ht. destruct (has_key (key r) t) eqn:E; [done|].
  by apply keys_unique_app.
Qed.

Lemma find_key_insert_or_ignore k r t :
  find_key k (insert_or_ignore r t).1 =
    match find_key k t with Some x => Some x | None => if key_is k r then Some r else None end.
Proof.
  unfold insert_or_ignore. destruct (has_key (key r) t) eqn:E; simpl; [|apply find_key_app].
  destruct (find_key k t) eqn:Ef; [done|]. destruct (key_is k r) eqn:Ek; [|done].
  apply key_is_true in Ek as <-. apply find_key_None in Ef. congruence.
Qed.

Lemma upsert_unique g u r t :
  (forall old, key old = key r -> key (u old r) = key old) ->
  keys_unique t -> keys_unique (upsert g u r t).1.
Proof.
  intros Hu Ht. unfold upsert. destruct (has_key (key r) t) eqn:E; [|by apply keys_unique_app].
  apply update_where_unique; [|done]. intros old Hp. bool_hyps. by apply Hu, key_is_true.
Qed.

(** What a lookup by key sees after an upsert. *)
Lemma find_key_upsert k g u r t :
  (forall old, key old = key r -> key (u old r) = key old) ->
  find_key k (upsert g u r t).1 =
    if bool_decide (k = key r) then
      match find_key k t with
      | Some old => Some (if g old r then u old r else old)
      | None => Some r
      end
    else find_key k t.
Proof.
  intros Hu. unfold upsert. destruct (has_key (key r) t) eqn:E.
  - rewrite find_key_update by (intros old Hp; bool_hyps; by apply Hu, key_is_true).
    destruct (find_key k t) as [old|] eqn:Ef; simpl.
    + apply find_key_Some in Ef as [_ Hk]. unfold key_is. rewrite Hk.
      destruct (bool_decide (k = key r)); simpl; [by destruct (g old r) | done].
    + case_bool_decide as Hk; [|done]. subst. apply find_key_None in Ef. congruence.
  - simpl. rewrite find_key_app. destruct (find_key k t) as [old|] eqn:Ef.
    + case_bool_decide as Hk; [|done]. subst. apply find_key_None in E. congruence.
    + unfold key_is. case_bool_decide as H1; case_bool_decide as H2; congruence.
Qed.

(** Rows after an upsert: an old row, an updated row, or the inserted row. *)
Lemma elem_of_upsert g u r t x :
  x ∈ (upsert g u r t).1 ->
  x ∈ t \/ (exists old, old ∈ t /\ key old = key r /\ g old r = true /\ x = u old r) \/
  (x = r /\ has_key (key r) t = false).
Proof.
  unfold upsert. destruct (has_key (key r) t) eqn:E; simpl.
  - intros Hx. apply list_elem_of_fmap in Hx as (old & -> & Hin).
    destruct (_ && _) eqn:Ep; [|by left]. bool_hyps. right. left.
    exists old. by rewrite <- key_is_true.
  - rewrite elem_of_app, list_elem_of_singleton. naive_solver.
Qed.

Lemma count_if_unique p t : keys_unique t ->
  (forall x y, x ∈ t -> y ∈ t -> p x = true -> p y = true -> key x = key y) ->
  count_if p t = 0 \/ count_if p t = 1.
Proof.
  unfold keys_unique. induction t as [|r t IH]; intros Hnd Hp; [by left|].
  simpl in Hnd. apply NoDup_cons in Hnd as [Hnin Hnd]. rewrite count_if_cons.
  destruct (p r) eqn:E.
  - right. enough (count_if p t = 0) by lia. unfold count_if.
    destruct (List.filter p t) as [|x l] eqn:Ef; [done|].
    assert (x ∈ List.filter p t) as Hx by (rewrite Ef; by left).
    apply filter_In_elem in Hx as [Hx Hpx]. exfalso. apply Hnin.
    rewrite (Hp r x); [by apply list_elem_of_fmap_2 | by left | by right | done | done].
  - destruct IH as [-> | ->]; auto. intros x y Hx Hy. apply Hp; by right.
Qed.

(** With a primary key in the condition at most one row changes, the row a lookup finds. *)
Lemma count_if_key k p t : keys_unique t ->
  count_if (fun r => key_is k r && p r) t =
    match find_key k t with Some r => if p r then 1 else 0 | None => 0 end.
Proof.
  unfold keys_unique, find_key. induction t as [|r t IH]; intros Hnd; [done|].
  simpl in Hnd. apply NoDup_cons in Hnd as [Hnin Hnd]. rewrite count_if_cons, IH by done. simpl.
  destruct (key_is k r) eqn:Ek; simpl; [|lia]. apply key_is_true in Ek as <-.
  destruct (List.find (key_is (key r)) t) as [x|] eqn:Ef; [|by destruct (p r)].
  exfalso. apply Hnin. apply find_key_Some in Ef as [Hin <-]. by apply list_elem_of_fmap_2.
Qed.

Lemma find_key_delete k p t : keys_unique t ->
  find_key k (delete_where p t).1 =
    match find_key k t with Some r => if p r then None else Some r | None => None end.
Proof.
  unfold keys_unique, find_key, delete_where. simpl. induction t as [|r t IH]; [done|]. simpl. intros Hnd.
  apply NoDup_cons in Hnd as [Hnin Hnd]. destruct (key_is k r) eqn:Ek.
  - destruct (p r) eqn:Ep; simpl; [|by rewrite Ek]. rewrite IH by done.
    apply key_is_true in Ek as <-. destruct (List.find (key_is (key r)) t) as [x|] eqn:Ef; [|done].
    exfalso. apply Hnin. apply find_key_Some in Ef as [Hin <-]. by apply list_elem_of_fmap_2.
  - destruct (p r); simpl; [|rewrite Ek]; by apply IH.
Qed.

(** The number of rows an upsert writes. *)
Lemma upsert_count g u r t : keys_unique t ->
  (upsert g u r t).2 =
    match find_key (key r) t with Some old => if g old r then 1 else 0 | None => 1 end.
Proof.
  intros Ht. unfold upsert. destruct (has_key (key r) t) eqn:E; cbn [snd].
  - unfold update_where. cbn [snd]. rewrite (count_if_key (key r) (fun old => g old r)) by done.
    destruct (find_key (key r) t) eqn:Ef; [done|]. apply find_key_None in Ef. congruence.
  - apply find_key_None in E. by rewrite E.
Qed.

Lemma upsert_returning_spec g u r t :
  (forall old, key old = key r -> key (u old r) = key old) -> keys_unique t ->
  (upsert_returning g u r t).1 =
    match find_key (key r) t with Some old => if g old r then Some (u old r) else None | None => Some r end.
Proof.
  intros Hu Ht. unfold upsert_returning. pose proof (upsert_count g u r t Ht) as Hn.
  pose proof (find_key_upsert (key r) g u r t Hu) as Hf. destruct (upsert g u r t) as [t' n].
  cbn [fst snd] in *. rewrite bool_decide_eq_true_2 in Hf by done. rewrite Hn.
  destruct (find_key (key r) t) as [old|]; [destruct (g old r)|]; cbn; congruence.
Qed.

Lemma count_if_zero p (t : list R) : count_if p t = 0 <-> forall x, x ∈ t -> p x = false.
Proof.
  induction t as [|r t IH]; [split; [intros _ x Hx; by apply elem_of_nil in Hx | done]|].
  rewrite count_if_cons. setoid_rewrite elem_of_cons. pose proof (count_if_nonneg p t).
  destruct (p r) eqn:E.
  - split; [lia|]. intros Hx. rewrite (Hx r) in E by (by left). done.
  - rewrite Z.add_0_l, IH. naive_solver.
Qed.
(** A statement that names the row it updates. *)
Lemma keyed_update k q f t : keys_unique t -> (forall r, key (f r) = key r) ->
  let out := update_where (fun r => key_is k r && q r) f t in
  keys_unique out.1 /\
  out.2 = match find_key k t with Some r => if q r then 1 else 0 | None => 0 end /\
  (forall k', find_key k' out.1 =
     if bool_decide (k' = k) then (fun r => if q r then f r else r) <$> find_key k t else find_key k' t) /\
  (out.2 = 0 -> out.1 = t).
Proof.
  intros Hu Hf out. unfold out. split_and!.
  - by apply update_where_unique.
  - unfold update_where. cbn [snd]. by apply count_if_key.
  - intros k'. rewrite find_key_update by auto. case_bool_decide as Hk; [subst k'|].
    + destruct (find_key k t) as [r|] eqn:E; [|done]. apply find_key_Some in E as [_ E].
      cbn. by rewrite (proj2 (key_is_true k r) E).
    + destruct (find_key k' t) as [r|] eqn:E; [|done]. apply find_key_Some in E as [_ E]. cbn.
      destruct (key_is k r) eqn:Eb; [|done]. apply (key_is_true k r) in Eb. congruence.
  - unfold update_where. cbn [fst snd]. rewrite count_if_zero. intros H0. clear - H0.
    induction t as [|x t IH]; [done|]. cbn [map]. rewrite (H0 x) by (by left). f_equal. apply IH.
    intros y Hy. apply H0. by right.
Qed.
End Table.

(** A key names one row. *)
Lemma keys_unique_inj {R K} `{EqDecision K} (key : R -> K) t x y : keys_unique key t -> x ∈ t -> y ∈ t -> key x = key y -> x = y.
Proof.
  intros Hu Hx Hy E. pose proof (find_key_unique key (key y) t x Hu Hx E) as F1. pose proof (find_key_unique key (key y) t y Hu Hy eq_refl). congruence.
Qed.

#[export] Hint Resolve insert_or_ignore_unique delete_where_unique : alphaping.

(** ** [ORDER BY ... LIMIT n] *)

Section Order.
Context {R : Type} (leb : R -> R -> bool).
Fixpoint insert_sorted (x : R) (l : list R) : list R :=
  match l with
  | [] => [x]
  | y :: l' => if leb x y then x :: l else y :: insert_sorted x l'
  end.
(** The rows in the order [leb]; rows that compare equal keep the table's order. *)
Definition order_by (l : list R) : list R := foldr insert_sorted [] l.
Definition order_limit (n : Z) (l : list R) : list R := take (Z.to_nat n) (order_by l).

Lemma insert_sorted_perm x l : insert_sorted x l ≡ₚ x :: l.
Proof.
  induction l as [|y l IH]; simpl; [done|]. destruct (leb x y); [done|].
  rewrite IH. apply Permutation_swap.
Qed.
Lemma order_by_perm l : order_by l ≡ₚ l.
Proof. induction l as [|x l IH]; simpl; [done|]. by rewrite insert_sorted_perm, IH. Qed.
Lemma elem_of_order_by x l : x ∈ order_by l <-> x ∈ l.
Proof. by rewrite order_by_perm. Qed.
Lemma elem_of_order_limit x n l : x ∈ order_limit n l -> x ∈ l.
Proof.
  unfold order_limit. intros H. apply list_elem_of_lookup in H as [i Hi].
  apply lookup_take_Some in Hi as [Hi _]. apply elem_of_order_by.
  by apply list_elem_of_lookup_2 in Hi.
Qed.
Lemma length_order_limit n l : Z.of_nat (length (order_limit n l)) <= Z.max 0 n.
Proof. unfold order_limit. rewrite length_take. lia. Qed.

Definition Leb (x y : R) : Prop := leb x y = true.
Hypothesis leb_total : forall x y, leb x y = true \/ leb y x = true.
Lemma insert_sorted_Sorted x l : Sorted Leb l -> Sorted Leb (insert_sorted x l).
Proof.
  induction 1 as [|y l Hs IH Hd]; simpl; [by repeat constructor|].
  destruct (leb x y) eqn:E.
  - constructor; [by constructor|]. by constructor.
  - constructor; [done|]. destruct Hd as [|z l Hz]; simpl; [constructor|].
    + destruct (leb_total x y); [congruence|done].
    + destruct (leb x z); constructor; [|done]. destruct (leb_total x y); [congruence|done].
Qed.
Lemma order_by_Sorted l : Sorted Leb (order_by l).
Proof. induction l; simpl; [constructor|]. by apply insert_sorted_Sorted. Qed.
Hypothesis leb_trans : forall x y z, leb x y = true -> leb y z = true -> leb x z = true.
(** What the limit leaves out comes after what it keeps. *)
Lemma order_limit_first n l x y : y ∈ order_limit n l -> x ∈ l -> x ∉ order_limit n l -> leb y x = true.
Proof.
  intros Hy Hx Hnx. pose proof (order_by_Sorted l) as Hs.
  apply (@Sorted_StronglySorted R Leb leb_trans) in Hs.
  rewrite <- (take_drop (Z.to_nat n) (order_by l)) in Hs. apply (StronglySorted_app_1_elem_of _ _ _ y x Hs); [done|].
  apply elem_of_order_by in Hx. rewrite <- (take_drop (Z.to_nat n) (order_by l)) in Hx.
  apply elem_of_app in Hx as [Hx|Hx]; [by destruct Hnx | done].
Qed.
(** A row that no other row precedes comes first. *)
Lemma order_limit_top n l x : 1 <= n -> x ∈ l -> (forall y, y ∈ l -> y = x \/ leb y x = false) ->
  exists rest, order_limit n l = x :: rest.
Proof.
  intros Hn Hx Hall. unfold order_limit. pose proof (order_by_Sorted l) as Hs. apply (@Sorted_StronglySorted R Leb leb_trans) in Hs.
  apply elem_of_order_by in Hx. destruct (order_by l) as [|h rest] eqn:E; [by apply elem_of_nil in Hx|].
  replace (Z.to_nat n) with (S (Z.to_nat (n - 1))) by lia. cbn [take]. exists (take (Z.to_nat (n - 1)) rest). f_equal.
  assert (Hh : h ∈ l) by (apply elem_of_order_by; rewrite E; by left). destruct (Hall h Hh) as [?|Hf]; [done|].
  apply elem_of_cons in Hx as [->|Hx]; [done|]. apply StronglySorted_inv in Hs as [_ Hs]. rewrite Forall_forall in Hs.
  specialize (Hs x Hx). unfold Leb in Hs. congruence.
Qed.
(** What is not in the first part of a page comes after its last row. *)
Lemma order_limit_prefix n l passed rest y x : order_limit n l = (passed ++ rest)%list -> last passed = Some y ->
  x ∈ l -> x ∉ passed -> leb y x = true.
Proof.
  intros Hp Hl Hin Hnx. pose proof (order_by_Sorted l) as Hs. apply (@Sorted_StronglySorted R Leb leb_trans) in Hs.
  rewrite <- (take_drop (Z.to_nat n) (order_by l)) in Hs. fold (order_limit n l) in Hs. rewrite Hp, <- (assoc_L (++)) in Hs.
  apply (StronglySorted_app_1_elem_of _ _ _ y x Hs); [by apply last_Some_elem_of|].
  assert (Hx : x ∈ (passed ++ (rest ++ drop (Z.to_nat n) (order_by l)))%list).
  { rewrite (assoc_L (++)), <- Hp. unfold order_limit. rewrite take_drop. by apply elem_of_order_by. }
  apply elem_of_app in Hx as [Hx|Hx]; done.
Qed.
End Order.

(** Text columns are compared byte by byte. *)
Lemma str_leb_trans a b c : String.leb a b = true -> String.leb b c = true -> String.leb a c = true.
Proof.
  unfold String.leb. revert b c. induction a as [|x a IH]; intros [|y b] [|z c]; cbn; try done.
  unfold Ascii.compare. destruct (N.compare_spec (Ascii.N_of_ascii x) (Ascii.N_of_ascii y)) as [E1|E1|E1]; try done;
    destruct (N.compare_spec (Ascii.N_of_ascii y) (Ascii.N_of_ascii z)) as [E2|E2|E2]; try done;
    destruct (N.compare_spec (Ascii.N_of_ascii x) (Ascii.N_of_ascii z)) as [E3|E3|E3]; try done; try lia. apply IH.
Qed.
Lemma str_ltb_leb a b : String.ltb a b = negb (String.leb b a).
Proof. unfold String.ltb, String.leb. rewrite (String.compare_antisym b a). by destruct (String.compare a b). Qed.

(** ** [DELETE FROM t WHERE outer AND key IN (SELECT key FROM t WHERE sel ORDER BY ... LIMIT n)] *)

Section DeleteIn.
Context {R K : Type} `{!EqDecision R} `{!EqDecision K} (key : R -> K) (leb : R -> R -> bool).

Definition delete_in (n : Z) (outer sel : R -> bool) (t : list R) : list R * Z :=
  let selected := order_limit leb n (List.filter sel t) in
  delete_where (fun r => outer r && existsb (fun s => bool_decide (key s = key r)) selected) t.

(** The rows a page takes from a table without repetition. *)
Lemma order_limit_count n l : 0 <= n ->
  Z.of_nat (length (order_limit leb n l)) = Z.min n (Z.of_nat (length l)).
Proof. intros Hn. unfold order_limit. rewrite length_take, (order_by_perm leb l). lia. Qed.
Lemma NoDup_order_limit n l : NoDup l -> NoDup (order_limit leb n l).
Proof.
  intros Hl. unfold order_limit. apply (sublist_NoDup _ (order_by leb l)); [by rewrite order_by_perm | apply sublist_take].
Qed.
Lemma order_limit_all n l x : Z.of_nat (length l) <= n -> x ∈ l -> x ∈ order_limit leb n l.
Proof.
  intros Hn Hx. unfold order_limit. rewrite take_ge; [by apply elem_of_order_by|]. rewrite (order_by_perm leb l). lia.
Qed.

Lemma NoDup_filter_bool (p : R -> bool) (t : list R) : NoDup t -> NoDup (List.filter p t).
Proof.
  induction 1 as [|x t Hx Hn IH]; cbn; [constructor|]. destruct (p x); [|done]. constructor; [|done].
  by intros [? _]%filter_In_elem.
Qed.

(** [outer] holds of what is selected, and identifies a selected row by its key. *)
Definition identifies (outer sel : R -> bool) (t : list R) : Prop :=
  (forall r, r ∈ t -> sel r = true -> outer r = true) /\
  forall r s, r ∈ t -> s ∈ t -> outer r = true -> sel s = true -> key s = key r -> s = r.

Lemma delete_in_page n outer sel t : identifies outer sel t ->
  forall r, r ∈ t -> (outer r && existsb (fun s => bool_decide (key s = key r)) (order_limit leb n (List.filter sel t)) = true
    <-> r ∈ order_limit leb n (List.filter sel t)).
Proof.
  intros [Hout Hkey] r Hr. rewrite andb_true_iff, existsb_exists_elem. split.
  - intros [Ho (s & Hs & E)]. apply bool_decide_eq_true in E. pose proof (elem_of_order_limit leb _ _ _ Hs) as Hs'.
    apply filter_In_elem in Hs' as [Hst Hsel]. by rewrite <- (Hkey r s).
  - intros Hin. pose proof (elem_of_order_limit leb _ _ _ Hin) as Hs'. apply filter_In_elem in Hs' as [_ Hsel].
    split; [by apply Hout|]. exists r. split; [done|]. by apply bool_decide_eq_true.
Qed.

(** Exactly the rows of the page go; the statement reports how many, and reports fewer than the
    limit only when nothing that it selects is left. *)
Lemma delete_in_spec n outer sel t : 0 <= n -> NoDup t -> identifies outer sel t ->
  let out := delete_in n outer sel t in
  out.2 = Z.min n (count_if sel t) /\ NoDup out.1 /\
  (forall r, r ∈ out.1 <-> r ∈ t /\ r ∉ order_limit leb n (List.filter sel t)) /\
  count_if sel out.1 = count_if sel t - out.2.
Proof.
  intros Hn Hnd Hid out. pose proof (delete_in_page n outer sel t Hid) as Hpage.
  set (page := order_limit leb n (List.filter sel t)) in *.
  set (p := fun r => outer r && existsb (fun s => bool_decide (key s = key r)) page) in *.
  assert (Hp : List.filter p t ≡ₚ page).
  { apply NoDup_Permutation.
    - by apply NoDup_filter_bool.
    - by apply NoDup_order_limit, NoDup_filter_bool.
    - intros r. rewrite filter_In_elem. split; [intros [Hr E]; by apply Hpage|]. intros Hr.
      pose proof (elem_of_order_limit leb _ _ _ Hr) as Hs. apply filter_In_elem in Hs as [Hrt _]. split; [done|]. by apply Hpage. }
  assert (Hc : out.2 = Z.of_nat (length page)).
  { unfold out, delete_in, delete_where. cbn [snd]. fold page. fold p. unfold count_if. by rewrite Hp. }
  assert (Hin : forall r, r ∈ out.1 <-> r ∈ t /\ r ∉ page).
  { intros r. unfold out, delete_in, delete_where. cbn [fst]. fold page. fold p. rewrite filter_In_elem, negb_true_iff.
    split; intros [Hr Hx]; (split; [done|]).
    - intros Hpg. apply (Hpage r Hr) in Hpg. congruence.
    - destruct (p r) eqn:E; [|done]. by apply Hpage in E. }
  assert (Hnd' : NoDup out.1) by (by apply NoDup_filter_bool).
  split_and!; [|done|done|].
  - rewrite Hc. by apply order_limit_count.
  - assert (Hsplit : List.filter sel t ≡ₚ List.filter sel out.1 ++ page).
    { apply NoDup_Permutation.
      - by apply NoDup_filter_bool.
      - apply NoDup_app. split_and!; [by apply NoDup_filter_bool | | by apply NoDup_order_limit, NoDup_filter_bool].
        intros r [Hr _]%filter_In_elem. by apply Hin in Hr as [_ ?].
      - intros r. rewrite elem_of_app, !filter_In_elem, Hin. split.
        + intros [Hr Hs]. destruct (decide (r ∈ page)); [by right | by left].
        + intros [[[Hr _] Hs]|Hr]; [done|]. pose proof (elem_of_order_limit leb _ _ _ Hr) as Hs.
          by apply filter_In_elem in Hs. }
    rewrite Hc. unfold count_if. rewrite Hsplit, length_app. lia.
Qed.

(** Nothing selected is left once the statement reports less than the limit. *)
Lemma delete_in_short n outer sel t : 0 <= n -> NoDup t -> identifies outer sel t ->
  (delete_in n outer sel t).2 < n -> forall r, r ∈ (delete_in n outer sel t).1 -> sel r = false.
Proof.
  intros Hn Hnd Hid Hlt. destruct (delete_in_spec n outer sel t Hn Hnd Hid) as (Hc & _ & _ & Hleft).
  apply (count_if_zero key). lia.
Qed.
(** Whatever a statement deletes is missing from the count of any class that contains it. *)
Lemma delete_where_count (p E : R -> bool) t : (forall r, r ∈ t -> p r = true -> E r = true) ->
  count_if E (delete_where p t).1 = count_if E t - (delete_where p t).2.
Proof.
  unfold delete_where. cbn [fst snd]. induction t as [|r t IH]; intros HE; [done|]. cbn [List.filter].
  rewrite !count_if_cons. pose proof (IH (fun x Hx => HE x (list_elem_of_further _ _ _ Hx))) as Hi.
  destruct (p r) eqn:Ep; cbn [negb].
  - rewrite (HE r (list_elem_of_here _ _) Ep). lia.
  - rewrite count_if_cons. lia.
Qed.
Lemma delete_in_count n outer sel (E : R -> bool) t : identifies outer sel t ->
  (forall r, r ∈ t -> sel r = true -> E r = true) ->
  count_if E (delete_in n outer sel t).1 = count_if E t - (delete_in n outer sel t).2.
Proof.
  intros Hid HE. apply delete_where_count. intros r Hr Hp. apply HE; [done|].
  apply (delete_in_page n outer sel t Hid r Hr) in Hp. apply elem_of_order_limit, filter_In_elem in Hp. by destruct Hp.
Qed.
Lemma delete_in_subset n outer sel t r : r ∈ (delete_in n outer sel t).1 -> r ∈ t.
Proof. unfold delete_in, delete_where. cbn [fst]. by intros [? _]%filter_In_elem. Qed.
(** Only selected rows go. *)
Lemma delete_in_kept n outer sel t r : 0 <= n -> NoDup t -> identifies outer sel t -> r ∈ t -> sel r = false ->
  r ∈ (delete_in n outer sel t).1.
Proof.
  intros Hn Hnd Hid Hr Hs. apply (delete_in_spec n outer sel t Hn Hnd Hid). split; [done|].
  intros Hp. pose proof (elem_of_order_limit leb _ _ _ Hp) as H. apply filter_In_elem in H as [_ H]. congruence.
Qed.

(** When the key is the primary key, no outer condition is needed. *)
Lemma identifies_unique sel t : keys_unique key t -> identifies (fun _ => true) sel t.
Proof.
  intros Hu. split; [done|]. intros r s Hr Hs _ _ E.
  pose proof (find_key_unique key (key r) t s Hu Hs E) as H1. pose proof (find_key_unique key (key r) t r Hu Hr eq_refl) as H2. congruence.
Qed.
Lemma identifies_guarded outer sel t : keys_unique key t -> (forall r, r ∈ t -> sel r = true -> outer r = true) ->
  identifies outer sel t.
Proof. intros Hu Ho. split; [done|]. intros r s Hr Hs _ Hsel E. by apply (identifies_unique sel t Hu). Qed.
Lemma keys_unique_NoDup (t : list R) : keys_unique key t -> NoDup t.
Proof. intros H. by apply (NoDup_fmap_1 key). Qed.
End DeleteIn.
