(* ===== verification/Telemetry.v ===== *)
(** * Telemetry: minutes, five-minute blocks, report slots, and the check schedule

    [packages/contracts/src/telemetry.ts], the block writes of [packages/db]
    ([check-results.ts], [telemetry-blocks.ts]) and the slot arithmetic of the checks worker
    ([schedule.ts], the due filter of [loadDueChecks]).  Timestamps are integers (safe
    integers in milliseconds or seconds), [Math.floor(a / b)] is [Z.div]. *)

From Stdlib Require Import ZArith Lia Bool String List.
From stdpp Require Import base tactics list strings.
From S2P Require Import Prelude.
From S2P Require Import Js.
From S2P Require Import Sql.
Open Scope Z_scope.

(* @src packages/contracts/src/telemetry.ts 2-2 REPORT_INTERVAL_SECONDS *)
Definition REPORT_INTERVAL_SECONDS : Z := 60.
(* @src packages/contracts/src/telemetry.ts 3-3 REPORTS_PER_BLOCK *)
Definition REPORTS_PER_BLOCK : Z := 5.
(* @src packages/contracts/src/telemetry.ts 4-4 BLOCK_INTERVAL_MS *)
Definition BLOCK_INTERVAL_MS : Z := REPORT_INTERVAL_SECONDS * REPORTS_PER_BLOCK * 1000.

(* @src packages/contracts/src/telemetry.ts floorToMinute *)
Definition floorToMinute (timestampMs : Z) : Z := timestampMs / 60000 * 60000.

(* @src packages/contracts/src/telemetry.ts floorToFiveMinuteBlock *)
Definition floorToFiveMinuteBlock (timestampMs : Z) : Z :=
  timestampMs / BLOCK_INTERVAL_MS * BLOCK_INTERVAL_MS.

(* @src packages/contracts/src/telemetry.ts reportSlot *)
Definition reportSlot (timestampMs : Z) : res Z :=
  let slot := (floorToMinute timestampMs - floorToFiveMinuteBlock timestampMs) / 60000 in
  throw_if (slot <? 0) || (REPORTS_PER_BLOCK <=? slot) as "invalid report slot"%string in
  Ok slot.

Lemma reportSlot_value t : reportSlot t = Ok (t / 60000 mod 5).
Proof.
  unfold reportSlot, floorToMinute, floorToFiveMinuteBlock, BLOCK_INTERVAL_MS,
    REPORT_INTERVAL_SECONDS, REPORTS_PER_BLOCK.
  assert (Hd : t / (60 * 5 * 1000) = t / 60000 / 5).
  { change (60 * 5 * 1000) with (60000 * 5). by rewrite Z.div_div by lia. }
  rewrite Hd.
  replace (t / 60000 * 60000 - t / 60000 / 5 * (60 * 5 * 1000))
    with ((t / 60000 mod 5) * 60000) by (rewrite Z.mod_eq by lia; ring).
  rewrite Z.div_mul by lia. pose proof (Z.mod_pos_bound (t / 60000) 5 ltac:(lia)).
  destruct (_ || _) eqn:E; [|done]. apply orb_true_iff in E as [E|E]; bool_hyps; lia.
Qed.

(** ** Block writes *)

Record slot_entry := SlotEntry {
  se_payload : list byte;
  se_id : list byte;
  se_hash : list byte;
}.
#[export] Instance slot_entry_eq_dec : EqDecision slot_entry.
Proof. solve_decision. Defined.

(** A row of [check_result_blocks_5m] or [telemetry_blocks_5m]: the five
    [(payload_i, id_i, hash_i)] column groups are the list [blk_slots]. *)
(* @src packages/db/migrations/telemetry/0001_telemetry.sql 85-106 check_result_blocks_5m *)
Record block_row := BlockRow {
  blk_pk : Z;
  blk_workspace : Z;
  blk_start : Z;
  blk_slots : list (option slot_entry);
  blk_schema : Z;
  blk_flags : Z;
}.
#[export] Instance block_row_eq_dec : EqDecision block_row.
Proof. solve_decision. Defined.

Definition block_key (r : block_row) : Z * Z := (blk_pk r, blk_start r).
Definition empty_slots : list (option slot_entry) := replicate 5 None.
Definition block_slot (i : Z) (r : block_row) : option slot_entry :=
  coalesce (blk_slots r !! Z.to_nat i) None.

(* @src packages/db/src/repositories/check-results.ts CheckBlockWrite *)
Record block_write := BlockWrite {
  bw_pk : Z;
  bw_workspace : Z;
  bw_nominalMinute : Z;
  bw_entry : slot_entry;
  bw_schema : Z;
}.

(** The row the INSERT would add: only the slot's columns are given. *)
Definition block_insert_row (w : block_write) (slot : Z) : block_row :=
  BlockRow (bw_pk w) (bw_workspace w) (floorToFiveMinuteBlock (bw_nominalMinute w))
    (<[Z.to_nat slot := Some (bw_entry w)]> empty_slots) (bw_schema w) 0.

(** [id IS NULL OR (id = excluded.id AND hash = excluded.hash)] *)
Definition slot_writable (slot : Z) (old : block_row) (w : slot_entry) : bool :=
  match block_slot slot old with
  | None => true
  | Some e => bool_decide (se_id e = se_id w) && bool_decide (se_hash e = se_hash w)
  end.

Definition block_set_slot (slot : Z) (old : block_row) (w : block_write) : block_row :=
  BlockRow (blk_pk old) (blk_workspace old) (blk_start old)
    (<[Z.to_nat slot := Some (bw_entry w)]> (blk_slots old)) (bw_schema w) (blk_flags old).

(** Running the statement [prepareCheckBlockWrite] prepares. *)
(* @src packages/db/src/repositories/check-results.ts prepareCheckBlockWrite *)
Definition prepareCheckBlockWrite (w : block_write) (t : list block_row)
  : res (list block_row * Z) :=
  let* slot := reportSlot (bw_nominalMinute w) in
  Ok (upsert block_key
        (fun old new => (blk_workspace old =? blk_workspace new) && slot_writable slot old (bw_entry w))
        (fun old _ => block_set_slot slot old w)
        (block_insert_row w slot) t).

(** Running the statement [prepareTelemetryBlockWrite] prepares: the machine table's guard
    has no workspace test. *)
(* @src packages/db/src/repositories/telemetry-blocks.ts prepareTelemetryBlockWrite *)
Definition prepareTelemetryBlockWrite (w : block_write) (t : list block_row)
  : res (list block_row * Z) :=
  let* slot := reportSlot (bw_nominalMinute w) in
  Ok (upsert block_key
        (fun old _ => slot_writable slot old (bw_entry w))
        (fun old _ => block_set_slot slot old w)
        (block_insert_row w slot) t).

(** Five slots per row, on the block grid. *)
Definition block_ok (r : block_row) : Prop :=
  length (blk_slots r) = 5%nat /\ floorToFiveMinuteBlock (blk_start r) = blk_start r.
Definition blocks_ok (t : list block_row) : Prop :=
  keys_unique block_key t /\ Forall block_ok t.

Lemma floor_block_idem t : floorToFiveMinuteBlock (floorToFiveMinuteBlock t) = floorToFiveMinuteBlock t.
Proof. unfold floorToFiveMinuteBlock. by rewrite Z.div_mul. Qed.

Lemma block_upsert_ok g w slot t :
  blocks_ok t ->
  blocks_ok (upsert block_key g (fun old _ => block_set_slot slot old w) (block_insert_row w slot) t).1.
Proof.
  intros [Hu Hok]. split.
  - by apply upsert_unique.
  - apply Forall_forall. intros x Hx. apply elem_of_upsert in Hx.
    destruct Hx as [Hx | [(old & Hin & _ & _ & ->) | [-> _]]].
    + by eapply Forall_forall in Hok.
    + eapply Forall_forall in Hok as [Hl Hs]; [|exact Hin].
      split; simpl; [by rewrite length_insert | done].
    + split; simpl; [by rewrite length_insert | apply floor_block_idem].
Qed.

Lemma block_slot_set i slot old w :
  length (blk_slots old) = 5%nat -> 0 <= slot < 5 -> 0 <= i ->
  block_slot i (block_set_slot slot old w) =
    if i =? slot then Some (bw_entry w) else block_slot i old.
Proof.
  intros Hl Hs Hi. unfold block_slot. simpl. destruct (Z.eqb_spec i slot) as [->|Hne].
  - rewrite list_lookup_insert_eq by lia. done.
  - rewrite list_lookup_insert_ne by lia. done.
Qed.

Lemma block_slot_insert_row i slot w :
  0 <= slot < 5 -> 0 <= i ->
  block_slot i (block_insert_row w slot) = if i =? slot then Some (bw_entry w) else None.
Proof.
  intros Hs Hi. unfold block_slot. simpl. destruct (Z.eqb_spec i slot) as [->|Hne].
  - rewrite list_lookup_insert_eq by (unfold empty_slots; rewrite length_replicate; lia). done.
  - rewrite list_lookup_insert_ne by lia. unfold empty_slots.
    destruct (decide (Z.to_nat i < 5)%nat).
    + by rewrite lookup_replicate_2.
    + by rewrite lookup_ge_None_2 by (rewrite length_replicate; lia).
Qed.

Lemma slot_of_write w : exists slot, reportSlot (bw_nominalMinute w) = Ok slot /\ 0 <= slot < 5.
Proof.
  rewrite reportSlot_value. eexists. split; [done|]. apply Z.mod_pos_bound. lia.
Qed.

(** ** Due slots *)

(* @src workers/checks/src/schedule.ts dueSlot *)
Definition dueSlot (nowMs intervalSeconds phaseSeconds : Z) : Z :=
  let nowSeconds := nowMs / 1000 in
  let shifted := nowSeconds - phaseSeconds in
  shifted / intervalSeconds * intervalSeconds + phaseSeconds.

(* @src workers/checks/src/schedule.ts isDue *)
Definition isDue (nowMs intervalSeconds phaseSeconds lastClaimedSlot : Z) : bool :=
  lastClaimedSlot <? dueSlot nowMs intervalSeconds phaseSeconds.

(** The filter of [loadDueChecks]:
    [CAST((? - phase) / interval AS INTEGER) * interval + phase > last_claimed_slot]; SQLite
    divides integers towards zero. *)
(* @src workers/checks/src/index.ts 140-141 loadDueChecks *)
Definition sqlDue (scheduledSeconds interval phase lastClaimedSlot : Z) : bool :=
  lastClaimedSlot <? Z.quot (scheduledSeconds - phase) interval * interval + phase.

Lemma dueSlot_bounds now i p : 0 < i -> dueSlot now i p <= now / 1000 < dueSlot now i p + i.
Proof.
  intros Hi. unfold dueSlot. cbv zeta.
  pose proof (Z.div_mod (now / 1000 - p) i ltac:(lia)).
  pose proof (Z.mod_pos_bound (now / 1000 - p) i Hi). nia.
Qed.

Lemma dueSlot_mono now now' i p : 0 < i -> now <= now' -> dueSlot now i p <= dueSlot now' i p.
Proof.
  intros Hi Hn. unfold dueSlot. cbv zeta.
  assert (now / 1000 <= now' / 1000) by (apply Z.div_le_mono; lia).
  assert ((now / 1000 - p) / i <= (now' / 1000 - p) / i) by (apply Z.div_le_mono; lia). nia.
Qed.

Lemma grid_lt a b i : 0 < i -> a * i < b * i <-> a < b.
Proof. intros Hi. symmetry. by apply Z.mul_lt_mono_pos_r. Qed.

(** ** Properties *)

(** Every timestamp has a report slot: [reportSlot] never throws, the slot is one of
    0..4, and the slot's minute inside its five-minute block is the timestamp's minute. *)
Theorem reportSlot_decomposes t :
  exists slot, reportSlot t = Ok slot /\ 0 <= slot < REPORTS_PER_BLOCK /\
    floorToFiveMinuteBlock t + slot * 60000 = floorToMinute t /\
    floorToMinute t <= t < floorToMinute t + 60000.
Proof.
  exists (t / 60000 mod 5). rewrite reportSlot_value.
  pose proof (Z.mod_pos_bound (t / 60000) 5 ltac:(lia)).
  unfold floorToFiveMinuteBlock, floorToMinute, BLOCK_INTERVAL_MS, REPORT_INTERVAL_SECONDS,
    REPORTS_PER_BLOCK.
  change (60 * 5 * 1000) with (60000 * 5). rewrite <- Z.div_div by lia.
  pose proof (Z.div_mod (t / 60000) 5 ltac:(lia)). pose proof (Z.div_mod t 60000 ltac:(lia)).
  pose proof (Z.mod_pos_bound t 60000 ltac:(lia)). split_and!; [done|lia|lia|lia|lia|lia].
Qed.

(** Writing a check result into its five-minute block: the write never throws, keeps
    the table well formed, leaves every other slot of every block as it was, and a slot
    that already holds a result is never overwritten by a different one. *)
Theorem prepareCheckBlockWrite_preserves w t (Hok : blocks_ok t) :
  exists t' n, prepareCheckBlockWrite w t = Ok (t', n) /\ blocks_ok t' /\
    forall k old, find_key block_key k t = Some old ->
      exists new, find_key block_key k t' = Some new /\ blk_workspace new = blk_workspace old /\
        forall i e, 0 <= i -> block_slot i old = Some e ->
          exists e', block_slot i new = Some e' /\ se_id e' = se_id e /\ se_hash e' = se_hash e.
Proof.
  destruct (slot_of_write w) as (slot & Hs & Hr).
  unfold prepareCheckBlockWrite. rewrite Hs. cbn [rbind].
  eexists _, _. split_and!; [apply f_equal, surjective_pairing | by apply block_upsert_ok |].
  intros k old Hf. rewrite find_key_upsert by done. rewrite Hf.
  assert (length (blk_slots old) = 5%nat) as Hl.
  { destruct Hok as [_ Hok]. apply find_key_Some in Hf as [Hf _].
    eapply Forall_forall in Hok as [? _]; [done|exact Hf]. }
  case_bool_decide; [|by exists old; split_and!; [done|done|eauto]].
  eexists. split_and!; [done | by destruct (_ && _) |].
  intros i e Hi He. destruct (_ && _) eqn:G; [|by eauto].
  rewrite block_slot_set by done. destruct (Z.eqb_spec i slot) as [->|]; [|by eauto].
  bool_hyps. unfold slot_writable in *. rewrite He in *. bool_hyps. eauto.
Qed.

Example prepareCheckBlockWrite_preserves_witness :
  let e := SlotEntry [] [Byte.x01] [Byte.x02] in
  let old := BlockRow 7 1 300000 (<[0%nat := Some e]> empty_slots) 1 0 in
  blocks_ok [old] /\
  exists t' n, prepareCheckBlockWrite (BlockWrite 7 1 360000 e 1) [old] = Ok (t', n) /\
    blocks_ok t' /\ t' <> [old].
Proof.
  assert (blocks_ok [BlockRow 7 1 300000
    (<[0%nat := Some (SlotEntry [] [Byte.x01] [Byte.x02])]> empty_slots) 1 0]) as Hok.
  { split; [apply NoDup_singleton|]. repeat constructor. }
  intros e old. split; [exact Hok|].
  destruct (prepareCheckBlockWrite_preserves (BlockWrite 7 1 360000 e 1) [old] Hok)
    as (t' & n & Hw & Ht & _).
  exists t', n. split_and!; [done|done|]. vm_compute in Hw. injection Hw as <- _. discriminate.
Defined.

(** The slot a check is due for is the latest point of its phase-shifted grid at or
    before now, so the SQL filter that selects due checks ([loadDueChecks]) agrees with
    [isDue] from the first phase on, and claiming the slot makes the check not due until the
    next grid point. *)
Theorem dueSlot_spec now interval phase last (Hi : 0 < interval) (Hp : phase <= now / 1000) :
  (forall s, s <= now / 1000 -> (s - phase) mod interval = 0 -> s <= dueSlot now interval phase) /\
  dueSlot now interval phase <= now / 1000 /\
  (dueSlot now interval phase - phase) mod interval = 0 /\
  sqlDue (now / 1000) interval phase last = isDue now interval phase last /\
  (forall later, now <= later ->
     isDue later interval phase (dueSlot now interval phase) = true <->
     dueSlot now interval phase + interval <= later / 1000).
Proof.
  pose proof (dueSlot_bounds now interval phase Hi) as [Hlo Hhi].
  assert (Hmod : (dueSlot now interval phase - phase) mod interval = 0).
  { unfold dueSlot. cbv zeta. rewrite Z.add_simpl_r. apply Z.mod_mul. lia. }
  split_and!; [|done|done| |].
  - intros s Hs Hm. apply Z.mod_divide in Hm as [a Ha]; [|lia].
    apply Z.mod_divide in Hmod as [b Hb]; [|lia].
    assert (a < b + 1) by (apply (grid_lt _ _ interval); lia). nia.
  - unfold sqlDue, isDue, dueSlot. cbv zeta. by rewrite Z.quot_div_nonneg by lia.
  - intros later Hl. unfold isDue. rewrite Z.ltb_lt.
    pose proof (dueSlot_bounds later interval phase Hi) as [Hlo' Hhi'].
    assert (Hmod' : (dueSlot later interval phase - phase) mod interval = 0).
    { unfold dueSlot. cbv zeta. rewrite Z.add_simpl_r. apply Z.mod_mul. lia. }
    apply Z.mod_divide in Hmod as [b Hb]; [|lia]. apply Z.mod_divide in Hmod' as [c Hc]; [|lia].
    revert Hlo' Hhi' Hb Hc. generalize (dueSlot now interval phase) (dueSlot later interval phase).
    intros d d' Hlo' Hhi' Hb Hc. split; intros H.
    + assert (b < c) by (apply (grid_lt _ _ interval); lia). nia.
    + assert (b + 1 < c + 1) by (apply (grid_lt _ _ interval); lia). nia.
Qed.

Example dueSlot_spec_witness :
  0 < 60 /\ 15 <= 200000 / 1000 /\
  sqlDue (200000 / 1000) 60 15 135 = isDue 200000 60 15 135 /\ isDue 200000 60 15 135 = true.
Proof.
  split_and!; [lia | vm_compute; discriminate | | reflexivity].
  apply (dueSlot_spec 200000 60 15 135); [lia | vm_compute; discriminate].
Defined.
