(* ===== verification/Protobuf.v ===== *)
(** * Protobuf: wire decoding of agent reports and live metric samples

    [packages/contracts/src/protobuf.ts], the sample decoders of [live-frame.ts] and
    [machine-report.ts].  Integers are [Z]: [BigInt] values as they are, [Number]s after the
    [safeProtobufNumber] test.  The [while (offset < bytes.length)] loops are fixpoints on
    fuel that report ["out_of_fuel"] when it is used up; the decoders start them with one
    unit per byte plus one, and [decoders_terminate] shows that this is always enough. *)

From Stdlib Require Import ZArith Lia Bool String List.
From stdpp Require Import base tactics list strings.
From S2P Require Import Prelude.
From S2P Require Import Js.
Open Scope string_scope.
Open Scope Z_scope.

(** ** The wire primitives *)

(* @src packages/contracts/src/protobuf.ts safeProtobufNumber *)
Definition safeProtobufNumber (value : Z) : res Z :=
  throw_if max_safe <? value as "protobuf_integer_out_of_range" in Ok value.

(** The [for] loop of [readProtobufVarint]: at most ten rounds. *)
(* @src packages/contracts/src/protobuf.ts 17-26 readProtobufVarint *)
Fixpoint varint_loop (fuel : nat) (bytes : list byte) (start offset value shift : Z) : res (Z * Z) :=
  match fuel with
  | O => Err "invalid_protobuf_varint"
  | S f =>
      if (offset <? blen bytes) && (offset <? start + 10) then
        match byte_at bytes offset with
        | None => Err "invalid_protobuf_varint"
        | Some current =>
            if (offset =? start + 9) && (1 <? current) then Err "invalid_protobuf_varint"
            else
              let value := Z.lor value (Z.shiftl (Z.land current 127) shift) in
              if Z.land current 128 =? 0 then Ok (value, offset + 1)
              else varint_loop f bytes start (offset + 1) value (shift + 7)
        end
      else Err "invalid_protobuf_varint"
  end.

(* @src packages/contracts/src/protobuf.ts readProtobufVarint *)
Definition readProtobufVarint (bytes : list byte) (start : Z) : res (Z * Z) :=
  throw_if negb (safe_z start) || (start <? 0) || (blen bytes <=? start)
    as "invalid_protobuf_varint" in
  varint_loop 10 bytes start start 0 0.

(* @src packages/contracts/src/protobuf.ts skipProtobufField *)
Definition skipProtobufField (bytes : list byte) (offset wireType : Z) : res Z :=
  if wireType =? 0 then let* ' (_, next) := readProtobufVarint bytes offset in Ok next
  else if wireType =? 1 then
    throw_if blen bytes <? offset + 8 as "invalid_protobuf_field" in Ok (offset + 8)
  else if wireType =? 2 then
    let* ' (value, lnext) := readProtobufVarint bytes offset in
    let* n := safeProtobufNumber value in
    let next := lnext + n in
    throw_if blen bytes <? next as "invalid_protobuf_field" in Ok next
  else if wireType =? 5 then
    throw_if blen bytes <? offset + 4 as "invalid_protobuf_field" in Ok (offset + 4)
  else Err "invalid_protobuf_wire_type".

(** ** Metric samples *)

(* @src packages/contracts/src/machine-report.ts RawMachineMetricSample *)
Record metric_sample := MetricSample {
  observedAt : Z;
  cpuPermille : Z;
  memoryUsedBytes : Z;
  memoryTotalBytes : Z;
  storageUsedBytes : Z;
  storageTotalBytes : Z;
  networkRxBps : Z;
  networkTxBps : Z;
  networkRxTotal : Z;
  networkTxTotal : Z;
  load1mMilli : option Z;
  uptimeSeconds : option Z;
}.
#[export] Instance metric_sample_eq_dec : EqDecision metric_sample.
Proof. solve_decision. Defined.

(** [Array.from({ length: 12 }, (_, index) => (index < 10 ? 0 : null))] *)
Definition initial_values : list (option Z) := (replicate 10 (Some 0) ++ replicate 2 None)%list.

(** The field loop both sample decoders share, up to the wire-type error they throw. *)
(* @src packages/contracts/src/live-frame.ts 67-83 decodeLiveMetricSample *)
Fixpoint sample_fields (fuel : nat) (wire_error : string) (bytes : list byte) (offset : Z)
    (values : list (option Z)) : res (list (option Z)) :=
  match fuel with
  | O => Err "out_of_fuel"
  | S f =>
      if offset <? blen bytes then
        let* ' (tag, next) := readProtobufVarint bytes offset in
        let field := Z.shiftr tag 3 in
        let wireType := Z.land tag 7 in
        if (1 <=? field) && (field <=? 12) then
          throw_if negb (wireType =? 0) as wire_error in
          let* ' (value, next') := readProtobufVarint bytes next in
          let* number := safeProtobufNumber value in
          sample_fields f wire_error bytes next' (<[Z.to_nat (field - 1) := Some number]> values)
        else
          let* next' := skipProtobufField bytes next wireType in
          sample_fields f wire_error bytes next' values
      else Ok values
  end.

(** [values[i] ?? 0] and [values[i] ?? null] *)
Definition value_or_zero (values : list (option Z)) (i : nat) : Z :=
  coalesce (coalesce (values !! i) None) 0.
Definition value_or_null (values : list (option Z)) (i : nat) : option Z :=
  coalesce (values !! i) None.

Definition sample_of_values (values : list (option Z)) : metric_sample :=
  MetricSample (value_or_zero values 0) (value_or_zero values 1) (value_or_zero values 2)
    (value_or_zero values 3) (value_or_zero values 4) (value_or_zero values 5)
    (value_or_zero values 6) (value_or_zero values 7) (value_or_zero values 8)
    (value_or_zero values 9) (value_or_null values 10) (value_or_null values 11).

(* @src packages/contracts/src/live-frame.ts decodeLiveMetricSample *)
Definition decodeLiveMetricSample (bytes : list byte) : res metric_sample :=
  throw_if (blen bytes =? 0) || (2048 <? blen bytes) as "invalid_live_metric_size" in
  let* values := sample_fields (S (length bytes)) "invalid_live_metric_wire_type" bytes 0
                   initial_values in
  let s := sample_of_values values in
  throw_if (observedAt s <=? 0) || (1000 <? cpuPermille s) as "invalid_live_metric_value" in
  Ok s.

(* @src packages/contracts/src/machine-report.ts decodeMetricSample *)
Definition decodeMetricSample (bytes : list byte) : res metric_sample :=
  let* values := sample_fields (S (length bytes)) "invalid_machine_metric_wire_type" bytes 0
                   initial_values in
  let s := sample_of_values values in
  throw_if (observedAt s <=? 0) || (1000 <? cpuPermille s) ||
           ((0 <? memoryTotalBytes s) && (memoryTotalBytes s <? memoryUsedBytes s)) ||
           ((0 <? storageTotalBytes s) && (storageTotalBytes s <? storageUsedBytes s))
    as "invalid_machine_metric_value" in
  Ok s.

(** ** Compressed reports *)

(* @src packages/contracts/src/machine-report.ts 3-3 MAX_COMPRESSED_BYTES *)
Definition MAX_COMPRESSED_BYTES : Z := 64 * 1024.
(* @src packages/contracts/src/machine-report.ts 4-4 MAX_DECOMPRESSED_BYTES *)
Definition MAX_DECOMPRESSED_BYTES : Z := 256 * 1024.

Section MachineReport.
(** The platform's [DecompressionStream("deflate")]: the chunks its reader yields for an
    input, and the error it then throws, if any. *)
Context (decompress : list byte -> list (list byte) * option string).

(** The reader loop: chunks are kept while the running total stays within the limit. *)
(* @src packages/contracts/src/machine-report.ts 31-43 inflateZlib *)
Fixpoint inflate_chunks (chunks : list (list byte)) (fault : option string) (total : Z)
  : res (list byte) :=
  match chunks with
  | [] => match fault with None => Ok [] | Some e => Err e end
  | value :: rest =>
      let total := total + blen value in
      throw_if MAX_DECOMPRESSED_BYTES <? total as "machine_report_too_large" in
      let* decoded := inflate_chunks rest fault total in
      Ok (value ++ decoded)%list
  end.

(* @src packages/contracts/src/machine-report.ts inflateZlib *)
Definition inflateZlib (value : list byte) : res (list byte) :=
  throw_if (blen value =? 0) || (MAX_COMPRESSED_BYTES <? blen value)
    as "invalid_machine_report_size" in
  let '(chunks, fault) := decompress value in
  inflate_chunks chunks fault 0.

(* @src packages/contracts/src/machine-report.ts 108-124 decodeCompressedMachineSamples *)
Fixpoint report_samples (fuel : nat) (bytes : list byte) (offset : Z)
    (samples : list metric_sample) : res (list metric_sample) :=
  match fuel with
  | O => Err "out_of_fuel"
  | S f =>
      if offset <? blen bytes then
        let* ' (tag, next) := readProtobufVarint bytes offset in
        let field := Z.shiftr tag 3 in
        let wireType := Z.land tag 7 in
        if field =? 5 then
          throw_if negb (wireType =? 2) as "invalid_machine_report_wire_type" in
          let* ' (value, lnext) := readProtobufVarint bytes next in
          let* n := safeProtobufNumber value in
          let end_ := lnext + n in
          throw_if blen bytes <? end_ as "invalid_machine_report_field" in
          let* sample := decodeMetricSample (slice bytes lnext end_) in
          let samples := (samples ++ [sample])%list in
          throw_if 60 <? Z.of_nat (length samples) as "machine_report_sample_limit" in
          report_samples f bytes end_ samples
        else
          let* next' := skipProtobufField bytes next wireType in
          report_samples f bytes next' samples
      else Ok samples
  end.

(* @src packages/contracts/src/machine-report.ts decodeCompressedMachineSamples *)
Definition decodeCompressedMachineSamples (value : list byte) : res (list metric_sample) :=
  let* bytes := inflateZlib value in
  let* samples := report_samples (S (length bytes)) bytes 0 [] in
  throw_if bool_decide (samples = []) as "machine_report_samples_missing" in
  Ok samples.

End MachineReport.

(** ** Lemmas on the wire primitives *)

Lemma blen_nonneg bs : 0 <= blen bs.
Proof. unfold blen. lia. Qed.

Lemma byte_at_some bs i v : byte_at bs i = Some v -> 0 <= i < blen bs /\ 0 <= v < 256.
Proof.
  unfold byte_at, blen. destruct (i <? 0) eqn:E; [done|]. bool_hyps.
  rewrite fmap_Some. intros (b & Hb & ->). apply lookup_lt_Some in Hb.
  pose proof (bz_range b). lia.
Qed.

Lemma byte_at_drop bs i b rest : 0 <= i -> drop (Z.to_nat i) bs = b :: rest ->
  byte_at bs i = Some (bz b) /\ i < blen bs /\ drop (Z.to_nat (i + 1)) bs = rest.
Proof.
  intros Hi Hd. assert (Hl : bs !! Z.to_nat i = Some b).
  { rewrite <- (Nat.add_0_r (Z.to_nat i)), <- lookup_drop, Hd. done. }
  split_and!.
  - unfold byte_at. destruct (i <? 0) eqn:E; bool_hyps; [lia|]. by rewrite Hl.
  - apply lookup_lt_Some in Hl. unfold blen. lia.
  - replace (Z.to_nat (i + 1)) with (Z.to_nat i + 1)%nat by lia.
    by rewrite <- drop_drop, Hd.
Qed.

(** Or-ing a group of bits above the bits already read is addition. *)
Lemma lor_shiftl_add a b s : 0 <= s -> 0 <= a < 2 ^ s -> Z.lor a (Z.shiftl b s) = a + b * 2 ^ s.
Proof.
  intros Hs Ha. rewrite Z.shiftl_mul_pow2 by done.
  assert (Hl : Z.land a (b * 2 ^ s) = 0).
  { apply Z.bits_inj'. intros i Hi. rewrite Z.land_spec, Z.bits_0.
    destruct (Z_lt_le_dec i s) as [His|His].
    - rewrite <- Z.shiftl_mul_pow2, Z.shiftl_spec_low by done. by rewrite andb_false_r.
    - destruct (Z.eq_dec a 0) as [->|]; [by rewrite Z.bits_0|].
      rewrite Z.bits_above_log2; [done|lia|].
      apply Z.lt_le_trans with s; [|done]. apply Z.log2_lt_pow2; lia. }
  rewrite <- Z.lxor_lor by done. symmetry. by apply Z.add_nocarry_lxor.
Qed.

Lemma land_127 v : Z.land v 127 = v mod 128.
Proof. change 127 with (Z.ones 7). by rewrite Z.land_ones by lia. Qed.

(** The continuation bit of a byte. *)
Lemma land_128 v : 0 <= v < 256 -> (Z.land v 128 =? 0) = (v <? 128).
Proof.
  intros Hv. assert (Hf : forallb (fun n => Bool.eqb (Z.land (Z.of_nat n) 128 =? 0) (Z.of_nat n <? 128))
    (seq 0 256) = true) by (vm_compute; reflexivity).
  rewrite forallb_forall in Hf. specialize (Hf (Z.to_nat v)). rewrite in_seq, Z2Nat.id in Hf by lia.
  apply Bool.eqb_prop, Hf. lia.
Qed.

Lemma varint_loop_bounds f bytes start offset value shift v next :
  varint_loop f bytes start offset value shift = Ok (v, next) ->
  start <= offset -> shift = 7 * (offset - start) -> 0 <= value < 2 ^ shift ->
  0 <= v < 2 ^ 64 /\ offset < next /\ next <= blen bytes /\ next <= start + 10.
Proof.
  revert offset value shift. induction f as [|f IH]; intros offset value shift H Hs Hsh Hv; [done|].
  cbn [varint_loop] in H. destruct (_ && _) eqn:G1 in H; [|done]. bool_hyps.
  destruct (byte_at bytes offset) as [cur|] eqn:Hb; [|done].
  apply byte_at_some in Hb as [_ Hc].
  destruct ((offset =? start + 9) && (1 <? cur)) eqn:G; [done|].
  rewrite land_127, land_128, lor_shiftl_add in H by lia.
  pose proof (Z.mod_pos_bound cur 128 ltac:(lia)) as Hm.
  assert (Hpow : 2 ^ (shift + 7) = 128 * 2 ^ shift) by (rewrite Z.pow_add_r by lia; lia).
  assert (Hnew : 0 <= value + cur mod 128 * 2 ^ shift < 2 ^ (shift + 7)) by nia.
  destruct (cur <? 128) eqn:Gc; bool_hyps.
  - injection H as <- <-. split_and!; try lia.
    assert (Hcase : offset = start + 9 \/ offset < start + 9) by lia. destruct Hcase as [->|Hlt].
    + rewrite Z.eqb_refl in G. simpl in G. bool_hyps.
      replace (7 * (start + 9 - start)) with 63 in Hsh by lia. subst shift.
      assert (cur mod 128 <= 1) by (rewrite Z.mod_small; lia). nia.
    + apply Z.lt_le_trans with (2 ^ (shift + 7)); [lia|]. apply Z.pow_le_mono_r; lia.
  - apply IH in H; [lia|lia|lia|done].
Qed.

Lemma readProtobufVarint_bounds bytes start v next :
  readProtobufVarint bytes start = Ok (v, next) ->
  0 <= v < 2 ^ 64 /\ 0 <= start < next /\ next <= blen bytes /\ next <= start + 10.
Proof.
  unfold readProtobufVarint. intros H. ok_inv. bool_hyps.
  apply varint_loop_bounds in H; [|lia|lia|simpl; lia]. lia.
Qed.

Lemma readProtobufVarint_fuel bytes start : readProtobufVarint bytes start <> Err "out_of_fuel".
Proof.
  unfold readProtobufVarint. destruct (_ || _); [done|].
  enough (forall f offset value shift,
    varint_loop f bytes start offset value shift <> Err "out_of_fuel") by auto.
  induction f as [|f IH]; intros offset value shift; [done|].
  cbn [varint_loop]. repeat split_match; try done; apply IH.
Qed.

Lemma safeProtobufNumber_ok v n : safeProtobufNumber v = Ok n -> n = v /\ v <= max_safe.
Proof. unfold safeProtobufNumber. intros H. ok_inv. bool_hyps. by subst. Qed.

Lemma skipProtobufField_bounds bytes offset wt next :
  0 <= offset -> skipProtobufField bytes offset wt = Ok next -> offset < next <= blen bytes.
Proof.
  unfold skipProtobufField. intros Ho H. repeat split_match; ok_inv; bool_hyps; subst;
    repeat match goal with
    | H : readProtobufVarint _ _ = _ |- _ => apply readProtobufVarint_bounds in H
    | H : safeProtobufNumber _ = _ |- _ => apply safeProtobufNumber_ok in H
    end; lia.
Qed.

(** ** Reference encoders: what the Agent's protobuf encoder writes *)

Fixpoint varint_bytes (fuel : nat) (v : Z) : list byte :=
  match fuel with
  | O => []
  | S f => if v <? 128 then [byte_of_Z v]
           else byte_of_Z (v mod 128 + 128) :: varint_bytes f (v / 128)
  end.
Definition encode_varint (v : Z) : list byte := varint_bytes 10 v.
Definition encode_field (n v : Z) : list byte := (encode_varint (n * 8) ++ encode_varint v)%list.

(** Fields equal to their default are left out. *)
Fixpoint encode_values (n : Z) (defaults values : list (option Z)) : list byte :=
  match defaults, values with
  | d :: defaults', v :: values' =>
      ((if bool_decide (v = d) then [] else match v with Some x => encode_field n x | None => [] end)
       ++ encode_values (n + 1) defaults' values')%list
  | _, _ => []
  end.

Definition values_of_sample (s : metric_sample) : list (option Z) :=
  [Some (observedAt s); Some (cpuPermille s); Some (memoryUsedBytes s); Some (memoryTotalBytes s);
   Some (storageUsedBytes s); Some (storageTotalBytes s); Some (networkRxBps s);
   Some (networkTxBps s); Some (networkRxTotal s); Some (networkTxTotal s);
   load1mMilli s; uptimeSeconds s].
Definition encode_sample (s : metric_sample) : list byte :=
  encode_values 1 initial_values (values_of_sample s).

(** A value the wire decoder can produce: absent or a non-negative safe integer. *)
Definition value_ok (o : option Z) : Prop :=
  match o with Some v => 0 <= v <= max_safe | None => True end.

(** What every decoded sample satisfies. *)
Record sample_ok (s : metric_sample) : Prop := {
  sample_values_ok : Forall value_ok (values_of_sample s);
  sample_observed : 0 < observedAt s;
  sample_cpu : cpuPermille s <= 1000;
}.
Record report_sample_ok (s : metric_sample) : Prop := {
  report_base : sample_ok s;
  report_memory : 0 < memoryTotalBytes s -> memoryUsedBytes s <= memoryTotalBytes s;
  report_storage : 0 < storageTotalBytes s -> storageUsedBytes s <= storageTotalBytes s;
}.

Lemma varint_loop_encode f bytes start offset value shift v rest :
  drop (Z.to_nat offset) bytes = (varint_bytes f v ++ rest)%list ->
  0 <= start -> start <= offset -> shift = 7 * (offset - start) ->
  Z.of_nat f = 10 - (offset - start) -> (0 < f)%nat ->
  0 <= v < 2 ^ (64 - shift) -> 0 <= value < 2 ^ shift ->
  varint_loop f bytes start offset value shift =
    Ok (value + v * 2 ^ shift, offset + blen (varint_bytes f v)).
Proof.
  revert offset value shift v. induction f as [|f IH]; intros offset value shift v Hd H0 Hs Hsh Hf Hf0 Hv Hval; [lia|].
  cbn [varint_loop varint_bytes] in *. destruct (v <? 128) eqn:E; bool_hyps.
  - apply byte_at_drop in Hd as (Hb & Hl & _); [|lia]. rewrite Hb, bz_byte_of_Z, Z.mod_small by lia.
    assert ((offset <? blen bytes) = true) as -> by (apply Z.ltb_lt; lia).
    assert ((offset <? start + 10) = true) as -> by (apply Z.ltb_lt; lia). simpl andb. cbv iota.
    assert ((offset =? start + 9) && (1 <? v) = false) as ->.
    { apply andb_false_iff. destruct (Z.eqb_spec offset (start + 9)) as [->|]; [right|by left].
      replace (64 - shift) with 1 in Hv by lia. apply Z.ltb_ge. lia. }
    rewrite land_127, land_128, lor_shiftl_add, Z.mod_small by lia.
    assert ((v <? 128) = true) as -> by (apply Z.ltb_lt; lia). done.
  - cbn [app] in Hd. apply byte_at_drop in Hd as (Hb & Hl & Hd); [|lia].
    pose proof (Z.mod_pos_bound v 128 ltac:(lia)) as Hm. pose proof (Z.div_mod v 128 ltac:(lia)) as Hdm.
    rewrite Hb, bz_byte_of_Z, (Z.mod_small (v mod 128 + 128)) by lia.
    assert ((offset <? blen bytes) = true) as -> by (apply Z.ltb_lt; lia).
    assert ((offset <? start + 10) = true) as -> by (apply Z.ltb_lt; lia). simpl andb. cbv iota.
    assert (shift + 7 <= 63) as Hsh7.
    { destruct (Z_le_gt_dec (shift + 7) 63); [done|]. assert (64 - shift = 1) as He by lia.
      rewrite He in Hv. lia. }
    assert ((offset =? start + 9) && (1 <? v mod 128 + 128) = false) as ->.
    { apply andb_false_iff. left. apply Z.eqb_neq. lia. }
    rewrite land_127, land_128, lor_shiftl_add by lia.
    assert ((v mod 128 + 128 <? 128) = false) as -> by (apply Z.ltb_ge; lia).
    rewrite <- Z.add_mod_idemp_r, Z.mod_same, Z.add_0_r, Z.mod_mod by lia.
    assert (Hpow : 2 ^ (shift + 7) = 128 * 2 ^ shift) by (rewrite Z.pow_add_r by lia; lia).
    rewrite (IH _ _ _ (v / 128)); [|done|lia|lia|lia|lia|lia| |].
    + rewrite Hpow. f_equal. f_equal; [lia|]. unfold blen. simpl length. lia.
    + split; [apply Z.div_pos; lia|]. apply Z.div_lt_upper_bound; [lia|].
      change 128 with (2 ^ 7). rewrite <- Z.pow_add_r by lia.
      replace (7 + (64 - (shift + 7))) with (64 - shift) by lia. lia.
    + rewrite Hpow. nia.
Qed.

Lemma blen_app a b : blen (a ++ b)%list = blen a + blen b.
Proof. unfold blen. rewrite length_app. lia. Qed.

Lemma drop_blen_app pre rest : drop (Z.to_nat (blen pre)) (pre ++ rest)%list = rest.
Proof. unfold blen. rewrite Nat2Z.id. apply drop_app_length. Qed.

Lemma encode_varint_pos v : 0 < blen (encode_varint v) <= 10.
Proof.
  unfold encode_varint. enough (forall f v, (0 < f)%nat -> 0 < blen (varint_bytes f v) <= Z.of_nat f) as H
    by (specialize (H 10%nat v); lia).
  induction f as [|f IH]; intros w Hf; [lia|]. cbn [varint_bytes]. unfold blen in *.
  destruct (w <? 128); simpl length; [lia|]. destruct f; [simpl; lia|].
  specialize (IH (w / 128)). lia.
Qed.

Lemma readProtobufVarint_encode pre v rest :
  0 <= v < 2 ^ 64 -> safe_z (blen pre) = true ->
  readProtobufVarint (pre ++ encode_varint v ++ rest)%list (blen pre) =
    Ok (v, blen pre + blen (encode_varint v)).
Proof.
  intros Hv Hsafe. unfold readProtobufVarint. rewrite Hsafe. pose proof (blen_nonneg pre).
  pose proof (encode_varint_pos v). pose proof (blen_nonneg rest).
  assert ((blen pre <? 0) = false) as -> by (apply Z.ltb_ge; lia).
  assert ((blen (pre ++ encode_varint v ++ rest)%list <=? blen pre) = false) as ->.
  { apply Z.leb_gt. rewrite !blen_app. lia. }
  simpl orb. cbv iota.
  rewrite (varint_loop_encode 10 _ _ _ 0 0 v rest); try lia.
  - rewrite Z.pow_0_r. unfold encode_varint. f_equal. f_equal. lia.
  - apply drop_blen_app.
Qed.

(** ** The sample loop *)

Lemma sample_fields_fuel f e bytes offset values :
  0 <= offset <= blen bytes -> blen bytes - offset < Z.of_nat f -> e <> "out_of_fuel" ->
  sample_fields f e bytes offset values <> Err "out_of_fuel".
Proof.
  revert offset values. induction f as [|f IH]; intros offset values Ho Hf He; cbn [sample_fields].
  - lia.
  - destruct (offset <? blen bytes); [|done].
    destruct (readProtobufVarint bytes offset) as [[tag next]|e1] eqn:E1; cbn [rbind];
      [|by intros [= ->]; apply readProtobufVarint_fuel in E1].
    apply readProtobufVarint_bounds in E1. destruct (_ && _).
    + destruct (negb _); [by intros [= ->]|].
      destruct (readProtobufVarint bytes next) as [[v next']|e2] eqn:E2; cbn [rbind];
        [|by intros [= ->]; apply readProtobufVarint_fuel in E2].
      apply readProtobufVarint_bounds in E2. unfold safeProtobufNumber.
      destruct (max_safe <? v); cbn [rbind]; [done|]. apply IH; lia || done.
    + destruct (skipProtobufField bytes next _) as [next'|e2] eqn:E2; cbn [rbind].
      * apply skipProtobufField_bounds in E2; [|lia]. apply IH; lia || done.
      * intros [= ->]. revert E2. unfold skipProtobufField, safeProtobufNumber.
        destruct (readProtobufVarint bytes next) as [[v n]|e3] eqn:E3; cbn [rbind];
          repeat split_match; cbn [rbind]; repeat split_match; try done;
          intros [= ->]; by apply readProtobufVarint_fuel in E3.
Qed.

Lemma skipProtobufField_fuel bytes offset wt : skipProtobufField bytes offset wt <> Err "out_of_fuel".
Proof.
  intros H. revert H. unfold skipProtobufField, safeProtobufNumber.
  destruct (readProtobufVarint bytes offset) as [[v n]|e3] eqn:E3; cbn [rbind];
    repeat split_match; cbn [rbind]; repeat split_match; try done;
    intros [= ->]; by apply readProtobufVarint_fuel in E3.
Qed.

Lemma decodeMetricSample_fuel bytes : decodeMetricSample bytes <> Err "out_of_fuel".
Proof.
  unfold decodeMetricSample.
  destruct (sample_fields _ _ _ _ _) as [values|e] eqn:E; cbn [rbind].
  - by destruct (_ || _).
  - intros [= ->]. apply sample_fields_fuel in E; [done| |unfold blen; lia|done].
    pose proof (blen_nonneg bytes). lia.
Qed.

Lemma decodeLiveMetricSample_fuel bytes : decodeLiveMetricSample bytes <> Err "out_of_fuel".
Proof.
  unfold decodeLiveMetricSample. destruct (_ || _); [done|].
  destruct (sample_fields _ _ _ _ _) as [values|e] eqn:E; cbn [rbind].
  - by destruct (_ || _).
  - intros [= ->]. apply sample_fields_fuel in E; [done| |unfold blen; lia|done].
    pose proof (blen_nonneg bytes). lia.
Qed.

Lemma report_samples_fuel f bytes offset samples :
  0 <= offset <= blen bytes -> blen bytes - offset < Z.of_nat f ->
  report_samples f bytes offset samples <> Err "out_of_fuel".
Proof.
  revert offset samples. induction f as [|f IH]; intros offset samples Ho Hf; cbn [report_samples];
    [lia|].
  destruct (offset <? blen bytes); [|done].
  destruct (readProtobufVarint bytes offset) as [[tag next]|e1] eqn:E1; cbn [rbind];
    [|by intros [= ->]; apply readProtobufVarint_fuel in E1].
  apply readProtobufVarint_bounds in E1. destruct (Z.shiftr tag 3 =? 5).
  - destruct (negb _); [done|].
    destruct (readProtobufVarint bytes next) as [[v next']|e2] eqn:E2; cbn [rbind];
      [|by intros [= ->]; apply readProtobufVarint_fuel in E2].
    apply readProtobufVarint_bounds in E2. unfold safeProtobufNumber.
    destruct (max_safe <? v); cbn [rbind]; [done|].
    destruct (blen bytes <? next' + v) eqn:G; [done|]. bool_hyps.
    destruct (decodeMetricSample _) as [s|e3] eqn:E3; cbn [rbind];
      [|by intros [= ->]; apply decodeMetricSample_fuel in E3].
    destruct (60 <? _); [done|]. apply IH; lia.
  - destruct (skipProtobufField bytes next _) as [next'|e2] eqn:E2; cbn [rbind].
    + apply skipProtobufField_bounds in E2; [|lia]. apply IH; lia.
    + intros [= ->]. by apply skipProtobufField_fuel in E2.
Qed.

(** The shape the field loop keeps: twelve values, the first ten present, all in range. *)
Definition values_ok (values : list (option Z)) : Prop :=
  length values = 12%nat /\ Forall value_ok values /\
  forall i, (i < 10)%nat -> exists v, values !! i = Some (Some v).

Lemma initial_values_ok : values_ok initial_values.
Proof.
  split_and!; [done| |].
  - repeat constructor; done.
  - intros i Hi. exists 0. do 10 (destruct i as [|i]; [done|]). lia.
Qed.

Lemma values_ok_insert values i n :
  values_ok values -> (i < 12)%nat -> 0 <= n <= max_safe -> values_ok (<[i := Some n]> values).
Proof.
  intros (Hl & Hv & Hp) Hi Hn. split_and!.
  - by rewrite length_insert.
  - by apply Forall_insert.
  - intros j Hj. rewrite list_lookup_insert. case_decide; [naive_solver|by apply Hp].
Qed.

Lemma sample_fields_values f e bytes offset values out :
  values_ok values -> sample_fields f e bytes offset values = Ok out -> values_ok out.
Proof.
  revert offset values. induction f as [|f IH]; intros offset values Hv H; [done|].
  cbn [sample_fields] in H. destruct (offset <? blen bytes); [|ok_inv; by subst].
  apply rbind_ok in H as ([tag next] & E1 & H). apply readProtobufVarint_bounds in E1.
  destruct (_ && _) eqn:G in H; bool_hyps.
  - ok_inv. subst.
    match goal with H : readProtobufVarint _ next = _ |- _ => apply readProtobufVarint_bounds in H end.
    match goal with H : safeProtobufNumber _ = _ |- _ => apply safeProtobufNumber_ok in H as [-> ?] end.
    eapply IH; [|eassumption]. apply values_ok_insert; [done|lia|lia].
  - ok_inv. by eapply IH.
Qed.

Lemma sample_of_values_ok values : values_ok values ->
  Forall value_ok (values_of_sample (sample_of_values values)).
Proof.
  intros (Hl & Hv & _). 
  assert (Hz : forall i, value_ok (Some (value_or_zero values i))).
  { intros i. unfold value_or_zero. destruct (values !! i) as [[v|]|] eqn:E; simpl; try (unfold max_safe; lia).
    eapply Forall_lookup_1 in Hv; [|exact E]. exact Hv. }
  assert (Hn : forall i, value_ok (value_or_null values i)).
  { intros i. unfold value_or_null. destruct (values !! i) as [o|] eqn:E; [|done].
    eapply Forall_lookup_1 in Hv; [|exact E]. exact Hv. }
  unfold values_of_sample, sample_of_values. simpl. repeat constructor; apply Hz || apply Hn.
Qed.

Lemma decodeMetricSample_ok bytes s : decodeMetricSample bytes = Ok s -> report_sample_ok s.
Proof.
  unfold decodeMetricSample. intros H. ok_inv. bool_hyps. subst.
  match goal with H : sample_fields _ _ _ _ _ = _ |- _ =>
    apply sample_fields_values, sample_of_values_ok in H; [|apply initial_values_ok] end.
  split; [by split| |]; intros Hp; apply Z.le_ngt; intros Hl;
    match goal with H : (_ && _)%bool = false |- _ => apply andb_false_iff in H; destruct H end;
    bool_hyps; try lia;
    match goal with H : (_ && _)%bool = false |- _ => apply andb_false_iff in H; destruct H end;
    bool_hyps; lia.
Qed.

Lemma decodeLiveMetricSample_ok bytes s : decodeLiveMetricSample bytes = Ok s -> sample_ok s.
Proof.
  unfold decodeLiveMetricSample. intros H. ok_inv. bool_hyps. subst.
  match goal with H : sample_fields _ _ _ _ _ = _ |- _ =>
    apply sample_fields_values, sample_of_values_ok in H; [|apply initial_values_ok] end.
  by split.
Qed.

(** Decoding the encoding of the remaining fields fills in the remaining values. *)
Lemma sample_fields_encode e inits vals done_ n pre f :
  length vals = length inits -> Z.of_nat (length done_) = n - 1 -> n + Z.of_nat (length inits) = 13 ->
  Forall value_ok vals -> Forall2 (fun d v => v = None -> d = None) inits vals ->
  (length inits < f)%nat -> blen pre + 20 * Z.of_nat (length inits) <= max_safe ->
  sample_fields f e (pre ++ encode_values n inits vals)%list (blen pre) (done_ ++ inits)%list =
    Ok (done_ ++ vals)%list.
Proof.
  revert vals done_ n pre f.
  induction inits as [|d inits IH]; intros [|v vals] done_ n pre f Hlen Hdone Hn Hok Hnull Hf Hsafe;
    try done; (destruct f as [|f]; [simpl in Hf; lia|]).
  - cbn [sample_fields encode_values]. rewrite app_nil_r.
    assert ((blen pre <? blen pre) = false) as -> by (apply Z.ltb_ge; lia). done.
  - apply Forall_cons in Hok as [Hv Hok]. apply Forall2_cons in Hnull as [Hd Hnull].
    simpl length in *. cbn [encode_values].
    destruct (bool_decide (v = d)) eqn:Ed; bool_hyps.
    + subst. rewrite app_nil_l.
      specialize (IH vals (done_ ++ [d])%list (n + 1) pre (S f)).
      rewrite <- !app_assoc in IH. simpl app in IH. apply IH; try done; rewrite ?length_app; simpl; lia.
    + destruct v as [x|]; [|by rewrite Hd in Ed]. simpl in Hv.
      unfold encode_field. rewrite <- !app_assoc. cbn [sample_fields].
      pose proof (encode_varint_pos (n * 8)). pose proof (encode_varint_pos x).
      pose proof (blen_nonneg pre). unfold max_safe in *.
      set (tail := encode_values (n + 1) inits vals). pose proof (blen_nonneg tail).
      assert ((blen pre <? blen (pre ++ encode_varint (n * 8) ++ encode_varint x ++ tail)%list) = true) as ->.
      { apply Z.ltb_lt. rewrite !blen_app. lia. }
      rewrite readProtobufVarint_encode; [|lia|unfold safe_z, max_safe; apply andb_true_iff; split; apply Z.leb_le; lia].
      cbn [rbind].
      rewrite Z.shiftr_div_pow2 by lia. change (2 ^ 3) with 8. rewrite Z.div_mul by lia.
      change 7 with (Z.ones 3) at 1. rewrite Z.land_ones by lia. change (2 ^ 3) with 8. rewrite Z.mod_mul by lia.
      assert ((1 <=? n) && (n <=? 12) = true) as -> by (apply andb_true_iff; split; apply Z.leb_le; lia).
      simpl negb. cbv iota.
      rewrite (app_assoc pre (encode_varint (n * 8))), <- blen_app.
      rewrite readProtobufVarint_encode; [|lia|unfold safe_z, max_safe; apply andb_true_iff; rewrite blen_app; split; apply Z.leb_le; lia].
      cbn [rbind]. unfold safeProtobufNumber, max_safe.
      assert ((9007199254740991 <? x) = false) as -> by (apply Z.ltb_ge; lia). cbn [rbind].
      rewrite (app_assoc (pre ++ _)%list (encode_varint x)), <- blen_app.
      assert (Hins : <[Z.to_nat (n - 1) := Some x]> (done_ ++ d :: inits)%list =
        ((done_ ++ [Some x]) ++ inits)%list).
      { replace (Z.to_nat (n - 1)) with (length done_ + 0)%nat by lia.
        rewrite insert_app_r. simpl. by rewrite <- app_assoc. }
      rewrite Hins. subst tail. rewrite IH; [by rewrite <- app_assoc|..]; try done;
        rewrite ?length_app, ?blen_app; simpl; lia.
Qed.

Lemma values_of_sample_ok s : sample_ok s ->
  Forall2 (fun d v => v = None -> d = None) initial_values (values_of_sample s).
Proof. intros _. unfold initial_values, values_of_sample. simpl. repeat constructor; done. Qed.

(** More fuel than needed changes nothing. *)
Lemma sample_fields_more_fuel f f' e bytes offset values :
  sample_fields f e bytes offset values <> Err "out_of_fuel" -> (f <= f')%nat ->
  sample_fields f' e bytes offset values = sample_fields f e bytes offset values.
Proof.
  revert f' offset values. induction f as [|f IH]; intros f' offset values H Hf; [done|].
  destruct f' as [|f']; [lia|]. cbn [sample_fields] in *.
  destruct (offset <? blen bytes); [|done].
  destruct (readProtobufVarint bytes offset) as [[tag next]|]; cbn [rbind] in *; [|done].
  destruct (_ && _).
  - destruct (negb _); [done|].
    destruct (readProtobufVarint bytes next) as [[v next']|]; cbn [rbind] in *; [|done].
    destruct (safeProtobufNumber v); cbn [rbind] in *; [|done]. apply IH; [done|lia].
  - destruct (skipProtobufField bytes next _); cbn [rbind] in *; [|done]. apply IH; [done|lia].
Qed.

Lemma encode_sample_fields e s : sample_ok s -> e <> "out_of_fuel" ->
  sample_fields (S (length (encode_sample s))) e (encode_sample s) 0 initial_values =
    Ok (values_of_sample s).
Proof.
  intros Hs He.
  transitivity (sample_fields (13 + length (encode_sample s)) e (encode_sample s) 0 initial_values).
  - symmetry. apply sample_fields_more_fuel; [|lia].
    apply sample_fields_fuel; [|unfold blen; lia|done]. unfold blen. lia.
  - apply (sample_fields_encode e initial_values (values_of_sample s) [] 1 []); try done;
      [apply Hs | by apply values_of_sample_ok | simpl; lia].
Qed.

Lemma sample_of_values_of_sample s : sample_of_values (values_of_sample s) = s.
Proof. by destruct s as [? ? ? ? ? ? ? ? ? ? [] []]. Qed.

Lemma encode_values_length n inits vals :
  blen (encode_values n inits vals) <= 20 * Z.of_nat (length inits).
Proof.
  revert n vals. induction inits as [|d inits IH]; intros n [|v vals]; cbn [encode_values];
    try (unfold blen; simpl; lia).
  rewrite blen_app. specialize (IH (n + 1) vals). simpl length.
  assert (blen (if bool_decide (v = d) then [] else match v with Some x => encode_field n x | None => [] end) <= 20); [|lia].
  destruct (bool_decide _); [unfold blen; simpl; lia|]. destruct v as [x|]; [|unfold blen; simpl; lia].
  unfold encode_field. rewrite blen_app. pose proof (encode_varint_pos (n * 8)). pose proof (encode_varint_pos x). lia.
Qed.

Lemma encode_sample_size s : sample_ok s -> 0 < blen (encode_sample s) <= 240.
Proof.
  intros Hs. split; [|apply (encode_values_length 1 initial_values)].
  unfold encode_sample, values_of_sample, initial_values. cbn [replicate app encode_values].
  rewrite bool_decide_eq_false_2 by (intros [= He]; destruct Hs; lia).
  unfold encode_field. rewrite !blen_app. pose proof (encode_varint_pos (1 * 8)).
  repeat match goal with |- context [blen ?x] => let H := fresh in pose proof (blen_nonneg x) as H; 
    generalize dependent (blen x); intros end. lia.
Qed.

Lemma decodeMetricSample_encode s : report_sample_ok s -> decodeMetricSample (encode_sample s) = Ok s.
Proof.
  intros [Hs Hm Hst]. unfold decodeMetricSample. rewrite encode_sample_fields by done. cbn [rbind].
  rewrite sample_of_values_of_sample. destruct Hs as [_ Ho Hc].
  destruct (_ || _) eqn:E; [|done]. exfalso.
  repeat (apply orb_true_iff in E as [E|E]); bool_hyps; lia.
Qed.

(** ** Properties *)

(** Varints: a successful read yields a value below 2^64 and consumes between one and
    ten bytes inside the buffer, and reading back an encoded 64-bit value anywhere in a
    buffer returns that value and the position after it. *)
Theorem readProtobufVarint_correct :
  (forall bytes start v next, readProtobufVarint bytes start = Ok (v, next) ->
     0 <= v < 2 ^ 64 /\ start < next /\ next <= blen bytes /\ next <= start + 10) /\
  (forall pre v rest, 0 <= v < 2 ^ 64 -> safe_z (blen pre) = true ->
     readProtobufVarint (pre ++ encode_varint v ++ rest)%list (blen pre) =
       Ok (v, blen pre + blen (encode_varint v))).
Proof.
  split; [|intros; by apply readProtobufVarint_encode].
  intros bytes start v next H. apply readProtobufVarint_bounds in H. lia.
Qed.

Example readProtobufVarint_correct_witness :
  0 <= 300 < 2 ^ 64 /\
  readProtobufVarint ([Byte.x05] ++ encode_varint 300 ++ [])%list (blen [Byte.x05]) = Ok (300, 3).
Proof.
  split; [lia|]. exact (proj2 readProtobufVarint_correct [Byte.x05] 300 [] ltac:(lia) eq_refl).
Defined.

(** C40: the decoding loops terminate on every input, malformed ones included: no byte
    sequence exhausts the loop bound of one round per byte, for live samples, report
    samples and whole (decompressed) reports. *)
Theorem decoders_terminate bytes :
  decodeLiveMetricSample bytes <> Err "out_of_fuel" /\
  decodeMetricSample bytes <> Err "out_of_fuel" /\
  report_samples (S (length bytes)) bytes 0 [] <> Err "out_of_fuel".
Proof.
  split_and!; [apply decodeLiveMetricSample_fuel | apply decodeMetricSample_fuel |].
  apply report_samples_fuel; unfold blen; lia.
Qed.

Lemma decode_encode_sample s : sample_ok s -> decodeLiveMetricSample (encode_sample s) = Ok s.
Proof.
  intros Hs. pose proof (encode_sample_size s Hs). unfold decodeLiveMetricSample.
  assert ((blen (encode_sample s) =? 0) || (2048 <? blen (encode_sample s)) = false) as ->.
  { apply orb_false_iff. split; [apply Z.eqb_neq; lia | apply Z.ltb_ge; lia]. }
  rewrite encode_sample_fields by done. cbn [rbind]. rewrite sample_of_values_of_sample.
  destruct Hs as [_ Ho Hc]. destruct (_ || _) eqn:E; [|done].
  apply orb_true_iff in E as [E|E]; bool_hyps; lia.
Qed.

(** Live samples: every sample the decoder accepts has non-negative safe-integer
    fields, a positive timestamp and a CPU share of at most 1000 permille, and decoding the
    Agent's encoding of such a sample gives exactly that sample back. *)
Theorem decodeLiveMetricSample_correct :
  (forall bytes s, decodeLiveMetricSample bytes = Ok s -> sample_ok s) /\
  (forall s, sample_ok s -> decodeLiveMetricSample (encode_sample s) = Ok s).
Proof.
  split; [intros bytes s; apply decodeLiveMetricSample_ok|].
  apply decode_encode_sample.
Qed.

Example decodeLiveMetricSample_correct_witness :
  let s := MetricSample 1700000000000 421 5 8 0 0 10 20 30 40 (Some 0) None in
  sample_ok s /\ decodeLiveMetricSample (encode_sample s) = Ok s /\
  (exists bytes, decodeLiveMetricSample bytes = Ok s).
Proof.
  intros s. assert (sample_ok s) as Hs.
  { split; [|done|done]. unfold values_of_sample. simpl. repeat constructor; done. }
  pose proof (proj2 decodeLiveMetricSample_correct s Hs) as H.
  split_and!; [exact Hs | exact H | eexists; exact H].
Defined.

(** The Agent's report body: each sample as a length-delimited field 5 (tag byte 42). *)
Definition encode_report (samples : list metric_sample) : list byte :=
  concat (map (fun s => encode_varint 42 ++ encode_varint (blen (encode_sample s)) ++ encode_sample s)%list
            samples).

Lemma slice_app pre mid rest :
  slice (pre ++ mid ++ rest)%list (blen pre) (blen pre + blen mid) = mid.
Proof.
  unfold slice. rewrite drop_blen_app.
  replace (Z.to_nat (blen pre + blen mid - blen pre)) with (length mid) by (unfold blen; lia).
  apply take_app_length.
Qed.

Lemma report_samples_encode samples acc pre f :
  Forall report_sample_ok samples -> (length samples < f)%nat ->
  (length acc + length samples <= 60)%nat ->
  blen pre + 300 * Z.of_nat (length samples) <= max_safe ->
  report_samples f (pre ++ encode_report samples)%list (blen pre) acc = Ok (acc ++ samples)%list.
Proof.
  revert acc pre f. induction samples as [|s samples IH]; intros acc pre f Hok Hf Hn Hsafe;
    (destruct f as [|f]; [simpl in Hf; lia|]).
  - cbn [report_samples]. unfold encode_report. simpl. rewrite !app_nil_r.
    assert ((blen pre <? blen pre) = false) as -> by (apply Z.ltb_ge; lia). done.
  - apply Forall_cons in Hok as [Hs Hok]. simpl length in *.
    pose proof (encode_sample_size s (report_base _ Hs)) as Hsz. pose proof (blen_nonneg pre).
    pose proof (encode_varint_pos 42). pose proof (encode_varint_pos (blen (encode_sample s))).
    change (encode_report (s :: samples)) with
      ((encode_varint 42 ++ encode_varint (blen (encode_sample s)) ++ encode_sample s)
        ++ encode_report samples)%list.
    set (tail := encode_report samples). pose proof (blen_nonneg tail).
    rewrite <- !app_assoc. cbn [report_samples]. unfold max_safe in *.
    assert (Hz : forall z, 0 <= z <= 9007199254740991 -> safe_z z = true).
    { intros z Hz. unfold safe_z, max_safe. apply andb_true_iff; split; apply Z.leb_le; lia. }
    rewrite readProtobufVarint_encode by (first [lia | apply Hz; lia]). cbn [rbind].
    change (Z.shiftr 42 3 =? 5) with true. change (negb (Z.land 42 7 =? 2)) with false. cbv iota.
    rewrite (proj2 (Z.ltb_lt _ _)) by (rewrite !blen_app; lia).
    rewrite (app_assoc pre (encode_varint 42)), <- blen_app.
    rewrite readProtobufVarint_encode by (first [lia | apply Hz; rewrite blen_app; lia]). cbn [rbind].
    unfold safeProtobufNumber, max_safe. rewrite (proj2 (Z.ltb_ge _ _)) by lia. cbn [rbind].
    rewrite (app_assoc (pre ++ _)%list), <- (blen_app (pre ++ _)%list), slice_app.
    rewrite (proj2 (Z.ltb_ge _ _)) by (rewrite !blen_app; lia).
    rewrite decodeMetricSample_encode by done. cbn [rbind].
    rewrite (proj2 (Z.ltb_ge _ _)) by (rewrite length_app; simpl; lia).
    rewrite (app_assoc (_ ++ _)%list (encode_sample s)), <- blen_app. subst tail.
    rewrite IH; [by rewrite <- app_assoc|done|lia|rewrite length_app; simpl; lia|].
    rewrite !blen_app. lia.
Qed.

Lemma encode_report_size samples : Forall report_sample_ok samples ->
  blen (encode_report samples) <= 260 * Z.of_nat (length samples).
Proof.
  induction 1 as [|s l Hs Hl IH]; [done|].
  change (encode_report (s :: l)) with
    ((encode_varint 42 ++ encode_varint (blen (encode_sample s)) ++ encode_sample s)
      ++ encode_report l)%list.
  rewrite !blen_app. pose proof (encode_sample_size s (report_base _ Hs)).
  pose proof (encode_varint_pos 42). pose proof (encode_varint_pos (blen (encode_sample s))).
  simpl length. lia.
Qed.

Lemma report_samples_more_fuel f f' bytes o a :
  report_samples f bytes o a <> Err "out_of_fuel" -> (f <= f')%nat ->
  report_samples f' bytes o a = report_samples f bytes o a.
Proof.
  revert f' o a. induction f as [|f IH]; intros f' o a H Hf; [done|]. destruct f' as [|f']; [lia|].
  cbn [report_samples] in *. destruct (o <? blen bytes); [|done].
  destruct (readProtobufVarint bytes o) as [[tag next]|]; cbn [rbind] in *; [|done].
  destruct (Z.shiftr tag 3 =? 5).
  - destruct (negb _); [done|].
    destruct (readProtobufVarint bytes next) as [[v n']|]; cbn [rbind] in *; [|done].
    destruct (safeProtobufNumber v); cbn [rbind] in *; [|done]. destruct (_ <? _); [done|].
    destruct (decodeMetricSample _); cbn [rbind] in *; [|done].
    destruct (60 <? _); [done|]. apply IH; [done|lia].
  - destruct (skipProtobufField bytes next _); cbn [rbind] in *; [|done]. apply IH; [done|lia].
Qed.

Lemma report_samples_ok f bytes offset acc out :
  Forall report_sample_ok acc -> (length acc <= 60)%nat ->
  report_samples f bytes offset acc = Ok out -> Forall report_sample_ok out /\ (length out <= 60)%nat.
Proof.
  revert offset acc. induction f as [|f IH]; intros offset acc Hok Hl H; [done|].
  cbn [report_samples] in H. destruct (offset <? blen bytes); [|ok_inv; by subst].
  apply rbind_ok in H as ([tag next] & E1 & H). destruct (Z.shiftr tag 3 =? 5).
  - ok_inv. bool_hyps. eapply IH; [| |eassumption]; [|lia].
    apply Forall_app. split; [done|]. constructor; [|done]. by eapply decodeMetricSample_ok.
  - ok_inv. by eapply IH.
Qed.

Lemma inflate_chunks_ok chunks total out :
  0 <= total -> inflate_chunks chunks None total = Ok out ->
  out = concat chunks /\ (chunks <> [] -> total + blen out <= MAX_DECOMPRESSED_BYTES).
Proof.
  revert total out. induction chunks as [|c chunks IH]; intros total out Ht H; cbn [inflate_chunks] in H.
  - ok_inv. by subst.
  - ok_inv. bool_hyps. subst.
    match goal with H : inflate_chunks _ _ _ = _ |- _ => apply IH in H as [-> Hb] end;
      [|pose proof (blen_nonneg c); lia].
    split; [done|]. intros _. cbn [concat]. rewrite blen_app.
    destruct chunks; [simpl concat; unfold blen at 2; simpl; lia|]. specialize (Hb ltac:(done)). lia.
Qed.

Lemma inflate_chunks_all chunks total :
  total + blen (concat chunks) <= MAX_DECOMPRESSED_BYTES ->
  inflate_chunks chunks None total = Ok (concat chunks).
Proof.
  revert total. induction chunks as [|c chunks IH]; intros total Hb; [done|].
  cbn [inflate_chunks concat] in *. rewrite blen_app in Hb. pose proof (blen_nonneg (concat chunks)).
  rewrite (proj2 (Z.ltb_ge _ _)) by lia. rewrite IH by lia. done.
Qed.

(** Compressed machine reports: an accepted report has between one and sixty samples,
    each within its memory and storage totals, and inflated to at most 256 KiB; and a report
    the Agent encoded from such samples decodes to exactly those samples, whatever the
    chunks the decompression stream delivers it in. *)
Theorem decodeCompressedMachineSamples_correct decompress :
  (forall value samples, decodeCompressedMachineSamples decompress value = Ok samples ->
     samples <> [] /\ (length samples <= 60)%nat /\ Forall report_sample_ok samples /\
     0 < blen value <= MAX_COMPRESSED_BYTES) /\
  (forall value chunks samples, 0 < blen value <= MAX_COMPRESSED_BYTES ->
     decompress value = (chunks, None) -> concat chunks = encode_report samples ->
     samples <> [] -> (length samples <= 60)%nat -> Forall report_sample_ok samples ->
     decodeCompressedMachineSamples decompress value = Ok samples).
Proof.
  unfold decodeCompressedMachineSamples, inflateZlib. split.
  - intros value samples H. ok_inv. bool_hyps. subst.
    match goal with H : report_samples _ _ _ _ = _ |- _ => apply report_samples_ok in H as [? ?] end;
      [|constructor|simpl; lia].
    pose proof (blen_nonneg value). split_and!; try done. lia.
  - intros value chunks samples [Hv0 Hv] Hd Hc Hne Hl Hok.
    rewrite (proj2 (orb_false_iff _ _)) by (split; [apply Z.eqb_neq; lia|apply Z.ltb_ge; lia]).
    pose proof (encode_report_size samples Hok) as Hsize.
    rewrite Hd, inflate_chunks_all by (rewrite Hc; unfold MAX_DECOMPRESSED_BYTES; lia).
    cbn [rbind]. rewrite Hc.
    assert (Hr : report_samples (61 + length (encode_report samples)) (encode_report samples) 0 [] = Ok samples).
    { apply (report_samples_encode samples [] []); [done|lia|simpl; lia|unfold blen, max_safe; simpl; lia]. }
    rewrite <- (report_samples_more_fuel (S (length (encode_report samples)))
      (61 + length (encode_report samples))%nat), Hr;
      [|apply report_samples_fuel; unfold blen; lia|lia].
    cbn [rbind]. by rewrite bool_decide_eq_false_2.
Qed.

Example decodeCompressedMachineSamples_correct_witness :
  let s := MetricSample 1700000000000 421 5 8 0 0 10 20 30 40 (Some 0) None in
  let decompress (v : list byte) : list (list byte) * option string :=
    ([take 3 (encode_report [s; s]); drop 3 (encode_report [s; s])], None) in
  Forall report_sample_ok [s; s] /\
  decodeCompressedMachineSamples decompress [Byte.x78] = Ok [s; s].
Proof.
  intros s decompress. assert (report_sample_ok s) as Hs.
  { split; [split; [|done|done]; unfold values_of_sample; simpl; repeat constructor; done|done|done]. }
  assert (Forall report_sample_ok [s; s]) as Hss by (repeat constructor; done).
  split; [exact Hss|].
  apply (proj2 (decodeCompressedMachineSamples_correct decompress) [Byte.x78]
    [take 3 (encode_report [s; s]); drop 3 (encode_report [s; s])]);
    [split; [done|vm_compute; discriminate] | reflexivity | | discriminate | simpl; lia | exact Hss].
  cbn [concat]. rewrite app_nil_r. apply take_drop.
Defined.
