(* ===== verification/Base64Url.v ===== *)
(** * Base64Url: the base64url codec of tickets, keys and cursors

    [encodeBase64Url] and [decodeBase64Url] of [packages/contracts/src/live-ticket.ts], with
    the platform's [btoa] and [atob] they call. *)

From Stdlib Require Import ZArith Lia Bool String Ascii List.
From stdpp Require Import base tactics list strings.
From S2P Require Import Prelude.
From S2P Require Import Js.
Open Scope string_scope.
Open Scope Z_scope.

(** ** [btoa] and [atob] *)

(** The standard alphabet. *)
Definition sextet_char (v : Z) : ascii :=
  if v <? 26 then chr (Z.to_N (65 + v))
  else if v <? 52 then chr (Z.to_N (97 + (v - 26)))
  else if v <? 62 then chr (Z.to_N (48 + (v - 52)))
  else if v =? 62 then "+"%char else "/"%char.
Definition char_sextet (c : ascii) : option Z :=
  if is_upper c then Some (Z.of_N (ord c) - 65)
  else if is_lower c then Some (Z.of_N (ord c) - 71)
  else if is_digit c then Some (Z.of_N (ord c) + 4)
  else if Ascii.eqb c "+" then Some 62
  else if Ascii.eqb c "/" then Some 63
  else None.

(** Bytes in groups of three as sextets in groups of four. *)
Fixpoint to_sextets (bs : list Z) : list Z :=
  match bs with
  | a :: b :: c :: r =>
      a / 4 :: a mod 4 * 16 + b / 16 :: b mod 16 * 4 + c / 64 :: c mod 64 :: to_sextets r
  | [a; b] => [a / 4; a mod 4 * 16 + b / 16; b mod 16 * 4]
  | [a] => [a / 4; a mod 4 * 16]
  | [] => []
  end.
Fixpoint of_sextets (vs : list Z) : list Z :=
  match vs with
  | w :: x :: y :: z :: r => w * 4 + x / 16 :: x mod 16 * 16 + y / 4 :: y mod 4 * 64 + z :: of_sextets r
  | [w; x; y] => [w * 4 + x / 16; x mod 16 * 16 + y / 4]
  | [w; x] => [w * 4 + x / 16]
  | _ => []
  end.

Definition string_of_chars (l : list ascii) : string := String.string_of_list_ascii l.
Definition chars_of_string (s : string) : list ascii := String.list_ascii_of_string s.

(** [btoa(String.fromCharCode(...bytes))] *)
Definition btoa (bytes : list byte) : string :=
  let vs := to_sextets (map bz bytes) in
  string_of_chars (map sextet_char vs ++
    replicate (Z.to_nat ((- Z.of_nat (length vs)) mod 4)) "="%char)%list.

(** Forgiving base64: up to two [=] are dropped from a text of whole groups. *)
Definition strip_padding (s : string) : string :=
  if Z.of_nat (String.length s) mod 4 =? 0 then
    match str_rev s with
    | String "=" (String "=" r) => str_rev r
    | String "=" r => str_rev r
    | _ => s
    end
  else s.
Definition atob (s : string) : res (list byte) :=
  let s := strip_padding s in
  throw_if Z.of_nat (String.length s) mod 4 =? 1 as "InvalidCharacterError" in
  match mapM char_sextet (chars_of_string s) with
  | Some vs => Ok (map byte_of_Z (of_sextets vs))
  | None => Err "InvalidCharacterError"
  end.

(** ** The codec *)

Definition to_url_char (c : ascii) : ascii :=
  if Ascii.eqb c "+" then "-"%char else if Ascii.eqb c "/" then "_"%char else c.
Definition of_url_char (c : ascii) : ascii :=
  if Ascii.eqb c "-" then "+"%char else if Ascii.eqb c "_" then "/"%char else c.
Definition is_url_char (c : ascii) : bool :=
  is_upper c || is_lower c || is_digit c || Ascii.eqb c "_" || Ascii.eqb c "-".

(* @src packages/contracts/src/live-ticket.ts encodeBase64Url *)
Definition encodeBase64Url (bytes : list byte) : string :=
  str_map to_url_char (str_filter (fun c => negb (Ascii.eqb c "=")) (btoa bytes)).

(** [s.padEnd(n, "=")] *)
Definition pad_end (n : Z) (s : string) : string :=
  s ++ string_of_chars (replicate (Z.to_nat (n - slen s)) "="%char).

(* @src packages/contracts/src/live-ticket.ts decodeBase64Url *)
Definition decodeBase64Url (value : string) (maximumBytes : Z) : res (list byte) :=
  throw_if negb (str_forall is_url_char value) || ((maximumBytes * 4 + 2) / 3 <? slen value)
    as "invalid_base64url" in
  let base64 := pad_end ((slen value + 3) / 4 * 4) (str_map of_url_char value) in
  let* bytes := atob base64 in
  throw_if maximumBytes <? blen bytes as "invalid_base64url" in
  Ok bytes.

(** ** The round trip *)

Lemma list3_ind {A} (P : list A -> Prop) :
  P [] -> (forall a, P [a]) -> (forall a b, P [a; b]) ->
  (forall a b c r, P r -> P (a :: b :: c :: r)) -> forall l, P l.
Proof.
  intros H0 H1 H2 H3 l.
  enough (P l /\ (forall a, P (a :: l)) /\ (forall a b, P (a :: b :: l))) by tauto.
  induction l as [|x l (IH0 & IH1 & IH2)]; split_and!; auto.
Qed.

Lemma div_mod_pack q r k : 0 <= r < k -> (q * k + r) / k = q /\ (q * k + r) mod k = r.
Proof.
  intros Hr. split.
  - rewrite Z.div_add_l, Z.div_small by lia. lia.
  - rewrite Z.add_comm, Z.mod_add, Z.mod_small by lia. lia.
Qed.

Lemma group_arith a b c : 0 <= a < 256 -> 0 <= b < 256 -> 0 <= c < 256 ->
  let w := a / 4 in let x := a mod 4 * 16 + b / 16 in
  let y := b mod 16 * 4 + c / 64 in let z := c mod 64 in
  (0 <= w < 64 /\ 0 <= x < 64 /\ 0 <= y < 64 /\ 0 <= z < 64) /\
  w * 4 + x / 16 = a /\ x mod 16 * 16 + y / 4 = b /\ y mod 4 * 64 + z = c.
Proof.
  intros Ha Hb Hc. cbv zeta.
  pose proof (Z.div_mod a 4 ltac:(lia)). pose proof (Z.mod_pos_bound a 4 ltac:(lia)).
  pose proof (Z.div_mod b 16 ltac:(lia)). pose proof (Z.mod_pos_bound b 16 ltac:(lia)).
  pose proof (Z.div_mod c 64 ltac:(lia)). pose proof (Z.mod_pos_bound c 64 ltac:(lia)).
  assert (0 <= b / 16 < 16) by (split; [apply Z.div_pos; lia | apply Z.div_lt_upper_bound; lia]).
  assert (0 <= c / 64 < 4) by (split; [apply Z.div_pos; lia | apply Z.div_lt_upper_bound; lia]).
  assert (0 <= a / 4 < 64) by (split; [apply Z.div_pos; lia | apply Z.div_lt_upper_bound; lia]).
  destruct (div_mod_pack (a mod 4) (b / 16) 16 ltac:(lia)) as [-> ->].
  destruct (div_mod_pack (b mod 16) (c / 64) 4 ltac:(lia)) as [-> ->]. lia.
Qed.

Lemma of_to_sextets bs : Forall (fun b => 0 <= b < 256) bs ->
  of_sextets (to_sextets bs) = bs /\ Forall (fun v => 0 <= v < 64) (to_sextets bs).
Proof.
  induction bs as [|a|a b|a b c r IH] using list3_ind; intros H.
  - done.
  - apply Forall_cons in H as [Ha _].
    destruct (group_arith a 0 0 Ha ltac:(lia) ltac:(lia)) as ((Hw & Hx & _) & H1 & _).
    cbv zeta in *. rewrite Z.div_0_l, Z.add_0_r in * by lia. cbn [to_sextets of_sextets].
    rewrite H1. split; [done|]. repeat constructor; lia.
  - apply Forall_cons in H as [Ha H]. apply Forall_cons in H as [Hb _].
    destruct (group_arith a b 0 Ha Hb ltac:(lia)) as ((Hw & Hx & Hy & _) & H1 & H2 & _).
    cbv zeta in *. rewrite (Z.div_0_l 64), Z.add_0_r in * by lia. cbn [to_sextets of_sextets].
    rewrite H1, H2. split; [done|]. repeat constructor; lia.
  - apply Forall_cons in H as [Ha H]. apply Forall_cons in H as [Hb H].
    apply Forall_cons in H as [Hc H]. destruct (IH H) as [IH1 IH2].
    destruct (group_arith a b c Ha Hb Hc) as ((Hw & Hx & Hy & Hz) & H1 & H2 & H3). cbv zeta in *.
    cbn [to_sextets of_sextets]. rewrite H1, H2, H3, IH1. split; [done|]. repeat constructor; lia || done.
Qed.

Lemma sextet_char_facts v : 0 <= v < 64 ->
  char_sextet (of_url_char (to_url_char (sextet_char v))) = Some v /\
  is_url_char (to_url_char (sextet_char v)) = true /\ Ascii.eqb (sextet_char v) "=" = false.
Proof.
  intros Hv. assert (Hf : forallb (fun n => let c := sextet_char (Z.of_nat n) in
    bool_decide (char_sextet (of_url_char (to_url_char c)) = Some (Z.of_nat n)) &&
    is_url_char (to_url_char c) && negb (Ascii.eqb c "=")) (seq 0 64) = true) by (vm_compute; reflexivity).
  rewrite forallb_forall in Hf. specialize (Hf (Z.to_nat v)). rewrite in_seq, Z2Nat.id in Hf by lia.
  specialize (Hf ltac:(lia)). cbv zeta in Hf. bool_hyps. done.
Qed.

(** The text of a byte string: one URL character per sextet. *)
Lemma encodeBase64Url_chars bytes :
  encodeBase64Url bytes = string_of_chars (map (to_url_char ∘ sextet_char) (to_sextets (map bz bytes))).
Proof.
  unfold encodeBase64Url, btoa. generalize ((- Z.of_nat (length (to_sextets (map bz bytes)))) mod 4).
  intros n. destruct (of_to_sextets (map bz bytes)) as [_ Hv].
  { apply Forall_forall. intros x Hx. apply list_elem_of_fmap in Hx as (b & -> & _). apply bz_range. }
  induction Hv as [|v vs Hv Hvs IH]; cbn [map app string_of_chars String.string_of_list_ascii].
  - generalize (Z.to_nat n). intros k. induction k as [|k IHk]; [done|]. simpl. exact IHk.
  - cbn. rewrite (proj2 (proj2 (sextet_char_facts v Hv))). cbn. f_equal. exact IH.
Qed.

Lemma to_sextets_length bs : Z.of_nat (length (to_sextets bs)) = (Z.of_nat (length bs) * 4 + 2) / 3.
Proof.
  induction bs as [|a|a b|a b c r IH] using list3_ind; [done|done|done|].
  cbn [to_sextets length]. rewrite !Nat2Z.inj_succ, IH.
  replace (Z.succ (Z.succ (Z.succ (Z.of_nat (length r)))) * 4 + 2)
    with (4 * 3 + (Z.of_nat (length r) * 4 + 2)) by lia.
  rewrite Z.div_add_l by lia. lia.
Qed.

Lemma slen_chars l : slen (string_of_chars l) = Z.of_nat (length l).
Proof. unfold slen. f_equal. induction l as [|c l IH]; [done|]. simpl. by f_equal. Qed.

Lemma encodeBase64Url_length bytes : slen (encodeBase64Url bytes) = (blen bytes * 4 + 2) / 3.
Proof.
  rewrite encodeBase64Url_chars, slen_chars, length_map, to_sextets_length, length_map. done.
Qed.

Lemma encodeBase64Url_alphabet bytes : str_forall is_url_char (encodeBase64Url bytes) = true.
Proof.
  rewrite encodeBase64Url_chars. destruct (of_to_sextets (map bz bytes)) as [_ Hv].
  { apply Forall_forall. intros x Hx. apply list_elem_of_fmap in Hx as (b & -> & _). apply bz_range. }
  induction Hv as [|v vs Hv Hvs IH]; [done|].
  cbn [map string_of_chars String.string_of_list_ascii str_forall]. apply andb_true_iff. split; [|exact IH].
  apply (sextet_char_facts v Hv).
Qed.

Lemma str_rev_app_spec s acc : str_rev_app s acc = str_rev s ++ acc.
Proof.
  unfold str_rev. revert acc. induction s as [|c s IH]; intros acc; [done|]. simpl.
  rewrite (IH (String c acc)), (IH (String c "")), str_app_assoc. done.
Qed.
Lemma str_rev_cons c s : str_rev (String c s) = str_rev s ++ String c "".
Proof. unfold str_rev at 1. simpl. apply str_rev_app_spec. Qed.
Lemma str_rev_append a b : str_rev (a ++ b) = str_rev b ++ str_rev a.
Proof.
  induction a as [|c a IH]; simpl; [by rewrite str_app_nil_r|].
  by rewrite !str_rev_cons, IH, str_app_assoc.
Qed.
Lemma str_rev_involutive s : str_rev (str_rev s) = s.
Proof. induction s as [|c s IH]; [done|]. rewrite str_rev_cons, str_rev_append, IH. done. Qed.

Lemma str_rev_length s : String.length (str_rev s) = String.length s.
Proof.
  induction s as [|c s IH]; [done|]. rewrite str_rev_cons, str_length_app, IH. simpl. lia.
Qed.

Lemma chars_string l : chars_of_string (string_of_chars l) = l.
Proof. apply String.list_ascii_of_string_of_list_ascii. Qed.
Lemma string_chars s : string_of_chars (chars_of_string s) = s.
Proof. apply String.string_of_list_ascii_of_string. Qed.
Lemma string_of_chars_app a b : string_of_chars (a ++ b)%list = string_of_chars a ++ string_of_chars b.
Proof. induction a as [|c a IH]; [done|]. simpl. by f_equal. Qed.
Lemma str_map_chars f l : str_map f (string_of_chars l) = string_of_chars (map f l).
Proof. induction l as [|c l IH]; [done|]. simpl. by f_equal. Qed.
Lemma str_map_length f s : String.length (str_map f s) = String.length s.
Proof. induction s as [|c s IH]; [done|]. simpl. by f_equal. Qed.

(** No [=] in the text, up to two after it: [strip_padding] drops exactly those. *)
Lemma strip_padding_padded s k :
  str_forall (fun c => negb (Ascii.eqb c "=")) s = true -> (k <= 2)%nat ->
  Z.of_nat (String.length s + k) mod 4 = 0 ->
  strip_padding (s ++ string_of_chars (replicate k "="%char)) = s.
Proof.
  intros Hs Hk Hm. unfold strip_padding.
  rewrite str_length_app.
  replace (String.length (string_of_chars (replicate k "="%char))) with k
    by (clear; induction k as [|k IH]; [done | simpl; by f_equal]).
  rewrite Hm. cbn [Z.eqb]. rewrite str_rev_append.
  assert (Hr : forall c r, str_rev s = String c r -> Ascii.eqb c "=" = false).
  { intros c r E. rewrite <- (str_rev_involutive s), E, str_rev_cons, str_forall_app in Hs.
    simpl in Hs. bool_hyps. done. }
  destruct k as [|[|[|k]]]; [| | |lia]; simpl.
  - rewrite str_app_nil_r. destruct (str_rev s) as [|c r] eqn:E; [done|].
    specialize (Hr c r eq_refl).
    destruct (Ascii.eqb_spec c "="); [done|].
    destruct c as [[] [] [] [] [] [] [] []]; done.
  - change (str_rev "=") with "=". destruct (str_rev s) as [|c r] eqn:E; simpl.
    + rewrite <- (str_rev_involutive s), E. done.
    + specialize (Hr c r eq_refl). rewrite <- (str_rev_involutive s), E.
      destruct c as [[] [] [] [] [] [] [] []]; done.
  - change (str_rev "==") with "==". simpl. by rewrite str_rev_involutive.
Qed.

Lemma mapM_sextets vs : Forall (fun v => 0 <= v < 64) vs ->
  mapM char_sextet (map of_url_char (map (to_url_char ∘ sextet_char) vs)) = Some vs.
Proof.
  induction 1 as [|v vs Hv _ IH]; [done|]. cbn [map]. cbn.
  change (mapM char_sextet _) with (mapM char_sextet (map of_url_char (map (to_url_char ∘ sextet_char) vs))).
  by rewrite (proj1 (sextet_char_facts v Hv)), IH.
Qed.

Lemma pad_amount (n k : Z) : 0 <= n -> n mod 4 <> 1 ->
  k = (n + 3) / 4 * 4 - n -> 0 <= k <= 2 /\ (n + k) mod 4 = 0.
Proof.
  intros Hn H1 ->. pose proof (Z.div_mod n 4 ltac:(lia)). pose proof (Z.mod_pos_bound n 4 ltac:(lia)).
  pose proof (Z.div_mod (n + 3) 4 ltac:(lia)). pose proof (Z.mod_pos_bound (n + 3) 4 ltac:(lia)).
  split; [lia|]. replace (n + ((n + 3) / 4 * 4 - n)) with ((n + 3) / 4 * 4) by lia. apply Z.mod_mul. lia.
Qed.

Lemma sextets_mod4 n : 0 <= n -> ((n * 4 + 2) / 3) mod 4 <> 1.
Proof.
  intros Hn. pose proof (Z.div_mod n 3 ltac:(lia)) as E. pose proof (Z.mod_pos_bound n 3 ltac:(lia)).
  set (q := n / 3) in *. set (r := n mod 3) in *. rewrite E.
  replace ((3 * q + r) * 4 + 2) with (4 * q * 3 + (4 * r + 2)) by ring.
  rewrite Z.div_add_l by lia. rewrite (Z.mul_comm 4 q), Z.add_comm, Z.mod_add by lia.
  assert (r = 0 \/ r = 1 \/ r = 2) as [-> | [-> | ->]] by lia; vm_compute; congruence.
Qed.

Lemma no_equals_alphabet s : str_forall is_url_char s = true ->
  str_forall (fun c => negb (Ascii.eqb c "=")) (str_map of_url_char s) = true.
Proof.
  induction s as [|c s IH]; [done|]. simpl. rewrite !andb_true_iff. intros [Hc Hs].
  split; [|auto]. destruct c as [[] [] [] [] [] [] [] []]; done.
Qed.

Lemma map_bz_roundtrip bytes : map byte_of_Z (map bz bytes) = bytes.
Proof.
  rewrite map_map. rewrite (map_ext _ (fun b => b)) by apply byte_of_Z_bz. apply map_id.
Qed.

Lemma bytes_of_bz bytes : Forall (fun b => 0 <= b < 256) (map bz bytes).
Proof. apply Forall_forall. intros x Hx. apply list_elem_of_fmap in Hx as (b & -> & _). apply bz_range. Qed.

(** [decodeBase64Url] inverts [encodeBase64Url]: the text of any byte string within the
    caller's limit is accepted and gives back exactly those bytes (every length modulo three). *)
Theorem decodeBase64Url_encode bytes maximumBytes (H : blen bytes <= maximumBytes) :
  decodeBase64Url (encodeBase64Url bytes) maximumBytes = Ok bytes.
Proof.
  assert (Hb : 0 <= blen bytes) by (unfold blen; lia).
  unfold decodeBase64Url. rewrite encodeBase64Url_alphabet, encodeBase64Url_length.
  assert (Hl : (blen bytes * 4 + 2) / 3 <= (maximumBytes * 4 + 2) / 3) by (apply Z.div_le_mono; lia).
  rewrite (proj2 (Z.ltb_ge _ _) Hl). cbn [negb orb].
  assert (Hlen := encodeBase64Url_length bytes).
  pose proof (sextets_mod4 (blen bytes) Hb) as Hm. rewrite <- Hlen in *.
  set (s := encodeBase64Url bytes) in *. unfold pad_end.
  assert (Hsl : slen (str_map of_url_char s) = slen s) by (unfold slen; by rewrite str_map_length).
  rewrite Hsl. destruct (pad_amount (slen s) _ (slen_nonneg s) Hm eq_refl) as [Hk Hp].
  unfold atob. rewrite strip_padding_padded; cycle 1.
  { apply no_equals_alphabet, encodeBase64Url_alphabet. }
  { lia. }
  { rewrite Nat2Z.inj_add, Z2Nat.id by lia. fold (slen (str_map of_url_char s)). by rewrite Hsl. }
  fold (slen (str_map of_url_char s)). rewrite Hsl, (proj2 (Z.eqb_neq _ _) Hm).
  unfold s. rewrite encodeBase64Url_chars, str_map_chars, chars_string.
  destruct (of_to_sextets _ (bytes_of_bz bytes)) as [Hinv Hv].
  rewrite (mapM_sextets _ Hv), Hinv, map_bz_roundtrip. simpl.
  by rewrite (proj2 (Z.ltb_ge _ _) H).
Qed.

Example decodeBase64Url_encode_witness :
  decodeBase64Url (encodeBase64Url [Byte.xff; Byte.xfe; Byte.x00; Byte.x3e]) 4
    = Ok [Byte.xff; Byte.xfe; Byte.x00; Byte.x3e] /\
  encodeBase64Url [Byte.xff; Byte.xfe; Byte.x00; Byte.x3e] = "__4APg".
Proof. split; [apply decodeBase64Url_encode; vm_compute; congruence | vm_compute; reflexivity]. Defined.

(** ** [atob] after [btoa] *)

Lemma sextet_char_plain v : 0 <= v < 64 ->
  char_sextet (sextet_char v) = Some v /\ Ascii.eqb (sextet_char v) "=" = false /\ is_space (sextet_char v) = false.
Proof.
  intros Hv. assert (Hf : forallb (fun n => let c := sextet_char (Z.of_nat n) in
    bool_decide (char_sextet c = Some (Z.of_nat n)) && negb (Ascii.eqb c "=") && negb (is_space c)) (seq 0 64) = true) by (vm_compute; reflexivity).
  rewrite forallb_forall in Hf. specialize (Hf (Z.to_nat v)). rewrite in_seq, Z2Nat.id in Hf by lia.
  specialize (Hf ltac:(lia)). cbv zeta in Hf. bool_hyps. done.
Qed.
Section Btoa.
Context (bytes : list byte).
Let vs := to_sextets (map bz bytes).
Let k := Z.to_nat ((- Z.of_nat (length vs)) mod 4).
Lemma btoa_split : btoa bytes = string_of_chars (map sextet_char vs) ++ string_of_chars (replicate k "="%char).
Proof. apply string_of_chars_app. Qed.
Lemma sextets_range : Forall (fun v => 0 <= v < 64) vs.
Proof. by destruct (of_to_sextets _ (bytes_of_bz bytes)). Qed.
Lemma btoa_padding : (k <= 2)%nat /\ Z.of_nat (length vs + k) mod 4 = 0 /\ Z.of_nat (length vs) = (blen bytes * 4 + 2) / 3.
Proof.
  assert (Hl : Z.of_nat (length vs) = (blen bytes * 4 + 2) / 3) by (unfold vs; by rewrite to_sextets_length, length_map).
  pose proof (sextets_mod4 (blen bytes) ltac:(unfold blen; lia)) as Hm. rewrite <- Hl in Hm. unfold k.
  set (n := Z.of_nat (length vs)) in *. pose proof (Z.mod_pos_bound (- n) 4 ltac:(lia)). pose proof (Z.div_mod (- n) 4 ltac:(lia)) as E.
  pose proof (Z.mod_pos_bound n 4 ltac:(lia)). pose proof (Z.div_mod n 4 ltac:(lia)) as E'.
  assert ((- n) mod 4 <> 3) by lia. split_and!; [lia | | done].
  rewrite Nat2Z.inj_add, Z2Nat.id by lia. fold n. replace (n + (- n) mod 4) with ((- (- n / 4)) * 4) by lia. apply Z.mod_mul. lia.
Qed.
Lemma btoa_length : slen (btoa bytes) <= (blen bytes * 4 + 2) / 3 + 2.
Proof.
  destruct btoa_padding as (Hk & _ & Hl). rewrite btoa_split, slen_app, !slen_chars, length_map, length_replicate. lia.
Qed.
Lemma btoa_no_space : str_forall (fun c => negb (is_space c)) (btoa bytes) = true.
Proof.
  rewrite btoa_split, str_forall_app. apply andb_true_iff. split.
  - induction sextets_range as [|v l Hv _ IH]; [done|]. cbn. by rewrite (proj2 (proj2 (sextet_char_plain v Hv))).
  - clear. generalize k. intros n. by induction n as [|n IH].
Qed.
Lemma sextets_no_equals : str_forall (fun c => negb (Ascii.eqb c "=")) (string_of_chars (map sextet_char vs)) = true.
Proof.
  induction sextets_range as [|v l Hv _ IH]; [done|]. cbn [map string_of_chars String.string_of_list_ascii str_forall].
  by rewrite (proj1 (proj2 (sextet_char_plain v Hv))).
Qed.
Lemma sextets_read : mapM char_sextet (map sextet_char vs) = Some vs.
Proof.
  induction sextets_range as [|v l Hv _ IH]; [done|]. cbn [map mapM]. by rewrite (proj1 (sextet_char_plain v Hv)), IH.
Qed.
Lemma atob_btoa : atob (btoa bytes) = Ok bytes.
Proof.
  destruct btoa_padding as (Hk & Hm & Hl). unfold atob. rewrite btoa_split.
  assert (Hlen : String.length (string_of_chars (map sextet_char vs)) = length vs).
  { pose proof (slen_chars (map sextet_char vs)) as H. unfold slen in H. rewrite length_map in H. lia. }
  rewrite strip_padding_padded; [|exact sextets_no_equals|done|by rewrite Hlen].
  rewrite Hlen, Hl, (proj2 (Z.eqb_neq _ _)) by (apply sextets_mod4; unfold blen; lia). rewrite chars_string.
  rewrite sextets_read. unfold vs. rewrite (proj1 (of_to_sextets _ (bytes_of_bz bytes))). by rewrite map_bz_roundtrip.
Qed.
End Btoa.

(** What a caller may rely on: a decoded value is never longer than the limit. *)
Lemma decodeBase64Url_bounded value maximumBytes bytes :
  decodeBase64Url value maximumBytes = Ok bytes ->
  blen bytes <= maximumBytes /\ str_forall is_url_char value = true.
Proof.
  unfold decodeBase64Url. intros H. ok_inv. subst. bool_hyps. done.
Qed.
#[export] Hint Resolve decodeBase64Url_bounded encodeBase64Url_alphabet : alphaping.
