(* ===== verification/Crypto.v ===== *)
(** * Crypto: the WebCrypto operations the workers call

    The platform's primitives are not code of the repository: they are the operations of a
    class, with the documented facts the code relies on as its laws (digest lengths, and
    that AES-GCM decryption undoes encryption and rejects what it cannot authenticate
    only by throwing).  [ToyCrypto] is an instance, used where a witness needs concrete
    functions. *)

From Stdlib Require Import ZArith Lia Bool String List.
From stdpp Require Import base tactics list.
From S2P Require Import Prelude.
From S2P Require Import Js.
Open Scope Z_scope.

Class WebCrypto := {
  (** [crypto.subtle.sign("HMAC" / SHA-256, key, data)] *)
  hmac_sha256 : list byte -> list byte -> list byte;
  (** [crypto.subtle.digest("SHA-256", data)] *)
  sha256 : list byte -> list byte;
  (** [crypto.subtle.encrypt({ name: "AES-GCM", iv, additionalData }, key, data)] *)
  aes_gcm_encrypt : list byte -> list byte -> list byte -> list byte -> list byte;
  (** [crypto.subtle.decrypt(...)]: throws [OperationError] on a tag mismatch. *)
  aes_gcm_decrypt : list byte -> list byte -> list byte -> list byte -> res (list byte);
}.

Class WebCryptoLaws `{WebCrypto} : Prop := {
  hmac_sha256_length key data : blen (hmac_sha256 key data) = 32;
  sha256_length data : blen (sha256 data) = 32;
  aes_gcm_decrypt_encrypt key iv aad data :
    aes_gcm_decrypt key iv aad (aes_gcm_encrypt key iv aad data) = Ok data;
  aes_gcm_encrypt_length key iv aad data :
    blen (aes_gcm_encrypt key iv aad data) = blen data + 16;
}.

(** A concrete instance: a 32-byte fold as the digest, and data followed by a 16-byte tag as
    the ciphertext. *)
Definition toy_mix (acc : Z) (b : byte) : Z := (acc * 31 + bz b + 7) mod 65521.
Definition toy_digest (data : list byte) : list byte :=
  let h := fold_left toy_mix data 1 in
  map (fun i => byte_of_Z (h * (Z.of_nat i + 1) + h / 256)) (seq 0 32).
Definition toy_tag (key iv aad data : list byte) : list byte :=
  take 16 (toy_digest (key ++ iv ++ aad ++ data)%list).

#[export] Instance ToyCrypto : WebCrypto := {|
  hmac_sha256 key data := toy_digest (key ++ data)%list;
  sha256 := toy_digest;
  aes_gcm_encrypt key iv aad data := (data ++ toy_tag key iv aad data)%list;
  aes_gcm_decrypt key iv aad data :=
    let n := (length data - 16)%nat in
    if bool_decide (toy_tag key iv aad (take n data) = drop n data) && (16 <=? blen data)
    then Ok (take n data) else Err "OperationError";
|}.

Lemma toy_digest_length data : blen (toy_digest data) = 32.
Proof. unfold blen, toy_digest. by rewrite length_map, length_seq. Qed.
Lemma toy_tag_length key iv aad data : length (toy_tag key iv aad data) = 16%nat.
Proof.
  unfold toy_tag. rewrite length_take. pose proof (toy_digest_length (key ++ iv ++ aad ++ data)%list) as H.
  unfold blen in H. lia.
Qed.

#[export] Instance ToyCryptoLaws : WebCryptoLaws.
Proof.
  split; intros; cbn [hmac_sha256 sha256 aes_gcm_decrypt aes_gcm_encrypt ToyCrypto].
  - apply toy_digest_length.
  - apply toy_digest_length.
  - rewrite length_app, toy_tag_length.
    replace (length data + 16 - 16)%nat with (length data) by lia.
    rewrite take_app_length, drop_app_length, bool_decide_eq_true_2 by done.
    unfold blen. rewrite length_app, toy_tag_length.
    destruct (16 <=? _) eqn:E; [done|]. bool_hyps. lia.
  - unfold blen. rewrite length_app, toy_tag_length. lia.
Qed.
