(* ===== verification/LiveTicket.v ===== *)
(** * LiveTicket: signed tickets for the live channel

    [packages/contracts/src/live-ticket.ts]: the HMAC framing ([keyedDigest]), the constant
    time comparison, the claims and their checks ([parseClaims]), signing a viewer ticket,
    verifying a ticket, reading the ticket out of the WebSocket protocols header, and
    deriving an agent's session key. *)

From Stdlib Require Import ZArith Lia Bool String Ascii List.
From stdpp Require Import base tactics list strings.
From S2P Require Import Prelude.
From S2P Require Import Js.
From S2P Require Import Base64Url.
From S2P Require Import Crypto.
Open Scope string_scope.
Open Scope Z_scope.

Definition LIVE_PROTOCOL : string := "alphaping.v1".
Definition LIVE_TICKET_PROTOCOL_PREFIX : string := "alphaping.ticket.".

(** ** Claims *)

(* @src packages/contracts/src/live-ticket.ts BaseLiveTicketClaims *)
Record BaseLiveTicketClaims := BaseClaims {
  workspaceId : string;
  subjectId : string;
  topics : list string;
  issuedAt : Z;
  notBefore : Z;
  expiresAt : Z;
}.
(* @src packages/contracts/src/live-ticket.ts 15-27 LiveTicketClaims *)
Inductive LiveTicketClaims : Type :=
| AgentClaims (base : BaseLiveTicketClaims) (sessionId noncePrefix : string)
| ViewerClaims (base : BaseLiveTicketClaims).
Definition claims_base (c : LiveTicketClaims) : BaseLiveTicketClaims :=
  match c with AgentClaims b _ _ => b | ViewerClaims b => b end.
#[export] Instance base_claims_eq_dec : EqDecision BaseLiveTicketClaims.
Proof. solve_decision. Defined.
#[export] Instance claims_eq_dec : EqDecision LiveTicketClaims.
Proof. solve_decision. Defined.

(** [/^machine:[1-9][0-9]{0,19}$/] *)
Definition is_machine_topic (s : string) : bool :=
  starts_with "machine:" s &&
  match str_drop 8 s with
  | String c r => in_range 49 57 c && str_forall is_digit r && (slen r <=? 19)
  | EmptyString => false
  end.

(* @src packages/contracts/src/live-ticket.ts validScope *)
Definition validScope (value : option json) (maximum : Z) : option string :=
  match as_string value with
  | Some s => if (0 <? slen s) && (slen s <=? maximum) then Some s else None
  | None => None
  end.
(* @src packages/contracts/src/live-ticket.ts validTimestamp *)
Definition validTimestamp (value : option json) : option Z :=
  match as_safe_int value with Some z => if 0 <=? z then Some z else None | None => None end.

(** [Array.isArray(v) && v.length === 1 && v.every(topic => ...)], with the array. *)
Definition one_machine_topic (v : option json) : option (list string) :=
  match v with
  | Some (JArr [JStr s]) => if is_machine_topic s then Some [s] else None
  | _ => None
  end.

(* @src packages/contracts/src/live-ticket.ts parseClaims *)
Definition parseClaims (parsed : json) (now : Z) : res LiveTicketClaims :=
  let* data := as_record "invalid_ticket" parsed in
  match (if is_int 1 (obj_get "version" data) then Some tt else None),
        validScope (obj_get "workspaceId" data) 128, validScope (obj_get "subjectId" data) 128,
        one_machine_topic (obj_get "topics" data), validTimestamp (obj_get "issuedAt" data),
        validTimestamp (obj_get "notBefore" data), validTimestamp (obj_get "expiresAt" data) with
  | Some _, Some ws, Some sub, Some tops, Some iat, Some nbf, Some exp =>
      throw_if (now + 5000 <? nbf) || (exp <=? now) || (now + 5000 <? iat) || (nbf <? iat - 5000)
        as "invalid_ticket" in
      let base := BaseClaims ws sub tops iat nbf exp in
      let role := obj_get "role" data in
      let projection := obj_get "projection" data in
      let sessionId := obj_get "sessionId" data in
      let noncePrefix := obj_get "noncePrefix" data in
      if is_str "viewer" role && is_str "machine-summary" projection &&
         (exp - iat <=? 5 * 60000) &&
         bool_decide (sessionId = None) && bool_decide (noncePrefix = None)
      then Ok (ViewerClaims base)
      else if is_str "agent" role && is_str "internal" projection && (exp - iat <=? 15 * 60000)
      then
        match as_string sessionId with
        | None => Err "invalid_ticket"
        | Some session =>
            let* sessionBytes := decodeBase64Url session 16 in
            if negb (blen sessionBytes =? 16) then Err "invalid_ticket"
            else match as_string noncePrefix with
                 | None => Err "invalid_ticket"
                 | Some prefix =>
                     let* prefixBytes := decodeBase64Url prefix 4 in
                     if negb (blen prefixBytes =? 4) then Err "invalid_ticket"
                     else Ok (AgentClaims base session prefix)
                 end
        end
      else Err "invalid_ticket"
  | _, _, _, _, _, _, _ => Err "invalid_ticket"
  end.

(** ** The keyed digest *)

(** The input of the MAC: the label, then each part after a zero byte. *)
(* @src packages/contracts/src/live-ticket.ts 69-81 keyedDigest *)
Definition digest_input (label : string) (parts : list (list byte)) : list byte :=
  (encode_utf8 label ++ concat (map (fun part => Byte.x00 :: part) parts))%list.

(* @src packages/contracts/src/live-ticket.ts timingSafeEqual *)
Definition timingSafeEqual (left right : list byte) : bool :=
  if negb (blen left =? 32) || negb (blen right =? 32) then false
  else fold_left (fun difference index =>
         Z.lor difference (Z.lxor (coalesce (byte_at left (Z.of_nat index)) 0)
                                  (coalesce (byte_at right (Z.of_nat index)) 0)))
       (seq 0 (length left)) 0 =? 0.

(** The claims as the object literal the code serialises, fields in order. *)
Definition claims_json (c : LiveTicketClaims) : jout :=
  let b := claims_base c in
  let head := [("version", OInt 1); ("workspaceId", OStr (workspaceId b));
               ("subjectId", OStr (subjectId b))] in
  let tail := [("issuedAt", OInt (issuedAt b)); ("notBefore", OInt (notBefore b));
               ("expiresAt", OInt (expiresAt b))] in
  let tops := ("topics", OArr (map OStr (topics b))) in
  match c with
  | ViewerClaims _ =>
      OObj (head ++ [("role", OStr "viewer"); tops; ("projection", OStr "machine-summary")] ++ tail)
  | AgentClaims _ s p =>
      OObj (head ++ [("role", OStr "agent"); tops; ("projection", OStr "internal")] ++ tail ++
            [("sessionId", OStr s); ("noncePrefix", OStr p)])
  end%list.

Section Tickets.
Context `{WC : WebCrypto}.

(* @src packages/contracts/src/live-ticket.ts keyedDigest *)
Definition keyedDigest (secret label : string) (parts : list (list byte)) : res (list byte) :=
  throw_if blen (encode_utf8 secret) <? 32 as "invalid_live_ticket_secret" in
  Ok (hmac_sha256 (encode_utf8 secret) (digest_input label parts)).

(* @src packages/contracts/src/live-ticket.ts signClaims *)
Definition signClaims (claims : LiveTicketClaims) (secret : string) : res string :=
  let payloadPart := encodeBase64Url (encode_utf8 (json_stringify (claims_json claims))) in
  let* signature := keyedDigest secret "alphaping/v1/live-ticket" [encode_utf8 payloadPart] in
  Ok (payloadPart ++ "." ++ encodeBase64Url signature).

(* @src packages/contracts/src/live-ticket.ts ViewerTicketInput *)
Record ViewerTicketInput := ViewerInput {
  in_workspaceId : string;
  in_subjectId : string;
  in_machinePk : number;
}.

(** The claims of a viewer's ticket. *)
Definition viewer_claims (input : ViewerTicketInput) (pk now : Z) : LiveTicketClaims :=
  ViewerClaims (BaseClaims (in_workspaceId input) (in_subjectId input)
    ["machine:" ++ z_to_string pk] now (Z.max 0 (now - 5000)) (now + 5 * 60000)).

(* @src packages/contracts/src/live-ticket.ts signViewerLiveTicket *)
Definition signViewerLiveTicket (input : ViewerTicketInput) (secret : string) (now : Z)
  : res (string * Z) :=
  match safe_int (in_machinePk input) with
  | Some pk =>
      throw_if pk <=? 0 as "invalid_machine_scope" in
      let* ticket := signClaims (viewer_claims input pk now) secret in
      Ok (ticket, now + 5 * 60000)
  | None => Err "invalid_machine_scope"
  end.

(* @src packages/contracts/src/live-ticket.ts verifyLiveTicket *)
Definition verifyLiveTicket (token secret : string) (now : Z) : res LiveTicketClaims :=
  match split_on "." token with
  | [payloadPart; signaturePart] =>
      throw_if String.eqb payloadPart "" || String.eqb signaturePart "" || (4096 <? slen token)
        as "invalid_ticket" in
      let* expected := keyedDigest secret "alphaping/v1/live-ticket" [encode_utf8 payloadPart] in
      let* actual := decodeBase64Url signaturePart 32 in
      throw_if negb (timingSafeEqual expected actual) as "invalid_ticket" in
      let* payload := decodeBase64Url payloadPart 4096 in
      let* parsed := json_parse (decode_utf8 payload) in
      parseClaims parsed now
  | _ => Err "invalid_ticket"
  end.

(** [request.headers.get("sec-websocket-protocol")] is the argument. *)
(* @src packages/contracts/src/live-ticket.ts ticketFromProtocols *)
Definition ticketFromProtocols (header : option string) : res string :=
  let protocols := (fun h => map trim (split_on "," h)) <$> header in
  match protocols with
  | Some ps =>
      throw_if negb (existsb (String.eqb LIVE_PROTOCOL) ps) as "missing_live_protocol" in
      match List.find (starts_with LIVE_TICKET_PROTOCOL_PREFIX) ps with
      | Some encoded => Ok (str_drop (String.length LIVE_TICKET_PROTOCOL_PREFIX) encoded)
      | None => Err "missing_ticket"
      end
  | None => Err "missing_live_protocol"
  end.

(* @src packages/contracts/src/live-ticket.ts deriveAgentLiveKey *)
Definition deriveAgentLiveKey (secret sessionId : string) : res (list byte) :=
  let* sessionBytes := decodeBase64Url sessionId 16 in
  throw_if negb (blen sessionBytes =? 16) as "invalid_session" in
  keyedDigest secret "alphaping/v1/live-key" [sessionBytes].
End Tickets.

(** ** The comparison and the framing *)

Lemma fold_lor_zero (f : nat -> Z) l a :
  fold_left (fun d i => Z.lor d (f i)) l a = 0 <-> a = 0 /\ Forall (fun i => f i = 0) l.
Proof.
  revert a. induction l as [|i l IH]; intros a; simpl.
  - split; [intros ->; by split | by intros [-> _]].
  - rewrite IH, Z.lor_eq_0_iff, Forall_cons. tauto.
Qed.

(** The constant time comparison is equality of 32-byte strings. *)
Lemma timingSafeEqual_spec l r : timingSafeEqual l r = true <-> l = r /\ blen l = 32.
Proof.
  unfold timingSafeEqual. destruct (_ || _) eqn:E.
  { split; [done|]. intros [-> H]. by rewrite H in E. }
  bool_hyps. rewrite Z.eqb_eq, fold_lor_zero.
  assert (Hl : length l = 32%nat) by (unfold blen in *; lia).
  assert (Hr : length r = 32%nat) by (unfold blen in *; lia).
  split; [intros [_ Hf] | intros [-> _]].
  - split; [|done]. apply list_eq. intros i.
    destruct (decide (i < length l)%nat) as [Hi|Hi]; [|by rewrite !lookup_ge_None_2 by lia].
    rewrite Forall_forall in Hf. specialize (Hf i). rewrite elem_of_seq in Hf. specialize (Hf ltac:(lia)).
    unfold byte_at in Hf. rewrite (proj2 (Z.ltb_ge _ _)), Nat2Z.id in Hf by lia.
    destruct (lookup_lt_is_Some_2 l i Hi) as [x Hx].
    destruct (lookup_lt_is_Some_2 r i ltac:(lia)) as [y Hy].
    rewrite Hx, Hy in Hf. rewrite Hx, Hy. cbn [fmap option_fmap option_map coalesce] in Hf.
    apply Z.lxor_eq_0_iff, bz_inj in Hf. by rewrite Hf.
  - split; [done|]. apply Forall_forall. intros i _. apply Z.lxor_nilpotent.
Qed.

Definition zero_free (bs : list byte) : bool := forallb (fun b => negb (Byte.eqb b Byte.x00)) bs.

Lemma zero_free_split a b x y : zero_free a = true -> zero_free b = true ->
  (a ++ Byte.x00 :: x = b ++ Byte.x00 :: y)%list -> a = b /\ x = y.
Proof.
  revert b. induction a as [|c a IH]; intros [|d b] Ha Hb; simpl in *.
  - by intros [= ->].
  - intros [= <- _]. bool_hyps. done.
  - intros [= -> _]. bool_hyps. done.
  - bool_hyps. intros [= -> Heq]. by destruct (IH b) as [-> ->].
Qed.

(** The MAC inputs of two uses are equal only when label and part are: the tickets' label
    and the session keys' label never yield the same input, so neither a ticket signature
    nor a session key can stand in for the other. *)
Theorem digest_input_injective l1 l2 p1 p2
  (H1 : zero_free (encode_utf8 l1) = true) (H2 : zero_free (encode_utf8 l2) = true)
  (E : digest_input l1 [p1] = digest_input l2 [p2]) : l1 = l2 /\ p1 = p2.
Proof.
  unfold digest_input in E. simpl in E. rewrite !app_nil_r in E.
  destruct (zero_free_split _ _ _ _ H1 H2 E) as [Hl ->]. split; [|done].
  by rewrite <- (decode_encode_utf8 l1), Hl, decode_encode_utf8.
Qed.

Example digest_input_injective_witness :
  zero_free (encode_utf8 "alphaping/v1/live-ticket") = true /\
  zero_free (encode_utf8 "alphaping/v1/live-key") = true /\
  (digest_input "alphaping/v1/live-ticket" [[Byte.x01]] = digest_input "alphaping/v1/live-key" [[Byte.x01]] ->
   "alphaping/v1/live-ticket" = "alphaping/v1/live-key" /\ [Byte.x01] = [Byte.x01]).
Proof.
  split_and!; [reflexivity | reflexivity |]. intros E.
  apply (digest_input_injective _ _ _ _); [reflexivity | reflexivity | exact E].
Defined.

(** ** What verification establishes *)

(** A claim set the checks accept at [now]. *)
Definition claims_valid (now : Z) (c : LiveTicketClaims) : Prop :=
  let b := claims_base c in
  (1 <= slen (workspaceId b) <= 128 /\ 1 <= slen (subjectId b) <= 128) /\
  (exists t, topics b = [t] /\ is_machine_topic t = true) /\
  (0 <= issuedAt b <= now + 5000 /\ issuedAt b - 5000 <= notBefore b <= now + 5000 /\
   now < expiresAt b <= max_safe /\ 0 <= expiresAt b) /\
  match c with
  | ViewerClaims _ => expiresAt b - issuedAt b <= 5 * 60000
  | AgentClaims _ session prefix =>
      expiresAt b - issuedAt b <= 15 * 60000 /\
      (exists sb, decodeBase64Url session 16 = Ok sb /\ blen sb = 16) /\
      (exists pb, decodeBase64Url prefix 4 = Ok pb /\ blen pb = 4)
  end.

Lemma validScope_some v m s : validScope v m = Some s -> v = Some (JStr s) /\ 1 <= slen s <= m.
Proof.
  unfold validScope, as_string. intros Hv. repeat split_match; simplify_eq. bool_hyps.
  split; [done | lia].
Qed.
Lemma validTimestamp_some v z : validTimestamp v = Some z -> 0 <= z /\ safe_z z = true.
Proof.
  unfold validTimestamp, as_safe_int, safe_int. intros Hv. repeat split_match; simplify_eq.
  bool_hyps. done.
Qed.
Lemma one_machine_topic_some v l :
  one_machine_topic v = Some l -> exists t, l = [t] /\ is_machine_topic t = true.
Proof.
  unfold one_machine_topic. intros Hv. repeat split_match; simplify_eq. by exists s.
Qed.

Lemma parseClaims_valid parsed now c : parseClaims parsed now = Ok c -> claims_valid now c.
Proof.
  unfold parseClaims. intros Hp. apply rbind_ok in Hp as (data & _ & Hp).
  destruct (if is_int 1 _ then Some tt else None) as [u|]; [|discriminate].
  destruct (validScope (obj_get "workspaceId" data) 128) as [ws|] eqn:Hw; [|discriminate].
  destruct (validScope (obj_get "subjectId" data) 128) as [sub|] eqn:Hs; [|discriminate].
  destruct (one_machine_topic _) as [tops|] eqn:Ht; [|discriminate].
  destruct (validTimestamp (obj_get "issuedAt" data)) as [iat|] eqn:Hi; [|discriminate].
  destruct (validTimestamp (obj_get "notBefore" data)) as [nbf|] eqn:Hn; [|discriminate].
  destruct (validTimestamp (obj_get "expiresAt" data)) as [exp|] eqn:He; [|discriminate].
  apply validScope_some in Hw as [_ Hw], Hs as [_ Hs]. apply one_machine_topic_some in Ht.
  apply validTimestamp_some in Hi as [Hi _], Hn as [Hn _], He as [He Hes].
  unfold safe_z in Hes.
  destruct (_ || _) eqn:G; [discriminate|]. bool_hyps.
  destruct (_ && _) eqn:Gv.
  { bool_hyps. injection Hp as <-. unfold claims_valid; simpl. split_and!; try done; lia. }
  clear Gv. destruct (_ && _) eqn:Ga; [|discriminate]. bool_hyps.
  destruct (as_string (obj_get "sessionId" data)) as [session|]; [|discriminate].
  apply rbind_ok in Hp as (sb & Hsb & Hp). destruct (negb _) eqn:Gs; [discriminate|].
  destruct (as_string (obj_get "noncePrefix" data)) as [prefix|]; [|discriminate].
  apply rbind_ok in Hp as (pb & Hpb & Hp). destruct (negb (blen pb =? 4)) eqn:Gp; [discriminate|].
  bool_hyps. injection Hp as <-. unfold claims_valid; simpl. split_and!; eauto; lia.
Qed.

Section Verification.
Context `{WC : WebCrypto}.

(** C3: a ticket that verifies was signed with the secret: its first part carries a MAC by
    this key under the ticket label as its second part, and the claims it yields respect
    every scope and time bound: one machine topic, not yet expired, issued and valid no
    more than five seconds ahead, and a lifetime of at most five (viewer) or fifteen (agent)
    minutes, so it is dead at the latest fifteen minutes and five seconds after [now]. *)
Theorem verifyLiveTicket_sound token secret now c (Hv : verifyLiveTicket token secret now = Ok c) :
  exists payload signature mac,
    token = payload ++ "." ++ signature /\ slen token <= 4096 /\
    keyedDigest secret "alphaping/v1/live-ticket" [encode_utf8 payload] = Ok mac /\
    decodeBase64Url signature 32 = Ok mac /\ blen mac = 32 /\
    claims_valid now c /\ expiresAt (claims_base c) <= now + 5000 + 15 * 60000.
Proof.
  unfold verifyLiveTicket in Hv. destruct (split_on "." token) as [|p [|s [|? ?]]] eqn:Esp; try discriminate.
  destruct (_ || _) eqn:G; [discriminate|]. bool_hyps.
  apply rbind_ok in Hv as (mac & Hmac & Hv). apply rbind_ok in Hv as (actual & Hact & Hv).
  destruct (negb _) eqn:Geq; [discriminate|]. bool_hyps.
  apply timingSafeEqual_spec in Geq as [<- Hlen].
  apply rbind_ok in Hv as (pl & Hpl & Hv). apply rbind_ok in Hv as (parsed & Hpar & Hv).
  apply parseClaims_valid in Hv as Hc. exists p, s, mac. split_and!; try done.
  - rewrite <- (split_join "." token), Esp. done.
  - unfold claims_valid in Hc. destruct Hc as (_ & _ & Ht & Hr). destruct c; simpl in *; lia.
Qed.
End Verification.

(** ** The round trip *)

(** An upper bound of the length of a serialised value. *)
Fixpoint jbound (o : jout) : Z :=
  match o with
  | ONull | OBool _ => 5
  | OInt _ => 17
  | ONum x => Z.max 4 (slen (num_to_string x))
  | OStr s => 6 * slen s + 2
  | OArr l => 2 + foldr (fun x n => 1 + jbound x + n) 0 l
  | OObj l => 2 + foldr (fun kv n => 4 + 6 * slen kv.1 + jbound kv.2 + n) 0 l
  end.

Lemma slen_quoted s : slen (quoted s) <= 6 * slen s + 2.
Proof.
  unfold quoted. rewrite slen_cons, slen_app. change (slen (String quote "")) with 1.
  enough (slen (esc_str s) <= 6 * slen s) by lia.
  induction s as [|c s IH]; [done|]. cbn [esc_str]. rewrite slen_app, slen_cons.
  enough (slen (esc_char c) <= 6) by lia.
  destruct c as [[] [] [] [] [] [] [] []]; vm_compute; congruence.
Qed.
Lemma slen_join sep l : slen sep = 1 ->
  slen (str_join sep l) <= foldr (fun s n => 1 + slen s + n) 0 l.
Proof.
  intros Hs. induction l as [|x l IH]; [done|]. cbn [str_join foldr].
  destruct l as [|y l]; [simpl; lia|]. rewrite !slen_app, Hs. lia.
Qed.

Lemma stringify_length o : jout_ok o -> slen (json_stringify o) <= jbound o.
Proof.
  induction o as [|b|z|x|s|l IH|l IH] using jout_ind'; intros Hok; cbn [json_stringify jbound].
  - done.
  - by destruct b.
  - by apply z_to_string_length.
  - destruct (is_finite x); [lia|]. change (slen "null") with 4. lia.
  - apply slen_quoted.
  - rewrite slen_cons, slen_app. change (slen "]") with 1.
    pose proof (slen_join "," (map json_stringify l) eq_refl) as Hj.
    enough (foldr (fun s n => 1 + slen s + n) 0 (map json_stringify l) <=
            foldr (fun x n => 1 + jbound x + n) 0 l) by lia. clear Hj.
    induction IH as [|x l Hx _ IHl]; [done|]. destruct Hok as [Hox Hok]. simpl.
    specialize (Hx Hox). specialize (IHl Hok). lia.
  - rewrite slen_cons, slen_app. change (slen "}") with 1. destruct Hok as [_ Hok].
    pose proof (slen_join "," (map (fun kv => quoted kv.1 ++ String ":" (json_stringify kv.2)) l) eq_refl) as Hj.
    enough (foldr (fun s n => 1 + slen s + n) 0
              (map (fun kv => quoted kv.1 ++ String ":" (json_stringify kv.2)) l) <=
            foldr (fun kv n => 4 + 6 * slen kv.1 + jbound kv.2 + n) 0 l) by lia. clear Hj.
    induction IH as [|[k x] l Hx _ IHl]; [done|]. destruct Hok as [Hox Hok]. cbn [map foldr fst snd] in *.
    rewrite slen_app, slen_cons. pose proof (slen_quoted k). specialize (Hx Hox).
    specialize (IHl Hok). lia.
Qed.

Lemma dec_digits_digits f z acc : 0 <= z -> str_forall is_digit acc = true ->
  str_forall is_digit (dec_digits f z acc) = true.
Proof.
  revert z acc. induction f as [|f IH]; intros z acc Hz Ha; [done|]. cbn [dec_digits].
  assert (Hd := proj1 (is_digit_chr (z mod 10) (Z.mod_pos_bound z 10 ltac:(lia)))).
  assert (Hacc : str_forall is_digit (String (chr (Z.to_N (48 + z mod 10))) acc) = true).
  { cbn [str_forall]. by rewrite Hd. }
  destruct (z <? 10); [done|]. apply IH; [apply Z.div_pos; lia | done].
Qed.

Lemma machine_topic_ok pk : 0 < pk -> safe_z pk = true ->
  is_machine_topic ("machine:" ++ z_to_string pk) = true.
Proof.
  intros Hpk Hs. pose proof (z_to_string_length pk Hs) as Hl.
  unfold is_machine_topic. change (starts_with "machine:" ("machine:" ++ ?s)) with
    (String.prefix "machine:" ("machine:" ++ s)). rewrite prefix_app.
  change (str_drop 8 ("machine:" ++ z_to_string pk)) with
    (str_drop (String.length "machine:") ("machine:" ++ z_to_string pk)). rewrite str_drop_app.
  unfold z_to_string in *. rewrite (proj2 (Z.ltb_ge _ _)) in * by lia.
  unfold nat_to_string in *. set (f := S _) in *.
  assert (Hall : str_forall is_digit (dec_digits f pk "") = true) by (apply dec_digits_digits; [lia|done]).
  destruct (dec_digits_spec f pk "") as (k & _ & _ & _ & c & s & Heq & Hc & H0); [|lia|].
  { split; [lia|]. unfold f. rewrite Nat2Z.inj_succ, Z2Nat.id by apply Z.log2_nonneg.
    destruct (Z.log2_spec pk) as [_ Hlog]; [lia|].
    pose proof (Z.pow_le_mono_l 2 10 (Z.succ (Z.log2 pk)) ltac:(lia)). lia. }
  rewrite Heq in *. cbn [str_forall] in Hall. rewrite slen_cons in Hl. bool_hyps.
  cbn [andb]. rewrite H1, andb_true_r, (proj2 (Z.leb_le _ _)), andb_true_r by lia.
  assert (Ascii.eqb c "0" = false) as Hne by (apply not_true_is_false; intros E; specialize (H0 E); lia).
  clear - Hc Hne. destruct c as [[] [] [] [] [] [] [] []]; done.
Qed.

Section RoundTrip.
Context `{WCL : WebCryptoLaws}.

Lemma validTimestamp_num z : safe_z z = true -> 0 <= z ->
  validTimestamp (Some (JNum (num_of_Z z))) = Some z.
Proof.
  intros Hz Hz0. unfold validTimestamp. rewrite as_safe_int_num by done.
  by rewrite (proj2 (Z.leb_le _ _)).
Qed.
Lemma validScope_str s m : 1 <= slen s <= m -> validScope (Some (JStr s)) m = Some s.
Proof.
  intros Hs. unfold validScope. simpl. rewrite (proj2 (Z.ltb_lt _ _)), (proj2 (Z.leb_le _ _)) by lia. done.
Qed.

(** The claims the signer writes pass the verifier's checks. *)
Lemma parseClaims_viewer input pk now now' :
  1 <= slen (in_workspaceId input) <= 128 -> 1 <= slen (in_subjectId input) <= 128 ->
  0 < pk -> safe_z pk = true -> 0 <= now -> safe_z (now + 300000) = true ->
  now - 5000 <= now' < now + 300000 ->
  parseClaims (json_of (claims_json (viewer_claims input pk now))) now' =
    Ok (viewer_claims input pk now).
Proof.
  intros Hw Hs Hpk Hsafe Hnow Hn Hnow'.
  assert (safe_z now = true /\ safe_z (Z.max 0 (now - 5000)) = true) as [Hn1 Hn2].
  { unfold safe_z in *. bool_hyps. split; apply andb_true_iff; rewrite !Z.leb_le; lia. }
  unfold parseClaims. cbn [json_of claims_json viewer_claims claims_base map fst snd app as_record rbind
    workspaceId subjectId topics issuedAt notBefore expiresAt].
  change (is_int 1 (obj_get "version" _)) with true. cbn [obj_get String.eqb Ascii.eqb Bool.eqb].
  rewrite !validScope_str by done. cbn [one_machine_topic]. rewrite machine_topic_ok by done.
  change (now + 5 * 60000) with (now + 300000). rewrite !validTimestamp_num by (done || lia).
  destruct (_ || _) eqn:G.
  { rewrite !orb_true_iff in G. destruct G as [[[G|G]|G]|G]; bool_hyps; lia. }
  cbn [is_str]. rewrite !String.eqb_refl, (proj2 (Z.leb_le _ _)) by lia.
  rewrite !bool_decide_eq_true_2 by done. done.
Qed.

Lemma viewer_claims_json_ok input pk now : 0 < pk -> safe_z pk = true -> 0 <= now ->
  safe_z (now + 300000) = true -> jout_ok (claims_json (viewer_claims input pk now)).
Proof.
  intros Hpk Hsafe Hnow Hn. cbn. split_and!; try done.
  - apply (bool_decide_unpack _). by vm_compute.
  - unfold safe_z in *. bool_hyps. apply andb_true_iff; rewrite !Z.leb_le; lia.
  - unfold safe_z in *. bool_hyps. apply andb_true_iff; rewrite !Z.leb_le; lia.
Qed.

Lemma url_no_dot s : str_forall is_url_char s = true ->
  str_forall (fun c => negb (Ascii.eqb c ".")) s = true.
Proof. apply str_forall_impl. intros c. destruct c as [[] [] [] [] [] [] [] []]; done. Qed.

Lemma jbound_viewer input pk now : safe_z pk = true ->
  slen (in_workspaceId input) <= 128 -> slen (in_subjectId input) <= 128 ->
  jbound (claims_json (viewer_claims input pk now)) <= 2900.
Proof.
  intros Hsafe Hw Hs. pose proof (z_to_string_length pk Hsafe).
  cbn [claims_json viewer_claims claims_base workspaceId subjectId topics issuedAt notBefore expiresAt
    app map jbound foldr fst snd]. rewrite slen_app, !slen_cons.
  change (slen "") with 0. lia.
Qed.

Lemma stringify_obj_nonempty l : 1 <= slen (json_stringify (OObj l)).
Proof. cbn [json_stringify]. rewrite slen_cons. pose proof (slen_nonneg (str_join "," (map (fun kv => quoted kv.1 ++ String ":" (json_stringify kv.2)) l) ++ "}")). lia. Qed.

(** What [signViewerLiveTicket] signs, [verifyLiveTicket] accepts with the same secret and
    gives back the same claims, at every moment from five seconds before the signing until the
    ticket's expiry; the ticket always fits the verifier's 4096-byte limit. *)
Theorem sign_verify_roundtrip input secret now now' ticket expires pk
  (Hpk : safe_int (in_machinePk input) = Some pk)
  (Hw : 1 <= slen (in_workspaceId input) <= 128) (Hs : 1 <= slen (in_subjectId input) <= 128)
  (Hnow : 0 <= now) (Hn : safe_z (now + 300000) = true)
  (Hsign : signViewerLiveTicket input secret now = Ok (ticket, expires))
  (Hnow' : now - 5000 <= now' < expires) :
  verifyLiveTicket ticket secret now' = Ok (viewer_claims input pk now) /\ slen ticket <= 4096.
Proof.
  unfold signViewerLiveTicket in Hsign. rewrite Hpk in Hsign. ok_step. bool_hyps.
  assert (Hsafe : safe_z pk = true).
  { unfold safe_int in Hpk. repeat split_match; by simplify_eq. }
  apply rbind_ok in Hsign as (t & Ht & [= -> <-]). unfold signClaims in Ht.
  remember (claims_json (viewer_claims input pk now)) as o eqn:Ho.
  assert (Hok : jout_ok o) by (rewrite Ho; by apply viewer_claims_json_ok).
  assert (Hjl : slen (json_stringify o) <= 2900).
  { etransitivity; [by apply stringify_length|]. rewrite Ho. apply jbound_viewer; done || lia. }
  remember (encodeBase64Url (encode_utf8 (json_stringify o))) as p eqn:Hp.
  assert (Hbl := blen_encode_utf8 (json_stringify o)).
  assert (Hpl : slen p <= 3868).
  { rewrite Hp, encodeBase64Url_length, Hbl. apply Z.div_le_upper_bound; lia. }
  apply rbind_ok in Ht as (mac & Hmac & [= <-]).
  assert (Hm32 : blen mac = 32).
  { unfold keyedDigest in Hmac. ok_inv. subst mac. apply hmac_sha256_length. }
  assert (Hsl : slen (encodeBase64Url mac) = 43) by (by rewrite encodeBase64Url_length, Hm32).
  assert (Htl : slen (p ++ "." ++ encodeBase64Url mac) <= 4096).
  { rewrite !slen_app, Hsl. change (slen ".") with 1. lia. }
  split; [|done]. unfold verifyLiveTicket.
  rewrite (split_on_app "." p (encodeBase64Url mac)) by (rewrite Hp; apply url_no_dot, encodeBase64Url_alphabet).
  rewrite split_on_none by (apply url_no_dot, encodeBase64Url_alphabet).
  destruct (_ || _) eqn:Gt.
  { rewrite !orb_true_iff in Gt. destruct Gt as [[G'|G']|G']; bool_hyps;
      [| |change (4096 < slen (p ++ "." ++ encodeBase64Url mac)) in G'; lia].
    - assert (Hz : slen p = 0) by (by rewrite G').
      rewrite Hp, encodeBase64Url_length, Hbl in Hz.
      assert (1 <= slen (json_stringify o)) by (rewrite Ho; apply stringify_obj_nonempty).
      pose proof (Z.div_le_lower_bound (slen (json_stringify o) * 4 + 2) 3 1 ltac:(lia) ltac:(lia)). lia.
    - rewrite G' in Hsl. done. }
  rewrite Hmac. simpl rbind at 1. rewrite decodeBase64Url_encode by lia. cbn [rbind].
  rewrite (proj2 (timingSafeEqual_spec mac mac)) by done. cbn [negb].
  rewrite Hp, decodeBase64Url_encode by lia. cbn [rbind].
  rewrite decode_encode_utf8, json_parse_stringify by done. cbn [rbind].
  rewrite Ho. apply parseClaims_viewer; done || lia.
Qed.
End RoundTrip.

Definition sample_secret : string := "0123456789abcdef0123456789abcdef".
Definition sample_input : ViewerTicketInput := ViewerInput "ws" "user" (num_of_Z 42).
Definition sample_ticket : string :=
  match signViewerLiveTicket sample_input sample_secret 1700000000000 with Ok (t, _) => t | Err _ => "" end.

Example sign_verify_roundtrip_witness :
  signViewerLiveTicket sample_input sample_secret 1700000000000 = Ok (sample_ticket, 1700000300000) /\
  verifyLiveTicket sample_ticket sample_secret 1700000299999 =
    Ok (viewer_claims sample_input 42 1700000000000).
Proof.
  split; [vm_compute; reflexivity|].
  apply (sign_verify_roundtrip sample_input sample_secret 1700000000000 1700000299999 sample_ticket
    1700000300000 42); try (vm_compute; intuition congruence); vm_compute; reflexivity.
Defined.

Example verifyLiveTicket_sound_witness :
  verifyLiveTicket sample_ticket sample_secret 1700000299999 =
    Ok (viewer_claims sample_input 42 1700000000000) /\
  claims_valid 1700000299999 (viewer_claims sample_input 42 1700000000000).
Proof.
  assert (Hv : verifyLiveTicket sample_ticket sample_secret 1700000299999 =
    Ok (viewer_claims sample_input 42 1700000000000)) by (vm_compute; reflexivity).
  split; [exact Hv|].
  destruct (verifyLiveTicket_sound sample_ticket sample_secret 1700000299999 _ Hv)
    as (p & s & m & _ & _ & _ & _ & _ & Hc & _). exact Hc.
Defined.
