(* ===== verification/LiveFrame.v ===== *)
(** * LiveFrame: agents' encrypted live frames and viewers' snapshots

    [packages/contracts/src/live-frame.ts]: the binary frame an agent sends (magic, session,
    machine, sequence, observation time, ciphertext), its decryption under the session's key
    and a nonce built from the sequence, and the snapshot message viewers receive and parse. *)

From Stdlib Require Import ZArith Lia Bool String Ascii List.
From stdpp Require Import base tactics list strings.
From S2P Require Import Prelude.
From S2P Require Import Js.
From S2P Require Import Protobuf.
From S2P Require Import Base64Url.
From S2P Require Import Crypto.
From S2P Require Import LiveTicket.
Open Scope string_scope.
Open Scope Z_scope.

Definition MAX_LIVE_FRAME_BYTES : Z := 16 * 1024.
Definition LIVE_FRESHNESS_MS : Z := 20000.
Definition FRAME_HEADER_BYTES : Z := 48.
Definition AUTHENTICATED_HEADER_BYTES : Z := 44.
Definition LIVE_MAGIC : list byte := map byte_of_Z [65; 80; 76; 49].

(** ** Big-endian integers of a [DataView] *)

Definition be_value (bs : list byte) : Z := fold_left (fun acc b => acc * 256 + bz b) bs 0.
Fixpoint be_bytes (n : nat) (v : Z) : list byte :=
  match n with O => [] | S n' => (be_bytes n' (v / 256) ++ [byte_of_Z v])%list end.

Lemma be_value_snoc bs b : be_value (bs ++ [b])%list = be_value bs * 256 + bz b.
Proof. unfold be_value. by rewrite fold_left_app. Qed.
Lemma be_bytes_length n v : length (be_bytes n v) = n.
Proof. revert v. induction n as [|n IH]; intros v; [done|]. simpl. rewrite length_app, IH. simpl. lia. Qed.
Lemma be_value_bound bs : 0 <= be_value bs < 256 ^ Z.of_nat (length bs).
Proof.
  induction bs as [|b bs IH] using rev_ind; [done|].
  rewrite be_value_snoc, length_app. pose proof (bz_range b). cbn [length].
  replace (Z.of_nat (length bs + 1)) with (Z.succ (Z.of_nat (length bs))) by lia.
  rewrite Z.pow_succ_r by lia. lia.
Qed.
Lemma be_value_bytes n v : 0 <= v < 256 ^ Z.of_nat n -> be_value (be_bytes n v) = v.
Proof.
  revert v. induction n as [|n IH]; intros v Hv; [simpl in *; cbn; lia|].
  rewrite Nat2Z.inj_succ, Z.pow_succ_r in Hv by lia. cbn [be_bytes].
  rewrite be_value_snoc, IH, bz_byte_of_Z.
  - pose proof (Z.div_mod v 256). lia.
  - split; [apply Z.div_pos; lia | apply Z.div_lt_upper_bound; lia].
Qed.
Lemma be_bytes_value bs : be_bytes (length bs) (be_value bs) = bs.
Proof.
  induction bs as [|b bs IH] using rev_ind; [done|].
  rewrite length_app, Nat.add_comm, be_value_snoc. cbn [length Nat.add be_bytes].
  pose proof (bz_range b).
  rewrite Z.div_add_l, Z.div_small, Z.add_0_r, IH by lia. do 2 f_equal.
  apply bz_inj. rewrite bz_byte_of_Z, Z.add_comm, Z.mod_add, Z.mod_small by lia. done.
Qed.
Lemma be_bytes_inj n v w : 0 <= v < 256 ^ Z.of_nat n -> 0 <= w < 256 ^ Z.of_nat n ->
  be_bytes n v = be_bytes n w -> v = w.
Proof. intros Hv Hw E. by rewrite <- (be_value_bytes n v), E, be_value_bytes. Qed.

(* @src packages/contracts/src/live-frame.ts readUnsigned64 *)
Definition readUnsigned64 (view : list byte) (offset : Z) : res Z :=
  safeProtobufNumber (be_value (slice view offset (offset + 8))).

(** ** Frames *)

(* @src packages/contracts/src/live-frame.ts AgentLiveFrameHeader *)
Record AgentLiveFrameHeader := FrameHeader {
  fr_sessionId : list byte;
  fr_machinePk : Z;
  fr_sequence : Z;
  fr_observedAt : Z;
  fr_aad : list byte;
  fr_ciphertext : list byte;
}.

(* @src packages/contracts/src/live-frame.ts parseAgentLiveFrame *)
Definition parseAgentLiveFrame (message : list byte) : res AgentLiveFrameHeader :=
  let bytes := message in
  throw_if (blen bytes <? FRAME_HEADER_BYTES + 16) || (MAX_LIVE_FRAME_BYTES <? blen bytes)
    as "invalid_live_frame_size" in
  throw_if negb (forallb (fun i => bool_decide (byte_at bytes (Z.of_nat i) = byte_at LIVE_MAGIC (Z.of_nat i)))
                   (seq 0 (length LIVE_MAGIC)))
    as "invalid_live_frame_magic" in
  let ciphertextBytes := be_value (slice message 44 48) in
  throw_if (ciphertextBytes <? 16) || negb (FRAME_HEADER_BYTES + ciphertextBytes =? blen bytes)
    as "invalid_live_frame_length" in
  let* machinePk := readUnsigned64 message 20 in
  let* sequence := readUnsigned64 message 28 in
  let* observedAt := readUnsigned64 message 36 in
  Ok (FrameHeader (slice bytes 4 20) machinePk sequence observedAt
        (slice bytes 0 AUTHENTICATED_HEADER_BYTES)
        (drop (Z.to_nat FRAME_HEADER_BYTES) bytes)).

(* @src packages/contracts/src/live-frame.ts nonce *)
Definition nonce (prefix : list byte) (sequence : Z) : res (list byte) :=
  throw_if negb (blen prefix =? 4) || negb (safe_z sequence) || (sequence <=? 0)
    as "invalid_live_nonce" in
  Ok (prefix ++ be_bytes 8 sequence)%list.

(* @src packages/contracts/src/live-frame.ts LiveViewerSnapshot *)
Record LiveViewerSnapshot := Snapshot {
  snap_topic : string;
  snap_sample : metric_sample;
}.
#[export] Instance snapshot_eq_dec : EqDecision LiveViewerSnapshot.
Proof. solve_decision. Defined.

Section Decrypt.
Context `{WC : WebCrypto}.
(* @src packages/contracts/src/live-frame.ts decryptAgentLiveFrame *)
Definition decryptAgentLiveFrame (frame : AgentLiveFrameHeader) (secret sessionId noncePrefix : string)
    (machinePk : Z) : res LiveViewerSnapshot :=
  let* expectedSession := decodeBase64Url sessionId 16 in
  throw_if negb (blen expectedSession =? 16) ||
           negb (forallb (fun i => bool_decide (byte_at (fr_sessionId frame) (Z.of_nat i) =
                                                 byte_at expectedSession (Z.of_nat i)))
                   (seq 0 (length expectedSession))) ||
           negb (fr_machinePk frame =? machinePk)
    as "live_frame_scope_mismatch" in
  let* key := deriveAgentLiveKey secret sessionId in
  let* prefix := decodeBase64Url noncePrefix 4 in
  let* iv := nonce prefix (fr_sequence frame) in
  let* plaintext := aes_gcm_decrypt key iv (fr_aad frame) (fr_ciphertext frame) in
  let* sample := decodeLiveMetricSample plaintext in
  throw_if negb (observedAt sample =? fr_observedAt frame) as "live_frame_time_mismatch" in
  Ok (Snapshot ("machine:" ++ z_to_string (fr_machinePk frame)) sample).
End Decrypt.

(** ** Viewer messages *)

(* @src packages/contracts/src/live-frame.ts isSafeMetric *)
Definition isSafeMetric (value : option json) : option Z :=
  match as_safe_int value with Some z => if 0 <=? z then Some z else None | None => None end.
(* @src packages/contracts/src/live-frame.ts metricValue *)
Definition metricValue (data : props) (key : string) : res Z :=
  match isSafeMetric (obj_get key data) with
  | Some z => Ok z | None => Err "invalid_live_viewer_message"
  end.
(* @src packages/contracts/src/live-frame.ts optionalMetricValue *)
Definition optionalMetricValue (data : props) (key : string) : res (option Z) :=
  match obj_get key data with
  | Some JNull => Ok None
  | _ => let* z := metricValue data key in Ok (Some z)
  end.

(** [JSON.stringify(snapshot)]: fields in the order the object is built. *)
Definition null_or_int (o : option Z) : jout := match o with Some z => OInt z | None => ONull end.
Definition snapshot_json (s : LiveViewerSnapshot) : jout :=
  let m := snap_sample s in
  OObj [("type", OStr "snapshot"); ("topic", OStr (snap_topic s));
    ("observedAt", OInt (observedAt m)); ("cpuPermille", OInt (cpuPermille m));
    ("memoryUsedBytes", OInt (memoryUsedBytes m)); ("memoryTotalBytes", OInt (memoryTotalBytes m));
    ("storageUsedBytes", OInt (storageUsedBytes m)); ("storageTotalBytes", OInt (storageTotalBytes m));
    ("networkRxBps", OInt (networkRxBps m)); ("networkTxBps", OInt (networkTxBps m));
    ("networkRxTotal", OInt (networkRxTotal m)); ("networkTxTotal", OInt (networkTxTotal m));
    ("load1mMilli", null_or_int (load1mMilli m)); ("uptimeSeconds", null_or_int (uptimeSeconds m))].

(* @src packages/contracts/src/live-frame.ts parseLiveViewerMessage *)
Definition parseLiveViewerMessage (value : string) : res LiveViewerSnapshot :=
  throw_if 4096 <? slen value as "invalid_live_viewer_message" in
  let* parsed := json_parse value in
  let* data := as_record "invalid_live_viewer_message" parsed in
  let* observedAt := metricValue data "observedAt" in
  let* cpuPermille := metricValue data "cpuPermille" in
  let* memoryUsedBytes := metricValue data "memoryUsedBytes" in
  let* memoryTotalBytes := metricValue data "memoryTotalBytes" in
  let* storageUsedBytes := metricValue data "storageUsedBytes" in
  let* storageTotalBytes := metricValue data "storageTotalBytes" in
  let* networkRxBps := metricValue data "networkRxBps" in
  let* networkTxBps := metricValue data "networkTxBps" in
  let* networkRxTotal := metricValue data "networkRxTotal" in
  let* networkTxTotal := metricValue data "networkTxTotal" in
  let* load1mMilli := optionalMetricValue data "load1mMilli" in
  let* uptimeSeconds := optionalMetricValue data "uptimeSeconds" in
  match as_string (obj_get "topic" data) with
  | Some topic =>
      throw_if negb (is_str "snapshot" (obj_get "type" data)) || negb (is_machine_topic topic) ||
               (1000 <? cpuPermille)
        as "invalid_live_viewer_message" in
      Ok (Snapshot topic (MetricSample observedAt cpuPermille memoryUsedBytes memoryTotalBytes
            storageUsedBytes storageTotalBytes networkRxBps networkTxBps networkRxTotal networkTxTotal
            load1mMilli uptimeSeconds))
  | None => Err "invalid_live_viewer_message"
  end.

(** ** The frame format *)

(** The agent's layout of a frame. *)
Definition encode_frame (session : list byte) (machinePk sequence observedAt : Z)
    (ciphertext : list byte) : list byte :=
  (LIVE_MAGIC ++ session ++ be_bytes 8 machinePk ++ be_bytes 8 sequence ++ be_bytes 8 observedAt ++
   be_bytes 4 (blen ciphertext) ++ ciphertext)%list.

Definition frame_fields_ok (session : list byte) (pk seq obs : Z) (ct : list byte) : Prop :=
  blen session = 16 /\ (0 <= pk <= max_safe /\ 0 <= seq <= max_safe /\ 0 <= obs <= max_safe) /\
  16 <= blen ct /\ 48 + blen ct <= MAX_LIVE_FRAME_BYTES.

Lemma slice_mid a b c i j : blen a = i -> i + blen b = j -> slice (a ++ b ++ c)%list i j = b.
Proof.
  unfold blen. intros <- <-. unfold slice. rewrite Nat2Z.id, drop_app_length.
  replace (Z.to_nat _) with (length b) by lia. apply take_app_length.
Qed.
Lemma slice_drop bs i j : 0 <= i <= j -> drop (Z.to_nat i) bs = (slice bs i j ++ drop (Z.to_nat j) bs)%list.
Proof.
  intros Hij. unfold slice.
  replace (drop (Z.to_nat j) bs) with (drop (Z.to_nat (j - i)) (drop (Z.to_nat i) bs))
    by (rewrite drop_drop; f_equal; lia).
  by rewrite take_drop.
Qed.
Lemma slice_length bs i j : 0 <= i <= j -> j <= blen bs -> blen (slice bs i j) = j - i.
Proof. unfold blen, slice. intros Hij Hj. rewrite length_take, length_drop. lia. Qed.

Lemma blen_be n v : blen (be_bytes n v) = Z.of_nat n.
Proof. unfold blen. by rewrite be_bytes_length. Qed.

Lemma magic_check bytes : 4 <= blen bytes ->
  forallb (fun i => bool_decide (byte_at bytes (Z.of_nat i) = byte_at LIVE_MAGIC (Z.of_nat i)))
    (seq 0 (length LIVE_MAGIC)) = true <-> slice bytes 0 4 = LIVE_MAGIC.
Proof.
  unfold blen. intros Hl. destruct bytes as [|b0 [|b1 [|b2 [|b3 r]]]]; simpl in Hl; try lia.
  change (slice (b0 :: b1 :: b2 :: b3 :: r) 0 4) with [b0; b1; b2; b3].
  change (length LIVE_MAGIC) with 4%nat. cbn [seq forallb]. rewrite andb_true_r, !andb_true_iff, !bool_decide_eq_true.
  change LIVE_MAGIC with (map byte_of_Z [65; 80; 76; 49]). cbn [map]. split.
  - intros (H0 & H1 & H2 & H3).
    change (Some (bz b0) = Some (bz (byte_of_Z 65))) in H0. change (Some (bz b1) = Some (bz (byte_of_Z 80))) in H1.
    change (Some (bz b2) = Some (bz (byte_of_Z 76))) in H2. change (Some (bz b3) = Some (bz (byte_of_Z 49))) in H3.
    apply (inj Some), bz_inj in H0, H1, H2, H3. by subst.
  - intros [= -> -> -> ->]. done.
Qed.

Lemma readUnsigned64_ok bs i v : 0 <= i -> i + 8 <= blen bs ->
  readUnsigned64 bs i = Ok v <-> (slice bs i (i + 8) = be_bytes 8 v /\ 0 <= v <= max_safe).
Proof.
  intros Hi Hl. unfold readUnsigned64, safeProtobufNumber.
  pose proof (be_value_bound (slice bs i (i + 8))) as Hb.
  pose proof (slice_length bs i (i + 8) ltac:(lia) Hl) as Hlen.
  assert (Hn : length (slice bs i (i + 8)) = 8%nat) by (unfold blen in Hlen; lia).
  destruct (_ <? _) eqn:E; bool_hyps.
  - split; [done|]. intros [Hs Hv]. rewrite Hs, be_value_bytes in E; unfold max_safe in *; simpl; lia.
  - split.
    + intros [= <-]. split; [|lia]. rewrite <- Hn. by rewrite be_bytes_value.
    + intros [-> Hv]. f_equal. apply be_value_bytes. unfold max_safe in *. simpl; lia.
Qed.

Lemma be4_value bs : 48 <= blen bs ->
  slice bs 44 48 = be_bytes 4 (be_value (slice bs 44 48)) /\ 0 <= be_value (slice bs 44 48) < 256 ^ 4.
Proof.
  intros Hl. pose proof (slice_length bs 44 48 ltac:(lia) Hl) as Hlen.
  assert (Hn : length (slice bs 44 48) = 4%nat) by (unfold blen in Hlen; lia).
  pose proof (be_value_bound (slice bs 44 48)) as Hb. rewrite Hn in Hb. split; [|exact Hb].
  rewrite <- Hn. by rewrite be_bytes_value.
Qed.

(** The parts of an encoded frame, by their offsets. *)
Lemma encode_frame_slices session pk seq obs ct : frame_fields_ok session pk seq obs ct ->
  let bytes := encode_frame session pk seq obs ct in
  blen bytes = 48 + blen ct /\ slice bytes 0 4 = LIVE_MAGIC /\ slice bytes 4 20 = session /\
  slice bytes 20 28 = be_bytes 8 pk /\ slice bytes 28 36 = be_bytes 8 seq /\
  slice bytes 36 44 = be_bytes 8 obs /\ slice bytes 44 48 = be_bytes 4 (blen ct) /\
  drop 48 bytes = ct.
Proof.
  intros (Hs & _ & _ & _). cbv zeta. unfold encode_frame.
  set (a := LIVE_MAGIC). assert (Ha : blen a = 4) by done.
  pose proof (blen_be 8 pk). pose proof (blen_be 8 seq). pose proof (blen_be 8 obs).
  pose proof (blen_be 4 (blen ct)).
  split_and!; [rewrite !blen_app; lia| | | | | | |].
  - apply (slice_mid [] a); [done | lia].
  - apply slice_mid; lia.
  - rewrite (app_assoc a). apply slice_mid; rewrite ?blen_app; lia.
  - rewrite (app_assoc session), (app_assoc a). apply slice_mid; rewrite ?blen_app; lia.
  - rewrite (app_assoc (be_bytes 8 pk)), (app_assoc session), (app_assoc a).
    apply slice_mid; rewrite ?blen_app; lia.
  - rewrite (app_assoc (be_bytes 8 seq)), (app_assoc (be_bytes 8 pk)), (app_assoc session), (app_assoc a).
    apply slice_mid; rewrite ?blen_app; lia.
  - rewrite !app_assoc. apply drop_app_length'. unfold blen in *. rewrite !length_app. lia.
Qed.

Lemma frame_bytes_decompose bytes : 48 <= blen bytes ->
  bytes = (slice bytes 0 4 ++ slice bytes 4 20 ++ slice bytes 20 28 ++ slice bytes 28 36 ++
           slice bytes 36 44 ++ slice bytes 44 48 ++ drop 48 bytes)%list.
Proof.
  intros _. change (drop 48 bytes) with (drop (Z.to_nat 48) bytes).
  rewrite <- (slice_drop bytes 44 48), <- (slice_drop bytes 36 44), <- (slice_drop bytes 28 36),
    <- (slice_drop bytes 20 28), <- (slice_drop bytes 4 20), <- (slice_drop bytes 0 4) by lia.
  done.
Qed.

Lemma parse_frame_iff bytes h :
  parseAgentLiveFrame bytes = Ok h <->
    bytes = encode_frame (fr_sessionId h) (fr_machinePk h) (fr_sequence h) (fr_observedAt h)
              (fr_ciphertext h) /\
    frame_fields_ok (fr_sessionId h) (fr_machinePk h) (fr_sequence h) (fr_observedAt h)
      (fr_ciphertext h) /\
    fr_aad h = slice bytes 0 44.
Proof.
  split.
  - intros Hp. unfold parseAgentLiveFrame, FRAME_HEADER_BYTES, AUTHENTICATED_HEADER_BYTES in Hp.
    ok_inv. bool_hyps. apply magic_check in G0; [|lia].
    match goal with H : FrameHeader _ _ _ _ _ _ = h |- _ => subst h end.
    cbn [fr_sessionId fr_machinePk fr_sequence fr_observedAt fr_aad fr_ciphertext].
    change (Z.to_nat 48) with 48%nat.
    repeat match goal with H : readUnsigned64 _ _ = Ok _ |- _ => apply readUnsigned64_ok in H as [? ?]; [|lia..] end.
    destruct (be4_value bytes ltac:(lia)) as [Hlen4 Hb4].
    assert (Hct : blen (drop 48 bytes) = be_value (slice bytes 44 48)).
    { unfold blen in *. rewrite length_drop. lia. }
    split; [|split; [|done]].
    + unfold encode_frame. rewrite Hct, <- G0, <- Hlen4.
      repeat match goal with H : slice bytes _ _ = be_bytes 8 _ |- _ => rewrite <- H; clear H end.
      apply frame_bytes_decompose. lia.
    + unfold frame_fields_ok. rewrite slice_length, Hct by lia. lia.
  - intros (-> & Hok & Haad). destruct h as [ses pk seq obs aad ct].
    cbn [fr_sessionId fr_machinePk fr_sequence fr_observedAt fr_aad fr_ciphertext] in *.
    destruct (encode_frame_slices _ _ _ _ _ Hok) as (Hl & Hm & Hs & H1 & H2 & H3 & H4 & H5).
    destruct Hok as (Hs16 & (Hpk & Hseq & Hobs) & Hc & Hmax).
    set (bytes := encode_frame ses pk seq obs ct) in *.
    unfold parseAgentLiveFrame, FRAME_HEADER_BYTES, AUTHENTICATED_HEADER_BYTES. cbv zeta.
    rewrite (proj2 (magic_check bytes ltac:(lia)) Hm), H4, be_value_bytes
      by (unfold MAX_LIVE_FRAME_BYTES in *; simpl; lia).
    destruct (_ || _) eqn:G1; [apply orb_true_iff in G1 as [G1|G1]; bool_hyps; lia|].
    cbn [negb]. clear G1.
    destruct (_ || _) eqn:G1; [apply orb_true_iff in G1 as [G1|G1]; bool_hyps; lia|].
    rewrite (proj2 (readUnsigned64_ok bytes 20 pk ltac:(lia) ltac:(lia))) by done.
    rewrite (proj2 (readUnsigned64_ok bytes 28 seq ltac:(lia) ltac:(lia))) by done.
    rewrite (proj2 (readUnsigned64_ok bytes 36 obs ltac:(lia) ltac:(lia))) by done.
    cbn [rbind]. rewrite Hs. change (Z.to_nat 48) with 48%nat. by rewrite H5, <- Haad.
Qed.

(** The frame parser accepts exactly the frames of the format: magic, a 16-byte session, the
    machine, sequence and time as safe big-endian integers, and the ciphertext with its length,
    within the 16 KiB limit; what it returns are those fields, and the authenticated data
    is the first 44 bytes (everything the nonce and routing depend on). *)
Theorem parseAgentLiveFrame_iff bytes h :
  parseAgentLiveFrame bytes = Ok h <->
    bytes = encode_frame (fr_sessionId h) (fr_machinePk h) (fr_sequence h) (fr_observedAt h)
              (fr_ciphertext h) /\
    frame_fields_ok (fr_sessionId h) (fr_machinePk h) (fr_sequence h) (fr_observedAt h)
      (fr_ciphertext h) /\
    fr_aad h = slice bytes 0 44.
Proof. apply parse_frame_iff. Qed.

(** ** Nonces *)

Lemma nonce_ok prefix sequence iv : nonce prefix sequence = Ok iv ->
  blen prefix = 4 /\ 0 < sequence <= max_safe /\ iv = (prefix ++ be_bytes 8 sequence)%list.
Proof.
  unfold nonce, safe_z. intros H. ok_inv. bool_hyps. subst. split_and!; done || lia.
Qed.

(** Under one session prefix, two frames share a nonce only if they share a sequence number:
    together with the hub's rule that no sequence is accepted twice, no accepted pair of
    frames reuses a nonce. The nonce is always the 12 bytes AES-GCM takes. *)
Theorem nonce_unique prefix s1 s2 iv1 iv2
  (H1 : nonce prefix s1 = Ok iv1) (H2 : nonce prefix s2 = Ok iv2) :
  blen iv1 = 12 /\ (iv1 = iv2 <-> s1 = s2).
Proof.
  apply nonce_ok in H1 as (Hp & Hs1 & ->), H2 as (_ & Hs2 & ->). split.
  - rewrite blen_app, blen_be. lia.
  - split; [|by intros ->]. intros E. apply app_inv_head in E.
    apply be_bytes_inj in E; unfold max_safe in *; simpl; lia.
Qed.

Example nonce_unique_witness :
  exists iv1 iv2, nonce (encode_utf8 "abcd") 7 = Ok iv1 /\ nonce (encode_utf8 "abcd") 1000000 = Ok iv2 /\
    blen iv1 = 12 /\ (iv1 = iv2 <-> 7 = 1000000).
Proof.
  eexists _, _. split; [vm_compute; reflexivity|]. split; [vm_compute; reflexivity|].
  apply (nonce_unique (encode_utf8 "abcd")); vm_compute; reflexivity.
Defined.

(** ** Sealing and opening a frame *)

Definition authenticated_header (session : list byte) (pk seq obs : Z) : list byte :=
  (LIVE_MAGIC ++ session ++ be_bytes 8 pk ++ be_bytes 8 seq ++ be_bytes 8 obs)%list.

Lemma sample_fields_ok s : sample_ok s ->
  0 <= observedAt s <= max_safe /\ 0 <= cpuPermille s <= max_safe /\
  0 <= memoryUsedBytes s <= max_safe /\ 0 <= memoryTotalBytes s <= max_safe /\
  0 <= storageUsedBytes s <= max_safe /\ 0 <= storageTotalBytes s <= max_safe /\
  0 <= networkRxBps s <= max_safe /\ 0 <= networkTxBps s <= max_safe /\
  0 <= networkRxTotal s <= max_safe /\ 0 <= networkTxTotal s <= max_safe /\
  value_ok (load1mMilli s) /\ value_ok (uptimeSeconds s).
Proof.
  intros [Hv _ _]. unfold values_of_sample in Hv. rewrite !Forall_cons in Hv. simpl in Hv. tauto.
Qed.

Section Seal.
Context `{WCL : WebCryptoLaws}.

(** The frame an agent holding the session's key and nonce prefix sends for a sample. *)
Definition seal_frame (key session prefix : list byte) (pk seq : Z) (s : metric_sample)
  : res (list byte) :=
  let* iv := nonce prefix seq in
  Ok (encode_frame session pk seq (observedAt s)
        (aes_gcm_encrypt key iv (authenticated_header session pk seq (observedAt s)) (encode_sample s))).

Lemma session_check (a b : list byte) : a = b ->
  forallb (fun i => bool_decide (byte_at a (Z.of_nat i) = byte_at b (Z.of_nat i)))
    (seq 0 (length b)) = true.
Proof. intros ->. apply forallb_forall. intros i _. by rewrite bool_decide_eq_true. Qed.

(** The hub reads back what the agent sealed: a frame sealed under the session's derived key
    with its nonce prefix parses, and decrypts (with the session, prefix and machine of the
    hub's attachment) to exactly the agent's sample under the machine's topic. *)
Theorem seal_then_decrypt secret sessionId noncePrefix session prefix key pk seq s frame
  (Hses : decodeBase64Url sessionId 16 = Ok session) (Hses16 : blen session = 16)
  (Hpre : decodeBase64Url noncePrefix 4 = Ok prefix)
  (Hkey : deriveAgentLiveKey secret sessionId = Ok key)
  (Hpk : 0 <= pk <= max_safe) (Hs : sample_ok s)
  (Hseal : seal_frame key session prefix pk seq s = Ok frame) :
  exists h, parseAgentLiveFrame frame = Ok h /\ fr_sequence h = seq /\
    decryptAgentLiveFrame h secret sessionId noncePrefix pk =
      Ok (Snapshot ("machine:" ++ z_to_string pk) s).
Proof.
  unfold seal_frame in Hseal. apply rbind_ok in Hseal as (iv & Hiv & Hf). injection Hf as <-.
  pose proof (nonce_ok _ _ _ Hiv) as (_ & Hseq & _).
  set (aad := authenticated_header session pk seq (observedAt s)).
  set (ct := aes_gcm_encrypt key iv aad (encode_sample s)).
  pose proof (encode_sample_size s Hs) as Hsize.
  assert (Hct : blen ct = blen (encode_sample s) + 16) by apply aes_gcm_encrypt_length.
  pose proof (decode_encode_sample s Hs) as Hdec.
  assert (Hobs : 0 <= observedAt s <= max_safe) by (pose proof (sample_fields_ok s Hs); tauto).
  exists (FrameHeader session pk seq (observedAt s) aad ct). split; [|split; [done|]].
  - apply parse_frame_iff. cbn [fr_sessionId fr_machinePk fr_sequence fr_observedAt fr_aad fr_ciphertext].
    split; [done|]. split.
    + unfold frame_fields_ok, MAX_LIVE_FRAME_BYTES. lia.
    + unfold aad, authenticated_header, encode_frame. fold aad. fold ct.
      pose proof (blen_be 8 pk). pose proof (blen_be 8 seq). pose proof (blen_be 8 (observedAt s)).
      rewrite !app_assoc. rewrite <- (app_assoc _ _ ct). symmetry. apply (slice_mid []); [done|].
      rewrite !blen_app. change (blen LIVE_MAGIC) with 4. lia.
  - unfold decryptAgentLiveFrame. rewrite Hses. cbn [rbind fr_sessionId fr_machinePk fr_sequence fr_observedAt fr_aad fr_ciphertext].
    rewrite Hses16, session_check, !Z.eqb_refl by done. cbn [Z.eqb Pos.eqb negb orb].
    rewrite Hkey, Hpre. cbn [rbind]. rewrite Hiv. cbn [rbind]. unfold ct.
    rewrite aes_gcm_decrypt_encrypt. cbn [rbind]. rewrite Hdec. cbn [rbind].
    rewrite !Z.eqb_refl. reflexivity.
Qed.
End Seal.

Definition sample_key : list byte :=
  match deriveAgentLiveKey sample_secret "AAECAwQFBgcICQoLDA0ODw" with Ok k => k | Err _ => [] end.
Definition sample_session : list byte := map byte_of_Z [0;1;2;3;4;5;6;7;8;9;10;11;12;13;14;15].
Definition sample_metrics : metric_sample :=
  MetricSample 1700000000000 421 5 8 0 0 10 20 30 40 (Some 0) None.

Lemma sample_metrics_ok : sample_ok sample_metrics.
Proof.
  split; [|done|vm_compute; congruence].
  repeat constructor; vm_compute; intuition congruence.
Qed.

Example seal_then_decrypt_witness :
  exists frame h, seal_frame sample_key sample_session (encode_utf8 "abcd") 42 7 sample_metrics = Ok frame /\
    parseAgentLiveFrame frame = Ok h /\
    decryptAgentLiveFrame h sample_secret "AAECAwQFBgcICQoLDA0ODw" "YWJjZA" 42 =
      Ok (Snapshot "machine:42" sample_metrics).
Proof.
  assert (Hs : is_ok (seal_frame sample_key sample_session (encode_utf8 "abcd") 42 7 sample_metrics) = true)
    by (vm_compute; reflexivity).
  destruct (seal_frame _ _ _ 42 7 _) as [frame|e] eqn:E; [|discriminate Hs].
  destruct (seal_then_decrypt sample_secret "AAECAwQFBgcICQoLDA0ODw" "YWJjZA" sample_session
    (encode_utf8 "abcd") sample_key 42 7 sample_metrics frame) as (h & Hp & _ & Hd);
    [vm_compute; reflexivity | vm_compute; reflexivity | vm_compute; reflexivity | vm_compute; reflexivity
    | vm_compute; intuition congruence | exact sample_metrics_ok | exact E |].
  exists frame, h. split; [reflexivity|]. split; [exact Hp | exact Hd].
Defined.

(** ** Viewer messages *)

Lemma metricValue_num data key z : obj_get key data = Some (JNum (num_of_Z z)) ->
  0 <= z <= max_safe -> metricValue data key = Ok z.
Proof.
  intros Hg Hz. assert (Hs : safe_z z = true).
  { unfold safe_z, max_safe in *. apply andb_true_iff. rewrite !Z.leb_le. lia. }
  unfold metricValue, isSafeMetric. rewrite Hg. simpl. rewrite safe_int_of_Z by done.
  by rewrite (proj2 (Z.leb_le _ _)) by lia.
Qed.
Lemma optionalMetricValue_json data key o : obj_get key data = Some (json_of (null_or_int o)) ->
  value_ok o -> optionalMetricValue data key = Ok o.
Proof.
  intros Hg Ho. unfold optionalMetricValue. rewrite Hg. destruct o as [z|]; [|done].
  cbn [null_or_int json_of]. by rewrite (metricValue_num data key z).
Qed.

Lemma safe_z_nonneg z : 0 <= z <= max_safe -> safe_z z = true.
Proof. unfold safe_z, max_safe. intros H. apply andb_true_iff. rewrite !Z.leb_le. lia. Qed.

Lemma machine_topic_length t : is_machine_topic t = true -> slen t <= 28.
Proof.
  unfold is_machine_topic. intros H. apply andb_true_iff in H as [Hp H].
  assert (slen t = 8 + slen (str_drop 8 t)) as ->.
  { rewrite (prefix_drop "machine:" t Hp) at 1. by rewrite slen_app. }
  destruct (str_drop 8 t) as [|c r]; [done|]. bool_hyps. rewrite slen_cons. lia.
Qed.

Lemma null_or_int_ok o : value_ok o -> jout_ok (null_or_int o) /\ jbound (null_or_int o) <= 17.
Proof. destruct o as [z|]; [|done]. intros H. split; [by apply safe_z_nonneg | done]. Qed.

Lemma snapshot_json_ok s : sample_ok (snap_sample s) -> jout_ok (snapshot_json s).
Proof.
  intros Hs. destruct (sample_fields_ok _ Hs) as (H1 & H2 & H3 & H4 & H5 & H6 & H7 & H8 & H9 & H10 & H11 & H12).
  unfold snapshot_json. cbn [jout_ok]. split.
  { apply (bool_decide_unpack _). by vm_compute. }
  cbn [foldr snd jout_ok]. split_and!; try done; try (by apply safe_z_nonneg).
  - apply null_or_int_ok, H11.
  - apply null_or_int_ok, H12.
Qed.

Lemma snapshot_json_length s : sample_ok (snap_sample s) -> is_machine_topic (snap_topic s) = true ->
  slen (json_stringify (snapshot_json s)) <= 4096.
Proof.
  intros Hs Ht. etransitivity; [by apply stringify_length, snapshot_json_ok|].
  destruct (sample_fields_ok _ Hs) as (_ & _ & _ & _ & _ & _ & _ & _ & _ & _ & H11 & H12).
  apply null_or_int_ok in H11 as [_ H11], H12 as [_ H12]. apply machine_topic_length in Ht.
  unfold snapshot_json. cbn [jbound foldr fst snd]. rewrite !slen_cons. change (slen "") with 0. lia.
Qed.

(** Every snapshot the hub can broadcast (a decoded sample under a machine topic) is accepted
    by the viewer's parser and read back unchanged, within its 4096-character limit; and
    whatever that parser accepts has a machine topic and a CPU load of at most 1000 permille. *)
Theorem parseLiveViewerMessage_correct :
  (forall s, sample_ok (snap_sample s) -> is_machine_topic (snap_topic s) = true ->
     parseLiveViewerMessage (json_stringify (snapshot_json s)) = Ok s) /\
  (forall text s, parseLiveViewerMessage text = Ok s ->
     is_machine_topic (snap_topic s) = true /\ 0 <= cpuPermille (snap_sample s) <= 1000).
Proof.
  split.
  - intros s Hs Ht. unfold parseLiveViewerMessage.
    rewrite (proj2 (Z.ltb_ge _ _)) by (by apply snapshot_json_length).
    rewrite json_parse_stringify by (by apply snapshot_json_ok).
    destruct (sample_fields_ok _ Hs) as (H1 & H2 & H3 & H4 & H5 & H6 & H7 & H8 & H9 & H10 & H11 & H12).
    pose proof (sample_cpu _ Hs) as Hcpu. destruct s as [t m]. cbn [snap_topic snap_sample] in *.
    cbn [rbind snapshot_json json_of map fst snd as_record snap_topic snap_sample].
    do 10 (erewrite metricValue_num; [cbn [rbind] | reflexivity | eassumption]).
    do 2 (erewrite optionalMetricValue_json; [cbn [rbind] | reflexivity | eassumption]).
    cbn [obj_get String.eqb Ascii.eqb Bool.eqb as_string is_str]. rewrite Ht.
    rewrite (proj2 (Z.ltb_ge _ _)) by lia. cbn. by destruct m.
  - intros text s Hp. unfold parseLiveViewerMessage in Hp. ok_inv. subst s. bool_hyps. cbn.
    split; [done|]. match goal with H : metricValue _ "cpuPermille" = Ok _ |- _ =>
      unfold metricValue, isSafeMetric in H; repeat split_match; simplify_eq end.
    bool_hyps. lia.
Qed.
