(* ===== verification/LiveHub.v ===== *)
(** * LiveHub: the Durable Object that relays live frames

    [workers/live/src/live-hub.ts] and [workers/live/src/index.ts].  The hub's state is the
    sockets the runtime keeps for it (each with its tags, its serialised attachment and its
    ready state), the in-memory [sequenceStates] map, and the messages whose decryption is
    in flight.  [sequenceStates] holds references: a handler keeps the object it looked up
    across its [await], so the objects live in a heap and the map holds their addresses.
    [webSocketMessage] is two steps, before and after the [await]; steps of different messages,
    connections, closes and hibernation interleave freely ([hub_step]; in [reachable_by] with the
    time by which every connection was accepted).  [Date.now()] does not advance during
    synchronous code, so a step has one [now]. *)

From Stdlib Require Import ZArith Lia Bool String Ascii List.
From stdpp Require Import base tactics list strings gmap.
From S2P Require Import Prelude.
From S2P Require Import Js.
From S2P Require Import Protobuf.
From S2P Require Import Base64Url.
From S2P Require Import Crypto.
From S2P Require Import LiveTicket.
From S2P Require Import LiveFrame.
Open Scope string_scope.
Open Scope Z_scope.

Definition DEMAND_TTL_MS : Z := 30000.
Definition MAX_LIVE_SEQUENCE : Z := 1000000.
Definition MAX_SEQUENCE_JUMP : Z := 1024.
Definition MAX_AGENT_CONNECTIONS_PER_SESSION : Z := 2.
Definition MAX_VIEWER_CONNECTIONS_PER_TOPIC : Z := 4.

(* @src workers/live/src/live-hub.ts liveConnectionAvailable *)
Definition liveConnectionAvailable (activeConnections limit : Z) : bool :=
  safe_z activeConnections && (0 <=? activeConnections) && (activeConnections <? limit).

(** ** Attachments *)

(* @src workers/live/src/live-hub.ts 10-31 SocketAttachment *)
Inductive SocketAttachment : Type :=
| AgentSocketAttachment (subjectId topic : string) (expiresAt : Z) (sessionId noncePrefix : string)
    (highestSequence : option Z)
| ViewerSocketAttachment (subjectId topic : string) (expiresAt : Z).
#[export] Instance attachment_eq_dec : EqDecision SocketAttachment.
Proof. solve_decision. Defined.

Inductive socket_role := RAgent | RViewer.
#[export] Instance socket_role_eq_dec : EqDecision socket_role.
Proof. solve_decision. Defined.
Definition att_role (a : SocketAttachment) : socket_role :=
  match a with AgentSocketAttachment _ _ _ _ _ _ => RAgent | ViewerSocketAttachment _ _ _ => RViewer end.
Definition att_topic (a : SocketAttachment) : string :=
  match a with AgentSocketAttachment _ t _ _ _ _ => t | ViewerSocketAttachment _ t _ => t end.
Definition att_expires (a : SocketAttachment) : Z :=
  match a with AgentSocketAttachment _ _ e _ _ _ => e | ViewerSocketAttachment _ _ e => e end.
Definition att_session (a : SocketAttachment) : option string :=
  match a with AgentSocketAttachment _ _ _ s _ _ => Some s | ViewerSocketAttachment _ _ _ => None end.
Definition att_highest (a : SocketAttachment) : option Z :=
  match a with AgentSocketAttachment _ _ _ _ _ h => h | ViewerSocketAttachment _ _ _ => None end.
(** [{ ...attachment, highestSequence: n }] *)
Definition set_highest (n : Z) (a : SocketAttachment) : SocketAttachment :=
  match a with
  | AgentSocketAttachment u t e s p _ => AgentSocketAttachment u t e s p (Some n)
  | ViewerSocketAttachment u t e => ViewerSocketAttachment u t e
  end.

(** The structured clone the runtime keeps. *)
Definition attachment_value (a : SocketAttachment) : json :=
  json_of match a with
  | AgentSocketAttachment u t e s p h =>
      OObj [("version", OInt 1); ("role", OStr "agent"); ("subjectId", OStr u);
            ("topics", OArr [OStr t]); ("projection", OStr "internal"); ("expiresAt", OInt e);
            ("sessionId", OStr s); ("noncePrefix", OStr p); ("highestSequence", null_or_int h)]
  | ViewerSocketAttachment u t e =>
      OObj [("version", OInt 1); ("role", OStr "viewer"); ("subjectId", OStr u);
            ("topics", OArr [OStr t]); ("projection", OStr "machine-summary"); ("expiresAt", OInt e)]
  end.

(* @src workers/live/src/live-hub.ts attachment *)
Definition attachment (value : json) : option SocketAttachment :=
  match value with
  | JObj data =>
      let role := obj_get "role" data in
      match obj_get "version" data, as_string (obj_get "subjectId" data),
            obj_get "topics" data, as_safe_int (obj_get "expiresAt" data) with
      | version, Some subjectId, Some (JArr [JStr topic]), Some expiresAt =>
          if negb (is_int 1 version) || (negb (is_str "agent" role) && negb (is_str "viewer" role))
          then None
          else
            match is_str "agent" role && is_str "internal" (obj_get "projection" data),
                  as_string (obj_get "sessionId" data), as_string (obj_get "noncePrefix" data) with
            | true, Some sessionId, Some noncePrefix =>
                let highest := obj_get "highestSequence" data in
                if is_nullish highest
                then Some (AgentSocketAttachment subjectId topic expiresAt sessionId noncePrefix None)
                else match as_safe_int highest with
                     | Some h =>
                         if (h <? 1) || (MAX_LIVE_SEQUENCE <? h) then None
                         else Some (AgentSocketAttachment subjectId topic expiresAt sessionId
                                      noncePrefix (Some h))
                     | None => None
                     end
            | _, _, _ =>
                if is_str "viewer" role && is_str "machine-summary" (obj_get "projection" data)
                then Some (ViewerSocketAttachment subjectId topic expiresAt)
                else None
            end
      | _, _, _, _ => None
      end
  | _ => None
  end.

(* @src workers/live/src/live-hub.ts topicMachinePk *)
Definition topicMachinePk (topic : string) : option Z :=
  if is_machine_topic topic then safe_int (js_number (str_drop 8 topic)) else None.

(** ** The hub's state *)

Record sock := Sock {
  sk_id : nat;
  sk_tags : list string;
  sk_attachment : json;
  sk_open : bool;
}.

(* @src workers/live/src/live-hub.ts SessionSequenceState *)
Record SessionSequenceState := SeqState {
  sq_committed : option Z;
  sq_pending : list Z;
}.

(** A message between the two halves of [webSocketMessage]: what its closure holds. *)
Record inflight := Inflight {
  if_socket : nat;
  if_sessionId : string;
  if_noncePrefix : string;
  if_topic : string;
  if_now : Z;
  if_frame : AgentLiveFrameHeader;
  if_machinePk : Z;
  if_ref : nat;
  if_sessionSockets : list nat;
}.

(** What the hub does to the outside; [Accepted] is a ghost event marking that a frame's
    sequence was committed (by which socket, at which heap object). *)
Inductive event :=
| Sent (id : nat) (text : string)
| Closed (id : nat) (code : Z) (reason : string)
| Accepted (id : nat) (ref : nat) (sequence : Z).

Record hub := Hub {
  h_sockets : list sock;
  h_next : nat;
  h_states : gmap string nat;
  h_heap : list SessionSequenceState;
  h_inflight : list inflight;
  h_log : list event;
}.

Definition set_sockets l h := Hub l (h_next h) (h_states h) (h_heap h) (h_inflight h) (h_log h).
Definition set_states m h := Hub (h_sockets h) (h_next h) m (h_heap h) (h_inflight h) (h_log h).
Definition set_heap l h := Hub (h_sockets h) (h_next h) (h_states h) l (h_inflight h) (h_log h).
Definition set_inflight l h := Hub (h_sockets h) (h_next h) (h_states h) (h_heap h) l (h_log h).
Definition emit e h := Hub (h_sockets h) (h_next h) (h_states h) (h_heap h) (h_inflight h) (h_log h ++ [e])%list.

(** [ctx.getWebSockets(tag)] *)
Definition get_websockets (tag : string) (h : hub) : list sock :=
  List.filter (fun s => bool_decide (tag ∈ sk_tags s)) (h_sockets h).
Definition find_sock (id : nat) (h : hub) : option sock :=
  List.find (fun s => bool_decide (sk_id s = id)) (h_sockets h).
Definition update_sock (id : nat) (f : sock -> sock) (h : hub) : hub :=
  set_sockets (map (fun s => if bool_decide (sk_id s = id) then f s else s) (h_sockets h)) h.

(** [socket.close(code, reason)], and [socket.send(text)] with its [catch]. *)
Definition close_sock (id : nat) (code : Z) (reason : string) (h : hub) : hub :=
  emit (Closed id code reason)
    (update_sock id (fun s => Sock (sk_id s) (sk_tags s) (sk_attachment s) false) h).
Definition is_open (id : nat) (h : hub) : bool :=
  match find_sock id h with Some s => sk_open s | None => false end.
Definition send_or_close (id : nat) (text : string) (reason : string) (h : hub) : hub :=
  if is_open id h then emit (Sent id text) h else close_sock id 1011 reason h.
(** [socket.serializeAttachment(a)] *)
Definition serialize_attachment (id : nat) (a : SocketAttachment) (h : hub) : hub :=
  update_sock id (fun s => Sock (sk_id s) (sk_tags s) (attachment_value a) (sk_open s)) h.

Definition sock_attachment (id : nat) (h : hub) : option SocketAttachment :=
  match find_sock id h with Some s => attachment (sk_attachment s) | None => None end.

(** ** Operations *)

(* @src workers/live/src/live-hub.ts activeConnections *)
Definition activeConnections (tag : string) (role : socket_role) (now : Z) (h : hub) : hub * Z :=
  fold_left (fun '(h, active) socket =>
    match attachment (sk_attachment socket) with
    | Some current =>
        if att_expires current <=? now then (close_sock (sk_id socket) 1008 "Ticket expired" h, active)
        else if bool_decide (att_role current = role) then (h, active + 1) else (h, active)
    | None => (close_sock (sk_id socket) 1008 "Ticket expired" h, active)
    end) (get_websockets tag h) (h, 0).

(* @src workers/live/src/live-hub.ts hasViewer *)
Definition hasViewer (topic : string) (excluded : option nat) (now : Z) (h : hub) : bool :=
  existsb (fun socket =>
    if bool_decide (Some (sk_id socket) = excluded) then false
    else match attachment (sk_attachment socket) with
         | Some current => bool_decide (att_role current = RViewer) && (now <? att_expires current)
         | None => false
         end) (get_websockets ("topic:" ++ topic) h).

Definition demand_message (topic sessionId : string) (active : bool) (now : Z) : string :=
  json_stringify (OObj [("type", OStr "demand"); ("topic", OStr topic); ("sessionId", OStr sessionId);
    ("active", OBool active); ("expiresAt", OInt (if active then now + DEMAND_TTL_MS else now))]).

(* @src workers/live/src/live-hub.ts sendDemand *)
Definition sendDemand (topic : string) (excludedViewer : option nat) (now : Z) (h : hub) : hub :=
  let active := hasViewer topic excludedViewer now h in
  fold_left (fun h socket =>
    match attachment (sk_attachment socket) with
    | Some (AgentSocketAttachment _ _ expires session _ _) =>
        if expires <=? now then h
        else send_or_close (sk_id socket) (demand_message topic session active now)
               "Demand delivery failed" h
    | _ => h
    end) (get_websockets ("topic:" ++ topic) h) h.

(** *** Connecting *)

Inductive response := Status (code : Z) | Switching (protocol : string).
#[export] Instance response_eq_dec : EqDecision response.
Proof. solve_decision. Defined.

(** Request headers, names in lower case. *)
Definition headers := list (string * string).

(** The attachment the request's headers describe: [None] answers 401. *)
(* @src workers/live/src/live-hub.ts 165-225 fetch *)
Definition requested_attachment (hs : headers) (now : Z) : res (option SocketAttachment) :=
  let role := obj_get "x-alphaping-role" hs in
  let subjectId := obj_get "x-alphaping-subject" hs in
  let projection := obj_get "x-alphaping-projection" hs in
  let protocol := obj_get "x-alphaping-protocol" hs in
  let expiresAt := js_number (coalesce (obj_get "x-alphaping-expires" hs) "") in
  match json_parse (coalesce (obj_get "x-alphaping-topics" hs) "null") with
  | Err _ => Ok None
  | Ok topics =>
      match role, subjectId, safe_int expiresAt, topics with
      | Some role, Some subjectId, Some expiresAt, JArr [JStr topic] =>
          if (negb (String.eqb role "agent") && negb (String.eqb role "viewer")) ||
             String.eqb subjectId "" || (128 <? slen subjectId) || (expiresAt <=? now) ||
             bool_decide (topicMachinePk topic = None) ||
             negb (bool_decide (protocol = Some "alphaping.v1"))
          then Ok None
          else if String.eqb role "agent" then
            let sessionId := coalesce (obj_get "x-alphaping-session" hs) "" in
            let noncePrefix := coalesce (obj_get "x-alphaping-nonce-prefix" hs) "" in
            if negb (bool_decide (projection = Some "internal")) || String.eqb sessionId ""
            then Ok None
            else
              let* sessionBytes := decodeBase64Url sessionId 16 in
              if negb (blen sessionBytes =? 16) || String.eqb noncePrefix "" then Ok None
              else
                let* prefixBytes := decodeBase64Url noncePrefix 4 in
                if negb (blen prefixBytes =? 4) then Ok None
                else Ok (Some (AgentSocketAttachment subjectId topic expiresAt sessionId noncePrefix None))
          else if negb (bool_decide (projection = Some "machine-summary")) then Ok None
          else Ok (Some (ViewerSocketAttachment subjectId topic expiresAt))
      | _, _, _, _ => Ok None
      end
  end.

Definition connection_tag (a : SocketAttachment) : string :=
  match a with
  | AgentSocketAttachment _ _ _ session _ _ => "session:" ++ session
  | ViewerSocketAttachment subject topic _ => "viewer:" ++ subject ++ ":" ++ topic
  end.
Definition connection_limit (a : SocketAttachment) : Z :=
  match att_role a with
  | RAgent => MAX_AGENT_CONNECTIONS_PER_SESSION
  | RViewer => MAX_VIEWER_CONNECTIONS_PER_TOPIC
  end.
Definition role_tag (a : SocketAttachment) : string :=
  match att_role a with RAgent => "agent" | RViewer => "viewer" end.

(** [ctx.acceptWebSocket(server, tags); server.serializeAttachment(a)] *)
Definition accept_socket (a : SocketAttachment) (h : hub) : hub :=
  Hub (app (h_sockets h) [Sock (h_next h) [role_tag a; ("topic:" ++ att_topic a); connection_tag a]
                         (attachment_value a) true])
    (S (h_next h)) (h_states h) (h_heap h) (h_inflight h) (h_log h).

(* @src workers/live/src/live-hub.ts 161-260 fetch *)
Definition hub_fetch (hs : headers) (now : Z) (h : hub) : res (hub * response) :=
  if negb (bool_decide (to_lower <$> obj_get "upgrade" hs = Some "websocket")) then Ok (h, Status 426)
  else
    let* requested := requested_attachment hs now in
    match requested with
    | None => Ok (h, Status 401)
    | Some a =>
        let '(h, active) := activeConnections (connection_tag a) (att_role a) now h in
        if negb (liveConnectionAvailable active (connection_limit a)) then Ok (h, Status 429)
        else
          let h := accept_socket a h in
          let h := sendDemand (att_topic a) None now h in
          Ok (h, Switching "alphaping.v1")
    end.

(** *** Messages *)

Inductive ws_message := WsText (text : string) | WsBinary (bytes : list byte).

(** The checks of an agent's frame before its session is looked up. *)
(* @src workers/live/src/live-hub.ts 304-314 webSocketMessage *)
Definition checked_frame (message : list byte) (topic : string) (now : Z)
  : res (AgentLiveFrameHeader * Z) :=
  let* frame := parseAgentLiveFrame message in
  match topicMachinePk topic with
  | None => Err "invalid_live_frame_bounds"
  | Some machinePk =>
      throw_if (fr_sequence frame <=? 0) || (MAX_LIVE_SEQUENCE <? fr_sequence frame) ||
               (fr_observedAt frame <? now - LIVE_FRESHNESS_MS) || (now + 5000 <? fr_observedAt frame)
        as "invalid_live_frame_bounds" in
      Ok (frame, machinePk)
  end.

(** [Math.max(o ?? 0, z)] *)
Definition max_or (o : option Z) (z : Z) : Z := Z.max (coalesce o 0) z.

(** [new Set([socket, ...ctx.getWebSockets(tag)])] *)
Definition session_sockets (id : nat) (sessionId : string) (h : hub) : list nat :=
  id :: List.filter (fun i => negb (i =? id)%nat) (map sk_id (get_websockets ("session:" ++ sessionId) h)).

(** The highest sequence the session's attachments record. *)
(* @src workers/live/src/live-hub.ts 320-329 webSocketMessage *)
Definition attached_step (sessionId : string) (h : hub) (committed : option Z) (id : nat) : option Z :=
  match sock_attachment id h with
  | Some (AgentSocketAttachment _ _ _ session _ (Some highest)) =>
      if String.eqb session sessionId then Some (max_or committed highest) else committed
  | _ => committed
  end.
(* @src workers/live/src/live-hub.ts 319-329 webSocketMessage *)
Definition attached_highest (ids : list nat) (sessionId : string) (current : option Z) (h : hub) : option Z :=
  fold_left (attached_step sessionId h) ids current.

(** The session's sequence state, created or raised to what the attachments record; with its
    address. *)
(* @src workers/live/src/live-hub.ts 331-337 webSocketMessage *)
Definition sequence_state (sessionId : string) (committed : option Z) (h : hub)
  : hub * nat * SessionSequenceState :=
  match h_states h !! sessionId with
  | None =>
      let ref := length (h_heap h) in
      let st := SeqState committed [] in
      (set_states (<[sessionId := ref]> (h_states h)) (set_heap (h_heap h ++ [st])%list h), ref, st)
  | Some ref =>
      let st := coalesce (h_heap h !! ref) (SeqState None []) in
      let st := match committed with
                | Some c => SeqState (Some (max_or (sq_committed st) c)) (sq_pending st)
                | None => st
                end in
      (set_heap (<[ref := st]> (h_heap h)) h, ref, st)
  end.

Definition highest_known (st : SessionSequenceState) : option Z :=
  fold_left (fun highest pending => Some (max_or highest pending)) (sq_pending st) (sq_committed st).

Definition set_add (z : Z) (l : list Z) : list Z := if bool_decide (z ∈ l) then l else (l ++ [z])%list.
Definition set_delete (z : Z) (l : list Z) : list Z := List.filter (fun x => negb (x =? z)) l.

(** An agent's binary message, up to the [await] of the decryption. *)
(* @src workers/live/src/live-hub.ts 303-354 webSocketMessage *)
Definition agent_message_begin (id : nat) (topic sessionId noncePrefix : string)
    (highestSequence : option Z) (message : list byte) (now : Z) (h : hub) : hub :=
  match checked_frame message topic now with
  | Err _ => close_sock id 1008 "Invalid live frame" h
  | Ok (frame, machinePk) =>
      let sessionSockets := session_sockets id sessionId h in
      let committed := attached_highest sessionSockets sessionId highestSequence h in
      let '(h, ref, st) := sequence_state sessionId committed h in
      let replay :=
        match highest_known st with
        | Some highest =>
            (fr_sequence frame <=? highest) || (highest + MAX_SEQUENCE_JUMP <? fr_sequence frame)
        | None => false
        end in
      if replay then close_sock id 1008 "Invalid live frame" h
      else
        let st := SeqState (sq_committed st) (set_add (fr_sequence frame) (sq_pending st)) in
        set_inflight (h_inflight h ++ [Inflight id sessionId noncePrefix topic now frame machinePk ref
                                         sessionSockets])%list
          (set_heap (<[ref := st]> (h_heap h)) h)
  end.

(* @src workers/live/src/live-hub.ts 262-302 webSocketMessage *)
Definition webSocketMessage_begin (id : nat) (message : ws_message) (now : Z) (h : hub) : hub :=
  match sock_attachment id h with
  | None => close_sock id 1008 "Ticket expired" h
  | Some current =>
      if att_expires current <=? now then close_sock id 1008 "Ticket expired" h
      else
        match current with
        | ViewerSocketAttachment _ topic _ =>
            match message with
            | WsText text =>
                if 128 <? slen text then close_sock id 1003 "Unsupported viewer message" h
                else match json_parse text with
                     | Ok (JObj refresh) =>
                         if negb (is_str "demand_refresh" (obj_get "type" refresh))
                         then close_sock id 1003 "Unsupported viewer message" h
                         else sendDemand topic None now h
                     | _ => close_sock id 1003 "Unsupported viewer message" h
                     end
            | WsBinary _ => close_sock id 1003 "Unsupported viewer message" h
            end
        | AgentSocketAttachment _ topic _ sessionId noncePrefix highestSequence =>
            match message with
            | WsText _ => close_sock id 1003 "Binary live frames required" h
            | WsBinary bytes =>
                if MAX_LIVE_FRAME_BYTES <? blen bytes then close_sock id 1009 "Frame too large" h
                else if negb (hasViewer topic None now h) then h
                else agent_message_begin id topic sessionId noncePrefix highestSequence bytes now h
            end
        end
  end.

(** Raising the session's attachments to the committed sequence. *)
(* @src workers/live/src/live-hub.ts 363-373 webSocketMessage *)
Definition raise_attachment (sessionId : string) (committed : Z) (h : hub) (id : nat) : hub :=
  match sock_attachment id h with
  | Some (AgentSocketAttachment _ _ _ session _ highest as a) =>
      if String.eqb session sessionId && (coalesce highest 0 <? committed)
      then serialize_attachment id (set_highest committed a) h else h
  | _ => h
  end.
(* @src workers/live/src/live-hub.ts 362-374 webSocketMessage *)
Definition raise_attachments (ids : list nat) (sessionId : string) (committed : Z) (h : hub) : hub :=
  fold_left (raise_attachment sessionId committed) ids h.

(** Sending the snapshot to the topic's viewers. *)
(* @src workers/live/src/live-hub.ts 376-389 webSocketMessage *)
Definition broadcast (topic : string) (projection : string) (now : Z) (h : hub) : hub :=
  fold_left (fun h viewer =>
    match attachment (sk_attachment viewer) with
    | Some (ViewerSocketAttachment _ _ expires) =>
        if now <? expires then send_or_close (sk_id viewer) projection "Snapshot delivery failed" h else h
    | _ => h
    end) (get_websockets ("topic:" ++ topic) h) h.

Section Hub.
Context `{WC : WebCrypto} (LIVE_TICKET_SECRET : string).

(** After the [await]: [f] is the message, already taken off the in-flight list. *)
(* @src workers/live/src/live-hub.ts 349-393 webSocketMessage *)
Definition webSocketMessage_finish (f : inflight) (h : hub) : hub :=
  let st := coalesce (h_heap h !! if_ref f) (SeqState None []) in
  let sequence := fr_sequence (if_frame f) in
  let pending := set_delete sequence (sq_pending st) in
  match decryptAgentLiveFrame (if_frame f) LIVE_TICKET_SECRET (if_sessionId f) (if_noncePrefix f)
          (if_machinePk f) with
  | Err _ =>
      close_sock (if_socket f) 1008 "Invalid live frame"
        (set_heap (<[if_ref f := SeqState (sq_committed st) pending]> (h_heap h)) h)
  | Ok snapshot =>
      let committed := max_or (sq_committed st) sequence in
      let h := set_heap (<[if_ref f := SeqState (Some committed) pending]> (h_heap h)) h in
      let h := emit (Accepted (if_socket f) (if_ref f) sequence) h in
      let h := raise_attachments (if_sessionSockets f) (if_sessionId f) committed h in
      broadcast (if_topic f) (json_stringify (snapshot_json snapshot)) (if_now f) h
  end.

(* @src workers/live/src/live-hub.ts webSocketClose *)
Definition webSocketClose (id : nat) (now : Z) (h : hub) : hub :=
  match sock_attachment id h with
  | Some (ViewerSocketAttachment _ topic _) => sendDemand topic (Some id) now h
  | Some (AgentSocketAttachment _ _ _ sessionId _ _) =>
      let other_open :=
        existsb (fun candidate =>
          negb (sk_id candidate =? id)%nat && sk_open candidate &&
          match attachment (sk_attachment candidate) with
          | Some a => bool_decide (att_role a = RAgent)
          | None => false
          end) (get_websockets ("session:" ++ sessionId) h) in
      let pending :=
        match h_states h !! sessionId with
        | Some ref => length (sq_pending (coalesce (h_heap h !! ref) (SeqState None [])))
        | None => 0%nat
        end in
      if negb other_open && (pending =? 0)%nat then set_states (delete sessionId (h_states h)) h else h
  | None => h
  end.

(** The runtime drops the socket when it has delivered its close (or error) event. *)
(* @src workers/live/src/live-hub.ts webSocketError *)
Definition socket_gone (id : nat) (now : Z) (h : hub) : hub :=
  let h := webSocketClose id now h in
  set_sockets (List.filter (fun s => negb (sk_id s =? id)%nat) (h_sockets h)) h.

(** Eviction with no message in flight: memory is lost, sockets and attachments stay. *)
Definition hibernate (h : hub) : hub := set_states ∅ h.

(** The interleavings. *)
Inductive hub_step : hub -> hub -> Prop :=
| step_fetch hs now h h' resp : hub_fetch hs now h = Ok (h', resp) -> hub_step h h'
| step_message id message now h : find_sock id h <> None ->
    hub_step h (webSocketMessage_begin id message now h)
| step_finish l1 f l2 h : h_inflight h = (l1 ++ f :: l2)%list ->
    hub_step h (webSocketMessage_finish f (set_inflight (l1 ++ l2)%list h))
| step_gone id now h : find_sock id h <> None -> hub_step h (socket_gone id now h)
| step_hibernate h : h_inflight h = [] -> hub_step h (hibernate h).

Definition hub_init : hub := Hub [] 0 ∅ [] [] [].
Inductive hub_reachable : hub -> Prop :=
| reach_init : hub_reachable hub_init
| reach_step h h' : hub_reachable h -> hub_step h h' -> hub_reachable h'.

(** *** The Worker in front of the hub *)

(** [/^\/v1\/live\/([^/]+)$/.exec(pathname)]: the workspace in the path. *)
Definition live_path (pathname : string) : option string :=
  if starts_with "/v1/live/" pathname then
    let w := str_drop 9 pathname in
    if negb (String.eqb w "") && str_forall (fun c => negb (Ascii.eqb c "/")) w then Some w else None
  else None.

(** What the Worker does with a request: answer 404, or hand the request with these headers to
    the hub of the workspace. *)
Inductive forward := NotFound | ToHub (workspace : string) (hs : headers).

Definition role_name (c : LiveTicketClaims) : string :=
  match c with AgentClaims _ _ _ => "agent" | ViewerClaims _ => "viewer" end.
Definition projection_name (c : LiveTicketClaims) : string :=
  match c with AgentClaims _ _ _ => "internal" | ViewerClaims _ => "machine-summary" end.
Definition claims_headers (c : LiveTicketClaims) (hs : headers) : headers :=
  let b := claims_base c in
  let hs := obj_set "x-alphaping-role" (role_name c) hs in
  let hs := obj_set "x-alphaping-subject" (subjectId b) hs in
  let hs := obj_set "x-alphaping-expires" (z_to_string (expiresAt b)) hs in
  let hs := obj_set "x-alphaping-topics" (json_stringify (OArr (map OStr (topics b)))) hs in
  let hs := obj_set "x-alphaping-projection" (projection_name c) hs in
  let hs := obj_set "x-alphaping-protocol" LIVE_PROTOCOL hs in
  match c with
  | AgentClaims _ session prefix =>
      obj_set "x-alphaping-nonce-prefix" prefix (obj_set "x-alphaping-session" session hs)
  | ViewerClaims _ => hs
  end.

(* @src workers/live/src/index.ts 8-34 fetch *)
Definition worker_fetch (method pathname : string) (hs : headers) (now : Z) : forward :=
  match live_path pathname with
  | Some w =>
      if negb (String.eqb method "GET") then NotFound
      else
        match (let* token := ticketFromProtocols (obj_get "sec-websocket-protocol" hs) in
               verifyLiveTicket token LIVE_TICKET_SECRET now) with
        | Ok claims =>
            if negb (String.eqb (workspaceId (claims_base claims)) w) then NotFound
            else ToHub (workspaceId (claims_base claims)) (claims_headers claims hs)
        | Err _ => NotFound
        end
  | None => NotFound
  end.
End Hub.

(** ** What the helpers leave unchanged *)

(** The part of the state that decides which frames are accepted: everything but the sockets'
    ready states and the messages and closes already logged. *)
Definition accepted_event (e : event) : option (nat * nat * Z) :=
  match e with Accepted id ref n => Some (id, ref, n) | _ => None end.
Record core := Core {
  c_socks : list (nat * list string * json);
  c_next : nat;
  c_states : gmap string nat;
  c_heap : list SessionSequenceState;
  c_inflight : list inflight;
  c_accepted : list (nat * nat * Z);
}.
Definition hub_core (h : hub) : core :=
  Core (map (fun s => (sk_id s, sk_tags s, sk_attachment s)) (h_sockets h)) (h_next h) (h_states h)
    (h_heap h) (h_inflight h) (omap accepted_event (h_log h)).

Lemma core_emit e h : accepted_event e = None -> hub_core (emit e h) = hub_core h.
Proof. intros He. unfold hub_core, emit. cbn. f_equal. rewrite omap_app. cbn. rewrite He. apply app_nil_r. Qed.

Lemma core_close id code reason h : hub_core (close_sock id code reason h) = hub_core h.
Proof.
  unfold close_sock. rewrite core_emit by done. unfold hub_core, update_sock. cbn. f_equal.
  rewrite map_map. apply map_ext. intros s. by case_bool_decide.
Qed.
Lemma core_send id text reason h : hub_core (send_or_close id text reason h) = hub_core h.
Proof. unfold send_or_close. destruct (is_open id h); [by apply core_emit | apply core_close]. Qed.

Lemma core_fold {A} (f : hub -> A -> hub) l h :
  (forall h x, hub_core (f h x) = hub_core h) -> hub_core (fold_left f l h) = hub_core h.
Proof. intros Hf. revert h. induction l as [|x l IH]; intros h; [done|]. simpl. by rewrite IH. Qed.

Lemma core_sendDemand topic ex now h : hub_core (sendDemand topic ex now h) = hub_core h.
Proof.
  unfold sendDemand. apply core_fold. intros h' s.
  destruct (attachment _) as [[]|]; [|done..]. destruct (_ <=? now); [done | apply core_send].
Qed.
Lemma core_broadcast topic text now h : hub_core (broadcast topic text now h) = hub_core h.
Proof.
  unfold broadcast. apply core_fold. intros h' s.
  destruct (attachment _) as [[]|]; [done| |done]. destruct (now <? _); [apply core_send | done].
Qed.
Lemma core_active tag role now h : hub_core (activeConnections tag role now h).1 = hub_core h.
Proof.
  unfold activeConnections. generalize (get_websockets tag h). intros l.
  enough (Hg : forall n, hub_core (fold_left (fun '(h, active) socket =>
    match attachment (sk_attachment socket) with
    | Some current =>
        if att_expires current <=? now then (close_sock (sk_id socket) 1008 "Ticket expired" h, active)
        else if bool_decide (att_role current = role) then (h, active + 1) else (h, active)
    | None => (close_sock (sk_id socket) 1008 "Ticket expired" h, active)
    end) l (h, n)).1 = hub_core h) by apply Hg.
  revert h. induction l as [|s l IH]; intros h n; [done|]. simpl.
  destruct (attachment _) as [c|]; [destruct (_ <=? now); [|case_bool_decide]|];
    rewrite IH; try done; apply core_close.
Qed.
#[local] Hint Rewrite core_close core_send core_sendDemand core_broadcast core_active : core.

(** A socket's attachment is part of the core. *)
Definition c_att (id : nat) (c : core) : option SocketAttachment :=
  match List.find (fun s => bool_decide (s.1.1 = id)) (c_socks c) with
  | Some s => attachment s.2
  | None => None
  end.
Lemma sock_attachment_core id h : sock_attachment id h = c_att id (hub_core h).
Proof.
  unfold sock_attachment, c_att, find_sock. cbn. induction (h_sockets h) as [|s l IH]; [done|].
  cbn. destruct (bool_decide (sk_id s = id)); [done | exact IH].
Qed.

(** ** Attachments survive serialisation *)

Definition att_ok (a : SocketAttachment) : Prop :=
  safe_z (att_expires a) = true /\
  match att_highest a with Some h => 1 <= h <= MAX_LIVE_SEQUENCE | None => True end.

Lemma attachment_ok v a : attachment v = Some a -> att_ok a.
Proof.
  unfold attachment. intros H.
  assert (Hsafe : forall o z, as_safe_int o = Some z -> safe_z z = true).
  { intros o z. unfold as_safe_int, safe_int. intros Ho. repeat split_match; by simplify_eq. }
  repeat match type of H with
  | match ?x with _ => _ end = Some _ => destruct x eqn:?; try discriminate H
  end; injection H as <-; bool_hyps; split; cbn; eauto; lia.
Qed.

Lemma attachment_roundtrip a : att_ok a -> attachment (attachment_value a) = Some a.
Proof.
  intros [He Hh]. destruct a as [u t e s p h|u t e]; cbn [att_expires att_highest] in *.
  - unfold attachment_value. cbn [json_of map fst snd attachment]. cbn [obj_get String.eqb Ascii.eqb Bool.eqb].
    cbn [as_string]. rewrite as_safe_int_num by done. destruct h as [h|]; [|done].
    cbn [null_or_int json_of is_nullish]. unfold MAX_LIVE_SEQUENCE in *.
    rewrite as_safe_int_num by (apply safe_z_nonneg; unfold max_safe; lia).
    rewrite (proj2 (Z.ltb_ge _ _)), (proj2 (Z.ltb_ge _ _)) by lia. done.
  - unfold attachment_value. cbn [json_of map fst snd attachment]. cbn [obj_get String.eqb Ascii.eqb Bool.eqb].
    cbn [as_string]. by rewrite as_safe_int_num.
Qed.

(** [b] is [a] with its recorded sequence possibly raised. *)
Definition raised (a b : SocketAttachment) : Prop :=
  b = a \/ exists n, b = set_highest n a /\ coalesce (att_highest a) 0 < n.
Lemma raised_session a b : raised a b -> att_session b = att_session a.
Proof. intros [->|(n & -> & _)]; [done|]. by destruct a. Qed.
Lemma raised_highest a b m : raised a b -> att_highest a = Some m -> exists m', att_highest b = Some m' /\ m <= m'.
Proof.
  intros [->|(n & -> & Hn)] Hm; [by exists m|]. destruct a; cbn in *; [|done]. subst. cbn in Hn.
  exists n. split; [done | lia].
Qed.
Lemma raised_trans a b c : raised a b -> raised b c -> raised a c.
Proof.
  intros [->|(n & -> & Hn)]; [done|]. intros [->|(m & -> & Hm)]; right; [by exists n|].
  exists m. destruct a; cbn in *; split; try done; lia.
Qed.

Lemma serialize_att id a h k : find_sock id h <> None -> att_ok a ->
  sock_attachment k (serialize_attachment id a h) = if bool_decide (k = id) then Some a else sock_attachment k h.
Proof.
  intros Hid Ha. unfold sock_attachment, find_sock, serialize_attachment, update_sock in *. cbn in *.
  induction (h_sockets h) as [|s l IH]; [done|]. cbn in *.
  destruct (bool_decide (sk_id s = id)) eqn:E; bool_hyps; cbn.
  - rewrite E. destruct (bool_decide (id = k)) eqn:Ek; bool_hyps.
    + subst. rewrite bool_decide_eq_true_2 by done. by apply attachment_roundtrip.
    + rewrite bool_decide_eq_false_2 by congruence. clear - Ek. induction l as [|s' l IH]; [done|]. cbn.
      destruct (bool_decide (sk_id s' = id)) eqn:E'; bool_hyps; cbn.
      * rewrite E', bool_decide_eq_false_2 by done. exact IH.
      * destruct (bool_decide (sk_id s' = k)); [done | exact IH].
  - destruct (bool_decide (sk_id s = k)) eqn:Ek; bool_hyps.
    + rewrite bool_decide_eq_false_2 by congruence. done.
    + apply IH, Hid.
Qed.

(** Everything of the core except the attachments. *)
Definition core_rest (h : hub) :=
  (map (fun s => (sk_id s, sk_tags s)) (h_sockets h), h_next h, h_states h, h_heap h, h_inflight h,
   omap accepted_event (h_log h)).

Lemma find_sock_att id h a : sock_attachment id h = Some a -> find_sock id h <> None.
Proof. unfold sock_attachment. by destruct (find_sock id h). Qed.

Definition raises (ids : list nat) (ses : string) (c : Z) (h h' : hub) : Prop :=
  core_rest h' = core_rest h /\
  (forall k, sock_attachment k h = None -> sock_attachment k h' = None) /\
  (forall k a, sock_attachment k h = Some a -> exists a', sock_attachment k h' = Some a' /\ raised a a' /\
     (k ∈ ids -> att_session a = Some ses -> exists m, att_highest a' = Some m /\ c <= m)).

(** A socket left alone is already where it should be, when it is in the session. *)
Lemma raises_same id ses c h :
  (forall a, sock_attachment id h = Some a -> att_session a = Some ses ->
     exists m, att_highest a = Some m /\ c <= m) -> raises [id] ses c h h.
Proof.
  intros Hid. split; [done|]. split; [done|]. intros k a Ha. exists a. split; [done|].
  split; [by left|]. intros Hk. apply list_elem_of_singleton in Hk as ->. by apply Hid.
Qed.

Lemma raise_attachment_spec id ses c h : 1 <= c <= MAX_LIVE_SEQUENCE ->
  raises [id] ses c h (raise_attachment ses c h id).
Proof.
  intros Hc. unfold raise_attachment.
  destruct (sock_attachment id h) as [[u t e s p hi|u t e]|] eqn:Eid; cycle 1.
  { apply raises_same. intros a Ha. rewrite Eid in Ha. by injection Ha as <-. }
  { apply raises_same. congruence. }
  destruct (String.eqb_spec s ses) as [->|Hs]; cbn [andb]; cycle 1.
  { apply raises_same. intros a Ha Hses. rewrite Eid in Ha. injection Ha as <-. cbn in Hses. congruence. }
  destruct (coalesce hi 0 <? c) eqn:Ehi; bool_hyps; cycle 1.
  { apply raises_same. intros a Ha _. rewrite Eid in Ha. injection Ha as <-.
    destruct hi as [m|]; cbn in *; [by exists m | lia]. }
  pose proof (find_sock_att _ _ _ Eid) as Hfind.
  assert (Hok : att_ok (set_highest c (AgentSocketAttachment u t e ses p hi))).
  { unfold sock_attachment in Eid. destruct (find_sock id h); [|done].
    apply attachment_ok in Eid as [He _]. by split. }
  split; [|split].
  - unfold core_rest, serialize_attachment, update_sock. cbn.
    match goal with |- (?l, _, _, _, _, _) = (?l', _, _, _, _, _) => assert (l = l') as ->; [|done] end.
    rewrite map_map. apply map_ext. intros s. by case_bool_decide.
  - intros k Hk. rewrite serialize_att by done. rewrite bool_decide_eq_false_2; [done|].
    intros ->. congruence.
  - intros k a Ha. rewrite serialize_att by done. case_bool_decide as Hk; [subst|].
    + rewrite Eid in Ha. injection Ha as <-. eexists. split; [done|]. split; [by right; exists c|].
      intros _ _. by exists c.
    + exists a. split; [done|]. split; [by left|]. intros Hin. by apply list_elem_of_singleton in Hin.
Qed.

Lemma raise_attachments_spec ids ses c h : 1 <= c <= MAX_LIVE_SEQUENCE ->
  raises ids ses c h (raise_attachments ids ses c h).
Proof.
  intros Hc. revert h. induction ids as [|id ids IH]; intros h; cbn [raise_attachments fold_left].
  { split; [done|]. split; [done|]. intros k a Ha. exists a. split; [done|]. split; [by left|].
    intros Hin. by apply elem_of_nil in Hin. }
  destruct (raise_attachment_spec id ses c h Hc) as (Hr1 & Hn1 & Hs1).
  destruct (IH (raise_attachment ses c h id)) as (Hr & Hn & Hs). fold (raise_attachments ids ses c (raise_attachment ses c h id)).
  split; [by rewrite Hr|]. split; [by auto|]. intros k a Ha.
  destruct (Hs1 k a Ha) as (a1 & Ha1 & Hra1 & Hid). destruct (Hs k a1 Ha1) as (a' & Ha' & Hra' & Hin).
  exists a'. split; [done|]. split; [by eapply raised_trans|].
  intros Hk Hses. apply elem_of_cons in Hk as [->|Hk].
  - destruct (Hid ltac:(by left) Hses) as (m & Hm & Hcm).
    destruct (raised_highest _ _ _ Hra' Hm) as (m' & Hm' & ?). exists m'. split; [done | lia].
  - apply Hin; [done|]. by rewrite (raised_session _ _ Hra1).
Qed.

(** ** The invariant *)

Definition fly_key (f : inflight) : nat * Z := (if_socket f, fr_sequence (if_frame f)).
Definition fly_ref_key (f : inflight) : nat * Z := (if_ref f, fr_sequence (if_frame f)).
Definition acc_key (x : nat * nat * Z) : nat * Z := (x.1.1, x.2).
Definition acc_ref_key (x : nat * nat * Z) : nat * Z := (x.1.2, x.2).

(** A message in flight: its session's map entry is the object it holds, its sequence is still
    pending there, and its socket, while it lives, belongs to the session. *)
Record fly_ok (c : core) (f : inflight) : Prop := {
  fly_state : c_states c !! if_sessionId f = Some (if_ref f);
  fly_pending : exists st, c_heap c !! if_ref f = Some st /\ fr_sequence (if_frame f) ∈ sq_pending st;
  fly_self : if_socket f ∈ if_sessionSockets f;
  fly_range : 1 <= fr_sequence (if_frame f) <= MAX_LIVE_SEQUENCE;
  fly_id : (if_socket f < c_next c)%nat;
  fly_session : forall a, c_att (if_socket f) c = Some a -> att_session a = Some (if_sessionId f);
}.

(** An accepted sequence is covered by the object it was committed to and, while the socket
    lives, by the socket's attachment. *)
Record acc_ok (c : core) (x : nat * nat * Z) : Prop := {
  acc_id : (x.1.1 < c_next c)%nat;
  acc_attached : forall a, c_att x.1.1 c = Some a -> exists m, att_highest a = Some m /\ x.2 <= m;
  acc_committed : exists st m, c_heap c !! x.1.2 = Some st /\ sq_committed st = Some m /\ x.2 <= m;
}.

Record hub_inv (c : core) : Prop := {
  i_ids : Forall (fun s => s.1.1 < c_next c)%nat (c_socks c);
  i_fly : Forall (fly_ok c) (c_inflight c);
  i_acc : Forall (acc_ok c) (c_accepted c);
  i_key : NoDup (map acc_key (c_accepted c) ++ map fly_key (c_inflight c));
  i_ref : NoDup (map acc_ref_key (c_accepted c) ++ map fly_ref_key (c_inflight c));
  i_heap : forall ref st m, c_heap c !! ref = Some st -> sq_committed st = Some m -> m <= MAX_LIVE_SEQUENCE;
  i_states : forall s r, c_states c !! s = Some r -> (r < length (c_heap c))%nat;
}.

(** The objects only grow: pending sequences stay, committed ones rise. *)
Definition heap_le (l l' : list SessionSequenceState) : Prop :=
  forall ref st, l !! ref = Some st -> exists st', l' !! ref = Some st' /\
    (forall n, n ∈ sq_pending st -> n ∈ sq_pending st') /\
    (forall m, sq_committed st = Some m -> exists m', sq_committed st' = Some m' /\ m <= m').

Lemma acc_ok_mono c c' x : acc_ok c x -> (c_next c <= c_next c')%nat ->
  (forall k a', (k < c_next c)%nat -> c_att k c' = Some a' -> exists a, c_att k c = Some a /\ raised a a') ->
  (forall ref st m, c_heap c !! ref = Some st -> sq_committed st = Some m ->
     exists st' m', c_heap c' !! ref = Some st' /\ sq_committed st' = Some m' /\ m <= m') ->
  acc_ok c' x.
Proof.
  intros [Hid Hatt (st & m & Hst & Hm & Hx)] Hn Hk Hh. split; [lia| |].
  - intros a' Ha'. destruct (Hk _ _ Hid Ha') as (a & Ha & Hr). destruct (Hatt a Ha) as (m1 & Hm1 & ?).
    destruct (raised_highest _ _ _ Hr Hm1) as (m2 & Hm2 & ?). exists m2. split; [done | lia].
  - destruct (Hh _ _ _ Hst Hm) as (st' & m' & ? & ? & ?). exists st', m'. split_and!; done || lia.
Qed.

Lemma hub_inv_grow socks nx sts hp fl ac sts' hp' :
  hub_inv (Core socks nx sts hp fl ac) -> heap_le hp hp' ->
  (forall s r, sts !! s = Some r -> sts' !! s = Some r) ->
  (forall s r, sts' !! s = Some r -> (r < length hp')%nat) ->
  (forall ref st m, hp' !! ref = Some st -> sq_committed st = Some m -> m <= MAX_LIVE_SEQUENCE) ->
  hub_inv (Core socks nx sts' hp' fl ac).
Proof.
  intros [I1 I2 I3 I4 I5 I6 I7] Hle Hsts Hr Hb. split; try done; cbn in *.
  - eapply Forall_impl; [exact I2|]. intros f [F1 (st & Hst & Hp) F3 F4 F5 F6]. split; try done; cbn in *.
    + by apply Hsts.
    + destruct (Hle _ _ Hst) as (st' & Hst' & Hp' & _). exists st'. auto.
  - eapply Forall_impl; [exact I3|]. intros x Hx. eapply acc_ok_mono; [exact Hx|done| |].
    + intros k a' _ Ha'. exists a'. split; [exact Ha' | by left].
    + cbn. intros ref st m Hst Hm. destruct (Hle _ _ Hst) as (st' & ? & _ & Hc).
      destruct (Hc m Hm) as (m' & ? & ?). eauto 6.
Qed.

Lemma hub_inv_launch socks nx sts hp fl ac f :
  hub_inv (Core socks nx sts hp fl ac) -> fly_ok (Core socks nx sts hp fl ac) f ->
  fly_key f ∉ (map acc_key ac ++ map fly_key fl)%list ->
  fly_ref_key f ∉ (map acc_ref_key ac ++ map fly_ref_key fl)%list ->
  hub_inv (Core socks nx sts hp (fl ++ [f])%list ac).
Proof.
  intros [I1 I2 I3 I4 I5 I6 I7] Hf Hk Hr. split; try done; cbn in *.
  - apply Forall_app. split; [|constructor; [|constructor]]; [|by destruct Hf].
    eapply Forall_impl; [exact I2|]. by intros g [].
  - eapply Forall_impl; [exact I3|]. by intros x [].
  - rewrite map_app, app_assoc. apply NoDup_app. split_and!; [done| |apply NoDup_singleton].
    intros x Hx Hx'. by apply list_elem_of_singleton in Hx' as ->.
  - rewrite map_app, app_assoc. apply NoDup_app. split_and!; [done| |apply NoDup_singleton].
    intros x Hx Hx'. by apply list_elem_of_singleton in Hx' as ->.
Qed.

(** Attachments raised, sockets dropped or added: what matters is what old sockets show. *)
Lemma hub_inv_sockets socks nx sts hp fl ac socks' nx' :
  hub_inv (Core socks nx sts hp fl ac) -> (nx <= nx')%nat ->
  Forall (fun s => s.1.1 < nx')%nat socks' ->
  (forall k a', (k < nx)%nat -> c_att k (Core socks' nx' sts hp fl ac) = Some a' ->
     exists a, c_att k (Core socks nx sts hp fl ac) = Some a /\ raised a a') ->
  hub_inv (Core socks' nx' sts hp fl ac).
Proof.
  intros [I1 I2 I3 I4 I5 I6 I7] Hn Hids Hk. split; try done; cbn in *.
  - eapply Forall_impl; [exact I2|]. intros f [F1 F2 F3 F4 F5 F6]. split; try done; cbn in *; [lia|].
    intros a' Ha'. destruct (Hk _ _ F5 Ha') as (a & Ha & Hra). rewrite (raised_session _ _ Hra). by apply F6.
  - eapply Forall_impl; [exact I3|]. intros x Hx. eapply acc_ok_mono; [exact Hx|done|exact Hk|].
    intros ref st m Hst Hm. exists st, m. split_and!; done || lia.
Qed.

(** A message leaves flight: its sequence is no longer pending. *)
Lemma hub_inv_land socks nx sts hp l1 f l2 ac st com' :
  hub_inv (Core socks nx sts hp (l1 ++ f :: l2)%list ac) ->
  hp !! if_ref f = Some st ->
  (forall m, sq_committed st = Some m -> exists m', com' = Some m' /\ m <= m') ->
  (forall m', com' = Some m' -> m' <= MAX_LIVE_SEQUENCE) ->
  hub_inv (Core socks nx sts
    (<[if_ref f := SeqState com' (set_delete (fr_sequence (if_frame f)) (sq_pending st))]> hp) (l1 ++ l2)%list ac).
Proof.
  intros [I1 I2 I3 I4 I5 I6 I7] Hst Hmono Hb. cbn in *.
  assert (Hlen : (if_ref f < length hp)%nat) by (by eapply lookup_lt_Some).
  assert (Hhp : forall ref st' m, hp !! ref = Some st' -> sq_committed st' = Some m ->
    exists st'' m', <[if_ref f := SeqState com' (set_delete (fr_sequence (if_frame f)) (sq_pending st))]> hp !! ref
       = Some st'' /\ sq_committed st'' = Some m' /\ m <= m').
  { intros ref st' m Hl Hm. destruct (decide (ref = if_ref f)) as [->|Hne].
    - rewrite Hst in Hl. injection Hl as <-. destruct (Hmono m Hm) as (m' & -> & ?).
      eexists _, m'. rewrite list_lookup_insert_eq by done. done.
    - rewrite list_lookup_insert_ne by done. exists st', m. split_and!; done || lia. }
  assert (Hperm : (l1 ++ f :: l2)%list ≡ₚ f :: (l1 ++ l2)) by (by rewrite Permutation_middle).
  assert (Hsub : forall A (g : inflight -> A) (l : list A), NoDup (l ++ map g (l1 ++ f :: l2)) ->
    NoDup (l ++ map g (l1 ++ l2)) /\ g f ∉ map g (l1 ++ l2)).
  { intros A g l Hnd. apply NoDup_app in Hnd as (Hl & Hd & Hnd).
    rewrite Hperm in Hnd. cbn in Hnd. apply NoDup_cons in Hnd as [Hni Hnd]. split; [|done].
    apply NoDup_app. split_and!; [done| |done]. intros x Hx Hx'. apply (Hd x Hx).
    rewrite Hperm. cbn. by right. }
  assert (Hfly : Forall (fly_ok (Core socks nx sts hp (l1 ++ f :: l2)%list ac)) (l1 ++ l2)).
  { apply Forall_app in I2 as [H1 H2]. apply Forall_cons in H2 as [_ H2]. by apply Forall_app. }
  destruct (Hsub _ fly_key _ I4) as [I4' _]. destruct (Hsub _ fly_ref_key _ I5) as [I5' Hfresh].
  split; try done; cbn in *.
  - rewrite Forall_forall in *. intros g Hg. destruct (Hfly g Hg) as [F1 (st' & Hst' & Hp) F3 F4 F5 F6].
    split; try done; cbn in *. destruct (decide (if_ref g = if_ref f)) as [Heq|Hne].
    + rewrite Heq in *. rewrite list_lookup_insert_eq by done. eexists. split; [done|]. cbn.
      rewrite Hst in Hst'. injection Hst' as <-. unfold set_delete. apply filter_In_elem. split; [done|].
      destruct (_ =? _) eqn:E; [|done]. bool_hyps. exfalso. apply Hfresh.
      apply list_elem_of_fmap. exists g. split; [|done]. unfold fly_ref_key. by rewrite Heq, E.
    + rewrite list_lookup_insert_ne by done. by exists st'.
  - eapply Forall_impl; [exact I3|]. intros x Hx. eapply acc_ok_mono; [exact Hx|done| |exact Hhp].
    intros k a' _ Ha'. exists a'. split; [exact Ha' | by left].
  - intros ref st' m Hl Hm. destruct (decide (ref = if_ref f)) as [->|Hne].
    + rewrite list_lookup_insert_eq in Hl by done. injection Hl as <-. by apply Hb.
    + rewrite list_lookup_insert_ne in Hl by done. by eapply I6.
  - intros s r Hs. rewrite length_insert. by eapply I7.
Qed.

(** A sequence is accepted. *)
Lemma hub_inv_accept socks nx sts hp fl ac x :
  hub_inv (Core socks nx sts hp fl ac) -> acc_ok (Core socks nx sts hp fl ac) x ->
  acc_key x ∉ (map acc_key ac ++ map fly_key fl)%list ->
  acc_ref_key x ∉ (map acc_ref_key ac ++ map fly_ref_key fl)%list ->
  hub_inv (Core socks nx sts hp fl (ac ++ [x])%list).
Proof.
  intros [I1 I2 I3 I4 I5 I6 I7] Hx Hk Hr. split; try done; cbn in *.
  - eapply Forall_impl; [exact I2|]. by intros g [].
  - apply Forall_app. split; [|constructor; [|constructor]]; [|by destruct Hx].
    eapply Forall_impl; [exact I3|]. by intros y [].
  - rewrite map_app, <- app_assoc. rewrite (Permutation_app_comm [acc_key x]), app_assoc.
    apply NoDup_app. split_and!; [done| |apply NoDup_singleton].
    intros y Hy Hy'. by apply list_elem_of_singleton in Hy' as ->.
  - rewrite map_app, <- app_assoc. rewrite (Permutation_app_comm [acc_ref_key x]), app_assoc.
    apply NoDup_app. split_and!; [done| |apply NoDup_singleton].
    intros y Hy Hy'. by apply list_elem_of_singleton in Hy' as ->.
Qed.

(** ** Each step keeps the invariant *)

(** [cur'] is no lower than [cur], and in range when [cur] is. *)
Definition opt_raise (cur cur' : option Z) : Prop :=
  ((forall m, cur = Some m -> m <= MAX_LIVE_SEQUENCE) -> forall m, cur' = Some m -> m <= MAX_LIVE_SEQUENCE) /\
  (forall m, cur = Some m -> exists m', cur' = Some m' /\ m <= m').
Lemma opt_raise_refl cur : opt_raise cur cur.
Proof. split; [done|]. intros m Hm. exists m. split; [done | lia]. Qed.
Lemma opt_raise_trans a b c : opt_raise a b -> opt_raise b c -> opt_raise a c.
Proof.
  intros [B1 M1] [B2 M2]. split; [auto|]. intros m Hm. destruct (M1 m Hm) as (m1 & H1 & ?).
  destruct (M2 m1 H1) as (m2 & H2 & ?). exists m2. split; [exact H2 | lia].
Qed.
Lemma attached_step_raise ses h cur id : opt_raise cur (attached_step ses h cur id).
Proof.
  unfold attached_step.
  destruct (sock_attachment id h) as [[u t e s p [hi|]|]|] eqn:Ea; try apply opt_raise_refl.
  destruct (String.eqb s ses); [|apply opt_raise_refl].
  unfold sock_attachment in Ea. destruct (find_sock id h); [|done].
  apply attachment_ok in Ea as [_ Ea]. cbn in Ea. split.
  - intros Hcur m [= <-]. unfold max_or. destruct cur as [c|]; cbn; [|lia]. specialize (Hcur c eq_refl). lia.
  - intros m ->. eexists. split; [done|]. unfold max_or. cbn. lia.
Qed.
Lemma attached_highest_raise ids ses cur h : opt_raise cur (attached_highest ids ses cur h).
Proof.
  unfold attached_highest. revert cur. induction ids as [|id ids IH]; intros cur; [apply opt_raise_refl|].
  cbn [fold_left]. eapply opt_raise_trans; [apply attached_step_raise | apply IH].
Qed.

Lemma highest_known_spec st : forall n,
  (sq_committed st = Some n \/ n ∈ sq_pending st) -> exists m, highest_known st = Some m /\ n <= m.
Proof.
  unfold highest_known. destruct st as [com pend]. cbn [sq_committed sq_pending]. revert com.
  induction pend as [|p pend IH]; intros com n Hn; cbn [fold_left].
  - destruct Hn as [Hn|Hn]; [|by apply elem_of_nil in Hn]. exists n. split; [done | lia].
  - destruct Hn as [->|Hn]; [|apply elem_of_cons in Hn as [->|Hn]].
    + destruct (IH (Some (max_or (Some n) p)) (max_or (Some n) p) (or_introl eq_refl)) as (m & -> & ?).
      exists m. split; [done|]. unfold max_or in *. cbn in *. lia.
    + destruct (IH (Some (max_or com p)) (max_or com p) (or_introl eq_refl)) as (m & -> & ?).
      exists m. split; [done|]. unfold max_or in *. lia.
    + by apply IH; right.
Qed.

Lemma hub_core_eta h : hub_core h = Core (c_socks (hub_core h)) (h_next h) (h_states h) (h_heap h)
  (h_inflight h) (omap accepted_event (h_log h)).
Proof. done. Qed.

(** What [sequence_state] establishes. *)
Lemma sequence_state_spec ses committed h : hub_inv (hub_core h) ->
  (forall m, committed = Some m -> m <= MAX_LIVE_SEQUENCE) ->
  let '(h', ref, st) := sequence_state ses committed h in
  hub_inv (hub_core h') /\ h_sockets h' = h_sockets h /\ h_next h' = h_next h /\
  h_inflight h' = h_inflight h /\ h_log h' = h_log h /\
  h_states h' !! ses = Some ref /\ h_heap h' !! ref = Some st /\
  (forall m, committed = Some m -> exists m', sq_committed st = Some m' /\ m <= m').
Proof.
  intros Hinv Hc. rewrite hub_core_eta in Hinv. unfold sequence_state.
  destruct (h_states h !! ses) as [ref|] eqn:Es.
  - destruct (lookup_lt_is_Some_2 (h_heap h) ref) as [st Hst]; [by eapply (i_states _ Hinv)|].
    rewrite Hst. cbn [coalesce].
    set (st' := match committed with Some _ => _ | None => _ end).
    assert (Hst' : sq_pending st' = sq_pending st /\
      (forall m, sq_committed st = Some m -> exists m', sq_committed st' = Some m' /\ m <= m') /\
      (forall m, sq_committed st' = Some m -> m <= MAX_LIVE_SEQUENCE) /\
      (forall m, committed = Some m -> exists m', sq_committed st' = Some m' /\ m <= m')).
    { pose proof (fun m => i_heap _ Hinv ref st m Hst) as Hb. cbn in Hb. unfold st'. destruct committed as [c|].
      - cbn. split; [done|]. specialize (Hc c eq_refl). split_and!.
        + intros m ->. eexists. split; [done|]. unfold max_or. cbn. lia.
        + intros m [= <-]. unfold max_or, MAX_LIVE_SEQUENCE in *.
          destruct (sq_committed st) as [x|]; cbn; [|lia]. specialize (Hb x eq_refl). lia.
        + intros m [= <-]. eexists. split; [done|]. unfold max_or. lia.
      - split_and!; try done. intros m Hm. exists m. split; [done | lia]. }
    clearbody st'. destruct Hst' as (Hp & Hmono & Hb & Hcom).
    assert (Hl : (ref < length (h_heap h))%nat) by (by eapply lookup_lt_Some).
    split_and!; try done; [|by apply list_lookup_insert_eq].
    unfold hub_core, set_heap. cbn. eapply hub_inv_grow; [exact Hinv| |done| |].
    + intros r s Hr. destruct (decide (r = ref)) as [->|Hne].
      * rewrite list_lookup_insert_eq by done. rewrite Hst in Hr. injection Hr as <-.
        exists st'. rewrite Hp. auto.
      * rewrite list_lookup_insert_ne by done. exists s. split; [done|]. split; [done|].
        intros m Hm. exists m. split; [done | lia].
    + intros s r Hr. rewrite length_insert. by eapply (i_states _ Hinv).
    + intros r s m Hr Hm. destruct (decide (r = ref)) as [->|Hne].
      * rewrite list_lookup_insert_eq in Hr by done. injection Hr as <-. by apply Hb.
      * rewrite list_lookup_insert_ne in Hr by done. by eapply (i_heap _ Hinv).
  - split_and!; try done.
    + unfold hub_core, set_heap, set_states. cbn. eapply hub_inv_grow; [exact Hinv| | | |].
      * intros r s Hr. exists s. rewrite lookup_app_l by (by eapply lookup_lt_Some). split; [done|].
        split; [done|]. intros m Hm. exists m. split; [done | lia].
      * intros s r Hr. rewrite lookup_insert_ne; [done|]. congruence.
      * intros s r Hr. rewrite length_app. cbn. destruct (decide (s = ses)) as [->|Hne].
        -- rewrite lookup_insert_eq in Hr. injection Hr as <-. lia.
        -- rewrite lookup_insert_ne in Hr by done. apply (i_states _ Hinv) in Hr. cbn in Hr. lia.
      * intros r s m Hr Hm. apply lookup_app_Some in Hr as [Hr|[_ Hr]]; [by eapply (i_heap _ Hinv)|].
        apply list_lookup_singleton_Some in Hr as [_ <-]. cbn in Hm. by apply Hc.
    + cbn. apply lookup_insert_eq.
    + cbn. by rewrite lookup_app_r, Nat.sub_diag by done.
    + cbn. intros m Hm. exists m. split; [done | lia].
Qed.

Lemma checked_frame_range message topic now frame pk : checked_frame message topic now = Ok (frame, pk) ->
  1 <= fr_sequence frame <= MAX_LIVE_SEQUENCE.
Proof. unfold checked_frame. intros H. ok_inv. simplify_eq. bool_hyps. lia. Qed.

Lemma agent_message_begin_inv id topic ses pre hi bytes now h u e :
  hub_inv (hub_core h) -> sock_attachment id h = Some (AgentSocketAttachment u topic e ses pre hi) ->
  hub_inv (hub_core (agent_message_begin id topic ses pre hi bytes now h)).
Proof.
  intros Hinv Hatt. unfold agent_message_begin.
  destruct (checked_frame bytes topic now) as [[frame pk]|err] eqn:Ef; [|by rewrite core_close].
  apply checked_frame_range in Ef as Hr.
  assert (Hhi : forall m, hi = Some m -> m <= MAX_LIVE_SEQUENCE).
  { unfold sock_attachment in Hatt. destruct (find_sock id h); [|done].
    apply attachment_ok in Hatt as [_ Ha]. cbn in Ha. intros m ->. lia. }
  destruct (attached_highest_raise (session_sockets id ses h) ses hi h) as [Hb Hge]. specialize (Hb Hhi).
  pose proof (sequence_state_spec ses _ h Hinv Hb) as Hs.
  destruct (sequence_state ses _ h) as [[h' ref] st]. destruct Hs as (Hinv' & Hso & Hnx & Hin & Hlo & Hst & Hhp & Hcom).
  destruct (match highest_known st with Some _ => _ | None => _ end) eqn:Ereplay; [by rewrite core_close|].
  assert (Hfresh : forall n, (sq_committed st = Some n \/ n ∈ sq_pending st) -> n < fr_sequence frame).
  { intros n Hn. destruct (highest_known_spec st n Hn) as (m & Hm & ?). rewrite Hm in Ereplay.
    bool_hyps. lia. }
  assert (Hnotp : fr_sequence frame ∉ sq_pending st) by (intros Hp; specialize (Hfresh _ (or_intror Hp)); lia).
  assert (Hatt' : c_att id (hub_core h') = Some (AgentSocketAttachment u topic e ses pre hi)).
  { rewrite <- sock_attachment_core. unfold sock_attachment, find_sock in *. by rewrite Hso. }
  assert (Hl : (ref < length (h_heap h'))%nat) by (by eapply lookup_lt_Some).
  set (f := Inflight id ses pre topic now frame pk ref (session_sockets id ses h)).
  unfold set_add. rewrite bool_decide_eq_false_2 by done.
  set (st' := SeqState (sq_committed st) (sq_pending st ++ [fr_sequence frame])%list).
  unfold hub_core, set_inflight, set_heap. cbn. rewrite hub_core_eta in Hinv'.
  apply hub_inv_launch.
  - eapply hub_inv_grow; [exact Hinv'| |done| |].
    + intros r s Hrs. destruct (decide (r = ref)) as [->|Hne].
      * rewrite list_lookup_insert_eq by done. rewrite Hhp in Hrs. injection Hrs as <-. exists st'. split; [done|].
        split; [intros n Hn; cbn; apply elem_of_app; by left|]. intros m Hm. exists m. split; [done | lia].
      * rewrite list_lookup_insert_ne by done. exists s. split; [done|]. split; [done|].
        intros m Hm. exists m. split; [done | lia].
    + intros s r Hsr. rewrite length_insert. by eapply (i_states _ Hinv').
    + intros r s m Hrs Hm. destruct (decide (r = ref)) as [->|Hne].
      * rewrite list_lookup_insert_eq in Hrs by done. injection Hrs as <-. by eapply (i_heap _ Hinv').
      * rewrite list_lookup_insert_ne in Hrs by done. by eapply (i_heap _ Hinv').
  - split; cbn; try done.
    + exists st'. split; [by apply list_lookup_insert_eq|]. cbn. apply elem_of_app. right. by left.
    + by left.
    + pose proof (i_ids _ Hinv') as Hids. rewrite Forall_forall in Hids. cbn in Hids.
      unfold c_att in Hatt'. destruct (List.find _ _) as [s|] eqn:Efind; [|done].
      apply List.find_some in Efind as [Hin' Heq]. bool_hyps. rewrite <- Heq. apply Hids.
      by apply list_elem_of_In.
    + intros a Ha. unfold hub_core in Hatt'. cbn in *. unfold c_att in *. cbn in *. rewrite Hatt' in Ha. by injection Ha as <-.
  - rewrite elem_of_app, !list_elem_of_fmap. intros [(x & Hk & Hx)|(g & Hk & Hg)].
    + pose proof (i_acc _ Hinv') as Hacc. rewrite Forall_forall in Hacc. destruct (Hacc x Hx) as [_ Hxa _].
      unfold acc_key, fly_key in Hk. cbn in Hk. injection Hk as Hk1 Hk2. rewrite <- Hk1 in Hxa.
      destruct (Hxa _ Hatt') as (m & Hm & Hle). cbn in Hm. subst hi.
      destruct (Hge m eq_refl) as (m1 & Hm1 & ?). destruct (Hcom m1 Hm1) as (m2 & Hm2 & ?).
      specialize (Hfresh m2 (or_introl Hm2)). lia.
    + pose proof (i_fly _ Hinv') as Hfly. rewrite Forall_forall in Hfly. destruct (Hfly g Hg) as [G1 (sg & Hsg & Hpg) _ _ _ G6].
      unfold fly_key in Hk. cbn in Hk. injection Hk as Hk1 Hk2. rewrite <- Hk1 in G6.
      specialize (G6 _ Hatt'). cbn in G6, G1, Hsg. injection G6 as G6. rewrite <- G6, Hst in G1. injection G1 as G1.
      rewrite <- G1, Hhp in Hsg. injection Hsg as <-. rewrite <- Hk2 in Hpg. done.
  - rewrite elem_of_app, !list_elem_of_fmap. intros [(x & Hk & Hx)|(g & Hk & Hg)].
    + pose proof (i_acc _ Hinv') as Hacc. rewrite Forall_forall in Hacc.
      destruct (Hacc x Hx) as [_ _ (sx & m & Hsx & Hm & Hle)].
      unfold acc_ref_key, fly_ref_key in Hk. cbn in Hk. injection Hk as Hk1 Hk2. cbn in Hsx.
      rewrite <- Hk1, Hhp in Hsx. injection Hsx as <-. specialize (Hfresh m (or_introl Hm)). lia.
    + pose proof (i_fly _ Hinv') as Hfly. rewrite Forall_forall in Hfly. destruct (Hfly g Hg) as [_ (sg & Hsg & Hpg) _ _ _ _].
      unfold fly_ref_key in Hk. cbn in Hk. injection Hk as Hk1 Hk2. cbn in Hsg.
      rewrite <- Hk1, Hhp in Hsg. injection Hsg as <-. rewrite <- Hk2 in Hpg. done.
Qed.

Lemma raise_attachments_log l ses c h : h_log (raise_attachments l ses c h) = h_log h.
Proof.
  unfold raise_attachments. revert h. induction l as [|i l IH]; intros h; [done|]. cbn [fold_left].
  rewrite IH. unfold raise_attachment. destruct (sock_attachment i h) as [[]|]; [|done..]. by destruct (_ && _).
Qed.

Lemma begin_inv id message now h : hub_inv (hub_core h) ->
  hub_inv (hub_core (webSocketMessage_begin id message now h)).
Proof.
  intros Hinv. unfold webSocketMessage_begin.
  destruct (sock_attachment id h) as [a|] eqn:Ea; [|by rewrite core_close].
  destruct (_ <=? now); [by rewrite core_close|].
  destruct a as [u t e s p hi|u t e]; destruct message as [text|bytes]; try by rewrite core_close.
  - destruct (_ <? _); [by rewrite core_close|]. destruct (negb _); [done|].
    by eapply agent_message_begin_inv.
  - destruct (_ <? _); [by rewrite core_close|].
    destruct (json_parse text) as [[| | | | |refresh]|]; try by rewrite core_close.
    destruct (negb _); [by rewrite core_close | by rewrite core_sendDemand].
Qed.

Lemma c_att_irrelevant k socks n1 n2 s1 s2 p1 p2 f1 f2 a1 a2 :
  c_att k (Core socks n1 s1 p1 f1 a1) = c_att k (Core socks n2 s2 p2 f2 a2).
Proof. done. Qed.

(** The core after the attachments were raised. *)
Lemma raises_core ids ses c h h' : raises ids ses c h h' ->
  hub_core h' = Core (c_socks (hub_core h')) (h_next h) (h_states h) (h_heap h) (h_inflight h)
                  (omap accepted_event (h_log h)) /\
  map (fun s => s.1) (c_socks (hub_core h')) = map (fun s => s.1) (c_socks (hub_core h)).
Proof.
  intros (Hrest & _). unfold core_rest in Hrest. injection Hrest as H1 H2 H3 H4 H5 H6. split.
  - unfold hub_core. cbn. by rewrite H2, H3, H4, H5, H6.
  - unfold hub_core. cbn. rewrite !map_map. exact H1.
Qed.

Section HubProofs.
Context `{WC : WebCrypto} (secret : string).

Lemma finish_inv l1 f l2 h : hub_inv (hub_core h) -> h_inflight h = (l1 ++ f :: l2)%list ->
  hub_inv (hub_core (webSocketMessage_finish secret f (set_inflight (l1 ++ l2)%list h))).
Proof.
  intros Hinv Hfl. rewrite hub_core_eta, Hfl in Hinv. unfold webSocketMessage_finish. cbn [h_heap set_inflight].
  assert (Hf : fly_ok (Core (c_socks (hub_core h)) (h_next h) (h_states h) (h_heap h) (l1 ++ f :: l2)%list
    (omap accepted_event (h_log h))) f).
  { pose proof (i_fly _ Hinv) as H. rewrite Forall_forall in H. apply H. cbn. apply elem_of_app. right. by left. }
  destruct Hf as [F1 (st & Hst & Hp) F3 F4 F5 F6]. cbn in Hst, F1, F5. rewrite Hst. cbn [coalesce].
  assert (Hl : (if_ref f < length (h_heap h))%nat) by (by eapply lookup_lt_Some).
  pose proof (fun m => i_heap _ Hinv (if_ref f) st m Hst) as Hb. cbn in Hb.
  destruct (decryptAgentLiveFrame _ _ _ _ _) as [snap|err]; cycle 1.
  { rewrite core_close. unfold hub_core, set_heap, set_inflight. cbn.
    eapply hub_inv_land; [exact Hinv | exact Hst | | exact Hb]. intros m Hm. exists m. split; [done | lia]. }
  rewrite core_broadcast.
  set (com := max_or (sq_committed st) (fr_sequence (if_frame f))).
  assert (Hcom : 1 <= com <= MAX_LIVE_SEQUENCE /\ fr_sequence (if_frame f) <= com).
  { unfold com, max_or. destruct (sq_committed st) as [x|]; cbn; [specialize (Hb x eq_refl)|]; lia. }
  set (st' := SeqState (Some com) (set_delete (fr_sequence (if_frame f)) (sq_pending st))).
  match goal with |- context [raise_attachments _ _ _ ?h0] => set (h1 := h0) end.
  pose proof (raise_attachments_spec (if_sessionSockets f) (if_sessionId f) com h1 ltac:(tauto)) as Hr.
  destruct (raises_core _ _ _ _ _ Hr) as [Hcore Hids]. rewrite Hcore. clear Hcore. destruct Hr as (_ & Hnone & Hsome).
  assert (Hatt : forall k, sock_attachment k h1 = c_att k (hub_core h)).
  { intros k. rewrite <- sock_attachment_core. done. }
  assert (Hland := hub_inv_land _ _ _ _ _ _ _ _ st (Some com) Hinv Hst).
  assert (Hfresh : fly_key f ∉ (map acc_key (omap accepted_event (h_log h)) ++ map fly_key (l1 ++ l2))%list /\
    fly_ref_key f ∉ (map acc_ref_key (omap accepted_event (h_log h)) ++ map fly_ref_key (l1 ++ l2))%list).
  { assert (Hg : forall A (g : inflight -> A) l, NoDup (l ++ map g (l1 ++ f :: l2)) -> g f ∉ (l ++ map g (l1 ++ l2))%list).
    { intros A g l Hnd. rewrite map_app, map_cons, <- Permutation_middle, <- map_app in Hnd.
      rewrite <- Permutation_middle in Hnd. by apply NoDup_cons in Hnd as [? _]. }
    split; apply Hg; [apply (i_key _ Hinv) | apply (i_ref _ Hinv)]. }
  cbn [h1 h_next h_states h_heap h_inflight h_log emit set_heap set_inflight].
  rewrite omap_app. cbn [omap list_omap accepted_event]. destruct Hfresh as [Hfk Hfr].
  apply (hub_inv_accept _ _ _ _ _ _ (if_socket f, if_ref f, fr_sequence (if_frame f))); [| |exact Hfk|exact Hfr].
  - eapply hub_inv_sockets; [apply Hland| | |].
    + intros m Hm. exists com. split; [done|]. unfold com, max_or. rewrite Hm. cbn. lia.
    + intros m' [= <-]. lia.
    + done.
    + pose proof (i_ids _ Hinv) as H. cbn in H |- *.
      assert (Hi : Forall (fun s : nat * list string => s.1 < h_next h)%nat
        (map (fun s => s.1) (c_socks (hub_core (raise_attachments (if_sessionSockets f) (if_sessionId f) com h1))))).
      { rewrite Hids. rewrite Forall_map. eapply Forall_impl; [exact H|]. done. }
      rewrite Forall_map in Hi. eapply Forall_impl; [exact Hi|]. done.
    + intros k a' _ Ha'. specialize (Hnone k). specialize (Hsome k). rewrite sock_attachment_core in Hsome, Hnone.
      rewrite sock_attachment_core in Hsome, Hnone.
      destruct (c_att k (hub_core h1)) as [a|] eqn:Ek.
      * exists a. split; [rewrite <- Ek; symmetry; rewrite <- sock_attachment_core; apply Hatt|].
        destruct (Hsome a eq_refl) as (a'' & Ha'' & Hra & _).
        enough (a'' = a') as -> by done. enough (Some a'' = Some a') by congruence. rewrite <- Ha'', <- Ha'. done.
      * specialize (Hnone eq_refl). enough (Some a' = None) by done. rewrite <- Ha', <- Hnone. done.
  - split; cbn; [done| |].
    + intros a' Ha'. specialize (Hnone (if_socket f)). specialize (Hsome (if_socket f)).
      rewrite !(sock_attachment_core _ (raise_attachments _ _ _ _)) in Hsome, Hnone. rewrite Hatt in Hsome, Hnone.
      destruct (c_att (if_socket f) (hub_core h)) as [a|] eqn:Ek.
      * destruct (Hsome a eq_refl) as (a'' & Ha'' & _ & Hm). destruct (Hm F3) as (m & Hm' & ?); [by apply F6|].
        assert (a'' = a') as ->; [|exists m; split; [done|lia]].
        enough (Some a'' = Some a') by congruence. rewrite <- Ha'', <- Ha'. done.
      * specialize (Hnone eq_refl). enough (Some a' = None) by done. rewrite <- Ha', <- Hnone. done.
    + exists st', com. split; [by apply list_lookup_insert_eq|]. split; [done | lia].
Qed.

Lemma fetch_inv hs now h h' resp : hub_inv (hub_core h) -> hub_fetch hs now h = Ok (h', resp) ->
  hub_inv (hub_core h').
Proof.
  intros Hinv Hf. unfold hub_fetch in Hf. destruct (negb _); [by injection Hf as <- _|].
  apply rbind_ok in Hf as (req & _ & Hf). destruct req as [a|]; [|by injection Hf as <- _].
  destruct (activeConnections _ _ now h) as [h1 n] eqn:Eact.
  assert (Hc1 : hub_core h1 = hub_core h) by (by rewrite <- (core_active (connection_tag a) (att_role a) now h), Eact).
  destruct (negb _); injection Hf as <- _; [by rewrite Hc1|].
  rewrite core_sendDemand. rewrite <- Hc1, hub_core_eta in Hinv. unfold hub_core, accept_socket. cbn.
  rewrite map_app. pose proof (i_ids _ Hinv) as Hids. cbn in Hids.
  eapply hub_inv_sockets; [exact Hinv | lia | |].
  - apply Forall_app. split; [|by constructor; [cbn; lia | constructor]].
    eapply Forall_impl; [exact Hids|]. cbn. lia.
  - intros k a' Hk Ha'. exists a'. split; [|by left]. rewrite <- Ha'. clear Ha' Hids. unfold c_att. cbn.
    induction (map _ (h_sockets h1)) as [|x l IH]; cbn.
    + rewrite bool_decide_eq_false_2 by lia. done.
    + destruct (bool_decide (x.1.1 = k)); [done | exact IH].
Qed.

Lemma gone_inv id now h : hub_inv (hub_core h) -> hub_inv (hub_core (socket_gone id now h)).
Proof.
  intros Hinv. unfold socket_gone.
  assert (Hclose : hub_inv (hub_core (webSocketClose id now h))).
  { unfold webSocketClose. destruct (sock_attachment id h) as [[u t e ses p hi|u t e]|]; [| |done].
    - destruct (negb _ && _) eqn:E; [|done]. apply andb_true_iff in E as [_ E]. apply Nat.eqb_eq in E.
      rewrite hub_core_eta in Hinv. unfold hub_core, set_states. cbn.
      pose proof (i_fly _ Hinv) as Hfly. cbn in Hfly. destruct Hinv as [I1 I2 I3 I4 I5 I6 I7]. split; try done; cbn in *.
      + eapply Forall_impl; [exact Hfly|]. intros f [F1 (st & Hst & Hp) F3 F4 F5 F6]. split; try done; cbn in *; [|by exists st].
        rewrite lookup_delete_ne; [done|]. intros ->. rewrite F1, Hst in E. cbn in E.
        apply length_zero_iff_nil in E. rewrite E in Hp. by apply elem_of_nil in Hp.
      + eapply Forall_impl; [exact I3|]. by intros x [].
      + intros s r Hr. apply lookup_delete_Some in Hr as [_ Hr]. by eapply I7.
    - by rewrite core_sendDemand. }
  revert Hclose. generalize (webSocketClose id now h). clear. intros h Hinv.
  rewrite hub_core_eta in Hinv. unfold hub_core, set_sockets. cbn.
  eapply hub_inv_sockets; [exact Hinv | done | |].
  - pose proof (i_ids _ Hinv) as Hids. cbn in Hids. rewrite Forall_map in Hids |- *.
    rewrite Forall_forall in *. intros s Hs. apply filter_In_elem in Hs as [Hs _]. by apply Hids.
  - intros k a' _ Ha'. exists a'. split; [|by left]. rewrite <- Ha'. clear Hinv. unfold c_att in *. cbn in *.
    destruct (decide (k = id)) as [->|Hne].
    + exfalso. revert Ha'. induction (h_sockets h) as [|s l IH]; cbn; [done|].
      destruct (sk_id s =? id)%nat eqn:E; cbn; [exact IH|]. bool_hyps.
      rewrite bool_decide_eq_false_2 by done. exact IH.
    + clear Ha'. induction (h_sockets h) as [|s l IH]; cbn; [done|].
      destruct (sk_id s =? id)%nat eqn:E; cbn; bool_hyps.
      * rewrite bool_decide_eq_false_2 by congruence. exact IH.
      * destruct (bool_decide (sk_id s = k)); [done | exact IH].
Qed.

Lemma hub_reachable_inv h : hub_reachable secret h -> hub_inv (hub_core h).
Proof.
  induction 1 as [|h h' _ IH Hs].
  - split; cbn; try constructor; try done.
  - destruct Hs.
    + by eapply fetch_inv.
    + by apply begin_inv.
    + by apply finish_inv.
    + by apply gone_inv.
    + rewrite hub_core_eta in IH. unfold hub_core, hibernate, set_states. cbn. rewrite H in *.
      destruct IH as [I1 I2 I3 I4 I5 I6 I7]. split; try done; cbn in *.
      eapply Forall_impl; [exact I3|]. by intros x [].
Qed.

(** The sequences committed so far, with the socket they came by and the state object that
    committed them. *)
Definition accepted_frames (h : hub) : list (nat * nat * Z) := omap accepted_event (h_log h).

(** C1: no replay, under every interleaving of messages, decryptions, connects, closes and
    hibernations: one socket never has a sequence number accepted twice, and one session's
    sequence state never commits a number twice, even while several of its frames are being
    decrypted at once; every accepted number is recorded (at least) in the live socket's
    attachment, so a hibernation does not reopen it. *)
Theorem hub_no_replay h (Hr : hub_reachable secret h) :
  NoDup (map (fun x => (x.1.1, x.2)) (accepted_frames h)) /\
  NoDup (map (fun x => (x.1.2, x.2)) (accepted_frames h)) /\
  (forall id ref n a, (id, ref, n) ∈ accepted_frames h -> sock_attachment id h = Some a ->
     exists m, att_highest a = Some m /\ n <= m <= MAX_LIVE_SEQUENCE).
Proof.
  apply hub_reachable_inv in Hr as [_ _ Hacc Hk Hrf _ _]. cbn in *.
  apply NoDup_app in Hk as [Hk _], Hrf as [Hrf _]. split; [exact Hk|]. split; [exact Hrf|].
  intros id ref n a Hin Ha. rewrite Forall_forall in Hacc. destruct (Hacc _ Hin) as [_ Hat _].
  cbn in Hat. rewrite sock_attachment_core in Ha. destruct (Hat a Ha) as (m & Hm & ?).
  exists m. split; [done|]. unfold c_att in Ha. destruct (List.find _ _); [|done].
  apply attachment_ok in Ha as [_ Ha]. rewrite Hm in Ha. lia.
Qed.

(** A snapshot goes out only for an authenticated frame of the socket's own machine: when the
    second half of a message sends anything, the frame decrypted under the session's key and the
    attachment's nonce prefix to that very snapshot, for the machine the socket's ticket
    names, and every receiver is a socket of the topic whose viewer ticket had not expired when the
    frame arrived. *)
Theorem finish_sends_authenticated f h id text
  (Hs : Sent id text ∈ h_log (webSocketMessage_finish secret f h)) :
  Sent id text ∈ h_log h \/
  exists snapshot s a,
    decryptAgentLiveFrame (if_frame f) secret (if_sessionId f) (if_noncePrefix f) (if_machinePk f) = Ok snapshot /\
    text = json_stringify (snapshot_json snapshot) /\
    fr_machinePk (if_frame f) = if_machinePk f /\
    snap_topic snapshot = "machine:" ++ z_to_string (if_machinePk f) /\
    sk_id s = id /\ ("topic:" ++ if_topic f) ∈ sk_tags s /\
    attachment (sk_attachment s) = Some a /\ att_role a = RViewer /\ if_now f < att_expires a.
Proof.
  unfold webSocketMessage_finish in Hs.
  destruct (decryptAgentLiveFrame _ _ _ _ _) as [snap|e] eqn:Ed; cycle 1.
  { left. unfold close_sock, emit in Hs. cbn in Hs. apply elem_of_app in Hs as [Hs|Hs]; [done|].
    by apply list_elem_of_singleton in Hs. }
  assert (Hsnap : fr_machinePk (if_frame f) = if_machinePk f /\
    snap_topic snap = "machine:" ++ z_to_string (if_machinePk f)).
  { unfold decryptAgentLiveFrame in Ed. ok_inv. bool_hyps. subst snap. split; [done|]. cbn. congruence. }
  match type of Hs with context [broadcast _ _ _ ?h0] => set (h1 := h0) in Hs end.
  assert (Hlog : h_log h1 = (h_log h ++ [Accepted (if_socket f) (if_ref f) (fr_sequence (if_frame f))])%list).
  { unfold h1. by rewrite raise_attachments_log. }
  assert (Hb : Sent id text ∈ h_log h1 \/ exists s a, text = json_stringify (snapshot_json snap) /\ sk_id s = id /\
    ("topic:" ++ if_topic f) ∈ sk_tags s /\ attachment (sk_attachment s) = Some a /\
    att_role a = RViewer /\ if_now f < att_expires a).
  { clear Hlog. unfold broadcast in Hs.
    assert (Hin : forall s, s ∈ get_websockets ("topic:" ++ if_topic f) h1 -> ("topic:" ++ if_topic f) ∈ sk_tags s).
    { intros s Hin. unfold get_websockets in Hin. apply filter_In_elem in Hin as [_ Hin]. by bool_hyps. }
    revert Hs Hin. generalize (get_websockets ("topic:" ++ if_topic f) h1). intros l. generalize h1. clear h1.
    induction l as [|s l IH]; intros h1 Hs Hin; [by left|]. cbn [fold_left] in Hs.
    apply IH in Hs; [|intros; apply Hin; by right].
    destruct Hs as [Hs|Hs]; [|by right].
    destruct (attachment (sk_attachment s)) as [[|u t e]|] eqn:Ea; [by left| |by left].
    destruct (if_now f <? e) eqn:Ee; [|by left]. bool_hyps. unfold send_or_close in Hs.
    destruct (is_open _ _); unfold close_sock, emit in Hs; cbn in Hs; apply elem_of_app in Hs as [Hs|Hs];
      try (by left); apply list_elem_of_singleton in Hs; [|done]. injection Hs as -> ->.
    right. exists s. eexists. split_and!; try done. apply Hin. by left. }
  destruct Hb as [Hb|(s & a & -> & <- & Ht & Ha & Hr & He)].
  - left. rewrite Hlog in Hb. apply elem_of_app in Hb as [Hb|Hb]; [done|]. by apply list_elem_of_singleton in Hb.
  - right. exists snap, s, a. destruct Hsnap. split_and!; done.
Qed.
End HubProofs.

(** ** Connections *)

(** The sockets under [tag] with this role whose ticket is still valid. *)
Definition live_connections (tag : string) (role : socket_role) (now : Z) (h : hub) : Z :=
  count_if (fun s =>
    match attachment (sk_attachment s) with
    | Some a => (now <? att_expires a) && bool_decide (att_role a = role)
    | None => false
    end) (get_websockets tag h).

Lemma activeConnections_count tag role now h :
  (activeConnections tag role now h).2 = live_connections tag role now h.
Proof.
  unfold activeConnections, live_connections. generalize (get_websockets tag h). intros l.
  rewrite <- (Z.add_0_l (count_if _ l)). generalize 0. revert h.
  induction l as [|s l IH]; intros h n; [unfold count_if; simpl; lia|]. cbn [fold_left]. rewrite count_if_cons.
  destruct (attachment (sk_attachment s)) as [a|]; [|rewrite IH; lia].
  destruct (att_expires a <=? now) eqn:E; bool_hyps.
  - rewrite IH, (proj2 (Z.ltb_ge _ _)) by done. simpl. lia.
  - rewrite (proj2 (Z.ltb_lt _ _)) by done. cbn [andb]. case_bool_decide; rewrite IH; lia.
Qed.

Lemma core_sockets h h' : hub_core h' = hub_core h ->
  map (fun s => (sk_id s, sk_tags s, sk_attachment s)) (h_sockets h') =
    map (fun s => (sk_id s, sk_tags s, sk_attachment s)) (h_sockets h) /\
  map sk_id (h_sockets h') = map sk_id (h_sockets h) /\ h_next h' = h_next h.
Proof.
  intros Hc. pose proof (f_equal c_socks Hc) as Hs. pose proof (f_equal c_next Hc) as Hn.
  split; [exact Hs|]. split; [|exact Hn].
  apply (f_equal (map (fun x => x.1.1))) in Hs. cbn in Hs. by rewrite !map_map in Hs.
Qed.

Lemma get_websockets_core tag h h' role now : hub_core h' = hub_core h ->
  live_connections tag role now h' = live_connections tag role now h.
Proof.
  intros Hc. unfold hub_core in Hc. injection Hc as Hs _ _ _ _ _. unfold live_connections, get_websockets.
  revert Hs. generalize (h_sockets h) as l. generalize (h_sockets h') as l'.
  induction l' as [|s' l' IH]; intros [|s l] Hs; try done. cbn in Hs. injection Hs as H1 H2 H3 Hs.
  cbn. rewrite H2. destruct (bool_decide _); [|by apply IH]. rewrite !count_if_cons, H3, (IH l Hs). done.
Qed.

Lemma requested_attachment_ok hs now a : requested_attachment hs now = Ok (Some a) ->
  att_ok a /\ now < att_expires a.
Proof.
  unfold requested_attachment. intros H.
  destruct (json_parse _) as [topics|e]; [|discriminate].
  destruct (obj_get "x-alphaping-role" hs) as [role|]; [|discriminate].
  destruct (obj_get "x-alphaping-subject" hs) as [sub|]; [|discriminate].
  destruct (safe_int _) as [exp|] eqn:Es; [|discriminate].
  assert (Hsafe : safe_z exp = true) by (unfold safe_int in Es; repeat split_match; by simplify_eq).
  destruct topics as [| | | |[|[| | |topic| |] [|]]|]; try discriminate.
  destruct (_ || _) eqn:G; [discriminate|]. bool_hyps.
  destruct (String.eqb role "agent").
  - destruct (_ || _) in H; [discriminate|]. apply rbind_ok in H as (sb & _ & H).
    destruct (_ || _) in H; [discriminate|]. apply rbind_ok in H as (pb & _ & H).
    destruct (negb _) in H; [discriminate|]. injection H as <-. split; [split; done | cbn; lia].
  - destruct (negb _) in H; [discriminate|]. injection H as <-. split; [split; done | cbn; lia].
Qed.

(** The connection limits: when the hub switches a request to a WebSocket, exactly one socket
    is added, it carries the attachment the request asked for (with an unexpired ticket), and
    the sockets with a valid ticket under that connection (an agent's session, or a viewer's
    subject and topic), the new one included, number at most two for an agent and four for a
    viewer. *)
Theorem hub_fetch_limit hs now h h' protocol (Hf : hub_fetch hs now h = Ok (h', Switching protocol)) :
  exists a s, requested_attachment hs now = Ok (Some a) /\ now < att_expires a /\
    map sk_id (h_sockets h') = (map sk_id (h_sockets h) ++ [h_next h])%list /\
    s ∈ h_sockets h' /\ sk_id s = h_next h /\ attachment (sk_attachment s) = Some a /\
    live_connections (connection_tag a) (att_role a) now h' <= connection_limit a.
Proof.
  unfold hub_fetch in Hf. destruct (negb _); [discriminate|].
  apply rbind_ok in Hf as (req & Hreq & Hf). destruct req as [a|]; [|discriminate].
  destruct (requested_attachment_ok _ _ _ Hreq) as [Hok Hexp].
  destruct (activeConnections _ _ now h) as [h1 n] eqn:Eact.
  pose proof (activeConnections_count (connection_tag a) (att_role a) now h) as Hn.
  pose proof (core_active (connection_tag a) (att_role a) now h) as Hc. rewrite Eact in Hn, Hc. cbn in Hn, Hc.
  destruct (negb _) eqn:G; [discriminate|]. injection Hf as <- _. bool_hyps.
  unfold liveConnectionAvailable in G. bool_hyps.
  set (h2 := accept_socket a h1). pose proof (core_sendDemand (att_topic a) None now h2) as Hc2.
  destruct (core_sockets _ _ Hc) as (_ & Hid1 & Hnx). destruct (core_sockets _ _ Hc2) as (Hs2 & Hid2 & _).
  assert (Hin2 : exists s, s ∈ h_sockets (sendDemand (att_topic a) None now h2) /\ sk_id s = h_next h /\
    attachment (sk_attachment s) = Some a).
  { assert ((h_next h1, [role_tag a; ("topic:" ++ att_topic a); connection_tag a], attachment_value a) ∈
      map (fun s => (sk_id s, sk_tags s, sk_attachment s)) (h_sockets (sendDemand (att_topic a) None now h2))) as Hin.
    { rewrite Hs2. cbn. rewrite map_app. apply elem_of_app. right. by left. }
    apply list_elem_of_fmap in Hin as (s & Heq & Hin). injection Heq as E1 _ E3. exists s.
    split; [done|]. split; [congruence|]. rewrite <- E3. by apply attachment_roundtrip. }
  destruct Hin2 as (s & Hs & Hid & Hatt). exists a, s. split; [done|]. split; [done|]. split.
  { rewrite Hid2. cbn. rewrite map_app. cbn. by rewrite Hid1, Hnx. }
  split_and!; try done. rewrite (get_websockets_core _ _ _ _ _ Hc2).
  rewrite <- (get_websockets_core _ _ _ _ _ Hc) in Hn. unfold live_connections, get_websockets in *.
  unfold h2, accept_socket. cbn [h_sockets].
  rewrite List.filter_app, count_if_app. cbn [List.filter sk_tags].
  rewrite bool_decide_eq_true_2 by (right; right; by left).
  rewrite count_if_cons. cbn [sk_attachment]. rewrite attachment_roundtrip by done. rewrite (proj2 (Z.ltb_lt _ _)), bool_decide_eq_true_2 by done.
  change (count_if _ []) with 0. cbn [andb]. rewrite <- Hn. lia.
Qed.

(** ** The connections of a hub, at any time *)

(** A socket that counts at [t] as a connection of this role. *)
Definition counts_at (t : Z) (role : socket_role) (s : sock) : bool :=
  match attachment (sk_attachment s) with
  | Some a => (t <? att_expires a) && bool_decide (att_role a = role)
  | None => false
  end.
(** The same sockets, none of which counts that did not. *)
Definition fades (t : Z) : list sock -> list sock -> Prop :=
  Forall2 (fun s s' => sk_id s' = sk_id s /\ sk_tags s' = sk_tags s /\ forall role, counts_at t role s' = true -> counts_at t role s = true).
Definition connections (tag : string) (role : socket_role) (t : Z) (l : list sock) : Z :=
  count_if (fun s => bool_decide (tag ∈ sk_tags s) && counts_at t role s) l.
Lemma live_connections_count tag role t h : live_connections tag role t h = connections tag role t (h_sockets h).
Proof.
  unfold live_connections, connections, get_websockets. fold (counts_at t role). induction (h_sockets h) as [|s l IH]; [done|].
  cbn [List.filter]. rewrite count_if_cons. destruct (bool_decide (tag ∈ sk_tags s)); [by rewrite count_if_cons, IH | by rewrite IH].
Qed.
Lemma fades_count t tag role l l' : fades t l l' -> connections tag role t l' <= connections tag role t l.
Proof.
  unfold connections. induction 1 as [|s s' l l' (_ & Ht & Hc) _ IH]; [done|]. rewrite !count_if_cons, Ht.
  destruct (bool_decide (tag ∈ sk_tags s)); [|by cbn]. specialize (Hc role). cbn [andb]. destruct (counts_at t role s'); [rewrite Hc by done | destruct (counts_at t role s)]; lia.
Qed.
Lemma fades_ids t l l' : fades t l l' -> map sk_id l' = map sk_id l.
Proof. induction 1 as [|s s' l l' (E & _) _ IH]; [done|]. cbn. by rewrite E, IH. Qed.
Lemma fades_refl t l : fades t l l.
Proof. induction l; constructor; auto. Qed.
Lemma fades_trans t l1 l2 l3 : fades t l1 l2 -> fades t l2 l3 -> fades t l1 l3.
Proof.
  intros H. revert l3. induction H as [|s1 s2 l1 l2 (E1 & T1 & C1) _ IH]; intros l3 H3; inversion H3 as [|x s3 y l3' Hs3 H3']; subst; [constructor|].
  destruct Hs3 as (E2 & T2 & C2). constructor; [|by apply IH]. split_and!; [congruence | congruence | auto].
Qed.
Lemma fades_core t h h' : c_socks (hub_core h') = c_socks (hub_core h) -> fades t (h_sockets h) (h_sockets h').
Proof.
  cbn. generalize (h_sockets h) as l, (h_sockets h') as l'. induction l as [|s l IH]; intros [|s' l'] E; [constructor | done | done|]. cbn in E. injection E as E1 E2 E3 E.
  constructor; [|by apply IH]. split_and!; [done | done|]. intros role. unfold counts_at. by rewrite E3.
Qed.
(** Recording a sequence in an attachment changes neither its role nor its expiry. *)
Lemma highest_value v c a b : attachment v = Some a -> attachment (attachment_value (set_highest c a)) = Some b ->
  att_role b = att_role a /\ att_expires b = att_expires a.
Proof.
  intros Ha. apply attachment_ok in Ha as [He _]. destruct a as [u t e s p h|u t e]; cbn [att_expires set_highest] in *; unfold attachment_value; cbn [json_of map fst snd attachment];
    cbn [obj_get String.eqb Ascii.eqb Bool.eqb as_string]; rewrite as_safe_int_num by done.
  - intros H. repeat case_match; simplify_eq; done.
  - cbn. by intros [= <-].
Qed.
Lemma raise_fades t ses c h id : NoDup (map sk_id (h_sockets h)) -> fades t (h_sockets h) (h_sockets (raise_attachment ses c h id)).
Proof.
  intros Hnd. unfold raise_attachment. destruct (sock_attachment id h) as [[u tp e s p hi|u tp e]|] eqn:Ea; [|apply fades_refl..].
  destruct (_ && _); [|apply fades_refl]. unfold serialize_attachment, update_sock. cbn [h_sockets set_sockets].
  unfold sock_attachment, find_sock in Ea. set (a := AgentSocketAttachment u tp e s p hi) in *.
  assert (Hall : forall x, x ∈ h_sockets h -> sk_id x = id -> attachment (sk_attachment x) = Some a).
  { intros x Hx E. clear -Ea Hnd Hx E. induction (h_sockets h) as [|y l IH]; [done|]. cbn in *. apply NoDup_cons in Hnd as [Hy Hnd].
    case_bool_decide as Ey; apply elem_of_cons in Hx as [->|Hx]; [done | | done | by apply IH].
    destruct Hy. rewrite Ey, <- E. by apply (list_elem_of_fmap_2 sk_id). }
  clear Ea Hnd. revert Hall. generalize (h_sockets h) as l. induction l as [|x l IH]; intros Hall; cbn [map]; [constructor|]. constructor; [|apply IH; intros y Hy; apply Hall; by right].
  case_bool_decide as E; [|done]. split_and!; [done | done|]. intros role. unfold counts_at. cbn [sk_attachment]. rewrite (Hall x (list_elem_of_here _ _) E).
  destruct (attachment (attachment_value _)) as [b|] eqn:Eb; [|done]. by destruct (highest_value _ _ _ _ (Hall x (list_elem_of_here _ _) E) Eb) as [-> ->].
Qed.
Lemma raises_fade t ids ses c h : NoDup (map sk_id (h_sockets h)) -> fades t (h_sockets h) (h_sockets (raise_attachments ids ses c h)).
Proof.
  revert h. unfold raise_attachments. induction ids as [|id ids IH]; intros h Hnd; cbn [fold_left]; [apply fades_refl|].
  pose proof (raise_fades t ses c h id Hnd) as H. eapply fades_trans; [exact H|]. apply IH. by rewrite (fades_ids _ _ _ H).
Qed.
Lemma raises_next ids ses c h : h_next (raise_attachments ids ses c h) = h_next h.
Proof.
  unfold raise_attachments. revert h. induction ids as [|id ids IH]; intros h; cbn [fold_left]; [done|]. rewrite IH. unfold raise_attachment. by repeat case_match.
Qed.
Lemma begin_socks id message now h : c_socks (hub_core (webSocketMessage_begin id message now h)) = c_socks (hub_core h).
Proof.
  unfold webSocketMessage_begin, agent_message_begin, sequence_state. repeat (case_match; subst; rewrite ?core_close, ?core_sendDemand; try done); simplify_eq; cbn; by rewrite ?map_map.
Qed.
Lemma begin_next id message now h : h_next (webSocketMessage_begin id message now h) = h_next h.
Proof.
  assert (Hd : forall tp ex now h, h_next (sendDemand tp ex now h) = h_next h) by (intros tp ex n g; apply (core_sockets _ _ (core_sendDemand tp ex n g))).
  unfold webSocketMessage_begin, agent_message_begin, sequence_state. repeat (case_match; subst; rewrite ?Hd; try done); simplify_eq; done.
Qed.
Lemma kept_sublist {A} (p : A -> bool) l : sublist (List.filter p l) l.
Proof. induction l as [|x l IH]; cbn; [done|]. destruct (p x); by constructor. Qed.

Section Connected.
Context `{WC : WebCrypto} (secret : string).
(** A history of the hub in which every connection was accepted by the time [t]. *)
Inductive reachable_by (t : Z) : hub -> Prop :=
| by_init : reachable_by t hub_init
| by_fetch hs now h h' resp : reachable_by t h -> now <= t -> hub_fetch hs now h = Ok (h', resp) -> reachable_by t h'
| by_message id message now h : reachable_by t h -> find_sock id h <> None -> reachable_by t (webSocketMessage_begin id message now h)
| by_finish l1 f l2 h : reachable_by t h -> h_inflight h = (l1 ++ f :: l2)%list ->
    reachable_by t (webSocketMessage_finish secret f (set_inflight (l1 ++ l2)%list h))
| by_gone id now h : reachable_by t h -> find_sock id h <> None -> reachable_by t (socket_gone id now h)
| by_hibernate h : reachable_by t h -> h_inflight h = [] -> reachable_by t (hibernate h).

Record within_limits (t : Z) (h : hub) : Prop := {
  wl_ids : NoDup (map sk_id (h_sockets h));
  wl_next : Forall (fun s => sk_id s < h_next h)%nat (h_sockets h);
  wl_limit : forall a, connections (connection_tag a) (att_role a) t (h_sockets h) <= connection_limit a;
}.
Lemma fades_limits t h h' : fades t (h_sockets h) (h_sockets h') -> h_next h' = h_next h -> within_limits t h -> within_limits t h'.
Proof.
  intros Hf Hn [H1 H2 H3]. pose proof (fades_ids _ _ _ Hf) as Hi. split.
  - by rewrite Hi.
  - rewrite Hn. rewrite Forall_forall in *. intros s Hs. apply (list_elem_of_fmap_2 sk_id) in Hs. change (sk_id s ∈ map sk_id (h_sockets h')) in Hs.
    rewrite Hi in Hs. apply list_elem_of_fmap in Hs as (x & -> & Hx). by apply H2.
  - intros a. pose proof (fades_count _ (connection_tag a) (att_role a) _ _ Hf). specialize (H3 a). lia.
Qed.
Lemma finish_fades t f h : NoDup (map sk_id (h_sockets h)) -> fades t (h_sockets h) (h_sockets (webSocketMessage_finish secret f h)) /\ h_next (webSocketMessage_finish secret f h) = h_next h.
Proof.
  intros Hnd. unfold webSocketMessage_finish. destruct (decryptAgentLiveFrame _ _ _ _ _) as [snap|e].
  - set (h1 := emit _ _). set (c := max_or _ _). set (text := json_stringify _).
    pose proof (raises_fade t (if_sessionSockets f) (if_sessionId f) c h1 Hnd) as H1. pose proof (core_broadcast (if_topic f) text (if_now f) (raise_attachments (if_sessionSockets f) (if_sessionId f) c h1)) as Hb.
    split.
    + eapply fades_trans; [exact H1|]. apply fades_core. by rewrite Hb.
    + destruct (core_sockets _ _ Hb) as (_ & _ & ->). by rewrite raises_next.
  - split; [apply fades_core; by rewrite core_close | done].
Qed.
Lemma gone_fades id now h : c_socks (hub_core (webSocketClose id now h)) = c_socks (hub_core h) /\ h_next (webSocketClose id now h) = h_next h.
Proof.
  unfold webSocketClose. destruct (sock_attachment id h) as [[u tp e s p hi|u tp e]|]; [by destruct (_ && _) | | done].
  pose proof (core_sendDemand tp (Some id) now h) as H. split; [by rewrite H | by apply core_sockets in H as (_ & _ & ?)].
Qed.
(** The tags of the connections tell them apart: those of other kinds have other beginnings. *)
Lemma tag_of a a' : connection_tag a' ∈ [role_tag a; "topic:" ++ att_topic a; connection_tag a] -> connection_tag a' = connection_tag a.
Proof.
  intros H. repeat (apply elem_of_cons in H as [H|H]; [|]); [| | done | by apply elem_of_nil in H]; by destruct a, a'.
Qed.
Lemma later_fewer t now tag role l : now <= t -> connections tag role t l <= connections tag role now l.
Proof.
  intros Ht. unfold connections, counts_at. induction l as [|s l IH]; [done|]. rewrite !count_if_cons. destruct (bool_decide (tag ∈ sk_tags s)); [|by cbn]. cbn [andb].
  destruct (attachment _) as [a|]; cbv iota; [|lia]. destruct (Z.ltb_spec t (att_expires a)), (Z.ltb_spec now (att_expires a)), (bool_decide (att_role a = role)); cbn [andb]; cbv iota; lia.
Qed.
Lemma fetch_within t hs now h h' resp : now <= t -> hub_fetch hs now h = Ok (h', resp) -> within_limits t h -> within_limits t h'.
Proof.
  intros Hnow Hf Hw. pose proof Hf as Hf0. unfold hub_fetch in Hf. destruct (negb _); [by injection Hf as <- _|].
  apply rbind_ok in Hf as (req & Hreq & Hf). destruct req as [a|]; [|by injection Hf as <- _]. destruct (requested_attachment_ok _ _ _ Hreq) as [Hok _].
  destruct (activeConnections _ _ now h) as [h1 n] eqn:Eact. pose proof (core_active (connection_tag a) (att_role a) now h) as Hc. rewrite Eact in Hc. cbn in Hc.
  assert (H1 : within_limits t h1). { apply (fades_limits t h); [apply fades_core; by rewrite Hc | by apply core_sockets in Hc as (_ & _ & ?) | done]. }
  destruct (negb _); [by injection Hf as <- _|]. injection Hf as <- <-.
  destruct (hub_fetch_limit _ _ _ _ _ Hf0) as (a0 & s & Ha0 & _ & _ & _ & _ & _ & Hl). rewrite Hreq in Ha0. injection Ha0 as <-. rewrite live_connections_count in Hl.
  pose proof (core_sendDemand (att_topic a) None now (accept_socket a h1)) as Hd. set (h2 := sendDemand _ _ _ _) in *.
  assert (Hback : fades t (h_sockets h2) (h_sockets (accept_socket a h1))) by (apply fades_core; by rewrite Hd).
  apply (fades_limits t (accept_socket a h1)); [apply fades_core; by rewrite Hd | by apply core_sockets in Hd as (_ & _ & ?)|].
  destruct H1 as [W1 W2 W3]. split; cbn [h_sockets accept_socket h_next].
  - rewrite map_app. apply NoDup_app. split_and!; [done | | apply NoDup_singleton]. intros x Hx E. apply list_elem_of_singleton in E as ->.
    apply list_elem_of_fmap in Hx as (y & E & Hy). rewrite Forall_forall in W2. specialize (W2 y Hy). cbn in E. lia.
  - apply Forall_app. split; [eapply Forall_impl; [exact W2|]; cbn; lia|]. constructor; [cbn; lia | constructor].
  - intros a'. set (l := (h_sockets h1 ++ _)%list). destruct (decide (connection_tag a' = connection_tag a /\ att_role a' = att_role a)) as [[Et Er]|Hne].
    + unfold connection_limit. rewrite Et, Er. fold (connection_limit a). pose proof (fades_count t (connection_tag a) (att_role a) _ _ Hback) as Hb.
      pose proof (later_fewer t now (connection_tag a) (att_role a) (h_sockets h2) Hnow). cbn [h_sockets accept_socket] in Hb. fold l in Hb. lia.
    + unfold connections, l. rewrite count_if_app, count_if_cons. change (count_if _ []) with 0. specialize (W3 a'). unfold connections in W3. set (new := Sock _ _ _ _).
      assert (bool_decide (connection_tag a' ∈ sk_tags new) && counts_at t (att_role a') new = false) as ->; [|cbv iota; lia].
      apply andb_false_iff. destruct (bool_decide_reflect (connection_tag a' ∈ sk_tags new)) as [Hin|]; [right | by left]. apply tag_of in Hin.
      unfold counts_at. cbn [sk_attachment new]. rewrite attachment_roundtrip by done. rewrite bool_decide_eq_false_2 by (intros E; by destruct Hne). apply andb_false_r.
Qed.
Lemma connections_within t h : reachable_by t h -> within_limits t h.
Proof.
  induction 1 as [|hs now h h' resp _ IH Hn Hf|id message now h _ IH _|l1 f l2 h _ IH _|id now h _ IH _|h _ IH _].
  - split; [constructor | constructor|]. intros a. by destruct a.
  - by eapply fetch_within.
  - pose proof (begin_socks id message now h) as Hs. apply (fades_limits t h); [by apply fades_core | | done].
    apply begin_next.
  - destruct (finish_fades t f (set_inflight (l1 ++ l2)%list h)) as [H1 H2]; [apply IH|]. apply (fades_limits t h); done.
  - destruct (gone_fades id now h) as [Hs Hn]. unfold socket_gone. assert (Hw : within_limits t (webSocketClose id now h)) by (apply (fades_limits t h); [by apply fades_core | done | done]).
    destruct Hw as [W1 W2 W3]. split; cbn [h_sockets set_sockets h_next].
    + eapply sublist_NoDup; [exact W1|]. apply fmap_sublist, kept_sublist.
    + rewrite Forall_forall in *. intros s Hs'. apply filter_In_elem in Hs' as [Hs' _]. by apply W2.
    + intros a. specialize (W3 a). unfold connections in *. etransitivity; [|exact W3]. generalize (h_sockets (webSocketClose id now h)) as l.
      induction l as [|s l IHl]; [done|]. cbn [List.filter]. destruct (negb _); rewrite !count_if_cons; destruct (_ && _); lia.
  - destruct IH. by split.
Qed.

(** C38: A hub never holds more connections than it is meant to.  Whatever requests, messages,
    decryptions, closes and hibernations there were, in any order, at no time [t] from the last
    request on are there more than two sockets of one agent session, or four of one viewer and
    machine, whose tickets are valid: every way in goes through the count, no message changes what
    a socket counts as, and time only takes sockets away. *)
Theorem hub_connections_bounded t h (Hr : reachable_by t h) a :
  live_connections (connection_tag a) (att_role a) t h <= match a with AgentSocketAttachment _ _ _ _ _ _ => 2 | ViewerSocketAttachment _ _ _ => 4 end.
Proof. rewrite live_connections_count. pose proof (wl_limit _ _ (connections_within t h Hr) a). by destruct a. Qed.
End Connected.

(** ** The Worker and the hub agree *)

Lemma topicMachinePk_canonical pk : 0 < pk -> safe_z pk = true ->
  topicMachinePk ("machine:" ++ z_to_string pk) = Some pk.
Proof.
  intros Hpk Hs. unfold topicMachinePk. rewrite machine_topic_ok by done.
  change (str_drop 8 ("machine:" ++ z_to_string pk)) with
    (str_drop (String.length "machine:") ("machine:" ++ z_to_string pk)).
  rewrite str_drop_app, js_number_z by lia. by apply safe_int_of_Z.
Qed.

(** The attachment that carries a ticket's claims. *)
Definition claims_attachment (c : LiveTicketClaims) : SocketAttachment :=
  let b := claims_base c in
  match c with
  | AgentClaims _ session prefix =>
      AgentSocketAttachment (subjectId b) (coalesce (head (topics b)) "") (expiresAt b) session prefix None
  | ViewerClaims _ => ViewerSocketAttachment (subjectId b) (coalesce (head (topics b)) "") (expiresAt b)
  end.

Lemma claims_headers_get c hs :
  let hs' := claims_headers c hs in let b := claims_base c in
  obj_get "x-alphaping-role" hs' = Some (role_name c) /\
  obj_get "x-alphaping-subject" hs' = Some (subjectId b) /\
  obj_get "x-alphaping-expires" hs' = Some (z_to_string (expiresAt b)) /\
  obj_get "x-alphaping-topics" hs' = Some (json_stringify (OArr (map OStr (topics b)))) /\
  obj_get "x-alphaping-projection" hs' = Some (projection_name c) /\
  obj_get "x-alphaping-protocol" hs' = Some LIVE_PROTOCOL /\
  (forall session prefix, c = AgentClaims b session prefix ->
     obj_get "x-alphaping-session" hs' = Some session /\
     obj_get "x-alphaping-nonce-prefix" hs' = Some prefix).
Proof. cbv zeta. unfold claims_headers. destruct c; split_and!; intros; simplify_eq; rewrite ?obj_get_set; try done. Qed.

(** The Worker and the hub agree on a ticket: a request whose ticket verifies for the path's
    workspace reaches that workspace's hub with headers the hub reads back as exactly the
    ticket's claims, whatever headers the client sent along itself, as long as the ticket has not
    expired on the way and the topic's machine number is a safe integer. *)
Theorem worker_hub_agree {WC : WebCrypto} secret meth path hs now w hs' c now'
  (Hw : worker_fetch secret meth path hs now = ToHub w hs')
  (Hc : (let* token := ticketFromProtocols (obj_get "sec-websocket-protocol" hs) in
         verifyLiveTicket token secret now) = Ok c)
  (Hpk : exists t pk, topics (claims_base c) = [t] /\ topicMachinePk t = Some pk)
  (Hnow : now' < expiresAt (claims_base c)) :
  live_path path = Some w /\ w = workspaceId (claims_base c) /\
  requested_attachment hs' now' = Ok (Some (claims_attachment c)).
Proof.
  unfold worker_fetch in Hw. destruct (live_path path) as [w0|] eqn:Ep; [|discriminate].
  destruct (negb (String.eqb meth "GET")); [discriminate|]. rewrite Hc in Hw.
  destruct (negb _) eqn:Gw; [discriminate|]. bool_hyps. injection Hw as <- <-.
  split; [by rewrite Gw|]. split; [done|].
  assert (Hv : claims_valid now c).
  { apply rbind_ok in Hc as (token & _ & Hc). unfold verifyLiveTicket in Hc.
    destruct (split_on "." token) as [|? [|? [|? ?]]]; try discriminate. ok_inv. by eapply parseClaims_valid. }
  destruct Hv as ((Hws & Hsub) & (t & Ht & Hmt) & Htime & Hrole).
  destruct Hpk as (t' & pk & Ht' & Hpk). rewrite Ht in Ht'. injection Ht' as <-.
  destruct (claims_headers_get c hs) as (H1 & H2 & H3 & H4 & H5 & H6 & H7). cbv zeta in *.
  unfold requested_attachment. rewrite H1, H2, H3, H4, H5, H6. cbn [coalesce].
  assert (Hexp : safe_int (js_number (z_to_string (expiresAt (claims_base c)))) = Some (expiresAt (claims_base c))).
  { rewrite js_number_z by lia. apply safe_int_of_Z, safe_z_nonneg. lia. }
  rewrite Hexp, Ht, json_parse_stringify by (cbn; tauto). cbn [json_of map].
  destruct (_ || _) eqn:G.
  { exfalso. rewrite !orb_true_iff in G. destruct G as [[[[[G|G]|G]|G]|G]|G]; bool_hyps; try lia; try congruence.
    - by destruct c.
    - rewrite G in Hsub. change (slen "") with 0 in Hsub. lia.
    - done. }
  destruct c as [b session prefix|b]; cbn [role_name projection_name claims_base claims_attachment] in *.
  - destruct (H7 session prefix eq_refl) as [-> ->]. cbn [coalesce String.eqb Ascii.eqb Bool.eqb].
    destruct Hrole as (_ & (sb & Hsb & Hsl) & (pb & Hpb & Hpl)).
    rewrite bool_decide_eq_true_2 by done. cbn [negb orb].
    assert (String.eqb session "" = false) as -> by (destruct (String.eqb_spec session "") as [->|]; [vm_compute in Hsb; injection Hsb as <-; done | done]).
    rewrite Hsb. cbn [rbind]. rewrite Hsl. cbn [Z.eqb Pos.eqb negb orb].
    assert (String.eqb prefix "" = false) as -> by (destruct (String.eqb_spec prefix "") as [->|]; [vm_compute in Hpb; injection Hpb as <-; done | done]).
    rewrite Hpb. cbn [rbind]. rewrite Hpl. cbn. by rewrite Ht.
  - cbn. by rewrite Ht.
Qed.

(** ** A run: a viewer and an agent connect, and the agent sends a frame *)

Definition sample_base : BaseLiveTicketClaims :=
  BaseClaims "ws" "user" ["machine:42"] 1700000000000 1700000000000 1700000300000.
Definition sample_viewer : LiveTicketClaims := ViewerClaims sample_base.
Definition sample_agent : LiveTicketClaims :=
  AgentClaims sample_base "AAECAwQFBgcICQoLDA0ODw" "YWJjZA".
Definition upgrade : headers := [("upgrade", "websocket")].
Definition sample_frame : list byte :=
  match seal_frame sample_key sample_session (encode_utf8 "abcd") 42 7 sample_metrics with
  | Ok b => b | Err _ => []
  end.
Definition fetched (hs : headers) (h : hub) : hub :=
  match hub_fetch hs 1700000000000 h with Ok (h', _) => h' | Err _ => h end.
Definition sample_hub1 : hub := fetched (claims_headers sample_viewer upgrade) hub_init.
Definition sample_hub2 : hub := fetched (claims_headers sample_agent upgrade) sample_hub1.
Definition sample_hub3 : hub := webSocketMessage_begin 1 (WsBinary sample_frame) 1700000000000 sample_hub2.
Definition sample_flight : inflight :=
  Inflight 1 "AAECAwQFBgcICQoLDA0ODw" "YWJjZA" "machine:42" 1700000000000
    (match parseAgentLiveFrame sample_frame with Ok f => f | Err _ => FrameHeader [] 0 0 0 [] [] end)
    42 0 [1%nat].
Definition sample_hub4 : hub := webSocketMessage_finish sample_secret sample_flight (set_inflight [] sample_hub3).

Example hub_no_replay_witness :
  accepted_frames sample_hub4 = [(1%nat, 0%nat, 7)] /\
  NoDup (map (fun x => (x.1.1, x.2)) (accepted_frames sample_hub4)).
Proof.
  split; [vm_compute; reflexivity|].
  assert (Hr : hub_reachable sample_secret sample_hub4).
  { apply (reach_step _ sample_hub3).
    - apply (reach_step _ sample_hub2).
      + apply (reach_step _ sample_hub1).
        * apply (reach_step _ hub_init); [apply reach_init|].
          apply (step_fetch _ (claims_headers sample_viewer upgrade) 1700000000000 _ _ (Switching "alphaping.v1")).
          vm_compute; reflexivity.
        * apply (step_fetch _ (claims_headers sample_agent upgrade) 1700000000000 _ _ (Switching "alphaping.v1")).
          vm_compute; reflexivity.
      + apply step_message. vm_compute. discriminate.
    - apply (step_finish _ [] sample_flight []). vm_compute; reflexivity. }
  exact (proj1 (hub_no_replay sample_secret sample_hub4 Hr)).
Defined.

Definition sample_text : string := json_stringify (snapshot_json (Snapshot "machine:42" sample_metrics)).
Example finish_sends_authenticated_witness :
  Sent 0 sample_text ∈ h_log sample_hub4 /\
  (Sent 0 sample_text ∈ h_log (set_inflight [] sample_hub3) \/
   exists snapshot, decryptAgentLiveFrame (if_frame sample_flight) sample_secret
     (if_sessionId sample_flight) (if_noncePrefix sample_flight) (if_machinePk sample_flight) = Ok snapshot).
Proof.
  assert (Hs : Sent 0 sample_text ∈
    h_log (webSocketMessage_finish sample_secret sample_flight (set_inflight [] sample_hub3))).
  { apply list_elem_of_lookup. exists 2%nat. vm_compute. reflexivity. }
  split; [exact Hs|].
  pose proof (finish_sends_authenticated sample_secret sample_flight (set_inflight [] sample_hub3) 0 sample_text Hs) as H.
  destruct H as [Hl|H]; [left; exact Hl|]. right. destruct H as (s & a & b & H & _). exists s. exact H.
Defined.

Example hub_fetch_limit_witness :
  hub_fetch (claims_headers sample_agent upgrade) 1700000000000 sample_hub1 =
    Ok (sample_hub2, Switching "alphaping.v1") /\
  exists a, requested_attachment (claims_headers sample_agent upgrade) 1700000000000 = Ok (Some a) /\
    live_connections (connection_tag a) (att_role a) 1700000000000 sample_hub2 <= connection_limit a.
Proof.
  assert (Hf : hub_fetch (claims_headers sample_agent upgrade) 1700000000000 sample_hub1 =
    Ok (sample_hub2, Switching "alphaping.v1")) by (vm_compute; reflexivity).
  split; [exact Hf|].
  destruct (hub_fetch_limit _ _ _ _ _ Hf) as (a & s & Ha & _ & _ & _ & _ & _ & Hl).
  exists a. split; [exact Ha | exact Hl].
Defined.

(** Five browsers of one viewer: the fifth is turned away. *)
Definition sample_crowd (n : nat) : hub := Nat.iter n (fetched (claims_headers sample_viewer upgrade)) hub_init.
Lemma fetched_reachable hs h : reachable_by sample_secret 1700000000000 h -> reachable_by sample_secret 1700000000000 (fetched hs h).
Proof. intros H. unfold fetched. destruct (hub_fetch hs 1700000000000 h) as [[h' resp]|e] eqn:E; [|exact H]. by apply (by_fetch _ _ hs 1700000000000 h h' resp). Qed.
Lemma crowd_reachable n : reachable_by sample_secret 1700000000000 (sample_crowd n).
Proof. induction n as [|n IH]; [apply by_init|]. by apply (fetched_reachable _ (sample_crowd n)). Qed.
Example hub_connections_bounded_witness :
  map sk_id (h_sockets (sample_crowd 5)) = [0; 1; 2; 3]%nat /\
  exists a, live_connections (connection_tag a) (att_role a) 1700000000000 (sample_crowd 5) <= 4 /\
    live_connections (connection_tag a) (att_role a) 1700000000000 (sample_crowd 3) = 3.
Proof.
  split; [vm_compute; reflexivity|]. exists (claims_attachment sample_viewer).
  split; [exact (hub_connections_bounded sample_secret 1700000000000 (sample_crowd 5) (crowd_reachable 5) (claims_attachment sample_viewer)) | vm_compute; reflexivity].
Defined.

Example worker_hub_agree_witness :
  exists hs', worker_fetch sample_secret "GET" "/v1/live/ws"
    [("sec-websocket-protocol", "alphaping.v1, alphaping.ticket." ++ sample_ticket)] 1700000000001 = ToHub "ws" hs' /\
  requested_attachment hs' 1700000000002 =
    Ok (Some (claims_attachment (viewer_claims sample_input 42 1700000000000))).
Proof.
  eexists. split; [vm_compute; reflexivity|].
  apply (worker_hub_agree sample_secret "GET" "/v1/live/ws"
    [("sec-websocket-protocol", "alphaping.v1, alphaping.ticket." ++ sample_ticket)] 1700000000001 "ws" _
    (viewer_claims sample_input 42 1700000000000) 1700000000002).
  - vm_compute; reflexivity.
  - vm_compute; reflexivity.
  - exists "machine:42", 42. split; vm_compute; reflexivity.
  - vm_compute; reflexivity.
Defined.
