(* ===== verification/Authz.v ===== *)
(** * Authz: who may see and change what

    [packages/authz/src/index.ts] decides on the grants a page has loaded;
    [packages/db/src/repositories/resource-access-query.ts] and
    [apps/web/src/lib/server/monitoring-access.ts] decide inside SQL statements.  A condition
    the code builds as SQL text is modelled by what the text selects: a boolean of the
    database.  The theorems say that the two ways agree. *)

From Stdlib Require Import ZArith Lia Bool String List.
From stdpp Require Import base tactics list strings.
From S2P Require Import Prelude.
From S2P Require Import Js.
From S2P Require Import Sql.
Open Scope string_scope.
Open Scope Z_scope.

(** ** Data *)

(* @src packages/authz/src/index.ts 1-1 WorkspaceRole *)
Inductive WorkspaceRole := admin | member.
(* @src packages/authz/src/index.ts 2-2 Capability *)
Inductive Capability := view | manage.
(* @src packages/authz/src/index.ts 3-3 GrantEffect *)
Inductive GrantEffect := allow | deny.
(* @src packages/authz/src/index.ts 4-4 ResourceType *)
Inductive ResourceType := RMachine | RService | RContainer | RDashboard | RIncident.
#[export] Instance role_eq_dec : EqDecision WorkspaceRole. Proof. solve_decision. Defined.
#[export] Instance capability_eq_dec : EqDecision Capability. Proof. solve_decision. Defined.
#[export] Instance effect_eq_dec : EqDecision GrantEffect. Proof. solve_decision. Defined.
#[export] Instance resource_type_eq_dec : EqDecision ResourceType. Proof. solve_decision. Defined.

(* @src packages/authz/src/index.ts ResourceGrant *)
Record ResourceGrant := Grant {
  resourceType : ResourceType;
  resourceId : string;
  capability : Capability;
  effect : GrantEffect;
}.
#[export] Instance grant_eq_dec : EqDecision ResourceGrant. Proof. solve_decision. Defined.

Notation eqb x y := (bool_decide (x = y)) (only parsing).

(** ** Decisions on loaded grants *)

(* @src packages/authz/src/index.ts deniesCapability *)
Definition deniesCapability (grant : ResourceGrant) (c : Capability) : bool :=
  eqb (effect grant) deny && (eqb (capability grant) c || (eqb c manage && eqb (capability grant) view)).

Definition allowsCapability (grant : ResourceGrant) (c : Capability) : bool :=
  eqb (effect grant) allow && (eqb (capability grant) c || (eqb c view && eqb (capability grant) manage)).

Definition grant_for (t : ResourceType) (id : string) (grant : ResourceGrant) : bool :=
  eqb (resourceType grant) t && eqb (resourceId grant) id.

(* @src packages/authz/src/index.ts canAccessResource *)
Definition canAccessResource (role : WorkspaceRole) (grants : list ResourceGrant) (t : ResourceType)
    (id : string) (c : Capability) : bool :=
  if eqb role admin then true
  else
    let relevant := List.filter (grant_for t id) grants in
    if existsb (fun grant => deniesCapability grant c) relevant then false
    else existsb (fun grant => allowsCapability grant c) relevant.

(* @src packages/authz/src/index.ts canAccessIncident *)
Definition canAccessIncident (role : WorkspaceRole) (grants : list ResourceGrant) (incidentId : string)
    (c : Capability) (inheritedFromServices : bool) : bool :=
  if eqb role admin then true
  else
    let incidentGrants := List.filter (grant_for RIncident incidentId) grants in
    if existsb (fun grant => deniesCapability grant c) incidentGrants then false
    else canAccessResource role incidentGrants RIncident incidentId c || inheritedFromServices.

(* @src packages/authz/src/index.ts canAccessContainer *)
Definition canAccessContainer (role : WorkspaceRole) (grants : list ResourceGrant)
    (machineId containerId : string) (c : Capability) : bool :=
  if eqb role admin then true
  else
    let containerGrants := List.filter (grant_for RContainer containerId) grants in
    if existsb (fun grant => deniesCapability grant c) containerGrants then false
    else existsb (fun grant => allowsCapability grant c) containerGrants ||
         canAccessResource role grants RMachine machineId c.

(** ** The tables the conditions read *)

Inductive membership_status := invited | active | suspended.
#[export] Instance status_eq_dec : EqDecision membership_status. Proof. solve_decision. Defined.
Record membership := Membership {
  mb_workspace : string; mb_user : string; mb_role : WorkspaceRole; mb_status : membership_status;
}.
Record grant_row := GrantRow { gr_workspace : string; gr_user : string; gr_grant : ResourceGrant }.
Record service_row := ServiceRow { sv_id : string; sv_workspace : string; sv_deleted : option Z }.
Record incident_resource := IncidentResource {
  ir_incident : string; ir_type : ResourceType; ir_resource : string;
}.
Record workspace_row := WorkspaceRow {
  ws_id : string; ws_slug : string; ws_pk : Z; ws_dashboard : string; ws_interval : Z; ws_deleted : option Z;
}.
Record control_db := ControlDb {
  memberships : list membership;
  resource_grants : list grant_row;
  services : list service_row;
  incident_resources : list incident_resource;
  workspaces : list workspace_row;
}.

(** The primary keys the model relies on: one membership per workspace and user. *)
Definition membership_key (m : membership) : string * string := (mb_workspace m, mb_user m).
Definition memberships_unique (db : control_db) : Prop := keys_unique membership_key (memberships db).

(** ** Conditions inside read statements *)

(* @src packages/db/src/repositories/resource-access-query.ts ResourceQueryAccess *)
Record ResourceQueryAccess := Access { a_workspaceId : string; a_userId : string; a_role : WorkspaceRole }.

(* @src packages/db/src/repositories/resource-access-query.ts activeRoleCondition *)
Definition activeRoleCondition (access : ResourceQueryAccess) (db : control_db) : bool :=
  existsb (fun actor =>
    eqb (mb_workspace actor) (a_workspaceId access) && eqb (mb_user actor) (a_userId access) &&
    eqb (mb_role actor) (a_role access) && eqb (mb_status actor) active) (memberships db).

(** [capability IN (...)] for the capability asked for. *)
Definition allowedCapabilities (c : Capability) : list Capability :=
  match c with manage => [manage] | view => [view; manage] end.
Definition deniedCapabilities (c : Capability) : list Capability :=
  match c with manage => [view; manage] | view => [view] end.

(* @src packages/db/src/repositories/resource-access-query.ts grantAllowCondition *)
Definition grantAllowCondition (access : ResourceQueryAccess) (t : ResourceType) (id : string)
    (c : Capability) (db : control_db) : bool :=
  existsb (fun allowed =>
    eqb (gr_workspace allowed) (a_workspaceId access) && eqb (gr_user allowed) (a_userId access) &&
    eqb (resourceType (gr_grant allowed)) t && eqb (resourceId (gr_grant allowed)) id &&
    bool_decide (capability (gr_grant allowed) ∈ allowedCapabilities c) &&
    eqb (effect (gr_grant allowed)) allow) (resource_grants db).

(* @src packages/db/src/repositories/resource-access-query.ts grantDenyCondition *)
Definition grantDenyCondition (access : ResourceQueryAccess) (t : ResourceType) (id : string)
    (c : Capability) (db : control_db) : bool :=
  negb (existsb (fun denied =>
    eqb (gr_workspace denied) (a_workspaceId access) && eqb (gr_user denied) (a_userId access) &&
    eqb (resourceType (gr_grant denied)) t && eqb (resourceId (gr_grant denied)) id &&
    bool_decide (capability (gr_grant denied) ∈ deniedCapabilities c) &&
    eqb (effect (gr_grant denied)) deny) (resource_grants db)).

(* @src packages/db/src/repositories/resource-access-query.ts resourceCapabilityCondition *)
Definition resourceCapabilityCondition (access : ResourceQueryAccess) (t : ResourceType) (id : string)
    (c : Capability) (db : control_db) : bool :=
  let activeRole := activeRoleCondition access db in
  if eqb (a_role access) admin then activeRole
  else activeRole && grantAllowCondition access t id c db && grantDenyCondition access t id c db.

(* @src packages/db/src/repositories/resource-access-query.ts incidentViewCondition *)
Definition incidentViewCondition (access : ResourceQueryAccess) (incidentId : string) (db : control_db)
  : bool :=
  let activeRole := activeRoleCondition access db in
  if eqb (a_role access) admin then activeRole
  else
    activeRole && grantDenyCondition access RIncident incidentId view db &&
    (grantAllowCondition access RIncident incidentId view db ||
     existsb (fun affected =>
       existsb (fun inherited =>
         eqb (sv_id inherited) (ir_resource affected) &&
         eqb (sv_workspace inherited) (a_workspaceId access) && eqb (sv_deleted inherited) None)
         (services db) &&
       eqb (ir_incident affected) incidentId && eqb (ir_type affected) RService &&
       grantAllowCondition access RService (ir_resource affected) view db &&
       grantDenyCondition access RService (ir_resource affected) view db)
       (incident_resources db)).

(* @src packages/db/src/repositories/resource-access-query.ts incidentManageCondition *)
Definition incidentManageCondition (access : ResourceQueryAccess) (incidentId : string) (db : control_db)
  : bool :=
  let activeRole := activeRoleCondition access db in
  if eqb (a_role access) admin then activeRole
  else
    activeRole && grantDenyCondition access RIncident incidentId manage db &&
    (grantAllowCondition access RIncident incidentId manage db ||
     (existsb (fun affected => eqb (ir_incident affected) incidentId && eqb (ir_type affected) RService)
        (incident_resources db) &&
      negb (existsb (fun blocked =>
        eqb (ir_incident blocked) incidentId && eqb (ir_type blocked) RService &&
        negb (grantAllowCondition access RService (ir_resource blocked) manage db &&
              grantDenyCondition access RService (ir_resource blocked) manage db))
        (incident_resources db)))).

(** ** Loading the access of a request, and re-checking it inside the write *)

(* @src apps/web/src/lib/server/monitoring-access.ts 25-25 MAX_ACCESS_GRANTS *)
Definition MAX_ACCESS_GRANTS : Z := 5000.

(* @src apps/web/src/lib/server/monitoring-access.ts MonitoringAccess *)
Record MonitoringAccess := Monitoring {
  m_workspaceId : string;
  m_workspacePk : Z;
  m_defaultDashboardId : string;
  m_defaultSamplingIntervalSeconds : Z;
  m_role : WorkspaceRole;
  m_grants : list ResourceGrant;
}.

(** The stored grants of a subject, in the statement's order. *)
Definition subject_grants (workspace user : string) (db : control_db) : list ResourceGrant :=
  map gr_grant (List.filter (fun g => eqb (gr_workspace g) workspace && eqb (gr_user g) user)
                  (resource_grants db)).

(** [ORDER BY resource_type, resource_id, capability, effect]: a total order on grants. *)
Definition type_rank (t : ResourceType) : nat :=
  match t with RContainer => 0 | RDashboard => 1 | RIncident => 2 | RMachine => 3 | RService => 4 end.
Definition capability_rank (c : Capability) : nat := match c with manage => 0 | view => 1 end.
Definition effect_rank (e : GrantEffect) : nat := match e with allow => 0 | deny => 1 end.
Definition grant_leb (a b : ResourceGrant) : bool :=
  match Nat.compare (type_rank (resourceType a)) (type_rank (resourceType b)) with
  | Lt => true | Gt => false
  | Eq =>
      match String.compare (resourceId a) (resourceId b) with
      | Lt => true | Gt => false
      | Eq =>
          match Nat.compare (capability_rank (capability a)) (capability_rank (capability b)) with
          | Lt => true | Gt => false
          | Eq => (effect_rank (effect a) <=? effect_rank (effect b))%nat
          end
      end
  end.

(* @src apps/web/src/lib/server/monitoring-access.ts loadMonitoringAccess *)
Definition loadMonitoringAccess (db : control_db) (workspaceSlug userId : string) : res MonitoringAccess :=
  let rows :=
    w ← workspaces db;
    m ← memberships db;
    if eqb (mb_workspace m) (ws_id w) && eqb (ws_slug w) workspaceSlug && eqb (ws_deleted w) None &&
       eqb (mb_user m) userId && eqb (mb_status m) active
    then [(w, mb_role m)] else [] in
  match rows with
  | [] => Err "404 Workspace not found"
  | (workspace, role) :: _ =>
      let result := Monitoring (ws_id workspace) (ws_pk workspace) (ws_dashboard workspace)
                      (ws_interval workspace) role in
      if eqb role admin then Ok (result [])
      else
        let grants := order_limit grant_leb (MAX_ACCESS_GRANTS + 1)
                        (subject_grants (ws_id workspace) userId db) in
        throw_if MAX_ACCESS_GRANTS <? Z.of_nat (length grants)
          as "503 Resource access scope exceeds the supported limit" in
        Ok (result grants)
  end.

(* @src apps/web/src/lib/server/monitoring-access.ts requireAdmin *)
Definition requireAdmin (access : MonitoringAccess) : res unit :=
  throw_if negb (eqb (m_role access) admin) as "404 Workspace not found" in Ok tt.

(* @src apps/web/src/lib/server/monitoring-access.ts requireResourceCapability *)
Definition requireResourceCapability (access : MonitoringAccess) (t : ResourceType) (id : string)
    (c : Capability) : res unit :=
  throw_if negb (canAccessResource (m_role access) (m_grants access) t id c) as "404 Resource not found" in
  Ok tt.

(** A condition built for a write statement: it is evaluated on the database the statement sees. *)
Definition condition := control_db -> bool.

(* @src apps/web/src/lib/server/monitoring-access.ts combineFinalAuthorizationConditions *)
Definition combineFinalAuthorizationConditions (conditions : list condition) : condition :=
  fun db => forallb (fun c => c db) conditions.

(* @src apps/web/src/lib/server/monitoring-access.ts finalAdminCondition *)
Definition finalAdminCondition (actorUserId workspace : string) : condition := fun db =>
  existsb (fun actor =>
    eqb (mb_workspace actor) workspace && eqb (mb_user actor) actorUserId &&
    eqb (mb_role actor) admin && eqb (mb_status actor) active) (memberships db).

(* @src apps/web/src/lib/server/monitoring-access.ts finalResourceCapabilityCondition *)
Definition finalResourceCapabilityCondition (access : MonitoringAccess) (actorUserId : string)
    (t : ResourceType) (workspace id : string) (c : Capability) : condition := fun db =>
  if negb (eqb (m_role access) member) then
    existsb (fun actor =>
      eqb (mb_workspace actor) workspace && eqb (mb_user actor) actorUserId &&
      eqb (mb_role actor) admin && eqb (mb_status actor) active) (memberships db)
  else
    existsb (fun actor =>
      eqb (mb_workspace actor) workspace && eqb (mb_user actor) actorUserId &&
      eqb (mb_role actor) member && eqb (mb_status actor) active) (memberships db) &&
    existsb (fun allowed =>
      eqb (gr_workspace allowed) workspace && eqb (gr_user allowed) actorUserId &&
      eqb (resourceType (gr_grant allowed)) t && eqb (resourceId (gr_grant allowed)) id &&
      bool_decide (capability (gr_grant allowed) ∈ allowedCapabilities c) &&
      eqb (effect (gr_grant allowed)) allow) (resource_grants db) &&
    negb (existsb (fun denied =>
      eqb (gr_workspace denied) workspace && eqb (gr_user denied) actorUserId &&
      eqb (resourceType (gr_grant denied)) t && eqb (resourceId (gr_grant denied)) id &&
      bool_decide (capability (gr_grant denied) ∈ deniedCapabilities c) &&
      eqb (effect (gr_grant denied)) deny) (resource_grants db)).

(** ** The decisions and the conditions agree *)

Lemma existsb_map_filter {A B} (f : A -> B) (p : A -> bool) (q : B -> bool) (r : A -> bool) l :
  (forall x, r x = p x && q (f x)) -> existsb r l = existsb q (map f (List.filter p l)).
Proof.
  intros Hr. induction l as [|x l IH]; [done|]. simpl. rewrite Hr, IH. by destruct (p x).
Qed.
Lemma existsb_filter {A} (p q r : A -> bool) l :
  (forall x, r x = p x && q x) -> existsb r l = existsb q (List.filter p l).
Proof. intros Hr. induction l as [|x l IH]; [done|]. simpl. rewrite Hr, IH. by destruct (p x). Qed.

Lemma allowed_in g c : bool_decide (capability g ∈ allowedCapabilities c) && eqb (effect g) allow = allowsCapability g c.
Proof. unfold allowsCapability. destruct g as [t i [] []], c; reflexivity. Qed.
Lemma denied_in g c : bool_decide (capability g ∈ deniedCapabilities c) && eqb (effect g) deny = deniesCapability g c.
Proof. unfold deniesCapability. destruct g as [t i [] []], c; reflexivity. Qed.

Lemma grantAllow_loaded access t id c db :
  grantAllowCondition access t id c db =
    existsb (fun g => allowsCapability g c)
      (List.filter (grant_for t id) (subject_grants (a_workspaceId access) (a_userId access) db)).
Proof.
  unfold grantAllowCondition, subject_grants.
  rewrite <- (existsb_filter (grant_for t id) (fun g => allowsCapability g c) (fun g => grant_for t id g && allowsCapability g c)) by done.
  apply existsb_map_filter. intros g. rewrite <- allowed_in. unfold grant_for.
  by rewrite !andb_assoc.
Qed.
Lemma grantDeny_loaded access t id c db :
  grantDenyCondition access t id c db =
    negb (existsb (fun g => deniesCapability g c)
      (List.filter (grant_for t id) (subject_grants (a_workspaceId access) (a_userId access) db))).
Proof.
  unfold grantDenyCondition, subject_grants. f_equal.
  rewrite <- (existsb_filter (grant_for t id) (fun g => deniesCapability g c) (fun g => grant_for t id g && deniesCapability g c)) by done.
  apply existsb_map_filter. intros g. rewrite <- denied_in. unfold grant_for.
  by rewrite !andb_assoc.
Qed.

Lemma eqb_admin role : eqb role admin = true \/ role = member.
Proof. destruct role; auto. Qed.

Lemma resourceCapability_decides access t id c db :
  resourceCapabilityCondition access t id c db =
    activeRoleCondition access db &&
    canAccessResource (a_role access) (subject_grants (a_workspaceId access) (a_userId access) db) t id c.
Proof.
  unfold resourceCapabilityCondition, canAccessResource. cbv zeta. destruct (eqb (a_role access) admin); [by rewrite andb_true_r|].
  rewrite grantAllow_loaded, grantDeny_loaded, <- andb_assoc. f_equal.
  destruct (existsb (fun g => deniesCapability g c) _); simpl; by rewrite ?andb_false_r, ?andb_true_r.
Qed.

(** The two implementations of resource access agree: the SQL condition a statement carries
    holds on a database exactly when the actor still has the role in an active membership and
    the in-memory decision, on the subject's stored grants, says yes, for every resource type
    and capability. *)
Theorem resourceCapabilityCondition_agrees access t id c db :
  resourceCapabilityCondition access t id c db =
    activeRoleCondition access db &&
    canAccessResource (a_role access) (subject_grants (a_workspaceId access) (a_userId access) db) t id c.
Proof. apply resourceCapability_decides. Qed.

(** Whether some affected, live service of the workspace is visible to the subject. *)
Definition inherits_view (access : ResourceQueryAccess) (incidentId : string) (db : control_db) : bool :=
  existsb (fun affected =>
    eqb (ir_incident affected) incidentId && eqb (ir_type affected) RService &&
    existsb (fun s => eqb (sv_id s) (ir_resource affected) &&
                      eqb (sv_workspace s) (a_workspaceId access) && eqb (sv_deleted s) None) (services db) &&
    canAccessResource member (subject_grants (a_workspaceId access) (a_userId access) db) RService
      (ir_resource affected) view) (incident_resources db).
(** Whether the incident affects services and the subject manages every one of them. *)
Definition inherits_manage (access : ResourceQueryAccess) (incidentId : string) (db : control_db) : bool :=
  let affected := List.filter (fun r => eqb (ir_incident r) incidentId && eqb (ir_type r) RService)
                    (incident_resources db) in
  negb (match affected with [] => true | _ => false end) &&
  forallb (fun r => canAccessResource member (subject_grants (a_workspaceId access) (a_userId access) db)
                      RService (ir_resource r) manage) affected.

Lemma allow_deny_access access t id c db :
  grantAllowCondition access t id c db && grantDenyCondition access t id c db =
    canAccessResource member (subject_grants (a_workspaceId access) (a_userId access) db) t id c.
Proof.
  rewrite grantAllow_loaded, grantDeny_loaded. unfold canAccessResource. cbn [bool_decide].
  change (eqb member admin) with false. cbv iota zeta.
  destruct (existsb (fun g => deniesCapability g c) _); simpl; by rewrite ?andb_false_r, ?andb_true_r.
Qed.

Lemma filter_idemp {A} (p : A -> bool) l : List.filter p (List.filter p l) = List.filter p l.
Proof.
  induction l as [|x l IH]; [done|]. simpl. destruct (p x) eqn:E; [|done]. simpl. by rewrite E, IH.
Qed.
Lemma incident_decision access incidentId c db (inherited : bool) :
  grantDenyCondition access RIncident incidentId c db &&
    (grantAllowCondition access RIncident incidentId c db || inherited) =
  canAccessIncident member (subject_grants (a_workspaceId access) (a_userId access) db) incidentId c inherited.
Proof.
  unfold canAccessIncident, canAccessResource. change (eqb member admin) with false. cbv iota zeta.
  rewrite grantAllow_loaded, grantDeny_loaded, filter_idemp.
  by destruct (existsb (fun g => deniesCapability g c) _).
Qed.

Lemma existsb_ext_in {A} (p q : A -> bool) l : (forall x, p x = q x) -> existsb p l = existsb q l.
Proof. intros H. induction l as [|x l IH]; [done|]. simpl. by rewrite H, IH. Qed.

Lemma existsb_not_forallb {A} (p q : A -> bool) l :
  existsb p l && negb (existsb (fun x => p x && negb (q x)) l) =
    negb (match List.filter p l with [] => true | _ => false end) && forallb q (List.filter p l).
Proof.
  assert (existsb p l = negb (match List.filter p l with [] => true | _ => false end)) as ->.
  { induction l as [|x l IH]; [done|]. simpl. by destruct (p x). }
  f_equal. rewrite (existsb_filter p (fun x => negb (q x)) (fun x => p x && negb (q x))) by done.
  generalize (List.filter p l). intros l'.
  induction l' as [|x l' IH]; [done|]. simpl. rewrite negb_orb, negb_involutive. by rewrite IH.
Qed.

(** Incidents inherit from services the same way in SQL as in memory: the view condition is
    [canAccessIncident] with "some affected live service is visible", and the manage condition is
    [canAccessIncident] with "services are affected and all of them are manageable"; a deny on
    the incident itself always wins. *)
Theorem incidentConditions_agree access incidentId db :
  incidentViewCondition access incidentId db =
    activeRoleCondition access db &&
    canAccessIncident (a_role access) (subject_grants (a_workspaceId access) (a_userId access) db) incidentId
      view (inherits_view access incidentId db) /\
  incidentManageCondition access incidentId db =
    activeRoleCondition access db &&
    canAccessIncident (a_role access) (subject_grants (a_workspaceId access) (a_userId access) db) incidentId
      manage (inherits_manage access incidentId db).
Proof.
  unfold incidentViewCondition, incidentManageCondition. cbv zeta.
  destruct (eqb_admin (a_role access)) as [Ha|Hm].
  - rewrite Ha. unfold canAccessIncident. rewrite Ha, andb_true_r. done.
  - rewrite Hm. change (eqb member admin) with false. cbv iota. rewrite <- !incident_decision, !andb_assoc.
    split; f_equal; f_equal.
    + unfold inherits_view. apply existsb_ext_in. intros r. rewrite <- allow_deny_access.
      destruct (existsb _ (services db)), (eqb (ir_incident r) incidentId), (eqb (ir_type r) RService); simpl;
        by rewrite ?andb_false_r.
    + unfold inherits_manage. cbv zeta. rewrite <- existsb_not_forallb. do 2 f_equal.
      apply existsb_ext_in. intros r. by rewrite allow_deny_access.
Qed.

(** ** Loading, deciding, and deciding again in the write *)

Lemma existsb_perm {A} (p : A -> bool) l l' : l ≡ₚ l' -> existsb p l = existsb p l'.
Proof.
  intros Hp. apply eq_true_iff_eq. rewrite !existsb_exists_elem. by setoid_rewrite Hp.
Qed.
Lemma canAccessResource_perm role l l' t id c :
  l ≡ₚ l' -> canAccessResource role l t id c = canAccessResource role l' t id c.
Proof.
  intros Hp. unfold canAccessResource. destruct (eqb role admin); [done|]. cbv zeta.
  assert (Hf : forall q, existsb q (List.filter (grant_for t id) l) = existsb q (List.filter (grant_for t id) l')).
  { intros q. rewrite <- !(existsb_filter (grant_for t id) q (fun x => grant_for t id x && q x)) by done.
    by apply existsb_perm. }
  by rewrite !Hf.
Qed.

(** A page that stayed below the limit holds every row. *)
Lemma order_limit_complete {R} (leb : R -> R -> bool) n (l : list R) :
  0 <= n -> Z.of_nat (length (order_limit leb (n + 1) l)) <= n -> order_limit leb (n + 1) l ≡ₚ l.
Proof.
  intros Hn Hl. unfold order_limit in *. rewrite length_take in Hl.
  assert (length (order_by leb l) = length l) as Hlen by (by rewrite order_by_perm).
  rewrite take_ge by lia. apply order_by_perm.
Qed.

Lemma loadMonitoringAccess_rows db slug user a : loadMonitoringAccess db slug user = Ok a ->
  activeRoleCondition (Access (m_workspaceId a) user (m_role a)) db = true /\
  (m_role a = admin \/ m_grants a ≡ₚ subject_grants (m_workspaceId a) user db).
Proof.
  unfold loadMonitoringAccess. cbv zeta. intros H.
  match type of H with match ?r with _ => _ end = _ => destruct r as [|[w role] rest] eqn:Er; [discriminate|] end.
  assert (Hin : (w, role) ∈ ((w, role) :: rest)) by (by left). rewrite <- Er in Hin.
  apply list_elem_of_bind in Hin as (w' & Hin & _). apply list_elem_of_bind in Hin as (m & Hin & Hm).
  destruct (_ && _) eqn:E in Hin; [|by apply elem_of_nil in Hin].
  apply list_elem_of_singleton in Hin. injection Hin as -> ->. bool_hyps.
  assert (Hact : activeRoleCondition (Access (ws_id w') user (mb_role m)) db = true).
  { apply existsb_exists_elem. exists m. split; [done|]. cbn. rewrite !bool_decide_eq_true_2 by done. done. }
  destruct (eqb (mb_role m) admin) eqn:Ea.
  - injection H as <-. cbn. split; [done|]. left. by bool_hyps.
  - destruct (_ <? _) eqn:El; [discriminate|]. injection H as <-. cbn. split; [done|]. right.
    apply order_limit_complete; [done|]. by bool_hyps.
Qed.

Lemma final_is_read access user t ws id c db :
  finalResourceCapabilityCondition access user t ws id c db =
    resourceCapabilityCondition (Access ws user (m_role access)) t id c db.
Proof.
  unfold finalResourceCapabilityCondition, resourceCapabilityCondition, activeRoleCondition,
    grantAllowCondition, grantDenyCondition. cbn. by destruct (m_role access).
Qed.

(** C2: a request's three authorisation checks agree. When the access loads, for every resource and
    capability the page's decision on the loaded grants, the read statements' condition and the
    write statement's final condition give the same answer on the database it was loaded from
    (the loaded grants are complete, or loading fails with 503); and on the database of the
    later write the final condition is exactly the read condition evaluated afresh, so a role
    or grant revoked in between stops the write. *)
Theorem authorization_checks_agree db slug user a (Hl : loadMonitoringAccess db slug user = Ok a) t id c :
  canAccessResource (m_role a) (m_grants a) t id c =
    resourceCapabilityCondition (Access (m_workspaceId a) user (m_role a)) t id c db /\
  finalResourceCapabilityCondition a user t (m_workspaceId a) id c db =
    canAccessResource (m_role a) (m_grants a) t id c /\
  forall db', finalResourceCapabilityCondition a user t (m_workspaceId a) id c db' =
    activeRoleCondition (Access (m_workspaceId a) user (m_role a)) db' &&
    canAccessResource (m_role a) (subject_grants (m_workspaceId a) user db') t id c.
Proof.
  destruct (loadMonitoringAccess_rows _ _ _ _ Hl) as [Hact Hg].
  assert (Hread : resourceCapabilityCondition (Access (m_workspaceId a) user (m_role a)) t id c db =
    canAccessResource (m_role a) (m_grants a) t id c).
  { rewrite resourceCapability_decides, Hact. cbn. destruct Hg as [Ha|Hg].
    - unfold canAccessResource. by rewrite Ha.
    - symmetry. by apply canAccessResource_perm. }
  rewrite final_is_read, Hread. split; [done|]. split; [done|]. intros db'.
  by rewrite final_is_read, resourceCapability_decides.
Qed.

Definition sample_db : control_db := ControlDb
  [Membership "w" "u" member active]
  [GrantRow "w" "u" (Grant RMachine "m1" manage allow); GrantRow "w" "u" (Grant RMachine "m2" view deny);
   GrantRow "w" "u" (Grant RMachine "m2" manage allow)] [] []
  [WorkspaceRow "w" "acme" 1 "d" 10 None].
Example authorization_checks_agree_witness :
  exists a, loadMonitoringAccess sample_db "acme" "u" = Ok a /\
    canAccessResource (m_role a) (m_grants a) RMachine "m1" view = true /\
    canAccessResource (m_role a) (m_grants a) RMachine "m2" manage = false /\
    finalResourceCapabilityCondition a "u" RMachine (m_workspaceId a) "m1" view sample_db =
      canAccessResource (m_role a) (m_grants a) RMachine "m1" view.
Proof.
  eexists. split; [reflexivity|]. split; [reflexivity|]. split; [reflexivity|].
  apply (authorization_checks_agree sample_db "acme" "u" _ eq_refl RMachine "m1" view).
Defined.

(** Capabilities are ordered and denials win: whoever may manage may view; a matching deny of the
    capability (or of view) refuses everyone but an admin, whatever else is granted; and nobody
    but an admin gets in without an allow grant. For containers the machine's grants are a
    fallback that a container deny overrides. *)
Theorem access_order role grants t id c machineId :
  (canAccessResource role grants t id manage = true -> canAccessResource role grants t id view = true) /\
  (forall g, g ∈ grants -> resourceType g = t -> resourceId g = id -> deniesCapability g c = true ->
     role = member -> canAccessResource role grants t id c = false) /\
  (canAccessResource role grants t id c = true -> role = admin \/
     exists g, g ∈ grants /\ resourceType g = t /\ resourceId g = id /\ effect g = allow) /\
  (forall g, g ∈ grants -> resourceType g = RContainer -> resourceId g = id -> deniesCapability g c = true ->
     role = member -> canAccessContainer role grants machineId id c = false).
Proof.
  assert (Hrel : forall t g, g ∈ grants -> resourceType g = t -> resourceId g = id ->
    g ∈ List.filter (grant_for t id) grants).
  { intros t' g Hg <- <-. apply filter_In_elem. split; [done|]. unfold grant_for. by rewrite !bool_decide_eq_true_2. }
  unfold canAccessResource, canAccessContainer. cbv zeta. split_and!.
  - destruct (eqb role admin); [done|]. set (l := List.filter _ _).
    destruct (existsb (fun g => deniesCapability g manage) l) eqn:Ed; [done|]. intros Ha.
    assert (existsb (fun g => deniesCapability g view) l = false) as ->.
    { apply existsb_false_elem. intros g Hg. pose proof (proj1 (existsb_false_elem _ _) Ed g Hg) as Hd.
      destruct g as [? ? [] []]; done. }
    apply existsb_exists_elem in Ha as (g & Hg & Ha). apply existsb_exists_elem. exists g. split; [done|].
    destruct g as [? ? [] []]; done.
  - intros g Hg Ht Hi Hd ->. change (eqb member admin) with false. cbv iota.
    assert (existsb (fun g => deniesCapability g c) (List.filter (grant_for t id) grants) = true) as ->; [|done].
    apply existsb_exists_elem. exists g. eauto.
  - destruct (eqb_admin role) as [Ha|Hm]; [bool_hyps; by left|]. rewrite Hm.
    change (eqb member admin) with false. cbv iota. destruct (existsb _ _); [done|]. intros Ha. right.
    apply existsb_exists_elem in Ha as (g & Hg & Ha). apply filter_In_elem in Hg as [Hg Hf].
    unfold grant_for, allowsCapability in *. exists g. by bool_hyps.
  - intros g Hg Ht Hi Hd ->. change (eqb member admin) with false. cbv iota.
    assert (existsb (fun g => deniesCapability g c) (List.filter (grant_for RContainer id) grants) = true) as ->; [|done].
    apply existsb_exists_elem. exists g. eauto.
Qed.
