(* ===== verification/CheckPersistence.v ===== *)
(** * CheckPersistence: recording a check's result

    [workers/checks/src/persistence.ts]: the confirmation window, the service state (in
    TypeScript and as the SQL aggregate), the rollups a closing five-minute block produces, the
    status buckets, and [persistCheckResult], which reads the previous result and then runs one
    atomic batch.  The batch is a function on the telemetry database; the reads and the batch
    are separate arguments, since other writers may run between them.  Latencies are whole
    milliseconds ([executeHttp] and [executeTcp] round them). *)

From Stdlib Require Import ZArith Lia Bool String Ascii List SpecFloat.
From stdpp Require Import base tactics list strings.
From S2P Require Import Prelude.
From S2P Require Import Js.
From S2P Require Import Sql.
From S2P Require Import Telemetry.
From S2P Require Import Crypto.
Open Scope string_scope.
Open Scope Z_scope.

(** ** States *)

(* @src workers/checks/src/types.ts 59-59 ExecutedCheck *)
Inductive ExecState := Healthy | Degraded | Down.
(* @src workers/checks/src/persistence.ts 6-6 CheckState *)
Inductive CheckState := CHealthy | CDegraded | CDown | CUnknown.
(* @src workers/checks/src/persistence.ts 7-7 ServiceState *)
Inductive ServiceState := SHealthy | SDegraded | SDown | SUnknown | SMaintenance.
#[export] Instance exec_state_eq_dec : EqDecision ExecState. Proof. solve_decision. Defined.
#[export] Instance check_state_eq_dec : EqDecision CheckState. Proof. solve_decision. Defined.
#[export] Instance service_state_eq_dec : EqDecision ServiceState. Proof. solve_decision. Defined.

Definition as_check (s : ExecState) : CheckState :=
  match s with Healthy => CHealthy | Degraded => CDegraded | Down => CDown end.
Definition state_name (s : ServiceState) : string :=
  match s with
  | SHealthy => "healthy" | SDegraded => "degraded" | SDown => "down"
  | SUnknown => "unknown" | SMaintenance => "maintenance"
  end.
Definition exec_name (s : ExecState) : string :=
  match s with Healthy => "healthy" | Degraded => "degraded" | Down => "down" end.

(* @src workers/checks/src/types.ts ExecutedCheck *)
Record ExecutedCheck := Executed {
  ex_state : ExecState;
  ex_latencyMs : option Z;
  ex_failureCode : option string;
  ex_failureSummary : option string;
}.
#[export] Instance executed_eq_dec : EqDecision ExecutedCheck. Proof. solve_decision. Defined.

Inductive check_kind := KHttp | KTcp.
(* @src workers/checks/src/types.ts CheckConfigRow *)
Record CheckConfigRow := CheckConfig {
  cc_id : string;
  cc_telemetry_pk : Z;
  cc_workspace_telemetry_pk : Z;
  cc_workspace_id : string;
  cc_service_telemetry_pk : Z;
  cc_service_maintenance_until : option Z;
  cc_config_revision : Z;
  cc_kind : check_kind;
  cc_interval_seconds : Z;
  cc_phase_seconds : Z;
  cc_timeout_ms : Z;
  cc_retry_count : Z;
  cc_critical : Z;
  cc_request_json : string;
  cc_secret_refs_json : string;
  cc_failure_confirmations : Z;
  cc_recovery_confirmations : Z;
  cc_last_claimed_slot : Z;
}.

(** ** The confirmation window *)

(* @src workers/checks/src/persistence.ts ConfirmationState *)
Record ConfirmationState := Confirmation {
  cs_state : CheckState;
  cs_failure_code : option string;
  cs_failure_summary : option string;
  cs_consecutive_failures : Z;
  cs_consecutive_successes : Z;
}.
(* @src workers/checks/src/persistence.ts ConfirmedResult *)
Record ConfirmedResult := Confirmed {
  cf_state : CheckState;
  cf_latencyMs : option Z;
  cf_failureCode : option string;
  cf_failureSummary : option string;
  cf_consecutiveFailures : Z;
  cf_consecutiveSuccesses : Z;
}.

(** [a ?? b] *)
Definition or_else {A} (a b : option A) : option A := match a with Some x => Some x | None => b end.

(* @src workers/checks/src/persistence.ts applyConfirmationWindow *)
Definition applyConfirmationWindow (config : CheckConfigRow) (previous : option ConfirmationState)
    (result : ExecutedCheck) : ConfirmedResult :=
  if bool_decide (ex_state result = Healthy) then
    let successes := coalesce (cs_consecutive_successes <$> previous) 0 + 1 in
    let priorState := coalesce (cs_state <$> previous) CHealthy in
    let confirmed := negb (match previous with Some _ => true | None => false end) ||
      bool_decide (priorState = CHealthy) || (cc_recovery_confirmations config <=? successes) in
    Confirmed
      (if confirmed then CHealthy else if bool_decide (priorState = CUnknown) then CUnknown else priorState)
      (ex_latencyMs result)
      (if confirmed then None
       else or_else (previous ≫= cs_failure_code) (Some "recovery_pending"))
      (if confirmed then None
       else or_else (previous ≫= cs_failure_summary) (Some "recovery_pending"))
      0 successes
  else
    let failures := coalesce (cs_consecutive_failures <$> previous) 0 + 1 in
    let priorState := coalesce (cs_state <$> previous) CUnknown in
    let alreadyFailed := bool_decide (priorState = CDown) || bool_decide (priorState = CDegraded) in
    let confirmed := alreadyFailed || (cc_failure_confirmations config <=? failures) in
    Confirmed
      (if bool_decide (priorState = CDown) && bool_decide (ex_state result = Degraded) then CDown
       else if confirmed then as_check (ex_state result) else priorState)
      (ex_latencyMs result)
      (if confirmed then ex_failureCode result else Some "failure_pending")
      (if confirmed then ex_failureSummary result
       else or_else (ex_failureSummary result) (ex_failureCode result))
      failures 0.

(** ** The service's state *)

(* @src workers/checks/src/persistence.ts serviceState *)
Definition serviceState (checks : list (CheckState * Z)) (maintenanceUntil : option Z) (now : Z)
  : ServiceState :=
  if null_gt maintenanceUntil now then SMaintenance
  else if existsb (fun c => (c.2 =? 1) && bool_decide (c.1 = CDown)) checks then SDown
  else if existsb (fun c => bool_decide (c.1 = CDown) || bool_decide (c.1 = CDegraded)) checks
  then SDegraded
  else if existsb (fun c => bool_decide (c.1 = CHealthy)) checks then SHealthy
  else SUnknown.

(* @src workers/checks/src/persistence.ts serviceReason *)
Definition serviceReason (s : ServiceState) : string :=
  match s with SMaintenance => "maintenance_window" | _ => "check_" ++ state_name s end.

(* @src workers/checks/src/persistence.ts serviceReasonSql *)
Definition serviceReasonSql (s : ServiceState) : string :=
  match s with
  | SMaintenance => "maintenance_window" | SDown => "check_down" | SDegraded => "check_degraded"
  | SHealthy => "check_healthy" | SUnknown => "check_unknown"
  end.

(** ** Tables *)

(* @src workers/checks/src/persistence.ts 540-579 persistCheckResult *)
Record check_latest_row := CheckLatest {
  cl_check : Z;
  cl_workspace : Z;
  cl_service : option Z;
  cl_observed : Z;
  cl_state : CheckState;
  cl_latency : option Z;
  cl_failure_code : option string;
  cl_failure_summary : option string;
  cl_failures : Z;
  cl_successes : Z;
  cl_critical : Z;
  cl_revision : Z;
  cl_result : list byte;
}.
Record state_event := StateEvent {
  ev_workspace : Z;
  ev_type : Z;
  ev_resource : Z;
  ev_at : Z;
  ev_id : list byte;
  ev_previous : string;
  ev_current : string;
  ev_reason : string;
}.
Record service_latest_row := ServiceLatest {
  sl_service : Z;
  sl_workspace : Z;
  sl_state : string;
  sl_since : Z;
  sl_reason : string;
  sl_transition : Z;
  sl_updated : Z;
}.
(* @src workers/checks/src/persistence.ts StoredCheckRollup *)
Record rollup_row := RollupRow {
  ro_check : Z;
  ro_workspace : Z;
  ro_start : Z;
  ro_total : Z;
  ro_healthy : Z;
  ro_degraded : Z;
  ro_down : Z;
  ro_avg : option Z;
  ro_max : option Z;
}.
Record status_bucket := StatusBucket {
  sb_type : Z;
  sb_resource : Z;
  sb_workspace : Z;
  sb_start : Z;
  sb_seconds : Z;
  sb_state : ServiceState;
  sb_availability : Z;
  sb_avg : option Z;
  sb_max : option Z;
  sb_summary : string;
}.
(** A row the trigger [state_events_notification_queue] adds. *)
Record queue_row := QueueRow { qr_sequence : Z; qr_workspace : Z; qr_type : Z; qr_resource : Z; qr_at : Z; qr_id : list byte }.

Record telemetry_db := TelemetryDb {
  check_blocks : list block_row;
  check_latest : list check_latest_row;
  rollups_5m : list rollup_row;
  rollups_1h : list rollup_row;
  state_events : list state_event;
  event_queue : list queue_row;
  queue_next : Z;
  service_latest : list service_latest_row;
  status_buckets : list status_bucket;
  db_changes : Z;
}.
(** [changes()] is the row count of the last statement. *)
Definition with_blocks (r : list block_row * Z) db := TelemetryDb r.1 (check_latest db) (rollups_5m db) (rollups_1h db) (state_events db) (event_queue db) (queue_next db) (service_latest db) (status_buckets db) r.2.
Definition with_latest (r : list check_latest_row * Z) db := TelemetryDb (check_blocks db) r.1 (rollups_5m db) (rollups_1h db) (state_events db) (event_queue db) (queue_next db) (service_latest db) (status_buckets db) r.2.
Definition with_5m (r : list rollup_row * Z) db := TelemetryDb (check_blocks db) (check_latest db) r.1 (rollups_1h db) (state_events db) (event_queue db) (queue_next db) (service_latest db) (status_buckets db) r.2.
Definition with_1h (r : list rollup_row * Z) db := TelemetryDb (check_blocks db) (check_latest db) (rollups_5m db) r.1 (state_events db) (event_queue db) (queue_next db) (service_latest db) (status_buckets db) r.2.
Definition with_service (r : list service_latest_row * Z) db := TelemetryDb (check_blocks db) (check_latest db) (rollups_5m db) (rollups_1h db) (state_events db) (event_queue db) (queue_next db) r.1 (status_buckets db) r.2.
Definition with_buckets (r : list status_bucket * Z) db := TelemetryDb (check_blocks db) (check_latest db) (rollups_5m db) (rollups_1h db) (state_events db) (event_queue db) (queue_next db) (service_latest db) r.1 r.2.

Definition event_key (e : state_event) : Z * Z * Z * list byte := (ev_type e, ev_resource e, ev_at e, ev_id e).

(** [INSERT OR IGNORE INTO state_events] with its trigger: a new event is queued for the
    notification worker, under the next sequence number. *)
(* @src packages/db/migrations/telemetry/0012_notification_event_queue.sql 1-22 state_events_notification_queue *)
Definition insert_event (e : option state_event) (db : telemetry_db) : telemetry_db :=
  match e with
  | None => TelemetryDb (check_blocks db) (check_latest db) (rollups_5m db) (rollups_1h db) (state_events db) (event_queue db) (queue_next db) (service_latest db) (status_buckets db) 0
  | Some e =>
      let '(events, n) := insert_or_ignore event_key e (state_events db) in
      let queued := if (n =? 1) && ((ev_type e =? 1) || (ev_type e =? 2))
                    then (event_queue db ++ [QueueRow (queue_next db) (ev_workspace e) (ev_type e) (ev_resource e) (ev_at e) (ev_id e)])%list
                    else event_queue db in
      let next := if (n =? 1) && ((ev_type e =? 1) || (ev_type e =? 2)) then queue_next db + 1 else queue_next db in
      TelemetryDb (check_blocks db) (check_latest db) (rollups_5m db) (rollups_1h db) events queued next (service_latest db) (status_buckets db) n
  end.

(** ** Rollups *)

(* @src workers/checks/src/persistence.ts CheckRollup *)
Record CheckRollup := Rollup {
  totalCount : Z;
  healthyCount : Z;
  degradedCount : Z;
  downCount : Z;
  latencyTotalMs : Z;
  latencyCount : Z;
  latencyMaxMs : option Z;
}.
(* @src workers/checks/src/persistence.ts emptyRollup *)
Definition emptyRollup : CheckRollup := Rollup 0 0 0 0 0 0 None.

Definition is_state (a b : ExecState) : Z := if bool_decide (a = b) then 1 else 0.
(* @src workers/checks/src/persistence.ts addResult *)
Definition addResult (r : CheckRollup) (result : ExecutedCheck) : CheckRollup :=
  let s := ex_state result in
  let base t c m := Rollup (totalCount r + 1) (healthyCount r + is_state s Healthy)
    (degradedCount r + is_state s Degraded) (downCount r + is_state s Down) t c m in
  match ex_latencyMs result with
  | Some l => base (latencyTotalMs r + l) (latencyCount r + 1) (Some (Z.max (coalesce (latencyMaxMs r) 0) l))
  | None => base (latencyTotalMs r) (latencyCount r) (latencyMaxMs r)
  end.

(* @src workers/checks/src/persistence.ts addStoredRollup *)
Definition addStoredRollup (r : CheckRollup) (stored : rollup_row) : CheckRollup :=
  let '(t, c) := match ro_avg stored with
                 | Some avg => (latencyTotalMs r + avg * ro_total stored, latencyCount r + ro_total stored)
                 | None => (latencyTotalMs r, latencyCount r)
                 end in
  Rollup (totalCount r + ro_total stored) (healthyCount r + ro_healthy stored)
    (degradedCount r + ro_degraded stored) (downCount r + ro_down stored) t c
    (match ro_max stored with
     | Some m => Some (Z.max (coalesce (latencyMaxMs r) 0) m)
     | None => latencyMaxMs r
     end).

(* @src workers/checks/src/persistence.ts parseStoredResult *)
Definition parseStoredResult (payload : option (list byte)) : option ExecutedCheck :=
  match payload with
  | None => None
  | Some bytes =>
      match json_parse (decode_utf8 bytes) with
      | Ok (JObj data) =>
          let state := if is_str "healthy" (obj_get "state" data) then Some Healthy
                       else if is_str "degraded" (obj_get "state" data) then Some Degraded
                       else if is_str "down" (obj_get "state" data) then Some Down else None in
          match state with
          | Some s => Some (Executed s (as_integer (obj_get "latencyMs" data))
                        (as_string (obj_get "failureCode" data)) (as_string (obj_get "failureSummary" data)))
          | None => None
          end
      | _ => None
      end
  end.

(** [latencyCount === 0 ? null : Math.round(latencyTotalMs / latencyCount)] *)
Definition latency_average (r : CheckRollup) : option Z :=
  if latencyCount r =? 0 then None else Some (round_div (latencyTotalMs r) (latencyCount r)).

Definition rollup_key (r : rollup_row) : Z * Z := (ro_check r, ro_start r).
Definition rollup_of (config : CheckConfigRow) (bucketStart : Z) (r : CheckRollup) : rollup_row :=
  RollupRow (cc_telemetry_pk config) (cc_workspace_telemetry_pk config) bucketStart (totalCount r)
    (healthyCount r) (degradedCount r) (downCount r) (latency_average r) (latencyMaxMs r).
(* @src workers/checks/src/persistence.ts prepareRollupStatement *)
Definition prepareRollupStatement (config : CheckConfigRow) (bucketStart : Z) (r : CheckRollup)
    (t : list rollup_row) : list rollup_row * Z :=
  upsert rollup_key (fun old new => ro_workspace old =? ro_workspace new)
    (fun old new => RollupRow (ro_check old) (ro_workspace old) (ro_start old) (ro_total new)
                      (ro_healthy new) (ro_degraded new) (ro_down new) (ro_avg new) (ro_max new))
    (rollup_of config bucketStart r) t.

Record ClosedRollups := Closed {
  cr_statements : list (telemetry_db -> telemetry_db);
  cr_fiveMinute : option CheckRollup;
}.

Definition rollup_leb (a b : rollup_row) : bool := ro_start a <=? ro_start b.

(** The payloads of the block's first four slots. *)
Definition block_payloads (config : CheckConfigRow) (bucket : Z) (db : telemetry_db) : list (option (list byte)) :=
  match List.find (fun b => (blk_workspace b =? cc_workspace_telemetry_pk config) &&
                            (blk_pk b =? cc_telemetry_pk config) && (blk_start b =? bucket)) (check_blocks db) with
  | Some b => map (fun i => se_payload <$> block_slot i b) [0; 1; 2; 3]
  | None => []
  end.

(** The rollup of the block that [current] closes. *)
(* @src workers/checks/src/persistence.ts 157-172 prepareClosedRollups *)
Definition five_minute_rollup (config : CheckConfigRow) (bucket : Z) (current : ExecutedCheck)
    (db : telemetry_db) : CheckRollup :=
  addResult
    (fold_left (fun r payload => match parseStoredResult payload with Some s => addResult r s | None => r end)
       (block_payloads config bucket db) emptyRollup) current.

(* @src workers/checks/src/persistence.ts prepareClosedRollups *)
Definition prepareClosedRollups (config : CheckConfigRow) (nominalMinute : Z) (current : ExecutedCheck)
    (db : telemetry_db) : res ClosedRollups :=
  let* slot := reportSlot nominalMinute in
  if negb (slot =? 4) then Ok (Closed [] None)
  else
    let fiveMinuteBucket := floorToFiveMinuteBlock nominalMinute in
    let fiveMinute := five_minute_rollup config fiveMinuteBucket current db in
    let five := fun db => with_5m (prepareRollupStatement config fiveMinuteBucket fiveMinute (rollups_5m db)) db in
    let minuteInHour := Z.rem nominalMinute 3600000 / 60000 in
    if negb (minuteInHour =? 59) then Ok (Closed [five] (Some fiveMinute))
    else
      let hourStart := nominalMinute / 3600000 * 3600000 in
      let previous := order_by rollup_leb
        (List.filter (fun r => (ro_workspace r =? cc_workspace_telemetry_pk config) &&
                               (ro_check r =? cc_telemetry_pk config) &&
                               (hourStart <=? ro_start r) && (ro_start r <? fiveMinuteBucket)) (rollups_5m db)) in
      let hourly := addStoredRollup (fold_left addStoredRollup previous emptyRollup)
                      (rollup_of config fiveMinuteBucket fiveMinute) in
      Ok (Closed [five; (fun db => with_1h (prepareRollupStatement config hourStart hourly (rollups_1h db)) db)]
            (Some fiveMinute)).

(** ** Status buckets *)

(** [Math.round(x)] on a finite double. *)
Definition num_round (x : number) : Z :=
  match x with
  | S754_finite s m e =>
      let v := if s then Z.neg m else Z.pos m in
      if 0 <=? e then v * 2 ^ e else (2 * v + 2 ^ (- e)) / (2 * 2 ^ (- e))
  | _ => 0
  end.
(** [Math.round((healthy / total) * 1_000)], on doubles. *)
Definition availability_permille (healthy total : Z) : Z :=
  num_round (SFmul 53 1024 (SFdiv 53 1024 (num_of_Z healthy) (num_of_Z total)) (num_of_Z 1000)).

Definition bucket_key (b : status_bucket) : Z * Z * Z * Z := (sb_type b, sb_resource b, sb_seconds b, sb_start b).

Definition worst_state (a b : ServiceState) : ServiceState :=
  let one s := bool_decide (a = s) || bool_decide (b = s) in
  if one SMaintenance then SMaintenance
  else if one SDown then SDown
  else if one SDegraded then SDegraded
  else if one SHealthy then SHealthy else SUnknown.
(** [CASE WHEN a IS NULL THEN b WHEN b IS NULL THEN a ELSE MAX(a, b) END] *)
Definition null_max (a b : option Z) : option Z :=
  match a, b with
  | None, _ => b | _, None => a | Some x, Some y => Some (Z.max x y)
  end.
(** [DO UPDATE SET ...] of the bucket statement. *)
(* @src workers/checks/src/persistence.ts 432-452 prepareStatusBucket *)
Definition merge_bucket (old new : status_bucket) : status_bucket :=
  StatusBucket (sb_type old) (sb_resource old) (sb_workspace old) (sb_start old) (sb_seconds old)
    (worst_state (sb_state old) (sb_state new))
    (Z.min (sb_availability old) (sb_availability new))
    (null_max (sb_avg old) (sb_avg new)) (null_max (sb_max old) (sb_max new))
    (let one s := bool_decide (sb_state old = s) || bool_decide (sb_state new = s) in
     if one SMaintenance then "maintenance_window"
     else if one SDown then "check_down"
     else if one SDegraded then "check_degraded"
     else sb_summary new).

(* @src workers/checks/src/persistence.ts 409-424 prepareStatusBucket *)
Definition bucket_of (config : CheckConfigRow) (nominalMinute : Z) (r : CheckRollup) : status_bucket :=
  let state :=
    if null_gt (cc_service_maintenance_until config) nominalMinute then SMaintenance
    else if 0 <? downCount r then (if cc_critical config =? 1 then SDown else SDegraded)
    else if 0 <? degradedCount r then SDegraded
    else if 0 <? healthyCount r then SHealthy else SUnknown in
  let availability := if totalCount r =? 0 then 0 else availability_permille (healthyCount r) (totalCount r) in
  StatusBucket 2 (cc_service_telemetry_pk config) (cc_workspace_telemetry_pk config)
    (floorToFiveMinuteBlock nominalMinute) 300 state availability (latency_average r) (latencyMaxMs r)
    (serviceReason state).
(* @src workers/checks/src/persistence.ts 426-453 prepareStatusBucket *)
Definition bucket_statement (b : status_bucket) (t : list status_bucket) : list status_bucket * Z :=
  upsert bucket_key (fun old new => sb_workspace old =? sb_workspace new) merge_bucket b t.
(* @src workers/checks/src/persistence.ts prepareStatusBucket *)
Definition prepareStatusBucket (config : CheckConfigRow) (nominalMinute : Z) (r : CheckRollup)
    (t : list status_bucket) : list status_bucket * Z := bucket_statement (bucket_of config nominalMinute r) t.

(** ** The service statements *)

(** [service_aggregate(rank)] *)
Definition service_rank (rows : list check_latest_row) (workspace service : Z) : Z :=
  foldr (fun r acc =>
    Z.max (if (cl_critical r =? 1) && bool_decide (cl_state r = CDown) then 3
           else if bool_decide (cl_state r = CDown) || bool_decide (cl_state r = CDegraded) then 2
           else if bool_decide (cl_state r = CHealthy) then 1 else 0) acc)
    0 (List.filter (fun r => (cl_workspace r =? workspace) && bool_decide (cl_service r = Some service)) rows).
(** [next_service(state)] *)
(* @src workers/checks/src/persistence.ts 267-282 SERVICE_STATE_CTE *)
Definition next_service (rows : list check_latest_row) (workspace service : Z) (maintenance : option Z)
    (now : Z) : ServiceState :=
  let rank := service_rank rows workspace service in
  if null_gt maintenance now then SMaintenance
  else if rank =? 3 then SDown else if rank =? 2 then SDegraded
  else if rank =? 1 then SHealthy else SUnknown.

(** [EXISTS (currentResult)]: the check's latest row is this execution's. *)
Definition current_result (config : CheckConfigRow) (resultId : list byte) (db : telemetry_db) : bool :=
  existsb (fun r => (cl_workspace r =? cc_workspace_telemetry_pk config) &&
    (cl_check r =? cc_telemetry_pk config) && (cl_revision r =? cc_config_revision config) &&
    bool_decide (cl_result r = resultId)) (check_latest db).

Definition service_key (r : service_latest_row) : Z := sl_service r.

(** The first statement: the transition event. *)
(* @src workers/checks/src/persistence.ts 309-341 prepareServiceStateStatements *)
Definition service_event_statement (config : CheckConfigRow) (observedAt : Z) (resultId : list byte)
    (db : telemetry_db) : telemetry_db :=
  let next := next_service (check_latest db) (cc_workspace_telemetry_pk config)
                (cc_service_telemetry_pk config) (cc_service_maintenance_until config) observedAt in
  let previous := coalesce
    (sl_state <$> List.find (fun r => (sl_workspace r =? cc_workspace_telemetry_pk config) &&
                                      (sl_service r =? cc_service_telemetry_pk config)) (service_latest db))
    "unknown" in
  let selected :=
    current_result config resultId db &&
    negb (existsb (fun r => (sl_service r =? cc_service_telemetry_pk config) &&
                            negb (sl_workspace r =? cc_workspace_telemetry_pk config)) (service_latest db)) &&
    negb (String.eqb previous (state_name next)) in
  insert_event
    (if selected
     then Some (StateEvent (cc_workspace_telemetry_pk config) 2 (cc_service_telemetry_pk config) observedAt
                  resultId previous (state_name next) (serviceReasonSql next))
     else None) db.

Definition the_event (config : CheckConfigRow) (observedAt : Z) (resultId : list byte) (e : state_event) : bool :=
  (ev_workspace e =? cc_workspace_telemetry_pk config) && (ev_type e =? 2) &&
  (ev_resource e =? cc_service_telemetry_pk config) && (ev_at e =? observedAt) &&
  bool_decide (ev_id e = resultId).

Definition set_service (r : service_latest_row) (t : list service_latest_row) : list service_latest_row * Z :=
  upsert service_key (fun old new => sl_workspace old =? sl_workspace new)
    (fun old new => ServiceLatest (sl_service old) (sl_workspace new) (sl_state new) (sl_since new)
                      (sl_reason new) (sl_transition new) (sl_updated new)) r t.

(** The second: the service row follows the event, if the first statement inserted one. *)
(* @src workers/checks/src/persistence.ts 342-371 prepareServiceStateStatements *)
Definition service_follow_statement (config : CheckConfigRow) (observedAt : Z) (resultId : list byte)
    (db : telemetry_db) : telemetry_db :=
  match (if db_changes db =? 1 then List.find (the_event config observedAt resultId) (state_events db) else None) with
  | Some e =>
      with_service (set_service (ServiceLatest (cc_service_telemetry_pk config) (cc_workspace_telemetry_pk config)
        (ev_current e) observedAt (ev_reason e) observedAt observedAt) (service_latest db)) db
  | None => with_service (service_latest db, 0) db
  end.

(** The third: a service seen for the first time without a transition. *)
(* @src workers/checks/src/persistence.ts 372-399 prepareServiceStateStatements *)
Definition service_init_statement (config : CheckConfigRow) (observedAt : Z) (resultId : list byte)
    (db : telemetry_db) : telemetry_db :=
  if current_result config resultId db &&
     negb (existsb (the_event config observedAt resultId) (state_events db))
  then with_service (insert_or_ignore service_key
         (ServiceLatest (cc_service_telemetry_pk config) (cc_workspace_telemetry_pk config) "unknown"
            observedAt "check_unknown" observedAt observedAt) (service_latest db)) db
  else with_service (service_latest db, 0) db.

(* @src workers/checks/src/persistence.ts prepareServiceStateStatements *)
Definition prepareServiceStateStatements (config : CheckConfigRow) (observedAt : Z) (resultId : list byte)
  : list (telemetry_db -> telemetry_db) :=
  [service_event_statement config observedAt resultId;
   service_follow_statement config observedAt resultId;
   service_init_statement config observedAt resultId].

(** ** [persistCheckResult] *)

Definition latest_key (r : check_latest_row) : Z := cl_check r.
(** [WHERE check_latest.workspace_pk = excluded.workspace_pk AND ...] *)
Definition latest_guard (old new : check_latest_row) : bool :=
  (cl_workspace old =? cl_workspace new) &&
  ((cl_revision old <? cl_revision new) ||
   ((cl_revision new =? cl_revision old) && (cl_observed old <=? cl_observed new))).
(* @src workers/checks/src/persistence.ts 540-579 persistCheckResult *)
Definition latest_statement (row : check_latest_row) (t : list check_latest_row) : list check_latest_row * Z :=
  upsert latest_key latest_guard
    (fun old new => CheckLatest (cl_check old) (cl_workspace new) (cl_service new) (cl_observed new)
       (cl_state new) (cl_latency new) (cl_failure_code new) (cl_failure_summary new) (cl_failures new)
       (cl_successes new) (cl_critical new) (cl_revision new) (cl_result new)) row t.

(* @src workers/checks/src/persistence.ts hex *)
Definition hex (bytes : list byte) : string :=
  str_join "" (map (fun b => String (hex_digit (Byte.to_N b / 16)) (String (hex_digit (Byte.to_N b mod 16)) ""))
                 bytes).

Definition null_or_str (o : option string) : jout := match o with Some s => OStr s | None => ONull end.
Definition null_or_num (o : option Z) : jout := match o with Some z => OInt z | None => ONull end.

(** The stored payload of a result. *)
(* @src workers/checks/src/persistence.ts 518-529 persistCheckResult *)
Definition result_payload (config : CheckConfigRow) (resultId : list byte) (observedAt : Z)
    (result : ExecutedCheck) : list byte :=
  encode_utf8 (json_stringify (OObj [("v", OInt 1); ("id", OStr (hex resultId));
    ("configRevision", OInt (cc_config_revision config)); ("observedAt", OInt observedAt);
    ("state", OStr (exec_name (ex_state result))); ("latencyMs", null_or_num (ex_latencyMs result));
    ("failureCode", null_or_str (ex_failureCode result));
    ("failureSummary", null_or_str (ex_failureSummary result))])).

Section Persist.
Context `{WC : WebCrypto}.

(* @src workers/checks/src/persistence.ts executionId *)
Definition executionId (checkId : string) (configRevision nominalMinute : Z) : list byte :=
  let material := if configRevision =? 1 then checkId ++ ":" ++ z_to_string nominalMinute
                  else checkId ++ ":" ++ z_to_string configRevision ++ ":" ++ z_to_string nominalMinute in
  sha256 (encode_utf8 material).

Definition confirmation_of (r : check_latest_row) : ConfirmationState :=
  Confirmation (cl_state r) (cl_failure_code r) (cl_failure_summary r) (cl_failures r) (cl_successes r).

Definition previous_latest (config : CheckConfigRow) (db : telemetry_db) : option check_latest_row :=
  List.find (fun r => (cl_workspace r =? cc_workspace_telemetry_pk config) &&
                      (cl_check r =? cc_telemetry_pk config)) (check_latest db).

(** The new row of [check_latest]. *)
Definition latest_row (config : CheckConfigRow) (previous : option check_latest_row)
    (nominalMinute observedAt : Z) (result : ExecutedCheck) : check_latest_row :=
  let confirmed := applyConfirmationWindow config (confirmation_of <$> previous) result in
  CheckLatest (cc_telemetry_pk config) (cc_workspace_telemetry_pk config) (Some (cc_service_telemetry_pk config))
    observedAt (cf_state confirmed) (cf_latencyMs confirmed) (cf_failureCode confirmed)
    (str_slice0 160 <$> cf_failureSummary confirmed) (cf_consecutiveFailures confirmed)
    (cf_consecutiveSuccesses confirmed) (cc_critical config) (cc_config_revision config)
    (executionId (cc_id config) (cc_config_revision config) nominalMinute).

(** What one execution prepares from what it read: [read] is the database at the first reads,
    [read'] at the rollup reads; [None] when the result is stale or already recorded. The
    returned function is the batch: one transaction on the database it finds. *)
(* @src workers/checks/src/persistence.ts persistCheckResult *)
Definition prepare_result (config : CheckConfigRow) (nominalMinute observedAt : Z) (result : ExecutedCheck)
    (read read' : telemetry_db) : res (option (telemetry_db -> res telemetry_db)) :=
  let resultId := executionId (cc_id config) (cc_config_revision config) nominalMinute in
  let previousCheck := previous_latest config read in
  if match previousCheck with
     | Some p => (cc_config_revision config <? cl_revision p) || bool_decide (cl_result p = resultId)
     | None => false
     end
  then Ok None
  else
    let payload := result_payload config resultId observedAt result in
    let block := BlockWrite (cc_telemetry_pk config) (cc_workspace_telemetry_pk config) nominalMinute
                   (SlotEntry payload resultId (sha256 payload)) 1 in
    let latest := latest_row config previousCheck nominalMinute observedAt result in
    let* closedRollups := prepareClosedRollups config nominalMinute result read' in
    let statusStatements :=
      match cr_fiveMinute closedRollups with
      | None => []
      | Some r => [(fun db => with_buckets (prepareStatusBucket config nominalMinute r (status_buckets db)) db)]
      end in
    Ok (Some (fun db =>
      let* blocks := prepareCheckBlockWrite block (check_blocks db) in
      Ok (fold_left (fun db statement => statement db)
            ([(fun db => with_latest (latest_statement latest (check_latest db)) db)] ++
             cr_statements closedRollups ++
             prepareServiceStateStatements config observedAt resultId ++
             statusStatements)
            (with_blocks blocks db)))).

(** Without writers in between. *)
(* @src workers/checks/src/persistence.ts persistCheckResult *)
Definition persistCheckResult (config : CheckConfigRow) (nominalMinute observedAt : Z) (result : ExecutedCheck)
    (db : telemetry_db) : res telemetry_db :=
  let* batch := prepare_result config nominalMinute observedAt result db db in
  match batch with Some run => run db | None => Ok db end.
End Persist.

(** ** The two computations of a service's state *)

Definition service_checks (rows : list check_latest_row) (workspace service : Z) : list (CheckState * Z) :=
  map (fun r => (cl_state r, cl_critical r))
    (List.filter (fun r => (cl_workspace r =? workspace) && bool_decide (cl_service r = Some service)) rows).

Lemma next_service_decides rows workspace service maintenance now :
  next_service rows workspace service maintenance now =
    serviceState (service_checks rows workspace service) maintenance now.
Proof.
  unfold next_service, serviceState, service_rank, service_checks.
  destruct (null_gt maintenance now); [done|]. cbv zeta. generalize (List.filter (fun r =>
    (cl_workspace r =? workspace) && bool_decide (cl_service r = Some service)) rows). intros l.
  set (f := foldr _ 0 l). set (cs := map _ l).
  assert (Hf : f = if existsb (fun c => (c.2 =? 1) && bool_decide (c.1 = CDown)) cs then 3
    else if existsb (fun c => bool_decide (c.1 = CDown) || bool_decide (c.1 = CDegraded)) cs then 2
    else if existsb (fun c => bool_decide (c.1 = CHealthy)) cs then 1 else 0).
  { unfold f, cs. clear. induction l as [|r l IH]; [done|]. cbn [map foldr existsb]. rewrite IH. cbn [fst snd].
    repeat match goal with |- context [existsb ?p (map ?g l)] => generalize (existsb p (map g l)); intros [] end;
      destruct (cl_critical r =? 1), (cl_state r); reflexivity. }
  rewrite Hf. by repeat case_match.
Qed.

(** The SQL aggregate that decides a service's next state inside the batch equals the
    TypeScript [serviceState] of that service's checks, for every table, maintenance
    window (NULL included) and time. *)
Theorem next_service_is_serviceState rows workspace service maintenance now :
  next_service rows workspace service maintenance now =
    serviceState (service_checks rows workspace service) maintenance now /\
  serviceReasonSql (next_service rows workspace service maintenance now) =
    serviceReason (serviceState (service_checks rows workspace service) maintenance now).
Proof. rewrite next_service_decides. split; [done|]. by destruct (serviceState _ _ _). Qed.

(** ** What the batch leaves alone *)

(** The part of the database the service statements read and write. *)
Definition service_view (db : telemetry_db) :=
  (check_latest db, state_events db, event_queue db, queue_next db, service_latest db).
Definition frame {A} (view : telemetry_db -> A) (f : telemetry_db -> telemetry_db) : Prop :=
  forall db, view (f db) = view db.

Lemma fold_frame {A} (view : telemetry_db -> A) fs db :
  Forall (frame view) fs -> view (fold_left (fun db f => f db) fs db) = view db.
Proof.
  intros H. revert db. induction H as [|f fs Hf _ IH]; intros db; [done|]. cbn [fold_left]. by rewrite IH, Hf.
Qed.

Lemma closed_rollups_frame config minute result db c :
  prepareClosedRollups config minute result db = Ok c -> Forall (frame service_view) (cr_statements c).
Proof.
  unfold prepareClosedRollups. rewrite reportSlot_value. cbn [rbind].
  destruct (negb _); [intros [= <-]; constructor|].
  destruct (negb _); intros [= <-]; repeat constructor.
Qed.

Lemma insert_event_latest e db : check_latest (insert_event e db) = check_latest db.
Proof. unfold insert_event. destruct e as [e|]; [|done]. by destruct (insert_or_ignore _ _ _). Qed.

Lemma service_statements_latest config at_ id : Forall (frame check_latest) (prepareServiceStateStatements config at_ id).
Proof.
  repeat constructor; intros db.
  - apply insert_event_latest.
  - unfold service_follow_statement. by case_match.
  - unfold service_init_statement. by case_match.
Qed.

Lemma prepareCheckBlockWrite_ok w t : exists r, prepareCheckBlockWrite w t = Ok r.
Proof. unfold prepareCheckBlockWrite. rewrite reportSlot_value. by eexists. Qed.

Lemma prepareClosedRollups_ok config minute result db : exists c, prepareClosedRollups config minute result db = Ok c.
Proof.
  unfold prepareClosedRollups. rewrite reportSlot_value. cbn [rbind].
  destruct (negb _); [by eexists|]. destruct (negb _); by eexists.
Qed.

Section PersistProofs.
Context `{WC : WebCrypto}.

Lemma frame_latest fs : Forall (frame service_view) fs -> Forall (frame check_latest) fs.
Proof.
  intros H. eapply Forall_impl; [exact H|]. intros f Hf db. specialize (Hf db). unfold service_view in Hf.
  by injection Hf.
Qed.

(** The batch, statement by statement. *)
Lemma prepare_result_run config minute at_ result read read' batch :
  prepare_result config minute at_ result read read' = Ok (Some batch) ->
  let id := executionId (cc_id config) (cc_config_revision config) minute in
  let row := latest_row config (previous_latest config read) minute at_ result in
  exists closed status, Forall (frame service_view) closed /\ Forall (frame service_view) status /\
  forall db, exists blocks, batch db =
    Ok (fold_left (fun db f => f db) status
         (fold_left (fun db f => f db) (prepareServiceStateStatements config at_ id)
           (fold_left (fun db f => f db) closed
             (with_latest (latest_statement row (check_latest db)) (with_blocks blocks db))))).
Proof.
  unfold prepare_result. cbv zeta. intros H.
  destruct (match previous_latest config read with Some _ => _ | None => _ end); [discriminate|].
  apply rbind_ok in H as (c & Hc & H). injection H as <-.
  exists (cr_statements c).
  exists (match cr_fiveMinute c with
          | None => []
          | Some r => [(fun db => with_buckets (prepareStatusBucket config minute r (status_buckets db)) db)] end).
  split; [by eapply closed_rollups_frame|]. split; [destruct (cr_fiveMinute c); repeat constructor|].
  intros db. set (w := BlockWrite _ _ _ _ _). destruct (prepareCheckBlockWrite_ok w (check_blocks db)) as (blocks & Hb).
  exists blocks. rewrite Hb. cbn [rbind]. f_equal. rewrite !fold_left_app. done.
Qed.

Lemma batch_latest config minute at_ result read read' batch db db' :
  prepare_result config minute at_ result read read' = Ok (Some batch) -> batch db = Ok db' ->
  check_latest db' =
    (latest_statement (latest_row config (previous_latest config read) minute at_ result) (check_latest db)).1.
Proof.
  intros Hp Hb. destruct (prepare_result_run _ _ _ _ _ _ _ Hp) as (closed & status & Hc & Hs & Hrun).
  cbv zeta in Hrun. destruct (Hrun db) as (blocks & Hr). rewrite Hr in Hb. apply Ok_inj in Hb as <-.
  rewrite (fold_frame check_latest status) by (by apply frame_latest).
  rewrite (fold_frame check_latest (prepareServiceStateStatements _ _ _)) by apply service_statements_latest.
  rewrite (fold_frame check_latest closed) by (by apply frame_latest).
  done.
Qed.

(** Whatever the batch's reads saw and whatever ran in between, a batch never takes a check's
    latest row backwards: afterwards every check still has its row, of the same workspace, and
    its (configuration revision, observation time) is no smaller than before, so a result of an
    older configuration, or a late one, never overwrites a newer one. *)
Theorem check_latest_monotone config minute at_ result read read' batch db db'
  (Hp : prepare_result config minute at_ result read read' = Ok (Some batch)) (Hb : batch db = Ok db')
  (k : Z) (old : check_latest_row) (Hold : find_key latest_key k (check_latest db) = Some old) :
  exists new, find_key latest_key k (check_latest db') = Some new /\ cl_workspace new = cl_workspace old /\
    (cl_revision old < cl_revision new \/
     (cl_revision old = cl_revision new /\ cl_observed old <= cl_observed new)).
Proof.
  rewrite (batch_latest _ _ _ _ _ _ _ _ _ Hp Hb). unfold latest_statement.
  rewrite find_key_upsert by done. rewrite Hold. case_bool_decide; [|exists old; split_and!; try done; right; split; [done | lia]].
  eexists. split; [done|]. destruct (latest_guard _ _) eqn:G; [|split; [done|]; right; split; [done | lia]].
  unfold latest_guard in G. apply andb_true_iff in G as [Gw G]. apply orb_true_iff in G as [G|G]; bool_hyps.
  - split; [by symmetry | by left].
  - split; [by symmetry|]. right. split; [by symmetry | done].
Qed.

Lemma find_key_filter_workspace config db r : keys_unique latest_key (check_latest db) ->
  find_key latest_key (cc_telemetry_pk config) (check_latest db) = Some r ->
  previous_latest config db = if cl_workspace r =? cc_workspace_telemetry_pk config then Some r else None.
Proof.
  unfold previous_latest, find_key, keys_unique. induction (check_latest db) as [|x l IH]; [done|].
  cbn. intros Hnd. apply NoDup_cons in Hnd as [Hni Hnd]. unfold key_is at 1. unfold latest_key at 1.
  case_bool_decide as E.
  - intros [= ->]. rewrite E, Z.eqb_refl, andb_true_r. destruct (_ =? _); [done|].
    assert (Hno : forall y, y ∈ l -> cl_check y <> cc_telemetry_pk config).
    { intros y Hy Hk. apply Hni. rewrite <- E in Hk. unfold latest_key. rewrite <- Hk. by apply list_elem_of_fmap_2. }
    clear -Hno. induction l as [|y l IH]; [done|]. cbn.
    rewrite (proj2 (Z.eqb_neq (cl_check y) _)), andb_false_r by (apply Hno; by left).
    apply IH. intros z Hz. apply Hno. by right.
  - intros Hf. rewrite (proj2 (Z.eqb_neq _ _) E), andb_false_r. by apply IH.
Qed.

(** C25: recording is total and idempotent: [persistCheckResult] always completes, and running the
    same execution (check, revision, minute) again, whatever its second outcome and clock,
    changes nothing; so a retried or doubled execution counts once in the counters, rollups,
    events and buckets. The check's stored row, if any, must be its workspace's own and not
    observed in the future. *)
Theorem persistCheckResult_idempotent config minute at_ result db
  (Hu : keys_unique latest_key (check_latest db))
  (Hown : forall r, find_key latest_key (cc_telemetry_pk config) (check_latest db) = Some r ->
     cl_workspace r = cc_workspace_telemetry_pk config /\
     (cl_revision r = cc_config_revision config -> cl_observed r <= at_)) :
  exists db', persistCheckResult config minute at_ result db = Ok db' /\
    forall at2 result2, persistCheckResult config minute at2 result2 db' = Ok db'.
Proof.
  unfold persistCheckResult at 1. destruct (prepare_result config minute at_ result db db) as [[batch|]|e] eqn:Ep; cbn [rbind].
  - destruct (prepare_result_run _ _ _ _ _ _ _ Ep) as (closed & status & _ & _ & Hrun).
    destruct (Hrun db) as (blocks & Hr). eexists. split; [exact Hr|]. intros at2 result2.
    pose proof (batch_latest _ _ _ _ _ _ _ _ _ Ep Hr) as Hl. clear Hrun Hr.
    set (db' := fold_left _ _ _) in *. set (row := latest_row _ _ _ _ _) in *.
    assert (Hu' : keys_unique latest_key (check_latest db')) by (rewrite Hl; by apply upsert_unique).
    assert (Hfind : exists r, find_key latest_key (cc_telemetry_pk config) (check_latest db') = Some r /\
      cl_workspace r = cc_workspace_telemetry_pk config /\
      cl_result r = executionId (cc_id config) (cc_config_revision config) minute).
    { rewrite Hl. unfold latest_statement. rewrite find_key_upsert by done.
      rewrite bool_decide_eq_true_2 by done.
      destruct (find_key latest_key (cc_telemetry_pk config) (check_latest db)) as [old|] eqn:Eo; [|by exists row].
      destruct (Hown old eq_refl) as [Hw Hobs]. pose proof (find_key_filter_workspace _ _ _ Hu Eo) as Hprev.
      rewrite Hw, Z.eqb_refl in Hprev. unfold prepare_result in Ep. rewrite Hprev in Ep.
      destruct (_ || _) eqn:G in Ep; [discriminate|]. bool_hyps.
      eexists. split; [done|]. unfold latest_guard. cbn [row latest_row cl_workspace cl_revision cl_observed].
      rewrite Hw, Z.eqb_refl. cbn [andb]. destruct (decide (cl_revision old = cc_config_revision config)) as [E|E].
      - rewrite E, Z.eqb_refl, (proj2 (Z.leb_le _ _)) by auto. rewrite orb_true_r. done.
      - rewrite (proj2 (Z.ltb_lt _ _)) by lia. done. }
    destruct Hfind as (r & Hr & Hw & Hid). unfold persistCheckResult, prepare_result.
    rewrite (find_key_filter_workspace _ _ _ Hu' Hr), Hw, Z.eqb_refl, Hid, bool_decide_eq_true_2, orb_true_r by done.
    done.
  - exists db. split; [done|]. intros at2 result2. unfold persistCheckResult, prepare_result in *.
    destruct (match previous_latest config db with Some _ => _ | None => _ end); [done|].
    apply rbind_ok in Ep as (c & _ & Ep). discriminate.
  - exfalso. unfold prepare_result in Ep. destruct (match previous_latest config db with Some _ => _ | None => _ end); [discriminate|].
    destruct (prepareClosedRollups_ok config minute result db) as (c & Hc). rewrite Hc in Ep. discriminate.
Qed.

(** ** The service row follows the checks *)

(** What the three service statements do, on the view they read. *)
Lemma service_statements_spec config at_ id db :
  keys_unique service_key (service_latest db) ->
  current_result config id db = true ->
  (forall e, find_key event_key (2, cc_service_telemetry_pk config, at_, id) (state_events db) <> Some e) ->
  (forall r, find_key service_key (cc_service_telemetry_pk config) (service_latest db) = Some r ->
     sl_workspace r = cc_workspace_telemetry_pk config) ->
  let db' := fold_left (fun db f => f db) (prepareServiceStateStatements config at_ id) db in
  let old := find_key service_key (cc_service_telemetry_pk config) (service_latest db) in
  let previous := coalesce (sl_state <$> old) "unknown" in
  let next := next_service (check_latest db) (cc_workspace_telemetry_pk config)
                (cc_service_telemetry_pk config) (cc_service_maintenance_until config) at_ in
  let changed := negb (String.eqb previous (state_name next)) in
  (exists r, find_key service_key (cc_service_telemetry_pk config) (service_latest db') = Some r /\
     sl_state r = state_name next /\ sl_workspace r = cc_workspace_telemetry_pk config /\
     (changed = false -> old = None \/ old = Some r)) /\
  state_events db' = (state_events db ++ (if changed then
    [StateEvent (cc_workspace_telemetry_pk config) 2 (cc_service_telemetry_pk config) at_ id previous
       (state_name next) (serviceReasonSql next)] else []))%list /\
  event_queue db' = (event_queue db ++ (if changed then
    [QueueRow (queue_next db) (cc_workspace_telemetry_pk config) 2 (cc_service_telemetry_pk config) at_ id] else []))%list.
Proof.
  intros Hus Hcur Hfresh Hws. cbv zeta.
  set (svc := cc_service_telemetry_pk config) in *. set (ws := cc_workspace_telemetry_pk config) in *.
  set (next := next_service _ _ _ _ _). set (old := find_key service_key svc (service_latest db)) in *.
  (* the lookups by workspace and key agree *)
  assert (Hprev : List.find (fun r => (sl_workspace r =? ws) && (sl_service r =? svc)) (service_latest db) = old /\
    existsb (fun r => (sl_service r =? svc) && negb (sl_workspace r =? ws)) (service_latest db) = false).
  { assert (Hall : forall r, r ∈ service_latest db -> sl_service r = svc -> sl_workspace r = ws).
    { intros r Hr Hk. apply Hws. by apply find_key_unique. }
    unfold old, find_key. clear -Hall. induction (service_latest db) as [|r l IH]; [done|]. cbn.
    unfold key_is at 1. unfold service_key at 1. case_bool_decide as E.
    - rewrite E, (Hall r ltac:(by left) E), !Z.eqb_refl. cbn. split; [done|].
      apply existsb_false_elem. intros x Hx. destruct (sl_service x =? svc) eqn:Ex; [|done]. bool_hyps.
      rewrite (Hall x ltac:(by right) Ex), Z.eqb_refl. done.
    - rewrite (proj2 (Z.eqb_neq _ _) E), andb_false_r. cbn. apply IH. intros x Hx. apply Hall. by right. }
  destruct Hprev as [Hprev Hforeign].
  assert (Hno : has_key event_key (2, svc, at_, id) (state_events db) = false).
  { apply find_key_None. destruct (find_key event_key _ _) as [e|] eqn:E; [|done]. by destruct (Hfresh e). }
  assert (Hthe : forall l, has_key event_key (2, svc, at_, id) l = false -> List.find (the_event config at_ id) l = None).
  { intros l Hl. destruct (List.find _ l) as [e|] eqn:E; [|done]. apply List.find_some in E as [Hin He].
    unfold the_event in He. bool_hyps. exfalso.
    assert (has_key event_key (2, svc, at_, id) l = true); [|congruence].
    apply has_key_elem. apply list_elem_of_fmap. exists e. split; [|by apply list_elem_of_In].
    unfold event_key. by rewrite H3, H2, H1, H0. }
  assert (H1 : service_event_statement config at_ id db = insert_event
    (if negb (String.eqb (coalesce (sl_state <$> old) "unknown") (state_name next))
     then Some (StateEvent ws 2 svc at_ id (coalesce (sl_state <$> old) "unknown") (state_name next)
       (serviceReasonSql next)) else None) db).
  { unfold service_event_statement. cbv zeta. fold svc ws next. by rewrite Hprev, Hcur, Hforeign. }
  cbn [prepareServiceStateStatements fold_left]. rewrite H1. clear H1.
  destruct (String.eqb (coalesce (sl_state <$> old) "unknown") (state_name next)) eqn:Esame; cbn [negb].
  - (* no transition *)
    set (db1 := insert_event None db).
    change (service_follow_statement config at_ id db1) with (with_service (service_latest db, 0) db1).
    set (fresh := ServiceLatest svc ws "unknown" at_ "check_unknown" at_ at_).
    assert (H3 : service_init_statement config at_ id (with_service (service_latest db, 0) db1) =
      with_service (insert_or_ignore service_key fresh (service_latest db)) (with_service (service_latest db, 0) db1)).
    { unfold service_init_statement. change (current_result config id (with_service _ _)) with (current_result config id db).
      rewrite Hcur. change (state_events (with_service _ _)) with (state_events db).
      assert (existsb (the_event config at_ id) (state_events db) = false) as ->; [|done].
      apply existsb_false_elem. intros e He. destruct (the_event config at_ id e) eqn:Ee; [|done].
      pose proof (Hthe _ Hno) as Hf. eapply List.find_none in Hf; [|by apply list_elem_of_In]. congruence. }
    rewrite H3. rewrite !app_nil_r. split; [|done]. cbn [with_service service_latest].
    rewrite find_key_insert_or_ignore. fold old. apply String.eqb_eq in Esame.
    destruct old as [r|] eqn:Eo; cbn in Esame.
    + exists r. split_and!; try done; [by apply Hws | intros _; by right].
    + unfold key_is. change (service_key fresh) with svc. rewrite bool_decide_eq_true_2 by done.
      exists fresh. split_and!; try done. by left.
  - (* a transition *)
    set (e := StateEvent ws 2 svc at_ id _ _ _). set (db1 := insert_event (Some e) db).
    assert (Hdb1 : db_changes db1 = 1 /\ state_events db1 = (state_events db ++ [e])%list /\
      event_queue db1 = (event_queue db ++ [QueueRow (queue_next db) ws 2 svc at_ id])%list /\
      service_latest db1 = service_latest db).
    { unfold db1, insert_event, insert_or_ignore. change (event_key e) with (2, svc, at_, id). by rewrite Hno. }
    destruct Hdb1 as (Hch & Hev & Hq & Hsl).
    set (row := ServiceLatest svc ws (state_name next) at_ (serviceReasonSql next) at_ at_).
    assert (H2 : service_follow_statement config at_ id db1 = with_service (set_service row (service_latest db)) db1).
    { unfold service_follow_statement. rewrite Hch, Hev, Hsl. cbn [Z.eqb Pos.eqb].
      assert (List.find (the_event config at_ id) (state_events db ++ [e])%list = Some e) as ->; [|done].
      assert (Hnone := Hthe _ Hno). clear -Hnone. induction (state_events db) as [|x l IH]; cbn.
      - unfold the_event, e. cbn. unfold ws, svc. by rewrite !Z.eqb_refl, bool_decide_eq_true_2.
      - cbn in Hnone. destruct (the_event config at_ id x); [done|]. by apply IH. }
    rewrite H2. clear H2. set (db2 := with_service _ db1).
    assert (H3 : service_init_statement config at_ id db2 = with_service (service_latest db2, 0) db2).
    { unfold service_init_statement. change (state_events db2) with (state_events db1). rewrite Hev.
      assert (existsb (the_event config at_ id) (state_events db ++ [e])%list = true) as ->; [|by rewrite andb_false_r].
      apply existsb_exists_elem. exists e. split; [apply elem_of_app; right; by left|].
      unfold the_event, e. cbn. unfold ws, svc. by rewrite !Z.eqb_refl, bool_decide_eq_true_2. }
    rewrite H3. clear H3. split; [|done].
    change (service_latest (with_service _ db2)) with (set_service row (service_latest db)).1.
    unfold set_service. rewrite find_key_upsert by done.
    change (service_key row) with svc. rewrite bool_decide_eq_true_2 by done. fold old.
    destruct old as [r|] eqn:Eo.
    + cbn [sl_workspace row]. rewrite (Hws r eq_refl), Z.eqb_refl. eexists. split; [done|]. by split_and!.
    + exists row. by split_and!.
Qed.

(** A service's row, the event log and the notification queue follow its checks. When the
    batch records the result, then afterwards the service's row shows exactly [serviceState]
    of the checks as stored (worst critical check, maintenance window included), and one
    event from the old to the new state, with its queue entry, is appended exactly when the
    state changed; nothing else is appended. (The service's row, if any, is its workspace's own
    and no event carries this execution's key yet.) *)
Theorem batch_service_follows_checks config minute at_ result read read' batch db db'
  (Hp : prepare_result config minute at_ result read read' = Ok (Some batch)) (Hb : batch db = Ok db')
  (Hus : keys_unique service_key (service_latest db))
  (Hrec : current_result config (executionId (cc_id config) (cc_config_revision config) minute) db' = true)
  (Hfresh : find_key event_key (2, cc_service_telemetry_pk config, at_,
     executionId (cc_id config) (cc_config_revision config) minute) (state_events db) = None)
  (Hws : forall r, find_key service_key (cc_service_telemetry_pk config) (service_latest db) = Some r ->
     sl_workspace r = cc_workspace_telemetry_pk config) :
  let svc := cc_service_telemetry_pk config in let ws := cc_workspace_telemetry_pk config in
  let id := executionId (cc_id config) (cc_config_revision config) minute in
  let previous := coalesce (sl_state <$> find_key service_key svc (service_latest db)) "unknown" in
  let next := serviceState (service_checks (check_latest db') ws svc) (cc_service_maintenance_until config) at_ in
  let changed := negb (String.eqb previous (state_name next)) in
  (exists r, find_key service_key svc (service_latest db') = Some r /\ sl_state r = state_name next /\
     sl_workspace r = ws) /\
  state_events db' = (state_events db ++ (if changed then
    [StateEvent ws 2 svc at_ id previous (state_name next) (serviceReason next)] else []))%list /\
  event_queue db' = (event_queue db ++ (if changed then [QueueRow (queue_next db) ws 2 svc at_ id] else []))%list.
Proof.
  pose proof (batch_latest _ _ _ _ _ _ _ _ _ Hp Hb) as Hl.
  destruct (prepare_result_run _ _ _ _ _ _ _ Hp) as (closed & status & Hc & Hs & Hrun). cbv zeta in Hrun.
  destruct (Hrun db) as (blocks & Hr). rewrite Hr in Hb. clear Hrun Hr. apply Ok_inj in Hb.
  set (id := executionId _ _ _) in *. set (row := latest_row _ _ _ _ _) in *.
  set (db1 := fold_left _ closed _) in *.
  assert (Hv1 : service_view db1 =
    ((latest_statement row (check_latest db)).1, state_events db, event_queue db, queue_next db, service_latest db))
    by (unfold db1; by rewrite fold_frame).
  set (db2 := fold_left _ (prepareServiceStateStatements config at_ id) db1) in *.
  assert (Hv2 : service_view db' = service_view db2) by (rewrite <- Hb; by apply fold_frame).
  unfold service_view in Hv1, Hv2. apply (inj2 pair) in Hv1 as [Hv1 V5]. apply (inj2 pair) in Hv1 as [Hv1 V4].
  apply (inj2 pair) in Hv1 as [Hv1 V3]. apply (inj2 pair) in Hv1 as [V1 V2].
  apply (inj2 pair) in Hv2 as [Hv2 W5]. apply (inj2 pair) in Hv2 as [Hv2 _].
  apply (inj2 pair) in Hv2 as [Hv2 W3]. apply (inj2 pair) in Hv2 as [_ W2].
  assert (Hcur : current_result config id db1 = true) by (unfold current_result in *; by rewrite V1, <- Hl).
  pose proof (service_statements_spec config at_ id db1) as Hspec. cbv zeta in Hspec. fold db2 in Hspec.
  rewrite V1, V2, V3, V4, V5, <- Hl in Hspec.
  destruct Hspec as ((r & Hr1 & Hr2 & Hr3 & _) & He & Hq); [done | done | by rewrite Hfresh | done |].
  rewrite next_service_decides in *. cbv zeta. rewrite W2, W3, W5. split; [by exists r|].
  split; [|exact Hq]. rewrite He. by destruct (serviceState _ _ _).
Qed.
End PersistProofs.

(** ** Runs of results through the confirmation window *)

Definition confirmed_state (c : ConfirmedResult) : ConfirmationState :=
  Confirmation (cf_state c) (cf_failureCode c) (cf_failureSummary c) (cf_consecutiveFailures c)
    (cf_consecutiveSuccesses c).
Definition window_step (config : CheckConfigRow) (previous : ConfirmationState) (r : ExecutedCheck)
  : ConfirmationState := confirmed_state (applyConfirmationWindow config (Some previous) r).
Definition window_run (config : CheckConfigRow) (previous : ConfirmationState) (rs : list ExecutedCheck)
  : ConfirmationState := fold_left (window_step config) rs previous.

Definition failing (s : CheckState) : bool := bool_decide (s = CDown) || bool_decide (s = CDegraded).

Lemma window_step_failing config p r : ex_state r <> Healthy ->
  cs_consecutive_failures (window_step config p r) = cs_consecutive_failures p + 1 /\
  cs_consecutive_successes (window_step config p r) = 0 /\
  (if failing (cs_state p) || (cc_failure_confirmations config <=? cs_consecutive_failures p + 1)
   then failing (cs_state (window_step config p r)) = true
   else cs_state (window_step config p r) = cs_state p).
Proof.
  intros Hr. unfold window_step, applyConfirmationWindow, failing. rewrite bool_decide_eq_false_2 by done.
  cbn. split; [done|]. split; [done|].
  destruct (cs_state p), (ex_state r), (cc_failure_confirmations config <=? cs_consecutive_failures p + 1);
    cbn; done.
Qed.

Lemma window_step_healthy config p r : ex_state r = Healthy ->
  cs_consecutive_failures (window_step config p r) = 0 /\
  cs_consecutive_successes (window_step config p r) = cs_consecutive_successes p + 1 /\
  cs_state (window_step config p r) =
    if bool_decide (cs_state p = CHealthy) || (cc_recovery_confirmations config <=? cs_consecutive_successes p + 1)
    then CHealthy else cs_state p.
Proof.
  intros Hr. unfold window_step, applyConfirmationWindow. rewrite bool_decide_eq_true_2 by done. cbn.
  split; [done|]. split; [done|]. destruct (bool_decide (cs_state p = CHealthy)), (_ <=? _); cbn; try done;
    destruct (cs_state p); done.
Qed.

Lemma window_run_failing config rs p : Forall (fun r => ex_state r <> Healthy) rs ->
  cs_consecutive_failures (window_run config p rs) = cs_consecutive_failures p + Z.of_nat (length rs) /\
  (failing (cs_state p) = true -> failing (cs_state (window_run config p rs)) = true) /\
  (failing (cs_state p) = false -> cs_consecutive_failures p < cc_failure_confirmations config ->
     if cc_failure_confirmations config <=? cs_consecutive_failures p + Z.of_nat (length rs)
     then failing (cs_state (window_run config p rs)) = true
     else cs_state (window_run config p rs) = cs_state p).
Proof.
  unfold window_run. intros H. revert p. induction H as [|r rs Hr _ IH]; intros p; cbn [fold_left length].
  - rewrite Z.add_0_r. split; [done|]. split; [done|]. intros _ Hlt. by rewrite (proj2 (Z.leb_gt _ _)) by lia.
  - destruct (window_step_failing config p r Hr) as (Hf & _ & Hs). destruct (IH (window_step config p r)) as (I1 & I2 & I3).
    rewrite I1, Hf. split; [lia|]. split.
    + intros Hp. rewrite Hp in Hs. cbn in Hs. by apply I2.
    + intros Hp Hlt. rewrite Hp in Hs. cbn [orb] in Hs. rewrite Hf in I3. destruct (_ <=? _) eqn:E in Hs; bool_hyps.
      * rewrite (proj2 (Z.leb_le _ _)) by lia. by apply I2.
      * rewrite Hs in I3. specialize (I3 Hp ltac:(lia)). rewrite <- Z.add_assoc in I3.
        replace (1 + Z.of_nat (length rs)) with (Z.of_nat (S (length rs))) in I3 by lia. exact I3.
Qed.

Lemma window_run_healthy config rs p : Forall (fun r => ex_state r = Healthy) rs ->
  cs_consecutive_successes (window_run config p rs) = cs_consecutive_successes p + Z.of_nat (length rs) /\
  (cs_state p = CHealthy -> cs_state (window_run config p rs) = CHealthy) /\
  (cs_consecutive_successes p < cc_recovery_confirmations config ->
     cs_state (window_run config p rs) =
       if cc_recovery_confirmations config <=? cs_consecutive_successes p + Z.of_nat (length rs)
       then CHealthy else cs_state p).
Proof.
  unfold window_run. intros H. revert p. induction H as [|r rs Hr _ IH]; intros p; cbn [fold_left length].
  - rewrite Z.add_0_r. split; [done|]. split; [done|]. intros Hlt. by rewrite (proj2 (Z.leb_gt _ _)) by lia.
  - destruct (window_step_healthy config p r Hr) as (_ & Hf & Hs). destruct (IH (window_step config p r)) as (I1 & I2 & I3).
    rewrite I1, Hf. split; [lia|]. split.
    + intros Hp. apply I2. rewrite Hs, Hp. done.
    + intros Hlt. rewrite Hf, Hs in *. destruct (cc_recovery_confirmations config <=? cs_consecutive_successes p + 1) eqn:E; bool_hyps.
      * rewrite (proj2 (Z.leb_le _ _)) by lia. rewrite orb_true_r in I2. by apply I2.
      * rewrite orb_false_r in *. rewrite I3 by lia. rewrite <- Z.add_assoc.
        replace (1 + Z.of_nat (length rs)) with (Z.of_nat (S (length rs))) by lia.
        repeat case_match; bool_hyps; congruence || lia.
Qed.

(** The confirmation window debounces exactly as configured. From a confirmed healthy check, a run
    of failing results keeps it healthy while shorter than [failure_confirmations] and makes
    it fail from then on; from a failed check, a run of healthy results keeps its state while
    shorter than [recovery_confirmations] and makes it healthy from then on; the counters are
    the lengths of the runs; and a degraded result never lifts a check that is down. *)
Theorem confirmation_window_debounces config p rs :
  (Forall (fun r => ex_state r <> Healthy) rs -> cs_state p = CHealthy -> cs_consecutive_failures p = 0 ->
     1 <= cc_failure_confirmations config ->
     cs_consecutive_failures (window_run config p rs) = Z.of_nat (length rs) /\
     (Z.of_nat (length rs) < cc_failure_confirmations config -> cs_state (window_run config p rs) = CHealthy) /\
     (cc_failure_confirmations config <= Z.of_nat (length rs) -> failing (cs_state (window_run config p rs)) = true)) /\
  (Forall (fun r => ex_state r = Healthy) rs -> failing (cs_state p) = true -> cs_consecutive_successes p = 0 ->
     1 <= cc_recovery_confirmations config ->
     cs_consecutive_successes (window_run config p rs) = Z.of_nat (length rs) /\
     cs_state (window_run config p rs) =
       if cc_recovery_confirmations config <=? Z.of_nat (length rs) then CHealthy else cs_state p) /\
  (forall r, cs_state p = CDown -> ex_state r = Degraded -> cs_state (window_step config p r) = CDown).
Proof.
  split_and!.
  - intros Hrs Hp Hf Hn. destruct (window_run_failing config rs p Hrs) as (I1 & _ & I3).
    rewrite I1. rewrite Hf, Hp, Z.add_0_l in *. specialize (I3 eq_refl ltac:(lia)). split; [done|].
    destruct (_ <=? _) eqn:E in I3; bool_hyps; split; intros; done || lia.
  - intros Hrs Hp Hf Hn. destruct (window_run_healthy config rs p Hrs) as (I1 & _ & I3).
    rewrite I1. rewrite Hf, Z.add_0_l in *. split; [done|]. apply I3. lia.
  - intros r Hp Hr. unfold window_step, applyConfirmationWindow. rewrite bool_decide_eq_false_2 by congruence.
    cbn. rewrite Hp, Hr. done.
Qed.

(** ** Stored results and rollups *)

Lemma exec_name_parse s : (if String.eqb (exec_name s) "healthy" then Some Healthy
  else if String.eqb (exec_name s) "degraded" then Some Degraded
  else if String.eqb (exec_name s) "down" then Some Down else None) = Some s.
Proof. by destruct s. Qed.

(** A result of the executors: a latency is a non-negative safe integer. *)
Definition result_ok (r : ExecutedCheck) : Prop :=
  match ex_latencyMs r with Some l => 0 <= l <= max_safe | None => True end.

Lemma parse_payload config id at_ r : result_ok r -> safe_z (cc_config_revision config) = true ->
  safe_z at_ = true -> parseStoredResult (Some (result_payload config id at_ r)) = Some r.
Proof.
  intros Hr Hrev Hat. unfold parseStoredResult, result_payload. rewrite decode_encode_utf8.
  assert (Hl : match ex_latencyMs r with Some l => safe_z l = true | None => True end).
  { unfold result_ok, safe_z in *. destruct (ex_latencyMs r) as [l|]; [|done]. apply andb_true_iff.
    rewrite !Z.leb_le. unfold max_safe in *. lia. }
  rewrite json_parse_stringify; cycle 1.
  { cbn [jout_ok]. split; [apply (bool_decide_unpack _); by vm_compute|]. cbn [foldr snd jout_ok].
    destruct (ex_latencyMs r), (ex_failureCode r), (ex_failureSummary r); cbn; tauto. }
  cbn [json_of map fst snd]. cbn [obj_get String.eqb Ascii.eqb Bool.eqb is_str].
  rewrite exec_name_parse. destruct r as [s l c f]. cbn [ex_state ex_latencyMs ex_failureCode ex_failureSummary] in *.
  f_equal. f_equal.
  - destruct l as [l|]; [|done]. cbn. by rewrite num_of_Z_int.
  - by destruct c.
  - by destruct f.
Qed.

(** A stored result reads back as it was: the payload [persistCheckResult] writes into a block
    is parsed by the rollup code to the same state, latency, failure code and summary. *)
Theorem stored_result_roundtrip config id at_ r (Hr : result_ok r)
  (Hrev : safe_z (cc_config_revision config) = true) (Hat : safe_z at_ = true) :
  parseStoredResult (Some (result_payload config id at_ r)) = Some r.
Proof. by apply parse_payload. Qed.

(** The state counts always add up, and the average lies within what was measured. *)
Record rollup_ok (r : CheckRollup) : Prop := {
  rok_counts : healthyCount r + degradedCount r + downCount r = totalCount r;
  rok_nonneg : 0 <= healthyCount r /\ 0 <= degradedCount r /\ 0 <= downCount r;
  rok_latency : 0 <= latencyCount r <= totalCount r;
  rok_max : match latencyMaxMs r with
            | Some m => 0 <= m /\ 0 <= latencyTotalMs r <= m * latencyCount r
            | None => latencyCount r = 0 /\ latencyTotalMs r = 0
            end;
}.

Lemma addResult_ok r x : rollup_ok r -> result_ok x ->
  rollup_ok (addResult r x) /\ totalCount (addResult r x) = totalCount r + 1.
Proof.
  intros [H1 H2 H3 H4] Hx. unfold result_ok in Hx. unfold addResult.
  assert (Hs : is_state (ex_state x) Healthy + is_state (ex_state x) Degraded + is_state (ex_state x) Down = 1 /\
    0 <= is_state (ex_state x) Healthy /\ 0 <= is_state (ex_state x) Degraded /\ 0 <= is_state (ex_state x) Down)
    by (by destruct (ex_state x)).
  destruct (ex_latencyMs x) as [l|]; cbn; split; try done; split; cbn; try lia.
  - destruct (latencyMaxMs r) as [m|]; cbn; [|lia]. split; [lia|]. split; [lia|]. nia.
  - exact H4.
Qed.

Lemma round_average_bounds r : rollup_ok r -> match latency_average r, latencyMaxMs r with
  | Some a, Some m => 0 <= a <= m | None, _ => latencyCount r = 0 | Some _, None => False end.
Proof.
  intros [H1 H2 H3 H4]. unfold latency_average. destruct (latencyCount r =? 0) eqn:E; bool_hyps; [done|].
  destruct (latencyMaxMs r) as [m|]; [|lia]. apply round_div_bounds; lia.
Qed.

Lemma availability_small h t : 0 <= h <= t -> 0 < t <= 5 -> availability_permille h t = round_div (1000 * h) t.
Proof.
  intros Hh Ht.
  assert (Hall : forallb (fun t => forallb (fun h => availability_permille (Z.of_nat h) (Z.of_nat t) =?
    round_div (1000 * Z.of_nat h) (Z.of_nat t)) (seq 0 (S t))) (seq 1 5) = true) by (vm_compute; reflexivity).
  rewrite forallb_forall in Hall. specialize (Hall (Z.to_nat t)). rewrite in_seq in Hall. specialize (Hall ltac:(lia)).
  rewrite forallb_forall in Hall. specialize (Hall (Z.to_nat h)). rewrite in_seq in Hall. specialize (Hall ltac:(lia)).
  rewrite !Z2Nat.id in Hall by lia. by apply Z.eqb_eq in Hall.
Qed.

(** Payloads the rollup may meet: unreadable ones are skipped. *)
Definition payload_ok (p : option (list byte)) : Prop :=
  match parseStoredResult p with Some r => result_ok r | None => True end.

Lemma five_minute_counts config bucket r db : result_ok r -> Forall payload_ok (block_payloads config bucket db) ->
  let roll := five_minute_rollup config bucket r db in
  rollup_ok roll /\
  totalCount roll = count_if (fun p => match parseStoredResult p with Some _ => true | None => false end)
                      (block_payloads config bucket db) + 1.
Proof.
  intros Hr Hp. cbv zeta. unfold five_minute_rollup. revert Hp. generalize (block_payloads config bucket db). intros l.
  set (f := fun r0 payload => match parseStoredResult payload with Some s => addResult r0 s | None => r0 end).
  assert (Hgen : forall acc, rollup_ok acc -> Forall payload_ok l -> rollup_ok (fold_left f l acc) /\
    totalCount (fold_left f l acc) = totalCount acc +
      count_if (fun p => match parseStoredResult p with Some _ => true | None => false end) l).
  { induction l as [|p l IH]; intros acc Hacc Hl; cbn [fold_left].
    - split; [done|]. unfold count_if. simpl. lia.
    - apply Forall_cons in Hl as [Hp Hl]. rewrite count_if_cons. unfold f at 2 4. unfold payload_ok in Hp.
      destruct (parseStoredResult p) as [x|]; [|destruct (IH acc Hacc Hl); split; [done | lia]].
      destruct (addResult_ok acc x Hacc Hp) as [Ha Ht]. destruct (IH _ Ha Hl) as [I1 I2]. split; [done|]. lia. }
  intros Hl. destruct (Hgen emptyRollup) as [I1 I2]; [by split; cbn; lia | done|].
  destruct (addResult_ok _ r I1 Hr) as [J1 J2]. split; [done|]. rewrite J2, I2. cbn. lia.
Qed.

Lemma bucket_fields config minute roll : rollup_ok roll -> 0 < totalCount roll <= 5 ->
  0 <= sb_availability (bucket_of config minute roll) <= 1000 /\
  sb_availability (bucket_of config minute roll) = round_div (1000 * healthyCount roll) (totalCount roll) /\
  sb_state (bucket_of config minute roll) <> SUnknown /\
  sb_summary (bucket_of config minute roll) = serviceReason (sb_state (bucket_of config minute roll)).
Proof.
  intros [H1 H2 H3 H4] Ht. unfold bucket_of. cbn [sb_availability sb_state sb_summary].
  rewrite (proj2 (Z.eqb_neq _ _)), availability_small by lia. split; [apply round_div_bounds; lia|].
  split; [done|]. split; [|done]. destruct (null_gt _ _); [done|].
  destruct (0 <? downCount roll) eqn:E1; [by destruct (_ =? _)|]. destruct (0 <? degradedCount roll) eqn:E2; [done|].
  destruct (0 <? healthyCount roll) eqn:E3; [done|]. bool_hyps. lia.
Qed.

Lemma block_payloads_length config bucket db : (length (block_payloads config bucket db) <= 4)%nat.
Proof. unfold block_payloads. destruct (List.find _ _); simpl; lia. Qed.

(** The rollup a closing block produces is exact: it counts every readable stored result of the
    block's first four slots plus the current one (so between one and five), the three state
    counts add up to the total, the average latency lies between 0 and the maximum, and the
    status bucket's availability is the exactly rounded permille of healthy results. *)
Theorem closing_rollup_exact config minute result db c roll
  (Hc : prepareClosedRollups config minute result db = Ok c) (Hroll : cr_fiveMinute c = Some roll)
  (Hr : result_ok result)
  (Hp : Forall payload_ok (block_payloads config (floorToFiveMinuteBlock minute) db)) :
  1 <= totalCount roll <= 5 /\
  totalCount roll = count_if (fun p => match parseStoredResult p with Some _ => true | None => false end)
                      (block_payloads config (floorToFiveMinuteBlock minute) db) + 1 /\
  healthyCount roll + degradedCount roll + downCount roll = totalCount roll /\
  match latency_average roll, latencyMaxMs roll with
  | Some a, Some m => 0 <= a <= m | None, _ => latencyCount roll = 0 | Some _, None => False
  end /\
  sb_availability (bucket_of config minute roll) = round_div (1000 * healthyCount roll) (totalCount roll) /\
  0 <= sb_availability (bucket_of config minute roll) <= 1000.
Proof.
  assert (Hroll' : roll = five_minute_rollup config (floorToFiveMinuteBlock minute) result db).
  { unfold prepareClosedRollups in Hc. rewrite reportSlot_value in Hc. cbn [rbind] in Hc.
    destruct (negb _) in Hc; [injection Hc as <-; discriminate|].
    destruct (negb _) in Hc; apply Ok_inj in Hc as <-; cbn [cr_fiveMinute] in Hroll; congruence. }
  destruct (five_minute_counts config _ result db Hr Hp) as [Hok Ht]. rewrite <- Hroll' in Hok, Ht.
  assert (Hbound : 1 <= totalCount roll <= 5).
  { rewrite Ht. pose proof (count_if_nonneg (fun p => match parseStoredResult p with Some _ => true | None => false end)
      (block_payloads config (floorToFiveMinuteBlock minute) db)).
    pose proof (block_payloads_length config (floorToFiveMinuteBlock minute) db) as Hlen.
    assert (forall (l : list (option (list byte))) q, count_if q l <= Z.of_nat (length l)) as Hle.
    { intros l q. unfold count_if. apply Nat2Z.inj_le. induction l as [|x l IH]; simpl; [done|]. destruct (q x); simpl; lia. }
    specialize (Hle (block_payloads config (floorToFiveMinuteBlock minute) db)
      (fun p => match parseStoredResult p with Some _ => true | None => false end)). lia. }
  destruct (bucket_fields config minute roll Hok ltac:(lia)) as (Ha & Hav & _).
  split; [done|]. split; [done|]. split; [apply Hok|]. split; [by apply round_average_bounds|]. done.
Qed.

(** ** Status buckets of several checks *)

(** A bucket row as the statement writes it: the summary says the state, which is known. *)
Definition bucket_wf (b : status_bucket) : Prop :=
  sb_summary b = serviceReason (sb_state b) /\ sb_state b <> SUnknown.
Definition put_bucket (b : status_bucket) (t : list status_bucket) : list status_bucket :=
  (bucket_statement b t).1.

Lemma null_max_comm a b : null_max a b = null_max b a.
Proof. destruct a, b; cbn; try done. by rewrite Z.max_comm. Qed.
Lemma null_max_assoc a b c : null_max a (null_max b c) = null_max (null_max a b) c.
Proof. destruct a, b, c; cbn; try done. by rewrite Z.max_assoc. Qed.

Definition same_place (a b : status_bucket) : Prop :=
  bucket_key a = bucket_key b /\ sb_workspace a = sb_workspace b.
Lemma merge_wf a b : bucket_wf a -> bucket_wf b -> bucket_wf (merge_bucket a b).
Proof.
  unfold bucket_wf. destruct a as [? ? ? ? ? s1 ? ? ? m1], b as [? ? ? ? ? s2 ? ? ? m2]. cbn. intros [-> H1] [-> H2].
  by destruct s1, s2.
Qed.
Lemma merge_comm a b : bucket_wf a -> bucket_wf b -> same_place a b -> merge_bucket a b = merge_bucket b a.
Proof.
  unfold bucket_wf, same_place, bucket_key. destruct a as [? ? ? ? ? s1 ? ? ? m1], b as [? ? ? ? ? s2 ? ? ? m2].
  cbn. intros [-> H1] [-> H2] [Hk Hw]. injection Hk as -> -> -> ->. subst. unfold merge_bucket. cbn.
  f_equal; [by destruct s1, s2 | lia | apply null_max_comm | apply null_max_comm | by destruct s1, s2].
Qed.
Lemma merge_assoc a b c : bucket_wf a -> bucket_wf b -> bucket_wf c ->
  merge_bucket a (merge_bucket b c) = merge_bucket (merge_bucket a b) c.
Proof.
  unfold bucket_wf. destruct a as [? ? ? ? ? s1 ? ? ? m1], b as [? ? ? ? ? s2 ? ? ? m2], c as [? ? ? ? ? s3 ? ? ? m3].
  cbn. intros [-> H1] [-> H2] [-> H3]. unfold merge_bucket. cbn.
  f_equal; [by destruct s1, s2, s3 | lia | apply null_max_assoc | apply null_max_assoc | by destruct s1, s2, s3].
Qed.
Lemma merge_idem a : bucket_wf a -> merge_bucket a a = a.
Proof.
  unfold bucket_wf. destruct a as [? ? ? ? ? s1 ? av mx m1]. cbn. intros [-> H1]. unfold merge_bucket. cbn.
  f_equal; [by destruct s1 | lia | | | by destruct s1].
  - destruct av; cbn; [by rewrite Z.max_id | done].
  - destruct mx; cbn; [by rewrite Z.max_id | done].
Qed.

Lemma put_lookup k b t : find_key bucket_key k (put_bucket b t) =
  if bool_decide (k = bucket_key b) then
    match find_key bucket_key k t with
    | Some old => Some (if sb_workspace old =? sb_workspace b then merge_bucket old b else old)
    | None => Some b
    end
  else find_key bucket_key k t.
Proof. unfold put_bucket. by apply find_key_upsert. Qed.

Definition table_wf (t : list status_bucket) : Prop := forall k r, find_key bucket_key k t = Some r -> bucket_wf r.
Lemma put_table_wf b t : bucket_wf b -> table_wf t -> table_wf (put_bucket b t).
Proof.
  intros Hb Ht k r. rewrite put_lookup. case_bool_decide; [|apply Ht].
  destruct (find_key bucket_key k t) as [old|] eqn:E; intros [= <-]; [|done].
  destruct (_ =? _); [|by eapply Ht]. apply merge_wf; [by eapply Ht | done].
Qed.

Lemma put_comm a b t k : bucket_wf a -> bucket_wf b -> table_wf t ->
  (bucket_key a = bucket_key b -> sb_workspace a = sb_workspace b) ->
  find_key bucket_key k (put_bucket a (put_bucket b t)) = find_key bucket_key k (put_bucket b (put_bucket a t)).
Proof.
  intros Ha Hb Ht Hw. rewrite !put_lookup.
  case_bool_decide as E1; case_bool_decide as E2; try done. subst k. specialize (Hw E2).
  destruct (find_key bucket_key (bucket_key a) t) as [old|] eqn:Eo.
  - pose proof (Ht _ _ Eo) as Hold. rewrite <- Hw. destruct (sb_workspace old =? sb_workspace a) eqn:Ew.
    + cbn. rewrite Ew. rewrite <- !merge_assoc by done. f_equal. f_equal. by apply merge_comm.
    + by rewrite Ew.
  - rewrite <- Hw, !Z.eqb_refl. f_equal. apply merge_comm; try done.
Qed.

Lemma put_obs b t t' : (forall k, find_key bucket_key k t = find_key bucket_key k t') ->
  forall k, find_key bucket_key k (put_bucket b t) = find_key bucket_key k (put_bucket b t').
Proof. intros H k. by rewrite !put_lookup, H. Qed.

Definition put_all (bs : list status_bucket) (t : list status_bucket) : list status_bucket :=
  fold_left (fun t b => put_bucket b t) bs t.
Lemma put_all_obs bs t t' : (forall k, find_key bucket_key k t = find_key bucket_key k t') ->
  forall k, find_key bucket_key k (put_all bs t) = find_key bucket_key k (put_all bs t').
Proof.
  unfold put_all. revert t t'. induction bs as [|b bs IH]; intros t t' H; [done|]. cbn. apply IH. by apply put_obs.
Qed.

(** A service's five-minute bucket does not depend on the order in which its checks close the
    block, nor on a check closing twice: for buckets as [prepareStatusBucket] writes them (one
    workspace per service), every order of the statements leaves the same stored rows, and
    repeating a statement right away changes nothing. *)
Theorem status_buckets_order_independent bs bs' t
  (Hwf : Forall bucket_wf bs) (Ht : table_wf t) (Hperm : bs ≡ₚ bs')
  (Hone : forall a b, a ∈ bs -> b ∈ bs -> bucket_key a = bucket_key b -> sb_workspace a = sb_workspace b) :
  (forall k, find_key bucket_key k (put_all bs t) = find_key bucket_key k (put_all bs' t)) /\
  (forall b k, bucket_wf b -> find_key bucket_key k (put_bucket b (put_bucket b t)) = find_key bucket_key k (put_bucket b t)).
Proof.
  split.
  - revert t Ht Hwf Hone. induction Hperm as [|x l l' Hp IH|x y l|l1 l2 l3 Hp1 IH1 Hp2 IH2]; intros t Ht Hwf Hone k.
    + done.
    + cbn. apply Forall_cons in Hwf as [Hx Hwf]. apply IH; [by apply put_table_wf | done |].
      intros a b Ha Hb. apply Hone; by right.
    + apply Forall_cons in Hwf as [Hy Hwf]. apply Forall_cons in Hwf as [Hx _]. cbn.
      apply put_all_obs. intros k'. apply put_comm; try done. apply Hone; [right; by left | by left].
    + rewrite IH1 by done. apply IH2; [done | by rewrite <- Hp1|].
      intros a b Ha Hb. apply Hone; by rewrite Hp1.
  - intros b k Hb. rewrite !put_lookup. case_bool_decide; [|done].
    destruct (find_key bucket_key k t) as [old|] eqn:Eo.
    + destruct (sb_workspace old =? sb_workspace b) eqn:Ew; [|by rewrite Ew]. cbn. rewrite Ew. f_equal.
      rewrite <- merge_assoc by (done || by eapply Ht). by rewrite merge_idem.
    + by rewrite Z.eqb_refl, merge_idem.
Qed.

(** C39: a check that runs once per block may never close one: when the interval is a multiple of five
    minutes and the phase does not fall into a block's last minute, no execution of the check,
    at any time and with any result, produces a rollup or a status bucket. *)
Theorem sparse_check_never_closes config now result db
  (Hi : cc_interval_seconds config mod 300 = 0) (Hpos : 0 < cc_interval_seconds config)
  (Hp : (cc_phase_seconds config / 60) mod 5 <> 4) :
  prepareClosedRollups config (dueSlot now (cc_interval_seconds config) (cc_phase_seconds config) * 1000) result db =
    Ok (Closed [] None).
Proof.
  unfold prepareClosedRollups. rewrite reportSlot_value. cbn [rbind].
  assert (((dueSlot now (cc_interval_seconds config) (cc_phase_seconds config) * 1000) / 60000) mod 5 =
    (cc_phase_seconds config / 60) mod 5) as ->.
  { unfold dueSlot. cbv zeta. apply Z.div_exact in Hi; [|lia]. set (q := cc_interval_seconds config / 300) in *.
    set (n := (now / 1000 - cc_phase_seconds config) / cc_interval_seconds config). rewrite Hi.
    change 60000 with (60 * 1000). rewrite Z.div_mul_cancel_r by lia.
    replace (n * (300 * q) + cc_phase_seconds config) with (cc_phase_seconds config + (n * q * 5) * 60) by ring.
    rewrite Z.div_add by lia. by rewrite Z.mod_add by lia. }
  by rewrite (proj2 (Z.eqb_neq _ _)).
Qed.

(** ** A recorded execution *)

Definition sample_config : CheckConfigRow :=
  CheckConfig "chk" 7 1 "w" 3 None 2 KHttp 300 60 5000 1 1 "{}" "{}" 1 1 0.
Definition sample_down : ExecutedCheck := Executed Down (Some 120) (Some "timeout") None.
Definition sample_up : ExecutedCheck := Executed Healthy (Some 80) None None.
Definition empty_db : telemetry_db := TelemetryDb [] [] [] [] [] [] 1 [] [] 0.
Definition db_after (m at_ : Z) (r : ExecutedCheck) (db : telemetry_db) : telemetry_db :=
  match persistCheckResult sample_config m at_ r db with Ok db' => db' | Err _ => db end.
Definition closing_minute : Z := 1700000100000 - 60000.
Definition sample_db1 : telemetry_db := db_after (closing_minute - 60000) (closing_minute - 59000) sample_up empty_db.
Definition sample_batch : telemetry_db -> res telemetry_db :=
  match prepare_result sample_config closing_minute (closing_minute + 1000) sample_down sample_db1 sample_db1 with
  | Ok (Some b) => b | _ => fun db => Ok db
  end.
Definition sample_db2 : telemetry_db := match sample_batch sample_db1 with Ok db => db | Err _ => sample_db1 end.

Lemma sample_prepared :
  prepare_result sample_config closing_minute (closing_minute + 1000) sample_down sample_db1 sample_db1 =
    Ok (Some sample_batch).
Proof.
  assert (Hs : match prepare_result sample_config closing_minute (closing_minute + 1000) sample_down sample_db1 sample_db1
    with Ok (Some _) => true | _ => false end = true) by (vm_compute; reflexivity).
  unfold sample_batch. destruct (prepare_result _ _ _ _ _ _) as [[b|]|e]; [reflexivity | discriminate Hs | discriminate Hs].
Qed.

Example check_latest_monotone_witness :
  exists old new, find_key latest_key 7 (check_latest sample_db1) = Some old /\
    find_key latest_key 7 (check_latest sample_db2) = Some new /\ cl_state old = CHealthy /\ cl_workspace new = cl_workspace old.
Proof.
  assert (Hold : exists old, find_key latest_key 7 (check_latest sample_db1) = Some old /\ cl_state old = CHealthy).
  { eexists. split; vm_compute; reflexivity. }
  destruct Hold as (old & Hold & Hs).
  pose proof sample_prepared as Hp.
  assert (Hb : sample_batch sample_db1 = Ok sample_db2) by (vm_compute; reflexivity).
  destruct (check_latest_monotone sample_config closing_minute (closing_minute + 1000) sample_down sample_db1 sample_db1
    sample_batch sample_db1 sample_db2 Hp Hb 7 old Hold) as (new & Hn & Hw & _).
  exists old, new. split; [exact Hold|]. split; [exact Hn|]. split; [exact Hs | exact Hw].
Defined.

Lemma sample_latest_unique : keys_unique latest_key (check_latest sample_db1).
Proof. apply (bool_decide_unpack _). vm_compute. exact I. Qed.

Definition sample_row : check_latest_row :=
  match check_latest sample_db1 with
  | r :: _ => r | [] => CheckLatest 0 0 None 0 CUnknown None None None 0 0 0 0 []
  end.

Lemma sample_latest : check_latest sample_db1 = [sample_row].
Proof. vm_compute. reflexivity. Qed.

Lemma sample_row_observed : cl_observed sample_row = closing_minute - 59000.
Proof. vm_compute. reflexivity. Qed.

Lemma sample_row_workspace : cl_workspace sample_row = cc_workspace_telemetry_pk sample_config.
Proof. vm_compute. reflexivity. Qed.

Lemma sample_latest_owned r : find_key latest_key (cc_telemetry_pk sample_config) (check_latest sample_db1) = Some r ->
  cl_workspace r = cc_workspace_telemetry_pk sample_config /\
  (cl_revision r = cc_config_revision sample_config -> cl_observed r <= closing_minute + 1000).
Proof.
  rewrite sample_latest. unfold find_key. cbn [find]. intros H.
  assert (r = sample_row) as -> by (revert H; match goal with |- context [if ?b then _ else _] => destruct b end; congruence). split; [exact sample_row_workspace|].
  intros _. rewrite sample_row_observed. unfold closing_minute. lia.
Qed.

Example persistCheckResult_idempotent_witness :
  exists db', persistCheckResult sample_config closing_minute (closing_minute + 1000) sample_down sample_db1 = Ok db' /\
    persistCheckResult sample_config closing_minute (closing_minute + 9000) sample_up db' = Ok db'.
Proof.
  destruct (persistCheckResult_idempotent sample_config closing_minute (closing_minute + 1000) sample_down sample_db1
    sample_latest_unique sample_latest_owned) as (db' & Hrun & Hagain).
  exists db'. exact (conj Hrun (Hagain (closing_minute + 9000) sample_up)).
Defined.

Example batch_service_follows_checks_witness :
  exists r, find_key service_key 3 (service_latest sample_db2) = Some r /\ sl_state r = "down" /\
    length (state_events sample_db2) = S (length (state_events sample_db1)).
Proof.
  pose proof sample_prepared as Hp.
  assert (Hb : sample_batch sample_db1 = Ok sample_db2) by (vm_compute; reflexivity).
  destruct (batch_service_follows_checks sample_config closing_minute (closing_minute + 1000) sample_down
    sample_db1 sample_db1 sample_batch sample_db1 sample_db2 Hp Hb) as ((r & Hr & Hs & _) & He & _).
  - apply (bool_decide_unpack _). vm_compute. exact I.
  - vm_compute. reflexivity.
  - vm_compute. reflexivity.
  - vm_compute. intros r [= <-]. reflexivity.
  - exists r. split; [exact Hr|]. split; [rewrite Hs; vm_compute; reflexivity|]. rewrite He. vm_compute. reflexivity.
Defined.

Example stored_result_roundtrip_witness :
  parseStoredResult (Some (result_payload sample_config [] 1700000000000 sample_down)) = Some sample_down.
Proof. apply stored_result_roundtrip; vm_compute; intuition congruence. Defined.

Lemma sample_closes :
  exists c roll, prepareClosedRollups sample_config closing_minute sample_down sample_db1 = Ok c /\
    cr_fiveMinute c = Some roll /\ totalCount roll = 2.
Proof.
  assert (Hs : match prepareClosedRollups sample_config closing_minute sample_down sample_db1 with
    | Ok c => match cr_fiveMinute c with Some roll => totalCount roll =? 2 | None => false end
    | Err _ => false end = true) by (vm_compute; reflexivity).
  destruct (prepareClosedRollups _ _ _ _) as [c|e]; [|discriminate Hs].
  destruct (cr_fiveMinute c) as [roll|] eqn:Er; [|discriminate Hs].
  exists c, roll. apply Z.eqb_eq in Hs. by rewrite Er.
Qed.

Example closing_rollup_exact_witness :
  exists c roll, prepareClosedRollups sample_config closing_minute sample_down sample_db1 = Ok c /\
    cr_fiveMinute c = Some roll /\ totalCount roll = 2 /\
    sb_availability (bucket_of sample_config closing_minute roll) = round_div (1000 * healthyCount roll) (totalCount roll).
Proof.
  destruct sample_closes as (c & roll & Hc & Hroll & Ht). exists c, roll. split; [exact Hc|]. split; [exact Hroll|].
  split; [exact Ht|].
  destruct (closing_rollup_exact sample_config closing_minute sample_down sample_db1 c roll Hc Hroll)
    as (_ & _ & _ & _ & Ha & _).
  - vm_compute. intuition congruence.
  - remember (block_payloads sample_config (floorToFiveMinuteBlock closing_minute) sample_db1) as ps eqn:Eps.
    vm_compute in Eps. subst ps.
    repeat (apply List.Forall_cons; [vm_compute; intuition congruence|]). apply List.Forall_nil.
  - exact Ha.
Defined.

Definition bucket_a : status_bucket := StatusBucket 2 3 1 0 300 SHealthy 1000 (Some 80) (Some 90) "check_healthy".
Definition bucket_b : status_bucket := StatusBucket 2 3 1 0 300 SDown 0 None None "check_down".
Example status_buckets_order_independent_witness :
  find_key bucket_key (2, 3, 300, 0) (put_all [bucket_a; bucket_b] []) =
    find_key bucket_key (2, 3, 300, 0) (put_all [bucket_b; bucket_a] []).
Proof.
  apply (status_buckets_order_independent [bucket_a; bucket_b] [bucket_b; bucket_a] []).
  - repeat constructor; discriminate.
  - intros k r. discriminate.
  - apply Permutation_swap.
  - intros a b Ha Hb _. repeat (apply elem_of_cons in Ha as [->|Ha]); repeat (apply elem_of_cons in Hb as [->|Hb]);
      try reflexivity; try (apply elem_of_nil in Ha; contradiction); apply elem_of_nil in Hb; contradiction.
Defined.

Example sparse_check_never_closes_witness :
  prepareClosedRollups sample_config (dueSlot 1700000000000 300 60 * 1000) sample_up sample_db1 = Ok (Closed [] None).
Proof. apply (sparse_check_never_closes sample_config); vm_compute; congruence. Defined.
