(* ===== verification/ControlTables.v ===== *)
(** * ControlTables: the rows of the control database that several workers read

    [check_configs] and [services] as the migrations under [packages/db/migrations/control]
    create them, with the columns the modelled statements use. *)

From Stdlib Require Import ZArith Bool String List.
From stdpp Require Import base tactics list strings.
From S2P Require Import Prelude.
From S2P Require Import Sql.
From S2P Require Import CheckPersistence.
Open Scope string_scope.
Open Scope Z_scope.

Inductive executor_kind := cloudflare | agent.
#[export] Instance executor_kind_eq_dec : EqDecision executor_kind. Proof. solve_decision. Defined.
#[export] Instance check_kind_eq_dec : EqDecision check_kind. Proof. solve_decision. Defined.

(** A row of [check_configs]. *)
Record check_row := CheckRow {
  ck_id : string;
  ck_pk : Z;
  ck_workspace : string;
  ck_service : string;
  ck_kind : check_kind;
  ck_executor : executor_kind;
  ck_enabled : Z;
  ck_revision : Z;
  ck_interval : Z;
  ck_phase : Z;
  ck_timeout : Z;
  ck_retry : Z;
  ck_critical : Z;
  ck_request : string;
  ck_secret_refs : string;
  ck_failure_confirmations : Z;
  ck_recovery_confirmations : Z;
  ck_last_claimed : Z;
}.
Definition check_key (c : check_row) : string := ck_id c.
Definition set_claimed (slot : Z) (c : check_row) : check_row :=
  CheckRow (ck_id c) (ck_pk c) (ck_workspace c) (ck_service c) (ck_kind c) (ck_executor c) (ck_enabled c)
    (ck_revision c) (ck_interval c) (ck_phase c) (ck_timeout c) (ck_retry c) (ck_critical c) (ck_request c)
    (ck_secret_refs c) (ck_failure_confirmations c) (ck_recovery_confirmations c) slot.

(** A row of [services]. *)
Record service_config_row := ServiceConfig {
  sc_id : string;
  sc_pk : Z;
  sc_workspace : string;
  sc_maintenance : option Z;
  sc_deleted : option Z;
}.
