(* ===== verification/JsString.v ===== *)
(** * JsString: [String(value)] on JSON values

    Number to string conversion is the language's shortest round-tripping decimal
    ([Number::toString]); arrays join their elements, objects are ["[object Object]"]. *)

From Stdlib Require Import ZArith Lia Bool String Ascii List SpecFloat.
From stdpp Require Import base tactics list strings.
From S2P Require Import Prelude.
From S2P Require Import Js.
Open Scope string_scope.
Open Scope Z_scope.

(** [String(v)]; inside an array [null] is empty. *)
Fixpoint js_string (v : json) : string :=
  match v with
  | JNull => "null"
  | JBool b => if b then "true" else "false"
  | JNum n => num_to_string n
  | JStr s => s
  | JArr l => str_join "," (map (fun x => match x with JNull => "" | _ => js_string x end) l)
  | JObj _ => "[object Object]"
  end.

Example num_to_string_samples :
  map (fun s => num_to_string (js_number s))
    ["0.1"; "1e21"; "123456789012345680000"; "-1.5"; "1e-7"; "0.000001"; "5e-324"; "1.7976931348623157e308"; "100"; "0.30000000000000004"]
  = ["0.1"; "1e+21"; "123456789012345680000"; "-1.5"; "1e-7"; "0.000001"; "5e-324"; "1.7976931348623157e+308"; "100"; "0.30000000000000004"].
Proof. vm_compute. reflexivity. Qed.
