(* ===== verification/Web.v ===== *)
(** * Web: the fetch platform's values the checks use

    [Headers] as the list of lower-case names with their combined values; URLs through the
    operations of a class, because parsing them is the platform's and not the repository's
    ([new URL(s, base)] and the properties of the result); responses as their status, headers
    and the chunks of their body.  Classifying an IP address is [ipaddr.js]'s. *)

From Stdlib Require Import ZArith Lia Bool String Ascii List.
From stdpp Require Import base tactics sets list strings.
From S2P Require Import Prelude.
From S2P Require Import Js.
Open Scope string_scope.
Open Scope Z_scope.

(** ** Headers *)

Definition headers := list (string * string).

(** A character of an HTTP token. *)
Definition is_token_char (c : ascii) : bool :=
  is_digit c || is_upper c || is_lower c ||
  existsb (fun n => N.eqb (ord c) n) [33; 35; 36; 37; 38; 39; 42; 43; 45; 46; 94; 95; 96; 124; 126]%N.
Definition header_name_ok (name : string) : bool := negb (String.eqb name "") && str_forall is_token_char name.
Definition is_http_space (c : ascii) : bool := existsb (fun n => N.eqb (ord c) n) [9; 10; 13; 32]%N.
Fixpoint trim_http_left (s : string) : string :=
  match s with String c s' => if is_http_space c then trim_http_left s' else s | EmptyString => "" end.
Definition trim_http (s : string) : string := str_rev (trim_http_left (str_rev (trim_http_left s))).
Definition header_value_ok (value : string) : bool :=
  str_forall (fun c => negb (existsb (fun n => N.eqb (ord c) n) [0; 10; 13]%N)) value.

(** [headers.append(name, value)]: same names are combined. *)
Fixpoint headers_combine (name value : string) (h : headers) : headers :=
  match h with
  | [] => [(name, value)]
  | (n, v) :: h' => if String.eqb n name then (n, v ++ ", " ++ value) :: h' else (n, v) :: headers_combine name value h'
  end.
Definition headers_append (name value : string) (h : headers) : res headers :=
  let value := trim_http value in
  throw_if negb (header_name_ok name) || negb (header_value_ok value) as "TypeError" in
  Ok (headers_combine (to_lower name) value h).
(** [new Headers(record)] *)
Fixpoint headers_of_record (l : list (string * string)) (h : headers) : res headers :=
  match l with
  | [] => Ok h
  | (name, value) :: l' => let* h' := headers_append name value h in headers_of_record l' h'
  end.
Definition new_headers (l : list (string * string)) : res headers := headers_of_record l [].
Definition headers_delete (name : string) (h : headers) : headers :=
  List.filter (fun kv => negb (String.eqb kv.1 (to_lower name))) h.
(** [headers.get(name)]: [null] is [None]; throws when [name] is not a header name. *)
Definition headers_get (name : string) (h : headers) : res (option string) :=
  throw_if negb (header_name_ok name) as "TypeError" in Ok (obj_get (to_lower name) h).

Lemma headers_delete_incl name h kv : kv ∈ headers_delete name h <-> kv ∈ h /\ kv.1 <> to_lower name.
Proof.
  unfold headers_delete. rewrite filter_In_elem, negb_true_iff. by rewrite String.eqb_neq.
Qed.

Lemma to_lower_idem s : to_lower (to_lower s) = to_lower s.
Proof.
  unfold to_lower. induction s as [|c s IH]; [done|]. cbn [str_map]. rewrite IH. f_equal.
  destruct (is_upper c) eqn:E; [|by rewrite E].
  assert (is_upper (chr (ord c + 32)) = false) as ->; [|done].
  unfold is_upper, in_range in *. apply andb_true_iff in E as [E1 E2]. apply N.leb_le in E1, E2.
  unfold ord, chr in *. rewrite N_ascii_embedding by lia. apply andb_false_iff. right. apply N.leb_gt. lia.
Qed.

(** ** URLs *)

Fixpoint str_flat_map (f : ascii -> string) (s : string) : string :=
  match s with EmptyString => "" | String c s' => f c ++ str_flat_map f s' end.
(** [encodeURIComponent] *)
Definition uri_unreserved (c : ascii) : bool :=
  is_digit c || is_upper c || is_lower c || existsb (fun n => N.eqb (ord c) n) [33; 39; 40; 41; 42; 45; 46; 95; 126]%N.
Definition upper_hex (n : N) : ascii := (if n <? 10 then chr (48 + n) else chr (55 + n))%N.
Definition encodeURIComponent (s : string) : string :=
  str_flat_map (fun c => if uri_unreserved c then String c ""
                         else String "%" (String (upper_hex (ord c / 16)) (String (upper_hex (ord c mod 16)) ""))) s.

Class UrlApi := {
  url : Type;
  (** [new URL(s)] and [new URL(s, base)]; throws a [TypeError]. *)
  url_parse : string -> option url -> res url;
  (** [url.protocol], with its colon *)
  protocol : url -> string;
  username : url -> string;
  password : url -> string;
  hostname : url -> string;
  origin : url -> string;
  (** [String(url)] *)
  href : url -> string;
  (** [ipaddr.isValid(s)], and then [ipaddr.parse(s).range()] *)
  ip_range : string -> option string;
}.

(** ** Responses *)

Record response := Response {
  rs_status : Z;
  rs_headers : headers;
  (** [response.body]: the chunks a reader gets, or that reading throws; [None] is [null] *)
  rs_body : option (list (res (list byte)));
}.

(** A concrete instance for witnesses: [scheme://host/path] with an optional base, and a few
    address literals. *)
Record toy_url := ToyUrl { tu_scheme : string; tu_host : string; tu_path : string }.
Definition toy_split (scheme rest : string) : toy_url :=
  match split_on "/" rest with
  | host :: path => ToyUrl scheme (to_lower host) ("/" ++ str_join "/" path)
  | [] => ToyUrl scheme "" "/"
  end.
Definition toy_parse (s : string) (base : option toy_url) : res toy_url :=
  if starts_with "https://" s then Ok (toy_split "https:" (str_drop 8 s))
  else if starts_with "http://" s then Ok (toy_split "http:" (str_drop 7 s))
  else match base with
       | Some b => if starts_with "/" s then Ok (ToyUrl (tu_scheme b) (tu_host b) s) else Err "TypeError"
       | None => Err "TypeError"
       end.
#[export] Instance ToyUrls : UrlApi := {|
  url := toy_url;
  url_parse := toy_parse;
  protocol := tu_scheme;
  username := fun _ => "";
  password := fun _ => "";
  hostname := tu_host;
  origin := fun u => tu_scheme u ++ "//" ++ tu_host u;
  href := fun u => tu_scheme u ++ "//" ++ tu_host u ++ tu_path u;
  ip_range := fun s => if starts_with "10." s then Some "private" else if String.eqb s "203.0.113.7" then Some "unicast" else None;
|}.
