(* ===== verification/Assertions.v ===== *)
(** * Assertions: what a check expects of a response

    Models [workers/checks/src/assertions.ts]: a structural comparison of JSON values, the
    operators, and the verdict over all assertions.  The JSONPath and RE2 engines are
    third-party: operations of a class. *)

From Stdlib Require Import ZArith Lia Bool String List SpecFloat.
From stdpp Require Import base tactics sets list strings.
From S2P Require Import Prelude.
From S2P Require Import Js.
From S2P Require Import Web.
From S2P Require Import CheckPersistence.
Open Scope string_scope.
Open Scope Z_scope.

(* @src workers/checks/src/types.ts 22-22 AssertionSource *)
Inductive AssertionSource := header | jsonpath | body.
(* @src workers/checks/src/types.ts 23-24 AssertionOperator *)
Inductive AssertionOperator := exists_ | equals | contains | matches | type | greater_than | less_than.
#[export] Instance source_eq_dec : EqDecision AssertionSource. Proof. solve_decision. Defined.
#[export] Instance operator_eq_dec : EqDecision AssertionOperator. Proof. solve_decision. Defined.
Definition source_name (s : AssertionSource) : string :=
  match s with header => "header" | jsonpath => "jsonpath" | body => "body" end.
Definition operator_name (o : AssertionOperator) : string :=
  match o with
  | exists_ => "exists" | equals => "equals" | contains => "contains" | matches => "matches"
  | type => "type" | greater_than => "greater_than" | less_than => "less_than"
  end.
Inductive Severity := SevDegraded | SevDown.
#[export] Instance severity_eq_dec : EqDecision Severity. Proof. solve_decision. Defined.

(** [expected] is any JSON value or [undefined]. *)
(* @src workers/checks/src/types.ts CheckAssertion *)
Record CheckAssertion := Assertion {
  as_source : AssertionSource;
  as_operator : AssertionOperator;
  as_selector : option string;
  as_expected : option json;
  as_severity : Severity;
}.

Class AssertionEngines := {
  (** [JSONPath({ path, json, wrap: true, eval: false })]: an array, or another value
      ([undefined] included); may throw *)
  json_path : string -> json -> res (list json + option json);
  (** [RE2JS.compile(pattern).matcher(text).find()]; throws on an invalid pattern *)
  re2_find : string -> string -> res bool;
}.

(** ** Structural equality *)

(** [Object.is] on numbers: [NaN] is itself, [0] and [-0] differ. *)
Definition num_is (a b : number) : bool :=
  match a, b with
  | S754_zero s, S754_zero s' => Bool.eqb s s'
  | S754_infinity s, S754_infinity s' => Bool.eqb s s'
  | S754_nan, S754_nan => true
  | S754_finite s m e, S754_finite s' m' e' => Bool.eqb s s' && Pos.eqb m m' && Z.eqb e e'
  | _, _ => false
  end.

(* @src workers/checks/src/assertions.ts structurallyEqual *)
Fixpoint structurallyEqual (left right : json) {struct left} : bool :=
  match left, right with
  | JNull, JNull => true
  | JBool a, JBool b => Bool.eqb a b
  | JNum a, JNum b => num_is a b
  | JStr a, JStr b => String.eqb a b
  | JArr l, JArr r =>
      (length l =? length r)%nat &&
      (fix go (l r : list json) : bool :=
         match l, r with
         | [], _ => true
         | x :: l', y :: r' => structurallyEqual x y && go l' r'
         | _ :: _, [] => false
         end) l r
  | JObj leftEntries, JObj rightRecord =>
      (length leftEntries =? length rightRecord)%nat &&
      (fix go (l : list (string * json)) : bool :=
         match l with
         | [] => true
         | (key, value) :: l' =>
             match obj_get key rightRecord with
             | Some v => structurallyEqual value v
             | None => false
             end && go l'
         end) leftEntries
  | _, _ => false
  end.

(** [undefined] is structurally equal only to itself. *)
Definition structurallyEqual_u (left right : option json) : bool :=
  match left, right with
  | None, None => true
  | Some a, Some b => structurallyEqual a b
  | _, _ => false
  end.

(** ** The operators *)

(* @src workers/checks/src/assertions.ts valueType *)
Definition valueType (value : option json) : string :=
  match value with
  | Some JNull => "null"
  | Some (JArr _) => "array"
  | None => "undefined"
  | Some (JBool _) => "boolean"
  | Some (JNum _) => "number"
  | Some (JStr _) => "string"
  | Some (JObj _) => "object"
  end.

Section Evaluate.
Context `{AE : AssertionEngines}.

(* @src workers/checks/src/assertions.ts compare *)
Definition compare (candidate : option json) (assertion : CheckAssertion) : res bool :=
  match as_operator assertion with
  | exists_ => Ok (match candidate with Some _ => true | None => false end)
  | equals => Ok (structurallyEqual_u candidate (as_expected assertion))
  | contains =>
      match candidate, as_expected assertion with
      | Some (JStr c), Some (JStr e) => Ok (includes e c)
      | Some (JArr items), e => Ok (existsb (fun item => structurallyEqual_u (Some item) e) items)
      | _, _ => Ok false
      end
  | matches =>
      match candidate, as_expected assertion with
      | Some (JStr c), Some (JStr e) => re2_find e c
      | _, _ => Ok false
      end
  | type =>
      match as_expected assertion with
      | Some (JStr e) => Ok (String.eqb (valueType candidate) e)
      | _ => Ok false
      end
  | greater_than =>
      match candidate, as_expected assertion with
      | Some (JNum c), Some (JNum e) => Ok (num_lt e c)
      | _, _ => Ok false
      end
  | less_than =>
      match candidate, as_expected assertion with
      | Some (JNum c), Some (JNum e) => Ok (num_lt c e)
      | _, _ => Ok false
      end
  end.

(* @src workers/checks/src/assertions.ts bodyCandidates *)
Definition bodyCandidates (assertion : CheckAssertion) (text : string) (parsedJson : option json)
  : list (option json) :=
  match as_source assertion, as_selector assertion, parsedJson with
  | body, _, _ => [Some (JStr text)]
  | jsonpath, Some selector, Some parsed =>
      match json_path selector parsed with
      | Ok (inl selected) => map Some selected
      | Ok (inr selected) => [selected]
      | Err _ => []
      end
  | _, _, _ => []
  end.

(** [candidates.some((candidate) => compare(candidate, assertion))], which stops at the first
    success and lets an error through. *)
Fixpoint some_compare (candidates : list (option json)) (assertion : CheckAssertion) : res bool :=
  match candidates with
  | [] => Ok false
  | c :: cs => let* b := compare c assertion in if b then Ok true else some_compare cs assertion
  end.

(** Whether one assertion holds.  An error inside the comparison counts as a failure; one from
    [headers.get] (a selector that is no header name) escapes. *)
(* @src workers/checks/src/assertions.ts 115-127 evaluateAssertions *)
Definition passes (assertion : CheckAssertion) (hs : headers) (text : string) (parsedJson : option json) : res bool :=
  let* candidates :=
    match as_source assertion with
    | header =>
        match as_selector assertion with
        | None => Ok [None]
        | Some selector => let* v := headers_get selector hs in Ok [JStr <$> v]
        end
    | _ => Ok (bodyCandidates assertion text parsedJson)
    end in
  Ok (match as_operator assertion with
      | exists_ => existsb (fun c => match c with Some _ => true | None => false end) candidates
      | _ => rcatch (some_compare candidates assertion) false
      end).

(** The loop: the assertions that fail, in order. *)
(* @src workers/checks/src/assertions.ts 113-134 evaluateAssertions *)
Fixpoint failures (assertions : list CheckAssertion) (hs : headers) (text : string) (parsedJson : option json)
  : res (list CheckAssertion) :=
  match assertions with
  | [] => Ok []
  | a :: rest =>
      let* passed := passes a hs text parsedJson in
      let* more := failures rest hs text parsedJson in
      Ok (if passed then more else a :: more)
  end.

(* @src workers/checks/src/assertions.ts AssertionEvaluation *)
Record AssertionEvaluation := Evaluation {
  av_state : ExecState;
  av_failureCode : option string;
  av_failureSummary : option string;
}.

Definition failure_summary (a : CheckAssertion) : string :=
  source_name (as_source a) ++ ":" ++ operator_name (as_operator a).
(** [undefined] when the body is not needed as JSON, or is none. *)
Definition parsed_body (assertions : list CheckAssertion) (text : string) : option json :=
  if existsb (fun a => bool_decide (as_source a = jsonpath)) assertions
  then match json_parse text with Ok v => Some v | Err _ => None end
  else None.

(* @src workers/checks/src/assertions.ts evaluateAssertions *)
Definition evaluateAssertions (assertions : list CheckAssertion) (hs : headers) (text : string)
  : res AssertionEvaluation :=
  let* fs := failures assertions hs text (parsed_body assertions text) in
  Ok (match fs with
      | [] => Evaluation Healthy None None
      | _ =>
          Evaluation (if existsb (fun a => bool_decide (as_severity a = SevDown)) fs then Down else Degraded)
            (Some "assertion_failed") (Some (str_join "," (map failure_summary (take 3 fs))))
      end).
End Evaluate.

(** ** Structural equality is an equivalence *)

Section json_induction.
Context (P : json -> Prop).
Hypothesis Hnull : P JNull.
Hypothesis Hbool : forall b, P (JBool b).
Hypothesis Hnum : forall n, P (JNum n).
Hypothesis Hstr : forall s, P (JStr s).
Hypothesis Harr : forall l, Forall P l -> P (JArr l).
Hypothesis Hobj : forall l, Forall (fun kv => P kv.2) l -> P (JObj l).
Fixpoint json_ind' (v : json) : P v :=
  match v with
  | JNull => Hnull | JBool b => Hbool b | JNum n => Hnum n | JStr s => Hstr s
  | JArr l => Harr l ((fix go l : Forall P l :=
      match l with [] => Forall_nil_2 _ | x :: l' => Forall_cons_2 _ _ _ (json_ind' x) (go l') end) l)
  | JObj l => Hobj l ((fix go l : Forall (fun kv => P kv.2) l :=
      match l with
      | [] => Forall_nil_2 _
      | x :: l' => Forall_cons_2 _ _ _ (json_ind' x.2) (go l')
      end) l)
  end.
End json_induction.

(** Objects hold each key once, as [JSON.parse] builds them. *)
Fixpoint json_wf (v : json) : Prop :=
  match v with
  | JArr l => (fix go l := match l with [] => True | x :: l' => json_wf x /\ go l' end) l
  | JObj l => NoDup (map fst l) /\
              (fix go (l : list (string * json)) := match l with [] => True | x :: l' => json_wf x.2 /\ go l' end) l
  | _ => True
  end.
Lemma json_wf_arr l : json_wf (JArr l) <-> Forall json_wf l.
Proof. cbn. induction l as [|x l IH]; [by split|]. rewrite Forall_cons, <- IH. done. Qed.
Lemma json_wf_obj l : json_wf (JObj l) <-> NoDup (map fst l) /\ Forall (fun kv => json_wf kv.2) l.
Proof.
  cbn. apply and_iff_compat_l. induction l as [|x l IH]; [by split|]. rewrite Forall_cons, <- IH. done.
Qed.

Lemma num_is_eq a b : num_is a b = true <-> a = b.
Proof.
  split.
  - destruct a as [s|s| |s m e], b as [s'|s'| |s' m' e']; cbn; try done; rewrite ?andb_true_iff, ?Pos.eqb_eq, ?Z.eqb_eq;
      intros H; try (by apply Bool.eqb_prop in H as ->); destruct H as [[H ->] ->]; by apply Bool.eqb_prop in H as ->.
  - intros <-. destruct a as [s|s| |s m e]; cbn; rewrite ?Bool.eqb_reflx, ?Pos.eqb_refl, ?Z.eqb_refl; done.
Qed.

Lemma equal_arr l r : structurallyEqual (JArr l) (JArr r) = true <-> Forall2 (fun a b => structurallyEqual a b = true) l r.
Proof.
  cbn. rewrite andb_true_iff, Nat.eqb_eq. revert r. induction l as [|x l IH]; intros r.
  - destruct r; cbn; split; [done | done | by intros [? _] | intros H; inversion H].
  - destruct r as [|y r]; cbn [length]; [split; [by intros [? _] | intros H; inversion H]|].
    rewrite Forall2_cons, <- IH, andb_true_iff. split; [intros [[= ?] [? ?]] | intros (? & ? & ?)]; intuition.
Qed.

Lemma equal_obj l r : structurallyEqual (JObj l) (JObj r) = true <->
  length l = length r /\ forall k v, (k, v) ∈ l -> exists w, obj_get k r = Some w /\ structurallyEqual v w = true.
Proof.
  cbn. rewrite andb_true_iff, Nat.eqb_eq. apply and_iff_compat_l. induction l as [|[k v] l IH].
  - split; [intros _ k v H; by apply elem_of_nil in H | done].
  - rewrite andb_true_iff, IH. clear IH. split.
    + intros [H1 H2] k' v' Hin. apply elem_of_cons in Hin as [[= -> ->]|Hin]; [|by apply H2].
      destruct (obj_get k r) as [w|]; [by exists w | done].
    + intros H. split.
      * destruct (H k v ltac:(by left)) as (w & -> & Hw). done.
      * intros k' v' Hin. apply H. by right.
Qed.

Lemma obj_get_elem {A} (l : list (string * A)) k v : NoDup (map fst l) -> (k, v) ∈ l <-> obj_get k l = Some v.
Proof.
  induction l as [|[k' v'] l IH]; cbn; intros Hnd; [split; [intros H; by apply elem_of_nil in H | done]|].
  apply NoDup_cons in Hnd as [Hni Hnd]. rewrite elem_of_cons. destruct (String.eqb_spec k k') as [->|Hne].
  - split; [|intros [= ->]; by left]. intros [[= ->]|Hin]; [done|]. exfalso. apply Hni.
    by apply (list_elem_of_fmap_2 fst) in Hin.
  - rewrite <- IH by done. split; [by intros [[= ? ?]|?] | by right].
Qed.

Lemma equal_refl v : json_wf v -> structurallyEqual v v = true.
Proof.
  induction v as [|b|n|s|l IH|l IH] using json_ind'; intros Hwf.
  - done.
  - cbn. apply Bool.eqb_reflx.
  - cbn. by apply num_is_eq.
  - cbn. apply String.eqb_refl.
  - apply equal_arr. apply json_wf_arr in Hwf. induction l as [|x l IHl]; [constructor|].
    apply Forall_cons in IH as [Hx Hl], Hwf as [Wx Wl]. constructor; [by apply Hx | by apply IHl].
  - apply equal_obj. apply json_wf_obj in Hwf as [Hnd Hwf]. split; [done|]. intros k v Hin. exists v.
    split; [by apply obj_get_elem|]. rewrite Forall_forall in IH, Hwf. apply (IH (k, v) Hin). by apply (Hwf (k, v)).
Qed.

Lemma equal_sym a b : json_wf a -> json_wf b -> structurallyEqual a b = true -> structurallyEqual b a = true.
Proof.
  revert b. induction a as [|x|n|s|l IH|l IH] using json_ind'; intros [|y|m|t|r|r] Wa Wb; try (cbn; done).
  - cbn. intros H%Bool.eqb_prop. subst. apply Bool.eqb_reflx.
  - cbn. intros H%num_is_eq. subst. by apply num_is_eq.
  - cbn. intros H%String.eqb_eq. subst. apply String.eqb_refl.
  - rewrite !equal_arr. apply json_wf_arr in Wa, Wb. intros H. revert IH Wa Wb.
    induction H as [|x y l r Hxy H IHl]; intros IH Wa Wb; constructor.
    + apply Forall_cons in IH as [Hx _], Wa as [Wx _], Wb as [Wy _]. by apply Hx.
    + apply Forall_cons in IH as [_ Hl], Wa as [_ Wl], Wb as [_ Wr]. by apply IHl.
  - rewrite !equal_obj. apply json_wf_obj in Wa as [Na Wa], Wb as [Nb Wb]. intros [Hlen H]. split; [done|].
    assert (Hsub : forall k, k ∈ map fst l -> k ∈ map fst r).
    { intros k Hk. apply list_elem_of_fmap in Hk as ([k' v] & -> & Hin). destruct (H k' v Hin) as (w & Hw & _).
      apply obj_get_elem in Hw; [|done]. by apply (list_elem_of_fmap_2 fst) in Hw. }
    assert (Hsup : forall k, k ∈ map fst r -> k ∈ map fst l).
    { intros k Hk. assert (Hp : map fst l ≡ₚ map fst r).
      { apply submseteq_length_Permutation; [by apply NoDup_submseteq | by rewrite !length_map, Hlen]. }
      by rewrite Hp. }
    intros k w Hin. assert (Hk : k ∈ map fst l) by (apply Hsup; by apply (list_elem_of_fmap_2 fst) in Hin).
    apply list_elem_of_fmap in Hk as ([k' v] & Ek & Hv). cbn in Ek. subst k'.
    exists v. split; [by apply obj_get_elem|]. destruct (H k v Hv) as (w' & Hw' & Heq).
    apply obj_get_elem in Hin; [|done]. assert (w' = w) as -> by congruence.
    rewrite Forall_forall in IH, Wa, Wb. apply (IH (k, v) Hv); [by apply (Wa (k, v)) | | done].
    apply (Wb (k, w)). by apply obj_get_elem.
Qed.

Lemma equal_trans a b c : json_wf a -> json_wf b -> structurallyEqual a b = true -> structurallyEqual b c = true ->
  structurallyEqual a c = true.
Proof.
  revert b c. induction a as [|x|n|s|l IH|l IH] using json_ind'; intros [|y|m|t|r|r] c Wa Wb; try (cbn; done);
    destruct c as [|z|o|u|q|q]; try (cbn; done).
  - cbn. intros ->%Bool.eqb_prop. done.
  - cbn. intros ->%num_is_eq. done.
  - cbn. intros ->%String.eqb_eq. done.
  - rewrite !equal_arr. apply json_wf_arr in Wa, Wb. intros H. revert q IH Wa Wb.
    induction H as [|x y l r Hxy H IHl]; intros q IH Wa Wb Hq; inversion Hq as [|y' z r' q' Hyz Hq']; subst; constructor.
    + apply Forall_cons in IH as [Hx _], Wa as [Wx _], Wb as [Wy _]. by apply (Hx y).
    + apply Forall_cons in IH as [_ Hl], Wa as [_ Wl], Wb as [_ Wr]. by apply IHl.
  - rewrite !equal_obj. apply json_wf_obj in Wa as [Na Wa], Wb as [Nb Wb]. intros [L1 H1] [L2 H2].
    split; [congruence|]. intros k v Hin. destruct (H1 k v Hin) as (w & Hw & Hvw).
    apply obj_get_elem in Hw; [|done]. destruct (H2 k w Hw) as (x & Hx & Hwx). exists x. split; [done|].
    rewrite Forall_forall in IH, Wa, Wb. apply (IH (k, v) Hin w); [by apply (Wa (k, v)) | by apply (Wb (k, w)) | done | done].
Qed.

(** Comparing the number of keys and the left side's keys is enough: on JSON values with distinct
    keys [structurallyEqual] is an equivalence, and the order of an object's members is
    irrelevant. *)
Theorem structurallyEqual_equivalence a b c (Wa : json_wf a) (Wb : json_wf b) (Wc : json_wf c) :
  structurallyEqual a a = true /\ structurallyEqual a b = structurallyEqual b a /\
  (structurallyEqual a b = true -> structurallyEqual b c = true -> structurallyEqual a c = true) /\
  (forall l r, a = JObj l -> b = JObj r -> l ≡ₚ r -> structurallyEqual a b = true).
Proof.
  split_and!; [by apply equal_refl | | by apply equal_trans |].
  - destruct (structurallyEqual a b) eqn:E1, (structurallyEqual b a) eqn:E2; try done.
    + by rewrite (equal_sym a b) in E2.
    + by rewrite (equal_sym b a) in E1.
  - intros l r -> -> Hp. apply equal_obj. split; [by apply Permutation_length|]. intros k v Hin. exists v.
    apply json_wf_obj in Wa as [Na Wa], Wb as [Nb Wb]. split; [apply obj_get_elem; [done|]; by rewrite <- Hp|].
    apply equal_refl. rewrite Forall_forall in Wa. by apply (Wa (k, v)).
Qed.

(** ** The verdict *)

Section Verdict.
Context `{AE : AssertionEngines}.

(** An assertion that cannot be evaluated at all. *)
Definition bad_selector (a : CheckAssertion) : bool :=
  bool_decide (as_source a = header) &&
  match as_selector a with Some s => negb (header_name_ok s) | None => false end.

Lemma passes_ok a hs text j : (exists b, passes a hs text j = Ok b) <-> bad_selector a = false.
Proof.
  unfold passes, bad_selector. destruct (as_source a); [|split; [done | by eexists] ..].
  rewrite bool_decide_eq_true_2 by done. cbn [andb]. unfold headers_get. destruct (as_selector a) as [s|]; [|split; [done | by eexists]].
  destruct (header_name_ok s); cbn; [split; [done | by eexists] | split; [by intros [? ?] | done]].
Qed.

Lemma failures_ok assertions hs text j fs : failures assertions hs text j = Ok fs ->
  fs = List.filter (fun a => bool_decide (passes a hs text j = Ok false)) assertions /\
  Forall (fun a => bad_selector a = false) assertions.
Proof.
  revert fs. induction assertions as [|a rest IH]; intros fs; cbn [failures].
  - intros H. apply Ok_inj in H as <-. by split.
  - intros H. apply rbind_ok in H as (b & Hb & H). apply rbind_ok in H as (more & Hm & H). apply Ok_inj in H as <-.
    destruct (IH more Hm) as [-> Hall]. split.
    + cbn [List.filter]. rewrite Hb. destruct b; case_bool_decide; congruence.
    + constructor; [|done]. apply (passes_ok a hs text j). by exists b.
Qed.

Lemma failures_err assertions hs text j e : failures assertions hs text j = Err e ->
  exists a, a ∈ assertions /\ bad_selector a = true.
Proof.
  induction assertions as [|a rest IH]; [done|]. cbn [failures]. intros H.
  destruct (bad_selector a) eqn:Eb; [exists a; split; [by left | done]|].
  apply (passes_ok a hs text j) in Eb as (b & Hb). rewrite Hb in H. cbn [rbind] in H.
  destruct (failures rest hs text j) as [more|e'] eqn:Er; [done|]. cbn [rbind] in H.
  destruct (IH ltac:(congruence)) as (x & Hx & ?). exists x. split; [by right | done].
Qed.

(** The verdict is decided by the failing assertions alone: no failure is healthy; one failure
    of severity down is down, whatever else fails; otherwise degraded.  There is a verdict exactly
    when every header selector is a header name. *)
Theorem evaluateAssertions_verdict assertions hs text :
  let fails a := bool_decide (passes a hs text (parsed_body assertions text) = Ok false) in
  match evaluateAssertions assertions hs text with
  | Ok v =>
      Forall (fun a => bad_selector a = false) assertions /\
      (av_state v = Healthy <-> forall a, a ∈ assertions -> fails a = false) /\
      (av_state v = Down <-> exists a, a ∈ assertions /\ fails a = true /\ as_severity a = SevDown) /\
      (av_failureCode v = None <-> av_state v = Healthy)
  | Err _ => exists a, a ∈ assertions /\ bad_selector a = true
  end.
Proof.
  cbv zeta. unfold evaluateAssertions. destruct (failures _ _ _ _) as [fs|e] eqn:Ef; cbn [rbind].
  - destruct (failures_ok _ _ _ _ _ Ef) as [-> Hall].
    set (p := fun a => bool_decide (passes a hs text (parsed_body assertions text) = Ok false)).
    destruct (List.filter p assertions) as [|a l] eqn:El.
    + assert (Hno : forall a, a ∈ assertions -> p a = false).
      { intros a Ha. destruct (p a) eqn:Ep; [|done]. assert (Hin : a ∈ List.filter p assertions) by (by apply filter_In_elem).
        rewrite El in Hin. by apply elem_of_nil in Hin. }
      cbn [av_state av_failureCode]. split_and!; [done | done | | done].
      split; [done|]. intros (a & Ha & Hp & _). pose proof (Hno a Ha) as Hn'. unfold p in Hn'. congruence.
    + assert (Ha : a ∈ List.filter p assertions) by (rewrite El; by left).
      apply filter_In_elem in Ha as [Ha Hp]. cbn [av_state av_failureCode]. rewrite <- El. split_and!; [done | | |].
      * split; [by destruct (existsb _ _)|]. intros Hn. pose proof (Hn a Ha) as Hn'. unfold p in Hp. congruence.
      * destruct (existsb _ _) eqn:Ex.
        -- split; [intros _ | done]. apply existsb_exists_elem in Ex as (b & Hb & Hs). apply filter_In_elem in Hb as [Hb Hpb].
           apply bool_decide_eq_true in Hs. by exists b.
        -- split; [done|]. intros (b & Hb & Hpb & Hs).
           rewrite existsb_false_elem in Ex. specialize (Ex b ltac:(by apply filter_In_elem)).
           by apply bool_decide_eq_false in Ex.
      * split; [done|]. by destruct (existsb _ _).
  - by apply (failures_err assertions hs text (parsed_body assertions text) e).
Qed.
End Verdict.

(** A concrete instance for witnesses: the root path, and substring search. *)
#[export] Instance ToyEngines : AssertionEngines := {|
  json_path := fun path v => if String.eqb path "$" then Ok (inl [v]) else Ok (inl []);
  re2_find := fun pattern text => Ok (includes pattern text);
|}.

(** A header selector that is no header name is accepted by the parser and by the form, and then
    makes the whole evaluation throw, even for an assertion of severity degraded. *)
Example bad_header_selector_throws :
  evaluateAssertions [Assertion header exists_ (Some "x trace") None SevDegraded] [("x-trace", "1")] "" = Err "TypeError".
Proof. reflexivity. Qed.
