(* ===== verification/JsonFacts.v ===== *)
(** * JsonFacts: what reading JSON guarantees of the value

    A parsed text gives objects with each key once ([json_wf]) and strings no longer than the text;
    a parsed value that is serialised again ([jout_of_json]) reads back as it was, as far as its
    numbers do. *)

From Stdlib Require Import ZArith Lia Bool String Ascii List SpecFloat.
From stdpp Require Import base tactics list strings.
From S2P Require Import Prelude.
From S2P Require Import Js.
From S2P Require Import Assertions.
Open Scope string_scope.
Open Scope Z_scope.

(** A parsed JSON value, to be serialised again. *)
Fixpoint jout_of_json (v : json) : jout :=
  match v with
  | JNull => ONull
  | JBool b => OBool b
  | JNum x => ONum x
  | JStr s => OStr s
  | JArr l => OArr (map jout_of_json l)
  | JObj l => OObj (map (fun kv => (kv.1, jout_of_json kv.2)) l)
  end.

(** ** Reading a text does not make it longer, and gives each key once *)

Lemma slen_utf8 n : slen (utf8 n) <= 4.
Proof. unfold utf8. destruct (n <? 128)%N; [done|]. destruct (n <? 2048)%N; [done|]. by destruct (n <? 65536)%N. Qed.
Lemma bind_str_length pre r v rest k : bind_str pre r = Some (v, rest) -> (forall v' rest', r = Some (v', rest') -> slen v' + slen rest' <= k) ->
  slen v + slen rest <= slen pre + k.
Proof.
  unfold bind_str. destruct r as [[v' rest']|]; [|done]. intros [= <- <-] H. specialize (H v' rest' eq_refl). rewrite slen_app. lia.
Qed.
Lemma parse_str_length n : forall s v rest, (String.length s <= n)%nat -> parse_str s = Some (v, rest) -> slen v + slen rest <= slen s.
Proof.
  induction n as [|n IH]; intros s v rest Hn; [by destruct s; cbn in Hn; [|lia]|]. destruct s as [|c s]; [done|]. cbn [String.length] in Hn.
  assert (Hrec : forall t v' rest', (String.length t <= n)%nat -> parse_str t = Some (v', rest') -> slen v' + slen rest' <= slen t) by eauto.
  assert (Hesc : forall pre t, (String.length t <= String.length s)%nat -> bind_str pre (parse_str t) = Some (v, rest) ->
    slen v + slen rest <= slen pre + slen t).
  { intros pre t Ht H. eapply bind_str_length; [exact H|]. intros v' rest'. apply Hrec. lia. }
  cbn [parse_str]. rewrite slen_cons. destruct (Ascii.eqb c quote); [intros [= <- <-]; change (slen "") with 0; lia|].
  destruct (ord c <? 32)%N; [done|]. destruct (Ascii.eqb c bslash); [|intros H; apply Hesc in H; [|done]; change (slen (String c "")) with 1 in H; lia].
  destruct s as [|e s2]; [done|].
  assert (Hplain : match unescape e with Some c => bind_str (String c "") (parse_str s2) | None => None end = Some (v, rest) ->
    slen v + slen rest <= 1 + slen (String e s2)).
  { destruct (unescape e) as [d|]; [|done]. intros H. apply Hesc in H; [|cbn; lia]. change (slen (String d "")) with 1 in H. rewrite slen_cons. lia. }
  destruct (Ascii.eqb e "u") eqn:Eu; [|destruct e as [[] [] [] [] [] [] [] []]; first [exact Hplain | done]].
  apply Ascii.eqb_eq in Eu as ->. destruct s2 as [|x1 [|x2 [|x3 [|x4 s2]]]]; try exact Hplain. clear Hplain.
  destruct (hex4 x1 x2 x3 x4) as [hi|]; [|done]. cbn [String.length] in Hn, Hesc. rewrite !slen_cons.
  assert (Hone : forall m, bind_str (utf8 m) (parse_str s2) = Some (v, rest) -> slen v + slen rest <= 4 + slen s2).
  { intros m H. apply Hesc in H; [|lia]. pose proof (slen_utf8 m). lia. }
  destruct (_ && _); [|intros H; apply Hone in H; lia].
  destruct s2 as [|y1 [|y2 [|y3 [|y4 [|y5 [|y6 s3]]]]]];
    try (intros H; match type of H with context [match ?x with _ => _ end] => idtac | _ => idtac end; revert H;
         repeat match goal with |- context [match ?x with Ascii _ _ _ _ _ _ _ _ => _ end] => destruct x as [[] [] [] [] [] [] [] []] end;
         intros H; apply Hone in H; lia).
  destruct (Ascii.eqb y1 bslash) eqn:E1; [|destruct y1 as [[] [] [] [] [] [] [] []]; first [intros H; apply Hone in H; lia | done]].
  apply Ascii.eqb_eq in E1 as ->. destruct (Ascii.eqb y2 "u") eqn:E2; [|destruct y2 as [[] [] [] [] [] [] [] []]; first [intros H; apply Hone in H; lia | done]].
  apply Ascii.eqb_eq in E2 as ->. destruct (hex4 y3 y4 y5 y6) as [lo|]; [|done].
  destruct (_ && _); [|intros H; apply Hone in H; lia]. intros H. apply Hesc in H; [|cbn; lia].
  match type of H with context [utf8 ?m] => pose proof (slen_utf8 m) end. rewrite !slen_cons. lia.
Qed.

Lemma obj_set_keys {A} k (v : A) l x : x ∈ map fst (obj_set k v l) -> x = k \/ x ∈ map fst l.
Proof.
  induction l as [|[k' v'] l IH]; cbn; [intros H; by apply list_elem_of_singleton in H; left|].
  destruct (String.eqb_spec k k') as [->|]; cbn; [by right|]. rewrite !elem_of_cons. intros [->|H]; [by right; left|].
  destruct (IH H); [by left | by right; right].
Qed.
Lemma obj_set_unique {A} k (v : A) l : NoDup (map fst l) -> NoDup (map fst (obj_set k v l)).
Proof.
  induction l as [|[k' v'] l IH]; cbn; intros H; [repeat constructor; by apply not_elem_of_nil|]. apply NoDup_cons in H as [H1 H2].
  destruct (String.eqb_spec k k') as [->|Hne]; cbn; apply NoDup_cons; (split; [|auto]); [done|].
  intros Hin. apply obj_set_keys in Hin as [->|]; [by apply Hne | done].
Qed.
Lemma obj_set_forall {A} (P : string * A -> Prop) k v l : P (k, v) -> Forall P l -> Forall P (obj_set k v l).
Proof.
  intros Hk Hl. induction Hl as [|[k' v'] l Hx Hl IH]; cbn; [by constructor|]. by destruct (String.eqb_spec k k') as [->|]; constructor.
Qed.

Lemma parse_wf f :
  (forall s v r, parse_value f s = Some (v, r) -> json_wf v) /\
  (forall s l r, parse_elems f s = Some (l, r) -> Forall json_wf l) /\
  (forall s acc l r, NoDup (map fst acc) -> Forall (fun kv => json_wf kv.2) acc -> parse_members f s acc = Some (l, r) ->
     NoDup (map fst l) /\ Forall (fun kv => json_wf kv.2) l).
Proof.
  induction f as [|f (IHv & IHe & IHm)]; [done|]. split_and!.
  - intros s v r. cbn [parse_value]. destruct (skip_ws s) as [|c s1]; [done|].
    destruct (Ascii.eqb c quote); [destruct (parse_str s1) as [[v' r']|]; [by intros [= <- <-] | done]|].
    destruct (Ascii.eqb c "[").
    { assert (H : match parse_elems f s1 with Some (l, r) => Some (JArr l, r) | None => None end = Some (v, r) -> json_wf v).
      { destruct (parse_elems f s1) as [[l r']|] eqn:E; [|done]. intros [= <- <-]. apply json_wf_arr. by eapply IHe. }
      destruct (skip_ws s1) as [|d s2]; [exact H|]. destruct (Ascii.eqb_spec d "]") as [->|]; [by intros [= <- <-]|].
      destruct d as [[] [] [] [] [] [] [] []]; first [exact H | done]. }
    destruct (Ascii.eqb c "{").
    { assert (H : match parse_members f s1 [] with Some (l, r) => Some (JObj l, r) | None => None end = Some (v, r) -> json_wf v).
      { destruct (parse_members f s1 []) as [[l r']|] eqn:E; [|done]. intros [= <- <-]. apply json_wf_obj.
        eapply IHm; [| |exact E]; constructor. }
      destruct (skip_ws s1) as [|d s2]; [exact H|]. destruct (Ascii.eqb_spec d "}") as [->|]; [intros [= <- <-]; split; [constructor | done]|].
      destruct d as [[] [] [] [] [] [] [] []]; first [exact H | done]. }
    destruct (Ascii.eqb c "t"); [destruct (parse_lit _ _); [by intros [= <- <-] | done]|].
    destruct (Ascii.eqb c "f"); [destruct (parse_lit _ _); [by intros [= <- <-] | done]|].
    destruct (Ascii.eqb c "n"); [destruct (parse_lit _ _); [by intros [= <- <-] | done]|].
    destruct (parse_num _) as [[n r']|]; [by intros [= <- <-] | done].
  - intros s l r. cbn [parse_elems]. destruct (parse_value f s) as [[v r1]|] eqn:Ev; [|done]. pose proof (IHv _ _ _ Ev) as Hv.
    destruct (skip_ws r1) as [|d r2]; [done|]. destruct (Ascii.eqb_spec d "]") as [->|N1]; [intros [= <- <-]; by repeat constructor|].
    destruct (Ascii.eqb_spec d ",") as [->|N2]; [|by destruct d as [[] [] [] [] [] [] [] []]].
    destruct (parse_elems f r2) as [[l' r3]|] eqn:Ee; [|done]. intros [= <- <-]. constructor; [done | by eapply IHe].
  - intros s acc l r Hn Hw. cbn [parse_members]. destruct (skip_ws s) as [|c s1]; [done|]. destruct (Ascii.eqb c quote); [|done].
    destruct (parse_str s1) as [[k r1]|]; [|done]. destruct (skip_ws r1) as [|d r2]; [done|].
    destruct (Ascii.eqb_spec d ":") as [->|]; [|by destruct d as [[] [] [] [] [] [] [] []]].
    destruct (parse_value f r2) as [[v r3]|] eqn:Ev; [|done]. pose proof (IHv _ _ _ Ev) as Hv.
    destruct (skip_ws r3) as [|d r4]; [done|].
    destruct (Ascii.eqb_spec d "}") as [->|]; [intros [= <- <-]; split; [by apply obj_set_unique | by apply obj_set_forall]|].
    destruct (Ascii.eqb_spec d ",") as [->|]; [|by destruct d as [[] [] [] [] [] [] [] []]].
    apply IHm; [by apply obj_set_unique | by apply obj_set_forall].
Qed.
Lemma json_parse_wf s v : json_parse s = Ok v -> json_wf v.
Proof.
  unfold json_parse. destruct (parse_value _ s) as [[v' r]|] eqn:E; [|done]. destruct (String.eqb _ _); [|done]. intros [= <-].
  by eapply parse_wf.
Qed.
Lemma parse_value_str f s v r : parse_value f s = Some (JStr v, r) -> slen v < slen s.
Proof.
  destruct f as [|f]; [done|]. cbn [parse_value]. assert (Hw : slen (skip_ws s) <= slen s).
  { induction s as [|c s IH]; [done|]. cbn [skip_ws]. destruct (_ || _); rewrite ?slen_cons; lia. }
  destruct (skip_ws s) as [|c s1]; [done|]. rewrite slen_cons in Hw.
  destruct (Ascii.eqb c quote).
  { destruct (parse_str s1) as [[v' r']|] eqn:E; [|done]. intros [= <- <-]. apply (parse_str_length (String.length s1)) in E; [|done].
    pose proof (slen_nonneg r'). lia. }
  destruct (Ascii.eqb c "[").
  { assert (H : match parse_elems f s1 with Some (l, r) => Some (JArr l, r) | None => None end <> Some (JStr v, r))
      by (by destruct (parse_elems f s1) as [[l r']|]).
    destruct (skip_ws s1) as [|d s2]; [done|]. destruct d as [[] [] [] [] [] [] [] []]; first [done | intros [= ]; fail]. }
  destruct (Ascii.eqb c "{").
  { assert (H : match parse_members f s1 [] with Some (l, r) => Some (JObj l, r) | None => None end <> Some (JStr v, r))
      by (by destruct (parse_members f s1 []) as [[l r']|]).
    destruct (skip_ws s1) as [|d s2]; [done|]. destruct d as [[] [] [] [] [] [] [] []]; first [done | intros [= ]; fail]. }
  destruct (Ascii.eqb c "t"); [by destruct (parse_lit _ _)|]. destruct (Ascii.eqb c "f"); [by destruct (parse_lit _ _)|].
  destruct (Ascii.eqb c "n"); [by destruct (parse_lit _ _)|]. by destruct (parse_num _) as [[n r']|].
Qed.
Lemma json_parse_str s v : json_parse s = Ok (JStr v) -> slen v < slen s.
Proof.
  unfold json_parse. destruct (parse_value _ s) as [[v' r]|] eqn:E; [|done]. destruct (String.eqb _ _); [|done]. intros [= ->].
  by eapply parse_value_str.
Qed.

(** The numbers of a value print as texts that read back as they were. *)
Fixpoint numbers_read_back (o : jout) : bool :=
  match o with
  | ONum x => negb (is_finite x) || match parse_num (num_to_string x) with Some (y, r) => num_is y x && String.eqb r "" | None => false end
  | OArr l => forallb numbers_read_back l
  | OObj l => forallb (fun kv => numbers_read_back kv.2) l
  | _ => true
  end.
Lemma read_back_ok v : json_wf v -> numbers_read_back (jout_of_json v) = true -> jout_ok (jout_of_json v).
Proof.
  induction v as [|b|n|s|l IH|l IH] using json_ind'; cbn [jout_of_json jout_ok numbers_read_back]; try done.
  - intros _ H Hf. rewrite Hf in H. cbn [negb orb] in H. destruct (parse_num _) as [[y r]|]; [|done].
    apply andb_true_iff in H as [H1 H2]. apply num_is_eq in H1 as ->. apply String.eqb_eq in H2 as ->. done.
  - rewrite json_wf_arr. induction IH as [|x l Hx _ IHl]; [done|]. cbn. rewrite Forall_cons, andb_true_iff. intros [H1 H2] [H3 H4]. auto.
  - rewrite json_wf_obj. intros [Hn Hw] H. split.
    { by rewrite map_map. }
    clear Hn. induction IH as [|x l Hx _ IHl]; [done|]. cbn in *. apply andb_true_iff in H as [H3 H4]. apply Forall_cons in Hw as [H1 H2]. auto.
Qed.
