(* ===== verification/Validation.v ===== *)
(** * Validation: what a check may be configured to do

    Models [workers/checks/src/validation.ts]: the stored request JSON of a check is parsed
    again before every execution, so that a target inside the network, a forbidden header or an
    unbounded response is refused whatever the control database holds. *)

From Stdlib Require Import ZArith Lia Bool String Ascii List.
From stdpp Require Import base tactics sets list strings.
From S2P Require Import Prelude.
From S2P Require Import Js.
From S2P Require Import JsString.
From S2P Require Import Base64Url.
From S2P Require Import Web.
From S2P Require Import Assertions.
Open Scope string_scope.
Open Scope Z_scope.

(** ** Data *)

(** [method] is kept as the JSON value: only its [String(...)] is checked. *)
(* @src workers/checks/src/types.ts HttpCheckRequest *)
Record HttpCheckRequest := HttpRequest {
  h_url : string;
  h_method : json;
  h_headers : list (string * string);
  h_sensitiveHeaders : list string;
  h_body : option string;
  h_expectedStatus : list Z;
  h_degradedAfterMs : option Z;
  h_downAfterMs : option Z;
  h_maxRedirects : Z;
  h_tlsVerify : bool;
  h_maxResponseBytes : Z;
  h_assertions : list CheckAssertion;
}.
(* @src workers/checks/src/types.ts TcpCheckRequest *)
Record TcpCheckRequest := TcpRequest {
  t_hostname : string;
  t_port : Z;
  t_secureTransport : bool;
  t_tlsVerify : bool;
  t_payload : option (list byte);
  t_responsePrefix : option (list byte);
}.
(* @src workers/checks/src/types.ts CheckSecretReferences *)
Record CheckSecretReferences := SecretRefs {
  sr_headers : list (string * string);
  sr_body : option string;
  sr_tcpPayload : option string;
}.

(* @src workers/checks/src/validation.ts 12-12 BLOCKED_HOSTNAMES *)
Definition BLOCKED_HOSTNAMES : list string := ["localhost"; "localhost.localdomain"].
(* @src workers/checks/src/validation.ts 13-22 BLOCKED_HEADERS *)
Definition BLOCKED_HEADERS : list string :=
  ["cf-connecting-ip"; "cf-ipcountry"; "cf-ray"; "connection"; "content-length"; "host";
   "transfer-encoding"; "upgrade"].

(* @src workers/checks/src/validation.ts asRecord *)
Definition asRecord (value : json) : res props := as_record "invalid_check_config" value.

(** ** Public targets *)

(* @src workers/checks/src/validation.ts withoutIpv6Brackets *)
Definition withoutIpv6Brackets (hostname : string) : string :=
  if starts_with "[" hostname && ends_with "]" hostname
  then str_slice0 (slen hostname - 2) (str_drop 1 hostname) else hostname.

Section Targets.
Context `{UA : UrlApi}.

(** The address's range, if one of the two spellings is an address literal. *)
(* @src workers/checks/src/validation.ts parseAddressLiteral *)
Definition parseAddressLiteral (host : string) : option string :=
  match ip_range (withoutIpv6Brackets host) with
  | Some r => Some r
  | None =>
      match url_parse ("http://" ++ host) None with
      | Ok u => ip_range (withoutIpv6Brackets (hostname u))
      | Err _ => None
      end
  end.

(** [hostname.toLowerCase().replace(/\.$/, '')] *)
Definition normalized_host (host : string) : string :=
  let l := to_lower host in if ends_with "." l then str_slice0 (slen l - 1) l else l.

(* @src workers/checks/src/validation.ts assertPublicHostname *)
Definition assertPublicHostname (host : string) : res unit :=
  let normalized := normalized_host host in
  let address := parseAddressLiteral normalized in
  throw_if (slen normalized =? 0) || (253 <? slen normalized) || ends_with ".local" normalized ||
           ends_with ".internal" normalized || str_in normalized BLOCKED_HOSTNAMES ||
           match address with Some range => negb (String.eqb range "unicast") | None => false end
    as "blocked_target" in Ok tt.

(** ** Scalars and assertions *)

(* @src workers/checks/src/validation.ts boundedInteger *)
Definition boundedInteger (value : option json) (fallback minimum maximum : Z) : res Z :=
  match value with
  | None => Ok fallback
  | _ =>
      match as_integer value with
      | Some n => throw_if (n <? minimum) || (maximum <? n) as "invalid_integer" in Ok n
      | None => Err "invalid_integer"
      end
  end.

Definition parse_source (v : option json) : option AssertionSource :=
  match v with
  | Some (JStr s) =>
      if String.eqb s "header" then Some header else if String.eqb s "jsonpath" then Some jsonpath
      else if String.eqb s "body" then Some body else None
  | _ => None
  end.
Definition parse_operator (v : option json) : option AssertionOperator :=
  match v with
  | Some (JStr s) =>
      List.find (fun o => String.eqb (operator_name o) s)
        [exists_; equals; contains; matches; type; greater_than; less_than]
  | _ => None
  end.
Definition parse_severity (v : option json) : option Severity :=
  match v with
  | Some (JStr s) =>
      if String.eqb s "degraded" then Some SevDegraded else if String.eqb s "down" then Some SevDown else None
  | _ => None
  end.

(** One element of the array. *)
(* @src workers/checks/src/validation.ts 89-127 parseAssertions *)
Definition parseAssertion (raw : json) : res CheckAssertion :=
  let* assertion := asRecord raw in
  match parse_source (obj_get "source" assertion), parse_operator (obj_get "operator" assertion),
        parse_severity (obj_get "severity" assertion) with
  | Some source, Some operator, Some severity =>
      let selector := match obj_get "selector" assertion with
                      | None | Some JNull => None
                      | Some v => Some (js_string v)
                      end in
      throw_if match selector with Some s => (slen s =? 0) || (512 <? slen s) | None => false end
        as "invalid_assertion_selector" in
      throw_if bool_decide (source = header) && bool_decide (selector = None) as "missing_header_selector" in
      throw_if bool_decide (source = jsonpath) &&
               match selector with Some s => negb (starts_with "$" s) || includes "(" s | None => true end
        as "unsafe_jsonpath_selector" in
      let expected := obj_get "expected" assertion in
      throw_if bool_decide (operator = matches) && match expected with Some (JStr _) => false | _ => true end
        as "invalid_regex_assertion" in
      throw_if bool_decide (operator = matches) && match expected with Some (JStr s) => 256 <? slen s | _ => false end
        as "regex_assertion_too_large" in
      throw_if match expected with Some (JStr s) => 2048 <? slen s | _ => false end
        as "assertion_expected_too_large" in
      Ok (Assertion source operator selector expected severity)
  | _, _, _ => Err "invalid_assertion"
  end.

(* @src workers/checks/src/validation.ts parseAssertions *)
Definition parseAssertions (value : option json) : res (list CheckAssertion) :=
  match value with
  | None => Ok []
  | Some (JArr l) => throw_if (20 <? Z.of_nat (length l)) as "invalid_assertions" in mapM_res parseAssertion l
  | Some _ => Err "invalid_assertions"
  end.

(** [atob] on arbitrary text ignores ASCII white space. *)
Definition is_base64_space (c : ascii) : bool := existsb (fun n => N.eqb (ord c) n) [9; 10; 12; 13; 32]%N.
Definition platform_atob (s : string) : res (list byte) := atob (str_filter (fun c => negb (is_base64_space c)) s).

(* @src workers/checks/src/validation.ts decodeBase64 *)
Definition decodeBase64 (value : option json) (field : string) : res (option (list byte)) :=
  match value with
  | None | Some JNull => Ok None
  | Some (JStr s) =>
      if String.eqb s "" then Ok None
      else
        throw_if (5464 <? slen s) as "invalid_" ++ field in
        match platform_atob s with
        | Ok binary => throw_if (4096 <? blen binary) as "invalid_" ++ field in Ok (Some binary)
        | Err _ => Err ("invalid_" ++ field)
        end
  | Some _ => Err ("invalid_" ++ field)
  end.

(** ** HTTP checks *)

Definition header_entry_blocked (name : string) : bool :=
  (128 <? slen name) || str_in (to_lower name) BLOCKED_HEADERS.
(** [headers[name] = value]: assigning a string to [__proto__] is without effect. *)
Definition set_own (name value : string) (l : list (string * string)) : list (string * string) :=
  if String.eqb name "__proto__" then l else obj_set name value l.
(* @src workers/checks/src/validation.ts 178-189 parseHttpRequest *)
Fixpoint parse_headers (entries : props) (acc : list (string * string)) : res (list (string * string)) :=
  match entries with
  | [] => Ok acc
  | (name, value) :: rest =>
      match value with
      | JStr v =>
          throw_if header_entry_blocked name || (1024 <? slen v) as "invalid_header" in
          parse_headers rest (set_own name v acc)
      | _ => Err "invalid_header"
      end
  end.

Definition nullable (v : option json) (k : option json -> res Z) : res (option Z) :=
  if is_nullish v then Ok None else let* n := k v in Ok (Some n).
Definition nullable_string (v : option json) : option string :=
  match v with None | Some JNull => None | Some v => Some (js_string v) end.

(* @src workers/checks/src/validation.ts parseHttpRequest *)
Definition parseHttpRequest (text : string) : res HttpCheckRequest :=
  let* value := json_parse text in
  let* data := asRecord value in
  match as_string (obj_get "url" data) with
  | None => Err "invalid_url"
  | Some raw =>
      throw_if 2048 <? slen raw as "invalid_url" in
      let* u := url_parse raw None in
      throw_if negb (String.eqb (protocol u) "http:") && negb (String.eqb (protocol u) "https:")
        as "invalid_protocol" in
      throw_if negb (String.eqb (username u) "") || negb (String.eqb (password u) "")
        as "url_credentials_unsupported" in
      let* _ := assertPublicHostname (hostname u) in
      let method := match obj_get "method" data with None | Some JNull => JStr "GET" | Some m => m end in
      throw_if negb (str_in (js_string method) ["GET"; "HEAD"; "POST"; "PUT"; "PATCH"; "DELETE"])
        as "invalid_method" in
      let expectedStatus := match obj_get "expectedStatus" data with
                            | Some (JArr l) => omap (fun v => as_integer (Some v)) l
                            | _ => [200]
                            end in
      throw_if (Z.of_nat (length expectedStatus) =? 0) || (20 <? Z.of_nat (length expectedStatus))
        as "invalid_expected_status" in
      let body := nullable_string (obj_get "body" data) in
      throw_if match body with Some b => 16384 <? blen (encode_utf8 b) | None => false end
        as "request_body_too_large" in
      let* rawHeaders := match obj_get "headers" data with None => Ok [] | Some v => asRecord v end in
      throw_if 32 <? Z.of_nat (length rawHeaders) as "too_many_headers" in
      let* headers := parse_headers rawHeaders [] in
      let* degradedAfterMs := nullable (obj_get "degradedAfterMs" data) (fun v => boundedInteger v 0 0 30000) in
      let* downAfterMs := nullable (obj_get "downAfterMs" data) (fun v => boundedInteger v 0 0 30000) in
      throw_if match degradedAfterMs, downAfterMs with Some g, Some d => d <? g | _, _ => false end
        as "invalid_latency_thresholds" in
      throw_if match obj_get "tlsVerify" data with Some (JBool false) => true | _ => false end
        as "tls_verification_disabled" in
      let* maxRedirects := boundedInteger (obj_get "maxRedirects" data) 3 0 3 in
      let* maxResponseBytes := boundedInteger (obj_get "maxResponseBytes" data) 65536 1024 262144 in
      let* assertions := parseAssertions (obj_get "assertions" data) in
      Ok (HttpRequest (href u) method headers [] body expectedStatus degradedAfterMs downAfterMs maxRedirects true
            maxResponseBytes assertions)
  end.

(** ** TCP checks *)

(* @src workers/checks/src/validation.ts parseTcpRequest *)
Definition parseTcpRequest (text : string) : res TcpCheckRequest :=
  let* value := json_parse text in
  let* data := asRecord value in
  match as_string (obj_get "hostname" data) with
  | None => Err "invalid_hostname"
  | Some host =>
      throw_if 253 <? slen host as "invalid_hostname" in
      let* _ := assertPublicHostname host in
      match as_integer (obj_get "port" data) with
      | None => Err "invalid_port"
      | Some port =>
          throw_if (port <? 1) || (65535 <? port) as "invalid_port" in
          throw_if negb (is_nullish (obj_get "serverName" data)) as "server_name_unsupported" in
          throw_if match obj_get "tlsVerify" data with Some (JBool false) => true | _ => false end
            as "tls_verification_disabled" in
          let* payload := decodeBase64 (obj_get "payloadBase64" data) "tcp_payload" in
          let* prefix := decodeBase64 (obj_get "responsePrefixBase64" data) "tcp_response_prefix" in
          Ok (TcpRequest host port (is_str "on" (obj_get "secureTransport" data)) true payload prefix)
      end
  end.

(** ** Secret references *)

(* @src workers/checks/src/validation.ts 246-256 parseCheckSecretReferences *)
Fixpoint parse_secret_headers (entries : props) (acc : list (string * string)) : res (list (string * string)) :=
  match entries with
  | [] => Ok acc
  | (name, value) :: rest =>
      match value with
      | JStr v =>
          throw_if header_entry_blocked name as "invalid_secret_header_reference" in
          parse_secret_headers rest (set_own name v acc)
      | _ => Err "invalid_secret_header_reference"
      end
  end.
Definition secret_id_bad (o : option string) : bool :=
  match o with Some id => (slen id =? 0) || (128 <? slen id) | None => false end.

(* @src workers/checks/src/validation.ts parseCheckSecretReferences *)
Definition parseCheckSecretReferences (text : string) : res CheckSecretReferences :=
  let* value := json_parse text in
  let* data := asRecord value in
  let* rawHeaders := match obj_get "headers" data with None => Ok [] | Some v => asRecord v end in
  throw_if 32 <? Z.of_nat (length rawHeaders) as "too_many_secret_headers" in
  let* headers := parse_secret_headers rawHeaders [] in
  let body := nullable_string (obj_get "body" data) in
  let tcpPayload := nullable_string (obj_get "tcpPayload" data) in
  throw_if secret_id_bad body || secret_id_bad tcpPayload as "invalid_secret_reference" in
  Ok (SecretRefs headers body tcpPayload).
End Targets.

(** ** What parsing guarantees *)

Section ValidationProofs.
Context `{UA : UrlApi}.

Definition public_host (host : string) : Prop := assertPublicHostname host = Ok tt.
(** A target a check may be sent to. *)
Definition public_url (u : url) : Prop :=
  (protocol u = "http:" \/ protocol u = "https:") /\ username u = "" /\ password u = "" /\ public_host (hostname u).

(** No spelling of a local name passes, and no literal of a non-public address, in any of the
    forms the URL parser accepts. *)
Lemma public_host_iff host : public_host host <->
  let n := normalized_host host in
  0 < slen n <= 253 /\ ends_with ".local" n = false /\ ends_with ".internal" n = false /\
  n <> "localhost" /\ n <> "localhost.localdomain" /\
  match parseAddressLiteral n with Some range => range = "unicast" | None => True end.
Proof.
  unfold public_host, assertPublicHostname. cbv zeta. set (n := normalized_host host). pose proof (slen_nonneg n).
  destruct (slen n =? 0) eqn:E0; cbn [orb]; [split; [done|]; intros [? _]; bool_hyps; lia|].
  destruct (253 <? slen n) eqn:E1; cbn [orb]; [split; [done|]; intros [? _]; bool_hyps; lia|].
  destruct (ends_with ".local" n); cbn [orb]; [split; [done | by intros (_ & ? & _)]|].
  destruct (ends_with ".internal" n); cbn [orb]; [split; [done | by intros (_ & _ & ? & _)]|].
  unfold str_in, BLOCKED_HOSTNAMES. cbn [existsb].
  destruct (String.eqb_spec n "localhost") as [E|E]; cbn [orb]; [split; [done | by intros (_ & _ & _ & ? & _)]|].
  destruct (String.eqb_spec n "localhost.localdomain") as [E'|E']; cbn [orb]; [split; [done | by intros (_ & _ & _ & _ & ? & _)]|].
  bool_hyps. destruct (parseAddressLiteral n) as [r|]; [|split; [intros _; split_and!; done || lia | done]].
  destruct (String.eqb_spec r "unicast") as [->|Hr]; cbn [negb]; [split; [intros _; split_and!; done || lia | done]|].
  split; [done | by intros (_ & _ & _ & _ & _ & ?)].
Qed.

Lemma boundedInteger_bounds v d lo hi n : lo <= d <= hi -> boundedInteger v d lo hi = Ok n -> lo <= n <= hi.
Proof.
  unfold boundedInteger. intros Hd. destruct v as [v|]; [|intros H; apply Ok_inj in H; lia].
  destruct (as_integer (Some v)) as [m|]; [|done]. destruct (_ || _) eqn:E; [done|]. intros H. apply Ok_inj in H as <-.
  apply orb_false_iff in E as [E1 E2]. bool_hyps. lia.
Qed.

Lemma nullable_bounds v k lo hi o : (forall n, k v = Ok n -> lo <= n <= hi) -> nullable v k = Ok o ->
  match o with Some n => lo <= n <= hi | None => True end.
Proof.
  unfold nullable. intros Hk. destruct (is_nullish v); [by intros H; apply Ok_inj in H as <-|].
  intros H. apply rbind_ok in H as (n & Hn & H). apply Ok_inj in H as <-. by apply Hk.
Qed.

Definition header_ok (kv : string * string) : Prop :=
  str_in (to_lower kv.1) BLOCKED_HEADERS = false /\ slen kv.1 <= 128 /\ slen kv.2 <= 1024.

Lemma set_own_ok (P : string * string -> Prop) name value l : P (name, value) -> Forall P l -> Forall P (set_own name value l).
Proof.
  intros Hn Hl. unfold set_own. destruct (String.eqb name "__proto__"); [done|].
  induction Hl as [|[k v] l Hk Hl IH]; cbn; [by constructor|]. destruct (String.eqb_spec name k) as [->|]; by constructor.
Qed.
Lemma set_own_length name value l : (length (set_own name value l) <= S (length l))%nat.
Proof.
  unfold set_own. destruct (String.eqb name "__proto__"); [lia|]. induction l as [|[k v] l IH]; cbn; [lia|].
  destruct (String.eqb name k); cbn; lia.
Qed.

Lemma parse_headers_ok entries acc l : Forall header_ok acc -> parse_headers entries acc = Ok l ->
  Forall header_ok l /\ (length l <= length acc + length entries)%nat.
Proof.
  revert acc. induction entries as [|[name value] rest IH]; intros acc Hacc; cbn [parse_headers].
  - intros H. apply Ok_inj in H as <-. split; [done | lia].
  - destruct value as [| | |v| |]; try done. destruct (_ || _) eqn:E; [done|]. intros H.
    apply orb_false_iff in E as [E1 E2]. unfold header_entry_blocked in E1. apply orb_false_iff in E1 as [E1 E3].
    destruct (IH (set_own name v acc)) as [Hl Hlen]; [|done|].
    + apply set_own_ok; [|done]. unfold header_ok. cbn [fst snd]. bool_hyps. split_and!; [done | lia | lia].
    + split; [done|]. pose proof (set_own_length name v acc). cbn. lia.
Qed.

(** What an assertion looks like after parsing. *)
Definition assertion_ok (a : CheckAssertion) : Prop :=
  match as_selector a with Some s => 0 < slen s <= 512 | None => as_source a = body end /\
  (as_source a = jsonpath -> exists s, as_selector a = Some s /\ starts_with "$" s = true /\ includes "(" s = false) /\
  (as_operator a = matches -> exists s, as_expected a = Some (JStr s) /\ slen s <= 256) /\
  (forall s, as_expected a = Some (JStr s) -> slen s <= 2048).

Lemma parseAssertion_ok raw a : parseAssertion raw = Ok a -> assertion_ok a.
Proof.
  unfold parseAssertion. intros H. apply rbind_ok in H as (l & _ & H).
  destruct (parse_source _) as [source|]; [|done]. destruct (parse_operator _) as [operator|]; [|done].
  destruct (parse_severity _) as [severity|]; [|done]. cbv zeta in H.
  set (selector := match obj_get "selector" l with Some _ => _ | None => _ end) in H.
  destruct (match selector with Some s => _ | None => false end) eqn:E1 in H; [done|].
  destruct (bool_decide (source = header) && _) eqn:E2 in H; [done|].
  destruct (bool_decide (source = jsonpath) && _) eqn:E3 in H; [done|].
  destruct (bool_decide (operator = matches) && _) eqn:E4 in H; [done|].
  destruct (bool_decide (operator = matches) && _) eqn:E5 in H; [done|].
  destruct (match obj_get "expected" l with Some (JStr s) => _ | _ => false end) eqn:E6 in H; [done|].
  apply Ok_inj in H as <-. unfold assertion_ok. cbn [as_selector as_source as_operator as_expected].
  clearbody selector. split_and!.
  - destruct selector as [s|].
    + pose proof (slen_nonneg s). apply orb_false_iff in E1 as [? ?]. bool_hyps. lia.
    + destruct source; [by rewrite !bool_decide_eq_true_2 in E2 | | done].
      by rewrite bool_decide_eq_true_2 in E3.
  - intros ->. rewrite bool_decide_eq_true_2 in E3 by done. cbn [andb] in E3. destruct selector as [s|]; [|done].
    apply orb_false_iff in E3 as [E3 E3']. apply negb_false_iff in E3. by exists s.
  - intros ->. rewrite bool_decide_eq_true_2 in E4, E5 by done. cbn [andb] in E4, E5.
    destruct (obj_get "expected" l) as [[| | |s| |]|]; try done. exists s. split; [done|]. bool_hyps. lia.
  - intros s Hs. rewrite Hs in E6. bool_hyps. lia.
Qed.

(** C37: whatever JSON is stored, a request that parses stays within the checks' limits: it goes to a
    public target without credentials; at most 3 redirects, 256 KiB and 20 assertions; none of
    the blocked headers under any capitalisation; ordered thresholds; TLS verified. *)
Theorem parseHttpRequest_safe text c (Hok : parseHttpRequest text = Ok c) :
  (exists u raw, url_parse raw None = Ok u /\ h_url c = href u /\ public_url u) /\
  0 <= h_maxRedirects c <= 3 /\ 1024 <= h_maxResponseBytes c <= 262144 /\
  (length (h_assertions c) <= 20)%nat /\ Forall assertion_ok (h_assertions c) /\
  (1 <= length (h_expectedStatus c) <= 20)%nat /\
  (length (h_headers c) <= 32)%nat /\ Forall header_ok (h_headers c) /\ h_sensitiveHeaders c = [] /\
  match h_degradedAfterMs c with Some g => 0 <= g <= 30000 | None => True end /\
  match h_downAfterMs c with Some d => 0 <= d <= 30000 | None => True end /\
  match h_degradedAfterMs c, h_downAfterMs c with Some g, Some d => g <= d | _, _ => True end /\
  match h_body c with Some b => slen b <= 16384 | None => True end /\ h_tlsVerify c = true.
Proof.
  unfold parseHttpRequest in Hok. apply rbind_ok in Hok as (value & _ & Hok). apply rbind_ok in Hok as (data & _ & Hok).
  destruct (as_string _) as [raw|]; [|done]. destruct (2048 <? slen raw); [done|].
  apply rbind_ok in Hok as (u & Hu & Hok). destruct (_ && _) eqn:Ep in Hok; [done|].
  destruct (_ || _) eqn:Ecred in Hok; [done|]. apply rbind_ok in Hok as (x & Hhost & Hok). destruct x. cbv zeta in Hok.
  destruct (negb (str_in _ _)) in Hok; [done|].
  set (statuses := match obj_get "expectedStatus" data with Some _ => _ | None => _ end) in Hok.
  destruct ((Z.of_nat (length statuses) =? 0) || _) eqn:Es in Hok; [done|].
  destruct (match nullable_string (obj_get "body" data) with Some b => _ | None => false end) eqn:Eb in Hok; [done|].
  apply rbind_ok in Hok as (rawHeaders & _ & Hok). destruct (32 <? _) eqn:Eh in Hok; [done|].
  apply rbind_ok in Hok as (hs & Hhs & Hok). apply rbind_ok in Hok as (deg & Hdeg & Hok). apply rbind_ok in Hok as (dwn & Hdwn & Hok).
  destruct (match deg, dwn with Some _, Some _ => _ | _, _ => false end) eqn:Et in Hok; [done|].
  destruct (match obj_get "tlsVerify" data with Some _ => _ | None => false end) in Hok; [done|].
  apply rbind_ok in Hok as (red & Hred & Hok). apply rbind_ok in Hok as (bytes & Hbytes & Hok).
  apply rbind_ok in Hok as (asserts & Has & Hok). apply Ok_inj in Hok as <-.
  cbn [h_url h_maxRedirects h_maxResponseBytes h_assertions h_expectedStatus h_headers h_sensitiveHeaders
       h_degradedAfterMs h_downAfterMs h_body h_tlsVerify].
  destruct (parse_headers_ok _ _ _ (List.Forall_nil _) Hhs) as [Hho Hlen].
  assert (Hasserts : (length asserts <= 20)%nat /\ Forall assertion_ok asserts).
  { unfold parseAssertions in Has. destruct (obj_get "assertions" data) as [[| | | |l|]|]; try done.
    - destruct (20 <? Z.of_nat (length l)) eqn:E20; [done|]. apply mapM_res_ok in Has. split.
      + apply Forall2_length in Has. bool_hyps. lia.
      + clear -Has. induction Has; constructor; [by eapply parseAssertion_ok | done].
    - apply Ok_inj in Has as <-. split; [cbn; lia | constructor]. }
  pose proof (boundedInteger_bounds _ 3 0 3 _ ltac:(lia) Hred) as Bred.
  pose proof (boundedInteger_bounds _ 65536 1024 262144 _ ltac:(lia) Hbytes) as Bbytes.
  pose proof (nullable_bounds _ _ 0 30000 _ (fun n => boundedInteger_bounds _ 0 0 30000 n ltac:(lia)) Hdeg) as Bdeg.
  pose proof (nullable_bounds _ _ 0 30000 _ (fun n => boundedInteger_bounds _ 0 0 30000 n ltac:(lia)) Hdwn) as Bdwn.
  apply orb_false_iff in Es as [Es1 Es2]. apply orb_false_iff in Ecred as [Ec1 Ec2]. bool_hyps. cbn [length] in Hlen.
  destruct Hasserts as [Ha1 Ha2]. split_and!; try done; try lia.
  - exists u, raw. split; [done|]. split; [done|]. unfold public_url, public_host. split_and!; try done.
    apply andb_false_iff in Ep as [Ep|Ep]; apply negb_false_iff, String.eqb_eq in Ep; auto.
  - destruct deg, dwn; try done. bool_hyps. lia.
  - destruct (nullable_string _) as [b|]; [|done]. rewrite blen_encode_utf8 in Eb. bool_hyps. lia.
Qed.
End ValidationProofs.

Definition sample_request_text : string :=
  json_stringify (OObj [("url", OStr "https://a.example/health"); ("headers", OObj [("Accept", OStr "*/*")])]).
Definition sample_request : res HttpCheckRequest := parseHttpRequest sample_request_text.
Definition sample_request_ok : bool := match sample_request with Ok _ => true | Err _ => false end.
Lemma sample_request_parses : exists c, parseHttpRequest sample_request_text = Ok c.
Proof.
  assert (H : sample_request_ok = true) by (vm_compute; reflexivity). revert H. unfold sample_request_ok, sample_request.
  destruct (parseHttpRequest sample_request_text) as [c|e]; [by exists c | done].
Qed.
Example parseHttpRequest_safe_witness :
  exists c, parseHttpRequest sample_request_text = Ok c /\ 0 <= h_maxRedirects c <= 3 /\ h_tlsVerify c = true.
Proof.
  destruct sample_request_parses as [c Hc]. exists c. split; [exact Hc|].
  destruct (parseHttpRequest_safe sample_request_text c Hc) as (_ & Hr & H). split; [exact Hr|].
  do 11 destruct H as [_ H]. exact H.
Defined.
