(* ===== verification/Envelopes.v ===== *)
(** * Envelopes: secrets at rest

    Check secrets ([packages/contracts/src/check-secrets.ts], used by
    [workers/checks/src/secrets.ts]) and notification channel configurations
    ([packages/contracts/src/notification-config.ts]) are stored under AES-GCM, bound to their
    workspace and row by the associated data.  The cipher is the [WebCrypto] class; what is
    proved is what the code adds around it. *)

From Stdlib Require Import ZArith Lia Bool String Ascii List.
From stdpp Require Import base tactics sets list strings.
From S2P Require Import Prelude.
From S2P Require Import Js.
From S2P Require Import Sql.
From S2P Require Import Crypto.
From S2P Require Import Web.
From S2P Require Import CheckPersistence.
From S2P Require Import Validation.
Open Scope string_scope.
Open Scope Z_scope.

(** ** Keys *)

(** Pairs of hexadecimal digits. *)
Fixpoint hex_bytes (s : string) : option (list byte) :=
  match s with
  | EmptyString => Some []
  | String a (String b r) =>
      match hex_val a, hex_val b, hex_bytes r with
      | Some x, Some y, Some bs => Some (byte_of_Z (16 * Z.of_N x + Z.of_N y) :: bs)
      | _, _, _ => None
      end
  | _ => None
  end.
Definition hex_key (e : string) (value : string) : res (list byte) :=
  if (slen value =? 64) && str_forall is_hex value
  then match hex_bytes value with Some bs => Ok bs | None => Err e end else Err e.
(* @src packages/contracts/src/check-secrets.ts decodeHexKey *)
Definition decodeHexKey : string -> res (list byte) := hex_key "invalid_check_secret_wrapping_key".
(* @src packages/contracts/src/notification-config.ts decodeKey *)
Definition decodeKey : string -> res (list byte) := hex_key "invalid_notification_wrapping_key".

(* @src packages/contracts/src/check-secrets.ts WrappedCheckSecret *)
Record Wrapped := MkWrapped { wr_ciphertext : list byte; wr_nonce : list byte }.

Section Secrets.
Context `{WC : WebCrypto}.

(** ** Check secrets *)

(* @src packages/contracts/src/check-secrets.ts associatedData *)
Definition associatedData (workspaceId secretId : string) : res (list byte) :=
  throw_if (slen workspaceId =? 0) || (128 <? slen workspaceId) || (slen secretId =? 0) || (128 <? slen secretId)
    as "invalid_check_secret_scope" in
  Ok (encode_utf8 ("alphaping/check-secret/v1:" ++ workspaceId ++ ":" ++ secretId)).

(** [nonce] are the twelve bytes of [crypto.getRandomValues]. *)
(* @src packages/contracts/src/check-secrets.ts wrapCheckSecret *)
Definition wrapCheckSecret (nonce : list byte) (plaintext keyHex workspaceId secretId : string) : res Wrapped :=
  let value := encode_utf8 plaintext in
  throw_if (blen value =? 0) || (16384 <? blen value) as "invalid_check_secret_size" in
  let* aad := associatedData workspaceId secretId in
  let* key := decodeHexKey keyHex in
  Ok (MkWrapped (aes_gcm_encrypt key nonce aad value) nonce).

(* @src packages/contracts/src/check-secrets.ts unwrapCheckSecret *)
Definition unwrapCheckSecret (wrapped : Wrapped) (keyHex workspaceId secretId : string) : res string :=
  throw_if negb (blen (wr_nonce wrapped) =? 12) || (16400 <? blen (wr_ciphertext wrapped))
    as "invalid_check_secret_envelope" in
  let* aad := associatedData workspaceId secretId in
  let* key := decodeHexKey keyHex in
  let* plaintext := aes_gcm_decrypt key (wr_nonce wrapped) aad (wr_ciphertext wrapped) in
  Ok (decode_utf8 plaintext).

(** A row of [check_secrets]. *)
(* @src workers/checks/src/secrets.ts SecretRow *)
Record SecretRow := MkSecret {
  se_id : string;
  se_workspace : string;
  se_wrapped_value : list byte;
  se_nonce : list byte;
}.
(* @src workers/checks/src/secrets.ts ResolvedCheckSecrets *)
Record ResolvedCheckSecrets := Resolved {
  rv_headers : list (string * string);
  rv_body : option string;
  rv_tcpPayload : option (list byte);
}.

(** The first occurrences, in order: [ids.filter((id, i, all) => all.indexOf(id) === i)]. *)
Fixpoint dedup_from (seen l : list string) : list string :=
  match l with
  | [] => []
  | x :: l' => if str_in x seen then dedup_from seen l' else x :: dedup_from (x :: seen) l'
  end.
(* @src workers/checks/src/secrets.ts referencedIds *)
Definition referencedIds (r : CheckSecretReferences) : list string :=
  dedup_from [] (map snd (sr_headers r) ++ option_list (sr_body r) ++ option_list (sr_tcpPayload r))%list.

(** The plaintexts by id, of the rows the query returned. *)
Definition unwrap_row (row : CheckConfigRow) (keyHex : string) (secret : SecretRow) : res (string * string) :=
  let* text := unwrapCheckSecret (MkWrapped (se_wrapped_value secret) (se_nonce secret)) keyHex
                 (cc_workspace_id row) (se_id secret) in
  Ok (se_id secret, text).
Definition secret_value (plaintext : list (string * string)) (id : string) : res string :=
  match obj_get id plaintext with Some v => Ok v | None => Err "missing_check_secret" end.
Definition header_value (plaintext : list (string * string)) (kv : string * string) : res (string * string) :=
  let* v := secret_value plaintext kv.2 in Ok (kv.1, v).
Definition optional_value (plaintext : list (string * string)) (id : option string) : res (option string) :=
  match id with None => Ok None | Some id => let* v := secret_value plaintext id in Ok (Some v) end.

(* @src workers/checks/src/secrets.ts resolveCheckSecrets *)
Definition resolveCheckSecrets (db : list SecretRow) (row : CheckConfigRow) (keyHex : string)
  : res ResolvedCheckSecrets :=
  let* references := parseCheckSecretReferences (cc_secret_refs_json row) in
  let ids := referencedIds references in
  if (length ids =? 0)%nat then Ok (Resolved [] None None)
  else
    let results := List.filter (fun s => String.eqb (se_workspace s) (cc_workspace_id row) && str_in (se_id s) ids) db in
    throw_if negb (length results =? length ids)%nat as "missing_check_secret" in
    let* plaintext := mapM_res (unwrap_row row keyHex) results in
    let* headers := mapM_res (header_value plaintext) (sr_headers references) in
    let* body := optional_value plaintext (sr_body references) in
    let* tcp := optional_value plaintext (sr_tcpPayload references) in
    let tcpPayload := encode_utf8 <$> tcp in
    throw_if match tcpPayload with Some b => 4096 <? blen b | None => false end as "secret_payload_too_large" in
    Ok (Resolved headers body tcpPayload).

(** [{ ...a, ...b }] *)
Definition spread (a b : list (string * string)) : list (string * string) :=
  fold_left (fun acc kv => obj_set kv.1 kv.2 acc) b a.
Definition or_else_str {A} (a b : option A) : option A := match a with Some _ => a | None => b end.

(* @src workers/checks/src/secrets.ts applyHttpSecrets *)
Definition applyHttpSecrets (c : HttpCheckRequest) (secrets : ResolvedCheckSecrets) : HttpCheckRequest :=
  HttpRequest (h_url c) (h_method c) (spread (h_headers c) (rv_headers secrets))
    (map (fun kv => to_lower kv.1) (rv_headers secrets)) (or_else_str (rv_body secrets) (h_body c))
    (h_expectedStatus c) (h_degradedAfterMs c) (h_downAfterMs c) (h_maxRedirects c) (h_tlsVerify c)
    (h_maxResponseBytes c) (h_assertions c).
(* @src workers/checks/src/secrets.ts applyTcpSecrets *)
Definition applyTcpSecrets (c : TcpCheckRequest) (secrets : ResolvedCheckSecrets) : TcpCheckRequest :=
  TcpRequest (t_hostname c) (t_port c) (t_secureTransport c) (t_tlsVerify c)
    (or_else_str (rv_tcpPayload secrets) (t_payload c)) (t_responsePrefix c).

(** ** Notification configurations *)

(* @src packages/contracts/src/notification-config.ts 1-1 MAX_CONFIG_BYTES *)
Definition MAX_CONFIG_BYTES : Z := 16384.
(* @src packages/contracts/src/notification-config.ts additionalData *)
Definition additionalData (workspaceId channelId : string) : res (list byte) :=
  throw_if String.eqb workspaceId "" || String.eqb channelId "" as "invalid_notification_config_scope" in
  Ok (encode_utf8 ("alphaping:notification-config:v1:" ++ workspaceId ++ ":" ++ channelId)).

(* @src packages/contracts/src/notification-config.ts wrapNotificationConfig *)
Definition wrapNotificationConfig (nonce : list byte) (config : list (string * jout)) (keyHex workspaceId channelId : string)
  : res Wrapped :=
  let plaintext := encode_utf8 (json_stringify (OObj config)) in
  throw_if (blen plaintext =? 0) || (MAX_CONFIG_BYTES <? blen plaintext) as "invalid_notification_config_size" in
  let* aad := additionalData workspaceId channelId in
  let* key := decodeKey keyHex in
  Ok (MkWrapped (aes_gcm_encrypt key nonce aad plaintext) nonce).

(* @src packages/contracts/src/notification-config.ts unwrapNotificationConfig *)
Definition unwrapNotificationConfig (wrapped : Wrapped) (keyHex workspaceId channelId : string) : res props :=
  throw_if negb (blen (wr_nonce wrapped) =? 12) || (MAX_CONFIG_BYTES + 16 <? blen (wr_ciphertext wrapped))
    as "invalid_notification_config_envelope" in
  let* aad := additionalData workspaceId channelId in
  let* key := decodeKey keyHex in
  let* plaintext := aes_gcm_decrypt key (wr_nonce wrapped) aad (wr_ciphertext wrapped) in
  let* value := json_parse (decode_utf8 plaintext) in
  as_record "invalid_notification_config" value.
End Secrets.

(** ** What is stored comes back *)

Section EnvelopeProofs.
Context `{WC : WebCrypto} `{WL : !WebCryptoLaws}.

(** Whatever can be wrapped can be unwrapped, in the same scope and with the same key: the size
    limits of the two directions match (a secret of 16 KiB plus the 16-byte tag still fits). *)
Theorem secrets_and_configs_roundtrip nonce keyHex workspace id (Hn : blen nonce = 12) :
  (forall text w, wrapCheckSecret nonce text keyHex workspace id = Ok w ->
     unwrapCheckSecret w keyHex workspace id = Ok text) /\
  (forall config w, jout_ok (OObj config) -> wrapNotificationConfig nonce config keyHex workspace id = Ok w ->
     exists value, json_of (OObj config) = JObj value /\ unwrapNotificationConfig w keyHex workspace id = Ok value).
Proof.
  split.
  - intros text w. unfold wrapCheckSecret, unwrapCheckSecret. destruct (_ || _) eqn:E; [done|].
    apply orb_false_iff in E as [_ E]. intros H. apply rbind_ok in H as (aad & Ha & H).
    apply rbind_ok in H as (key & Hk & H). apply Ok_inj in H as <-. cbn [wr_nonce wr_ciphertext].
    rewrite Hn, aes_gcm_encrypt_length, Ha, Hk. cbn [rbind].
    assert (16400 <? blen (encode_utf8 text) + 16 = false) as -> by (bool_hyps; apply Z.ltb_ge; lia).
    cbn [Z.eqb negb orb]. rewrite aes_gcm_decrypt_encrypt. cbn [rbind]. by rewrite decode_encode_utf8.
  - intros config w Hok. unfold wrapNotificationConfig, unwrapNotificationConfig. destruct (_ || _) eqn:E; [done|].
    apply orb_false_iff in E as [_ E]. intros H. apply rbind_ok in H as (aad & Ha & H).
    apply rbind_ok in H as (key & Hk & H). apply Ok_inj in H as <-. cbn [wr_nonce wr_ciphertext].
    eexists. split; [reflexivity|]. rewrite Hn, aes_gcm_encrypt_length, Ha, Hk. cbn [rbind].
    assert (MAX_CONFIG_BYTES + 16 <? blen (encode_utf8 (json_stringify (OObj config))) + 16 = false) as ->
      by (bool_hyps; apply Z.ltb_ge; lia).
    rewrite aes_gcm_decrypt_encrypt. cbn [rbind Pos.eqb Z.eqb negb orb].
    rewrite decode_encode_utf8, json_parse_stringify by done. done.
Qed.

(** Only secrets of the check's own workspace are used, every one of them was decrypted in the
    scope of that workspace and its own id, and their header names are the ones that redirects
    strip. *)
Theorem resolveCheckSecrets_scoped db row keyHex c secrets
  (Hr : resolveCheckSecrets db row keyHex = Ok secrets) :
  (forall kv, kv ∈ rv_headers secrets -> exists s, s ∈ db /\ se_workspace s = cc_workspace_id row /\
     unwrapCheckSecret (MkWrapped (se_wrapped_value s) (se_nonce s)) keyHex (cc_workspace_id row) (se_id s) = Ok kv.2) /\
  match rv_tcpPayload secrets with Some b => blen b <= 4096 | None => True end /\
  forall kv, kv ∈ rv_headers secrets -> to_lower kv.1 ∈ h_sensitiveHeaders (applyHttpSecrets c secrets).
Proof.
  split_and!; [| |intros kv Hkv; cbn; by apply (list_elem_of_fmap_2 (fun kv => to_lower kv.1))];
    unfold resolveCheckSecrets in Hr; apply rbind_ok in Hr as (refs & _ & Hr); cbv zeta in Hr.
  - destruct (length (referencedIds refs) =? 0)%nat; [apply Ok_inj in Hr as <-; intros kv Hkv; by apply elem_of_nil in Hkv|].
    destruct (negb _) in Hr; [done|]. apply rbind_ok in Hr as (plain & Hp & Hr). apply rbind_ok in Hr as (hs & Hh & Hr).
    apply rbind_ok in Hr as (body & _ & Hr). apply rbind_ok in Hr as (tcp & _ & Hr).
    destruct (match encode_utf8 <$> tcp with Some _ => _ | None => _ end) in Hr; [done|]. apply Ok_inj in Hr as <-.
    cbn [rv_headers]. intros kv Hkv. apply mapM_res_ok in Hh, Hp.
    apply list_elem_of_lookup in Hkv as [i Hi]. destruct (Forall2_lookup_r _ _ _ _ _ Hh Hi) as (ref & _ & Href).
    unfold header_value in Href. apply rbind_ok in Href as (v & Hv & Href). apply Ok_inj in Href as <-. cbn [snd].
    unfold secret_value in Hv. destruct (obj_get _ plain) as [v'|] eqn:Eg; [|done]. apply Ok_inj in Hv as ->.
    assert (Hin : exists k, (k, v) ∈ plain).
    { clear - Eg. revert Eg. generalize (ref.2). intros key. induction plain as [|[k x] l IH]; cbn; [done|].
      destruct (String.eqb key k); [intros [= ->]; exists k; by left|]. intros H. destruct (IH H) as (k' & ?). exists k'. by right. }
    destruct Hin as (k & Hk). apply list_elem_of_lookup in Hk as [j Hj].
    destruct (Forall2_lookup_r _ _ _ _ _ Hp Hj) as (s & Hs & Hu). apply list_elem_of_lookup_2 in Hs.
    apply filter_In_elem in Hs as [Hs Hw]. apply andb_true_iff in Hw as [Hw _]. apply String.eqb_eq in Hw.
    exists s. split; [done|]. split; [done|]. unfold unwrap_row in Hu. apply rbind_ok in Hu as (t & Ht & Hu).
    apply Ok_inj in Hu. by injection Hu as _ ->.
  - destruct (length (referencedIds refs) =? 0)%nat; [by apply Ok_inj in Hr as <-|].
    destruct (negb _) in Hr; [done|]. apply rbind_ok in Hr as (plain & _ & Hr). apply rbind_ok in Hr as (hs & _ & Hr).
    apply rbind_ok in Hr as (body & _ & Hr). apply rbind_ok in Hr as (tcp & _ & Hr).
    destruct (match encode_utf8 <$> tcp with Some _ => _ | None => _ end) eqn:E in Hr; [done|]. apply Ok_inj in Hr as <-.
    cbn [rv_tcpPayload]. destruct tcp as [t|]; [|done]. cbn in E |- *. bool_hyps. lia.
Qed.
End EnvelopeProofs.
