(* ===== verification/Executor.v ===== *)
(** * Executor: running a check

    Models [workers/checks/src/executor.ts].  The outside world is a state with three
    operations, [fetch], [performance.now()] and the TCP socket; [executeHttp] threads it
    together with the list of requests it has sent, so that the theorems can speak about every
    request of a redirect chain whatever the servers answer. *)

From Stdlib Require Import ZArith Lia Bool String Ascii List.
From stdpp Require Import base tactics sets list strings sorting.
From S2P Require Import Prelude.
From S2P Require Import Js.
From S2P Require Import JsString.
From S2P Require Import Web.
From S2P Require Import Assertions.
From S2P Require Import CheckPersistence.
From S2P Require Import Validation.
Open Scope string_scope.
Open Scope Z_scope.

(* @src workers/checks/src/executor.ts 7-12 REDIRECT_SENSITIVE_HEADERS *)
Definition REDIRECT_SENSITIVE_HEADERS : list string :=
  ["authorization"; "cookie"; "proxy-authorization"; "x-api-key"].

(* @src workers/checks/src/executor.ts outcome *)
Definition outcome (state : ExecState) (latencyMs : option Z) (failureCode failureSummary : option string)
  : ExecutedCheck := Executed state latencyMs failureCode failureSummary.
Definition down (code : string) : ExecutedCheck := outcome Down None (Some code) None.

(** ** Retries *)

(** [execute] runs in a world; an error propagates. *)
(* @src workers/checks/src/executor.ts executeWithRetries *)
Fixpoint executeWithRetries {W} (execute : W -> res ExecutedCheck * W) (retryCount : nat) (w : W)
  : res ExecutedCheck * W :=
  let '(result, w1) := execute w in
  match retryCount, result with
  | S n, Ok r => if bool_decide (ex_state r = Down) then executeWithRetries execute n w1 else (result, w1)
  | _, _ => (result, w1)
  end.

(** ** Redirects *)

Section Http.
Context `{UA : UrlApi} `{AE : AssertionEngines}.

(* @src workers/checks/src/executor.ts redirectHeaders *)
Definition redirectHeaders (configured : headers) (from to : url) (sensitiveHeaders : list string) : headers :=
  if String.eqb (origin from) (origin to) then configured
  else
    fold_left (fun h name =>
      let normalized := to_lower name in
      if str_in normalized REDIRECT_SENSITIVE_HEADERS || str_in normalized sensitiveHeaders
      then headers_delete name h else h) (map fst configured) configured.

(* @src workers/checks/src/executor.ts assertPublicUrl *)
Definition assertPublicUrl (u : url) : res unit :=
  throw_if (negb (String.eqb (protocol u) "http:") && negb (String.eqb (protocol u) "https:")) ||
           negb (String.eqb (username u) "") || negb (String.eqb (password u) "")
    as "url_credentials_unsupported" in
  assertPublicHostname (hostname u).

(** The chunks of a body up to the limit, decoded together: the streaming decoder's pieces
    concatenate to the decoding of the whole. *)
Fixpoint read_chunks (chunks : list (res (list byte))) (maximumBytes size : Z) (acc : list byte) : res (list byte) :=
  match chunks with
  | [] => Ok acc
  | Err e :: _ => Err e
  | Ok value :: rest =>
      throw_if maximumBytes <? size + blen value as "response_too_large" in
      read_chunks rest maximumBytes (size + blen value) (acc ++ value)%list
  end.
(* @src workers/checks/src/executor.ts readBoundedText *)
Definition readBoundedText (r : response) (maximumBytes : Z) : res string :=
  match rs_body r with
  | None => Ok ""
  | Some chunks => let* bytes := read_chunks chunks maximumBytes 0 [] in Ok (decode_utf8 bytes)
  end.

Record request := Request {
  rq_url : url;
  rq_method : json;
  rq_headers : headers;
  rq_body : option string;
}.

(** The world: [fetch] (throwing [TimeoutError] when the signal aborts), the time that reading a
    body takes, and the clock. *)
Context {W : Type} (fetch : request -> W -> res response * W) (drain : response -> W -> W) (now : W -> Z).

(** [body] counts as present when it is a non-empty string. *)
Definition truthy (b : option string) : bool := match b with Some s => negb (String.eqb s "") | None => false end.
Definition is_method (m : string) (v : json) : bool := match v with JStr s => String.eqb s m | _ => false end.

Definition needs_body (c : HttpCheckRequest) : bool :=
  existsb (fun a => bool_decide (as_source a = body) || bool_decide (as_source a = jsonpath)) (h_assertions c).

(** What is done with a response that is no redirect; the latency is measured when it arrives and
    again when its body has been read. *)
(* @src workers/checks/src/executor.ts 141-174 executeHttp *)
Definition judge_response (c : HttpCheckRequest) (r : response) (firstLatency latencyMs : Z) : res ExecutedCheck :=
  if negb (existsb (Z.eqb (rs_status r)) (h_expectedStatus c))
  then Ok (outcome Down (Some firstLatency) (Some "unexpected_status") (Some ("status:" ++ z_to_string (rs_status r))))
  else
    let* responseBody := if needs_body c then readBoundedText r (h_maxResponseBytes c) else Ok "" in
    let* v := evaluateAssertions (h_assertions c) (rs_headers r) responseBody in
    let reached t := match t with Some limit => limit <=? latencyMs | None => false end in
    let slow t := Some ("latency>=" ++ z_to_string (coalesce t 0) ++ "ms") in
    if reached (h_downAfterMs c) then Ok (outcome Down (Some latencyMs) (Some "latency_threshold") (slow (h_downAfterMs c)))
    else if bool_decide (av_state v = Down)
    then Ok (outcome Down (Some latencyMs) (av_failureCode v) (av_failureSummary v))
    else if reached (h_degradedAfterMs c)
    then Ok (outcome Degraded (Some latencyMs) (Some "latency_threshold") (slow (h_degradedAfterMs c)))
    else Ok (outcome (av_state v) (Some latencyMs) (av_failureCode v) (av_failureSummary v)).

(** One hop of the chain: where a redirect response leads.  [inl] ends the check. *)
(* @src workers/checks/src/executor.ts 107-139 executeHttp *)
Definition follow_redirect (c : HttpCheckRequest) (req : request) (r : response) (lastRedirect : bool)
  : res (ExecutedCheck + request) :=
  let* location := headers_get "location" (rs_headers r) in
  match location with
  | None => Ok (inl (down "redirect_limit"))
  | Some location =>
      if lastRedirect then Ok (inl (down "redirect_limit"))
      else
        let* nextTarget := url_parse location (Some (rq_url req)) in
        let* _ := assertPublicUrl nextTarget in
        if String.eqb (protocol (rq_url req)) "https:" && negb (String.eqb (protocol nextTarget) "https:")
        then Ok (inl (down "redirect_downgrade"))
        else
          let to_get := (((rs_status r =? 301) || (rs_status r =? 302)) && is_method "POST" (rq_method req)) ||
                        ((rs_status r =? 303) && negb (is_method "HEAD" (rq_method req))) in
          let method := if to_get then JStr "GET" else rq_method req in
          let body := if to_get then None else rq_body req in
          let hs := if to_get
                    then fold_left (fun h name => headers_delete name h)
                           ["content-type"; "content-length"; "content-encoding"; "content-language"; "content-location"]
                           (rq_headers req)
                    else rq_headers req in
          if truthy body && negb (String.eqb (origin (rq_url req)) (origin nextTarget))
          then Ok (inl (down "redirect_body_blocked"))
          else Ok (inr (Request nextTarget method
                 (redirectHeaders hs (rq_url req) nextTarget (h_sensitiveHeaders c)) body))
  end.

Definition is_redirect (status : Z) : bool := existsb (Z.eqb status) [301; 302; 303; 307; 308].

(** The loop from [redirect] on, [left] iterations before the last one; also returned are the
    requests sent, in order. *)
(* @src workers/checks/src/executor.ts 98-175 executeHttp *)
Fixpoint http_loop (c : HttpCheckRequest) (startedAt : Z) (left : nat) (req : request) (w : W)
  : res ExecutedCheck * W * list request :=
  match assertPublicUrl (rq_url req) with
  | Err e => (Err e, w, [])
  | Ok _ =>
      let '(answer, w1) := fetch req w in
      match answer with
      | Err e => (Err e, w1, [req])
      | Ok r =>
          if is_redirect (rs_status r) then
            match follow_redirect c req r (left =? 0)%nat with
            | Err e => (Err e, w1, [req])
            | Ok (inl result) => (Ok result, w1, [req])
            | Ok (inr next) =>
                match left with
                | O => (Ok (down "internal"), w1, [req])
                | S left' =>
                    let '(result, w2, sent) := http_loop c startedAt left' next w1 in (result, w2, req :: sent)
                end
            end
          else
            let w2 := if existsb (Z.eqb (rs_status r)) (h_expectedStatus c) && needs_body c then drain r w1 else w1 in
            (judge_response c r (Z.max 0 (now w1 - startedAt)) (Z.max 0 (now w2 - startedAt)), w2, [req])
      end
  end.

(** [catch (error)]: what an error of the loop is reported as. *)
(* @src workers/checks/src/executor.ts 176-185 executeHttp *)
Definition error_outcome (e : string) : ExecutedCheck :=
  if String.eqb e "response_too_large" then down "response_too_large"
  else down (if String.eqb e "TimeoutError" then "timeout" else "network").

(* @src workers/checks/src/executor.ts executeHttp *)
Definition executeHttp (c : HttpCheckRequest) (w : W) : res ExecutedCheck * W * list request :=
  let startedAt := now w in
  match url_parse (h_url c) None with
  | Err e => (Err e, w, [])
  | Ok target =>
      match new_headers (h_headers c) with
      | Err e => (Err e, w, [])
      | Ok hs =>
          let body := if is_method "GET" (h_method c) || is_method "HEAD" (h_method c) then None else h_body c in
          if h_maxRedirects c <? 0 then (Ok (down "internal"), w, [])
          else
            let '(result, w', sent) :=
              http_loop c startedAt (Z.to_nat (h_maxRedirects c)) (Request target (h_method c) hs body) w in
            (Ok (match result with Ok r => r | Err e => error_outcome e end), w', sent)
      end
  end.
End Http.

(** ** TCP *)

(** A socket as the check sees it: how long each operation takes, in milliseconds, and how it
    ends.  The stream's end ([done]) comes after the last read. *)
Record socket := Socket {
  sk_opened : Z * res unit;
  sk_write : Z * res unit;
  sk_reads : list (Z * res (list byte));
}.

(** [Promise.race] of an operation with a timer; the clock counts from [startedAt]. *)
(* @src workers/checks/src/executor.ts withTimeout *)
Definition withTimeout {A} (op : Z * res A) (timeoutMs clock : Z) : res A * Z :=
  if op.1 <? timeoutMs then (op.2, clock + op.1) else (Err "TimeoutError", clock + timeoutMs).
(* @src workers/checks/src/executor.ts remainingTimeout *)
Definition remainingTimeout (timeoutMs clock : Z) : Z := Z.max 1 (timeoutMs - clock).

(** The read loop of [exchangeTcpPayload]; [received] holds [offset] bytes. *)
(* @src workers/checks/src/executor.ts 221-241 exchangeTcpPayload *)
Fixpoint read_prefix (expected received : list byte) (reads : list (Z * res (list byte))) (timeoutMs clock : Z)
  : res bool * Z :=
  if (length received <? length expected)%nat then
    match reads with
    | [] => (Ok false, clock)
    | read :: rest =>
        match withTimeout read (remainingTimeout timeoutMs clock) clock with
        | (Err e, clock') => (Err e, clock')
        | (Ok value, clock') =>
            read_prefix expected (received ++ take (length expected - length received) value)%list rest timeoutMs clock'
        end
    end
  else (Ok (bool_decide (received = expected)), clock).

(* @src workers/checks/src/executor.ts exchangeTcpPayload *)
Definition exchangeTcpPayload (s : socket) (config : TcpCheckRequest) (timeoutMs clock : Z) : res bool * Z :=
  let '(written, clock1) :=
    match t_payload config with
    | Some _ => withTimeout (sk_write s) (remainingTimeout timeoutMs clock) clock
    | None => (Ok tt, clock)
    end in
  match written with
  | Err e => (Err e, clock1)
  | Ok _ =>
      match t_responsePrefix config with
      | None => (Ok true, clock1)
      | Some expected => read_prefix expected [] (sk_reads s) timeoutMs clock1
      end
  end.

(** [connect] may throw right away; the second component is the time the check took. *)
(* @src workers/checks/src/executor.ts executeTcp *)
Definition executeTcp `{UA : UrlApi} (connect : string -> Z -> bool -> res socket) (config : TcpCheckRequest) (timeoutMs : Z)
  : res ExecutedCheck * Z :=
  match assertPublicHostname (t_hostname config) with
  | Err e => (Err e, 0)
  | Ok _ =>
      match connect (t_hostname config) (t_port config) (t_secureTransport config) with
      | Err e => (Err e, 0)
      | Ok s =>
          let caught e := down (if String.eqb e "TimeoutError" then "timeout" else "network") in
          match withTimeout (sk_opened s) timeoutMs 0 with
          | (Err e, clock) => (Ok (caught e), clock)
          | (Ok _, clock) =>
              match exchangeTcpPayload s config timeoutMs clock with
              | (Err e, clock') => (Ok (caught e), clock')
              | (Ok false, clock') => (Ok (outcome Down (Some (Z.max 0 clock')) (Some "prefix_mismatch") None), clock')
              | (Ok true, clock') => (Ok (outcome Healthy (Some (Z.max 0 clock')) None None), clock')
              end
          end
      end
  end.

(** ** Redirect safety *)

Section HttpProofs.
Context `{UA : UrlApi} `{AE : AssertionEngines}.

Definition sensitive (c : HttpCheckRequest) (name : string) : bool :=
  str_in name REDIRECT_SENSITIVE_HEADERS || str_in name (h_sensitiveHeaders c).
Definition lower_names (h : headers) : Prop := Forall (fun kv => to_lower kv.1 = kv.1) h.
(** Neither a body nor a credential. *)
Definition stripped (c : HttpCheckRequest) (r : request) : Prop :=
  truthy (rq_body r) = false /\ forall kv, kv ∈ rq_headers r -> sensitive c kv.1 = false.
(** What a later request of the chain may be, after an earlier one. *)
Definition after (c : HttpCheckRequest) (r1 r2 : request) : Prop :=
  (protocol (rq_url r1) = "https:" -> protocol (rq_url r2) = "https:") /\
  (forall kv, kv ∈ rq_headers r2 -> kv ∈ rq_headers r1) /\
  (truthy (rq_body r2) = true -> rq_body r2 = rq_body r1) /\
  (origin (rq_url r1) <> origin (rq_url r2) -> stripped c r2).

Lemma after_stripped c r1 r2 : after c r1 r2 -> stripped c r1 -> stripped c r2.
Proof.
  intros (_ & Hh & Hb & _) [Sb Sh]. split.
  - destruct (truthy (rq_body r2)) eqn:E; [|done]. rewrite Hb in E by done. congruence.
  - intros kv Hkv. apply Sh. by apply Hh.
Qed.

#[export] Instance after_trans c : Transitive (after c).
Proof.
  intros r1 r2 r3 H12 H23. pose proof (after_stripped c r2 r3 H23) as Hs.
  destruct H12 as (P1 & Q1 & B1 & O1), H23 as (P2 & Q2 & B2 & O2). split_and!; [by auto | by auto | |].
  - intros Ht. rewrite B2 by done. apply B1. by rewrite <- B2.
  - intros Hne. destruct (decide (origin (rq_url r2) = origin (rq_url r3))) as [E|E]; [|by apply O2].
    apply Hs, O1. congruence.
Qed.

Lemma assertPublicUrl_public u : assertPublicUrl u = Ok tt -> public_url u.
Proof.
  unfold assertPublicUrl, public_url, public_host. destruct (_ || _) eqn:E; [done|]. intros H.
  apply orb_false_iff in E as [E E3]. apply orb_false_iff in E as [E1 E2]. bool_hyps. split_and!; try done.
  apply andb_false_iff in E1 as [E1|E1]; apply negb_false_iff, String.eqb_eq in E1; auto.
Qed.

Lemma headers_delete_lower name h : lower_names h -> lower_names (headers_delete name h).
Proof.
  unfold lower_names. rewrite !Forall_forall. intros H kv Hkv. apply headers_delete_incl in Hkv as [? _]. by apply H.
Qed.

(** Deleting by name after name. *)
Lemma fold_delete (p : string -> bool) names h : lower_names h ->
  let h' := fold_left (fun h name => if p (to_lower name) then headers_delete name h else h) names h in
  lower_names h' /\ (forall kv, kv ∈ h' -> kv ∈ h) /\
  (forall kv, kv ∈ h' -> kv.1 ∈ names -> p kv.1 = false).
Proof.
  cbv zeta. revert h. induction names as [|n names IH]; intros h Hl; cbn [fold_left].
  - split_and!; [done | done |]. intros kv _ Hin. by apply elem_of_nil in Hin.
  - assert (Hl1 : lower_names (if p (to_lower n) then headers_delete n h else h)).
    { destruct (p (to_lower n)); [by apply headers_delete_lower | done]. }
    destruct (IH _ Hl1) as (Hl' & Hsub & Hno). split_and!; [done | |].
    + intros kv Hkv. apply Hsub in Hkv. destruct (p (to_lower n)); [by apply headers_delete_incl in Hkv as [? _] | done].
    + intros kv Hkv Hin. apply elem_of_cons in Hin as [E|Hin]; [|by apply Hno]. apply Hsub in Hkv.
      destruct (p (to_lower n)) eqn:Ep.
      * apply headers_delete_incl in Hkv as [Hkv Hne]. unfold lower_names in Hl. rewrite Forall_forall in Hl.
        pose proof (Hl kv Hkv). congruence.
      * unfold lower_names in Hl. rewrite Forall_forall in Hl. rewrite <- (Hl kv Hkv), E. done.
Qed.

Lemma redirectHeaders_spec c configured from to : lower_names configured ->
  let h := redirectHeaders configured from to (h_sensitiveHeaders c) in
  lower_names h /\ (forall kv, kv ∈ h -> kv ∈ configured) /\
  (origin from <> origin to -> forall kv, kv ∈ h -> sensitive c kv.1 = false).
Proof.
  intros Hl. unfold redirectHeaders. destruct (String.eqb_spec (origin from) (origin to)) as [E|E]; [done|].
  destruct (fold_delete (sensitive c) (map fst configured) configured Hl) as (H1 & H2 & H3).
  split_and!; [exact H1 | exact H2 |]. intros _ kv Hkv. apply H3; [done|]. apply list_elem_of_fmap_2. by apply H2.
Qed.

Lemma delete_all_lower names h : lower_names h ->
  lower_names (fold_left (fun h name => headers_delete name h) names h) /\
  forall kv, kv ∈ fold_left (fun h name => headers_delete name h) names h -> kv ∈ h.
Proof.
  revert h. induction names as [|n names IH]; intros h Hl; [done|]. cbn [fold_left].
  destruct (IH _ (headers_delete_lower n h Hl)) as [H1 H2]. split; [done|]. intros kv Hkv. apply H2 in Hkv.
  by apply headers_delete_incl in Hkv as [? _].
Qed.

Lemma follow_redirect_after c req r lastRedirect next : lower_names (rq_headers req) ->
  follow_redirect c req r lastRedirect = Ok (inr next) ->
  public_url (rq_url next) /\ lower_names (rq_headers next) /\ after c req next.
Proof.
  intros Hl. unfold follow_redirect. intros H. apply rbind_ok in H as (location & _ & H).
  destruct location as [location|]; [|done]. destruct lastRedirect; [done|].
  apply rbind_ok in H as (u & _ & H). apply rbind_ok in H as (x & Hpub & H). destruct x.
  destruct (String.eqb (protocol (rq_url req)) "https:" && _) eqn:Edown in H; [done|]. cbv zeta in H.
  set (to_get := _ || _) in H. set (hs := if to_get then fold_left _ _ _ else _) in H.
  destruct (truthy _ && _) eqn:Ebody in H; [done|]. injection H as <-. cbn [rq_url rq_headers].
  assert (Hhs : lower_names hs /\ forall kv, kv ∈ hs -> kv ∈ rq_headers req).
  { unfold hs. destruct to_get; [by apply delete_all_lower | done]. }
  destruct Hhs as [Hl1 Hsub1]. destruct (redirectHeaders_spec c hs (rq_url req) u Hl1) as (Hl2 & Hsub2 & Hsens).
  split; [by apply assertPublicUrl_public|]. split; [done|]. split_and!; cbn [rq_url rq_headers rq_body].
  - intros Hs. rewrite Hs in Edown. cbn in Edown. apply negb_false_iff in Edown. by apply String.eqb_eq in Edown.
  - intros kv Hkv. by apply Hsub1, Hsub2.
  - by destruct to_get.
  - intros Hne. split; [|by apply Hsens]. cbn [rq_body].
    destruct (truthy (if to_get then None else rq_body req)); [|done]. cbn in Ebody.
    apply negb_false_iff, String.eqb_eq in Ebody. congruence.
Qed.

Lemma new_headers_lower l h h' : lower_names h -> headers_of_record l h = Ok h' -> lower_names h'.
Proof.
  revert h. induction l as [|[n v] l IH]; intros h Hl; cbn [headers_of_record].
  - intros H. by apply Ok_inj in H as <-.
  - intros H. apply rbind_ok in H as (h1 & H1 & H). apply (IH h1); [|done].
    unfold headers_append in H1. destruct (_ || _) in H1; [done|]. apply Ok_inj in H1 as <-.
    clear - Hl. unfold lower_names in *. induction Hl as [|[k x] h Hk Hl IH]; cbn; [constructor; [apply to_lower_idem | constructor]|].
    destruct (String.eqb k (to_lower n)); by constructor.
Qed.

Context {W : Type} (fetch : request -> W -> res response * W) (drain : response -> W -> W) (now : W -> Z).

(** The requests of a loop that starts with [req] and has [n] iterations. *)
Definition safe_log (c : HttpCheckRequest) (req : request) (n : nat) (sent : list request) : Prop :=
  (length sent <= n)%nat /\ Forall (fun r => public_url (rq_url r)) sent /\ StronglySorted (after c) sent /\
  (forall first, head sent = Some first -> first = req).
Lemma safe_log_nil c req n : safe_log c req n [].
Proof. unfold safe_log. cbn. split_and!; [lia | constructor | constructor | done]. Qed.
Lemma safe_log_one c req n : public_url (rq_url req) -> safe_log c req (S n) [req].
Proof.
  intros H. unfold safe_log. cbn. split_and!; [lia | by apply List.Forall_cons | by repeat constructor | by intros ? [= <-]].
Qed.
Lemma safe_log_cons c req next n sent : public_url (rq_url req) -> after c req next -> safe_log c next n sent ->
  safe_log c req (S n) (req :: sent).
Proof.
  intros H Ha (Hlen & Hpub & Hsort & Hhead). unfold safe_log. cbn [length head].
  split_and!; [lia | by apply List.Forall_cons | | by intros ? [= <-]].
  constructor; [done|]. destruct sent as [|first rest]; [constructor|]. pose proof (Hhead first eq_refl) as ->.
  constructor; [done|]. apply StronglySorted_cons in Hsort as [Hall _].
  eapply Forall_impl; [exact Hall|]. intros x Hx. by transitivity next.
Qed.
#[local] Hint Resolve safe_log_nil safe_log_one : core.

Lemma http_loop_safe c startedAt left : forall req w result w' sent, lower_names (rq_headers req) ->
  http_loop fetch drain now c startedAt left req w = (result, w', sent) -> safe_log c req (S left) sent.
Proof.
  induction left as [|left IH]; intros req w result w' sent Hl; cbn [http_loop];
    (destruct (assertPublicUrl (rq_url req)) as [[]|e] eqn:Epub; [|by intros [= <- <- <-]]);
    apply assertPublicUrl_public in Epub; (destruct (fetch req w) as [[r|e] w1]; [|intros [= <- <- <-]; by auto]);
    (destruct (is_redirect (rs_status r)); [|intros [= <- <- <-]; by auto]);
    (match goal with |- context [follow_redirect c req r ?b] =>
       destruct (follow_redirect c req r b) as [[x|next]|e] eqn:Er end; [intros [= <- <- <-]; by auto | |intros [= <- <- <-]; by auto]).
  - intros [= <- <- <-]. by auto.
  - destruct (follow_redirect_after c req r _ next Hl Er) as (Hp & Hl' & Haft).
    destruct (http_loop fetch drain now c startedAt left next w1) as [[res2 w2] sent2] eqn:El.
    intros [= <- <- <-]. eapply safe_log_cons; [done | exact Haft | by eapply IH].
Qed.

Lemma http_loop_not_internal c startedAt left : forall req w result w' sent,
  http_loop fetch drain now c startedAt left req w = (result, w', sent) ->
  result <> Ok (down "internal").
Proof.
  assert (Hjudge : forall r l1 l2, judge_response c r l1 l2 <> Ok (down "internal")).
  { intros r l1 l2. unfold judge_response. destruct (negb _); [done|].
    destruct (if needs_body c then _ else _) as [b|]; [|done]. cbn [rbind].
    destruct (evaluateAssertions _ _ _) as [v|]; [|done]. cbn [rbind].
    destruct (match h_downAfterMs c with Some _ => _ | None => _ end); [done|].
    destruct (bool_decide _); [done|]. by destruct (match h_degradedAfterMs c with Some _ => _ | None => _ end). }
  induction left as [|left IH]; intros req w result w' sent; cbn [http_loop];
    (destruct (assertPublicUrl (rq_url req)) as [[]|e]; [|by intros [= <- <- <-]]);
    destruct (fetch req w) as [[r|e] w1]; [|by intros [= <- <- <-] | |by intros [= <- <- <-]];
    (destruct (is_redirect (rs_status r)); [|intros [= <- <- <-]; apply Hjudge]).
  - unfold follow_redirect. destruct (headers_get _ _) as [[l|]|e]; cbn [rbind]; by intros [= <- <- <-].
  - destruct (follow_redirect c req r (S left =? 0)%nat) as [[x|next]|e] eqn:Er; [| |by intros [= <- <- <-]].
    + intros [= <- <- <-] [= ->]. unfold follow_redirect in Er. destruct (headers_get _ _) as [[l|]|e]; cbn [rbind] in Er; [|done|done].
      destruct (url_parse l _) as [u|]; [|done]. cbn [rbind] in Er. destruct (assertPublicUrl u); [|done]. cbn [rbind] in Er.
      destruct (_ && _) in Er; [done|]. cbv zeta in Er. by destruct (_ && _) in Er.
    + destruct (http_loop fetch drain now c startedAt left next w1) as [[res2 w2] sent2] eqn:El.
      intros [= <- <- <-]. by eapply IH.
Qed.

(** C35: a check can be redirected anywhere and still leaks nothing.  For every sequence of answers:
    each request goes to a public http(s) target without embedded credentials; there are at most
    [maxRedirects + 1] of them; a chain that is on https stays on https; headers are only ever
    dropped along the chain, never added back; and any two requests of different origins mean that
    the later one carries no body and no credential, neither the well-known ones nor the check's
    secrets.  The check always ends with an outcome, which is never the unreachable [internal]. *)
Theorem executeHttp_redirects_safe c w target hs
  (Hurl : url_parse (h_url c) None = Ok target) (Hhs : new_headers (h_headers c) = Ok hs)
  (Hmax : 0 <= h_maxRedirects c) :
  exists x w' sent, executeHttp fetch drain now c w = (Ok x, w', sent) /\ x <> down "internal" /\
    Z.of_nat (length sent) <= h_maxRedirects c + 1 /\
    Forall (fun r => public_url (rq_url r)) sent /\
    StronglySorted (after c) sent /\
    (forall first, head sent = Some first -> rq_url first = target /\ rq_headers first = hs).
Proof.
  unfold executeHttp. rewrite Hurl, Hhs, (proj2 (Z.ltb_ge _ _)) by done. cbv zeta.
  destruct (http_loop _ _ _ _ _ _ _ _) as [[result w'] sent] eqn:E.
  pose proof (http_loop_not_internal _ _ _ _ _ _ _ _ E) as Hint.
  apply http_loop_safe in E as (Hlen & Hpub & Hsort & Hhead); [|eapply new_headers_lower; [apply List.Forall_nil | exact Hhs]].
  eexists _, _, _. split; [done|]. split_and!.
  - destruct result as [x|e]; [congruence|]. unfold error_outcome. destruct (String.eqb e "response_too_large"); [done|].
    by destruct (String.eqb e "TimeoutError").
  - lia.
  - done.
  - done.
  - intros first Hf. by rewrite (Hhead first Hf).
Qed.
End HttpProofs.

(** ** When a check is healthy *)

Section VerdictProofs.
Context `{UA : UrlApi} `{AE : AssertionEngines}.
Context {W : Type} (fetch : request -> W -> res response * W) (drain : response -> W -> W) (now : W -> Z).

Definition below (limit : option Z) (latency : Z) : Prop := match limit with Some l => latency < l | None => True end.

Lemma judge_up c r first latency x : judge_response c r first latency = Ok x -> ex_state x <> Down ->
  rs_status r ∈ h_expectedStatus c /\ below (h_downAfterMs c) latency /\
  (ex_state x = Healthy -> below (h_degradedAfterMs c) latency) /\
  exists text v, evaluateAssertions (h_assertions c) (rs_headers r) text = Ok v /\ av_state v <> Down /\
    (ex_state x = Healthy -> av_state v = Healthy) /\
    (needs_body c = true -> readBoundedText r (h_maxResponseBytes c) = Ok text).
Proof.
  unfold judge_response. destruct (existsb _ (h_expectedStatus c)) eqn:Es; cbn [negb];
    [|intros H; apply Ok_inj in H as <-; by intros ?].
  apply existsb_exists_elem in Es as (s & Hs & ->%Z.eqb_eq). intros H Hx.
  apply rbind_ok in H as (text & Ht & H). apply rbind_ok in H as (v & Hv & H). cbv zeta in H.
  destruct (match h_downAfterMs c with Some _ => _ | None => _ end) eqn:Ed; [apply Ok_inj in H as <-; by destruct Hx|].
  destruct (decide (av_state v = Down)) as [E|E]; [rewrite bool_decide_eq_true_2 in H by done; apply Ok_inj in H as <-; by destruct Hx|].
  rewrite bool_decide_eq_false_2 in H by done.
  assert (Hd : below (h_downAfterMs c) latency) by (unfold below; destruct (h_downAfterMs c); bool_hyps; done).
  split; [done|]. split; [done|].
  destruct (match h_degradedAfterMs c with Some _ => _ | None => _ end) eqn:Eg; apply Ok_inj in H as <-; split.
  - done.
  - exists text, v. split_and!; try done. intros Hn. by rewrite Hn in Ht.
  - intros _. unfold below. destruct (h_degradedAfterMs c); bool_hyps; done.
  - exists text, v. split_and!; try done. intros Hn. by rewrite Hn in Ht.
Qed.

Lemma follow_redirect_down c req r lastRedirect y : follow_redirect c req r lastRedirect = Ok (inl y) -> ex_state y = Down.
Proof.
  unfold follow_redirect. intros H. apply rbind_ok in H as (l & _ & H). destruct l as [l|]; [|by injection H as <-].
  destruct lastRedirect; [by injection H as <-|]. apply rbind_ok in H as (u & _ & H). apply rbind_ok in H as (x & _ & H).
  destruct (String.eqb (protocol (rq_url req)) "https:" && _) in H; [by injection H as <-|]. cbv zeta in H.
  destruct (truthy _ && _) in H; [by injection H as <- | done].
Qed.

Lemma http_loop_up c startedAt left : forall req w x w' sent,
  http_loop fetch drain now c startedAt left req w = (Ok x, w', sent) -> ex_state x <> Down ->
  exists last_req w0 r w1, last sent = Some last_req /\ fetch last_req w0 = (Ok r, w1) /\ is_redirect (rs_status r) = false /\
    exists latency first, judge_response c r first latency = Ok x.
Proof.
  induction left as [|left IH]; intros req w x w' sent; cbn [http_loop];
    (destruct (assertPublicUrl (rq_url req)) as [[]|e]; [|by intros [= <- <- <-]]);
    destruct (fetch req w) as [[r|e] w1] eqn:Ef; try (by intros [= <- <- <-]);
    (destruct (is_redirect (rs_status r)) eqn:Er;
      [|intros [= Hj <- <-] _; exists req, w, r, w1; split_and!; try done; by eexists _, _]);
    (match goal with |- context [follow_redirect c req r ?b] =>
       destruct (follow_redirect c req r b) as [[y|next]|e] eqn:Efr end;
      [intros [= <- <- <-] Hx; by apply follow_redirect_down in Efr | | by intros [= <- <- <-]]).
  - intros [= <- <- <-] Hx. by destruct Hx.
  - destruct (http_loop fetch drain now c startedAt left next w1) as [[res2 w2] sent2] eqn:El.
    intros [= -> <- <-] Hx. destruct (IH _ _ _ _ _ El Hx) as (lr & w0 & r' & w1' & Hlast & Hrest).
    exists lr, w0, r', w1'. split; [|done]. by destruct sent2.
Qed.

(** A check that is not down got a final response with an expected status, within its time limits,
    whose assertions do not fail badly, on a body read within the byte limit; and only then. *)
Theorem executeHttp_up c w x w' sent
  (Hrun : executeHttp fetch drain now c w = (Ok x, w', sent)) (Hup : ex_state x <> Down) :
  exists req w0 r w1 latency text v, last sent = Some req /\ fetch req w0 = (Ok r, w1) /\
    rs_status r ∈ h_expectedStatus c /\ is_redirect (rs_status r) = false /\
    below (h_downAfterMs c) latency /\ (ex_state x = Healthy -> below (h_degradedAfterMs c) latency) /\
    evaluateAssertions (h_assertions c) (rs_headers r) text = Ok v /\ av_state v <> Down /\
    (ex_state x = Healthy -> av_state v = Healthy).
Proof.
  unfold executeHttp in Hrun. cbv zeta in Hrun. destruct (url_parse _ _) as [target|]; [|done].
  destruct (new_headers _) as [hs|]; [|done]. destruct (_ <? 0) in Hrun; [injection Hrun as <- _ _; by destruct Hup|].
  destruct (http_loop _ _ _ _ _ _ _ _) as [[result w1] sent1] eqn:El. injection Hrun as <- <- <-.
  destruct result as [y|e].
  - destruct (http_loop_up _ _ _ _ _ _ _ _ El Hup) as (req & w0 & r & w2 & Hlast & Hf & Hr & latency & first & Hj).
    destruct (judge_up _ _ _ _ _ Hj Hup) as (Hs & Hd & Hg & text & v & Hv & Hn & Hh & _).
    exists req, w0, r, w2, latency, text, v. by split_and!.
  - exfalso. apply Hup. unfold error_outcome. destruct (String.eqb e "response_too_large"); [done|].
    by destruct (String.eqb e "TimeoutError").
Qed.
End VerdictProofs.

(** ** Retries *)

(** The result of the [n]-th call, counted from 0. *)
Fixpoint attempt {W} (execute : W -> res ExecutedCheck * W) (n : nat) (w : W) : res ExecutedCheck :=
  match n with O => (execute w).1 | S n' => attempt execute n' (execute w).2 end.

(** The check runs at most [retryCount + 1] times: the result is the first call's that is not a
    clean down, or the last one's. *)
Theorem executeWithRetries_first_up {W} (execute : W -> res ExecutedCheck * W) retryCount w :
  exists n, (n <= retryCount)%nat /\ (executeWithRetries execute retryCount w).1 = attempt execute n w /\
    (forall m, (m < n)%nat -> exists r, attempt execute m w = Ok r /\ ex_state r = Down) /\
    (n = retryCount \/ match attempt execute n w with Ok r => ex_state r <> Down | Err _ => True end).
Proof.
  revert w. induction retryCount as [|k IH]; intros w; cbn [executeWithRetries].
  - exists 0%nat. cbn. destruct (execute w) as [r w1]. split_and!; [lia | by destruct r | lia | by left].
  - destruct (execute w) as [result w1] eqn:E. destruct result as [r|e].
    + case_bool_decide as Ed.
      * destruct (IH w1) as (n & Hn & Hr & Hprev & Hend). exists (S n). cbn [attempt]. rewrite E. cbn [snd].
        split_and!; [lia | done | | destruct Hend; [left; lia | by right]].
        intros m Hm. destruct m as [|m]; cbn [attempt]; rewrite E; [by exists r | cbn [snd]; apply Hprev; lia].
      * exists 0%nat. cbn [attempt]. rewrite E. split_and!; [lia | done | lia | by right].
    + exists 0%nat. cbn [attempt]. rewrite E. split_and!; [lia | done | lia | by right].
Qed.

(** ** TCP *)

Definition stream (reads : list (Z * res (list byte))) : list byte :=
  concat (map (fun r => match r.2 with Ok v => v | Err _ => [] end) reads).
(** Every read is answered in time. *)
Definition prompt (reads : list (Z * res (list byte))) : Prop :=
  Forall (fun r => r.1 = 0 /\ match r.2 with Ok _ => True | Err _ => False end) reads.

Lemma read_prefix_spec expected reads timeoutMs : prompt reads -> forall received clock,
  (length received <= length expected)%nat ->
  (read_prefix expected received reads timeoutMs clock).1 =
    Ok (bool_decide (take (length expected) (received ++ stream reads) = expected)).
Proof.
  induction 1 as [|[t v] reads [Ht Hv] Hp IH]; intros received clock Hlen; cbn [read_prefix stream map concat];
    destruct (length received <? length expected)%nat eqn:E.
  - apply Nat.ltb_lt in E. rewrite app_nil_r, take_ge by lia. rewrite bool_decide_eq_false_2; [done|].
    intros ->. lia.
  - apply Nat.ltb_ge in E. rewrite app_nil_r, take_ge by lia. done.
  - cbn in Ht. subst t. destruct v as [v|e]; [|done]. unfold withTimeout, remainingTimeout. cbn [fst snd].
    assert (0 <? Z.max 1 (timeoutMs - clock) = true) as -> by (apply Z.ltb_lt; lia).
    apply Nat.ltb_lt in E. rewrite IH by (rewrite length_app, length_take; lia). f_equal. apply bool_decide_ext.
    assert (take (length expected) ((received ++ take (length expected - length received) v) ++ stream reads) =
      take (length expected) (received ++ v ++ stream reads)) as ->; [|done].
    rewrite <- app_assoc, !take_app, (take_ge received) by lia. f_equal. rewrite take_take, length_take, Nat.min_id.
    destruct (decide (length v <= length expected - length received)%nat).
    + rewrite Nat.min_r by lia. done.
    + rewrite Nat.min_l by lia. replace (_ - _ - _)%nat with 0%nat by lia.
      replace (length expected - length received - length v)%nat with 0%nat by lia. done.
  - apply Nat.ltb_ge in E. rewrite take_app_le, take_ge by lia. done.
Qed.

(** The payload exchange compares exactly the first bytes of the stream, however they are cut into
    reads: with prompt answers it succeeds iff the expected prefix is one of the stream. *)
Theorem exchangeTcpPayload_prefix s config timeoutMs clock expected
  (Hpay : t_payload config = None) (Hexp : t_responsePrefix config = Some expected) (Hp : prompt (sk_reads s)) :
  (exchangeTcpPayload s config timeoutMs clock).1 =
    Ok (bool_decide (take (length expected) (stream (sk_reads s)) = expected)).
Proof.
  unfold exchangeTcpPayload. rewrite Hpay, Hexp. by rewrite read_prefix_spec by (done || cbn; lia).
Qed.

(** ** A recorded chain *)

(** A server that redirects from one origin to another, which answers 200. *)
Definition sample_fetch (r : request) (n : Z) : res response * Z :=
  if String.eqb (hostname (rq_url r)) "a.example"
  then (Ok (Response 302 [("location", "https://b.example/next")] None), n + 1)
  else (Ok (Response 200 [] None), n + 1).
Definition sample_check : HttpCheckRequest :=
  HttpRequest "https://a.example/" (JStr "GET") [("Authorization", "Bearer t"); ("Accept", "*/*"); ("X-Key", "s")]
    ["x-key"] None [200] None None 3 true 65536 [].
Example sample_chain :
  let '(r, _, sent) := executeHttp sample_fetch (fun _ w => w) (fun w => w) sample_check 0 in
  r = Ok (outcome Healthy (Some 2) None None) /\
  map (fun q => map fst (rq_headers q)) sent = [["authorization"; "accept"; "x-key"]; ["accept"]].
Proof. vm_compute. split; reflexivity. Qed.

Example executeHttp_redirects_safe_witness : exists x w' sent,
  executeHttp sample_fetch (fun _ w => w) (fun w => w) sample_check 0 = (Ok x, w', sent) /\
  Z.of_nat (length sent) <= 4 /\ StronglySorted (after sample_check) sent.
Proof.
  destruct (executeHttp_redirects_safe sample_fetch (fun _ w => w) (fun w => w) sample_check 0
    (ToyUrl "https:" "a.example" "/") [("authorization", "Bearer t"); ("accept", "*/*"); ("x-key", "s")])
    as (x & w' & sent & Hrun & _ & Hlen & _ & Hsort & _).
  - vm_compute. reflexivity.
  - vm_compute. reflexivity.
  - vm_compute. congruence.
  - exists x, w', sent. split; [exact Hrun|]. split; [exact Hlen | exact Hsort].
Defined.
