(* ===== verification/Lease.v ===== *)
(** * Lease: the leases that keep scheduled runs from overlapping

    Three workers guard their work with the same protocol, a row with a [lease_until] column:
    the check scheduler ([workers/checks/src/scheduler-state.ts]), the per-workspace retention
    run ([workers/retention/src/cursor.ts]) and the artifact sweep
    ([workers/retention/src/artifact-retention.ts]).  [LeaseTable] is the interface, [LeaseLaws]
    what it promises (each statement refines one step of an abstract lease), and mutual
    exclusion is proved once from the laws, for any number of workers whose statements
    interleave in any order.  The three tables are instances.

    A worker that crashes never releases; it stays among the holders.  All workers read one
    clock that does not go backwards. *)

From Stdlib Require Import ZArith Lia Bool String List.
From stdpp Require Import base tactics list strings relations.
From S2P Require Import Prelude.
From S2P Require Import Js.
From S2P Require Import Sql.
Open Scope string_scope.
Open Scope Z_scope.

(** ** The abstract lease *)

(** What is stored for one scope: until when it is held, and the cursor the holder works from. *)
Definition lease_cell (D : Type) : Type := option (Z * D).

Definition cell_acquire {D} (ms : Z) (fresh : D) (now : Z) (c : lease_cell D)
  : option (D * Z) * lease_cell D :=
  match c with
  | None => (Some (fresh, now + ms), Some (now + ms, fresh))
  | Some (u, d) => if u <=? now then (Some (d, now + ms), Some (now + ms, d)) else (None, c)
  end.
Definition cell_release {D} (held : Z) (d : D) (c : lease_cell D) : bool * lease_cell D :=
  match c with
  | Some (u, _) => if u =? held then (true, Some (0, d)) else (false, c)
  | None => (false, c)
  end.

(** ** The interface *)

Class LeaseTable (T K D : Type) := {
  lease_ms : Z;
  lease_fresh : D;
  lease_wf : T -> Prop;
  lease_view : K -> T -> lease_cell D;
  (** scope, now: the cursor and the [leaseUntil] that identifies the grant *)
  lease_acquire : K -> Z -> T -> option (D * Z) * T;
  (** scope, the grant's [leaseUntil], the cursor to store, now *)
  lease_release : K -> Z -> D -> Z -> T -> bool * T;
}.

Class LeaseLaws (T K D : Type) `{LeaseTable T K D} : Prop := {
  lease_ms_pos : 0 < lease_ms;
  acquire_refines (t : T) (k : K) now : lease_wf t ->
    (lease_acquire k now t).1 = (cell_acquire lease_ms lease_fresh now (lease_view k t)).1 /\
    lease_wf (lease_acquire k now t).2 /\
    lease_view k (lease_acquire k now t).2 = (cell_acquire lease_ms lease_fresh now (lease_view k t)).2 /\
    forall k', k' <> k -> lease_view k' (lease_acquire k now t).2 = lease_view k' t;
  release_refines (t : T) (k : K) held (d : D) now : lease_wf t ->
    (lease_release k held d now t).1 = (cell_release held d (lease_view k t)).1 /\
    lease_wf (lease_release k held d now t).2 /\
    lease_view k (lease_release k held d now t).2 = (cell_release held d (lease_view k t)).2 /\
    forall k', k' <> k -> lease_view k' (lease_release k held d now t).2 = lease_view k' t;
}.

(** ** Workers that share a lease table *)

Section System.
Context {T K D : Type} `{LT : LeaseTable T K D} `{!EqDecision K}.

(** The grants that were handed out and not given back; a worker that crashed, or whose lease
    ran out while it worked, is still among them. *)
Record lease_sys := LeaseSys {
  ls_table : T;
  ls_clock : Z;
  ls_held : list (K * Z);
}.

Inductive lease_step : lease_sys -> lease_sys -> Prop :=
| step_tick t now now' held : now <= now' -> lease_step (LeaseSys t now held) (LeaseSys t now' held)
| step_acquire t t' now held k d u : lease_acquire k now t = (Some (d, u), t') ->
    lease_step (LeaseSys t now held) (LeaseSys t' now ((k, u) :: held))
| step_busy t t' now held k : lease_acquire k now t = (None, t') ->
    lease_step (LeaseSys t now held) (LeaseSys t' now held)
| step_release t t' now before after k u d b : lease_release k u d now t = (b, t') ->
    lease_step (LeaseSys t now (before ++ (k, u) :: after)) (LeaseSys t' now (before ++ after)).

(** A table with nobody at work, in which some leases may still be marked as held. *)
Definition lease_init (s : lease_sys) : Prop := lease_wf (ls_table s) /\ 0 <= ls_clock s /\ ls_held s = [].

(** At most one unexpired holder per scope; a holder that was overtaken cannot give the lease
    back, nor move the cursor. *)
Definition leases_exclude : Prop := forall s0 s, lease_init s0 -> rtc lease_step s0 s ->
  (forall i j k u v, ls_held s !! i = Some (k, u) -> ls_held s !! j = Some (k, v) ->
     ls_clock s < u -> ls_clock s < v -> i = j) /\
  (forall k u v, (k, u) ∈ ls_held s -> (k, v) ∈ ls_held s -> u < v -> forall d,
     (lease_release k u d (ls_clock s) (ls_table s)).1 = false /\
     lease_view k (lease_release k u d (ls_clock s) (ls_table s)).2 = lease_view k (ls_table s)) /\
  (forall k u, (k, u) ∈ ls_held s -> ls_clock s < u ->
     (lease_acquire k (ls_clock s) (ls_table s)).1 = None /\
     forall d, (lease_release k u d (ls_clock s) (ls_table s)).1 = true).

Context `{!LeaseLaws T K D}.

(** Every outstanding grant is the stored one or has expired, and a scope's grants differ. *)
Definition lease_inv (s : lease_sys) : Prop :=
  lease_wf (ls_table s) /\ 0 <= ls_clock s /\ NoDup (ls_held s) /\
  forall k u, (k, u) ∈ ls_held s -> 0 < u /\ exists v d, lease_view k (ls_table s) = Some (v, d) /\
    (u = v \/ (u <= ls_clock s /\ (v = 0 \/ u < v))).

Lemma lease_init_inv s : lease_init s -> lease_inv s.
Proof.
  intros (Hw & Hc & Hh). unfold lease_inv. rewrite Hh. split_and!; [done | done | constructor |].
  intros k u Hin. by apply elem_of_nil in Hin.
Qed.

Lemma acquire_inv s k d u t' : lease_inv s -> lease_acquire k (ls_clock s) (ls_table s) = (Some (d, u), t') ->
  lease_inv (LeaseSys t' (ls_clock s) ((k, u) :: ls_held s)).
Proof.
  intros (Hw & Hc & Hnd & Hheld) E. destruct (acquire_refines (ls_table s) k (ls_clock s) Hw) as (Hr & Hw' & Hv & Hf).
  rewrite E in Hr, Hw', Hv, Hf. cbn [fst snd] in *. pose proof lease_ms_pos as Hms.
  assert (Hu : u = ls_clock s + lease_ms /\ exists d', lease_view k t' = Some (u, d')).
  { rewrite Hv. unfold cell_acquire in *. destruct (lease_view k (ls_table s)) as [[v d0]|]; [|naive_solver].
    destruct (v <=? ls_clock s); naive_solver. }
  destruct Hu as [Hu (d' & Hd')].
  assert (Hlt : forall w, (k, w) ∈ ls_held s -> w <= ls_clock s).
  { intros w Hw0. destruct (Hheld _ _ Hw0) as (_ & v & d1 & Hv1 & [-> | [? _]]); [|done].
    unfold cell_acquire in Hr. rewrite Hv1 in Hr. destruct (v <=? ls_clock s) eqn:Ev; [lia | done]. }
  unfold lease_inv. cbn [ls_table ls_clock ls_held]. split_and!; [done | done | |].
  - constructor; [|done]. intros Hin. pose proof (Hlt _ Hin). lia.
  - intros k' w Hin. apply elem_of_cons in Hin as [[= -> ->]|Hin].
    + split; [lia|]. exists u, d'. split; [congruence | by left].
    + destruct (Hheld _ _ Hin) as (Hw0 & v & d1 & Hv1 & Hcase). split; [done|].
      destruct (decide (k' = k)) as [->|Hk]; [|rewrite Hf by done; naive_solver].
      exists u, d'. split; [done|]. right. pose proof (Hlt _ Hin). lia.
Qed.

Lemma release_inv s before after k u d b t' : lease_inv s -> ls_held s = (before ++ (k, u) :: after)%list ->
  lease_release k u d (ls_clock s) (ls_table s) = (b, t') ->
  lease_inv (LeaseSys t' (ls_clock s) (before ++ after)).
Proof.
  intros (Hw & Hc & Hnd & Hheld) Eh E.
  destruct (release_refines (ls_table s) k u d (ls_clock s) Hw) as (Hr & Hw' & Hv & Hf).
  rewrite E in Hr, Hw', Hv, Hf. cbn [fst snd] in *. rewrite Eh in Hnd, Hheld.
  unfold lease_inv. cbn [ls_table ls_clock ls_held]. split_and!; [done | done | |].
  - eapply sublist_NoDup; [exact Hnd|]. apply sublist_app; [done|]. by constructor.
  - intros k' w Hin. assert (Hin' : (k', w) ∈ (before ++ (k, u) :: after)%list) by set_solver.
    destruct (Hheld _ _ Hin') as (Hpos & v & d1 & Hv1 & Hcase). split; [done|].
    destruct (decide (k' = k)) as [->|Hk]; [|rewrite Hf by done; naive_solver].
    rewrite Hv. unfold cell_release. rewrite Hv1. destruct (v =? u) eqn:Ev; [|naive_solver].
    apply Z.eqb_eq in Ev as ->. exists 0, d. split; [done|]. right.
    assert (w <> u).
    { intros ->. apply NoDup_app in Hnd as (_ & Hb & Ha). apply NoDup_cons in Ha as [Ha _].
      apply elem_of_app in Hin as [Hin|Hin]; [by apply (Hb _ Hin); left | done]. }
    destruct Hcase as [?|[? _]]; [congruence|]. split; [done | by left].
Qed.

Lemma lease_step_inv s s' : lease_inv s -> lease_step s s' -> lease_inv s'.
Proof.
  intros Hi Hs. destruct Hs as [t now now' held Hle|t t' now held k d u E|t t' now held k E|t t' now bf af k u d b E].
  - destruct Hi as (Hw & Hc & Hnd & Hheld). cbn in *. split_and!; [done | cbn; lia | done |].
    intros k u Hin. destruct (Hheld _ _ Hin) as (Hp & v & d & Hv & Hcase). split; [done|].
    exists v, d. split; [done|]. cbn. destruct Hcase as [|[? ?]]; [by left | right; split; [lia | done]].
  - by apply (acquire_inv _ k d u t' Hi).
  - destruct Hi as (Hw & Hc & Hnd & Hheld). destruct (acquire_refines t k now Hw) as (Hr & Hw' & Hv & Hf).
    cbn [ls_table ls_clock ls_held] in *. rewrite E in Hr, Hw', Hv, Hf. cbn [fst snd] in *.
    assert (Hsame : forall k', lease_view k' t' = lease_view k' t).
    { intros k'. destruct (decide (k' = k)) as [->|]; [|by apply Hf]. rewrite Hv. unfold cell_acquire in *.
      destruct (lease_view k t) as [[v d]|]; [|done]. by destruct (v <=? now). }
    split_and!; [done | done | done |]. intros k' u Hin. cbn. rewrite Hsame. by apply Hheld.
  - by apply (release_inv _ bf af k u d b t' Hi).
Qed.

Lemma lease_run_inv s0 s : lease_init s0 -> rtc lease_step s0 s -> lease_inv s.
Proof.
  intros Hi%lease_init_inv Hrun. revert Hi. induction Hrun as [|s1 s2 s3 Hs _ IH]; [done|].
  intros Hi. apply IH. by apply (lease_step_inv s1).
Qed.

Lemma laws_exclude : leases_exclude.
Proof.
  intros s0 s Hinit Hrun. destruct (lease_run_inv s0 s Hinit Hrun) as (Hw & Hc & Hnd & Hheld). split_and!.
  - intros i j k u v Hi Hj Hu Hv. assert (u = v) as <-.
    { destruct (Hheld k u) as (_ & x & d & Hx & Hux); [by eapply list_elem_of_lookup_2|].
      destruct (Hheld k v) as (_ & y & d' & Hy & Hvy); [by eapply list_elem_of_lookup_2|].
      rewrite Hx in Hy. injection Hy as <- <-. lia. }
    by eapply NoDup_lookup.
  - intros k u v Hu Hv Hlt d. destruct (release_refines (ls_table s) k u d (ls_clock s) Hw) as (-> & _ & -> & _).
    destruct (Hheld _ _ Hu) as (? & x & e & Hx & Hux). destruct (Hheld _ _ Hv) as (? & y & e' & Hy & Hvy).
    rewrite Hx in Hy. injection Hy as <- <-. rewrite Hx. unfold cell_release.
    rewrite (proj2 (Z.eqb_neq x u)) by lia. done.
  - intros k u Hu Hlt. destruct (Hheld _ _ Hu) as (? & x & e & Hx & [-> | [? _]]); [|lia]. split.
    + destruct (acquire_refines (ls_table s) k (ls_clock s) Hw) as (-> & _). unfold cell_acquire. rewrite Hx.
      by rewrite (proj2 (Z.leb_gt _ _)) by done.
    + intros d. destruct (release_refines (ls_table s) k x d (ls_clock s) Hw) as (-> & _). unfold cell_release.
      by rewrite Hx, Z.eqb_refl.
Qed.
End System.
Arguments lease_sys : clear implicits.
Arguments leases_exclude T K D {LT}.

(** ** A lease kept in a row *)

Section RowLease.
Context {R K D : Type} `{!EqDecision K} (key : R -> K) (until : R -> Z) (data : R -> D).

Definition row_view (k : K) (t : list R) : lease_cell D := (fun r => (until r, data r)) <$> find_key key k t.

(** [INSERT ... ON CONFLICT DO UPDATE SET lease_until ... WHERE lease_until <= now RETURNING ...] *)
Lemma row_acquire_refines touch r now t ms :
  (forall old, key (touch old r) = key old) -> (forall old, data (touch old r) = data old) ->
  (forall old, until (touch old r) = now + ms) -> until r = now + ms -> keys_unique key t ->
  let out := upsert_returning key (fun old _ => until old <=? now) touch r t in
  ((fun x => (data x, until x)) <$> out.1) = (cell_acquire ms (data r) now (row_view (key r) t)).1 /\
  keys_unique key out.2 /\ row_view (key r) out.2 = (cell_acquire ms (data r) now (row_view (key r) t)).2 /\
  forall k', k' <> key r -> row_view k' out.2 = row_view k' t.
Proof.
  intros Hk Hd Hu Hr Ht out. unfold out. rewrite upsert_returning_spec by auto.
  unfold upsert_returning. pose proof (upsert_unique key (fun old _ => until old <=? now) touch r t (fun o _ => Hk o) Ht) as Hun.
  pose proof (fun k => find_key_upsert key k (fun old _ => until old <=? now) touch r t (fun o _ => Hk o)) as Hf.
  destruct (upsert _ _ _ _ _) as [t' n]. cbn [fst snd] in *. unfold row_view, cell_acquire. split_and!.
  - destruct (find_key key (key r) t) as [old|]; cbn; [|by rewrite Hr].
    destruct (until old <=? now); cbn; [by rewrite Hd, Hu | done].
  - done.
  - rewrite Hf, bool_decide_eq_true_2 by done. destruct (find_key key (key r) t) as [old|]; cbn; [|by rewrite Hr].
    destruct (until old <=? now); cbn; [by rewrite Hd, Hu | done].
  - intros k' Hne. by rewrite Hf, bool_decide_eq_false_2.
Qed.

Lemma row_acquire_until touch r now t u x :
  (forall old, key (touch old r) = key old) -> (forall old, until (touch old r) = u) -> until r = u ->
  keys_unique key t -> (upsert_returning key (fun old _ => until old <=? now) touch r t).1 = Some x -> until x = u.
Proof.
  intros Hk Hu Hr Ht. rewrite upsert_returning_spec by auto. destruct (find_key key (key r) t) as [old|]; [|naive_solver].
  destruct (until old <=? now); naive_solver.
Qed.

(** [UPDATE ... SET cursor, lease_until = 0 WHERE key = k AND lease_until = held] *)
Lemma row_release_refines store k held d t :
  (forall old, key (store old) = key old) -> (forall old, data (store old) = d) ->
  (forall old, until (store old) = 0) -> keys_unique key t ->
  let out := update_where (fun r => key_is key k r && (until r =? held)) store t in
  (out.2 =? 1) = (cell_release held d (row_view k t)).1 /\
  keys_unique key out.1 /\ row_view k out.1 = (cell_release held d (row_view k t)).2 /\
  forall k', k' <> k -> row_view k' out.1 = row_view k' t.
Proof.
  intros Hk Hd Hu Ht out. unfold out, row_view, cell_release. split_and!.
  - unfold update_where. cbn [snd]. rewrite (count_if_key key k (fun r => until r =? held)) by done.
    destruct (find_key key k t) as [r|]; cbn; [by destruct (until r =? held) | done].
  - by apply update_where_unique.
  - rewrite find_key_update by auto. destruct (find_key key k t) as [r|] eqn:E; cbn; [|done].
    apply find_key_Some in E as [_ Ek]. rewrite (proj2 (key_is_true key k r) Ek). cbn.
    destruct (until r =? held); cbn; [by rewrite Hd, Hu | done].
  - intros k' Hne. rewrite find_key_update by auto. destruct (find_key key k' t) as [r|] eqn:E; cbn; [|done].
    apply find_key_Some in E as [_ Ek]. destruct (key_is key k r) eqn:Eb; [|done].
    apply (key_is_true key k r) in Eb. congruence.
Qed.
End RowLease.

(** ** The check scheduler: [workers/checks/src/scheduler-state.ts] *)

(* @src workers/checks/src/scheduler-state.ts 1-1 SCHEDULER_LEASE_MS *)
Definition SCHEDULER_LEASE_MS : Z := 15 * 60000.
(* @src workers/checks/src/scheduler-state.ts SchedulerLease *)
Record SchedulerLease := MkSchedulerLease { checkCursor : Z; machineCursor : Z; leaseUntil : Z }.
(* @src workers/checks/src/scheduler-state.ts SchedulerStateRow *)
Record SchedulerStateRow := SchedulerState {
  ss_singleton : Z;
  check_cursor : Z;
  machine_cursor : Z;
  lease_until : Z;
  ss_updated_at : Z;
}.

(** [SET lease_until = excluded.lease_until, updated_at = excluded.updated_at] *)
Definition scheduler_touch (old new : SchedulerStateRow) : SchedulerStateRow :=
  SchedulerState (ss_singleton old) (check_cursor old) (machine_cursor old) (lease_until new) (ss_updated_at new).
(* @src workers/checks/src/scheduler-state.ts acquireSchedulerLease *)
Definition acquireSchedulerLease (now : Z) (db : list SchedulerStateRow)
  : option SchedulerLease * list SchedulerStateRow :=
  let '(row, db') := upsert_returning ss_singleton (fun old _ => lease_until old <=? now)
    scheduler_touch
    (SchedulerState 1 0 0 (now + SCHEDULER_LEASE_MS) now) db in
  (match row with
   | Some r => Some (MkSchedulerLease (check_cursor r) (machine_cursor r) (lease_until r))
   | None => None
   end, db').

(* @src workers/checks/src/scheduler-state.ts releaseSchedulerLease *)
Definition releaseSchedulerLease (lease : SchedulerLease) (checkCursor machineCursor now : Z)
    (db : list SchedulerStateRow) : bool * list SchedulerStateRow :=
  let '(db', changes) := update_where
    (fun r => key_is ss_singleton 1 r && (lease_until r =? leaseUntil lease))
    (fun r => SchedulerState (ss_singleton r) checkCursor machineCursor 0 now) db in
  (changes =? 1, db').

Definition scheduler_data (r : SchedulerStateRow) : Z * Z := (check_cursor r, machine_cursor r).

#[export] Instance SchedulerTable : LeaseTable (list SchedulerStateRow) unit (Z * Z) := {|
  lease_ms := SCHEDULER_LEASE_MS;
  lease_fresh := (0, 0);
  lease_wf := keys_unique ss_singleton;
  lease_view := fun _ => row_view ss_singleton lease_until scheduler_data 1;
  lease_acquire := fun _ now t =>
    let '(l, t') := acquireSchedulerLease now t in
    ((fun l => ((checkCursor l, machineCursor l), leaseUntil l)) <$> l, t');
  lease_release := fun _ u d now t => releaseSchedulerLease (MkSchedulerLease 0 0 u) d.1 d.2 now t;
|}.

#[export] Instance SchedulerLaws : LeaseLaws (list SchedulerStateRow) unit (Z * Z).
Proof.
  split.
  - done.
  - intros t [] now Hw. cbn [lease_acquire lease_view lease_wf lease_ms lease_fresh SchedulerTable] in *.
    unfold acquireSchedulerLease.
    destruct (row_acquire_refines ss_singleton lease_until scheduler_data
      scheduler_touch (SchedulerState 1 0 0 (now + SCHEDULER_LEASE_MS) now) now t SCHEDULER_LEASE_MS) as (Hr & Hu & Hv & _); try done.
    destruct (upsert_returning _ _ _ _ _) as [[row|] t']; cbn [fst snd fmap option_fmap option_map] in *;
      (split_and!; [exact Hr | done | done | by intros []]).
  - intros t [] held d now Hw. cbn [lease_release lease_view lease_wf SchedulerTable] in *.
    unfold releaseSchedulerLease. cbn [leaseUntil].
    destruct (row_release_refines ss_singleton lease_until scheduler_data
      (fun r => SchedulerState (ss_singleton r) d.1 d.2 0 now) 1 held d t) as (Hr & Hu & Hv & _); try done.
    { intros ?. symmetry. apply surjective_pairing. }
    destruct (update_where _ _ _) as [t' n]. cbn [fst snd] in *. split_and!; [done | done | done | by intros []].
Qed.

(** A lease that is taken leaves the table alone. *)
Lemma acquire_none_same now db : keys_unique ss_singleton db -> (acquireSchedulerLease now db).1 = None ->
  (acquireSchedulerLease now db).2 = db.
Proof.
  intros Hu. unfold acquireSchedulerLease, upsert_returning. set (row := SchedulerState 1 0 0 (now + SCHEDULER_LEASE_MS) now).
  pose proof (upsert_count ss_singleton (fun old _ => lease_until old <=? now) scheduler_touch row db Hu) as Hn.
  pose proof (find_key_upsert ss_singleton (ss_singleton row) (fun old _ => lease_until old <=? now) scheduler_touch row db
    (fun old _ => eq_refl)) as Hf.
  assert (H0 : (upsert ss_singleton (fun old _ => lease_until old <=? now) scheduler_touch row db).2 = 0 ->
    (upsert ss_singleton (fun old _ => lease_until old <=? now) scheduler_touch row db).1 = db).
  { unfold upsert. destruct (has_key _ _ _); [|done]. unfold update_where. cbn [fst snd].
    rewrite (count_if_zero ss_singleton). clear. induction db as [|x db IH]; [done|]. intros H. cbn [map].
    rewrite (H x) by (by left). f_equal. apply IH. intros y Hy. apply H. by right. }
  destruct (upsert _ _ _ _ _) as [db' n]. cbn [fst snd] in *. rewrite bool_decide_eq_true_2 in Hf by done.
  destruct (n =? 0) eqn:E; [intros _; apply H0; by apply Z.eqb_eq|].
  destruct (find_key ss_singleton (ss_singleton row) db') eqn:Ef; [done|]. intros _.
  destruct (find_key ss_singleton (ss_singleton row) db); discriminate.
Qed.

(** ** A workspace's retention run: [workers/retention/src/cursor.ts] *)

(* @src workers/retention/src/cursor.ts 1-1 WORKSPACE_LEASE_MS *)
Definition WORKSPACE_LEASE_MS : Z := 15 * 60000.
(* @src workers/retention/src/cursor.ts WorkspaceRetentionLease *)
Record WorkspaceRetentionLease := MkWorkspaceLease {
  wl_workspacePk : Z;
  wl_leaseUntil : Z;
  wl_eventTimeCursor : Z;
}.
Record retention_cursor_row := RetentionCursor {
  rc_workspace_pk : Z;
  rc_table_kind : string;
  rc_resource_pk : Z;
  rc_time_cursor : Z;
  rc_lease_until : Z;
  rc_updated_at : Z;
}.
Definition retention_key (r : retention_cursor_row) : Z * string := (rc_workspace_pk r, rc_table_kind r).

(** [SET lease_until = excluded.lease_until, updated_at = excluded.updated_at] *)
Definition workspace_touch (old new : retention_cursor_row) : retention_cursor_row :=
  RetentionCursor (rc_workspace_pk old) (rc_table_kind old) (rc_resource_pk old)
    (rc_time_cursor old) (rc_lease_until new) (rc_updated_at new).
(* @src workers/retention/src/cursor.ts acquireWorkspaceRetentionLease *)
Definition acquireWorkspaceRetentionLease (workspacePk now : Z) (db : list retention_cursor_row)
  : option WorkspaceRetentionLease * list retention_cursor_row :=
  let leaseUntil := now + WORKSPACE_LEASE_MS in
  let '(row, db') := upsert_returning retention_key (fun old _ => rc_lease_until old <=? now)
    workspace_touch
    (RetentionCursor workspacePk "event" 0 0 leaseUntil now) db in
  (match row with
   | Some r => Some (MkWorkspaceLease workspacePk leaseUntil (rc_time_cursor r))
   | None => None
   end, db').

(* @src workers/retention/src/cursor.ts releaseWorkspaceRetentionLease *)
Definition releaseWorkspaceRetentionLease (lease : WorkspaceRetentionLease) (eventTimeCursor now : Z)
    (db : list retention_cursor_row) : res unit * list retention_cursor_row :=
  let '(db', changes) := update_where
    (fun r => key_is retention_key (wl_workspacePk lease, "event") r && (rc_lease_until r =? wl_leaseUntil lease))
    (fun r => RetentionCursor (rc_workspace_pk r) (rc_table_kind r) (rc_resource_pk r) eventTimeCursor 0 now) db in
  (throw_if negb (changes =? 1) as "retention_lease_lost" in Ok tt, db').

#[export] Instance WorkspaceTable : LeaseTable (list retention_cursor_row) Z Z := {|
  lease_ms := WORKSPACE_LEASE_MS;
  lease_fresh := 0;
  lease_wf := keys_unique retention_key;
  lease_view := fun k => row_view retention_key rc_lease_until rc_time_cursor (k, "event");
  lease_acquire := fun k now t =>
    let '(l, t') := acquireWorkspaceRetentionLease k now t in
    ((fun l => (wl_eventTimeCursor l, wl_leaseUntil l)) <$> l, t');
  lease_release := fun k u d now t =>
    let '(r, t') := releaseWorkspaceRetentionLease (MkWorkspaceLease k u 0) d now t in (is_ok r, t');
|}.

#[export] Instance WorkspaceLaws : LeaseLaws (list retention_cursor_row) Z Z.
Proof.
  split.
  - done.
  - intros t k now Hw. cbn [lease_acquire lease_view lease_wf lease_ms lease_fresh WorkspaceTable] in *.
    unfold acquireWorkspaceRetentionLease.
    destruct (row_acquire_refines retention_key rc_lease_until rc_time_cursor
      workspace_touch (RetentionCursor k "event" 0 0 (now + WORKSPACE_LEASE_MS) now) now t WORKSPACE_LEASE_MS) as (Hr & Hu & Hv & Hf); try done.
    pose proof (fun x => row_acquire_until retention_key rc_lease_until rc_time_cursor
      workspace_touch (RetentionCursor k "event" 0 0 (now + WORKSPACE_LEASE_MS) now) now t (now + WORKSPACE_LEASE_MS) x) as Hx.
    destruct (upsert_returning _ _ _ _ _) as [[row|] t']; cbn [fst snd fmap option_fmap option_map] in *;
      (split_and!; [|done | done | by intros k' Hk; apply Hf; cbv; congruence]); [|exact Hr].
    etransitivity; [|exact Hr]. cbn. by rewrite (Hx row).
  - intros t k held d now Hw. cbn [lease_release lease_view lease_wf WorkspaceTable] in *.
    unfold releaseWorkspaceRetentionLease. cbn [wl_leaseUntil wl_workspacePk].
    destruct (row_release_refines retention_key rc_lease_until rc_time_cursor
      (fun r => RetentionCursor (rc_workspace_pk r) (rc_table_kind r) (rc_resource_pk r) d 0 now)
      (k, "event") held d t) as (Hr & Hu & Hv & Hf); try done.
    destruct (update_where _ _ _) as [t' n]. cbn [fst snd] in *. split_and!; [|done | done | by intros k' Hk; apply Hf; congruence].
    rewrite <- Hr. by destruct (n =? 1).
Qed.

(** ** The artifact sweep: [workers/retention/src/artifact-retention.ts] *)

(* @src workers/retention/src/artifact-retention.ts 5-5 LEASE_MS *)
Definition PREFIX_LEASE_MS : Z := 5 * 60000.
(* @src workers/retention/src/artifact-retention.ts 3-7 ArtifactPrefix *)
Inductive ArtifactPrefix := exports_v1 | backups_v1.
#[export] Instance prefix_eq_dec : EqDecision ArtifactPrefix. Proof. solve_decision. Defined.
Definition prefix_name (p : ArtifactPrefix) : string :=
  match p with exports_v1 => "exports/v1/" | backups_v1 => "backups/v1/" end.
(* @src workers/retention/src/artifact-retention.ts ArtifactPrefixLease *)
Record ArtifactPrefixLease := MkPrefixLease { pl_lastKey : string; pl_leaseUntil : Z }.
Record artifact_cursor_row := ArtifactCursor {
  ac_prefix : string;
  ac_last_key : string;
  ac_lease_until : Z;
  ac_updated_at : Z;
}.
(** [SET lease_until = excluded.lease_until, updated_at = excluded.updated_at] *)
Definition prefix_touch (old new : artifact_cursor_row) : artifact_cursor_row :=
  ArtifactCursor (ac_prefix old) (ac_last_key old) (ac_lease_until new) (ac_updated_at new).

(* @src workers/retention/src/artifact-retention.ts acquirePrefixLease *)
Definition acquirePrefixLease (prefix : ArtifactPrefix) (now : Z) (db : list artifact_cursor_row)
  : option ArtifactPrefixLease * list artifact_cursor_row :=
  let leaseUntil := now + PREFIX_LEASE_MS in
  let '(cursor, db') := upsert_returning ac_prefix (fun old _ => ac_lease_until old <=? now) prefix_touch
    (ArtifactCursor (prefix_name prefix) "" leaseUntil now) db in
  (match cursor with Some r => Some (MkPrefixLease (ac_last_key r) leaseUntil) | None => None end, db').

(* @src workers/retention/src/artifact-retention.ts releasePrefixLease *)
Definition releasePrefixLease (prefix : ArtifactPrefix) (lastKey : string) (leaseUntil now : Z)
    (db : list artifact_cursor_row) : res unit * list artifact_cursor_row :=
  let '(db', changes) := update_where
    (fun r => key_is ac_prefix (prefix_name prefix) r && (ac_lease_until r =? leaseUntil))
    (fun r => ArtifactCursor (ac_prefix r) lastKey 0 now) db in
  (throw_if negb (changes =? 1) as "artifact_retention_lease_lost" in Ok tt, db').

#[export] Instance PrefixTable : LeaseTable (list artifact_cursor_row) ArtifactPrefix string := {|
  lease_ms := PREFIX_LEASE_MS;
  lease_fresh := "";
  lease_wf := keys_unique ac_prefix;
  lease_view := fun k => row_view ac_prefix ac_lease_until ac_last_key (prefix_name k);
  lease_acquire := fun k now t =>
    let '(l, t') := acquirePrefixLease k now t in ((fun l => (pl_lastKey l, pl_leaseUntil l)) <$> l, t');
  lease_release := fun k u d now t => let '(r, t') := releasePrefixLease k d u now t in (is_ok r, t');
|}.

Lemma prefix_name_inj p q : prefix_name p = prefix_name q -> p = q.
Proof. by destruct p, q. Qed.

#[export] Instance PrefixLaws : LeaseLaws (list artifact_cursor_row) ArtifactPrefix string.
Proof.
  split.
  - done.
  - intros t k now Hw. cbn [lease_acquire lease_view lease_wf lease_ms lease_fresh PrefixTable] in *.
    unfold acquirePrefixLease. set (row := ArtifactCursor (prefix_name k) "" (now + PREFIX_LEASE_MS) now).
    destruct (row_acquire_refines ac_prefix ac_lease_until ac_last_key prefix_touch row now t PREFIX_LEASE_MS)
      as (Hr & Hu & Hv & Hf); try done.
    pose proof (fun x => row_acquire_until ac_prefix ac_lease_until ac_last_key prefix_touch row now t
      (now + PREFIX_LEASE_MS) x) as Hx.
    destruct (upsert_returning _ _ _ _ _) as [[r|] t']; cbn [fst snd fmap option_fmap option_map] in *;
      (split_and!; [|done | done | by intros k' Hk; apply Hf; intros ?%prefix_name_inj]); [|exact Hr].
    etransitivity; [|exact Hr]. cbn. by rewrite (Hx r).
  - intros t k held d now Hw. cbn [lease_release lease_view lease_wf PrefixTable] in *.
    unfold releasePrefixLease.
    destruct (row_release_refines ac_prefix ac_lease_until ac_last_key
      (fun r => ArtifactCursor (ac_prefix r) d 0 now) (prefix_name k) held d t) as (Hr & Hu & Hv & Hf); try done.
    destruct (update_where _ _ _) as [t' n]. cbn [fst snd] in *.
    split_and!; [|done | done | by intros k' Hk; apply Hf; intros ?%prefix_name_inj].
    rewrite <- Hr. by destruct (n =? 1).
Qed.

(** C8: leases exclude: for the check scheduler, the per-workspace retention run and the artifact
    sweep alike, whatever workers do in whatever order (acquire, release, crash, outlive their
    lease), a scope has at most one unexpired holder; while it is held nobody else acquires it and
    the holder's release succeeds; and a holder that was overtaken can neither give the lease back
    nor overwrite the cursor. *)
Theorem scheduler_and_retention_leases_exclude :
  leases_exclude (list SchedulerStateRow) unit (Z * Z) /\
  leases_exclude (list retention_cursor_row) Z Z /\
  leases_exclude (list artifact_cursor_row) ArtifactPrefix string.
Proof. split_and!; apply laws_exclude. Qed.

(** Two scheduler runs a minute apart: the second finds the lease taken; when the first outlives
    its lease and a third takes over, the first cannot release. *)
Example scheduler_overlap :
  let '(a, t1) := acquireSchedulerLease 1000 [] in
  let '(b, t2) := acquireSchedulerLease 61000 t1 in
  let '(c, t3) := acquireSchedulerLease 901000 t2 in
  a = Some (MkSchedulerLease 0 0 901000) /\ b = None /\ c = Some (MkSchedulerLease 0 0 1801000) /\
  (releaseSchedulerLease (MkSchedulerLease 0 0 901000) 5 6 902000 t3).1 = false /\
  releaseSchedulerLease (MkSchedulerLease 0 0 1801000) 7 8 903000 t3 = (true, [SchedulerState 1 7 8 0 903000]).
Proof. vm_compute. repeat split. Qed.
