(* ===== verification/ServiceStateSync.v ===== *)
(** * ServiceStateSync: configuration changes reach the telemetry database

    Models [packages/db/src/repositories/service-state-sync.ts].  A change of a check or of a
    maintenance window leaves a job in the control database; applying it removes or corrects the
    check's latest row in the telemetry database and recomputes the service's state.  The jobs
    are applied by the check scheduler, again and again while they protect a window. *)

From Stdlib Require Import ZArith Lia Bool String List.
From stdpp Require Import base tactics sets list strings sorting.
From S2P Require Import Prelude.
From S2P Require Import Js.
From S2P Require Import Sql.
From S2P Require Import Crypto.
From S2P Require Import Authz.
From S2P Require Import CheckPersistence.
From S2P Require Import ControlTables.
Open Scope string_scope.
Open Scope Z_scope.

(** ** Data *)

(* @src packages/db/src/repositories/service-state-sync.ts 1-1 JOB_BATCH *)
Definition JOB_BATCH : Z := 50.
(* @src packages/db/src/repositories/service-state-sync.ts 2-2 SERVICE_STATE_SYNC_GUARD_MS *)
Definition SERVICE_STATE_SYNC_GUARD_MS : Z := 15 * 60000.

(* @src packages/db/src/repositories/service-state-sync.ts 4-5 ServiceStateSyncReason *)
Inductive ServiceStateSyncReason := check_configuration | maintenance_window | maintenance_window_ended.
#[export] Instance reason_eq_dec : EqDecision ServiceStateSyncReason. Proof. solve_decision. Defined.
Definition reason_name (r : ServiceStateSyncReason) : string :=
  match r with
  | check_configuration => "check_configuration"
  | maintenance_window => "maintenance_window"
  | maintenance_window_ended => "maintenance_window_ended"
  end.

(** A job, as the code holds it and as the row of [service_state_sync_jobs]; [rowToJob] copies
    column by column. *)
(* @src packages/db/src/repositories/service-state-sync.ts ServiceStateSyncJob *)
Record ServiceStateSyncJob := Job {
  jobKey : string;
  syncToken : string;
  jb_workspaceId : string;
  jb_workspacePk : Z;
  jb_serviceId : string;
  jb_servicePk : Z;
  jb_checkId : option string;
  jb_checkPk : option Z;
  jb_reasonCode : ServiceStateSyncReason;
  protectUntil : Z;
  nextAttemptAt : Z;
  lastAttemptedAt : Z;
  jb_updatedAt : Z;
}.
#[export] Instance job_eq_dec : EqDecision ServiceStateSyncJob. Proof. solve_decision. Defined.

(** The control database. *)
Record sync_control := SyncControl {
  sy_workspaces : list workspace_row;
  sy_services : list service_config_row;
  sy_checks : list check_row;
  sy_jobs : list ServiceStateSyncJob;
}.
Definition with_jobs (jobs : list ServiceStateSyncJob) (db : sync_control) : sync_control :=
  SyncControl (sy_workspaces db) (sy_services db) (sy_checks db) jobs.

(** ** Creating a job *)

(** [uuid] is [crypto.randomUUID()]. *)
(* @src packages/db/src/repositories/service-state-sync.ts createServiceStateSyncJob *)
Definition createServiceStateSyncJob (uuid : string) (workspaceId : string) (workspacePk : Z)
    (serviceId : string) (servicePk : Z) (checkId : option string) (checkPk : option Z)
    (reasonCode : ServiceStateSyncReason) (updatedAt : Z) (retainUntil : option Z) : ServiceStateSyncJob :=
  let key := match checkId with None => "service:" ++ serviceId | Some id => "check:" ++ id end in
  let guardUntil := updatedAt + SERVICE_STATE_SYNC_GUARD_MS in
  Job key uuid workspaceId workspacePk serviceId servicePk checkId checkPk reasonCode
    (Z.max guardUntil (coalesce retainUntil guardUntil)) updatedAt updatedAt updatedAt.

(** The statement that stores it; [changed] is [changes() = 1] of the statement before. *)
(* @src packages/db/src/repositories/service-state-sync.ts prepareServiceStateSyncJob *)
Definition prepareServiceStateSyncJob (job : ServiceStateSyncJob) (onlyIfPreviousStatementChanged changed : bool)
    (jobs : list ServiceStateSyncJob) : list ServiceStateSyncJob * Z :=
  if onlyIfPreviousStatementChanged && negb changed then (jobs, 0)
  else upsert jobKey (fun _ _ => true) (fun _ new => new) job jobs.

(** ** Applying a job *)

(* @src packages/db/src/repositories/service-state-sync.ts serviceState *)
Definition sync_serviceState (checks : list (CheckState * Z)) (maintenanceUntil : option Z) (now : Z) : string :=
  if null_gt maintenanceUntil now then "maintenance"
  else if existsb (fun check => (check.2 =? 1) && bool_decide (check.1 = CDown)) checks then "down"
  else if existsb (fun check => bool_decide (check.1 = CDown) || bool_decide (check.1 = CDegraded)) checks
  then "degraded"
  else if existsb (fun check => bool_decide (check.1 = CHealthy)) checks then "healthy"
  else "unknown".

(* @src packages/db/src/repositories/service-state-sync.ts DesiredServiceStateRow *)
Record DesiredServiceStateRow := Desired {
  ds_workspace_pk : Z;
  ds_service_pk : Z;
  ds_maintenance_until : option Z;
  (** the columns of the left join: none when no check matches *)
  ds_check : option check_row;
}.

(* @src packages/db/src/repositories/service-state-sync.ts desiredServiceState *)
Definition desiredServiceState (db : sync_control) (job : ServiceStateSyncJob) : option DesiredServiceStateRow :=
  match List.find (fun s => String.eqb (sc_id s) (jb_serviceId job) &&
                            String.eqb (sc_workspace s) (jb_workspaceId job) &&
                            match sc_deleted s with None => true | Some _ => false end) (sy_services db) with
  | None => None
  | Some s =>
      match List.find (fun w => String.eqb (ws_id w) (sc_workspace s) &&
                                match ws_deleted w with None => true | Some _ => false end) (sy_workspaces db) with
      | None => None
      | Some w =>
          Some (Desired (ws_pk w) (sc_pk s) (sc_maintenance s)
            (match jb_checkId job with
             | None => None
             | Some id => List.find (fun c => String.eqb (ck_id c) id && String.eqb (ck_service c) (sc_id s) &&
                                              String.eqb (ck_workspace c) (sc_workspace s)) (sy_checks db)
             end))
      end
  end.

(** [WHERE workspace_pk = ? AND check_pk = ?] *)
Definition latest_of (workspace check : Z) (r : check_latest_row) : bool :=
  (cl_workspace r =? workspace) && (cl_check r =? check).
Definition set_critical (critical : Z) (r : check_latest_row) : check_latest_row :=
  CheckLatest (cl_check r) (cl_workspace r) (cl_service r) (cl_observed r) (cl_state r) (cl_latency r)
    (cl_failure_code r) (cl_failure_summary r) (cl_failures r) (cl_successes r) critical (cl_revision r) (cl_result r).

(** The first part: the job's check in [check_latest]. *)
(* @src packages/db/src/repositories/service-state-sync.ts 193-220 applyServiceStateSyncJob *)
Definition sync_check (desired : DesiredServiceStateRow) (job : ServiceStateSyncJob) (db : telemetry_db)
  : telemetry_db :=
  match jb_checkPk job with
  | None => db
  | Some checkPk =>
      match (match ds_check desired with
             | Some c => if (ck_pk c =? checkPk) && (ck_enabled c =? 1) then Some c else None
             | None => None
             end) with
      | None => with_latest (delete_where (latest_of (jb_workspacePk job) checkPk) (check_latest db)) db
      | Some c =>
          match ck_executor c with
          | cloudflare =>
              let db := with_latest (delete_where (fun r => latest_of (jb_workspacePk job) checkPk r &&
                          negb (cl_revision r =? ck_revision c)) (check_latest db)) db in
              with_latest (update_where (fun r => latest_of (jb_workspacePk job) checkPk r &&
                          (cl_revision r =? ck_revision c)) (set_critical (ck_critical c)) (check_latest db)) db
          | agent =>
              with_latest (update_where (latest_of (jb_workspacePk job) checkPk)
                             (set_critical (ck_critical c)) (check_latest db)) db
          end
      end
  end.

Section Sync.
Context `{WC : WebCrypto}.

(* @src packages/db/src/repositories/service-state-sync.ts eventId *)
Definition eventId (job : ServiceStateSyncJob) (previousState currentState : string) : list byte :=
  sha256 (encode_utf8 (jobKey job ++ ":" ++ syncToken job ++ ":" ++ previousState ++ ":" ++ currentState)).

Definition sync_reason (job : ServiceStateSyncJob) (nextState : string) : string :=
  if String.eqb nextState "maintenance" then "maintenance_window"
  else if bool_decide (jb_reasonCode job = maintenance_window) then "maintenance_window_ended"
  else reason_name (jb_reasonCode job).

(** The second part: the service's state. *)
(* @src packages/db/src/repositories/service-state-sync.ts 222-273 applyServiceStateSyncJob *)
Definition sync_service (desired : DesiredServiceStateRow) (job : ServiceStateSyncJob) (now : Z) (db : telemetry_db)
  : res (option Z) * telemetry_db :=
  let checks := service_checks (check_latest db) (jb_workspacePk job) (jb_servicePk job) in
  let previous := List.find (fun r => (sl_workspace r =? jb_workspacePk job) &&
                                      (sl_service r =? jb_servicePk job)) (service_latest db) in
  let nextState := sync_serviceState checks (ds_maintenance_until desired) now in
  if match previous with Some r => String.eqb (sl_state r) nextState | None => false end
  then (Ok (ds_maintenance_until desired), db)
  else
    let previousState := coalesce (sl_state <$> previous) "unknown" in
    let reasonCode := sync_reason job nextState in
    let id := eventId job previousState nextState in
    let db1 := with_service (set_service (ServiceLatest (jb_servicePk job) (jb_workspacePk job) nextState now
                 reasonCode now now) (service_latest db)) db in
    let db2 := insert_event (if db_changes db1 =? 1
                 then Some (StateEvent (jb_workspacePk job) 2 (jb_servicePk job) now id previousState nextState reasonCode)
                 else None) db1 in
    ((throw_if negb (db_changes db1 =? 1) as "service_state_sync_telemetry_identity_changed"
      in Ok (ds_maintenance_until desired)), db2).

(** The result is the service's [maintenanceUntil]; what was written stays when it throws. *)
(* @src packages/db/src/repositories/service-state-sync.ts applyServiceStateSyncJob *)
Definition applyServiceStateSyncJob (control : sync_control) (job : ServiceStateSyncJob) (now : Z) (db : telemetry_db)
  : res (option Z) * telemetry_db :=
  match desiredServiceState control job with
  | None =>
      (Ok None, match jb_checkPk job with
                | None => db
                | Some checkPk => with_latest (delete_where (latest_of (jb_workspacePk job) checkPk) (check_latest db)) db
                end)
  | Some desired =>
      if negb (ds_workspace_pk desired =? jb_workspacePk job) || negb (ds_service_pk desired =? jb_servicePk job)
      then (Err "service_state_sync_identity_changed", db)
      else sync_service desired job now (sync_check desired job db)
  end.

(** ** The queue *)

Definition same_job (job r : ServiceStateSyncJob) : bool :=
  String.eqb (jobKey r) (jobKey job) && String.eqb (syncToken r) (syncToken job).

(* @src packages/db/src/repositories/service-state-sync.ts markServiceStateSyncAttempt *)
Definition markServiceStateSyncAttempt (job : ServiceStateSyncJob) (now protect next : Z)
    (jobs : list ServiceStateSyncJob) : list ServiceStateSyncJob :=
  (update_where (same_job job)
     (fun r => Job (jobKey r) (syncToken r) (jb_workspaceId r) (jb_workspacePk r) (jb_serviceId r) (jb_servicePk r)
                 (jb_checkId r) (jb_checkPk r) (jb_reasonCode r) protect next now (jb_updatedAt r)) jobs).1.

(* @src packages/db/src/repositories/service-state-sync.ts nextAttemptAfterSuccess *)
Definition nextAttemptAfterSuccess (job : ServiceStateSyncJob) (now protect : Z) : Z :=
  let guardUntil := jb_updatedAt job + SERVICE_STATE_SYNC_GUARD_MS in
  if bool_decide (jb_reasonCode job = maintenance_window) && (guardUntil <=? now) && (now <? protect)
  then protect else now.

(* @src packages/db/src/repositories/service-state-sync.ts ServiceStateSyncProgress *)
Record ServiceStateSyncProgress := SyncProgress { sp_processed : Z; sp_completed : Z; sp_failed : Z }.

(** [ORDER BY next_attempt_at, last_attempted_at, job_key] *)
Definition job_leb (a b : ServiceStateSyncJob) : bool :=
  if nextAttemptAt a =? nextAttemptAt b then
    if lastAttemptedAt a =? lastAttemptedAt b then String.leb (jobKey a) (jobKey b)
    else lastAttemptedAt a <? lastAttemptedAt b
  else nextAttemptAt a <? nextAttemptAt b.
Definition due_jobs (now batch : Z) (jobs : list ServiceStateSyncJob) : list ServiceStateSyncJob :=
  order_limit job_leb batch (List.filter (fun r => nextAttemptAt r <=? now) jobs).

(** One job of the loop. *)
(* @src packages/db/src/repositories/service-state-sync.ts 343-374 reconcileServiceStateSyncJobs *)
Definition sync_one (now : Z) (acc : ServiceStateSyncProgress * (sync_control * telemetry_db)) (job : ServiceStateSyncJob)
  : ServiceStateSyncProgress * (sync_control * telemetry_db) :=
  let '(progress, (control, telemetry)) := acc in
  let '(applied, telemetry') := applyServiceStateSyncJob control job now telemetry in
  match applied with
  | Ok maintenanceUntil =>
      let protect :=
        match maintenanceUntil with
        | Some m => if bool_decide (jb_reasonCode job = maintenance_window) then Z.max (protectUntil job) m
                    else protectUntil job
        | None => protectUntil job
        end in
      if protect <=? now then
        let '(jobs, n) := delete_where (same_job job) (sy_jobs control) in
        (SyncProgress (sp_processed progress) (sp_completed progress + n) (sp_failed progress),
         (with_jobs jobs control, telemetry'))
      else
        (progress,
         (with_jobs (markServiceStateSyncAttempt job now protect (nextAttemptAfterSuccess job now protect)
            (sy_jobs control)) control, telemetry'))
  | Err _ =>
      (SyncProgress (sp_processed progress) (sp_completed progress) (sp_failed progress + 1),
       (with_jobs (markServiceStateSyncAttempt job now (protectUntil job) now (sy_jobs control)) control, telemetry'))
  end.

(* @src packages/db/src/repositories/service-state-sync.ts reconcileServiceStateSyncJobs *)
Definition reconcileServiceStateSyncJobs (control : sync_control) (telemetry : telemetry_db) (now batch : Z)
  : res ServiceStateSyncProgress * (sync_control * telemetry_db) :=
  if (batch <? 1) || (JOB_BATCH <? batch)
  then (Err "service state sync batch must be between 1 and 50", (control, telemetry))
  else
    let rows := due_jobs now batch (sy_jobs control) in
    let '(progress, dbs) := fold_left (sync_one now) rows (SyncProgress 0 0 0, (control, telemetry)) in
    (Ok (SyncProgress (Z.of_nat (length rows)) (sp_completed progress) (sp_failed progress)), dbs).
End Sync.

(** ** What applying a job establishes *)

Lemma sync_serviceState_name checks maintenance now :
  sync_serviceState checks maintenance now = state_name (serviceState checks maintenance now).
Proof. unfold sync_serviceState, serviceState. by repeat case_match. Qed.

(** The rows the job's check may have, by the configuration it finds. *)
Definition check_in_sync (desired : option DesiredServiceStateRow) (job : ServiceStateSyncJob)
    (rows : list check_latest_row) : Prop :=
  forall checkPk r, jb_checkPk job = Some checkPk -> r ∈ rows -> latest_of (jb_workspacePk job) checkPk r = true ->
  exists d c, desired = Some d /\ ds_check d = Some c /\ ck_pk c = checkPk /\ ck_enabled c = 1 /\
    cl_critical r = ck_critical c /\ (ck_executor c = cloudflare -> cl_revision r = ck_revision c).

Lemma elem_of_update {R} (p : R -> bool) f t x : x ∈ (update_where p f t).1 ->
  exists y, y ∈ t /\ x = if p y then f y else y.
Proof. unfold update_where. cbn. intros H. apply list_elem_of_fmap in H as (y & -> & Hy). by exists y. Qed.
Lemma elem_of_delete {R} (p : R -> bool) (t : list R) x : x ∈ (delete_where p t).1 <-> x ∈ t /\ p x = false.
Proof. unfold delete_where. cbn. rewrite filter_In_elem. by rewrite negb_true_iff. Qed.

Lemma sync_check_in_sync desired job db :
  check_in_sync (Some desired) job (check_latest (sync_check desired job db)).
Proof.
  intros checkPk r Hpk Hin Hr. unfold sync_check in Hin. rewrite Hpk in Hin.
  destruct (ds_check desired) as [c|] eqn:Ec; cbn [with_latest check_latest] in Hin.
  2: { apply elem_of_delete in Hin as [_ Hin]. congruence. }
  destruct ((ck_pk c =? checkPk) && (ck_enabled c =? 1)) eqn:Ecur.
  2: { apply elem_of_delete in Hin as [_ Hin]. congruence. }
  apply andb_true_iff in Ecur as [Hp He]. apply Z.eqb_eq in Hp, He.
  exists desired, c. split_and!; [done | done | done | done | |]; destruct (ck_executor c) eqn:Ex; cbn [with_latest check_latest] in Hin.
  - apply elem_of_update in Hin as (y & Hy & ->). apply elem_of_delete in Hy as [_ Hy].
    destruct (latest_of (jb_workspacePk job) checkPk y) eqn:El.
    + cbn in Hy |- *. apply negb_false_iff in Hy. by rewrite Hy.
    + cbn in Hr |- *. congruence.
  - apply elem_of_update in Hin as (y & Hy & ->). destruct (latest_of _ _ y) eqn:El; [done | congruence].
  - intros _. apply elem_of_update in Hin as (y & Hy & ->). apply elem_of_delete in Hy as [_ Hy].
    destruct (latest_of (jb_workspacePk job) checkPk y) eqn:El.
    + cbn in Hy |- *. apply negb_false_iff in Hy. rewrite Hy. cbn. by apply Z.eqb_eq.
    + cbn in Hr |- *. congruence.
  - done.
Qed.

Lemma update_where_id {R} (p : R -> bool) f (t : list R) :
  (forall x, x ∈ t -> p x = true -> f x = x) -> (update_where p f t).1 = t.
Proof.
  unfold update_where. cbn. induction t as [|x t IH]; intros H; [done|]. cbn. f_equal.
  - destruct (p x) eqn:E; [|done]. apply H; [by left | done].
  - apply IH. intros y Hy. apply H. by right.
Qed.
Lemma delete_where_id {R} (p : R -> bool) (t : list R) : (forall x, x ∈ t -> p x = false) -> (delete_where p t).1 = t.
Proof.
  unfold delete_where. cbn. induction t as [|x t IH]; intros H; [done|]. cbn.
  rewrite (H x) by (by left). cbn. f_equal. apply IH. intros y Hy. apply H. by right.
Qed.

(** A check that is in sync is left alone. *)
Lemma sync_check_fixed desired job db : check_in_sync (Some desired) job (check_latest db) ->
  check_latest (sync_check desired job db) = check_latest db.
Proof.
  intros H. unfold sync_check. destruct (jb_checkPk job) as [checkPk|] eqn:Epk; [|done].
  assert (Hrow : forall r, r ∈ check_latest db -> latest_of (jb_workspacePk job) checkPk r = true ->
    exists c, ds_check desired = Some c /\ ck_pk c = checkPk /\ ck_enabled c = 1 /\
      cl_critical r = ck_critical c /\ (ck_executor c = cloudflare -> cl_revision r = ck_revision c)).
  { intros r Hr Hl. destruct (H checkPk r Epk Hr Hl) as (d & c & [= <-] & ?). by exists c. }
  assert (Hset : forall c r, r ∈ check_latest db -> latest_of (jb_workspacePk job) checkPk r = true ->
    ds_check desired = Some c -> set_critical (ck_critical c) r = r).
  { intros c r Hr Hl Hc. destruct (Hrow r Hr Hl) as (c' & Hc' & _ & _ & Hcr & _).
    assert (c' = c) as -> by congruence. unfold set_critical. rewrite <- Hcr. by destruct r. }
  assert (Hnone : (match ds_check desired with
      | Some c => if (ck_pk c =? checkPk) && (ck_enabled c =? 1) then Some c else None | None => None end) = None ->
    forall r, r ∈ check_latest db -> latest_of (jb_workspacePk job) checkPk r = false).
  { intros Hn r Hr. destruct (latest_of _ _ r) eqn:El; [|done]. destruct (Hrow r Hr El) as (c & Hc & Hp & He & _).
    rewrite Hc, Hp, Z.eqb_refl, He in Hn. discriminate. }
  destruct (match ds_check desired with Some c => _ | None => None end) as [c|] eqn:Ec.
  2: { cbn. apply delete_where_id. by apply Hnone. }
  destruct (ds_check desired) as [c'|] eqn:Ed; [|done]. destruct (_ && _) in Ec; [|done]. injection Ec as <-.
  destruct (ck_executor c') eqn:Ex; cbn [with_latest check_latest].
  - rewrite (delete_where_id _ (check_latest db)).
    + apply update_where_id. intros r Hr Hp. apply andb_true_iff in Hp as [Hp _]. by apply Hset.
    + intros r Hr. destruct (latest_of _ _ r) eqn:El; [|done]. cbn.
      destruct (Hrow r Hr El) as (c & [= <-] & _ & _ & _ & Hrev). by rewrite Hrev, Z.eqb_refl by done.
  - apply update_where_id. intros r Hr Hp. by apply Hset.
Qed.

Lemma sync_check_frame desired job db : state_events (sync_check desired job db) = state_events db /\
  event_queue (sync_check desired job db) = event_queue db /\ queue_next (sync_check desired job db) = queue_next db /\
  service_latest (sync_check desired job db) = service_latest db.
Proof.
  unfold sync_check. destruct (jb_checkPk job); [|done].
  destruct (match ds_check desired with Some c => _ | None => _ end) as [c|]; [|done]. by destruct (ck_executor c).
Qed.

Lemma find_service ws pk t : keys_unique service_key t ->
  List.find (fun r => (sl_workspace r =? ws) && (sl_service r =? pk)) t =
    match find_key service_key pk t with Some r => if sl_workspace r =? ws then Some r else None | None => None end.
Proof.
  unfold keys_unique, find_key. induction t as [|x t IH]; intros Hnd; [done|].
  cbn in Hnd. apply NoDup_cons in Hnd as [Hni Hnd]. cbn [List.find]. unfold key_is at 1. unfold service_key at 1.
  case_bool_decide as E.
  - rewrite (proj2 (Z.eqb_eq _ _) E), andb_true_r. destruct (sl_workspace x =? ws); [done|].
    rewrite IH by done. destruct (List.find (key_is service_key pk) t) as [y|] eqn:Ef; [|done].
    exfalso. apply Hni. apply (find_key_Some service_key pk t y) in Ef as [Hy Hk].
    change (service_key x ∈ map service_key t). unfold service_key at 1. rewrite E, <- Hk. by apply list_elem_of_fmap_2.
  - rewrite (proj2 (Z.eqb_neq (sl_service x) pk)) by done. rewrite andb_false_r. by apply IH.
Qed.

Lemma insert_event_service o db : service_latest (insert_event o db) = service_latest db.
Proof. unfold insert_event. destruct o as [e|]; [|done]. by destruct (insert_or_ignore _ _ _). Qed.

Lemma set_service_spec row t : keys_unique service_key t ->
  keys_unique service_key (set_service row t).1 /\
  ((set_service row t).2 = 1 -> exists r, find_key service_key (sl_service row) (set_service row t).1 = Some r /\
     sl_workspace r = sl_workspace row /\ sl_state r = sl_state row).
Proof.
  intros Hu. unfold set_service. split; [by apply upsert_unique|]. rewrite upsert_count, find_key_upsert by done.
  rewrite bool_decide_eq_true_2 by done. change (service_key row) with (sl_service row).
  destruct (find_key service_key (sl_service row) t) as [old|]; [|by exists row].
  destruct (sl_workspace old =? sl_workspace row); [|done]. intros _. by eexists.
Qed.

Section SyncProofs.
Context `{WC : WebCrypto}.

(** The service's row after the second part. *)
Lemma sync_service_row desired job now db m db' : keys_unique service_key (service_latest db) ->
  sync_service desired job now db = (Ok m, db') ->
  m = ds_maintenance_until desired /\ keys_unique service_key (service_latest db') /\
  check_latest db' = check_latest db /\
  exists r, find_key service_key (jb_servicePk job) (service_latest db') = Some r /\
    sl_workspace r = jb_workspacePk job /\
    sl_state r = sync_serviceState (service_checks (check_latest db) (jb_workspacePk job) (jb_servicePk job))
                   (ds_maintenance_until desired) now.
Proof.
  intros Hu. unfold sync_service. cbv zeta. rewrite find_service by done.
  set (next := sync_serviceState _ _ _).
  set (row := ServiceLatest (jb_servicePk job) (jb_workspacePk job) next now (sync_reason job next) now now).
  destruct (set_service_spec row (service_latest db) Hu) as [Hu' Hset].
  match goal with |- (if ?b then _ else _) = _ -> _ => destruct b eqn:Esame end.
  - intros [= <- <-]. split_and!; [done | done | done|].
    destruct (find_key service_key (jb_servicePk job) (service_latest db)) as [r|]; [|done].
    destruct (sl_workspace r =? jb_workspacePk job) eqn:Ew; [|done]. exists r. apply Z.eqb_eq in Ew. apply String.eqb_eq in Esame. done.
  - intros H. apply pair_equal_spec in H as [He Hd]. cbn [with_service db_changes] in He.
    destruct (_ =? 1) eqn:E1 in He; [|done]. apply Z.eqb_eq in E1. cbn [negb] in He. apply Ok_inj in He as <-.
    destruct (Hset E1) as (r & Hr & Hw & Hs). split; [done|].
    assert (Hsv : service_latest db' = (set_service row (service_latest db)).1 /\ check_latest db' = check_latest db).
    { rewrite <- Hd. split; [by rewrite insert_event_service | by rewrite insert_event_latest]. }
    destruct Hsv as [-> ->]. split_and!; [done | done|]. by exists r.
Qed.

(** C33: applying a job brings the telemetry database in line with the configuration, whatever was
    stored before.  Afterwards the job's check has latest rows only if it still exists, enabled,
    with its current importance and (for checks run here) its current revision; the service's row
    holds the state that the checks worker's own SQL computes from the remaining rows; and applying
    the job again at the same time changes nothing. *)
Theorem sync_job_converges control job now db m db'
  (Hu : keys_unique service_key (service_latest db))
  (Hrun : applyServiceStateSyncJob control job now db = (Ok m, db')) :
  check_in_sync (desiredServiceState control job) job (check_latest db') /\
  (forall d, desiredServiceState control job = Some d ->
     m = ds_maintenance_until d /\
     exists r, find_key service_key (jb_servicePk job) (service_latest db') = Some r /\
       sl_workspace r = jb_workspacePk job /\
       sl_state r = state_name (next_service (check_latest db') (jb_workspacePk job) (jb_servicePk job) m now)) /\
  exists db'', applyServiceStateSyncJob control job now db' = (Ok m, db'') /\ service_view db'' = service_view db'.
Proof.
  unfold applyServiceStateSyncJob in *. destruct (desiredServiceState control job) as [d|] eqn:Ed.
  - destruct (_ || _) eqn:Eid in Hrun; [done|]. rewrite Eid.
    destruct (sync_check_frame d job db) as (_ & _ & _ & Hsl).
    destruct (sync_service_row d job now (sync_check d job db) m db') as (Hm & Hu' & Hcl & r & Hr & Hw & Hs);
      [by rewrite Hsl | done |].
    pose proof (sync_check_in_sync d job db) as Hsync. rewrite <- Hcl in Hsync.
    split; [done|]. split.
    + intros d' [= <-]. split; [done|]. exists r. split_and!; [done | done |].
      rewrite next_service_decides, <- sync_serviceState_name, Hs, Hm, Hcl. done.
    + exists (sync_check d job db'). destruct (sync_check_frame d job db') as (He & Hq & Hn & Hl).
      pose proof (sync_check_fixed d job db' Hsync) as Hfix. split.
      * unfold sync_service. cbv zeta. rewrite Hl, Hfix, find_service by done. rewrite Hr, Hw, Z.eqb_refl, Hs, Hcl, String.eqb_refl.
        by rewrite Hm.
      * unfold service_view. congruence.
  - apply pair_equal_spec in Hrun as [He Hd]. apply Ok_inj in He as <-.
    assert (Hgone : forall checkPk r, jb_checkPk job = Some checkPk -> r ∈ check_latest db' ->
      latest_of (jb_workspacePk job) checkPk r = false).
    { intros checkPk r Hpk Hr. rewrite <- Hd, Hpk in Hr. cbn [with_latest check_latest] in Hr.
      by apply elem_of_delete in Hr as [_ ?]. }
    split; [|split; [done|]].
    + intros checkPk r Hpk Hr Hl. by rewrite (Hgone checkPk r Hpk Hr) in Hl.
    + eexists. split; [done|]. destruct (jb_checkPk job) as [checkPk|] eqn:Epk; [|done].
      unfold service_view. cbn [with_latest check_latest state_events event_queue queue_next service_latest].
      rewrite delete_where_id; [done|]. intros x Hx. by apply Hgone.
Qed.

(** ** The queue *)

Lemma apply_jobs_irrelevant jobs control job now db :
  applyServiceStateSyncJob (with_jobs jobs control) job now db = applyServiceStateSyncJob control job now db.
Proof. done. Qed.

(** What became of the job [j]: still queued, protecting at least as long, or done. *)
Definition queued (j : ServiceStateSyncJob) (jobs : list ServiceStateSyncJob) : Prop :=
  exists r, r ∈ jobs /\ jobKey r = jobKey j /\ syncToken r = syncToken j /\ protectUntil j <= protectUntil r.
Definition done_job (control : sync_control) (now : Z) (j : ServiceStateSyncJob) : Prop :=
  protectUntil j <= now /\ exists telemetry, is_ok (applyServiceStateSyncJob control j now telemetry).1 = true.

Lemma mark_queued j job now protect next jobs : protectUntil job <= protect ->
  (forall r, r ∈ jobs -> same_job job r = true -> protectUntil r = protectUntil job) ->
  queued j jobs -> queued j (markServiceStateSyncAttempt job now protect next jobs).
Proof.
  intros Hp Hsame (r & Hr & Hk & Ht & Hle). unfold markServiceStateSyncAttempt, update_where. cbn [fst].
  eexists. split; [by apply list_elem_of_fmap_2|]. cbv beta. destruct (same_job job r) eqn:E; [|done]. cbn.
  pose proof (Hsame r Hr E). split_and!; [done | done | lia].
Qed.

Lemma same_job_eq job r : same_job job r = true <-> jobKey r = jobKey job /\ syncToken r = syncToken job.
Proof. unfold same_job. by rewrite andb_true_iff, !String.eqb_eq. Qed.

(** The loop's invariant: [rest] are the jobs still to process, from the table [jobs0]. *)
Definition queue_inv (control : sync_control) (now : Z) (jobs0 rest : list ServiceStateSyncJob) (jobs : list ServiceStateSyncJob)
  : Prop :=
  keys_unique jobKey jobs /\ NoDup (map jobKey rest) /\
  (forall job r, job ∈ rest -> r ∈ jobs -> jobKey r = jobKey job -> r = job) /\
  (forall j, j ∈ jobs0 -> queued j jobs \/ done_job control now j).

Lemma mark_inv control now jobs0 job rest jobs protect next : protectUntil job <= protect ->
  queue_inv control now jobs0 (job :: rest) jobs ->
  queue_inv control now jobs0 rest (markServiceStateSyncAttempt job now protect next jobs).
Proof.
  intros Hp (Hu & Hnd & Hsame & Hq). cbn in Hnd. apply NoDup_cons in Hnd as [Hni Hnd]. split_and!; [|done | |].
  - by apply update_where_unique.
  - intros j r Hj Hr Hk. unfold markServiceStateSyncAttempt in Hr. apply elem_of_update in Hr as (y & Hy & ->).
    destruct (same_job job y) eqn:E.
    + exfalso. apply Hni. apply same_job_eq in E as [E _]. cbn in Hk. rewrite <- E, Hk. by apply list_elem_of_fmap_2.
    + apply Hsame; [by right | done | done].
  - intros j Hj. destruct (Hq j Hj) as [H|H]; [left | by right]. apply mark_queued; [done | | done].
    intros r Hr E. apply same_job_eq in E as [E _]. by rewrite (Hsame job r ltac:(by left) Hr E).
Qed.

Lemma sync_one_inv control now jobs0 job rest p jobs telemetry : keys_unique jobKey jobs0 ->
  (forall j, j ∈ job :: rest -> j ∈ jobs0) ->
  queue_inv control now jobs0 (job :: rest) jobs ->
  exists p' jobs' telemetry', sync_one now (p, (with_jobs jobs control, telemetry)) job = (p', (with_jobs jobs' control, telemetry')) /\
    queue_inv control now jobs0 rest jobs' /\
    sp_completed p <= sp_completed p' /\ sp_failed p <= sp_failed p' /\
    sp_completed p' + sp_failed p' <= sp_completed p + sp_failed p + 1.
Proof.
  intros Hu0 Hin Hinv. unfold sync_one. rewrite apply_jobs_irrelevant.
  destruct (applyServiceStateSyncJob control job now telemetry) as [applied telemetry1] eqn:Ea.
  destruct applied as [m|e]; cbn [sy_jobs with_jobs].
  2: { eexists _, _, _. split; [done|]. split; [by apply mark_inv|]. cbn. lia. }
  set (protect := match m with Some m => _ | None => _ end).
  assert (Hle : protectUntil job <= protect).
  { unfold protect. destruct m; [|lia]. case_bool_decide; lia. }
  destruct (protect <=? now) eqn:Ep; cbn [sy_jobs with_jobs].
  2: { eexists _, _, _. split; [done|]. split; [by apply mark_inv | lia]. }
  apply Z.leb_le in Ep. destruct Hinv as (Hu & Hnd & Hsame & Hq).
  unfold delete_where. eexists _, _, _. split; [reflexivity|].
  cbn in Hnd. apply NoDup_cons in Hnd as [Hni Hnd]. split; [split_and!|].
  - by apply (delete_where_unique jobKey (same_job job)).
  - done.
  - intros j r Hj Hr Hk. apply (elem_of_delete (same_job job)) in Hr as [Hr _]. apply Hsame; [by right | done | done].
  - intros j Hj. destruct (Hq j Hj) as [(r & Hr & Hk & Ht & Hpr) | H]; [|by right].
    destruct (same_job job r) eqn:E.
    + right. apply same_job_eq in E as [E1 E2].
      assert (j = job) as ->.
      { assert (Hjob : job ∈ jobs0) by (apply Hin; by left). unfold keys_unique in Hu0.
        apply list_elem_of_lookup in Hj as [i Hi], Hjob as [i' Hi'].
        assert (i = i') as ->; [|congruence]. eapply (NoDup_lookup (map jobKey jobs0)); [done | |].
        - rewrite list_lookup_fmap, Hi. done.
        - rewrite list_lookup_fmap, Hi'. cbn. congruence. }
      split; [lia|]. exists telemetry. by rewrite Ea.
    + left. exists r. split; [|done]. by apply (elem_of_delete (same_job job)).
  - cbn. destruct (count_if_unique jobKey (same_job job) jobs Hu) as [Hc|Hc].
    + intros x y _ _ Hx Hy. apply same_job_eq in Hx as [Hx _], Hy as [Hy _]. congruence.
    + rewrite Hc. lia.
    + rewrite Hc. lia.
Qed.

Lemma sync_run_inv control now jobs0 rest : keys_unique jobKey jobs0 -> (forall j, j ∈ rest -> j ∈ jobs0) ->
  forall p jobs telemetry, queue_inv control now jobs0 rest jobs ->
  exists p' jobs' telemetry', fold_left (sync_one now) rest (p, (with_jobs jobs control, telemetry)) = (p', (with_jobs jobs' control, telemetry')) /\
    queue_inv control now jobs0 [] jobs' /\ sp_completed p <= sp_completed p' /\ sp_failed p <= sp_failed p' /\
    sp_completed p' + sp_failed p' <= sp_completed p + sp_failed p + Z.of_nat (length rest).
Proof.
  intros Hu0. induction rest as [|job rest IH]; intros Hin p jobs telemetry Hinv.
  - eexists _, _, _. split; [reflexivity|]. split; [done|]. cbn. lia.
  - destruct (sync_one_inv control now jobs0 job rest p jobs telemetry Hu0 Hin Hinv) as (p1 & jobs1 & t1 & E1 & Hinv1 & Hc1).
    destruct (IH (fun j Hj => Hin j (proj2 (elem_of_cons _ _ _) (or_intror Hj))) p1 jobs1 t1 Hinv1) as (p2 & jobs2 & t2 & E2 & Hinv2 & Hc2).
    exists p2, jobs2, t2. cbn [fold_left length]. rewrite E1. split; [done|]. split; [done|]. lia.
Qed.

(** No synchronisation job is lost.  After a run every job that was queued is still queued
    under its key and token, protecting at least as long as before, unless it was due, was applied
    without an error and its protection had run out; the run's counters add up and stay within
    the batch, and configuration tables are not touched. *)
Theorem sync_jobs_kept control telemetry now batch p control' telemetry'
  (Hu : keys_unique jobKey (sy_jobs control))
  (Hrun : reconcileServiceStateSyncJobs control telemetry now batch = (Ok p, (control', telemetry'))) :
  (forall j, j ∈ sy_jobs control -> queued j (sy_jobs control') \/ done_job control now j) /\
  sp_processed p = Z.of_nat (length (due_jobs now batch (sy_jobs control))) /\
  0 <= sp_completed p /\ 0 <= sp_failed p /\ sp_completed p + sp_failed p <= sp_processed p <= batch /\
  sy_services control' = sy_services control /\ sy_checks control' = sy_checks control /\
  sy_workspaces control' = sy_workspaces control.
Proof.
  unfold reconcileServiceStateSyncJobs in Hrun. destruct (_ || _) eqn:Eb in Hrun; [done|]. apply orb_false_iff in Eb as [Eb _].
  apply Z.ltb_ge in Eb.
  destruct (sync_run_inv control now (sy_jobs control) (due_jobs now batch (sy_jobs control)) Hu) with
    (p := SyncProgress 0 0 0) (jobs := sy_jobs control) (telemetry := telemetry) as (p' & jobs' & t' & E & Hinv & Hc).
  - intros j Hj. apply elem_of_order_limit in Hj. by apply filter_In_elem in Hj as [? _].
  - assert (Hsame : forall job r, job ∈ sy_jobs control -> r ∈ sy_jobs control -> jobKey r = jobKey job -> r = job).
    { intros job r Hj Hr Hk. pose proof (find_key_unique jobKey (jobKey job) _ _ Hu Hj eq_refl) as H1.
      pose proof (find_key_unique jobKey (jobKey job) _ _ Hu Hr Hk) as H2. congruence. }
    split_and!; [done | | |].
    + unfold due_jobs, order_limit. rewrite <- firstn_map. apply (sublist_NoDup _ (map jobKey (order_by job_leb
        (List.filter (fun r => nextAttemptAt r <=? now) (sy_jobs control))))); [|apply sublist_take].
      rewrite order_by_perm. pose proof (delete_where_unique jobKey (fun r => negb (nextAttemptAt r <=? now)) _ Hu) as Hd.
      unfold delete_where, keys_unique in Hd. cbn in Hd. 
      assert (Hf : List.filter (fun r => negb (negb (nextAttemptAt r <=? now))) (sy_jobs control) =
        List.filter (fun r => nextAttemptAt r <=? now) (sy_jobs control)).
      { apply List.filter_ext. intros r. apply negb_involutive. }
      by rewrite <- Hf.
    + intros job r Hj Hr. apply Hsame; [|done]. apply elem_of_order_limit in Hj. by apply filter_In_elem in Hj as [? _].
    + intros j Hj. left. exists j. split_and!; [done | done | done | lia].
  - assert (with_jobs (sy_jobs control) control = control) as Eq by (by destruct control). rewrite Eq in E.
    rewrite E in Hrun. apply pair_equal_spec in Hrun as [Hp Hd]. apply Ok_inj in Hp as <-.
    apply pair_equal_spec in Hd as [<- <-]. cbn [sp_processed sp_completed sp_failed sy_jobs with_jobs sy_services sy_checks sy_workspaces] in *.
    pose proof (length_order_limit job_leb batch (List.filter (fun r => nextAttemptAt r <=? now) (sy_jobs control))) as Hlen.
    fold (due_jobs now batch (sy_jobs control)) in Hlen. destruct Hinv as (_ & _ & _ & Hq). split_and!; try done; lia.
Qed.
End SyncProofs.

(** ** A recorded synchronisation *)

Definition sync_sample_check : check_row :=
  CheckRow "chk" 7 "w" "s" KHttp cloudflare 1 4 60 0 5000 1 1 "{}" "{}" 1 1 0.
Definition sync_sample_job : ServiceStateSyncJob :=
  createServiceStateSyncJob "t1" "w" 1 "s" 2 (Some "chk") (Some 7) check_configuration 1000 None.
Definition sync_sample_control : sync_control :=
  SyncControl [WorkspaceRow "w" "w" 1 "private" 10 None] [ServiceConfig "s" 2 "w" None None] [sync_sample_check]
    [sync_sample_job].
(** A result of revision 3, written after the check moved to revision 4, and one of another check. *)
Definition sync_sample_telemetry : telemetry_db :=
  TelemetryDb [] [CheckLatest 7 1 (Some 2) 900 CDown None None None 1 0 1 3 [];
                  CheckLatest 8 1 (Some 2) 900 CHealthy None None None 0 1 1 1 []]
    [] [] [] [] 1 [ServiceLatest 2 1 "down" 0 "check_down" 0 0] [] 0.
Definition sync_sample_after : telemetry_db :=
  (applyServiceStateSyncJob sync_sample_control sync_sample_job 2000 sync_sample_telemetry).2.

Lemma sync_sample_unique : keys_unique service_key (service_latest sync_sample_telemetry).
Proof. apply (bool_decide_unpack _). vm_compute. exact I. Qed.
Lemma sync_sample_run :
  applyServiceStateSyncJob sync_sample_control sync_sample_job 2000 sync_sample_telemetry = (Ok None, sync_sample_after).
Proof. vm_compute. reflexivity. Qed.

Example sync_job_converges_witness :
  exists r, find_key service_key 2 (service_latest sync_sample_after) = Some r /\ sl_state r = "healthy" /\
    length (state_events sync_sample_after) = 1%nat.
Proof.
  destruct (sync_job_converges sync_sample_control sync_sample_job 2000 sync_sample_telemetry None sync_sample_after
    sync_sample_unique sync_sample_run) as (_ & Hd & _).
  destruct (Hd (Desired 1 2 None (Some sync_sample_check)) eq_refl) as (_ & r & Hr & _ & Hs).
  exists r. split; [exact Hr|]. split; [rewrite Hs; vm_compute; reflexivity | vm_compute; reflexivity].
Defined.

(** Within its guard the job stays; after it, it is done. *)
Definition sync_sample_early := reconcileServiceStateSyncJobs sync_sample_control sync_sample_telemetry 2000 50.
Definition sync_sample_late := reconcileServiceStateSyncJobs sync_sample_control sync_sample_telemetry 901000 50.
Example sync_jobs_kept_witness :
  queued sync_sample_job (sy_jobs sync_sample_early.2.1) /\ sy_jobs sync_sample_late.2.1 = [] /\
  sync_sample_late.1 = Ok (SyncProgress 1 1 0).
Proof.
  assert (He : sync_sample_early = (Ok (SyncProgress 1 0 0), (sync_sample_early.2.1, sync_sample_early.2.2)))
    by (vm_compute; reflexivity).
  destruct (sync_jobs_kept sync_sample_control sync_sample_telemetry 2000 50 (SyncProgress 1 0 0)
    sync_sample_early.2.1 sync_sample_early.2.2) as (Hq & _).
  - apply (bool_decide_unpack _). vm_compute. exact I.
  - exact He.
  - split; [|split; vm_compute; reflexivity]. destruct (Hq sync_sample_job) as [H|[H _]]; [left | exact H|].
    exfalso. revert H. vm_compute. intros H. apply H. reflexivity.
Defined.
