(* ===== verification/RoundRobin.v ===== *)
(** * RoundRobin: selections that resume at a cursor

    Workers that cannot look at everything in one run order their candidates with
    [ORDER BY CASE WHEN key > cursor THEN 0 ELSE 1 END, key LIMIT n] and store the key of the
    last one as the next run's cursor.  [cyclic_leb] is that order; the lemmas say that the
    runs walk the keys in a circle, so that whatever is among [N] candidates is selected at
    least once in every [N / n] runs, rounded up. *)

From Stdlib Require Import ZArith Lia Bool List Sorted.
From stdpp Require Import base tactics sets list sorting.
From S2P Require Import Prelude.
From S2P Require Import Sql.
Open Scope Z_scope.

(** [CASE WHEN key > cursor THEN 0 ELSE 1 END] *)
Definition behind (cursor key : Z) : Z := if cursor <? key then 0 else 1.
Definition cyclic_leb (cursor a b : Z) : bool :=
  (behind cursor a <? behind cursor b) || ((behind cursor a =? behind cursor b) && (a <=? b)).
Definition cyclic_le (cursor a b : Z) : Prop := cyclic_leb cursor a b = true.

Lemma cyclic_le_iff c a b :
  cyclic_le c a b <-> (c < a /\ b <= c) \/ ((c < a <-> c < b) /\ a <= b).
Proof.
  unfold cyclic_le, cyclic_leb, behind. rewrite orb_true_iff, andb_true_iff, Z.ltb_lt, Z.eqb_eq, Z.leb_le.
  destruct (c <? a) eqn:Ea, (c <? b) eqn:Eb; bool_hyps; lia.
Qed.
#[export] Instance cyclic_le_trans c : Transitive (cyclic_le c).
Proof. intros x y z. rewrite !cyclic_le_iff. lia. Qed.
#[export] Instance cyclic_le_antisymm c : AntiSymm (=) (cyclic_le c).
Proof. intros x y. rewrite !cyclic_le_iff. lia. Qed.
Lemma cyclic_leb_total c x y : cyclic_leb c x y = true \/ cyclic_leb c y x = true.
Proof.
  pose proof (cyclic_le_iff c x y) as H1. pose proof (cyclic_le_iff c y x) as H2. unfold cyclic_le in *.
  destruct (decide (c < x)), (decide (c < y)), (decide (x <= y)); (left; apply H1; lia) || (right; apply H2; lia).
Qed.

(** A list in the order after [c], cut behind its element [m], continues in the order after [m]. *)
Lemma cyclic_rotate c xs m ys : StronglySorted (cyclic_le c) (xs ++ m :: ys) -> NoDup (xs ++ m :: ys) ->
  StronglySorted (cyclic_le m) (ys ++ xs ++ [m]).
Proof.
  intros Hs Hnd. apply StronglySorted_app in Hs as (Hxy & Hx & Hm). apply StronglySorted_cons in Hm as [Hm Hy].
  apply NoDup_app in Hnd as (_ & Hd & Hn). apply NoDup_cons in Hn as [Hn _].
  assert (Hxm : forall x, x ∈ xs -> cyclic_le c x m) by (intros x H; apply Hxy; [done | by left]).
  assert (Hym : forall y, y ∈ ys -> cyclic_le c m y /\ y <> m).
  { intros y H. split; [by rewrite Forall_forall in Hm; apply Hm | intros ->; done]. }
  assert (Himp : forall l, (forall z, z ∈ l -> cyclic_le c z m) \/ (forall z, z ∈ l -> cyclic_le c m z /\ z <> m) ->
    StronglySorted (cyclic_le c) l -> StronglySorted (cyclic_le m) l).
  { clear. intros l Hside Hs. induction Hs as [|z l Hs IH Hf]; constructor.
    - apply IH. destruct Hside; [left | right]; set_solver.
    - rewrite Forall_forall in *. intros w Hw. specialize (Hf w Hw). rewrite cyclic_le_iff in *.
      destruct Hside as [Hside|Hside].
      + pose proof (Hside z ltac:(by left)) as H1. pose proof (Hside w ltac:(by right)) as H2.
        rewrite cyclic_le_iff in *. lia.
      + destruct (Hside z ltac:(by left)) as [H1 ?]. destruct (Hside w ltac:(by right)) as [H2 ?].
        rewrite cyclic_le_iff in *. lia. }
  apply StronglySorted_app_2; [| by apply Himp; [right|] | ].
  - intros y x Hiny Hinx. destruct (Hym y Hiny) as [H1 H2]. apply elem_of_app in Hinx as [Hinx|Hinx].
    + pose proof (Hxm x Hinx) as H3. assert (Hxy' : cyclic_le c x y) by (apply Hxy; [done | by right]).
      assert (x <> m) by (intros ->; apply (Hd m Hinx); by left). rewrite cyclic_le_iff in *. lia.
    + apply list_elem_of_singleton in Hinx as ->. rewrite cyclic_le_iff in *. lia.
  - apply StronglySorted_app_2; [| by apply Himp; [left|] | by repeat constructor].
    intros x x' Hinx Hm'. apply list_elem_of_singleton in Hm' as ->. pose proof (Hxm x Hinx) as H1.
    rewrite cyclic_le_iff in *. lia.
Qed.

(** ** The runs *)

Section Runs.
Context {R : Type} (key : R -> Z) (limit : Z).

(** [ORDER BY CASE ... LIMIT limit] *)
Definition cyclic_page (cursor : Z) (rows : list R) : list R :=
  order_limit (fun a b => cyclic_leb cursor (key a) (key b)) limit rows.
(** The cursor the next run starts from. *)
Definition next_cursor (cursor : Z) (page : list R) : Z :=
  match last page with Some r => key r | None => cursor end.
(** The pages of [n] runs over candidates that do not change in between. *)
Fixpoint cyclic_runs (n : nat) (cursor : Z) (rows : list R) : list (list R) :=
  match n with
  | O => []
  | S n' => let page := cyclic_page cursor rows in page :: cyclic_runs n' (next_cursor cursor page) rows
  end.

Definition in_order (cursor : Z) (rows : list R) : list R :=
  order_by (fun a b => cyclic_leb cursor (key a) (key b)) rows.

Lemma in_order_keys cursor rows : StronglySorted (cyclic_le cursor) (map key (in_order cursor rows)).
Proof.
  apply Sorted_StronglySorted; [apply _|].
  eapply (Sorted_fmap key _ (cyclic_le cursor)); [|apply order_by_Sorted; intros x y; apply cyclic_leb_total].
  by intros x y.
Qed.

Lemma in_order_nodup cursor rows : NoDup (map key rows) -> NoDup (map key (in_order cursor rows)).
Proof. intros H. unfold in_order. by rewrite order_by_perm. Qed.

(** The next run's order is this run's, turned by one page. *)
Lemma in_order_rotate cursor rows : NoDup (map key rows) -> 0 < limit ->
  map key (in_order (next_cursor cursor (cyclic_page cursor rows)) rows) =
    (drop (Z.to_nat limit) (map key (in_order cursor rows)) ++
     take (Z.to_nat limit) (map key (in_order cursor rows)))%list.
Proof.
  intros Hnd Hlim. unfold next_cursor, cyclic_page, order_limit. fold (in_order cursor rows).
  destruct (last (take (Z.to_nat limit) (in_order cursor rows))) as [r|] eqn:El.
  - apply last_Some in El as (pre & Et).
    assert (Hsplit : map key (in_order cursor rows) =
      (map key pre ++ key r :: map key (drop (Z.to_nat limit) (in_order cursor rows)))%list).
    { rewrite <- (take_drop (Z.to_nat limit) (in_order cursor rows)) at 1. rewrite Et, !map_app, <- app_assoc. done. }
    pose proof (in_order_keys cursor rows) as Hs. pose proof (in_order_nodup cursor rows Hnd) as Hn.
    rewrite Hsplit in Hs, Hn. pose proof (cyclic_rotate _ _ _ _ Hs Hn) as Hrot.
    assert (Ht : take (Z.to_nat limit) (map key (in_order cursor rows)) = (map key pre ++ [key r])%list).
    { rewrite firstn_map, Et, map_app. done. }
    assert (Hdr : drop (Z.to_nat limit) (map key (in_order cursor rows)) =
      map key (drop (Z.to_nat limit) (in_order cursor rows))) by (by rewrite skipn_map).
    rewrite Ht, Hdr. apply (StronglySorted_unique (cyclic_le (key r))); [apply in_order_keys | exact Hrot |].
    assert (Hp : map key (in_order (key r) rows) ≡ₚ map key (in_order cursor rows)).
    { unfold in_order. by rewrite !order_by_perm. }
    rewrite Hp, Hsplit, (Permutation_app_comm (map key (drop _ _))). by rewrite <- app_assoc.
  - apply last_None in El. assert (in_order cursor rows = []) as E.
    { destruct (in_order cursor rows) as [|x l]; [done|]. destruct (Z.to_nat limit) eqn:Ez; [lia|]. discriminate. }
    rewrite E. cbn. by rewrite drop_nil, take_nil.
Qed.

(** A candidate at place [i] of the order is on page [i / limit]. *)
Lemma selected_within rows n : NoDup (map key rows) -> 0 < limit -> forall i cursor k,
  map key (in_order cursor rows) !! i = Some k -> (Z.of_nat i < Z.of_nat n * limit)%Z ->
  exists page, page ∈ cyclic_runs n cursor rows /\ k ∈ map key page.
Proof.
  intros Hnd Hlim. induction n as [|n IH]; intros i cursor k Hi Hlt; [lia|]. cbn [cyclic_runs].
  destruct (decide (i < Z.to_nat limit)%nat) as [Hin|Hout].
  - eexists. split; [by left|]. unfold cyclic_page, order_limit. fold (in_order cursor rows).
    rewrite <- firstn_map. apply list_elem_of_lookup. exists i. by rewrite lookup_take_lt.
  - set (c' := next_cursor cursor (cyclic_page cursor rows)).
    assert (Hi' : map key (in_order c' rows) !! (i - Z.to_nat limit)%nat = Some k).
    { unfold c'. rewrite in_order_rotate by done. rewrite lookup_app_l.
      - rewrite lookup_drop. rewrite <- Hi. f_equal. lia.
      - apply lookup_lt_Some in Hi. rewrite length_drop. lia. }
    destruct (IH _ c' k Hi' ltac:(lia)) as (page & Hp & Hk). exists page. split; [by right | done].
Qed.

(** Whatever the cursor, [n] runs select every candidate as soon as [n] pages hold them all. *)
Lemma round_robin cursor rows n r : NoDup (map key rows) -> 0 < limit ->
  Z.of_nat (length rows) <= Z.of_nat n * limit -> r ∈ rows ->
  exists page, page ∈ cyclic_runs n cursor rows /\ r ∈ page.
Proof.
  intros Hnd Hlim Hlen Hr.
  assert (Hin : key r ∈ map key (in_order cursor rows)).
  { unfold in_order. rewrite order_by_perm. by apply list_elem_of_fmap_2. }
  apply list_elem_of_lookup in Hin as [i Hi]. pose proof (lookup_lt_Some _ _ _ Hi) as Hlt.
  assert (length (map key (in_order cursor rows)) = length rows) as El.
  { rewrite length_map. unfold in_order. by rewrite order_by_perm. }
  destruct (selected_within rows n Hnd Hlim i cursor (key r) Hi ltac:(lia)) as (page & Hp & Hk).
  exists page. split; [done|]. apply list_elem_of_fmap in Hk as (r' & Hkey & Hr').
  assert (Hin' : r' ∈ rows).
  { clear - Hp Hr'. revert cursor Hp. induction n as [|n IH]; intros cursor Hp; [by apply elem_of_nil in Hp|].
    cbn [cyclic_runs] in Hp. apply elem_of_cons in Hp as [->|Hp]; [|by eapply IH].
    by eapply elem_of_order_limit. }
  assert (r = r') as ->; [|done]. clear - Hnd Hr Hin' Hkey.
  induction rows as [|x l IH]; [by apply elem_of_nil in Hr|]. cbn in Hnd. apply NoDup_cons in Hnd as [Hni Hnd].
  apply elem_of_cons in Hr as [->|Hr]; apply elem_of_cons in Hin' as [->|Hin']; try done.
  - exfalso. apply Hni. rewrite Hkey. by apply list_elem_of_fmap_2.
  - exfalso. apply Hni. rewrite <- Hkey. by apply list_elem_of_fmap_2.
  - by apply IH.
Qed.
End Runs.

#[export] Instance filter_bool_perm {A} (p : A -> bool) : Proper (Permutation ==> Permutation) (List.filter p).
Proof.
  intros l l' H. induction H as [|x l l' _ IH|x y l|l1 l2 l3 _ IH1 _ IH2]; cbn; [done | by destruct (p x); [constructor|] | | by etrans].
  destruct (p x), (p y); by repeat constructor.
Qed.

(** ** Pages that stop at the end

    [WHERE key > cursor ORDER BY key LIMIT batch + 1]: the extra row tells whether there is
    another page; when there is none, the next run starts over at 0. *)

Section Wrap.
Context {R : Type} (key : R -> Z) (batch : Z) (rows : list R).

Definition key_leb (a b : R) : bool := key a <=? key b.
Definition ahead_of (cursor : Z) : list R := List.filter (fun r => cursor <? key r) rows.
Definition wrap_page (cursor : Z) : list R * Z :=
  let selected := order_limit key_leb (batch + 1) (ahead_of cursor) in
  let page := take (Z.to_nat batch) selected in
  (page, if batch <? Z.of_nat (length selected) then match last page with Some r => key r | None => 0 end else 0).
Fixpoint wrap_pages (n : nat) (cursor : Z) : list (list R) :=
  match n with
  | O => []
  | S n' => (wrap_page cursor).1 :: wrap_pages n' (wrap_page cursor).2
  end.

Hypothesis batch_pos : 0 < batch.
Hypothesis keys_nodup : NoDup (map key rows).

Lemma key_leb_total a b : key_leb a b = true \/ key_leb b a = true.
Proof. unfold key_leb. rewrite !Z.leb_le. lia. Qed.
Lemma key_leb_trans a b c : key_leb a b = true -> key_leb b c = true -> key_leb a c = true.
Proof. unfold key_leb. rewrite !Z.leb_le. lia. Qed.

(** A page is the first [batch] rows ahead; a row ahead that is not on it is still ahead. *)
Lemma wrap_page_spec cursor : let '(page, next) := wrap_page cursor in
  (Z.of_nat (length (ahead_of cursor)) <= batch -> next = 0 /\ forall r, r ∈ ahead_of cursor -> r ∈ page) /\
  (batch < Z.of_nat (length (ahead_of cursor)) -> Z.of_nat (length (ahead_of next)) + batch <= Z.of_nat (length (ahead_of cursor)) /\
     forall r, r ∈ rows -> cursor < key r -> r ∈ page \/ next < key r).
Proof using batch_pos keys_nodup.
  unfold wrap_page. set (L := order_by key_leb (ahead_of cursor)).
  assert (HL : L ≡ₚ ahead_of cursor) by apply order_by_perm.
  assert (Hlen : length L = length (ahead_of cursor)) by (by rewrite HL).
  assert (Hpage : take (Z.to_nat batch) (order_limit key_leb (batch + 1) (ahead_of cursor)) = take (Z.to_nat batch) L).
  { unfold order_limit. fold L. rewrite take_take. f_equal. lia. }
  assert (Hsel : Z.of_nat (length (order_limit key_leb (batch + 1) (ahead_of cursor))) = Z.min (batch + 1) (Z.of_nat (length L))).
  { unfold order_limit. fold L. rewrite length_take. lia. }
  rewrite Hpage, Hsel. split.
  - intros Hle. rewrite (proj2 (Z.ltb_ge _ _)) by lia. split; [done|]. intros r Hr. rewrite take_ge by lia. by rewrite HL.
  - intros Hlt. rewrite (proj2 (Z.ltb_lt _ _)) by lia.
    pose proof (order_by_Sorted key_leb key_leb_total (ahead_of cursor)) as Hs. fold L in Hs.
    apply (@Sorted_StronglySorted _ (Leb key_leb) key_leb_trans) in Hs.
    destruct (last (take (Z.to_nat batch) L)) as [y|] eqn:El.
    2:{ apply last_None in El. apply (f_equal length) in El. rewrite length_take in El. cbn in El. lia. }
    rewrite <- (take_drop (Z.to_nat batch) L) in Hs.
    assert (Hyle : forall x, x ∈ take (Z.to_nat batch) L -> key x <= key y).
    { intros x Hx. apply StronglySorted_app_1_l in Hs. destruct (take (Z.to_nat batch) L) as [|a l _] using rev_ind; [done|].
      rewrite last_snoc in El. injection El as ->. apply elem_of_app in Hx as [Hx|Hx]; [|apply list_elem_of_singleton in Hx as ->; lia].
      pose proof (StronglySorted_app_1_elem_of _ _ _ x y Hs Hx (list_elem_of_here _ _)) as H. unfold Leb, key_leb in H. by apply Z.leb_le. }
    split.
    + assert (Hf : ahead_of (key y) ≡ₚ List.filter (fun r => key y <? key r) L).
      { rewrite HL. unfold ahead_of. assert (Hc : cursor < key y).
        { apply last_Some_elem_of in El. apply subseteq_take in El. rewrite HL in El. apply filter_In_elem in El as [_ El]. by apply Z.ltb_lt. }
        clear -Hc. induction rows as [|r l IH]; [done|]. cbn. destruct (cursor <? key r) eqn:E1, (key y <? key r) eqn:E2; cbn; rewrite ?E2; bool_hyps;
          [by constructor | done | lia | done]. }
      rewrite Hf. rewrite <- (take_drop (Z.to_nat batch) L) at 1. rewrite List.filter_app, length_app.
      assert (E0 : List.filter (fun r => key y <? key r) (take (Z.to_nat batch) L) = []).
      { revert Hyle. clear. induction (take (Z.to_nat batch) L) as [|x l IH]; intros H; [done|]. cbn.
        rewrite (proj2 (Z.ltb_ge _ _)) by (apply H; by left). apply IH. intros z Hz. apply H. by right. }
      rewrite E0. cbn [length]. pose proof (List.filter_length_le (fun r => key y <? key r) (drop (Z.to_nat batch) L)) as Hd.
      rewrite length_drop in Hd. lia.
    + intros r Hr Hc. assert (HrL : r ∈ L) by (rewrite HL; apply filter_In_elem; split; [done | by apply Z.ltb_lt]).
      rewrite <- (take_drop (Z.to_nat batch) L) in HrL. apply elem_of_app in HrL as [?|HrD]; [by left|]. right.
      assert (Hyin : y ∈ take (Z.to_nat batch) L) by (by apply last_Some_elem_of).
      pose proof (StronglySorted_app_1_elem_of _ _ _ y r Hs Hyin HrD) as Hle. unfold Leb, key_leb in Hle. apply Z.leb_le in Hle.
      assert (Hne : key y <> key r); [|lia]. intros E.
      assert (Hnd : NoDup (map key (take (Z.to_nat batch) L ++ drop (Z.to_nat batch) L))).
      { rewrite take_drop, HL. unfold ahead_of. revert keys_nodup. clear. induction rows as [|a l IH]; [done|]. cbn. intros H.
        apply NoDup_cons in H as [Ha H]. destruct (cursor <? key a); cbn; [|by apply IH]. constructor; [|by apply IH].
        intros (z & Ez & Hz)%list_elem_of_fmap. apply filter_In_elem in Hz as [Hz _]. apply Ha. rewrite Ez. by apply list_elem_of_fmap_2. }
      rewrite map_app in Hnd. apply NoDup_app in Hnd as (_ & Hnd & _). apply (Hnd (key y)); [by apply list_elem_of_fmap_2|].
      rewrite E. by apply list_elem_of_fmap_2.
Qed.

(** Ahead of the cursor, a row is reached before the pages start over. *)
Lemma wrap_reaches_ahead r n : r ∈ rows -> forall cursor, cursor < key r -> Z.of_nat (length (ahead_of cursor)) < Z.of_nat n * batch ->
  exists page, page ∈ wrap_pages n cursor /\ r ∈ page.
Proof using batch_pos keys_nodup.
  intros Hr. induction n as [|n IH]; intros cursor Hc Hn; [lia|]. cbn [wrap_pages]. pose proof (wrap_page_spec cursor) as Hp.
  destruct (wrap_page cursor) as [page next]. destruct Hp as [Hlast Hmore]. cbn [fst snd].
  destruct (decide (Z.of_nat (length (ahead_of cursor)) <= batch)) as [Hle|Hgt].
  - exists page. split; [by left|]. apply Hlast; [done|]. apply filter_In_elem. split; [done|]. by apply Z.ltb_lt.
  - destruct Hmore as [Hlen Hcase]; [lia|]. destruct (Hcase r Hr Hc) as [?|Hnext]; [exists page; split; [by left | done]|].
    destruct (IH next Hnext) as (p & Hp & Hrp); [lia|]. exists p. split; [by right | done].
Qed.
Lemma ahead_le cursor : (length (ahead_of cursor) <= length rows)%nat.
Proof using. apply List.filter_length_le. Qed.
(** From any cursor every row is reached: the pages at most run to the end and start over once. *)
Lemma wrap_reaches r n m : r ∈ rows -> 0 < key r -> Z.of_nat (length rows) < Z.of_nat m * batch ->
  forall cursor, Z.of_nat (length (ahead_of cursor)) < Z.of_nat n * batch ->
  exists page, page ∈ wrap_pages (n + m) cursor /\ r ∈ page.
Proof using batch_pos keys_nodup.
  intros Hr Hk Hm. induction n as [|n IH]; intros cursor Hn; [lia|]. cbn [wrap_pages Nat.add]. pose proof (wrap_page_spec cursor) as Hp.
  destruct (wrap_page cursor) as [page next]. destruct Hp as [Hlast Hmore]. cbn [fst snd].
  destruct (decide (Z.of_nat (length (ahead_of cursor)) <= batch)) as [Hle|Hgt].
  - destruct (Hlast Hle) as [-> _]. pose proof (ahead_le 0) as Hle0.
    destruct (wrap_reaches_ahead r (n + m) Hr 0 Hk) as (p & Hp & Hrp); [nia|]. exists p. split; [by right | done].
  - destruct Hmore as [Hlen _]; [lia|]. destruct (IH next) as (p & Hp & Hrp); [lia|]. exists p. split; [by right | done].
Qed.
End Wrap.
