(* ===== verification/MachineLiveness.v ===== *)
(** * MachineLiveness: machines that stop reporting are marked offline

    Models [workers/checks/src/machine-liveness.ts]: which machines a scheduler run looks at,
    when a machine counts as offline, and the batch that records the transition.  The rows are
    read first and the batches run later, so an agent may report in between; each statement
    carries the [received_at] and [state] that were read as a guard. *)

From Stdlib Require Import ZArith Lia Bool String List.
From stdpp Require Import base tactics sets list gmap sorting.
From S2P Require Import Prelude.
From S2P Require Import Js.
From S2P Require Import Sql.
From S2P Require Import Crypto.
From S2P Require Import Authz.
From S2P Require Import CheckPersistence.
From S2P Require Import RoundRobin.
Open Scope string_scope.
Open Scope Z_scope.

(* @src workers/checks/src/machine-liveness.ts 1-1 MAX_MACHINE_CANDIDATES *)
Definition MAX_MACHINE_CANDIDATES : Z := 1000.
Definition LATEST_QUERY_BATCH : nat := 50.
Definition TRANSITION_BATCH : nat := 25.

(* @src workers/checks/src/machine-liveness.ts MachineControlRow *)
Record MachineControlRow := MachineControl {
  mc_telemetry_pk : Z;
  mc_offline_after_seconds : Z;
  mc_maintenance_until : option Z;
}.
(** A row of [machine_latest]; the metric columns are not read here. *)
(* @src workers/checks/src/machine-liveness.ts MachineLatestRow *)
Record MachineLatestRow := MachineLatest {
  lm_machine_pk : Z;
  lm_workspace_pk : Z;
  lm_received_at : Z;
  lm_state : string;
}.
(* @src workers/checks/src/machine-liveness.ts OfflineTransition *)
Record OfflineTransition := Offline {
  ot_eventId : list byte;
  ot_machinePk : Z;
  ot_occurredAt : Z;
  ot_previousState : string;
  ot_receivedAt : Z;
}.
(* @src workers/checks/src/machine-liveness.ts MachineLivenessResult *)
Record MachineLivenessResult := LivenessResult { lr_scanned : Z; lr_transitioned : Z }.

(** A row of [machines] in the control database. *)
Record machine_row := MachineRow {
  mr_pk : Z;
  mr_workspace : string;
  mr_offline_after : Z;
  mr_maintenance : option Z;
  mr_deleted : option Z;
}.
(** The two tables of the telemetry database the batches write. *)
Record liveness_db := LivenessDb { lv_machines : list MachineLatestRow; lv_telemetry : telemetry_db }.

(** ** Which machines a run looks at *)

Definition is_null {A} (o : option A) : bool := match o with None => true | Some _ => false end.
(** [FROM machines m JOIN workspaces w ... WHERE m.deleted_at IS NULL AND w.deleted_at IS NULL] *)
Definition live_machines (machines : list machine_row) (workspaces : list workspace_row)
  : list MachineControlRow :=
  map (fun m => MachineControl (mr_pk m) (mr_offline_after m) (mr_maintenance m))
    (List.filter (fun m => is_null (mr_deleted m) &&
       existsb (fun w => String.eqb (ws_id w) (mr_workspace m) && is_null (ws_deleted w)) workspaces) machines).
(* @src workers/checks/src/machine-liveness.ts loadMachineLivenessCandidates *)
Definition loadMachineLivenessCandidates (machines : list machine_row) (workspaces : list workspace_row)
    (cursor : Z) : list MachineControlRow :=
  cyclic_page mc_telemetry_pk MAX_MACHINE_CANDIDATES cursor (live_machines machines workspaces).

(** ** When a machine is offline *)

(* @src workers/checks/src/machine-liveness.ts offlineTransitionAt *)
Definition offlineTransitionAt (machine : MachineControlRow) (latest : MachineLatestRow) (now : Z) : option Z :=
  if String.eqb (lm_state latest) "offline" || String.eqb (lm_state latest) "maintenance" ||
     null_gt (mc_maintenance_until machine) now
  then None
  else
    let transitionAt := lm_received_at latest + mc_offline_after_seconds machine * 1000 in
    if transitionAt <=? now then Some transitionAt else None.

Definition machine_key (r : MachineLatestRow) : Z := lm_machine_pk r.

(** The rows of the machines, read in queries of fifty keys. *)
(* @src workers/checks/src/machine-liveness.ts loadLatestRows *)
Definition loadLatestRows (db : list MachineLatestRow) (machines : list MachineControlRow)
  : gmap Z MachineLatestRow :=
  fold_left (fun latestByMachine batch =>
    fold_left (fun m row => <[lm_machine_pk row := row]> m)
      (List.filter (fun r => existsb (fun machine => mc_telemetry_pk machine =? lm_machine_pk r) batch) db)
      latestByMachine)
    (chunks LATEST_QUERY_BATCH machines) ∅.

(** ** Recording the transitions *)

(** [WHERE machine_pk = ? AND received_at = ? AND state = ?] *)
Definition unreported (t : OfflineTransition) (r : MachineLatestRow) : bool :=
  key_is machine_key (ot_machinePk t) r &&
  ((lm_received_at r =? ot_receivedAt t) && String.eqb (lm_state r) (ot_previousState t)).
Definition set_offline (r : MachineLatestRow) : MachineLatestRow :=
  MachineLatest (lm_machine_pk r) (lm_workspace_pk r) (lm_received_at r) "offline".

(* @src workers/checks/src/machine-liveness.ts 98-113 persistOfflineTransitions *)
Definition offline_event_statement (t : OfflineTransition) (db : liveness_db) : liveness_db :=
  LivenessDb (lv_machines db) (insert_event
    ((fun r => StateEvent (lm_workspace_pk r) 1 (lm_machine_pk r) (ot_occurredAt t) (ot_eventId t)
                 (lm_state r) "offline" "report_timeout") <$> List.find (unreported t) (lv_machines db))
    (lv_telemetry db)).
(* @src workers/checks/src/machine-liveness.ts 114-119 persistOfflineTransitions *)
Definition offline_update_statement (t : OfflineTransition) (db : liveness_db) : liveness_db * Z :=
  let '(machines, n) := update_where (unreported t) set_offline (lv_machines db) in
  (LivenessDb machines (lv_telemetry db), n).

(** One [db.batch]: the statements of up to 25 transitions; counted are the updates. *)
Definition transition_step (acc : liveness_db * Z) (t : OfflineTransition) : liveness_db * Z :=
  let '(db, n) := offline_update_statement t (offline_event_statement t acc.1) in (db, acc.2 + n).
Definition transition_batch (batch : list OfflineTransition) (db : liveness_db) : liveness_db * Z :=
  fold_left transition_step batch (db, 0).
(* @src workers/checks/src/machine-liveness.ts persistOfflineTransitions *)
Definition persistOfflineTransitions (transitions : list OfflineTransition) (db : liveness_db)
  : liveness_db * Z :=
  fold_left (fun acc batch => let '(db, n) := transition_batch batch acc.1 in (db, acc.2 + n))
    (chunks TRANSITION_BATCH transitions) (db, 0).

Section Liveness.
Context `{WC : WebCrypto}.

(* @src workers/checks/src/machine-liveness.ts offlineEventId *)
Definition offlineEventId (machinePk occurredAt : Z) : list byte :=
  sha256 (encode_utf8 ("alphaping:machine-offline:v1:" ++ z_to_string machinePk ++ ":" ++ z_to_string occurredAt)).

(** The transitions a run decides on, from the rows it read. *)
(* @src workers/checks/src/machine-liveness.ts 134-147 reconcileMachineLiveness *)
Definition offline_transitions (read : list MachineLatestRow) (now : Z) (machines : list MachineControlRow)
  : list OfflineTransition :=
  let latestByMachine := loadLatestRows read machines in
  omap (fun machine =>
    match latestByMachine !! mc_telemetry_pk machine with
    | None => None
    | Some latest =>
        match offlineTransitionAt machine latest now with
        | None => None
        | Some occurredAt =>
            Some (Offline (offlineEventId (mc_telemetry_pk machine) occurredAt) (mc_telemetry_pk machine)
                    occurredAt (lm_state latest) (lm_received_at latest))
        end
    end) machines.

(** [read] is what the queries returned, [db] the database when the batches run. *)
(* @src workers/checks/src/machine-liveness.ts reconcileMachineLiveness *)
Definition reconcileMachineLiveness (read : list MachineLatestRow) (now : Z) (machines : list MachineControlRow)
    (db : liveness_db) : MachineLivenessResult * liveness_db :=
  let '(db', n) := persistOfflineTransitions (offline_transitions read now machines) db in
  (LivenessResult (Z.of_nat (length machines)) n, db').
End Liveness.

(** ** What the recording does *)

Lemma persist_offline_flat ts db : persistOfflineTransitions ts db = fold_left transition_step ts (db, 0).
Proof.
  unfold persistOfflineTransitions. rewrite <- (chunks_concat TRANSITION_BATCH ts) at 2 by (unfold TRANSITION_BATCH; lia).
  assert (Hshift : forall l db n m, fold_left transition_step l (db, n + m) =
    ((fold_left transition_step l (db, m)).1, n + (fold_left transition_step l (db, m)).2)).
  { induction l as [|t l IH]; intros db' n m; [done|]. cbn [fold_left]. unfold transition_step at 2 4 6.
    cbn [fst snd]. destruct (offline_update_statement _ _) as [db'' k]. rewrite <- Z.add_assoc. apply IH. }
  generalize (chunks TRANSITION_BATCH ts) as l. clear ts. intros l. revert db.
  enough (H : forall db n, fold_left (fun acc batch => let '(db, n) := transition_batch batch acc.1 in (db, acc.2 + n))
    l (db, n) = fold_left transition_step (concat l) (db, n)) by (intros db; apply H).
  induction l as [|b l IH]; intros db n; [done|]. cbn [fold_left concat]. rewrite fold_left_app.
  unfold transition_batch. cbn [fst snd]. pose proof (Hshift b db n 0) as Hb. rewrite Z.add_0_r in Hb. rewrite Hb.
  destruct (fold_left transition_step b (db, 0)) as [db' k]. apply IH.
Qed.

Lemma step_machines acc t :
  lv_machines (transition_step acc t).1 = (update_where (unreported t) set_offline (lv_machines acc.1)).1.
Proof. done. Qed.
Lemma step_count acc t : (transition_step acc t).2 = acc.2 + count_if (unreported t) (lv_machines acc.1).
Proof. done. Qed.
Lemma step_telemetry acc t : lv_telemetry (transition_step acc t).1 =
  lv_telemetry (offline_event_statement t acc.1).
Proof. done. Qed.

Lemma insert_event_grows o db e : e ∈ state_events db -> e ∈ state_events (insert_event o db).
Proof.
  destruct o as [x|]; [|done]. unfold insert_event, insert_or_ignore. intros He.
  destruct (has_key _ _ _); cbn [state_events]; [done | set_solver].
Qed.
Lemma insert_event_present x db : exists e, e ∈ state_events (insert_event (Some x) db) /\ event_key e = event_key x.
Proof.
  unfold insert_event, insert_or_ignore. destruct (has_key event_key (event_key x) (state_events db)) eqn:E; cbn [state_events].
  - apply has_key_elem in E. apply list_elem_of_fmap in E as (e & -> & He). by exists e.
  - exists x. set_solver.
Qed.

Lemma find_unreported t ms r : keys_unique machine_key ms -> r ∈ ms -> unreported t r = true ->
  List.find (unreported t) ms = Some r.
Proof.
  unfold keys_unique. induction ms as [|x ms IH]; intros Hnd Hin Hr; [by apply elem_of_nil in Hin|].
  cbn in Hnd. apply NoDup_cons in Hnd as [Hni Hnd]. cbn [List.find]. destruct (unreported t x) eqn:Ex.
  - apply elem_of_cons in Hin as [->|Hin]; [done|]. exfalso. apply Hni.
    unfold unreported in Hr, Ex. apply andb_true_iff in Hr as [Hr _], Ex as [Ex _].
    apply (key_is_true machine_key) in Hr, Ex. rewrite Ex, <- Hr. by apply list_elem_of_fmap_2.
  - apply elem_of_cons in Hin as [->|Hin]; [congruence|]. by apply IH.
Qed.

(** What one row looks like after the transitions [ts]: offline if one of them still matches. *)
Lemma run_row ts : forall db n pk r, keys_unique machine_key (lv_machines db) ->
  find_key machine_key pk (lv_machines db) = Some r ->
  let db' := (fold_left transition_step ts (db, n)).1 in
  keys_unique machine_key (lv_machines db') /\
  (forall e, e ∈ state_events (lv_telemetry db) -> e ∈ state_events (lv_telemetry db')) /\
  ((find_key machine_key pk (lv_machines db') = Some r /\
    (lm_state r = "offline" \/ forall t, t ∈ ts -> unreported t r = false)) \/
   (find_key machine_key pk (lv_machines db') = Some (set_offline r) /\
    exists t, t ∈ ts /\ unreported t r = true /\
      exists e, e ∈ state_events (lv_telemetry db') /\ event_key e = (1, pk, ot_occurredAt t, ot_eventId t))).
Proof.
  induction ts as [|t ts IH]; intros db n pk r Hu Hr; cbn [fold_left].
  - split_and!; [done | done |]. left. split; [done|]. right. intros t Ht. by apply elem_of_nil in Ht.
  - assert (Hu' : keys_unique machine_key (lv_machines (transition_step (db, n) t).1)).
    { rewrite step_machines. by apply update_where_unique. }
    assert (Hf : find_key machine_key pk (lv_machines (transition_step (db, n) t).1) =
      Some (if unreported t r then set_offline r else r)).
    { rewrite step_machines, find_key_update by done. cbn [fst]. by rewrite Hr. }
    assert (Hev : forall e, e ∈ state_events (lv_telemetry db) ->
      e ∈ state_events (lv_telemetry (transition_step (db, n) t).1)).
    { intros e He. rewrite step_telemetry. by apply insert_event_grows. }
    destruct (transition_step (db, n) t) as [db1 n1] eqn:Es. cbn [fst] in *.
    destruct (IH db1 n1 pk _ Hu' Hf) as (Hu2 & Hev2 & Hcase). split_and!; [done | by auto |].
    destruct (unreported t r) eqn:Et.
    + right. destruct Hcase as [[Hf2 _] | [Hf2 _]]; (split; [exact Hf2|]); exists t;
        (split; [by left|]); (split; [done|]).
      all: assert (Hev1 : exists e, e ∈ state_events (lv_telemetry db1) /\ event_key e = (1, pk, ot_occurredAt t, ot_eventId t)).
      1, 3: apply find_key_Some in Hr as [Hin Hk];
        replace db1 with (transition_step (db, n) t).1 by (by rewrite Es); rewrite step_telemetry;
        unfold offline_event_statement; cbn [lv_telemetry fst];
        rewrite (find_unreported t _ r Hu Hin Et); cbn [fmap option_fmap option_map];
        match goal with |- context [insert_event (Some ?x) ?d] => destruct (insert_event_present x d) as (e & He & Hek) end;
        exists e; split; [done|]; rewrite Hek; unfold event_key; cbn; by rewrite <- Hk.
      all: destruct Hev1 as (e & He & Hek); exists e; split; [by apply Hev2 | done].
    + destruct Hcase as [[Hf2 Hno] | [Hf2 (t' & Ht' & Hun & e & He & Hek)]].
      * left. split; [done|]. destruct Hno as [Hno|Hno]; [by left|]. right. intros t' Ht'.
        apply elem_of_cons in Ht' as [->|Ht']; [done | by apply Hno].
      * right. split; [done|]. exists t'. split; [by right|]. split; [done|]. by exists e.
Qed.

(** ** What is read *)

Lemma load_rows_query read p (m : gmap Z MachineLatestRow) k : keys_unique machine_key read ->
  fold_left (fun m row => <[lm_machine_pk row := row]> m) (List.filter (fun r => p (lm_machine_pk r)) read) m !! k =
    if p k then match find_key machine_key k read with Some r => Some r | None => m !! k end else m !! k.
Proof.
  unfold keys_unique. revert m. induction read as [|r l IH]; intros m Hnd; [by destruct (p k)|].
  cbn in Hnd. apply NoDup_cons in Hnd as [Hni Hnd]. cbn [List.filter]. unfold find_key. cbn [List.find].
  assert (Hnone : machine_key r = k -> find_key machine_key k l = None).
  { intros <-. destruct (find_key machine_key (machine_key r) l) as [x|] eqn:E; [|done].
    apply find_key_Some in E as [Hx Hk]. exfalso. apply Hni. rewrite <- Hk. by apply list_elem_of_fmap_2. }
  destruct (p (lm_machine_pk r)) eqn:Ep; cbn [fold_left]; rewrite IH by done; fold (find_key machine_key k l);
    unfold key_is at 1; case_bool_decide as E.
  - unfold machine_key in E. subst k. rewrite Ep, (Hnone eq_refl). by rewrite lookup_insert_eq.
  - rewrite lookup_insert_ne by done. done.
  - unfold machine_key in E. subst k. rewrite Ep. done.
  - done.
Qed.

Lemma load_latest read machines pk : keys_unique machine_key read ->
  loadLatestRows read machines !! pk =
    if existsb (fun m => mc_telemetry_pk m =? pk) machines then find_key machine_key pk read else None.
Proof.
  intros Hu. unfold loadLatestRows.
  rewrite <- (chunks_concat LATEST_QUERY_BATCH machines) at 2 by (unfold LATEST_QUERY_BATCH; lia).
  generalize (chunks LATEST_QUERY_BATCH machines) as l. intros l.
  enough (H : forall (m : gmap Z MachineLatestRow), fold_left (fun latestByMachine batch =>
    fold_left (fun m row => <[lm_machine_pk row := row]> m)
      (List.filter (fun r => existsb (fun machine => mc_telemetry_pk machine =? lm_machine_pk r) batch) read)
      latestByMachine) l m !! pk =
      if existsb (fun m => mc_telemetry_pk m =? pk) (concat l)
      then match find_key machine_key pk read with Some r => Some r | None => m !! pk end else m !! pk).
  { rewrite H, lookup_empty. by destruct (find_key machine_key pk read). }
  induction l as [|b l IH]; intros m; [done|]. cbn [fold_left concat]. rewrite IH, existsb_app.
  rewrite (load_rows_query read (fun k => existsb (fun machine => mc_telemetry_pk machine =? k) b)) by done.
  destruct (existsb _ b), (existsb _ (concat l)), (find_key machine_key pk read); done.
Qed.

(** ** What a run does *)

Section LivenessProofs.
Context `{WC : WebCrypto}.

Lemma transition_source read now machines t : keys_unique machine_key read ->
  t ∈ offline_transitions read now machines <->
  exists m latest, m ∈ machines /\ find_key machine_key (mc_telemetry_pk m) read = Some latest /\
    offlineTransitionAt m latest now = Some (ot_occurredAt t) /\
    t = Offline (offlineEventId (mc_telemetry_pk m) (ot_occurredAt t)) (mc_telemetry_pk m) (ot_occurredAt t)
          (lm_state latest) (lm_received_at latest).
Proof.
  intros Hu. unfold offline_transitions. rewrite list_elem_of_omap. split.
  - intros (m & Hm & Ht). rewrite load_latest in Ht by done.
    destruct (existsb _ machines); [|done]. destruct (find_key _ _ read) as [latest|] eqn:Ef; [|done].
    destruct (offlineTransitionAt m latest now) as [at_|] eqn:Ea; [|done]. injection Ht as <-.
    exists m, latest. by rewrite Ea.
  - intros (m & latest & Hm & Hf & Ha & Ht). exists m. split; [done|]. rewrite load_latest by done.
    assert (existsb (fun x => mc_telemetry_pk x =? mc_telemetry_pk m) machines = true) as ->.
    { apply existsb_exists_elem. exists m. split; [done | apply Z.eqb_refl]. }
    by rewrite Hf, Ha, Ht.
Qed.

Lemma transition_at_same m latest r now at_ : lm_state r = lm_state latest -> lm_received_at r = lm_received_at latest ->
  offlineTransitionAt m latest now = Some at_ -> offlineTransitionAt m r now = Some at_.
Proof. unfold offlineTransitionAt. intros -> ->. done. Qed.

Lemma transition_at_spec m r now at_ : offlineTransitionAt m r now = Some at_ <->
  at_ = lm_received_at r + mc_offline_after_seconds m * 1000 /\ at_ <= now /\
  lm_state r <> "offline" /\ lm_state r <> "maintenance" /\ null_gt (mc_maintenance_until m) now = false.
Proof.
  unfold offlineTransitionAt. destruct (String.eqb_spec (lm_state r) "offline") as [E|E]; cbn [orb]; [split; [done | intuition]|].
  destruct (String.eqb_spec (lm_state r) "maintenance") as [E2|E2]; cbn [orb]; [split; [done | intuition]|].
  destruct (null_gt _ _); [split; [done | intuition congruence]|]. cbv zeta.
  destruct (_ <=? now) eqn:El; bool_hyps; split.
  - intros [= <-]. done.
  - by intros (-> & _).
  - done.
  - intros (-> & ? & _). lia.
Qed.

(** C34: a machine is only ever marked offline for a silence that still holds when the row is
    written.  Whatever agents wrote between the read and the batches, each row is afterwards
    either as it was or offline; if a run took it offline, then the row's own last report (not the
    one that was read) lies at least [offline_after] back, the machine was not in maintenance, and
    the state event with the deterministic id of that timeout is stored. *)
Theorem machine_offline_sound read now machines db pk r
  (Hread : keys_unique machine_key read) (Hdb : keys_unique machine_key (lv_machines db))
  (Hr : find_key machine_key pk (lv_machines db) = Some r) :
  let db' := (reconcileMachineLiveness read now machines db).2 in
  find_key machine_key pk (lv_machines db') = Some r \/
  (find_key machine_key pk (lv_machines db') = Some (set_offline r) /\
   exists m, m ∈ machines /\ mc_telemetry_pk m = pk /\
     let timeout := lm_received_at r + mc_offline_after_seconds m * 1000 in
     timeout <= now /\ lm_state r <> "offline" /\ lm_state r <> "maintenance" /\
     null_gt (mc_maintenance_until m) now = false /\
     exists e, e ∈ state_events (lv_telemetry db') /\ event_key e = (1, pk, timeout, offlineEventId pk timeout)).
Proof.
  cbv zeta. unfold reconcileMachineLiveness. rewrite persist_offline_flat.
  pose proof (run_row (offline_transitions read now machines) db 0 pk r Hdb Hr) as Hrun. cbv zeta in Hrun.
  destruct (fold_left transition_step _ _) as [db' n]. cbn [fst snd] in *.
  destruct Hrun as (_ & _ & [[Hf _] | [Hf (t & Ht & Hun & e & He & Hek)]]); [by left|]. right. split; [done|].
  apply transition_source in Ht as (m & latest & Hm & _ & Ha & Ht); [|done].
  unfold unreported in Hun. rewrite Ht in Hun. cbn in Hun. apply andb_true_iff in Hun as [Hk Hun].
  apply andb_true_iff in Hun as [Hrec Hst]. apply Z.eqb_eq in Hrec. apply String.eqb_eq in Hst.
  apply (key_is_true machine_key) in Hk. apply find_key_Some in Hr as [_ Hpk].
  pose proof (transition_at_same m latest r now _ Hst Hrec Ha) as Ha'.
  apply transition_at_spec in Ha' as (Hat & Hle & Hn1 & Hn2 & Hmt).
  exists m. split; [done|]. split; [congruence|]. rewrite <- Hat. split_and!; [done | done | done | done |].
  exists e. split; [done|]. rewrite Hek, Ht. cbn. f_equal. f_equal. congruence.
Qed.

(** Read and written without a writer in between, a run marks exactly the machines whose
    timeout has passed: every candidate with a row ends offline if [offlineTransitionAt] gives
    an instant and keeps its row otherwise; and a second run at the same time finds nothing to do. *)
Theorem machine_offline_complete now machines db m r
  (Hdb : keys_unique machine_key (lv_machines db)) (Hms : NoDup (map mc_telemetry_pk machines))
  (Hm : m ∈ machines) (Hr : find_key machine_key (mc_telemetry_pk m) (lv_machines db) = Some r) :
  let db' := (reconcileMachineLiveness (lv_machines db) now machines db).2 in
  find_key machine_key (mc_telemetry_pk m) (lv_machines db') =
    Some (match offlineTransitionAt m r now with Some _ => set_offline r | None => r end) /\
  offline_transitions (lv_machines db') now machines = [].
Proof.
  cbv zeta. unfold reconcileMachineLiveness. rewrite persist_offline_flat.
  destruct (fold_left transition_step (offline_transitions (lv_machines db) now machines) (db, 0)) as [db' n] eqn:Er.
  assert (Hrow : forall m r, m ∈ machines -> find_key machine_key (mc_telemetry_pk m) (lv_machines db) = Some r ->
    find_key machine_key (mc_telemetry_pk m) (lv_machines db') =
      Some (match offlineTransitionAt m r now with Some _ => set_offline r | None => r end)).
  { clear m r Hm Hr. intros m r Hm Hr.
    pose proof (run_row (offline_transitions (lv_machines db) now machines) db 0 _ r Hdb Hr) as Hrun. cbv zeta in Hrun.
    rewrite Er in Hrun. cbn [fst] in Hrun. destruct Hrun as (_ & _ & [[Hf Hno] | [Hf (t & Ht & Hun & _)]]); rewrite Hf; f_equal.
    - destruct (offlineTransitionAt m r now) as [at_|] eqn:Ea; [|done]. exfalso.
      destruct Hno as [Hoff|Hno]; [by apply transition_at_spec in Ea as (_ & _ & ? & _)|].
      set (t := Offline (offlineEventId (mc_telemetry_pk m) at_) (mc_telemetry_pk m) at_ (lm_state r) (lm_received_at r)).
      assert (Ht : t ∈ offline_transitions (lv_machines db) now machines).
      { apply transition_source; [done|]. by exists m, r. }
      specialize (Hno t Ht). unfold unreported, t in Hno. cbn in Hno.
      rewrite (proj2 (key_is_true machine_key _ r)) in Hno by (by apply find_key_Some in Hr as [_ ?]).
      by rewrite Z.eqb_refl, String.eqb_refl in Hno.
    - apply transition_source in Ht as (m' & latest & Hm' & Hf' & Ha & Ht); [|done].
      assert (m' = m) as ->.
      { assert (Hk : mc_telemetry_pk m' = mc_telemetry_pk m).
        { unfold unreported in Hun. rewrite Ht in Hun. cbn in Hun. apply andb_true_iff in Hun as [Hk _].
          apply (key_is_true machine_key) in Hk. apply find_key_Some in Hr as [_ ?]. congruence. }
        apply list_elem_of_lookup in Hm' as [i Hi], Hm as [j Hj].
        assert (i = j) as ->; [|congruence]. eapply (NoDup_lookup (map mc_telemetry_pk machines)); [done | |].
        - rewrite list_lookup_fmap, Hi. done.
        - rewrite list_lookup_fmap, Hj. cbn. by rewrite Hk. }
      rewrite Hr in Hf'. injection Hf' as <-. by rewrite Ha. }
  split; [by apply Hrow|]. cbn [fst snd].
  assert (Hu' : keys_unique machine_key (lv_machines db')).
  { pose proof (run_row (offline_transitions (lv_machines db) now machines) db 0 _ r Hdb Hr) as Hrun. cbv zeta in Hrun.
    rewrite Er in Hrun. by destruct Hrun as [? _]. }
  destruct (offline_transitions (lv_machines db') now machines) as [|t ts] eqn:Et; [done|]. exfalso.
  assert (Ht : t ∈ offline_transitions (lv_machines db') now machines) by (rewrite Et; by left).
  apply transition_source in Ht as (m' & r' & Hm' & Hf' & Ha & _); [|done].
  destruct (find_key machine_key (mc_telemetry_pk m') (lv_machines db)) as [r0|] eqn:E0.
  - rewrite (Hrow m' r0 Hm' E0) in Hf'. injection Hf' as <-.
    destruct (offlineTransitionAt m' r0 now) eqn:E1; [|congruence]. by apply transition_at_spec in Ha as (_ & _ & ? & _).
  - assert (Hnone : find_key machine_key (mc_telemetry_pk m') (lv_machines db') = None); [|congruence].
    clear - Er E0. revert Er. generalize (offline_transitions (lv_machines db) now machines) as ts. intros ts.
    revert db E0. generalize 0. induction ts as [|t ts IH]; intros k db E0 Er; cbn [fold_left] in Er.
    + by injection Er as <- <-.
    + destruct (transition_step (db, k) t) as [db1 k1] eqn:Es. apply (IH k1 db1); [|done].
      replace db1 with (transition_step (db, k) t).1 by (by rewrite Es). rewrite step_machines, find_key_update by done.
      cbn [fst]. by rewrite E0.
Qed.
End LivenessProofs.

(** No machine is starved: however many machines there are and wherever the cursor stands,
    [n] runs over an unchanged set of live machines look at every one of them once [n] times
    [MAX_MACHINE_CANDIDATES] reaches their number. *)
Theorem machines_scanned_round_robin machines workspaces cursor n m
  (Hu : NoDup (map mr_pk machines)) (Hm : m ∈ live_machines machines workspaces)
  (Hn : Z.of_nat (length (live_machines machines workspaces)) <= Z.of_nat n * MAX_MACHINE_CANDIDATES) :
  exists page, page ∈ cyclic_runs mc_telemetry_pk MAX_MACHINE_CANDIDATES n cursor (live_machines machines workspaces) /\
    m ∈ page /\
    exists cursor', page = loadMachineLivenessCandidates machines workspaces cursor'.
Proof.
  destruct (round_robin mc_telemetry_pk MAX_MACHINE_CANDIDATES cursor (live_machines machines workspaces) n m)
    as (page & Hp & Hin); [|done | done | done |].
  - clear Hm Hn. unfold live_machines. rewrite map_map. cbn. induction machines as [|x l IH]; [constructor|].
    cbn in Hu. apply NoDup_cons in Hu as [Hx Hu]. cbn [List.filter].
    destruct (_ && _); cbn [map]; [|by apply IH]. constructor; [|by apply IH].
    intros Hc. apply Hx. apply list_elem_of_fmap in Hc as (y & -> & Hy). apply filter_In_elem in Hy as [Hy _].
    by apply list_elem_of_fmap_2.
  - exists page. split; [done|]. split; [done|]. clear - Hp. revert cursor Hp.
    induction n as [|n IH]; intros cursor Hp; [by apply elem_of_nil in Hp|]. cbn [cyclic_runs] in Hp.
    apply elem_of_cons in Hp as [->|Hp]; [by exists cursor | by eapply IH].
Qed.

(** ** A recorded run *)

Definition sample_machines : list machine_row :=
  [MachineRow 1 "w" 60 None None; MachineRow 2 "w" 60 None None; MachineRow 3 "w" 60 (Some 9000000) None].
Definition sample_workspaces : list workspace_row := [WorkspaceRow "w" "w" 5 "private" 10 None].
Definition sample_liveness : liveness_db :=
  LivenessDb [MachineLatest 1 5 1000 "healthy"; MachineLatest 2 5 990000 "healthy"; MachineLatest 3 5 1000 "down"]
    (TelemetryDb [] [] [] [] [] [] 1 [] [] 0).
Definition sample_controls : list MachineControlRow := live_machines sample_machines sample_workspaces.

(** Machine 1 reported a minute late, 2 is in time, 3 is under maintenance. *)
Example sample_liveness_run :
  let '(r, db') := reconcileMachineLiveness (lv_machines sample_liveness) 1000000 sample_controls sample_liveness in
  lr_scanned r = 3 /\ lr_transitioned r = 1 /\ map lm_state (lv_machines db') = ["offline"; "healthy"; "down"] /\
  length (event_queue (lv_telemetry db')) = 1%nat.
Proof. vm_compute. repeat split. Qed.

Lemma sample_liveness_unique : keys_unique machine_key (lv_machines sample_liveness).
Proof. apply (bool_decide_unpack _). vm_compute. exact I. Qed.

(** An agent's report arrives between the read and the batch: machine 1 stays as it is. *)
Definition sample_reported : liveness_db :=
  LivenessDb [MachineLatest 1 5 999000 "healthy"; MachineLatest 2 5 990000 "healthy"; MachineLatest 3 5 1000 "down"]
    (TelemetryDb [] [] [] [] [] [] 1 [] [] 0).
Lemma sample_reported_unique : keys_unique machine_key (lv_machines sample_reported).
Proof. apply (bool_decide_unpack _). vm_compute. exact I. Qed.

Example machine_offline_sound_witness :
  find_key machine_key 1 (lv_machines (reconcileMachineLiveness (lv_machines sample_liveness) 1000000 sample_controls sample_reported).2)
    = Some (MachineLatest 1 5 999000 "healthy").
Proof.
  destruct (machine_offline_sound (lv_machines sample_liveness) 1000000 sample_controls sample_reported 1
    (MachineLatest 1 5 999000 "healthy") sample_liveness_unique sample_reported_unique eq_refl)
    as [H | (_ & m & Hm & Hpk & Hle & _)]; [exact H|].
  exfalso. revert Hle. cbn. apply elem_of_cons in Hm as [->|Hm]; [cbn; lia|].
  apply elem_of_cons in Hm as [->|Hm]; [cbn in Hpk; lia|].
  apply elem_of_cons in Hm as [->|Hm]; [cbn in Hpk; lia|]. apply elem_of_nil in Hm. contradiction.
Defined.

Example machine_offline_complete_witness :
  find_key machine_key 1 (lv_machines (reconcileMachineLiveness (lv_machines sample_liveness) 1000000 sample_controls sample_liveness).2)
    = Some (MachineLatest 1 5 1000 "offline").
Proof.
  destruct (machine_offline_complete 1000000 sample_controls sample_liveness (MachineControl 1 60 None)
    (MachineLatest 1 5 1000 "healthy") sample_liveness_unique) as [H _].
  - apply (bool_decide_unpack _). vm_compute. exact I.
  - left.
  - reflexivity.
  - exact H.
Defined.

Example machines_scanned_round_robin_witness : exists page,
  page ∈ cyclic_runs mc_telemetry_pk MAX_MACHINE_CANDIDATES 1 2 sample_controls /\ MachineControl 1 60 None ∈ page.
Proof.
  destruct (machines_scanned_round_robin sample_machines sample_workspaces 2 1 (MachineControl 1 60 None))
    as (page & Hp & Hin & _).
  - apply (bool_decide_unpack _). vm_compute. exact I.
  - left.
  - vm_compute. congruence.
  - exists page. exact (conj Hp Hin).
Defined.
