(* ===== verification/ChecksWorker.v ===== *)
(** * ChecksWorker: one run of the check scheduler

    Models [workers/checks/src/index.ts]: which checks are due, how a check is claimed, executed
    and recorded, how a run is cut into batches that fit its time budget, and the run itself,
    which takes the scheduler lease, reconciles machine liveness, executes checks, applies the
    synchronisation jobs and gives the lease back with the new cursors.

    The world outside the databases (time, HTTP, TCP) is a state [W] with its operations.
    [meanwhile] is whatever other workers and users do to the databases while a check executes;
    [telemetry_up] says whether the telemetry database accepts the result. *)

From Stdlib Require Import ZArith Lia Bool String List.
From stdpp Require Import base tactics sets list strings sorting.
From S2P Require Import Prelude.
From S2P Require Import Js.
From S2P Require Import Sql.
From S2P Require Import Crypto.
From S2P Require Import Telemetry.
From S2P Require Import Authz.
From S2P Require Import CheckPersistence.
From S2P Require Import ControlTables.
From S2P Require Import Web.
From S2P Require Import Assertions.
From S2P Require Import Validation.
From S2P Require Import Envelopes.
From S2P Require Import Executor.
From S2P Require Import Lease.
From S2P Require Import ServiceStateSync.
From S2P Require Import RoundRobin.
From S2P Require Import MachineLiveness.
Open Scope string_scope.
Open Scope Z_scope.

(* @src workers/checks/src/index.ts 12-15 MAX_CANDIDATES *)
Definition MAX_CANDIDATES : Z := 500.
Definition MAX_CONCURRENCY : nat := 5.
Definition RUN_WORK_BUDGET_MS : Z := 12 * 60000.
Definition RETRY_DELAY_MS : Z := 100.

(** ** Batches *)

(* @src workers/checks/src/index.ts CheckBatchProgress *)
Record CheckBatchProgress := Progress {
  bp_processed : Z;
  bp_failed : Z;
  bp_lastCursor : option Z;
  bp_deadlineReached : bool;
}.

Section Batches.
Context {T S : Type} (telemetry_pk : T -> Z) (canStart : list T -> S -> bool) (process : T -> S -> res unit * S).

(** [Promise.allSettled(batch.map(process))] and the number of rejections. *)
Definition settle_step (acc : Z * S) (candidate : T) : Z * S :=
  let '(r, s') := process candidate acc.2 in (match r with Ok _ => acc.1 | Err _ => acc.1 + 1 end, s').
Definition settle (batch : list T) (s : S) : Z * S := fold_left settle_step batch (0, s).

(** The loop over the remaining batches. *)
(* @src workers/checks/src/index.ts 32-42 processCheckBatches *)
Fixpoint batch_loop (batches : list (list T)) (p : CheckBatchProgress) (s : S) : CheckBatchProgress * S :=
  match batches with
  | [] => (p, s)
  | batch :: rest =>
      if canStart batch s then
        let '(rejected, s') := settle batch s in
        batch_loop rest
          (Progress (bp_processed p + Z.of_nat (length batch)) (bp_failed p + rejected)
             (match last batch with Some c => Some (telemetry_pk c) | None => bp_lastCursor p end) false) s'
      else (Progress (bp_processed p) (bp_failed p) (bp_lastCursor p) true, s)
  end.
(* @src workers/checks/src/index.ts processCheckBatches *)
Definition processCheckBatches (candidates : list T) (s : S) : CheckBatchProgress * S :=
  batch_loop (chunks MAX_CONCURRENCY candidates) (Progress 0 0 None false) s.
End Batches.

(* @src workers/checks/src/index.ts configurationFailureSummary *)
Definition configurationFailureSummary (cause : string) : string :=
  if String.eqb cause "OperationError" then "secret_decryption_failed"
  else if str_in cause ["missing_check_secret"; "invalid_check_secret_wrapping_key"; "invalid_check_secret_envelope";
                        "secret_payload_too_large"; "invalid_check_config"; "invalid_url"; "invalid_protocol";
                        "blocked_target"; "tls_verification_disabled"; "server_name_unsupported"]
  then cause else "configuration_rejected".

(** ** Due checks *)

Definition due_row (db : sync_control) (scheduledSeconds : Z) (c : check_row) : option CheckConfigRow :=
  match List.find (fun w => String.eqb (ws_id w) (ck_workspace c)) (sy_workspaces db),
        List.find (fun s => String.eqb (sc_id s) (ck_service c)) (sy_services db) with
  | Some w, Some s =>
      if is_null (sc_deleted s) && is_null (ws_deleted w) && (ck_enabled c =? 1) &&
         bool_decide (ck_executor c = cloudflare) &&
         sqlDue scheduledSeconds (ck_interval c) (ck_phase c) (ck_last_claimed c)
      then Some (CheckConfig (ck_id c) (ck_pk c) (ws_pk w) (ck_workspace c) (sc_pk s) (sc_maintenance s) (ck_revision c)
             (ck_kind c) (ck_interval c) (ck_phase c) (ck_timeout c) (ck_retry c) (ck_critical c) (ck_request c)
             (ck_secret_refs c) (ck_failure_confirmations c) (ck_recovery_confirmations c) (ck_last_claimed c))
      else None
  | _, _ => None
  end.
(* @src workers/checks/src/index.ts loadDueChecks *)
Definition loadDueChecks (db : sync_control) (scheduledAt cursor : Z) : list CheckConfigRow :=
  cyclic_page cc_telemetry_pk MAX_CANDIDATES cursor (omap (due_row db (scheduledAt / 1000)) (sy_checks db)).

(** ** One check *)

Section Worker.
Context `{WC : WebCrypto} `{UA : UrlApi} `{AE : AssertionEngines}.
Context {W : Type} (now : W -> Z) (fetch : request -> W -> res response * W) (drain : response -> W -> W)
  (connect : string -> Z -> bool -> W -> res socket * W) (tick : Z -> W -> W) (telemetry_up : W -> bool)
  (wrapping_key : string).

(** The databases and the world. *)
Record env := Env {
  en_scheduler : list SchedulerStateRow;
  en_control : sync_control;
  en_machines : list machine_row;
  en_secrets : list SecretRow;
  en_latest : list MachineLatestRow;
  en_telemetry : telemetry_db;
  en_world : W;
}.
Definition with_checks (checks : list check_row) (e : env) : env :=
  Env (en_scheduler e) (SyncControl (sy_workspaces (en_control e)) (sy_services (en_control e)) checks (sy_jobs (en_control e)))
    (en_machines e) (en_secrets e) (en_latest e) (en_telemetry e) (en_world e).
Definition with_telemetry (t : telemetry_db) (e : env) : env :=
  Env (en_scheduler e) (en_control e) (en_machines e) (en_secrets e) (en_latest e) t (en_world e).
Definition with_world (w : W) (e : env) : env :=
  Env (en_scheduler e) (en_control e) (en_machines e) (en_secrets e) (en_latest e) (en_telemetry e) w.

Context (meanwhile : env -> env).

(** The TCP check in the world. *)
Definition tcp_in_world (config : TcpCheckRequest) (timeoutMs : Z) (w : W) : res ExecutedCheck * W :=
  let w1 := (connect (t_hostname config) (t_port config) (t_secureTransport config) w).2 in
  let '(r, elapsed) := executeTcp (fun h p s => (connect h p s w).1) config timeoutMs in (r, tick elapsed w1).

(** [execute] of [processCheck], without the retries. *)
(* @src workers/checks/src/index.ts 81-89 processCheck *)
Definition run_once (row : CheckConfigRow) (secrets : ResolvedCheckSecrets) (w : W) : res ExecutedCheck * W :=
  match cc_kind row with
  | KHttp =>
      match parseHttpRequest (cc_request_json row) with
      | Err e => (Err e, w)
      | Ok c => let '(r, w', _) := executeHttp fetch drain now (applyHttpSecrets c secrets) w in (r, w')
      end
  | KTcp =>
      match parseTcpRequest (cc_request_json row) with
      | Err e => (Err e, w)
      | Ok c => tcp_in_world (applyTcpSecrets c secrets) (cc_timeout_ms row) w
      end
  end.
(** The [try] block and its handler. *)
(* @src workers/checks/src/index.ts 78-98 processCheck *)
Definition execute_check (row : CheckConfigRow) (e : env) : ExecutedCheck * W :=
  let rejected cause := Executed Down None (Some "invalid_config") (Some (configurationFailureSummary cause)) in
  match resolveCheckSecrets (en_secrets e) row wrapping_key with
  | Err cause => (rejected cause, en_world e)
  | Ok secrets =>
      let '(r, w) := executeWithRetries (run_once row secrets) (Z.to_nat (cc_retry_count row)) (en_world e) in
      (match r with Ok result => result | Err cause => rejected cause end, w)
  end.

(** [WHERE id = ? AND telemetry_pk = ? AND config_revision = ?] *)
Definition same_config (row : CheckConfigRow) (c : check_row) : bool :=
  String.eqb (ck_id c) (cc_id row) && (ck_pk c =? cc_telemetry_pk row) && (ck_revision c =? cc_config_revision row).
Definition runnable (c : check_row) : bool := (ck_enabled c =? 1) && bool_decide (ck_executor c = cloudflare).
(* @src workers/checks/src/index.ts 69-75 processCheck *)
Definition claim (row : CheckConfigRow) (slotSeconds : Z) (checks : list check_row) : list check_row * Z :=
  update_where (fun c => same_config row c && (runnable c && (ck_last_claimed c <? slotSeconds)))
    (set_claimed slotSeconds) checks.
(* @src workers/checks/src/index.ts 100-106 processCheck *)
Definition currentClaim (row : CheckConfigRow) (slotSeconds : Z) (checks : list check_row) : bool :=
  existsb (fun c => same_config row c && (runnable c && (ck_last_claimed c =? slotSeconds))) checks.
(* @src workers/checks/src/index.ts 110-115 processCheck *)
Definition rollback (row : CheckConfigRow) (slotSeconds : Z) (checks : list check_row) : list check_row :=
  (update_where (fun c => same_config row c && (ck_last_claimed c =? slotSeconds))
     (set_claimed (cc_last_claimed_slot row)) checks).1.

(* @src workers/checks/src/index.ts processCheck *)
Definition processCheck (nowMs : Z) (row : CheckConfigRow) (e : env) : res unit * env :=
  let slotSeconds := dueSlot nowMs (cc_interval_seconds row) (cc_phase_seconds row) in
  let '(claimed, changes) := claim row slotSeconds (sy_checks (en_control e)) in
  if negb (changes =? 1) then (Ok tt, with_checks claimed e)
  else
    let '(result, w) := execute_check row (with_checks claimed e) in
    let e1 := meanwhile (with_world w (with_checks claimed e)) in
    if negb (currentClaim row slotSeconds (sy_checks (en_control e1))) then (Ok tt, e1)
    else
      match (if telemetry_up (en_world e1)
             then persistCheckResult row (slotSeconds * 1000) (now (en_world e1)) result (en_telemetry e1)
             else Err "D1_ERROR") with
      | Ok t => (Ok tt, with_telemetry t e1)
      | Err error => (Err error, with_checks (rollback row slotSeconds (sy_checks (en_control e1))) e1)
      end.

(** ** A run *)

(** [batch.reduce(...)]: the longest a check of the batch may take. *)
(* @src workers/checks/src/index.ts 159-166 runChecks *)
Definition maximumDuration (batch : list CheckConfigRow) : Z :=
  fold_left (fun maximum row =>
    Z.max maximum (cc_timeout_ms row * (cc_retry_count row + 1) + cc_retry_count row * RETRY_DELAY_MS)) batch 0.
Definition can_start (deadline : Z) (batch : list CheckConfigRow) (e : env) : bool :=
  now (en_world e) + maximumDuration batch <=? deadline.
(* @src workers/checks/src/index.ts runChecks *)
Definition runChecks (scheduledAt : Z) (candidates : list CheckConfigRow) (deadline : Z) (e : env)
  : CheckBatchProgress * env :=
  processCheckBatches cc_telemetry_pk (can_start deadline) (processCheck scheduledAt) candidates e.

(** The three tasks of a run, and the cursors it ends with. *)
(* @src workers/checks/src/index.ts 181-231 runScheduled *)
Definition scheduled_tasks (scheduledAt deadline : Z) (lease : SchedulerLease) (e : env)
  : (res unit * env) * (Z * Z) :=
  let checks := loadDueChecks (en_control e) scheduledAt (checkCursor lease) in
  let machines := loadMachineLivenessCandidates (en_machines e) (sy_workspaces (en_control e)) (machineCursor lease) in
  let machineCursor' := next_cursor mc_telemetry_pk (machineCursor lease) machines in
  let '(liveness, l) := reconcileMachineLiveness (en_latest e) scheduledAt machines
                          (LivenessDb (en_latest e) (en_telemetry e)) in
  let e1 := Env (en_scheduler e) (en_control e) (en_machines e) (en_secrets e) (lv_machines l) (lv_telemetry l) (en_world e) in
  let '(checkExecution, e2) := runChecks scheduledAt checks deadline e1 in
  let checkCursor' := coalesce (bp_lastCursor checkExecution) (checkCursor lease) in
  let '(stateSync, (control, telemetry)) :=
    reconcileServiceStateSyncJobs (en_control e2) (en_telemetry e2) (now (en_world e2)) JOB_BATCH in
  let e3 := Env (en_scheduler e2) control (en_machines e2) (en_secrets e2) (en_latest e2) telemetry (en_world e2) in
  let failedTasks :=
    (if 0 <? bp_failed checkExecution then 1 else 0) +
    match stateSync with Ok s => if 0 <? sp_failed s then 1 else 0 | Err _ => 1 end in
  (((throw_if 0 <? failedTasks as "scheduled_tasks_failed:" ++ z_to_string failedTasks in Ok tt), e3),
   (checkCursor', machineCursor')).

(* @src workers/checks/src/index.ts runScheduled *)
Definition runScheduled (scheduledAt : Z) (e : env) : res unit * env :=
  let '(lease, scheduler) := acquireSchedulerLease (now (en_world e)) (en_scheduler e) in
  let with_scheduler s e := Env s (en_control e) (en_machines e) (en_secrets e) (en_latest e) (en_telemetry e) (en_world e) in
  match lease with
  | None => (Ok tt, with_scheduler scheduler e)
  | Some lease =>
      let deadline := now (en_world e) + RUN_WORK_BUDGET_MS in
      let '((outcome, e'), (checkCursor', machineCursor')) :=
        scheduled_tasks scheduledAt deadline lease (with_scheduler scheduler e) in
      (outcome, with_scheduler
         (releaseSchedulerLease lease checkCursor' machineCursor' (now (en_world e')) (en_scheduler e')).2 e')
  end.
End Worker.

(** ** Progress of a run's batches *)

Section BatchProofs.
Context {T S : Type} (telemetry_pk : T -> Z) (canStart : list T -> S -> bool) (process : T -> S -> res unit * S).

Lemma settle_shift batch : forall n s, fold_left (settle_step process) batch (n, s) =
  (n + (settle process batch s).1, (settle process batch s).2).
Proof.
  unfold settle. induction batch as [|x batch IH]; intros n s; cbn [fold_left]; [by rewrite Z.add_0_r|].
  assert (settle_step process (n, s) x = (n + (settle_step process (0, s) x).1, (settle_step process (0, s) x).2)) as ->.
  { unfold settle_step. cbn [fst snd]. destruct (process x s) as [[] ?]; cbn [fst snd]; by rewrite ?Z.add_0_r. }
  destruct (settle_step process (0, s) x) as [k s']. cbn [fst snd]. rewrite (IH (n + k)), (IH k). cbn [fst snd].
  by rewrite Z.add_assoc.
Qed.
Lemma settle_app a b s : settle process (a ++ b) s =
  ((settle process a s).1 + (settle process b (settle process a s).2).1, (settle process b (settle process a s).2).2).
Proof.
  unfold settle at 1. rewrite fold_left_app. rewrite (settle_shift a 0 s). by rewrite settle_shift.
Qed.
Lemma settle_bounds batch s : 0 <= (settle process batch s).1 <= Z.of_nat (length batch).
Proof.
  revert s. induction batch as [|x batch IH]; intros s; [done|]. change (x :: batch) with ([x] ++ batch)%list.
  rewrite settle_app. cbn [fst]. specialize (IH (settle process [x] s).2).
  assert (0 <= (settle process [x] s).1 <= 1).
  { unfold settle, settle_step. cbn. destruct (process x s) as [[] ?]; cbn; lia. }
  rewrite length_app. cbn [length]. lia.
Qed.

Lemma last_app_cons (l1 l2 : list T) : l2 <> [] -> last (l1 ++ l2) = last l2.
Proof. intros H. rewrite last_app. destruct (last l2) eqn:E; [done|]. by apply last_None in E. Qed.

(** Where the loop ends, from a state reached after [done]. *)
Lemma batch_loop_spec batches : (forall b, b ∈ batches -> b <> []) -> forall before s0 p s,
  bp_processed p = Z.of_nat (length before) -> (bp_failed p, s) = settle process before s0 ->
  bp_lastCursor p = telemetry_pk <$> last before -> bp_deadlineReached p = false ->
  let '(q, s') := batch_loop telemetry_pk canStart process batches p s in
  exists n, (n <= length (concat batches))%nat /\
    let all := (before ++ take n (concat batches))%list in
    bp_processed q = Z.of_nat (length all) /\ (bp_failed q, s') = settle process all s0 /\
    bp_lastCursor q = telemetry_pk <$> last all /\
    (bp_deadlineReached q = false <-> n = length (concat batches)).
Proof.
  induction batches as [|b batches IH]; intros Hne before s0 p s Hp Hs Hc Hd; cbn [batch_loop concat].
  - exists 0%nat. cbn. rewrite app_nil_r. by split_and!.
  - assert (Hb : b <> []) by (apply Hne; by left). destruct (canStart b s).
    + destruct (settle process b s) as [k s'] eqn:Eb.
      assert (Hs' : (bp_failed p + k, s') = settle process (before ++ b) s0).
      { rewrite settle_app, <- Hs. cbn [fst snd]. by rewrite Eb. }
      pose proof (IH (fun x Hx => Hne x (proj2 (elem_of_cons _ _ _) (or_intror Hx))) (before ++ b)%list s0
        (Progress (bp_processed p + Z.of_nat (length b)) (bp_failed p + k)
           (match last b with Some c => Some (telemetry_pk c) | None => bp_lastCursor p end) false) s') as Hrest.
      cbn [bp_processed bp_failed bp_lastCursor bp_deadlineReached] in Hrest.
      destruct (batch_loop telemetry_pk canStart process batches _ s') as [q s2].
      destruct Hrest as (n & Hn & H1 & H2 & H3 & H4); [rewrite length_app; lia | done | | done |].
      { rewrite last_app_cons by done. destruct (last b) eqn:El; [done|]. by apply last_None in El. }
      exists (length b + n)%nat. rewrite length_app. split; [lia|]. cbv zeta in *.
      assert (take (length b + n) (b ++ concat batches) = b ++ take n (concat batches))%list as ->.
      { rewrite take_app_add' by done. done. }
      rewrite app_assoc. split_and!; [done | done | done|]. rewrite H4. lia.
    + exists 0%nat. cbn [take]. rewrite app_nil_r. cbn [bp_processed bp_failed bp_lastCursor bp_deadlineReached].
      split_and!; [lia | done | done | done|]. split; [done|]. rewrite length_app. destruct b; cbn; [done | lia].
Qed.

Lemma chunks_nonempty {A} (n : nat) (l : list A) b : (0 < n)%nat -> b ∈ chunks n l -> b <> [].
Proof.
  intros Hn. unfold chunks. generalize (length l) as fuel. intros fuel. revert l.
  induction fuel as [|f IH]; intros l; cbn [chunks_fuel]; [intros H; by apply elem_of_nil in H|].
  destruct l as [|x l]; [intros H; by apply elem_of_nil in H|]. intros H. apply elem_of_cons in H as [->|H]; [|by eapply IH].
  destruct n; [lia | done].
Qed.

(** Whatever the checks do, a run works through a prefix of the candidates: the state is the one
    after exactly these, in order, with the failures counted; the cursor is the last of them; and
    the deadline flag tells whether any are left. *)
Theorem processCheckBatches_prefix candidates s :
  let '(q, s') := processCheckBatches telemetry_pk canStart process candidates s in
  exists n, (n <= length candidates)%nat /\ bp_processed q = Z.of_nat n /\
    (bp_failed q, s') = settle process (take n candidates) s /\ 0 <= bp_failed q <= bp_processed q /\
    bp_lastCursor q = telemetry_pk <$> last (take n candidates) /\
    (bp_deadlineReached q = false <-> n = length candidates).
Proof.
  unfold processCheckBatches.
  pose proof (batch_loop_spec (chunks MAX_CONCURRENCY candidates)
    (fun b Hb => chunks_nonempty MAX_CONCURRENCY candidates b ltac:(unfold MAX_CONCURRENCY; lia) Hb)
    [] s (Progress 0 0 None false) s eq_refl eq_refl eq_refl eq_refl) as H.
  destruct (batch_loop _ _ _ _ _ _) as [q s'].
  rewrite (chunks_concat MAX_CONCURRENCY candidates) in H by (unfold MAX_CONCURRENCY; lia).
  destruct H as (n & Hn & H1 & H2 & H3 & H4). cbn [app] in *. cbv zeta in *. rewrite length_take in H1.
  exists n. pose proof (settle_bounds (take n candidates) s) as Hb. rewrite <- H2 in Hb. cbn [fst] in Hb.
  rewrite length_take in Hb. split_and!; try done; lia.
Qed.

(** Time: when a batch takes no longer than its estimate, the loop ends by the deadline. *)
Context (time : S -> Z) (duration : list T -> Z) (deadline : Z).
Hypothesis start_in_time : forall b s, canStart b s = true -> time s + duration b <= deadline.
Hypothesis batch_in_time : forall b s, time (settle process b s).2 <= time s + duration b.
Lemma batch_loop_deadline batches : forall p s, time (batch_loop telemetry_pk canStart process batches p s).2 <= Z.max (time s) deadline.
Proof.
  induction batches as [|b batches IH]; intros p s; cbn [batch_loop snd]; [lia|].
  destruct (canStart b s) eqn:E; [|cbn; lia]. pose proof (start_in_time b s E). pose proof (batch_in_time b s) as Hb.
  destruct (settle process b s) as [k s']. cbn [snd] in Hb. etransitivity; [apply IH|]. lia.
Qed.
End BatchProofs.

(** ** One check, exactly once *)

Lemma set_claimed_key slot c : check_key (set_claimed slot c) = check_key c.
Proof. done. Qed.
Lemma same_config_claimed row slot c : same_config row (set_claimed slot c) = same_config row c.
Proof. done. Qed.
Lemma runnable_claimed slot c : runnable (set_claimed slot c) = runnable c.
Proof. done. Qed.
Lemma same_config_id row c : same_config row c = true -> check_key c = cc_id row.
Proof. unfold same_config. intros H. apply andb_true_iff in H as [H _]. apply andb_true_iff in H as [H _]. by apply String.eqb_eq. Qed.

(** A statement that selects by the row's identity. *)
Lemma update_config row p f checks : keys_unique check_key checks -> (forall c, check_key (f c) = check_key c) ->
  let q c := same_config row c && p c in
  (update_where q f checks).2 = match find_key check_key (cc_id row) checks with
    | Some c => if q c then 1 else 0 | None => 0 end /\
  find_key check_key (cc_id row) (update_where q f checks).1 =
    ((fun c => if q c then f c else c) <$> find_key check_key (cc_id row) checks) /\
  keys_unique check_key (update_where q f checks).1 /\
  ((update_where q f checks).2 = 0 -> (update_where q f checks).1 = checks).
Proof.
  intros Hu Hf q. assert (Hq : forall c, q c = key_is check_key (cc_id row) c && q c).
  { intros c. unfold q. destruct (same_config row c) eqn:E; cbn; [|by rewrite andb_false_r].
    rewrite (proj2 (key_is_true check_key _ c)) by (by apply same_config_id). done. }
  split_and!.
  - unfold update_where. cbn [snd].
    rewrite <- (count_if_key check_key (cc_id row) q checks Hu). unfold count_if. f_equal. f_equal.
    by apply List.filter_ext.
  - apply find_key_update. intros c _. apply Hf.
  - apply update_where_unique; [|done]. intros c _. apply Hf.
  - unfold update_where. cbn [fst snd]. intros H0. rewrite (count_if_zero check_key) in H0.
    clear - H0. induction checks as [|c l IH]; [done|]. cbn [map]. rewrite (H0 c) by (by left). f_equal.
    apply IH. intros x Hx. apply H0. by right.
Qed.

(** A claim is a compare-and-set: once a slot of a check is taken, no worker, from whatever
    snapshot of the same configuration, takes that slot or an earlier one. *)
Theorem claim_excludes row row2 slot slot2 checks (Hu : keys_unique check_key checks)
  (Hid : cc_id row2 = cc_id row) (Hclaim : (claim row slot checks).2 = 1) (Hslot : slot2 <= slot) :
  (claim row2 slot2 (claim row slot checks).1).2 = 0 /\
  (claim row2 slot2 (claim row slot checks).1).1 = (claim row slot checks).1 /\
  currentClaim row slot (claim row slot checks).1 = true.
Proof.
  unfold claim in *.
  destruct (update_config row (fun c => runnable c && (ck_last_claimed c <? slot)) (set_claimed slot) checks Hu
    (set_claimed_key slot)) as (Hn & Hf & Hu' & _). cbv zeta in *. rewrite Hn in Hclaim.
  destruct (find_key check_key (cc_id row) checks) as [c|] eqn:Ec; [|done]. destruct (_ && _) eqn:Eq in Hclaim; [|done].
  cbn [fmap option_fmap option_map] in Hf. rewrite Eq in Hf.
  destruct (update_where _ _ checks) as [checks1 n1]. cbn [fst snd] in *.
  destruct (update_config row2 (fun c => runnable c && (ck_last_claimed c <? slot2)) (set_claimed slot2) checks1 Hu'
    (set_claimed_key slot2)) as (Hn2 & _ & _ & Hsame). cbv zeta in *.
  assert (H0 : (update_where (fun c => same_config row2 c && (runnable c && (ck_last_claimed c <? slot2)))
    (set_claimed slot2) checks1).2 = 0).
  { rewrite Hn2, Hid, Hf. cbn [ck_last_claimed set_claimed].
    assert (slot <? slot2 = false) as -> by (apply Z.ltb_ge; lia). by rewrite !andb_false_r. }
  split_and!; [done | by apply Hsame |].
  apply existsb_exists_elem. exists (set_claimed slot c). apply find_key_Some in Hf as [Hin _]. split; [done|].
  rewrite same_config_claimed, runnable_claimed. cbn [ck_last_claimed set_claimed]. rewrite Z.eqb_refl.
  apply andb_true_iff in Eq as [E1 E2]. apply andb_true_iff in E2 as [E2 _]. by rewrite E1, E2.
Qed.

(** Giving a claim back restores the table. *)
Lemma rollback_restores row slot checks c : keys_unique check_key checks ->
  find_key check_key (cc_id row) checks = Some c -> same_config row c = true -> runnable c = true ->
  ck_last_claimed c = cc_last_claimed_slot row -> cc_last_claimed_slot row <? slot = true ->
  rollback row slot (claim row slot checks).1 = checks.
Proof.
  intros Hu Hc Hsame Hrun Hlast Hdue. unfold rollback, claim, update_where. cbn [fst]. rewrite map_map.
  transitivity (map (fun c => c) checks); [|apply map_id]. apply map_ext_in. intros x Hx. apply list_elem_of_In in Hx.
  destruct (same_config row x) eqn:Ex.
  - assert (x = c) as ->.
    { pose proof (find_key_unique check_key (cc_id row) checks x Hu Hx (same_config_id row x Ex)). congruence. }
    rewrite Hrun, Hlast, Hdue. cbn [andb]. rewrite same_config_claimed, Ex. cbn [ck_last_claimed set_claimed]. rewrite Z.eqb_refl.
    cbn [andb]. unfold set_claimed. cbn. rewrite <- Hlast. by destruct c.
  - cbn [andb]. by rewrite Ex.
Qed.

Section WorkerProofs.
Context `{WC : WebCrypto} `{UA : UrlApi} `{AE : AssertionEngines}.
Context {W : Type} (now : W -> Z) (fetch : request -> W -> res response * W) (drain : response -> W -> W)
  (connect : string -> Z -> bool -> W -> res socket * W) (tick : Z -> W -> W) (telemetry_up : W -> bool)
  (wrapping_key : string).
Notation env := (@env W).
Notation run_check := (processCheck now fetch drain connect tick telemetry_up wrapping_key (fun e : env => e)).

Lemma with_checks_same (e : env) : with_checks (sy_checks (en_control e)) e = e.
Proof. by destruct e as [? []]. Qed.

(** C4: with nobody interfering, a check runs exactly once per due slot.  If its slot is already
    claimed, nothing runs and nothing changes.  Otherwise it is executed once; if the result can
    be recorded, it is (for the slot's own minute), the slot stays claimed and processing the
    check again at the same time does nothing; if not, the error is reported and the claim is
    given back, so that the control database is exactly as before and the check is due again. *)
Theorem processCheck_exactly_once nowMs row (e : env) c
  (Hu : keys_unique check_key (sy_checks (en_control e)))
  (Hc : find_key check_key (cc_id row) (sy_checks (en_control e)) = Some c)
  (Hsame : same_config row c = true) (Hrun : runnable c = true) (Hlast : ck_last_claimed c = cc_last_claimed_slot row) :
  let slot := dueSlot nowMs (cc_interval_seconds row) (cc_phase_seconds row) in
  let '(r, e') := processCheck now fetch drain connect tick telemetry_up wrapping_key (fun e : env => e) nowMs row e in
  if cc_last_claimed_slot row <? slot then
    let '(result, w) := execute_check now fetch drain connect tick wrapping_key row
                          (with_checks (claim row slot (sy_checks (en_control e))).1 e) in
    match r with
    | Ok _ => telemetry_up w = true /\ en_world e' = w /\
        persistCheckResult row (slot * 1000) (now w) result (en_telemetry e) = Ok (en_telemetry e') /\
        find_key check_key (cc_id row) (sy_checks (en_control e')) = Some (set_claimed slot c) /\
        run_check nowMs row e' = (Ok tt, e')
    | Err _ => en_control e' = en_control e /\ en_telemetry e' = en_telemetry e /\ en_world e' = w
    end
  else r = Ok tt /\ e' = e.
Proof.
  cbv zeta. set (slot := dueSlot nowMs (cc_interval_seconds row) (cc_phase_seconds row)).
  assert (Hskip : forall (e0 : env) c0, keys_unique check_key (sy_checks (en_control e0)) ->
    find_key check_key (cc_id row) (sy_checks (en_control e0)) = Some c0 -> slot <= ck_last_claimed c0 ->
    run_check nowMs row e0 = (Ok tt, e0)).
  { intros e0 c0 Hu0 Hc0 Hle. unfold processCheck. fold slot. unfold claim.
    destruct (update_config row (fun c => runnable c && (ck_last_claimed c <? slot)) (set_claimed slot) _ Hu0
      (set_claimed_key slot)) as (Hn & _ & _ & Hid). cbv zeta in *. rewrite Hc0 in Hn.
    assert (ck_last_claimed c0 <? slot = false) as E by (apply Z.ltb_ge; lia). rewrite E, !andb_false_r in Hn.
    rewrite Hn in Hid. specialize (Hid eq_refl). destruct (update_where _ _ _) as [checks n]. cbn [fst snd] in *. subst n checks.
    cbn [Z.eqb negb]. by rewrite with_checks_same. }
  destruct (cc_last_claimed_slot row <? slot) eqn:Edue.
  2: { apply Z.ltb_ge in Edue. rewrite (Hskip e c Hu Hc) by lia. done. }
  unfold processCheck. fold slot. unfold claim.
  destruct (update_config row (fun c => runnable c && (ck_last_claimed c <? slot)) (set_claimed slot) _ Hu
    (set_claimed_key slot)) as (Hn & Hf & Hu1 & _). cbv zeta in *. rewrite Hc in Hn, Hf. cbn [fmap option_fmap option_map] in Hf.
  rewrite Hsame, Hrun, Hlast, Edue in Hn, Hf. cbn [andb] in Hn, Hf.
  destruct (update_where _ _ (sy_checks (en_control e))) as [checks1 n1] eqn:Ecl. cbn [fst snd] in *. subst n1.
  cbn [Z.eqb negb]. destruct (execute_check _ _ _ _ _ _ _ _) as [result w] eqn:Ex.
  cbn [en_control with_world with_checks sy_checks en_world en_telemetry].
  assert (Hcur : currentClaim row slot checks1 = true).
  { apply existsb_exists_elem. exists (set_claimed slot c). apply find_key_Some in Hf as [Hin _]. split; [done|].
    rewrite same_config_claimed, runnable_claimed, Hsame, Hrun. cbn [ck_last_claimed set_claimed]. by rewrite Z.eqb_refl. }
  rewrite Hcur. cbn [negb].
  destruct (telemetry_up w) eqn:Eup.
  - destruct (persistCheckResult row (slot * 1000) (now w) result (en_telemetry e)) as [t|err] eqn:Ep.
    + split_and!; try done. by apply (Hskip _ (set_claimed slot c)).
    + cbn [en_control with_checks en_telemetry en_world with_world sy_workspaces sy_services sy_jobs]. split_and!; try done.
      clear Hskip. unfold rollback. destruct e as [sch [ws sv ch jb] mc se la te wo]. cbn in *. f_equal.
      pose proof (rollback_restores row slot ch c Hu Hc Hsame Hrun Hlast Edue) as Hr. unfold claim, rollback in Hr.
      by rewrite Ecl in Hr.
  - cbn [en_control with_checks en_telemetry en_world with_world sy_workspaces sy_services sy_jobs]. split_and!; try done.
    clear Hskip. destruct e as [sch [ws sv ch jb] mc se la te wo]. cbn in *. f_equal.
    pose proof (rollback_restores row slot ch c Hu Hc Hsame Hrun Hlast Edue) as Hr. unfold claim in Hr.
    by rewrite Ecl in Hr.
Qed.
End WorkerProofs.

(** ** The run and its lease *)

Section RunProofs.
Context `{WC : WebCrypto} `{UA : UrlApi} `{AE : AssertionEngines}.
Context {W : Type} (now : W -> Z) (fetch : request -> W -> res response * W) (drain : response -> W -> W)
  (connect : string -> Z -> bool -> W -> res socket * W) (tick : Z -> W -> W) (telemetry_up : W -> bool)
  (wrapping_key : string) (meanwhile : @env W -> @env W).
Notation env := (@env W).
Notation process := (processCheck now fetch drain connect tick telemetry_up wrapping_key meanwhile).
Notation run_checks := (runChecks now fetch drain connect tick telemetry_up wrapping_key meanwhile).
Notation tasks := (scheduled_tasks now fetch drain connect tick telemetry_up wrapping_key meanwhile).

(** Other workers do not touch this run's lease while it is held; see [Lease]. *)
Hypothesis lease_respected : forall e, en_scheduler (meanwhile e) = en_scheduler e.

Lemma process_scheduler nowMs row e : en_scheduler (process nowMs row e).2 = en_scheduler e.
Proof.
  unfold processCheck. destruct (claim _ _ _) as [claimed n]. destruct (negb _); [done|].
  destruct (execute_check _ _ _ _ _ _ _ _) as [result w]. cbv zeta.
  assert (H : en_scheduler (meanwhile (with_world w (with_checks claimed e))) = en_scheduler e) by (by rewrite lease_respected).
  destruct (negb _); [done|]. by destruct (if telemetry_up _ then _ else _).
Qed.

Lemma batch_loop_scheduler canStart nowMs batches p e :
  en_scheduler (batch_loop cc_telemetry_pk canStart (process nowMs) batches p e).2 = en_scheduler e.
Proof.
  revert p e. induction batches as [|b batches IH]; intros p e; cbn [batch_loop]; [done|].
  destruct (canStart b e); [|done]. destruct (settle (process nowMs) b e) as [k e1] eqn:E. rewrite IH.
  assert (H : forall l acc, en_scheduler (fold_left (settle_step (process nowMs)) l acc).2 = en_scheduler acc.2).
  { clear -lease_respected. intros l. induction l as [|x l IHl]; intros acc; [done|]. cbn [fold_left]. rewrite IHl.
    unfold settle_step. pose proof (process_scheduler nowMs x acc.2) as Hp. by destruct (process nowMs x acc.2) as [[] ?]. }
  specialize (H b (0, e)). unfold settle in E. by rewrite E in H.
Qed.

Lemma tasks_scheduler scheduledAt deadline lease e : en_scheduler (tasks scheduledAt deadline lease e).1.2 = en_scheduler e.
Proof.
  unfold scheduled_tasks. cbv zeta. destruct (reconcileMachineLiveness _ _ _ _) as [lv l].
  match goal with |- context [runChecks _ _ _ _ _ _ _ _ ?a ?cs ?d ?e1] =>
    assert (H : en_scheduler (run_checks a cs d e1).2 = en_scheduler e1) by apply batch_loop_scheduler;
    destruct (run_checks a cs d e1) as [p e2] end.
  cbn [snd] in H. destruct (reconcileServiceStateSyncJobs _ _ _ _) as [sync [control telemetry]]. cbn. by rewrite H.
Qed.

(** A run takes the scheduler lease or does nothing at all, and a run that took it gives it
    back with its new cursors, whether its tasks succeed or fail. *)
Theorem runScheduled_releases scheduledAt e (Hu : keys_unique ss_singleton (en_scheduler e)) :
  let '(r, e') := runScheduled now fetch drain connect tick telemetry_up wrapping_key meanwhile scheduledAt e in
  match lease_view tt (en_scheduler e) with
  | Some (u, _) => if now (en_world e) <? u then r = Ok tt /\ e' = e
                   else exists cursors, lease_view tt (en_scheduler e') = Some (0, cursors)
  | None => exists cursors, lease_view tt (en_scheduler e') = Some (0, cursors)
  end.
Proof.
  unfold runScheduled.
  destruct (@acquire_refines _ _ _ SchedulerTable SchedulerLaws (en_scheduler e) tt (now (en_world e)) Hu) as (Hr & Hw & Hv & _).
  assert (Hsame : (acquireSchedulerLease (now (en_world e)) (en_scheduler e)).1 = None ->
    (acquireSchedulerLease (now (en_world e)) (en_scheduler e)).2 = en_scheduler e) by (by apply acquire_none_same).
  cbn [lease_acquire SchedulerTable] in Hr, Hw, Hv. unfold lease_wf in Hw. cbn in Hw.
  destruct (acquireSchedulerLease (now (en_world e)) (en_scheduler e)) as [[lease|] sch]; cbn [fst snd fmap option_fmap option_map] in *.
  - destruct (tasks scheduledAt (now (en_world e) + RUN_WORK_BUDGET_MS) lease _) as [[outcome e1] [cc mc]] eqn:Et.
    match type of Et with tasks ?a ?b ?c ?d = _ => pose proof (tasks_scheduler a b c d) as Hsch end.
    rewrite Et in Hsch. cbn [fst snd en_scheduler] in Hsch. cbn [en_scheduler].
    assert (Hview : lease_view tt sch = Some (leaseUntil lease, (checkCursor lease, machineCursor lease))).
    { rewrite Hv. unfold cell_acquire in *. destruct (lease_view tt (en_scheduler e)) as [[u d]|].
      - destruct (u <=? now (en_world e)); [|done]. cbn in Hr |- *. congruence.
      - cbn in Hr |- *. congruence. }
    destruct (@release_refines _ _ _ SchedulerTable SchedulerLaws sch tt (leaseUntil lease) (cc, mc) (now (en_world e1)) Hw) as (_ & _ & Hrv & _).
    rewrite Hview in Hrv. unfold cell_release in Hrv. rewrite Z.eqb_refl in Hrv.
    assert (Hfinal : lease_view tt (releaseSchedulerLease lease cc mc (now (en_world e1)) (en_scheduler e1)).2 = Some (0, (cc, mc))).
    { rewrite Hsch. exact Hrv. }
    unfold cell_acquire in Hr. destruct (lease_view tt (en_scheduler e)) as [[u d]|]; [|by eexists].
    destruct (now (en_world e) <? u) eqn:Eu; [|by eexists].
    rewrite (proj2 (Z.leb_gt _ _)) in Hr by (bool_hyps; lia). done.
  - rewrite Hsame by done. unfold cell_acquire in Hr. destruct (lease_view tt (en_scheduler e)) as [[u d]|]; [|done].
    destruct (u <=? now (en_world e)) eqn:Eu; [done|]. bool_hyps. rewrite (proj2 (Z.ltb_lt _ _)) by lia.
    split; [done|]. by destruct e.
Qed.

(** Checks that keep to their timeouts end three minutes before the lease of their run does. *)
Theorem runChecks_within_lease scheduledAt candidates e lease sch
  (Hlease : acquireSchedulerLease (now (en_world e)) (en_scheduler e) = (Some lease, sch))
  (Hu : keys_unique ss_singleton (en_scheduler e))
  (Hbatch : forall b e, now (en_world (settle (process scheduledAt) b e).2) <= now (en_world e) + maximumDuration b) :
  now (en_world (run_checks scheduledAt candidates (now (en_world e) + RUN_WORK_BUDGET_MS) e).2) + 3 * 60000 <= leaseUntil lease.
Proof.
  assert (Hl : leaseUntil lease = now (en_world e) + SCHEDULER_LEASE_MS).
  { destruct (@acquire_refines _ _ _ SchedulerTable SchedulerLaws (en_scheduler e) tt (now (en_world e)) Hu) as (Hr & _ & _ & _).
    cbn [lease_acquire SchedulerTable] in Hr. rewrite Hlease in Hr. cbn in Hr. unfold cell_acquire in Hr.
    destruct (row_view _ _ _ _ _) as [[u d]|]; [destruct (u <=? now (en_world e)); [|done]|]; cbn in Hr; congruence. }
  unfold runChecks, processCheckBatches.
  pose proof (batch_loop_deadline cc_telemetry_pk (can_start now (now (en_world e) + RUN_WORK_BUDGET_MS)) (process scheduledAt)
    (fun e => now (en_world e)) maximumDuration (now (en_world e) + RUN_WORK_BUDGET_MS)) as H.
  rewrite Hl. etransitivity.
  - apply Z.add_le_mono_r. apply H; [|exact Hbatch]. intros b e1. unfold can_start. by intros ?%Z.leb_le.
  - unfold RUN_WORK_BUDGET_MS, SCHEDULER_LEASE_MS. lia.
Qed.
End RunProofs.

(** ** A recorded run *)

Definition worker_sample_check : check_row :=
  CheckRow "chk" 7 "w" "s" KTcp cloudflare 1 4 60 0 5000 1 1
    (json_stringify (OObj [("hostname", OStr "a.example"); ("port", OInt 80)])) "{}" 1 1 0.
Definition worker_sample_control : sync_control :=
  SyncControl [WorkspaceRow "w" "w" 1 "private" 10 None] [ServiceConfig "s" 2 "w" None None] [worker_sample_check] [].
Definition worker_sample_env : @env Z :=
  Env [] worker_sample_control [] [] [] empty_db 1700000041000.
Definition worker_sample_row : CheckConfigRow :=
  CheckConfig "chk" 7 1 "w" 2 None 4 KTcp 60 0 5000 1 1 (ck_request worker_sample_check) "{}" 1 1 0.
Definition worker_sample_process (up : bool) : Z -> CheckConfigRow -> @env Z -> res unit * @env Z :=
  processCheck (fun w => w) sample_fetch (fun _ w => w) (fun _ _ _ w => (Ok (Socket (5, Ok tt) (0, Ok tt) []), w)) Z.add
    (fun _ => up) "" (fun e => e).
Definition worker_sample_run : Z -> @env Z -> res unit * @env Z :=
  runScheduled (fun w => w) sample_fetch (fun _ w => w) (fun _ _ _ w => (Ok (Socket (5, Ok tt) (0, Ok tt) []), w)) Z.add
    (fun _ => true) "" (fun e => e).
Definition worker_sample_after : @env Z := (worker_sample_process true 1700000041000 worker_sample_row worker_sample_env).2.

Lemma worker_sample_unique : keys_unique check_key (sy_checks worker_sample_control).
Proof. apply (bool_decide_unpack _). vm_compute. exact I. Qed.
Lemma worker_sample_processed :
  worker_sample_process true 1700000041000 worker_sample_row worker_sample_env = (Ok tt, worker_sample_after).
Proof. vm_compute. reflexivity. Qed.
Lemma worker_sample_found : find_key check_key "chk" (sy_checks worker_sample_control) = Some worker_sample_check.
Proof. vm_compute. reflexivity. Qed.
Lemma worker_sample_same : same_config worker_sample_row worker_sample_check = true.
Proof. vm_compute. reflexivity. Qed.
Lemma worker_sample_due : (0 <? dueSlot 1700000041000 60 0) = true.
Proof. vm_compute. reflexivity. Qed.

Example processCheck_exactly_once_witness :
  worker_sample_process true 1700000041000 worker_sample_row worker_sample_after = (Ok tt, worker_sample_after).
Proof.
  pose proof (processCheck_exactly_once (fun w => w) sample_fetch (fun _ w => w)
    (fun _ _ _ w => (Ok (Socket (5, Ok tt) (0, Ok tt) []), w)) Z.add (fun _ => true) ""
    1700000041000 worker_sample_row worker_sample_env worker_sample_check
    worker_sample_unique worker_sample_found worker_sample_same eq_refl eq_refl) as H.
  cbv zeta in H. change (processCheck _ _ _ _ _ _ _ _ 1700000041000 worker_sample_row worker_sample_env)
    with (worker_sample_process true 1700000041000 worker_sample_row worker_sample_env) in H.
  rewrite worker_sample_processed in H. change (cc_last_claimed_slot worker_sample_row) with 0 in H.
  change (cc_interval_seconds worker_sample_row) with 60 in H. change (cc_phase_seconds worker_sample_row) with 0 in H.
  rewrite worker_sample_due in H. destruct (execute_check _ _ _ _ _ _ _ _) as [result w] in H.
  destruct H as (_ & _ & _ & _ & H). exact H.
Defined.

Lemma worker_sample_ran : (worker_sample_run 1700000041000 worker_sample_env).1 = Ok tt.
Proof. vm_compute. reflexivity. Qed.
Example runScheduled_releases_witness :
  (worker_sample_run 1700000041000 worker_sample_env).1 = Ok tt /\
  exists cursors, lease_view tt (en_scheduler (worker_sample_run 1700000041000 worker_sample_env).2) = Some (0, cursors).
Proof.
  split; [exact worker_sample_ran|].
  pose proof (runScheduled_releases (fun w => w) sample_fetch (fun _ w => w)
    (fun _ _ _ w => (Ok (Socket (5, Ok tt) (0, Ok tt) []), w)) Z.add (fun _ => true) "" (fun e => e)
    (fun _ => eq_refl) 1700000041000 worker_sample_env ltac:(apply NoDup_nil_2)) as H.
  change (runScheduled _ _ _ _ _ _ _ _ 1700000041000 worker_sample_env)
    with (worker_sample_run 1700000041000 worker_sample_env) in H.
  destruct (worker_sample_run 1700000041000 worker_sample_env) as [r e]. exact H.
Defined.
