(* ===== verification/Notifications.v ===== *)
(** * Notifications: what is sent, and to whom

    The tables of the notification outbox and [workers/notifications/src/providers.ts]: the
    message of an event, the request a provider wants and what its answer means. *)

From Stdlib Require Import ZArith Lia Bool String Ascii List.
From stdpp Require Import base tactics sets list strings.
From S2P Require Import Prelude.
From S2P Require Import Js.
From S2P Require Import JsString.
From S2P Require Import Web.
Open Scope string_scope.
Open Scope Z_scope.

(* @src workers/notifications/src/types.ts 1-1 NotificationProvider *)
Inductive NotificationProvider := Resend | Smtp | Discord | Telegram | Slack | Bark.
#[export] Instance provider_eq_dec : EqDecision NotificationProvider. Proof. solve_decision. Defined.
(* @src workers/notifications/src/types.ts 3-3 NotificationDimension *)
Inductive NotificationDimension := Availability | Resource | Recovery.
#[export] Instance dimension_eq_dec : EqDecision NotificationDimension. Proof. solve_decision. Defined.
Definition dimension_name (d : NotificationDimension) : string :=
  match d with Availability => "availability" | Resource => "resource" | Recovery => "recovery" end.
(* @src workers/notifications/src/types.ts DeliveryResult *)
Record DeliveryResult := Delivery {
  de_ok : bool;
  de_retryable : bool;
  de_status : option Z;
  de_error : option string;
}.

(** ** Dates: [new Date(ms).toISOString()] *)

(** The civil date of a day count from 1970-01-01: years of 400 begin in March. *)
Definition civil_of_days (days : Z) : Z * Z * Z :=
  let z := days + 719468 in
  let era := z / 146097 in
  let doe := z mod 146097 in
  let yoe := (doe - doe / 1460 + doe / 36524 - doe / 146096) / 365 in
  let doy := doe - (365 * yoe + yoe / 4 - yoe / 100) in
  let mp := (5 * doy + 2) / 153 in
  let month := if mp <? 10 then mp + 3 else mp - 9 in
  (yoe + era * 400 + (if month <=? 2 then 1 else 0), month, doy - (153 * mp + 2) / 5 + 1).
(** [n] with at least [width] digits. *)
Definition padded (width : nat) (n : Z) : string :=
  let digits := nat_to_string n in zeros (width - String.length digits) ++ digits.
Definition iso_year (y : Z) : string :=
  if (0 <=? y) && (y <=? 9999) then padded 4 y else (if y <? 0 then "-" else "+") ++ padded 6 (Z.abs y).
Definition MAX_TIME : Z := 8640000000000000.
Definition to_iso (ms : Z) : res string :=
  throw_if MAX_TIME <? Z.abs ms as "Invalid time value" in
  let '(y, m, d) := civil_of_days (ms / 86400000) in
  let t := ms mod 86400000 in
  Ok (iso_year y ++ "-" ++ padded 2 m ++ "-" ++ padded 2 d ++ "T" ++ padded 2 (t / 3600000) ++ ":" ++
      padded 2 (t / 60000 mod 60) ++ ":" ++ padded 2 (t / 1000 mod 60) ++ "." ++ padded 3 (t mod 1000) ++ "Z").
(** [new Date(value)] of a JSON value; a string would go through [Date.parse] and counts as
    invalid here: the payloads that discovery writes hold numbers. *)
Definition date_of (value : option json) : option Z :=
  match value with
  | Some (JNum n) => num_int n
  | Some JNull => Some 0
  | Some (JBool b) => Some (if b then 1 else 0)
  | _ => None
  end.

(** ** The message *)

(** [payload.key] in a template literal; the payload is whatever [JSON.parse] returned. *)
Definition field_of (payload : json) (key : string) : option json :=
  match payload with JObj l => obj_get key l | _ => None end.
Definition shown (payload : json) (key : string) : string :=
  match field_of payload key with Some v => js_string v | None => "undefined" end.
Definition newline : string := String (chr 10) "".

(* @src workers/notifications/src/providers.ts message *)
Definition message (payload : json) : res (string * string) :=
  throw_if match payload with JNull => true | _ => false end as "TypeError" in
  let subject := "[AlphaPing] " ++ shown payload "resourceName" ++ ": " ++ shown payload "currentState" in
  match date_of (field_of payload "occurredAt") with
  | None => Err "Invalid time value"
  | Some ms =>
      let* time := to_iso ms in
      Ok (subject, str_join newline [
        (if is_str "machine" (field_of payload "resourceType") then "Machine" else "Service") ++ ": " ++ shown payload "resourceName";
        "Workspace: " ++ shown payload "workspace";
        "State: " ++ shown payload "previousState" ++ " -> " ++ shown payload "currentState";
        "Dimension: " ++ shown payload "dimension";
        "Reason: " ++ shown payload "reasonCode";
        "Time: " ++ time])
  end.

(* @src workers/notifications/src/providers.ts escapeHtml *)
Definition escapeHtml (value : string) : string :=
  str_flat_map (fun c =>
    if Ascii.eqb c "&" then "&amp;" else if Ascii.eqb c "<" then "&lt;" else if Ascii.eqb c ">" then "&gt;"
    else if Ascii.eqb c quote then "&quot;" else if Ascii.eqb c "'" then "&#39;" else String c "") value.
(** ** Configurations *)

(* @src workers/notifications/src/providers.ts requiredString *)
Definition requiredString (config : props) (key : string) : res string :=
  match obj_get key config with
  | Some (JStr value) => throw_if String.eqb (trim value) "" as "invalid_notification_config:" ++ key in Ok (trim value)
  | _ => Err ("invalid_notification_config:" ++ key)
  end.
(* @src workers/notifications/src/providers.ts optionalString *)
Definition optionalString (config : props) (key : string) : res (option string) :=
  match obj_get key config with
  | None | Some JNull => Ok None
  | Some (JStr value) => Ok (if String.eqb value "" then None else Some (trim value))
  | Some _ => Err ("invalid_notification_config:" ++ key)
  end.
Definition recipient (v : json) : option string :=
  match v with JStr s => if includes "@" s then Some (trim s) else None | _ => None end.
(* @src workers/notifications/src/providers.ts recipients *)
Definition recipients (config : props) : res (list string) :=
  match obj_get "recipients" config with
  | Some (JArr value) =>
      throw_if (length value =? 0)%nat || (20 <? length value)%nat as "invalid_notification_config:recipients" in
      match mapM recipient value with Some l => Ok l | None => Err "invalid_notification_config:recipients" end
  | _ => Err "invalid_notification_config:recipients"
  end.

(** [url.pathname] and its setter, with the parts it leaves alone. *)
Class UrlPath `{UA : UrlApi} := {
  pathname : url -> string;
  set_pathname : string -> url -> url;
  set_pathname_protocol p u : protocol (set_pathname p u) = protocol u;
  set_pathname_username p u : username (set_pathname p u) = username u;
  set_pathname_password p u : password (set_pathname p u) = password u;
  set_pathname_hostname p u : hostname (set_pathname p u) = hostname u;
}.

(* @src workers/notifications/src/providers.ts RequestTarget *)
Record RequestTarget := Target {
  ta_url : string;
  ta_headers : list (string * string);
  ta_body : string;
}.

Section Providers.
Context `{UA : UrlApi} `{UP : !UrlPath}.

(* @src workers/notifications/src/providers.ts httpsUrl *)
Definition httpsUrl (value : string) (allowedHost : option (string -> string -> bool)) : res url :=
  let* u := url_parse value None in
  throw_if negb (String.eqb (protocol u) "https:") || negb (String.eqb (username u) "") ||
           negb (String.eqb (password u) "") ||
           match allowedHost with Some f => negb (f (to_lower (hostname u)) (pathname u)) | None => false end
    as "invalid_notification_config:url" in
  Ok u.

(* @src workers/notifications/src/providers.ts jsonRequest *)
Definition jsonRequest (url : string) (body : list (string * jout)) (headers : list (string * string)) : RequestTarget :=
  Target url (("content-type", "application/json") :: headers) (json_stringify (OObj body)).

Definition discord_url (host path : string) : bool :=
  (String.eqb host "discord.com" || String.eqb host "discordapp.com") && starts_with "/api/webhooks/" path.
Definition slack_url (host path : string) : bool := String.eqb host "hooks.slack.com" && starts_with "/services/" path.

(** The regular expression of a bot token: digits, a colon, twenty or more of [A-Za-z0-9_-]. *)
Definition is_token_tail (c : ascii) : bool :=
  is_digit c || is_upper c || is_lower c || Ascii.eqb c "_" || Ascii.eqb c "-".
Definition is_bot_token (s : string) : bool :=
  match split_on ":" s with
  | [bot; key] => negb (String.eqb bot "") && str_forall is_digit bot && (20 <=? slen key) && str_forall is_token_tail key
  | _ => false
  end.
(** [value.replace(/\/$/, ...)] *)
Definition drop_slash (s : string) : string :=
  if ends_with "/" s then str_take (String.length s - 1) s else s.
Definition html_of (text : string) : string :=
  "<pre style=" ++ String quote "font:14px/1.55 ui-monospace,monospace" ++ String quote ">" ++ escapeHtml text ++ "</pre>".
Definition mail_body (from : string) (to : list string) (subject text : string) : list (string * jout) :=
  [("from", OStr from); ("to", OArr (map OStr to)); ("subject", OStr subject); ("text", OStr text); ("html", OStr (html_of text))].

(* @src workers/notifications/src/providers.ts buildRequest *)
Definition buildRequest (provider : NotificationProvider) (config : props) (payload : json) : res RequestTarget :=
  let* '(subject, text) := message payload in
  match provider with
  | Resend =>
      let* replyTo := optionalString config "replyTo" in
      let* from := requiredString config "from" in
      let* to := recipients config in
      let* apiKey := requiredString config "apiKey" in
      Ok (jsonRequest "https://api.resend.com/emails"
            (mail_body from to subject text ++
             match replyTo with Some r => if String.eqb r "" then [] else [("reply_to", OStr r)] | None => [] end)%list
            [("authorization", "Bearer " ++ apiKey)])
  | Smtp =>
      let* relay := requiredString config "relayUrl" in
      let* relayUrl := httpsUrl relay None in
      let* token := optionalString config "relayToken" in
      let* from := requiredString config "from" in
      let* to := recipients config in
      Ok (jsonRequest (href relayUrl) (mail_body from to subject text)
            match token with Some t => if String.eqb t "" then [] else [("authorization", "Bearer " ++ t)] | None => [] end)
  | Discord =>
      let* hook := requiredString config "webhookUrl" in
      let* webhook := httpsUrl hook (Some discord_url) in
      Ok (jsonRequest (href webhook) [("content", OStr (str_slice0 2000 (subject ++ newline ++ newline ++ text)))] [])
  | Slack =>
      let* hook := requiredString config "webhookUrl" in
      let* webhook := httpsUrl hook (Some slack_url) in
      Ok (jsonRequest (href webhook) [("text", OStr (str_slice0 4000 ("*" ++ subject ++ "*" ++ newline ++ text)))] [])
  | Telegram =>
      let* botToken := requiredString config "botToken" in
      throw_if negb (is_bot_token botToken) as "invalid_notification_config:botToken" in
      let* chatId := requiredString config "chatId" in
      Ok (jsonRequest ("https://api.telegram.org/bot" ++ botToken ++ "/sendMessage")
            [("chat_id", OStr chatId); ("text", OStr (str_slice0 4096 (subject ++ newline ++ newline ++ text)));
             ("disable_web_page_preview", OBool true)] [])
  | Bark =>
      let* configured := optionalString config "endpoint" in
      let* endpoint := httpsUrl (coalesce configured "https://api.day.app") None in
      let* deviceKey := requiredString config "deviceKey" in
      let target := set_pathname (drop_slash (pathname endpoint) ++ "/" ++ encodeURIComponent deviceKey) endpoint in
      let* group := optionalString config "group" in
      Ok (jsonRequest (href target)
            [("title", OStr subject); ("body", OStr text); ("group", OStr (coalesce group "AlphaPing")); ("isArchive", OStr "1")] [])
  end.

(** ** Answers *)

Definition response_ok (r : response) : bool := (200 <=? rs_status r) && (rs_status r <=? 299).
(* @src workers/notifications/src/providers.ts resultForResponse *)
Definition resultForResponse (r : response) : DeliveryResult :=
  let retryable := (rs_status r =? 408) || (rs_status r =? 429) || (500 <=? rs_status r) in
  Delivery (response_ok r) retryable (Some (rs_status r))
    (if response_ok r then None else if retryable then Some "provider_temporarily_unavailable" else Some "provider_rejected").

(** The exchange with the provider: [fetcher] sends the request without following redirects
    ([AbortError] when ten seconds are over), [cancel] gives up the body. *)
Context {W : Type} (fetcher : RequestTarget -> W -> res response * W) (cancel : response -> W -> res unit * W).

(* @src workers/notifications/src/providers.ts sendNotification *)
Definition sendNotification (provider : NotificationProvider) (config : props) (payload : json) (w : W)
  : DeliveryResult * W :=
  match buildRequest provider config payload with
  | Err cause => (Delivery false false None (Some (str_slice0 160 cause)), w)
  | Ok target =>
      let failed cause :=
        Delivery false true None
          (Some (if String.eqb cause "AbortError" then "provider_timeout" else "provider_network_error")) in
      match fetcher target w with
      | (Err cause, w') => (failed cause, w')
      | (Ok r, w') =>
          match cancel r w' with
          | (Err cause, w'') => (failed cause, w'')
          | (Ok _, w'') => (resultForResponse r, w'')
          end
      end
  end.
End Providers.

Example to_iso_samples :
  map to_iso [0; 1700000000123; -1; 951782400000; 253402300800000; -62198755200000; 8640000000000001] =
  [Ok "1970-01-01T00:00:00.000Z"; Ok "2023-11-14T22:13:20.123Z"; Ok "1969-12-31T23:59:59.999Z";
   Ok "2000-02-29T00:00:00.000Z"; Ok "+010000-01-01T00:00:00.000Z"; Ok "-000001-01-01T00:00:00.000Z"; Err "Invalid time value"].
Proof. vm_compute. reflexivity. Qed.

(** ** Where a notification may go *)

Section ProviderProofs.
Context `{UA : UrlApi} `{UP : !UrlPath}.

(** Over TLS, to the provider's own host, with no credentials in the address. *)
Definition clean_https (u : url) : Prop := protocol u = "https:" /\ username u = "" /\ password u = "".
Definition confined (provider : NotificationProvider) (target : string) : Prop :=
  match provider with
  | Resend => target = "https://api.resend.com/emails"
  | Telegram => exists token, is_bot_token token = true /\ target = "https://api.telegram.org/bot" ++ token ++ "/sendMessage"
  | Discord => exists u, target = href u /\ clean_https u /\ discord_url (to_lower (hostname u)) (pathname u) = true
  | Slack => exists u, target = href u /\ clean_https u /\ slack_url (to_lower (hostname u)) (pathname u) = true
  | Smtp | Bark => exists u, target = href u /\ clean_https u
  end.

Lemma httpsUrl_clean value f u : httpsUrl value f = Ok u ->
  clean_https u /\ match f with Some f => f (to_lower (hostname u)) (pathname u) = true | None => True end.
Proof.
  unfold httpsUrl, clean_https. intros H. apply rbind_ok in H as (u' & _ & H).
  destruct (_ || _) eqn:E; [done|]. apply Ok_inj in H as <-. bool_hyps. split; [done|].
  destruct f; by bool_hyps.
Qed.

Lemma set_pathname_clean p u : clean_https u -> clean_https (set_pathname p u).
Proof. unfold clean_https. by rewrite set_pathname_protocol, set_pathname_username, set_pathname_password. Qed.

(** Every request is a JSON document sent to the place its provider is confined to, whatever the
    stored configuration holds; a bearer token is only added for the two mail providers, and it
    is the configured one. *)
Theorem notifications_confined provider config payload t
  (Ht : buildRequest provider config payload = Ok t) :
  confined provider (ta_url t) /\
  (exists body, ta_body t = json_stringify (OObj body)) /\
  (ta_headers t = [("content-type", "application/json")] \/
   exists key token, ta_headers t = [("content-type", "application/json"); ("authorization", "Bearer " ++ token)] /\
     (provider = Resend /\ key = "apiKey" \/ provider = Smtp /\ key = "relayToken") /\
     exists value, obj_get key config = Some (JStr value) /\ token = trim value).
Proof.
  unfold buildRequest in Ht. apply rbind_ok in Ht as ([subject text] & _ & Ht).
  assert (Hreq : forall key v, requiredString config key = Ok v ->
    exists value, obj_get key config = Some (JStr value) /\ v = trim value).
  { intros key v. unfold requiredString. destruct (obj_get key config) as [[]|]; try done.
    destruct (String.eqb _ _); [done|]. intros <-%Ok_inj. by eexists. }
  assert (Hopt : forall key v, optionalString config key = Ok (Some v) ->
    exists value, obj_get key config = Some (JStr value) /\ v = trim value).
  { intros key v. unfold optionalString. destruct (obj_get key config) as [[]|]; try done.
    destruct (String.eqb _ _); [done|]. intros [= <-]. by eexists. }
  destruct provider; cbn [confined].
  - apply rbind_ok in Ht as (replyTo & _ & Ht). apply rbind_ok in Ht as (from & _ & Ht). apply rbind_ok in Ht as (to & _ & Ht).
    apply rbind_ok in Ht as (apiKey & Hk & Ht). apply Ok_inj in Ht as <-. cbn [ta_url ta_headers ta_body jsonRequest].
    split; [done|]. split; [by eexists|]. right. exists "apiKey", apiKey. split_and!; [done | by left | by apply Hreq].
  - apply rbind_ok in Ht as (relay & _ & Ht). apply rbind_ok in Ht as (u & Hu & Ht). apply rbind_ok in Ht as (token & Hk & Ht).
    apply rbind_ok in Ht as (from & _ & Ht). apply rbind_ok in Ht as (to & _ & Ht). apply Ok_inj in Ht as <-.
    cbn [ta_url ta_headers ta_body jsonRequest]. apply httpsUrl_clean in Hu as [Hu _]. split; [by eexists|]. split; [by eexists|].
    destruct token as [t|]; [|by left]. destruct (String.eqb t "") eqn:E; [by left|]. right.
    exists "relayToken", t. split_and!; [done | by right | by apply Hopt].
  - apply rbind_ok in Ht as (hook & _ & Ht). apply rbind_ok in Ht as (u & Hu & Ht). apply Ok_inj in Ht as <-.
    cbn [ta_url ta_headers ta_body jsonRequest]. apply httpsUrl_clean in Hu as [Hu Hf].
    split; [by exists u|]. split; [by eexists | by left].
  - apply rbind_ok in Ht as (token & _ & Ht). destruct (negb _) eqn:E; [done|]. apply rbind_ok in Ht as (chat & _ & Ht).
    apply Ok_inj in Ht as <-. cbn [ta_url ta_headers ta_body jsonRequest]. bool_hyps.
    split; [by exists token|]. split; [by eexists | by left].
  - apply rbind_ok in Ht as (hook & _ & Ht). apply rbind_ok in Ht as (u & Hu & Ht). apply Ok_inj in Ht as <-.
    cbn [ta_url ta_headers ta_body jsonRequest]. apply httpsUrl_clean in Hu as [Hu Hf].
    split; [by exists u|]. split; [by eexists | by left].
  - apply rbind_ok in Ht as (endpoint & _ & Ht). apply rbind_ok in Ht as (u & Hu & Ht). apply rbind_ok in Ht as (key & _ & Ht).
    apply rbind_ok in Ht as (group & _ & Ht). apply Ok_inj in Ht as <-. cbn [ta_url ta_headers ta_body jsonRequest].
    apply httpsUrl_clean in Hu as [Hu _]. split; [|split; [by eexists | by left]].
    eexists. split; [done|]. by apply set_pathname_clean.
Qed.

Context {W : Type} (fetcher : RequestTarget -> W -> res response * W) (cancel : response -> W -> res unit * W).

(** [sendNotification] has an answer whatever happens: a success is a 2xx answer; a failure is
    permanent exactly when the configuration cannot be used (and then nothing is sent) or the
    provider refused; everything else may be tried again. *)
Theorem sendNotification_total provider config payload w :
  let '(result, w') := sendNotification fetcher cancel provider config payload w in
  match buildRequest provider config payload with
  | Err _ => w' = w /\ de_ok result = false /\ de_retryable result = false
  | Ok target =>
      match fetcher target w with
      | (Err _, _) => de_ok result = false /\ de_retryable result = true /\ de_status result = None
      | (Ok r, w1) =>
          match (cancel r w1).1 with
          | Err _ => de_ok result = false /\ de_retryable result = true
          | Ok _ => de_ok result = response_ok r /\ de_status result = Some (rs_status r) /\
              (de_ok result = true -> de_error result = None) /\
              (de_ok result = false -> (de_retryable result = true <-> rs_status r = 408 \/ rs_status r = 429 \/ 500 <= rs_status r))
          end
      end
  end.
Proof.
  unfold sendNotification. destruct (buildRequest provider config payload) as [target|e]; [|done].
  destruct (fetcher target w) as [[r|e] w1]; [|done]. destruct (cancel r w1) as [[[]|e] w2]; cbn [fst]; [|done].
  unfold resultForResponse. cbn [de_ok de_retryable de_status de_error]. split_and!; try done; [by intros ->|].
  intros _. rewrite !orb_true_iff, !Z.eqb_eq, Z.leb_le. tauto.
Qed.
End ProviderProofs.

#[export] Instance ToyPaths : UrlPath := {|
  pathname := tu_path;
  set_pathname := fun p u => ToyUrl (tu_scheme u) (tu_host u) p;
  set_pathname_protocol := fun _ _ => eq_refl;
  set_pathname_username := fun _ _ => eq_refl;
  set_pathname_password := fun _ _ => eq_refl;
  set_pathname_hostname := fun _ _ => eq_refl;
|}.
Definition sample_payload : json :=
  json_of (OObj [("workspace", OStr "Operations"); ("resourceType", OStr "machine"); ("resourceName", OStr "db-1");
                 ("dimension", OStr "availability"); ("previousState", OStr "healthy"); ("currentState", OStr "offline");
                 ("reasonCode", OStr "report_timeout"); ("occurredAt", OInt 1700000000000)]).
Definition sample_slack : props := [("webhookUrl", JStr "https://hooks.slack.com/services/T/B/fixture")].
Definition sample_target : RequestTarget :=
  match buildRequest Slack sample_slack sample_payload with Ok t => t | Err _ => Target "" [] "" end.
Lemma sample_target_built : buildRequest Slack sample_slack sample_payload = Ok sample_target.
Proof. vm_compute. reflexivity. Qed.
Example notifications_confined_witness :
  confined Slack (ta_url sample_target) /\ ta_url sample_target = "https://hooks.slack.com/services/T/B/fixture".
Proof.
  destruct (notifications_confined Slack sample_slack sample_payload sample_target sample_target_built) as (H & _).
  split; [exact H | vm_compute; reflexivity].
Defined.
(** A look-alike host is refused. *)
Example lookalike_refused :
  buildRequest Slack [("webhookUrl", JStr "https://hooks.slack.com.evil.example/services/T/B/x")] sample_payload =
  Err "invalid_notification_config:url".
Proof. vm_compute. reflexivity. Qed.
