(* ===== verification/Outbox.v ===== *)
(** * Outbox: delivering notifications

    Models [workers/notifications/src/outbox.ts]: a delivery is claimed for thirty seconds with
    a fresh token, sent if its channel and rule still allow it, and finished under that token.
    A worker that dies leaves its claim to run out; the delivery is then claimed again, at most
    six times in all.

    [claim_update], [load_claimed] and [finishDelivery] are the three statements; [outbox_step]
    interleaves them for any number of workers. *)

From Stdlib Require Import ZArith Lia Bool String List.
From stdpp Require Import base tactics sets list strings relations.
From S2P Require Import Prelude.
From S2P Require Import Js.
From S2P Require Import Sql.
From S2P Require Import Crypto.
From S2P Require Import Web.
From S2P Require Import Authz.
From S2P Require Import Validation.
From S2P Require Import Envelopes.
From S2P Require Import MachineLiveness.
From S2P Require Import Notifications.
Open Scope string_scope.
Open Scope Z_scope.

(** ** Tables *)

Inductive delivery_state := Pending | Delivering | Sent | Dead.
#[export] Instance delivery_state_eq_dec : EqDecision delivery_state. Proof. solve_decision. Defined.

(** A row of [notification_deliveries]. *)
(* @src packages/db/src/schema/control.ts 493-520 notificationDeliveries *)
Record delivery_row := DeliveryRow {
  dl_id : string;
  dl_workspace : string;
  dl_channel : string;
  dl_source_workspace : Z;
  dl_source_type : Z;
  dl_source_pk : Z;
  dl_source_at : Z;
  dl_source_event : string;
  dl_dimension : NotificationDimension;
  dl_payload : string;
  dl_state : delivery_state;
  dl_attempts : Z;
  dl_next : Z;
  dl_token : option string;
  dl_claim_until : option Z;
  dl_error : option string;
  dl_response : option Z;
  dl_created : Z;
  dl_updated : Z;
  dl_sent : option Z;
}.
(* @src packages/db/src/schema/control.ts 420-437 notificationChannels *)
Record channel_row := ChannelRow {
  ch_id : string;
  ch_workspace : string;
  ch_provider : NotificationProvider;
  ch_ciphertext : list byte;
  ch_nonce : list byte;
  ch_key_id : string;
  ch_enabled : Z;
}.
(* @src packages/db/src/schema/control.ts 449-464 notificationRules *)
Record rule_row := RuleRow {
  ru_workspace : string;
  ru_type : string;
  ru_resource : string;
  ru_dimension : NotificationDimension;
  ru_channel : string;
  ru_enabled : Z;
}.
(** The columns of [machines] and [services] that notifications use. *)
Record resource_row := ResourceRow {
  rs_id : string;
  rs_pk : Z;
  rs_name : string;
  rs_workspace : string;
  rs_deleted : option Z;
}.
(** A workspace of [Authz] has no name there; notifications show it. *)
Record notification_db := NotificationDb {
  nt_workspaces : list (workspace_row * string);
  nt_machines : list resource_row;
  nt_services : list resource_row;
  nt_channels : list channel_row;
  nt_rules : list rule_row;
}.

(* @src workers/notifications/src/outbox.ts 6-9 DELIVERY_LIMIT *)
Definition DELIVERY_LIMIT : Z := 50.
Definition CONCURRENCY : nat := 5.
Definition CLAIM_MS : Z := 30000.
Definition MAX_ATTEMPTS : Z := 6.

(* @src workers/notifications/src/outbox.ts retryDelayMs *)
Definition retryDelayMs (attempt : Z) : Z := Z.min (60 * 60000) (60000 * 2 ^ Z.max 0 (attempt - 1)).

(** ** The claim *)

(** [(state = 'pending' AND next_attempt_at <= ?) OR (state = 'delivering' AND claim_until <= ?)] *)
Definition claimable (now : Z) (d : delivery_row) : bool :=
  match dl_state d with
  | Pending => dl_next d <=? now
  | Delivering => match dl_claim_until d with Some u => u <=? now | None => false end
  | Sent | Dead => false
  end.
Definition claimed (token : string) (now : Z) (d : delivery_row) : delivery_row :=
  let exhausted := MAX_ATTEMPTS <=? dl_attempts d in
  DeliveryRow (dl_id d) (dl_workspace d) (dl_channel d) (dl_source_workspace d) (dl_source_type d) (dl_source_pk d)
    (dl_source_at d) (dl_source_event d) (dl_dimension d) (dl_payload d)
    (if exhausted then Dead else Delivering)
    (Z.min (dl_attempts d + 1) MAX_ATTEMPTS) (dl_next d)
    (if exhausted then None else Some token)
    (if exhausted then None else Some (now + CLAIM_MS))
    (if exhausted then Some "notification_attempts_exhausted" else dl_error d)
    (dl_response d) (dl_created d) now (dl_sent d).
(* @src workers/notifications/src/outbox.ts 39-54 claimDelivery *)
Definition claim_update (id token : string) (now : Z) (db : list delivery_row) : list delivery_row * Z :=
  update_where (fun d => key_is dl_id id d && claimable now d) (claimed token now) db.

(* @src workers/notifications/src/outbox.ts ClaimedDelivery *)
Record ClaimedDelivery := Claimed {
  cd_id : string;
  cd_workspace_id : string;
  cd_channel_id : string;
  cd_payload_json : string;
  cd_attempt_count : Z;
  cd_channel : option channel_row;
  cd_rule_available : bool;
}.

(** The joined machine or service of a delivery. *)
Definition source_resource (table : list resource_row) (d : delivery_row) : option resource_row :=
  List.find (fun r => (rs_pk r =? dl_source_pk d) && String.eqb (rs_workspace r) (dl_workspace d) && is_null (rs_deleted r)) table.
Definition source_name (d : delivery_row) : string := if dl_source_type d =? 1 then "machine" else "service".
Definition source_id (db : notification_db) (d : delivery_row) : option string :=
  if dl_source_type d =? 1 then rs_id <$> source_resource (nt_machines db) d
  else if dl_source_type d =? 2 then rs_id <$> source_resource (nt_services db) d else None.
(* @src workers/notifications/src/outbox.ts 62-74 claimDelivery *)
Definition rule_available (db : notification_db) (d : delivery_row) : bool :=
  match source_id db d with
  | None => false
  | Some id =>
      existsb (fun rule =>
        String.eqb (ru_workspace rule) (dl_workspace d) &&
        existsb (fun w => String.eqb (ws_id w.1) (ru_workspace rule) && (ws_pk w.1 =? dl_source_workspace d) &&
                          is_null (ws_deleted w.1)) (nt_workspaces db) &&
        String.eqb (ru_channel rule) (dl_channel d) && bool_decide (ru_dimension rule = dl_dimension d) &&
        (ru_enabled rule =? 1) && String.eqb (ru_type rule) (source_name d) && String.eqb (ru_resource rule) id)
        (nt_rules db)
  end.
(** The channel, if it still exists in the delivery's workspace. *)
Definition channel_of (db : notification_db) (d : delivery_row) : option channel_row :=
  List.find (fun c => String.eqb (ch_id c) (dl_channel d) && String.eqb (ch_workspace c) (dl_workspace d)) (nt_channels db).
(* @src workers/notifications/src/outbox.ts 56-88 claimDelivery *)
Definition load_claimed (db : notification_db) (id token : string) (deliveries : list delivery_row) : option ClaimedDelivery :=
  match List.find (fun d => String.eqb (dl_id d) id && bool_decide (dl_token d = Some token)) deliveries with
  | None => None
  | Some d =>
      Some (Claimed (dl_id d) (dl_workspace d) (dl_channel d) (dl_payload d) (dl_attempts d)
              (channel_of db d)
              (rule_available db d))
  end.
(* @src workers/notifications/src/outbox.ts claimDelivery *)
Definition claimDelivery (db : notification_db) (id token : string) (now : Z) (deliveries : list delivery_row)
  : option ClaimedDelivery * list delivery_row :=
  let '(deliveries', changes) := claim_update id token now deliveries in
  (if negb (changes =? 1) then None else load_claimed db id token deliveries', deliveries').

(** ** The end of an attempt *)

Definition finished_state (attempt_count : Z) (result : DeliveryResult) : delivery_state :=
  if de_ok result then Sent
  else if negb (de_retryable result) || (MAX_ATTEMPTS <=? attempt_count) then Dead else Pending.
Definition finished (attempt_count : Z) (result : DeliveryResult) (now : Z) (d : delivery_row) : delivery_row :=
  let state := finished_state attempt_count result in
  DeliveryRow (dl_id d) (dl_workspace d) (dl_channel d) (dl_source_workspace d) (dl_source_type d) (dl_source_pk d)
    (dl_source_at d) (dl_source_event d) (dl_dimension d) (dl_payload d) state (dl_attempts d)
    (if bool_decide (state = Pending) then now + retryDelayMs attempt_count else 0) None None
    (str_slice0 160 <$> de_error result) (de_status result) (dl_created d) now (if de_ok result then Some now else None).
(* @src workers/notifications/src/outbox.ts finishDelivery *)
Definition finishDelivery (id token : string) (attempt_count : Z) (result : DeliveryResult) (now : Z) (deliveries : list delivery_row)
  : list delivery_row :=
  (update_where (fun d => key_is dl_id id d && (bool_decide (dl_state d = Delivering) && bool_decide (dl_token d = Some token)))
     (finished attempt_count result now) deliveries).1.

(** ** One delivery *)

(* @src workers/notifications/src/outbox.ts unavailableResult *)
Definition unavailableResult (error : string) (retryable : bool) : DeliveryResult :=
  Delivery false retryable None (Some error).

Inductive outcome := OSent | OFailed | OSkipped.
#[export] Instance outcome_eq_dec : EqDecision outcome. Proof. solve_decision. Defined.

Section Deliver.
Context `{WC : WebCrypto} `{UA : UrlApi} `{UP : !UrlPath}.
Context {W : Type} (now : W -> Z) (fetcher : RequestTarget -> W -> res response * W)
  (cancel : response -> W -> res unit * W) (randomUUID : W -> string * W) (wrappingKey : string).

(** Everything between the claim and its end. *)
(* @src workers/notifications/src/outbox.ts 133-158 deliverOne *)
Definition attempt (row : ClaimedDelivery) (w : W) : DeliveryResult * W :=
  match cd_channel row with
  | None => (unavailableResult "notification_channel_unavailable" false, w)
  | Some channel =>
      if negb (ch_enabled channel =? 1) || negb (String.eqb (ch_key_id channel) "v1")
      then (unavailableResult "notification_channel_unavailable" false, w)
      else if negb (cd_rule_available row) then (unavailableResult "notification_rule_unavailable" false, w)
      else
        match (let* config := unwrapNotificationConfig (MkWrapped (ch_ciphertext channel) (ch_nonce channel)) wrappingKey
                                (cd_workspace_id row) (cd_channel_id row) in
               let* payload := json_parse (cd_payload_json row) in Ok (config, payload)) with
        | Err _ => (unavailableResult "notification_config_unavailable" true, w)
        | Ok (config, payload) => sendNotification fetcher cancel (ch_provider channel) config payload w
        end
  end.

(** The outbox, what deliveries read, and the world; [meanwhile] is what others do to the outbox
    while a request is under way. *)
Context (meanwhile : list delivery_row -> list delivery_row).
Definition outbox : Type := list delivery_row * W.

(* @src workers/notifications/src/outbox.ts deliverOne *)
Definition deliverOne (db : notification_db) (at_ : Z) (id : string) (s : outbox) : outcome * outbox :=
  let '(token, w0) := randomUUID s.2 in
  let '(row, deliveries) := claimDelivery db id token at_ s.1 in
  match row with
  | None => (OSkipped, (deliveries, w0))
  | Some row =>
      let '(result, w) := attempt row w0 in
      (if de_ok result then OSent else OFailed,
       (finishDelivery (cd_id row) token (cd_attempt_count row) result (now w) (meanwhile deliveries), w))
  end.

(** [ORDER BY next_attempt_at, created_at, id] *)
Definition delivery_leb (a b : delivery_row) : bool :=
  if dl_next a =? dl_next b then
    if dl_created a =? dl_created b then String.leb (dl_id a) (dl_id b) else dl_created a <? dl_created b
  else dl_next a <? dl_next b.
Definition candidates (at_ : Z) (deliveries : list delivery_row) : list string :=
  map dl_id (order_limit delivery_leb DELIVERY_LIMIT (List.filter (claimable at_) deliveries)).

Definition deliver_step (db : notification_db) (at_ : Z) (acc : list outcome * outbox) (id : string) : list outcome * outbox :=
  let '(o, s) := deliverOne db at_ id acc.2 in ((acc.1 ++ [o])%list, s).
Definition deliver_batch (db : notification_db) (acc : list outcome * outbox) (batch : list string) : list outcome * outbox :=
  fold_left (deliver_step db (now acc.2.2)) batch acc.
(* @src workers/notifications/src/outbox.ts DeliveryBatchResult *)
Record DeliveryBatchResult := BatchResult { br_attempted : Z; br_sent : Z; br_failed : Z }.
(* @src workers/notifications/src/outbox.ts deliverNotificationOutbox *)
Definition deliverNotificationOutbox (db : notification_db) (at_ : Z) (s : outbox) : DeliveryBatchResult * outbox :=
  let '(outcomes, s') := fold_left (deliver_batch db) (chunks CONCURRENCY (candidates at_ s.1)) ([], s) in
  let sent := count_if (fun o => bool_decide (o = OSent)) outcomes in
  let failed := count_if (fun o => bool_decide (o = OFailed)) outcomes in
  (BatchResult (sent + failed) sent failed, s').
End Deliver.

(** ** What the statements do *)

Definition terminal (d : delivery_row) : Prop := dl_state d = Sent \/ dl_state d = Dead.
(** What every row satisfies. *)
Record delivery_ok (d : delivery_row) : Prop := {
  ok_attempts : 0 <= dl_attempts d <= MAX_ATTEMPTS;
  ok_claim : dl_state d = Delivering <-> is_Some (dl_token d);
  ok_until : dl_state d = Delivering -> is_Some (dl_claim_until d);
}.
Definition deliveries_ok (t : list delivery_row) : Prop := keys_unique dl_id t /\ forall d, d ∈ t -> delivery_ok d.

Lemma claimed_key token at_ d : dl_id (claimed token at_ d) = dl_id d.
Proof. done. Qed.
Lemma finished_key n r at_ d : dl_id (finished n r at_ d) = dl_id d.
Proof. done. Qed.
Lemma terminal_not_claimable at_ d : terminal d -> claimable at_ d = false.
Proof. unfold claimable. by intros [-> | ->]. Qed.
Lemma claimable_attempt at_ d : claimable at_ d = true -> dl_state d = Pending \/ dl_state d = Delivering.
Proof. unfold claimable. destruct (dl_state d); auto; done. Qed.

(** A claim sees one row; it succeeds when the row is due and has attempts left. *)
Lemma claimDelivery_spec db id token at_ t : deliveries_ok t ->
  let '(row, t') := claimDelivery db id token at_ t in
  keys_unique dl_id t' /\
  (forall k, find_key dl_id k t' =
     if bool_decide (k = id) then (fun d => if claimable at_ d then claimed token at_ d else d) <$> find_key dl_id id t
     else find_key dl_id k t) /\
  match find_key dl_id id t with
  | Some d => if claimable at_ d && (dl_attempts d <? MAX_ATTEMPTS)
              then exists r, row = Some r /\ cd_id r = id /\ cd_attempt_count r = dl_attempts d + 1 /\
                     cd_channel r = channel_of db d /\ cd_rule_available r = rule_available db d
              else row = None
  | None => row = None
  end.
Proof.
  intros [Hu Hok]. unfold claimDelivery, claim_update.
  destruct (keyed_update dl_id id (claimable at_) (claimed token at_) t Hu (claimed_key token at_)) as (Hu' & Hn & Hf & _).
  destruct (update_where _ _ t) as [t' n]. cbn [fst snd] in *. split; [done|]. split; [exact Hf|].
  specialize (Hf id). rewrite bool_decide_eq_true_2 in Hf by done.
  destruct (find_key dl_id id t) as [d|] eqn:Ed; [|by rewrite Hn]. cbn [fmap option_fmap option_map] in Hf.
  assert (Hload : load_claimed db id token t' = match List.find (fun d => String.eqb (dl_id d) id && bool_decide (dl_token d = Some token)) t' with
    | Some d => load_claimed db id token [d] | None => None end).
  { unfold load_claimed at 1. destruct (List.find _ t') as [x|] eqn:Ex; [|done]. apply List.find_some in Ex as [_ Ex].
    unfold load_claimed. cbn [List.find]. by rewrite Ex. }
  rewrite Hn. destruct (claimable at_ d) eqn:Ec; cbn [andb]; [|by rewrite Z.eqb_refl || done].
  cbn [Z.eqb negb]. rewrite Hload. pose proof (find_key_Some _ _ _ _ Hf) as [Hin Hid].
  destruct (List.find _ t') as [x|] eqn:Ex.
  - apply List.find_some in Ex as [Hx Ht]. apply list_elem_of_In in Hx. apply andb_true_iff in Ht as [Hxid Htok].
    apply String.eqb_eq in Hxid. pose proof (find_key_unique dl_id id t' x Hu' Hx Hxid) as Hx'. rewrite Hf in Hx'. injection Hx' as <-.
    unfold load_claimed. cbn [List.find]. rewrite Hxid, String.eqb_refl, Htok. cbn [andb].
    assert (dl_attempts d <? MAX_ATTEMPTS = true) as Hlt.
    { apply Z.ltb_lt. apply bool_decide_eq_true in Htok. unfold claimed in Htok. cbn [dl_token] in Htok.
      destruct (MAX_ATTEMPTS <=? dl_attempts d) eqn:E; [done|]. by apply Z.leb_gt in E. }
    rewrite Hlt. eexists. split; [reflexivity|]. cbn. split_and!; [done | | done | done].
    apply Z.ltb_lt in Hlt. unfold MAX_ATTEMPTS in *. lia.
  - destruct (dl_attempts d <? MAX_ATTEMPTS) eqn:Hlt; [|done]. exfalso.
    apply list_elem_of_In in Hin. apply (List.find_none _ _ Ex) in Hin. rewrite Hid, String.eqb_refl in Hin. cbn [andb] in Hin.
    apply bool_decide_eq_false in Hin. apply Hin. unfold claimed. cbn [dl_token]. apply Z.ltb_lt in Hlt.
    by rewrite (proj2 (Z.leb_gt _ _)) by done.
Qed.

(** Finishing sees one row, and only under the token it was claimed with. *)
Lemma finishDelivery_spec id token n result at_ t : deliveries_ok t ->
  let t' := finishDelivery id token n result at_ t in
  keys_unique dl_id t' /\
  (forall k, find_key dl_id k t' =
     if bool_decide (k = id) then (fun d => if bool_decide (dl_token d = Some token) then finished n result at_ d else d) <$> find_key dl_id id t
     else find_key dl_id k t) /\
  ((forall d, find_key dl_id id t = Some d -> dl_token d <> Some token) -> t' = t).
Proof.
  intros [Hu Hok]. unfold finishDelivery. cbv zeta.
  destruct (keyed_update dl_id id (fun d => bool_decide (dl_state d = Delivering) && bool_decide (dl_token d = Some token))
    (finished n result at_) t Hu (finished_key n result at_)) as (Hu' & Hn & Hf & Hid).
  split; [done|]. split.
  - intros k. rewrite Hf. case_bool_decide; [|done]. destruct (find_key dl_id id t) as [d|] eqn:Ed; [|done]. cbn.
    destruct (bool_decide (dl_token d = Some token)) eqn:Et; [|by rewrite andb_false_r]. apply bool_decide_eq_true in Et.
    apply find_key_Some in Ed as [Hin _]. apply Hok in Hin as [_ Hst _]. rewrite bool_decide_eq_true_2; [done|]. apply Hst. by rewrite Et.
  - intros Hno. apply Hid. rewrite Hn. destruct (find_key dl_id id t) as [d|]; [|done].
    rewrite (bool_decide_eq_false_2 (dl_token d = Some token)) by (by apply Hno). by rewrite andb_false_r.
Qed.

Lemma deliveries_ok_find t d : deliveries_ok t -> find_key dl_id (dl_id d) t = Some d -> delivery_ok d.
Proof. intros [_ Hok] Hf. apply find_key_Some in Hf as [Hin _]. by apply Hok. Qed.
Lemma deliveries_ok_intro t : keys_unique dl_id t -> (forall k d, find_key dl_id k t = Some d -> delivery_ok d) -> deliveries_ok t.
Proof. intros Hu Hf. split; [done|]. intros d Hd. apply (Hf (dl_id d)). by apply find_key_unique. Qed.
Lemma deliveries_ok_key t k d : deliveries_ok t -> find_key dl_id k t = Some d -> delivery_ok d /\ dl_id d = k.
Proof. intros [_ Hok] Hf. apply find_key_Some in Hf as [Hin Hk]. split; [by apply Hok | done]. Qed.

Lemma claimed_ok token at_ d : delivery_ok d -> delivery_ok (claimed token at_ d).
Proof.
  intros [Ha Hs Hu]. split; unfold claimed; cbn [dl_attempts dl_state dl_token dl_claim_until].
  - unfold MAX_ATTEMPTS in *. lia.
  - destruct (MAX_ATTEMPTS <=? dl_attempts d); [split; [done | intros [? ?]; done] | split; [by eexists | done]].
  - destruct (MAX_ATTEMPTS <=? dl_attempts d); [done | by eexists].
Qed.
Lemma finished_ok n result at_ d : delivery_ok d -> delivery_ok (finished n result at_ d).
Proof.
  intros [Ha Hs Hu].
  assert (Hne : finished_state n result <> Delivering) by (unfold finished_state; destruct (de_ok result); [done|]; by destruct (_ || _)).
  split; [done | | done]. cbn [finished dl_state dl_token]. split; [done | intros [? ?]; done].
Qed.
Lemma claimDelivery_ok db id token at_ t : deliveries_ok t -> deliveries_ok (claimDelivery db id token at_ t).2.
Proof.
  intros Hok. pose proof (claimDelivery_spec db id token at_ t Hok) as H. destruct (claimDelivery _ _ _ _ _) as [row t'].
  destruct H as (Hu & Hf & _). cbn [snd]. apply deliveries_ok_intro; [done|]. intros k d. rewrite Hf.
  case_bool_decide; [|intros Hd; by apply (deliveries_ok_key t k)].
  destruct (find_key dl_id id t) as [d0|] eqn:E; [|done]. intros [= <-].
  destruct (deliveries_ok_key t id d0 Hok E) as [Hd0 _]. destruct (claimable at_ d0); [by apply claimed_ok | done].
Qed.
Lemma finishDelivery_ok id token n result at_ t : deliveries_ok t -> deliveries_ok (finishDelivery id token n result at_ t).
Proof.
  intros Hok. pose proof (finishDelivery_spec id token n result at_ t Hok) as H. cbv zeta in H. destruct H as (Hu & Hf & _).
  apply deliveries_ok_intro; [done|]. intros k d. rewrite Hf. case_bool_decide; [|intros Hd; by apply (deliveries_ok_key t k)].
  destruct (find_key dl_id id t) as [d0|] eqn:E; [|done]. intros [= <-].
  destruct (deliveries_ok_key t id d0 Hok E) as [Hd0 _]. case_bool_decide; [by apply finished_ok | done].
Qed.

(** ** Any number of workers *)

(** A worker between its claim and the end of its attempt; one that died is still here. *)
Record flight := Flight { fl_id : string; fl_token : string; fl_until : Z; fl_attempt : Z }.
(** [os_used] are the tokens drawn so far ([crypto.randomUUID] never repeats one), [os_sends] the
    deliveries whose attempt began, once per attempt. *)
Record outbox_sys := OutboxSys {
  os_table : list delivery_row;
  os_clock : Z;
  os_used : list string;
  os_flight : list flight;
  os_sends : list string;
}.

Inductive outbox_step : outbox_sys -> outbox_sys -> Prop :=
| ob_tick t now now' used fl sends : now <= now' ->
    outbox_step (OutboxSys t now used fl sends) (OutboxSys t now' used fl sends)
| ob_claim db id token row t t' now used fl sends : token ∉ used -> claimDelivery db id token now t = (Some row, t') ->
    outbox_step (OutboxSys t now used fl sends)
      (OutboxSys t' now (token :: used) (Flight id token (now + CLAIM_MS) (cd_attempt_count row) :: fl) (id :: sends))
| ob_skip db id token t t' now used fl sends : token ∉ used -> claimDelivery db id token now t = (None, t') ->
    outbox_step (OutboxSys t now used fl sends) (OutboxSys t' now (token :: used) fl sends)
| ob_finish f result t now used before after sends :
    outbox_step (OutboxSys t now used (before ++ f :: after) sends)
      (OutboxSys (finishDelivery (fl_id f) (fl_token f) (fl_attempt f) result now t) now used (before ++ after) sends)
| ob_enqueue d t now used fl sends : dl_state d = Pending -> dl_attempts d = 0 -> dl_token d = None ->
    outbox_step (OutboxSys t now used fl sends) (OutboxSys (insert_or_ignore dl_id d t).1 now used fl sends).

Definition sends_of (id : string) (sends : list string) : Z := count_if (String.eqb id) sends.
(** A table with nobody at work: some claims may be left over from before. *)
Definition outbox_init (s : outbox_sys) : Prop :=
  deliveries_ok (os_table s) /\ (forall d token, d ∈ os_table s -> dl_token d = Some token -> token ∈ os_used s) /\
  os_flight s = [] /\ os_sends s = [].

(** What a worker knows: its claim is the stored one, or it ran out and was lost. *)
Definition flight_ok (s : outbox_sys) (f : flight) : Prop :=
  fl_token f ∈ os_used s /\
  exists d, find_key dl_id (fl_id f) (os_table s) = Some d /\
    (dl_token d = Some (fl_token f) /\ dl_claim_until d = Some (fl_until f) /\ dl_attempts d = fl_attempt f \/
     dl_token d <> Some (fl_token f) /\ fl_until f <= os_clock s).
Record outbox_inv (s : outbox_sys) : Prop := {
  ob_ok : deliveries_ok (os_table s);
  ob_tokens : forall k d token, find_key dl_id k (os_table s) = Some d -> dl_token d = Some token -> token ∈ os_used s;
  ob_flights : forall f, f ∈ os_flight s -> flight_ok s f;
  ob_nodup : NoDup (map fl_token (os_flight s));
  ob_sends : forall id, sends_of id (os_sends s) <= match find_key dl_id id (os_table s) with Some d => dl_attempts d | None => 0 end;
}.

Lemma outbox_init_inv s : outbox_init s -> outbox_inv s.
Proof.
  intros (Hok & Ht & Hf & Hs). split; [done | | | |].
  - intros k d token Hd. apply find_key_Some in Hd as [Hd _]. by apply Ht.
  - rewrite Hf. intros f H. by apply elem_of_nil in H.
  - rewrite Hf. constructor.
  - rewrite Hs. intros id. change (sends_of id []) with 0. destruct (find_key _ _ _) as [d|] eqn:E; [|done].
    by destruct (deliveries_ok_key _ _ _ Hok E) as [[[? _] _ _] _].
Qed.

(** The row a claim leaves behind. *)
Lemma claim_sys_inv db id token row t t' now used fl sends : outbox_inv (OutboxSys t now used fl sends) -> token ∉ used ->
  claimDelivery db id token now t = (row, t') ->
  outbox_inv (OutboxSys t' now (token :: used)
    (match row with Some r => [Flight id token (now + CLAIM_MS) (cd_attempt_count r)] | None => [] end ++ fl)
    (match row with Some _ => [id] | None => [] end ++ sends)).
Proof.
  intros [Hok Ht Hfl Hnd Hs] Hfresh E. cbn [os_table os_used os_flight os_clock os_sends] in *.
  pose proof (claimDelivery_spec db id token now t Hok) as Hspec. pose proof (claimDelivery_ok db id token now t Hok) as Hok'.
  rewrite E in Hspec, Hok'. cbn [snd] in Hok'. destruct Hspec as (Hu & Hf & Hrow).
  assert (Hfid := Hf id). rewrite bool_decide_eq_true_2 in Hfid by done.
  assert (Hother : forall f, f ∈ fl -> flight_ok (OutboxSys t' now (token :: used)
    (match row with Some r => [Flight id token (now + CLAIM_MS) (cd_attempt_count r)] | None => [] end ++ fl)
    (match row with Some _ => [id] | None => [] end ++ sends)) f).
  { intros f Hin. destruct (Hfl f Hin) as (Htok & d & Hd & Hcase). cbn in Htok. split; [by right|].
    cbn [os_table os_clock]. rewrite Hf. case_bool_decide as Hk; [|by exists d].
    cbn [os_table] in Hd. rewrite Hk in Hd. rewrite Hd. cbn. destruct (claimable now d) eqn:Ec; [|by exists d].
    eexists. split; [reflexivity|]. right. split.
    - cbn. destruct (MAX_ATTEMPTS <=? dl_attempts d); [done|]. intros [= ->]. done.
    - destruct Hcase as [(Htk & Huntil & _)|[_ ?]]; [|done]. cbn.
      destruct (deliveries_ok_key _ _ _ Hok Hd) as [[_ Hst _] _]. unfold claimable in Ec.
      assert (dl_state d = Delivering) as Est by (apply Hst; rewrite Htk; by eexists). rewrite Est, Huntil in Ec. by apply Z.leb_le. }
  split; cbn [os_table os_used os_flight os_clock os_sends]; [done | | | |].
  - intros k d tk. rewrite Hf. case_bool_decide as Hk; [|intros Hd Htk; right; by apply (Ht k d)].
    destruct (find_key dl_id id t) as [d0|] eqn:Ed; [|done]. intros [= <-].
    destruct (claimable now d0); [|intros Htk; right; by apply (Ht id d0)]. cbn.
    destruct (MAX_ATTEMPTS <=? _); [done|]. intros [= <-]. by left.
  - intros f Hin. apply elem_of_app in Hin as [Hin|Hin]; [|by apply Hother].
    destruct row as [r|]; [|by apply elem_of_nil in Hin]. apply list_elem_of_singleton in Hin as ->.
    split; [by left|]. cbn [os_table fl_id fl_token fl_until fl_attempt]. rewrite Hfid.
    destruct (find_key dl_id id t) as [d|] eqn:Ed; [|done]. cbn.
    destruct (claimable now d); cbn [andb] in Hrow; [|done]. destruct (dl_attempts d <? MAX_ATTEMPTS) eqn:Ea; [|done].
    destruct Hrow as (r' & [= <-] & _ & Hatt & _). eexists. split; [reflexivity|]. left. cbn. apply Z.ltb_lt in Ea.
    rewrite (proj2 (Z.leb_gt _ _)) by done. split_and!; [done | done|]. rewrite Hatt. unfold MAX_ATTEMPTS in *. lia.
  - destruct row as [r|]; [|done]. cbn [app map]. constructor; [|done]. cbn [fl_token]. intros Hin.
    apply list_elem_of_fmap in Hin as (f & Hf' & Hin). destruct (Hfl f Hin) as [Htk _]. cbn in Htk. by rewrite <- Hf' in Htk.
  - intros k. rewrite Hf. case_bool_decide as Hk.
    + subst k. specialize (Hs id). destruct (find_key dl_id id t) as [d|] eqn:Ed; cbn.
      * destruct (deliveries_ok_key _ _ _ Hok Ed) as [[Ha _ _] _].
        destruct (claimable now d); cbn [andb] in Hrow.
        -- destruct (dl_attempts d <? MAX_ATTEMPTS) eqn:Ea.
           ++ destruct Hrow as (r & -> & _). unfold sends_of in *. cbn [app]. rewrite count_if_cons, String.eqb_refl.
              apply Z.ltb_lt in Ea. cbn. unfold MAX_ATTEMPTS in *. lia.
           ++ rewrite Hrow. cbn. unfold MAX_ATTEMPTS in *. lia.
        -- by rewrite Hrow.
      * by rewrite Hrow.
    + destruct row as [r|]; [|apply Hs]. unfold sends_of. cbn [app]. rewrite count_if_cons.
      rewrite (proj2 (String.eqb_neq _ _)) by done. apply Hs.
Qed.

Lemma finish_sys_inv f result t now used before after sends :
  outbox_inv (OutboxSys t now used (before ++ f :: after) sends) ->
  outbox_inv (OutboxSys (finishDelivery (fl_id f) (fl_token f) (fl_attempt f) result now t) now used (before ++ after) sends).
Proof.
  intros [Hok Ht Hfl Hnd Hs]. cbn [os_table os_used os_flight os_clock os_sends] in *.
  pose proof (finishDelivery_spec (fl_id f) (fl_token f) (fl_attempt f) result now t Hok) as Hspec. cbv zeta in Hspec.
  pose proof (finishDelivery_ok (fl_id f) (fl_token f) (fl_attempt f) result now t Hok) as Hok'.
  destruct Hspec as (Hu & Hf & _).
  assert (Hsplit : NoDup (map fl_token (before ++ after)) /\ forall g, g ∈ (before ++ after)%list -> fl_token g <> fl_token f).
  { rewrite map_app in Hnd. cbn [map] in Hnd. rewrite map_app. apply NoDup_app in Hnd as (Hb & Hc & Ha).
    apply NoDup_cons in Ha as [Ha1 Ha2]. split.
    - apply NoDup_app. split_and!; [done | | done]. intros x Hx Hx'. apply (Hc x Hx). by right.
    - intros g Hg Heq. apply elem_of_app in Hg as [Hg|Hg]; apply (list_elem_of_fmap_2 fl_token) in Hg; rewrite Heq in Hg;
        [|done]. apply (Hc _ Hg). by left. }
  destruct Hsplit as [Hnd' Hne]. split; cbn [os_table os_used os_flight os_clock os_sends]; [done | | | done |].
  - intros k d tk. rewrite Hf. case_bool_decide; [|apply Ht]. destruct (find_key dl_id (fl_id f) t) as [d0|] eqn:Ed; [|done].
    intros [= <-]. case_bool_decide; [done|]. by apply (Ht (fl_id f)).
  - intros g Hg. assert (Hg' : g ∈ (before ++ f :: after)%list) by set_solver.
    destruct (Hfl g Hg') as (Htk & d & Hd & Hcase). split; [done|]. cbn [os_table os_clock] in *. rewrite Hf.
    case_bool_decide as Hk; [|by exists d]. rewrite Hk in Hd. rewrite Hd. cbn. case_bool_decide as Hft; [|by exists d].
    eexists. split; [reflexivity|]. cbn. right. split; [done|]. destruct Hcase as [(Hgt & _)|[_ ?]]; [|done].
    rewrite Hft in Hgt. injection Hgt as Hgt. by destruct (Hne g Hg).
  - intros k. rewrite Hf. case_bool_decide as Hk; [|apply Hs]. subst k. specialize (Hs (fl_id f)).
    destruct (find_key dl_id (fl_id f) t); [|done]. cbn. by case_bool_decide.
Qed.

Lemma enqueue_inv d t now used fl sends : dl_state d = Pending -> dl_attempts d = 0 -> dl_token d = None ->
  outbox_inv (OutboxSys t now used fl sends) -> outbox_inv (OutboxSys (insert_or_ignore dl_id d t).1 now used fl sends).
Proof.
  intros Hst Ha Htok [Hok Ht Hfl Hnd Hs]. cbn [os_table os_used os_flight os_clock os_sends] in *.
  assert (Hf : forall k x, find_key dl_id k t = Some x -> find_key dl_id k (insert_or_ignore dl_id d t).1 = Some x).
  { intros k x Hx. rewrite find_key_insert_or_ignore, Hx. done. }
  assert (Hn : forall k x, find_key dl_id k (insert_or_ignore dl_id d t).1 = Some x -> find_key dl_id k t = Some x \/ x = d /\ find_key dl_id k t = None).
  { intros k x. rewrite find_key_insert_or_ignore. destruct (find_key dl_id k t); [by left|]. destruct (key_is _ _ _); [|done].
    intros [= <-]. by right. }
  assert (Hd : delivery_ok d).
  { split; [rewrite Ha; unfold MAX_ATTEMPTS; lia | | by rewrite Hst]. rewrite Hst, Htok. split; [done | intros [? ?]; done]. }
  split; cbn [os_table os_used os_flight os_clock os_sends].
  - apply deliveries_ok_intro; [apply insert_or_ignore_unique; apply Hok|]. intros k x Hx.
    destruct (Hn k x Hx) as [Hx'|[-> _]]; [|done]. by apply (deliveries_ok_key t k).
  - intros k x tk Hx Htk. destruct (Hn k x Hx) as [Hx'|[-> _]]; [by apply (Ht k x) | congruence].
  - intros f Hin. destruct (Hfl f Hin) as (Htk & x & Hx & Hcase). split; [done|]. exists x. split; [by apply Hf | done].
  - done.
  - intros k. specialize (Hs k). destruct (find_key dl_id k t) as [x|] eqn:Ex; [by rewrite (Hf k x Ex)|].
    destruct (find_key dl_id k (insert_or_ignore dl_id d t).1) as [y|] eqn:Ey; [|done].
    destruct (Hn k y Ey) as [Hy|[-> _]]; [congruence | by rewrite Ha].
Qed.

Lemma outbox_step_inv s s' : outbox_inv s -> outbox_step s s' -> outbox_inv s'.
Proof.
  intros Hi Hs. destruct Hs as [t now now' used fl sends Hle|db id token row t t' now used fl sends Hfresh E
    |db id token t t' now used fl sends Hfresh E|f result t now used before after sends|d t now used fl sends ? ? ?].
  - destruct Hi as [Hok Ht Hfl Hnd Hs]. split; [done | done | | done | done]. intros f Hf.
    destruct (Hfl f Hf) as (Htk & d & Hd & Hcase). split; [done|]. exists d. split; [done|].
    destruct Hcase as [?|[? ?]]; [by left | right; cbn in *; split; [done | lia]].
  - exact (claim_sys_inv db id token (Some row) t t' now used fl sends Hi Hfresh E).
  - exact (claim_sys_inv db id token None t t' now used fl sends Hi Hfresh E).
  - by apply finish_sys_inv.
  - by apply enqueue_inv.
Qed.
Lemma outbox_run_inv s s' : outbox_inv s -> rtc outbox_step s s' -> outbox_inv s'.
Proof. intros Hi Hrun. induction Hrun as [|s1 s2 s3 Hs _ IH]; [done|]. apply IH. by apply (outbox_step_inv s1). Qed.

(** A delivery that was sent or given up is left alone from then on. *)
Lemma terminal_step s s' id d : outbox_inv s -> outbox_step s s' -> find_key dl_id id (os_table s) = Some d -> terminal d ->
  find_key dl_id id (os_table s') = Some d /\ sends_of id (os_sends s') = sends_of id (os_sends s).
Proof.
  intros [Hok _ _ _ _] Hs Hd Hterm. destruct (deliveries_ok_key _ _ _ Hok Hd) as [[_ Hst _] _].
  assert (Htok : forall token, dl_token d <> Some token).
  { intros token E. assert (dl_state d = Delivering) as E' by (apply Hst; rewrite E; by eexists). destruct Hterm; congruence. }
  assert (Hclaim : forall db id' token now row t', claimDelivery db id' token now (os_table s) = (row, t') ->
    find_key dl_id id t' = Some d /\ (id' = id -> row = None)).
  { intros db id' token now row t' E. pose proof (claimDelivery_spec db id' token now _ Hok) as H. rewrite E in H.
    destruct H as (_ & Hf & Hrow). rewrite Hf. case_bool_decide as Hk; [subst id'|by split; [|intros ->]].
    rewrite Hd in Hrow |- *. cbn. rewrite terminal_not_claimable in Hrow |- * by done. done. }
  destruct Hs as [t now now' used fl sends Hle|db id' token row t t' now used fl sends Hfresh E
    |db id' token t t' now used fl sends Hfresh E|f result t now used before after sends|d' t now used fl sends ? ? ?];
    cbn [os_table os_sends] in *.
  - done.
  - destruct (Hclaim _ _ _ _ _ _ E) as [Hf Hn]. split; [done|]. unfold sends_of. rewrite count_if_cons.
    destruct (String.eqb id id') eqn:Eid; [|done]. apply String.eqb_eq in Eid as <-. by specialize (Hn eq_refl).
  - by destruct (Hclaim _ _ _ _ _ _ E) as [Hf _].
  - pose proof (finishDelivery_spec (fl_id f) (fl_token f) (fl_attempt f) result now t Hok) as Hspec. cbv zeta in Hspec.
    destruct Hspec as (_ & Hf & _). rewrite Hf. case_bool_decide as Hk; [|done]. rewrite <- Hk, Hd. cbn.
    by rewrite bool_decide_eq_false_2 by apply Htok.
  - by rewrite find_key_insert_or_ignore, Hd.
Qed.

(** C5: however the workers' claims, attempts and deaths interleave: two workers never hold
    unexpired claims on one delivery; a delivery is attempted at most six times; a worker whose
    claim was taken over cannot change the outcome; and once a delivery is recorded as sent (or
    given up) its row stays as it is and nobody attempts it again. *)
Theorem outbox_delivers_exclusively s0 s (Hinit : outbox_init s0) (Hrun : rtc outbox_step s0 s) :
  (forall i j f g, os_flight s !! i = Some f -> os_flight s !! j = Some g -> fl_id f = fl_id g ->
     os_clock s < fl_until f -> os_clock s < fl_until g -> i = j) /\
  (forall id, sends_of id (os_sends s) <= MAX_ATTEMPTS) /\
  (forall f g result at_, f ∈ os_flight s -> g ∈ os_flight s -> fl_id f = fl_id g -> f <> g -> os_clock s < fl_until g ->
     finishDelivery (fl_id f) (fl_token f) (fl_attempt f) result at_ (os_table s) = os_table s) /\
  (forall id d s', find_key dl_id id (os_table s) = Some d -> terminal d -> rtc outbox_step s s' ->
     find_key dl_id id (os_table s') = Some d /\ sends_of id (os_sends s') = sends_of id (os_sends s)).
Proof.
  pose proof (outbox_run_inv s0 s (outbox_init_inv s0 Hinit) Hrun) as Hi. destruct Hi as [Hok Ht Hfl Hnd Hs].
  assert (Hcur : forall f, f ∈ os_flight s -> os_clock s < fl_until f ->
    exists d, find_key dl_id (fl_id f) (os_table s) = Some d /\ dl_token d = Some (fl_token f)).
  { intros f Hf Hlt. destruct (Hfl f Hf) as (_ & d & Hd & [(Htk & _)|[_ ?]]); [by exists d | lia]. }
  assert (Hsame : forall f g, f ∈ os_flight s -> g ∈ os_flight s -> fl_token f = fl_token g -> f = g).
  { intros f g Hf Hg E. apply list_elem_of_lookup in Hf as [i Hi], Hg as [j Hj].
    assert (i = j) as ->; [|congruence]. eapply NoDup_lookup; [exact Hnd | |]; rewrite list_lookup_fmap.
    - by rewrite Hi.
    - rewrite Hj. cbn. by rewrite E. }
  split_and!.
  - intros i j f g Hf Hg Hid Hlf Hlg.
    destruct (Hcur f) as (d & Hd & Htd); [by eapply list_elem_of_lookup_2 | done|].
    destruct (Hcur g) as (d' & Hd' & Htd'); [by eapply list_elem_of_lookup_2 | done|].
    rewrite Hid, Hd' in Hd. injection Hd as <-. rewrite Htd in Htd'. injection Htd' as E.
    eapply NoDup_lookup; [exact Hnd | |]; rewrite list_lookup_fmap; [by rewrite Hf | rewrite Hg; cbn; by rewrite E].
  - intros id. specialize (Hs id). destruct (find_key dl_id id (os_table s)) as [d|] eqn:E; [|by etransitivity].
    destruct (deliveries_ok_key _ _ _ Hok E) as [[[_ ?] _ _] _]. lia.
  - intros f g result at_ Hf Hg Hid Hne Hlt. destruct (finishDelivery_spec (fl_id f) (fl_token f) (fl_attempt f) result at_ _ Hok) as (_ & _ & Hno).
    apply Hno. intros d Hd E. destruct (Hcur g Hg Hlt) as (d' & Hd' & Hg'). rewrite <- Hid, Hd in Hd'. injection Hd' as <-.
    rewrite E in Hg'. injection Hg' as Hg'. by apply Hne, Hsame.
  - intros id d s' Hd Hterm Hrun'. assert (Hi : outbox_inv s) by done. clear - Hi Hd Hterm Hrun'.
    induction Hrun' as [|s1 s2 s3 Hs _ IH]; [done|]. destruct (terminal_step _ _ _ _ Hi Hs Hd Hterm) as [Hd2 Hn].
    destruct (IH Hd2 (outbox_step_inv _ _ Hi Hs)) as [? Hn3]. split; [done | by rewrite Hn3].
Qed.

(** ** One worker, run by run *)

Lemma retryDelayMs_bounds n : 60000 <= retryDelayMs n <= 3600000 /\ (n < MAX_ATTEMPTS -> retryDelayMs n <= 960000).
Proof.
  unfold retryDelayMs, MAX_ATTEMPTS. pose proof (Z.pow_pos_nonneg 2 (Z.max 0 (n - 1)) ltac:(lia) ltac:(lia)).
  split; [lia|]. intros Hn. assert (2 ^ Z.max 0 (n - 1) <= 2 ^ 4) by (apply Z.pow_le_mono_r; lia). lia.
Qed.

Section Runs.
Context `{WC : WebCrypto} `{UA : UrlApi} `{UP : !UrlPath}.
Context {W : Type} (now : W -> Z) (fetcher : RequestTarget -> W -> res response * W)
  (cancel : response -> W -> res unit * W) (randomUUID : W -> string * W) (wrappingKey : string).
Notation deliver := (deliverOne now fetcher cancel randomUUID wrappingKey (fun t => t)).
Notation try_ := (attempt fetcher cancel wrappingKey).

(** Whether a delivery may still be sent. *)
Definition sendable (db : notification_db) (d : delivery_row) : bool :=
  match channel_of db d with
  | Some c => (ch_enabled c =? 1) && String.eqb (ch_key_id c) "v1" && rule_available db d
  | None => false
  end.

Lemma attempt_unsendable db d row w : cd_channel row = channel_of db d -> cd_rule_available row = rule_available db d ->
  sendable db d = false -> exists e, try_ row w = (unavailableResult e false, w).
Proof.
  intros Hc Hr. unfold sendable, attempt. rewrite Hc, Hr. destruct (channel_of db d) as [c|]; [|by eexists].
  destruct (ch_enabled c =? 1), (String.eqb (ch_key_id c) "v1"); cbn [negb orb andb]; intros H; try by eexists.
  rewrite H. by eexists.
Qed.

(** The row after an undisturbed [deliverOne]. *)
Lemma deliverOne_row db at_ id t w d : deliveries_ok t -> find_key dl_id id t = Some d ->
  let '(o, (t', w')) := deliver db at_ id (t, w) in
  deliveries_ok t' /\
  exists d', find_key dl_id id t' = Some d' /\
  if claimable at_ d then
    if dl_attempts d <? MAX_ATTEMPTS then
      exists row result, try_ row (randomUUID w).2 = (result, w') /\ cd_channel row = channel_of db d /\
        cd_rule_available row = rule_available db d /\ o = (if de_ok result then OSent else OFailed) /\
        d' = finished (dl_attempts d + 1) result (now w') (claimed (randomUUID w).1 at_ d)
    else o = OSkipped /\ w' = (randomUUID w).2 /\ dl_state d' = Dead
  else o = OSkipped /\ w' = (randomUUID w).2 /\ d' = d.
Proof.
  intros Hok Hd. unfold deliverOne. cbn [fst snd]. destruct (randomUUID w) as [token w0]. cbn [fst snd].
  pose proof (claimDelivery_spec db id token at_ t Hok) as Hspec. pose proof (claimDelivery_ok db id token at_ t Hok) as Hok1.
  destruct (claimDelivery db id token at_ t) as [row t1]. destruct Hspec as (_ & Hf & Hrow). cbn [snd] in Hok1.
  specialize (Hf id). rewrite bool_decide_eq_true_2, Hd in Hf by done. rewrite Hd in Hrow. cbn [fmap option_fmap option_map] in Hf.
  destruct (claimable at_ d); cbn [andb] in Hrow.
  2: { rewrite Hrow. split; [done|]. by exists d. }
  destruct (dl_attempts d <? MAX_ATTEMPTS) eqn:Ea.
  2: { rewrite Hrow. split; [done|]. eexists. split; [exact Hf|]. split_and!; [done | done|]. unfold claimed. cbn [dl_state].
       apply Z.ltb_ge in Ea. by rewrite (proj2 (Z.leb_le _ _)). }
  destruct Hrow as (r & -> & Hid & Hatt & Hch & Hru). rewrite Hid, Hatt.
  destruct (try_ r w0) as [result w'] eqn:Et.
  pose proof (finishDelivery_spec id token (dl_attempts d + 1) result (now w') t1 Hok1) as Hfin. cbv zeta in Hfin.
  destruct Hfin as (_ & Hff & _). split; [by apply finishDelivery_ok|].
  specialize (Hff id). rewrite bool_decide_eq_true_2, Hf in Hff by done. cbn [fmap option_fmap option_map] in Hff.
  rewrite bool_decide_eq_true_2 in Hff.
  2: { unfold claimed. cbn [dl_token]. apply Z.ltb_lt in Ea. by rewrite (proj2 (Z.leb_gt _ _)) by done. }
  eexists. split; [exact Hff|]. exists r, result. by split_and!.
Qed.

(** An undisturbed attempt at a delivery that is due: it is counted; a delivery whose channel
    or rule was withdrawn is given up without touching the network; a success is recorded as
    sent; a failure that may be repeated is scheduled again, between one and sixteen minutes
    later, and only while attempts are left.  A delivery that is not due is left alone. *)
Theorem deliverOne_outcome db at_ id t w d (Hok : deliveries_ok t) (Hd : find_key dl_id id t = Some d) :
  let '(o, (t', w')) := deliverOne now fetcher cancel randomUUID wrappingKey (fun t => t) db at_ id (t, w) in
  exists d', find_key dl_id id t' = Some d' /\
  if claimable at_ d then
    if dl_attempts d <? MAX_ATTEMPTS then
      dl_attempts d' = dl_attempts d + 1 /\ (dl_state d' = Sent <-> o = OSent) /\ o <> OSkipped /\
      (sendable db d = false -> w' = (randomUUID w).2 /\ dl_state d' = Dead) /\
      (dl_state d' = Sent \/ dl_state d' = Dead \/
       dl_state d' = Pending /\ dl_attempts d' < MAX_ATTEMPTS /\ now w' + 60000 <= dl_next d' <= now w' + 960000)
    else dl_state d' = Dead /\ o = OSkipped /\ w' = (randomUUID w).2
  else d' = d /\ o = OSkipped /\ w' = (randomUUID w).2.
Proof.
  pose proof (deliverOne_row db at_ id t w d Hok Hd) as H. destruct (deliver db at_ id (t, w)) as [o [t' w']].
  destruct H as (_ & d' & Hd' & H). exists d'. split; [done|]. destruct (claimable at_ d); [|naive_solver].
  destruct (dl_attempts d <? MAX_ATTEMPTS) eqn:Ea; [|naive_solver]. apply Z.ltb_lt in Ea.
  destruct H as (row & result & Et & Hch & Hru & -> & ->). cbn [finished dl_attempts dl_state dl_next].
  assert (Hatt : dl_attempts (claimed (randomUUID w).1 at_ d) = dl_attempts d + 1) by (unfold claimed; cbn; unfold MAX_ATTEMPTS in *; lia).
  rewrite Hatt. split_and!; [done | | by destruct (de_ok result) | |].
  - unfold finished_state. destruct (de_ok result); [done|]. by destruct (_ || _).
  - intros Hno. destruct (attempt_unsendable db d row (randomUUID w).2 Hch Hru Hno) as (e & He).
    rewrite He in Et. by injection Et as <- <-.
  - unfold finished_state. destruct (de_ok result); [by left|]. destruct (_ || _) eqn:E; [by right; left|]. right; right.
    bool_hyps. rewrite bool_decide_eq_true_2 by done. pose proof (retryDelayMs_bounds (dl_attempts d + 1)).
    split_and!; [done | lia..].
Qed.

(** A run that finds the delivery due, whatever the configuration is by then. *)
Definition redeliver (id : string) (s s' : @outbox W) : Prop :=
  exists db at_ d, find_key dl_id id s.1 = Some d /\ claimable at_ d = true /\ s' = (deliver db at_ id s).2.
Definition attempts_left (d : delivery_row) : nat :=
  match dl_state d with Sent | Dead => 0%nat | _ => Z.to_nat (Z.max 1 (MAX_ATTEMPTS - dl_attempts d)) end.

Lemma redeliver_decreases id s s' d : deliveries_ok s.1 -> find_key dl_id id s.1 = Some d -> redeliver id s s' ->
  deliveries_ok s'.1 /\ exists d', find_key dl_id id s'.1 = Some d' /\ (attempts_left d' < attempts_left d)%nat.
Proof.
  intros Hok Hd (db & at_ & d0 & Hd0 & Hc & ->). rewrite Hd in Hd0. injection Hd0 as <-. destruct s as [t w]. cbn [fst] in *.
  pose proof (deliverOne_row db at_ id t w d Hok Hd) as H. destruct (deliver db at_ id (t, w)) as [o [t' w']].
  destruct H as (Hok' & d' & Hd' & H). cbn [fst snd]. split; [done|]. exists d'. split; [done|]. rewrite Hc in H.
  assert (Hleft : attempts_left d = Z.to_nat (Z.max 1 (MAX_ATTEMPTS - dl_attempts d))).
  { unfold attempts_left. by destruct (claimable_attempt _ _ Hc) as [-> | ->]. }
  rewrite Hleft. destruct (deliveries_ok_key _ _ _ Hok Hd) as [[Ha _ _] _].
  destruct (dl_attempts d <? MAX_ATTEMPTS) eqn:Ea.
  - apply Z.ltb_lt in Ea. destruct H as (row & result & _ & _ & _ & _ & ->). unfold attempts_left. cbn [finished dl_state dl_attempts claimed].
    unfold finished_state. destruct (de_ok result); [lia|]. destruct (_ || _) eqn:E; [lia|]. bool_hyps. unfold MAX_ATTEMPTS in *. lia.
  - destruct H as (_ & _ & Hst). unfold attempts_left. rewrite Hst. lia.
Qed.

(** C9: every delivery is settled: as long as it is neither sent nor given up there is a time from
    which on it is due, and however the provider answers, at most six due runs settle it. *)
Theorem delivery_settles id t w d (Hok : deliveries_ok t) (Hd : find_key dl_id id t = Some d) :
  (~ terminal d -> exists due, forall at_, due <= at_ -> claimable at_ d = true) /\
  forall n s', nsteps (redeliver id) n (t, w) s' ->
    (n <= 6)%nat /\
    exists d', find_key dl_id id s'.1 = Some d' /\ deliveries_ok s'.1 /\
      ((attempts_left d <= n)%nat -> terminal d') /\
      (~ terminal d' -> exists s'', redeliver id s' s'').
Proof.
  assert (Hdue : forall d, delivery_ok d -> ~ terminal d -> exists due, forall at_, due <= at_ -> claimable at_ d = true).
  { intros d0 [_ _ Hu] Hn. unfold terminal, claimable in *. destruct (dl_state d0) eqn:E; [| |naive_solver|naive_solver].
    - exists (dl_next d0). intros at_ ?. by apply Z.leb_le.
    - destruct Hu as [u Hu']; [done|]. exists u. rewrite Hu'. intros at_ ?. by apply Z.leb_le. }
  destruct (deliveries_ok_key _ _ _ Hok Hd) as [Hdok _]. split; [by apply Hdue|].
  assert (H : forall n s s' d, nsteps (redeliver id) n s s' -> deliveries_ok s.1 -> find_key dl_id id s.1 = Some d ->
    deliveries_ok s'.1 /\ exists d', find_key dl_id id s'.1 = Some d' /\ (attempts_left d' + n <= attempts_left d)%nat).
  { induction n as [|n IH]; intros s s' d0 Hn Hok0 Hd0; inversion Hn; subst; [split; [done|]; exists d0; split; [done|lia]|].
    destruct (redeliver_decreases id s y d0) as (Hoky & dy & Hdy & Hlt); [done..|].
    destruct (IH y s' dy) as (Hok' & d' & Hd' & Hle); [done..|]. split; [done|]. exists d'. split; [done|lia]. }
  intros n s' Hn. destruct (H n (t, w) s' d Hn Hok Hd) as (Hok' & d' & Hd' & Hle).
  assert (attempts_left d <= 6)%nat.
  { destruct Hdok as [Ha _ _]. unfold attempts_left. destruct (dl_state d); unfold MAX_ATTEMPTS in *; lia. }
  split; [lia|]. exists d'. split_and!; [done | done | |].
  - intros Hle'. assert (attempts_left d' = 0)%nat as Hzero by lia. unfold attempts_left, terminal in *.
    destruct (dl_state d'); auto; lia.
  - intros Hnt. destruct (Hdue d') as (due & Hc); [by apply (deliveries_ok_key s'.1 id) | done|].
    eexists. exists (NotificationDb [] [] [] [] []), due, d'. split_and!; [done | by apply Hc | reflexivity].
Qed.
End Runs.

(** ** A recorded delivery *)

Definition ob_key : string := "00112233445566778899aabbccddeeff00112233445566778899aabbccddeeff".
Definition ob_config : Wrapped :=
  match wrapNotificationConfig (List.repeat Byte.x07 12) [("webhookUrl", OStr "https://hooks.slack.com/services/T/B/fixture")]
          ob_key "workspace" "channel" with Ok w => w | Err _ => MkWrapped [] [] end.
Definition ob_db : notification_db :=
  NotificationDb [(WorkspaceRow "workspace" "ops" 1 "private" 10 None, "Operations")]
    [ResourceRow "machine" 10 "db-1" "workspace" None] []
    [ChannelRow "channel" "workspace" Slack (wr_ciphertext ob_config) (wr_nonce ob_config) "v1" 1]
    [RuleRow "workspace" "machine" "machine" Availability "channel" 1].
Definition ob_payload : string :=
  json_stringify (OObj [("workspace", OStr "Operations"); ("resourceType", OStr "machine"); ("resourceName", OStr "db-1");
                        ("dimension", OStr "availability"); ("previousState", OStr "healthy"); ("currentState", OStr "offline");
                        ("reasonCode", OStr "report_timeout"); ("occurredAt", OInt 1700000000000)]).
Definition ob_delivery : delivery_row :=
  DeliveryRow "delivery" "workspace" "channel" 1 1 10 1700000000000 "e1" Availability ob_payload Pending 0 1000 None None
    None None 1000 1000 None.
(** The provider answers with [status]; the world is a clock. *)
Definition ob_deliver (status : Z) (db : notification_db) (at_ : Z) (s : @outbox Z) : outcome * @outbox Z :=
  deliverOne (fun w => w) (fun _ w => (Ok (Response status [] None), w + 250)) (fun _ w => (Ok tt, w)) (fun w => (nat_to_string w, w + 1))
    ob_key (fun t => t) db at_ "delivery" s.

Lemma ob_delivery_ok : deliveries_ok [ob_delivery].
Proof.
  split; [apply (bool_decide_unpack _); vm_compute; exact I|]. intros d ->%list_elem_of_singleton.
  split; [cbn; unfold MAX_ATTEMPTS; lia | split; [done | intros [? ?]; done] | done].
Qed.
Lemma ob_found : find_key dl_id "delivery" [ob_delivery] = Some ob_delivery.
Proof. vm_compute. reflexivity. Qed.
Definition ob_sent : @outbox Z := (ob_deliver 200 ob_db 2000 ([ob_delivery], 2000)).2.
Lemma ob_sent_run : ob_deliver 200 ob_db 2000 ([ob_delivery], 2000) = (OSent, (ob_sent.1, ob_sent.2)).
Proof. vm_compute. reflexivity. Qed.

Example deliverOne_outcome_witness :
  exists d, find_key dl_id "delivery" ob_sent.1 = Some d /\ dl_state d = Sent /\ dl_attempts d = 1.
Proof.
  pose proof (deliverOne_outcome (fun w => w) (fun _ w => (Ok (Response 200 [] None), w + 250)) (fun _ w => (Ok tt, w))
    (fun w => (nat_to_string w, w + 1)) ob_key ob_db 2000 "delivery" [ob_delivery] 2000 ob_delivery ob_delivery_ok ob_found) as H.
  change (deliverOne _ _ _ _ _ _ ob_db 2000 "delivery" ([ob_delivery], 2000)) with (ob_deliver 200 ob_db 2000 ([ob_delivery], 2000)) in H.
  rewrite ob_sent_run in H. destruct H as (d & Hd & Ha & Hs & _). exists d. split; [exact Hd|]. split; [apply Hs; reflexivity | exact Ha].
Defined.

(** The provider keeps failing: six attempts, then the delivery is given up. *)
Definition ob_fail (at_ : Z) (s : @outbox Z) : @outbox Z := (ob_deliver 503 ob_db at_ s).2.
Definition ob_start : @outbox Z := ([ob_delivery], 2000).
Definition ob_after : @outbox Z := ob_fail 2000 ob_start.
Lemma ob_first : redeliver (fun w => w) (fun _ w => (Ok (Response 503 [] None), w + 250)) (fun _ w => (Ok tt, w))
  (fun w => (nat_to_string w, w + 1)) ob_key "delivery" ob_start ob_after.
Proof. exists ob_db, 2000, ob_delivery. split; [apply ob_found|]. split; reflexivity. Qed.
Example delivery_settles_witness :
  exists d, find_key dl_id "delivery" ob_after.1 = Some d /\ exists due, forall at_, due <= at_ -> claimable at_ d = true.
Proof.
  destruct (delivery_settles (fun w => w) (fun _ w => (Ok (Response 503 [] None), w + 250)) (fun _ w => (Ok tt, w))
    (fun w => (nat_to_string w, w + 1)) ob_key "delivery" [ob_delivery] 2000 ob_delivery ob_delivery_ok ob_found) as [_ H].
  destruct (H 1%nat ob_after) as (_ & d & Hd & Hok & _).
  - apply nsteps_once. exact ob_first.
  - exists d. split; [exact Hd|]. assert (Ed : find_key dl_id "delivery" ob_after.1 =
      Some (DeliveryRow "delivery" "workspace" "channel" 1 1 10 1700000000000 "e1" Availability ob_payload Pending 1 62251 None None
        (Some "provider_temporarily_unavailable") (Some 503) 1000 2251 None)) by (vm_compute; reflexivity).
    rewrite Ed in Hd. injection Hd as <-. exists 62251. intros at_ Hle. apply Z.leb_le. exact Hle.
Defined.
Example six_failures :
  map (fun d => (dl_state d, dl_attempts d, dl_error d))
    (foldl (fun s at_ => ob_fail at_ (s.1, at_)) ob_start [2000; 100000; 300000; 700000; 1500000; 3000000]).1 =
  [(Dead, 6, Some "provider_temporarily_unavailable")].
Proof. vm_compute. reflexivity. Qed.

Definition ob_sys0 : outbox_sys := OutboxSys [ob_delivery] 2000 [] [] [].
Definition ob_result : DeliveryResult := Delivery true false (Some 200) None.
Definition ob_claimed : list delivery_row := (claimDelivery ob_db "delivery" "t" 2000 [ob_delivery]).2.
Definition ob_row : ClaimedDelivery :=
  match (claimDelivery ob_db "delivery" "t" 2000 [ob_delivery]).1 with Some r => r | None => Claimed "" "" "" "" 0 None false end.
Definition ob_done : list delivery_row := finishDelivery "delivery" "t" 1 ob_result 2000 ob_claimed.
Definition ob_sys2 : outbox_sys := OutboxSys ob_done 2000 ["t"] [] ["delivery"].
Lemma ob_sys0_init : outbox_init ob_sys0.
Proof.
  split; [exact ob_delivery_ok|]. split; [|done]. intros d token ->%list_elem_of_singleton. done.
Qed.
Lemma ob_claim_run : claimDelivery ob_db "delivery" "t" 2000 [ob_delivery] = (Some ob_row, ob_claimed).
Proof. vm_compute. reflexivity. Qed.
Lemma ob_sys_run : rtc outbox_step ob_sys0 ob_sys2.
Proof.
  eapply rtc_l; [apply (ob_claim ob_db "delivery" "t" ob_row _ _ _ _ _ _ (not_elem_of_nil _) ob_claim_run)|].
  eapply rtc_l; [|apply rtc_refl].
  exact (ob_finish (Flight "delivery" "t" (2000 + CLAIM_MS) (cd_attempt_count ob_row)) ob_result ob_claimed 2000 ["t"] [] [] ["delivery"]).
Qed.
Lemma ob_done_terminal : exists d, find_key dl_id "delivery" ob_done = Some d /\ dl_state d = Sent.
Proof. eexists. split; vm_compute; reflexivity. Qed.
Example outbox_delivers_exclusively_witness :
  os_sends ob_sys2 = ["delivery"] /\ forall s, rtc outbox_step ob_sys2 s -> sends_of "delivery" (os_sends s) = 1.
Proof.
  split; [reflexivity|]. intros s Hs. destruct (outbox_delivers_exclusively ob_sys0 ob_sys2 ob_sys0_init ob_sys_run) as (_ & _ & _ & H).
  destruct ob_done_terminal as (d & Hd & Hst). destruct (H "delivery" d s Hd (or_introl Hst) Hs) as [_ Hn].
  rewrite Hn. reflexivity.
Defined.
