(* ===== verification/Discovery.v ===== *)
(** * Discovery: from state events to deliveries

    Models [workers/notifications/src/discovery.ts] and [index.ts]: the queue of state events is
    read from a cursor on, each event is matched with the rules of its resource, a delivery per
    rule is put into the outbox, and only then the cursor moves and consumed events are deleted.

    JavaScript [Map]s are finite maps on their string keys.  Statements do not fail here except
    where the code throws; a run that dies half-way is a run cut after one of its writes. *)

From Stdlib Require Import ZArith Lia Bool String Ascii List.
From stdpp Require Import base tactics gmap sets list strings sorting.
From S2P Require Import Prelude.
From S2P Require Import Js.
From S2P Require Import Sql.
From S2P Require Import Crypto.
From S2P Require Import LiveTicket.
From S2P Require Import Web.
From S2P Require Import Authz.
From S2P Require Import CheckPersistence.
From S2P Require Import Envelopes.
From S2P Require Import MachineLiveness.
From S2P Require Import Notifications.
From S2P Require Import Outbox.
Open Scope string_scope.
Open Scope Z_scope.

(* @src workers/notifications/src/discovery.ts 3-5 EVENT_LIMIT *)
Definition EVENT_LIMIT : Z := 100.
Definition INSERT_BATCH : nat := 50.
Definition MAX_MATCHED_RULES : Z := 2000.

(** The row of [notification_event_cursors]. *)
(* @src workers/notifications/src/discovery.ts CursorRow *)
Record CursorRow := Cursor { cu_singleton : Z; last_sequence : Z; cu_updated_at : Z }.
(** A joined event; its sequence is the queue entry's. *)
(* @src workers/notifications/src/discovery.ts StateEventRow *)
Record StateEventRow := QueuedEvent { sequence : Z; se_event : state_event }.
(* @src workers/notifications/src/discovery.ts ResolvedResource *)
Record ResolvedResource := Resolved {
  re_type : string;
  re_id : string;
  re_name : string;
  re_workspaceId : string;
  re_workspacePk : Z;
  re_workspaceName : string;
}.
(* @src workers/notifications/src/discovery.ts DeliveryInsert *)
Record DeliveryInsert := Insert {
  in_id : string;
  in_workspaceId : string;
  in_channelId : string;
  in_event : state_event;
  in_dimension : NotificationDimension;
  in_payload : jout;
}.

(* @src workers/notifications/src/discovery.ts dimensionForEvent *)
Definition dimensionForEvent (event : state_event) : NotificationDimension :=
  if String.eqb (ev_current event) "healthy" then Recovery
  else if String.eqb (ev_reason event) "resource_threshold" then Resource
  else Availability.
(* @src workers/notifications/src/discovery.ts resourceType *)
Definition resourceType (value : Z) : string := if value =? 1 then "machine" else "service".
(* @src workers/notifications/src/discovery.ts resourceKey *)
Definition resourceKey (type : string) (workspacePk resourcePk : Z) : string :=
  type ++ ":" ++ z_to_string workspacePk ++ ":" ++ z_to_string resourcePk.
(* @src workers/notifications/src/discovery.ts ruleKey *)
Definition ruleKey (workspaceId type resourceId : string) (dimension : NotificationDimension) : string :=
  workspaceId ++ ":" ++ type ++ ":" ++ resourceId ++ ":" ++ dimension_name dimension.

(** ** The cursor and the queue *)

(* @src workers/notifications/src/discovery.ts loadCursor *)
Definition loadCursor (db : list CursorRow) : res CursorRow :=
  match find_key cu_singleton 1 db with Some c => Ok c | None => Err "notification_cursor_missing" end.
(* @src workers/notifications/src/discovery.ts newestSequence *)
Definition newestSequence (db : telemetry_db) : Z :=
  match map qr_sequence (event_queue db) with [] => 0 | x :: l => fold_left Z.max l x end.
(* @src workers/notifications/src/discovery.ts updateCursor *)
Definition updateCursor (sequence now : Z) (db : list CursorRow) : list CursorRow :=
  (update_where (fun c => key_is cu_singleton 1 c && (last_sequence c <=? sequence))
     (fun c => Cursor (cu_singleton c) sequence now) db).1.
Definition sequence_leb (a b : queue_row) : bool := qr_sequence a <=? qr_sequence b.
(* @src workers/notifications/src/discovery.ts cleanConsumedEvents *)
Definition cleanConsumedEvents (sequence : Z) (db : telemetry_db) : telemetry_db :=
  let consumed := order_limit sequence_leb EVENT_LIMIT (List.filter (fun q => qr_sequence q <=? sequence) (event_queue db)) in
  TelemetryDb (check_blocks db) (check_latest db) (rollups_5m db) (rollups_1h db) (state_events db)
    (delete_where (fun q => existsb (fun c => qr_sequence c =? qr_sequence q) consumed) (event_queue db)).1
    (queue_next db) (service_latest db) (status_buckets db) (db_changes db).
(** The join of a queue entry with its event. *)
Definition joined (db : telemetry_db) (q : queue_row) : option StateEventRow :=
  QueuedEvent (qr_sequence q) <$>
    List.find (fun e => bool_decide (event_key e = (qr_type q, qr_resource q, qr_at q, qr_id q)) && (ev_workspace e =? qr_workspace q))
      (state_events db).
Definition event_leb (a b : StateEventRow) : bool := sequence a <=? sequence b.
(* @src workers/notifications/src/discovery.ts loadEvents *)
Definition loadEvents (db : telemetry_db) (cursor : CursorRow) : list StateEventRow :=
  order_limit event_leb EVENT_LIMIT
    (omap (joined db) (List.filter (fun q => last_sequence cursor <? qr_sequence q) (event_queue db))).

(** ** Resources and rules *)

(** The joined workspace of a resource row. *)
Definition resource_of (type : string) (db : notification_db) (r : resource_row) : option (Z * ResolvedResource) :=
  match List.find (fun w => String.eqb (ws_id w.1) (rs_workspace r)) (nt_workspaces db) with
  | Some (w, name) =>
      if is_null (rs_deleted r) && is_null (ws_deleted w)
      then Some (rs_pk r, Resolved type (rs_id r) (rs_name r) (rs_workspace r) (ws_pk w) name) else None
  | None => None
  end.
(* @src workers/notifications/src/discovery.ts loadResourceRows *)
Definition loadResourceRows (type : string) (table : list resource_row) (db : notification_db) (telemetryPks : list Z)
  : list (Z * ResolvedResource) :=
  if (length telemetryPks =? 0)%nat then []
  else omap (fun r => if existsb (Z.eqb (rs_pk r)) telemetryPks then resource_of type db r else None) table.
Definition pks_of (type : Z) (events : list StateEventRow) : list Z :=
  remove_dups (map (fun e => ev_resource (se_event e)) (List.filter (fun e => ev_type (se_event e) =? type) events)).
Definition set_resource (resolved : gmap string ResolvedResource) (row : Z * ResolvedResource) : gmap string ResolvedResource :=
  <[resourceKey (re_type row.2) (re_workspacePk row.2) row.1 := row.2]> resolved.
(* @src workers/notifications/src/discovery.ts resolveResources *)
Definition resolveResources (db : notification_db) (events : list StateEventRow) : gmap string ResolvedResource :=
  let machines := loadResourceRows "machine" (nt_machines db) db (pks_of 1 events) in
  let services := loadResourceRows "service" (nt_services db) db (pks_of 2 events) in
  fold_left set_resource (machines ++ services) ∅.

(** [resources.get(...)] of an event. *)
Definition event_resource (resources : gmap string ResolvedResource) (e : state_event) : option ResolvedResource :=
  resources !! resourceKey (resourceType (ev_type e)) (ev_workspace e) (ev_resource e).
Definition requested : Type := string * string * string * NotificationDimension.
Definition request_of (resources : gmap string ResolvedResource) (e : StateEventRow) : option (string * requested) :=
  match event_resource resources (se_event e) with
  | None => None
  | Some r =>
      let type := resourceType (ev_type (se_event e)) in
      let dimension := dimensionForEvent (se_event e) in
      Some (ruleKey (re_workspaceId r) type (re_id r) dimension, (re_workspaceId r, type, re_id r, dimension))
  end.
(** The requested [Map]: insertion order, one entry per key. *)
Definition requested_keys (resources : gmap string ResolvedResource) (events : list StateEventRow) : list (string * requested) :=
  fold_left (fun acc kv => obj_set kv.1 kv.2 acc) (omap (request_of resources) events) [].

Definition rule_tuple (rule : rule_row) : requested := (ru_workspace rule, ru_type rule, ru_resource rule, ru_dimension rule).
(** [ORDER BY rule.resource_type, rule.resource_id, rule.dimension, rule.channel_id] *)
Definition rule_leb (a b : rule_row) : bool :=
  if String.eqb (ru_type a) (ru_type b) then
    if String.eqb (ru_resource a) (ru_resource b) then
      if bool_decide (ru_dimension a = ru_dimension b) then String.leb (ru_channel a) (ru_channel b)
      else String.leb (dimension_name (ru_dimension a)) (dimension_name (ru_dimension b))
    else String.leb (ru_resource a) (ru_resource b)
  else String.leb (ru_type a) (ru_type b).
(** [rule.enabled = 1 AND channel.enabled = 1], the channel in the rule's workspace. *)
Definition rule_active (db : notification_db) (rule : rule_row) : bool :=
  (ru_enabled rule =? 1) &&
  existsb (fun c => String.eqb (ch_id c) (ru_channel rule) && String.eqb (ch_workspace c) (ru_workspace rule) && (ch_enabled c =? 1))
    (nt_channels db).
(** One query; a rule joins at most one of the distinct requested rows. *)
Definition query_rules (db : notification_db) (batch : list requested) (limit : Z) : list rule_row :=
  order_limit rule_leb limit
    (List.filter (fun rule => bool_decide (rule_tuple rule ∈ batch) && rule_active db rule) (nt_rules db)).
Definition push_rule (rules : gmap string (list rule_row)) (row : rule_row) : gmap string (list rule_row) :=
  let key := ruleKey (ru_workspace row) (ru_type row) (ru_resource row) (ru_dimension row) in
  <[key := (coalesce (rules !! key) [] ++ [row])%list]> rules.
(* @src workers/notifications/src/discovery.ts 226-259 loadRules *)
Fixpoint rule_batches (db : notification_db) (batches : list (list requested)) (matched : Z) (rules : gmap string (list rule_row))
  : res (gmap string (list rule_row)) :=
  match batches with
  | [] => Ok rules
  | batch :: rest =>
      let rows := query_rules db batch (MAX_MATCHED_RULES - matched + 1) in
      let matched := matched + Z.of_nat (length rows) in
      throw_if MAX_MATCHED_RULES <? matched as "notification_rule_batch_exceeded" in
      rule_batches db rest matched (fold_left push_rule rows rules)
  end.
(* @src workers/notifications/src/discovery.ts loadRules *)
Definition loadRules (db : notification_db) (resources : gmap string ResolvedResource) (events : list StateEventRow)
  : res (gmap string (list rule_row)) :=
  rule_batches db (chunks 24 (map snd (requested_keys resources events))) 0 ∅.

(** ** Deliveries *)

Section Discover.
Context `{WC : WebCrypto}.

(* @src workers/notifications/src/discovery.ts digestId *)
Definition digestId (value : string) : string := hex (sha256 (encode_utf8 value)).
(** SQLite's [hex()]: upper case. *)
Definition sql_hex (bytes : list byte) : string :=
  str_join "" (map (fun b => String (upper_hex (Byte.to_N b / 16)) (String (upper_hex (Byte.to_N b mod 16)) "")) bytes).

Definition identity_of (channel : string) (e : state_event) : string :=
  str_join ":" [channel; z_to_string (ev_workspace e); z_to_string (ev_type e); z_to_string (ev_resource e);
                z_to_string (ev_at e); sql_hex (ev_id e)].
Definition payload_of (resource : ResolvedResource) (e : state_event) : jout :=
  OObj [("workspace", OStr (re_workspaceName resource)); ("resourceType", OStr (resourceType (ev_type e)));
        ("resourceName", OStr (re_name resource)); ("dimension", OStr (dimension_name (dimensionForEvent e)));
        ("previousState", OStr (ev_previous e)); ("currentState", OStr (ev_current e));
        ("reasonCode", OStr (ev_reason e)); ("occurredAt", OInt (ev_at e))].
Definition delivery_for (resource : ResolvedResource) (e : state_event) (rule : rule_row) : DeliveryInsert :=
  Insert (digestId (identity_of (ru_channel rule) e)) (re_workspaceId resource) (ru_channel rule) e (dimensionForEvent e)
    (payload_of resource e).
Definition deliveries_of (resources : gmap string ResolvedResource) (rules : gmap string (list rule_row)) (event : StateEventRow)
  : list DeliveryInsert :=
  let e := se_event event in
  match event_resource resources e with
  | None => []
  | Some resource =>
      map (delivery_for resource e)
        (coalesce (rules !! ruleKey (re_workspaceId resource) (resourceType (ev_type e)) (re_id resource) (dimensionForEvent e)) [])
  end.
(* @src workers/notifications/src/discovery.ts prepareDeliveries *)
Definition prepareDeliveries (events : list StateEventRow) (resources : gmap string ResolvedResource)
    (rules : gmap string (list rule_row)) : list DeliveryInsert :=
  concat (map (deliveries_of resources rules) events).

Definition new_delivery (d : DeliveryInsert) (now : Z) : delivery_row :=
  DeliveryRow (in_id d) (in_workspaceId d) (in_channelId d) (ev_workspace (in_event d)) (ev_type (in_event d))
    (ev_resource (in_event d)) (ev_at (in_event d)) (sql_hex (ev_id (in_event d))) (in_dimension d)
    (json_stringify (in_payload d)) Pending 0 now None None None None now now None.
(** [UNIQUE (channel_id, source_workspace_pk, source_resource_type, ...)] *)
Definition source_key (d : delivery_row) : string * Z * Z * Z * Z * string :=
  (dl_channel d, dl_source_workspace d, dl_source_type d, dl_source_pk d, dl_source_at d, dl_source_event d).
(** [INSERT OR IGNORE]: either uniqueness constraint ignores the row. *)
Definition insert_delivery (d : delivery_row) (t : list delivery_row) : list delivery_row :=
  if existsb (fun r => bool_decide (source_key r = source_key d)) t then t else (insert_or_ignore dl_id d t).1.
(* @src workers/notifications/src/discovery.ts persistDeliveries *)
Definition persistDeliveries (deliveries : list DeliveryInsert) (now : Z) (t : list delivery_row) : list delivery_row :=
  fold_left (fun t batch => fold_left (fun t d => insert_delivery (new_delivery d now) t) batch t)
    (chunks INSERT_BATCH deliveries) t.

(** ** A run *)

(* @src workers/notifications/src/discovery.ts DiscoveryResult *)
Record DiscoveryResult := Discovered { scanned : Z; enqueued : Z; bootstrapped : bool }.
(** What discovery writes: the cursor and the outbox in the control database, the queue in the
    telemetry database. *)
Record discovery_state := DiscoveryState {
  ds_cursors : list CursorRow;
  ds_deliveries : list delivery_row;
  ds_telemetry : telemetry_db;
}.

(** The first run: start at the newest event. *)
Definition initialize_cursor (sequence now : Z) (db : list CursorRow) : option CursorRow * list CursorRow :=
  let '(db', n) := update_where (fun c => key_is cu_singleton 1 c && (cu_updated_at c =? 0))
                     (fun c => Cursor (cu_singleton c) sequence now) db in
  (if n =? 0 then None else find_key cu_singleton 1 db', db').

(** From the loaded cursor on. *)
(* @src workers/notifications/src/discovery.ts 369-383 discoverNotificationEvents *)
Definition discover_from (db : notification_db) (now : Z) (cursor : CursorRow) (s : discovery_state)
  : res DiscoveryResult * discovery_state :=
  let events := loadEvents (ds_telemetry s) cursor in
  if (length events =? 0)%nat then
    (Ok (Discovered 0 0 false),
     DiscoveryState (ds_cursors s) (ds_deliveries s) (cleanConsumedEvents (last_sequence cursor) (ds_telemetry s)))
  else
    let resources := resolveResources db events in
    match loadRules db resources events with
    | Err e => (Err e, s)
    | Ok rules =>
        let deliveries := prepareDeliveries events resources rules in
        let sequence := match last events with Some e => sequence e | None => last_sequence cursor end in
        (Ok (Discovered (Z.of_nat (length events)) (Z.of_nat (length deliveries)) false),
         DiscoveryState (updateCursor sequence now (ds_cursors s)) (persistDeliveries deliveries now (ds_deliveries s))
           (cleanConsumedEvents sequence (ds_telemetry s)))
    end.
(* @src workers/notifications/src/discovery.ts discoverNotificationEvents *)
Definition discoverNotificationEvents (db : notification_db) (now : Z) (s : discovery_state)
  : res DiscoveryResult * discovery_state :=
  match loadCursor (ds_cursors s) with
  | Err e => (Err e, s)
  | Ok cursor =>
      if cu_updated_at cursor =? 0 then
        match initialize_cursor (newestSequence (ds_telemetry s)) now (ds_cursors s) with
        | (Some initialized, cursors) =>
            (Ok (Discovered 0 0 true),
             DiscoveryState cursors (ds_deliveries s) (cleanConsumedEvents (last_sequence initialized) (ds_telemetry s)))
        | (None, cursors) =>
            let s := DiscoveryState cursors (ds_deliveries s) (ds_telemetry s) in
            match loadCursor cursors with
            | Err e => (Err e, s)
            | Ok cursor => discover_from db now cursor s
            end
        end
      else discover_from db now cursor s
  end.
End Discover.

(** ** The string keys determine what they are made of *)

Definition no_colon (s : string) : bool := str_forall (fun c => negb (Ascii.eqb c ":")) s.

Lemma digits_no_colon s : str_forall is_digit s = true -> no_colon s = true.
Proof.
  apply str_forall_impl. intros c Hc. apply negb_true_iff, not_true_is_false. intros E. apply Ascii.eqb_eq in E as ->. done.
Qed.
Lemma z_no_colon z : no_colon (z_to_string z) = true.
Proof.
  unfold z_to_string. destruct (z <? 0) eqn:E; bool_hyps.
  - change ("-" ++ nat_to_string (- z)) with (String "-" (nat_to_string (- z))). cbn [no_colon str_forall].
    apply digits_no_colon, dec_digits_digits; [lia | done].
  - apply digits_no_colon, dec_digits_digits; [lia | done].
Qed.

(** A part without a colon ends at the first colon. *)
Lemma colon_split a a' b b' : no_colon a = true -> no_colon a' = true -> a ++ ":" ++ b = a' ++ ":" ++ b' -> a = a' /\ b = b'.
Proof.
  unfold no_colon. revert a'. induction a as [|c a IH]; intros a' Ha Ha' E.
  - destruct a' as [|c' a']; [by injection E|]. cbn in E. injection E as <- _. by cbn in Ha'.
  - destruct a' as [|c' a']; [cbn in E; injection E as -> _; by cbn in Ha|]. cbn in E. injection E as <- E.
    cbn in Ha, Ha'. apply andb_true_iff in Ha as [_ Ha], Ha' as [_ Ha']. destruct (IH a' Ha Ha' E) as [-> ->]. done.
Qed.
Lemma resourceKey_inj t t' w w' r r' : no_colon t = true -> no_colon t' = true ->
  resourceKey t w r = resourceKey t' w' r' -> t = t' /\ w = w' /\ r = r'.
Proof.
  intros Ht Ht' E. apply colon_split in E as [-> E]; [|done..].
  apply colon_split in E as [Ew Er]; [|apply z_no_colon..]. apply z_to_string_inj in Ew, Er. done.
Qed.
Lemma dimension_name_inj d d' : dimension_name d = dimension_name d' -> d = d'.
Proof. by destruct d, d'. Qed.
Lemma ruleKey_inj w w' t t' i i' d d' : no_colon w = true -> no_colon w' = true -> no_colon t = true -> no_colon t' = true ->
  no_colon i = true -> no_colon i' = true -> ruleKey w t i d = ruleKey w' t' i' d' -> (w, t, i, d) = (w', t', i', d').
Proof.
  intros ? ? ? ? ? ? E. apply colon_split in E as [-> E]; [|done..]. apply colon_split in E as [-> E]; [|done..].
  apply colon_split in E as [-> E]; [|done..]. by apply dimension_name_inj in E as ->.
Qed.
Lemma upper_hex_inj a b : (a < 16)%N -> (b < 16)%N -> upper_hex a = upper_hex b -> a = b.
Proof.
  intros Ha Hb E. assert (H : forall n, (n < 16)%N -> n ∈ map N.of_nat (seq 0 16)).
  { intros n Hn. apply list_elem_of_In, in_map_iff. exists (N.to_nat n). split; [lia|]. apply in_seq. lia. }
  apply H in Ha, Hb. revert E. clear H. cbn in Ha, Hb.
  repeat (apply elem_of_cons in Ha as [->|Ha]; [|]); try (by apply elem_of_nil in Ha);
  repeat (apply elem_of_cons in Hb as [->|Hb]; [vm_compute; (reflexivity || discriminate)|]); by apply elem_of_nil in Hb.
Qed.
Lemma sql_hex_inj a b : sql_hex a = sql_hex b -> a = b.
Proof.
  unfold sql_hex. assert (Hj : forall l, str_join "" l = fold_right String.append "" l).
  { induction l as [|x [|y l] IH]; [done | by cbn; rewrite str_app_nil_r |]. cbn [str_join fold_right] in *. by rewrite IH. }
  rewrite !Hj. revert b. induction a as [|x a IH]; intros [|y b]; [done | done | done |]. cbn [map fold_right].
  cbn [String.append]. intros E. injection E as E1 E2 E.
  assert (Hx : forall z : byte, (Byte.to_N z / 16 < 16)%N /\ (Byte.to_N z mod 16 < 16)%N).
  { intros z. split; [|apply N.mod_lt; lia]. apply N.Div0.div_lt_upper_bound.
    pose proof (bz_range z). unfold bz in *. lia. }
  apply upper_hex_inj in E1; [|apply Hx..]. apply upper_hex_inj in E2; [|apply Hx..]. f_equal; [|by apply IH].
  apply bz_inj. unfold bz. f_equal. rewrite (N.div_mod (Byte.to_N x) 16), (N.div_mod (Byte.to_N y) 16) by lia. congruence.
Qed.

(** ** What ought to be sent, without maps or keys *)

(** The live resource of an event, in the event's workspace. *)
Definition live_resource (db : notification_db) (e : state_event) (r : ResolvedResource) : Prop :=
  exists row, row ∈ (if ev_type e =? 1 then nt_machines db else nt_services db) /\
    resource_of (resourceType (ev_type e)) db row = Some (ev_resource e, r) /\ re_workspacePk r = ev_workspace e.
(** A rule that asks for an event's notification. *)
Definition wanted (db : notification_db) (e : state_event) (r : ResolvedResource) (rule : rule_row) : Prop :=
  live_resource db e r /\ rule ∈ nt_rules db /\ rule_active db rule = true /\
  rule_tuple rule = (re_workspaceId r, resourceType (ev_type e), re_id r, dimensionForEvent e).

(** Identifiers are UUIDs and telemetry keys are unique. *)
Record config_ok (db : notification_db) : Prop := {
  cf_machines : NoDup (map rs_pk (nt_machines db));
  cf_services : NoDup (map rs_pk (nt_services db));
  cf_ids : forall row, row ∈ nt_machines db \/ row ∈ nt_services db -> no_colon (rs_id row) = true /\ no_colon (rs_workspace row) = true;
  cf_rules : forall rule, rule ∈ nt_rules db ->
    no_colon (ru_workspace rule) = true /\ no_colon (ru_type rule) = true /\ no_colon (ru_resource rule) = true;
}.

Lemma resourceType_no_colon t : no_colon (resourceType t) = true.
Proof. unfold resourceType. by destruct (t =? 1). Qed.
Lemma resource_of_spec type db row pk r : resource_of type db row = Some (pk, r) ->
  pk = rs_pk row /\ re_type r = type /\ re_id r = rs_id row /\ re_workspaceId r = rs_workspace row.
Proof.
  unfold resource_of. destruct (List.find _ _) as [[w name]|]; [|done]. destruct (_ && _); [|done]. by intros [= <- <-].
Qed.

(** Setting rows whose keys determine them. *)
Lemma fold_set_resource l : (forall x y, x ∈ l -> y ∈ l ->
    resourceKey (re_type x.2) (re_workspacePk x.2) x.1 = resourceKey (re_type y.2) (re_workspacePk y.2) y.1 -> x.2 = y.2) ->
  forall k r, fold_left set_resource l ∅ !! k = Some r <->
    exists x, x ∈ l /\ resourceKey (re_type x.2) (re_workspacePk x.2) x.1 = k /\ x.2 = r.
Proof.
  induction l as [|x l IH] using rev_ind; intros Hk k r.
  - cbn [fold_left]. rewrite lookup_empty. split; [done|]. intros (x & H & _). by apply elem_of_nil in H.
  - rewrite fold_left_app. cbn [fold_left]. unfold set_resource at 1.
    assert (Hl : forall y, y ∈ l -> y ∈ (l ++ [x])%list) by (intros; set_solver).
    specialize (IH (fun a b Ha Hb => Hk a b (Hl a Ha) (Hl b Hb))).
    destruct (decide (resourceKey (re_type x.2) (re_workspacePk x.2) x.1 = k)) as [E|E].
    + subst k. rewrite lookup_insert_eq. split.
      * intros [= <-]. exists x. split; [set_solver | done].
      * intros (y & Hy & Hkey & <-). f_equal. apply Hk; [set_solver | done | done].
    + rewrite lookup_insert_ne by done. rewrite IH. split; intros (y & Hy & Hkey & <-).
      * exists y. split; [by apply Hl | done].
      * apply elem_of_app in Hy as [Hy|Hy]; [by exists y|]. apply list_elem_of_singleton in Hy as ->. done.
Qed.

Lemma elem_of_loadResourceRows type table db pks x : x ∈ loadResourceRows type table db pks <->
  exists row, row ∈ table /\ rs_pk row ∈ pks /\ resource_of type db row = Some x.
Proof.
  unfold loadResourceRows. destruct pks as [|pk pks].
  - cbn. rewrite elem_of_nil. split; [done|]. intros (row & _ & H & _). by apply elem_of_nil in H.
  - cbn [length Nat.eqb]. rewrite list_elem_of_omap. split.
    + intros (row & Hrow & H). destruct (existsb _ _) eqn:E in H; [|done]. apply existsb_exists_elem in E as (z & Hz & Ez).
      apply Z.eqb_eq in Ez. subst z. by exists row.
    + intros (row & Hrow & Hpk & H). exists row. split; [done|].
      assert (existsb (Z.eqb (rs_pk row)) (pk :: pks) = true) as -> by (apply existsb_exists_elem; exists (rs_pk row); by rewrite Z.eqb_refl).
      done.
Qed.
Lemma elem_of_pks type events pk : pk ∈ pks_of type events <-> exists ev, ev ∈ events /\ ev_type (se_event ev) = type /\ ev_resource (se_event ev) = pk.
Proof.
  unfold pks_of. rewrite elem_of_remove_dups, list_elem_of_fmap. setoid_rewrite filter_In_elem. setoid_rewrite Z.eqb_eq. naive_solver.
Qed.
Lemma pk_unique table (a b : resource_row) : NoDup (map rs_pk table) -> a ∈ table -> b ∈ table -> rs_pk a = rs_pk b -> a = b.
Proof.
  intros Hnd Ha Hb E. pose proof (find_key_unique rs_pk (rs_pk b) table a Hnd Ha E) as H1.
  pose proof (find_key_unique rs_pk (rs_pk b) table b Hnd Hb eq_refl) as H2. congruence.
Qed.

Section Matching.
Context (db : notification_db) (events : list StateEventRow).
Hypothesis Hdb : config_ok db.
Hypothesis Htypes : forall ev, ev ∈ events -> ev_type (se_event ev) = 1 \/ ev_type (se_event ev) = 2.
Notation resources := (resolveResources db events).

(** The map of resources holds the live resource of each event. *)
Lemma event_resource_live ev r : ev ∈ events -> event_resource resources (se_event ev) = Some r <-> live_resource db (se_event ev) r.
Proof.
  intros Hev. set (e := se_event ev). destruct Hdb as [Hm Hs _ _].
  assert (Hrows : forall x, x ∈ (loadResourceRows "machine" (nt_machines db) db (pks_of 1 events) ++
      loadResourceRows "service" (nt_services db) db (pks_of 2 events))%list <->
    exists row type, (type = 1 /\ row ∈ nt_machines db \/ type = 2 /\ row ∈ nt_services db) /\ rs_pk row ∈ pks_of type events /\
      resource_of (resourceType type) db row = Some x).
  { intros x. rewrite elem_of_app, !elem_of_loadResourceRows. split.
    - intros [(row & ? & ? & ?)|(row & ? & ? & ?)]; [exists row, 1 | exists row, 2]; naive_solver.
    - intros (row & type & [[-> ?]|[-> ?]] & ? & ?); [left | right]; exists row; done. }
  unfold event_resource, resolveResources. rewrite fold_set_resource.
  - setoid_rewrite Hrows. split.
    + intros (x & (row & type & Hrow & Hpk & Hx) & Hkey & <-). destruct x as [pk r0]. cbn [fst snd] in *.
      destruct (resource_of_spec _ _ _ _ _ Hx) as (-> & Ht & _ & _). rewrite Ht in Hkey.
      apply resourceKey_inj in Hkey as (Et & Ew & Epk); [|apply resourceType_no_colon..].
      assert (Hety := Htypes ev Hev). fold e in Hety.
      exists row. unfold e in *. unfold resourceType in Et.
      destruct Hrow as [[-> Hrow]|[-> Hrow]]; destruct Hety as [Hety|Hety]; rewrite Hety in *; cbn in *; try done; by rewrite <- Epk.
    + intros (row & Hrow & Hx & Hw). exists (ev_resource e, r). cbn [fst snd].
      destruct (resource_of_spec _ _ _ _ _ Hx) as (Epk & Ht & _ & _). rewrite Ht, Hw. split; [|done].
      exists row, (ev_type e). split.
      * destruct (Htypes ev Hev) as [Hty|Hty]; fold e in Hty; rewrite Hty in *; cbn in Hrow; [by left | by right].
      * split; [|done]. rewrite <- Epk. apply elem_of_pks. by exists ev.
  - intros x y Hx Hy. apply Hrows in Hx as (row & type & Hrow & _ & Hx), Hy as (row' & type' & Hrow' & _ & Hy).
    destruct x as [pk r1], y as [pk' r2]. cbn [fst snd].
    destruct (resource_of_spec _ _ _ _ _ Hx) as (-> & Ht & _), (resource_of_spec _ _ _ _ _ Hy) as (-> & Ht' & _).
    rewrite Ht, Ht'. intros E. apply resourceKey_inj in E as (Et & _ & Epk); [|apply resourceType_no_colon..].
    assert (type = type' /\ row = row') as [<- <-]; [|congruence].
    destruct Hrow as [[-> H1]|[-> H1]], Hrow' as [[-> H2]|[-> H2]]; try discriminate Et; (split; [done|]);
      [by apply (pk_unique (nt_machines db)) | by apply (pk_unique (nt_services db))].
Qed.

Lemma live_no_colon ev r : live_resource db (se_event ev) r -> no_colon (re_workspaceId r) = true /\ no_colon (re_id r) = true.
Proof.
  intros (row & Hrow & Hx & _). destruct (resource_of_spec _ _ _ _ _ Hx) as (_ & _ & -> & ->). destruct Hdb as [_ _ Hids _].
  destruct (Hids row) as [? ?]; [|done]. destruct (ev_type _ =? 1); auto.
Qed.
Definition event_tuple (e : state_event) (r : ResolvedResource) : requested :=
  (re_workspaceId r, resourceType (ev_type e), re_id r, dimensionForEvent e).
Definition tuple_key (q : requested) : string := ruleKey q.1.1.1 q.1.1.2 q.1.2 q.2.
Definition tuple_ok (q : requested) : Prop := no_colon q.1.1.1 = true /\ no_colon q.1.1.2 = true /\ no_colon q.1.2 = true.
Lemma tuple_key_inj q q' : tuple_ok q -> tuple_ok q' -> tuple_key q = tuple_key q' -> q = q'.
Proof. destruct q as [[[w t] i] d], q' as [[[w' t'] i'] d']. intros (? & ? & ?) (? & ? & ?) E. by apply ruleKey_inj in E. Qed.

(** The requested tuples are those of the events that have a resource. *)
Lemma obj_set_elem {A} k (v : A) l x : x ∈ obj_set k v l -> x = (k, v) \/ x ∈ l.
Proof.
  induction l as [|[k0 v0] l IH]; cbn [obj_set].
  - intros H. apply list_elem_of_singleton in H as ->. by left.
  - destruct (String.eqb k k0) eqn:E; intros H; apply elem_of_cons in H as [->|H].
    + left. by apply String.eqb_eq in E as ->.
    + right. by right.
    + right. by left.
    + destruct (IH H) as [->|?]; [by left | right; by right].
Qed.
Lemma obj_get_elem' {A} k (v : A) l : obj_get k l = Some v -> (k, v) ∈ l.
Proof.
  induction l as [|[k0 v0] l IH]; [done|]. cbn. destruct (String.eqb k k0) eqn:E; [|right; by apply IH].
  intros [= ->]. apply String.eqb_eq in E as ->. by left.
Qed.
Lemma requested_map {A} (l : list (string * A)) : (forall k v v', (k, v) ∈ l -> (k, v') ∈ l -> v = v') ->
  forall x, x ∈ fold_left (fun acc kv => obj_set kv.1 kv.2 acc) l [] <-> x ∈ l.
Proof.
  intros Hf. assert (H : forall x, x ∈ fold_left (fun acc kv => obj_set kv.1 kv.2 acc) l [] -> x ∈ l).
  { induction l as [|x l IH] using rev_ind; [done|]. rewrite fold_left_app. cbn [fold_left]. intros y Hy.
    apply obj_set_elem in Hy as [->|Hy]; [destruct x; set_solver|]. apply elem_of_app. left. apply IH; [|done].
    intros k v v' ? ?. apply (Hf k); set_solver. }
  intros x. split; [apply H|]. destruct x as [k v]. intros Hx.
  assert (Hget : exists v', obj_get k (fold_left (fun acc kv => obj_set kv.1 kv.2 acc) l []) = Some v').
  { clear H Hf. induction l as [|y l IH] using rev_ind; [by apply elem_of_nil in Hx|]. rewrite fold_left_app. cbn [fold_left].
    rewrite obj_get_set. destruct (String.eqb k y.1) eqn:E; [by eexists|]. apply elem_of_app in Hx as [Hx|Hx]; [by apply IH|].
    apply list_elem_of_singleton in Hx as <-. cbn in E. by rewrite String.eqb_refl in E. }
  destruct Hget as [v' Hv']. apply obj_get_elem' in Hv'. assert (v' = v) as <-; [|done]. apply (Hf k); [by apply H | done].
Qed.
Lemma elem_of_requested q : q ∈ map snd (requested_keys resources events) <->
  exists ev r, ev ∈ events /\ live_resource db (se_event ev) r /\ q = event_tuple (se_event ev) r.
Proof.
  assert (Hom : forall kv, kv ∈ omap (request_of resources) events <->
    exists ev r, ev ∈ events /\ live_resource db (se_event ev) r /\ kv = (tuple_key (event_tuple (se_event ev) r), event_tuple (se_event ev) r)).
  { intros kv. rewrite list_elem_of_omap. split.
    - intros (ev & Hev & H). unfold request_of in H. destruct (event_resource resources (se_event ev)) as [r|] eqn:Er; [|done].
      injection H as <-. exists ev, r. split; [done|]. split; [by apply event_resource_live | done].
    - intros (ev & r & Hev & Hl & ->). exists ev. split; [done|]. apply event_resource_live in Hl; [|done]. unfold request_of.
      by rewrite Hl. }
  unfold requested_keys. rewrite list_elem_of_fmap. setoid_rewrite requested_map.
  - setoid_rewrite Hom. naive_solver.
  - intros k v v' Hv Hv'. apply Hom in Hv as (ev & r & _ & Hl & [= Ek ->]), Hv' as (ev' & r' & _ & Hl' & [= Ek' ->]).
    apply tuple_key_inj; [| |congruence].
    + destruct (live_no_colon _ _ Hl) as [? ?]. split_and!; [done | apply resourceType_no_colon | done].
    + destruct (live_no_colon _ _ Hl') as [? ?]. split_and!; [done | apply resourceType_no_colon | done].
Qed.

Lemma push_rules rows key rule : forall rules,
  rule ∈ coalesce (fold_left push_rule rows rules !! key) [] <->
  rule ∈ coalesce (rules !! key) [] \/ rule ∈ rows /\ tuple_key (rule_tuple rule) = key.
Proof.
  induction rows as [|x rows IH]; intros rules; cbn [fold_left].
  - split; [by left|]. intros [?|[H _]]; [done | by apply elem_of_nil in H].
  - rewrite IH. unfold push_rule. change (ruleKey _ _ _ _) with (tuple_key (rule_tuple x)).
    destruct (decide (tuple_key (rule_tuple x) = key)) as [E|E].
    + rewrite E, lookup_insert_eq. cbn [coalesce]. rewrite elem_of_app, list_elem_of_singleton, elem_of_cons. naive_solver.
    + rewrite lookup_insert_ne by done. rewrite elem_of_cons. naive_solver.
Qed.
Lemma query_rules_complete batch n : 0 <= n -> Z.of_nat (length (query_rules db batch (n + 1))) <= n ->
  forall rule, rule ∈ query_rules db batch (n + 1) <-> rule ∈ nt_rules db /\ rule_tuple rule ∈ batch /\ rule_active db rule = true.
Proof.
  intros Hn Hl rule. unfold query_rules in *. rewrite (order_limit_complete rule_leb n _ Hn Hl), filter_In_elem.
  rewrite andb_true_iff, bool_decide_eq_true. done.
Qed.
Lemma rule_batches_spec batches : forall matched rules out, 0 <= matched <= MAX_MATCHED_RULES ->
  rule_batches db batches matched rules = Ok out -> forall key rule,
  rule ∈ coalesce (out !! key) [] <-> rule ∈ coalesce (rules !! key) [] \/
    (rule ∈ nt_rules db /\ rule_active db rule = true /\ rule_tuple rule ∈ concat batches /\ tuple_key (rule_tuple rule) = key).
Proof.
  induction batches as [|b batches IH]; intros matched rules out Hm; cbn [rule_batches concat].
  - intros <-%Ok_inj key rule. rewrite elem_of_nil. naive_solver.
  - destruct (MAX_MATCHED_RULES <? _) eqn:E; [done|]. apply Z.ltb_ge in E. intros Hrun key rule.
    match type of Hrun with rule_batches _ _ ?m _ = _ => assert (Hm' : 0 <= m <= MAX_MATCHED_RULES) by lia end.
    rewrite (IH _ _ _ Hm' Hrun), push_rules, query_rules_complete by lia. rewrite elem_of_app. naive_solver.
Qed.

Lemma loadRules_wanted rules : loadRules db resources events = Ok rules -> forall ev r rule, ev ∈ events ->
  live_resource db (se_event ev) r ->
  rule ∈ coalesce (rules !! tuple_key (event_tuple (se_event ev) r)) [] <-> wanted db (se_event ev) r rule.
Proof.
  unfold loadRules. intros Hrun ev r rule Hev Hl.
  assert (Hm : 0 <= 0 <= MAX_MATCHED_RULES) by (unfold MAX_MATCHED_RULES; lia).
  rewrite (rule_batches_spec _ _ _ _ Hm Hrun). rewrite chunks_concat by lia.
  rewrite lookup_empty, elem_of_requested. cbn [coalesce]. unfold wanted. rewrite elem_of_nil. split.
  - intros [[]|(Hin & Ha & (ev' & r' & _ & Hl' & Et) & Hk)]. split_and!; [done | done | done|].
    rewrite Et in Hk. rewrite Et. apply tuple_key_inj; [| |done];
      [destruct (live_no_colon _ _ Hl') | destruct (live_no_colon _ _ Hl)]; (split_and!; [done | apply resourceType_no_colon | done]).
  - intros (_ & Hin & Ha & Et). right. change (_, _, _, _) with (event_tuple (se_event ev) r) in Et. rewrite Et.
    split_and!; [done | done | by exists ev, r | done].
Qed.

(** The prepared deliveries are one per wanted notification. *)
Lemma prepareDeliveries_wanted `{WC : WebCrypto} rules : loadRules db resources events = Ok rules -> forall d,
  d ∈ prepareDeliveries events resources rules <->
  exists ev r rule, ev ∈ events /\ wanted db (se_event ev) r rule /\ d = delivery_for r (se_event ev) rule.
Proof.
  intros Hrun d. unfold prepareDeliveries. rewrite list_elem_of_In, in_concat. setoid_rewrite in_map_iff.
  setoid_rewrite <- list_elem_of_In. split.
  - intros (l & (ev & <- & Hev) & Hd). unfold deliveries_of in Hd.
    destruct (event_resource resources (se_event ev)) as [r|] eqn:Er; [|by apply elem_of_nil in Hd].
    apply event_resource_live in Er; [|done]. apply list_elem_of_fmap in Hd as (rule & -> & Hrule).
    apply (loadRules_wanted _ Hrun ev r rule Hev Er) in Hrule. by exists ev, r, rule.
  - intros (ev & r & rule & Hev & Hw & ->). eexists. split; [by exists ev|]. unfold deliveries_of.
    assert (Hl := proj1 Hw). rewrite (proj2 (event_resource_live ev r Hev) Hl). apply (list_elem_of_fmap_2 (delivery_for r (se_event ev))).
    by apply (loadRules_wanted _ Hrun ev r rule Hev Hl).
Qed.
End Matching.

(** ** The outbox takes each of them once *)

Section Persist.
Context `{WC : WebCrypto}.

Lemma fold_chunks {A B} (f : B -> A -> B) n l : (0 < n)%nat -> forall b,
  fold_left (fun b c => fold_left f c b) (chunks n l) b = fold_left f l b.
Proof.
  intros Hn b. rewrite <- (chunks_concat n l Hn) at 2. generalize (chunks n l). intros cs. revert b.
  induction cs as [|c cs IH]; intros b; [done|]. cbn [fold_left concat]. by rewrite fold_left_app, IH.
Qed.
Lemma persist_flat t ds now : persistDeliveries ds now t = fold_left (fun t d => insert_delivery (new_delivery d now) t) ds t.
Proof. unfold persistDeliveries. apply (fold_chunks (fun t d => insert_delivery (new_delivery d now) t)). unfold INSERT_BATCH. lia. Qed.

(** No two different notifications have the same digest. *)
Definition collision_free (t : list delivery_row) (ds : list DeliveryInsert) (now : Z) : Prop :=
  forall a b, a ∈ (t ++ map (fun d => new_delivery d now) ds)%list -> b ∈ (t ++ map (fun d => new_delivery d now) ds)%list ->
    dl_id a = dl_id b -> source_key a = source_key b.

Lemma insert_delivery_cases d t : (forall a, a ∈ t -> dl_id a = dl_id d -> source_key a = source_key d) ->
  insert_delivery d t = if existsb (fun r => bool_decide (source_key r = source_key d)) t then t else (t ++ [d])%list.
Proof.
  intros Hc. unfold insert_delivery. destruct (existsb _ t) eqn:E; [done|]. unfold insert_or_ignore.
  destruct (has_key dl_id (dl_id d) t) eqn:Ek; [|done]. exfalso. apply has_key_elem in Ek.
  apply list_elem_of_fmap in Ek as (a & Ea & Ha). rewrite existsb_false_elem in E. specialize (E a Ha).
  apply bool_decide_eq_false in E. by apply E, Hc.
Qed.

(** Old rows stay, every prepared source has a row, a row is new only for a prepared source, and
    sources stay unique. *)
Lemma persist_spec ds now : forall t, collision_free t ds now -> NoDup (map source_key t) ->
  exists added, persistDeliveries ds now t = (t ++ added)%list /\ NoDup (map source_key (t ++ added)) /\
    (forall r, r ∈ added -> exists d, d ∈ ds /\ r = new_delivery d now) /\
    (forall d, d ∈ ds -> exists r, r ∈ (t ++ added)%list /\ source_key r = source_key (new_delivery d now)).
Proof.
  setoid_rewrite persist_flat. induction ds as [|d ds IH]; intros t Hc Hnd; cbn [fold_left].
  - exists []. rewrite app_nil_r. split_and!; try done; intros ? H; by apply elem_of_nil in H.
  - rewrite insert_delivery_cases by (intros a Ha; apply Hc; cbn [map]; set_solver).
    destruct (existsb _ t) eqn:E.
    + apply existsb_exists_elem in E as (r0 & Hr0 & E). apply bool_decide_eq_true in E.
      destruct (IH t) as (added & -> & H1 & H2 & H3); [intros a b Ha Hb; apply Hc; cbn [map]; set_solver | done|].
      exists added. split_and!; [done | done | |].
      * intros r Hr. destruct (H2 r Hr) as (d' & ? & ->). exists d'. split; [by right | done].
      * intros d' Hd'. apply elem_of_cons in Hd' as [->|Hd']; [|by apply H3]. exists r0. split; [set_solver | done].
    + destruct (IH (t ++ [new_delivery d now])%list) as (added & Heq & H1 & H2 & H3).
      * intros a b Ha Hb. apply Hc; cbn [map]; set_solver.
      * rewrite map_app. apply NoDup_app. split_and!; [done | | apply NoDup_singleton].
        intros k Hk Hk'. apply list_elem_of_singleton in Hk' as ->. apply list_elem_of_fmap in Hk as (a & Ea & Ha).
        rewrite existsb_false_elem in E. specialize (E a Ha). apply bool_decide_eq_false in E. by apply E.
      * exists (new_delivery d now :: added). rewrite Heq, <- app_assoc. cbn [app]. rewrite <- app_assoc in H1. split_and!; [done | done | |].
        -- intros r Hr. apply elem_of_cons in Hr as [->|Hr]; [exists d; split; [by left | done]|].
           destruct (H2 r Hr) as (d' & ? & ->). exists d'. split; [by right | done].
        -- intros d' Hd'. apply elem_of_cons in Hd' as [->|Hd'].
           ++ exists (new_delivery d now). split; [set_solver | done].
           ++ destruct (H3 d' Hd') as (r & Hr & ?). exists r. rewrite <- app_assoc in Hr. done.
Qed.

(** Once every source has a row, persisting again (later) changes nothing. *)
Lemma persist_again ds now t : (forall d, d ∈ ds -> exists r, r ∈ t /\ source_key r = source_key (new_delivery d now)) ->
  persistDeliveries ds now t = t.
Proof.
  rewrite persist_flat. induction ds as [|d ds IH]; intros H; [done|]. cbn [fold_left].
  assert (insert_delivery (new_delivery d now) t = t) as ->.
  { unfold insert_delivery. destruct (H d) as (r & Hr & E); [by left|].
    assert (existsb (fun r => bool_decide (source_key r = source_key (new_delivery d now))) t = true) as ->; [|done].
    apply existsb_exists_elem. exists r. split; [done|]. by apply bool_decide_eq_true. }
  apply IH. intros d' Hd'. apply H. by right.
Qed.
Lemma persist_ok ds now : forall t, deliveries_ok t -> deliveries_ok (persistDeliveries ds now t).
Proof.
  setoid_rewrite persist_flat. induction ds as [|d ds IH]; intros t Hok; [done|]. cbn [fold_left]. apply IH.
  unfold insert_delivery. destruct (existsb _ _); [done|]. destruct Hok as [Hu Hok]. split; [by apply insert_or_ignore_unique|].
  intros r. unfold insert_or_ignore. destruct (has_key _ _ _); [apply Hok|]. cbn [fst]. rewrite elem_of_app, list_elem_of_singleton.
  intros [Hr | ->]; [by apply Hok|]. split; cbn; [unfold MAX_ATTEMPTS; lia | split; [done | intros [? ?]; done] | done].
Qed.
End Persist.

(** ** A whole run *)

(** Sequences are the queue's primary key; only machines and services are queued. *)
Record queue_ok (db : telemetry_db) : Prop := {
  qo_sequences : NoDup (map qr_sequence (event_queue db));
  qo_types : forall q, q ∈ event_queue db -> qr_type q = 1 \/ qr_type q = 2;
}.

#[export] Instance state_event_eq_dec : EqDecision state_event. Proof. solve_decision. Defined.
#[export] Instance queued_event_eq_dec : EqDecision StateEventRow. Proof. solve_decision. Defined.

Section Run.
Context `{WC : WebCrypto}.

Lemma joined_spec db q ev : joined db q = Some ev -> sequence ev = qr_sequence q /\ se_event ev ∈ state_events db /\
  event_key (se_event ev) = (qr_type q, qr_resource q, qr_at q, qr_id q) /\ ev_workspace (se_event ev) = qr_workspace q.
Proof.
  unfold joined. destruct (List.find _ _) as [e|] eqn:E; [|done]. intros [= <-]. apply List.find_some in E as [Hin E].
  apply andb_true_iff in E as [E1 E2]. apply bool_decide_eq_true in E1. apply Z.eqb_eq in E2.
  by rewrite list_elem_of_In.
Qed.
Lemma joined_type db q ev : queue_ok db -> q ∈ event_queue db -> joined db q = Some ev -> ev_type (se_event ev) = 1 \/ ev_type (se_event ev) = 2.
Proof.
  intros [_ Ht] Hq Hj. apply joined_spec in Hj as (_ & _ & Hk & _). unfold event_key in Hk. injection Hk as -> _ _ _. by apply Ht.
Qed.

Lemma elem_of_loadEvents db cursor ev : ev ∈ loadEvents db cursor ->
  exists q, q ∈ event_queue db /\ last_sequence cursor < qr_sequence q /\ joined db q = Some ev.
Proof.
  intros H. apply elem_of_order_limit, list_elem_of_omap in H as (q & Hq & Hj). apply filter_In_elem in Hq as [Hq Hlt].
  apply Z.ltb_lt in Hlt. by exists q.
Qed.
Lemma event_leb_total x y : event_leb x y = true \/ event_leb y x = true.
Proof. unfold event_leb. rewrite !Z.leb_le. lia. Qed.
Lemma event_leb_trans x y z : event_leb x y = true -> event_leb y z = true -> event_leb x z = true.
Proof. unfold event_leb. rewrite !Z.leb_le. lia. Qed.
Lemma last_event_latest l x y : StronglySorted (Leb event_leb) l -> last l = Some y -> x ∈ l -> sequence x <= sequence y.
Proof.
  intros Hs Hl Hx. destruct l as [|a l'] using rev_ind; [done|]. rewrite last_snoc in Hl. injection Hl as ->.
  apply elem_of_app in Hx as [Hx|Hx]; [|by apply list_elem_of_singleton in Hx as ->].
  assert (H : Leb event_leb x y); [|by apply Z.leb_le in H].
  by apply (StronglySorted_app_1_elem_of _ _ _ x y Hs); [|left].
Qed.
Lemma loadEvents_last db cursor ev y : last (loadEvents db cursor) = Some y -> ev ∈ loadEvents db cursor -> sequence ev <= sequence y.
Proof.
  unfold loadEvents, order_limit. set (l := order_by _ _). apply last_event_latest.
  assert (Hs : StronglySorted (Leb event_leb) l).
  { apply (@Sorted_StronglySorted _ _ event_leb_trans). apply order_by_Sorted, event_leb_total. }
  rewrite <- (take_drop (Z.to_nat EVENT_LIMIT) l) in Hs. by apply StronglySorted_app_1_l in Hs.
Qed.
(** No event up to the last one scanned is passed over. *)
Lemma loadEvents_complete db cursor q ev y : queue_ok db -> last (loadEvents db cursor) = Some y -> q ∈ event_queue db ->
  joined db q = Some ev -> last_sequence cursor < qr_sequence q -> qr_sequence q <= sequence y -> ev ∈ loadEvents db cursor.
Proof.
  intros [Hnd _] Hy Hq Hj Hlt Hle. destruct (decide (ev ∈ loadEvents db cursor)) as [|Hn]; [done|].
  assert (Hyin : y ∈ loadEvents db cursor) by (by apply last_Some_elem_of).
  assert (Hin : ev ∈ omap (joined db) (List.filter (fun q => last_sequence cursor <? qr_sequence q) (event_queue db))).
  { apply list_elem_of_omap. exists q. split; [|done]. apply filter_In_elem. split; [done|]. by apply Z.ltb_lt. }
  pose proof (order_limit_first event_leb event_leb_total event_leb_trans EVENT_LIMIT _ ev y Hyin Hin Hn) as Hleb.
  apply Z.leb_le in Hleb. destruct (joined_spec _ _ _ Hj) as (Es & _).
  destruct (elem_of_loadEvents _ _ _ Hyin) as (q' & Hq' & _ & Hj'). destruct (joined_spec _ _ _ Hj') as (Es' & _).
  assert (q = q') as <-; [|congruence].
  pose proof (find_key_unique qr_sequence (qr_sequence q') _ q Hnd Hq ltac:(lia)) as H1.
  pose proof (find_key_unique qr_sequence (qr_sequence q') _ q' Hnd Hq' eq_refl) as H2. congruence.
Qed.

Lemma clean_queue sequence db q : q ∈ event_queue db -> q ∈ event_queue (cleanConsumedEvents sequence db) \/ qr_sequence q <= sequence.
Proof.
  intros Hq. unfold cleanConsumedEvents. cbn [event_queue delete_where fst].
  set (consumed := order_limit _ _ _). destruct (existsb (fun c => qr_sequence c =? qr_sequence q) consumed) eqn:E.
  - right. apply existsb_exists_elem in E as (c & Hc & E). apply Z.eqb_eq in E. apply elem_of_order_limit, filter_In_elem in Hc as [_ Hc].
    apply Z.leb_le in Hc. lia.
  - left. apply filter_In_elem. split; [done|]. by rewrite E.
Qed.

(** What a run is about to put into the outbox. *)
Definition run_deliveries (db : notification_db) (cursor : CursorRow) (s : discovery_state) : list DeliveryInsert :=
  let events := loadEvents (ds_telemetry s) cursor in
  match loadRules db (resolveResources db events) events with
  | Ok rules => prepareDeliveries events (resolveResources db events) rules
  | Err _ => []
  end.

(** A run that starts from a cursor. *)
Lemma discovery_run db now s r s' cursor
  (Hdb : config_ok db) (Hq : queue_ok (ds_telemetry s))
  (Hu : keys_unique cu_singleton (ds_cursors s)) (Hc : find_key cu_singleton 1 (ds_cursors s) = Some cursor)
  (Hinit : cu_updated_at cursor <> 0)
  (Hsrc : NoDup (map source_key (ds_deliveries s)))
  (Hfree : collision_free (ds_deliveries s) (run_deliveries db cursor s) now)
  (Hrun : discoverNotificationEvents db now s = (Ok r, s')) :
  bootstrapped r = false /\ exists cursor', find_key cu_singleton 1 (ds_cursors s') = Some cursor' /\ last_sequence cursor <= last_sequence cursor' /\
  let scanned q ev := q ∈ event_queue (ds_telemetry s) /\ joined (ds_telemetry s) q = Some ev /\
                      last_sequence cursor < qr_sequence q <= last_sequence cursor' in
  (forall q ev re rule, scanned q ev -> wanted db (se_event ev) re rule ->
     exists row, row ∈ ds_deliveries s' /\ source_key row = source_key (new_delivery (delivery_for re (se_event ev) rule) now)) /\
  (forall row, row ∈ ds_deliveries s' -> row ∈ ds_deliveries s \/
     exists q ev re rule, scanned q ev /\ wanted db (se_event ev) re rule /\ row = new_delivery (delivery_for re (se_event ev) rule) now) /\
  NoDup (map source_key (ds_deliveries s')) /\
  (forall q, q ∈ event_queue (ds_telemetry s) -> q ∈ event_queue (ds_telemetry s') \/ qr_sequence q <= last_sequence cursor') /\
  (forall now', ds_deliveries (discoverNotificationEvents db now'
     (DiscoveryState (ds_cursors s) (ds_deliveries s') (ds_telemetry s))).2 = ds_deliveries s').
Proof.
  assert (Hstep : forall now cursors ds, discoverNotificationEvents db now (DiscoveryState (ds_cursors s) ds cursors) =
    discover_from db now cursor (DiscoveryState (ds_cursors s) ds cursors)).
  { intros n t ds. unfold discoverNotificationEvents, loadCursor. cbn [ds_cursors]. rewrite Hc.
    by rewrite (proj2 (Z.eqb_neq _ _) Hinit). }
  assert (s = DiscoveryState (ds_cursors s) (ds_deliveries s) (ds_telemetry s)) as Es by (by destruct s).
  rewrite Es in Hrun. rewrite Hstep in Hrun. clear Es.
  unfold run_deliveries in Hfree. unfold discover_from in *. cbn [ds_telemetry ds_deliveries ds_cursors] in *.
  set (events := loadEvents (ds_telemetry s) cursor) in *.
  destruct (length events =? 0)%nat eqn:Elen.
  - injection Hrun as <- <-. cbn [ds_cursors ds_deliveries ds_telemetry]. split; [done|]. exists cursor. split_and!; [done | lia | | | done | | by intros now'; rewrite Hstep; unfold discover_from; cbn [ds_telemetry]; fold events; rewrite Elen].
    + intros q ev re rule (_ & _ & ?). lia.
    + by left.
    + intros q Hqin. by apply clean_queue.
  - destruct (loadRules db (resolveResources db events) events) as [rules|e] eqn:Er; [|done].
    injection Hrun as <- <-. cbn [ds_cursors ds_deliveries ds_telemetry snd].
    destruct (last events) as [y|] eqn:Ey; [|apply last_None in Ey; by rewrite Ey in Elen].
    assert (Htypes : forall ev, ev ∈ events -> ev_type (se_event ev) = 1 \/ ev_type (se_event ev) = 2).
    { intros ev Hev. destruct (elem_of_loadEvents _ _ _ Hev) as (q & Hqin & _ & Hj). by eapply joined_type. }
    assert (Hw := prepareDeliveries_wanted db events Hdb Htypes rules Er).
    destruct (persist_spec _ now (ds_deliveries s) Hfree Hsrc) as (added & Hp & Hnd & Hnew & Hall). rewrite Hp.
    assert (Hlast : last_sequence cursor < sequence y).
    { destruct (elem_of_loadEvents (ds_telemetry s) cursor y) as (q & _ & Hlt & Hj); [by apply last_Some_elem_of|].
      apply joined_spec in Hj as (-> & _). done. }
    destruct (keyed_update cu_singleton 1 (fun c => last_sequence c <=? sequence y)
      (fun c => Cursor (cu_singleton c) (sequence y) now) (ds_cursors s) Hu (fun _ => eq_refl)) as (_ & _ & Hf & _).
    specialize (Hf 1). rewrite bool_decide_eq_true_2, Hc in Hf by done. cbn [fmap option_fmap option_map] in Hf.
    rewrite (proj2 (Z.leb_le _ _)) in Hf by lia.
    split; [done|]. eexists. split; [exact Hf|]. cbn [last_sequence]. split; [lia|]. split_and!.
    + intros q ev re rule (Hqin & Hj & Hlt & Hle) Hwanted. apply Hall. apply Hw. exists ev, re, rule. split; [|done].
      by apply (loadEvents_complete _ _ q ev y).
    + intros row Hrow. apply elem_of_app in Hrow as [?|Hrow]; [by left|]. right.
      destruct (Hnew row Hrow) as (d & Hd & ->). apply Hw in Hd as (ev & re & rule & Hev & Hwanted & ->).
      destruct (elem_of_loadEvents _ _ _ Hev) as (q & Hqin & Hlt & Hj). exists q, ev, re, rule. split_and!; try done.
      destruct (joined_spec _ _ _ Hj) as (<- & _). by eapply loadEvents_last.
    + done.
    + intros q Hqin. by apply clean_queue.
    + intros now'. rewrite Hstep. unfold discover_from. cbn [ds_telemetry ds_deliveries ds_cursors]. fold events. rewrite Elen, Er.
      cbn [snd ds_deliveries]. apply persist_again. exact Hall.
Qed.
(** The newest sequence bounds the queue. *)
Lemma newest_bounds db q : q ∈ event_queue db -> qr_sequence q <= newestSequence db.
Proof.
  unfold newestSequence. intros Hq. assert (Hin : qr_sequence q ∈ map qr_sequence (event_queue db)) by (by apply list_elem_of_fmap_2).
  revert Hin. generalize (map qr_sequence (event_queue db)). intros [|x l]; [by intros ?%elem_of_nil|]. intros Hin.
  assert (H : forall l x, x <= fold_left Z.max l x /\ forall y, y ∈ l -> y <= fold_left Z.max l x).
  { clear. induction l as [|a l IH]; intros x; cbn; [split; [lia | by intros ? ?%elem_of_nil]|]. destruct (IH (Z.max x a)) as [H1 H2].
    split; [lia|]. intros y [->|Hy]%elem_of_cons; [lia | by apply H2]. }
  destruct (H l x) as [H1 H2]. apply elem_of_cons in Hin as [->|Hin]; [done | by apply H2].
Qed.
(** The first run of all. *)
Lemma bootstrap_run db now s cursor (Hu : keys_unique cu_singleton (ds_cursors s))
  (Hc : find_key cu_singleton 1 (ds_cursors s) = Some cursor) (Hinit : cu_updated_at cursor = 0) :
  exists cursors, discoverNotificationEvents db now s = (Ok (Discovered 0 0 true),
    DiscoveryState cursors (ds_deliveries s) (cleanConsumedEvents (newestSequence (ds_telemetry s)) (ds_telemetry s))) /\
    find_key cu_singleton 1 cursors = Some (Cursor (cu_singleton cursor) (newestSequence (ds_telemetry s)) now).
Proof.
  unfold discoverNotificationEvents, loadCursor. rewrite Hc, Hinit. cbn [Z.eqb]. unfold initialize_cursor.
  destruct (keyed_update cu_singleton 1 (fun c => cu_updated_at c =? 0)
    (fun c => Cursor (cu_singleton c) (newestSequence (ds_telemetry s)) now) (ds_cursors s) Hu (fun _ => eq_refl)) as (_ & Hn & Hf & _).
  specialize (Hf 1). rewrite bool_decide_eq_true_2, Hc in Hf by done. cbn [fmap option_fmap option_map] in Hf. rewrite Hinit in Hf. cbn [Z.eqb] in Hf.
  destruct (update_where _ _ _) as [cursors n]. cbn [fst snd] in *. exists cursors. rewrite Hc in Hn. cbn in Hn. rewrite Hinit in Hn. cbn in Hn.
  subst n. cbn [Z.eqb]. by rewrite Hf.
Qed.

(** C10: discovery neither loses nor repeats a notification.  When a run succeeds, an event has
    left the queue only if it is behind the cursor.  The very first run, whose cursor has never
    been set, notifies nobody: it sets the cursor to the newest event, with everything queued so
    far behind it, and leaves the outbox alone.  After every other run the cursor has not gone
    back, every queued event between the old and the new cursor has a delivery for every rule that
    asked for it, every new delivery is for such an event and rule, and no event has two deliveries
    on one channel.  Had the run died after filling the outbox, before moving the cursor, the next
    one would add nothing. *)
Theorem discovery_exactly_once db now s r s' cursor
  (Hdb : config_ok db) (Hq : queue_ok (ds_telemetry s))
  (Hu : keys_unique cu_singleton (ds_cursors s)) (Hc : find_key cu_singleton 1 (ds_cursors s) = Some cursor)
  (Hsrc : NoDup (map source_key (ds_deliveries s)))
  (Hfree : collision_free (ds_deliveries s) (run_deliveries db cursor s) now)
  (Hrun : discoverNotificationEvents db now s = (Ok r, s')) :
  exists cursor', find_key cu_singleton 1 (ds_cursors s') = Some cursor' /\
  (forall q, q ∈ event_queue (ds_telemetry s) -> q ∈ event_queue (ds_telemetry s') \/ qr_sequence q <= last_sequence cursor') /\
  (cu_updated_at cursor = 0 -> bootstrapped r = true /\ ds_deliveries s' = ds_deliveries s /\
     forall q, q ∈ event_queue (ds_telemetry s) -> qr_sequence q <= last_sequence cursor') /\
  (cu_updated_at cursor <> 0 -> bootstrapped r = false /\ last_sequence cursor <= last_sequence cursor' /\
  let scanned q ev := q ∈ event_queue (ds_telemetry s) /\ joined (ds_telemetry s) q = Some ev /\
                      last_sequence cursor < qr_sequence q <= last_sequence cursor' in
  (forall q ev re rule, scanned q ev -> wanted db (se_event ev) re rule ->
     exists row, row ∈ ds_deliveries s' /\ source_key row = source_key (new_delivery (delivery_for re (se_event ev) rule) now)) /\
  (forall row, row ∈ ds_deliveries s' -> row ∈ ds_deliveries s \/
     exists q ev re rule, scanned q ev /\ wanted db (se_event ev) re rule /\ row = new_delivery (delivery_for re (se_event ev) rule) now) /\
  NoDup (map source_key (ds_deliveries s')) /\
  (forall now', ds_deliveries (discoverNotificationEvents db now'
     (DiscoveryState (ds_cursors s) (ds_deliveries s') (ds_telemetry s))).2 = ds_deliveries s')).
Proof.
  destruct (decide (cu_updated_at cursor = 0)) as [E|E].
  - destruct (bootstrap_run db now s cursor Hu Hc E) as (cursors & Eb & Hf). rewrite Eb in Hrun. injection Hrun as <- <-.
    eexists. split; [exact Hf|]. cbn [last_sequence ds_telemetry ds_deliveries bootstrapped]. split_and!; [by intros q; apply clean_queue | | done].
    intros _. split_and!; [done | done | by apply newest_bounds].
  - destruct (discovery_run db now s r s' cursor Hdb Hq Hu Hc E Hsrc Hfree Hrun) as (Hb & cursor' & Hf & Hle & H1 & H2 & H3 & H4 & H5).
    exists cursor'. split_and!; done.
Qed.
End Run.

(** What discovery writes is what the providers read: the message of a stored payload can always
    be rendered. *)
Theorem discovered_payload_renders r e (Hat : safe_z (ev_at e) = true) (Ht : Z.abs (ev_at e) <= MAX_TIME) :
  exists payload subject text, json_parse (json_stringify (payload_of r e)) = Ok payload /\ message payload = Ok (subject, text) /\
    shown payload "resourceName" = re_name r /\ shown payload "currentState" = ev_current e.
Proof.
  assert (Hok : jout_ok (payload_of r e)).
  { cbn. split_and!; try done. apply (bool_decide_unpack _). vm_compute. exact I. }
  exists (json_of (payload_of r e)). rewrite json_parse_stringify by done.
  unfold message. cbn [payload_of json_of map field_of obj_get String.eqb Ascii.eqb Bool.eqb fst snd date_of].
  rewrite num_of_Z_int by done. unfold to_iso. rewrite (proj2 (Z.ltb_ge _ _)) by lia.
  destruct (civil_of_days _) as [[y m] d]. cbn [rbind]. eexists _, _. split_and!; reflexivity.
Qed.

(** ** The worker: [index.ts] *)

Section Worker.
Context `{WC : WebCrypto} `{UA : UrlApi} `{UP : !UrlPath}.
Context {W : Type} (now : W -> Z) (fetcher : RequestTarget -> W -> res response * W)
  (cancel : response -> W -> res unit * W) (randomUUID : W -> string * W) (wrappingKey : string)
  (meanwhile : list delivery_row -> list delivery_row).

(** A failed discovery does not keep the outbox from being delivered. *)
(* @src workers/notifications/src/index.ts runScheduled *)
Definition runScheduled (db : notification_db) (s : discovery_state) (w : W) : res unit * (discovery_state * W) :=
  let '(discovered, s1) := discoverNotificationEvents db (now w) s in
  let '(_, (deliveries, w')) :=
    deliverNotificationOutbox now fetcher cancel randomUUID wrappingKey meanwhile db (now w) (ds_deliveries s1, w) in
  let failures := match discovered with Ok _ => 0 | Err _ => 1 end in
  ((throw_if 0 <? failures as "notification_tasks_failed:" ++ z_to_string failures in Ok tt),
   (DiscoveryState (ds_cursors s1) deliveries (ds_telemetry s1), w')).
End Worker.

(** ** A recorded run *)

Definition dc_event : state_event := StateEvent 1 1 10 1700000000000 [Byte.x11; Byte.xab] "healthy" "offline" "report_timeout".
Definition dc_telemetry : telemetry_db :=
  TelemetryDb [] [] [] [] [dc_event] [QueueRow 7 1 1 10 1700000000000 [Byte.x11; Byte.xab]] 8 [] [] 0.
Definition dc_state : discovery_state := DiscoveryState [Cursor 1 6 500] [] dc_telemetry.
Definition dc_after : discovery_state := (discoverNotificationEvents ob_db 2000 dc_state).2.
Lemma dc_run : discoverNotificationEvents ob_db 2000 dc_state = (Ok (Discovered 1 1 false), dc_after).
Proof. vm_compute. reflexivity. Qed.
Lemma dc_config : config_ok ob_db.
Proof.
  split.
  - apply (bool_decide_unpack _). vm_compute. exact I.
  - apply (bool_decide_unpack _). vm_compute. exact I.
  - intros row [Hr|Hr]; cbn in Hr; [|by apply elem_of_nil in Hr]. apply list_elem_of_singleton in Hr as ->. done.
  - intros rule Hr. apply list_elem_of_singleton in Hr as ->. done.
Qed.
Lemma dc_queue : queue_ok dc_telemetry.
Proof. split; [apply (bool_decide_unpack _); vm_compute; exact I|]. intros q ->%list_elem_of_singleton. by left. Qed.
Lemma dc_free : collision_free [] (run_deliveries ob_db (Cursor 1 6 500) dc_state) 2000.
Proof.
  assert (E : map (fun d => dl_id (new_delivery d 2000)) (run_deliveries ob_db (Cursor 1 6 500) dc_state) =
    [digestId (identity_of "channel" dc_event)]) by (vm_compute; reflexivity).
  destruct (run_deliveries ob_db (Cursor 1 6 500) dc_state) as [|d [|]] eqn:Ed; [done | | done].
  intros a b. cbn [map app]. rewrite !list_elem_of_singleton. by intros -> ->.
Qed.
Lemma dc_cursor : find_key cu_singleton 1 (ds_cursors dc_state) = Some (Cursor 1 6 500).
Proof. reflexivity. Qed.
Lemma dc_unique : keys_unique cu_singleton (ds_cursors dc_state).
Proof. apply (bool_decide_unpack _). vm_compute. exact I. Qed.
Example discovery_exactly_once_witness :
  map dl_state (ds_deliveries dc_after) = [Pending] /\ event_queue (ds_telemetry dc_after) = [] /\
  forall now', ds_deliveries (discoverNotificationEvents ob_db now' (DiscoveryState (ds_cursors dc_state) (ds_deliveries dc_after) dc_telemetry)).2 =
    ds_deliveries dc_after.
Proof.
  destruct (discovery_exactly_once ob_db 2000 dc_state (Discovered 1 1 false) dc_after (Cursor 1 6 500)
    dc_config dc_queue dc_unique dc_cursor) as (c & _ & _ & _ & H).
  - apply NoDup_nil_2.
  - exact dc_free.
  - exact dc_run.
  - split; [vm_compute; reflexivity|]. split; [vm_compute; reflexivity | apply H; discriminate].
Defined.
