(* ===== verification/RetentionTables.v ===== *)
(** * RetentionTables: the telemetry database as the retention worker sees it

    [workers/retention] deletes from every table but reads only keys, owners and times.  A row is
    therefore kept with the columns the worker's statements name; the rest of the row goes with
    it.  The tables with a time column share the row type [timed_row]; state events, the queue
    that references them and the retention cursors are the rows of the components that own them.
    [telemetry_ok] holds the primary keys and the queue's foreign key. *)

From Stdlib Require Import ZArith Lia Bool String List.
From stdpp Require Import base tactics list strings.
From S2P Require Import Prelude.
From S2P Require Import Js.
From S2P Require Import Sql.
From S2P Require Import CheckPersistence.
From S2P Require Import Lease.
Open Scope string_scope.
Open Scope Z_scope.

(** ** The telemetry database *)

Inductive timed_table :=
  | telemetry_blocks_5m | machine_rollups_5m | machine_rollups_1h
  | check_result_blocks_5m | check_rollups_5m | check_rollups_1h | status_buckets_table.
#[export] Instance timed_table_eq_dec : EqDecision timed_table. Proof. solve_decision. Defined.

(** [tm_type] and [tm_seconds] are columns of [status_buckets] only. *)
Record timed_row := Timed {
  tm_workspace : Z;
  tm_resource : Z;
  tm_time : Z;
  tm_type : Z;
  tm_seconds : Z;
}.
#[export] Instance timed_row_eq_dec : EqDecision timed_row. Proof. solve_decision. Defined.
#[export] Instance retention_state_event_eq_dec : EqDecision state_event. Proof. solve_decision. Defined.
#[export] Instance retention_queue_row_eq_dec : EqDecision queue_row. Proof. solve_decision. Defined.

(** The column pair the statements select by, and the primary key. *)
Definition timed_pair (r : timed_row) : Z * Z := (tm_resource r, tm_time r).
Definition bucket_pair (r : timed_row) : Z * Z * Z * Z := (tm_type r, tm_resource r, tm_seconds r, tm_time r).
Definition timed_unique (table : timed_table) (t : list timed_row) : Prop :=
  match table with
  | status_buckets_table => keys_unique bucket_pair t
  | _ => keys_unique timed_pair t
  end.

(** A row of [machine_latest], [check_latest] or [service_latest]. *)
Record latest_row := Latest { lt_pk : Z; lt_workspace : Z }.
#[export] Instance latest_row_eq_dec : EqDecision latest_row. Proof. solve_decision. Defined.
Inductive latest_table := machine_latest | check_latest_table | service_latest_table.
#[export] Instance latest_table_eq_dec : EqDecision latest_table. Proof. solve_decision. Defined.

(** A row of [retention_runs]. *)
Record run_row := RunRow {
  rr_id : string;
  rr_started : Z;
  rr_completed : option Z;
  rr_deleted : Z;
  rr_error : option string;
  rr_cursor : Z;
}.

Record telemetry_tables := TelemetryTables {
  tt_timed : timed_table -> list timed_row;
  tt_latest : latest_table -> list latest_row;
  tt_events : list state_event;
  tt_queue : list queue_row;
  tt_replay : list (string * Z);
  tt_summaries : list Z;
  tt_cursors : list retention_cursor_row;
  tt_runs : list run_row;
  tt_artifact_cursors : list artifact_cursor_row;
}.

Definition set_timed (table : timed_table) (rows : list timed_row) (t : telemetry_tables) : telemetry_tables :=
  TelemetryTables (fun k => if bool_decide (k = table) then rows else tt_timed t k) (tt_latest t) (tt_events t) (tt_queue t)
    (tt_replay t) (tt_summaries t) (tt_cursors t) (tt_runs t) (tt_artifact_cursors t).
Definition set_latest (table : latest_table) (rows : list latest_row) (t : telemetry_tables) : telemetry_tables :=
  TelemetryTables (tt_timed t) (fun k => if bool_decide (k = table) then rows else tt_latest t k) (tt_events t) (tt_queue t)
    (tt_replay t) (tt_summaries t) (tt_cursors t) (tt_runs t) (tt_artifact_cursors t).
Definition set_events (events : list state_event) (queue : list queue_row) (t : telemetry_tables) : telemetry_tables :=
  TelemetryTables (tt_timed t) (tt_latest t) events queue (tt_replay t) (tt_summaries t) (tt_cursors t) (tt_runs t) (tt_artifact_cursors t).
Definition set_replay (replay : list (string * Z)) (t : telemetry_tables) : telemetry_tables :=
  TelemetryTables (tt_timed t) (tt_latest t) (tt_events t) (tt_queue t) replay (tt_summaries t) (tt_cursors t) (tt_runs t) (tt_artifact_cursors t).
Definition set_summaries (summaries : list Z) (t : telemetry_tables) : telemetry_tables :=
  TelemetryTables (tt_timed t) (tt_latest t) (tt_events t) (tt_queue t) (tt_replay t) summaries (tt_cursors t) (tt_runs t) (tt_artifact_cursors t).
Definition set_retention_cursors (cursors : list retention_cursor_row) (t : telemetry_tables) : telemetry_tables :=
  TelemetryTables (tt_timed t) (tt_latest t) (tt_events t) (tt_queue t) (tt_replay t) (tt_summaries t) cursors (tt_runs t) (tt_artifact_cursors t).
Definition set_runs (runs : list run_row) (t : telemetry_tables) : telemetry_tables :=
  TelemetryTables (tt_timed t) (tt_latest t) (tt_events t) (tt_queue t) (tt_replay t) (tt_summaries t) (tt_cursors t) runs (tt_artifact_cursors t).
Definition set_artifact_cursors (cursors : list artifact_cursor_row) (t : telemetry_tables) : telemetry_tables :=
  TelemetryTables (tt_timed t) (tt_latest t) (tt_events t) (tt_queue t) (tt_replay t) (tt_summaries t) (tt_cursors t) (tt_runs t) cursors.

(** [DELETE FROM state_events WHERE ...] with the cascade of the queue's foreign key. *)
Definition queue_key (q : queue_row) : Z * Z * Z * list byte := (qr_type q, qr_resource q, qr_at q, qr_id q).
Definition cascade_queue (events : list state_event) (queue : list queue_row) : list queue_row :=
  List.filter (fun q => existsb (fun e => bool_decide (event_key e = queue_key q)) events) queue.

Record telemetry_ok (t : telemetry_tables) : Prop := {
  to_timed : forall table, timed_unique table (tt_timed t table);
  to_latest : forall table, keys_unique lt_pk (tt_latest t table);
  to_events : keys_unique event_key (tt_events t);
  to_queue : forall q, q ∈ tt_queue t -> exists e, e ∈ tt_events t /\ event_key e = queue_key q;
  to_replay : keys_unique id (tt_replay t);
  to_cursors : keys_unique retention_key (tt_cursors t);
  to_runs : keys_unique rr_id (tt_runs t);
}.
