(* ===== verification/ControlPlane.v ===== *)
(** * ControlPlane: the control database

    The tables of [packages/db/migrations/control] that the web application's server actions and
    the retention worker change, with the columns their statements name.  Memberships, grants
    and the resources of incidents are the rows of [Authz], so that its conditions are evaluated
    on this database ([authz_view]).

    What the migrations declare and the statements rely on is part of the model: primary and
    unique keys ([control_ok]), [ON DELETE CASCADE] of foreign keys, the foreign key of
    [check_configs.executor_agent_id] that does not cascade, and the trigger that keeps an active
    administrator in every workspace. *)

From Stdlib Require Import ZArith Lia Bool String List.
From stdpp Require Import base tactics list strings.
From S2P Require Import Prelude.
From S2P Require Import Js.
From S2P Require Import Sql.
From S2P Require Import Authz.
From S2P Require Import Notifications.
From S2P Require Import Outbox.
Open Scope string_scope.
Open Scope Z_scope.

Definition DAY_MS : Z := 86400000.

(** ** Rows *)

(** A row of [workspaces]. *)
Record workspace_state := WorkspaceState {
  wk_id : string;
  wk_pk : Z;
  wk_slug : string;
  wk_name : string;
  wk_dashboard : string;
  wk_interval : Z;
  wk_deleted : option Z;
  wk_purge : option Z;
  wk_updated : Z;
}.
(** A row of [retention_policies]. *)
Record policy_row := PolicyRow {
  rp_workspace : string;
  rp_raw_days : Z;
  rp_rollup_5m_days : Z;
  rp_rollup_1h_days : Z;
  rp_event_days : Z;
  rp_audit_log_days : Z;
  rp_announcement_days : Z;
  rp_soft_delete_days : Z;
}.
(** A row of [machines] or [services].  [mg_cursor] is [purge_agent_cursor] or
    [purge_check_cursor]; [mg_revision] is [machines.desired_config_revision]; [mg_slug] is
    [services.slug], or [machines.public_slug]. *)
Record managed_row (C : Type) := Managed {
  mg_id : string;
  mg_pk : Z;
  mg_workspace : string;
  mg_name : string;
  mg_deleted : option Z;
  mg_purge : option Z;
  mg_cursor : C;
  mg_revision : Z;
  mg_updated : Z;
  mg_slug : string;
}.
Arguments Managed {C}. Arguments mg_id {C}. Arguments mg_pk {C}. Arguments mg_workspace {C}. Arguments mg_name {C}.
Arguments mg_deleted {C}. Arguments mg_purge {C}. Arguments mg_cursor {C}. Arguments mg_revision {C}. Arguments mg_updated {C}. Arguments mg_slug {C}.
(** A row of [agents]; [ag_active] is [status = 'active']. *)
Record agent_row := AgentRow { ag_id : string; ag_machine : string; ag_active : bool }.
(** A row of [check_configs]; [pc_agent] is [executor_agent_id], set when the executor is an agent. *)
Record purge_check_row := PurgeCheck {
  pc_id : string;
  pc_pk : Z;
  pc_workspace : string;
  pc_service : string;
  pc_secret_refs : string;
  pc_enabled : Z;
  pc_by_agent : bool;
  pc_agent : option string;
}.
(** A row of [containers], [dashboards], [incidents] or [announcements]; [ow_machine] is a column
    of [containers], [ow_expires] of [announcements]. *)
Record owned_row := Owned {
  ow_id : string;
  ow_workspace : string;
  ow_deleted : option Z;
  ow_machine : string;
  ow_expires : option Z;
}.
Inductive owned_table := containers | dashboards | incidents | announcements.
#[export] Instance owned_table_eq_dec : EqDecision owned_table. Proof. solve_decision. Defined.
(** A row of [resource_public_policies] or of [notification_rules] (owner: the workspace), or of
    [dashboard_resources] (owner: the dashboard). *)
Record link_row := Link { lk_owner : string; lk_type : ResourceType; lk_resource : string }.
(** A row of [check_secrets]. *)
Record secret_row := SecretRow { sr_id : string; sr_workspace : string; sr_created : Z }.
Inductive command_state := cmd_pending | cmd_delivered | cmd_succeeded | cmd_failed | cmd_expired.
#[export] Instance command_state_eq_dec : EqDecision command_state. Proof. solve_decision. Defined.
(** A row of [agent_commands]. *)
Record command_row := CommandRow {
  co_id : string;
  co_workspace : string;
  co_agent : string;
  co_state : command_state;
  co_expires : Z;
  co_completed : option Z;
  co_result : option string;
}.
(** A row of [audit_logs]. *)
Record audit_row := AuditRow {
  al_id : string;
  al_workspace : string;
  al_actor : string;
  al_action : string;
  al_type : string;
  al_resource : string;
  al_before : option string;
  al_after : option string;
  al_created : Z;
}.

#[export] Instance workspace_state_eq_dec : EqDecision workspace_state. Proof. solve_decision. Defined.
#[export] Instance managed_row_eq_dec {C} `{!EqDecision C} : EqDecision (managed_row C). Proof. solve_decision. Defined.
#[export] Instance owned_row_eq_dec : EqDecision owned_row. Proof. solve_decision. Defined.
#[export] Instance command_row_eq_dec : EqDecision command_row. Proof. solve_decision. Defined.
#[export] Instance agent_row_eq_dec : EqDecision agent_row. Proof. solve_decision. Defined.
#[export] Instance audit_row_eq_dec : EqDecision audit_row. Proof. solve_decision. Defined.
#[export] Instance secret_row_eq_dec : EqDecision secret_row. Proof. solve_decision. Defined.
#[export] Instance link_row_eq_dec : EqDecision link_row. Proof. solve_decision. Defined.
#[export] Instance purge_check_row_eq_dec : EqDecision purge_check_row. Proof. solve_decision. Defined.
#[export] Instance delivery_row_eq_dec : EqDecision delivery_row. Proof. solve_decision. Defined.

(** ** The database *)

Record control_tables := ControlTables {
  ct_workspaces : list workspace_state;
  ct_policies : list policy_row;
  ct_memberships : list membership;
  ct_machines : list (managed_row string);
  ct_services : list (managed_row Z);
  ct_agents : list agent_row;
  ct_checks : list purge_check_row;
  ct_owned : owned_table -> list owned_row;
  ct_grants : list grant_row;
  ct_public : list link_row;
  ct_dashboard_resources : list link_row;
  ct_incident_resources : list incident_resource;
  ct_secrets : list secret_row;
  ct_commands : list command_row;
  ct_audits : list audit_row;
  ct_deliveries : list delivery_row;
  ct_rules : list link_row;
}.

Definition set_workspaces v (d : control_tables) : control_tables :=
  ControlTables v (ct_policies d) (ct_memberships d) (ct_machines d) (ct_services d) (ct_agents d) (ct_checks d)
    (ct_owned d) (ct_grants d) (ct_public d) (ct_dashboard_resources d) (ct_incident_resources d) (ct_secrets d)
    (ct_commands d) (ct_audits d) (ct_deliveries d) (ct_rules d).
Definition set_policies v (d : control_tables) : control_tables :=
  ControlTables (ct_workspaces d) v (ct_memberships d) (ct_machines d) (ct_services d) (ct_agents d) (ct_checks d)
    (ct_owned d) (ct_grants d) (ct_public d) (ct_dashboard_resources d) (ct_incident_resources d) (ct_secrets d)
    (ct_commands d) (ct_audits d) (ct_deliveries d) (ct_rules d).
Definition set_memberships v (d : control_tables) : control_tables :=
  ControlTables (ct_workspaces d) (ct_policies d) v (ct_machines d) (ct_services d) (ct_agents d) (ct_checks d)
    (ct_owned d) (ct_grants d) (ct_public d) (ct_dashboard_resources d) (ct_incident_resources d) (ct_secrets d)
    (ct_commands d) (ct_audits d) (ct_deliveries d) (ct_rules d).
Definition set_machines v (d : control_tables) : control_tables :=
  ControlTables (ct_workspaces d) (ct_policies d) (ct_memberships d) v (ct_services d) (ct_agents d) (ct_checks d)
    (ct_owned d) (ct_grants d) (ct_public d) (ct_dashboard_resources d) (ct_incident_resources d) (ct_secrets d)
    (ct_commands d) (ct_audits d) (ct_deliveries d) (ct_rules d).
Definition set_services v (d : control_tables) : control_tables :=
  ControlTables (ct_workspaces d) (ct_policies d) (ct_memberships d) (ct_machines d) v (ct_agents d) (ct_checks d)
    (ct_owned d) (ct_grants d) (ct_public d) (ct_dashboard_resources d) (ct_incident_resources d) (ct_secrets d)
    (ct_commands d) (ct_audits d) (ct_deliveries d) (ct_rules d).
Definition set_agents v (d : control_tables) : control_tables :=
  ControlTables (ct_workspaces d) (ct_policies d) (ct_memberships d) (ct_machines d) (ct_services d) v (ct_checks d)
    (ct_owned d) (ct_grants d) (ct_public d) (ct_dashboard_resources d) (ct_incident_resources d) (ct_secrets d)
    (ct_commands d) (ct_audits d) (ct_deliveries d) (ct_rules d).
Definition set_checks v (d : control_tables) : control_tables :=
  ControlTables (ct_workspaces d) (ct_policies d) (ct_memberships d) (ct_machines d) (ct_services d) (ct_agents d) v
    (ct_owned d) (ct_grants d) (ct_public d) (ct_dashboard_resources d) (ct_incident_resources d) (ct_secrets d)
    (ct_commands d) (ct_audits d) (ct_deliveries d) (ct_rules d).
Definition set_owned table v (d : control_tables) : control_tables :=
  ControlTables (ct_workspaces d) (ct_policies d) (ct_memberships d) (ct_machines d) (ct_services d) (ct_agents d)
    (ct_checks d) (fun k => if bool_decide (k = table) then v else ct_owned d k) (ct_grants d) (ct_public d)
    (ct_dashboard_resources d) (ct_incident_resources d) (ct_secrets d) (ct_commands d) (ct_audits d) (ct_deliveries d) (ct_rules d).
Definition set_grants v (d : control_tables) : control_tables :=
  ControlTables (ct_workspaces d) (ct_policies d) (ct_memberships d) (ct_machines d) (ct_services d) (ct_agents d)
    (ct_checks d) (ct_owned d) v (ct_public d) (ct_dashboard_resources d) (ct_incident_resources d) (ct_secrets d)
    (ct_commands d) (ct_audits d) (ct_deliveries d) (ct_rules d).
Definition set_public v (d : control_tables) : control_tables :=
  ControlTables (ct_workspaces d) (ct_policies d) (ct_memberships d) (ct_machines d) (ct_services d) (ct_agents d)
    (ct_checks d) (ct_owned d) (ct_grants d) v (ct_dashboard_resources d) (ct_incident_resources d) (ct_secrets d)
    (ct_commands d) (ct_audits d) (ct_deliveries d) (ct_rules d).
Definition set_dashboard_resources v (d : control_tables) : control_tables :=
  ControlTables (ct_workspaces d) (ct_policies d) (ct_memberships d) (ct_machines d) (ct_services d) (ct_agents d)
    (ct_checks d) (ct_owned d) (ct_grants d) (ct_public d) v (ct_incident_resources d) (ct_secrets d) (ct_commands d)
    (ct_audits d) (ct_deliveries d) (ct_rules d).
Definition set_incident_resources v (d : control_tables) : control_tables :=
  ControlTables (ct_workspaces d) (ct_policies d) (ct_memberships d) (ct_machines d) (ct_services d) (ct_agents d)
    (ct_checks d) (ct_owned d) (ct_grants d) (ct_public d) (ct_dashboard_resources d) v (ct_secrets d) (ct_commands d)
    (ct_audits d) (ct_deliveries d) (ct_rules d).
Definition set_secrets v (d : control_tables) : control_tables :=
  ControlTables (ct_workspaces d) (ct_policies d) (ct_memberships d) (ct_machines d) (ct_services d) (ct_agents d)
    (ct_checks d) (ct_owned d) (ct_grants d) (ct_public d) (ct_dashboard_resources d) (ct_incident_resources d) v
    (ct_commands d) (ct_audits d) (ct_deliveries d) (ct_rules d).
Definition set_commands v (d : control_tables) : control_tables :=
  ControlTables (ct_workspaces d) (ct_policies d) (ct_memberships d) (ct_machines d) (ct_services d) (ct_agents d)
    (ct_checks d) (ct_owned d) (ct_grants d) (ct_public d) (ct_dashboard_resources d) (ct_incident_resources d)
    (ct_secrets d) v (ct_audits d) (ct_deliveries d) (ct_rules d).
Definition set_audits v (d : control_tables) : control_tables :=
  ControlTables (ct_workspaces d) (ct_policies d) (ct_memberships d) (ct_machines d) (ct_services d) (ct_agents d)
    (ct_checks d) (ct_owned d) (ct_grants d) (ct_public d) (ct_dashboard_resources d) (ct_incident_resources d)
    (ct_secrets d) (ct_commands d) v (ct_deliveries d) (ct_rules d).
Definition set_deliveries v (d : control_tables) : control_tables :=
  ControlTables (ct_workspaces d) (ct_policies d) (ct_memberships d) (ct_machines d) (ct_services d) (ct_agents d)
    (ct_checks d) (ct_owned d) (ct_grants d) (ct_public d) (ct_dashboard_resources d) (ct_incident_resources d)
    (ct_secrets d) (ct_commands d) (ct_audits d) v (ct_rules d).

(** The tables authorisation reads. *)
Definition authz_workspace (w : workspace_state) : workspace_row :=
  WorkspaceRow (wk_id w) (wk_slug w) (wk_pk w) (wk_dashboard w) (wk_interval w) (wk_deleted w).
Definition authz_view (d : control_tables) : control_db :=
  ControlDb (ct_memberships d) (ct_grants d) (map (fun s => ServiceRow (mg_id s) (mg_workspace s) (mg_deleted s)) (ct_services d))
    (ct_incident_resources d) (map authz_workspace (ct_workspaces d)).

Record control_ok (d : control_tables) : Prop := {
  cto_workspaces : keys_unique wk_id (ct_workspaces d);
  cto_workspace_pks : keys_unique wk_pk (ct_workspaces d);
  cto_policies : keys_unique rp_workspace (ct_policies d);
  cto_machines : keys_unique mg_id (ct_machines d);
  cto_machine_pks : keys_unique mg_pk (ct_machines d);
  cto_services : keys_unique mg_id (ct_services d);
  cto_service_pks : keys_unique mg_pk (ct_services d);
  cto_checks : keys_unique pc_id (ct_checks d);
  cto_check_pks : keys_unique pc_pk (ct_checks d);
  cto_agents : keys_unique ag_id (ct_agents d);
  cto_owned : forall table, keys_unique ow_id (ct_owned d table);
  cto_secrets : keys_unique sr_id (ct_secrets d);
  cto_commands : keys_unique co_id (ct_commands d);
  cto_audits : keys_unique al_id (ct_audits d);
  cto_deliveries : keys_unique dl_id (ct_deliveries d);
}.
