(* ===== verification/AuditLog.v ===== *)
(** * AuditLog: the audit rows that accompany a change

    [apps/web/src/lib/server/workspace-admin.ts].  A server action that changes the control
    database writes an audit row in the same transaction; with [onlyIfPreviousStatementChanged]
    the row is written exactly when the statement before it changed one row ([changes() = 1]). *)

From Stdlib Require Import ZArith Lia Bool String Ascii List.
From stdpp Require Import base tactics list strings.
From S2P Require Import Prelude.
From S2P Require Import Js.
From S2P Require Import JsString.
From S2P Require Import Sql.
From S2P Require Import Crypto.
From S2P Require Import CheckPersistence.
From S2P Require Import Authz.
From S2P Require Import ControlPlane.
Open Scope string_scope.
Open Scope Z_scope.

(** [left.localeCompare(right) <= 0], of the runtime's default locale. *)
Class Locale := locale_leb : string -> string -> bool.

(** [crypto.randomUUID()]: the identifiers the runtime hands out, one after the other. *)
Definition uuids := list string.
Definition randomUUID (u : uuids) : string * uuids := match u with x :: rest => (x, rest) | [] => ("", []) end.

Section Audit.
Context `{WC : WebCrypto} `{LO : Locale}.

(** Keys in the locale's order, at every depth. *)
(* @src apps/web/src/lib/server/workspace-admin.ts normalizedJson *)
Fixpoint normalizedJson (value : jout) : jout :=
  match value with
  | OArr l => OArr (map normalizedJson l)
  | OObj l => OObj (order_by (fun a b => locale_leb a.1 b.1) (map (fun kv => (kv.1, normalizedJson kv.2)) l))
  | v => v
  end.
(* @src apps/web/src/lib/server/workspace-admin.ts auditDigest *)
Definition auditDigest (value : jout) : string := hex (sha256 (encode_utf8 (json_stringify (normalizedJson value)))).

(* @src apps/web/src/lib/server/workspace-admin.ts 37-47 prepareAuditStatement *)
Record audit_input := AuditInput {
  ai_workspaceId : string;
  ai_actorUserId : string;
  ai_action : string;
  ai_resourceType : string;
  ai_resourceId : string;
  ai_before : option jout;
  ai_after : option jout;
  ai_now : Z;
}.
(** The row; [changed] is [changes()] when the statement runs. *)
(* @src apps/web/src/lib/server/workspace-admin.ts prepareAuditStatement *)
Definition prepareAuditStatement (id : string) (input : audit_input) : audit_row :=
  AuditRow id (ai_workspaceId input) (ai_actorUserId input) (ai_action input) (ai_resourceType input) (ai_resourceId input)
    (auditDigest <$> ai_before input) (auditDigest <$> ai_after input) (ai_now input).
Definition audit_statement (row : audit_row) (onlyIfChanged : bool) (changed : Z) (d : control_tables) : control_tables :=
  if onlyIfChanged && negb (changed =? 1) then d else set_audits (ct_audits d ++ [row])%list d.
End Audit.

(** ** Access checks the actions share *)

(* @src apps/web/src/lib/server/workspace-admin.ts requireWorkspaceAdmin *)
Definition requireWorkspaceAdmin (d : control_tables) (workspaceSlug userId : string) : res MonitoringAccess :=
  let* access := loadMonitoringAccess (authz_view d) workspaceSlug userId in
  let* _ := requireAdmin access in
  Ok access.
(* @src apps/web/src/lib/server/workspace-admin.ts 5-5 WorkspaceResourceType *)
Inductive WorkspaceResourceType := wr_machine | wr_service | wr_container.
(* @src apps/web/src/lib/server/workspace-admin.ts requireWorkspaceResource *)
Definition requireWorkspaceResource (d : control_tables) (workspaceId : string) (type : WorkspaceResourceType) (resourceId : string)
  : res unit :=
  let present := match type with
    | wr_machine => existsb (fun r => String.eqb (mg_id r) resourceId && String.eqb (mg_workspace r) workspaceId && bool_decide (mg_deleted r = None)) (ct_machines d)
    | wr_service => existsb (fun r => String.eqb (mg_id r) resourceId && String.eqb (mg_workspace r) workspaceId && bool_decide (mg_deleted r = None)) (ct_services d)
    | wr_container => existsb (fun r => String.eqb (ow_id r) resourceId && String.eqb (ow_workspace r) workspaceId && bool_decide (ow_deleted r = None)) (ct_owned d containers)
    end in
  throw_if negb present as "404 Resource not found" in Ok tt.

(** ** Small helpers *)

(** [s.lastIndexOf("@")] *)
Fixpoint last_at (i : Z) (s : string) (found : Z) : Z :=
  match s with "" => found | String c r => last_at (i + 1) r (if Ascii.eqb c "@"%char then i else found) end.
Fixpoint repeat_string (n : nat) (s : string) : string := match n with O => "" | S n => s ++ repeat_string n s end.
(* @src apps/web/src/lib/server/workspace-admin.ts maskEmail *)
Definition maskEmail (email : string) : string :=
  let separator := last_at 0 email (-1) in
  if separator <=? 0 then "***"
  else
    let local := str_take (Z.to_nat separator) email in
    let domain := str_drop (Z.to_nat (separator + 1)) email in
    let visible := str_take (Nat.min 2 (String.length local)) local in
    visible ++ repeat_string (Z.to_nat (Z.max 2 (Z.min 6 (slen local - slen visible)))) "*" ++ "@" ++ domain.

(* @src apps/web/src/lib/server/workspace-admin.ts safeLocalPath *)
Definition safeLocalPath (value : option string) (fallback : string) : string :=
  match value with
  | None => fallback
  | Some v =>
      if String.eqb v "" || negb (starts_with "/" v) || starts_with "//" v || includes "\" v then fallback else v
  end.
