(* ===== verification/ResourceLifecycle.v ===== *)
(** * ResourceLifecycle: deleting and restoring in the web application

    Machines and services ([apps/web/src/lib/server/resources.ts]) and whole workspaces
    ([apps/web/src/lib/server/workspace-lifecycle.ts]).  An action reads, decides, and then writes
    in one transaction whose conditions repeat what it decided on; [meanwhile] is what other
    requests and the retention worker do in between. *)

From Stdlib Require Import ZArith Lia Bool String List.
From stdpp Require Import base tactics list strings.
From S2P Require Import Prelude.
From S2P Require Import Js.
From S2P Require Import JsString.
From S2P Require Import Sql.
From S2P Require Import Crypto.
From S2P Require Import Authz.
From S2P Require Import ControlPlane.
From S2P Require Import AuditLog.
Open Scope string_scope.
Open Scope Z_scope.

(* @src apps/web/src/lib/server/resources.ts 597-597 ManagedResourceType *)
Inductive ManagedResourceType := managed_machine | managed_service.
Definition managed_name (t : ManagedResourceType) : string := match t with managed_machine => "machine" | managed_service => "service" end.
Definition managed_type (t : ManagedResourceType) : ResourceType := match t with managed_machine => RMachine | managed_service => RService end.

(** What D1 throws when the index of the services' addresses is violated. *)
Definition SLUG_TAKEN : string := "UNIQUE constraint failed: services.workspace_id, services.slug".
(** What the actions read of a machine or a service. *)
Record managed_view := ManagedView { mv_name : string; mv_deleted : option Z; mv_purge : option Z }.
Definition view_of {C} (r : managed_row C) : managed_view := ManagedView (mg_name r) (mg_deleted r) (mg_purge r).
Definition managed_is {C} (workspaceId id : string) (r : managed_row C) : bool :=
  String.eqb (mg_id r) id && String.eqb (mg_workspace r) workspaceId.
Definition load_managed (d : control_tables) (type : ManagedResourceType) (workspaceId id : string) : option managed_view :=
  match type with
  | managed_machine => view_of <$> List.find (managed_is workspaceId id) (ct_machines d)
  | managed_service => view_of <$> List.find (managed_is workspaceId id) (ct_services d)
  end.
Definition set_deleted {C} (deleted : option Z) (now : Z) (r : managed_row C) : managed_row C :=
  Managed (mg_id r) (mg_pk r) (mg_workspace r) (mg_name r) deleted (mg_purge r) (mg_cursor r) (mg_revision r) now (mg_slug r).
(** The partial unique index [services_workspace_slug_uq] (workspace and slug of the services that
    are not deleted): a row that the update writes is live and another live row has its slug.
    [machines_workspace_public_slug_uq] has no condition, so that an update of [deleted_at] cannot
    violate it. *)
Definition same_live_slug {C} (a b : managed_row C) : bool :=
  negb (String.eqb (mg_id a) (mg_id b)) && String.eqb (mg_workspace a) (mg_workspace b) && String.eqb (mg_slug a) (mg_slug b) &&
  bool_decide (mg_deleted a = None) && bool_decide (mg_deleted b = None).
Definition slug_conflict {C} (guard : managed_row C -> bool) (f : managed_row C -> managed_row C) (t : list (managed_row C)) : bool :=
  existsb (fun r => guard r && existsb (same_live_slug (f r)) (update_where guard f t).1) t.
(** [UPDATE ${resourceTable(type)} SET deleted_at = ?, updated_at = ? WHERE guard]; the guard sees
    the row's id, workspace and state. *)
(* @src apps/web/src/lib/server/resources.ts resourceTable *)
Definition update_managed (type : ManagedResourceType) (guard : string -> string -> managed_view -> bool) (deleted : option Z) (now : Z)
    (d : control_tables) : res (control_tables * Z) :=
  match type with
  | managed_machine =>
      let '(rows, n) := update_where (fun r => guard (mg_id r) (mg_workspace r) (view_of r)) (set_deleted deleted now) (ct_machines d) in
      Ok (set_machines rows d, n)
  | managed_service =>
      let selected := fun r => guard (mg_id r) (mg_workspace r) (view_of r) in
      throw_if slug_conflict selected (set_deleted deleted now) (ct_services d) as SLUG_TAKEN in
      let '(rows, n) := update_where selected (set_deleted deleted now) (ct_services d) in
      Ok (set_services rows d, n)
  end.

(** The machines whose agents run a check of the service get a new configuration. *)
Definition runs_check_of (d : control_tables) (workspaceId serviceId : string) (machineId : string) : bool :=
  existsb (fun c => String.eqb (pc_workspace c) workspaceId && String.eqb (pc_service c) serviceId && pc_by_agent c && (pc_enabled c =? 1) &&
    existsb (fun a => bool_decide (pc_agent c = Some (ag_id a)) && ag_active a && String.eqb (ag_machine a) machineId) (ct_agents d)) (ct_checks d).
Definition bump_revision (now : Z) (r : managed_row string) : managed_row string :=
  Managed (mg_id r) (mg_pk r) (mg_workspace r) (mg_name r) (mg_deleted r) (mg_purge r) (mg_cursor r) (mg_revision r + 1) now (mg_slug r).
(* @src apps/web/src/lib/server/resources.ts advanceServiceAgentConfigurationsStatement *)
Definition advanceServiceAgentConfigurationsStatement (workspaceId serviceId : string) (now changed : Z) (d : control_tables)
  : control_tables :=
  if negb (changed =? 1) then d
  else
    set_machines (update_where (fun r => String.eqb (mg_workspace r) workspaceId && bool_decide (mg_deleted r = None) &&
      runs_check_of d workspaceId serviceId (mg_id r)) (bump_revision now) (ct_machines d)).1 d.

Section Lifecycle.
Context `{WC : WebCrypto} `{LO : Locale}.
Context (meanwhile : control_tables -> control_tables).

Definition deletion_json (name : string) (deletedAt : option Z) : jout :=
  OObj [("name", OStr name); ("deletedAt", match deletedAt with Some t => OInt t | None => ONull end)].
(** The transaction both actions end with: the update, its audit row, and for a service the new
    configuration of the agents that run its checks.  When the update throws, nothing is written. *)
(* @src apps/web/src/lib/server/resources.ts 660-675 softDeleteResource *)
Definition lifecycle_batch (type : ManagedResourceType) (guard : string -> string -> managed_view -> bool) (deleted : option Z)
    (audit : audit_row) (workspaceId resourceId : string) (now : Z) (d : control_tables) : res unit * control_tables :=
  match update_managed type guard deleted now d with
  | Err e => (Err e, d)
  | Ok (d1, n) =>
      let d2 := audit_statement audit true n d1 in
      let d3 := match type with
        | managed_service => advanceServiceAgentConfigurationsStatement workspaceId resourceId now (if n =? 1 then 1 else 0) d2
        | managed_machine => d2
        end in
      (throw_if negb (n =? 1) as "409 Resource state changed; reload and try again" in Ok tt, d3)
  end.

(* @src apps/web/src/lib/server/resources.ts softDeleteResource *)
Definition softDeleteResource (d : control_tables) (workspaceSlug userId : string) (type : ManagedResourceType) (resourceId auditId : string)
    (now : Z) : res unit * control_tables :=
  let checked :=
    let* access := loadMonitoringAccess (authz_view d) workspaceSlug userId in
    let* _ := requireResourceCapability access (managed_type type) resourceId manage in
    match load_managed d type (m_workspaceId access) resourceId with
    | Some r => throw_if bool_decide (mv_deleted r <> None) as "404 Resource not found" in Ok (access, r)
    | None => Err "404 Resource not found"
    end in
  match checked with
  | Err e => (Err e, d)
  | Ok (access, resource) =>
      let audit := prepareAuditStatement auditId (AuditInput (m_workspaceId access) userId (managed_name type ++ ".delete")
        (managed_name type) resourceId (Some (deletion_json (mv_name resource) None)) (Some (deletion_json (mv_name resource) (Some now))) now) in
      let d1 := meanwhile d in
      lifecycle_batch type (fun id workspace r => String.eqb id resourceId && String.eqb workspace (m_workspaceId access) &&
          bool_decide (mv_deleted r = None) &&
          finalResourceCapabilityCondition access userId (managed_type type) workspace id manage (authz_view d1))
        (Some now) audit (m_workspaceId access) resourceId now d1
  end.

Definition DEFAULT_GRACE_DAYS : Z := 7.
Definition grace_days (d : control_tables) (workspaceId : string) : Z :=
  match List.find (fun p => String.eqb (rp_workspace p) workspaceId) (ct_policies d) with
  | Some p => rp_soft_delete_days p
  | None => DEFAULT_GRACE_DAYS
  end.
(* @src apps/web/src/lib/server/resources.ts restoreResource *)
Definition restoreResource (d : control_tables) (workspaceSlug userId : string) (type : ManagedResourceType) (resourceId auditId : string)
    (now : Z) : res unit * control_tables :=
  let checked :=
    let* access := loadMonitoringAccess (authz_view d) workspaceSlug userId in
    let* _ := requireAdmin access in
    match load_managed d type (m_workspaceId access) resourceId with
    | Some r =>
        match mv_deleted r with
        | None => Err "404 Resource not found"
        | Some deleted =>
            throw_if deleted <=? now - grace_days d (m_workspaceId access) * DAY_MS as "409 The resource recovery window has expired" in
            throw_if bool_decide (mv_purge r <> None) as "409 The resource recovery window has expired" in
            Ok (access, r, deleted)
        end
    | None => Err "404 Resource not found"
    end in
  match checked with
  | Err e => (Err e, d)
  | Ok (access, resource, deleted) =>
      let audit := prepareAuditStatement auditId (AuditInput (m_workspaceId access) userId (managed_name type ++ ".restore")
        (managed_name type) resourceId (Some (deletion_json (mv_name resource) (Some deleted))) (Some (deletion_json (mv_name resource) None)) now) in
      let d1 := meanwhile d in
      lifecycle_batch type (fun id workspace r => String.eqb id resourceId && String.eqb workspace (m_workspaceId access) &&
          bool_decide (mv_deleted r = Some deleted) && bool_decide (mv_purge r = None) &&
          finalAdminCondition userId workspace (authz_view d1))
        None audit (m_workspaceId access) resourceId now d1
  end.

(* @src apps/web/src/lib/server/resources.ts DeletedResourceSummary *)
Record DeletedResourceSummary := DeletedResource { dr_type : ManagedResourceType; dr_id : string; dr_name : string; dr_deletedAt : Z }.
Definition deleted_summaries {C} (type : ManagedResourceType) (workspaceId : string) (t : list (managed_row C)) : list DeletedResourceSummary :=
  omap (fun r => match mg_deleted r with
    | Some t => if String.eqb (mg_workspace r) workspaceId then Some (DeletedResource type (mg_id r) (mg_name r) t) else None
    | None => None
    end) t.
(* @src apps/web/src/lib/server/resources.ts listDeletedResources *)
Definition listDeletedResources (d : control_tables) (workspaceSlug userId : string) : res (list DeletedResourceSummary) :=
  let* access := requireWorkspaceAdmin d workspaceSlug userId in
  Ok (order_limit (fun a b => dr_deletedAt b <=? dr_deletedAt a) 100
    (deleted_summaries managed_machine (m_workspaceId access) (ct_machines d) ++
     deleted_summaries managed_service (m_workspaceId access) (ct_services d))%list).

(** ** Workspaces *)

Definition set_workspace_deleted (deleted : option Z) (now : Z) (w : workspace_state) : workspace_state :=
  WorkspaceState (wk_id w) (wk_pk w) (wk_slug w) (wk_name w) (wk_dashboard w) (wk_interval w) deleted (wk_purge w) now.
(** [EXISTS (SELECT 1 FROM memberships actor ...)]: an active administrator. *)
Definition actor_is_admin (d : control_tables) (workspaceId userId : string) : bool := finalAdminCondition userId workspaceId (authz_view d).
(** The workspace that the statement's condition selects, joined with the actor's active membership. *)
Definition load_membership (d : control_tables) (p : workspace_state -> bool) (userId : string) : option (workspace_state * WorkspaceRole) :=
  head (w ← List.filter p (ct_workspaces d);
        m ← ct_memberships d;
        if String.eqb (mb_workspace m) (wk_id w) && String.eqb (mb_user m) userId && bool_decide (mb_status m = active)
        then [(w, mb_role m)] else []).
Definition workspace_json (w : workspace_state) (deletedAt : option Z) : jout :=
  OObj [("name", OStr (wk_name w)); ("slug", OStr (wk_slug w)); ("deletedAt", match deletedAt with Some t => OInt t | None => ONull end)].
Definition workspace_batch (guard : workspace_state -> bool) (deleted : option Z) (audit : audit_row) (now : Z) (d : control_tables)
  : res unit * control_tables :=
  let '(rows, n) := update_where guard (set_workspace_deleted deleted now) (ct_workspaces d) in
  let d1 := audit_statement audit true n (set_workspaces rows d) in
  (throw_if negb (n =? 1) as "409 Workspace state changed; reload and try again" in Ok tt, d1).

(* @src apps/web/src/lib/server/workspace-lifecycle.ts softDeleteWorkspace *)
Definition softDeleteWorkspace (d : control_tables) (workspaceSlug actorUserId confirmation auditId : string) (now : Z)
  : res unit * control_tables :=
  let checked :=
    match load_membership d (fun w => String.eqb (wk_slug w) workspaceSlug) actorUserId with
    | None => Err "404 Workspace not found"
    | Some (w, role) =>
        throw_if negb (bool_decide (role = admin)) || bool_decide (wk_deleted w <> None) as "404 Workspace not found" in
        throw_if negb (String.eqb confirmation (wk_slug w)) as "400 Workspace confirmation does not match" in
        Ok w
    end in
  match checked with
  | Err e => (Err e, d)
  | Ok w =>
      let audit := prepareAuditStatement auditId (AuditInput (wk_id w) actorUserId "workspace.delete" "workspace" (wk_id w)
        (Some (workspace_json w None)) (Some (workspace_json w (Some now))) now) in
      let d1 := meanwhile d in
      workspace_batch (fun r => String.eqb (wk_id r) (wk_id w) && bool_decide (wk_deleted r = None) && actor_is_admin d1 (wk_id r) actorUserId)
        (Some now) audit now d1
  end.
(* @src apps/web/src/lib/server/workspace-lifecycle.ts restoreWorkspace *)
Definition restoreWorkspace (d : control_tables) (workspaceId actorUserId auditId : string) (now : Z) : res string * control_tables :=
  let checked :=
    match load_membership d (fun w => String.eqb (wk_id w) workspaceId) actorUserId with
    | None => Err "404 Workspace not found"
    | Some (w, role) =>
        throw_if negb (bool_decide (role = admin)) as "404 Workspace not found" in
        match wk_deleted w with
        | None => Err "404 Workspace not found"
        | Some deleted =>
            throw_if deleted <=? now - grace_days d (wk_id w) * DAY_MS as "409 The workspace recovery window has expired" in
            throw_if bool_decide (wk_purge w <> None) as "409 The workspace recovery window has expired" in
            Ok (w, deleted)
        end
    end in
  match checked with
  | Err e => (Err e, d)
  | Ok (w, deleted) =>
      let audit := prepareAuditStatement auditId (AuditInput (wk_id w) actorUserId "workspace.restore" "workspace" (wk_id w)
        (Some (workspace_json w (Some deleted))) (Some (workspace_json w None)) now) in
      let d1 := meanwhile d in
      let '(r, d2) := workspace_batch (fun r => String.eqb (wk_id r) (wk_id w) && bool_decide (wk_deleted r = Some deleted) &&
          bool_decide (wk_purge r = None) && actor_is_admin d1 (wk_id r) actorUserId) None audit now d1 in
      ((let* _ := r in Ok (wk_slug w)), d2)
  end.
End Lifecycle.
