(* ===== verification/TelemetryRetention.v ===== *)
(** * TelemetryRetention: history that a workspace's policy no longer keeps

    [workers/retention/src/telemetry-retention.ts].  For each of seven tables a run takes up to
    forty of the workspace's resources after a stored cursor, deletes up to two hundred expired
    rows of each, and stops at the first resource whose batch was full, so that the next run
    resumes there. *)

From Stdlib Require Import ZArith Lia Bool String List.
From stdpp Require Import base tactics list strings sorting.
From S2P Require Import Prelude.
From S2P Require Import Js.
From S2P Require Import Sql.
From S2P Require Import CheckPersistence.
From S2P Require Import Lease.
From S2P Require Import RetentionTables.
From S2P Require Import Authz.
From S2P Require Import ControlPlane.
Open Scope string_scope.
Open Scope Z_scope.

(** ** Policies and targets *)

(* @src workers/retention/src/telemetry-retention.ts RetentionPolicyRow *)
Record RetentionPolicyRow := RetentionPolicy {
  workspace_id : string;
  workspace_pk : Z;
  workspace_deleted_at : option Z;
  workspace_purge_started_at : option Z;
  raw_days : Z;
  rollup_5m_days : Z;
  rollup_1h_days : Z;
  event_days : Z;
  audit_log_days : Z;
  expired_announcement_grace_days : Z;
  soft_delete_grace_days : Z;
}.
(* @src workers/retention/src/telemetry-retention.ts RetentionKind *)
Inductive RetentionKind := machine_raw | machine_5m | machine_1h | check_raw | check_5m | check_1h | status_5m.
Definition kind_name (k : RetentionKind) : string :=
  match k with
  | machine_raw => "machine_raw" | machine_5m => "machine_5m" | machine_1h => "machine_1h"
  | check_raw => "check_raw" | check_5m => "check_5m" | check_1h => "check_1h" | status_5m => "status_5m"
  end.
Inductive control_table := tbl_machines | tbl_check_configs | tbl_services.

(** [retentionDays] names the column of the policy; here it is the projection. *)
(* @src workers/retention/src/telemetry-retention.ts RetentionTarget *)
Record RetentionTarget := Target {
  tg_kind : RetentionKind;
  tg_control : control_table;
  tg_table : timed_table;
  tg_days : RetentionPolicyRow -> Z;
  tg_resourceType : option Z;
  tg_bucketSeconds : option Z;
}.
(* @src workers/retention/src/telemetry-retention.ts 41-42 ROW_BATCH *)
Definition RESOURCE_BATCH : Z := 40.
Definition ROW_BATCH : Z := 200.
(* @src workers/retention/src/telemetry-retention.ts MACHINE_RAW_TARGET *)
Definition MACHINE_RAW_TARGET : RetentionTarget := Target machine_raw tbl_machines telemetry_blocks_5m raw_days None None.
(* @src workers/retention/src/telemetry-retention.ts TARGETS *)
Definition TARGETS : list RetentionTarget := [
  MACHINE_RAW_TARGET;
  Target machine_5m tbl_machines machine_rollups_5m rollup_5m_days None None;
  Target machine_1h tbl_machines machine_rollups_1h rollup_1h_days None None;
  Target check_raw tbl_check_configs check_result_blocks_5m raw_days None None;
  Target check_5m tbl_check_configs check_rollups_5m rollup_5m_days None None;
  Target check_1h tbl_check_configs check_rollups_1h rollup_1h_days None None;
  Target status_5m tbl_services status_buckets_table rollup_5m_days (Some 2) (Some 300)
].

(* @src workers/retention/src/telemetry-retention.ts targetPredicates *)
Definition targetPredicates (target : RetentionTarget) (r : timed_row) : bool :=
  match tg_resourceType target with Some t => tm_type r =? t | None => true end &&
  match tg_bucketSeconds target with Some s => tm_seconds r =? s | None => true end.

Definition time_leb (a b : timed_row) : bool := tm_time a <=? tm_time b.
(** The rows one statement may delete. *)
Definition expired_row (target : RetentionTarget) (resourcePk cutoff : Z) (r : timed_row) : bool :=
  (tm_resource r =? resourcePk) && (targetPredicates target r && (tm_time r <? cutoff)).
(* @src workers/retention/src/telemetry-retention.ts deleteResourceRows *)
Definition deleteResourceRows (target : RetentionTarget) (resourcePk cutoff rowBatch : Z) (db : telemetry_tables)
  : Z * telemetry_tables :=
  let '(rows, changes) := delete_in timed_pair time_leb rowBatch (targetPredicates target)
    (expired_row target resourcePk cutoff) (tt_timed db (tg_table target)) in
  (changes, set_timed (tg_table target) rows db).

(** ** One target *)

(** [telemetry_pk] and [workspace_id] of a control table. *)
Definition control_resources (table : control_table) (d : control_tables) : list (Z * string) :=
  match table with
  | tbl_machines => map (fun r => (mg_pk r, mg_workspace r)) (ct_machines d)
  | tbl_check_configs => map (fun r => (pc_pk r, pc_workspace r)) (ct_checks d)
  | tbl_services => map (fun r => (mg_pk r, mg_workspace r)) (ct_services d)
  end.
Definition workspace_resources (d : control_tables) (table : control_table) (pk : Z) : list Z :=
  omap (fun '(resource, workspace) =>
    if existsb (fun w => String.eqb (wk_id w) workspace && (wk_pk w =? pk)) (ct_workspaces d) then Some resource else None)
    (control_resources table d).
Definition resource_page (d : control_tables) (table : control_table) (pk cursor batch : Z) : list Z :=
  order_limit Z.leb batch (List.filter (fun r => cursor <? r) (workspace_resources d table pk)).

(** Where a run stands: rows deleted, the cursor, the cutoff it has completed, a full batch. *)
Record target_progress := Progress { tp_deleted : Z; tp_cursor : Z; tp_cutoff : Z; tp_filled : bool }.
(* @src workers/retention/src/telemetry-retention.ts 176-197 cleanTelemetryTarget *)
Fixpoint clean_resources (target : RetentionTarget) (cutoff rowBatch : Z) (resources : list Z)
    (p : target_progress) (db : telemetry_tables) : target_progress * telemetry_tables :=
  match resources with
  | [] => (p, db)
  | pk :: rest =>
      let '(changes, db1) := deleteResourceRows target pk cutoff rowBatch db in
      let deleted := tp_deleted p + changes in
      if rowBatch <=? changes then (Progress deleted (tp_cursor p) (tp_cutoff p) true, db1)
      else clean_resources target cutoff rowBatch rest (Progress deleted pk cutoff false) db1
  end.

(** [ON CONFLICT DO UPDATE SET resource_pk, time_cursor, updated_at]: the lease stays. *)
Definition move_cursor (old new : retention_cursor_row) : retention_cursor_row :=
  RetentionCursor (rc_workspace_pk old) (rc_table_kind old) (rc_resource_pk new) (rc_time_cursor new)
    (rc_lease_until old) (rc_updated_at new).
(* @src workers/retention/src/telemetry-retention.ts cleanTelemetryTarget *)
Definition cleanTelemetryTarget (control : control_tables) (policy : RetentionPolicyRow) (target : RetentionTarget)
    (now resourceBatch rowBatch : Z) (db : telemetry_tables) : Z * telemetry_tables :=
  let cursor := find_key retention_key (workspace_pk policy, kind_name (tg_kind target)) (tt_cursors db) in
  let previousResourceCursor := match cursor with Some c => rc_resource_pk c | None => 0 end in
  let cutoff := now - tg_days target policy * DAY_MS in
  let resources := resource_page control (tg_control target) (workspace_pk policy) previousResourceCursor resourceBatch in
  let '(p, db1) := clean_resources target cutoff rowBatch resources
    (Progress 0 previousResourceCursor (match cursor with Some c => rc_time_cursor c | None => 0 end) false) db in
  let '(nextResourceCursor, completedCutoff) :=
    if negb (tp_filled p) && (Z.of_nat (length resources) <? resourceBatch) then (0, cutoff)
    else (tp_cursor p, tp_cutoff p) in
  let '(cursors, _) := upsert retention_key (fun _ _ => true) move_cursor
    (RetentionCursor (workspace_pk policy) (kind_name (tg_kind target)) nextResourceCursor completedCutoff 0 now)
    (tt_cursors db1) in
  (tp_deleted p, set_retention_cursors cursors db1).

(* @src workers/retention/src/telemetry-retention.ts cleanTelemetryHistory *)
Definition cleanTelemetryHistory (control : control_tables) (policy : RetentionPolicyRow) (now : Z) (db : telemetry_tables)
  : Z * telemetry_tables :=
  foldl (fun '(deleted, db) target =>
    let '(n, db') := cleanTelemetryTarget control policy target now RESOURCE_BATCH ROW_BATCH db in (deleted + n, db'))
    (0, db) TARGETS.

(** ** State events *)

Definition occurred_leb (a b : state_event) : bool := ev_at a <=? ev_at b.
Definition expired_event (pk cutoff : Z) (e : state_event) : bool := (ev_workspace e =? pk) && (ev_at e <? cutoff).
(* @src workers/retention/src/telemetry-retention.ts cleanStateEvents *)
Definition cleanStateEvents (policy : RetentionPolicyRow) (previousTimeCursor now rowBatch : Z) (db : telemetry_tables)
  : (Z * Z) * telemetry_tables :=
  let cutoff := now - event_days policy * DAY_MS in
  let '(events, deleted) := delete_in event_key occurred_leb rowBatch (fun _ => true)
    (expired_event (workspace_pk policy) cutoff) (tt_events db) in
  ((deleted, if deleted <? rowBatch then cutoff else previousTimeCursor),
   set_events events (cascade_queue events (tt_queue db)) db).

(** ** One target deletes what has expired, and nothing else *)

(** A target of [status_buckets] names a type and a bucket width. *)
Definition target_ok (target : RetentionTarget) : Prop :=
  tg_table target = status_buckets_table -> is_Some (tg_resourceType target) /\ is_Some (tg_bucketSeconds target).
Lemma TARGETS_ok target : target ∈ TARGETS -> target_ok target.
Proof.
  unfold TARGETS, target_ok. rewrite !elem_of_cons, elem_of_nil. intros H E.
  repeat (destruct H as [H|H]; [subst; first [discriminate E | by split; eexists]|]). done.
Qed.

Lemma expired_row_true target pk cutoff r : expired_row target pk cutoff r = true <->
  tm_resource r = pk /\ targetPredicates target r = true /\ tm_time r < cutoff.
Proof. unfold expired_row. rewrite !andb_true_iff, Z.eqb_eq, Z.ltb_lt. done. Qed.

Lemma target_identifies target pk cutoff t : target_ok target -> timed_unique (tg_table target) t ->
  identifies timed_pair (targetPredicates target) (expired_row target pk cutoff) t.
Proof.
  intros Hok Hu. assert (Hsel : forall r, r ∈ t -> expired_row target pk cutoff r = true -> targetPredicates target r = true).
  { intros r _ H. apply expired_row_true in H. by destruct H as (_ & ? & _). }
  destruct (decide (tg_table target = status_buckets_table)) as [E|E].
  - split; [done|]. intros r s Hr Hs Ho Hx Hk. destruct (Hok E) as [[ty Ht] [sec Hsec]].
    apply expired_row_true in Hx as (_ & Hp & _). unfold targetPredicates in Ho, Hp. rewrite Ht, Hsec in Ho, Hp. bool_hyps.
    rewrite E in Hu. injection Hk as Hk1 Hk2.
    assert (Hb : bucket_pair s = bucket_pair r) by (unfold bucket_pair; congruence).
    pose proof (find_key_unique bucket_pair (bucket_pair r) t s Hu Hs Hb) as F1.
    pose proof (find_key_unique bucket_pair (bucket_pair r) t r Hu Hr eq_refl) as F2. congruence.
  - apply identifies_guarded; [|done]. by destruct (tg_table target).
Qed.
Lemma timed_unique_NoDup table t : timed_unique table t -> NoDup t.
Proof. destruct table; apply keys_unique_NoDup. Qed.
Lemma timed_unique_delete table n outer sel t : timed_unique table t ->
  timed_unique table (delete_in timed_pair time_leb n outer sel t).1.
Proof. destruct table; apply delete_where_unique. Qed.

(** Everything but one timed table is as it was. *)
Record same_but_timed (table : timed_table) (db db' : telemetry_tables) : Prop := {
  sb_timed : forall k, k <> table -> tt_timed db' k = tt_timed db k;
  sb_latest : tt_latest db' = tt_latest db;
  sb_events : tt_events db' = tt_events db;
  sb_queue : tt_queue db' = tt_queue db;
  sb_replay : tt_replay db' = tt_replay db;
  sb_summaries : tt_summaries db' = tt_summaries db;
  sb_cursors : tt_cursors db' = tt_cursors db;
  sb_runs : tt_runs db' = tt_runs db;
  sb_artifacts : tt_artifact_cursors db' = tt_artifact_cursors db;
}.
Lemma same_but_timed_refl table db : same_but_timed table db db.
Proof. by split. Qed.
Lemma same_but_timed_trans table a b c : same_but_timed table a b -> same_but_timed table b c -> same_but_timed table a c.
Proof.
  intros Ha Hb. split; [intros k Hk; rewrite (sb_timed _ _ _ Hb k Hk); by apply (sb_timed _ _ _ Ha)|..].
  all: etrans; [apply Hb | apply Ha].
Qed.
Lemma same_set_timed table rows db : same_but_timed table db (set_timed table rows db).
Proof. split; try done. intros k Hk. cbn. by rewrite bool_decide_eq_false_2. Qed.
Lemma set_timed_at table rows db : tt_timed (set_timed table rows db) table = rows.
Proof. cbn. by rewrite bool_decide_eq_true_2. Qed.

(** What a statement on one resource does. *)
Lemma deleteResourceRows_spec target pk cutoff n db : 0 <= n -> target_ok target ->
  timed_unique (tg_table target) (tt_timed db (tg_table target)) ->
  let out := deleteResourceRows target pk cutoff n db in
  let rows := tt_timed db (tg_table target) in
  let rows' := tt_timed out.2 (tg_table target) in
  same_but_timed (tg_table target) db out.2 /\ timed_unique (tg_table target) rows' /\
  (forall r, r ∈ rows' -> r ∈ rows) /\
  (forall r, r ∈ rows -> expired_row target pk cutoff r = false -> r ∈ rows') /\
  0 <= out.1 <= n /\ (out.1 < n -> forall r, r ∈ rows' -> expired_row target pk cutoff r = false) /\
  (forall E : timed_row -> bool, (forall r, r ∈ rows -> expired_row target pk cutoff r = true -> E r = true) ->
     count_if E rows' = count_if E rows - out.1).
Proof.
  intros Hn Hok Hu out rows rows'. pose proof (target_identifies target pk cutoff rows Hok Hu) as Hid.
  pose proof (timed_unique_NoDup _ _ Hu) as Hnd.
  destruct (delete_in_spec timed_pair time_leb n _ _ _ Hn Hnd Hid) as (Hc & _ & _ & _).
  pose proof (delete_in_short timed_pair time_leb n _ _ _ Hn Hnd Hid) as Hshort.
  pose proof (fun r => delete_in_kept timed_pair time_leb n _ _ _ r Hn Hnd Hid) as Hkept.
  pose proof (fun r => delete_in_subset timed_pair time_leb n (targetPredicates target) (expired_row target pk cutoff) rows r) as Hsub.
  pose proof (fun E => delete_in_count timed_pair time_leb n _ _ E _ Hid) as Hcount.
  pose proof (timed_unique_delete _ n (targetPredicates target) (expired_row target pk cutoff) _ Hu) as Hu'.
  unfold rows', out, deleteResourceRows in *. fold rows in Hu'. fold rows.
  destruct (delete_in _ _ _ _ _ _) as [kept changes]. cbn [fst snd] in *. rewrite set_timed_at.
  split_and!; try done; [apply same_set_timed | | lia]. pose proof (count_if_nonneg (expired_row target pk cutoff) rows). subst rows. lia.
Qed.

(** The loop over a page of resources: it stops behind the first full batch, and what it passed
    is clean. *)
Lemma clean_resources_spec target cutoff n resources : 0 < n -> target_ok target -> forall p db,
  tp_filled p = false -> timed_unique (tg_table target) (tt_timed db (tg_table target)) ->
  let out := clean_resources target cutoff n resources p db in
  let rows := tt_timed db (tg_table target) in
  let rows' := tt_timed out.2 (tg_table target) in
  same_but_timed (tg_table target) db out.2 /\ timed_unique (tg_table target) rows' /\
  (forall r, r ∈ rows' -> r ∈ rows) /\
  (forall r, r ∈ rows -> (forall pk, pk ∈ resources -> expired_row target pk cutoff r = false) -> r ∈ rows') /\
  tp_deleted p <= tp_deleted out.1 <= tp_deleted p + n * Z.of_nat (length resources) /\
  (forall E : timed_row -> bool,
     (forall r pk, r ∈ rows -> pk ∈ resources -> expired_row target pk cutoff r = true -> E r = true) ->
     count_if E rows' = count_if E rows - (tp_deleted out.1 - tp_deleted p)) /\
  (exists passed rest, resources = (passed ++ rest)%list /\ tp_cursor out.1 = coalesce (last passed) (tp_cursor p) /\
     tp_cutoff out.1 = (if (length passed =? 0)%nat then tp_cutoff p else cutoff) /\
     (forall pk r, pk ∈ passed -> r ∈ rows' -> expired_row target pk cutoff r = false) /\
     if tp_filled out.1 then tp_deleted p + n <= tp_deleted out.1 /\ rest <> [] else rest = []).
Proof.
  intros Hn Hok. induction resources as [|pk rest IH]; intros p db Hf Hu out rows rows'.
  - unfold rows', out. cbn [clean_resources fst snd]. split_and!; try done; try lia.
    + intros E _. unfold rows. lia.
    + exists [], []. rewrite Hf. split_and!; try done. intros pk r Hpk. by apply elem_of_nil in Hpk.
  - unfold out in *. clear out. unfold rows' in *. clear rows'. cbn [clean_resources].
    destruct (deleteResourceRows_spec target pk cutoff n db ltac:(lia) Hok Hu) as (Hs & Hu1 & Hsub & Hkeep & Hb & Hshort & Hcnt).
    destruct (deleteResourceRows target pk cutoff n db) as [changes db1]. cbn [fst snd] in *. fold rows in Hsub, Hkeep, Hcnt.
    destruct (n <=? changes) eqn:Efull; bool_hyps.
    + cbn [fst snd tp_deleted tp_cursor tp_cutoff tp_filled length]. split_and!; try done; try lia.
      * intros r Hr Hno. apply Hkeep; [done|]. apply Hno. by left.
      * intros E HE. rewrite (Hcnt E) by (intros r Hr He; apply (HE r pk); [done | by left | done]). lia.
      * exists [], (pk :: rest). split_and!; try done; [|lia]. intros q r Hq. by apply elem_of_nil in Hq.
    + specialize (IH (Progress (tp_deleted p + changes) pk cutoff false) db1 eq_refl Hu1).
      destruct (clean_resources target cutoff n rest _ db1) as [p' db']. cbn [fst snd tp_deleted tp_cursor tp_cutoff tp_filled length] in *.
      destruct IH as (Hs' & Hu' & Hsub' & Hkeep' & Hb' & Hcnt' & (passed & rest' & Erest & Ecur & Ecut & Hclean & Hend)).
      split_and!; try done; try lia.
      * by apply (same_but_timed_trans _ _ db1).
      * auto.
      * intros r Hr Hno. apply Hkeep'; [apply Hkeep; [done|]; apply Hno; by left|]. intros q Hq. apply Hno. by right.
      * intros E HE. rewrite (Hcnt' E), (Hcnt E); [lia | |].
        -- intros r Hr He. apply (HE r pk); [done | by left | done].
        -- intros r q Hr Hq He. apply (HE r q); [auto | by right | done].
      * exists (pk :: passed), rest'. split_and!.
        -- by rewrite Erest.
        -- rewrite Ecur, last_cons. by destruct (last passed).
        -- rewrite Ecut. by destruct (length passed =? 0)%nat.
        -- intros q r Hq Hr. apply elem_of_cons in Hq as [->|Hq]; [|by apply (Hclean q)]. apply Hshort; [lia | auto].
        -- destruct (tp_filled p'); [|done]. split; [lia | by destruct Hend].
Qed.

(** ** A run of one target *)

Definition target_key (policy : RetentionPolicyRow) (target : RetentionTarget) : Z * string :=
  (workspace_pk policy, kind_name (tg_kind target)).
Definition target_cursor (policy : RetentionPolicyRow) (target : RetentionTarget) (db : telemetry_tables) : Z :=
  match find_key retention_key (target_key policy target) (tt_cursors db) with Some c => rc_resource_pk c | None => 0 end.
Definition target_resources (control : control_tables) (policy : RetentionPolicyRow) (target : RetentionTarget) : list Z :=
  workspace_resources control (tg_control target) (workspace_pk policy).
Definition beyond (c : Z) (resources : list Z) : list Z := List.filter (fun r => c <? r) resources.
Definition clean_of (target : RetentionTarget) (cutoff pk : Z) (rows : list timed_row) : Prop :=
  forall r, r ∈ rows -> expired_row target pk cutoff r = false.

(** A run moves along the resources in one of three ways. *)
Inductive target_move (target : RetentionTarget) (cutoff resourceBatch rowBatch deleted : Z) (resources : list Z)
    (c c' : Z) (rows' : list timed_row) : Prop :=
| move_filled : c <= c' -> rowBatch <= deleted ->
    (forall pk, pk ∈ resources -> c < pk <= c' -> clean_of target cutoff pk rows') ->
    target_move target cutoff resourceBatch rowBatch deleted resources c c' rows'
| move_page : Z.of_nat (length (beyond c' resources)) + resourceBatch <= Z.of_nat (length (beyond c resources)) ->
    (forall pk, pk ∈ resources -> c < pk <= c' -> clean_of target cutoff pk rows') ->
    target_move target cutoff resourceBatch rowBatch deleted resources c c' rows'
| move_wrap : c' = 0 -> (forall pk, pk ∈ resources -> c < pk -> clean_of target cutoff pk rows') ->
    target_move target cutoff resourceBatch rowBatch deleted resources c c' rows'.

Lemma Zleb_total x y : (x <=? y) = true \/ (y <=? x) = true.
Proof. rewrite !Z.leb_le. lia. Qed.
Lemma Zleb_trans x y z : (x <=? y) = true -> (y <=? z) = true -> (x <=? z) = true.
Proof. rewrite !Z.leb_le. lia. Qed.

(** The part of a page up to its last resource holds every resource up to there. *)
Lemma page_prefix_covers resources c batch passed rest c' pk :
  order_limit Z.leb batch (beyond c resources) = (passed ++ rest)%list -> last passed = Some c' ->
  pk ∈ resources -> c < pk <= c' -> pk ∈ passed.
Proof.
  intros Hp Hl Hin Hb. pose proof (@order_by_Sorted Z Z.leb Zleb_total (beyond c resources)) as Hs.
  apply (@Sorted_StronglySorted Z (Leb Z.leb) Zleb_trans) in Hs.
  rewrite <- (take_drop (Z.to_nat batch) (order_by Z.leb _)) in Hs. fold (order_limit Z.leb batch (beyond c resources)) in Hs.
  rewrite Hp, <- (assoc_L (++)) in Hs.
  assert (Hpk : pk ∈ (passed ++ (rest ++ drop (Z.to_nat batch) (order_by Z.leb (beyond c resources))))%list).
  { rewrite (assoc_L (++)), <- Hp. unfold order_limit. rewrite take_drop. apply elem_of_order_by, filter_In_elem. split; [done|].
    apply Z.ltb_lt. lia. }
  apply elem_of_app in Hpk as [?|Hpk]; [done|].
  assert (Hc' : c' ∈ passed) by (by apply last_Some_elem_of).
  pose proof (StronglySorted_app_1_elem_of _ _ _ c' pk Hs Hc' Hpk) as Hle. apply Z.leb_le in Hle.
  by replace pk with c' by lia.
Qed.

(** A full page takes its resources out of those still ahead. *)
Lemma full_page_beyond resources c batch c' : NoDup resources -> 0 < batch ->
  let page := order_limit Z.leb batch (beyond c resources) in
  batch <= Z.of_nat (length page) -> last page = Some c' ->
  Z.of_nat (length (beyond c' resources)) + batch <= Z.of_nat (length (beyond c resources)).
Proof.
  intros Hnd Hb page Hlen Hl.
  assert (Hsub : (page ++ beyond c' resources)%list ⊆+ beyond c resources).
  { apply NoDup_submseteq.
    - apply NoDup_app. split_and!.
      + by apply NoDup_order_limit, NoDup_filter_bool.
      + intros x Hx [Hx' Hlt]%filter_In_elem. apply Z.ltb_lt in Hlt.
        pose proof (@order_by_Sorted Z Z.leb Zleb_total (beyond c resources)) as Hs.
        apply (@Sorted_StronglySorted Z (Leb Z.leb) Zleb_trans) in Hs.
        rewrite <- (take_drop (Z.to_nat batch) (order_by Z.leb _)) in Hs. apply StronglySorted_app_1_l in Hs.
        fold (order_limit Z.leb batch (beyond c resources)) in Hs. fold page in Hs.
        destruct page as [|a l _] using rev_ind; [done|]. rewrite last_snoc in Hl. injection Hl as ->.
        apply elem_of_app in Hx as [Hx|Hx]; [|apply list_elem_of_singleton in Hx; lia].
        pose proof (StronglySorted_app_1_elem_of _ _ _ x c' Hs Hx (list_elem_of_here _ _)) as Hle. apply Z.leb_le in Hle. lia.
      + by apply NoDup_filter_bool.
    - intros x [Hx|Hx]%elem_of_app; [by apply elem_of_order_limit in Hx|].
      apply filter_In_elem in Hx as [Hx Hlt]. apply filter_In_elem. split; [done|]. apply Z.ltb_lt in Hlt. apply Z.ltb_lt.
      assert (Hc : c' ∈ page) by (by apply last_Some_elem_of). apply elem_of_order_limit, filter_In_elem in Hc as [_ Hc].
      apply Z.ltb_lt in Hc. lia. }
  apply submseteq_length in Hsub. rewrite length_app in Hsub. lia.
Qed.

Definition target_cutoff (policy : RetentionPolicyRow) (target : RetentionTarget) (now : Z) : Z :=
  now - tg_days target policy * DAY_MS.

(** What a run of one target leaves alone. *)
Record same_but_target (policy : RetentionPolicyRow) (target : RetentionTarget) (db db' : telemetry_tables) : Prop := {
  st_timed : forall k, k <> tg_table target -> tt_timed db' k = tt_timed db k;
  st_latest : tt_latest db' = tt_latest db;
  st_events : tt_events db' = tt_events db;
  st_queue : tt_queue db' = tt_queue db;
  st_replay : tt_replay db' = tt_replay db;
  st_summaries : tt_summaries db' = tt_summaries db;
  st_cursors : forall k, k <> target_key policy target -> find_key retention_key k (tt_cursors db') = find_key retention_key k (tt_cursors db);
  st_runs : tt_runs db' = tt_runs db;
  st_artifacts : tt_artifact_cursors db' = tt_artifact_cursors db;
}.

Section Target.
Context (control : control_tables) (policy : RetentionPolicyRow) (target : RetentionTarget).
Context (resourceBatch rowBatch : Z) (HB : 0 < resourceBatch) (HN : 0 < rowBatch) (Hok : target_ok target).
Context (Hres : NoDup (target_resources control policy target)).

(** The cursor a run starts from and the one it stores. *)
Lemma cleanTelemetryTarget_spec now db :
  timed_unique (tg_table target) (tt_timed db (tg_table target)) -> keys_unique retention_key (tt_cursors db) ->
  let out := cleanTelemetryTarget control policy target now resourceBatch rowBatch db in
  let rows := tt_timed db (tg_table target) in
  let rows' := tt_timed out.2 (tg_table target) in
  let cutoff := target_cutoff policy target now in
  let resources := target_resources control policy target in
  same_but_target policy target db out.2 /\
  timed_unique (tg_table target) rows' /\ keys_unique retention_key (tt_cursors out.2) /\
  (forall r, r ∈ rows' -> r ∈ rows) /\
  (forall r, r ∈ rows -> (forall pk, pk ∈ resources -> expired_row target pk cutoff r = false) -> r ∈ rows') /\
  0 <= out.1 <= rowBatch * resourceBatch /\
  (forall E : timed_row -> bool, (forall r pk, r ∈ rows -> pk ∈ resources -> expired_row target pk cutoff r = true -> E r = true) ->
     count_if E rows' = count_if E rows - out.1) /\
  target_move target cutoff resourceBatch rowBatch out.1 resources
    (target_cursor policy target db) (target_cursor policy target out.2) rows'.
Proof.
  intros Hu Hk out rows rows' cutoff resources.
  set (page := resource_page control (tg_control target) (workspace_pk policy) (target_cursor policy target db) resourceBatch).
  assert (Hpage : forall pk, pk ∈ page -> pk ∈ resources /\ target_cursor policy target db < pk).
  { intros pk Hpk%elem_of_order_limit%filter_In_elem. by rewrite <- Z.ltb_lt. }
  pose proof (length_order_limit Z.leb resourceBatch (beyond (target_cursor policy target db) resources)) as Hlen.
  change (order_limit Z.leb resourceBatch (beyond (target_cursor policy target db) resources)) with page in Hlen.
  unfold rows', out, cleanTelemetryTarget. clear rows' out.
  change (find_key retention_key (workspace_pk policy, kind_name (tg_kind target)) (tt_cursors db))
    with (find_key retention_key (target_key policy target) (tt_cursors db)).
  set (p0 := Progress 0 _ _ false).
  change (resource_page _ _ _ _ _) with page. fold (target_cutoff policy target now). fold cutoff.
  destruct (clean_resources_spec target cutoff rowBatch page HN Hok p0 db eq_refl Hu)
    as (Hs & Hu' & Hsub & Hkeep & Hb & Hcnt & (passed & rest & Esplit & Ecur & _ & Hclean & Hend)).
  destruct (clean_resources target cutoff rowBatch page p0 db) as [p db1]. cbn [fst snd] in *.
  change (tp_cursor p0) with (target_cursor policy target db) in Ecur. change (tp_deleted p0) with 0 in *.
  set (next := if _ : bool then (0, cutoff) else (tp_cursor p, tp_cutoff p)).
  destruct next as [c' cut'] eqn:Enext.
  set (row := RetentionCursor _ _ c' cut' 0 now).
  pose proof (fun k => find_key_upsert retention_key k (fun _ _ => true) move_cursor row (tt_cursors db1) (fun _ _ => eq_refl)) as Hf.
  rewrite (sb_cursors _ _ _ Hs) in Hf |- *.
  pose proof (upsert_unique retention_key (fun _ _ => true) move_cursor row (tt_cursors db) (fun _ _ => eq_refl) Hk) as Hk'.
  destruct (upsert _ _ _ _ _) as [cursors n]. cbn [fst snd] in *. cbn [set_retention_cursors tt_timed tt_cursors].
  assert (Hc' : target_cursor policy target (set_retention_cursors cursors db1) = c').
  { unfold target_cursor. cbn [set_retention_cursors tt_cursors]. rewrite Hf. rewrite bool_decide_eq_true_2 by done.
    by destruct (find_key _ _ _). }
  rewrite Hc'. split_and!; try done; try lia.
  - split; cbn [set_retention_cursors tt_timed tt_latest tt_events tt_queue tt_replay tt_summaries tt_cursors tt_runs tt_artifact_cursors]; try apply Hs.
    intros k Hne. rewrite Hf. by rewrite bool_decide_eq_false_2.
  - intros r Hr Hno. apply Hkeep; [done|]. intros pk Hpk. apply Hno. by apply Hpage.
  - nia.
  - intros E HE. rewrite (Hcnt E); [subst rows; lia|]. intros r pk Hr Hpk. apply HE; [done|]. by apply Hpage.
  - assert (Hprefix : forall pk, pk ∈ resources -> target_cursor policy target db < pk <= tp_cursor p ->
      clean_of target cutoff pk (tt_timed db1 (tg_table target))).
    { intros pk Hpk Hrange r Hr. apply (Hclean pk); [|done]. destruct (last passed) as [q|] eqn:El; [|cbn in Ecur; lia].
      apply (page_prefix_covers resources (target_cursor policy target db) resourceBatch passed rest q); try done.
      by rewrite Ecur in Hrange. }
    destruct (tp_filled p) eqn:Ef; cbn [negb andb] in Enext.
    + unfold next in Enext. injection Enext as <- _. apply move_filled; [|lia|done]. rewrite Ecur.
      destruct (last passed) as [q|] eqn:El; cbn; [|lia].
      assert (Hq : q ∈ page) by (rewrite Esplit; apply elem_of_app; left; by apply last_Some_elem_of). apply Hpage in Hq. lia.
    + subst rest. rewrite app_nil_r in Esplit. subst passed. unfold next in Enext.
      destruct (Z.of_nat (length page) <? resourceBatch) eqn:El; cbn [negb andb] in Enext; injection Enext as <- _; bool_hyps.
      * apply move_wrap; [done|]. intros pk Hpk Hlt r Hr. apply (Hclean pk); [|done].
        apply order_limit_all; [|apply filter_In_elem; split; [done|]; by apply Z.ltb_lt].
        assert (Hx : Z.of_nat (length page) = Z.min resourceBatch (Z.of_nat (length (beyond (target_cursor policy target db) resources)))).
        { apply order_limit_count. lia. }
        unfold beyond, resources, target_resources in Hx. lia.
      * apply move_page; [|done]. rewrite Ecur. destruct (last page) as [q|] eqn:Elast; cbn.
        -- by apply (full_page_beyond resources (target_cursor policy target db) resourceBatch q).
        -- apply last_None in Elast. rewrite Elast in El. cbn in El. lia.
Qed.
End Target.

(** What a run does to one target's rows, which it finds with the cursor at [c] and leaves with
    the cursor at [c']. *)
Record target_run (target : RetentionTarget) (cutoff deleted : Z) (resources : list Z)
    (c c' : Z) (rows rows' : list timed_row) : Prop := {
  tr_unique : timed_unique (tg_table target) rows';
  tr_subset : forall r, r ∈ rows' -> r ∈ rows;
  tr_kept : forall r, r ∈ rows -> (forall pk, pk ∈ resources -> expired_row target pk cutoff r = false) -> r ∈ rows';
  tr_bound : 0 <= deleted <= ROW_BATCH * RESOURCE_BATCH;
  tr_count : forall E : timed_row -> bool,
    (forall r pk, r ∈ rows -> pk ∈ resources -> expired_row target pk cutoff r = true -> E r = true) ->
    count_if E rows' = count_if E rows - deleted;
  tr_move : target_move target cutoff RESOURCE_BATCH ROW_BATCH deleted resources c c' rows';
}.

Section History.
Context (control : control_tables) (policy : RetentionPolicyRow) (now : Z).
Context (Hctl : control_ok control).

Lemma workspace_resources_NoDup table pk : NoDup (workspace_resources control table pk).
Proof.
  assert (Hn : NoDup (map fst (control_resources table control))).
  { destruct table; cbn; rewrite map_map; cbn; [apply (cto_machine_pks _ Hctl) | apply (cto_check_pks _ Hctl) | apply (cto_service_pks _ Hctl)]. }
  unfold workspace_resources. induction (control_resources table control) as [|[x w] l IH]; [constructor|].
  cbn in Hn. apply NoDup_cons in Hn as [Hx Hn]. cbn. destruct (existsb _ _); [|by apply IH]. constructor; [|by apply IH].
  rewrite list_elem_of_omap. intros ([y w'] & Hy & E). destruct (existsb _ _); [|done]. injection E as ->.
  apply Hx. by apply (list_elem_of_fmap_2' fst _ (x, w')).
Qed.

Lemma target_kinds_differ t1 t2 : t1 ∈ TARGETS -> t2 ∈ TARGETS -> t1 <> t2 ->
  tg_table t1 <> tg_table t2 /\ target_key policy t1 <> target_key policy t2.
Proof.
  unfold TARGETS, MACHINE_RAW_TARGET, target_key. rewrite !elem_of_cons, !elem_of_nil. intros H1 H2 Hne.
  repeat (destruct H1 as [H1|H1]; [subst t1;
    repeat (destruct H2 as [H2|H2]; [subst t2; first [by destruct Hne | split; cbn; congruence]|]); done|]). done.
Qed.

Definition history_from (targets : list RetentionTarget) (acc : Z * telemetry_tables) : Z * telemetry_tables :=
  foldl (fun '(deleted, db) target =>
    let '(n, db') := cleanTelemetryTarget control policy target now RESOURCE_BATCH ROW_BATCH db in (deleted + n, db')) acc targets.

(** A whole run, seen from one target: the others do not touch its rows nor its cursor. *)
Lemma history_spec targets : NoDup targets -> (forall t, t ∈ targets -> t ∈ TARGETS) -> forall n0 db,
  (forall table, timed_unique table (tt_timed db table)) -> keys_unique retention_key (tt_cursors db) ->
  let out := history_from targets (n0, db) in
  (forall table, timed_unique table (tt_timed out.2 table)) /\ keys_unique retention_key (tt_cursors out.2) /\
  (tt_latest out.2, tt_events out.2, tt_queue out.2, tt_replay out.2, tt_summaries out.2, tt_runs out.2, tt_artifact_cursors out.2)
  = (tt_latest db, tt_events db, tt_queue db, tt_replay db, tt_summaries db, tt_runs db, tt_artifact_cursors db) /\
  (forall table, (forall t, t ∈ targets -> tg_table t <> table) -> tt_timed out.2 table = tt_timed db table) /\
  (forall k, (forall t, t ∈ targets -> target_key policy t <> k) ->
     find_key retention_key k (tt_cursors out.2) = find_key retention_key k (tt_cursors db)) /\
  n0 <= out.1 <= n0 + ROW_BATCH * RESOURCE_BATCH * Z.of_nat (length targets) /\
  (forall t, t ∈ targets -> exists deleted, target_run t (target_cutoff policy t now) deleted (target_resources control policy t)
     (target_cursor policy t db) (target_cursor policy t out.2) (tt_timed db (tg_table t)) (tt_timed out.2 (tg_table t))).
Proof.
  induction targets as [|target rest IH]; intros Hnd HT n0 db Hu Hk out.
  - unfold out. cbn. split_and!; try done; try lia. intros t Ht. by apply elem_of_nil in Ht.
  - apply NoDup_cons in Hnd as [Hnin Hnd]. unfold out, history_from in *. cbn [foldl]. clear out.
    assert (Hin : target ∈ TARGETS) by (apply HT; by left).
    destruct (cleanTelemetryTarget_spec control policy target RESOURCE_BATCH ROW_BATCH eq_refl eq_refl (TARGETS_ok _ Hin)
      (workspace_resources_NoDup _ _) now db (Hu _) Hk) as (Hsame & Hut & Hkt & Hsub & Hkeep & Hb & Hcnt & Hmove).
    destruct (cleanTelemetryTarget control policy target now RESOURCE_BATCH ROW_BATCH db) as [n db1]. cbn [fst snd] in *.
    assert (Hu1 : forall table, timed_unique table (tt_timed db1 table)).
    { intros table. destruct (decide (table = tg_table target)) as [->|Hne]; [done|]. by rewrite (st_timed _ _ _ _ Hsame). }
    destruct (IH Hnd (fun t Ht => HT t (list_elem_of_further _ _ _ Ht)) (n0 + n) db1 Hu1 Hkt)
      as (Hu2 & Hk2 & Hfr & Htb & Hck & Hbd & Hrun). clear IH.
    destruct (foldl _ _ rest) as [m db2]. cbn [fst snd length] in *.
    assert (Hdiff : forall t, t ∈ rest -> tg_table t <> tg_table target /\ target_key policy t <> target_key policy target).
    { intros t Ht. apply target_kinds_differ; [apply HT; by right | done | congruence]. }
    assert (Hthis : target_cursor policy target db2 = target_cursor policy target db1).
    { unfold target_cursor. rewrite Hck; [done|]. intros t Ht. by apply Hdiff. }
    split_and!; try done; try lia.
    + destruct Hsame. congruence.
    + intros table Hno. rewrite Htb by (intros t Ht; apply Hno; by right). apply (st_timed _ _ _ _ Hsame). intros ->.
      apply (Hno target); [by left | done].
    + intros k Hno. rewrite Hck by (intros t Ht; apply Hno; by right). apply (st_cursors _ _ _ _ Hsame). intros ->.
      apply (Hno target); [by left | done].
    + intros t [->|Ht]%elem_of_cons.
      * exists n. rewrite Hthis, Htb by (intros t Ht; by apply Hdiff). by split.
      * destruct (Hrun t Ht) as [deleted Hr]. exists deleted. destruct (Hdiff t Ht) as [H1 H2].
        rewrite (st_timed _ _ _ _ Hsame) in Hr by done.
        unfold target_cursor in Hr at 1. rewrite (st_cursors _ _ _ _ Hsame) in Hr by done. exact Hr.
Qed.

Lemma TARGETS_NoDup : NoDup TARGETS.
Proof.
  unfold TARGETS, MACHINE_RAW_TARGET. repeat (constructor; [rewrite ?elem_of_cons, elem_of_nil; naive_solver|]). constructor.
Qed.
End History.

(** ** Events *)

Lemma cleanStateEvents_spec policy cursor now n db : 0 <= n -> keys_unique event_key (tt_events db) ->
  (forall q, q ∈ tt_queue db -> exists e, e ∈ tt_events db /\ event_key e = queue_key q) ->
  let out := cleanStateEvents policy cursor now n db in
  let cutoff := now - event_days policy * DAY_MS in
  keys_unique event_key (tt_events out.2) /\
  (forall e, e ∈ tt_events out.2 -> e ∈ tt_events db) /\
  (forall e, e ∈ tt_events db -> expired_event (workspace_pk policy) cutoff e = false -> e ∈ tt_events out.2) /\
  (forall q, q ∈ tt_queue out.2 <-> q ∈ tt_queue db /\ exists e, e ∈ tt_events out.2 /\ event_key e = queue_key q) /\
  0 <= out.1.1 <= n /\ (out.1.1 < n -> forall e, e ∈ tt_events out.2 -> expired_event (workspace_pk policy) cutoff e = false) /\
  out.1.2 = (if out.1.1 <? n then cutoff else cursor) /\
  same_but_timed telemetry_blocks_5m db (set_events (tt_events db) (tt_queue db) out.2) /\
  tt_timed out.2 telemetry_blocks_5m = tt_timed db telemetry_blocks_5m.
Proof.
  intros Hn Hu Hq out cutoff. unfold out, cleanStateEvents. fold cutoff.
  pose proof (keys_unique_NoDup event_key _ Hu) as Hnd.
  pose proof (identifies_unique event_key (expired_event (workspace_pk policy) cutoff) _ Hu) as Hid.
  destruct (delete_in_spec event_key occurred_leb n _ _ _ Hn Hnd Hid) as (Hc & _).
  pose proof (delete_in_short event_key occurred_leb n _ _ _ Hn Hnd Hid) as Hshort.
  pose proof (fun r => delete_in_kept event_key occurred_leb n _ _ _ r Hn Hnd Hid) as Hkept.
  pose proof (fun r => delete_in_subset event_key occurred_leb n (fun _ => true) (expired_event (workspace_pk policy) cutoff) (tt_events db) r) as Hsub.
  assert (Hu' : keys_unique event_key (delete_in event_key occurred_leb n (fun _ => true) (expired_event (workspace_pk policy) cutoff) (tt_events db)).1)
    by (by apply delete_where_unique).
  pose proof (count_if_nonneg (expired_event (workspace_pk policy) cutoff) (tt_events db)).
  destruct (delete_in _ _ _ _ _ _) as [events deleted]. cbn [fst snd set_events tt_events tt_queue] in *.
  split_and!; try done; try lia. intros q. unfold cascade_queue. rewrite filter_In_elem, existsb_exists_elem.
  split; intros [Hqi (e & He & E)]; (split; [done|]); exists e; (split; [done|]); [by apply bool_decide_eq_true in E | by apply bool_decide_eq_true].
Qed.

(** C11: Retention deletes only what a workspace's policy gave up.  A telemetry row that is gone
    belonged to one of the workspace's own resources and was older than the number of days the
    policy keeps that kind of row; an event that is gone was the workspace's and older than
    [event_days]; a queued notification goes only together with its event.  One run deletes at
    most 56,000 telemetry rows and 200 events, leaves every other table alone, and keeps every
    primary and foreign key. *)
Theorem retention_only_expired control policy now cursor db (Hc : control_ok control) (Ht : telemetry_ok db) :
  let history := cleanTelemetryHistory control policy now db in
  let events := cleanStateEvents policy cursor now ROW_BATCH history.2 in
  let db' := events.2 in
  telemetry_ok db' /\
  (forall table r, r ∈ tt_timed db table -> r ∉ tt_timed db' table ->
     exists target, target ∈ TARGETS /\ tg_table target = table /\ targetPredicates target r = true /\
       tm_resource r ∈ target_resources control policy target /\ tm_time r < now - tg_days target policy * DAY_MS) /\
  (forall table r, r ∈ tt_timed db' table -> r ∈ tt_timed db table) /\
  (forall e, e ∈ tt_events db -> e ∉ tt_events db' -> ev_workspace e = workspace_pk policy /\ ev_at e < now - event_days policy * DAY_MS) /\
  (forall e, e ∈ tt_events db' -> e ∈ tt_events db) /\
  (forall q, q ∈ tt_queue db -> q ∉ tt_queue db' -> exists e, e ∈ tt_events db /\ e ∉ tt_events db' /\ event_key e = queue_key q) /\
  0 <= history.1 <= 56000 /\ 0 <= events.1.1 <= 200 /\
  (tt_latest db', tt_replay db', tt_summaries db', tt_runs db', tt_artifact_cursors db') =
  (tt_latest db, tt_replay db, tt_summaries db, tt_runs db, tt_artifact_cursors db).
Proof.
  intros history events db'.
  destruct (history_spec control policy now Hc TARGETS TARGETS_NoDup (fun _ H => H) 0 db (to_timed _ Ht) (to_cursors _ Ht))
    as (Hu & Hk & Hfr & _ & _ & Hb & Hrun).
  change (history_from control policy now TARGETS (0, db)) with history in *.
  assert (Ee : tt_events history.2 = tt_events db) by congruence. assert (Eq : tt_queue history.2 = tt_queue db) by congruence.
  destruct (cleanStateEvents_spec policy cursor now ROW_BATCH history.2 ltac:(done)) as (Hue & Hse & Hke & Hqe & Hbe & _ & _ & Hsame & Htb);
    [rewrite Ee; apply Ht | rewrite Ee, Eq; apply Ht |].
  fold events in Hue, Hse, Hke, Hqe, Hbe, Hsame, Htb. fold db' in Hue, Hse, Hke, Hqe, Hsame, Htb. rewrite Ee in Hse, Hke.
  assert (Htimed : forall table, tt_timed db' table = tt_timed history.2 table).
  { intros table. destruct (decide (table = telemetry_blocks_5m)) as [->|Hne]; [done|]. by apply (sb_timed _ _ _ Hsame). }
  assert (Hcover : forall table, exists target, target ∈ TARGETS /\ tg_table target = table).
  { intros table. assert (E : existsb (fun t => bool_decide (tg_table t = table)) TARGETS = true) by (by destruct table).
    apply existsb_exists_elem in E as (target & Hin & E). apply bool_decide_eq_true in E. by exists target. }
  pose proof (sb_latest _ _ _ Hsame) as E1. pose proof (sb_replay _ _ _ Hsame) as E2. pose proof (sb_summaries _ _ _ Hsame) as E3.
  pose proof (sb_runs _ _ _ Hsame) as E4. pose proof (sb_artifacts _ _ _ Hsame) as E5. pose proof (sb_cursors _ _ _ Hsame) as E6.
  cbn [set_events tt_latest tt_replay tt_summaries tt_runs tt_artifact_cursors tt_cursors] in *.
  injection Hfr as F1 F2 F3 F4 F5 F6 F7.
  assert (Hb' : 0 <= history.1 <= 56000) by (change (0 <= history.1 <= 56000) in Hb; exact Hb).
  change ROW_BATCH with 200 in Hbe.
  split_and!; try congruence; try apply Hb'; try apply Hbe.
  - split; [intros table; by rewrite Htimed | intros table; rewrite E1, F1; apply Ht | done | | rewrite E2, F4; apply Ht
      | rewrite E6; apply Hk | rewrite E4, F6; apply Ht]. intros q Hq. by apply Hqe in Hq as [_ ?].
  - intros table r Hr Hgone. rewrite Htimed in Hgone. destruct (Hcover table) as (target & Hin & <-).
    destruct (Hrun target Hin) as [deleted Hstep].
    assert (Hex : existsb (fun pk => expired_row target pk (target_cutoff policy target now) r) (target_resources control policy target) = true).
    { destruct (existsb _ _) eqn:E; [done|]. destruct Hgone. apply (tr_kept _ _ _ _ _ _ _ _ Hstep); [done|].
      rewrite existsb_false_elem in E. exact E. }
    apply existsb_exists_elem in Hex as (pk & Hpk & E). apply expired_row_true in E as (<- & Hp & Hlt). exists target. done.
  - intros table r. rewrite Htimed. destruct (Hcover table) as (target & Hin & <-). destruct (Hrun target Hin) as [deleted Hstep].
    apply (tr_subset _ _ _ _ _ _ _ _ Hstep).
  - intros e He Hgone. destruct (expired_event (workspace_pk policy) (now - event_days policy * DAY_MS) e) eqn:E; [|by destruct Hgone; apply Hke].
    unfold expired_event in E. by bool_hyps.
  - exact Hse.
  - intros q Hq Hgone. destruct (to_queue _ Ht q Hq) as (e & He & Ek). exists e. split_and!; try done.
    intros He'. apply Hgone. apply Hqe. rewrite Eq. split; [done|]. by exists e.
Qed.

(** ** Repeated runs empty what has expired *)

Fixpoint retention_runs (control : control_tables) (policy : RetentionPolicyRow) (nows : list Z) (db : telemetry_tables)
  : telemetry_tables :=
  match nows with
  | [] => db
  | now :: rest => retention_runs control policy rest (cleanTelemetryHistory control policy now db).2
  end.

Section Drain.
Context (target : RetentionTarget) (resources : list Z) (first last : Z).
Context (Hpos : forall pk, pk ∈ resources -> 0 < pk).

(** The rows that the runs may delete, and whether everything up to the cursor is already clean. *)
Definition backlog (rows : list timed_row) : Z :=
  count_if (fun r => existsb (fun pk => expired_row target pk last r) resources) rows.
Definition swept (c : Z) (rows : list timed_row) : Prop :=
  forall pk, pk ∈ resources -> pk <= c -> clean_of target first pk rows.
Definition all_clean (rows : list timed_row) : Prop := forall pk, pk ∈ resources -> clean_of target first pk rows.
(** Full batches still to come, pages still to come, and one run to wrap around. *)
Definition runs_left (rows : list timed_row) (c : Z) : Z :=
  backlog rows / ROW_BATCH + Z.of_nat (length (beyond c resources)) / RESOURCE_BATCH + 1.

Lemma clean_mono cutoff pk rows rows' : first <= cutoff -> (forall r, r ∈ rows' -> r ∈ rows) ->
  clean_of target cutoff pk rows -> clean_of target first pk rows'.
Proof.
  intros Hle Hsub Hc r Hr. specialize (Hc r (Hsub r Hr)). destruct (expired_row target pk first r) eqn:E; [|done].
  apply expired_row_true in E as (E1 & E2 & E3). assert (expired_row target pk cutoff r = true); [|congruence].
  apply expired_row_true. split_and!; try done. lia.
Qed.
Lemma beyond_mono c c' : c <= c' -> Z.of_nat (length (beyond c' resources)) <= Z.of_nat (length (beyond c resources)).
Proof.
  intros Hle. unfold beyond. clear - Hle. induction resources as [|pk l IH]; [done|]. cbn [List.filter].
  destruct (c' <? pk) eqn:E1, (c <? pk) eqn:E2; bool_hyps; cbn [length]; lia.
Qed.
Lemma beyond_le c : Z.of_nat (length (beyond c resources)) <= Z.of_nat (length resources).
Proof. unfold beyond. clear. induction resources as [|pk l IH]; [done|]. cbn [List.filter]. destruct (c <? pk); cbn [length]; lia. Qed.

Section Step.
Context (cutoff deleted c c' : Z) (rows rows' : list timed_row).
Context (Hcut : first <= cutoff <= last) (Hrun : target_run target cutoff deleted resources c c' rows rows').

Lemma run_backlog : backlog rows' = backlog rows - deleted.
Proof.
  apply (tr_count _ _ _ _ _ _ _ _ Hrun). intros r pk Hr Hpk E. apply existsb_exists_elem. exists pk. split; [done|].
  apply expired_row_true in E as (E1 & E2 & E3). apply expired_row_true. split_and!; try done. lia.
Qed.
Lemma run_range d : (forall pk, pk ∈ resources -> c < pk <= d -> clean_of target cutoff pk rows') ->
  swept c rows -> swept d rows'.
Proof.
  intros Hr Hs pk Hpk Hle. destruct (decide (pk <= c)) as [Hc|Hc].
  - apply (clean_mono first _ rows); [lia | apply Hrun | by apply Hs].
  - apply (clean_mono cutoff _ rows'); [lia | done | apply Hr; [done | lia]].
Qed.

(** A run of a sweep that started clean ends it or brings its end nearer. *)
Lemma run_progress : swept c rows -> all_clean rows' \/ (swept c' rows' /\ runs_left rows' c' < runs_left rows c).
Proof.
  intros Hs. pose proof run_backlog as Hb. pose proof (tr_bound _ _ _ _ _ _ _ _ Hrun) as Hd.
  assert (Hdiv : backlog rows' / ROW_BATCH <= backlog rows / ROW_BATCH) by (apply Z.div_le_mono; [done | lia]).
  unfold runs_left. destruct (tr_move _ _ _ _ _ _ _ _ Hrun) as [Hc Hfull Hr | Hpage Hr | -> Hr].
  - right. split; [by apply run_range|].
    assert (backlog rows' / ROW_BATCH + 1 <= backlog rows / ROW_BATCH).
    { rewrite <- Z.div_add by done. apply Z.div_le_mono; [done|]. lia. }
    pose proof (Z.div_le_mono _ _ RESOURCE_BATCH eq_refl (beyond_mono c c' Hc)). lia.
  - right. split; [by apply run_range|].
    assert (Z.of_nat (length (beyond c' resources)) / RESOURCE_BATCH + 1 <= Z.of_nat (length (beyond c resources)) / RESOURCE_BATCH).
    { rewrite <- Z.div_add by done. apply Z.div_le_mono; [done|]. lia. }
    lia.
  - left. intros pk Hpk. destruct (decide (pk <= c)) as [Hc|Hc].
    + apply (clean_mono first _ rows); [lia | apply Hrun | by apply Hs].
    + apply (clean_mono cutoff _ rows'); [lia | done | apply Hr; [done | lia]].
Qed.
(** A run of a sweep that started anywhere comes nearer to its end, after which one from the
    beginning remains. *)
Lemma run_approach :
  (c' = 0 /\ backlog rows' <= backlog rows) \/ runs_left rows' c' < runs_left rows c.
Proof.
  pose proof run_backlog as Hb. pose proof (tr_bound _ _ _ _ _ _ _ _ Hrun) as Hd.
  assert (Hdiv : backlog rows' / ROW_BATCH <= backlog rows / ROW_BATCH) by (apply Z.div_le_mono; [done | lia]).
  unfold runs_left. destruct (tr_move _ _ _ _ _ _ _ _ Hrun) as [Hc Hfull Hr | Hpage Hr | -> Hr].
  - right. assert (backlog rows' / ROW_BATCH + 1 <= backlog rows / ROW_BATCH).
    { rewrite <- Z.div_add by done. apply Z.div_le_mono; [done|]. lia. }
    pose proof (Z.div_le_mono _ _ RESOURCE_BATCH eq_refl (beyond_mono c c' Hc)). lia.
  - right. assert (Z.of_nat (length (beyond c' resources)) / RESOURCE_BATCH + 1 <= Z.of_nat (length (beyond c resources)) / RESOURCE_BATCH).
    { rewrite <- Z.div_add by done. apply Z.div_le_mono; [done|]. lia. }
    lia.
  - left. split; [done | lia].
Qed.
End Step.

Lemma swept_zero rows : swept 0 rows.
Proof. intros pk Hpk Hle. specialize (Hpos pk Hpk). lia. Qed.
Lemma runs_left_pos rows c : 0 < runs_left rows c.
Proof.
  unfold runs_left. assert (0 <= backlog rows / ROW_BATCH) by (apply Z.div_pos; [apply count_if_nonneg | done]).
  assert (0 <= Z.of_nat (length (beyond c resources)) / RESOURCE_BATCH) by (apply Z.div_pos; [lia | done]). lia.
Qed.
Lemma runs_left_zero rows rows' : backlog rows' <= backlog rows ->
  runs_left rows' 0 <= backlog rows / ROW_BATCH + Z.of_nat (length resources) / RESOURCE_BATCH + 1.
Proof.
  intros Hb. unfold runs_left. pose proof (Z.div_le_mono _ _ ROW_BATCH eq_refl Hb).
  pose proof (Z.div_le_mono _ _ RESOURCE_BATCH eq_refl (beyond_le 0)). lia.
Qed.
End Drain.

Section Drains.
Context (control : control_tables) (policy : RetentionPolicyRow) (Hc : control_ok control).
Context (target : RetentionTarget) (Hin : target ∈ TARGETS).
Notation resources := (target_resources control policy target).
Notation rows db := (tt_timed db (tg_table target)).
Context (first last : Z) (Hpos : forall pk, pk ∈ resources -> 0 < pk).

Definition cursors_ok (db : telemetry_tables) : Prop :=
  (forall table, timed_unique table (tt_timed db table)) /\ keys_unique retention_key (tt_cursors db).

Lemma history_run now db : cursors_ok db ->
  cursors_ok (cleanTelemetryHistory control policy now db).2 /\
  exists deleted, target_run target (target_cutoff policy target now) deleted resources (target_cursor policy target db)
    (target_cursor policy target (cleanTelemetryHistory control policy now db).2) (rows db)
    (rows (cleanTelemetryHistory control policy now db).2).
Proof.
  intros [Hu Hk]. destruct (history_spec control policy now Hc TARGETS TARGETS_NoDup (fun _ H => H) 0 db Hu Hk)
    as (Hu' & Hk' & _ & _ & _ & _ & Hrun). split; [done | by apply Hrun].
Qed.
Lemma runs_keep_clean nows : forall db, cursors_ok db -> all_clean target resources first (rows db) ->
  all_clean target resources first (rows (retention_runs control policy nows db)).
Proof.
  induction nows as [|now nows IH]; intros db Hok Hcl; [done|]. cbn [retention_runs].
  destruct (history_run now db Hok) as [Hok' [deleted Hrun]]. apply IH; [done|].
  intros pk Hpk. apply (clean_mono target first first pk (rows db)); [lia | apply Hrun | by apply Hcl].
Qed.
Lemma sweep_ends nows : forall db, cursors_ok db ->
  (forall now, now ∈ nows -> first <= target_cutoff policy target now <= last) ->
  swept target resources first (target_cursor policy target db) (rows db) ->
  runs_left target resources last (rows db) (target_cursor policy target db) <= Z.of_nat (length nows) ->
  all_clean target resources first (rows (retention_runs control policy nows db)).
Proof.
  induction nows as [|now nows IH]; intros db Hok Hn Hs Hle.
  { pose proof (runs_left_pos target resources last (rows db) (target_cursor policy target db)). cbn in Hle. lia. }
  cbn [retention_runs]. destruct (history_run now db Hok) as [Hok' [deleted Hrun]].
  destruct (run_progress target resources first last _ _ _ _ _ _ (Hn now (list_elem_of_here _ _)) Hrun Hs) as [Hcl | [Hs' Hlt]].
  - by apply runs_keep_clean.
  - apply IH; [done | intros n Hin'; apply Hn; by right | done |]. cbn [length] in Hle. lia.
Qed.
(** First to the end of the sweep under way, then one whole sweep. *)
Lemma drain_runs nows : forall db bound, cursors_ok db ->
  (forall now, now ∈ nows -> first <= target_cutoff policy target now <= last) ->
  backlog target resources last (rows db) <= bound ->
  runs_left target resources last (rows db) (target_cursor policy target db) +
    (bound / ROW_BATCH + Z.of_nat (length resources) / RESOURCE_BATCH + 1) <= Z.of_nat (length nows) ->
  all_clean target resources first (rows (retention_runs control policy nows db)).
Proof.
  induction nows as [|now nows IH]; intros db bound Hok Hn Hb Hle.
  { pose proof (runs_left_pos target resources last (rows db) (target_cursor policy target db)). 
    assert (0 <= bound / ROW_BATCH) by (apply Z.div_pos; [pose proof (count_if_nonneg (fun r => existsb (fun pk => expired_row target pk last r) resources) (rows db)); unfold backlog in Hb; lia | done]).
    assert (0 <= Z.of_nat (length resources) / RESOURCE_BATCH) by (apply Z.div_pos; [lia | done]). cbn in Hle. lia. }
  cbn [retention_runs]. destruct (history_run now db Hok) as [Hok' [deleted Hrun]]. cbn [length] in Hle.
  pose proof (Hn now (list_elem_of_here _ _)) as Hcut.
  assert (Hn' : forall n, n ∈ nows -> first <= target_cutoff policy target n <= last) by (intros n Hin'; apply Hn; by right).
  pose proof (run_backlog target resources first last _ _ _ _ _ _ Hcut Hrun) as Hbk. pose proof (tr_bound _ _ _ _ _ _ _ _ Hrun) as Hd.
  pose proof (runs_left_pos target resources last (rows db) (target_cursor policy target db)).
  destruct (run_approach target resources first last _ _ _ _ _ _ Hcut Hrun) as [[Ez Hb'] | Hlt].
  - apply sweep_ends; [done | done | rewrite Ez; by apply swept_zero |].
    rewrite Ez. pose proof (runs_left_zero target resources last (rows db) _ Hb') as Hz.
    pose proof (Z.div_le_mono _ _ ROW_BATCH eq_refl Hb). lia.
  - apply (IH _ bound); [done | done | lia | lia].
Qed.
End Drains.

(** Retention catches up.  Take a target of the policy and any runs in any order of
    times between [earliest] and [latest]; let [E] be the number of rows that are expired at
    [latest].  As soon as there were [2 * (E / 200) + 2 * (R / 40) + 2] runs, for [R] resources, no
    row that was expired at [earliest] is left, wherever the cursor stood at the beginning and
    however unevenly the rows are spread: a resource with a long history delays the others but
    does not starve them. *)
Theorem retention_drains control policy target nows earliest latest db
  (Hc : control_ok control) (Hdb : telemetry_ok db) (Hin : target ∈ TARGETS)
  (Hpos : forall pk, pk ∈ target_resources control policy target -> 0 < pk)
  (Hn : forall now, now ∈ nows -> earliest <= now <= latest) :
  let resources := target_resources control policy target in
  let expired_at now r := existsb (fun pk => expired_row target pk (target_cutoff policy target now) r) resources in
  2 * (count_if (expired_at latest) (tt_timed db (tg_table target)) / ROW_BATCH) +
    2 * (Z.of_nat (length resources) / RESOURCE_BATCH) + 2 <= Z.of_nat (length nows) ->
  forall r, r ∈ tt_timed (retention_runs control policy nows db) (tg_table target) -> expired_at earliest r = false.
Proof.
  intros resources expired_at Hlen r Hr. apply existsb_false_elem. intros pk Hpk.
  apply (drain_runs control policy Hc target Hin (target_cutoff policy target earliest) (target_cutoff policy target latest) Hpos
    nows db (backlog target resources (target_cutoff policy target latest) (tt_timed db (tg_table target)))); try done.
  - split; apply Hdb.
  - intros now Hnow. specialize (Hn now Hnow). unfold target_cutoff. lia.
  - pose proof (runs_left_zero target resources (target_cutoff policy target latest) (tt_timed db (tg_table target)) _ (Z.le_refl _)).
    unfold runs_left, backlog. change (count_if (fun r => existsb _ _) _) with (count_if (expired_at latest) (tt_timed db (tg_table target))).
    pose proof (Z.div_le_mono _ _ RESOURCE_BATCH eq_refl (beyond_le resources (target_cursor policy target db))). fold resources. lia.
Qed.

(** ** A recorded workspace *)

(** A control database with one workspace that has one machine. *)
Definition rt_control : control_tables :=
  ControlTables [WorkspaceState "w" 1 "home" "Home" "dash" 10 None None 0] [PolicyRow "w" 7 30 365 365 90 7 7]
    [Membership "w" "u" admin active] [Managed "m" 5 "w" "Machine" None None "" 1 0 "machine"] [] [] [] (fun _ => []) [] [] [] [] [] [] [] [] [].
Definition rt_policy : RetentionPolicyRow := RetentionPolicy "w" 1 None None 7 30 365 365 90 7 7.
(** Two blocks of the machine, of the 1st and of the 20th day, and an old event. *)
Definition rt_event : state_event := StateEvent 1 1 5 (2 * DAY_MS) [Byte.x01] "healthy" "offline" "report_timeout".
Definition rt_db : telemetry_tables :=
  TelemetryTables
    (fun k => if bool_decide (k = telemetry_blocks_5m) then [Timed 1 5 DAY_MS 0 0; Timed 1 5 (20 * DAY_MS) 0 0] else [])
    (fun _ => []) [rt_event] [QueueRow 3 1 1 5 (2 * DAY_MS) [Byte.x01]] [] [] [] [] [].

Ltac unique_keys := first [apply (bool_decide_unpack _); vm_compute; exact I | intros []; apply (bool_decide_unpack _); vm_compute; exact I].
Lemma rt_control_ok : control_ok rt_control.
Proof. split; unique_keys. Qed.
Lemma rt_db_ok : telemetry_ok rt_db.
Proof.
  split; try unique_keys. intros q Hq. apply list_elem_of_singleton in Hq as ->. exists rt_event. by split; [left|].
Qed.

Example retention_only_expired_witness :
  let db1 := (cleanTelemetryHistory rt_control rt_policy (400 * DAY_MS) rt_db).2 in
  let db2 := (cleanStateEvents rt_policy 0 (400 * DAY_MS) ROW_BATCH db1).2 in
  tt_timed db2 telemetry_blocks_5m = [] /\ tt_events db2 = [] /\ tt_queue db2 = [] /\ telemetry_ok db2.
Proof.
  split_and!; [vm_compute; reflexivity | vm_compute; reflexivity | vm_compute; reflexivity |].
  apply (retention_only_expired rt_control rt_policy (400 * DAY_MS) 0 rt_db rt_control_ok rt_db_ok).
Defined.
Example retention_drains_witness :
  tt_timed (retention_runs rt_control rt_policy [10 * DAY_MS; 11 * DAY_MS] rt_db) telemetry_blocks_5m = [Timed 1 5 (20 * DAY_MS) 0 0] /\
  forall r, r ∈ tt_timed (retention_runs rt_control rt_policy [10 * DAY_MS; 11 * DAY_MS] rt_db) telemetry_blocks_5m ->
    existsb (fun pk => expired_row MACHINE_RAW_TARGET pk (target_cutoff rt_policy MACHINE_RAW_TARGET (10 * DAY_MS)) r)
      (target_resources rt_control rt_policy MACHINE_RAW_TARGET) = false.
Proof.
  split; [vm_compute; reflexivity|].
  apply (retention_drains rt_control rt_policy MACHINE_RAW_TARGET [10 * DAY_MS; 11 * DAY_MS] (10 * DAY_MS) (11 * DAY_MS) rt_db
    rt_control_ok rt_db_ok).
  - by left.
  - intros pk Hpk. vm_compute in Hpk. apply list_elem_of_singleton in Hpk as ->. done.
  - intros now Hnow. unfold DAY_MS in *. rewrite !elem_of_cons, elem_of_nil in Hnow. lia.
  - vm_compute. discriminate.
Defined.
