(* ===== verification/SoftDeleteTelemetry.v ===== *)
(** * SoftDeleteTelemetry: purging the telemetry of one resource

    [workers/retention/src/soft-delete-telemetry.ts].  A call deletes a batch from every table
    that holds rows of the resource and answers whether anything is left; the caller repeats it
    in later runs until nothing is. *)

From Stdlib Require Import ZArith Lia Bool String List.
From stdpp Require Import base tactics sets list strings sorting.
From S2P Require Import Prelude.
From S2P Require Import Js.
From S2P Require Import Validation.
From S2P Require Import Sql.
From S2P Require Import CheckPersistence.
From S2P Require Import Lease.
From S2P Require Import RetentionTables.
Open Scope string_scope.
Open Scope Z_scope.

(* @src workers/retention/src/soft-delete-telemetry.ts 1-1 ID_BATCH *)
Definition ID_BATCH : nat := 50.
(* @src workers/retention/src/soft-delete-telemetry.ts TelemetryPurgeResult *)
Record TelemetryPurgeResult := Purge { pu_complete : bool; pu_deleted : Z }.
(* @src workers/retention/src/soft-delete-telemetry.ts MACHINE_TARGETS *)
Definition MACHINE_TARGETS : list timed_table := [telemetry_blocks_5m; machine_rollups_5m; machine_rollups_1h].
(* @src workers/retention/src/soft-delete-telemetry.ts CHECK_TARGETS *)
Definition CHECK_TARGETS : list timed_table := [check_result_blocks_5m; check_rollups_5m; check_rollups_1h].

(** ** Statements *)

Definition purge_time_leb (a b : timed_row) : bool := tm_time a <=? tm_time b.
Definition row_of (workspacePk resourcePk : Z) (r : timed_row) : bool :=
  (tm_workspace r =? workspacePk) && (tm_resource r =? resourcePk).
(* @src workers/retention/src/soft-delete-telemetry.ts deleteTimedResourceRows *)
Definition deleteTimedResourceRows (table : timed_table) (workspacePk resourcePk rowBatch : Z) (db : telemetry_tables)
  : Z * telemetry_tables :=
  let '(rows, n) := delete_in timed_pair purge_time_leb rowBatch (fun _ => true) (row_of workspacePk resourcePk) (tt_timed db table) in
  (n, set_timed table rows db).

Definition event_order (a b : state_event) : bool :=
  if ev_at a =? ev_at b then String.leb (decode_utf8 (ev_id a)) (decode_utf8 (ev_id b)) else ev_at a <? ev_at b.
Definition event_of (type workspacePk resourcePk : Z) (e : state_event) : bool :=
  (ev_workspace e =? workspacePk) && (ev_type e =? type) && (ev_resource e =? resourcePk).
(* @src workers/retention/src/soft-delete-telemetry.ts deleteResourceEvents *)
Definition deleteResourceEvents (type workspacePk resourcePk rowBatch : Z) (db : telemetry_tables) : Z * telemetry_tables :=
  let '(events, n) := delete_in event_key event_order rowBatch (fun e => ev_workspace e =? workspacePk)
    (event_of type workspacePk resourcePk) (tt_events db) in
  (n, set_events events (cascade_queue events (tt_queue db)) db).

Definition bucket_order (a b : timed_row) : bool :=
  if tm_seconds a =? tm_seconds b then tm_time a <=? tm_time b else tm_seconds a <? tm_seconds b.
Definition bucket_of (type workspacePk resourcePk : Z) (r : timed_row) : bool :=
  row_of workspacePk resourcePk r && (tm_type r =? type).
(* @src workers/retention/src/soft-delete-telemetry.ts deleteStatusBuckets *)
Definition deleteStatusBuckets (type workspacePk resourcePk rowBatch : Z) (db : telemetry_tables) : Z * telemetry_tables :=
  let '(rows, n) := delete_in bucket_pair bucket_order rowBatch (fun r => tm_workspace r =? workspacePk)
    (bucket_of type workspacePk resourcePk) (tt_timed db status_buckets_table) in
  (n, set_timed status_buckets_table rows db).

(** [DELETE FROM ..._latest WHERE workspace_pk = ? AND ..._pk ...] *)
Definition delete_latest (table : latest_table) (workspacePk : Z) (of_pk : Z -> bool) (db : telemetry_tables)
  : Z * telemetry_tables :=
  let '(rows, n) := delete_where (fun r => (lt_workspace r =? workspacePk) && of_pk (lt_pk r)) (tt_latest db table) in
  (n, set_latest table rows db).

Definition replay_order (a b : string * Z) : bool := if String.eqb a.1 b.1 then a.2 <=? b.2 else String.leb a.1 b.1.
Definition replay_of (agents : list string) (r : string * Z) : bool := str_in r.1 agents.
(* @src workers/retention/src/soft-delete-telemetry.ts deleteAgentReplayRows *)
Fixpoint deleteAgentReplayRows (batches : list (list string)) (rowBatch : Z) (db : telemetry_tables) : Z * telemetry_tables :=
  match batches with
  | [] => (0, db)
  | ids :: rest =>
      let '(rows, n) := delete_in id replay_order rowBatch (fun _ => true) (replay_of ids) (tt_replay db) in
      let '(m, db') := deleteAgentReplayRows rest rowBatch (set_replay rows db) in (n + m, db')
  end.

(** ** Machines *)

Definition timed_remains (table : timed_table) (workspacePk resourcePk : Z) (db : telemetry_tables) : bool :=
  existsb (row_of workspacePk resourcePk) (tt_timed db table).
Definition latest_remains (table : latest_table) (workspacePk : Z) (of_pk : Z -> bool) (db : telemetry_tables) : bool :=
  existsb (fun r => (lt_workspace r =? workspacePk) && of_pk (lt_pk r)) (tt_latest db table).
(* @src workers/retention/src/soft-delete-telemetry.ts machineTelemetryRemains *)
Definition machineTelemetryRemains (workspacePk machinePk : Z) (agentIds : list string) (db : telemetry_tables) : bool :=
  existsb (fun table => timed_remains table workspacePk machinePk db) MACHINE_TARGETS ||
  latest_remains machine_latest workspacePk (Z.eqb machinePk) db ||
  existsb (event_of 1 workspacePk machinePk) (tt_events db) ||
  existsb (bucket_of 1 workspacePk machinePk) (tt_timed db status_buckets_table) ||
  existsb (fun ids => existsb (replay_of ids) (tt_replay db)) (chunks ID_BATCH agentIds).

Definition purge_targets (tables : list timed_table) (workspacePk resourcePk rowBatch : Z) (acc : Z * telemetry_tables)
  : Z * telemetry_tables :=
  foldl (fun '(deleted, db) table =>
    let '(n, db') := deleteTimedResourceRows table workspacePk resourcePk rowBatch db in (deleted + n, db')) acc tables.
(* @src workers/retention/src/soft-delete-telemetry.ts purgeMachineTelemetry *)
Definition purgeMachineTelemetry (workspacePk machinePk : Z) (agentIds : list string) (rowBatch : Z) (db : telemetry_tables)
  : TelemetryPurgeResult * telemetry_tables :=
  let '(timed, db1) := purge_targets MACHINE_TARGETS workspacePk machinePk rowBatch (0, db) in
  let '(events, db2) := deleteResourceEvents 1 workspacePk machinePk rowBatch db1 in
  let '(buckets, db3) := deleteStatusBuckets 1 workspacePk machinePk rowBatch db2 in
  let '(latest, db4) := delete_latest machine_latest workspacePk (Z.eqb machinePk) db3 in
  let '(replay, db5) := deleteAgentReplayRows (chunks ID_BATCH agentIds) rowBatch db4 in
  (Purge (negb (machineTelemetryRemains workspacePk machinePk agentIds db5)) (timed + events + buckets + latest + replay), db5).

(** ** Services and their checks *)

Definition z_in (x : Z) (l : list Z) : bool := existsb (Z.eqb x) l.
Definition resource_order (a b : timed_row) : bool :=
  if tm_resource a =? tm_resource b then tm_time a <=? tm_time b else tm_resource a <? tm_resource b.
Definition row_of_any (workspacePk : Z) (pks : list Z) (r : timed_row) : bool :=
  (tm_workspace r =? workspacePk) && z_in (tm_resource r) pks.
(* @src workers/retention/src/soft-delete-telemetry.ts deleteCheckRows *)
Fixpoint deleteCheckRows (table : timed_table) (workspacePk : Z) (batches : list (list Z)) (rowBatch : Z) (db : telemetry_tables)
  : Z * telemetry_tables :=
  match batches with
  | [] => (0, db)
  | ids :: rest =>
      let '(rows, n) := delete_in timed_pair resource_order rowBatch (fun _ => true) (row_of_any workspacePk ids) (tt_timed db table) in
      let '(m, db') := deleteCheckRows table workspacePk rest rowBatch (set_timed table rows db) in (n + m, db')
  end.
(* @src workers/retention/src/soft-delete-telemetry.ts checkTelemetryRemains *)
Definition checkTelemetryRemains (workspacePk : Z) (checkPks : list Z) (db : telemetry_tables) : bool :=
  existsb (fun ids =>
    existsb (fun table => existsb (row_of_any workspacePk ids) (tt_timed db table)) CHECK_TARGETS ||
    latest_remains check_latest_table workspacePk (fun pk => z_in pk ids) db) (chunks ID_BATCH checkPks).

(* @src workers/retention/src/soft-delete-telemetry.ts 245-248 purgeServiceTelemetry *)
Definition purge_check_tables (workspacePk : Z) (checkPks : list Z) (rowBatch : Z) (acc : Z * telemetry_tables)
  : Z * telemetry_tables :=
  foldl (fun '(deleted, db) table =>
    let '(n, db') := deleteCheckRows table workspacePk (chunks ID_BATCH checkPks) rowBatch db in (deleted + n, db')) acc CHECK_TARGETS.
Definition purge_check_latest (workspacePk : Z) (checkPks : list Z) (acc : Z * telemetry_tables) : Z * telemetry_tables :=
  foldl (fun '(deleted, db) ids =>
    let '(n, db') := delete_latest check_latest_table workspacePk (fun pk => z_in pk ids) db in (deleted + n, db')) acc
    (chunks ID_BATCH checkPks).
(* @src workers/retention/src/soft-delete-telemetry.ts purgeServiceTelemetry *)
Definition purgeServiceTelemetry (workspacePk servicePk : Z) (checkPks : list Z) (rowBatch : Z) (db : telemetry_tables)
  : TelemetryPurgeResult * telemetry_tables :=
  let '(n2, db2) := purge_check_latest workspacePk checkPks (purge_check_tables workspacePk checkPks rowBatch (0, db)) in
  let '(events, db3) := deleteResourceEvents 2 workspacePk servicePk rowBatch db2 in
  let '(buckets, db4) := deleteStatusBuckets 2 workspacePk servicePk rowBatch db3 in
  let '(latest, db5) := delete_latest service_latest_table workspacePk (Z.eqb servicePk) db4 in
  let serviceRowsRemain :=
    latest_remains service_latest_table workspacePk (Z.eqb servicePk) db5 ||
    existsb (event_of 2 workspacePk servicePk) (tt_events db5) ||
    existsb (bucket_of 2 workspacePk servicePk) (tt_timed db5 status_buckets_table) in
  (Purge (negb serviceRowsRemain && negb (checkTelemetryRemains workspacePk checkPks db5)) (n2 + events + buckets + latest), db5).

(** ** Workspaces *)

Definition all_timed : list timed_table :=
  [telemetry_blocks_5m; machine_rollups_5m; machine_rollups_1h; check_result_blocks_5m; check_rollups_5m; check_rollups_1h;
   status_buckets_table].
Definition all_latest : list latest_table := [machine_latest; check_latest_table; service_latest_table].
(* @src workers/retention/src/soft-delete-telemetry.ts workspaceTelemetryIsEmpty *)
Definition workspaceTelemetryIsEmpty (workspacePk : Z) (db : telemetry_tables) : bool :=
  negb (existsb (fun table => existsb (fun r => tm_workspace r =? workspacePk) (tt_timed db table)) all_timed ||
        existsb (fun table => existsb (fun r => lt_workspace r =? workspacePk) (tt_latest db table)) all_latest ||
        existsb (fun e => ev_workspace e =? workspacePk) (tt_events db)).
(* @src workers/retention/src/soft-delete-telemetry.ts deleteWorkspaceTelemetryState *)
Definition deleteWorkspaceTelemetryState (workspacePk : Z) (db : telemetry_tables) : Z * telemetry_tables :=
  let '(summaries, n) := delete_where (fun pk => pk =? workspacePk) (tt_summaries db) in
  let '(cursors, m) := delete_where (fun c => rc_workspace_pk c =? workspacePk) (tt_cursors db) in
  (n + m, set_retention_cursors cursors (set_summaries summaries db)).

(** ** What a purge may touch *)

(** The rows a purge may delete, per table. *)
Record purge_scope := Scope {
  sp_timed : timed_table -> timed_row -> bool;
  sp_latest : latest_table -> latest_row -> bool;
  sp_event : state_event -> bool;
  sp_replay : string * Z -> bool;
}.
(** Rows only disappear, only in scope, a queued notification only with its event, and the keys
    stay. *)
Record purge_step (s : purge_scope) (db db' : telemetry_tables) : Prop := {
  ps_ok : telemetry_ok db';
  ps_timed : forall table r, r ∈ tt_timed db' table -> r ∈ tt_timed db table;
  ps_timed_gone : forall table r, r ∈ tt_timed db table -> r ∉ tt_timed db' table -> sp_timed s table r = true;
  ps_latest : forall table r, r ∈ tt_latest db' table -> r ∈ tt_latest db table;
  ps_latest_gone : forall table r, r ∈ tt_latest db table -> r ∉ tt_latest db' table -> sp_latest s table r = true;
  ps_event : forall e, e ∈ tt_events db' -> e ∈ tt_events db;
  ps_event_gone : forall e, e ∈ tt_events db -> e ∉ tt_events db' -> sp_event s e = true;
  ps_queue : forall q, q ∈ tt_queue db' -> q ∈ tt_queue db;
  ps_queue_gone : forall q, q ∈ tt_queue db -> q ∉ tt_queue db' ->
    exists e, e ∈ tt_events db /\ e ∉ tt_events db' /\ event_key e = queue_key q;
  ps_replay : forall r, r ∈ tt_replay db' -> r ∈ tt_replay db;
  ps_replay_gone : forall r, r ∈ tt_replay db -> r ∉ tt_replay db' -> sp_replay s r = true;
  ps_rest : (tt_summaries db', tt_cursors db', tt_runs db', tt_artifact_cursors db') =
            (tt_summaries db, tt_cursors db, tt_runs db, tt_artifact_cursors db);
}.

#[export] Instance replay_row_eq_dec : EqDecision (string * Z). Proof. solve_decision. Defined.

Lemma purge_refl s db : telemetry_ok db -> purge_step s db db.
Proof. by split. Qed.
Lemma purge_trans s a b c : purge_step s a b -> purge_step s b c -> purge_step s a c.
Proof.
  intros H1 H2. split.
  - apply H2.
  - intros k r Hr. by apply (ps_timed _ _ _ H1), (ps_timed _ _ _ H2).
  - intros k r Hr Hg. destruct (decide (r ∈ tt_timed b k)); [by apply (ps_timed_gone _ _ _ H2 k) | by apply (ps_timed_gone _ _ _ H1 k)].
  - intros k r Hr. by apply (ps_latest _ _ _ H1), (ps_latest _ _ _ H2).
  - intros k r Hr Hg. destruct (decide (r ∈ tt_latest b k)); [by apply (ps_latest_gone _ _ _ H2 k) | by apply (ps_latest_gone _ _ _ H1 k)].
  - intros e He. by apply (ps_event _ _ _ H1), (ps_event _ _ _ H2).
  - intros e He Hg. destruct (decide (e ∈ tt_events b)); [by apply (ps_event_gone _ _ _ H2) | by apply (ps_event_gone _ _ _ H1)].
  - intros q Hq. by apply (ps_queue _ _ _ H1), (ps_queue _ _ _ H2).
  - intros q Hq Hg. destruct (decide (q ∈ tt_queue b)) as [Hb|Hb].
    + destruct (ps_queue_gone _ _ _ H2 q Hb Hg) as (e & He & Hge & Ek). exists e. split; [|done].
      by apply (ps_event _ _ _ H1).
    + destruct (ps_queue_gone _ _ _ H1 q Hq Hb) as (e & He & Hge & Ek). exists e. split_and!; [done | | done].
      intros Hc. by apply Hge, (ps_event _ _ _ H2).
  - intros r Hr. by apply (ps_replay _ _ _ H1), (ps_replay _ _ _ H2).
  - intros r Hr Hg. destruct (decide (r ∈ tt_replay b)); [by apply (ps_replay_gone _ _ _ H2) | by apply (ps_replay_gone _ _ _ H1)].
  - rewrite (ps_rest _ _ _ H2). apply H1.
Qed.
Lemma purge_weaken s s' db db' :
  (forall k r, sp_timed s k r = true -> sp_timed s' k r = true) -> (forall k r, sp_latest s k r = true -> sp_latest s' k r = true) ->
  (forall e, sp_event s e = true -> sp_event s' e = true) -> (forall r, sp_replay s r = true -> sp_replay s' r = true) ->
  purge_step s db db' -> purge_step s' db db'.
Proof.
  intros H1 H2 H3 H4 H. split; try apply H; intros.
  - eapply H1, ps_timed_gone; eassumption.
  - eapply H2, ps_latest_gone; eassumption.
  - eapply H3, ps_event_gone; eassumption.
  - eapply H4, ps_replay_gone; eassumption.
Qed.

Definition nothing {A} (_ : A) : bool := false.
Lemma purge_set_timed s table rows db : telemetry_ok db -> timed_unique table rows ->
  (forall r, r ∈ rows -> r ∈ tt_timed db table) ->
  (forall r, r ∈ tt_timed db table -> r ∉ rows -> sp_timed s table r = true) -> purge_step s db (set_timed table rows db).
Proof.
  intros Hok Hu Hsub Hgone. split; cbn [set_timed tt_timed tt_latest tt_events tt_queue tt_replay tt_summaries tt_cursors tt_runs tt_artifact_cursors]; try done.
  - split; cbn; try apply Hok. intros k. case_bool_decide as E; [by subst | apply Hok].
  - intros k r. case_bool_decide as E; [subst; apply Hsub | done].
  - intros k r. case_bool_decide as E; [subst; apply Hgone | done].
Qed.
Lemma purge_set_latest s table rows db : telemetry_ok db -> keys_unique lt_pk rows ->
  (forall r, r ∈ rows -> r ∈ tt_latest db table) ->
  (forall r, r ∈ tt_latest db table -> r ∉ rows -> sp_latest s table r = true) -> purge_step s db (set_latest table rows db).
Proof.
  intros Hok Hu Hsub Hgone. split; cbn [set_latest tt_timed tt_latest tt_events tt_queue tt_replay tt_summaries tt_cursors tt_runs tt_artifact_cursors]; try done.
  - split; cbn; try apply Hok. intros k. case_bool_decide as E; [by subst | apply Hok].
  - intros k r. case_bool_decide as E; [subst; apply Hsub | done].
  - intros k r. case_bool_decide as E; [subst; apply Hgone | done].
Qed.
Lemma elem_of_cascade q events queue : q ∈ cascade_queue events queue <-> q ∈ queue /\ exists e, e ∈ events /\ event_key e = queue_key q.
Proof.
  unfold cascade_queue. rewrite filter_In_elem, existsb_exists_elem.
  split; intros [Hq (e & He & E)]; (split; [done|]); exists e; (split; [done|]); [by apply bool_decide_eq_true in E | by apply bool_decide_eq_true].
Qed.
Lemma purge_set_events s events db : telemetry_ok db -> keys_unique event_key events ->
  (forall e, e ∈ events -> e ∈ tt_events db) ->
  (forall e, e ∈ tt_events db -> e ∉ events -> sp_event s e = true) ->
  purge_step s db (set_events events (cascade_queue events (tt_queue db)) db).
Proof.
  intros Hok Hu Hsub Hgone. split; cbn [set_events tt_timed tt_latest tt_events tt_queue tt_replay tt_summaries tt_cursors tt_runs tt_artifact_cursors]; try done.
  - split; cbn; try apply Hok; [done|]. intros q Hq. by apply elem_of_cascade in Hq as [_ Hq].
  - intros q Hq. by apply elem_of_cascade in Hq as [Hq _].
  - intros q Hq Hg. destruct (to_queue _ Hok q Hq) as (e & He & E). exists e. split_and!; [done | | done].
    intros Hin. apply Hg, elem_of_cascade. split; [done|]. by exists e.
Qed.
Lemma purge_set_replay s rows db : telemetry_ok db -> keys_unique id rows -> (forall r, r ∈ rows -> r ∈ tt_replay db) ->
  (forall r, r ∈ tt_replay db -> r ∉ rows -> sp_replay s r = true) -> purge_step s db (set_replay rows db).
Proof.
  intros Hok Hu Hsub Hgone. split; cbn [set_replay tt_timed tt_latest tt_events tt_queue tt_replay tt_summaries tt_cursors tt_runs tt_artifact_cursors]; try done.
  split; cbn; try apply Hok. done.
Qed.

(** ** The statements *)

(** A statement that picks its rows by the primary key deletes only what it selects. *)
Lemma delete_in_facts {R K} `{!EqDecision R} `{!EqDecision K} (key : R -> K) leb n outer sel t : 0 <= n -> keys_unique key t ->
  (forall r, r ∈ t -> sel r = true -> outer r = true) ->
  keys_unique key (delete_in key leb n outer sel t).1 /\
  (forall r, r ∈ (delete_in key leb n outer sel t).1 -> r ∈ t) /\
  (forall r, r ∈ t -> r ∉ (delete_in key leb n outer sel t).1 -> sel r = true).
Proof.
  intros Hn Hu Ho. split_and!.
  - by apply delete_where_unique.
  - intros r. apply delete_in_subset.
  - intros r Hr Hg. destruct (sel r) eqn:E; [done|]. destruct Hg.
    apply delete_in_kept; [done | by apply (keys_unique_NoDup key) | by apply identifies_guarded | done | done].
Qed.

Section Statements.
Context (workspacePk rowBatch : Z) (Hn : 0 <= rowBatch).

Lemma timed_keys db table : telemetry_ok db -> table <> status_buckets_table -> keys_unique timed_pair (tt_timed db table).
Proof. intros Hok Ht. pose proof (to_timed _ Hok table). by destruct table. Qed.
Lemma timed_keys_unique table rows : table <> status_buckets_table -> keys_unique timed_pair rows -> timed_unique table rows.
Proof. by destruct table. Qed.

Lemma purge_timed_rows s table leb sel db : telemetry_ok db -> table <> status_buckets_table ->
  (forall r, sel r = true -> sp_timed s table r = true) ->
  purge_step s db (set_timed table (delete_in timed_pair leb rowBatch (fun _ => true) sel (tt_timed db table)).1 db).
Proof.
  intros Hok Ht Hs.
  destruct (delete_in_facts timed_pair leb rowBatch (fun _ => true) sel _ Hn (timed_keys db table Hok Ht) ltac:(done)) as (Hu & Hsub & Hg).
  apply purge_set_timed; auto. by apply timed_keys_unique.
Qed.
Lemma purge_timed_statement s table pk db : telemetry_ok db -> table <> status_buckets_table ->
  (forall r, row_of workspacePk pk r = true -> sp_timed s table r = true) ->
  purge_step s db (deleteTimedResourceRows table workspacePk pk rowBatch db).2.
Proof.
  intros Hok Ht Hs. unfold deleteTimedResourceRows.
  pose proof (purge_timed_rows s table purge_time_leb _ db Hok Ht Hs) as H. by destruct (delete_in _ _ _ _ _ _).
Qed.
Lemma purge_bucket_statement s type pk db : telemetry_ok db ->
  (forall r, bucket_of type workspacePk pk r = true -> sp_timed s status_buckets_table r = true) ->
  purge_step s db (deleteStatusBuckets type workspacePk pk rowBatch db).2.
Proof.
  intros Hok Hs. unfold deleteStatusBuckets. pose proof (to_timed _ Hok status_buckets_table) as Hu.
  destruct (delete_in_facts bucket_pair bucket_order rowBatch (fun r => tm_workspace r =? workspacePk) (bucket_of type workspacePk pk) _ Hn Hu)
    as (Hu' & Hsub & Hg); [intros r _ E; unfold bucket_of, row_of in E; by bool_hyps; apply Z.eqb_eq|].
  destruct (delete_in _ _ _ _ _ _) as [rows n]. apply purge_set_timed; auto.
Qed.
Lemma purge_event_statement s type pk db : telemetry_ok db -> (forall e, event_of type workspacePk pk e = true -> sp_event s e = true) ->
  purge_step s db (deleteResourceEvents type workspacePk pk rowBatch db).2.
Proof.
  intros Hok Hs. unfold deleteResourceEvents. pose proof (to_events _ Hok) as Hu.
  destruct (delete_in_facts event_key event_order rowBatch (fun e => ev_workspace e =? workspacePk) (event_of type workspacePk pk) _ Hn Hu)
    as (Hu' & Hsub & Hg); [intros r _ E; unfold event_of in E; by bool_hyps; apply Z.eqb_eq|].
  destruct (delete_in _ _ _ _ _ _) as [rows n]. apply purge_set_events; auto.
Qed.
Lemma purge_latest_statement s table of_pk db : telemetry_ok db ->
  (forall r, lt_workspace r = workspacePk -> of_pk (lt_pk r) = true -> sp_latest s table r = true) ->
  purge_step s db (delete_latest table workspacePk of_pk db).2.
Proof.
  intros Hok Hs. unfold delete_latest, delete_where. apply purge_set_latest; [done | apply (delete_where_unique lt_pk); apply Hok | |].
  - by intros r [? _]%filter_In_elem.
  - intros r Hr Hg. destruct (negb ((lt_workspace r =? workspacePk) && of_pk (lt_pk r))) eqn:E.
    + destruct Hg. by apply filter_In_elem.
    + bool_hyps. by apply Hs.
Qed.
Lemma purge_replay_statement s batches : forall db, telemetry_ok db ->
  (forall ids r, ids ∈ batches -> replay_of ids r = true -> sp_replay s r = true) ->
  purge_step s db (deleteAgentReplayRows batches rowBatch db).2.
Proof.
  induction batches as [|ids rest IH]; intros db Hok Hs; [by apply purge_refl|]. cbn [deleteAgentReplayRows].
  destruct (delete_in_facts id replay_order rowBatch (fun _ => true) (replay_of ids) _ Hn (to_replay _ Hok) ltac:(done)) as (Hu & Hsub & Hg).
  destruct (delete_in _ _ _ _ _ _) as [rows n]. cbn [fst] in *.
  assert (H1 : purge_step s db (set_replay rows db)).
  { apply purge_set_replay; auto. intros r Hr Hgone. apply (Hs ids); [by left | by apply Hg]. }
  specialize (IH (set_replay rows db) (ps_ok _ _ _ H1) (fun ids' r Hin => Hs ids' r (list_elem_of_further _ _ _ Hin))).
  destruct (deleteAgentReplayRows rest rowBatch (set_replay rows db)) as [m db']. cbn [snd] in *. by apply (purge_trans _ _ _ _ H1).
Qed.
End Statements.

(** ** Whole purges *)

Definition machine_scope (workspacePk machinePk : Z) (agentIds : list string) : purge_scope := Scope
  (fun table r => row_of workspacePk machinePk r &&
     match table with
     | telemetry_blocks_5m | machine_rollups_5m | machine_rollups_1h => true
     | status_buckets_table => tm_type r =? 1
     | _ => false
     end)
  (fun table r => bool_decide (table = machine_latest) && ((lt_workspace r =? workspacePk) && (lt_pk r =? machinePk)))
  (event_of 1 workspacePk machinePk)
  (replay_of agentIds).
Definition service_scope (workspacePk servicePk : Z) (checkPks : list Z) : purge_scope := Scope
  (fun table r =>
     match table with
     | check_result_blocks_5m | check_rollups_5m | check_rollups_1h => row_of_any workspacePk checkPks r
     | status_buckets_table => bucket_of 2 workspacePk servicePk r
     | _ => false
     end)
  (fun table r => (lt_workspace r =? workspacePk) &&
     match table with
     | check_latest_table => z_in (lt_pk r) checkPks
     | service_latest_table => lt_pk r =? servicePk
     | machine_latest => false
     end)
  (event_of 2 workspacePk servicePk)
  nothing.
(** Nothing in the scope is left. *)
Definition scope_empty (s : purge_scope) (db : telemetry_tables) : Prop :=
  (forall table r, r ∈ tt_timed db table -> sp_timed s table r = false) /\
  (forall table r, r ∈ tt_latest db table -> sp_latest s table r = false) /\
  (forall e, e ∈ tt_events db -> sp_event s e = false) /\
  (forall r, r ∈ tt_replay db -> sp_replay s r = false).

Lemma z_in_elem x l : z_in x l = true <-> x ∈ l.
Proof. unfold z_in. rewrite existsb_exists_elem. setoid_rewrite Z.eqb_eq. naive_solver. Qed.
(** An element of a list is in one of its batches, and the other way round. *)
Lemma elem_of_chunks {A} n (l : list A) x : (0 < n)%nat -> x ∈ l <-> exists b, b ∈ chunks n l /\ x ∈ b.
Proof.
  intros Hn. rewrite <- (chunks_concat n l Hn) at 1. rewrite list_elem_of_In, in_concat.
  setoid_rewrite <- list_elem_of_In. done.
Qed.

Section Purges.
Context (workspacePk rowBatch : Z) (Hn : 0 <= rowBatch).

Lemma purge_targets_step s tables pk : forall acc, telemetry_ok acc.2 ->
  (forall table, table ∈ tables -> table <> status_buckets_table /\ forall r, row_of workspacePk pk r = true -> sp_timed s table r = true) ->
  purge_step s acc.2 (purge_targets tables workspacePk pk rowBatch acc).2.
Proof.
  unfold purge_targets. induction tables as [|table rest IH]; intros [n db] Hok Ht; cbn [foldl snd] in *; [by apply purge_refl|].
  destruct (Ht table (list_elem_of_here _ _)) as [Hne Hs].
  pose proof (purge_timed_statement workspacePk rowBatch Hn s table pk db Hok Hne Hs) as H1.
  destruct (deleteTimedResourceRows table workspacePk pk rowBatch db) as [m db1]. cbn [snd] in *.
  apply (purge_trans _ _ db1); [done|]. apply (IH (n + m, db1)); [apply H1|]. intros t Hin. apply Ht. by right.
Qed.

Lemma purge_machine_step machinePk agentIds db : telemetry_ok db ->
  purge_step (machine_scope workspacePk machinePk agentIds) db (purgeMachineTelemetry workspacePk machinePk agentIds rowBatch db).2.
Proof.
  intros Hok. unfold purgeMachineTelemetry. set (s := machine_scope workspacePk machinePk agentIds).
  pose proof (purge_targets_step s MACHINE_TARGETS machinePk (0, db) Hok) as H1.
  destruct (purge_targets _ _ _ _ _) as [n1 db1]. cbn [snd] in H1.
  forward H1.
  { intros table Hin. unfold MACHINE_TARGETS in Hin. rewrite !elem_of_cons, elem_of_nil in Hin.
    destruct Hin as [->|[->|[->|[]]]]; (split; [done|]); intros r E; cbn; by rewrite E. }
  pose proof (purge_event_statement workspacePk rowBatch Hn s 1 machinePk db1 (ps_ok _ _ _ H1) (fun _ E => E)) as H2.
  destruct (deleteResourceEvents _ _ _ _ _) as [n2 db2]. cbn [snd] in H2.
  pose proof (purge_bucket_statement workspacePk rowBatch Hn s 1 machinePk db2 (ps_ok _ _ _ H2) (fun _ E => E)) as H3.
  destruct (deleteStatusBuckets _ _ _ _ _) as [n3 db3]. cbn [snd] in H3.
  pose proof (purge_latest_statement workspacePk s machine_latest (Z.eqb machinePk) db3 (ps_ok _ _ _ H3)) as H4.
  destruct (delete_latest _ _ _ _) as [n4 db4]. cbn [snd] in H4. forward H4.
  { intros r <- E. cbn. rewrite Z.eqb_refl, Z.eqb_sym. exact E. }
  pose proof (purge_replay_statement rowBatch Hn s (chunks ID_BATCH agentIds) db4 (ps_ok _ _ _ H4)) as H5.
  destruct (deleteAgentReplayRows _ _ _) as [n5 db5]. cbn [snd] in *. forward H5.
  { intros ids r Hids E. unfold replay_of in E. apply str_in_elem in E. cbn. apply str_in_elem.
    apply (elem_of_chunks ID_BATCH); [unfold ID_BATCH; lia|]. by exists ids. }
  eapply purge_trans; [exact H1|]. eapply purge_trans; [exact H2|]. eapply purge_trans; [exact H3|]. by eapply purge_trans.
Qed.
(** When the purge says it is complete, nothing of the machine is left. *)
Lemma purge_machine_complete machinePk agentIds db :
  pu_complete (purgeMachineTelemetry workspacePk machinePk agentIds rowBatch db).1 = true ->
  scope_empty (machine_scope workspacePk machinePk agentIds) (purgeMachineTelemetry workspacePk machinePk agentIds rowBatch db).2.
Proof.
  unfold purgeMachineTelemetry. destruct (purge_targets _ _ _ _ _) as [n1 db1]. destruct (deleteResourceEvents _ _ _ _ _) as [n2 db2].
  destruct (deleteStatusBuckets _ _ _ _ _) as [n3 db3]. destruct (delete_latest _ _ _ _) as [n4 db4].
  destruct (deleteAgentReplayRows _ _ _) as [n5 db5]. cbn [fst snd pu_complete]. rewrite negb_true_iff.
  unfold machineTelemetryRemains. rewrite !orb_false_iff, !existsb_false_elem. intros ((((Ht & Hl) & He) & Hb) & Hr). split_and!.
  - intros table r Hin. cbn. destruct (row_of workspacePk machinePk r) eqn:E; [|done]. cbn.
    assert (Hno : table ∈ MACHINE_TARGETS -> False).
    { intros Hm. pose proof (Ht table Hm) as Hx. unfold timed_remains in Hx. rewrite existsb_false_elem in Hx. by rewrite Hx in E. }
    destruct table; try done; try (exfalso; apply Hno; unfold MACHINE_TARGETS; rewrite !elem_of_cons; tauto).
    pose proof (Hb r Hin) as Hx. unfold bucket_of in Hx. by rewrite E in Hx.
  - intros table r Hin. cbn. case_bool_decide as Et; [subst; cbn|done]. unfold latest_remains in Hl. rewrite existsb_false_elem in Hl.
    rewrite (Z.eqb_sym (lt_pk r)). by apply Hl.
  - exact He.
  - intros r Hin. cbn. unfold replay_of. destruct (str_in r.1 agentIds) eqn:E; [|done]. apply str_in_elem in E.
    apply (elem_of_chunks ID_BATCH) in E as (ids & Hids & E); [|unfold ID_BATCH; lia].
    pose proof (Hr ids Hids) as Hx. rewrite existsb_false_elem in Hx. specialize (Hx r Hin). unfold replay_of in Hx.
    apply str_in_elem in E. congruence.
Qed.

Lemma z_in_chunk pks ids pk : ids ∈ chunks ID_BATCH pks -> z_in pk ids = true -> z_in pk pks = true.
Proof.
  intros Hids E. apply z_in_elem in E. apply z_in_elem, (elem_of_chunks ID_BATCH); [unfold ID_BATCH; lia|]. by exists ids.
Qed.
Lemma row_of_chunk pks ids r : ids ∈ chunks ID_BATCH pks -> row_of_any workspacePk ids r = true -> row_of_any workspacePk pks r = true.
Proof.
  unfold row_of_any. intros Hids. rewrite !andb_true_iff. intros [-> E]. split; [done|]. by apply (z_in_chunk pks ids).
Qed.

Lemma check_rows_step s table batches : forall db, telemetry_ok db -> table <> status_buckets_table ->
  (forall ids r, ids ∈ batches -> row_of_any workspacePk ids r = true -> sp_timed s table r = true) ->
  purge_step s db (deleteCheckRows table workspacePk batches rowBatch db).2.
Proof.
  induction batches as [|ids rest IH]; intros db Hok Ht Hs; cbn [deleteCheckRows]; [by apply purge_refl|].
  pose proof (purge_timed_rows rowBatch Hn s table resource_order (row_of_any workspacePk ids) db Hok Ht
    (fun r => Hs ids r (list_elem_of_here _ _))) as H1.
  destruct (delete_in _ _ _ _ _ _) as [rows n]. cbn [fst] in H1.
  specialize (IH (set_timed table rows db) (ps_ok _ _ _ H1) Ht (fun ids' r Hin => Hs ids' r (list_elem_of_further _ _ _ Hin))).
  destruct (deleteCheckRows table workspacePk rest rowBatch _) as [m db']. cbn [snd] in *. by apply (purge_trans _ _ _ _ H1).
Qed.
Lemma check_tables_step s pks tables : forall acc, telemetry_ok acc.2 ->
  (forall table, table ∈ tables -> table <> status_buckets_table /\
     forall r, row_of_any workspacePk pks r = true -> sp_timed s table r = true) ->
  purge_step s acc.2 (foldl (fun '(deleted, db) table =>
    let '(n, db') := deleteCheckRows table workspacePk (chunks ID_BATCH pks) rowBatch db in (deleted + n, db')) acc tables).2.
Proof.
  induction tables as [|table rest IH]; intros [n db] Hok Ht; cbn [foldl snd] in *; [by apply purge_refl|].
  destruct (Ht table (list_elem_of_here _ _)) as [Hne Hs].
  pose proof (check_rows_step s table (chunks ID_BATCH pks) db Hok Hne (fun ids r Hids E => Hs r (row_of_chunk pks ids r Hids E))) as H1.
  destruct (deleteCheckRows table _ _ _ db) as [m db1]. cbn [snd] in *.
  apply (purge_trans _ _ db1); [done|]. apply (IH (n + m, db1)); [apply H1|]. intros t Hin. apply Ht. by right.
Qed.
Lemma check_latest_step s batches : forall acc, telemetry_ok acc.2 ->
  (forall ids r, ids ∈ batches -> lt_workspace r = workspacePk -> z_in (lt_pk r) ids = true -> sp_latest s check_latest_table r = true) ->
  purge_step s acc.2 (foldl (fun '(deleted, db) ids =>
    let '(n, db') := delete_latest check_latest_table workspacePk (fun pk => z_in pk ids) db in (deleted + n, db')) acc batches).2.
Proof.
  induction batches as [|ids rest IH]; intros [n db] Hok Hs; cbn [foldl snd] in *; [by apply purge_refl|].
  pose proof (purge_latest_statement workspacePk s check_latest_table (fun pk => z_in pk ids) db Hok
    (fun r => Hs ids r (list_elem_of_here _ _))) as H1.
  destruct (delete_latest _ _ _ db) as [m db1]. cbn [snd] in *.
  apply (purge_trans _ _ db1); [done|]. apply (IH (n + m, db1)); [apply H1|]. intros i r Hin. apply Hs. by right.
Qed.

Lemma purge_service_step servicePk checkPks db : telemetry_ok db ->
  purge_step (service_scope workspacePk servicePk checkPks) db (purgeServiceTelemetry workspacePk servicePk checkPks rowBatch db).2.
Proof.
  intros Hok. unfold purgeServiceTelemetry. set (s := service_scope workspacePk servicePk checkPks).
  pose proof (check_tables_step s checkPks CHECK_TARGETS (0, db) Hok) as H1.
  fold (purge_check_tables workspacePk checkPks rowBatch (0, db)) in H1.
  destruct (purge_check_tables _ _ _ _) as [n1 db1]. cbn [snd] in H1. forward H1.
  { intros table Hin. unfold CHECK_TARGETS in Hin. rewrite !elem_of_cons, elem_of_nil in Hin.
    destruct Hin as [->|[->|[->|[]]]]; (split; [done|]); intros r E; exact E. }
  pose proof (check_latest_step s (chunks ID_BATCH checkPks) (n1, db1) (ps_ok _ _ _ H1)) as H2.
  fold (purge_check_latest workspacePk checkPks (n1, db1)) in H2.
  destruct (purge_check_latest _ _ _) as [n2 db2]. cbn [snd] in H2. forward H2.
  { intros ids r Hids <- E. cbn. rewrite Z.eqb_refl. by apply (z_in_chunk checkPks ids). }
  pose proof (purge_event_statement workspacePk rowBatch Hn s 2 servicePk db2 (ps_ok _ _ _ H2) (fun _ E => E)) as H3.
  destruct (deleteResourceEvents _ _ _ _ _) as [n3 db3]. cbn [snd] in H3.
  pose proof (purge_bucket_statement workspacePk rowBatch Hn s 2 servicePk db3 (ps_ok _ _ _ H3) (fun _ E => E)) as H4.
  destruct (deleteStatusBuckets _ _ _ _ _) as [n4 db4]. cbn [snd] in H4.
  pose proof (purge_latest_statement workspacePk s service_latest_table (Z.eqb servicePk) db4 (ps_ok _ _ _ H4)) as H5.
  destruct (delete_latest _ _ _ _) as [n5 db5]. cbn [snd] in *. forward H5.
  { intros r <- E. cbn. rewrite Z.eqb_refl, Z.eqb_sym. exact E. }
  eapply purge_trans; [exact H1|]. eapply purge_trans; [exact H2|]. eapply purge_trans; [exact H3|]. by eapply purge_trans.
Qed.
Lemma purge_service_complete servicePk checkPks db :
  pu_complete (purgeServiceTelemetry workspacePk servicePk checkPks rowBatch db).1 = true ->
  scope_empty (service_scope workspacePk servicePk checkPks) (purgeServiceTelemetry workspacePk servicePk checkPks rowBatch db).2.
Proof.
  unfold purgeServiceTelemetry. destruct (purge_check_latest _ _ _) as [n2 db2]. destruct (deleteResourceEvents _ _ _ _ _) as [n3 db3].
  destruct (deleteStatusBuckets _ _ _ _ _) as [n4 db4]. destruct (delete_latest _ _ _ _) as [n5 db5]. cbn [fst snd pu_complete].
  rewrite andb_true_iff, !negb_true_iff, !orb_false_iff. unfold latest_remains, checkTelemetryRemains. rewrite !existsb_false_elem.
  intros [((Hl & He) & Hb) Hc].
  assert (Hchunk : forall pk, z_in pk checkPks = true -> exists ids, ids ∈ chunks ID_BATCH checkPks /\ z_in pk ids = true).
  { intros pk E. apply z_in_elem, (elem_of_chunks ID_BATCH) in E as (ids & Hids & E); [|unfold ID_BATCH; lia].
    exists ids. split; [done|]. by apply z_in_elem. }
  split_and!; [| | exact He | done].
  - assert (Hrows : forall table r, table ∈ CHECK_TARGETS -> r ∈ tt_timed db5 table -> row_of_any workspacePk checkPks r = false).
    { intros table r Ht Hr. apply not_true_is_false. intros E. unfold row_of_any in E. apply andb_true_iff in E as [Ew E].
      destruct (Hchunk _ E) as (ids & Hids & Ei). pose proof (Hc ids Hids) as Hx. apply orb_false_iff in Hx as [Hx _].
      rewrite existsb_false_elem in Hx. specialize (Hx table Ht). rewrite existsb_false_elem in Hx. specialize (Hx r Hr).
      unfold row_of_any in Hx. by rewrite Ew, Ei in Hx. }
    unfold CHECK_TARGETS in Hrows. intros table r Hr. cbn. destruct table; try done;
      [eapply Hrows; [|exact Hr]; rewrite !elem_of_cons; tauto .. | by apply Hb].
  - intros table r Hr. cbn. destruct (lt_workspace r =? workspacePk) eqn:Ew; [|done]. cbn. destruct table; [done | |].
    + apply not_true_is_false. intros E. destruct (Hchunk _ E) as (ids & Hids & Ei). pose proof (Hc ids Hids) as Hx.
      apply orb_false_iff in Hx as [_ Hx]. unfold latest_remains in Hx. rewrite existsb_false_elem in Hx. specialize (Hx r Hr).
      by rewrite Ew, Ei in Hx.
    + specialize (Hl r Hr). rewrite Ew in Hl. by rewrite Z.eqb_sym.
Qed.
End Purges.
