(* ===== verification/ControlRetention.v ===== *)
(** * ControlRetention: control rows that are no longer kept

    [workers/retention/src/control-retention.ts]: agent commands, announcements, audit logs,
    notification deliveries and check secrets that no check refers to.  Every statement takes the
    oldest rows first and at most a batch of them. *)

From Stdlib Require Import ZArith Lia Bool String List.
From stdpp Require Import base tactics sets list strings.
From S2P Require Import Prelude.
From S2P Require Import Js.
From S2P Require Import Sql.
From S2P Require Import Web.
From S2P Require Import Assertions.
From S2P Require Import Validation.
From S2P Require Import Envelopes.
From S2P Require Import Outbox.
From S2P Require Import ControlPlane.
Open Scope string_scope.
Open Scope Z_scope.

(* @src workers/retention/src/control-retention.ts 2-4 ORPHAN_SECRET_BATCH *)
Definition COMMAND_AUDIT_DAYS : Z := 30.
Definition ORPHAN_SECRET_GRACE_MS : Z := DAY_MS.
Definition ORPHAN_SECRET_BATCH : Z := 50.

(** [ORDER BY time, id] *)
Definition time_id_leb {R} (time : R -> Z) (row_id : R -> string) (a b : R) : bool :=
  if time a =? time b then String.leb (row_id a) (row_id b) else time a <? time b.

(** ** Agent commands *)

(* @src workers/retention/src/control-retention.ts CommandCleanupResult *)
Record CommandCleanupResult := CommandCleanup { cc_deleted : Z; cc_expired : Z }.

(** [COALESCE(completed_at, expires_at)] *)
Definition command_end (c : command_row) : Z := coalesce (co_completed c) (co_expires c).
Definition command_open (c : command_row) : bool :=
  bool_decide (co_state c = cmd_pending) || bool_decide (co_state c = cmd_delivered).
Definition command_abandoned (cutoff : Z) (c : command_row) : bool := command_open c && (co_expires c <? cutoff).
Definition command_terminal (cutoff : Z) (c : command_row) : bool :=
  negb (command_open c) && match co_completed c with Some t => t <? cutoff | None => false end.
(* @src workers/retention/src/control-retention.ts deleteCommands *)
Definition deleteCommands (predicate : command_row -> bool) (rowBatch : Z) (t : list command_row) : list command_row * Z :=
  delete_in co_id (time_id_leb command_end co_id) rowBatch (fun _ => true) predicate t.

Definition command_due (now : Z) (c : command_row) : bool := command_open c && (co_expires c <=? now).
Definition expire_command (c : command_row) : command_row :=
  CommandRow (co_id c) (co_workspace c) (co_agent c) cmd_expired (co_expires c)
    (Some (coalesce (co_completed c) (co_expires c))) (Some (coalesce (co_result c) "command_expired")).
(* @src workers/retention/src/control-retention.ts cleanAgentCommands *)
Definition cleanAgentCommands (now rowBatch : Z) (t : list command_row) : CommandCleanupResult * list command_row :=
  let auditCutoff := now - COMMAND_AUDIT_DAYS * DAY_MS in
  let '(t1, abandoned) := deleteCommands (command_abandoned auditCutoff) rowBatch t in
  let '(t2, terminal) := deleteCommands (command_terminal auditCutoff) rowBatch t1 in
  let page := order_limit (time_id_leb co_expires co_id) rowBatch (List.filter (command_due now) t2) in
  let '(t3, expired) := update_where (fun c => existsb (fun p => String.eqb (co_id p) (co_id c)) page) expire_command t2 in
  (CommandCleanup (abandoned + terminal) expired, t3).

(** ** Rows with an age *)

Definition announcement_expired (workspaceId : string) (cutoff : Z) (r : owned_row) : bool :=
  String.eqb (ow_workspace r) workspaceId && match ow_expires r with Some t => t <? cutoff | None => false end.
(* @src workers/retention/src/control-retention.ts cleanExpiredAnnouncements *)
Definition cleanExpiredAnnouncements (workspaceId : string) (now graceDays rowBatch : Z) (d : control_tables)
  : Z * control_tables :=
  let '(rows, n) := delete_in ow_id (time_id_leb (fun r => coalesce (ow_expires r) 0) ow_id) rowBatch (fun _ => true)
    (announcement_expired workspaceId (now - graceDays * DAY_MS)) (ct_owned d announcements) in
  (n, set_owned announcements rows d).

Definition audit_expired (workspaceId : string) (cutoff : Z) (r : audit_row) : bool :=
  String.eqb (al_workspace r) workspaceId && (al_created r <? cutoff).
(* @src workers/retention/src/control-retention.ts cleanAuditLogs *)
Definition cleanAuditLogs (workspaceId : string) (now retentionDays rowBatch : Z) (d : control_tables) : Z * control_tables :=
  let '(rows, n) := delete_in al_id (time_id_leb al_created al_id) rowBatch (fun _ => true)
    (audit_expired workspaceId (now - retentionDays * DAY_MS)) (ct_audits d) in
  (n, set_audits rows d).

Definition delivery_expired (workspaceId : string) (state : delivery_state) (cutoff : Z) (r : delivery_row) : bool :=
  String.eqb (dl_workspace r) workspaceId && bool_decide (dl_state r = state) && (dl_updated r <? cutoff).
Definition clean_delivery_state (workspaceId : string) (cutoff rowBatch : Z) (state : delivery_state) (t : list delivery_row)
  : list delivery_row * Z :=
  delete_in dl_id (time_id_leb dl_updated dl_id) rowBatch (fun _ => true) (delivery_expired workspaceId state cutoff) t.
(* @src workers/retention/src/control-retention.ts cleanNotificationDeliveries *)
Definition cleanNotificationDeliveries (workspaceId : string) (now retentionDays rowBatch : Z) (d : control_tables)
  : res (Z * control_tables) :=
  throw_if (rowBatch <? 1) || (200 <? rowBatch) as "notification retention batch must be between 1 and 200" in
  let cutoff := now - retentionDays * DAY_MS in
  let '(t1, sent) := clean_delivery_state workspaceId cutoff rowBatch Sent (ct_deliveries d) in
  let '(t2, dead) := clean_delivery_state workspaceId cutoff rowBatch Dead t1 in
  Ok (sent + dead, set_deliveries t2 d).

(** ** Secrets that no check refers to *)

(** The text values of a JSON document, at any depth. *)
Fixpoint text_values (o : jout) : list string :=
  match o with
  | OStr s => [s]
  | OArr l => concat (map text_values l)
  | OObj l => concat (map (fun kv => text_values kv.2) l)
  | _ => []
  end.

(** SQLite's JSON functions, as the statement uses them: the atoms of type [text] that
    [json_tree] lists for a document, of the empty document when [json_valid] rejects it. *)
Class SqliteJson := json_tree_texts : string -> list string.
(** What the statement relies on: a document the program wrote is listed completely. *)
Class SqliteJsonLaws `{SqliteJson} : Prop :=
  json_tree_complete : forall o s, jout_ok o -> s ∈ text_values o -> s ∈ json_tree_texts (json_stringify o).

Section Orphans.
Context `{SJ : SqliteJson}.

Definition secret_referenced (checks : list purge_check_row) (s : secret_row) : bool :=
  existsb (fun c => String.eqb (pc_workspace c) (sr_workspace s) && str_in (sr_id s) (json_tree_texts (pc_secret_refs c))) checks.
Definition secret_orphaned (checks : list purge_check_row) (workspaceId : string) (cutoff : Z) (s : secret_row) : bool :=
  String.eqb (sr_workspace s) workspaceId && (sr_created s <? cutoff) && negb (secret_referenced checks s).
(* @src workers/retention/src/control-retention.ts cleanOrphanCheckSecrets *)
Definition cleanOrphanCheckSecrets (workspaceId : string) (now rowBatch : Z) (d : control_tables) : res (Z * control_tables) :=
  throw_if (rowBatch <? 1) || (ORPHAN_SECRET_BATCH <? rowBatch) as "orphan check secret batch must be between 1 and 50" in
  let '(rows, n) := delete_in sr_id (fun a b => String.leb (sr_id a) (sr_id b)) rowBatch (fun _ => true)
    (secret_orphaned (ct_checks d) workspaceId (now - ORPHAN_SECRET_GRACE_MS)) (ct_secrets d) in
  Ok (n, set_secrets rows d).
End Orphans.

(** ** What each statement leaves *)

(** A statement that picks its rows by the primary key: only selected rows go, at most a batch,
    and nothing selected is left when the batch was not full. *)
Lemma keyed_delete {R K} `{!EqDecision R} `{!EqDecision K} (key : R -> K) leb n sel t : 0 <= n -> keys_unique key t ->
  let out := delete_in key leb n (fun _ => true) sel t in
  keys_unique key out.1 /\ (forall r, r ∈ out.1 -> r ∈ t) /\ (forall r, r ∈ t -> r ∉ out.1 -> sel r = true) /\
  0 <= out.2 <= n /\ (out.2 < n -> forall r, r ∈ out.1 -> sel r = false).
Proof.
  intros Hn Hu out. pose proof (keys_unique_NoDup key t Hu) as Hnd. pose proof (identifies_unique key sel t Hu) as Hid.
  destruct (delete_in_spec key leb n _ _ _ Hn Hnd Hid) as (Hc & _). fold out in Hc. pose proof (count_if_nonneg sel t).
  split_and!; try lia.
  - by apply delete_where_unique.
  - apply delete_in_subset.
  - intros r Hr Hgone. destruct (sel r) eqn:E; [done|]. destruct Hgone. by apply delete_in_kept.
  - by apply delete_in_short.
Qed.

Section Commands.
Context (now n : Z) (Hn : 0 < n).

Lemma command_open_end c : command_open c = true -> command_terminal now c = false.
Proof. unfold command_terminal. by intros ->. Qed.
(** Ended for longer than the audit period, whether it completed or was never picked up. *)
Definition command_forgotten (cutoff : Z) (c : command_row) : bool := command_abandoned cutoff c || command_terminal cutoff c.

(** The life of an agent command ends in order.  A clean-up changes a command only when it is
    pending or delivered and its time is over, and then exactly once, into an expired one with the
    completion time and the result it lacked; it deletes only commands that ended more than thirty
    days ago; a command that is still in time is left alone.  When no batch was full nothing
    overdue and nothing forgotten is left. *)
Theorem command_lifecycle t (Hu : keys_unique co_id t) :
  let cutoff := now - COMMAND_AUDIT_DAYS * DAY_MS in
  let out := cleanAgentCommands now n t in
  keys_unique co_id out.2 /\
  (forall c', c' ∈ out.2 -> exists c, c ∈ t /\ co_id c' = co_id c /\ (c' = c \/ (command_due now c = true /\ c' = expire_command c))) /\
  (forall c, c ∈ t -> (command_forgotten cutoff c = true) \/ (exists c', c' ∈ out.2 /\ co_id c' = co_id c)) /\
  (forall c, c ∈ t -> command_open c = true -> now < co_expires c -> c ∈ out.2) /\
  0 <= cc_deleted out.1 <= 2 * n /\ 0 <= cc_expired out.1 <= n /\
  (cc_deleted out.1 < n -> cc_expired out.1 < n -> forall c', c' ∈ out.2 ->
     command_due now c' = false /\ (c' ∈ t -> command_forgotten cutoff c' = false)).
Proof.
  intros cutoff out. unfold out, cleanAgentCommands, deleteCommands. fold cutoff.
  pose proof (keyed_delete co_id (time_id_leb command_end co_id) n (command_abandoned cutoff) t ltac:(lia) Hu) as (Hu1 & Hs1 & Hg1 & Hb1 & Hf1).
  destruct (delete_in _ _ _ _ (command_abandoned cutoff) t) as [t1 abandoned]. cbn [fst snd] in *.
  pose proof (keyed_delete co_id (time_id_leb command_end co_id) n (command_terminal cutoff) t1 ltac:(lia) Hu1) as (Hu2 & Hs2 & Hg2 & Hb2 & Hf2).
  destruct (delete_in _ _ _ _ (command_terminal cutoff) t1) as [t2 terminal]. cbn [fst snd] in *.
  set (page := order_limit (time_id_leb co_expires co_id) n (List.filter (command_due now) t2)).
  assert (Hpage : forall c, c ∈ t2 -> existsb (fun p => String.eqb (co_id p) (co_id c)) page = true <-> c ∈ page).
  { intros c Hc. rewrite existsb_exists_elem. split; [|intros Hp; exists c; split; [done|]; by apply String.eqb_eq].
    intros (p & Hp & E). apply String.eqb_eq in E. pose proof (elem_of_order_limit _ _ _ _ Hp) as Hp2.
    apply filter_In_elem in Hp2 as [Hp2 _]. assert (p = c) as <-; [|done].
    pose proof (find_key_unique co_id (co_id c) t2 p Hu2 Hp2 E) as F1. pose proof (find_key_unique co_id (co_id c) t2 c Hu2 Hc eq_refl) as F2. congruence. }
  assert (Hdue : forall c, c ∈ page -> c ∈ t2 /\ command_due now c = true) by (intros c ?%elem_of_order_limit; by apply filter_In_elem).
  unfold update_where. cbn [fst snd cc_deleted cc_expired].
  set (step := fun c => if existsb (fun p => String.eqb (co_id p) (co_id c)) page then expire_command c else c).
  assert (Hkey : forall c, co_id (step c) = co_id c) by (intros c; unfold step; by destruct (existsb _ _)).
  assert (Hcount : count_if (fun c => existsb (fun p => String.eqb (co_id p) (co_id c)) page) t2 = Z.min n (count_if (command_due now) t2)).
  { assert (E : List.filter (fun c => existsb (fun p => String.eqb (co_id p) (co_id c)) page) t2 ≡ₚ page).
    { apply NoDup_Permutation.
      - apply NoDup_filter_bool. by apply (keys_unique_NoDup co_id).
      - apply NoDup_order_limit, NoDup_filter_bool. by apply (keys_unique_NoDup co_id).
      - intros c. rewrite filter_In_elem. split; [intros [Hc Hp]; by apply Hpage|]. intros Hp.
        destruct (Hdue c Hp) as [Hc _]. split; [done|]. by apply Hpage. }
    unfold count_if at 1. rewrite E. apply order_limit_count. lia. }
  pose proof (count_if_nonneg (command_due now) t2).
  split_and!; try lia.
  - unfold keys_unique. rewrite map_map. rewrite (map_ext _ co_id) by done. done.
  - intros c' Hc'. apply list_elem_of_fmap in Hc' as (c & -> & Hc). exists c. split; [auto|]. split; [by apply Hkey|].
    fold (step c). unfold step. destruct (existsb _ page) eqn:E; [right | by left]. split; [|done]. by apply Hdue, Hpage.
  - intros c Hc. destruct (decide (c ∈ t1)) as [H1|H1]; [|left; unfold command_forgotten; by rewrite (Hg1 c Hc H1)].
    destruct (decide (c ∈ t2)) as [H2|H2]; [|left; unfold command_forgotten; rewrite (Hg2 c H1 H2); apply orb_true_r].
    right. exists (step c). split; [by apply list_elem_of_fmap_2 | apply Hkey].
  - intros c Hc Ho Hlt.
    assert (H1 : c ∈ t1).
    { destruct (decide (c ∈ t1)) as [|Hg]; [done|]. pose proof (Hg1 c Hc Hg) as E. unfold command_abandoned in E. bool_hyps.
      unfold cutoff, COMMAND_AUDIT_DAYS, DAY_MS in *. lia. }
    assert (H2 : c ∈ t2).
    { destruct (decide (c ∈ t2)) as [|Hg]; [done|]. pose proof (Hg2 c H1 Hg) as E. unfold command_terminal in E. by rewrite Ho in E. }
    apply list_elem_of_fmap. exists c. split; [|done]. unfold step. destruct (existsb _ page) eqn:E; [|done].
    apply Hpage, Hdue in E as [_ E]; [|done]. unfold command_due in E. bool_hyps. lia.
  - intros Hd He c' Hc'. apply list_elem_of_fmap in Hc' as (c & -> & Hc). change (command_due now (step c) = false /\ (step c ∈ t -> command_forgotten cutoff (step c) = false)).
    assert (Hall : command_due now c = true -> c ∈ page).
    { intros E. apply order_limit_all; [|by apply filter_In_elem]. unfold count_if in Hcount, He |- *. lia. }
    unfold step. destruct (existsb _ page) eqn:E.
    + split; [unfold command_due, command_open, expire_command; cbn; done|]. intros Hin. exfalso.
      pose proof (find_key_unique co_id (co_id c) t _ Hu Hin eq_refl) as F1.
      assert (Hct : c ∈ t) by auto. pose proof (find_key_unique co_id (co_id c) t _ Hu Hct eq_refl) as F2.
      assert (c = expire_command c) as Ec by congruence. apply Hpage, Hdue in E as [_ E]; [|done].
      rewrite Ec in E. unfold command_due, command_open in E. cbn in E. done.
    + assert (Hnd : command_due now c = false).
      { apply not_true_is_false. intros Ed. apply Hall, Hpage in Ed; [congruence | done]. }
      split; [done|]. intros _. unfold command_forgotten. rewrite Hf1 by (auto; lia). by rewrite Hf2 by (auto; lia).
Qed.
End Commands.

(** ** Deliveries keep until they are final *)

Lemma cleanNotificationDeliveries_spec workspaceId now days n d : 1 <= n <= 200 -> keys_unique dl_id (ct_deliveries d) ->
  exists deleted rows, cleanNotificationDeliveries workspaceId now days n d = Ok (deleted, set_deliveries rows d) /\
  keys_unique dl_id rows /\ (forall r, r ∈ rows -> r ∈ ct_deliveries d) /\ 0 <= deleted <= 2 * n /\
  (forall r, r ∈ ct_deliveries d -> r ∉ rows ->
     dl_workspace r = workspaceId /\ (dl_state r = Sent \/ dl_state r = Dead) /\ dl_updated r < now - days * DAY_MS).
Proof.
  intros Hn Hu. unfold cleanNotificationDeliveries, clean_delivery_state.
  rewrite (proj2 (Z.ltb_ge n 1)), (proj2 (Z.ltb_ge 200 n)) by lia. cbn [orb].
  set (cutoff := now - days * DAY_MS).
  pose proof (keyed_delete dl_id (time_id_leb dl_updated dl_id) n (delivery_expired workspaceId Sent cutoff) _ ltac:(lia) Hu) as (Hu1 & Hs1 & Hg1 & Hb1 & _).
  destruct (delete_in _ _ _ _ (delivery_expired workspaceId Sent cutoff) _) as [t1 sent]. cbn [fst snd] in *.
  pose proof (keyed_delete dl_id (time_id_leb dl_updated dl_id) n (delivery_expired workspaceId Dead cutoff) t1 ltac:(lia) Hu1) as (Hu2 & Hs2 & Hg2 & Hb2 & _).
  destruct (delete_in _ _ _ _ (delivery_expired workspaceId Dead cutoff) _) as [t2 dead]. cbn [fst snd] in *.
  exists (sent + dead), t2. split_and!; try done; try lia.
  - auto.
  - intros r Hr Hgone. destruct (decide (r ∈ t1)) as [H1|H1].
    + pose proof (Hg2 r H1 Hgone) as E. unfold delivery_expired in E. bool_hyps. auto.
    + pose proof (Hg1 r Hr H1) as E. unfold delivery_expired in E. bool_hyps. auto.
Qed.

(** ** Secrets in use are spared *)

(** [check_configs.secret_refs_json] as the web application stores it
    ([JSON.stringify(compiled.secretRefs)]). *)
Definition nullable_out (o : option string) : jout := match o with Some s => OStr s | None => ONull end.
Definition stored_references (r : CheckSecretReferences) : jout :=
  OObj [("headers", OObj (map (fun kv => (kv.1, OStr kv.2)) (sr_headers r))); ("body", nullable_out (sr_body r));
        ("tcpPayload", nullable_out (sr_tcpPayload r))].

Section References.
Context `{UA : UrlApi}.

Lemma obj_set_values {A} k (v : A) l x : x ∈ map snd (obj_set k v l) -> x = v \/ x ∈ map snd l.
Proof.
  induction l as [|[k' v'] l IH]; cbn; [set_solver|]. destruct (String.eqb k k'); cbn; set_solver.
Qed.
Lemma parse_secret_headers_values headers : forall acc out, parse_secret_headers (map (fun kv => (kv.1, JStr kv.2)) headers) acc = Ok out ->
  forall id, id ∈ map snd out -> id ∈ map snd headers \/ id ∈ map snd acc.
Proof.
  induction headers as [|[name id'] headers IH]; intros acc out H id Hid; cbn in *.
  - apply Ok_inj in H as <-. by right.
  - destruct (header_entry_blocked name); [done|]. destruct (IH _ _ H id Hid) as [Hin | Hin]; [left; by right|].
    unfold set_own in Hin. destruct (String.eqb name "__proto__"); [by right|].
    apply obj_set_values in Hin as [->|Hin]; [left; by left | by right].
Qed.
Lemma referencedIds_elem r id : id ∈ referencedIds r -> id ∈ map snd (sr_headers r) \/ sr_body r = Some id \/ sr_tcpPayload r = Some id.
Proof.
  assert (Hd : forall l seen, id ∈ dedup_from seen l -> id ∈ l).
  { induction l as [|x l IH]; intros seen H; [done|]. cbn in H. destruct (str_in x seen); [right; by apply (IH seen)|].
    apply elem_of_cons in H as [->|H]; [by left | right; by apply (IH (x :: seen))]. }
  intros H%Hd. rewrite !elem_of_app in H. destruct H as [H|[H|H]]; [by left | right; left | right; right];
    [destruct (sr_body r) | destruct (sr_tcpPayload r)]; cbn in H; try (by apply elem_of_nil in H);
    apply list_elem_of_singleton in H; by subst.
Qed.

Lemma stored_json r : json_of (stored_references r) =
  JObj [("headers", JObj (map (fun kv => (kv.1, JStr kv.2)) (sr_headers r))); ("body", json_of (nullable_out (sr_body r)));
        ("tcpPayload", json_of (nullable_out (sr_tcpPayload r)))].
Proof. unfold stored_references. cbn [json_of map fst snd]. by rewrite map_map. Qed.

Lemma parse_references text headers body tcp refs :
  json_parse text = Ok (JObj [("headers", JObj headers); ("body", body); ("tcpPayload", tcp)]) ->
  parseCheckSecretReferences text = Ok refs ->
  exists out, parse_secret_headers headers [] = Ok out /\ refs = SecretRefs out (nullable_string (Some body)) (nullable_string (Some tcp)).
Proof.
  intros E H. unfold parseCheckSecretReferences in H. rewrite E in H. cbn in H. destruct (32 <? _); [done|].
  destruct (parse_secret_headers headers []) as [out|]; [|done]. cbn in H. destruct (_ || _); [done|].
  exists out. split; [done|]. by apply Ok_inj in H as <-.
Qed.
Lemma stored_parse r refs : jout_ok (stored_references r) ->
  parseCheckSecretReferences (json_stringify (stored_references r)) = Ok refs ->
  exists headers, parse_secret_headers (map (fun kv => (kv.1, JStr kv.2)) (sr_headers r)) [] = Ok headers /\
    refs = SecretRefs headers (nullable_string (Some (json_of (nullable_out (sr_body r)))))
             (nullable_string (Some (json_of (nullable_out (sr_tcpPayload r))))).
Proof.
  intros Hok. apply parse_references. rewrite json_parse_stringify by done. by rewrite stored_json.
Qed.

(** The executor asks for no secret that the stored document does not mention as a text. *)
Lemma references_are_texts r refs id : jout_ok (stored_references r) ->
  parseCheckSecretReferences (json_stringify (stored_references r)) = Ok refs -> id ∈ referencedIds refs ->
  id ∈ text_values (stored_references r).
Proof.
  intros Hok H Hid. apply stored_parse in H as (headers & Hp & ->); [|done].
  apply referencedIds_elem in Hid as [Hid|[Hid|Hid]]; cbn [sr_headers sr_body sr_tcpPayload] in Hid.
  - destruct (parse_secret_headers_values _ _ _ Hp id Hid) as [Hin|Hin]; [|by apply elem_of_nil in Hin].
    cbn. apply elem_of_app. left. rewrite map_map. apply list_elem_of_fmap in Hin as (kv & -> & Hkv).
    apply list_elem_of_In, in_concat. exists [kv.2]. split; [|by left]. apply in_map_iff. exists kv. split; [done|].
    by apply list_elem_of_In.
  - cbn. apply elem_of_app. right. apply elem_of_app. left. destruct (sr_body r); cbn in Hid |- *; [|done].
    injection Hid as <-. by left.
  - cbn. apply elem_of_app. right. apply elem_of_app. right. destruct (sr_tcpPayload r); cbn in Hid |- *; [|done].
    injection Hid as <-. by left.
Qed.

Context `{SJ : SqliteJson} `{!SqliteJsonLaws}.

(** Cleaning up check secrets never takes one that is in use.  For every check of the
    workspace with references as the web application stores them, each secret that
    [resolveCheckSecrets] will ask for is still there afterwards, so a check that could run still
    can.  What is deleted is the workspace's own, older than a day and mentioned by none of its
    checks, at most fifty rows; other workspaces' secrets stay. *)
Theorem orphan_secrets_spared workspaceId now n d (Hn : 1 <= n <= ORPHAN_SECRET_BATCH) (Hu : keys_unique sr_id (ct_secrets d)) :
  exists deleted rows, cleanOrphanCheckSecrets workspaceId now n d = Ok (deleted, set_secrets rows d) /\
  keys_unique sr_id rows /\ (forall s, s ∈ rows -> s ∈ ct_secrets d) /\ 0 <= deleted <= n /\
  (forall s, s ∈ ct_secrets d -> s ∉ rows -> sr_workspace s = workspaceId /\ sr_created s < now - DAY_MS /\
     secret_referenced (ct_checks d) s = false) /\
  (forall c r refs s, c ∈ ct_checks d -> jout_ok (stored_references r) -> pc_secret_refs c = json_stringify (stored_references r) ->
     parseCheckSecretReferences (pc_secret_refs c) = Ok refs -> sr_id s ∈ referencedIds refs ->
     s ∈ ct_secrets d -> sr_workspace s = pc_workspace c -> s ∈ rows).
Proof.
  unfold cleanOrphanCheckSecrets. rewrite (proj2 (Z.ltb_ge n 1)), (proj2 (Z.ltb_ge ORPHAN_SECRET_BATCH n)) by lia. cbn [orb].
  pose proof (keyed_delete sr_id (fun a b => String.leb (sr_id a) (sr_id b)) n
    (secret_orphaned (ct_checks d) workspaceId (now - ORPHAN_SECRET_GRACE_MS)) _ ltac:(lia) Hu) as (Hu1 & Hs1 & Hg1 & Hb1 & _).
  destruct (delete_in _ _ _ _ _ _) as [rows deleted]. cbn [fst snd] in *. exists deleted, rows. split_and!; try done; try lia.
  - intros s Hs Hgone. pose proof (Hg1 s Hs Hgone) as E. unfold secret_orphaned in E. bool_hyps. done.
  - intros c r refs s Hc Hok Ec Hp Hid Hs Hw. rewrite Ec in Hp. destruct (decide (s ∈ rows)) as [|Hgone]; [done|]. exfalso.
    pose proof (Hg1 s Hs Hgone) as E. unfold secret_orphaned in E. bool_hyps.
    assert (Href : secret_referenced (ct_checks d) s = true); [|congruence].
    apply existsb_exists_elem. exists c. split; [done|]. rewrite Hw, String.eqb_refl, Ec. cbn [andb]. apply existsb_exists_elem.
    exists (sr_id s). split; [|apply String.eqb_refl]. apply json_tree_complete; [done|]. by apply (references_are_texts r refs).
Qed.
End References.

(** ** Recorded rows *)

(** [json_tree] on the documents the program's own parser reads. *)
Module ToySqlite.
Fixpoint texts (v : json) : list string :=
  match v with
  | JStr s => [s]
  | JArr l => concat (map texts l)
  | JObj l => concat (map (fun kv => texts kv.2) l)
  | _ => []
  end.
#[export] Instance toy_sqlite : SqliteJson := fun text => match json_parse text with Ok v => texts v | Err _ => [] end.
Lemma texts_json_of o : texts (json_of o) = text_values o.
Proof.
  induction o as [|b|z|x|s|l IH|l IH] using jout_ind'; try done.
  - cbn [json_of]. by destruct (is_finite x).
  - change (concat (map texts (map json_of l)) = concat (map text_values l)). f_equal.
    induction IH as [|x l Hx _ IHl]; [done|]. change (texts (json_of x) :: map texts (map json_of l) = text_values x :: map text_values l). by rewrite Hx, IHl.
  - change (concat (map (fun kv => texts kv.2) (map (fun kv => (kv.1, json_of kv.2)) l)) = concat (map (fun kv => text_values kv.2) l)). f_equal.
    induction IH as [|x l Hx _ IHl]; [done|].
    change (texts (json_of x.2) :: map (fun kv => texts kv.2) (map (fun kv => (kv.1, json_of kv.2)) l) = text_values x.2 :: map (fun kv => text_values kv.2) l).
    by rewrite Hx, IHl.
Qed.
#[export] Instance toy_sqlite_laws : SqliteJsonLaws.
Proof. intros o s Hok Hs. unfold json_tree_texts, toy_sqlite. rewrite json_parse_stringify by done. by rewrite texts_json_of. Qed.
End ToySqlite.
Import ToySqlite.

Definition cr_references : CheckSecretReferences := SecretRefs [("authorization", "secret-1")] None None.
Definition cr_check : purge_check_row := PurgeCheck "check" 7 "w" "service" (json_stringify (stored_references cr_references)) 1 false None.
Definition cr_control : control_tables :=
  ControlTables [] [] [] [] [] [] [cr_check] (fun _ => []) [] [] [] []
    [SecretRow "secret-1" "w" 5; SecretRow "secret-2" "w" 5] [] [] [] [].
Lemma cr_secrets_unique : keys_unique sr_id (ct_secrets cr_control).
Proof. apply (bool_decide_unpack _). vm_compute. exact I. Qed.
Example orphan_secrets_spared_witness :
  cleanOrphanCheckSecrets "w" (2 * DAY_MS) 50 cr_control = Ok (1, set_secrets [SecretRow "secret-1" "w" 5] cr_control) /\
  exists deleted rows, cleanOrphanCheckSecrets "w" (2 * DAY_MS) 50 cr_control = Ok (deleted, set_secrets rows cr_control) /\
    SecretRow "secret-1" "w" 5 ∈ rows.
Proof.
  split; [vm_compute; reflexivity|].
  destruct (orphan_secrets_spared "w" (2 * DAY_MS) 50 cr_control) as (deleted & rows & E & _ & _ & _ & _ & H);
    [unfold ORPHAN_SECRET_BATCH; lia | exact cr_secrets_unique |].
  exists deleted, rows. split; [exact E|].
  apply (H cr_check cr_references cr_references); try reflexivity; [by left | | by left | by left].
  vm_compute. split_and!; try done; apply (bool_decide_unpack _); vm_compute; exact I.
Defined.

Definition cr_commands : list command_row :=
  [CommandRow "a" "w" "agent" cmd_pending (50 * DAY_MS) None None; CommandRow "b" "w" "agent" cmd_succeeded (9 * DAY_MS) (Some (5 * DAY_MS)) (Some "ok");
   CommandRow "c" "w" "agent" cmd_delivered (100 * DAY_MS) None None].
Lemma cr_commands_unique : keys_unique co_id cr_commands.
Proof. apply (bool_decide_unpack _). vm_compute. exact I. Qed.
Example command_lifecycle_witness :
  (cleanAgentCommands (60 * DAY_MS) 200 cr_commands).2 =
    [CommandRow "a" "w" "agent" cmd_expired (50 * DAY_MS) (Some (50 * DAY_MS)) (Some "command_expired");
     CommandRow "c" "w" "agent" cmd_delivered (100 * DAY_MS) None None] /\
  keys_unique co_id (cleanAgentCommands (60 * DAY_MS) 200 cr_commands).2.
Proof.
  split; [vm_compute; reflexivity|]. apply (command_lifecycle (60 * DAY_MS) 200 ltac:(lia) cr_commands cr_commands_unique).
Defined.
