(* ===== verification/SoftDelete.v ===== *)
(** * SoftDelete: what happens to deleted resources after their grace period

    [workers/retention/src/soft-delete.ts].  A resource that was deleted in the web application
    stays recoverable for the grace period of its workspace.  After that a run claims it
    ([purge_started_at]), purges its telemetry in batches over as many runs as it takes, page by
    page of its agents or checks, and only then deletes the row and what refers to it (but for the
    notification rules of a machine).  A deleted workspace goes last, when it has no resource
    left. *)

From Stdlib Require Import ZArith Lia Bool String List.
From stdpp Require Import base tactics sets list strings relations.
From S2P Require Import Prelude.
From S2P Require Import Js.
From S2P Require Import Sql.
From S2P Require Import Authz.
From S2P Require Import CheckPersistence.
From S2P Require Import Validation.
From S2P Require Import Envelopes.
From S2P Require Import Lease.
From S2P Require Import RetentionTables.
From S2P Require Import Outbox.
From S2P Require Import ControlPlane.
From S2P Require Import TelemetryRetention.
From S2P Require Import SoftDeleteTelemetry.
Open Scope string_scope.
Open Scope Z_scope.

(* @src workers/retention/src/soft-delete.ts 9-13 SECRET_BATCH *)
Definition SOFT_RESOURCE_BATCH : Z := 10.
Definition CONTROL_ONLY_BATCH : Z := 50.
Definition RELATED_RESOURCE_BATCH : Z := 50.
Definition SECRET_BATCH : nat := 40.
Definition SOFT_ROW_BATCH : Z := 200.

(** The worker's two databases. *)
Record stores := Stores { control : control_tables; telemetry : telemetry_tables }.
Definition with_control (f : control_tables -> control_tables) (st : stores) : stores := Stores (f (control st)) (telemetry st).

(** [COALESCE(deleted_at, ?) <= ?] with the workspace's deletion time. *)
Definition deleted_by (workspaceDeleted : option Z) (cutoff : Z) (deleted : option Z) : bool :=
  match or_else deleted workspaceDeleted with Some t => t <=? cutoff | None => false end.

(** ** Claims *)

Definition claimed_workspace (now : Z) (w : workspace_state) : workspace_state :=
  WorkspaceState (wk_id w) (wk_pk w) (wk_slug w) (wk_name w) (wk_dashboard w) (wk_interval w) (wk_deleted w)
    (Some (coalesce (wk_purge w) now)) (wk_updated w).
Definition workspace_claimable (policy : RetentionPolicyRow) (deleted cutoff : Z) (w : workspace_state) : bool :=
  String.eqb (wk_id w) (workspace_id policy) && bool_decide (wk_deleted w = Some deleted) && (deleted <=? cutoff).
(* @src workers/retention/src/soft-delete.ts claimWorkspaceFinalization *)
Definition claimWorkspaceFinalization (policy : RetentionPolicyRow) (cutoff now : Z) (d : control_tables) : bool * control_tables :=
  match workspace_deleted_at policy with
  | None => (true, d)
  | Some deleted =>
      if cutoff <? deleted then (true, d)
      else
        let '(rows, n) := update_where (workspace_claimable policy deleted cutoff) (claimed_workspace now) (ct_workspaces d) in
        (0 <? n, set_workspaces rows d)
  end.

Section Managed.
Context {C : Type}.

Definition claimed_resource (now : Z) (r : managed_row C) : managed_row C :=
  Managed (mg_id r) (mg_pk r) (mg_workspace r) (mg_name r) (mg_deleted r) (Some (coalesce (mg_purge r) now)) (mg_cursor r)
    (mg_revision r) (mg_updated r) (mg_slug r).
Definition resource_named (policy : RetentionPolicyRow) (id : string) (r : managed_row C) : bool :=
  String.eqb (mg_id r) id && String.eqb (mg_workspace r) (workspace_id policy).
(** The workspace itself is being purged, since the deletion the run knows of. *)
Definition workspace_purging (policy : RetentionPolicyRow) (workspaces : list workspace_state) : bool :=
  existsb (fun w => String.eqb (wk_id w) (workspace_id policy) &&
    match workspace_deleted_at policy with Some t => bool_decide (wk_deleted w = Some t) | None => false end &&
    bool_decide (wk_purge w <> None)) workspaces.
Definition resource_claimable (policy : RetentionPolicyRow) (workspaces : list workspace_state) (seen : managed_row C) (cutoff : Z)
    (r : managed_row C) : bool :=
  resource_named policy (mg_id seen) r &&
  match mg_deleted seen with
  | None => bool_decide (mg_deleted r = None) && workspace_purging policy workspaces
  | Some t => bool_decide (mg_deleted r = Some t) && (t <=? cutoff)
  end.
(* @src workers/retention/src/soft-delete.ts claimResourceFinalization *)
Definition claimResourceFinalization (policy : RetentionPolicyRow) (workspaces : list workspace_state) (seen : managed_row C)
    (cutoff now : Z) (t : list (managed_row C)) : bool * list (managed_row C) :=
  let '(rows, n) := update_where (resource_claimable policy workspaces seen cutoff) (claimed_resource now) t in (0 <? n, rows).

Definition pk_leb (a b : managed_row C) : bool := mg_pk a <=? mg_pk b.
(* @src workers/retention/src/soft-delete.ts deletedResources *)
Definition deletedResources (policy : RetentionPolicyRow) (cutoff : Z) (t : list (managed_row C)) : list (managed_row C) :=
  order_limit pk_leb SOFT_RESOURCE_BATCH
    (List.filter (fun r => String.eqb (mg_workspace r) (workspace_id policy) && deleted_by (workspace_deleted_at policy) cutoff (mg_deleted r)) t).

Definition moved_resource (next : C) (r : managed_row C) : managed_row C :=
  Managed (mg_id r) (mg_pk r) (mg_workspace r) (mg_name r) (mg_deleted r) (mg_purge r) next (mg_revision r) (mg_updated r) (mg_slug r).
(* @src workers/retention/src/soft-delete.ts advanceRelatedCursor *)
Definition advanceRelatedCursor `{!EqDecision C} (policy : RetentionPolicyRow) (resourceId : string) (previous next : C)
    (t : list (managed_row C)) : res unit * list (managed_row C) :=
  let '(rows, n) := update_where
    (fun r => resource_named policy resourceId r && bool_decide (mg_purge r <> None) && bool_decide (mg_cursor r = previous))
    (moved_resource next) t in
  (throw_if negb (n =? 1) as "soft_delete_related_cursor_conflict" in Ok tt, rows).
Definition resource_final (policy : RetentionPolicyRow) (id : string) (cutoff : Z) (r : managed_row C) : bool :=
  resource_named policy id r && bool_decide (mg_purge r <> None) && deleted_by (workspace_deleted_at policy) cutoff (mg_deleted r).
End Managed.

(** ** Machines *)

Definition agent_leb (a b : agent_row) : bool := String.leb (ag_id a) (ag_id b).
(* @src workers/retention/src/soft-delete.ts loadAgentPage *)
Definition loadAgentPage (d : control_tables) (machineId cursor : string) : list agent_row * bool :=
  let page := order_limit agent_leb (RELATED_RESOURCE_BATCH + 1)
    (List.filter (fun a => String.eqb (ag_machine a) machineId && String.ltb cursor (ag_id a)) (ct_agents d)) in
  (take (Z.to_nat RELATED_RESOURCE_BATCH) page, RELATED_RESOURCE_BATCH <? Z.of_nat (length page)).
(* @src workers/retention/src/soft-delete.ts assertAgentCursor *)
Definition assertAgentCursor (d : control_tables) (machineId cursor : string) : res unit :=
  if String.eqb cursor "" then Ok tt
  else if existsb (fun a => String.eqb (ag_id a) cursor && String.eqb (ag_machine a) machineId) (ct_agents d) then Ok tt
  else Err "soft_delete_agent_cursor_invalid".

Definition agents_of (d : control_tables) (machineId : string) : list string :=
  map ag_id (List.filter (fun a => String.eqb (ag_machine a) machineId) (ct_agents d)).
Definition containers_of (d : control_tables) (machineId : string) : list string :=
  map ow_id (List.filter (fun c => String.eqb (ow_machine c) machineId) (ct_owned d containers)).
Definition detach_executor (c : purge_check_row) : purge_check_row :=
  PurgeCheck (pc_id c) (pc_pk c) (pc_workspace c) (pc_service c) (pc_secret_refs c) 0 (pc_by_agent c) None.
Definition run_by (agents : list string) (c : purge_check_row) : bool :=
  match pc_agent c with Some a => str_in a agents | None => false end.
(** [resource_type = 'machine' AND resource_id = ?], or a container of the machine. *)
Definition of_machine (d : control_tables) (machineId : string) (type : ResourceType) (resource : string) : bool :=
  (bool_decide (type = RMachine) && String.eqb resource machineId) ||
  (bool_decide (type = RContainer) && str_in resource (containers_of d machineId)).

(** [DELETE FROM machines WHERE ...] with its cascades; the foreign key of
    [check_configs.executor_agent_id] has no action, so that it fails while a check still names
    an agent of the machine. *)
Definition delete_machine (policy : RetentionPolicyRow) (machineId : string) (cutoff : Z) (d : control_tables)
  : res (Z * control_tables) :=
  let '(machines, n) := delete_where (resource_final policy machineId cutoff) (ct_machines d) in
  if n =? 0 then Ok (0, d)
  else
    let agents := agents_of d machineId in
    throw_if existsb (run_by agents) (ct_checks d) as "FOREIGN KEY constraint failed" in
    Ok (n, set_machines machines
      (set_agents (List.filter (fun a => negb (String.eqb (ag_machine a) machineId)) (ct_agents d))
      (set_commands (List.filter (fun c => negb (str_in (co_agent c) agents)) (ct_commands d))
      (set_owned containers (List.filter (fun c => negb (String.eqb (ow_machine c) machineId)) (ct_owned d containers)) d)))).
(** One transaction: when a statement fails, none has an effect. *)
(* @src workers/retention/src/soft-delete.ts finalizeMachineControl *)
Definition finalizeMachineControl (policy : RetentionPolicyRow) (machineId : string) (cutoff : Z) (d : control_tables)
  : res (Z * control_tables) :=
  let '(checks, n1) := update_where (run_by (agents_of d machineId)) detach_executor (ct_checks d) in
  let d1 := set_checks checks d in
  let '(grants, n2) := delete_where (fun g => String.eqb (gr_workspace g) (workspace_id policy) &&
    of_machine d1 machineId (resourceType (gr_grant g)) (resourceId (gr_grant g))) (ct_grants d1) in
  let d2 := set_grants grants d1 in
  let '(public, n3) := delete_where (fun l => String.eqb (lk_owner l) (workspace_id policy) &&
    of_machine d2 machineId (lk_type l) (lk_resource l)) (ct_public d2) in
  let d3 := set_public public d2 in
  let '(shown, n4) := delete_where (fun l => bool_decide (lk_type l = RMachine) && String.eqb (lk_resource l) machineId)
    (ct_dashboard_resources d3) in
  let d4 := set_dashboard_resources shown d3 in
  let '(affected, n5) := delete_where (fun l => bool_decide (ir_type l = RMachine) && String.eqb (ir_resource l) machineId)
    (ct_incident_resources d4) in
  let d5 := set_incident_resources affected d4 in
  let* '(n6, d6) := delete_machine policy machineId cutoff d5 in
  Ok (n1 + n2 + n3 + n4 + n5 + n6, d6).

(* @src workers/retention/src/soft-delete.ts 281-320 finalizeMachines *)
Definition finalize_machine (policy : RetentionPolicyRow) (cutoff now : Z) (machine : managed_row string) (st : stores)
  : res Z * stores :=
  let d := control st in
  let '(claimed, machines) := claimResourceFinalization policy (ct_workspaces d) machine cutoff now (ct_machines d) in
  let d1 := set_machines machines d in
  if negb claimed then (Ok 0, Stores d1 (telemetry st))
  else
    let cursor := mg_cursor machine in
    match assertAgentCursor d1 (mg_id machine) cursor with
    | Err e => (Err e, Stores d1 (telemetry st))
    | Ok _ =>
        let '(agents, hasMore) := loadAgentPage d1 (mg_id machine) cursor in
        let '(purge, t1) := purgeMachineTelemetry (workspace_pk policy) (mg_pk machine) (map ag_id agents) SOFT_ROW_BATCH (telemetry st) in
        if negb (pu_complete purge) then (Ok (pu_deleted purge), Stores d1 t1)
        else if hasMore then
          match last agents with
          | None => (Err "soft_delete_agent_page_empty", Stores d1 t1)
          | Some a =>
              let '(r, rows) := advanceRelatedCursor policy (mg_id machine) cursor (ag_id a) (ct_machines d1) in
              ((let* _ := r in Ok (pu_deleted purge)), Stores (set_machines rows d1) t1)
          end
        else
          match finalizeMachineControl policy (mg_id machine) cutoff d1 with
          | Ok (n, d2) => (Ok (pu_deleted purge + n), Stores d2 t1)
          | Err e => (Err e, Stores d1 t1)
          end
    end.
(** [for (const row of rows) deleted += await step(row)]: an error ends the loop. *)
Fixpoint finalize_each {R} (step : R -> stores -> res Z * stores) (rows : list R) (st : stores) : res Z * stores :=
  match rows with
  | [] => (Ok 0, st)
  | r :: rest =>
      match step r st with
      | (Ok n, st1) => let '(m, st2) := finalize_each step rest st1 in ((let* m := m in Ok (n + m)), st2)
      | (Err e, st1) => (Err e, st1)
      end
  end.
(* @src workers/retention/src/soft-delete.ts finalizeMachines *)
Definition finalizeMachines (policy : RetentionPolicyRow) (cutoff now : Z) (st : stores) : res Z * stores :=
  finalize_each (finalize_machine policy cutoff now) (deletedResources policy cutoff (ct_machines (control st))) st.

(** ** Services *)

Definition check_pk_leb (a b : purge_check_row) : bool := pc_pk a <=? pc_pk b.
Definition check_of (policy : RetentionPolicyRow) (serviceId : string) (c : purge_check_row) : bool :=
  String.eqb (pc_workspace c) (workspace_id policy) && String.eqb (pc_service c) serviceId.
(* @src workers/retention/src/soft-delete.ts loadCheckPage *)
Definition loadCheckPage (policy : RetentionPolicyRow) (d : control_tables) (serviceId : string) (cursor : Z)
  : list purge_check_row * bool :=
  let page := order_limit check_pk_leb (RELATED_RESOURCE_BATCH + 1)
    (List.filter (fun c => check_of policy serviceId c && (cursor <? pc_pk c)) (ct_checks d)) in
  (take (Z.to_nat RELATED_RESOURCE_BATCH) page, RELATED_RESOURCE_BATCH <? Z.of_nat (length page)).
(* @src workers/retention/src/soft-delete.ts assertCheckCursor *)
Definition assertCheckCursor (policy : RetentionPolicyRow) (d : control_tables) (serviceId : string) (cursor : Z) : res unit :=
  throw_if negb (safe_z cursor) || (cursor <? 0) as "soft_delete_check_cursor_invalid" in
  if cursor =? 0 then Ok tt
  else if existsb (fun c => check_of policy serviceId c && (pc_pk c =? cursor)) (ct_checks d) then Ok tt
  else Err "soft_delete_check_cursor_invalid".

Definition string_of_json (v : json) : list string := match v with JStr s => [s] | _ => [] end.
(** [Object.values(value)] of an object or an array; [[]] of anything else. *)
Definition object_values (v : option json) : list json :=
  match v with Some (JObj l) => map snd l | Some (JArr l) => l | _ => [] end.
(** The ids of one row; a document that is no JSON object is skipped. *)
Definition row_secret_ids (text : string) : list string :=
  match json_parse text with
  | Ok (JObj record) =>
      (concat (map string_of_json (object_values (obj_get "headers" record))) ++
       concat (map (fun key => match obj_get key record with Some v => string_of_json v | None => [] end) ["body"; "tcpPayload"]))%list
  | _ => []
  end.
(* @src workers/retention/src/soft-delete.ts collectSecretIds *)
Definition collectSecretIds (rows : list purge_check_row) : list string :=
  dedup_from [] (concat (map (fun c => row_secret_ids (pc_secret_refs c)) rows)).
(* @src workers/retention/src/soft-delete.ts deleteSecrets *)
Definition deleteSecrets (workspaceId : string) (ids : list string) (t : list secret_row) : Z * list secret_row :=
  foldl (fun '(deleted, t) batch =>
    let '(t', n) := delete_where (fun s => String.eqb (sr_workspace s) workspaceId && str_in (sr_id s) batch) t in (deleted + n, t'))
    (0, t) (chunks SECRET_BATCH ids).

Definition of_service (serviceId : string) (type : ResourceType) (resource : string) : bool :=
  bool_decide (type = RService) && String.eqb resource serviceId.
(** [DELETE FROM services WHERE ...]; its checks go with it. *)
Definition delete_service (policy : RetentionPolicyRow) (serviceId : string) (cutoff : Z) (d : control_tables) : Z * control_tables :=
  let '(services, n) := delete_where (resource_final policy serviceId cutoff) (ct_services d) in
  if n =? 0 then (0, d)
  else (n, set_services services (set_checks (List.filter (fun c => negb (String.eqb (pc_service c) serviceId)) (ct_checks d)) d)).
(* @src workers/retention/src/soft-delete.ts finalizeServiceControl *)
Definition finalizeServiceControl (policy : RetentionPolicyRow) (serviceId : string) (cutoff : Z) (d : control_tables)
  : Z * control_tables :=
  let '(shown, n1) := delete_where (fun l => of_service serviceId (lk_type l) (lk_resource l)) (ct_dashboard_resources d) in
  let d1 := set_dashboard_resources shown d in
  let '(grants, n2) := delete_where (fun g => String.eqb (gr_workspace g) (workspace_id policy) &&
    of_service serviceId (resourceType (gr_grant g)) (resourceId (gr_grant g))) (ct_grants d1) in
  let d2 := set_grants grants d1 in
  let '(public, n3) := delete_where (fun l => String.eqb (lk_owner l) (workspace_id policy) &&
    of_service serviceId (lk_type l) (lk_resource l)) (ct_public d2) in
  let d3 := set_public public d2 in
  let '(affected, n4) := delete_where (fun l => of_service serviceId (ir_type l) (ir_resource l)) (ct_incident_resources d3) in
  let d4 := set_incident_resources affected d3 in
  let '(n5, d5) := delete_service policy serviceId cutoff d4 in
  (n1 + n2 + n3 + n4 + n5, d5).

(* @src workers/retention/src/soft-delete.ts 406-450 finalizeServices *)
Definition finalize_service (policy : RetentionPolicyRow) (cutoff now : Z) (service : managed_row Z) (st : stores)
  : res Z * stores :=
  let d := control st in
  let '(claimed, services) := claimResourceFinalization policy (ct_workspaces d) service cutoff now (ct_services d) in
  let d1 := set_services services d in
  if negb claimed then (Ok 0, Stores d1 (telemetry st))
  else
    let cursor := mg_cursor service in
    match assertCheckCursor policy d1 (mg_id service) cursor with
    | Err e => (Err e, Stores d1 (telemetry st))
    | Ok _ =>
        let '(checks, hasMore) := loadCheckPage policy d1 (mg_id service) cursor in
        let '(purge, t1) := purgeServiceTelemetry (workspace_pk policy) (mg_pk service) (map pc_pk checks) SOFT_ROW_BATCH (telemetry st) in
        if negb (pu_complete purge) then (Ok (pu_deleted purge), Stores d1 t1)
        else
          let '(n, secrets) := deleteSecrets (workspace_id policy) (collectSecretIds checks) (ct_secrets d1) in
          let d2 := set_secrets secrets d1 in
          if hasMore then
            match last checks with
            | None => (Err "soft_delete_check_page_empty", Stores d2 t1)
            | Some c =>
                let '(r, rows) := advanceRelatedCursor policy (mg_id service) cursor (pc_pk c) (ct_services d2) in
                ((let* _ := r in Ok (pu_deleted purge + n)), Stores (set_services rows d2) t1)
            end
          else
            let '(m, d3) := finalizeServiceControl policy (mg_id service) cutoff d2 in
            (Ok (pu_deleted purge + n + m), Stores d3 t1)
    end.
(* @src workers/retention/src/soft-delete.ts finalizeServices *)
Definition finalizeServices (policy : RetentionPolicyRow) (cutoff now : Z) (st : stores) : res Z * stores :=
  finalize_each (finalize_service policy cutoff now) (deletedResources policy cutoff (ct_services (control st))) st.

(** ** Rows of the control database only *)

Definition owned_eligible (policy : RetentionPolicyRow) (cutoff : Z) (r : owned_row) : bool :=
  String.eqb (ow_workspace r) (workspace_id policy) && deleted_by (workspace_deleted_at policy) cutoff (ow_deleted r).
Definition owned_leb (a b : owned_row) : bool := String.leb (ow_id a) (ow_id b).
(** The rows that reference a dashboard or an incident go with it. *)
Definition cascade_owned (table : owned_table) (ids : list string) (d : control_tables) : control_tables :=
  match table with
  | dashboards => set_dashboard_resources (List.filter (fun l => negb (str_in (lk_owner l) ids)) (ct_dashboard_resources d)) d
  | incidents => set_incident_resources (List.filter (fun l => negb (str_in (ir_incident l) ids)) (ct_incident_resources d)) d
  | _ => d
  end.
Definition bool_Z (b : bool) (n : Z) : Z := if b then n else 0.
(* @src workers/retention/src/soft-delete.ts finalizeControlOnlyTable *)
Definition finalizeControlOnlyTable (policy : RetentionPolicyRow) (cutoff : Z) (table : owned_table) (resourceType_ : option ResourceType)
    (d : control_tables) : Z * control_tables :=
  let ids := map ow_id (order_limit owned_leb CONTROL_ONLY_BATCH (List.filter (owned_eligible policy cutoff) (ct_owned d table))) in
  if (length ids =? 0)%nat then (0, d)
  else
    let eligibleIds := map ow_id (List.filter (fun r => owned_eligible policy cutoff r && str_in (ow_id r) ids) (ct_owned d table)) in
    let '(n1, d1) := match resourceType_ with
      | None => (0, d)
      | Some type =>
          let '(grants, n) := delete_where (fun g => String.eqb (gr_workspace g) (workspace_id policy) &&
            bool_decide (resourceType (gr_grant g) = type) && str_in (resourceId (gr_grant g)) eligibleIds) (ct_grants d) in
          (n, set_grants grants d)
      end in
    let '(n2, d2) := if bool_decide (resourceType_ = Some RContainer) then
        let '(public, n) := delete_where (fun l => String.eqb (lk_owner l) (workspace_id policy) &&
          bool_decide (lk_type l = RContainer) && str_in (lk_resource l) eligibleIds) (ct_public d1) in
        (n, set_public public d1)
      else (0, d1) in
    let '(rows, n3) := delete_where (fun r => owned_eligible policy cutoff r && str_in (ow_id r) ids) (ct_owned d2 table) in
    (n1 + n2 + n3, cascade_owned table eligibleIds (set_owned table rows d2)).

Definition grace_cutoff (policy : RetentionPolicyRow) (now : Z) : Z := now - soft_delete_grace_days policy * DAY_MS.
(* @src workers/retention/src/soft-delete.ts 515-536 finalizeSoftDeletedResources *)
Definition finalize_owned (policy : RetentionPolicyRow) (cutoff : Z) (d : control_tables) : Z * control_tables :=
  foldl (fun '(deleted, d) '(table, type) =>
    let '(n, d') := finalizeControlOnlyTable policy cutoff table type d in (deleted + n, d')) (0, d)
    [(containers, Some RContainer); (dashboards, Some RDashboard); (incidents, Some RIncident); (announcements, None)].
(* @src workers/retention/src/soft-delete.ts finalizeSoftDeletedResources *)
Definition finalizeSoftDeletedResources (policy : RetentionPolicyRow) (now : Z) (st : stores) : res Z * stores :=
  let cutoff := grace_cutoff policy now in
  let '(claimed, d) := claimWorkspaceFinalization policy cutoff now (control st) in
  let st1 := Stores d (telemetry st) in
  if negb claimed then (Ok 0, st1)
  else
    match finalizeMachines policy cutoff now st1 with
    | (Err e, st2) => (Err e, st2)
    | (Ok machines, st2) =>
        match finalizeServices policy cutoff now st2 with
        | (Err e, st3) => (Err e, st3)
        | (Ok services, st3) =>
            let '(owned, d) := finalize_owned policy cutoff (control st3) in
            (Ok (machines + services + owned), Stores d (telemetry st3))
        end
    end.

(** ** Workspaces *)

(** The trigger [memberships_keep_active_admin_on_delete]: the last active administrator of a
    workspace cannot be deleted. *)
Definition active_admin (m : membership) : bool := bool_decide (mb_role m = admin) && bool_decide (mb_status m = active).
Definition admin_guard (m : membership) (t : list membership) : bool :=
  active_admin m && negb (existsb (fun o => String.eqb (mb_workspace o) (mb_workspace m) && negb (String.eqb (mb_user o) (mb_user m)) &&
    active_admin o) t).
(** Rows that a cascade deletes one after the other, each with its trigger. *)
Fixpoint cascade_memberships (pending t : list membership) : res (list membership) :=
  match pending with
  | [] => Ok t
  | m :: rest =>
      throw_if admin_guard m t as "workspace requires an active administrator" in
      cascade_memberships rest (delete_where (key_is membership_key (membership_key m)) t).1
  end.
Definition not_of (workspaceId : string) (id : string) : bool := negb (String.eqb id workspaceId).
(** Every table with a foreign key to [workspaces], but for the memberships. *)
Definition cascade_workspace (workspaceId : string) (d : control_tables) : control_tables :=
  let agents := concat (map (fun m => if String.eqb (mg_workspace m) workspaceId then agents_of d (mg_id m) else []) (ct_machines d)) in
  let owned table := map ow_id (List.filter (fun r => String.eqb (ow_workspace r) workspaceId) (ct_owned d table)) in
  ControlTables
    (List.filter (fun w => not_of workspaceId (wk_id w)) (ct_workspaces d))
    (List.filter (fun p => not_of workspaceId (rp_workspace p)) (ct_policies d))
    (ct_memberships d)
    (List.filter (fun m => not_of workspaceId (mg_workspace m)) (ct_machines d))
    (List.filter (fun s => not_of workspaceId (mg_workspace s)) (ct_services d))
    (List.filter (fun a => negb (str_in (ag_id a) agents)) (ct_agents d))
    (List.filter (fun c => not_of workspaceId (pc_workspace c)) (ct_checks d))
    (fun table => List.filter (fun r => not_of workspaceId (ow_workspace r)) (ct_owned d table))
    (List.filter (fun g => not_of workspaceId (gr_workspace g)) (ct_grants d))
    (List.filter (fun l => not_of workspaceId (lk_owner l)) (ct_public d))
    (List.filter (fun l => negb (str_in (lk_owner l) (owned dashboards))) (ct_dashboard_resources d))
    (List.filter (fun l => negb (str_in (ir_incident l) (owned incidents))) (ct_incident_resources d))
    (List.filter (fun s => not_of workspaceId (sr_workspace s)) (ct_secrets d))
    (List.filter (fun c => not_of workspaceId (co_workspace c)) (ct_commands d))
    (List.filter (fun a => not_of workspaceId (al_workspace a)) (ct_audits d))
    (List.filter (fun l => not_of workspaceId (dl_workspace l)) (ct_deliveries d))
    (List.filter (fun l => not_of workspaceId (lk_owner l)) (ct_rules d)).
(** [DELETE FROM workspaces WHERE id = ? AND deleted_at = ? AND purge_started_at IS NOT NULL] *)
Definition delete_workspace (workspaceId : string) (deleted : Z) (d : control_tables) : res (Z * control_tables) :=
  let n := count_if (fun w => String.eqb (wk_id w) workspaceId && bool_decide (wk_deleted w = Some deleted) && bool_decide (wk_purge w <> None))
    (ct_workspaces d) in
  if n =? 0 then Ok (0, d)
  else
    let* memberships := cascade_memberships (List.filter (fun m => String.eqb (mb_workspace m) workspaceId) (ct_memberships d)) (ct_memberships d) in
    Ok (n, set_memberships memberships (cascade_workspace workspaceId d)).

Definition workspace_has_rows (workspaceId : string) (d : control_tables) : bool :=
  existsb (fun m => String.eqb (mg_workspace m) workspaceId) (ct_machines d) ||
  existsb (fun s => String.eqb (mg_workspace s) workspaceId) (ct_services d) ||
  existsb (fun table => existsb (fun r => String.eqb (ow_workspace r) workspaceId) (ct_owned d table))
    [containers; dashboards; incidents; announcements].
(* @src workers/retention/src/soft-delete.ts finalizeDeletedWorkspace *)
Definition finalizeDeletedWorkspace (policy : RetentionPolicyRow) (now : Z) (st : stores) : res Z * stores :=
  let cutoff := grace_cutoff policy now in
  match workspace_deleted_at policy with
  | None => (Ok 0, st)
  | Some deleted =>
      if cutoff <? deleted then (Ok 0, st)
      else
        let '(claimed, d) := claimWorkspaceFinalization policy cutoff now (control st) in
        let st1 := Stores d (telemetry st) in
        if negb claimed then (Ok 0, st1)
        else if workspace_has_rows (workspace_id policy) d || negb (workspaceTelemetryIsEmpty (workspace_pk policy) (telemetry st)) then (Ok 0, st1)
        else
          let '(n, t) := deleteWorkspaceTelemetryState (workspace_pk policy) (telemetry st) in
          match delete_workspace (workspace_id policy) deleted d with
          | Ok (m, d') => (Ok (n + m), Stores d' t)
          | Err e => (Err e, Stores d t)
          end
  end.

(** ** The workspace row *)

Lemma active_admin_true m : active_admin m = true <-> mb_role m = admin /\ mb_status m = active.
Proof. unfold active_admin. by rewrite andb_true_iff, !bool_decide_eq_true. Qed.

Lemma keys_unique_filter {R K} (key : R -> K) (f : R -> bool) t : keys_unique key t -> keys_unique key (List.filter f t).
Proof.
  unfold keys_unique. induction t as [|x t IH]; cbn; intros H; [constructor|]. apply NoDup_cons in H as [Hx H].
  destruct (f x); cbn; [|by apply IH]. constructor; [|by apply IH]. intros Hin. apply Hx.
  apply list_elem_of_fmap in Hin as (y & -> & Hy). apply list_elem_of_fmap_2. by apply filter_In_elem in Hy as [? _].
Qed.
(** A cascade that has to delete an administrator fails. *)
Lemma cascade_fails workspaceId pending : forall t m, keys_unique membership_key t -> NoDup (map membership_key pending) ->
  (forall x, x ∈ t /\ mb_workspace x = workspaceId <-> x ∈ pending) -> m ∈ pending -> active_admin m = true ->
  cascade_memberships pending t = Err "workspace requires an active administrator".
Proof.
  induction pending as [|p rest IH]; intros t m Hu Hnd Hall Hm Ha; [by apply elem_of_nil in Hm|].
  cbn [cascade_memberships]. destruct (admin_guard p t) eqn:Eg; [done|]. cbn in Hnd. apply NoDup_cons in Hnd as [Hnp Hnd].
  destruct (proj2 (Hall p) (list_elem_of_here _ _)) as [Hpt Hpw].
  assert (Hnext : forall y, y ∈ rest -> active_admin y = true ->
    cascade_memberships rest (delete_where (key_is membership_key (membership_key p)) t).1 = Err "workspace requires an active administrator").
  { intros y Hy Hya. apply (IH _ y); [by apply delete_where_unique | done | | done | done].
    intros x. cbn. rewrite filter_In_elem, negb_true_iff. unfold key_is. rewrite bool_decide_eq_false. split.
    - intros [[Hx Hne] Hxw]. assert (Hin : x ∈ p :: rest) by (by apply Hall).
      apply elem_of_cons in Hin as [->|?]; [by destruct Hne | done].
    - intros Hx. destruct (proj2 (Hall x) (list_elem_of_further _ _ _ Hx)) as [Hxt Hxw]. split_and!; [done | | done].
      intros E. apply Hnp. rewrite <- E. by apply list_elem_of_fmap_2. }
  apply elem_of_cons in Hm as [->|Hm]; [|by apply (Hnext m)].
  unfold admin_guard in Eg. rewrite Ha in Eg. cbn in Eg. apply negb_false_iff, existsb_exists_elem in Eg as (o & Ho & Eo).
  bool_hyps. assert (Hin : o ∈ p :: rest) by (apply Hall; split; [done | congruence]).
  apply elem_of_cons in Hin as [->|Hin]; [done | by apply (Hnext o)].
Qed.

(** Finalizing a workspace that has an active administrator fails. *)
Lemma finalize_blocked policy now st deleted w m
  (Hpol : workspace_deleted_at policy = Some deleted) (Hgrace : deleted <= grace_cutoff policy now)
  (Hw : w ∈ ct_workspaces (control st)) (Hid : wk_id w = workspace_id policy) (Hdel : wk_deleted w = Some deleted)
  (Hrows : workspace_has_rows (workspace_id policy) (control st) = false)
  (Hempty : workspaceTelemetryIsEmpty (workspace_pk policy) (telemetry st) = true)
  (Hu : keys_unique membership_key (ct_memberships (control st)))
  (Hm : m ∈ ct_memberships (control st)) (Hmw : mb_workspace m = workspace_id policy) (Ha : active_admin m = true) :
  exists st', finalizeDeletedWorkspace policy now st = (Err "workspace requires an active administrator", st') /\
    ct_memberships (control st') = ct_memberships (control st) /\
    (exists w', w' ∈ ct_workspaces (control st') /\ wk_id w' = wk_id w /\ wk_deleted w' = Some deleted /\ wk_purge w' <> None).
Proof.
  unfold finalizeDeletedWorkspace. rewrite Hpol, (proj2 (Z.ltb_ge _ _)) by done. unfold claimWorkspaceFinalization.
  rewrite Hpol, (proj2 (Z.ltb_ge _ _)) by done.
  assert (Hcl : workspace_claimable policy deleted (grace_cutoff policy now) w = true).
  { unfold workspace_claimable. rewrite Hid, String.eqb_refl, bool_decide_eq_true_2, (proj2 (Z.leb_le _ _)) by done. done. }
  unfold update_where. set (rows := map _ (ct_workspaces (control st))).
  assert (Hpos : (0 <? count_if (workspace_claimable policy deleted (grace_cutoff policy now)) (ct_workspaces (control st))) = true).
  { apply Z.ltb_lt. assert (count_if (workspace_claimable policy deleted (grace_cutoff policy now)) (ct_workspaces (control st)) <> 0);
      [|pose proof (count_if_nonneg (workspace_claimable policy deleted (grace_cutoff policy now)) (ct_workspaces (control st))); lia].
    intros E. rewrite (count_if_zero wk_id) in E. by rewrite E in Hcl. }
  rewrite Hpos. cbn [negb].
  change (workspace_has_rows (workspace_id policy) (set_workspaces rows (control st))) with (workspace_has_rows (workspace_id policy) (control st)).
  rewrite Hrows, Hempty. cbn [orb negb].
  assert (Hrow : claimed_workspace now w ∈ rows).
  { apply list_elem_of_fmap. exists w. split; [by rewrite Hcl | done]. }
  assert (Hdw : delete_workspace (workspace_id policy) deleted (set_workspaces rows (control st)) = Err "workspace requires an active administrator").
  { unfold delete_workspace. cbn [set_workspaces ct_workspaces ct_memberships].
    assert (Hn : (count_if (fun w => String.eqb (wk_id w) (workspace_id policy) && bool_decide (wk_deleted w = Some deleted) && bool_decide (wk_purge w <> None)) rows =? 0) = false).
    { apply Z.eqb_neq. intros E. rewrite (count_if_zero wk_id) in E. specialize (E _ Hrow). cbn in E. rewrite Hid, String.eqb_refl, Hdel in E.
      by rewrite !bool_decide_eq_true_2 in E. }
    rewrite Hn. rewrite (cascade_fails (workspace_id policy) _ _ m); [done | done | | | | done].
    - by apply keys_unique_filter.
    - intros x. rewrite filter_In_elem, String.eqb_eq. done.
    - apply filter_In_elem. split; [done|]. by apply String.eqb_eq. }
  destruct (deleteWorkspaceTelemetryState _ _) as [n t]. rewrite Hdw. eexists. split; [reflexivity|]. split; [done|].
  exists (claimed_workspace now w). split_and!; done.
Qed.

(** A deleted workspace is never removed while it has an active administrator.  When its
    resources and its telemetry are gone and the run reaches the row itself, the cascade to
    [memberships] sets off the trigger that protects the last administrator, the statement
    fails, and with it the run; the workspace and its memberships stay as they were. *)
Theorem deleted_workspace_blocked policy now st deleted w m
  (Hpol : workspace_deleted_at policy = Some deleted) (Hgrace : deleted <= grace_cutoff policy now)
  (Hw : w ∈ ct_workspaces (control st)) (Hid : wk_id w = workspace_id policy) (Hdel : wk_deleted w = Some deleted)
  (Hrows : workspace_has_rows (workspace_id policy) (control st) = false)
  (Hempty : workspaceTelemetryIsEmpty (workspace_pk policy) (telemetry st) = true)
  (Hu : keys_unique membership_key (ct_memberships (control st)))
  (Hm : m ∈ ct_memberships (control st)) (Hmw : mb_workspace m = workspace_id policy) (Ha : active_admin m = true) :
  exists st', finalizeDeletedWorkspace policy now st = (Err "workspace requires an active administrator", st') /\
    ct_memberships (control st') = ct_memberships (control st) /\
    (exists w', w' ∈ ct_workspaces (control st') /\ wk_id w' = wk_id w /\ wk_deleted w' = Some deleted /\ wk_purge w' <> None).
Proof. by apply (finalize_blocked policy now st deleted w m). Qed.

(** ** A machine disappears only when nothing of it is left *)

(** The page cursor of a machine's purge: what lies behind it has no replay state any more. *)
Definition agents_swept (st : stores) : Prop := forall m a, m ∈ ct_machines (control st) -> a ∈ ct_agents (control st) ->
  ag_machine a = mg_id m -> String.leb (ag_id a) (mg_cursor m) = true -> forall r, r ∈ tt_replay (telemetry st) -> r.1 <> ag_id a.

(** No row of [machines], [agents], [containers], [check_configs], [agent_commands],
    [resource_grants], [resource_public_policies], [dashboard_resources] or [incident_resources]
    names the machine, one of its agents or one of its containers. *)
Record unreferenced (d : control_tables) (workspaceId machineId : string) (agents boxes : list string) : Prop := {
  un_machine : forall m, m ∈ ct_machines d -> mg_id m <> machineId;
  un_agents : forall a, a ∈ ct_agents d -> ag_machine a <> machineId;
  un_containers : forall c, c ∈ ct_owned d containers -> ow_machine c <> machineId;
  un_checks : forall c, c ∈ ct_checks d -> run_by agents c = false;
  un_commands : forall c, c ∈ ct_commands d -> co_agent c ∉ agents;
  un_grants : forall g, g ∈ ct_grants d -> gr_workspace g = workspaceId ->
    ~ (resourceType (gr_grant g) = RMachine /\ resourceId (gr_grant g) = machineId) /\
    ~ (resourceType (gr_grant g) = RContainer /\ resourceId (gr_grant g) ∈ boxes);
  un_public : forall l, l ∈ ct_public d -> lk_owner l = workspaceId ->
    ~ (lk_type l = RMachine /\ lk_resource l = machineId) /\ ~ (lk_type l = RContainer /\ lk_resource l ∈ boxes);
  un_dashboards : forall l, l ∈ ct_dashboard_resources d -> ~ (lk_type l = RMachine /\ lk_resource l = machineId);
  un_incidents : forall l, l ∈ ct_incident_resources d -> ~ (ir_type l = RMachine /\ ir_resource l = machineId);
}.

Lemma run_by_detached agents (checks : list purge_check_row) c :
  c ∈ (update_where (run_by agents) detach_executor checks).1 -> run_by agents c = false.
Proof.
  unfold update_where. cbn [fst]. intros Hc. apply list_elem_of_fmap in Hc as (x & -> & _). by destruct (run_by agents x) eqn:E.
Qed.
Lemma of_machine_false d id type resource : of_machine d id type resource = false ->
  ~ (type = RMachine /\ resource = id) /\ ~ (type = RContainer /\ resource ∈ containers_of d id).
Proof.
  unfold of_machine. intros [H1 H2]%orb_false_iff. split; intros [-> Hr].
  - subst. by rewrite String.eqb_refl in H1.
  - apply str_in_elem in Hr. by rewrite Hr in H2.
Qed.
Lemma not_deleted {R} (p : R -> bool) t x : x ∈ (delete_where p t).1 -> x ∈ t /\ p x = false.
Proof. cbn. by rewrite filter_In_elem, negb_true_iff. Qed.

(** The transaction that removes a machine cannot fail: the checks its agents ran are detached
    first. *)
Lemma finalizeMachineControl_ok policy id cutoff d :
  exists n d', finalizeMachineControl policy id cutoff d = Ok (n, d') /\
    (count_if (resource_final policy id cutoff) (ct_machines d) <> 0 -> (forall m, m ∈ ct_machines d -> mg_id m = id -> resource_final policy id cutoff m = true) ->
       unreferenced d' (workspace_id policy) id (agents_of d id) (containers_of d id)) /\
    (count_if (resource_final policy id cutoff) (ct_machines d) = 0 -> ct_machines d' = ct_machines d) /\
    ct_rules d' = ct_rules d /\
    (forall m, m ∈ ct_machines d' -> m ∈ ct_machines d) /\ (forall a, a ∈ ct_agents d' -> a ∈ ct_agents d).
Proof.
  unfold finalizeMachineControl. pose proof (run_by_detached (agents_of d id) (ct_checks d)) as Hck.
  destruct (update_where _ _ _) as [checks n1]. cbn [fst] in Hck. set (d1 := set_checks checks d).
  destruct (delete_where _ (ct_grants d1)) as [grants n2] eqn:E2. set (d2 := set_grants grants d1).
  destruct (delete_where _ (ct_public d2)) as [public n3] eqn:E3. set (d3 := set_public public d2).
  destruct (delete_where _ (ct_dashboard_resources d3)) as [shown n4] eqn:E4. set (d4 := set_dashboard_resources shown d3).
  destruct (delete_where _ (ct_incident_resources d4)) as [affected n5] eqn:E5. set (d5 := set_incident_resources affected d4).
  unfold delete_machine. change (ct_machines d5) with (ct_machines d). change (agents_of d5 id) with (agents_of d id).
  destruct (delete_where (resource_final policy id cutoff) (ct_machines d)) as [machines n6] eqn:E6.
  assert (Hn6 : n6 = count_if (resource_final policy id cutoff) (ct_machines d)) by (by injection E6).
  change (ct_checks d5) with checks.
  assert (Hfk : existsb (run_by (agents_of d id)) checks = false) by (apply existsb_false_elem; exact Hck).
  destruct (n6 =? 0) eqn:En; bool_hyps.
  - exists (n1 + n2 + n3 + n4 + n5 + 0), d5. split_and!; try done. intros Hne. lia.
  - rewrite Hfk. cbn [rbind]. eexists _, _. split; [reflexivity|]. split_and!; [|intros; lia|done| |].
    + intros _ Hall. apply (f_equal fst) in E2, E3, E4, E5, E6. cbn [fst] in *. split;
        cbn [set_machines set_agents set_commands set_owned ct_machines ct_agents ct_owned ct_checks ct_commands ct_grants ct_public ct_dashboard_resources ct_incident_resources d5 d4 d3 d2 d1 set_incident_resources set_dashboard_resources set_public set_grants set_checks].
      * intros m Hm. rewrite <- E6 in Hm. apply not_deleted in Hm as [Hm Hf]. intros Hid. by rewrite (Hall m Hm Hid) in Hf.
      * intros a [_ Ha]%filter_In_elem. bool_hyps. done.
      * rewrite bool_decide_eq_true_2 by done. intros c [_ Hc]%filter_In_elem. bool_hyps. done.
      * exact Hck.
      * intros c [_ Hc]%filter_In_elem. apply negb_true_iff in Hc. intros Hin. apply str_in_elem in Hin. congruence.
      * intros g Hg Hw. rewrite <- E2 in Hg. apply not_deleted in Hg as [_ Hf]. rewrite Hw, String.eqb_refl in Hf. by apply of_machine_false in Hf.
      * intros l Hl Hw. rewrite <- E3 in Hl. apply not_deleted in Hl as [_ Hf]. rewrite Hw, String.eqb_refl in Hf. by apply of_machine_false in Hf.
      * intros l Hl [Ht Hr]. rewrite <- E4 in Hl. apply not_deleted in Hl as [_ Hf]. by rewrite Ht, Hr, String.eqb_refl in Hf.
      * intros l Hl [Ht Hr]. rewrite <- E5 in Hl. apply not_deleted in Hl as [_ Hf]. by rewrite Ht, Hr, String.eqb_refl in Hf.
    + intros m Hm. cbn in Hm. apply (f_equal fst) in E6. cbn [fst] in E6. rewrite <- E6 in Hm. by apply not_deleted in Hm as [? _].
    + intros a Ha. cbn in Ha. by apply filter_In_elem in Ha as [? _].
Qed.

Lemma agent_leb_total x y : agent_leb x y = true \/ agent_leb y x = true.
Proof. apply String.leb_total. Qed.
Lemma agent_leb_trans x y z : agent_leb x y = true -> agent_leb y z = true -> agent_leb x z = true.
Proof. apply str_leb_trans. Qed.

(** A page of agents: everything behind the cursor that is not beyond the page's last agent. *)
Lemma agent_page_covers d id cursor : keys_unique ag_id (ct_agents d) ->
  let '(agents, hasMore) := loadAgentPage d id cursor in
  forall a, a ∈ ct_agents d -> ag_machine a = id -> String.leb (ag_id a) cursor = false ->
    (hasMore = false \/ exists y, last agents = Some y /\ String.leb (ag_id a) (ag_id y) = true) -> a ∈ agents.
Proof.
  intros Hu. unfold loadAgentPage. set (sel := List.filter _ (ct_agents d)). set (page := order_limit agent_leb _ sel).
  intros a Ha Hm Hc Hcase.
  assert (Hsel : a ∈ sel).
  { apply filter_In_elem. split; [done|]. by rewrite Hm, String.eqb_refl, str_ltb_leb, Hc. }
  destruct Hcase as [Hall | (y & Hy & Hle)].
  - bool_hyps. assert (Hlen : Z.of_nat (length page) = Z.min (RELATED_RESOURCE_BATCH + 1) (Z.of_nat (length sel))) by (by apply order_limit_count).
    rewrite take_ge; [|unfold RELATED_RESOURCE_BATCH in *; lia]. apply order_limit_all; [|done]. unfold RELATED_RESOURCE_BATCH in *. lia.
  - destruct (decide (a ∈ take (Z.to_nat RELATED_RESOURCE_BATCH) page)) as [|Hno]; [done|]. exfalso.
    pose proof (order_limit_prefix agent_leb agent_leb_total agent_leb_trans (RELATED_RESOURCE_BATCH + 1) sel
      (take (Z.to_nat RELATED_RESOURCE_BATCH) page) (drop (Z.to_nat RELATED_RESOURCE_BATCH) page) y a
      (eq_sym (take_drop _ _)) Hy Hsel Hno) as Hge. unfold agent_leb in Hge.
    pose proof (String.leb_antisym _ _ Hle Hge) as Eid. apply Hno. assert (a = y) as ->; [|by apply last_Some_elem_of].
    assert (Hyin : y ∈ ct_agents d).
    { assert (Hyp : y ∈ take (Z.to_nat RELATED_RESOURCE_BATCH) page) by (by apply last_Some_elem_of).
      assert (Hyp' : y ∈ page).
      { rewrite <- (take_drop (Z.to_nat RELATED_RESOURCE_BATCH) page). apply elem_of_app. by left. }
      apply elem_of_order_limit in Hyp'. by apply filter_In_elem in Hyp' as [? _]. }
    pose proof (find_key_unique ag_id (ag_id y) _ a Hu Ha Eid) as F1. pose proof (find_key_unique ag_id (ag_id y) _ y Hu Hyin eq_refl) as F2. congruence.
Qed.

Lemma scope_mono pk wpk small large (db : telemetry_tables) : scope_empty (machine_scope wpk pk small) db ->
  (forall r, r ∈ tt_replay db -> r.1 ∈ large -> r.1 ∈ small) -> scope_empty (machine_scope wpk pk large) db.
Proof.
  intros (H1 & H2 & H3 & H4) Hr. split_and!; [exact H1 | exact H2 | exact H3|]. intros r Hin. cbn. unfold replay_of.
  apply not_true_is_false. intros E. apply str_in_elem in E. specialize (H4 r Hin). cbn in H4. unfold replay_of in H4.
  specialize (Hr r Hin E). apply str_in_elem in Hr. congruence.
Qed.

(** What the claim does to the machines: the seen one is marked, none is lost. *)
Lemma claim_spec {C} policy workspaces (seen : managed_row C) cutoff now t : keys_unique mg_id t -> seen ∈ t ->
  let out := claimResourceFinalization policy workspaces seen cutoff now t in
  keys_unique mg_id out.2 /\ map mg_id out.2 = map mg_id t /\
  (forall m, m ∈ out.2 -> exists m0, m0 ∈ t /\ mg_id m = mg_id m0 /\ mg_cursor m = mg_cursor m0) /\
  (out.1 = true -> claimed_resource now seen ∈ out.2 /\ mg_workspace seen = workspace_id policy).
Proof.
  intros Hu Hs out. unfold out, claimResourceFinalization.
  assert (Hk : map mg_id (update_where (resource_claimable policy workspaces seen cutoff) (claimed_resource now) t).1 = map mg_id t)
    by (apply map_key_update; by intros).
  destruct (update_where _ _ _) as [rows n] eqn:E. cbn [fst snd] in *. injection E as Er En. subst rows.
  split_and!; [by unfold keys_unique; rewrite Hk | done | |].
  - intros m Hm. apply list_elem_of_fmap in Hm as (x & -> & Hx). exists x. split; [done|]. by destruct (resource_claimable _ _ _ _ x).
  - intros Hn. apply Z.ltb_lt in Hn.
    assert (Hex : exists x, x ∈ t /\ resource_claimable policy workspaces seen cutoff x = true).
    { destruct (existsb (resource_claimable policy workspaces seen cutoff) t) eqn:Ex; [by apply existsb_exists_elem in Ex|].
      rewrite existsb_false_elem in Ex. rewrite <- (count_if_zero mg_id) in Ex. lia. }
    destruct Hex as (x & Hx & Hc). pose proof Hc as Hd. unfold resource_claimable, resource_named in Hd.
    apply andb_true_iff in Hd as [Hd _]. apply andb_true_iff in Hd as [Hd1 Hd2]. apply String.eqb_eq in Hd1, Hd2.
    assert (x = seen) as ->.
    { pose proof (find_key_unique mg_id (mg_id seen) t x Hu Hx ltac:(done)) as F1.
      pose proof (find_key_unique mg_id (mg_id seen) t seen Hu Hs eq_refl) as F2. congruence. }
    split; [|done]. apply list_elem_of_fmap. exists seen. split; [|done]. by rewrite Hc.
Qed.

Lemma swept_sub st st' : agents_swept st ->
  (forall m, m ∈ ct_machines (control st') -> exists m0, m0 ∈ ct_machines (control st) /\ mg_id m = mg_id m0 /\ mg_cursor m = mg_cursor m0) ->
  (forall a, a ∈ ct_agents (control st') -> a ∈ ct_agents (control st)) ->
  (forall r, r ∈ tt_replay (telemetry st') -> r ∈ tt_replay (telemetry st)) -> agents_swept st'.
Proof.
  intros Hs Hm Ha Hr m a Hin Hain Hma Hle r Hrin. destruct (Hm m Hin) as (m0 & Hm0 & Eid & Ecur).
  apply (Hs m0 a Hm0 (Ha a Hain)); [congruence | by rewrite <- Ecur | by apply Hr].
Qed.
(** A page's purge takes only what a purge of the whole machine would. *)
Lemma page_scope_weaken wpk pk small large db db' : (forall x, x ∈ small -> x ∈ large) ->
  purge_step (machine_scope wpk pk small) db db' -> purge_step (machine_scope wpk pk large) db db'.
Proof.
  intros Hsub. apply purge_weaken; try done. intros r. cbn. unfold replay_of. rewrite !str_in_elem. apply Hsub.
Qed.
Lemma agent_page_sub d id cursor a : a ∈ (loadAgentPage d id cursor).1 -> a ∈ ct_agents d /\ ag_machine a = id.
Proof.
  unfold loadAgentPage. cbn [fst]. intros Ha.
  assert (Hp : a ∈ order_limit agent_leb (RELATED_RESOURCE_BATCH + 1) (List.filter (fun a => String.eqb (ag_machine a) id && String.ltb cursor (ag_id a)) (ct_agents d))).
  { rewrite <- (take_drop (Z.to_nat RELATED_RESOURCE_BATCH)). apply elem_of_app. by left. }
  apply elem_of_order_limit, filter_In_elem in Hp as [Hp E]. bool_hyps. done.
Qed.

(** C12: A machine disappears only when nothing of it is left.  Processing a deleted machine
    removes telemetry of that machine in its workspace and replay state of its own agents, nothing
    else, and keeps the page cursor true to what was purged.  Either the machine is still there
    afterwards, to be continued by a later run, or no table of the telemetry database holds a row
    of it or of any of its agents, however many pages they fill, and no agent, container, agent
    command, grant, public policy, dashboard entry, incident or executor of a check in the
    control database refers to it.  Its notification rules are not among them: in every case the
    rules are left exactly as they were. *)
Theorem machine_purge policy cutoff now m st (Hc : control_ok (control st)) (Ht : telemetry_ok (telemetry st)) (Hsw : agents_swept st)
  (Hm : m ∈ deletedResources policy cutoff (ct_machines (control st))) :
  let out := finalize_machine policy cutoff now m st in
  let agents := agents_of (control st) (mg_id m) in
  let scope := machine_scope (workspace_pk policy) (mg_pk m) agents in
  purge_step scope (telemetry st) (telemetry out.2) /\ agents_swept out.2 /\ ct_rules (control out.2) = ct_rules (control st) /\
  ((exists r, r ∈ ct_machines (control out.2) /\ mg_id r = mg_id m) \/
   (scope_empty scope (telemetry out.2) /\
    unreferenced (control out.2) (workspace_id policy) (mg_id m) agents (containers_of (control st) (mg_id m)))).
Proof.
  intros out agents scope. apply elem_of_order_limit, filter_In_elem in Hm as [Hm Hdel]. apply andb_true_iff in Hdel as [Hws Hdel].
  unfold out, finalize_machine. clear out.
  destruct (claim_spec policy (ct_workspaces (control st)) m cutoff now _ (cto_machines _ Hc) Hm) as (Hu1 & Hids & Hcur & Hcl).
  destruct (claimResourceFinalization _ _ _ _ _ _) as [claimed machines]. cbn [fst snd] in *.
  set (d1 := set_machines machines (control st)).
  assert (Hsw1 : forall t, (forall r, r ∈ tt_replay t -> r ∈ tt_replay (telemetry st)) -> agents_swept (Stores d1 t)).
  { intros t Hr. by apply (swept_sub st). }
  assert (Hstill : exists r, r ∈ ct_machines d1 /\ mg_id r = mg_id m).
  { assert (Hin : mg_id m ∈ map mg_id machines) by (rewrite Hids; by apply list_elem_of_fmap_2).
    apply list_elem_of_fmap in Hin as (r & E & Hr). by exists r. }
  destruct claimed; cbn [negb]; [|cbn [snd control telemetry]; split_and!; [by apply purge_refl | by apply Hsw1 | done | by left]].
  destruct (Hcl eq_refl) as [Hrow Hwid]. clear Hcl.
  destruct (assertAgentCursor d1 (mg_id m) (mg_cursor m)) as [u|e];
    [|cbn [snd control telemetry]; split_and!; [by apply purge_refl | by apply Hsw1 | done | by left]].
  pose proof (agent_page_covers d1 (mg_id m) (mg_cursor m) (cto_agents _ Hc)) as Hpage.
  pose proof (agent_page_sub d1 (mg_id m) (mg_cursor m)) as Hsub. destruct (loadAgentPage d1 (mg_id m) (mg_cursor m)) as [page hasMore].
  cbn [fst] in Hsub.
  assert (Hincl : forall x, x ∈ map ag_id page -> x ∈ agents).
  { intros x (a & -> & Ha)%list_elem_of_fmap. apply Hsub in Ha as [Ha Hid]. apply list_elem_of_fmap_2, filter_In_elem.
    split; [done|]. by apply String.eqb_eq. }
  pose proof (purge_machine_step (workspace_pk policy) SOFT_ROW_BATCH ltac:(done) (mg_pk m) (map ag_id page) (telemetry st) Ht) as Hstep.
  pose proof (purge_machine_complete (workspace_pk policy) SOFT_ROW_BATCH (mg_pk m) (map ag_id page) (telemetry st)) as Hdone.
  destruct (purgeMachineTelemetry _ _ _ _ _) as [purge t1]. cbn [fst snd] in *.
  pose proof (page_scope_weaken _ _ _ agents _ _ Hincl Hstep) as Hstep'.
  destruct (pu_complete purge); cbn [negb]; [specialize (Hdone eq_refl) | cbn [snd control telemetry]; split_and!; [done | apply Hsw1, Hstep | done | by left]].
  assert (Hpaged : forall a, a ∈ page -> forall r, r ∈ tt_replay t1 -> r.1 <> ag_id a).
  { intros a Ha r Hr E. destruct Hdone as (_ & _ & _ & H4). specialize (H4 r Hr). cbn in H4. unfold replay_of in H4.
    apply not_true_iff_false in H4. apply H4, str_in_elem. rewrite E. by apply list_elem_of_fmap_2. }
  destruct hasMore.
  - destruct (last page) as [y|] eqn:El; [|cbn [snd control telemetry]; split_and!; [done | apply Hsw1, Hstep | done | by left]].
    unfold advanceRelatedCursor.
    assert (Hk : map mg_id (update_where (fun r => resource_named policy (mg_id m) r && bool_decide (mg_purge r <> None) && bool_decide (mg_cursor r = mg_cursor m))
      (moved_resource (ag_id y)) (ct_machines d1)).1 = map mg_id (ct_machines d1)) by (apply map_key_update; by intros).
    destruct (update_where _ _ _) as [rows n] eqn:E. injection E as Erows _. cbn [snd control telemetry fst] in *. split_and!; [done | |done|].
    + intros x a Hx Ha Hma Hle r Hr. cbn [control telemetry set_machines ct_machines ct_agents] in *. rewrite <- Erows in Hx.
      apply list_elem_of_fmap in Hx as (x0 & -> & Hx0). destruct (resource_named policy (mg_id m) x0 && _ && _) eqn:Ep.
      * cbn [moved_resource mg_id mg_cursor] in *. unfold resource_named in Ep. bool_hyps.
        destruct (String.leb (ag_id a) (mg_cursor m)) eqn:Ec.
        -- destruct (Hcur x0 Hx0) as (m0 & Hm0 & Eid & Ecur0). apply (Hsw m a Hm Ha); [congruence | done | by apply (ps_replay _ _ _ Hstep)].
        -- apply (Hpaged a); [|done]. apply Hpage; [done | congruence | done | right; by exists y].
      * apply (Hsw1 t1 (ps_replay _ _ _ Hstep) x0 a Hx0 Ha Hma Hle r Hr).
    + left. assert (Hin : mg_id m ∈ map mg_id rows) by (rewrite Hk; destruct Hstill as (r & Hr & <-); by apply list_elem_of_fmap_2).
      apply list_elem_of_fmap in Hin as (r & Er & Hr). by exists r.
  - destruct (finalizeMachineControl_ok policy (mg_id m) cutoff d1) as (n & d' & Ef & Hun & Hsame & Hrules & Hms & Has). rewrite Ef. cbn [snd control telemetry].
    split_and!; [done | apply (swept_sub (Stores d1 t1)); [apply Hsw1, Hstep | intros x Hx; exists x; auto | done | done] | by rewrite Hrules |].
    right.
    assert (Hfinal : resource_final policy (mg_id m) cutoff (claimed_resource now m) = true).
    { unfold resource_final, resource_named, claimed_resource. cbn. by rewrite Hwid, !String.eqb_refl, Hdel. }
    split.
    + apply (scope_mono _ _ (map ag_id page)); [done|]. intros r Hr Hag. apply list_elem_of_fmap in Hag as (a & E & Ha).
      apply filter_In_elem in Ha as [Ha Hma]. apply String.eqb_eq in Hma. destruct (String.leb (ag_id a) (mg_cursor m)) eqn:Ec.
      * exfalso. apply (Hsw m a Hm Ha Hma Ec r); [by apply (ps_replay _ _ _ Hstep) | done].
      * rewrite E. apply list_elem_of_fmap_2. apply Hpage; [done | done | done | by left].
    + apply Hun.
      * intros E. rewrite (count_if_zero mg_id) in E. by rewrite (E _ Hrow) in Hfinal.
      * intros x Hx Hid. assert (x = claimed_resource now m) as ->; [|done].
        pose proof (find_key_unique mg_id (mg_id m) machines x Hu1 Hx Hid) as F1.
        pose proof (find_key_unique mg_id (mg_id m) machines _ Hu1 Hrow eq_refl) as F2. congruence.
Qed.

(** ** A recorded purge *)

(** A deleted workspace "w" with its administrator and nothing else, and a workspace "v" that is
    in use but for a machine, deleted five weeks ago. *)
Definition sd_control : control_tables :=
  ControlTables
    [WorkspaceState "w" 1 "old" "Old" "dash" 10 (Some DAY_MS) None 0; WorkspaceState "v" 2 "home" "Home" "dash2" 10 None None 0]
    [PolicyRow "w" 7 30 365 365 90 7 7; PolicyRow "v" 7 30 365 365 90 7 7]
    [Membership "w" "u" admin active; Membership "v" "u" admin active]
    [Managed "m" 5 "v" "Machine" (Some DAY_MS) None "" 1 0 "machine"] [] [AgentRow "a" "m" true] []
    (fun _ => []) [] [Link "v" RMachine "m"] [] [] [] [] [] [] [Link "v" RMachine "m"].
Definition sd_telemetry : telemetry_tables :=
  TelemetryTables (fun k => if bool_decide (k = telemetry_blocks_5m) then [Timed 2 5 DAY_MS 0 0; Timed 2 6 DAY_MS 0 0] else [])
    (fun _ => []) [] [] [("a", 1); ("b", 2)] [] [] [] [].
Definition sd_stores : stores := Stores sd_control sd_telemetry.
Definition sd_policy : RetentionPolicyRow := RetentionPolicy "w" 1 (Some DAY_MS) None 7 30 365 365 90 7 7.
Definition sd_policy2 : RetentionPolicyRow := RetentionPolicy "v" 2 None None 7 30 365 365 90 7 7.
Definition sd_machine : managed_row string := Managed "m" 5 "v" "Machine" (Some DAY_MS) None "" 1 0 "machine".

Lemma sd_control_ok : control_ok sd_control.
Proof. split; unique_keys. Qed.
Lemma sd_telemetry_ok : telemetry_ok sd_telemetry.
Proof. split; try unique_keys. intros q Hq. by apply elem_of_nil in Hq. Qed.
Lemma sd_swept : agents_swept sd_stores.
Proof.
  intros m a Hm Ha _ Hle r _ _. cbn in Hm, Ha. apply list_elem_of_singleton in Hm as ->, Ha as ->. by vm_compute in Hle.
Qed.

Example machine_purge_witness :
  let out := finalize_machine sd_policy2 (35 * DAY_MS) (42 * DAY_MS) sd_machine sd_stores in
  out.1 = Ok 4 /\ ct_machines (control out.2) = [] /\ tt_timed (telemetry out.2) telemetry_blocks_5m = [Timed 2 6 DAY_MS 0 0] /\
  ct_public (control out.2) = [] /\ ct_rules (control out.2) = [Link "v" RMachine "m"] /\ agents_swept out.2.
Proof.
  split_and!; [vm_compute; reflexivity | vm_compute; reflexivity | vm_compute; reflexivity | vm_compute; reflexivity | vm_compute; reflexivity |].
  apply (machine_purge sd_policy2 (35 * DAY_MS) (42 * DAY_MS) sd_machine sd_stores sd_control_ok sd_telemetry_ok sd_swept).
  apply (bool_decide_unpack _). vm_compute. exact I.
Defined.
Example deleted_workspace_blocked_witness :
  (finalizeDeletedWorkspace sd_policy (42 * DAY_MS) sd_stores).1 = Err "workspace requires an active administrator" /\
  exists st', finalizeDeletedWorkspace sd_policy (42 * DAY_MS) sd_stores = (Err "workspace requires an active administrator", st') /\
    ct_memberships (control st') = ct_memberships sd_control.
Proof.
  split; [vm_compute; reflexivity|].
  destruct (deleted_workspace_blocked sd_policy (42 * DAY_MS) sd_stores DAY_MS
    (WorkspaceState "w" 1 "old" "Old" "dash" 10 (Some DAY_MS) None 0) (Membership "w" "u" admin active)) as (st' & E & Hm & _);
    [reflexivity | vm_compute; discriminate | by left | reflexivity | reflexivity | vm_compute; reflexivity | vm_compute; reflexivity
    | unique_keys | by left | reflexivity | reflexivity |].
  exists st'. split; [exact E | exact Hm].
Defined.
