(* ===== verification/PurgeProtocol.v ===== *)
(** * PurgeProtocol: restoring and purging exclude each other

    The web application deletes and restores ([ResourceLifecycle]); the retention worker claims
    and removes ([SoftDelete]).  Both work on rows they have read earlier, and only the conditions
    inside their statements keep them apart.  [lifecycle_step] has one constructor per statement,
    with whatever the caller read before as an arbitrary argument; the actions and the worker's
    functions are sequences of such steps ([..._steps]). *)

From Stdlib Require Import ZArith Lia Bool String List.
From stdpp Require Import base tactics sets list strings relations.
From S2P Require Import Prelude.
From S2P Require Import Js.
From S2P Require Import Sql.
From S2P Require Import Crypto.
From S2P Require Import Authz.
From S2P Require Import CheckPersistence.
From S2P Require Import ControlPlane.
From S2P Require Import AuditLog.
From S2P Require Import ResourceLifecycle.
From S2P Require Import RetentionTables.
From S2P Require Import TelemetryRetention.
From S2P Require Import SoftDeleteTelemetry.
From S2P Require Import SoftDelete.
Open Scope string_scope.
Open Scope Z_scope.

(** ** Steps *)

(** Nothing happens to the life cycle of any machine, service or workspace; rows may be added and
    other columns change. *)
Definition managed_kept {C} (t t' : list (managed_row C)) : Prop := forall r, r ∈ t -> exists r', r' ∈ t' /\ mg_id r' = mg_id r /\
  mg_workspace r' = mg_workspace r /\ mg_deleted r' = mg_deleted r /\ mg_purge r' = mg_purge r.
Definition workspaces_kept (t t' : list workspace_state) : Prop := forall w, w ∈ t -> exists w', w' ∈ t' /\ wk_id w' = wk_id w /\
  wk_deleted w' = wk_deleted w /\ wk_purge w' = wk_purge w.
(** Identifiers are unique. *)
Record ids_ok (d : control_tables) : Prop := {
  io_machines : keys_unique mg_id (ct_machines d);
  io_services : keys_unique mg_id (ct_services d);
  io_workspaces : keys_unique wk_id (ct_workspaces d);
}.
Record life_kept (d d' : control_tables) : Prop := {
  lk_ids : ids_ok d -> ids_ok d';
  lk_machines : managed_kept (ct_machines d) (ct_machines d');
  lk_services : managed_kept (ct_services d) (ct_services d');
  lk_workspaces : workspaces_kept (ct_workspaces d) (ct_workspaces d');
}.

Definition deletes (guard : string -> string -> managed_view -> bool) : Prop :=
  forall id workspace v, guard id workspace v = true -> mv_deleted v = None.
Definition restores (guard : string -> string -> managed_view -> bool) : Prop :=
  forall id workspace v, guard id workspace v = true -> mv_deleted v <> None /\ mv_purge v = None.

Section Protocol.
(** The shortest grace period any workspace has, in milliseconds. *)
Context (grace : Z).

Inductive lifecycle_step : Z * control_tables -> Z * control_tables -> Prop :=
| step_time now now' d : now <= now' -> lifecycle_step (now, d) (now', d)
| step_other now d d' : life_kept d d' -> lifecycle_step (now, d) (now, d')
(* the web application *)
| step_delete type guard now d d' n : deletes guard -> update_managed type guard (Some now) now d = Ok (d', n) -> lifecycle_step (now, d) (now, d')
| step_restore type guard now d d' n : restores guard -> update_managed type guard None now d = Ok (d', n) -> lifecycle_step (now, d) (now, d')
| step_delete_workspace guard now d : (forall w, guard w = true -> wk_deleted w = None) ->
    lifecycle_step (now, d) (now, set_workspaces (update_where guard (set_workspace_deleted (Some now) now) (ct_workspaces d)).1 d)
| step_restore_workspace guard now d : (forall w, guard w = true -> wk_deleted w <> None /\ wk_purge w = None) ->
    lifecycle_step (now, d) (now, set_workspaces (update_where guard (set_workspace_deleted None now) (ct_workspaces d)).1 d)
(* the retention worker *)
| step_claim_workspace policy cutoff now d : cutoff <= now - grace ->
    lifecycle_step (now, d) (now, (claimWorkspaceFinalization policy cutoff now d).2)
| step_claim_machine policy seen cutoff now d : cutoff <= now - grace ->
    lifecycle_step (now, d) (now, set_machines (claimResourceFinalization policy (ct_workspaces d) seen cutoff now (ct_machines d)).2 d)
| step_claim_service policy seen cutoff now d : cutoff <= now - grace ->
    lifecycle_step (now, d) (now, set_services (claimResourceFinalization policy (ct_workspaces d) seen cutoff now (ct_services d)).2 d)
| step_finalize_machine policy id cutoff now d n d' : finalizeMachineControl policy id cutoff d = Ok (n, d') ->
    lifecycle_step (now, d) (now, d')
| step_finalize_service policy id cutoff now d :
    lifecycle_step (now, d) (now, (finalizeServiceControl policy id cutoff d).2)
| step_finalize_workspace id deleted now d n d' : delete_workspace id deleted d = Ok (n, d') -> lifecycle_step (now, d) (now, d').

(** ** What a resource that is live now keeps *)

(** Not being purged, and deleted no earlier than [since] if at all. *)
Definition recoverable {C} (since : Z) (id workspace : string) (t : list (managed_row C)) : Prop :=
  exists r, r ∈ t /\ mg_id r = id /\ mg_workspace r = workspace /\ mg_purge r = None /\
    match mg_deleted r with None => True | Some t => since <= t end.
Definition workspace_recoverable (since : Z) (id : string) (t : list workspace_state) : Prop :=
  exists w, w ∈ t /\ wk_id w = id /\ wk_purge w = None /\ match wk_deleted w with None => True | Some t => since <= t end.

Lemma recoverable_kept {C} since id workspace (t t' : list (managed_row C)) : managed_kept t t' ->
  recoverable since id workspace t -> recoverable since id workspace t'.
Proof.
  intros Hk (r & Hr & <- & <- & Hp & Hd). destruct (Hk r Hr) as (r' & Hr' & E1 & E2 & E3 & E4).
  exists r'. rewrite E3, E4. done.
Qed.
Lemma workspace_recoverable_kept since id t t' : workspaces_kept t t' -> workspace_recoverable since id t -> workspace_recoverable since id t'.
Proof.
  intros Hk (w & Hw & <- & Hp & Hd). destruct (Hk w Hw) as (w' & Hw' & E1 & E2 & E3). exists w'. rewrite E2, E3. done.
Qed.

(** An update that reaches the row only in ways that keep it recoverable. *)
Lemma recoverable_update {C} since id workspace p f (t : list (managed_row C)) :
  (forall r, r ∈ t -> p r = true -> mg_id r = id -> mg_purge r = None -> match mg_deleted r with None => True | Some t => since <= t end ->
     mg_id (f r) = mg_id r /\ mg_workspace (f r) = mg_workspace r /\ mg_purge (f r) = None /\
     match mg_deleted (f r) with None => True | Some t => since <= t end) ->
  recoverable since id workspace t -> recoverable since id workspace (update_where p f t).1.
Proof.
  intros Hf (r & Hr & Hid & Hw & Hp & Hd). exists (if p r then f r else r). split; [cbn; apply list_elem_of_fmap; by exists r|].
  destruct (p r) eqn:E; [|done]. destruct (Hf r Hr E Hid Hp Hd) as (E1 & E2 & E3 & E4). split_and!; congruence || done.
Qed.
Lemma recoverable_delete {C} since id workspace p (t : list (managed_row C)) : (forall r, p r = true -> mg_purge r <> None) ->
  recoverable since id workspace t -> recoverable since id workspace (delete_where p t).1.
Proof.
  intros Hp (r & Hr & Hid & Hw & Hpu & Hd). exists r. split; [|done]. cbn. apply filter_In_elem. split; [done|].
  apply negb_true_iff, not_true_is_false. intros E. by apply Hp in E.
Qed.

Definition resource_recoverable (since : Z) (type : ManagedResourceType) (id workspace : string) (d : control_tables) : Prop :=
  match type with
  | managed_machine => recoverable since id workspace (ct_machines d)
  | managed_service => recoverable since id workspace (ct_services d)
  end.

(** The invariant of a run that starts at [since] with the resource and its workspace live. *)
Section Invariant.
Context (since : Z) (type : ManagedResourceType) (id wid : string).

Record live_inv (s : Z * control_tables) : Prop := {
  li_clock : since <= s.1;
  li_ids : ids_ok s.2;
  li_resource : s.1 < since + grace -> resource_recoverable since type id wid s.2;
  li_workspace : s.1 < since + grace -> workspace_recoverable since wid (ct_workspaces s.2);
}.

(** While the grace period lasts no statement of the worker reaches the rows. *)
Lemma unclaimable {C} policy workspaces (seen r : managed_row C) cutoff now :
  cutoff <= now - grace -> now < since + grace -> keys_unique wk_id workspaces ->
  workspace_recoverable since (mg_workspace r) workspaces -> match mg_deleted r with None => True | Some t => since <= t end ->
  resource_claimable policy workspaces seen cutoff r = false.
Proof.
  intros Hc Hn Hu (w & Hw & Hwid & Hwp & _) Hd. apply not_true_is_false. intros E. unfold resource_claimable, resource_named in E.
  destruct (mg_deleted seen) as [t|]; bool_hyps.
  - match goal with H : mg_deleted r = Some t |- _ => rewrite H in Hd end. lia.
  - match goal with H : workspace_purging _ _ = true |- _ => apply existsb_exists_elem in H as (x & Hx & Ex) end. bool_hyps.
    assert (x = w) as ->; [|done].
    pose proof (find_key_unique wk_id (wk_id w) workspaces x Hu Hx ltac:(congruence)) as F1.
    pose proof (find_key_unique wk_id (wk_id w) workspaces w Hu Hw eq_refl) as F2. congruence.
Qed.

Lemma claim_keeps {C} policy workspaces (seen : managed_row C) cutoff now t :
  cutoff <= now - grace -> now < since + grace -> keys_unique wk_id workspaces -> workspace_recoverable since wid workspaces ->
  recoverable since id wid t -> recoverable since id wid (claimResourceFinalization policy workspaces seen cutoff now t).2.
Proof.
  intros Hc Hn Hu Hw (r & Hr & Hid & Hrw & Hp & Hd). exists r. split; [|done]. unfold claimResourceFinalization, update_where.
  apply list_elem_of_fmap. exists r. split; [|done]. by rewrite (unclaimable policy workspaces seen r cutoff now); [..|rewrite Hrw|].
Qed.
Lemma claim_workspace_keeps policy cutoff now d : cutoff <= now - grace -> now < since + grace ->
  workspace_recoverable since wid (ct_workspaces d) -> workspace_recoverable since wid (ct_workspaces (claimWorkspaceFinalization policy cutoff now d).2).
Proof.
  intros Hc Hn (w & Hw & Hwid & Hp & Hd). unfold claimWorkspaceFinalization. destruct (workspace_deleted_at policy) as [t|]; [|by exists w].
  destruct (cutoff <? t); [by exists w|]. unfold update_where. cbn [snd set_workspaces ct_workspaces]. exists w. split; [|done].
  apply list_elem_of_fmap. exists w. split; [|done]. destruct (workspace_claimable policy t cutoff w) eqn:E; [|done].
  unfold workspace_claimable in E. bool_hyps. match goal with H : wk_deleted w = Some t |- _ => rewrite H in Hd end. lia.
Qed.

Lemma keys_update {R K} `{!EqDecision K} (key : R -> K) p f t : (forall r, key (f r) = key r) -> keys_unique key t ->
  keys_unique key (update_where p f t).1.
Proof. intros Hf. apply update_where_unique. auto. Qed.

Lemma final_purging {C} policy i cutoff (r : managed_row C) : resource_final policy i cutoff r = true -> mg_purge r <> None.
Proof. unfold resource_final. intros E. bool_hyps. done. Qed.

(** What the removal statements do to the tables of the life cycle. *)
Lemma delete_machine_tables policy i cutoff d n d' : delete_machine policy i cutoff d = Ok (n, d') ->
  (ct_machines d' = ct_machines d \/ ct_machines d' = (delete_where (resource_final policy i cutoff) (ct_machines d)).1) /\
  ct_services d' = ct_services d /\ ct_workspaces d' = ct_workspaces d.
Proof.
  unfold delete_machine. destruct (delete_where _ _) as [ms k]. cbn [fst]. destruct (k =? 0).
  - intros H. apply Ok_inj in H. injection H as _ <-. by split; [left|].
  - destruct (existsb _ _); [done|]. intros H. apply Ok_inj in H. injection H as _ <-. by split; [right|].
Qed.
Lemma finalize_machine_tables policy i cutoff d n d' : finalizeMachineControl policy i cutoff d = Ok (n, d') ->
  (ct_machines d' = ct_machines d \/ ct_machines d' = (delete_where (resource_final policy i cutoff) (ct_machines d)).1) /\
  ct_services d' = ct_services d /\ ct_workspaces d' = ct_workspaces d.
Proof.
  unfold finalizeMachineControl. destruct (update_where _ _ _) as [checks n1]. destruct (delete_where _ (ct_grants _)) as [grants n2].
  destruct (delete_where _ (ct_public _)) as [public n3]. destruct (delete_where _ (ct_dashboard_resources _)) as [shown n4].
  destruct (delete_where _ (ct_incident_resources _)) as [affected n5]. intros H. apply rbind_ok in H as ([m dm] & H & E).
  apply Ok_inj in E. injection E as _ <-. by apply delete_machine_tables in H.
Qed.
Lemma finalize_service_tables policy i cutoff d :
  let d' := (finalizeServiceControl policy i cutoff d).2 in
  (ct_services d' = ct_services d \/ ct_services d' = (delete_where (resource_final policy i cutoff) (ct_services d)).1) /\
  ct_machines d' = ct_machines d /\ ct_workspaces d' = ct_workspaces d.
Proof.
  unfold finalizeServiceControl. destruct (delete_where _ (ct_dashboard_resources _)) as [shown n1].
  destruct (delete_where _ (ct_grants _)) as [grants n2]. destruct (delete_where _ (ct_public _)) as [public n3].
  destruct (delete_where _ (ct_incident_resources _)) as [affected n4]. unfold delete_service.
  cbn [set_grants set_public set_dashboard_resources set_incident_resources ct_services].
  destruct (delete_where _ (ct_services d)) as [services n5]. cbn [fst]. destruct (n5 =? 0); cbn [snd]; by split; [first [by left | by right]|].
Qed.
Lemma delete_workspace_tables i deleted d n d' : delete_workspace i deleted d = Ok (n, d') ->
  d' = d \/ (exists w, w ∈ ct_workspaces d /\ wk_id w = i /\ wk_purge w <> None) /\
    ct_machines d' = (delete_where (fun m => String.eqb (mg_workspace m) i) (ct_machines d)).1 /\
    ct_services d' = (delete_where (fun m => String.eqb (mg_workspace m) i) (ct_services d)).1 /\
    ct_workspaces d' = (delete_where (fun w => String.eqb (wk_id w) i) (ct_workspaces d)).1.
Proof.
  unfold delete_workspace. destruct (count_if _ _ =? 0) eqn:E; [intros H; apply Ok_inj in H; injection H as _ <-; by left|].
  intros H. apply rbind_ok in H as (ms & _ & H). apply Ok_inj in H. injection H as _ <-. right. split; [|done].
  apply Z.eqb_neq in E. match type of E with count_if ?f ?l <> 0 => destruct (List.filter f l) as [|w l'] eqn:Ef end; [unfold count_if in E; by rewrite Ef in E|].
  assert (Hw : w ∈ w :: l') by (by left). rewrite <- Ef in Hw. apply filter_In_elem in Hw as [Hw Hc]. bool_hyps. by exists w.
Qed.

(** What a deletion or a restore does to the tables of the life cycle. *)
Lemma update_managed_tables type0 guard deleted now d d' n : update_managed type0 guard deleted now d = Ok (d', n) ->
  ct_workspaces d' = ct_workspaces d /\
  match type0 with
  | managed_machine => ct_services d' = ct_services d /\ ct_machines d' =
      (update_where (fun r => guard (mg_id r) (mg_workspace r) (view_of r)) (set_deleted deleted now) (ct_machines d)).1
  | managed_service => ct_machines d' = ct_machines d /\ ct_services d' =
      (update_where (fun r => guard (mg_id r) (mg_workspace r) (view_of r)) (set_deleted deleted now) (ct_services d)).1
  end.
Proof.
  unfold update_managed. destruct type0.
  - destruct (update_where _ _ _) as [rows k]. intros H. apply Ok_inj in H. by injection H as <- _.
  - destruct (slug_conflict _ _ _); [done|]. destruct (update_where _ _ _) as [rows k]. intros H. apply Ok_inj in H. by injection H as <- _.
Qed.
(** The part of the invariant that both share. *)
Lemma update_managed_inv type0 guard deleted now d d' n :
  (forall i w v, guard i w v = true -> mv_purge v = None -> match mv_deleted v with None => True | Some t => since <= t end ->
     match deleted with None => True | Some t => since <= t end) ->
  update_managed type0 guard deleted now d = Ok (d', n) -> live_inv (now, d) -> live_inv (now, d').
Proof.
  intros Hg Hu [Hc Hi Hr Hw]. apply update_managed_tables in Hu as [Ew Ht]. cbn [fst snd] in *. split; cbn [fst snd]; [done | | |by rewrite Ew].
  - destruct type0, Ht as [E1 E2]; split; rewrite ?Ew, ?E1, ?E2; try apply Hi; (apply keys_update; [done | apply Hi]).
  - intros Hn. specialize (Hr Hn). destruct type, type0, Ht as [E1 E2]; cbn in *; rewrite ?E1, ?E2; try done;
      (eapply recoverable_update; [|exact Hr]); intros r Hin Hgd Hid Hp Hd; split_and!; try done; by eapply Hg.
Qed.

Lemma step_inv s s' : lifecycle_step s s' -> live_inv s -> live_inv s'.
Proof.
  intros Hs [Hc Hi Hr Hw]. destruct Hs; cbn [fst snd] in *.
  - split; cbn [fst snd]; [lia | done | intros; apply Hr; lia | intros; apply Hw; lia].
  - match goal with H : life_kept d d' |- _ => destruct H as [K1 K2 K3 K4] end. split; cbn [fst snd]; [done | auto | |].
    + intros Hn. specialize (Hr Hn). destruct type; cbn in *; by eapply recoverable_kept.
    + intros Hn. eapply workspace_recoverable_kept; [done | auto].
  - eapply update_managed_inv; [|done|by split]. intros; cbn in *; done.
  - eapply update_managed_inv; [|done|by split]. done.
  - split; cbn [fst snd]; [done | | by intros Hn; specialize (Hr Hn); destruct type |].
    + split; try apply Hi. apply keys_update; [done | apply Hi].
    + intros Hn. destruct (Hw Hn) as (w & Hin & Hid & Hp & Hd). cbn [set_workspaces ct_workspaces update_where fst].
      exists (if guard w then set_workspace_deleted (Some now) now w else w). split; [apply list_elem_of_fmap; by exists w|].
      destruct (guard w); [|done]. by split_and!.
  - split; cbn [fst snd]; [done | | by intros Hn; specialize (Hr Hn); destruct type |].
    + split; try apply Hi. apply keys_update; [done | apply Hi].
    + intros Hn. destruct (Hw Hn) as (w & Hin & Hid & Hp & Hd). cbn [set_workspaces ct_workspaces update_where fst].
      exists (if guard w then set_workspace_deleted None now w else w). split; [apply list_elem_of_fmap; by exists w|].
      destruct (guard w); [|done]. by split_and!.
  - assert (E : exists ws, (claimWorkspaceFinalization policy cutoff now d).2 = set_workspaces ws d /\ keys_unique wk_id ws).
    { unfold claimWorkspaceFinalization. destruct (workspace_deleted_at policy) as [t|]; [destruct (cutoff <? t)|].
      - exists (ct_workspaces d). split; [by destruct d | apply Hi].
      - eexists. split; [reflexivity|]. apply keys_update; [done | apply Hi].
      - exists (ct_workspaces d). split; [by destruct d | apply Hi]. }
    split; cbn [fst snd]; [done | | |].
    + destruct E as (ws & -> & Hu). split; try apply Hi. exact Hu.
    + intros Hn. specialize (Hr Hn). destruct E as (ws & -> & _). by destruct type.
    + intros Hn. apply claim_workspace_keeps; auto.
  - split; cbn [fst snd]; [done | | | done].
    + split; try apply Hi. apply keys_update; [done | apply Hi].
    + intros Hn. specialize (Hr Hn). destruct type; [|done]. cbn in *. apply claim_keeps; auto. apply Hi.
  - split; cbn [fst snd]; [done | | | done].
    + split; try apply Hi. apply keys_update; [done | apply Hi].
    + intros Hn. specialize (Hr Hn). destruct type; [done|]. cbn in *. apply claim_keeps; auto. apply Hi.
  - match goal with H : finalizeMachineControl _ _ _ _ = _ |- _ => apply finalize_machine_tables in H as (Em & Es & Ew) end.
    split; cbn [fst snd]; [done | | | by rewrite Ew].
    + split; rewrite ?Es, ?Ew; try apply Hi. destruct Em as [-> | ->]; [apply Hi | apply delete_where_unique, Hi].
    + intros Hn. specialize (Hr Hn). destruct type; cbn in *; [|by rewrite Es].
      destruct Em as [-> | ->]; [done|]. apply recoverable_delete; [|done]. intros r. apply final_purging.
  - destruct (finalize_service_tables policy id0 cutoff d) as (Es & Em & Ew).
    split; cbn [fst snd]; [done | | | by rewrite Ew].
    + split; rewrite ?Em, ?Ew; try apply Hi. destruct Es as [-> | ->]; [apply Hi | apply delete_where_unique, Hi].
    + intros Hn. specialize (Hr Hn). destruct type; cbn in *; [by rewrite Em|].
      destruct Es as [-> | ->]; [done|]. apply recoverable_delete; [|done]. intros r. apply final_purging.
  - match goal with H : delete_workspace _ _ _ = _ |- _ => apply delete_workspace_tables in H as [-> | ((w & Hin & Hid & Hp) & Em & Es & Ew)]; [by split|] end.
    assert (Hne : now < since + grace -> wid <> id0).
    { intros Hn ->. destruct (Hw Hn) as (x & Hx & Hxid & Hxp & _).
      pose proof (find_key_unique wk_id id0 _ w (io_workspaces _ Hi) Hin Hid) as F1.
      pose proof (find_key_unique wk_id id0 _ x (io_workspaces _ Hi) Hx Hxid) as F2. congruence. }
    split; cbn [fst snd]; [done | | |].
    + split; rewrite ?Em, ?Es, ?Ew; apply delete_where_unique, Hi.
    + intros Hn. specialize (Hr Hn). specialize (Hne Hn). destruct type; cbn in *; [rewrite Em | rewrite Es];
        destruct Hr as (r & Hr & Hri & Hrw & Hrest); exists r; (split; [|done]); cbn; apply filter_In_elem; (split; [done|]);
        rewrite Hrw; by apply negb_true_iff, String.eqb_neq.
    + intros Hn. destruct (Hw Hn) as (x & Hx & Hxid & Hrest). specialize (Hne Hn). exists x. split; [|done]. rewrite Ew. cbn. apply filter_In_elem.
      split; [done|]. rewrite Hxid. by apply negb_true_iff, String.eqb_neq.
Qed.
Lemma run_inv s s' : rtc lifecycle_step s s' -> live_inv s -> live_inv s'.
Proof. induction 1 as [|s1 s2 s3 Hs _ IH]; [done|]. intros Hi. by apply IH, (step_inv s1). Qed.
End Invariant.
End Protocol.

(** ** The functions are sequences of steps *)

Section Refinement.
Context (grace : Z).
Notation steps := (rtc (lifecycle_step grace)).

Lemma managed_kept_refl {C} (t : list (managed_row C)) : managed_kept t t.
Proof. intros r Hr. by exists r. Qed.
Lemma workspaces_kept_refl t : workspaces_kept t t.
Proof. intros w Hw. by exists w. Qed.
(** Only tables outside the life cycle change. *)
Lemma life_same d d' : ct_machines d' = ct_machines d -> ct_services d' = ct_services d -> ct_workspaces d' = ct_workspaces d ->
  life_kept d d'.
Proof.
  intros E1 E2 E3. split; [intros [? ? ?]; split; by rewrite ?E1, ?E2, ?E3 | rewrite E1 | rewrite E2 | rewrite E3];
    (apply managed_kept_refl || apply workspaces_kept_refl).
Qed.
Lemma other_step now d d' : life_kept d d' -> steps (now, d) (now, d').
Proof. intros H. by apply rtc_once, step_other. Qed.
(** An update that leaves the life cycle columns alone. *)
Lemma managed_kept_update {C} p (f : managed_row C -> managed_row C) t :
  (forall r, mg_id (f r) = mg_id r /\ mg_workspace (f r) = mg_workspace r /\ mg_deleted (f r) = mg_deleted r /\ mg_purge (f r) = mg_purge r) ->
  managed_kept t (update_where p f t).1.
Proof.
  intros Hf r Hr. exists (if p r then f r else r). split; [cbn; apply list_elem_of_fmap; by exists r|]. by destruct (p r).
Qed.
Lemma life_machines p f d :
  (forall r, mg_id (f r) = mg_id r /\ mg_workspace (f r) = mg_workspace r /\ mg_deleted (f r) = mg_deleted r /\ mg_purge (f r) = mg_purge r) ->
  life_kept d (set_machines (update_where p f (ct_machines d)).1 d).
Proof.
  intros Hf. split; [| by apply managed_kept_update | apply managed_kept_refl | apply workspaces_kept_refl].
  intros [H1 H2 H3]. split; [|done|done]. apply update_where_unique; [|done]. intros r _. apply Hf.
Qed.
Lemma life_services p f d :
  (forall r, mg_id (f r) = mg_id r /\ mg_workspace (f r) = mg_workspace r /\ mg_deleted (f r) = mg_deleted r /\ mg_purge (f r) = mg_purge r) ->
  life_kept d (set_services (update_where p f (ct_services d)).1 d).
Proof.
  intros Hf. split; [| apply managed_kept_refl | by apply managed_kept_update | apply workspaces_kept_refl].
  intros [H1 H2 H3]. split; [done| |done]. apply update_where_unique; [|done]. intros r _. apply Hf.
Qed.

(** *** The web application *)

Lemma audit_life row b n d : life_kept d (audit_statement row b n d).
Proof. unfold audit_statement. destruct (_ && _); by apply life_same. Qed.
Lemma advance_life workspaceId serviceId now n d : life_kept d (advanceServiceAgentConfigurationsStatement workspaceId serviceId now n d).
Proof.
  unfold advanceServiceAgentConfigurationsStatement. destruct (negb _); [by apply life_same|]. by apply life_machines.
Qed.
Lemma batch_steps type guard deleted audit workspaceId resourceId now d :
  (forall d' n, update_managed type guard deleted now d = Ok (d', n) -> lifecycle_step grace (now, d) (now, d')) ->
  steps (now, d) (now, (lifecycle_batch type guard deleted audit workspaceId resourceId now d).2).
Proof.
  intros Hs. unfold lifecycle_batch. destruct (update_managed type guard deleted now d) as [[d1 n]|e]; [|done]. cbn [fst snd].
  eapply rtc_l; [by eapply Hs|]. etrans; [apply (other_step now d1 (audit_statement audit true n d1)), audit_life|].
  destruct type; [done|]. apply other_step, advance_life.
Qed.

Section Web.
Context `{WC : WebCrypto} `{LO : Locale}.
Context (meanwhile : control_tables -> control_tables) (now : Z) (Hmean : forall d, steps (now, d) (now, meanwhile d)).

Lemma softDeleteResource_steps d slug user type id audit :
  steps (now, d) (now, (softDeleteResource meanwhile d slug user type id audit now).2).
Proof.
  unfold softDeleteResource. destruct (rbind _ _) as [[access r]|e]; [|done]. etrans; [apply Hmean|]. apply batch_steps.
  intros d' n Hu. eapply step_delete; [|exact Hu]. intros i w v E. by bool_hyps.
Qed.
Lemma restoreResource_steps d slug user type id audit :
  steps (now, d) (now, (restoreResource meanwhile d slug user type id audit now).2).
Proof.
  unfold restoreResource. destruct (rbind _ _) as [[[access r] deleted]|e]; [|done]. etrans; [apply Hmean|]. apply batch_steps.
  intros d' n Hu. eapply step_restore; [|exact Hu]. intros i w v E. bool_hyps. split; congruence.
Qed.
Lemma softDeleteWorkspace_steps d slug user confirmation audit :
  steps (now, d) (now, (softDeleteWorkspace meanwhile d slug user confirmation audit now).2).
Proof.
  unfold softDeleteWorkspace. destruct (load_membership _ _ _) as [[w role]|]; [|done]. destruct (_ || _); [done|].
  destruct (negb _); [done|]. etrans; [apply Hmean|]. unfold workspace_batch.
  match goal with |- context [update_where ?g _ _] =>
    pose proof (step_delete_workspace grace g now (meanwhile d)) as Hs; forward Hs; [intros x E; by bool_hyps|] end.
  destruct (update_where _ _ _) as [rows n]. cbn [fst snd] in *. eapply rtc_l; [exact Hs|]. apply other_step, audit_life.
Qed.
Lemma restoreWorkspace_steps d workspaceId user audit :
  steps (now, d) (now, (restoreWorkspace meanwhile d workspaceId user audit now).2).
Proof.
  unfold restoreWorkspace. destruct (load_membership _ _ _) as [[w role]|]; [|done]. destruct (negb _); [done|].
  destruct (wk_deleted w) as [t|]; [|done]. destruct (_ <=? _); [done|]. destruct (bool_decide _); [done|].
  etrans; [apply Hmean|]. unfold workspace_batch.
  match goal with |- context [update_where ?g _ _] =>
    pose proof (step_restore_workspace grace g now (meanwhile d)) as Hs; forward Hs; [intros x E; bool_hyps; split; congruence|] end.
  destruct (update_where _ _ _) as [rows n]. cbn [fst snd] in *. eapply rtc_l; [exact Hs|]. apply other_step, audit_life.
Qed.
End Web.

(** *** The retention worker *)

Section Worker.
Context (policy : RetentionPolicyRow) (cutoff now : Z) (Hc : cutoff <= now - grace).

Lemma finalize_machine_steps m st : steps (now, control st) (now, control (finalize_machine policy cutoff now m st).2).
Proof.
  unfold finalize_machine. pose proof (step_claim_machine grace policy m cutoff now (control st) Hc) as Hs.
  destruct (claimResourceFinalization _ _ _ _ _ _) as [claimed machines]. cbn [snd] in Hs.
  set (d1 := set_machines machines (control st)) in *. eapply rtc_l; [exact Hs|]. destruct claimed; cbn [negb]; [|done].
  destruct (assertAgentCursor d1 _ _) as [u|e]; [|done]. destruct (loadAgentPage d1 _ _) as [agents hasMore].
  destruct (purgeMachineTelemetry _ _ _ _ _) as [purge t1]. destruct (pu_complete purge); cbn [negb]; [|done].
  destruct hasMore.
  - destruct (last agents) as [a|]; [|done].
    pose proof (life_machines (fun r => resource_named policy (mg_id m) r && bool_decide (mg_purge r <> None) && bool_decide (mg_cursor r = mg_cursor m))
      (moved_resource (ag_id a)) d1) as Hl. unfold advanceRelatedCursor.
    destruct (update_where _ _ _) as [rows n]. cbn [snd fst control] in *. apply other_step, Hl. by intros.
  - destruct (finalizeMachineControl policy (mg_id m) cutoff d1) as [[n d2]|e] eqn:E; [|done]. cbn [snd control].
    apply rtc_once. by eapply step_finalize_machine.
Qed.
Lemma finalize_service_steps m st : steps (now, control st) (now, control (finalize_service policy cutoff now m st).2).
Proof.
  unfold finalize_service. pose proof (step_claim_service grace policy m cutoff now (control st) Hc) as Hs.
  destruct (claimResourceFinalization _ _ _ _ _ _) as [claimed services]. cbn [snd] in Hs.
  set (d1 := set_services services (control st)) in *. eapply rtc_l; [exact Hs|]. destruct claimed; cbn [negb]; [|done].
  destruct (assertCheckCursor _ d1 _ _) as [u|e]; [|done]. destruct (loadCheckPage _ d1 _ _) as [checks hasMore].
  destruct (purgeServiceTelemetry _ _ _ _ _) as [purge t1]. destruct (pu_complete purge); cbn [negb]; [|done].
  destruct (deleteSecrets _ _ _) as [k secrets]. etrans; [apply (other_step now d1 (set_secrets secrets d1)); by apply life_same|].
  destruct hasMore.
  - destruct (last checks) as [a|]; [|done].
    pose proof (life_services (fun r => resource_named policy (mg_id m) r && bool_decide (mg_purge r <> None) && bool_decide (mg_cursor r = mg_cursor m))
      (moved_resource (pc_pk a)) (set_secrets secrets d1)) as Hl. unfold advanceRelatedCursor.
    destruct (update_where _ _ _) as [rows n]. cbn [snd fst control] in *. apply other_step, Hl. by intros.
  - pose proof (step_finalize_service grace policy (mg_id m) cutoff now (set_secrets secrets d1)) as Hf.
    destruct (finalizeServiceControl _ _ _ _) as [n d3]. cbn [snd control] in *. by apply rtc_once.
Qed.
Lemma finalize_each_steps {R} (step : R -> stores -> res Z * stores) rows :
  (forall r st, steps (now, control st) (now, control (step r st).2)) ->
  forall st, steps (now, control st) (now, control (finalize_each step rows st).2).
Proof.
  intros Hs. induction rows as [|r rows IH]; intros st; cbn [finalize_each]; [done|]. pose proof (Hs r st) as H1.
  destruct (step r st) as [[n|e] st1]; cbn [snd] in *; [|done]. pose proof (IH st1) as H2.
  destruct (finalize_each step rows st1) as [m st2]. cbn [snd] in *. by etrans.
Qed.
Lemma finalize_table_life table type d : life_kept d (finalizeControlOnlyTable policy cutoff table type d).2.
Proof.
  unfold finalizeControlOnlyTable. destruct (_ =? 0)%nat; [by apply life_same|].
  set (eligible := map ow_id (List.filter _ (ct_owned d table))).
  assert (Hcascade : forall d', ct_machines (cascade_owned table eligible d') = ct_machines d' /\
    ct_services (cascade_owned table eligible d') = ct_services d' /\ ct_workspaces (cascade_owned table eligible d') = ct_workspaces d').
  { intros d'. by destruct table. }
  destruct type as [t|]; cbn [bool_decide]; [destruct (delete_where _ (ct_grants d)) as [grants n1]|];
    (destruct (bool_decide _); [destruct (delete_where _ (ct_public _)) as [public n2]|]);
    destruct (delete_where _ (ct_owned _ table)) as [rows n3]; cbn [snd];
    match goal with |- life_kept _ (cascade_owned _ _ ?d') => destruct (Hcascade d') as (E1 & E2 & E3) end;
    apply life_same; rewrite ?E1, ?E2, ?E3; done.
Qed.
Lemma finalize_owned_steps d : steps (now, d) (now, (finalize_owned policy cutoff d).2).
Proof.
  unfold finalize_owned.
  assert (H : forall tables acc, steps (now, acc.2) (now, (foldl (fun '(deleted, d) '(table, type) =>
    let '(n, d') := finalizeControlOnlyTable policy cutoff table type d in (deleted + n, d')) acc tables).2)).
  { induction tables as [|[table type] rest IH]; intros [n d0]; cbn [foldl]; [done|].
    pose proof (finalize_table_life table type d0) as Hl. destruct (finalizeControlOnlyTable _ _ _ _ d0) as [m d1]. cbn [snd] in *.
    etrans; [by apply other_step|]. apply (IH (n + m, d1)). }
  apply (H _ (0, d)).
Qed.
End Worker.

Lemma finalizeSoftDeletedResources_steps policy now st : grace <= soft_delete_grace_days policy * DAY_MS ->
  steps (now, control st) (now, control (finalizeSoftDeletedResources policy now st).2).
Proof.
  intros Hg. assert (Hc : grace_cutoff policy now <= now - grace) by (unfold grace_cutoff; lia). unfold finalizeSoftDeletedResources.
  pose proof (step_claim_workspace grace policy _ now (control st) Hc) as Hs. destruct (claimWorkspaceFinalization _ _ _ _) as [claimed d].
  cbn [snd] in Hs. eapply rtc_l; [exact Hs|]. destruct claimed; cbn [negb]; [|done].
  pose proof (finalize_each_steps now (finalize_machine policy (grace_cutoff policy now) now) (deletedResources policy (grace_cutoff policy now) (ct_machines d))
    (finalize_machine_steps policy _ now Hc) (Stores d (telemetry st))) as Hm.
  unfold finalizeMachines. cbn [control] in *. destruct (finalize_each _ _ _) as [[machines|e] st2]; cbn [snd] in *; [|done].
  pose proof (finalize_each_steps now (finalize_service policy (grace_cutoff policy now) now) (deletedResources policy (grace_cutoff policy now) (ct_services (control st2)))
    (finalize_service_steps policy _ now Hc) st2) as Hv.
  unfold finalizeServices. destruct (finalize_each _ _ st2) as [[services|e] st3]; cbn [snd] in *; [|by etrans].
  pose proof (finalize_owned_steps policy (grace_cutoff policy now) now (control st3)) as Ho. destruct (finalize_owned _ _ _) as [owned d']. cbn [snd control] in *.
  etrans; [exact Hm|]. by etrans.
Qed.
Lemma finalizeDeletedWorkspace_steps policy now st : grace <= soft_delete_grace_days policy * DAY_MS ->
  steps (now, control st) (now, control (finalizeDeletedWorkspace policy now st).2).
Proof.
  intros Hg. assert (Hc : grace_cutoff policy now <= now - grace) by (unfold grace_cutoff; lia). unfold finalizeDeletedWorkspace.
  destruct (workspace_deleted_at policy) as [t|] eqn:Et; [|done]. destruct (_ <? t); [done|].
  pose proof (step_claim_workspace grace policy _ now (control st) Hc) as Hs. destruct (claimWorkspaceFinalization _ _ _ _) as [claimed d].
  cbn [snd] in Hs. eapply rtc_l; [exact Hs|]. destruct claimed; cbn [negb]; [|done]. destruct (_ || _); [done|].
  destruct (deleteWorkspaceTelemetryState _ _) as [n tel]. destruct (delete_workspace _ _ d) as [[m d']|e] eqn:E; [|done].
  apply rtc_once. by eapply step_finalize_workspace.
Qed.
End Refinement.

(** ** What the protocol guarantees *)

Definition live_row {C} (id workspace : string) (t : list (managed_row C)) : Prop :=
  exists r, r ∈ t /\ mg_id r = id /\ mg_workspace r = workspace /\ mg_deleted r = None /\ mg_purge r = None.
Definition resource_live (type : ManagedResourceType) (id workspace : string) (d : control_tables) : Prop :=
  match type with
  | managed_machine => live_row id workspace (ct_machines d)
  | managed_service => live_row id workspace (ct_services d)
  end.
Definition workspace_live (id : string) (d : control_tables) : Prop :=
  exists w, w ∈ ct_workspaces d /\ wk_id w = id /\ wk_deleted w = None /\ wk_purge w = None.

Lemma count_one {R K} `{!EqDecision K} (key : R -> K) p t r : keys_unique key t -> r ∈ t -> p r = true ->
  (forall x, x ∈ t -> p x = true -> key x = key r) -> count_if p t = 1.
Proof.
  intros Hu Hr Hp Hk. destruct (count_if_unique key p t Hu) as [E|E]; [| |done].
  - intros x y Hx Hy Ex Ey. by rewrite (Hk x), (Hk y).
  - rewrite (count_if_zero key) in E. by rewrite E in Hp.
Qed.
Lemma find_managed {C} id workspace (t : list (managed_row C)) r : keys_unique mg_id t -> r ∈ t -> mg_id r = id -> mg_workspace r = workspace ->
  List.find (managed_is workspace id) t = Some r.
Proof.
  intros Hu Hr Hid Hw. destruct (List.find (managed_is workspace id) t) as [x|] eqn:E.
  - apply List.find_some in E as [Hx E]. unfold managed_is in E. bool_hyps. apply list_elem_of_In in Hx.
    pose proof (find_key_unique mg_id id t x Hu Hx ltac:(done)) as F1. pose proof (find_key_unique mg_id id t r Hu Hr Hid) as F2. congruence.
  - apply list_elem_of_In in Hr. pose proof (List.find_none _ _ E r Hr) as Hn. unfold managed_is in Hn.
    by rewrite Hid, Hw, !String.eqb_refl in Hn.
Qed.

(** The update of a restore reaches exactly the row it is meant for. *)
Lemma restore_rows {C} guard now (t : list (managed_row C)) r : keys_unique mg_id t -> r ∈ t -> mg_purge r = None ->
  guard r = true -> (forall x, guard x = true -> mg_id x = mg_id r) ->
  let out := update_where guard (set_deleted None now) t in out.2 = 1 /\ live_row (mg_id r) (mg_workspace r) out.1.
Proof.
  intros Hu Hr Hp Hg Hk out. split; [by apply (count_one mg_id guard t r); auto|].
  exists (set_deleted None now r). split_and!; try done. apply list_elem_of_fmap. exists r. by rewrite Hg.
Qed.
Lemma admin_final d slug user access : requireWorkspaceAdmin d slug user = Ok access ->
  loadMonitoringAccess (authz_view d) slug user = Ok access /\ requireAdmin access = Ok tt /\
  finalAdminCondition user (m_workspaceId access) (authz_view d) = true.
Proof.
  unfold requireWorkspaceAdmin. intros H. apply rbind_ok in H as (a & Ha & H). apply rbind_ok in H as ([] & Hr & E). apply Ok_inj in E as ->.
  split_and!; [done | done|]. destruct (loadMonitoringAccess_rows _ _ _ _ Ha) as [Hact _].
  unfold requireAdmin in Hr. destruct (negb _) eqn:E in Hr; [done|]. apply negb_false_iff, bool_decide_eq_true in E.
  unfold activeRoleCondition in Hact. cbn in Hact. rewrite E in Hact. exact Hact.
Qed.

Section Guarantee.
Context `{WC : WebCrypto} `{LO : Locale}.

(** The service's address has been given to another live service of the workspace. *)
Definition slug_taken (id workspace : string) (d : control_tables) : Prop :=
  exists s other, s ∈ ct_services d /\ mg_id s = id /\ other ∈ ct_services d /\ mg_id other <> id /\
    mg_workspace other = workspace /\ mg_slug other = mg_slug s /\ mg_deleted other = None.

(** The index refuses a restore only when the address is taken. *)
Lemma slug_conflict_taken guard now (d : control_tables) r : keys_unique mg_id (ct_services d) -> r ∈ ct_services d ->
  (forall x, guard x = true -> mg_id x = mg_id r) ->
  slug_conflict guard (set_deleted None now) (ct_services d) = true -> slug_taken (mg_id r) (mg_workspace r) d.
Proof.
  intros Hu Hr Hk H. unfold slug_conflict in H. apply existsb_exists_elem in H as (r' & Hr' & H). apply andb_true_iff in H as [Hg H].
  apply existsb_exists_elem in H as (x & Hx & Hs). unfold same_live_slug in Hs. cbn [set_deleted mg_id mg_workspace mg_slug mg_deleted] in Hs.
  assert (r' = r) as ->.
  { pose proof (find_key_unique mg_id (mg_id r) _ r' Hu Hr' (Hk r' Hg)) as F1. pose proof (find_key_unique mg_id (mg_id r) _ r Hu Hr eq_refl) as F2. congruence. }
  apply list_elem_of_fmap in Hx as (x0 & -> & Hx0). destruct (guard x0) eqn:E.
  - exfalso. cbn [set_deleted mg_id] in Hs. rewrite (Hk x0 E), String.eqb_refl in Hs. done.
  - bool_hyps. exists r, x0. split_and!; try done; congruence.
Qed.

(** A restore within the grace period comes to its transaction. *)
Lemma restore_reaches grace since type id slug user auditId now d access v t :
  now < since + grace -> requireWorkspaceAdmin d slug user = Ok access -> grace <= grace_days d (m_workspaceId access) * DAY_MS ->
  load_managed d type (m_workspaceId access) id = Some v -> mv_deleted v = Some t -> mv_purge v = None -> since <= t ->
  exists audit, restoreResource (fun d => d) d slug user type id auditId now =
    lifecycle_batch type (fun i workspace r => String.eqb i id && String.eqb workspace (m_workspaceId access) &&
      bool_decide (mv_deleted r = Some t) && bool_decide (mv_purge r = None) && finalAdminCondition user workspace (authz_view d))
      None audit (m_workspaceId access) id now d.
Proof.
  intros Hn Ha Hg Hload Hd Hp Ht. destruct (admin_final _ _ _ _ Ha) as (Hl & Hadm & _). unfold restoreResource. rewrite Hl. cbn [rbind].
  rewrite Hadm. cbn [rbind]. rewrite Hload, Hd, Hp. rewrite (proj2 (Z.leb_gt _ _)) by lia. rewrite bool_decide_eq_false_2 by naive_solver.
  eexists. reflexivity.
Qed.

(** A restore within the grace period succeeds, unless it is of a service whose address is taken. *)
Lemma restore_outcome grace since type id slug user auditId now d access :
  ids_ok d -> now < since + grace -> requireWorkspaceAdmin d slug user = Ok access ->
  grace <= grace_days d (m_workspaceId access) * DAY_MS ->
  resource_recoverable since type id (m_workspaceId access) d ->
  resource_live type id (m_workspaceId access) d \/
  (let out := restoreResource (fun d => d) d slug user type id auditId now in
   out.1 = Ok tt /\ resource_live type id (m_workspaceId access) out.2 \/
   out = (Err SLUG_TAKEN, d) /\ type = managed_service /\ slug_taken id (m_workspaceId access) d).
Proof.
  intros Hids Hn Ha Hg Hr. destruct (admin_final _ _ _ _ Ha) as (_ & _ & Hfin).
  destruct type; destruct Hr as (r & Hin & Hid & Hw & Hp & Hd); destruct (mg_deleted r) as [t|] eqn:Ed;
    try (left; by exists r); right.
  all: match goal with |- context [restoreResource _ _ _ _ ?type _ _ _] =>
      destruct (restore_reaches grace since type id slug user auditId now d access (view_of r) t) as (audit & E);
      [done | done | done | cbn [load_managed]; rewrite (find_managed id _ _ r) by (done || apply Hids); done | done | done | done |] end; rewrite E; clear E;
    unfold lifecycle_batch, update_managed;
    match goal with |- context [update_where ?g ?f _] =>
      assert (Hsel : g r = true) by (unfold view_of; cbn [mv_deleted mv_purge]; by rewrite Hid, Hw, !String.eqb_refl, Ed, Hp, !bool_decide_eq_true_2, Hfin);
      assert (Hk : forall x, g x = true -> mg_id x = mg_id r) by (intros x Ex; bool_hyps; congruence) end.
  - destruct (restore_rows _ now _ r (io_machines _ Hids) Hin Hp Hsel Hk) as [Hc Hlive]. left.
    destruct (update_where _ _ _) as [rows n]. cbn [fst snd] in *. rewrite Hc, Z.eqb_refl. split; [done|]. rewrite <- Hid, <- Hw. exact Hlive.
  - destruct (slug_conflict _ _ _) eqn:Es.
    + right. split_and!; [done | done|]. rewrite <- Hid, <- Hw. by eapply slug_conflict_taken; [apply Hids | done | | exact Es].
    + destruct (restore_rows _ now _ r (io_services _ Hids) Hin Hp Hsel Hk) as [Hc Hlive]. left.
      destruct (update_where _ _ _) as [rows n]. cbn [fst snd] in *. rewrite Hc, Z.eqb_refl. split; [done|]. rewrite <- Hid, <- Hw. exact Hlive.
Qed.

(** C7: What is live stays recoverable.  Take a machine or a service that is live (just restored,
    or never deleted) in a live workspace.  Whatever requests of the web application and however
    many retention runs follow, in any interleaving and on whatever stale rows they decided, for
    as long as the shortest grace period the row is there and no purge has begun.  Should it have
    been deleted meanwhile, an administrator's restore succeeds and makes it live again, with one
    exception: the restore of a service whose address has meanwhile been given to another live
    service of the workspace is refused by the unique index, and changes nothing. *)
Theorem live_resources_recoverable grace since d type id workspace now d'
  (Hids : ids_ok d) (Hlive : resource_live type id workspace d) (Hws : workspace_live workspace d)
  (Hrun : rtc (lifecycle_step grace) (since, d) (now, d')) (Hn : now < since + grace) :
  resource_recoverable since type id workspace d' /\ workspace_recoverable since workspace (ct_workspaces d') /\
  forall slug user auditId access, requireWorkspaceAdmin d' slug user = Ok access -> m_workspaceId access = workspace ->
    grace <= grace_days d' workspace * DAY_MS ->
    resource_live type id workspace d' \/
    (let out := restoreResource (fun d => d) d' slug user type id auditId now in
     out.1 = Ok tt /\ resource_live type id workspace out.2 \/
     out = (Err SLUG_TAKEN, d') /\ type = managed_service /\ slug_taken id workspace d').
Proof.
  assert (Hinv : live_inv grace since type id workspace (since, d)).
  { split; cbn [fst snd]; [lia | done | |].
    - intros _. destruct type; destruct Hlive as (r & Hr & Hid & Hw & Hd & Hp); exists r; by rewrite Hd.
    - intros _. destruct Hws as (w & Hw & Hid & Hd & Hp). exists w. by rewrite Hd. }
  apply (run_inv grace since type id workspace _ _ Hrun) in Hinv as [_ Hids' Hr Hw]. cbn [fst snd] in *.
  specialize (Hr Hn). specialize (Hw Hn). split_and!; [done | done|]. intros slug user auditId access Ha <- Hg.
  by apply (restore_outcome grace since).
Qed.
End Guarantee.

(** C6: The functions keep to the protocol.  Every action of the web application that deletes or
    restores a machine, a service or a workspace, whatever happens between its reads and its
    transaction, and every part of a retention run under a policy with at least the grace period,
    changes the control database only by statements of the protocol. *)
Theorem lifecycle_functions_refine `{WC : WebCrypto} `{LO : Locale} grace meanwhile now d
  (Hmean : forall d, rtc (lifecycle_step grace) (now, d) (now, meanwhile d)) :
  (forall slug user type id audit,
     rtc (lifecycle_step grace) (now, d) (now, (softDeleteResource meanwhile d slug user type id audit now).2) /\
     rtc (lifecycle_step grace) (now, d) (now, (restoreResource meanwhile d slug user type id audit now).2)) /\
  (forall slug user text audit,
     rtc (lifecycle_step grace) (now, d) (now, (softDeleteWorkspace meanwhile d slug user text audit now).2) /\
     rtc (lifecycle_step grace) (now, d) (now, (restoreWorkspace meanwhile d slug user audit now).2)) /\
  (forall policy telemetry, grace <= soft_delete_grace_days policy * DAY_MS ->
     rtc (lifecycle_step grace) (now, d) (now, control (finalizeSoftDeletedResources policy now (Stores d telemetry)).2) /\
     rtc (lifecycle_step grace) (now, d) (now, control (finalizeDeletedWorkspace policy now (Stores d telemetry)).2)).
Proof.
  split_and!; intros; split;
    eauto using softDeleteResource_steps, restoreResource_steps, softDeleteWorkspace_steps, restoreWorkspace_steps.
  - by apply (finalizeSoftDeletedResources_steps grace policy now (Stores d telemetry)).
  - by apply (finalizeDeletedWorkspace_steps grace policy now (Stores d telemetry)).
Qed.

(** ** A recorded run: a machine is deleted, a retention run passes, the machine is restored *)

#[local] Instance byte_order : Locale := String.leb.
Definition pp_before : control_tables := rt_control.
Definition pp_deleted : control_tables := (softDeleteResource (fun d => d) pp_before "home" "u" managed_machine "m" "audit-1" 1000).2.
Definition pp_after : control_tables := control (finalizeSoftDeletedResources rt_policy (2 * DAY_MS) (Stores pp_deleted rt_db)).2.
Lemma pp_ids : ids_ok pp_before.
Proof. split; unique_keys. Qed.
Lemma pp_live : resource_live managed_machine "m" "w" pp_before /\ workspace_live "w" pp_before.
Proof. split; eexists; (split; [by left|]); done. Qed.
Lemma pp_steps : rtc (lifecycle_step (7 * DAY_MS)) (1000, pp_before) (2 * DAY_MS, pp_after).
Proof.
  etrans; [apply (softDeleteResource_steps (7 * DAY_MS) (fun d => d) 1000 (fun d => rtc_refl _ (1000, d)) pp_before "home" "u" managed_machine "m" "audit-1")|].
  eapply rtc_l; [apply (step_time _ 1000 (2 * DAY_MS)); done|].
  apply (finalizeSoftDeletedResources_steps (7 * DAY_MS) rt_policy (2 * DAY_MS) (Stores pp_deleted rt_db)). done.
Qed.
Definition pp_access : MonitoringAccess := Monitoring "w" 1 "dash" 10 admin [].
Lemma pp_admin : requireWorkspaceAdmin pp_after "home" "u" = Ok pp_access.
Proof. vm_compute. reflexivity. Qed.

Example live_resources_recoverable_witness :
  map mg_deleted (ct_machines pp_after) = [Some 1000] /\
  (restoreResource (fun d => d) pp_after "home" "u" managed_machine "m" "audit-2" (2 * DAY_MS)).1 = Ok tt /\
  recoverable 1000 "m" "w" (ct_machines pp_after) /\
  (resource_live managed_machine "m" "w" pp_after \/
   resource_live managed_machine "m" "w" (restoreResource (fun d => d) pp_after "home" "u" managed_machine "m" "audit-2" (2 * DAY_MS)).2).
Proof.
  destruct (live_resources_recoverable (7 * DAY_MS) 1000 pp_before managed_machine "m" "w" (2 * DAY_MS) pp_after pp_ids
    (proj1 pp_live) (proj2 pp_live) pp_steps) as (Hr & _ & Hrestore); [unfold DAY_MS; lia|].
  split_and!; [vm_compute; reflexivity | vm_compute; reflexivity | exact Hr |].
  destruct (Hrestore "home" "u" "audit-2" pp_access pp_admin eq_refl) as [H|[[_ H]|(_ & H & _)]];
    [vm_compute; discriminate | left; exact H | right; exact H | discriminate].
Defined.
(** A deleted service whose address another service has taken cannot be restored. *)
Definition pp_taken : control_tables :=
  set_services [Managed "s" 6 "w" "Shop" (Some 1000) None 0 1 0 "shop"; Managed "s2" 7 "w" "New shop" None None 0 1 0 "shop"] pp_before.
Example taken_address_refused : slug_taken "s" "w" pp_taken /\
  restoreResource (fun d => d) pp_taken "home" "u" managed_service "s" "audit-3" 2000 = (Err SLUG_TAKEN, pp_taken).
Proof.
  split; [|vm_compute; reflexivity].
  eexists _, _. split; [by left|]. split; [done|]. split; [by right; left|]. split_and!; done.
Qed.
Example lifecycle_functions_refine_witness :
  ct_machines pp_deleted = [Managed "m" 5 "w" "Machine" (Some 1000) None "" 1 1000 "machine"] /\
  rtc (lifecycle_step (7 * DAY_MS)) (1000, pp_before) (1000, pp_deleted).
Proof.
  split; [vm_compute; reflexivity|].
  apply (lifecycle_functions_refine (7 * DAY_MS) (fun d => d) 1000 pp_before (fun d => rtc_refl _ (1000, d))).
Defined.
