(* ===== verification/ArtifactRetention.v ===== *)
(** * ArtifactRetention: stored exports and backups whose time is over

    [workers/retention/src/artifact-retention.ts].  Each run looks at one page of every prefix of
    the bucket, from the key where the last run stopped, and deletes the objects whose metadata
    name an expiry time in the past.  The bucket is a service: [R2Bucket] has the two operations
    the code uses, [R2Laws] what their documentation says of them. *)

From Stdlib Require Import ZArith Lia Bool String List Sorting.Sorted.
From stdpp Require Import base tactics list strings gmap.
From S2P Require Import Prelude.
From S2P Require Import Js.
From S2P Require Import Sql.
From S2P Require Import Lease.
Open Scope string_scope.
Open Scope Z_scope.

(** ** The bucket *)

Record R2Object := MkR2Object { r2_key : string; r2_metadata : option (gmap string string) }.
#[export] Instance R2Object_eq_dec : EqDecision R2Object. Proof. solve_decision. Defined.
Record R2Objects := Listing { r2_objects : list R2Object; r2_truncated : bool }.

Class R2Bucket (B : Type) := {
  (** prefix, startAfter, limit; a request may fail *)
  r2_list : B -> string -> option string -> Z -> res R2Objects;
  r2_delete : list string -> B -> res unit * B;
  (** what is stored *)
  r2_contents : B -> list R2Object;
}.

Definition r2_in_page (prefix : string) (startAfter : option string) (o : R2Object) : bool :=
  starts_with prefix (r2_key o) && match startAfter with Some k => String.ltb k (r2_key o) | None => true end.
Definition r2_before (a b : R2Object) : Prop := String.ltb (r2_key a) (r2_key b) = true.

(** A listing is in key order and has nothing but stored objects behind [startAfter]; it skips
    none, and a truncated one is not empty.  A deletion takes exactly the named objects; one that
    failed may have taken some of them. *)
Class R2Laws (B : Type) `{R2Bucket B} : Prop := {
  contents_unique b : keys_unique r2_key (r2_contents b);
  list_sorted b prefix after n l : r2_list b prefix after n = Ok l -> Sorted r2_before (r2_objects l);
  list_sound b prefix after n l o : r2_list b prefix after n = Ok l -> o ∈ r2_objects l ->
    o ∈ r2_contents b /\ r2_in_page prefix after o = true;
  list_complete b prefix after n l o : r2_list b prefix after n = Ok l -> o ∈ r2_contents b -> r2_in_page prefix after o = true ->
    o ∈ r2_objects l \/ (r2_truncated l = true /\ forall y, y ∈ r2_objects l -> r2_before y o);
  list_progress b prefix after n l : r2_list b prefix after n = Ok l -> r2_truncated l = true -> r2_objects l <> [];
  delete_exact keys b b' : r2_delete keys b = (Ok tt, b') ->
    r2_contents b' = List.filter (fun o => negb (bool_decide (r2_key o ∈ keys))) (r2_contents b);
  delete_partial keys b b' e : r2_delete keys b = (Err e, b') -> exists gone,
    r2_contents b' = List.filter (fun o => negb (gone o)) (r2_contents b) /\ forall o, gone o = true -> r2_key o ∈ keys;
}.
(** The service answers. *)
Class R2Available (B : Type) `{R2Bucket B} : Prop := {
  list_answers b prefix after n : is_ok (r2_list b prefix after n) = true;
  delete_answers keys b : is_ok (r2_delete keys b).1 = true;
}.

(** ** The sweep *)

(* @src workers/retention/src/artifact-retention.ts 1-4 LIST_BATCH *)
Definition ARTIFACT_EXPIRY_METADATA : string := "alphaping-expires-at-ms".
Definition ARTIFACT_PREFIXES : list ArtifactPrefix := [exports_v1; backups_v1].
Definition LIST_BATCH : Z := 500.

(** [/^\d{1,16}$/] *)
Definition expiry_text (raw : string) : bool :=
  (1 <=? String.length raw)%nat && (String.length raw <=? 16)%nat && str_forall is_digit raw.
(* @src workers/retention/src/artifact-retention.ts expiredAt *)
Definition expiredAt (object : R2Object) (now : Z) : bool :=
  match match r2_metadata object with Some m => m !! ARTIFACT_EXPIRY_METADATA | None => None end with
  | None => false
  | Some raw =>
      if String.eqb raw "" || negb (expiry_text raw) then false
      else let value := (parse_digits raw 0 0).1.1 in safe_z value && (value <=? now)
  end.

(* @src workers/retention/src/artifact-retention.ts ArtifactCleanupResult *)
Record ArtifactCleanupResult := ArtifactCleanup { ar_scanned : Z; ar_deleted : Z; ar_skippedPrefixes : Z }.
Record prefix_result := PrefixResult { px_scanned : Z; px_deleted : Z; px_skipped : bool }.

Section Sweep.
Context {B : Type} `{RB : R2Bucket B}.

(** The bucket and the table of cursors. *)
Definition sweep_state : Type := B * list artifact_cursor_row.

Definition startAfter (lastKey : string) : option string := if String.eqb lastKey "" then None else Some lastKey.
Definition next_key (listed : R2Objects) : string :=
  let finalKey := match last (r2_objects listed) with Some o => r2_key o | None => "" end in
  if r2_truncated listed && negb (String.eqb finalKey "") then finalKey else "".
(* @src workers/retention/src/artifact-retention.ts cleanPrefix *)
Definition cleanPrefix (prefix : ArtifactPrefix) (now limit : Z) (s : sweep_state) : res prefix_result * sweep_state :=
  let '(b, db) := s in
  match acquirePrefixLease prefix now db with
  | (None, db1) => (Ok (PrefixResult 0 0 true), (b, db1))
  | (Some cursor, db1) =>
      match r2_list b (prefix_name prefix) (startAfter (pl_lastKey cursor)) limit with
      | Err e => (Err e, (b, db1))
      | Ok listed =>
          let expiredKeys := map r2_key (List.filter (fun o => expiredAt o now) (r2_objects listed)) in
          let '(deleted, b1) := match expiredKeys with [] => (Ok tt, b) | _ => r2_delete expiredKeys b end in
          match deleted with
          | Err e => (Err e, (b1, db1))
          | Ok _ =>
              let '(released, db2) := releasePrefixLease prefix (next_key listed) (pl_leaseUntil cursor) now db1 in
              ((let* _ := released in
                Ok (PrefixResult (Z.of_nat (length (r2_objects listed))) (Z.of_nat (length expiredKeys)) false)), (b1, db2))
          end
      end
  end.

(* @src workers/retention/src/artifact-retention.ts 106-112 cleanArtifactBucket *)
Fixpoint clean_prefixes (prefixes : list ArtifactPrefix) (now limit : Z) (result : ArtifactCleanupResult) (s : sweep_state)
  : res ArtifactCleanupResult * sweep_state :=
  match prefixes with
  | [] => (Ok result, s)
  | prefix :: rest =>
      match cleanPrefix prefix now limit s with
      | (Err e, s1) => (Err e, s1)
      | (Ok r, s1) =>
          clean_prefixes rest now limit
            (ArtifactCleanup (ar_scanned result + px_scanned r) (ar_deleted result + px_deleted r)
               (ar_skippedPrefixes result + (if px_skipped r then 1 else 0))) s1
      end
  end.
(* @src workers/retention/src/artifact-retention.ts cleanArtifactBucket *)
Definition cleanArtifactBucket (now limit : Z) (s : sweep_state) : res ArtifactCleanupResult * sweep_state :=
  if (limit <? 1) || (1000 <? limit) then (Err "artifact list batch must be between 1 and 1000", s)
  else clean_prefixes ARTIFACT_PREFIXES now limit (ArtifactCleanup 0 0 0) s.

(** Runs at the given times. *)
Definition sweeps (nows : list Z) (s : sweep_state) : sweep_state := foldl (fun s now => (cleanArtifactBucket now LIST_BATCH s).2) s nows.
End Sweep.
Arguments sweep_state B : clear implicits.

(** ** What a sweep deletes *)

(** [l] without some of its objects. *)
Definition shrinks (may : R2Object -> Prop) (before after : list R2Object) : Prop :=
  exists gone, after = List.filter (fun o => negb (gone o)) before /\ forall o, o ∈ before -> gone o = true -> may o.
Definition sweepable (prefix : ArtifactPrefix) (now : Z) (o : R2Object) : Prop :=
  expiredAt o now = true /\ starts_with (prefix_name prefix) (r2_key o) = true.

Lemma shrinks_refl may l : shrinks may l l.
Proof.
  exists (fun _ => false). split; [|done]. cbn. symmetry. induction l as [|x l IH]; [done|]. cbn. by rewrite IH.
Qed.
Lemma shrinks_weaken (may may' : R2Object -> Prop) a b : (forall o, may o -> may' o) -> shrinks may a b -> shrinks may' a b.
Proof. intros Hm (gone & -> & H). exists gone. split; [done|]. intros o Ho E. by apply Hm, H. Qed.
Lemma shrinks_trans may a b c : shrinks may a b -> shrinks may b c -> shrinks may a c.
Proof.
  intros (g1 & -> & H1) (g2 & -> & H2). exists (fun o => g1 o || g2 o). split.
  - clear. induction a as [|x a IH]; [done|]. cbn. destruct (g1 x); cbn; [by rewrite IH|]. destruct (g2 x); cbn; by rewrite IH.
  - intros o Ho [E|E]%orb_true_iff; [by apply H1|]. destruct (g1 o) eqn:E1; [by apply H1|]. apply H2; [|done].
    apply filter_In_elem. split; [done|]. by rewrite E1.
Qed.
Lemma shrinks_subset may a b o : shrinks may a b -> o ∈ b -> o ∈ a.
Proof. intros (gone & -> & _) Ho. by apply filter_In_elem in Ho as [? _]. Qed.
Lemma shrinks_lost may a b o : shrinks may a b -> o ∈ a -> o ∉ b -> may o.
Proof.
  intros (gone & -> & H) Ho Hno. apply H; [done|]. destruct (gone o) eqn:E; [done|]. destruct Hno. apply filter_In_elem.
  split; [done|]. by rewrite E.
Qed.
Lemma shrinks_count may p a b : shrinks may a b -> count_if p b <= count_if p a.
Proof.
  intros (gone & -> & _). clear. induction a as [|x a IH]; [done|]. cbn [List.filter]. destruct (negb (gone x)).
  - rewrite !count_if_cons. lia.
  - rewrite count_if_cons. destruct (p x); lia.
Qed.

Lemma str_ltb_trans a b c : String.ltb a b = true -> String.ltb b c = true -> String.ltb a c = true.
Proof.
  rewrite !str_ltb_leb, !negb_true_iff. intros H1 H2. apply not_true_iff_false. intros H3.
  destruct (String.leb_total b c) as [Hbc|Hcb]; [|congruence].
  apply not_true_iff_false in H1. apply H1. by apply (str_leb_trans _ _ _ Hbc).
Qed.
Lemma str_ltb_irrefl a : String.ltb a a = false.
Proof. rewrite str_ltb_leb. apply negb_false_iff. destruct (String.leb_total a a); done. Qed.
Lemma expired_mono o t now : t <= now -> expiredAt o t = true -> expiredAt o now = true.
Proof.
  unfold expiredAt. intros Hle. destruct (match r2_metadata o with Some _ => _ | None => _ end); [|done].
  destruct (_ || _); [done|]. intros H. bool_hyps. rewrite H. cbn. apply Z.leb_le. lia.
Qed.

(** The last key of a sorted listing is its greatest. *)
Lemma sorted_last l y o : Sorted r2_before l -> last l = Some y -> o ∈ l -> String.leb (r2_key o) (r2_key y) = true.
Proof.
  intros Hs Hl Ho. apply Sorted_StronglySorted in Hs; [|intros a b c; apply str_ltb_trans].
  induction l as [|x l IH]; [by apply elem_of_nil in Ho|]. inversion Hs as [|? ? Hs' Hall]; subst.
  rewrite last_cons in Hl. apply elem_of_cons in Ho as [->|Ho].
  - destruct (last l) as [z|] eqn:E; injection Hl as <-; [|by destruct (String.leb_total (r2_key x) (r2_key x))].
    apply last_Some_elem_of in E. rewrite Forall_forall in Hall. specialize (Hall z E). unfold r2_before in Hall.
    rewrite str_ltb_leb, negb_true_iff in Hall. by destruct (String.leb_total (r2_key x) (r2_key z)); [|congruence].
  - destruct (last l) as [z|] eqn:E; [injection Hl as <-; by apply IH|]. apply last_None in E as ->. by apply elem_of_nil in Ho.
Qed.

Section Facts.
Context {B : Type} `{RL : R2Laws B}.

(** No object of the prefix that had expired by [t] is left, up to the key or altogether. *)
Definition swept (prefix : ArtifactPrefix) (t : Z) (key : string) (b : B) : Prop := forall o, o ∈ r2_contents b ->
  starts_with (prefix_name prefix) (r2_key o) = true -> String.leb (r2_key o) key = true -> expiredAt o t = false.
Definition clean (prefix : ArtifactPrefix) (t : Z) (b : B) : Prop := forall o, o ∈ r2_contents b ->
  starts_with (prefix_name prefix) (r2_key o) = true -> expiredAt o t = false.
(** How many objects are ahead of the sweep. *)
Definition ahead (prefix : ArtifactPrefix) (key : string) (b : B) : Z :=
  count_if (r2_in_page (prefix_name prefix) (startAfter key)) (r2_contents b).

(** Until when a prefix is taken, and where its sweep stands. *)
Definition prefix_view : ArtifactPrefix -> list artifact_cursor_row -> lease_cell string := lease_view.
Definition sweep_cursor (prefix : ArtifactPrefix) (db : list artifact_cursor_row) : string :=
  match prefix_view prefix db with Some (_, key) => key | None => "" end.
Definition lease_free (prefix : ArtifactPrefix) (now : Z) (db : list artifact_cursor_row) : Prop :=
  match prefix_view prefix db with Some (u, _) => u <= now | None => True end.

Lemma acquire_spec prefix now db : keys_unique ac_prefix db ->
  let out := acquirePrefixLease prefix now db in
  keys_unique ac_prefix out.2 /\ (forall q, q <> prefix -> prefix_view q out.2 = prefix_view q db) /\
  match out.1 with
  | Some l => pl_lastKey l = sweep_cursor prefix db /\ prefix_view prefix out.2 = Some (pl_leaseUntil l, sweep_cursor prefix db)
  | None => prefix_view prefix out.2 = prefix_view prefix db /\ ~ lease_free prefix now db
  end.
Proof.
  intros Hu out. destruct (@acquire_refines _ _ _ PrefixTable PrefixLaws db prefix now Hu) as (Hr & Hw & Hv & Hf). unfold out.
  cbn [lease_acquire PrefixTable lease_wf lease_ms lease_fresh] in *. unfold sweep_cursor, lease_free, prefix_view in *.
  destruct (acquirePrefixLease prefix now db) as [l db1]. cbn [fst snd] in *. split_and!; [done | done |].
  cbn [lease_view PrefixTable] in *. unfold cell_acquire in *. destruct (row_view _ _ _ (prefix_name prefix) db) as [[u key]|].
  - destruct (u <=? now) eqn:E; destruct l as [l|]; try done; cbn in Hr; bool_hyps.
    + injection Hr as -> ->. by split.
    + split; [done | lia].
  - destruct l as [l|]; [|done]. cbn in Hr. injection Hr as -> ->. by split.
Qed.
Lemma release_spec prefix key held now db key0 : keys_unique ac_prefix db -> prefix_view prefix db = Some (held, key0) ->
  let out := releasePrefixLease prefix key held now db in
  out.1 = Ok tt /\ keys_unique ac_prefix out.2 /\ prefix_view prefix out.2 = Some (0, key) /\
  forall q, q <> prefix -> prefix_view q out.2 = prefix_view q db.
Proof.
  intros Hu Hv0 out. destruct (@release_refines _ _ _ PrefixTable PrefixLaws db prefix held key now Hu) as (Hr & Hw & Hv & Hf). unfold out.
  cbn [lease_release PrefixTable lease_wf] in *. destruct (releasePrefixLease prefix key held now db) as [r db1]. cbn [fst snd] in *.
  unfold prefix_view, cell_release in *. rewrite Hv0, Z.eqb_refl in *. cbn [fst snd] in *. destruct r as [[]|]; done.
Qed.

(** A deletion takes nothing but the expired objects of the page. *)
Lemma page_deletes prefix after now n b l (keys : list string) b1 : r2_list b (prefix_name prefix) after n = Ok l ->
  (forall k, k ∈ keys -> k ∈ map r2_key (List.filter (fun o => expiredAt o now) (r2_objects l))) ->
  (exists gone, r2_contents b1 = List.filter (fun o => negb (gone o)) (r2_contents b) /\ forall o, gone o = true -> r2_key o ∈ keys) ->
  shrinks (sweepable prefix now) (r2_contents b) (r2_contents b1).
Proof.
  intros Hl Hk (gone & E & Hg). exists gone. split; [done|]. intros o Ho Hgo. apply Hg, Hk in Hgo.
  apply list_elem_of_fmap in Hgo as (x & Ek & Hx). apply filter_In_elem in Hx as [Hx He].
  destruct (list_sound _ _ _ _ _ x Hl Hx) as [Hxb Hp]. assert (o = x) as ->.
  { pose proof (find_key_unique r2_key (r2_key x) _ o (contents_unique b) Ho Ek) as F1.
    pose proof (find_key_unique r2_key (r2_key x) _ x (contents_unique b) Hxb eq_refl) as F2. congruence. }
  unfold r2_in_page in Hp. bool_hyps. done.
Qed.

(** One page, whatever goes wrong: the bucket only loses expired objects of the prefix, and the
    other prefix keeps its cursor. *)
Lemma cleanPrefix_frame prefix now n s : keys_unique ac_prefix s.2 ->
  let out := (cleanPrefix prefix now n s).2 in
  shrinks (sweepable prefix now) (r2_contents s.1) (r2_contents out.1) /\ keys_unique ac_prefix out.2 /\
  forall q, q <> prefix -> prefix_view q out.2 = prefix_view q s.2.
Proof.
  destruct s as [b db]. intros Hu out. unfold out, cleanPrefix. cbn [fst snd].
  destruct (acquire_spec prefix now db Hu) as (Hu1 & Hq1 & Hv1). destruct (acquirePrefixLease prefix now db) as [[cursor|] db1];
    cbn [fst snd] in *; [|split_and!; [apply shrinks_refl | done | done]].
  destruct (r2_list b _ _ n) as [l|e] eqn:El; [|cbn [fst snd]; split_and!; [apply shrinks_refl | done | done]].
  set (keys := map r2_key _). destruct (match keys with [] => _ | _ :: _ => _ end) as [deleted b1] eqn:Ed.
  assert (Hs : shrinks (sweepable prefix now) (r2_contents b) (r2_contents b1)).
  { destruct keys as [|k keys'] eqn:Ek; [injection Ed as _ <-; apply shrinks_refl|].
    apply (page_deletes prefix (startAfter (pl_lastKey cursor)) now n b l (k :: keys') b1 El); [unfold keys in Ek; rewrite <- Ek; done|].
    destruct deleted as [[]|e].
    - apply delete_exact in Ed. rewrite Ed. eexists. split; [done|]. intros o Ho. by apply bool_decide_eq_true in Ho.
    - by apply delete_partial in Ed. }
  destruct deleted as [u|e]; [|cbn [fst snd]; done].
  destruct Hv1 as [_ Hv1]. destruct (release_spec prefix (next_key l) _ now db1 _ Hu1 Hv1) as (Hr & Hu2 & _ & Hq2).
  destruct (releasePrefixLease _ _ _ _ _) as [r db2]. cbn [fst snd] in *. split_and!; [done | done |].
  intros q Hne. by rewrite Hq2, Hq1.
Qed.

(** What a run of either prefix does for one of them. *)
Record pass_facts (prefix : ArtifactPrefix) (now : Z) (s s' : sweep_state B) : Prop := {
  pf_shrinks : shrinks (fun _ => True) (r2_contents s.1) (r2_contents s'.1);
  pf_unique : keys_unique ac_prefix s'.2;
  pf_free : forall t, 0 <= t -> lease_free prefix t s'.2;
  pf_swept : forall t, t <= now -> sweep_cursor prefix s.2 = "" \/ swept prefix t (sweep_cursor prefix s.2) s.1 ->
    if String.eqb (sweep_cursor prefix s'.2) "" then clean prefix t s'.1 else swept prefix t (sweep_cursor prefix s'.2) s'.1;
  pf_ahead : sweep_cursor prefix s'.2 = "" \/ ahead prefix (sweep_cursor prefix s'.2) s'.1 < ahead prefix (sweep_cursor prefix s.2) s.1;
}.

Lemma clean_shrinks prefix t may b b' : shrinks may (r2_contents b) (r2_contents b') -> clean prefix t b -> clean prefix t b'.
Proof. intros Hs Hc o Ho. apply Hc. by apply (shrinks_subset _ _ _ _ Hs). Qed.
Lemma swept_shrinks prefix t key may b b' : shrinks may (r2_contents b) (r2_contents b') -> swept prefix t key b -> swept prefix t key b'.
Proof. intros Hs Hc o Ho. apply Hc. by apply (shrinks_subset _ _ _ _ Hs). Qed.

Lemma count_if_lt {R} `{!EqDecision R} (p q : R -> bool) l x : (forall y, y ∈ l -> p y = true -> q y = true) -> x ∈ l -> p x = false -> q x = true ->
  count_if p l < count_if q l.
Proof.
  induction l as [|y l IH]; intros Hpq Hx Hp Hq; [by apply elem_of_nil in Hx|]. rewrite !count_if_cons.
  assert (Hle : count_if p l <= count_if q l).
  { clear - Hpq. induction l as [|z l IH]; [done|]. rewrite !count_if_cons. pose proof (Hpq z ltac:(right; left)) as Hz.
    assert (count_if p l <= count_if q l).
    { apply IH. intros w Hw. apply Hpq. apply elem_of_cons in Hw as [->|?]; [left | by right; right]. }
    destruct (p z); [rewrite Hz by done; lia | destruct (q z); lia]. }
  destruct (decide (x = y)) as [->|Hne].
  - rewrite Hp, Hq. lia.
  - apply elem_of_cons in Hx as [?|Hx]; [done|]. pose proof (Hpq y ltac:(left)) as Hy.
    assert (count_if p l < count_if q l) by (apply IH; try done; intros z Hz; apply Hpq; by right).
    destruct (p y); [rewrite Hy by done; lia | destruct (q y); lia].
Qed.

(** The page a run has deleted from: everything between the two cursors. *)
Lemma page_swept prefix now n b b1 l key t : r2_list b (prefix_name prefix) (startAfter key) n = Ok l -> t <= now ->
  (forall o, o ∈ r2_contents b1 -> o ∈ r2_contents b /\ (o ∈ r2_objects l -> expiredAt o now = false)) ->
  key = "" \/ swept prefix t key b ->
  if String.eqb (next_key l) "" then clean prefix t b1 else swept prefix t (next_key l) b1.
Proof.
  intros Hl Ht Hb1 Hsw.
  assert (Hgone : forall o, o ∈ r2_contents b1 -> starts_with (prefix_name prefix) (r2_key o) = true ->
    (r2_truncated l = false \/ exists y, last (r2_objects l) = Some y /\ String.leb (r2_key o) (r2_key y) = true) -> expiredAt o t = false).
  { intros o Ho Hp Hcase. destruct (Hb1 o Ho) as [Hob Hlist].
    destruct (r2_in_page (prefix_name prefix) (startAfter key) o) eqn:Epage.
    - destruct (list_complete _ _ _ _ _ o Hl Hob Epage) as [Hin|[Htr Hall]].
      + apply not_true_is_false. intros E. apply (expired_mono _ _ now Ht) in E. rewrite Hlist in E; done.
      + destruct Hcase as [E|(y & Hy & Hle)]; [congruence|]. apply last_Some_elem_of in Hy. specialize (Hall y Hy).
        unfold r2_before in Hall. rewrite str_ltb_leb, negb_true_iff in Hall. congruence.
    - unfold r2_in_page, startAfter in Epage. rewrite Hp in Epage. cbn in Epage. destruct (String.eqb_spec key "") as [->|Hne]; [done|].
      destruct Hsw as [?|Hsw]; [done|]. apply Hsw; [done | done|]. rewrite str_ltb_leb in Epage. by apply negb_false_iff in Epage. }
  unfold next_key. destruct (last (r2_objects l)) as [y|] eqn:El.
  - destruct (r2_truncated l && negb (String.eqb (r2_key y) "")) eqn:Ec.
    + bool_hyps. rewrite (proj2 (String.eqb_neq _ _)) by done. intros o Ho Hp Hle. apply Hgone; [done | done|]. right. by exists y.
    + cbn. intros o Ho Hp. apply Hgone; [done | done|]. destruct (r2_truncated l) eqn:Et; [|by left]. right. exists y. split; [done|].
      cbn in Ec. apply negb_false_iff, String.eqb_eq in Ec. exfalso.
      apply last_Some_elem_of in El. apply (list_sound _ _ _ _ _ y Hl) in El as [_ Hy]. unfold r2_in_page in Hy. rewrite Ec in Hy.
      by destruct prefix.
  - rewrite andb_false_r. cbn. intros o Ho Hp. apply Hgone; [done | done|]. left.
    apply not_true_is_false. intros Et. apply (list_progress _ _ _ _ _ Hl) in Et. by apply last_None in El.
Qed.

Lemma ahead_decreases prefix key n b b1 l : r2_list b (prefix_name prefix) (startAfter key) n = Ok l ->
  shrinks (fun _ => True) (r2_contents b) (r2_contents b1) -> next_key l = "" \/ ahead prefix (next_key l) b1 < ahead prefix key b.
Proof.
  intros Hl Hs. unfold next_key. destruct (last (r2_objects l)) as [y|] eqn:El; [|left; by rewrite andb_false_r].
  destruct (r2_truncated l && negb (String.eqb (r2_key y) "")) eqn:Ec; [|by left]. right. bool_hyps. unfold ahead.
  apply last_Some_elem_of in El. destruct (list_sound _ _ _ _ _ y Hl El) as [Hyb Hyp].
  pose proof (shrinks_count _ (r2_in_page (prefix_name prefix) (startAfter (r2_key y))) _ _ Hs) as Hle.
  assert (Hlt : count_if (r2_in_page (prefix_name prefix) (startAfter (r2_key y))) (r2_contents b) <
    count_if (r2_in_page (prefix_name prefix) (startAfter key)) (r2_contents b)); [|lia].
  assert (Ea : startAfter (r2_key y) = Some (r2_key y)) by (unfold startAfter; by rewrite (proj2 (String.eqb_neq _ _))).
  rewrite Ea. apply (count_if_lt _ _ _ y); [| done | | done].
  - unfold r2_in_page in *. intros z _ Hz. bool_hyps. apply andb_true_iff. split; [done|]. unfold startAfter in *.
    destruct (String.eqb key ""); [done|]. by apply (str_ltb_trans _ (r2_key y)).
  - unfold r2_in_page. by rewrite str_ltb_irrefl, andb_false_r.
Qed.

Context `{RA : !R2Available B}.

(** A run that gets the lease: a page is swept and the lease is free again. *)
Lemma cleanPrefix_pass prefix now n s : keys_unique ac_prefix s.2 -> lease_free prefix now s.2 ->
  let out := cleanPrefix prefix now n s in
  is_ok out.1 = true /\ pass_facts prefix now s out.2.
Proof.
  destruct s as [b db]. intros Hu Hfree out. pose proof (cleanPrefix_frame prefix now n (b, db) Hu) as (Hsh & Huq & _).
  fold out in Hsh, Huq. unfold out, cleanPrefix in *. cbn [fst snd] in *.
  destruct (acquire_spec prefix now db Hu) as (Hu1 & Hq1 & Hv1). destruct (acquirePrefixLease prefix now db) as [[cursor|] db1];
    cbn [fst snd] in *; [|by destruct Hv1]. destruct Hv1 as [Hkey Hv1].
  pose proof (list_answers b (prefix_name prefix) (startAfter (pl_lastKey cursor)) n) as Hok.
  destruct (r2_list b _ _ n) as [l|e] eqn:El; [clear Hok | done]. set (keys := map r2_key _) in *.
  destruct (match keys with [] => _ | _ :: _ => _ end) as [deleted b1] eqn:Ed.
  assert (Hd : exists u, deleted = Ok u).
  { destruct keys as [|k ks]; [injection Ed as <- _; by exists tt|]. pose proof (delete_answers (k :: ks) b) as Ha. rewrite Ed in Ha.
    cbn in Ha. destruct deleted as [u|]; [by exists u | done]. }
  destruct Hd as (u & ->). destruct (release_spec prefix (next_key l) _ now db1 _ Hu1 Hv1) as (Hr & Hu2 & Hv2 & _).
  destruct (releasePrefixLease _ _ _ _ _) as [r db2]. cbn [fst snd] in *. rewrite Hr. split; [done|].
  assert (Hcur : sweep_cursor prefix db2 = next_key l) by (unfold sweep_cursor; by rewrite Hv2).
  assert (Hcur0 : sweep_cursor prefix db = pl_lastKey cursor) by done.
  assert (Hsh' : shrinks (fun _ => True) (r2_contents b) (r2_contents b1)) by (by apply (shrinks_weaken (sweepable prefix now))).
  split; cbn [fst snd].
  - done.
  - done.
  - intros t Ht. unfold lease_free. by rewrite Hv2.
  - intros t Ht Hsw. rewrite Hcur, Hcur0 in *. apply (page_swept prefix now n b b1 l (pl_lastKey cursor) t El Ht); [|done].
    intros o Ho. split; [by apply (shrinks_subset _ _ _ _ Hsh)|]. intros Hin. apply not_true_is_false. intros He.
    assert (Hk : r2_key o ∈ keys).
    { apply list_elem_of_fmap. exists o. split; [done|]. by apply filter_In_elem. }
    destruct keys as [|k ks] eqn:Ek; [by apply elem_of_nil in Hk|]. destruct u. apply delete_exact in Ed. rewrite Ed in Ho.
    apply filter_In_elem in Ho as [_ Ho]. by rewrite bool_decide_eq_true_2 in Ho.
  - rewrite Hcur, Hcur0. by apply (ahead_decreases prefix (pl_lastKey cursor) n b b1 l).
Qed.

(** The run of the other prefix changes nothing of that. *)
Lemma pass_after prefix now s s1 s2 may : pass_facts prefix now s s1 -> shrinks may (r2_contents s1.1) (r2_contents s2.1) ->
  keys_unique ac_prefix s2.2 -> prefix_view prefix s2.2 = prefix_view prefix s1.2 -> pass_facts prefix now s s2.
Proof.
  intros [P1 P2 P3 P4 P5] Hs Hu Hv. assert (Hc : sweep_cursor prefix s2.2 = sweep_cursor prefix s1.2) by (unfold sweep_cursor; by rewrite Hv).
  pose proof (shrinks_count _ (r2_in_page (prefix_name prefix) (startAfter (sweep_cursor prefix s1.2))) _ _ Hs) as Hcount.
  split; rewrite ?Hc.
  - apply (shrinks_trans _ _ (r2_contents s1.1)); [done|]. by apply (shrinks_weaken may).
  - done.
  - intros t Ht. unfold lease_free. rewrite Hv. by apply P3.
  - intros t Ht Hsw. specialize (P4 t Ht Hsw). destruct (String.eqb _ ""); [by apply (clean_shrinks _ _ may s1.1) | by apply (swept_shrinks _ _ _ may s1.1)].
  - unfold ahead in *. destruct P5 as [?|?]; [by left | right; lia].
Qed.
Lemma pass_before prefix now s s1 s2 may : shrinks may (r2_contents s.1) (r2_contents s1.1) ->
  prefix_view prefix s1.2 = prefix_view prefix s.2 -> pass_facts prefix now s1 s2 -> pass_facts prefix now s s2.
Proof.
  intros Hs Hv [P1 P2 P3 P4 P5]. assert (Hc : sweep_cursor prefix s1.2 = sweep_cursor prefix s.2) by (unfold sweep_cursor; by rewrite Hv).
  pose proof (shrinks_count _ (r2_in_page (prefix_name prefix) (startAfter (sweep_cursor prefix s.2))) _ _ Hs) as Hcount.
  rewrite Hc in *. split.
  - apply (shrinks_trans _ _ (r2_contents s1.1)); [|done]. by apply (shrinks_weaken may).
  - done.
  - done.
  - intros t Ht [?|Hsw]; apply P4; [done | by left | done|]. right. by apply (swept_shrinks _ _ _ may s.1).
  - unfold ahead in *. destruct P5 as [?|?]; [by left | right; lia].
Qed.

Definition ready (now : Z) (s : sweep_state B) : Prop := keys_unique ac_prefix s.2 /\ forall prefix, lease_free prefix now s.2.
Lemma run_facts now s : 0 <= now -> ready now s ->
  let out := cleanArtifactBucket now LIST_BATCH s in
  is_ok out.1 = true /\ ready now out.2 /\ forall prefix, pass_facts prefix now s out.2.
Proof.
  intros Hnow [Hu Hfree] out. unfold out, cleanArtifactBucket, ARTIFACT_PREFIXES, LIST_BATCH. cbn [Z.ltb Z.compare orb clean_prefixes].
  destruct (cleanPrefix_pass exports_v1 now 500 s Hu (Hfree _)) as [Hok1 Hp1].
  destruct (cleanPrefix_frame exports_v1 now 500 s Hu) as (Hs1 & Hu1 & Hv1).
  change (500 <? 1) with false. change (1000 <? 500) with false. cbn [orb].
  destruct (cleanPrefix exports_v1 now 500 s) as [[r1|e] s1]; [|done]. cbn [fst snd] in *.
  assert (Hfree1 : lease_free backups_v1 now s1.2) by (unfold lease_free; rewrite Hv1 by done; apply Hfree).
  destruct (cleanPrefix_pass backups_v1 now 500 s1 Hu1 Hfree1) as [Hok2 Hp2].
  destruct (cleanPrefix_frame backups_v1 now 500 s1 Hu1) as (Hs2 & Hu2 & Hv2).
  destruct (cleanPrefix backups_v1 now 500 s1) as [[r2|e] s2]; [|done]. cbn [fst snd] in *. split_and!; [done | |].
  - split; [done|]. intros []; [|by apply (pf_free _ _ _ _ Hp2)]. unfold lease_free. rewrite Hv2 by done. by apply (pf_free _ _ _ _ Hp1).
  - intros [].
    + apply (pass_after _ _ _ s1 _ _ Hp1 Hs2 Hu2). by apply Hv2.
    + apply (pass_before _ _ _ s1 _ _ Hs1); [by apply Hv1 | done].
Qed.

Lemma ready_after now t s : (forall prefix, pass_facts prefix now s (cleanArtifactBucket now LIST_BATCH s).2) -> 0 <= t ->
  ready t (cleanArtifactBucket now LIST_BATCH s).2.
Proof. intros Hp Ht. split; [apply (Hp exports_v1) | intros p; by apply (Hp p)]. Qed.

Section Drain.
Context (prefix : ArtifactPrefix) (t : Z) (Ht : 0 <= t).

Lemma sweeps_clean nows : forall s, (forall now, now ∈ nows -> t <= now /\ ready now s) -> clean prefix t s.1 -> clean prefix t (sweeps nows s).1.
Proof using Ht RA RL.
  induction nows as [|now nows IH]; intros s Hn Hc; [done|]. destruct (Hn now ltac:(left)) as [Hle Hr].
  destruct (run_facts now s ltac:(lia) Hr) as (_ & _ & Hp). apply (IH (cleanArtifactBucket now LIST_BATCH s).2).
  - intros now' Hn'. destruct (Hn now' ltac:(by right)) as [Hle' _]. split; [done|]. apply ready_after; [done | lia].
  - by apply (clean_shrinks _ _ _ _ _ (pf_shrinks _ _ _ _ (Hp prefix))).
Qed.
(** A pass from the beginning ends, one page per run. *)
Lemma sweeps_pass nows : forall s, (forall now, now ∈ nows -> t <= now /\ ready now s) ->
  sweep_cursor prefix s.2 = "" \/ swept prefix t (sweep_cursor prefix s.2) s.1 ->
  ahead prefix (sweep_cursor prefix s.2) s.1 < Z.of_nat (length nows) -> clean prefix t (sweeps nows s).1.
Proof using Ht RA RL.
  induction nows as [|now nows IH]; intros s Hn Hsw Hlen.
  { unfold ahead in Hlen. pose proof (count_if_nonneg (r2_in_page (prefix_name prefix) (startAfter (sweep_cursor prefix s.2))) (r2_contents s.1)). cbn [length] in Hlen. lia. }
  destruct (Hn now ltac:(left)) as [Hle Hr]. destruct (run_facts now s ltac:(lia) Hr) as (_ & _ & Hp).
  assert (Hn' : forall now', now' ∈ nows -> t <= now' /\ ready now' (cleanArtifactBucket now LIST_BATCH s).2).
  { intros now' Hin. destruct (Hn now' ltac:(by right)) as [Hle' _]. split; [done|]. apply ready_after; [done | lia]. }
  pose proof (pf_swept _ _ _ _ (Hp prefix) t Hle Hsw) as Hsw'. pose proof (pf_ahead _ _ _ _ (Hp prefix)) as Ha.
  change (clean prefix t (sweeps nows (cleanArtifactBucket now LIST_BATCH s).2).1).
  destruct (String.eqb_spec (sweep_cursor prefix (cleanArtifactBucket now LIST_BATCH s).2.2) "") as [E|E].
  - by apply sweeps_clean.
  - apply IH; [done | by right|]. destruct Ha as [?|Ha]; [done|]. cbn [length] in Hlen. lia.
Qed.
Definition stored (b : B) : Z := count_if (fun o => starts_with (prefix_name prefix) (r2_key o)) (r2_contents b).
Lemma ahead_stored key b : ahead prefix key b <= stored b.
Proof using.
  unfold ahead, stored. induction (r2_contents b) as [|o l IH]; [done|]. rewrite !count_if_cons. unfold r2_in_page.
  destruct (starts_with _ _); cbn [andb]; [destruct (match startAfter key with Some _ => _ | None => _ end) |]; unfold r2_in_page in IH; lia.
Qed.
(** A pass that is under way ends, and the next one finds everything. *)
Lemma sweeps_drain nows : forall s, (forall now, now ∈ nows -> t <= now /\ ready now s) ->
  ahead prefix (sweep_cursor prefix s.2) s.1 + stored s.1 + 1 < Z.of_nat (length nows) -> clean prefix t (sweeps nows s).1.
Proof using Ht RA RL.
  induction nows as [|now nows IH]; intros s Hn Hlen.
  { unfold ahead, stored in Hlen. pose proof (count_if_nonneg (r2_in_page (prefix_name prefix) (startAfter (sweep_cursor prefix s.2))) (r2_contents s.1)).
    pose proof (count_if_nonneg (fun o => starts_with (prefix_name prefix) (r2_key o)) (r2_contents s.1)). cbn [length] in Hlen. lia. }
  destruct (Hn now ltac:(left)) as [Hle Hr]. destruct (run_facts now s ltac:(lia) Hr) as (_ & _ & Hp).
  assert (Hn' : forall now', now' ∈ nows -> t <= now' /\ ready now' (cleanArtifactBucket now LIST_BATCH s).2).
  { intros now' Hin. destruct (Hn now' ltac:(by right)) as [Hle' _]. split; [done|]. apply ready_after; [done | lia]. }
  pose proof (pf_ahead _ _ _ _ (Hp prefix)) as Ha. set (s1 := (cleanArtifactBucket now LIST_BATCH s).2) in *.
  assert (Hst : stored s1.1 <= stored s.1) by (apply (shrinks_count _ _ _ _ (pf_shrinks _ _ _ _ (Hp prefix)))).
  pose proof (ahead_stored (sweep_cursor prefix s1.2) s1.1) as Has. cbn [length] in Hlen.
  assert (H0 : 0 <= ahead prefix (sweep_cursor prefix s.2) s.1) by apply count_if_nonneg.
  change (clean prefix t (sweeps nows s1).1). destruct Ha as [E|Ha].
  - apply sweeps_pass; [done | by left | lia].
  - apply IH; [done | lia].
Qed.
End Drain.

(** Only what has expired goes.  Whatever a run does and wherever it fails, an object that was
    stored before and is not afterwards carries an expiry time that had passed at the run's time
    and has a key under one of the two prefixes the sweep is for. *)
Theorem artifact_sweep_safe now limit s o (Hu : keys_unique ac_prefix s.2) (Hin : o ∈ r2_contents s.1)
  (Hgone : o ∉ r2_contents (cleanArtifactBucket now limit s).2.1) :
  expiredAt o now = true /\ exists prefix, starts_with (prefix_name prefix) (r2_key o) = true.
Proof using RL.
  assert (H2 : shrinks (fun o => expiredAt o now = true /\ exists prefix, starts_with (prefix_name prefix) (r2_key o) = true)
    (r2_contents s.1) (r2_contents (cleanArtifactBucket now limit s).2.1)); [|by apply (shrinks_lost _ _ _ _ H2)].
  clear Hin Hgone. unfold cleanArtifactBucket. destruct (_ || _); [apply shrinks_refl|]. generalize (ArtifactCleanup 0 0 0).
  induction ARTIFACT_PREFIXES as [|p l IH] in s, Hu |- *; intros acc; [apply shrinks_refl|]. cbn [clean_prefixes].
  destruct (cleanPrefix_frame p now limit s Hu) as (Hs & Hu1 & _). destruct (cleanPrefix p now limit s) as [[r|e] s1]; cbn [fst snd] in *.
  - apply (shrinks_trans _ _ (r2_contents s1.1)); [|by apply IH]. apply (shrinks_weaken (sweepable p now)); [|done].
    intros x [? ?]. split; [done | by exists p].
  - apply (shrinks_weaken (sweepable p now)); [|done]. intros x [? ?]. split; [done | by exists p].
Qed.

(** Everything that has expired does go.  When the service answers and nobody else holds the
    prefixes, an object that had expired at a time [t] is deleted after so many runs at or after
    [t]: at most two passes, of at most one run per stored object and one to begin again. *)
Theorem artifact_sweep_drains prefix t nows s (Ht : 0 <= t) (Hready : forall now, now ∈ nows -> t <= now /\ ready now s)
  (Hlen : 2 * stored prefix s.1 + 1 < Z.of_nat (length nows)) :
  forall o, o ∈ r2_contents (sweeps nows s).1 -> starts_with (prefix_name prefix) (r2_key o) = true -> expiredAt o t = false.
Proof using RA RL.
  apply sweeps_drain; [done | done|]. pose proof (ahead_stored prefix (sweep_cursor prefix s.2) s.1). lia.
Qed.
End Facts.

(** ** A bucket *)

(** Objects kept in key order, at most two of them to a page. *)
Module ToyBucket.
Definition bucket : Type := { l : list R2Object | StronglySorted r2_before l }.
Definition page_of (l : list R2Object) (prefix : string) (after : option string) (limit : Z) : R2Objects :=
  let all := List.filter (r2_in_page prefix after) l in
  let n := Z.to_nat (Z.max 1 (Z.min 2 limit)) in Listing (take n all) (n <? length all)%nat.

Lemma sorted_filter f l : StronglySorted r2_before l -> StronglySorted r2_before (List.filter f l).
Proof.
  induction l as [|x l IH]; intros H; [done|]. inversion H as [|? ? Hs Hall]; subst. cbn. destruct (f x); [|by apply IH].
  constructor; [by apply IH|]. rewrite Forall_forall in *. intros y Hy. apply Hall. by apply filter_In_elem in Hy as [? _].
Qed.
Definition remove (keys : list string) (b : bucket) : bucket :=
  let f o := negb (bool_decide (r2_key o ∈ keys)) in exist _ (List.filter f (proj1_sig b)) (sorted_filter f _ (proj2_sig b)).

#[export] Instance toy_bucket : R2Bucket bucket := {|
  r2_list := fun b prefix after limit => Ok (page_of (proj1_sig b) prefix after limit);
  r2_delete := fun keys b => (Ok tt, remove keys b);
  r2_contents := fun b => proj1_sig b;
|}.

Lemma sorted_split (a b : list R2Object) : StronglySorted r2_before (a ++ b) ->
  StronglySorted r2_before a /\ forall x y, x ∈ a -> y ∈ b -> r2_before x y.
Proof.
  induction a as [|x a IH]; cbn [app]; intros H; [split; [constructor | intros x y Hx; by apply elem_of_nil in Hx]|].
  inversion H as [|? ? Hs Hall]; subst. destruct (IH Hs) as [H1 H2]. rewrite Forall_forall in Hall. split.
  - constructor; [done|]. rewrite Forall_forall. intros y Hy. apply Hall, elem_of_app. by left.
  - intros u y Hu Hy. apply elem_of_cons in Hu as [->|Hu]; [|by apply H2]. apply Hall, elem_of_app. by right.
Qed.
#[export] Instance toy_laws : R2Laws bucket.
Proof.
  split.
  - intros [l Hl]. cbn. unfold keys_unique. induction Hl as [|x l Hl IH Hall]; [constructor|]. cbn. constructor; [|done].
    intros (y & E & Hy)%list_elem_of_fmap. rewrite Forall_forall in Hall. specialize (Hall y Hy). unfold r2_before in Hall.
    by rewrite E, str_ltb_irrefl in Hall.
  - intros [l Hl] prefix after n ? [= <-]. cbn. apply StronglySorted_Sorted. pose proof (sorted_filter (r2_in_page prefix after) l Hl) as Hf.
    rewrite <- (take_drop (Z.to_nat (Z.max 1 (Z.min 2 n)))) in Hf. by apply sorted_split in Hf as [? _].
  - intros [l Hl] prefix after n ? o [= <-]. cbn. intros Ho. apply (subseteq_take (Z.to_nat (Z.max 1 (Z.min 2 n)))) in Ho.
    by apply filter_In_elem.
  - intros [l Hl] prefix after n ? o [= <-]. cbn. intros Ho Hp. pose proof (sorted_filter (r2_in_page prefix after) l Hl) as Hf.
    set (k := Z.to_nat (Z.max 1 (Z.min 2 n))). rewrite <- (take_drop k) in Hf. apply sorted_split in Hf as [_ Hb].
    assert (Hin : o ∈ List.filter (r2_in_page prefix after) l) by (by apply filter_In_elem).
    rewrite <- (take_drop k) in Hin. apply elem_of_app in Hin as [?|Hin]; [by left|]. right. split.
    + apply Nat.ltb_lt. destruct (decide (k < length (List.filter (r2_in_page prefix after) l))%nat) as [?|Hge]; [done|].
      rewrite drop_ge in Hin by lia. by apply elem_of_nil in Hin.
    + intros y Hy. by apply Hb.
  - intros [l Hl] prefix after n ? [= <-]. cbn. intros Hlt E. apply Nat.ltb_lt in Hlt. apply (f_equal length) in E.
    rewrite length_take in E. cbn in E. lia.
  - by intros keys b ? [= <-].
  - by intros.
Qed.
#[export] Instance toy_available : R2Available bucket.
Proof. by split. Qed.
End ToyBucket.
Import ToyBucket.

Definition ar_object (key at_ : string) : R2Object := MkR2Object key (Some {[ ARTIFACT_EXPIRY_METADATA := at_ ]}).
(** Two exports that expired, one that has not, a backup whose expiry is unreadable and an object
    of another kind. *)
Definition ar_objects : list R2Object :=
  [ar_object "backups/v1/a" "soon"; ar_object "exports/v1/a" "100"; ar_object "exports/v1/b" "90000"; ar_object "exports/v1/c" "200";
   ar_object "other" "1"].
Lemma ar_sorted : StronglySorted r2_before ar_objects.
Proof. repeat constructor. Qed.
Definition ar_state : sweep_state bucket := (exist _ ar_objects ar_sorted, [ArtifactCursor "exports/v1/" "exports/v1/b" 0 0]).

Example artifact_sweep_safe_witness :
  map r2_key (r2_contents (cleanArtifactBucket 1000 500 ar_state).2.1) = ["backups/v1/a"; "exports/v1/a"; "exports/v1/b"; "other"] /\
  expiredAt (ar_object "exports/v1/c" "200") 1000 = true.
Proof.
  split; [vm_compute; reflexivity|].
  apply (artifact_sweep_safe 1000 500 ar_state (ar_object "exports/v1/c" "200")).
  - apply (bool_decide_unpack _). vm_compute. exact I.
  - do 3 right. left.
  - apply (bool_decide_unpack _). vm_compute. exact I.
Defined.
Definition ar_times : list Z := [1000; 1001; 1002; 1003; 1004; 1005; 1006; 1007].
Example artifact_sweep_drains_witness :
  map r2_key (r2_contents (sweeps ar_times ar_state).1) = ["backups/v1/a"; "exports/v1/b"; "other"] /\
  forall o, o ∈ r2_contents (sweeps ar_times ar_state).1 -> starts_with "exports/v1/" (r2_key o) = true -> expiredAt o 1000 = false.
Proof.
  split; [vm_compute; reflexivity|].
  apply (artifact_sweep_drains exports_v1 1000 ar_times ar_state).
  - done.
  - intros now Hn. split; [unfold ar_times in Hn; rewrite !elem_of_cons, elem_of_nil in Hn; lia|]. split.
    + apply (bool_decide_unpack _). vm_compute. exact I.
    + unfold ar_times in Hn. rewrite !elem_of_cons, elem_of_nil in Hn. intros []; vm_compute; [intros E | exact I].
      destruct Hn as [->|[->|[->|[->|[->|[->|[->|[->|[]]]]]]]]]; discriminate.
  - vm_compute. reflexivity.
Defined.
