(* ===== verification/RetentionFrame.v ===== *)
(** * RetentionFrame: what no part of a retention run can do

    Every statement of [TelemetryRetention], [SoftDelete] and [SoftDeleteTelemetry] deletes rows or
    changes columns of rows; none adds a row.  [shrinking] says so for the tables that decide
    whether a workspace is empty, and that the workspaces the caller cares about ([spare]) keep
    their row and their memberships.  The record of runs is not touched. *)

From Stdlib Require Import ZArith Lia Bool String List.
From stdpp Require Import base tactics sets list strings.
From S2P Require Import Prelude.
From S2P Require Import Js.
From S2P Require Import Sql.
From S2P Require Import Authz.
From S2P Require Import CheckPersistence.
From S2P Require Import Lease.
From S2P Require Import RetentionTables.
From S2P Require Import Outbox.
From S2P Require Import ControlPlane.
From S2P Require Import TelemetryRetention.
From S2P Require Import SoftDeleteTelemetry.
From S2P Require Import ControlRetention.
From S2P Require Import SoftDelete.
Open Scope string_scope.
Open Scope Z_scope.

(** ** Telemetry *)

Record tables_shrink (t t' : telemetry_tables) : Prop := {
  ts_timed : forall table r, r ∈ tt_timed t' table -> r ∈ tt_timed t table;
  ts_latest : forall table r, r ∈ tt_latest t' table -> r ∈ tt_latest t table;
  ts_events : forall e, e ∈ tt_events t' -> e ∈ tt_events t;
  ts_runs : tt_runs t' = tt_runs t;
}.
Lemma ts_refl t : tables_shrink t t.
Proof. by split. Qed.
Lemma ts_trans a b c : tables_shrink a b -> tables_shrink b c -> tables_shrink a c.
Proof.
  intros H1 H2. split; [intros table r Hr; by apply H1, H2 | intros table r Hr; by apply H1, H2 | intros e He; by apply H1, H2|].
  etrans; [apply H2 | apply H1].
Qed.
(** One table is filtered. *)
Lemma ts_timed_filter table p t : tables_shrink t (set_timed table (List.filter p (tt_timed t table)) t).
Proof.
  split; try done. intros k r. cbn. case_bool_decide as E; [subst; by intros [? _]%filter_In_elem | done].
Qed.
Lemma ts_latest_filter table p t : tables_shrink t (set_latest table (List.filter p (tt_latest t table)) t).
Proof.
  split; try done. intros k r. cbn. case_bool_decide as E; [subst; by intros [? _]%filter_In_elem | done].
Qed.
Lemma ts_events_filter p queue t : tables_shrink t (set_events (List.filter p (tt_events t)) queue t).
Proof. split; try done. cbn. by intros e [? _]%filter_In_elem. Qed.
(** A loop over statements that return a count. *)
Lemma ts_fold {A} (step : A -> telemetry_tables -> Z * telemetry_tables) l :
  (forall x t, tables_shrink t (step x t).2) -> forall n t,
  tables_shrink t (foldl (fun '(n, t) x => let '(m, t') := step x t in (n + m, t')) (n, t) l).2.
Proof.
  intros Hs. induction l as [|x l IH]; intros n t; cbn [foldl]; [apply ts_refl|]. pose proof (Hs x t) as H1.
  destruct (step x t) as [m t']. apply (ts_trans _ t'); [done | apply IH].
Qed.

Create HintDb shrink.
#[export] Hint Resolve ts_refl ts_timed_filter ts_latest_filter ts_events_filter : shrink.

Lemma resource_rows_shrink target pk cutoff n t : tables_shrink t (deleteResourceRows target pk cutoff n t).2.
Proof. apply ts_timed_filter. Qed.
Lemma clean_resources_shrink target cutoff n resources : forall p t, tables_shrink t (clean_resources target cutoff n resources p t).2.
Proof.
  induction resources as [|pk rest IH]; intros p t; cbn [clean_resources]; [apply ts_refl|].
  pose proof (resource_rows_shrink target pk cutoff n t) as H1. destruct (deleteResourceRows _ _ _ _ _) as [m t1]. cbn [snd] in H1.
  destruct (n <=? m); [done|]. apply (ts_trans _ t1); [done | apply IH].
Qed.
Lemma target_shrink control policy target now b n t : tables_shrink t (cleanTelemetryTarget control policy target now b n t).2.
Proof.
  unfold cleanTelemetryTarget. set (p0 := Progress _ _ _ _). set (resources := resource_page _ _ _ _ _).
  pose proof (clean_resources_shrink target (now - tg_days target policy * DAY_MS) n resources p0 t) as H1.
  destruct (clean_resources _ _ _ _ _ _) as [p t1]. cbn [snd] in H1. 
  destruct (negb (tp_filled p) && _); destruct (upsert _ _ _ _ _) as [cursors k]; cbn [snd]; (apply (ts_trans _ t1); [done | by split]).
Qed.
Lemma history_shrink control policy now t : tables_shrink t (cleanTelemetryHistory control policy now t).2.
Proof. apply (ts_fold (fun target t => cleanTelemetryTarget control policy target now RESOURCE_BATCH ROW_BATCH t)). intros. apply target_shrink. Qed.
Lemma events_shrink policy cursor now n t : tables_shrink t (cleanStateEvents policy cursor now n t).2.
Proof. apply ts_events_filter. Qed.

Lemma replay_shrink batches n : forall t, tables_shrink t (deleteAgentReplayRows batches n t).2.
Proof.
  induction batches as [|ids rest IH]; intros t; cbn [deleteAgentReplayRows]; [apply ts_refl|].
  destruct (delete_in _ _ _ _ _ _) as [rows k]. pose proof (IH (set_replay rows t)) as H1.
  destruct (deleteAgentReplayRows rest n _) as [m t']. cbn [snd] in *. apply (ts_trans _ (set_replay rows t)); [by split | done].
Qed.
Lemma check_rows_shrink table pk batches n : forall t, tables_shrink t (deleteCheckRows table pk batches n t).2.
Proof.
  induction batches as [|ids rest IH]; intros t; cbn [deleteCheckRows]; [apply ts_refl|]. unfold delete_in at 1, delete_where at 1.
  set (t1 := set_timed table _ t). pose proof (IH t1) as H1. destruct (deleteCheckRows table pk rest n t1) as [m t']. cbn [snd] in *.
  apply (ts_trans _ t1); [apply ts_timed_filter | done].
Qed.
Lemma timed_rows_shrink table pk resource n t : tables_shrink t (deleteTimedResourceRows table pk resource n t).2.
Proof. apply ts_timed_filter. Qed.
Lemma latest_shrink table pk of_pk t : tables_shrink t (delete_latest table pk of_pk t).2.
Proof. apply ts_latest_filter. Qed.
Lemma purge_machine_shrink pk machine agents n t : tables_shrink t (purgeMachineTelemetry pk machine agents n t).2.
Proof.
  unfold purgeMachineTelemetry, purge_targets.
  pose proof (ts_fold (fun table t => deleteTimedResourceRows table pk machine n t) MACHINE_TARGETS (fun table t => timed_rows_shrink table pk machine n t) 0 t) as H1.
  destruct (foldl _ _ MACHINE_TARGETS) as [n1 t1]. cbn [snd] in H1. unfold deleteResourceEvents, deleteStatusBuckets, delete_latest, delete_in, delete_where.
  match goal with |- context [deleteAgentReplayRows ?b ?n ?t4] => pose proof (replay_shrink b n t4) as H5;
    assert (H4 : tables_shrink t t4); [|destruct (deleteAgentReplayRows b n t4) as [n5 t5]; cbn [snd] in *; by apply (ts_trans _ t4)] end.
  eapply ts_trans; [|apply ts_latest_filter]. eapply ts_trans; [|apply ts_timed_filter]. eapply ts_trans; [|apply ts_events_filter]. done.
Qed.
Lemma purge_service_shrink pk service checks n t : tables_shrink t (purgeServiceTelemetry pk service checks n t).2.
Proof.
  unfold purgeServiceTelemetry, purge_check_tables, purge_check_latest.
  pose proof (ts_fold (fun table t => deleteCheckRows table pk (chunks ID_BATCH checks) n t) CHECK_TARGETS (fun table t => check_rows_shrink table pk (chunks ID_BATCH checks) n t) 0 t) as H1.
  destruct (foldl _ _ CHECK_TARGETS) as [n1 t1]. cbn [snd] in H1.
  pose proof (ts_fold (fun ids t => delete_latest check_latest_table pk (fun k => z_in k ids) t) (chunks ID_BATCH checks)
    (fun ids t => latest_shrink check_latest_table pk _ t) n1 t1) as H2.
  destruct (foldl _ _ (chunks ID_BATCH checks)) as [n2 t2]. cbn [snd] in H2. unfold deleteResourceEvents, deleteStatusBuckets, delete_latest, delete_in, delete_where.
  cbn [snd]. eapply ts_trans; [|apply ts_latest_filter]. eapply ts_trans; [|apply ts_timed_filter].
  eapply ts_trans; [|apply ts_events_filter]. by apply (ts_trans _ t1).
Qed.
Lemma workspace_state_shrink pk t : tables_shrink t (deleteWorkspaceTelemetryState pk t).2.
Proof. by split. Qed.
#[export] Hint Resolve purge_machine_shrink purge_service_shrink workspace_state_shrink history_shrink events_shrink : shrink.

(** ** Both databases *)

Section Shrinking.
Context (spare : string -> Prop).

Record shrinking (st st' : stores) : Prop := {
  sk_tables : tables_shrink (telemetry st) (telemetry st');
  sk_machines : forall m, m ∈ ct_machines (control st') -> exists m0, m0 ∈ ct_machines (control st) /\ mg_workspace m0 = mg_workspace m;
  sk_services : forall m, m ∈ ct_services (control st') -> exists m0, m0 ∈ ct_services (control st) /\ mg_workspace m0 = mg_workspace m;
  sk_owned : forall table r, r ∈ ct_owned (control st') table -> r ∈ ct_owned (control st) table;
  sk_workspaces : forall w, w ∈ ct_workspaces (control st) -> spare (wk_id w) ->
    exists w', w' ∈ ct_workspaces (control st') /\ wk_id w' = wk_id w /\ wk_pk w' = wk_pk w /\ wk_deleted w' = wk_deleted w;
  sk_members : forall m, m ∈ ct_memberships (control st) -> spare (mb_workspace m) -> m ∈ ct_memberships (control st');
  sk_unique : keys_unique membership_key (ct_memberships (control st)) -> keys_unique membership_key (ct_memberships (control st'));
}.

Lemma sk_trans a b c : shrinking a b -> shrinking b c -> shrinking a c.
Proof.
  intros H1 H2. split.
  - apply (ts_trans _ (telemetry b)); [apply H1 | apply H2].
  - intros m Hm. apply (sk_machines _ _ H2) in Hm as (m1 & Hm & <-). by apply H1.
  - intros m Hm. apply (sk_services _ _ H2) in Hm as (m1 & Hm & <-). by apply H1.
  - intros table r Hr. by apply H1, H2.
  - intros w Hw Hs. apply (sk_workspaces _ _ H1) in Hw as (w1 & Hw & E1 & E2 & E3); [|done].
    apply (sk_workspaces _ _ H2) in Hw as (w2 & Hw & F1 & F2 & F3); [|by rewrite E1]. exists w2. split; [done|]. split_and!; congruence.
  - intros m Hm Hs. apply (sk_members _ _ H2); [by apply (sk_members _ _ H1) | done].
  - intros Hu. by apply H2, H1.
Qed.

(** Tables that play no part here. *)
Lemma sk_same st st' : tables_shrink (telemetry st) (telemetry st') ->
  ct_machines (control st') = ct_machines (control st) -> ct_services (control st') = ct_services (control st) ->
  (forall table r, r ∈ ct_owned (control st') table -> r ∈ ct_owned (control st) table) ->
  ct_workspaces (control st') = ct_workspaces (control st) -> ct_memberships (control st') = ct_memberships (control st) ->
  shrinking st st'.
Proof.
  intros Ht Em Es Eo Ew Eb. split; rewrite ?Em, ?Es, ?Ew, ?Eb; try done.
  - intros m Hm. by exists m.
  - intros m Hm. by exists m.
  - intros w Hw _. exists w. done.
Qed.
Lemma sk_refl st : shrinking st st.
Proof. by apply sk_same. Qed.
Lemma sk_tables_only d t t' : tables_shrink t t' -> shrinking (Stores d t) (Stores d t').
Proof. intros Ht. by apply sk_same. Qed.

(** Rows of machines or services whose workspace stays the same. *)
Lemma sk_machine_rows p f d t : (forall m, mg_workspace (f m) = mg_workspace m) ->
  shrinking (Stores d t) (Stores (set_machines (update_where p f (ct_machines d)).1 d) t).
Proof.
  intros Hf. split; try done.
  - cbn. intros m Hm. apply list_elem_of_fmap in Hm as (x & -> & Hx). exists x. split; [done|]. destruct (p x); [by rewrite Hf | done].
  - intros m Hm. by exists m.
  - intros w Hw _. by exists w.
Qed.
Lemma sk_service_rows p f d t : (forall m, mg_workspace (f m) = mg_workspace m) ->
  shrinking (Stores d t) (Stores (set_services (update_where p f (ct_services d)).1 d) t).
Proof.
  intros Hf. split; try done.
  - intros m Hm. by exists m.
  - cbn. intros m Hm. apply list_elem_of_fmap in Hm as (x & -> & Hx). exists x. split; [done|]. destruct (p x); [by rewrite Hf | done].
  - intros w Hw _. by exists w.
Qed.
Lemma sk_workspace_rows p f d t : (forall w, wk_id (f w) = wk_id w /\ wk_pk (f w) = wk_pk w /\ wk_deleted (f w) = wk_deleted w) ->
  shrinking (Stores d t) (Stores (set_workspaces (update_where p f (ct_workspaces d)).1 d) t).
Proof.
  intros Hf. split; try done.
  - intros m Hm. by exists m.
  - intros m Hm. by exists m.
  - cbn. intros w Hw _. exists (if p w then f w else w). split; [by apply (list_elem_of_fmap_2 (fun r => if p r then f r else r))|].
    by destruct (p w); [apply Hf|].
Qed.

(** ** Soft-deleted resources *)

Lemma claim_machine_shrink {policy m cutoff now d t} :
  shrinking (Stores d t) (Stores (set_machines (claimResourceFinalization policy (ct_workspaces d) m cutoff now (ct_machines d)).2 d) t).
Proof.
  pose proof (sk_machine_rows (resource_claimable policy (ct_workspaces d) m cutoff) (claimed_resource now) d t (fun _ => eq_refl)) as H.
  unfold claimResourceFinalization. by destruct (update_where _ _ _).
Qed.
Lemma claim_service_shrink {policy m cutoff now d t} :
  shrinking (Stores d t) (Stores (set_services (claimResourceFinalization policy (ct_workspaces d) m cutoff now (ct_services d)).2 d) t).
Proof.
  pose proof (sk_service_rows (resource_claimable policy (ct_workspaces d) m cutoff) (claimed_resource now) d t (fun _ => eq_refl)) as H.
  unfold claimResourceFinalization. by destruct (update_where _ _ _).
Qed.
Lemma claim_workspace_shrink policy cutoff now d t :
  shrinking (Stores d t) (Stores (claimWorkspaceFinalization policy cutoff now d).2 t).
Proof.
  unfold claimWorkspaceFinalization. destruct (workspace_deleted_at policy) as [k|]; [|apply sk_refl]. destruct (_ <? k); [apply sk_refl|].
  pose proof (sk_workspace_rows (workspace_claimable policy k cutoff) (claimed_workspace now) d t (fun _ => conj eq_refl (conj eq_refl eq_refl))) as H.
  by destruct (update_where _ _ _).
Qed.
Lemma finalize_machine_control_shrink policy id cutoff d t n d' : finalizeMachineControl policy id cutoff d = Ok (n, d') ->
  shrinking (Stores d t) (Stores d' t).
Proof.
  unfold finalizeMachineControl, delete_where, update_where. intros E. apply rbind_ok in E as ([n6 d6] & E & [= _ <-]).
  unfold delete_machine, delete_where in E. destruct (_ =? 0).
  - injection E as _ <-. by apply sk_same.
  - destruct (existsb _ _); [done|]. injection E as _ <-. split; try done.
    + intros m Hm. cbn in Hm. apply filter_In_elem in Hm as [Hm _]. by exists m.
    + intros m Hm. by exists m.
    + intros k r Hr. cbn in Hr. destruct k; cbn in *; [by apply filter_In_elem in Hr as [? _] | done | done | done].
    + intros w Hw _. by exists w.
Qed.
Lemma finalize_service_control_shrink policy id cutoff d t : shrinking (Stores d t) (Stores (finalizeServiceControl policy id cutoff d).2 t).
Proof.
  unfold finalizeServiceControl, delete_service, delete_where. destruct (_ =? 0); cbn [snd].
  - by apply sk_same.
  - split; try done.
    + intros m Hm. by exists m.
    + intros m Hm. cbn in Hm. apply filter_In_elem in Hm as [Hm _]. by exists m.
    + intros w Hw _. by exists w.
Qed.

Lemma finalize_machine_shrink policy cutoff now m st : shrinking st (finalize_machine policy cutoff now m st).2.
Proof.
  unfold finalize_machine. destruct st as [d t]. cbn [control telemetry]. pose proof (@claim_machine_shrink policy m cutoff now d t) as H1.
  destruct (claimResourceFinalization _ _ _ _ _ _) as [claimed machines]. cbn [snd] in H1. set (d1 := set_machines machines d) in *.
  destruct claimed; cbn [negb]; [|done]. destruct (assertAgentCursor d1 _ _) as [u|e]; [|done]. destruct (loadAgentPage d1 _ _) as [agents hasMore].
  pose proof (purge_machine_shrink (workspace_pk policy) (mg_pk m) (map ag_id agents) SOFT_ROW_BATCH t) as Ht.
  destruct (purgeMachineTelemetry _ _ _ _ _) as [purge t1]. cbn [snd] in Ht.
  assert (H2 : shrinking (Stores d t) (Stores d1 t1)) by (apply (sk_trans _ (Stores d1 t)); [done | by apply sk_tables_only]).
  destruct (pu_complete purge); cbn [negb]; [|done]. destruct hasMore.
  - destruct (last agents) as [a|]; [|done]. unfold advanceRelatedCursor.
    pose proof (sk_machine_rows (fun r => resource_named policy (mg_id m) r && bool_decide (mg_purge r <> None) && bool_decide (mg_cursor r = mg_cursor m))
      (moved_resource (ag_id a)) d1 t1 (fun _ => eq_refl)) as H3.
    destruct (update_where _ _ _) as [rows n]. cbn [fst snd] in *. by apply (sk_trans _ (Stores d1 t1)).
  - destruct (finalizeMachineControl policy (mg_id m) cutoff d1) as [[n d2]|e] eqn:E; [|done]. cbn [snd].
    apply (sk_trans _ (Stores d1 t1)); [done|]. by eapply finalize_machine_control_shrink.
Qed.
Lemma finalize_service_shrink policy cutoff now m st : shrinking st (finalize_service policy cutoff now m st).2.
Proof.
  unfold finalize_service. destruct st as [d t]. cbn [control telemetry]. pose proof (@claim_service_shrink policy m cutoff now d t) as H1.
  destruct (claimResourceFinalization _ _ _ _ _ _) as [claimed services]. cbn [snd] in H1. set (d1 := set_services services d) in *.
  destruct claimed; cbn [negb]; [|done]. destruct (assertCheckCursor _ d1 _ _) as [u|e]; [|done]. destruct (loadCheckPage _ d1 _ _) as [checks hasMore].
  pose proof (purge_service_shrink (workspace_pk policy) (mg_pk m) (map pc_pk checks) SOFT_ROW_BATCH t) as Ht.
  destruct (purgeServiceTelemetry _ _ _ _ _) as [purge t1]. cbn [snd] in Ht.
  assert (H2 : shrinking (Stores d t) (Stores d1 t1)) by (apply (sk_trans _ (Stores d1 t)); [done | by apply sk_tables_only]).
  destruct (pu_complete purge); cbn [negb]; [|done]. destruct (deleteSecrets _ _ _) as [n secrets].
  assert (H3 : shrinking (Stores d t) (Stores (set_secrets secrets d1) t1)).
  { apply (sk_trans _ (Stores d1 t1)); [done|]. by apply sk_same. }
  destruct hasMore.
  - destruct (last checks) as [a|]; [|done]. unfold advanceRelatedCursor.
    pose proof (sk_service_rows (fun r => resource_named policy (mg_id m) r && bool_decide (mg_purge r <> None) && bool_decide (mg_cursor r = mg_cursor m))
      (moved_resource (pc_pk a)) (set_secrets secrets d1) t1 (fun _ => eq_refl)) as H4.
    destruct (update_where _ _ _) as [rows k]. cbn [fst snd] in *. by apply (sk_trans _ (Stores (set_secrets secrets d1) t1)).
  - pose proof (finalize_service_control_shrink policy (mg_id m) cutoff (set_secrets secrets d1) t1) as H4.
    destruct (finalizeServiceControl _ _ _ _) as [k d3]. cbn [snd] in *. by apply (sk_trans _ (Stores (set_secrets secrets d1) t1)).
Qed.
Lemma finalize_each_shrink {R} (step : R -> stores -> res Z * stores) rows : (forall r st, shrinking st (step r st).2) ->
  forall st, shrinking st (finalize_each step rows st).2.
Proof.
  intros Hs. induction rows as [|r rows IH]; intros st; cbn [finalize_each]; [apply sk_refl|]. pose proof (Hs r st) as H1.
  destruct (step r st) as [[n|e] st1]; cbn [snd] in *; [|done]. pose proof (IH st1) as H2.
  destruct (finalize_each step rows st1) as [m st2]. cbn [snd] in *. by apply (sk_trans _ st1).
Qed.

Lemma sk_owned_rows p table d t : shrinking (Stores d t) (Stores (set_owned table (List.filter p (ct_owned d table)) d) t).
Proof. apply sk_same; try done. intros k r. cbn. case_bool_decide as E; [subst; by intros [? _]%filter_In_elem | done]. Qed.
Lemma finalize_table_shrink policy cutoff table type d t : shrinking (Stores d t) (Stores (finalizeControlOnlyTable policy cutoff table type d).2 t).
Proof.
  unfold finalizeControlOnlyTable. destruct (_ =? 0)%nat; [apply sk_refl|]. unfold delete_where.
  assert (Hcascade : forall ids d1, shrinking (Stores d1 t) (Stores (cascade_owned table ids d1) t)).
  { intros ids d1. destruct table; by apply sk_same. }
  destruct type as [k|]; cbn [bool_decide]; destruct (bool_decide _); cbn [snd]; (eapply sk_trans; [|apply Hcascade]);
    (eapply sk_trans; [|apply sk_owned_rows]); try apply sk_refl; by apply sk_same.
Qed.
Lemma finalize_owned_shrink policy cutoff d t : shrinking (Stores d t) (Stores (finalize_owned policy cutoff d).2 t).
Proof.
  unfold finalize_owned. generalize [(containers, Some RContainer); (dashboards, Some RDashboard); (incidents, Some RIncident); (announcements, None)].
  intros tables. generalize 0. revert d. induction tables as [|[table type] rest IH]; intros d n; cbn [foldl]; [apply sk_refl|].
  pose proof (finalize_table_shrink policy cutoff table type d t) as H1. destruct (finalizeControlOnlyTable _ _ _ _ d) as [m d1]. cbn [snd] in *.
  apply (sk_trans _ (Stores d1 t)); [done | apply IH].
Qed.
Lemma soft_deleted_shrink policy now st : shrinking st (finalizeSoftDeletedResources policy now st).2.
Proof.
  unfold finalizeSoftDeletedResources, finalizeMachines, finalizeServices. set (cutoff := grace_cutoff policy now).
  destruct st as [d t]. cbn [control telemetry]. pose proof (claim_workspace_shrink policy cutoff now d t) as H1.
  destruct (claimWorkspaceFinalization _ _ _ _) as [claimed d1]. cbn [snd control] in *. destruct claimed; cbn [negb]; [|done].
  pose proof (finalize_each_shrink (finalize_machine policy cutoff now) (deletedResources policy cutoff (ct_machines d1))
    (finalize_machine_shrink policy cutoff now) (Stores d1 t)) as H2.
  destruct (finalize_each _ _ (Stores d1 t)) as [[machines|e] st2]; cbn [snd] in *; [|by apply (sk_trans _ (Stores d1 t))].
  pose proof (finalize_each_shrink (finalize_service policy cutoff now) (deletedResources policy cutoff (ct_services (control st2)))
    (finalize_service_shrink policy cutoff now) st2) as H3.
  assert (H12 : shrinking (Stores d t) st2) by (by apply (sk_trans _ (Stores d1 t))).
  destruct (finalize_each _ _ st2) as [[services|e] st3]; cbn [snd] in *; [|by apply (sk_trans _ st2)].
  pose proof (finalize_owned_shrink policy cutoff (control st3) (telemetry st3)) as H4. destruct (finalize_owned _ _ _) as [owned d']. cbn [snd] in *.
  apply (sk_trans _ st3); [by apply (sk_trans _ st2)|]. by destruct st3.
Qed.

(** ** Deleted workspaces *)

Lemma cascade_keeps workspaceId pending : (forall p, p ∈ pending -> mb_workspace p = workspaceId) -> forall t t',
  cascade_memberships pending t = Ok t' ->
  (keys_unique membership_key t -> keys_unique membership_key t') /\ forall m, m ∈ t -> mb_workspace m <> workspaceId -> m ∈ t'.
Proof.
  induction pending as [|p rest IH]; intros Hp t t' E; cbn [cascade_memberships] in E; [by injection E as <-|].
  destruct (admin_guard p t); [done|]. destruct (IH (fun q Hq => Hp q (list_elem_of_further _ _ _ Hq)) _ _ E) as [Hu Hk]. split.
  - intros Ht. apply Hu. by apply delete_where_unique.
  - intros m Hm Hne. apply Hk; [|done]. cbn. apply filter_In_elem. split; [done|]. apply negb_true_iff. unfold key_is.
    apply bool_decide_eq_false. intros Ek. apply Hne. rewrite <- (Hp p (list_elem_of_here _ _)). unfold membership_key in Ek. congruence.
Qed.
Lemma delete_workspace_shrink workspaceId deleted d t n d' : (forall id, spare id -> id <> workspaceId) ->
  delete_workspace workspaceId deleted d = Ok (n, d') -> shrinking (Stores d t) (Stores d' t).
Proof.
  intros Hs. unfold delete_workspace. destruct (_ =? 0); [intros [= _ <-]; apply sk_refl|]. intros E.
  apply rbind_ok in E as (rows & Ec & [= _ <-]).
  destruct (cascade_keeps workspaceId (List.filter (fun m => String.eqb (mb_workspace m) workspaceId) (ct_memberships d))
    (fun p Hp => proj1 (String.eqb_eq _ _) (proj2 (proj1 (filter_In_elem _ _ _) Hp))) _ _ Ec) as [Hu Hk].
  split; try done; cbn [control set_memberships cascade_workspace ct_machines ct_services ct_owned ct_workspaces ct_memberships].
  - intros m [Hm _]%filter_In_elem. by exists m.
  - intros m [Hm _]%filter_In_elem. by exists m.
  - intros k r [Hr _]%filter_In_elem. done.
  - intros w Hw Hsp. exists w. split; [|done]. apply filter_In_elem. split; [done|]. unfold not_of. apply negb_true_iff, String.eqb_neq. by apply Hs.
  - intros m Hm Hsp. apply Hk; [done | by apply Hs].
Qed.
Lemma deleted_workspace_shrink policy now st :
  (forall id, spare id -> id <> workspace_id policy) \/ is_ok (finalizeDeletedWorkspace policy now st).1 = false ->
  shrinking st (finalizeDeletedWorkspace policy now st).2.
Proof.
  intros Hs. unfold finalizeDeletedWorkspace in *. destruct (workspace_deleted_at policy) as [k|]; [|apply sk_refl].
  destruct (_ <? k); [apply sk_refl|]. destruct st as [d t]. cbn [control telemetry] in *.
  pose proof (claim_workspace_shrink policy (grace_cutoff policy now) now d t) as H1.
  destruct (claimWorkspaceFinalization _ _ _ _) as [claimed d1]. cbn [snd] in *. destruct claimed; cbn [negb] in *; [|done].
  destruct (_ || _); [done|]. pose proof (workspace_state_shrink (workspace_pk policy) t) as Ht.
  destruct (deleteWorkspaceTelemetryState _ _) as [n t1]. cbn [snd] in Ht.
  assert (H2 : shrinking (Stores d t) (Stores d1 t1)) by (apply (sk_trans _ (Stores d1 t)); [done | by apply sk_tables_only]).
  destruct (delete_workspace (workspace_id policy) k d1) as [[m d']|e] eqn:E; cbn [fst snd is_ok] in *; [|done].
  destruct Hs as [Hs|Hs]; [|done]. apply (sk_trans _ (Stores d1 t1)); [done|]. by eapply delete_workspace_shrink.
Qed.

(** ** Rows of the control database *)

Lemma announcements_shrink workspaceId now days n d t : shrinking (Stores d t) (Stores (cleanExpiredAnnouncements workspaceId now days n d).2 t).
Proof. apply sk_owned_rows. Qed.
Lemma audits_shrink workspaceId now days n d t : shrinking (Stores d t) (Stores (cleanAuditLogs workspaceId now days n d).2 t).
Proof. by apply sk_same. Qed.
Lemma notifications_shrink workspaceId now days n d t k d' : cleanNotificationDeliveries workspaceId now days n d = Ok (k, d') ->
  shrinking (Stores d t) (Stores d' t).
Proof.
  unfold cleanNotificationDeliveries. destruct (_ || _); [done|]. destruct (clean_delivery_state _ _ _ Sent _) as [t1 sent].
  destruct (clean_delivery_state _ _ _ Dead _) as [t2 dead]. intros [= _ <-]. by apply sk_same.
Qed.
Lemma secrets_shrink `{SJ : SqliteJson} workspaceId now n d t k d' : cleanOrphanCheckSecrets workspaceId now n d = Ok (k, d') ->
  shrinking (Stores d t) (Stores d' t).
Proof.
  unfold cleanOrphanCheckSecrets. destruct (_ || _); [done|]. destruct (delete_in _ _ _ _ _ _) as [rows m]. intros [= _ <-]. by apply sk_same.
Qed.
End Shrinking.
