(* ===== verification/RetentionWorker.v ===== *)
(** * RetentionWorker: one run over everybody's data

    [workers/retention/src/index.ts].  A run is claimed by its scheduled time, takes up to a
    hundred workspaces behind the cursor of the last run that ended well, cleans each under the
    workspace's lease, and stores the next cursor, but only when it got through the whole batch.
    [TelemetryRetention], [ControlRetention], [SoftDelete] and [ArtifactRetention] are what a run
    consists of.

    [Date.now()] is read many times during a run; [clock] gives the value of each reading. *)

From Stdlib Require Import ZArith Lia Bool String List Sorted.
From stdpp Require Import base tactics sets list strings sorting.
From S2P Require Import Prelude.
From S2P Require Import Js.
From S2P Require Import Sql.
From S2P Require Import Authz.
From S2P Require Import CheckPersistence.
From S2P Require Import Lease.
From S2P Require Import RetentionTables.
From S2P Require Import Outbox.
From S2P Require Import ControlPlane.
From S2P Require Import TelemetryRetention.
From S2P Require Import SoftDeleteTelemetry.
From S2P Require Import ControlRetention.
From S2P Require Import SoftDelete.
From S2P Require Import RetentionFrame.
From S2P Require Import RoundRobin.
From S2P Require Import ArtifactRetention.
Open Scope string_scope.
Open Scope Z_scope.

(* @src workers/retention/src/index.ts 17-20 RUN_HISTORY_BATCH *)
Definition POLICY_BATCH : Z := 100.
Definition RUN_WORK_BUDGET_MS : Z := 12 * 60000.
Definition RUN_HISTORY_RETENTION_MS : Z := 30 * 86400000.
Definition RUN_HISTORY_BATCH : Z := 100.

(* @src workers/retention/src/index.ts RetentionPolicyBatch *)
Record RetentionPolicyBatch := PolicyBatch {
  policies : list RetentionPolicyRow;
  workspaceCursor : Z;
  nextWorkspaceCursor : Z;
}.
(* @src workers/retention/src/index.ts WorkspaceCleanupResult *)
Record WorkspaceCleanupResult := WorkspaceCleanup { wr_deletedRows : Z; wr_processed : bool }.
(* @src workers/retention/src/index.ts RetentionPolicyProgress *)
Record RetentionPolicyProgress := PolicyProgress {
  pp_deletedRows : Z;
  pp_skippedWorkspaces : Z;
  pp_deadlineReached : bool;
}.

(** ** The loop over a batch *)

Section Process.
Context {S : Type} (shouldContinue : S -> bool * S) (clean : RetentionPolicyRow -> S -> res WorkspaceCleanupResult * S).

(* @src workers/retention/src/index.ts 44-60 processRetentionPolicies *)
Fixpoint process_policies (l : list RetentionPolicyRow) (deletedRows skippedWorkspaces : Z) (s : S) : res RetentionPolicyProgress * S :=
  match l with
  | [] => (Ok (PolicyProgress deletedRows skippedWorkspaces false), s)
  | policy :: rest =>
      let '(go, s1) := shouldContinue s in
      if negb go then (Ok (PolicyProgress deletedRows (skippedWorkspaces + Z.of_nat (length l)) true), s1)
      else
        match clean policy s1 with
        | (Err e, s2) => (Err e, s2)
        | (Ok result, s2) =>
            process_policies rest (deletedRows + wr_deletedRows result)
              (if wr_processed result then skippedWorkspaces else skippedWorkspaces + 1) s2
        end
  end.
(* @src workers/retention/src/index.ts processRetentionPolicies *)
Definition processRetentionPolicies (l : list RetentionPolicyRow) (s : S) : res RetentionPolicyProgress * S :=
  process_policies l 0 0 s.
End Process.

(* @src workers/retention/src/index.ts resolveRetentionWorkspaceCursor *)
Definition resolveRetentionWorkspaceCursor (policyBatch : RetentionPolicyBatch) (skippedWorkspaces : Z) : Z :=
  if skippedWorkspaces =? 0 then nextWorkspaceCursor policyBatch else workspaceCursor policyBatch.

(** ** The record of runs *)

Definition run_leb : run_row -> run_row -> bool := time_id_leb rr_started rr_id.
(* @src workers/retention/src/index.ts cleanRetentionRunHistory *)
Definition cleanRetentionRunHistory (currentRunId : string) (now batch : Z) (t : telemetry_tables) : res Z * telemetry_tables :=
  if (batch <? 1) || (RUN_HISTORY_BATCH <? batch) then (Err "retention run history batch must be between 1 and 100", t)
  else
    let '(rows, n) := delete_in rr_id run_leb batch (fun _ => true)
      (fun r => (rr_started r <? now - RUN_HISTORY_RETENTION_MS) && negb (String.eqb (rr_id r) currentRunId)) (tt_runs t) in
    (Ok n, set_runs rows t).

(** [ORDER BY run_id DESC] *)
Definition run_desc (a b : run_row) : bool := String.leb (rr_id b) (rr_id a).
(** The last run before [runId] that ended well. *)
Definition previous_run (runId : string) (runs : list run_row) : option run_row :=
  head (order_limit run_desc 1
    (List.filter (fun r => String.ltb (rr_id r) runId && bool_decide (rr_completed r <> None) && bool_decide (rr_error r = None)) runs)).
(** Where the run begins. *)
Definition start_cursor (runId : string) (runs : list run_row) : Z :=
  match previous_run runId runs with Some r => rr_cursor r | None => 0 end.

Definition policy_of (w : workspace_state) (p : policy_row) : RetentionPolicyRow :=
  RetentionPolicy (wk_id w) (wk_pk w) (wk_deleted w) (wk_purge w) (rp_raw_days p) (rp_rollup_5m_days p) (rp_rollup_1h_days p)
    (rp_event_days p) (rp_audit_log_days p) (rp_announcement_days p) (rp_soft_delete_days p).
(** [retention_policies p JOIN workspaces w ON w.id = p.workspace_id] *)
Definition joined_policies (d : control_tables) : list RetentionPolicyRow :=
  concat (map (fun p => map (fun w => policy_of w p) (List.filter (fun w => String.eqb (wk_id w) (rp_workspace p)) (ct_workspaces d)))
    (ct_policies d)).
Definition policy_leb (a b : RetentionPolicyRow) : bool := workspace_pk a <=? workspace_pk b.
(* @src workers/retention/src/index.ts 110-130 loadRetentionPolicyBatch *)
Definition policy_page (d : control_tables) (cursor policyBatch : Z) : RetentionPolicyBatch :=
  let rows := order_limit policy_leb (policyBatch + 1) (List.filter (fun p => cursor <? workspace_pk p) (joined_policies d)) in
  let page := take (Z.to_nat policyBatch) rows in
  PolicyBatch page cursor
    (if policyBatch <? Z.of_nat (length rows) then match last page with Some p => workspace_pk p | None => 0 end else 0).
(* @src workers/retention/src/index.ts loadRetentionPolicyBatch *)
Definition loadRetentionPolicyBatch (d : control_tables) (t : telemetry_tables) (runId : string) (policyBatch : Z) : res RetentionPolicyBatch :=
  throw_if (policyBatch <? 1) || (POLICY_BATCH <? policyBatch) as "retention policy batch must be between 1 and 100" in
  Ok (policy_page d (start_cursor runId (tt_runs t)) policyBatch).

(** ** A run *)

Section Run.
Context {B : Type} `{RB : R2Bucket B} `{SJ : SqliteJson} (clock : nat -> Z).

(** The worker's bindings, and how often the clock has been read. *)
Record retention_env := RetentionEnv { re_stores : stores; re_bucket : B; re_tick : nat }.
Definition Date_now (e : retention_env) : Z * retention_env :=
  (clock (re_tick e), RetentionEnv (re_stores e) (re_bucket e) (S (re_tick e))).
Definition with_stores (st : stores) (e : retention_env) : retention_env := RetentionEnv st (re_bucket e) (re_tick e).
Definition tables (e : retention_env) : telemetry_tables := telemetry (re_stores e).
Definition with_tables (t : telemetry_tables) (e : retention_env) : retention_env :=
  with_stores (Stores (control (re_stores e)) t) e.

Definition release_workspace (lease : WorkspaceRetentionLease) (cursor : Z) (e : retention_env) : res unit * retention_env :=
  let '(now, e1) := Date_now e in
  let '(r, cursors) := releaseWorkspaceRetentionLease lease cursor now (tt_cursors (tables e1)) in
  (r, with_tables (set_retention_cursors cursors (tables e1)) e1).
(** What a run cleans of one workspace; after the lease is given back, the workspace itself. *)
(* @src workers/retention/src/index.ts 145-180 cleanWorkspace *)
Definition clean_leased (policy : RetentionPolicyRow) (now : Z) (lease : WorkspaceRetentionLease) (e : retention_env)
  : res WorkspaceCleanupResult * retention_env :=
  let st := re_stores e in
  let id := workspace_id policy in
  let '(history, t1) := cleanTelemetryHistory (control st) policy now (telemetry st) in
  let '((events, timeCursor), t2) := cleanStateEvents policy (wl_eventTimeCursor lease) now ROW_BATCH t1 in
  let '(announced, d1) := cleanExpiredAnnouncements id now (expired_announcement_grace_days policy) 200 (control st) in
  let '(audits, d2) := cleanAuditLogs id now (audit_log_days policy) 200 d1 in
  match finalizeSoftDeletedResources policy now (Stores d2 t2) with
  | (Err x, st3) => (Err x, with_stores st3 e)
  | (Ok softDeletes, st3) =>
      match cleanNotificationDeliveries id now (audit_log_days policy) 200 (control st3) with
      | Err x => (Err x, with_stores st3 e)
      | Ok (notifications, d4) =>
          match cleanOrphanCheckSecrets id now ORPHAN_SECRET_BATCH d4 with
          | Err x => (Err x, with_stores (Stores d4 (telemetry st3)) e)
          | Ok (orphans, d5) =>
              match release_workspace lease timeCursor (with_stores (Stores d5 (telemetry st3)) e) with
              | (Err x, e6) => (Err x, e6)
              | (Ok _, e6) =>
                  match finalizeDeletedWorkspace policy now (re_stores e6) with
                  | (Err x, st7) => (Err x, with_stores st7 e6)
                  | (Ok workspace, st7) =>
                      (Ok (WorkspaceCleanup (history + events + announced + audits + notifications + softDeletes + orphans + workspace) true),
                       with_stores st7 e6)
                  end
              end
          end
      end
  end.
(* @src workers/retention/src/index.ts cleanWorkspace *)
Definition cleanWorkspace (now : Z) (policy : RetentionPolicyRow) (e : retention_env) : res WorkspaceCleanupResult * retention_env :=
  let '(read, e1) := Date_now e in
  let '(lease, cursors) := acquireWorkspaceRetentionLease (workspace_pk policy) read (tt_cursors (tables e1)) in
  let e2 := with_tables (set_retention_cursors cursors (tables e1)) e1 in
  match lease with
  | None => (Ok (WorkspaceCleanup 0 false), e2)
  | Some lease => clean_leased policy now lease e2
  end.

Definition before_deadline (deadline : Z) (e : retention_env) : bool * retention_env :=
  let '(read, e1) := Date_now e in (read <? deadline, e1).
Definition run_key (runId : string) (r : run_row) : bool := String.eqb (rr_id r) runId.
(** [UPDATE retention_runs SET completed_at, deleted_rows, workspace_cursor] *)
Definition complete_run (at_ deleted cursor : Z) (r : run_row) : run_row := RunRow (rr_id r) (rr_started r) (Some at_) deleted (rr_error r) cursor.
(** [UPDATE retention_runs SET completed_at, error_code] *)
Definition fail_run (at_ : Z) (r : run_row) : run_row :=
  RunRow (rr_id r) (rr_started r) (Some at_) (rr_deleted r) (Some "retention_failed") (rr_cursor r).
Definition update_runs (runId : string) (f : run_row -> run_row) (e : retention_env) : Z * retention_env :=
  let '(rows, n) := update_where (run_key runId) f (tt_runs (tables e)) in (n, with_tables (set_runs rows (tables e)) e).

Definition clean_commands (now : Z) (e : retention_env) : CommandCleanupResult * retention_env :=
  let d := control (re_stores e) in
  let '(r, commands) := cleanAgentCommands now 200 (ct_commands d) in
  (r, with_stores (Stores (set_commands commands d) (telemetry (re_stores e))) e).
Definition clean_artifacts (now : Z) (e : retention_env) : res ArtifactCleanupResult * retention_env :=
  let '(r, (b, cursors)) := cleanArtifactBucket now LIST_BATCH (re_bucket e, tt_artifact_cursors (tables e)) in
  let e1 := with_tables (set_artifact_cursors cursors (tables e)) e in
  (r, RetentionEnv (re_stores e1) b (re_tick e1)).
(* @src workers/retention/src/index.ts 194-236 runRetention *)
Definition run_work (runId : string) (deadline scheduledTime : Z) (e : retention_env) : res unit * retention_env :=
  match loadRetentionPolicyBatch (control (re_stores e)) (tables e) runId POLICY_BATCH with
  | Err x => (Err x, e)
  | Ok batch =>
      match processRetentionPolicies (before_deadline deadline) (cleanWorkspace scheduledTime) (policies batch) e with
      | (Err x, e1) => (Err x, e1)
      | (Ok progress, e1) =>
          let '(commands, e2) := clean_commands scheduledTime e1 in
          match clean_artifacts scheduledTime e2 with
          | (Err x, e3) => (Err x, e3)
          | (Ok _, e3) =>
              let '(at_, e4) := Date_now e3 in
              let '(n, e5) := update_runs runId
                (complete_run at_ (pp_deletedRows progress + cc_deleted commands)
                   (resolveRetentionWorkspaceCursor batch (pp_skippedWorkspaces progress))) e4 in
              if negb (n =? 1) then (Err "retention_run_completion_conflict", e5)
              else
                let '(read, e6) := Date_now e5 in
                let '(_, t) := cleanRetentionRunHistory runId read RUN_HISTORY_BATCH (tables e6) in (Ok tt, with_tables t e6)
          end
      end
  end.
Definition run_id_of (scheduledTime : Z) : string := "retention:" ++ z_to_string scheduledTime.
(* @src workers/retention/src/index.ts runRetention *)
Definition runRetention (scheduledTime : Z) (e : retention_env) : res unit * retention_env :=
  let runId := run_id_of scheduledTime in
  let '(read, e1) := Date_now e in
  let '(started, e2) := Date_now e1 in
  let '(runs, claimed) := insert_or_ignore rr_id (RunRow runId started None 0 None 0) (tt_runs (tables e2)) in
  let e3 := with_tables (set_runs runs (tables e2)) e2 in
  if negb (claimed =? 1) then (Ok tt, e3)
  else
    match run_work runId (read + RUN_WORK_BUDGET_MS) scheduledTime e3 with
    | (Ok u, e4) => (Ok u, e4)
    | (Err x, e4) =>
        let '(at_, e5) := Date_now e4 in
        let '(_, e6) := update_runs runId (fail_run at_) e5 in (Err x, e6)
    end.

(** ** The record of runs is the run's own *)

Context (spare : string -> Prop).

Lemma tables_with t e : tables (with_tables t e) = t.
Proof. done. Qed.
Lemma clean_leased_parts policy now lease e : exists st6, shrinking spare (re_stores e) st6 /\
  let out := clean_leased policy now lease e in
  (is_ok out.1 = false /\ shrinking spare (re_stores e) (re_stores out.2)) \/
  (is_ok out.1 = is_ok (finalizeDeletedWorkspace policy now st6).1 /\ re_stores out.2 = (finalizeDeletedWorkspace policy now st6).2).
Proof.
  unfold clean_leased. destruct e as [[d t] b k]. cbn [re_stores control telemetry].
  pose proof (history_shrink d policy now t) as Ht1. destruct (cleanTelemetryHistory _ _ _ _) as [history t1]. cbn [snd] in Ht1.
  pose proof (events_shrink policy (wl_eventTimeCursor lease) now ROW_BATCH t1) as Ht2.
  destruct (cleanStateEvents _ _ _ _ _) as [[events cursor] t2]. cbn [snd] in Ht2.
  assert (H0 : shrinking spare (Stores d t) (Stores d t2)) by (apply sk_tables_only; by apply (ts_trans _ t1)).
  pose proof (announcements_shrink spare (workspace_id policy) now (expired_announcement_grace_days policy) 200 d t2) as H1.
  destruct (cleanExpiredAnnouncements _ _ _ _ _) as [announced d1]. cbn [snd] in H1.
  pose proof (audits_shrink spare (workspace_id policy) now (audit_log_days policy) 200 d1 t2) as H2.
  destruct (cleanAuditLogs _ _ _ _ _) as [audits d2]. cbn [snd] in H2.
  assert (H02 : shrinking spare (Stores d t) (Stores d2 t2)) by (apply (sk_trans _ _ (Stores d1 t2)); [by apply (sk_trans _ _ (Stores d t2)) | done]).
  clear Ht1 Ht2 H0 H1 H2.
  pose proof (soft_deleted_shrink spare policy now (Stores d2 t2)) as H3.
  destruct (finalizeSoftDeletedResources policy now _) as [[soft|x] st3]; cbn [fst snd is_ok] in *;
    [|exists (Stores d2 t2); split; [done|]; left; split; [done|]; by apply (sk_trans _ _ (Stores d2 t2))].
  assert (H13 : shrinking spare (Stores d t) st3) by (by apply (sk_trans _ _ (Stores d2 t2))). destruct st3 as [d3 t3]. cbn [control telemetry] in *.
  clear H02 H3. destruct (cleanNotificationDeliveries _ _ _ _ d3) as [[notifications d4]|x] eqn:E4; [|by exists (Stores d3 t3); split; [|left]].
  assert (H14 : shrinking spare (Stores d t) (Stores d4 t3)) by (apply (sk_trans _ _ (Stores d3 t3)); [done | by eapply notifications_shrink]).
  destruct (cleanOrphanCheckSecrets _ _ _ d4) as [[orphans d5]|x] eqn:E5; [|by exists (Stores d4 t3); split; [|left]].
  assert (H15 : shrinking spare (Stores d t) (Stores d5 t3)) by (apply (sk_trans _ _ (Stores d4 t3)); [done | by eapply secrets_shrink]).
  unfold release_workspace, Date_now, with_stores, with_tables, tables in *. cbn [re_stores re_bucket re_tick control telemetry] in *.
  destruct (releaseWorkspaceRetentionLease _ _ _ _) as [[[]|x] cursors]; cbn [fst snd is_ok] in *;
    (assert (H16 : shrinking spare (Stores d t) (Stores d5 (set_retention_cursors cursors t3))) by (by apply (sk_trans _ _ (Stores d5 t3)); [|apply sk_tables_only]));
    [|by exists (Stores d5 (set_retention_cursors cursors t3)); split; [|left]].
  exists (Stores d5 (set_retention_cursors cursors t3)). split; [done|]. right. cbn [re_stores].
  by destruct (finalizeDeletedWorkspace policy now _) as [[workspace|x] st7].
Qed.
Lemma clean_leased_shrink policy now lease e :
  (forall id, spare id -> id <> workspace_id policy) \/ is_ok (clean_leased policy now lease e).1 = false ->
  shrinking spare (re_stores e) (re_stores (clean_leased policy now lease e).2).
Proof.
  intros Hs. destruct (clean_leased_parts policy now lease e) as (st6 & H6 & [[_ H]|[Hok ->]]); [done|]. rewrite Hok in Hs.
  apply (sk_trans _ _ st6); [done|]. by apply deleted_workspace_shrink.
Qed.
Lemma cleanWorkspace_shrink now policy e :
  (forall id, spare id -> id <> workspace_id policy) \/ is_ok (cleanWorkspace now policy e).1 = false ->
  shrinking spare (re_stores e) (re_stores (cleanWorkspace now policy e).2).
Proof.
  unfold cleanWorkspace, Date_now, with_stores, with_tables, tables. destruct e as [[d t] b k]. cbn [re_stores re_bucket re_tick control telemetry].
  destruct (acquireWorkspaceRetentionLease _ _ _) as [lease cursors]. set (e2 := with_stores _ _).
  assert (H1 : shrinking spare (Stores d t) (re_stores e2)) by (unfold e2; cbn [re_stores]; by apply sk_tables_only).
  intros Hs. destruct lease as [lease|]; [|exact H1]. apply (sk_trans _ _ (re_stores e2)); [done|]. by apply clean_leased_shrink.
Qed.

(** A batch, for a relation that every cleaned policy keeps. *)
Lemma process_keeps {S} (R : S -> S -> Prop) (go : S -> bool * S) clean : (forall s, R s s) -> (forall a b c, R a b -> R b c -> R a c) ->
  (forall s, R s (go s).2) -> forall l, (forall p s, p ∈ l -> R s (clean p s).2) -> forall deleted skipped s,
  R s (process_policies go clean l deleted skipped s).2.
Proof.
  intros Hrefl Htrans Hgo l. induction l as [|p l IH]; intros Hc deleted skipped s; cbn [process_policies]; [apply Hrefl|].
  pose proof (Hgo s) as H1. destruct (go s) as [b s1]. cbn [snd] in H1. destruct b; cbn [negb]; [|done].
  pose proof (Hc p s1 (list_elem_of_here _ _)) as H2. destruct (clean p s1) as [[r|x] s2]; cbn [snd] in H2; [|by apply (Htrans _ s1)].
  apply (Htrans _ s2); [by apply (Htrans _ s1)|]. apply IH. intros q t Hq. apply Hc. by right.
Qed.

Definition run_batch (scheduledTime : Z) (e : retention_env) : RetentionPolicyBatch :=
  policy_page (control (re_stores e)) (start_cursor (run_id_of scheduledTime) (tt_runs (tables e))) POLICY_BATCH.
(** What [runRetention] has written when it begins to work. *)
Definition run_started (scheduledTime : Z) (e : retention_env) : retention_env :=
  let t := tables e in
  RetentionEnv (Stores (control (re_stores e))
    (set_runs (tt_runs t ++ [RunRow (run_id_of scheduledTime) (clock (S (re_tick e))) None 0 None 0])%list t)) (re_bucket e) (S (S (re_tick e))).
Definition run_progress (scheduledTime : Z) (e : retention_env) : res RetentionPolicyProgress * retention_env :=
  processRetentionPolicies (before_deadline (clock (re_tick e) + RUN_WORK_BUDGET_MS)) (cleanWorkspace scheduledTime)
    (policies (run_batch scheduledTime e)) (run_started scheduledTime e).
End Run.

(** ** Where the next run begins *)

Lemma order_limit_head {R} (leb : R -> R -> bool) l x :
  (forall a b, leb a b = true \/ leb b a = true) -> (forall a b c, leb a b = true -> leb b c = true -> leb a c = true) ->
  x ∈ l -> (forall y, y ∈ l -> y = x \/ leb y x = false) -> head (order_limit leb 1 l) = Some x.
Proof. intros Ht Htr Hx Hall. by destruct (order_limit_top leb Ht Htr 1 l x) as [rest ->]. Qed.
Lemma run_desc_total a b : run_desc a b = true \/ run_desc b a = true.
Proof. apply String.leb_total. Qed.
Lemma run_desc_trans a b c : run_desc a b = true -> run_desc b c = true -> run_desc a c = true.
Proof. unfold run_desc. intros H1 H2. by apply (str_leb_trans _ (rr_id b)). Qed.

Definition ended_well (r : run_row) : bool := bool_decide (rr_completed r <> None) && bool_decide (rr_error r = None).
(** The last run ended well: the next one begins at its cursor. *)
Lemma start_after_success later runs row : row ∈ runs -> ended_well row = true -> String.ltb (rr_id row) later = true ->
  (forall r, r ∈ runs -> r = row \/ String.ltb (rr_id r) (rr_id row) = true) -> start_cursor later runs = rr_cursor row.
Proof.
  intros Hin Hend Hlt Hall. unfold start_cursor, previous_run. rewrite (order_limit_head run_desc _ row run_desc_total run_desc_trans); [done | |].
  - apply filter_In_elem. split; [done|]. unfold ended_well in Hend. by rewrite Hlt, <- andb_assoc.
  - intros y Hy. apply filter_In_elem in Hy as [Hy _]. destruct (Hall y Hy) as [?|Hy']; [by left|]. right. unfold run_desc.
    rewrite str_ltb_leb in Hy'. by apply negb_true_iff in Hy'.
Qed.
(** It did not: the next one begins where it began. *)
Lemma start_skips runId runs row : ended_well row = false -> start_cursor runId (runs ++ [row]) = start_cursor runId runs.
Proof.
  intros Hend. unfold start_cursor, previous_run. rewrite List.filter_app. cbn [List.filter].
  unfold ended_well in Hend. by rewrite <- andb_assoc, Hend, andb_false_r, app_nil_r.
Qed.
Lemma start_later runId later runs : (forall r, r ∈ runs -> String.ltb (rr_id r) runId = true) -> String.ltb runId later = true ->
  start_cursor later runs = start_cursor runId runs.
Proof.
  intros Hall Hlt. unfold start_cursor, previous_run.
  erewrite (filter_ext_in (fun r => String.ltb (rr_id r) later && _ && _) (fun r => String.ltb (rr_id r) runId && _ && _)); [done|].
  intros r Hr. apply list_elem_of_In in Hr. by rewrite (Hall r Hr), (str_ltb_trans _ runId); [| apply Hall |].
Qed.

(** The run's own row is the one that is updated. *)
Lemma update_own runId f runs row : (forall r, r ∈ runs -> String.ltb (rr_id r) runId = true) -> rr_id row = runId ->
  update_where (run_key runId) f (runs ++ [row]) = ((runs ++ [f row])%list, 1).
Proof.
  intros Hall Hid.
  assert (Hno : forall r, r ∈ runs -> run_key runId r = false).
  { intros r Hr. unfold run_key. apply String.eqb_neq. intros E. specialize (Hall r Hr). by rewrite E, str_ltb_irrefl in Hall. }
  unfold update_where. rewrite map_app, count_if_app. f_equal.
  - f_equal; [|cbn; unfold run_key; by rewrite Hid, String.eqb_refl]. clear Hall. induction runs as [|r runs IH]; [done|]. cbn.
    rewrite Hno by (by left). f_equal. apply IH. intros q Hq. apply Hno. by right.
  - rewrite (proj2 (count_if_zero rr_id (run_key runId) runs) Hno), count_if_cons. unfold run_key at 1. by rewrite Hid, String.eqb_refl.
Qed.

Section Resume.
Context {B : Type} `{RB : R2Bucket B} `{SJ : SqliteJson} (clock : nat -> Z).

Lemma progress_runs scheduledTime deadline l (e : @retention_env B) :
  tt_runs (tables (processRetentionPolicies (before_deadline clock deadline) (cleanWorkspace clock scheduledTime) l e).2) = tt_runs (tables e).
Proof.
  unfold processRetentionPolicies.
  apply (process_keeps (fun a b => tt_runs (tables b) = tt_runs (tables a))); [done | intros a b c H1 H2; by rewrite H2 | done|].
  intros p s _. apply (sk_tables (fun _ => False)), cleanWorkspace_shrink. by left.
Qed.
Lemma commands_runs now (e : @retention_env B) : tt_runs (tables (clean_commands now e).2) = tt_runs (tables e).
Proof. unfold clean_commands. by destruct (cleanAgentCommands _ _ _). Qed.
Lemma artifacts_runs now (e : @retention_env B) : tt_runs (tables (clean_artifacts now e).2) = tt_runs (tables e).
Proof. unfold clean_artifacts. by destruct (cleanArtifactBucket _ _ _) as [r [b cursors]]. Qed.

(** A run that has not been claimed before. *)
Lemma runRetention_fresh scheduledTime (e : @retention_env B) : has_key rr_id (run_id_of scheduledTime) (tt_runs (tables e)) = false ->
  runRetention clock scheduledTime e =
    match run_work clock (run_id_of scheduledTime) (clock (re_tick e) + RUN_WORK_BUDGET_MS) scheduledTime (run_started clock scheduledTime e) with
    | (Ok u, e4) => (Ok u, e4)
    | (Err x, e4) =>
        let '(at_, e5) := Date_now clock e4 in
        let '(_, e6) := update_runs (run_id_of scheduledTime) (fail_run at_) e5 in (Err x, e6)
    end.
Proof.
  intros Hnew. unfold runRetention, Date_now at 1 2. cbn [re_tick re_stores re_bucket]. unfold insert_or_ignore.
  change (tt_runs (tables (RetentionEnv (re_stores e) (re_bucket e) (S (S (re_tick e)))))) with (tt_runs (tables e)). cbn [rr_id]. by rewrite Hnew.
Qed.
Lemma runRetention_again scheduledTime (e : @retention_env B) : has_key rr_id (run_id_of scheduledTime) (tt_runs (tables e)) = true ->
  re_stores (runRetention clock scheduledTime e).2 = re_stores e.
Proof.
  intros Hold. unfold runRetention, Date_now at 1 2. cbn [re_tick re_stores re_bucket]. unfold insert_or_ignore.
  change (tt_runs (tables (RetentionEnv (re_stores e) (re_bucket e) (S (S (re_tick e)))))) with (tt_runs (tables e)). cbn [rr_id]. rewrite Hold.
  by destruct e as [[d []] b k].
Qed.

Lemma date_tables (e e' : @retention_env B) read : Date_now clock e = (read, e') -> tables e' = tables e.
Proof. by intros [= _ <-]. Qed.
Lemma update_runs_own runId f runs row (e : @retention_env B) : (forall r, r ∈ runs -> String.ltb (rr_id r) runId = true) -> rr_id row = runId ->
  tt_runs (tables e) = (runs ++ [row])%list -> (update_runs runId f e).1 = 1 /\ tt_runs (tables (update_runs runId f e).2) = (runs ++ [f row])%list.
Proof. intros Hall Hid E. unfold update_runs. rewrite E, update_own by done. done. Qed.
Lemma history_keeps runId read t : let out := (cleanRetentionRunHistory runId read RUN_HISTORY_BATCH t).2 in
  (forall r, r ∈ tt_runs out -> r ∈ tt_runs t) /\ (forall r, r ∈ tt_runs t -> rr_id r = runId -> r ∈ tt_runs out).
Proof.
  unfold cleanRetentionRunHistory. change ((RUN_HISTORY_BATCH <? 1) || (RUN_HISTORY_BATCH <? RUN_HISTORY_BATCH)) with false.
  unfold delete_in, delete_where. cbn [snd set_runs tt_runs]. split; [by intros r [? _]%filter_In_elem|].
  intros r Hr Hid. apply filter_In_elem. split; [done|]. cbn [andb]. apply negb_true_iff, existsb_false_elem. intros x Hx.
  apply bool_decide_eq_false. intros E. apply elem_of_order_limit, filter_In_elem in Hx as [_ Hx]. bool_hyps. congruence.
Qed.

(** A run's own unfinished row does not change where it begins. *)
Lemma load_started scheduledTime (e : @retention_env B) :
  loadRetentionPolicyBatch (control (re_stores (run_started clock scheduledTime e))) (tables (run_started clock scheduledTime e)) (run_id_of scheduledTime)
    POLICY_BATCH = Ok (run_batch scheduledTime e).
Proof.
  unfold loadRetentionPolicyBatch. change ((POLICY_BATCH <? 1) || (POLICY_BATCH <? POLICY_BATCH)) with false.
  unfold run_batch, run_started, tables. cbn [re_stores telemetry control set_runs tt_runs]. by rewrite start_skips.
Qed.
(** What a run leaves in the record: its own row, last, and of the others all (when it failed) or
    some. *)
Lemma run_work_recorded scheduledTime (e : @retention_env B) (Hruns : forall r, r ∈ tt_runs (tables e) -> String.ltb (rr_id r) (run_id_of scheduledTime) = true) deadline :
  let e0 := run_started clock scheduledTime e in
  let out := run_work clock (run_id_of scheduledTime) deadline scheduledTime e0 in
  let progress := processRetentionPolicies (before_deadline clock deadline) (cleanWorkspace clock scheduledTime) (policies (run_batch scheduledTime e)) e0 in
  match out.1 with
  | Err x => tt_runs (tables out.2) = tt_runs (tables e0)
  | Ok _ => exists p row, progress.1 = Ok p /\ row ∈ tt_runs (tables out.2) /\ ended_well row = true /\ rr_id row = run_id_of scheduledTime /\
      rr_cursor row = resolveRetentionWorkspaceCursor (run_batch scheduledTime e) (pp_skippedWorkspaces p) /\
      forall r, r ∈ tt_runs (tables out.2) -> r = row \/ r ∈ tt_runs (tables e)
  end.
Proof.
  intros e0 out progress. unfold out, run_work, e0. rewrite (load_started scheduledTime e). fold e0.

  pose proof (progress_runs scheduledTime deadline (policies (run_batch scheduledTime e)) e0) as H1. fold progress. fold progress in H1.
  destruct progress as [[p|x] e1]; cbn [fst snd] in *; [|done].
  pose proof (commands_runs scheduledTime e1) as H2. destruct (clean_commands scheduledTime e1) as [commands e2]. cbn [snd] in H2.
  pose proof (artifacts_runs scheduledTime e2) as H3. destruct (clean_artifacts scheduledTime e2) as [[artifacts|x] e3]; cbn [fst snd] in *; [|congruence].
  assert (Hr : tt_runs (tables e3) = tt_runs (tables e0)) by congruence. clear H1 H2 H3.
  destruct (Date_now clock e3) as [at_ e4] eqn:E4. apply date_tables in E4.
  destruct (update_runs_own (run_id_of scheduledTime) (complete_run at_ (pp_deletedRows p + cc_deleted commands)
    (resolveRetentionWorkspaceCursor (run_batch scheduledTime e) (pp_skippedWorkspaces p))) (tt_runs (tables e))
    (RunRow (run_id_of scheduledTime) (clock (S (re_tick e))) None 0 None 0) e4 Hruns eq_refl) as [Hn H5]; [by rewrite E4, Hr|].
  destruct (update_runs _ _ e4) as [n e5]. cbn [fst snd] in *. subst n. change (negb (1 =? 1)) with false.
  destruct (Date_now clock e5) as [read e6] eqn:E6. apply date_tables in E6. rewrite E6. clear E4 E6.
  pose proof (history_keeps (run_id_of scheduledTime) read (tables e5)) as [H7 H8].
  destruct (cleanRetentionRunHistory _ _ _ _) as [r t]. cbn [fst snd] in *. rewrite H5 in H7, H8.
  eexists p, _. split; [done|]. split_and!; [apply H8; [apply elem_of_app; right; by left | done] | done | done | done |].
  intros q Hq. apply H7 in Hq. apply elem_of_app in Hq as [Hq|Hq]; [by right|]. left. by apply list_elem_of_singleton in Hq.
Qed.

Lemma fresh_run scheduledTime (e : @retention_env B) : (forall r, r ∈ tt_runs (tables e) -> String.ltb (rr_id r) (run_id_of scheduledTime) = true) ->
  has_key rr_id (run_id_of scheduledTime) (tt_runs (tables e)) = false.
Proof.
  intros Hruns. apply not_true_is_false. intros E. apply has_key_elem in E. apply list_elem_of_fmap in E as (r & E & Hr).
  specialize (Hruns r Hr). by rewrite <- E, str_ltb_irrefl in Hruns.
Qed.
(** How the record tells the next run where to begin. *)
Lemma retention_resumption scheduledTime later (e : @retention_env B)
  (Hruns : forall r, r ∈ tt_runs (tables e) -> String.ltb (rr_id r) (run_id_of scheduledTime) = true)
  (Hlater : String.ltb (run_id_of scheduledTime) later = true) :
  let out := runRetention clock scheduledTime e in
  let batch := run_batch scheduledTime e in
  start_cursor later (tt_runs (tables out.2)) =
    match out.1, (run_progress clock scheduledTime e).1 with
    | Ok _, Ok progress => if pp_skippedWorkspaces progress =? 0 then nextWorkspaceCursor batch else workspaceCursor batch
    | _, _ => workspaceCursor batch
    end /\
  (is_ok out.1 = true -> is_ok (run_progress clock scheduledTime e).1 = true) /\
  re_stores (runRetention clock scheduledTime out.2).2 = re_stores out.2.
Proof.
  intros out batch.
  pose proof (fresh_run scheduledTime e Hruns) as Hnew.
  pose proof (run_work_recorded scheduledTime e Hruns (clock (re_tick e) + RUN_WORK_BUDGET_MS)) as Hw.
  pose proof (runRetention_again scheduledTime) as Hagain.
  unfold out. clear out. rewrite (runRetention_fresh _ _ Hnew).
  cbv zeta in Hw. change (processRetentionPolicies _ _ _ _) with (run_progress clock scheduledTime e) in Hw.
  destruct (run_work clock _ _ scheduledTime _) as [[[]|x] e4]; cbn [fst snd] in *.
  - destruct Hw as (p & row & Hp & Hin & Hend & Hid & Hcur & Hall). rewrite Hp. split_and!; [| done |].
    + rewrite (start_after_success later _ row Hin Hend); [exact Hcur | by rewrite Hid|].
      intros r Hr. destruct (Hall r Hr) as [->|Hr']; [by left|]. right. rewrite Hid. by apply Hruns.
    + apply Hagain, has_key_elem. rewrite <- Hid. by apply list_elem_of_fmap_2.
  - destruct (Date_now clock e4) as [at_ e5] eqn:E5. apply date_tables in E5.
    destruct (update_runs_own (run_id_of scheduledTime) (fail_run at_) (tt_runs (tables e))
      (RunRow (run_id_of scheduledTime) (clock (S (re_tick e))) None 0 None 0) e5 Hruns eq_refl) as [_ H6]; [by rewrite E5, Hw|].
    destruct (update_runs _ _ e5) as [n e6]. cbn [fst snd] in *. split_and!; [| done |].
    + rewrite H6, start_skips by done. by apply start_later.
    + apply Hagain, has_key_elem. rewrite H6, map_app. apply elem_of_app. right. by left.
Qed.

(** A run resumes where the last good one stopped.  Whatever happens in a run, the next one
    begins at the end of its batch if it ended well and skipped nobody, and otherwise, on a
    failure, a skipped workspace or a deadline, where this one began; and a run that is started
    a second time does nothing. *)
Theorem retention_resumes scheduledTime later (e : @retention_env B)
  (Hruns : forall r, r ∈ tt_runs (tables e) -> String.ltb (rr_id r) (run_id_of scheduledTime) = true)
  (Hlater : String.ltb (run_id_of scheduledTime) later = true) :
  let out := runRetention clock scheduledTime e in
  let batch := run_batch scheduledTime e in
  start_cursor later (tt_runs (tables out.2)) =
    match out.1, (run_progress clock scheduledTime e).1 with
    | Ok _, Ok progress => if pp_skippedWorkspaces progress =? 0 then nextWorkspaceCursor batch else workspaceCursor batch
    | _, _ => workspaceCursor batch
    end /\
  (is_ok out.1 = true -> is_ok (run_progress clock scheduledTime e).1 = true) /\
  re_stores (runRetention clock scheduledTime out.2).2 = re_stores out.2.
Proof. by apply retention_resumption. Qed.
(** ** A workspace that cannot be removed *)

(** It was deleted longer ago than its grace period, nothing is left of it, and it still has its
    administrator. *)
Definition blocked (policy : RetentionPolicyRow) (now : Z) (st : stores) : Prop := exists deleted w m,
  workspace_deleted_at policy = Some deleted /\ deleted <= grace_cutoff policy now /\
  w ∈ ct_workspaces (control st) /\ wk_id w = workspace_id policy /\ wk_deleted w = Some deleted /\
  workspace_has_rows (workspace_id policy) (control st) = false /\ workspaceTelemetryIsEmpty (workspace_pk policy) (telemetry st) = true /\
  keys_unique membership_key (ct_memberships (control st)) /\
  m ∈ ct_memberships (control st) /\ mb_workspace m = workspace_id policy /\ active_admin m = true.

Lemma existsb_shrinks {X} (f : X -> bool) l l' : (forall x, x ∈ l' -> f x = true -> existsb f l = true) -> existsb f l = false -> existsb f l' = false.
Proof.
  intros H Hf. apply not_true_is_false. intros E. apply existsb_exists_elem in E as (x & Hx & Ex). specialize (H x Hx Ex). congruence.
Qed.
Lemma existsb_subset {X} (f : X -> bool) l l' : (forall x, x ∈ l' -> x ∈ l) -> existsb f l = false -> existsb f l' = false.
Proof. intros H. apply existsb_shrinks. intros x Hx Ex. apply existsb_exists_elem. eauto. Qed.
Lemma existsb_tables {X Y} (f : Y -> X -> bool) g (tables : list X) : (forall x, x ∈ tables -> existsb (fun y => f y x) (g x) = false) ->
  existsb (fun x => existsb (fun y => f y x) (g x)) tables = false.
Proof. intros H. by apply existsb_false_elem. Qed.

Lemma blocked_shrinks policy now now' st st' : now <= now' -> shrinking (eq (workspace_id policy)) st st' -> blocked policy now st ->
  blocked policy now' st'.
Proof.
  intros Hnow Hs (deleted & w & m & H1 & H2 & Hw & H3 & H4 & Hrows & Hempty & Hu & Hm & Hmw & Ha).
  destruct (sk_workspaces _ _ _ Hs w Hw (eq_sym H3)) as (w' & Hw' & E1 & _ & E3). exists deleted, w', m. split_and!; try done; try congruence.
  - unfold grace_cutoff in *. lia.
  - unfold workspace_has_rows in *. apply orb_false_iff in Hrows as [Hrows Ho]. apply orb_false_iff in Hrows as [Hma Hse].
    rewrite !orb_false_iff. split_and!.
    + revert Hma. apply existsb_shrinks. intros x Hx Ex. apply (sk_machines _ _ _ Hs) in Hx as (y & Hy & Ey). apply existsb_exists_elem.
      exists y. split; [done|]. by rewrite Ey.
    + revert Hse. apply existsb_shrinks. intros x Hx Ex. apply (sk_services _ _ _ Hs) in Hx as (y & Hy & Ey). apply existsb_exists_elem.
      exists y. split; [done|]. by rewrite Ey.
    + rewrite existsb_false_elem in *. intros table Ht. specialize (Ho table Ht). revert Ho. apply existsb_subset. apply Hs.
  - unfold workspaceTelemetryIsEmpty in *. apply negb_true_iff in Hempty. apply negb_true_iff. rewrite !orb_false_iff in *.
    destruct Hempty as [[Ht Hl] He]. pose proof (sk_tables _ _ _ Hs) as Hts. split_and!.
    + rewrite existsb_false_elem in *. intros table Hin. specialize (Ht table Hin). revert Ht. apply existsb_subset. apply Hts.
    + rewrite existsb_false_elem in *. intros table Hin. specialize (Hl table Hin). revert Hl. apply existsb_subset. apply Hts.
    + revert He. apply existsb_subset. apply Hts.
  - by apply Hs.
  - by apply (sk_members _ _ _ Hs).
Qed.
Lemma blocked_fails policy now st : blocked policy now st ->
  is_ok (finalizeDeletedWorkspace policy now st).1 = false.
Proof.
  intros (deleted & w & m & H1 & H2 & Hw & H3 & H4 & Hrows & Hempty & Hu & Hm & Hmw & Ha).
  by destruct (finalize_blocked policy now st deleted w m) as (st' & -> & _).
Qed.
(** Its turn ends in a failure, unless another run holds its lease; either way it stays. *)
Lemma blocked_clean policy now (e : @retention_env B) : blocked policy now (re_stores e) ->
  let out := cleanWorkspace clock now policy e in
  match out.1 with Ok r => wr_processed r = false | Err _ => True end /\ shrinking (eq (workspace_id policy)) (re_stores e) (re_stores out.2).
Proof.
  intros Hb out. unfold out, cleanWorkspace. destruct (Date_now clock e) as [read e1] eqn:E1. injection E1 as _ <-.
  destruct (acquireWorkspaceRetentionLease _ _ _) as [lease cursors]. set (e2 := with_tables _ _).
  assert (Hs2 : shrinking (eq (workspace_id policy)) (re_stores e) (re_stores e2)).
  { unfold e2, with_tables, with_stores. cbn [re_stores]. destruct e as [[d t] b k]. by apply sk_tables_only. }
  destruct lease as [lease|]; [|by split].
  destruct (clean_leased_parts clock (eq (workspace_id policy)) policy now lease e2) as (st6 & H6 & Hparts).
  assert (Hfail : is_ok (clean_leased clock policy now lease e2).1 = false).
  { destruct Hparts as [[H _]|[Hok _]]; [done|]. rewrite Hok. apply blocked_fails.
    apply (blocked_shrinks policy now now (re_stores e)); [lia | | done]. by apply (sk_trans _ _ (re_stores e2)). }
  split; [by destruct (clean_leased clock policy now lease e2).1|].
  apply (sk_trans _ _ (re_stores e2)); [done|]. apply clean_leased_shrink. by right.
Qed.

Lemma process_skips {S} (go : S -> bool * S) clean l : forall deleted skipped s,
  match (process_policies go clean l deleted skipped s).1 with Ok r => skipped <= pp_skippedWorkspaces r | Err _ => True end.
Proof.
  induction l as [|p l IH]; intros deleted skipped s; cbn [process_policies]; [cbn; lia|].
  destruct (go s) as [[] s1]; cbn [negb]; [|cbn [fst pp_skippedWorkspaces length]; lia].
  destruct (clean p s1) as [[r|x] s2]; [|done]. specialize (IH (deleted + wr_deletedRows r) (if wr_processed r then skipped else skipped + 1) s2).
  destruct (process_policies _ _ _ _ _ s2).1; [|done]. destruct (wr_processed r); lia.
Qed.

Section Blocked.
Context (policy : RetentionPolicyRow) (now deadline : Z).
Definition only_one (l : list RetentionPolicyRow) : Prop := forall q, q ∈ l -> workspace_id q = workspace_id policy -> q = policy.

Lemma policy_keeps_blocked q (e : @retention_env B) : only_one [q] -> blocked policy now (re_stores e) ->
  blocked policy now (re_stores (cleanWorkspace clock now q e).2).
Proof.
  intros Hone Hb. apply (blocked_shrinks policy now now (re_stores e)); [lia | | done].
  destruct (decide (workspace_id q = workspace_id policy)) as [E|Hne].
  - rewrite (Hone q ltac:(by left) E). by apply blocked_clean.
  - apply cleanWorkspace_shrink. left. intros id <-. done.
Qed.
Lemma process_blocked l : only_one l -> forall deleted skipped (e : @retention_env B), blocked policy now (re_stores e) ->
  let out := process_policies (before_deadline clock deadline) (cleanWorkspace clock now) l deleted skipped e in
  blocked policy now (re_stores out.2) /\
  match out.1 with Ok r => policy ∈ l -> skipped < pp_skippedWorkspaces r | Err _ => True end.
Proof.
  induction l as [|p l IH]; intros Hone deleted skipped e Hb; cbn [process_policies];
    [split; [done|]; intros Hin; by apply elem_of_nil in Hin|].
  destruct (before_deadline clock deadline e) as [go e1] eqn:Eg. injection Eg as Hgo <-. set (e1 := RetentionEnv _ _ _).
  destruct go; cbn [negb]; [|split; [done|]; intros _; cbn [fst pp_skippedWorkspaces length]; lia].
  assert (Hone1 : only_one [p]) by (intros q ->%list_elem_of_singleton; apply Hone; by left).
  pose proof (policy_keeps_blocked p e1 Hone1 Hb) as Hb2. pose proof (blocked_clean p now e1) as Hp.
  destruct (cleanWorkspace clock now p e1) as [[r|x] e2]; cbn [fst snd] in *; [|done].
  assert (Honel : only_one l) by (intros q Hq; apply Hone; by right).
  pose proof (process_skips (before_deadline clock deadline) (cleanWorkspace clock now) l (deleted + wr_deletedRows r)
    (if wr_processed r then skipped else skipped + 1) e2) as Hle.
  destruct (IH Honel (deleted + wr_deletedRows r) (if wr_processed r then skipped else skipped + 1) e2 Hb2) as [Hb3 Hlt].
  split; [done|]. destruct (process_policies _ _ _ _ _ e2).1 as [q|x]; [|done]. intros Hin. apply elem_of_cons in Hin as [<-|Hin].
  - destruct (Hp Hb) as [Hr _]. rewrite Hr in Hle. lia.
  - specialize (Hlt Hin). destruct (wr_processed r); lia.
Qed.
End Blocked.

Lemma elem_of_joined d q : q ∈ joined_policies d <-> exists p w, p ∈ ct_policies d /\ w ∈ ct_workspaces d /\ wk_id w = rp_workspace p /\ q = policy_of w p.
Proof.
  unfold joined_policies. rewrite list_elem_of_In, in_concat. setoid_rewrite <- list_elem_of_In. split.
  - intros (l & Hl & Hq). apply list_elem_of_fmap in Hl as (p & -> & Hp). apply list_elem_of_fmap in Hq as (w & -> & Hw).
    apply filter_In_elem in Hw as [Hw E]. apply String.eqb_eq in E. by exists p, w.
  - intros (p & w & Hp & Hw & E & ->). eexists. split; [apply list_elem_of_fmap; exists p; split; [reflexivity | done]|].
    apply list_elem_of_fmap. exists w. split; [done|]. apply filter_In_elem. split; [done|]. by apply String.eqb_eq.
Qed.
Lemma joined_only_one d policy l : control_ok d -> policy ∈ joined_policies d -> (forall q, q ∈ l -> q ∈ joined_policies d) -> only_one policy l.
Proof.
  intros Hc Hp Hl q Hq E. specialize (Hl q Hq). apply elem_of_joined in Hl as (p1 & w1 & Hp1 & Hw1 & E1 & ->).
  apply elem_of_joined in Hp as (p2 & w2 & Hp2 & Hw2 & E2 & ->). cbn in E. assert (w1 = w2) as ->.
  { pose proof (find_key_unique wk_id (wk_id w2) _ w1 (cto_workspaces _ Hc) Hw1 E) as F1.
    pose proof (find_key_unique wk_id (wk_id w2) _ w2 (cto_workspaces _ Hc) Hw2 eq_refl) as F2. congruence. }
  assert (p1 = p2) as ->; [|done].
  pose proof (find_key_unique rp_workspace (wk_id w2) _ p1 (cto_policies _ Hc) Hp1 (eq_sym E1)) as F1.
  pose proof (find_key_unique rp_workspace (wk_id w2) _ p2 (cto_policies _ Hc) Hp2 (eq_sym E2)) as F2. congruence.
Qed.
Lemma elem_of_batch scheduledTime (e : @retention_env B) q : q ∈ policies (run_batch scheduledTime e) -> q ∈ joined_policies (control (re_stores e)).
Proof.
  unfold run_batch, policy_page. cbn [policies]. intros Hq. apply subseteq_take in Hq. by apply elem_of_order_limit, filter_In_elem in Hq as [? _].
Qed.

Lemma blocked_same policy now st st' : ct_workspaces (control st') = ct_workspaces (control st) -> ct_memberships (control st') = ct_memberships (control st) ->
  ct_machines (control st') = ct_machines (control st) -> ct_services (control st') = ct_services (control st) ->
  ct_owned (control st') = ct_owned (control st) -> tt_timed (telemetry st') = tt_timed (telemetry st) ->
  tt_latest (telemetry st') = tt_latest (telemetry st) -> tt_events (telemetry st') = tt_events (telemetry st) ->
  blocked policy now st -> blocked policy now st'.
Proof.
  intros E1 E2 E3 E4 E5 E6 E7 E8. unfold blocked, workspace_has_rows, workspaceTelemetryIsEmpty.
  by rewrite E1, E2, E3, E4, E5, E6, E7, E8.
Qed.
Lemma blocked_update policy now runId f (e : @retention_env B) : blocked policy now (re_stores e) -> blocked policy now (re_stores (update_runs runId f e).2).
Proof. unfold update_runs. destruct (update_where _ _ _) as [rows n]. by apply blocked_same. Qed.
Lemma blocked_work policy scheduledTime deadline (e : @retention_env B) batch : only_one policy (policies batch) ->
  loadRetentionPolicyBatch (control (re_stores e)) (tables e) (run_id_of scheduledTime) POLICY_BATCH = Ok batch ->
  blocked policy scheduledTime (re_stores e) ->
  blocked policy scheduledTime (re_stores (run_work clock (run_id_of scheduledTime) deadline scheduledTime e).2).
Proof.
  intros Hone Hload Hb. unfold run_work. rewrite Hload.
  destruct (process_blocked policy scheduledTime deadline (policies batch) Hone 0 0 e Hb) as [H1 _].
  unfold processRetentionPolicies. destruct (process_policies _ _ _ _ _ e) as [[p|x] e1]; cbn [snd] in *; [|done].
  unfold clean_commands. destruct (cleanAgentCommands _ _ _) as [r commands].
  unfold clean_artifacts. destruct (cleanArtifactBucket _ _ _) as [[artifacts|x] [b cursors]]; [|by apply (blocked_same _ _ (re_stores e1))].
  unfold Date_now. match goal with |- context [update_runs ?id ?f ?e4] => pose proof (blocked_update policy scheduledTime id f e4) as H2;
    destruct (update_runs id f e4) as [n e5] end. cbn [snd] in H2. forward H2; [by apply (blocked_same _ _ (re_stores e1))|].
  destruct (negb (n =? 1)); [done|]. unfold cleanRetentionRunHistory.
  destruct (_ || _); [by apply (blocked_same _ _ (re_stores e5))|]. destruct (delete_in _ _ _ _ _ _) as [rows k]. by apply (blocked_same _ _ (re_stores e5)).
Qed.

(** C22: One workspace that cannot be removed holds up everybody behind it.  Whatever happens in a
    run whose batch contains such a workspace, the next run begins where this one began, and the
    workspace is then as it was: so the run after it takes the same batch, and no run gets past
    it. *)
Theorem blocked_workspace_stalls scheduledTime later (e : @retention_env B) policy
  (Hruns : forall r, r ∈ tt_runs (tables e) -> String.ltb (rr_id r) (run_id_of scheduledTime) = true)
  (Hlater : String.ltb (run_id_of scheduledTime) later = true)
  (Hc : control_ok (control (re_stores e))) (Hbatch : policy ∈ policies (run_batch scheduledTime e))
  (Hb : blocked policy scheduledTime (re_stores e)) :
  let out := runRetention clock scheduledTime e in
  start_cursor later (tt_runs (tables out.2)) = workspaceCursor (run_batch scheduledTime e) /\
  forall t, scheduledTime <= t -> blocked policy t (re_stores out.2).
Proof.
  intros out. assert (Hone : only_one policy (policies (run_batch scheduledTime e))).
  { apply (joined_only_one (control (re_stores e))); [done | by apply (elem_of_batch scheduledTime) | apply elem_of_batch]. }
  assert (Hb0 : blocked policy scheduledTime (re_stores (run_started clock scheduledTime e))) by (by apply (blocked_same _ _ (re_stores e))).
  split.
  - destruct (retention_resumption scheduledTime later e Hruns Hlater) as (Hstart & _). unfold out. rewrite Hstart.
    destruct (process_blocked policy scheduledTime (clock (re_tick e) + RUN_WORK_BUDGET_MS) (policies (run_batch scheduledTime e)) Hone 0 0
      (run_started clock scheduledTime e) Hb0) as [_ Hp].
    destruct (runRetention clock scheduledTime e).1; [|done]. unfold run_progress, processRetentionPolicies.
    destruct (process_policies _ _ _ _ _ _).1 as [p|]; [|done]. specialize (Hp Hbatch). rewrite (proj2 (Z.eqb_neq _ _)) by lia. done.
  - intros t Ht. apply (blocked_shrinks policy scheduledTime t (re_stores out.2)); [done | by destruct out.2 as [[] ]; apply sk_refl|].
    assert (Hnew : has_key rr_id (run_id_of scheduledTime) (tt_runs (tables e)) = false) by (by apply fresh_run).
    unfold out. rewrite (runRetention_fresh _ _ Hnew).
    pose proof (blocked_work policy scheduledTime (clock (re_tick e) + RUN_WORK_BUDGET_MS) (run_started clock scheduledTime e) (run_batch scheduledTime e) Hone) as Hw.
    forward Hw; [by apply load_started|]. specialize (Hw Hb0).
    destruct (run_work clock _ _ _ _) as [[u|x] e4]; cbn [snd] in *; [done|]. unfold Date_now.
    match goal with |- context [update_runs ?id ?f ?e5] => pose proof (blocked_update policy scheduledTime id f e5) as H2;
      destruct (update_runs id f e5) as [n e6] end. cbn [snd] in *. by apply H2, (blocked_same _ _ (re_stores e4)).
Qed.

(** ** Everybody gets a turn *)

Lemma NoDup_map_via {X Y Z'} (f : X -> Y) (g : X -> Z') l : NoDup (map f l) -> (forall x y, x ∈ l -> y ∈ l -> g x = g y -> f x = f y) -> NoDup (map g l).
Proof.
  induction l as [|x l IH]; cbn; intros Hf Hg; [constructor|]. apply NoDup_cons in Hf as [Hx Hf]. constructor.
  - intros (y & E & Hy)%list_elem_of_fmap. apply Hx. rewrite (Hg x y); [by apply list_elem_of_fmap_2 | by left | by right | done].
  - apply IH; [done|]. intros y z Hy Hz. apply Hg; by right.
Qed.
Lemma unique_matches d id : keys_unique wk_id (ct_workspaces d) ->
  List.filter (fun w => String.eqb (wk_id w) id) (ct_workspaces d) = [] \/
  exists w, w ∈ ct_workspaces d /\ wk_id w = id /\ List.filter (fun w => String.eqb (wk_id w) id) (ct_workspaces d) = [w].
Proof.
  unfold keys_unique. induction (ct_workspaces d) as [|w l IH]; cbn; [by left|]. intros H. apply NoDup_cons in H as [Hw H].
  destruct (String.eqb_spec (wk_id w) id) as [E|E].
  - right. exists w. split; [by left|]. split; [done|]. f_equal. destruct (IH H) as [?|(w' & Hw' & E' & _)]; [done|].
    exfalso. apply Hw. rewrite E, <- E'. by apply list_elem_of_fmap_2.
  - destruct (IH H) as [?|(w' & Hw' & E' & Hf)]; [by left|]. right. exists w'. split; [by right | done].
Qed.
Lemma joined_ids_sublist d : keys_unique wk_id (ct_workspaces d) -> sublist (map workspace_id (joined_policies d)) (map rp_workspace (ct_policies d)).
Proof.
  intros Hu. unfold joined_policies. induction (ct_policies d) as [|p l IH]; cbn; [done|]. rewrite map_app.
  destruct (unique_matches d (rp_workspace p) Hu) as [->|(w & _ & E & ->)]; cbn; [by apply sublist_cons|]. rewrite E. by constructor.
Qed.
Lemma joined_pks_nodup d : control_ok d -> NoDup (map workspace_pk (joined_policies d)).
Proof.
  intros Hc. apply (NoDup_map_via workspace_id).
  - eapply sublist_NoDup; [apply (cto_policies _ Hc) | apply joined_ids_sublist, Hc].
  - intros x y Hx Hy E. apply elem_of_joined in Hx as (p1 & w1 & _ & Hw1 & _ & ->). apply elem_of_joined in Hy as (p2 & w2 & _ & Hw2 & _ & ->).
    cbn in *. pose proof (find_key_unique wk_pk (wk_pk w2) _ w1 (cto_workspace_pks _ Hc) Hw1 E) as F1.
    pose proof (find_key_unique wk_pk (wk_pk w2) _ w2 (cto_workspace_pks _ Hc) Hw2 eq_refl) as F2. congruence.
Qed.
(** *** The cursor moves on *)

(** Distinct integers beyond [c] need room. *)
Lemma distinct_room (l : list Z) c y : NoDup l -> (forall x, x ∈ l -> c < x <= y) -> Z.of_nat (length l) <= Z.max 0 (y - c).
Proof.
  intros Hnd Hl. assert (Hs : l ⊆+ seqZ (c + 1) (y - c)).
  { apply NoDup_submseteq; [done|]. intros x Hx. apply elem_of_seqZ. specialize (Hl x Hx). lia. }
  apply submseteq_length in Hs. rewrite length_seqZ in Hs. lia.
Qed.
Lemma policy_leb_total a b : policy_leb a b = true \/ policy_leb b a = true.
Proof. unfold policy_leb. rewrite !Z.leb_le. lia. Qed.
Lemma policy_leb_trans a b c : policy_leb a b = true -> policy_leb b c = true -> policy_leb a c = true.
Proof. unfold policy_leb. rewrite !Z.leb_le. lia. Qed.
(** The rows of a batch, in the order of their numbers, and how far it gets. *)
Lemma batch_sublist n l : sublist (take (Z.to_nat n) (order_limit policy_leb (n + 1) l)) (order_by policy_leb l).
Proof. unfold order_limit. rewrite take_take. apply sublist_take. Qed.
Lemma beyond_pks_nodup c (l : list RetentionPolicyRow) : NoDup (map workspace_pk l) -> NoDup (map workspace_pk (order_by policy_leb (List.filter (fun p => c <? workspace_pk p) l))).
Proof.
  intros Hnd. assert (H : NoDup (map workspace_pk (List.filter (fun p => c <? workspace_pk p) l))).
  { induction l as [|q l IH]; cbn in *; [constructor|]. apply NoDup_cons in Hnd as [Hq Hnd]. destruct (c <? workspace_pk q); [|by apply IH].
    cbn. constructor; [|by apply IH]. intros (x & E & Hx)%list_elem_of_fmap. apply Hq. apply filter_In_elem in Hx as [Hx _]. rewrite E. by apply list_elem_of_fmap_2. }
  set (l' := List.filter _ l) in *. assert (P : map workspace_pk (order_by policy_leb l') ≡ₚ map workspace_pk l') by (apply Permutation_map, order_by_perm). by rewrite P.
Qed.
Lemma batch_last_largest n l y q : last (take (Z.to_nat n) (order_limit policy_leb (n + 1) l)) = Some y ->
  q ∈ take (Z.to_nat n) (order_limit policy_leb (n + 1) l) -> workspace_pk q <= workspace_pk y.
Proof.
  set (page := take _ _). intros Hl Hq. assert (Hs : StronglySorted (Leb policy_leb) page).
  { assert (Ho : StronglySorted (Leb policy_leb) (order_by policy_leb l)).
    { apply Sorted_StronglySorted; [exact policy_leb_trans|]. apply order_by_Sorted, policy_leb_total. }
    unfold page, order_limit. rewrite take_take. set (k := Nat.min _ _). rewrite <- (take_drop k (order_by policy_leb l)) in Ho. by apply StronglySorted_app_1_l in Ho. }
  apply last_Some in Hl as (l' & El). rewrite El in Hs, Hq. apply elem_of_app in Hq as [Hq|Hq]; [|by apply list_elem_of_singleton in Hq as ->].
  assert (H : Leb policy_leb q y); [|by apply Z.leb_le in H]. by apply (StronglySorted_app_1_elem_of _ _ _ q y Hs); [|left].
Qed.
(** A full batch moves the cursor by a hundred at least. *)
Lemma full_batch_room c l y : NoDup (map workspace_pk l) -> let page := take (Z.to_nat POLICY_BATCH) (order_limit policy_leb (POLICY_BATCH + 1) (List.filter (fun p => c <? workspace_pk p) l)) in
  length page = Z.to_nat POLICY_BATCH -> last page = Some y -> c + POLICY_BATCH <= workspace_pk y.
Proof.
  intros Hnd page Hlen Hy. pose proof (distinct_room (map workspace_pk page) c (workspace_pk y)) as H. rewrite length_map, Hlen in H.
  enough (Z.of_nat (Z.to_nat POLICY_BATCH) <= Z.max 0 (workspace_pk y - c)) by (unfold POLICY_BATCH in *; lia). apply H.
  - eapply sublist_NoDup; [by apply (beyond_pks_nodup c l)|]. apply fmap_sublist, batch_sublist.
  - intros x Hx. apply list_elem_of_fmap in Hx as (q & -> & Hq). split; [|by apply (batch_last_largest POLICY_BATCH _ y q Hy)].
    by apply subseteq_take, elem_of_order_limit, filter_In_elem in Hq as [_ Hlt%Z.ltb_lt].
Qed.
(** A batch holds the workspace, or stops short of it, a hundred numbers further, or has to wrap
    around first. *)
Lemma page_step d c pk maximum : NoDup (map workspace_pk (joined_policies d)) -> pk ∈ map workspace_pk (joined_policies d) ->
  (forall q, q ∈ joined_policies d -> workspace_pk q <= maximum) ->
  let batch := policy_page d c POLICY_BATCH in
  pk ∈ map workspace_pk (policies batch) \/
  c < pk /\ c + POLICY_BATCH <= nextWorkspaceCursor batch < pk \/
  pk <= c /\ (nextWorkspaceCursor batch = 0 \/ c + POLICY_BATCH <= nextWorkspaceCursor batch <= maximum).
Proof.
  intros Hnd Hpk Hmax batch. destruct (decide (pk ∈ map workspace_pk (policies batch))) as [?|Hno]; [by left|]. right. revert Hno.
  unfold batch, policy_page. cbn [policies nextWorkspaceCursor]. set (beyond := List.filter _ (joined_policies d)).
  set (rows := order_limit policy_leb (POLICY_BATCH + 1) beyond). set (page := take (Z.to_nat POLICY_BATCH) rows). intros Hno.
  apply list_elem_of_fmap in Hpk as (target & -> & Htarget).
  assert (Hout : target ∉ page) by (intros Hin; apply Hno; by apply list_elem_of_fmap_2).
  assert (Hbeyond : c < workspace_pk target -> target ∈ beyond) by (intros Hlt; apply filter_In_elem; by rewrite Z.ltb_lt).
  destruct (POLICY_BATCH <? Z.of_nat (length rows)) eqn:El.
  - apply Z.ltb_lt in El. assert (Hlen : length page = Z.to_nat POLICY_BATCH) by (unfold page; rewrite length_take; unfold POLICY_BATCH in *; lia).
    destruct (last page) as [y|] eqn:Ey; [|apply last_None in Ey; rewrite Ey in Hlen; done].
    assert (Hy : y ∈ joined_policies d).
    { apply last_Some_elem_of in Ey. by apply subseteq_take, elem_of_order_limit, filter_In_elem in Ey as [? _]. }
    assert (Hroom : c + POLICY_BATCH <= workspace_pk y) by (by apply (full_batch_room c (joined_policies d))).
    destruct (Z.le_gt_cases (workspace_pk target) c) as [Hle|Hgt%Z.lt_gt%Z.gt_lt]; [right; split; [done|]; right; split; [done | by apply Hmax]|].
    left. split; [done|]. split; [done|].
    assert (Hle : policy_leb y target = true).
    { apply (order_limit_prefix policy_leb policy_leb_total policy_leb_trans (POLICY_BATCH + 1) beyond page (drop (Z.to_nat POLICY_BATCH) rows));
        [symmetry; apply take_drop | done | by apply Hbeyond | done]. }
    apply Z.leb_le in Hle. assert (Hne : workspace_pk y <> workspace_pk target); [|lia]. intros E. apply Hno. rewrite <- E. apply list_elem_of_fmap_2. by apply last_Some_elem_of.
  - apply Z.ltb_ge in El. destruct (Z.le_gt_cases (workspace_pk target) c) as [Hle|Hgt%Z.lt_gt%Z.gt_lt]; [right; by split; [|left]|].
    exfalso. apply Hout. unfold page. rewrite take_ge by (unfold POLICY_BATCH in *; lia). unfold rows.
    assert (Hlen : Z.of_nat (length rows) = Z.min (POLICY_BATCH + 1) (Z.of_nat (length beyond))) by (by apply order_limit_count).
    apply order_limit_all; [lia | by apply Hbeyond].
Qed.

(** A cursor that moves like that comes by. *)
Lemma cursor_arrives (c : nat -> Z) (hit : nat -> Prop) `{forall i, Decision (hit i)} pk maximum n : 0 < pk <= maximum -> maximum < Z.of_nat n * POLICY_BATCH -> 0 <= c 0%nat ->
  (forall i, (i < n + n)%nat -> hit i \/ c i < pk /\ c i + POLICY_BATCH <= c (S i) < pk \/ pk <= c i /\ (c (S i) = 0 \/ c i + POLICY_BATCH <= c (S i) <= maximum)) ->
  exists i, (i < n + n)%nat /\ hit i.
Proof.
  intros Hpk Hn H0 Hstep. unfold POLICY_BATCH in *.
  (* before the workspace: at most [n] runs *)
  assert (Hup : forall i, 0 <= c i < pk -> (i <= n)%nat -> exists j, (j < n + n)%nat /\ hit j).
  { intros i Hi Hin. destruct (decide (Exists hit (seq i n))) as [He|Hno].
    - apply Exists_exists in He as (j & Hj & Hh). apply elem_of_seq in Hj. exists j. split; [lia | done].
    - exfalso. assert (Hno' : forall k, (k < n)%nat -> ~ hit (i + k)%nat).
      { intros k Hk Hh. apply Hno, Exists_exists. exists (i + k)%nat. split; [|done]. apply elem_of_seq. lia. }
      assert (Hc : forall k, (k <= n)%nat -> 100 * Z.of_nat k <= c (i + k)%nat < pk).
      { intros k. induction k as [|k IH]; intros Hk; [rewrite Nat.add_0_r; lia|]. specialize (IH ltac:(lia)).
        destruct (Hstep (i + k)%nat ltac:(lia)) as [Hh|[[_ Hs]|[Hs _]]]; [by destruct (Hno' k) | | lia].
        replace (i + S k)%nat with (S (i + k)) by lia. lia. }
      specialize (Hc n ltac:(lia)). lia. }
  (* beyond it: at most [n] runs until the cursor wraps around *)
  assert (Hwrap : forall k, (k <= n)%nat -> (exists j, (j < n + n)%nat /\ hit j) \/ 100 * Z.of_nat k <= c k /\ ((0 < k)%nat -> c k <= maximum)).
  { intros k. induction k as [|k IH]; intros Hk; [right; split; [lia | by intros ?%Nat.lt_irrefl]|]. destruct (IH ltac:(lia)) as [?|[Hlow _]]; [by left|].
    destruct (Z.lt_ge_cases (c k) pk) as [Hlt|Hge]; [left; apply (Hup k); lia|].
    destruct (Hstep k ltac:(lia)) as [Hh|[[Hs _]|[_ [Hs|Hs]]]]; [left; exists k; split; [lia | done] | lia | |right; lia].
    left. apply (Hup (S k)); [lia | done]. }
  destruct (Hwrap n ltac:(lia)) as [?|[Hlow Hhigh]]; [done|]. assert (0 < n)%nat by lia. specialize (Hhigh ltac:(done)). lia.
Qed.

(** *** Successive runs *)

(** A batch without a skipped workspace: everybody's turn came, after those before him, and ended
    well. *)
Lemma process_all {S} (go : S -> bool * S) clean l : forall deleted skipped s p, (process_policies go clean l deleted skipped s).1 = Ok p ->
  pp_skippedWorkspaces p = skipped -> forall q, q ∈ l -> exists before after r, l = (before ++ q :: after)%list /\
    (clean q (go (process_policies go clean before deleted skipped s).2).2).1 = Ok r /\ wr_processed r = true.
Proof.
  induction l as [|x l IH]; intros deleted skipped s p; cbn [process_policies]; [by intros _ _ q ?%elem_of_nil|].
  destruct (go s) as [[] s1] eqn:Eg; cbn [negb]; [|cbn [fst]; intros [= <-]; cbn [pp_skippedWorkspaces length]; lia].
  destruct (clean x s1) as [[r|e] s2] eqn:Ex; [|done].
  intros Hp Hs q Hq. pose proof (process_skips go clean l (deleted + wr_deletedRows r) (if wr_processed r then skipped else skipped + 1) s2) as Hle.
  rewrite Hp in Hle. destruct (wr_processed r) eqn:Er; [|lia]. apply elem_of_cons in Hq as [->|Hq].
  - exists [], l, r. cbn [process_policies snd]. rewrite Eg. cbn [snd]. by rewrite Ex.
  - destruct (IH _ _ _ _ Hp Hs q Hq) as (before & after & r' & -> & Hr & Hpr). exists (x :: before), after, r'. split; [done|].
    cbn [process_policies]. rewrite Eg. cbn [negb]. rewrite Ex, Er. by split.
Qed.

(** The record of runs after a run: what was there, and the run itself. *)
Lemma run_recorded scheduledTime (e : @retention_env B)
  (Hruns : forall r, r ∈ tt_runs (tables e) -> String.ltb (rr_id r) (run_id_of scheduledTime) = true) r :
  r ∈ tt_runs (tables (runRetention clock scheduledTime e).2) -> r ∈ tt_runs (tables e) \/ rr_id r = run_id_of scheduledTime.
Proof.
  pose proof (fresh_run scheduledTime e Hruns) as Hnew. rewrite (runRetention_fresh _ _ Hnew).
  pose proof (run_work_recorded scheduledTime e Hruns (clock (re_tick e) + RUN_WORK_BUDGET_MS)) as Hw. cbv zeta in Hw.
  destruct (run_work clock _ _ scheduledTime _) as [[[]|x] e4]; cbn [fst snd] in *.
  - destruct Hw as (p & row & _ & _ & _ & Hid & _ & Hall). intros Hr. destruct (Hall r Hr) as [->|?]; [by right | by left].
  - destruct (Date_now clock e4) as [at_ e5] eqn:E5. apply date_tables in E5.
    destruct (update_runs_own (run_id_of scheduledTime) (fail_run at_) (tt_runs (tables e))
      (RunRow (run_id_of scheduledTime) (clock (S (re_tick e))) None 0 None 0) e5 Hruns eq_refl) as [_ H6]; [by rewrite E5, Hw|].
    destruct (update_runs _ _ e5) as [n e6]. cbn [fst snd] in *. rewrite H6. intros Hr. apply elem_of_app in Hr as [Hr|Hr]; [by left|].
    apply list_elem_of_singleton in Hr as ->. by right.
Qed.
End Resume.

Section Successive.
Context {B : Type} `{RB : R2Bucket B} `{SJ : SqliteJson}.
(** The [i]th run: its scheduled time, its clock, and what it finds. *)
Context (time : nat -> Z) (clock : nat -> nat -> Z) (env : nat -> @retention_env B).
Definition run_outcome (i : nat) : res unit * @retention_env B := runRetention (clock i) (time i) (env i).
Definition batch_of (i : nat) : RetentionPolicyBatch := run_batch (time i) (env i).
(** One run after the other.  Between two runs everybody else may do anything to both databases,
    but for the record of runs, which only the runs write. *)
Record successive (n : nat) : Prop := {
  su_ids : forall i, (i < n)%nat -> String.ltb (run_id_of (time i)) (run_id_of (time (S i))) = true;
  su_first : forall r, r ∈ tt_runs (tables (env 0%nat)) -> String.ltb (rr_id r) (run_id_of (time 0%nat)) = true;
  su_runs : forall i, (i < n)%nat -> tt_runs (tables (env (S i))) = tt_runs (tables (run_outcome i).2);
  su_ok : forall i, (i < n)%nat -> control_ok (control (re_stores (env i)));
}.
(** A run that ends well and skips nobody. *)
Definition ran_well (i : nat) : Prop :=
  (run_outcome i).1 = Ok tt /\ exists p, (run_progress (clock i) (time i) (env i)).1 = Ok p /\ pp_skippedWorkspaces p = 0.
(** The workspace with this number has a policy when the run begins. *)
Definition has_policy (pk : Z) (i : nat) : Prop := pk ∈ map workspace_pk (joined_policies (control (re_stores (env i)))).

Lemma recorded_before n : successive n -> forall i, (i <= n)%nat -> forall r, r ∈ tt_runs (tables (env i)) -> String.ltb (rr_id r) (run_id_of (time i)) = true.
Proof.
  intros Hs i. induction i as [|i IH]; intros Hi r Hr; [by apply (su_first n)|].
  rewrite (su_runs n) in Hr by (done || lia). pose proof (su_ids n Hs i ltac:(lia)) as Hlt.
  apply run_recorded in Hr as [Hr| ->]; [|done|intros q Hq; apply IH; [lia | done]].
  apply (str_ltb_trans _ (run_id_of (time i))); [|done]. apply IH; [lia | done].
Qed.
(** Every run begins where the one before ended. *)
Lemma next_begins n i : successive n -> (i < n)%nat -> ran_well i -> workspaceCursor (batch_of (S i)) = nextWorkspaceCursor (batch_of i).
Proof.
  intros Hs Hi (Hok & p & Hp & Hskip). unfold batch_of at 1, run_batch, policy_page. cbn [workspaceCursor]. rewrite (su_runs n) by done.
  destruct (retention_resumption (clock i) (time i) (run_id_of (time (S i))) (env i)) as (H & _);
    [apply (recorded_before n); [done | lia] | by apply (su_ids n)|].
  unfold run_outcome in *. rewrite H, Hok, Hp, Hskip. done.
Qed.

(** What the run has made of its environment when it is through with [before] and turns to the next
    workspace of the batch. *)
Definition at_turn (i : nat) (before : list RetentionPolicyRow) : @retention_env B :=
  let go := before_deadline (clock i) (clock i (re_tick (env i)) + RUN_WORK_BUDGET_MS) in
  (go (processRetentionPolicies go (cleanWorkspace (clock i) (time i)) before (run_started (clock i) (time i) (env i))).2).2.

(** C21: While the runs go well, everybody gets a turn.  Take successive runs of the worker, each
    with a later id than the one before and started from the cursor that the record of runs holds
    (not a negative one at first), with whatever changes of the databases in between, workspaces
    that come and go included.  If every run ends well and skips nobody,
    then a workspace that has a policy throughout is in the batch of one of the first [2 n] runs,
    and is cleaned there to the end, where [n] hundreds exceed every workspace's number.  (A run
    that fails or skips somebody is repeated from the same cursor, and a workspace that cannot be
    removed makes every run fail: the runs do not go well then.) *)
Theorem retention_reaches_everyone n pk maximum : successive (n + n) -> (forall i, (i < n + n)%nat -> ran_well i) ->
  (forall i, (i < n + n)%nat -> has_policy pk i) -> 0 < pk <= maximum -> maximum < Z.of_nat n * POLICY_BATCH ->
  (forall i q, (i < n + n)%nat -> q ∈ joined_policies (control (re_stores (env i))) -> workspace_pk q <= maximum) ->
  0 <= workspaceCursor (batch_of 0) ->
  exists i before policy after r, (i < n + n)%nat /\ policies (batch_of i) = (before ++ policy :: after)%list /\ workspace_pk policy = pk /\
    (cleanWorkspace (clock i) (time i) policy (at_turn i before)).1 = Ok r /\ wr_processed r = true.
Proof.
  intros Hs Hwell Hpol Hpk Hn Hmax H0.
  destruct (cursor_arrives (fun i => workspaceCursor (batch_of i)) (fun i => pk ∈ map workspace_pk (policies (batch_of i))) pk maximum n) as (i & Hi & Hhit); [done..| |].
  - intros i Hi. cbv beta. rewrite (next_begins (n + n)) by (done || by apply Hwell).
    apply (page_step (control (re_stores (env i))) (workspaceCursor (batch_of i)) pk maximum); [by apply joined_pks_nodup, (su_ok (n + n)) | by apply Hpol | by intros q; apply Hmax].
  - apply list_elem_of_fmap in Hhit as (policy & -> & Hin). destruct (Hwell i Hi) as (_ & p & Hp & Hskip).
    destruct (process_all _ _ _ 0 0 _ p Hp Hskip policy Hin) as (before & after & r & Hb & Hr & Hproc). by exists i, before, policy, after, r.
Qed.
End Successive.

(** ** Recorded runs *)

Import ToySqlite.
Import ToyBucket.

Definition rw_clock (n : nat) : Z := 50 * DAY_MS + Z.of_nat n.
(** [SoftDelete.sd_stores]: workspace "w" was deleted seven weeks ago and cannot be removed. *)
Definition rw_env (runs : list run_row) : @retention_env bucket :=
  RetentionEnv (Stores sd_control (set_runs runs sd_telemetry)) ar_state.1 0.
Definition rw_previous : run_row := RunRow "retention:1000" 1000 (Some 2000) 7 None 0.
Definition rw_policy : RetentionPolicyRow := RetentionPolicy "w" 1 (Some DAY_MS) None 7 30 365 365 90 7 7.

(** The same databases without the deleted workspace. *)
Definition rw_good : @retention_env bucket :=
  RetentionEnv (Stores (set_workspaces [WorkspaceState "v" 2 "home" "Home" "dash2" 10 None None 0] sd_control)
    (set_runs [rw_previous] sd_telemetry)) ar_state.1 0.
Example retention_resumes_witness :
  (runRetention rw_clock 4000000000 rw_good).1 = Ok tt /\
  start_cursor "retention:4000003600" (tt_runs (tables (runRetention rw_clock 4000000000 rw_good).2)) = 0 /\
  re_stores (runRetention rw_clock 4000000000 (runRetention rw_clock 4000000000 rw_good).2).2 = re_stores (runRetention rw_clock 4000000000 rw_good).2.
Proof.
  split; [vm_compute; reflexivity|].
  destruct (retention_resumes rw_clock 4000000000 "retention:4000003600" rw_good) as (Hs & _ & Ha).
  - intros r Hr. apply list_elem_of_singleton in Hr as ->. vm_compute. reflexivity.
  - vm_compute. reflexivity.
  - split; [|exact Ha]. rewrite Hs. vm_compute. reflexivity.
Defined.

Lemma rw_blocked : blocked rw_policy 4320000000 (re_stores (rw_env [rw_previous])).
Proof.
  exists DAY_MS, (WorkspaceState "w" 1 "old" "Old" "dash" 10 (Some DAY_MS) None 0), (Membership "w" "u" admin active).
  split_and!; try (vm_compute; reflexivity); [vm_compute; discriminate | by left | unique_keys | by left].
Qed.
Example blocked_workspace_stalls_witness :
  (runRetention rw_clock 4320000000 (rw_env [rw_previous])).1 = Err "workspace requires an active administrator" /\
  map workspace_id (policies (run_batch 4320000000 (rw_env [rw_previous]))) = ["w"; "v"] /\
  start_cursor "retention:4320003600" (tt_runs (tables (runRetention rw_clock 4320000000 (rw_env [rw_previous])).2)) = 0.
Proof.
  split; [vm_compute; reflexivity|]. split; [vm_compute; reflexivity|].
  destruct (blocked_workspace_stalls rw_clock 4320000000 "retention:4320003600" (rw_env [rw_previous]) rw_policy) as [Hs _].
  - intros r Hr. apply list_elem_of_singleton in Hr as ->. vm_compute. reflexivity.
  - vm_compute. reflexivity.
  - exact sd_control_ok.
  - vm_compute. by left.
  - exact rw_blocked.
  - rewrite Hs. vm_compute. reflexivity.
Defined.
(** Two good runs, an hour apart. *)
Definition rw_time (i : nat) : Z := 4000000000 + 3600000 * Z.of_nat i.
Definition rw_hours (i : nat) : nat -> Z := fun n => rw_clock n + 3600000 * Z.of_nat i.
Fixpoint rw_envs (i : nat) : @retention_env bucket :=
  match i with O => rw_good | S i => (runRetention (rw_hours i) (rw_time i) (rw_envs i)).2 end.
Lemma below_two (P : nat -> Prop) : P 0%nat -> P 1%nat -> forall i, (i < 1 + 1)%nat -> P i.
Proof. intros H0 H1 [|[|i]] Hi; [done | done | lia]. Qed.
Example retention_reaches_everyone_witness : exists i before policy after r, (i < 1 + 1)%nat /\
  policies (batch_of rw_time rw_envs i) = (before ++ policy :: after)%list /\ workspace_pk policy = 2 /\
  (cleanWorkspace (rw_hours i) (rw_time i) policy (at_turn rw_time rw_hours rw_envs i before)).1 = Ok r /\ wr_processed r = true.
Proof.
  apply (retention_reaches_everyone rw_time rw_hours rw_envs 1 2 2).
  - split.
    + apply below_two; vm_compute; reflexivity.
    + intros r Hr. apply list_elem_of_singleton in Hr as ->. vm_compute. reflexivity.
    + by intros i _.
    + apply below_two; split; unique_keys.
  - apply below_two; (split; [vm_compute; reflexivity | eexists; split; vm_compute; reflexivity]).
  - apply below_two; unfold has_policy; apply (bool_decide_unpack _); vm_compute; exact Logic.I.
  - lia.
  - vm_compute. reflexivity.
  - intros i q Hi. revert q. assert (H : forall d, forallb (fun q => workspace_pk q <=? 2) (joined_policies d) = true -> forall q, q ∈ joined_policies d -> workspace_pk q <= 2).
    { intros d Hd q Hq. rewrite List.forallb_forall in Hd. apply Z.leb_le, Hd. by apply list_elem_of_In. }
    apply H. revert i Hi. apply (below_two (fun i => forallb (fun q => workspace_pk q <=? 2) (joined_policies (control (re_stores (rw_envs i)))) = true)); vm_compute; reflexivity.
  - vm_compute. discriminate.
Defined.
