(* ===== verification/WorkspaceAccess.v ===== *)
(** * WorkspaceAccess: who belongs to a workspace and what he may do

    [apps/web/src/lib/server/workspace-access.ts].  Administrators change roles, suspend members
    and set what a member may do with one machine, service or container.  Every change is one
    transaction whose conditions repeat what the action checked before; [meanwhile] is what other
    requests do between the reads and the transaction.

    Of a membership and a grant the model keeps what decisions depend on; ids and time stamps are
    left out. *)

From Stdlib Require Import ZArith Lia Bool String List.
From stdpp Require Import base tactics list strings.
From S2P Require Import Prelude.
From S2P Require Import Js.
From S2P Require Import Sql.
From S2P Require Import Crypto.
From S2P Require Import Authz.
From S2P Require Import ControlPlane.
From S2P Require Import AuditLog.
From S2P Require Import SoftDelete.
Open Scope string_scope.
Open Scope Z_scope.

(** ** Input and tables *)

Definition role_name (r : WorkspaceRole) : string := match r with admin => "admin" | member => "member" end.
Definition status_name (s : membership_status) : string := match s with invited => "invited" | active => "active" | suspended => "suspended" end.
Definition role_of (s : string) : option WorkspaceRole :=
  if String.eqb s "admin" then Some admin else if String.eqb s "member" then Some member else None.
Definition status_of (s : string) : option membership_status :=
  if String.eqb s "active" then Some active else if String.eqb s "suspended" then Some suspended else None.
(* @src apps/web/src/lib/server/workspace-access.ts ResourcePermission *)
Inductive ResourcePermission := perm_none | perm_view | perm_manage | perm_deny.
#[export] Instance permission_eq_dec : EqDecision ResourcePermission. Proof. solve_decision. Defined.
Definition permission_name (p : ResourcePermission) : string :=
  match p with perm_none => "none" | perm_view => "view" | perm_manage => "manage" | perm_deny => "deny" end.
Definition permission_of (s : string) : option ResourcePermission :=
  if String.eqb s "none" then Some perm_none else if String.eqb s "view" then Some perm_view
  else if String.eqb s "manage" then Some perm_manage else if String.eqb s "deny" then Some perm_deny else None.
Definition resource_of (s : string) : option WorkspaceResourceType :=
  if String.eqb s "machine" then Some wr_machine else if String.eqb s "service" then Some wr_service
  else if String.eqb s "container" then Some wr_container else None.
Definition wr_type (t : WorkspaceResourceType) : ResourceType :=
  match t with wr_machine => RMachine | wr_service => RService | wr_container => RContainer end.
Definition wr_name (t : WorkspaceResourceType) : string :=
  match t with wr_machine => "machine" | wr_service => "service" | wr_container => "container" end.

(** [status IN ('active', 'suspended')] *)
Definition joined (m : membership) : bool := bool_decide (mb_status m <> invited).
Definition member_is (workspaceId userId : string) (m : membership) : bool :=
  String.eqb (mb_workspace m) workspaceId && String.eqb (mb_user m) userId.
Definition load_member (d : control_tables) (workspaceId userId : string) : option membership :=
  List.find (fun m => member_is workspaceId userId m && joined m) (ct_memberships d).

(** [UPDATE memberships SET role = ?, status = ? WHERE guard]: a row that the trigger
    [memberships_keep_active_admin_on_update] protects makes the statement fail. *)
Definition update_memberships (guard : membership -> bool) (role : WorkspaceRole) (status : membership_status) (t : list membership)
  : res (list membership * Z) :=
  let set m := Membership (mb_workspace m) (mb_user m) role status in
  throw_if existsb (fun m => guard m && admin_guard m t && negb (active_admin (set m))) t as "workspace requires an active administrator" in
  Ok (update_where guard set t).

(** [INSERT INTO resource_grants ...] with the unique key of the table. *)
Definition grant_key (g : grant_row) : string * ResourceType * string * Capability :=
  (gr_user g, resourceType (gr_grant g), resourceId (gr_grant g), capability (gr_grant g)).
Definition insert_grant (g : grant_row) (t : list grant_row) : res (list grant_row) :=
  throw_if has_key grant_key (grant_key g) t as "UNIQUE constraint failed: resource_grants" in Ok (t ++ [g])%list.

(** ** What a member may do with a resource *)

(* @src apps/web/src/lib/server/workspace-access.ts permissionFromGrants *)
Definition permissionFromGrants (grants : list ResourceGrant) : ResourcePermission :=
  if existsb (fun g => bool_decide (effect g = deny)) grants then perm_deny
  else if existsb (fun g => bool_decide (effect g = allow) && bool_decide (capability g = manage)) grants then perm_manage
  else if existsb (fun g => bool_decide (effect g = allow) && bool_decide (capability g = view)) grants then perm_view
  else perm_none.

(* @src apps/web/src/lib/server/workspace-access.ts WorkspaceAccessPagination *)
Record WorkspaceAccessPagination := Pagination { pg_page : Z; pg_pages : Z; pg_total : Z; pg_totalCapped : bool }.
(* @src apps/web/src/lib/server/workspace-access.ts 12-14 MAX_ENTRIES *)
Definition PAGE_SIZE : Z := 50.
Definition MAX_PAGE : Z := 100.
Definition MAX_ENTRIES : Z := PAGE_SIZE * MAX_PAGE.
(** [requestedPage] is an integer or something else ([None]). *)
(* @src apps/web/src/lib/server/workspace-access.ts pagination *)
Definition pagination (count : Z) (requestedPage : option Z) : WorkspaceAccessPagination :=
  let requested := match requestedPage with Some p => Z.min MAX_PAGE (Z.max 1 p) | None => 1 end in
  let total := Z.min count MAX_ENTRIES in
  let pages := Z.max 1 (Z.min MAX_PAGE ((total + PAGE_SIZE - 1) / PAGE_SIZE)) in
  Pagination (Z.min requested pages) pages total (MAX_ENTRIES <? count).

(** ** Changes *)

Section Changes.
Context `{WC : WebCrypto} `{LO : Locale} (meanwhile : control_tables -> control_tables).

Definition member_json (role : WorkspaceRole) (status : membership_status) : jout :=
  OObj [("role", OStr (role_name role)); ("status", OStr (status_name status))].
(** The transaction: the membership as it was read, an actor who is still an administrator, and
    another administrator when this one goes. *)
(* @src apps/web/src/lib/server/workspace-access.ts 319-353 updateWorkspaceMembership *)
Definition membership_batch (workspaceId actorUserId memberId : string) (seen : membership) (role : WorkspaceRole) (status : membership_status)
    (removesActiveAdmin : bool) (audit : audit_row) (d : control_tables) : res unit * control_tables :=
  let guard m := member_is workspaceId memberId m && bool_decide (mb_role m = mb_role seen) && bool_decide (mb_status m = mb_status seen) &&
    existsb (fun actor => String.eqb (mb_workspace actor) (mb_workspace m) && String.eqb (mb_user actor) actorUserId && active_admin actor) (ct_memberships d) &&
    (negb removesActiveAdmin ||
     existsb (fun r => String.eqb (mb_workspace r) (mb_workspace m) && negb (String.eqb (mb_user r) (mb_user m)) && active_admin r) (ct_memberships d)) in
  match update_memberships guard role status (ct_memberships d) with
  | Err e => (Err e, d)
  | Ok (rows, n) =>
      (throw_if negb (n =? 1) as "409 Workspace membership changed; reload and try again" in Ok tt,
       audit_statement audit true n (set_memberships rows d))
  end.
(* @src apps/web/src/lib/server/workspace-access.ts updateWorkspaceMembership *)
Definition updateWorkspaceMembership (d : control_tables) (workspaceSlug actorUserId memberId role status auditId : string) (now : Z)
  : res unit * control_tables :=
  let checked :=
    match role_of role, status_of status with
    | None, _ => Err "400 Role is invalid"
    | _, None => Err "400 Membership status is invalid"
    | Some role, Some status =>
        let* access := requireWorkspaceAdmin d workspaceSlug actorUserId in
        match load_member d (m_workspaceId access) memberId with
        | None => Err "404 Member not found"
        | Some seen =>
            let stays := bool_decide (role = admin) && bool_decide (status = active) in
            throw_if String.eqb memberId actorUserId && negb stays as "409 You cannot remove your own active administrator access" in
            let removesActiveAdmin := active_admin seen && negb stays in
            throw_if removesActiveAdmin &&
              (count_if (fun m => String.eqb (mb_workspace m) (m_workspaceId access) && active_admin m) (ct_memberships d) <? 2)
              as "409 The workspace must keep at least one active administrator" in
            Ok (m_workspaceId access, seen, role, status, removesActiveAdmin)
        end
    end in
  match checked with
  | Err e => (Err e, d)
  | Ok (workspaceId, seen, role, status, removesActiveAdmin) =>
      let audit := prepareAuditStatement auditId (AuditInput workspaceId actorUserId "membership.update" "membership" memberId
        (Some (member_json (mb_role seen) (mb_status seen))) (Some (member_json role status)) now) in
      membership_batch workspaceId actorUserId memberId seen role status removesActiveAdmin audit (meanwhile d)
  end.

Definition resource_present (d : control_tables) (workspaceId : string) (type : WorkspaceResourceType) (resourceId : string) : bool :=
  is_ok (requireWorkspaceResource d workspaceId type resourceId).
(** [authorizationSql]: an administrator acts, the subject is a member, the resource is there. *)
(* @src apps/web/src/lib/server/workspace-access.ts 397-418 setMemberResourcePermission *)
Definition grant_authorized (workspaceId actorUserId memberId : string) (type : WorkspaceResourceType) (resourceId : string)
    (d : control_tables) : bool :=
  existsb (fun m => member_is workspaceId actorUserId m && active_admin m) (ct_memberships d) &&
  existsb (fun m => member_is workspaceId memberId m && bool_decide (mb_role m = member) && joined m) (ct_memberships d) &&
  resource_present d workspaceId type resourceId.
Definition grant_on (workspaceId memberId : string) (type : WorkspaceResourceType) (resourceId : string) (g : grant_row) : bool :=
  String.eqb (gr_workspace g) workspaceId && String.eqb (gr_user g) memberId &&
  bool_decide (resourceType (gr_grant g) = wr_type type) && String.eqb (Authz.resourceId (gr_grant g)) resourceId.
(** The grants a permission is stored as. *)
(* @src apps/web/src/lib/server/workspace-access.ts 473-477 setMemberResourcePermission *)
Definition permission_grants (p : ResourcePermission) : list (Capability * GrantEffect) :=
  match p with perm_none => [] | perm_view => [(view, allow)] | perm_manage => [(manage, allow)] | perm_deny => [(view, deny); (manage, deny)] end.
Definition grants_json (gs : list grant_row) : jout :=
  OArr (map (fun g => OObj [("capability", OStr (match capability (gr_grant g) with view => "view" | manage => "manage" end));
                            ("effect", OStr (match effect (gr_grant g) with allow => "allow" | deny => "deny" end))]) gs).
(** Guard, audit row, deletion and insertions; every statement has the same condition. *)
(* @src apps/web/src/lib/server/workspace-access.ts 419-481 setMemberResourcePermission *)
Definition permission_batch (workspaceId actorUserId memberId : string) (type : WorkspaceResourceType) (resourceId : string) (p : ResourcePermission)
    (audit : audit_row) (d : control_tables) : res unit * control_tables :=
  let authorized := grant_authorized workspaceId actorUserId memberId type resourceId d in
  let n := count_if (fun m => member_is workspaceId memberId m && bool_decide (mb_role m = member) && joined m && authorized) (ct_memberships d) in
  let d1 := audit_statement audit true n d in
  let '(kept, _) := delete_where (fun g => grant_on workspaceId memberId type resourceId g && authorized) (ct_grants d1) in
  let inserted := foldl (fun t '(c, e) => let* t := t in
      if authorized then insert_grant (GrantRow workspaceId memberId (Grant (wr_type type) resourceId c e)) t else Ok t) (Ok kept) (permission_grants p) in
  match inserted with
  | Err e => (Err e, d)
  | Ok rows => (throw_if negb (n =? 1) as "409 Resource permission changed; reload and try again" in Ok tt, set_grants rows d1)
  end.
(* @src apps/web/src/lib/server/workspace-access.ts setMemberResourcePermission *)
Definition setMemberResourcePermission (d : control_tables) (workspaceSlug actorUserId memberId resourceType_ resourceId permission auditId : string)
    (now : Z) : res unit * control_tables :=
  let checked :=
    match resource_of resourceType_, permission_of permission with
    | None, _ => Err "400 Resource type is invalid"
    | _, None => Err "400 Permission is invalid"
    | Some type, Some p =>
        let* access := requireWorkspaceAdmin d workspaceSlug actorUserId in
        match load_member d (m_workspaceId access) memberId with
        | None => Err "404 Member not found"
        | Some m =>
            throw_if negb (bool_decide (mb_role m = member)) as "404 Member not found" in
            let* _ := requireWorkspaceResource d (m_workspaceId access) type resourceId in
            Ok (m_workspaceId access, type, p)
        end
    end in
  match checked with
  | Err e => (Err e, d)
  | Ok (workspaceId, type, p) =>
      let existing := List.filter (grant_on workspaceId memberId type resourceId) (ct_grants d) in
      let audit := prepareAuditStatement auditId (AuditInput workspaceId actorUserId "resource_grant.replace" (wr_name type) resourceId
        (Some (grants_json existing)) (Some (OObj [("memberId", OStr memberId); ("permission", OStr (permission_name p))])) now) in
      permission_batch workspaceId actorUserId memberId type resourceId p audit (meanwhile d)
  end.
End Changes.

(** ** Memberships *)

Definition has_active_admin (workspaceId : string) (t : list membership) : Prop :=
  exists m, m ∈ t /\ mb_workspace m = workspaceId /\ active_admin m = true.
Lemma member_is_true w u m : member_is w u m = true <-> mb_workspace m = w /\ mb_user m = u.
Proof. unfold member_is. by rewrite andb_true_iff, !String.eqb_eq. Qed.

Lemma updated_row {R} (p : R -> bool) (f : R -> R) t m : m ∈ t -> (if p m then f m else m) ∈ (update_where p f t).1.
Proof. intros Hm. cbn. by apply (list_elem_of_fmap_2 (fun r => if p r then f r else r)). Qed.

Lemma update_where_none {R} (p : R -> bool) (f : R -> R) t : (forall x, x ∈ t -> p x = false) -> update_where p f t = (t, 0).
Proof.
  intros H. unfold update_where. f_equal.
  - induction t as [|x t IH]; [done|]. cbn. rewrite H by (by left). f_equal. apply IH. intros y Hy. apply H. by right.
  - apply (count_if_zero (fun x => x)). exact H.
Qed.
Lemma update_where_ext {R} (p q : R -> bool) (f g : R -> R) t : (forall x, x ∈ t -> p x = q x /\ (q x = true -> f x = g x)) -> update_where p f t = update_where q g t.
Proof.
  intros H. unfold update_where. f_equal.
  - induction t as [|x t IH]; [done|]. cbn. destruct (H x (list_elem_of_here _ _)) as [-> Hf]. destruct (q x) eqn:E; [rewrite Hf by done|];
      (f_equal; apply IH; intros y Hy; apply H; by right).
  - induction t as [|x t IH]; [done|]. rewrite !count_if_cons. destruct (H x (list_elem_of_here _ _)) as [-> _]. rewrite IH; [done|].
    intros y Hy. apply H. by right.
Qed.
Lemma count_if_ext {R} (p q : R -> bool) t : (forall x, p x = q x) -> count_if p t = count_if q t.
Proof. intros H. induction t as [|x t IH]; [done|]. by rewrite !count_if_cons, H, IH. Qed.
Lemma same_memberships d : set_memberships (ct_memberships d) d = d.
Proof. by destruct d. Qed.

Section MembershipProofs.
Context (workspaceId actorUserId memberId : string) (seen : membership) (role : WorkspaceRole) (status : membership_status).
Context (audit : audit_row) (d : control_tables).
Let new : membership := Membership workspaceId memberId role status.
Let removes : bool := active_admin seen && negb (active_admin new).
Let out := membership_batch workspaceId actorUserId memberId seen role status removes audit d.
Context (Hself : memberId = actorUserId -> active_admin new = true).
Context (Hu : keys_unique membership_key (ct_memberships d)).

(** What the transaction does: it fails without effect, or the member's row alone changes, in
    the presence of an administrator other than the one who goes. *)
Lemma membership_batch_spec :
  (out.1 = Err "409 Workspace membership changed; reload and try again" /\ out.2 = d) \/
  (out.1 = Ok tt /\ exists m, m ∈ ct_memberships d /\ mb_workspace m = workspaceId /\ mb_user m = memberId /\
     mb_role m = mb_role seen /\ mb_status m = mb_status seen /\
     (exists a, a ∈ ct_memberships d /\ mb_workspace a = workspaceId /\ mb_user a = actorUserId /\ active_admin a = true) /\
     ct_memberships out.2 = map (fun x => if member_is workspaceId memberId x then new else x) (ct_memberships d) /\
     ct_audits out.2 = (ct_audits d ++ [audit])%list /\ ct_grants out.2 = ct_grants d).
Proof using Hself Hu.
  unfold out, membership_batch. set (guard := fun m => member_is workspaceId memberId m && _ && _ && _ && _).
  assert (Hguard : forall m, guard m = true -> mb_workspace m = workspaceId /\ mb_user m = memberId /\ mb_role m = mb_role seen /\ mb_status m = mb_status seen /\
    (exists a, a ∈ ct_memberships d /\ mb_workspace a = workspaceId /\ mb_user a = actorUserId /\ active_admin a = true) /\
    (removes = true -> exists r, r ∈ ct_memberships d /\ mb_workspace r = workspaceId /\ mb_user r <> memberId /\ active_admin r = true)).
  { intros m E. unfold guard in E. rewrite !andb_true_iff, member_is_true, !bool_decide_eq_true in E. destruct E as ((((E1 & E2) & E3) & E4) & E5).
    destruct E1 as [E0 E1]. split_and!; try done.
    - apply existsb_exists_elem in E4 as (a & Ha & E4). bool_hyps. exists a. split_and!; try done. congruence.
    - intros Hr. rewrite Hr in E5. cbn in E5. apply existsb_exists_elem in E5 as (r & Hr' & E5). bool_hyps. exists r. split_and!; try done; congruence. }
  unfold update_memberships.
  assert (Htrigger : existsb (fun m => guard m && admin_guard m (ct_memberships d) && negb (active_admin (Membership (mb_workspace m) (mb_user m) role status)))
    (ct_memberships d) = false).
  { apply existsb_false_elem. intros m Hm. destruct (guard m) eqn:Eg; [|done]. cbn [andb]. destruct (Hguard m Eg) as (E0 & E1 & E2 & E3 & _ & Hr).
    destruct (admin_guard m _) eqn:Et; [|done]. cbn [andb]. apply negb_false_iff. rewrite E0, E1. fold new. destruct (active_admin new) eqn:En; [done|].
    unfold admin_guard in Et. apply andb_true_iff in Et as [Ea Et]. apply negb_true_iff in Et. rewrite existsb_false_elem in Et.
    assert (Hrem : removes = true).
    { apply andb_true_iff. split; [|by apply negb_true_iff]. unfold active_admin in *. by rewrite <- E2, <- E3. }
    destruct (Hr Hrem) as (r & Hr1 & Hr2 & Hr3 & Hr4). specialize (Et r Hr1). rewrite Hr2, Hr4, E0, E1, String.eqb_refl in Et. cbn in Et.
    rewrite andb_true_r in Et. by apply negb_false_iff, String.eqb_eq in Et. }
  rewrite Htrigger. cbn [fst snd].
  destruct (existsb guard (ct_memberships d)) eqn:Ex.
  - right. apply existsb_exists_elem in Ex as (m & Hm & Eg). destruct (Hguard m Eg) as (E0 & E1 & E2 & E3 & Ha & _).
    assert (Hext : forall x, x ∈ ct_memberships d -> guard x = member_is workspaceId memberId x).
    { intros x Hx. destruct (member_is workspaceId memberId x) eqn:Ei; [|unfold guard; by rewrite Ei]. apply member_is_true in Ei as [F1 F2].
      assert (x = m) as ->; [|done].
      pose proof (find_key_unique membership_key (workspaceId, memberId) _ x Hu Hx) as G1. pose proof (find_key_unique membership_key (workspaceId, memberId) _ m Hu Hm) as G2.
      unfold membership_key in G1, G2. rewrite F1, F2 in G1. rewrite E0, E1 in G2. specialize (G1 eq_refl). specialize (G2 eq_refl). congruence. }
    assert (Hup : update_where guard (fun m => Membership (mb_workspace m) (mb_user m) role status) (ct_memberships d) =
      update_where (member_is workspaceId memberId) (fun _ => new) (ct_memberships d)).
    { apply update_where_ext. intros x Hx. split; [by apply Hext|]. intros [F1 F2]%member_is_true. by rewrite F1, F2. }
    rewrite Hup. unfold update_where.
    assert (Hn : count_if (member_is workspaceId memberId) (ct_memberships d) = 1).
    { pose proof (count_if_key membership_key (workspaceId, memberId) (fun _ => true) (ct_memberships d) Hu) as Hk.
      assert (Hf : find_key membership_key (workspaceId, memberId) (ct_memberships d) = Some m) by (apply find_key_unique; [done | done | unfold membership_key; congruence]).
      rewrite Hf in Hk. rewrite <- Hk. apply count_if_ext. intros x. unfold key_is, membership_key. rewrite andb_true_r.
      destruct (member_is workspaceId memberId x) eqn:Ei.
      - apply member_is_true in Ei as [-> ->]. by rewrite bool_decide_eq_true_2.
      - symmetry. apply bool_decide_eq_false. intros [= F1 F2]. assert (member_is workspaceId memberId x = true) by (by apply member_is_true). congruence. }
    rewrite Hn. change (negb (1 =? 1)) with false. split; [done|]. exists m. split_and!; done.
  - left. rewrite existsb_false_elem in Ex. rewrite update_where_none by done. change (negb (0 =? 1)) with true. split; [done|].
    unfold audit_statement. change (true && negb (0 =? 1)) with true. cbn. apply same_memberships.
Qed.
End MembershipProofs.

Lemma requireWorkspaceAdmin_err d slug user e : requireWorkspaceAdmin d slug user = Err e ->
  e = "404 Workspace not found" \/ e = "503 Resource access scope exceeds the supported limit".
Proof.
  unfold requireWorkspaceAdmin, loadMonitoringAccess. destruct (mbind _ _) as [|[w r] rest]; cbn [rbind]; [intros [= <-]; by left|].
  destruct (bool_decide (r = admin)) eqn:Er; cbn [rbind].
  - unfold requireAdmin. cbn. rewrite Er. done.
  - destruct (MAX_ACCESS_GRANTS <? _); cbn [rbind]; [intros [= <-]; by right|]. unfold requireAdmin. cbn. rewrite Er. cbn. intros [= <-]. by left.
Qed.

Definition TRIGGER_ERROR : string := "workspace requires an active administrator".

(** C24: A workspace is never left without an administrator, and nobody locks himself out.  Whatever
    other requests did since the action read the database, it either has no effect, and then not
    because the database had to stop it, or it changes the role and status of exactly one member
    as asked, on behalf of somebody who is an administrator at that moment and still is one
    afterwards; every workspace that had an active administrator has one; the change comes with
    its audit row. *)
Theorem membership_update_safe `{WC : WebCrypto} `{LO : Locale} meanwhile d slug actorUserId memberId role status auditId now
  (Hu : keys_unique membership_key (ct_memberships (meanwhile d))) :
  let before := meanwhile d in
  let out := updateWorkspaceMembership meanwhile d slug actorUserId memberId role status auditId now in
  (is_ok out.1 = false /\ out.1 <> Err TRIGGER_ERROR /\ (out.2 = d \/ out.2 = before)) \/
  exists workspaceId r st,
    out.1 = Ok tt /\ role_of role = Some r /\ status_of status = Some st /\
    ct_memberships out.2 = map (fun x => if member_is workspaceId memberId x then Membership workspaceId memberId r st else x) (ct_memberships before) /\
    (exists m, m ∈ ct_memberships before /\ member_is workspaceId memberId m = true) /\
    (exists a, a ∈ ct_memberships before /\ member_is workspaceId actorUserId a && active_admin a = true) /\
    (exists a, a ∈ ct_memberships out.2 /\ member_is workspaceId actorUserId a && active_admin a = true) /\
    (forall w, has_active_admin w (ct_memberships before) -> has_active_admin w (ct_memberships out.2)) /\
    ct_grants out.2 = ct_grants before /\
    exists audit, ct_audits out.2 = (ct_audits before ++ [audit])%list /\ al_workspace audit = workspaceId /\ al_actor audit = actorUserId /\ al_resource audit = memberId.
Proof.
  intros before out. unfold out, updateWorkspaceMembership.
  destruct (role_of role) as [r|] eqn:Er; [|left; split_and!; [done | done | by left]].
  destruct (status_of status) as [st|] eqn:Es; [|left; split_and!; [done | done | by left]].
  destruct (requireWorkspaceAdmin d slug actorUserId) as [access|e] eqn:Ea; cbn [rbind].
  2:{ left. split_and!; [done | cbn | by left]. apply requireWorkspaceAdmin_err in Ea as [->| ->]; done. }
  destruct (load_member d (m_workspaceId access) memberId) as [seen|]; [|left; split_and!; [done | done | by left]].
  set (stays := bool_decide (r = admin) && bool_decide (st = active)).
  destruct (String.eqb memberId actorUserId && negb stays) eqn:Eself; [left; split_and!; [done | done | by left]|].
  destruct (active_admin seen && negb stays && _); [left; split_and!; [done | done | by left]|].
  set (audit := prepareAuditStatement _ _).
  assert (Hself : memberId = actorUserId -> active_admin (Membership (m_workspaceId access) memberId r st) = true).
  { intros ->. rewrite String.eqb_refl in Eself. by apply negb_false_iff in Eself. }
  destruct (membership_batch_spec (m_workspaceId access) actorUserId memberId seen r st audit (meanwhile d) Hself Hu)
    as [[E1 E2]|(E1 & m & Hm & Hw & Hmu & _ & _ & (a & Ha & Haw & Hau & Haa) & Hrows & Haud & Hgr)];
    change (negb (active_admin (Membership (m_workspaceId access) memberId r st))) with (negb stays) in *.
  - left. rewrite E1, E2. split_and!; [done | done | by right].
  - right. exists (m_workspaceId access), r, st. rewrite E1, Hrows.
    assert (Hmap : forall x, x ∈ ct_memberships (meanwhile d) ->
      (if member_is (m_workspaceId access) memberId x then Membership (m_workspaceId access) memberId r st else x) ∈
      map (fun x => if member_is (m_workspaceId access) memberId x then Membership (m_workspaceId access) memberId r st else x) (ct_memberships (meanwhile d))).
    { intros x Hx. by apply (list_elem_of_fmap_2 (fun x => if member_is (m_workspaceId access) memberId x then Membership (m_workspaceId access) memberId r st else x)). }
    assert (Hactor : exists a', a' ∈ map (fun x => if member_is (m_workspaceId access) memberId x then Membership (m_workspaceId access) memberId r st else x)
      (ct_memberships (meanwhile d)) /\ mb_workspace a' = m_workspaceId access /\ mb_user a' = actorUserId /\ active_admin a' = true).
    { eexists. split; [apply (Hmap a Ha)|]. destruct (member_is (m_workspaceId access) memberId a) eqn:Ei; [|done].
      apply member_is_true in Ei as [_ Ei]. cbn. split_and!; [done | congruence | apply Hself; congruence]. }
    split_and!; try done.
    + exists m. split; [done|]. by apply member_is_true.
    + exists a. split; [done|]. rewrite Haa, andb_true_r. by apply member_is_true.
    + destruct Hactor as (a' & Ha' & H1 & H2 & H3). exists a'. split; [done|]. rewrite H3, andb_true_r. by apply member_is_true.
    + intros w (x & Hx & Hxw & Hxa). destruct (decide (w = m_workspaceId access)) as [->|Hne].
      * destruct Hactor as (a' & Ha' & H1 & _ & H3). by exists a'.
      * exists x. split; [|done]. specialize (Hmap x Hx). destruct (member_is (m_workspaceId access) memberId x) eqn:Ei; [|done].
        apply member_is_true in Ei as [Ei _]. congruence.
    + exists audit. done.
Qed.

(** ** Permissions *)

Lemma string_eqb_decide a b : String.eqb a b = bool_decide (a = b).
Proof. destruct (String.eqb_spec a b); symmetry; [by apply bool_decide_eq_true | by apply bool_decide_eq_false]. Qed.
(** The grants the decisions look at, of one member for one resource. *)
Lemma relevant_grants w u type id d :
  List.filter (grant_for (wr_type type) id) (subject_grants w u (authz_view d)) = map gr_grant (List.filter (grant_on w u type id) (ct_grants d)).
Proof.
  unfold subject_grants, authz_view. cbn [resource_grants]. induction (ct_grants d) as [|g l IH]; [done|]. cbn [List.filter].
  unfold grant_on at 1. rewrite !string_eqb_decide.
  destruct (bool_decide (gr_workspace g = w) && bool_decide (gr_user g = u)) eqn:E; cbn [andb map List.filter].
  - unfold grant_for at 1. destruct (bool_decide (resourceType (gr_grant g) = wr_type type)); cbn [andb]; [|exact IH].
    destruct (bool_decide (resourceId (gr_grant g) = id)); cbn [map]; [f_equal|]; exact IH.
  - exact IH.
Qed.

(** What the insertions add. *)
Definition stored_grants (type : WorkspaceResourceType) (id : string) (p : ResourcePermission) : list ResourceGrant :=
  map (fun ce => Grant (wr_type type) id ce.1 ce.2) (permission_grants p).
Lemma insert_all w u type id p kept rows :
  foldl (fun t '(c, e) => let* t := t in insert_grant (GrantRow w u (Grant (wr_type type) id c e)) t) (Ok kept) (permission_grants p) = Ok rows ->
  rows = (kept ++ map (GrantRow w u) (stored_grants type id p))%list.
Proof.
  unfold insert_grant. intros H. destruct p; cbn [permission_grants foldl rbind stored_grants map] in *; repeat (first [progress ok_inv | progress cbn [rbind] in *]); subst;
    rewrite ?app_nil_r, <- ?app_assoc; done.
Qed.
Lemma stored_on w u type id p : List.filter (grant_on w u type id) (map (GrantRow w u) (stored_grants type id p)) = map (GrantRow w u) (stored_grants type id p).
Proof.
  unfold stored_grants. induction (permission_grants p) as [|[c e] l IH]; [done|]. cbn. unfold grant_on at 1. cbn.
  by rewrite !String.eqb_refl, bool_decide_eq_true_2, IH.
Qed.
Lemma stored_decides type id p :
  permissionFromGrants (stored_grants type id p) = p /\
  (forall c grants, List.filter (grant_for (wr_type type) id) grants = stored_grants type id p ->
     canAccessResource member grants (wr_type type) id c = match p with perm_manage => true | perm_view => bool_decide (c = view) | _ => false end).
Proof.
  split; [by destruct p|]. intros c grants E. unfold canAccessResource. cbn. rewrite E. by destruct p, c.
Qed.

Lemma filter_filter_none {R} (p q : R -> bool) t : (forall x, q x = true -> p x = true) -> List.filter q (List.filter (fun x => negb (p x)) t) = [].
Proof.
  intros H. induction t as [|x t IH]; [done|]. cbn. destruct (p x) eqn:E; cbn; [done|]. destruct (q x) eqn:Eq; [|done].
  apply H in Eq. congruence.
Qed.
Lemma filter_filter_keep {R} (p : R -> bool) t : List.filter (fun x => negb (p x)) (List.filter (fun x => negb (p x)) t) = List.filter (fun x => negb (p x)) t.
Proof. induction t as [|x t IH]; [done|]. cbn. destruct (p x) eqn:E; cbn; [done|]. by rewrite E, IH. Qed.

(** The transaction: all of it, or nothing. *)
Lemma permission_batch_spec workspaceId actorUserId memberId type resourceId p audit d (Hu : keys_unique membership_key (ct_memberships d)) :
  let out := permission_batch workspaceId actorUserId memberId type resourceId p audit d in
  (is_ok out.1 = false /\ out.2 = d) \/
  (out.1 = Ok tt /\ grant_authorized workspaceId actorUserId memberId type resourceId d = true /\
   ct_grants out.2 = (List.filter (fun g => negb (grant_on workspaceId memberId type resourceId g)) (ct_grants d) ++
     map (GrantRow workspaceId memberId) (stored_grants type resourceId p))%list /\
   ct_memberships out.2 = ct_memberships d /\ ct_audits out.2 = (ct_audits d ++ [audit])%list).
Proof.
  intros out. unfold out, permission_batch.
  destruct (grant_authorized workspaceId actorUserId memberId type resourceId d) eqn:Ea.
  - assert (Hn : count_if (fun m => member_is workspaceId memberId m && bool_decide (mb_role m = member) && joined m && true) (ct_memberships d) = 1).
    { unfold grant_authorized in Ea. apply andb_true_iff in Ea as [Ea _]. apply andb_true_iff in Ea as [_ Ea].
      apply existsb_exists_elem in Ea as (m & Hm & E). apply andb_true_iff in E as [E E3]. apply andb_true_iff in E as [E1 E2].
      apply member_is_true in E1 as [F1 F2].
      pose proof (count_if_key membership_key (workspaceId, memberId) (fun m => bool_decide (mb_role m = member) && joined m) (ct_memberships d) Hu) as Hk.
      assert (Hf : find_key membership_key (workspaceId, memberId) (ct_memberships d) = Some m) by (apply find_key_unique; [done | done | unfold membership_key; congruence]).
      rewrite Hf, E2, E3 in Hk. etransitivity; [|exact Hk]. apply count_if_ext. intros x. rewrite andb_true_r, <- andb_assoc. f_equal. unfold key_is, membership_key, member_is.
      rewrite !string_eqb_decide, <- bool_decide_and. apply bool_decide_ext. split; [intros [-> ->]; done | by intros [= -> ->]]. }
    rewrite Hn. unfold delete_where. destruct (foldl _ _ _) as [rows|e] eqn:Ef; [right | by left].
    apply insert_all in Ef. change (negb (1 =? 1)) with false. subst rows. split_and!; try done. cbn. f_equal. apply List.filter_ext. intros g. by rewrite andb_true_r.
  - left. assert (Hn : count_if (fun m => member_is workspaceId memberId m && bool_decide (mb_role m = member) && joined m && false) (ct_memberships d) = 0).
    { apply (count_if_zero membership_key). intros x _. apply andb_false_r. }
    rewrite Hn. unfold delete_where.
    match goal with |- context [foldl ?f ?z ?l] => replace (foldl f z l) with (Ok (A := list grant_row) (List.filter (fun g => negb (grant_on workspaceId memberId type resourceId g && false)) (ct_grants d))) end.
    + change (negb (0 =? 1)) with true. cbn [fst snd]. split; [done|]. unfold audit_statement. change (true && negb (0 =? 1)) with true.
      assert (Hk : List.filter (fun g => negb (grant_on workspaceId memberId type resourceId g && false)) (ct_grants d) = ct_grants d).
      { induction (ct_grants d) as [|g l IH]; [done|]. cbn. by rewrite andb_false_r, IH. }
      cbn. rewrite Hk. by destruct d.
    + by destruct p.
Qed.

(** Setting a permission does what it says.  When the action succeeds, an administrator acted on
    a member and a resource of his workspace that was not deleted; the member's stored grants
    for it read back as the permission asked for, and decide accordingly: "none" and "deny" give
    nothing, "view" lets him view, "manage" lets him view and manage; nobody's grants for anything
    else changed, and the change has its audit row.  When it fails, nothing has changed. *)
Theorem permission_set `{WC : WebCrypto} `{LO : Locale} meanwhile d slug actorUserId memberId type resourceId permission auditId now
  (Hu : keys_unique membership_key (ct_memberships (meanwhile d))) :
  let before := meanwhile d in
  let out := setMemberResourcePermission meanwhile d slug actorUserId memberId type resourceId permission auditId now in
  (is_ok out.1 = false /\ (out.2 = d \/ out.2 = before)) \/
  exists workspaceId t p,
    out.1 = Ok tt /\ resource_of type = Some t /\ permission_of permission = Some p /\
    grant_authorized workspaceId actorUserId memberId t resourceId before = true /\
    permissionFromGrants (map gr_grant (List.filter (grant_on workspaceId memberId t resourceId) (ct_grants out.2))) = p /\
    (forall c, canAccessResource member (subject_grants workspaceId memberId (authz_view out.2)) (wr_type t) resourceId c =
      match p with perm_manage => true | perm_view => bool_decide (c = view) | _ => false end) /\
    (let others g := negb (grant_on workspaceId memberId t resourceId g) in List.filter others (ct_grants out.2) = List.filter others (ct_grants before)) /\
    ct_memberships out.2 = ct_memberships before /\
    exists audit, ct_audits out.2 = (ct_audits before ++ [audit])%list /\ al_workspace audit = workspaceId /\ al_actor audit = actorUserId /\ al_resource audit = resourceId.
Proof.
  intros before out. unfold out, setMemberResourcePermission.
  destruct (resource_of type) as [t|] eqn:Et; [|left; split; [done | by left]].
  destruct (permission_of permission) as [p|] eqn:Ep; [|left; split; [done | by left]].
  destruct (requireWorkspaceAdmin d slug actorUserId) as [access|e]; cbn [rbind]; [|left; split; [done | by left]].
  destruct (load_member d (m_workspaceId access) memberId) as [m|]; [|left; split; [done | by left]].
  destruct (negb _); [left; split; [done | by left]|].
  destruct (requireWorkspaceResource d (m_workspaceId access) t resourceId) as [u|e]; cbn [rbind]; [|left; split; [done | by left]].
  set (audit := prepareAuditStatement _ _).
  destruct (permission_batch_spec (m_workspaceId access) actorUserId memberId t resourceId p audit (meanwhile d) Hu)
    as [[E1 E2]|(E1 & Eauth & Eg & Em & Eau)]; [left; split; [done | by right]|].
  right. exists (m_workspaceId access), t, p.
  assert (Hrel : List.filter (grant_on (m_workspaceId access) memberId t resourceId)
    (ct_grants (permission_batch (m_workspaceId access) actorUserId memberId t resourceId p audit (meanwhile d)).2) =
    map (GrantRow (m_workspaceId access) memberId) (stored_grants t resourceId p)).
  { rewrite Eg, List.filter_app, stored_on, filter_filter_none; done. }
  assert (Hmap : map gr_grant (map (GrantRow (m_workspaceId access) memberId) (stored_grants t resourceId p)) = stored_grants t resourceId p).
  { rewrite map_map. apply List.map_id. }
  destruct (stored_decides t resourceId p) as [Hp Hc]. split_and!; try done.
  - by rewrite Hrel, Hmap.
  - intros c. apply Hc. by rewrite relevant_grants, Hrel, Hmap.
  - cbn zeta. rewrite Eg, List.filter_app, filter_filter_keep. etransitivity; [|apply app_nil_r]. f_equal.
    assert (Hon : forall g, g ∈ map (GrantRow (m_workspaceId access) memberId) (stored_grants t resourceId p) -> grant_on (m_workspaceId access) memberId t resourceId g = true).
    { intros g Hg. rewrite <- stored_on in Hg. by apply filter_In_elem in Hg as [_ ?]. }
    clear -Hon. induction (map _ _) as [|g l IH]; [done|]. cbn. rewrite Hon by (by left). apply IH. intros x Hx. apply Hon. by right.
  - exists audit. done.
Qed.

(** ** A recorded workspace *)

#[local] Instance wa_locale : Locale := String.leb.
Definition wa_control : control_tables :=
  ControlTables [WorkspaceState "w" 1 "home" "Home" "dash" 10 None None 0] [] [Membership "w" "ann" admin active; Membership "w" "bob" admin active;
      Membership "w" "cy" member suspended]
    [Managed "m" 5 "w" "Machine" None None "" 1 0 "machine"] [] [] [] (fun _ => [])
    [GrantRow "w" "cy" (Grant RMachine "m" view deny); GrantRow "w" "bob" (Grant RMachine "m" view allow)] [] [] [] [] [] [] [] [].
(** Meanwhile Bob has become a member. *)
Definition wa_meanwhile (d : control_tables) : control_tables :=
  set_memberships [Membership "w" "ann" admin active; Membership "w" "bob" member active; Membership "w" "cy" member suspended] d.

Example membership_update_safe_witness :
  let out := updateWorkspaceMembership wa_meanwhile wa_control "home" "ann" "cy" "admin" "active" "id" 7 in
  out.1 = Ok tt /\ ct_memberships out.2 = [Membership "w" "ann" admin active; Membership "w" "bob" member active; Membership "w" "cy" admin active] /\
  has_active_admin "w" (ct_memberships out.2).
Proof.
  split; [vm_compute; reflexivity|]. split; [vm_compute; reflexivity|].
  destruct (membership_update_safe wa_meanwhile wa_control "home" "ann" "cy" "admin" "active" "id" 7)
    as [[H _]|(w & r & st & _ & _ & _ & _ & _ & _ & _ & H & _)]; [apply (bool_decide_unpack _); vm_compute; exact I | vm_compute in H; discriminate|].
  apply H. exists (Membership "w" "ann" admin active). split; [by left|]. split; reflexivity.
Defined.
Example permission_set_witness :
  let out := setMemberResourcePermission wa_meanwhile wa_control "home" "ann" "cy" "machine" "m" "manage" "id" 7 in
  out.1 = Ok tt /\ ct_grants out.2 = [GrantRow "w" "bob" (Grant RMachine "m" view allow); GrantRow "w" "cy" (Grant RMachine "m" manage allow)] /\
  ct_memberships out.2 = ct_memberships (wa_meanwhile wa_control).
Proof.
  split; [vm_compute; reflexivity|]. split; [vm_compute; reflexivity|].
  destruct (permission_set wa_meanwhile wa_control "home" "ann" "cy" "machine" "m" "manage" "id" 7)
    as [[H _]|(w & t & p & _ & _ & _ & _ & _ & _ & _ & H & _)]; [apply (bool_decide_unpack _); vm_compute; exact I | vm_compute in H; discriminate|].
  exact H.
Defined.
