(* ===== verification/Invitations.v ===== *)
(** * Invitations: joining a workspace

    [apps/web/src/lib/server/workspace-invitations.ts].  An administrator invites an address; the
    link carries a random token of which only a keyed digest is stored.  Whoever opens the link
    joins, with an account he has or with a new one.  Accounts and invitations are tables of the
    control database of their own here; [meanwhile] is what others do to any of them between an
    action's reads and its transaction. *)

From Stdlib Require Import ZArith Lia Bool String Ascii List.
From stdpp Require Import base tactics list strings relations.
From S2P Require Import Prelude.
From S2P Require Import Js.
From S2P Require Import Sql.
From S2P Require Import Base64Url.
From S2P Require Import Crypto.
From S2P Require Import CheckPersistence.
From S2P Require Import Authz.
From S2P Require Import ControlPlane.
From S2P Require Import AuditLog.
From S2P Require Import SoftDelete.
From S2P Require Import WorkspaceAccess.
Open Scope string_scope.
Open Scope Z_scope.

(** ** Tables *)

(** A row of [workspace_invitations]. *)
Record invitation_row := Invitation {
  iv_id : string;
  iv_workspace : string;
  iv_email : string;
  iv_role : WorkspaceRole;
  iv_digest : list byte;
  iv_expires : Z;
  iv_accepted : option Z;
  iv_revoked : option Z;
  iv_created : Z;
}.
(** A row of [user] and one of [account] with provider 'credential'. *)
Record user_row := UserRow { us_id : string; us_name : string; us_email : string; us_verified : bool }.
Record account_row := AccountRow { an_id : string; an_user : string; an_password : string }.
#[export] Instance invitation_row_eq_dec : EqDecision invitation_row. Proof. solve_decision. Defined.

Record access_db := AccessDb {
  ax_control : control_tables;
  ax_invitations : list invitation_row;
  ax_users : list user_row;
  ax_accounts : list account_row;
}.
Definition with_access (d : control_tables) (s : access_db) : access_db := AccessDb d (ax_invitations s) (ax_users s) (ax_accounts s).
Definition with_invitations (rows : list invitation_row) (s : access_db) : access_db := AccessDb (ax_control s) rows (ax_users s) (ax_accounts s).

Definition iv_pending (i : invitation_row) : bool := bool_decide (iv_accepted i = None) && bool_decide (iv_revoked i = None).
Definition revoke_invitation (now : Z) (i : invitation_row) : invitation_row :=
  Invitation (iv_id i) (iv_workspace i) (iv_email i) (iv_role i) (iv_digest i) (iv_expires i) (iv_accepted i) (Some now) (iv_created i).
Definition accept_invitation (now : Z) (i : invitation_row) : invitation_row :=
  Invitation (iv_id i) (iv_workspace i) (iv_email i) (iv_role i) (iv_digest i) (iv_expires i) (Some now) (iv_revoked i) (iv_created i).

(** The keys of the tables: [workspace_invitations] has a unique digest and, while pending, one
    invitation per workspace and address. *)
Definition pending_for (workspaceId email : string) (i : invitation_row) : bool :=
  String.eqb (iv_workspace i) workspaceId && String.eqb (iv_email i) email && iv_pending i.
Definition insert_invitation (i : invitation_row) (t : list invitation_row) : res (list invitation_row) :=
  throw_if has_key iv_id (iv_id i) t || has_key iv_digest (iv_digest i) t || existsb (pending_for (iv_workspace i) (iv_email i)) t
    as "UNIQUE constraint failed: workspace_invitations" in Ok (t ++ [i])%list.
Definition insert_membership (m : membership) (users : list user_row) (t : list membership) : res (list membership) :=
  throw_if has_key membership_key (membership_key m) t as "UNIQUE constraint failed: memberships" in
  throw_if negb (has_key us_id (mb_user m) users) as "FOREIGN KEY constraint failed" in Ok (t ++ [m])%list.
Definition insert_user (u : user_row) (t : list user_row) : res (list user_row) :=
  throw_if has_key us_id (us_id u) t || has_key us_email (us_email u) t as "UNIQUE constraint failed: user" in Ok (t ++ [u])%list.
Definition insert_account (a : account_row) (t : list account_row) : res (list account_row) :=
  throw_if has_key an_id (an_id a) t || has_key an_user (an_user a) t as "UNIQUE constraint failed: account" in Ok (t ++ [a])%list.

(** ** Tokens and addresses *)

(** [bytes]: 32 random bytes. *)
(* @src apps/web/src/lib/server/workspace-invitations.ts randomToken *)
Definition randomToken (bytes : list byte) : string := str_map to_url_char (str_filter (fun c => negb (Ascii.eqb c "=")) (btoa bytes)).

(** [/^[^\s@]+@[^\s@]+\.[^\s@]+$/] *)
Definition email_shape (s : string) : bool :=
  match split_on "@" s with
  | [local; domain] =>
      negb (String.eqb local "") && str_forall (fun c => negb (is_space c)) s &&
      includes "." (str_take (String.length domain - 2) (str_drop 1 domain))
  | _ => false
  end.
(* @src apps/web/src/lib/server/workspace-invitations.ts normalizeEmail *)
Definition normalizeEmail (email : string) : res string :=
  let normalized := to_lower (trim email) in
  throw_if (slen normalized <? 3) || (254 <? slen normalized) || negb (email_shape normalized) as "400 A valid email address is required" in
  Ok normalized.

Section Invitations.
Context `{WC : WebCrypto} `{LO : Locale} (meanwhile : access_db -> access_db).
(** [hashPassword] of better-auth. *)
Context (hashPassword : string -> string).

(** [/^[A-Za-z0-9_-]{43}$/] *)
Definition token_shape (token : string) : bool := str_forall is_url_char token && (String.length token =? 43)%nat.
(* @src apps/web/src/lib/server/workspace-invitations.ts invitationDigest *)
Definition invitationDigest (token secret : string) : res (list byte) :=
  throw_if negb (token_shape token) || (slen secret <? 32) as "404 Invitation not found" in
  Ok (hmac_sha256 (encode_utf8 secret) (encode_utf8 ("alphaping/workspace-invitation/v1:" ++ token))).

(* @src apps/web/src/lib/server/workspace-invitations.ts InvitationRecord *)
Record InvitationRecord := InvitationRec {
  ir_id : string;
  ir_workspace_id : string;
  ir_workspace_name : string;
  ir_workspace_slug : string;
  ir_email : string;
  ir_role : WorkspaceRole;
  ir_expires_at : Z;
  ir_existing_user_id : option string;
}.
(** The rows of the join, in the order of the tables. *)
Definition invitation_rows (s : access_db) (digest : list byte) : list InvitationRecord :=
  i ← ax_invitations s;
  w ← ct_workspaces (ax_control s);
  if String.eqb (wk_id w) (iv_workspace i) && bool_decide (iv_digest i = digest) && iv_pending i && bool_decide (wk_deleted w = None)
  then [InvitationRec (iv_id i) (iv_workspace i) (wk_name w) (wk_slug w) (iv_email i) (iv_role i) (iv_expires i)
          (us_id <$> find_key us_email (iv_email i) (ax_users s))]
  else [].
(* @src apps/web/src/lib/server/workspace-invitations.ts invitationRecord *)
Definition invitationRecord (s : access_db) (token secret : string) (requireUnexpired : bool) (now : Z) : res InvitationRecord :=
  let* digest := invitationDigest token secret in
  match head (invitation_rows s digest) with
  | None => Err "404 Invitation not found"
  | Some i => throw_if requireUnexpired && (ir_expires_at i <=? now) as "404 Invitation not found" in Ok i
  end.

(* @src apps/web/src/lib/server/workspace-invitations.ts WorkspaceInvitationPage *)
Record WorkspaceInvitationPage := InvitationPage {
  ip_workspaceName : string;
  ip_workspaceSlug : string;
  ip_emailHint : string;
  ip_role : WorkspaceRole;
  ip_expiresAt : Z;
  ip_expired : bool;
  ip_existingAccount : bool;
  ip_recipientMatches : bool;
}.
(* @src apps/web/src/lib/server/workspace-invitations.ts loadWorkspaceInvitation *)
Definition loadWorkspaceInvitation (s : access_db) (token secret : string) (now : Z) (authenticatedEmail : option string)
  : res WorkspaceInvitationPage :=
  let* i := invitationRecord s token secret false now in
  Ok (InvitationPage (ir_workspace_name i) (ir_workspace_slug i) (maskEmail (ir_email i)) (ir_role i) (ir_expires_at i)
    (ir_expires_at i <=? now) (bool_decide (ir_existing_user_id i <> None))
    (match authenticatedEmail with Some e => String.eqb (to_lower (trim e)) (ir_email i) | None => false end)).

(** ** Inviting *)

Record created_invitation := CreatedInvitation { cn_id : string; cn_token : string; cn_expiresAt : Z }.
(** [EXISTS (SELECT 1 FROM memberships actor ...)] *)
Definition admin_now (d : control_tables) (workspaceId userId : string) : bool :=
  existsb (fun m => member_is workspaceId userId m && active_admin m) (ct_memberships d).
(* @src apps/web/src/lib/server/workspace-invitations.ts 148-195 createWorkspaceInvitation *)
Definition create_batch (i : invitation_row) (actorUserId : string) (audit : audit_row) (now : Z) (s : access_db) : res Z * access_db :=
  let d := ax_control s in
  let allowed := admin_now d (iv_workspace i) actorUserId in
  let n := count_if (fun m => member_is (iv_workspace i) actorUserId m && active_admin m &&
    finalAdminCondition actorUserId (mb_workspace m) (authz_view d)) (ct_memberships d) in
  let d1 := audit_statement audit true n d in
  let '(rows, _) := update_where (fun r => pending_for (iv_workspace i) (iv_email i) r && admin_now d1 (iv_workspace r) actorUserId)
    (revoke_invitation now) (ax_invitations s) in
  match (if allowed then insert_invitation i rows else Ok rows) with
  | Err e => (Err e, s)
  | Ok rows => (Ok n, AccessDb d1 rows (ax_users s) (ax_accounts s))
  end.
(* @src apps/web/src/lib/server/workspace-invitations.ts createWorkspaceInvitation *)
Definition createWorkspaceInvitation (s : access_db) (workspaceSlug actorUserId secret email role : string) (bytes : list byte) (id auditId : string) (now : Z)
  : res created_invitation * access_db :=
  let checked :=
    let* access := requireWorkspaceAdmin (ax_control s) workspaceSlug actorUserId in
    let* email := normalizeEmail email in
    match role_of role with
    | None => Err "400 Role is invalid"
    | Some role =>
        throw_if existsb (fun m => String.eqb (mb_workspace m) (m_workspaceId access) &&
          existsb (fun u => String.eqb (us_id u) (mb_user m) && String.eqb (us_email u) email) (ax_users s)) (ct_memberships (ax_control s))
          as "409 This user already belongs to the workspace" in
        let* digest := invitationDigest (randomToken bytes) secret in
        Ok (m_workspaceId access, email, role, digest)
    end in
  match checked with
  | Err e => (Err e, s)
  | Ok (workspaceId, email, role, digest) =>
      let expiresAt := now + 7 * 24 * 60 * 60000 in
      let audit := prepareAuditStatement auditId (AuditInput workspaceId actorUserId "workspace_invitation.create" "workspace_invitation" id
        None (Some (OObj [("role", OStr (role_name role)); ("expiresAt", OInt expiresAt)])) now) in
      let '(r, s1) := create_batch (Invitation id workspaceId email role digest expiresAt None None now) actorUserId audit now (meanwhile s) in
      ((let* n := r in
        throw_if negb (n =? 1) as "409 Workspace access changed; reload and try again" in
        Ok (CreatedInvitation id (randomToken bytes) expiresAt)), s1)
  end.

(* @src apps/web/src/lib/server/workspace-invitations.ts revokeWorkspaceInvitation *)
Definition revokeWorkspaceInvitation (s : access_db) (workspaceSlug actorUserId invitationId auditId : string) (now : Z) : res unit * access_db :=
  let checked :=
    let* access := requireWorkspaceAdmin (ax_control s) workspaceSlug actorUserId in
    match List.find (fun i => String.eqb (iv_id i) invitationId && String.eqb (iv_workspace i) (m_workspaceId access) && iv_pending i) (ax_invitations s) with
    | None => Err "404 Invitation not found"
    | Some i => Ok (m_workspaceId access, i)
    end in
  match checked with
  | Err e => (Err e, s)
  | Ok (workspaceId, i) =>
      let audit := prepareAuditStatement auditId (AuditInput workspaceId actorUserId "workspace_invitation.revoke" "workspace_invitation" invitationId
        (Some (OObj [("role", OStr (role_name (iv_role i))); ("expiresAt", OInt (iv_expires i))])) (Some (OObj [("revokedAt", OInt now)])) now) in
      let s1 := meanwhile s in
      let '(rows, n) := update_where (fun r => String.eqb (iv_id r) invitationId && String.eqb (iv_workspace r) workspaceId && iv_pending r &&
        finalAdminCondition actorUserId (iv_workspace r) (authz_view (ax_control s1))) (revoke_invitation now) (ax_invitations s1) in
      (throw_if negb (n =? 1) as "409 Invitation is no longer revocable" in Ok tt,
       AccessDb (audit_statement audit true n (ax_control s1)) rows (ax_users s1) (ax_accounts s1))
  end.

(** ** Accepting *)

(** [UPDATE workspace_invitations SET accepted_at = ? WHERE id = ? AND ... AND expires_at > ?] *)
Definition take_invitation (id : string) (now : Z) (s : access_db) : access_db * Z :=
  let '(rows, n) := update_where (fun i => String.eqb (iv_id i) id && iv_pending i && (now <? iv_expires i)) (accept_invitation now) (ax_invitations s) in
  (with_invitations rows s, n).
(** [SELECT ... FROM workspace_invitations WHERE id = ? AND accepted_at = ?] *)
Definition taken (id : string) (now : Z) (s : access_db) : option invitation_row :=
  List.find (fun i => String.eqb (iv_id i) id && bool_decide (iv_accepted i = Some now)) (ax_invitations s).
(** [INSERT INTO memberships SELECT ... WHERE changes() = 1] *)
Definition join_workspace (id userId : string) (now changed : Z) (s : access_db) : res (access_db * Z) :=
  if negb (changed =? 1) then Ok (s, 0)
  else
    match taken id now s with
    | None => Err "NOT NULL constraint failed: memberships"
    | Some i =>
        let* rows := insert_membership (Membership (iv_workspace i) userId (iv_role i) active) (ax_users s) (ct_memberships (ax_control s)) in
        Ok (with_access (set_memberships rows (ax_control s)) s, 1)
    end.
Definition audited (audit : audit_row) (changed : Z) (s : access_db) : access_db :=
  with_access (audit_statement audit true changed (ax_control s)) s.
Definition accept_audit (id : string) (i : InvitationRecord) (userId : string) (now : Z) : audit_row :=
  prepareAuditStatement id (AuditInput (ir_workspace_id i) userId "workspace_invitation.accept" "workspace_invitation" (ir_id i)
    (Some (OObj [("accepted", OBool false)])) (Some (OObj [("accepted", OBool true); ("role", OStr (role_name (ir_role i)))])) now).

(* @src apps/web/src/lib/server/workspace-invitations.ts 263-287 acceptInvitationForUser *)
Definition accept_batch (id userId : string) (audit : audit_row) (now : Z) (s : access_db) : res unit * access_db :=
  let '(s1, n1) := take_invitation id now s in
  match join_workspace id userId now n1 s1 with
  | Err e => (Err e, s)
  | Ok (s2, n2) => (throw_if negb (n1 =? 1) || negb (n2 =? 1) as "409 Invitation is no longer available" in Ok tt, audited audit n2 s2)
  end.
(* @src apps/web/src/lib/server/workspace-invitations.ts acceptInvitationForUser *)
Definition acceptInvitationForUser (s : access_db) (token secret : string) (userId userEmail auditId : string) (now : Z) : res string * access_db :=
  let checked :=
    let* i := invitationRecord s token secret true now in
    let* email := normalizeEmail userEmail in
    throw_if negb (String.eqb email (ir_email i)) as "403 Sign in with the email address that received this invitation" in
    Ok i in
  match checked with
  | Err e => (Err e, s)
  | Ok i =>
      let '(r, s1) := accept_batch (ir_id i) userId (accept_audit auditId i userId now) now (meanwhile s) in
      ((let* _ := r in Ok (ir_workspace_slug i)), s1)
  end.

(* @src apps/web/src/lib/server/workspace-invitations.ts 320-362 registerFromWorkspaceInvitation *)
Definition register_batch (id : string) (user : user_row) (account : account_row) (audit : audit_row) (now : Z) (s : access_db)
  : res unit * access_db :=
  let '(s1, n1) := take_invitation id now s in
  let inserted :=
    let* '(s2, n2) := if n1 =? 1 then let* users := insert_user user (ax_users s1) in Ok (AccessDb (ax_control s1) (ax_invitations s1) users (ax_accounts s1), 1)
      else Ok (s1, 0) in
    let* '(s3, n3) := if n2 =? 1 then let* accounts := insert_account account (ax_accounts s2) in Ok (AccessDb (ax_control s2) (ax_invitations s2) (ax_users s2) accounts, 1)
      else Ok (s2, 0) in
    let* '(s4, n4) := join_workspace id (us_id user) now n3 s3 in
    Ok (s4, n2, n3, n4) in
  match inserted with
  | Err e => (Err e, s)
  | Ok (s4, n2, n3, n4) =>
      (throw_if negb (n1 =? 1) || negb (n2 =? 1) || negb (n3 =? 1) || negb (n4 =? 1) as "409 Invitation is no longer available" in Ok tt,
       audited audit n4 s4)
  end.
(* @src apps/web/src/lib/server/workspace-invitations.ts registerFromWorkspaceInvitation *)
Definition registerFromWorkspaceInvitation (s : access_db) (token secret : string) (inputName password : string) (userId accountId auditId : string) (now : Z)
  : res (string * string) * access_db :=
  let checked :=
    let* i := invitationRecord s token secret true now in
    throw_if bool_decide (ir_existing_user_id i <> None) as "409 An account already exists for this invitation; sign in to continue" in
    let name := trim inputName in
    throw_if (slen name <? 2) || (80 <? slen name) as "400 Name must contain 2 to 80 characters" in
    throw_if (slen password <? 12) || (128 <? slen password) as "400 Password must contain 12 to 128 characters" in
    Ok (i, name) in
  match checked with
  | Err e => (Err e, s)
  | Ok (i, name) =>
      let '(r, s1) := register_batch (ir_id i) (UserRow userId name (ir_email i) true) (AccountRow accountId userId (hashPassword password))
        (accept_audit auditId i userId now) now (meanwhile s) in
      ((let* _ := r in Ok (ir_workspace_slug i, ir_email i)), s1)
  end.
End Invitations.

(** ** The life of an invitation *)

(** What never changes of an invitation. *)
Definition same_invitation (r r' : invitation_row) : Prop :=
  iv_id r' = iv_id r /\ iv_workspace r' = iv_workspace r /\ iv_email r' = iv_email r /\ iv_role r' = iv_role r /\
  iv_digest r' = iv_digest r /\ iv_expires r' = iv_expires r.
(** Invitations stay; one that was accepted or revoked does not change any more. *)
Definition invitations_kept (t t' : list invitation_row) : Prop := forall r, r ∈ t -> exists r', r' ∈ t' /\ same_invitation r r' /\ (iv_pending r = false -> r' = r).
Record invitations_ok (t : list invitation_row) : Prop := {
  io_ids : keys_unique iv_id t;
  io_digests : keys_unique iv_digest t;
  io_pending : forall r1 r2, r1 ∈ t -> r2 ∈ t -> iv_pending r1 = true -> iv_pending r2 = true ->
    iv_workspace r1 = iv_workspace r2 -> iv_email r1 = iv_email r2 -> r1 = r2;
}.

(** One step per transaction, with whatever the action has read before as an argument. *)
Inductive invitation_step : access_db -> access_db -> Prop :=
| step_create i actor audit now s : iv_pending i = true -> invitation_step s (create_batch i actor audit now s).2
| step_revoke (guard : invitation_row -> bool) now s d : invitation_step s (AccessDb d
    (update_where (fun r => guard r && iv_pending r) (revoke_invitation now) (ax_invitations s)).1 (ax_users s) (ax_accounts s))
| step_accept id userId audit now s : invitation_step s (accept_batch id userId audit now s).2
| step_register id user account audit now s : invitation_step s (register_batch id user account audit now s).2
| step_elsewhere s s' : ax_invitations s' = ax_invitations s -> invitation_step s s'.

Lemma kept_refl t : invitations_kept t t.
Proof. intros r Hr. exists r. done. Qed.
Lemma kept_trans a b c : invitations_kept a b -> invitations_kept b c -> invitations_kept a c.
Proof.
  intros H1 H2 r Hr. destruct (H1 r Hr) as (r1 & Hr1 & S1 & K1). destruct (H2 r1 Hr1) as (r2 & Hr2 & S2 & K2). exists r2. split; [done|]. split.
  - unfold same_invitation in *. split_and!; etransitivity; (apply S1 || apply S2).
  - intros E. rewrite <- (K1 E). apply K2. by rewrite K1.
Qed.

Section Table.
Context (guard : invitation_row -> bool) (f : invitation_row -> invitation_row).
Hypothesis guard_pending : forall r, guard r = true -> iv_pending r = true.
Hypothesis f_same : forall r, same_invitation r (f r).
Hypothesis f_closes : forall r, iv_pending (f r) = false.

(** Pending invitations are closed. *)
Lemma closing_kept t : invitations_kept t (update_where guard f t).1.
Proof using guard_pending f_same.
  intros r Hr. exists (if guard r then f r else r). split; [by apply updated_row|]. destruct (guard r) eqn:E; [|done].
  split; [done|]. intros Ep. apply guard_pending in E. congruence.
Qed.
Lemma closing_ok t : invitations_ok t -> invitations_ok (update_where guard f t).1.
Proof using f_same f_closes.
  intros [H1 H2 H3]. split.
  - unfold keys_unique. rewrite map_key_update; [done|]. intros r _. apply f_same.
  - unfold keys_unique. rewrite map_key_update; [done|]. intros r _. apply f_same.
  - intros r1 r2 Hr1 Hr2 P1 P2 Ew Ee. apply list_elem_of_fmap in Hr1 as (x1 & -> & Hx1). apply list_elem_of_fmap in Hr2 as (x2 & -> & Hx2).
    destruct (guard x1); [by rewrite f_closes in P1|]. destruct (guard x2); [by rewrite f_closes in P2|]. by apply H3.
Qed.
End Table.

Lemma revoke_same now r : same_invitation r (revoke_invitation now r).
Proof. done. Qed.
Lemma revoke_closes now r : iv_pending (revoke_invitation now r) = false.
Proof. unfold iv_pending. cbn. apply andb_false_r. Qed.
Lemma accept_same now r : same_invitation r (accept_invitation now r).
Proof. done. Qed.
Lemma accept_closes now r : iv_pending (accept_invitation now r) = false.
Proof. done. Qed.

Lemma insert_invitation_ok i t t' : iv_pending i = true -> insert_invitation i t = Ok t' -> invitations_ok t -> invitations_ok t' /\ t' = (t ++ [i])%list.
Proof.
  unfold insert_invitation. intros Hp. destruct (_ || _) eqn:E; [done|]. intros [= <-] [H1 H2 H3]. apply orb_false_iff in E as [E E3].
  apply orb_false_iff in E as [E1 E2]. split; [|done]. split; [by apply keys_unique_app | by apply keys_unique_app|].
  rewrite existsb_false_elem in E3.
  assert (Hnone : forall r, r ∈ t -> iv_pending r = true -> iv_workspace i = iv_workspace r -> iv_email i = iv_email r -> False).
  { intros r Hr Ep Ew Ee. specialize (E3 r Hr). unfold pending_for in E3. by rewrite Ew, Ee, !String.eqb_refl, Ep in E3. }
  intros r1 r2 [Hr1|Hr1]%elem_of_app [Hr2|Hr2]%elem_of_app P1 P2 Ew Ee.
  - by apply H3.
  - apply list_elem_of_singleton in Hr2 as ->. destruct (Hnone r1); congruence.
  - apply list_elem_of_singleton in Hr1 as ->. destruct (Hnone r2); congruence.
  - apply list_elem_of_singleton in Hr1 as ->, Hr2 as ->. done.
Qed.

Lemma pending_for_true w e r : pending_for w e r = true -> iv_workspace r = w /\ iv_email r = e /\ iv_pending r = true.
Proof. unfold pending_for. rewrite !andb_true_iff, !String.eqb_eq. tauto. Qed.

Lemma create_batch_step i actor audit now s : iv_pending i = true ->
  let s' := (create_batch i actor audit now s).2 in
  invitations_kept (ax_invitations s) (ax_invitations s') /\ (invitations_ok (ax_invitations s) -> invitations_ok (ax_invitations s')).
Proof.
  intros Hp s'. unfold s', create_batch. set (d1 := audit_statement _ _ _ _).
  set (guard := fun r => pending_for (iv_workspace i) (iv_email i) r && admin_now d1 (iv_workspace r) actor).
  assert (Hg : forall r, guard r = true -> iv_pending r = true).
  { intros r E. unfold guard in E. apply andb_true_iff in E as [E _]. by apply pending_for_true in E as (_ & _ & ?). }
  pose proof (closing_kept guard (revoke_invitation now) Hg (revoke_same now) (ax_invitations s)) as Hk.
  pose proof (closing_ok guard (revoke_invitation now) (revoke_same now) (revoke_closes now) (ax_invitations s)) as Hok.
  destruct (update_where guard _ _) as [rows n]. cbn [fst] in *. destruct (admin_now (ax_control s) _ actor).
  - destruct (insert_invitation i rows) as [rows'|e] eqn:E; cbn [snd ax_invitations]; [|split; [apply kept_refl | done]]. split.
    + intros r Hr. destruct (Hk r Hr) as (r' & Hr' & Hs). exists r'. split; [|done].
      unfold insert_invitation in E. destruct (_ || _); [done|]. injection E as <-. apply elem_of_app. by left.
    + intros H. apply (insert_invitation_ok i rows rows' Hp E). by apply Hok.
  - cbn [snd ax_invitations]. done.
Qed.
Lemma take_step id now s :
  invitations_kept (ax_invitations s) (ax_invitations (take_invitation id now s).1) /\
  (invitations_ok (ax_invitations s) -> invitations_ok (ax_invitations (take_invitation id now s).1)).
Proof.
  unfold take_invitation. set (guard := fun i => String.eqb (iv_id i) id && iv_pending i && (now <? iv_expires i)).
  assert (Hg : forall r, guard r = true -> iv_pending r = true) by (intros r E; unfold guard in E; by bool_hyps).
  pose proof (closing_kept guard (accept_invitation now) Hg (accept_same now) (ax_invitations s)) as Hk.
  pose proof (closing_ok guard (accept_invitation now) (accept_same now) (accept_closes now) (ax_invitations s)) as Hok.
  destruct (update_where guard _ _) as [rows n]. done.
Qed.
Lemma join_invitations id userId now changed s s' n : join_workspace id userId now changed s = Ok (s', n) ->
  ax_invitations s' = ax_invitations s /\ ax_users s' = ax_users s /\ ax_accounts s' = ax_accounts s.
Proof.
  unfold join_workspace. destruct (negb _); [by intros [= <- <-]|]. destruct (taken id now s) as [i|]; [|done].
  intros H. apply rbind_ok in H as (rows & _ & [= <- <-]). done.
Qed.
Lemma accept_batch_step id userId audit now s :
  let s' := (accept_batch id userId audit now s).2 in
  invitations_kept (ax_invitations s) (ax_invitations s') /\ (invitations_ok (ax_invitations s) -> invitations_ok (ax_invitations s')).
Proof.
  intros s'. unfold s', accept_batch. pose proof (take_step id now s) as Ht. destruct (take_invitation id now s) as [s1 n1]. cbn [fst] in Ht.
  destruct (join_workspace id userId now n1 s1) as [[s2 n2]|e] eqn:E; [|split; [apply kept_refl | done]].
  apply join_invitations in E as (E & _). cbn [snd audited with_access ax_invitations]. by rewrite E.
Qed.
Lemma register_batch_step id user account audit now s :
  let s' := (register_batch id user account audit now s).2 in
  invitations_kept (ax_invitations s) (ax_invitations s') /\ (invitations_ok (ax_invitations s) -> invitations_ok (ax_invitations s')).
Proof.
  intros s'. unfold s', register_batch. pose proof (take_step id now s) as Ht. destruct (take_invitation id now s) as [s1 n1]. cbn [fst] in Ht.
  set (inserted := rbind _ _). destruct inserted as [[[[s4 n2] n3] n4]|e] eqn:E; [|split; [apply kept_refl | done]].
  cbn [snd audited with_access ax_invitations]. assert (E4 : ax_invitations s4 = ax_invitations s1); [|by rewrite E4].
  unfold inserted in E. apply rbind_ok in E as ([s2 m2] & E2 & E). apply rbind_ok in E as ([s3 m3] & E3 & E). apply rbind_ok in E as ([s5 m4] & E5 & [= <- <- <- <-]).
  apply join_invitations in E5 as (-> & _).
  assert (F3 : ax_invitations s3 = ax_invitations s2).
  { destruct (m2 =? 1); [|by injection E3 as <- <-]. by apply rbind_ok in E3 as (accounts & _ & [= <- <-]). }
  rewrite F3. destruct (n1 =? 1); [|by injection E2 as <- <-]. by apply rbind_ok in E2 as (users & _ & [= <- <-]).
Qed.

Lemma step_table s s' : invitation_step s s' ->
  invitations_kept (ax_invitations s) (ax_invitations s') /\ (invitations_ok (ax_invitations s) -> invitations_ok (ax_invitations s')).
Proof.
  intros H. destruct H as [i actor audit now s Hp|guard now s d|id userId audit now s|id user account audit now s|s s' E].
  - by apply create_batch_step.
  - cbn [ax_invitations]. split.
    + apply closing_kept; [|apply revoke_same]. intros r E. by bool_hyps.
    + apply closing_ok; [apply revoke_same | apply revoke_closes].
  - apply accept_batch_step.
  - apply register_batch_step.
  - rewrite E. split; [apply kept_refl | done].
Qed.
Lemma run_table s s' : rtc invitation_step s s' ->
  invitations_kept (ax_invitations s) (ax_invitations s') /\ (invitations_ok (ax_invitations s) -> invitations_ok (ax_invitations s')).
Proof.
  induction 1 as [s|s s1 s2 Hs _ [K Ok_]]; [split; [apply kept_refl | done]|]. destruct (step_table _ _ Hs) as [K1 O1].
  split; [by apply (kept_trans _ (ax_invitations s1)) | auto].
Qed.

(** ** Who joins *)

Definition acceptable (id : string) (now : Z) (i : invitation_row) : bool := String.eqb (iv_id i) id && iv_pending i && (now <? iv_expires i).
Definition accepted_rows (id : string) (now : Z) (t : list invitation_row) : list invitation_row :=
  map (fun r => if acceptable id now r then accept_invitation now r else r) t.
Lemma acceptable_id id now r : acceptable id now r = true -> iv_id r = id.
Proof. intros E. unfold acceptable in E. by bool_hyps. Qed.
Lemma accepted_rows_unique id now t : keys_unique iv_id t -> keys_unique iv_id (accepted_rows id now t).
Proof.
  unfold keys_unique, accepted_rows. rewrite map_map. intros H. erewrite map_ext; [exact H|]. intros r. by destruct (acceptable id now r).
Qed.
Lemma taken_accepted id now t i : keys_unique iv_id t -> i ∈ t -> acceptable id now i = true ->
  List.find (fun x => String.eqb (iv_id x) id && bool_decide (iv_accepted x = Some now)) (accepted_rows id now t) = Some (accept_invitation now i).
Proof.
  intros Hu Hi Ea. pose proof (acceptable_id _ _ _ Ea) as Hid.
  assert (Hin : accept_invitation now i ∈ accepted_rows id now t) by (apply list_elem_of_fmap; exists i; by rewrite Ea).
  assert (Hfind : find_key iv_id id (accepted_rows id now t) = Some (accept_invitation now i)).
  { apply find_key_unique; [by apply accepted_rows_unique | done | done]. }
  destruct (List.find _ (accepted_rows id now t)) as [x|] eqn:E.
  - apply List.find_some in E as [Hx E]. apply list_elem_of_In in Hx. apply andb_true_iff in E as [E _]. apply String.eqb_eq in E.
    pose proof (find_key_unique iv_id id _ x (accepted_rows_unique _ _ _ Hu) Hx E) as F. congruence.
  - exfalso. apply list_elem_of_In in Hin. pose proof (List.find_none _ _ E (accept_invitation now i) Hin) as F. cbn in F.
    rewrite Hid, String.eqb_refl, bool_decide_eq_true_2 in F; done.
Qed.
(** Taking an invitation: either there is none to take, or exactly one is closed. *)
Lemma take_spec id now s : invitations_ok (ax_invitations s) ->
  (take_invitation id now s = (s, 0) /\ forall i, i ∈ ax_invitations s -> acceptable id now i = false) \/
  (exists i, i ∈ ax_invitations s /\ acceptable id now i = true /\
     taken id now (with_invitations (accepted_rows id now (ax_invitations s)) s) = Some (accept_invitation now i) /\
     take_invitation id now s = (with_invitations (accepted_rows id now (ax_invitations s)) s, 1)).
Proof.
  intros Hok. unfold take_invitation. fold (acceptable id now).
  destruct (existsb (acceptable id now) (ax_invitations s)) eqn:Ex; [right | left].
  - apply existsb_exists_elem in Ex as (i & Hi & Ea). exists i. split_and!; try done.
    + apply taken_accepted; [apply Hok | done | done].
    + unfold update_where. f_equal. pose proof (count_if_key iv_id id (acceptable id now) (ax_invitations s) (io_ids _ Hok)) as Hk.
      rewrite (find_key_unique iv_id id _ i (io_ids _ Hok) Hi (acceptable_id _ _ _ Ea)), Ea in Hk. etransitivity; [|exact Hk]. apply count_if_ext. intros r.
      destruct (acceptable id now r) eqn:E; [|by rewrite andb_false_r]. rewrite andb_true_r. symmetry. apply key_is_true. by apply acceptable_id in E.
  - rewrite existsb_false_elem in Ex. rewrite update_where_none by done. split; [by destruct s | done].
Qed.
(** Joining after it. *)
Lemma join_spec id userId now i s : taken id now s = Some (accept_invitation now i) ->
  (exists e, join_workspace id userId now 1 s = Err e) \/
  (join_workspace id userId now 1 s = Ok (with_access (set_memberships (ct_memberships (ax_control s) ++ [Membership (iv_workspace i) userId (iv_role i) active])%list
     (ax_control s)) s, 1) /\ has_key us_id userId (ax_users s) = true /\ has_key membership_key (iv_workspace i, userId) (ct_memberships (ax_control s)) = false).
Proof.
  intros Ht. unfold join_workspace. rewrite Ht. unfold insert_membership. cbn [Z.eqb Pos.eqb negb accept_invitation iv_workspace iv_role].
  destruct (has_key membership_key _ _) eqn:E1; cbn [rbind]; [left; by eexists|]. cbn [mb_user].
  destruct (has_key us_id userId _) eqn:E2; cbn [negb rbind]; [by right | left; by eexists].
Qed.

(** A transaction that accepts: all of it, or nothing. *)
Definition joined_db (id userId : string) (audit : audit_row) (now : Z) (i : invitation_row) (users : list user_row) (accounts : list account_row) (s : access_db) : access_db :=
  audited audit 1 (AccessDb (set_memberships (ct_memberships (ax_control s) ++ [Membership (iv_workspace i) userId (iv_role i) active])%list (ax_control s))
    (accepted_rows id now (ax_invitations s)) users accounts).
Lemma audited_none audit s : audited audit 0 s = s.
Proof. destruct s as [[]]. done. Qed.
Lemma accept_batch_spec id userId audit now s : invitations_ok (ax_invitations s) ->
  let out := accept_batch id userId audit now s in
  (is_ok out.1 = false /\ out.2 = s /\ ((forall i, i ∈ ax_invitations s -> acceptable id now i = false) -> out.1 = Err "409 Invitation is no longer available")) \/
  (exists i, i ∈ ax_invitations s /\ acceptable id now i = true /\ has_key us_id userId (ax_users s) = true /\
     has_key membership_key (iv_workspace i, userId) (ct_memberships (ax_control s)) = false /\
     out = (Ok tt, joined_db id userId audit now i (ax_users s) (ax_accounts s) s)).
Proof.
  intros Hok out. unfold out, accept_batch. destruct (take_spec id now s Hok) as [[-> Hno]|(i & Hi & Ea & Ht & ->)].
  - left. unfold join_workspace. cbn [Z.eqb negb orb fst snd]. by rewrite audited_none.
  - destruct (join_spec id userId now i _ Ht) as [[e ->]|(-> & Hu & Hm)].
    + left. cbn [fst snd]. split_and!; try done. intros H. rewrite H in Ea; done.
    + right. exists i. done.
Qed.
Lemma register_batch_spec id user account audit now s : invitations_ok (ax_invitations s) ->
  let out := register_batch id user account audit now s in
  (is_ok out.1 = false /\ out.2 = s /\ ((forall i, i ∈ ax_invitations s -> acceptable id now i = false) -> out.1 = Err "409 Invitation is no longer available")) \/
  (exists i, i ∈ ax_invitations s /\ acceptable id now i = true /\
     has_key us_id (us_id user) (ax_users s) = false /\ has_key us_email (us_email user) (ax_users s) = false /\
     out = (Ok tt, joined_db id (us_id user) audit now i (ax_users s ++ [user])%list (ax_accounts s ++ [account])%list s)).
Proof.
  intros Hok out. unfold out, register_batch. destruct (take_spec id now s Hok) as [[-> Hno]|(i & Hi & Ea & Ht & ->)].
  - left. unfold join_workspace. cbn [Z.eqb negb orb fst snd rbind]. by rewrite audited_none.
  - assert (Hsome : (forall j, j ∈ ax_invitations s -> acceptable id now j = false) -> False) by (intros H; rewrite H in Ea; done).
    cbn [Z.eqb Pos.eqb with_invitations ax_users ax_control ax_invitations ax_accounts]. unfold insert_user.
    destruct (has_key us_id _ _ || _) eqn:Eu; cbn [rbind]; [by left|]. apply orb_false_iff in Eu as [Eu1 Eu2].
    cbn [Z.eqb Pos.eqb ax_users ax_control ax_invitations ax_accounts]. unfold insert_account.
    destruct (has_key an_id _ _ || _); cbn [rbind]; [by left|]. cbn [ax_users ax_control ax_invitations ax_accounts].
    match goal with |- context [join_workspace id (us_id user) now 1 ?t] => destruct (join_spec id (us_id user) now i t Ht) as [[e ->]|(-> & Hu & Hm)] end.
    + by left.
    + right. exists i. done.
Qed.

(** C23: An invitation is used once.  Once it has been accepted or revoked, no sequence of
    invitations, revocations, acceptances and registrations by anybody brings it back: its row
    stays as it is, its link is answered 404, and accepting or registering by its id, for
    whomever and whenever, is answered 409 and changes nothing. *)
Theorem invitation_single_use `{WC : WebCrypto} `{LO : Locale} s s' r (Hok : invitations_ok (ax_invitations s)) (Hr : r ∈ ax_invitations s)
  (Hclosed : iv_pending r = false) (Hrun : rtc invitation_step s s') :
  r ∈ ax_invitations s' /\ invitations_ok (ax_invitations s') /\
  (forall token secret unexpired now, invitationDigest token secret = Ok (iv_digest r) -> invitationRecord s' token secret unexpired now = Err "404 Invitation not found") /\
  forall now audit, (forall userId, accept_batch (iv_id r) userId audit now s' = (Err "409 Invitation is no longer available", s')) /\
    (forall user account, register_batch (iv_id r) user account audit now s' = (Err "409 Invitation is no longer available", s')).
Proof.
  destruct (run_table s s' Hrun) as [Hk Ho]. specialize (Ho Hok). destruct (Hk r Hr) as (r' & Hr' & _ & E). rewrite (E Hclosed) in Hr'.
  assert (Hno : forall now i, i ∈ ax_invitations s' -> acceptable (iv_id r) now i = false).
  { intros now i Hi. destruct (acceptable (iv_id r) now i) eqn:Ea; [|done]. rewrite (keys_unique_inj iv_id _ i r (io_ids _ Ho) Hi Hr' (acceptable_id _ _ _ Ea)) in Ea.
    unfold acceptable in Ea. by rewrite Hclosed, andb_false_r in Ea. }
  split; [done|]. split; [done|]. split.
  - intros token secret unexpired now Hd. unfold invitationRecord. rewrite Hd. cbn [rbind].
    destruct (invitation_rows s' (iv_digest r)) as [|x l] eqn:El; [done|]. exfalso.
    assert (Hx : x ∈ invitation_rows s' (iv_digest r)) by (rewrite El; by left). unfold invitation_rows in Hx.
    apply list_elem_of_bind in Hx as (i & Hx & Hi). apply list_elem_of_bind in Hx as (w & Hx & Hw). destruct (_ && _) eqn:Eg in Hx; [|by apply elem_of_nil in Hx].
    bool_hyps. assert (i = r) as ->; [|congruence]. by apply (keys_unique_inj iv_digest _ i r (io_digests _ Ho) Hi Hr').
  - intros now audit. split.
    + intros userId. destruct (accept_batch_spec (iv_id r) userId audit now s' Ho) as [(_ & E2 & E1)|(i & Hi & Ea & _)]; [|by rewrite Hno in Ea].
      specialize (E1 (Hno now)). destruct (accept_batch _ _ _ _ _). cbn in *. by subst.
    + intros user account. destruct (register_batch_spec (iv_id r) user account audit now s' Ho) as [(_ & E2 & E1)|(i & Hi & Ea & _)]; [|by rewrite Hno in Ea].
      specialize (E1 (Hno now)). destruct (register_batch _ _ _ _ _ _). cbn in *. by subst.
Qed.

(** What the link found, and what is there when the transaction runs. *)
Lemma invitation_rows_elem s digest x : x ∈ invitation_rows s digest <->
  exists i w, i ∈ ax_invitations s /\ w ∈ ct_workspaces (ax_control s) /\ wk_id w = iv_workspace i /\ iv_digest i = digest /\ iv_pending i = true /\
    wk_deleted w = None /\
    x = InvitationRec (iv_id i) (iv_workspace i) (wk_name w) (wk_slug w) (iv_email i) (iv_role i) (iv_expires i) (us_id <$> find_key us_email (iv_email i) (ax_users s)).
Proof.
  unfold invitation_rows. rewrite list_elem_of_bind. split.
  - intros (i & Hx & Hi). apply list_elem_of_bind in Hx as (w & Hx & Hw). destruct (_ && _) eqn:E in Hx; [|by apply elem_of_nil in Hx].
    apply list_elem_of_singleton in Hx as ->. bool_hyps. by exists i, w.
  - intros (i & w & Hi & Hw & E1 & E2 & E3 & E4 & ->). exists i. split; [|done]. apply list_elem_of_bind. exists w. split; [|done].
    rewrite E1, String.eqb_refl, E3, !bool_decide_eq_true_2 by done. by apply list_elem_of_singleton.
Qed.
Lemma invitationRecord_ok `{WC : WebCrypto} s token secret unexpired now x : invitationRecord s token secret unexpired now = Ok x ->
  exists digest, invitationDigest token secret = Ok digest /\ x ∈ invitation_rows s digest /\ (unexpired = true -> now < ir_expires_at x).
Proof.
  unfold invitationRecord. intros H. apply rbind_ok in H as (digest & Hd & H). exists digest. split; [done|].
  destruct (invitation_rows s digest) as [|y l]; [done|]. cbn [head] in H. destruct (unexpired && _) eqn:E; [done|]. injection H as ->. split; [by left|].
  intros ->. cbn in E. lia.
Qed.
Lemma linked_invitation `{WC : WebCrypto} s s1 token secret now x j :
  invitationRecord s token secret true now = Ok x -> rtc invitation_step s s1 -> invitations_ok (ax_invitations s) ->
  j ∈ ax_invitations s1 -> acceptable (ir_id x) now j = true ->
  invitationDigest token secret = Ok (iv_digest j) /\ iv_id j = ir_id x /\ iv_email j = ir_email x /\ iv_workspace j = ir_workspace_id x /\ iv_role j = ir_role x /\
  iv_pending j = true /\ now < iv_expires j /\
  exists w, w ∈ ct_workspaces (ax_control s) /\ wk_id w = iv_workspace j /\ wk_deleted w = None /\ wk_slug w = ir_workspace_slug x.
Proof.
  intros Hx Hrun Hok Hj Ea. apply invitationRecord_ok in Hx as (digest & Hd & Hx & _).
  apply invitation_rows_elem in Hx as (i & w & Hi & Hw & E1 & E2 & E3 & E4 & ->). cbn in *.
  destruct (run_table s s1 Hrun) as [Hk Ho]. specialize (Ho Hok). destruct (Hk i Hi) as (i' & Hi' & (F1 & F2 & F3 & F4 & F5 & F6) & _).
  assert (j = i') as ->. { apply (keys_unique_inj iv_id _ j i' (io_ids _ Ho) Hj Hi'). rewrite F1. by apply acceptable_id in Ea. }
  unfold acceptable in Ea. bool_hyps. split_and!; try congruence; try lia. exists w. split_and!; congruence.
Qed.

(** Who accepts was invited.  When accepting succeeds, whatever others did in between, the link's
    digest is that of an invitation that was pending and had not run out when the transaction
    took effect; it was addressed to the user's own address; he was no member before, and exactly
    one membership was added: his, in the invitation's workspace, with its role, active.  That
    invitation, and no other, is closed, and accounts are untouched.  When accepting fails,
    nothing has changed. *)
Theorem invitation_accept_sound `{WC : WebCrypto} `{LO : Locale} meanwhile s token secret userId userEmail auditId now
  (Hok : invitations_ok (ax_invitations s)) (Hothers : rtc invitation_step s (meanwhile s)) :
  let before := meanwhile s in
  let out := acceptInvitationForUser meanwhile s token secret userId userEmail auditId now in
  (is_ok out.1 = false /\ (out.2 = s \/ out.2 = before)) \/
  exists i w,
    out.1 = Ok (wk_slug w) /\ w ∈ ct_workspaces (ax_control s) /\ wk_id w = iv_workspace i /\ wk_deleted w = None /\
    i ∈ ax_invitations before /\ iv_pending i = true /\ now < iv_expires i /\ invitationDigest token secret = Ok (iv_digest i) /\
    normalizeEmail userEmail = Ok (iv_email i) /\
    has_key us_id userId (ax_users before) = true /\ has_key membership_key (iv_workspace i, userId) (ct_memberships (ax_control before)) = false /\
    ct_memberships (ax_control out.2) = (ct_memberships (ax_control before) ++ [Membership (iv_workspace i) userId (iv_role i) active])%list /\
    ct_grants (ax_control out.2) = ct_grants (ax_control before) /\ ct_workspaces (ax_control out.2) = ct_workspaces (ax_control before) /\
    ax_invitations out.2 = map (fun r => if acceptable (iv_id i) now r then accept_invitation now r else r) (ax_invitations before) /\
    ax_users out.2 = ax_users before /\ ax_accounts out.2 = ax_accounts before.
Proof.
  intros before out. unfold out, acceptInvitationForUser. destruct (invitationRecord s token secret true now) as [x|e] eqn:Ex; cbn [rbind]; [|left; split; [done | by left]].
  destruct (normalizeEmail userEmail) as [email|e] eqn:Ee; cbn [rbind]; [|left; split; [done | by left]].
  destruct (String.eqb_spec email (ir_email x)) as [->|Hne]; cbn [negb rbind]; [|left; split; [done | by left]].
  destruct (run_table s (meanwhile s) Hothers) as [_ Ho]. specialize (Ho Hok).
  destruct (accept_batch_spec (ir_id x) userId (accept_audit auditId x userId now) now (meanwhile s) Ho) as [(E1 & E2 & _)|(i & Hi & Ea & Hu & Hm & ->)].
  - left. destruct (accept_batch _ _ _ _ _) as [[[]|e] s1]; [done|]. split; [done | by right].
  - right. destruct (linked_invitation s (meanwhile s) token secret now x i Ex Hothers Hok Hi Ea) as (F1 & F2 & F3 & F4 & F5 & F6 & F7 & w & Hw & Hwi & Hwd & Hws).
    exists i, w. cbn [fst snd rbind]. rewrite Hws, F2, F3. done.
Qed.

(** Whoever registers has the invited address.  When registering from an invitation succeeds, the
    invitation was pending and had not run out; one user was added, verified, whose address is the
    invited one and was nobody's before, with one account that holds the hash of the password, of
    12 to 128 characters, and one membership with the invitation's workspace and role.  When it
    fails, nothing has changed: no user without an account, and no account without a membership. *)
Theorem registration_sound `{WC : WebCrypto} `{LO : Locale} meanwhile hashPassword s token secret name password userId accountId auditId now
  (Hok : invitations_ok (ax_invitations s)) (Hothers : rtc invitation_step s (meanwhile s)) :
  let before := meanwhile s in
  let out := registerFromWorkspaceInvitation meanwhile hashPassword s token secret name password userId accountId auditId now in
  (is_ok out.1 = false /\ (out.2 = s \/ out.2 = before)) \/
  exists i w,
    out.1 = Ok (wk_slug w, iv_email i) /\ w ∈ ct_workspaces (ax_control s) /\ wk_id w = iv_workspace i /\ wk_deleted w = None /\
    i ∈ ax_invitations before /\ iv_pending i = true /\ now < iv_expires i /\ invitationDigest token secret = Ok (iv_digest i) /\
    12 <= slen password <= 128 /\ has_key us_email (iv_email i) (ax_users before) = false /\ has_key us_id userId (ax_users before) = false /\
    ax_users out.2 = (ax_users before ++ [UserRow userId (trim name) (iv_email i) true])%list /\
    ax_accounts out.2 = (ax_accounts before ++ [AccountRow accountId userId (hashPassword password)])%list /\
    ct_memberships (ax_control out.2) = (ct_memberships (ax_control before) ++ [Membership (iv_workspace i) userId (iv_role i) active])%list /\
    ax_invitations out.2 = map (fun r => if acceptable (iv_id i) now r then accept_invitation now r else r) (ax_invitations before).
Proof.
  intros before out. unfold out, registerFromWorkspaceInvitation.
  destruct (invitationRecord s token secret true now) as [x|e] eqn:Ex; cbn [rbind]; [|left; split; [done | by left]].
  destruct (bool_decide _); [left; split; [done | by left]|].
  destruct ((_ <? 2) || _); [left; split; [done | by left]|].
  destruct ((slen password <? 12) || _) eqn:Ep; [left; split; [done | by left]|].
  destruct (run_table s (meanwhile s) Hothers) as [_ Ho]. specialize (Ho Hok). apply orb_false_iff in Ep as [Ep1 Ep2].
  destruct (register_batch_spec (ir_id x) (UserRow userId (trim name) (ir_email x) true) (AccountRow accountId userId (hashPassword password))
    (accept_audit auditId x userId now) now (meanwhile s) Ho) as [(E1 & E2 & _)|(i & Hi & Ea & Hu & Hm & ->)].
  - left. destruct (register_batch _ _ _ _ _ _) as [[[]|e] s1]; [done|]. split; [done | by right].
  - right. destruct (linked_invitation s (meanwhile s) token secret now x i Ex Hothers Hok Hi Ea) as (F1 & F2 & F3 & F4 & F5 & F6 & F7 & w & Hw & Hwi & Hwd & Hws).
    exists i, w. cbn [fst snd rbind]. rewrite Hws, F2, F3. split_and!; try done; lia.
Qed.

(** ** Inviting *)

Lemma randomToken_shape bytes : length bytes = 32%nat -> token_shape (randomToken bytes) = true.
Proof.
  intros H. unfold token_shape. change (randomToken bytes) with (encodeBase64Url bytes). rewrite encodeBase64Url_alphabet.
  pose proof (encodeBase64Url_length bytes) as Hl. unfold slen, blen in Hl. rewrite H in Hl. change ((Z.of_nat 32 * 4 + 2) / 3) with 43 in Hl.
  apply Nat.eqb_eq. lia.
Qed.
Lemma create_batch_spec i actor audit now s : iv_pending i = true -> invitations_ok (ax_invitations s) ->
  (create_batch i actor audit now s).1 = Ok 1 ->
  let s1 := (create_batch i actor audit now s).2 in
  i ∈ ax_invitations s1 /\ invitations_ok (ax_invitations s1) /\ ct_workspaces (ax_control s1) = ct_workspaces (ax_control s) /\
  admin_now (ax_control s) (iv_workspace i) actor = true /\ ct_memberships (ax_control s1) = ct_memberships (ax_control s).
Proof.
  intros Hp Hok. pose proof (create_batch_step i actor audit now s Hp) as [_ Hs]. specialize (Hs Hok). revert Hs.
  unfold create_batch. set (n := count_if _ _). set (d1 := audit_statement _ _ _ _). destruct (update_where _ _ _) as [rows m].
  destruct (admin_now (ax_control s) (iv_workspace i) actor) eqn:Ea.
  - destruct (insert_invitation i rows) as [rows'|e] eqn:E; [|done]. cbn [fst snd ax_invitations ax_control]. intros Hs _. split_and!; try done.
    + unfold insert_invitation in E. destruct (_ || _); [done|]. injection E as <-. apply elem_of_app. right. by apply list_elem_of_singleton.
    + unfold d1, audit_statement. by destruct (_ && _).
    + unfold d1, audit_statement. by destruct (_ && _).
  - cbn [fst]. intros _ [= Hn]. exfalso. enough (n = 0) by lia. apply (count_if_zero membership_key). intros m' Hm'.
    unfold admin_now in Ea. rewrite existsb_false_elem in Ea. by rewrite (Ea m' Hm').
Qed.

(** The link that was mailed opens the invitation that was made.  When inviting succeeds, an
    administrator of the workspace acted; the new invitation, for the normalised address and with
    the role asked for, is the only pending one for that address in the workspace, and runs out
    after seven days; until then, by its token and the same secret, the invitation page finds
    exactly it, as long as its workspace is there.  The token is only in the answer: the table holds
    its digest. *)
Theorem invitation_roundtrip `{WC : WebCrypto} `{LO : Locale} meanwhile s slug actorUserId secret email role bytes id auditId now cn
  (Hok : invitations_ok (ax_invitations (meanwhile s)))
  (Hcreated : (createWorkspaceInvitation meanwhile s slug actorUserId secret email role bytes id auditId now).1 = Ok cn) :
  let s1 := (createWorkspaceInvitation meanwhile s slug actorUserId secret email role bytes id auditId now).2 in
  exists i r address,
    i ∈ ax_invitations s1 /\ iv_id i = id /\ normalizeEmail email = Ok address /\ iv_email i = address /\ role_of role = Some r /\ iv_role i = r /\
    iv_expires i = now + 604800000 /\ cn = CreatedInvitation id (randomToken bytes) (iv_expires i) /\ token_shape (cn_token cn) = true /\
    iv_digest i = hmac_sha256 (encode_utf8 secret) (encode_utf8 ("alphaping/workspace-invitation/v1:" ++ cn_token cn)) /\
    (exists m, m ∈ ct_memberships (ax_control s1) /\ member_is (iv_workspace i) actorUserId m && active_admin m = true) /\
    (forall j, j ∈ ax_invitations s1 -> iv_workspace j = iv_workspace i -> iv_email j = address -> iv_pending j = true -> j = i) /\
    forall w later unexpired, w ∈ ct_workspaces (ax_control s1) -> wk_id w = iv_workspace i -> wk_deleted w = None -> later < iv_expires i ->
      exists x, invitationRecord s1 (cn_token cn) secret unexpired later = Ok x /\ ir_id x = id /\ ir_workspace_id x = iv_workspace i /\
        ir_email x = address /\ ir_role x = r /\ ir_expires_at x = iv_expires i.
Proof.
  revert Hcreated. unfold createWorkspaceInvitation.
  destruct (requireWorkspaceAdmin (ax_control s) slug actorUserId) as [access|e]; cbn [rbind]; [|done].
  destruct (normalizeEmail email) as [address|e] eqn:Ee; cbn [rbind]; [|done]. destruct (role_of role) as [r|] eqn:Er; [|done].
  destruct (existsb _ (ct_memberships _)); [done|]. destruct (invitationDigest (randomToken bytes) secret) as [digest|e] eqn:Ed; cbn [rbind]; [|done].
  set (audit := prepareAuditStatement _ _). set (i := Invitation id (m_workspaceId access) address r digest _ None None now).
  pose proof (create_batch_spec i actorUserId audit now (meanwhile s) eq_refl Hok) as Hs.
  destruct (create_batch i actorUserId audit now (meanwhile s)) as [[n|e] s1]; [|done]. cbn [fst snd rbind] in *.
  destruct (Z.eqb_spec n 1) as [->|]; [|done]. cbn [negb]. intros [= <-]. destruct (Hs eq_refl) as (Hi & Ho & Hw & Ha & Hm).
  exists i, r, address. cbn [i iv_id iv_email iv_role iv_expires iv_digest cn_token iv_workspace].
  unfold invitationDigest in Ed. destruct (negb (token_shape _) || _) eqn:Eg; [done|]. apply orb_false_iff in Eg as [Eg Eg'].
  assert (Hd : invitationDigest (randomToken bytes) secret = Ok digest) by (unfold invitationDigest; rewrite Eg, Eg'; done).
  injection Ed as Ed. split_and!; try done.
  - by apply negb_false_iff in Eg.
  - rewrite Hm. by apply existsb_exists_elem.
  - intros j Hj E1 E2 E3. by apply (io_pending _ Ho).
  - intros w later unexpired Hww Hwi Hwd Hl. unfold invitationRecord. rewrite Hd. cbn [rbind].
    assert (Hin : InvitationRec id (m_workspaceId access) (wk_name w) (wk_slug w) address r (iv_expires i)
      (us_id <$> find_key us_email address (ax_users s1)) ∈ invitation_rows s1 digest) by (apply invitation_rows_elem; by exists i, w).
    destruct (invitation_rows s1 digest) as [|x l] eqn:El; [by apply elem_of_nil in Hin|]. cbn [head].
    assert (Hx : x ∈ invitation_rows s1 digest) by (rewrite El; by left). apply invitation_rows_elem in Hx as (i' & w' & Hi' & Hw' & F1 & F2 & F3 & F4 & ->).
    assert (i' = i) as -> by (by apply (keys_unique_inj iv_digest _ i' i (io_digests _ Ho) Hi' Hi)). cbn [ir_expires_at iv_expires i].
    replace (_ <=? later) with false by (symmetry; apply Z.leb_gt; exact Hl). rewrite andb_false_r. eexists. split; [done|]. done.
Qed.

(** ** A recorded invitation *)

#[local] Instance iv_locale : Locale := String.leb.
Definition iv_control : control_tables :=
  ControlTables [WorkspaceState "w" 1 "home" "Home" "dash" 10 None None 0] [] [Membership "w" "ann" admin active]
    [] [] [] [] (fun _ => []) [] [] [] [] [] [] [] [] [].
Definition iv_secret : string := "0123456789abcdef0123456789abcdef".
Definition iv_bytes : list byte := repeat (byte_of_Z 7) 32.
Definition iv_digest_of (token : string) : list byte := hmac_sha256 (encode_utf8 iv_secret) (encode_utf8 ("alphaping/workspace-invitation/v1:" ++ token)).
Definition iv_now : Z := 1700000000000.
Definition iv_invitation : invitation_row := Invitation "i" "w" "cy@x.org" member (iv_digest_of (randomToken iv_bytes)) (iv_now + 604800000) None None iv_now.
Definition iv_used : invitation_row := Invitation "old" "w" "bo@x.org" member (iv_digest_of (randomToken (repeat (byte_of_Z 1) 32))) iv_now (Some 5) None 1.
Definition iv_db : access_db := AccessDb iv_control [iv_used; iv_invitation] [UserRow "ann" "Ann" "ann@x.org" true; UserRow "cy" "Cy" "cy@x.org" true] [].
Definition iv_db_new : access_db := AccessDb iv_control [iv_used; iv_invitation] [UserRow "ann" "Ann" "ann@x.org" true] [].
(** Meanwhile the other invitation is tried again. *)
Definition iv_meanwhile (s : access_db) : access_db := (accept_batch "old" "ann" (accept_audit "x" (InvitationRec "old" "w" "Home" "home" "bo@x.org" member 0 None) "ann" 3) 3 s).2.

Lemma iv_db_ok : invitations_ok (ax_invitations iv_db).
Proof.
  split; [apply (bool_decide_unpack _); vm_compute; exact I | apply (bool_decide_unpack _); vm_compute; exact I|].
  intros r1 r2 H1 H2 P1 P2 _ _. assert (Hp : forall r, r ∈ ax_invitations iv_db -> iv_pending r = true -> r = iv_invitation).
  { intros r [->|[->|H]%elem_of_cons]%elem_of_cons P; [vm_compute in P; discriminate | done | by apply elem_of_nil in H]. }
  by rewrite (Hp r1), (Hp r2).
Qed.

Example invitation_single_use_witness :
  let s' := iv_meanwhile iv_db in
  accept_batch "old" "cy" (accept_audit "x" (InvitationRec "old" "w" "Home" "home" "bo@x.org" member 0 None) "cy" 4) 4 s' = (Err "409 Invitation is no longer available", s').
Proof.
  apply (invitation_single_use iv_db (iv_meanwhile iv_db) iv_used iv_db_ok).
  - by left.
  - reflexivity.
  - apply rtc_once. apply step_accept.
Defined.
Example invitation_accept_sound_witness :
  let out := acceptInvitationForUser iv_meanwhile iv_db (randomToken iv_bytes) iv_secret "cy" "Cy@x.org" "a" (iv_now + 1) in
  out.1 = Ok "home" /\ ax_accounts out.2 = [] /\ ct_memberships (ax_control out.2) = [Membership "w" "ann" admin active; Membership "w" "cy" member active].
Proof.
  split; [vm_compute; reflexivity|].
  destruct (invitation_accept_sound iv_meanwhile iv_db (randomToken iv_bytes) iv_secret "cy" "Cy@x.org" "a" (iv_now + 1) iv_db_ok)
    as [[H _]|(i & w & _ & _ & _ & _ & _ & _ & _ & _ & _ & _ & _ & _ & _ & _ & _ & _ & H)].
  - apply rtc_once. apply step_accept.
  - vm_compute in H. discriminate.
  - split; [rewrite H; vm_compute; reflexivity | vm_compute; reflexivity].
Defined.
Example registration_sound_witness :
  let out := registerFromWorkspaceInvitation iv_meanwhile (fun p => "hash of " ++ p) iv_db_new (randomToken iv_bytes) iv_secret " Cy " "correct horse" "u" "acc" "a" (iv_now + 1) in
  out.1 = Ok ("home", "cy@x.org") /\ ax_users out.2 = [UserRow "ann" "Ann" "ann@x.org" true; UserRow "u" "Cy" "cy@x.org" true] /\
  ax_accounts out.2 = [AccountRow "acc" "u" "hash of correct horse"].
Proof.
  split; [vm_compute; reflexivity|].
  destruct (registration_sound iv_meanwhile (fun p => "hash of " ++ p) iv_db_new (randomToken iv_bytes) iv_secret " Cy " "correct horse" "u" "acc" "a" (iv_now + 1) iv_db_ok)
    as [[H _]|(i & w & _ & _ & _ & _ & _ & _ & _ & _ & _ & _ & _ & H1 & H2 & _)].
  - apply rtc_once. apply step_accept.
  - vm_compute in H. discriminate.
  - split; [vm_compute; reflexivity|]. rewrite H2. vm_compute. reflexivity.
Defined.
Notation iv_asked := (createWorkspaceInvitation iv_meanwhile (AccessDb iv_control [] [] []) "home" "ann" iv_secret " Dee@X.org" "admin" iv_bytes "n" "a" iv_now) (only parsing).
Definition iv_created_cn : created_invitation := CreatedInvitation "n" (randomToken iv_bytes) (iv_now + 604800000).
Lemma iv_asked_is : iv_asked.1 = Ok iv_created_cn.
Proof. vm_compute. reflexivity. Qed.
Lemma iv_asked_rows : map (fun i => (iv_id i, iv_workspace i)) (ax_invitations iv_asked.2) = [("n", "w")].
Proof. vm_compute. reflexivity. Qed.
Lemma iv_asked_workspaces : ct_workspaces (ax_control iv_asked.2) = [WorkspaceState "w" 1 "home" "Home" "dash" 10 None None 0].
Proof. vm_compute. reflexivity. Qed.
Lemma iv_asked_before : invitations_ok (ax_invitations (iv_meanwhile (AccessDb iv_control [] [] []))).
Proof. split; [constructor | constructor|]. intros r1 r2 H1. by apply elem_of_nil in H1. Qed.
Lemma iv_asked_address : normalizeEmail " Dee@X.org" = Ok "dee@x.org".
Proof. vm_compute. reflexivity. Qed.
Example invitation_roundtrip_witness :
  iv_asked.1 = Ok iv_created_cn /\ exists x, invitationRecord iv_asked.2 (cn_token iv_created_cn) iv_secret true (iv_now + 5) = Ok x /\ ir_email x = "dee@x.org" /\ ir_role x = admin.
Proof.
  split; [exact iv_asked_is|].
  destruct (invitation_roundtrip iv_meanwhile (AccessDb iv_control [] [] []) "home" "ann" iv_secret " Dee@X.org" "admin" iv_bytes "n" "a" iv_now
    iv_created_cn iv_asked_before iv_asked_is) as (i & r & address & Hi & _ & Ea & _ & Er & _ & Ei & _ & _ & _ & _ & _ & H).
  pose proof iv_asked_rows as Hrows. pose proof iv_asked_workspaces as Hws.
  assert (Hw : iv_workspace i = "w").
  { apply (list_elem_of_fmap_2 (fun i => (iv_id i, iv_workspace i))) in Hi. change (list_fmap _ _ ?f) with (map f) in Hi. setoid_rewrite Hrows in Hi.
    apply list_elem_of_singleton in Hi. congruence. }
  destruct (H (WorkspaceState "w" 1 "home" "Home" "dash" 10 None None 0) (iv_now + 5) true) as (x & Hx & _ & _ & Hm & Hr & _).
  - rewrite Hws. by left.
  - by rewrite Hw.
  - reflexivity.
  - rewrite Ei. reflexivity.
  - exists x. split; [exact Hx|]. rewrite Hm, Hr. rewrite iv_asked_address in Ea. clear -Ea Er. cbn in Er. split; congruence.
Defined.
