(* ===== verification/ServiceCompiler.v ===== *)
(** * ServiceCompiler: from the form of a check to its configuration

    [apps/web/src/lib/server/service-config-compiler.ts].  The form's fields are checked and turned
    into the request that the checks worker or an agent executes, the references to its secrets,
    and the wrapped secrets themselves.  Numeric fields are doubles, as the form parser makes them;
    [uuid i] and [random i] are the identifier and the nonce drawn for the [i]-th secret.
    The theorems put the compiler and the reading side ([Validation], [Envelopes]) together. *)

From Stdlib Require Import ZArith Lia Bool String Ascii List SpecFloat.
From stdpp Require Import base tactics list strings.
From S2P Require Import Prelude.
From S2P Require Import Js.
From S2P Require Import Sql.
From S2P Require Import JsString.
From S2P Require Import Base64Url.
From S2P Require Import Crypto.
From S2P Require Import Web.
From S2P Require Import Assertions.
From S2P Require Import JsonFacts.
From S2P Require Import CheckPersistence.
From S2P Require Import Validation.
From S2P Require Import Envelopes.
From S2P Require Import ControlRetention.
Open Scope string_scope.
Open Scope Z_scope.

(** ** Data *)

(* @src apps/web/src/lib/server/service-config-compiler.ts ServiceAssertionInput *)
Record ServiceAssertionInput := AssertionInput {
  si_source : string;
  si_operator : string;
  si_selector : string;
  si_expected : string;
  si_severity : string;
}.
(* @src apps/web/src/lib/server/service-config-compiler.ts CreateServiceMonitorInput *)
Record CreateServiceMonitorInput := MonitorInput {
  mi_name : string;
  mi_description : string;
  mi_kind : string;
  mi_executorKind : string;
  mi_executorAgentId : string;
  mi_intervalSeconds : number;
  mi_timeoutMs : number;
  mi_retryCount : number;
  mi_critical : bool;
  mi_failureConfirmations : number;
  mi_recoveryConfirmations : number;
  mi_url : string;
  mi_method : string;
  mi_expectedStatuses : string;
  mi_maxRedirects : number;
  mi_tlsVerify : bool;
  mi_degradedAfterMs : option number;
  mi_downAfterMs : option number;
  mi_maxResponseBytes : number;
  mi_requestHeaders : string;
  mi_secretRequestHeaders : string;
  mi_requestBody : string;
  mi_requestBodyIsSecret : bool;
  mi_hostname : string;
  mi_serverName : string;
  mi_port : option number;
  mi_useTls : bool;
  mi_tcpPayload : string;
  mi_tcpPayloadIsSecret : bool;
  mi_tcpResponsePrefix : string;
  mi_assertions : list ServiceAssertionInput;
}.
(* @src apps/web/src/lib/server/service-config-compiler.ts CheckSecretInsert *)
Record CheckSecretInsert := SecretInsert {
  ci_id : string;
  ci_name : string;
  ci_wrappedValue : list byte;
  ci_nonce : list byte;
}.
(* @src apps/web/src/lib/server/service-config-compiler.ts CompiledAssertion *)
Record CompiledAssertion := CompiledAssert {
  ca_source : string;
  ca_operator : string;
  ca_selector : option string;
  ca_expected : jout;
  ca_severity : string;
}.
(* @src apps/web/src/lib/server/service-config-compiler.ts CompiledServiceConfig *)
Record CompiledServiceConfig := Compiled {
  cf_request : list (string * jout);
  cf_assertions : list CompiledAssertion;
  cf_secretRefs : CheckSecretReferences;
  cf_secrets : list CheckSecretInsert;
}.

(* @src apps/web/src/lib/server/service-config-compiler.ts 75-84 BLOCKED_HEADERS *)
Definition COMPILER_BLOCKED_HEADERS : list string :=
  ["cf-connecting-ip"; "cf-ipcountry"; "cf-ray"; "connection"; "content-length"; "host"; "transfer-encoding"; "upgrade"].
(* @src apps/web/src/lib/server/service-config-compiler.ts 85-85 CHECK_KINDS *)
Definition CHECK_KINDS : list string := ["http"; "tcp"; "icmp"].
(* @src apps/web/src/lib/server/service-config-compiler.ts 86-86 EXECUTOR_KINDS *)
Definition EXECUTOR_KINDS : list string := ["cloudflare"; "agent"].
(* @src apps/web/src/lib/server/service-config-compiler.ts 87-87 ASSERTION_SOURCES *)
Definition ASSERTION_SOURCES : list string := ["header"; "jsonpath"; "body"].
(* @src apps/web/src/lib/server/service-config-compiler.ts 88-96 ASSERTION_OPERATORS *)
Definition ASSERTION_OPERATORS : list string := ["exists"; "equals"; "contains"; "matches"; "type"; "greater_than"; "less_than"].

(** ** Fields *)

(* @src apps/web/src/lib/server/service-config-compiler.ts boundedInteger *)
Definition boundedNumber (value : number) (minimum maximum : Z) (label : string) : res Z :=
  match num_int value with
  | Some n =>
      throw_if (n <? minimum) || (maximum <? n)
        as "400 " ++ label ++ " must be between " ++ z_to_string minimum ++ " and " ++ z_to_string maximum in Ok n
  | None => Err ("400 " ++ label ++ " must be between " ++ z_to_string minimum ++ " and " ++ z_to_string maximum)
  end.
(* @src apps/web/src/lib/server/service-config-compiler.ts boundedUtf8 *)
Definition boundedUtf8 (value : string) (maximumBytes : Z) (label : string) : res unit :=
  throw_if maximumBytes <? blen (encode_utf8 value) as "400 " ++ label ++ " is limited to " ++ z_to_string maximumBytes ++ " bytes" in Ok tt.

(** [s.indexOf(c)] *)
Fixpoint index_of (c : ascii) (s : string) : Z :=
  match s with
  | EmptyString => -1
  | String d s' => if Ascii.eqb d c then 0 else let i := index_of c s' in if i <? 0 then -1 else i + 1
  end.
(** [/^[!#$%&'*+.^_`|~0-9A-Za-z-]{1,128}$/] *)
Definition header_name_shape (name : string) : bool := header_name_ok name && (slen name <=? 128).
(** The loop over the lines. *)
(* @src apps/web/src/lib/server/service-config-compiler.ts 116-131 parseHeaderLines *)
Fixpoint header_lines (lines names : list string) (headers : list (string * string)) : res (list (string * string)) :=
  match lines with
  | [] => Ok headers
  | line :: rest =>
      let separator := index_of ":" line in
      throw_if separator <=? 0 as "400 Request headers must use Name: value format" in
      let name := trim (str_take (Z.to_nat separator) line) in
      let headerValue := trim (str_drop (Z.to_nat (separator + 1)) line) in
      let normalizedName := to_lower name in
      throw_if negb (header_name_shape name) || str_in normalizedName COMPILER_BLOCKED_HEADERS || (1024 <? slen headerValue)
        as "400 Request header " ++ (if String.eqb name "" then "value" else name) ++ " is invalid" in
      throw_if str_in normalizedName names as "400 Request header " ++ name ++ " is duplicated" in
      header_lines rest (normalizedName :: names) (set_own name headerValue headers)
  end.
(** [split(/\r?\n/)]: the carriage return is trimmed with the rest of the white space. *)
(* @src apps/web/src/lib/server/service-config-compiler.ts parseHeaderLines *)
Definition parseHeaderLines (value : string) : res (list (string * string)) :=
  let lines := List.filter (fun line => negb (String.eqb line "")) (map trim (split_on (chr 10) value)) in
  throw_if 32 <? Z.of_nat (length lines) as "400 A check can contain at most 32 request headers" in
  header_lines lines [] [].

(** [[...new Set(l)]] *)
Fixpoint distinct (seen l : list Z) : list Z :=
  match l with [] => [] | x :: l' => if existsb (Z.eqb x) seen then distinct seen l' else x :: distinct (x :: seen) l' end.
(* @src apps/web/src/lib/server/service-config-compiler.ts expectedStatuses *)
Definition expectedStatuses (value : string) : res (list Z) :=
  let statuses := List.filter is_finite (map (fun item => js_number (trim item)) (split_on "," value)) in
  throw_if (length statuses =? 0)%nat || (20 <? Z.of_nat (length statuses)) ||
      existsb (fun status => match num_int status with Some n => (n <? 100) || (599 <? n) | None => true end) statuses
    as "400 Expected statuses must be a comma-separated list between 100 and 599" in
  Ok (distinct [] (omap num_int statuses)).

(** ** Assertions *)

(* @src apps/web/src/lib/server/service-config-compiler.ts assertionExpected *)
Definition assertionExpected (input : ServiceAssertionInput) : res jout :=
  if String.eqb (si_operator input) "exists" then Ok ONull
  else if String.eqb (si_operator input) "greater_than" || String.eqb (si_operator input) "less_than" then
    let n := js_number (si_expected input) in
    throw_if negb (is_finite n) as "400 Numeric assertions require a number" in Ok (ONum n)
  else if String.eqb (si_operator input) "type" then
    throw_if negb (str_in (si_expected input) ["string"; "number"; "boolean"; "object"; "array"; "null"]) as "400 Type assertion is invalid" in
    Ok (OStr (si_expected input))
  else if String.eqb (si_operator input) "equals" then
    match json_parse (si_expected input) with Ok v => Ok (jout_of_json v) | Err _ => Ok (OStr (si_expected input)) end
  else Ok (OStr (si_expected input)).

(* @src apps/web/src/lib/server/service-config-compiler.ts 179-203 compileAssertions *)
Definition compileAssertion (input : ServiceAssertionInput) : res CompiledAssertion :=
  throw_if negb (str_in (si_source input) ASSERTION_SOURCES) || negb (str_in (si_operator input) ASSERTION_OPERATORS) ||
      (negb (String.eqb (si_severity input) "degraded") && negb (String.eqb (si_severity input) "down"))
    as "400 Assertion options are invalid" in
  throw_if (512 <? slen (si_selector input)) || (2048 <? slen (si_expected input)) as "400 Assertion input is too long" in
  throw_if String.eqb (si_operator input) "matches" && (256 <? slen (si_expected input))
    as "400 Regular expression assertions are limited to 256 characters" in
  throw_if String.eqb (si_source input) "jsonpath" && (negb (starts_with "$" (si_selector input)) || includes "(" (si_selector input))
    as "400 JSONPath must use a non-executable selector beginning with $" in
  throw_if String.eqb (si_source input) "header" && (slen (si_selector input) =? 0) as "400 Header assertions require a header name" in
  let* expected := assertionExpected input in
  Ok (CompiledAssert (si_source input) (si_operator input) (if String.eqb (si_selector input) "" then None else Some (si_selector input))
        expected (si_severity input)).
(* @src apps/web/src/lib/server/service-config-compiler.ts compileAssertions *)
Definition compileAssertions (inputs : list ServiceAssertionInput) : res (list CompiledAssertion) :=
  throw_if 20 <? Z.of_nat (length inputs) as "400 A check can contain at most 20 assertions" in mapM_res compileAssertion inputs.
Definition assertion_out (a : CompiledAssertion) : jout :=
  OObj [("source", OStr (ca_source a)); ("operator", OStr (ca_operator a)); ("selector", nullable_out (ca_selector a));
        ("expected", ca_expected a); ("severity", OStr (ca_severity a))].

(* @src apps/web/src/lib/server/service-config-compiler.ts base64Utf8 *)
Definition base64Utf8 (value : string) : res string :=
  let bytes := encode_utf8 value in
  throw_if 4096 <? blen bytes as "400 TCP payloads are limited to 4096 bytes" in Ok (btoa bytes).

(** ** Requests and secrets *)

Section Compiler.
Context `{UA : UrlApi} `{WC : WebCrypto} (uuid : nat -> string) (random : nat -> list byte).

Fixpoint wrap_entries (i : nat) (entries : list (string * string)) (workspaceId keyHex : string) : res (list CheckSecretInsert) :=
  match entries with
  | [] => Ok []
  | (name, value) :: rest =>
      let* wrapped := wrapCheckSecret (random i) value keyHex workspaceId (uuid i) in
      let* others := wrap_entries (S i) rest workspaceId keyHex in
      Ok (SecretInsert (uuid i) name (wr_ciphertext wrapped) (wr_nonce wrapped) :: others)
  end.
(* @src apps/web/src/lib/server/service-config-compiler.ts wrapSecrets *)
Definition wrapSecrets (input : list (string * string)) (workspaceId keyHex : string)
  : res (list (string * string) * list CheckSecretInsert) :=
  let* entries := wrap_entries 0 input workspaceId keyHex in
  Ok (map (fun entry => (ci_name entry, ci_id entry)) entries, entries).

Definition int_or_null (o : option Z) : jout := match o with Some z => OInt z | None => ONull end.
(* @src apps/web/src/lib/server/service-config-compiler.ts compileRequest *)
Definition compileRequest (input : CreateServiceMonitorInput) (degradedAfterMs downAfterMs : option Z) (headers : list (string * string))
    (assertions : list CompiledAssertion) : res (list (string * jout)) :=
  if String.eqb (mi_kind input) "http" then
    match url_parse (mi_url input) None with
    | Err _ => Err "400 Service URL is invalid"
    | Ok u =>
        throw_if negb (String.eqb (protocol u) "http:") && negb (String.eqb (protocol u) "https:")
          as "400 HTTP checks require an HTTP or HTTPS URL" in
        throw_if negb (String.eqb (username u) "") || negb (String.eqb (password u) "") as "400 Service URLs cannot contain credentials" in
        throw_if negb (str_in (mi_method input) ["GET"; "HEAD"; "POST"; "PUT"; "PATCH"; "DELETE"]) as "400 HTTP method is invalid" in
        let* statuses := expectedStatuses (mi_expectedStatuses input) in
        let* redirects := boundedNumber (mi_maxRedirects input) 0 3 "Redirect limit" in
        let* bytes := boundedNumber (mi_maxResponseBytes input) 1024 262144 "Response limit" in
        Ok [("url", OStr (href u)); ("method", OStr (mi_method input)); ("headers", OObj (map (fun kv => (kv.1, OStr kv.2)) headers));
            ("body", if mi_requestBodyIsSecret input || String.eqb (mi_requestBody input) "" then ONull else OStr (mi_requestBody input));
            ("expectedStatus", OArr (map OInt statuses)); ("maxRedirects", OInt redirects); ("tlsVerify", OBool (mi_tlsVerify input));
            ("degradedAfterMs", int_or_null degradedAfterMs); ("downAfterMs", int_or_null downAfterMs); ("maxResponseBytes", OInt bytes);
            ("assertions", OArr (map assertion_out assertions))]
    end
  else
    throw_if (slen (mi_hostname input) =? 0) || (253 <? slen (mi_hostname input)) as "400 Target hostname is invalid" in
    if String.eqb (mi_kind input) "tcp" then
      let* port := boundedNumber (match mi_port input with Some p => p | None => num_of_Z 0 end) 1 65535 "TCP port" in
      let* payload := if mi_tcpPayloadIsSecret input || String.eqb (mi_tcpPayload input) "" then Ok ONull
        else let* s := base64Utf8 (mi_tcpPayload input) in Ok (OStr s) in
      let* prefix := if String.eqb (mi_tcpResponsePrefix input) "" then Ok ONull
        else let* s := base64Utf8 (mi_tcpResponsePrefix input) in Ok (OStr s) in
      Ok [("hostname", OStr (mi_hostname input)); ("port", OInt port); ("secureTransport", OStr (if mi_useTls input then "on" else "off"));
          ("serverName", if String.eqb (mi_serverName input) "" then ONull else OStr (mi_serverName input)); ("tlsVerify", OBool (mi_tlsVerify input));
          ("payloadBase64", payload); ("responsePrefixBase64", prefix)]
    else
      Ok [("hostname", OStr (mi_hostname input)); ("degradedAfterMs", int_or_null degradedAfterMs); ("downAfterMs", int_or_null downAfterMs)].

Definition optional_bounded (o : option number) (label : string) : res (option Z) :=
  match o with None => Ok None | Some v => let* n := boundedNumber v 0 30000 label in Ok (Some n) end.
(** What is secret, under the names of the references. *)
Definition secret_values (input : CreateServiceMonitorInput) (secretHeaders : list (string * string)) : list (string * string) :=
  (map (fun kv => (("header:" ++ kv.1)%string, kv.2)) secretHeaders ++
   (if mi_requestBodyIsSecret input && negb (String.eqb (mi_requestBody input) "") then [("body", mi_requestBody input)] else []) ++
   (if mi_tcpPayloadIsSecret input && negb (String.eqb (mi_tcpPayload input) "") then [("tcpPayload", mi_tcpPayload input)] else []))%list.
Fixpoint header_references (references secretHeaders acc : list (string * string)) : res (list (string * string)) :=
  match secretHeaders with
  | [] => Ok acc
  | (name, _) :: rest =>
      match obj_get ("header:" ++ name) references with
      | Some reference =>
          throw_if String.eqb reference "" as "500 Secret header wrapping produced an incomplete reference set" in
          header_references references rest (set_own name reference acc)
      | None => Err "500 Secret header wrapping produced an incomplete reference set"
      end
  end.
(* @src apps/web/src/lib/server/service-config-compiler.ts compileServiceConfig *)
Definition compileServiceConfig (input : CreateServiceMonitorInput) (workspaceId wrappingKey : string) : res CompiledServiceConfig :=
  let cloudflare := String.eqb (mi_executorKind input) "cloudflare" in
  throw_if (slen (mi_name input) <? 2) || (80 <? slen (mi_name input)) || (500 <? slen (mi_description input))
    as "400 Service name or description is invalid" in
  throw_if negb (str_in (mi_kind input) CHECK_KINDS) || negb (str_in (mi_executorKind input) EXECUTOR_KINDS)
    as "400 Check type or executor is invalid" in
  throw_if cloudflare && negb (mi_tlsVerify input) as "400 Cloudflare checks require TLS certificate verification" in
  throw_if cloudflare && String.eqb (mi_kind input) "tcp" && negb (String.eqb (mi_serverName input) "") as "400 TCP SNI requires an Agent executor" in
  let* _ := boundedNumber (mi_intervalSeconds input) (if cloudflare then 60 else 5) 86400 "Check interval" in
  let* _ := boundedNumber (mi_timeoutMs input) 100 30000 "Timeout" in
  let* _ := boundedNumber (mi_retryCount input) 0 3 "Retry count" in
  let* _ := boundedNumber (mi_failureConfirmations input) 1 20 "Failure confirmations" in
  let* _ := boundedNumber (mi_recoveryConfirmations input) 1 20 "Recovery confirmations" in
  let* degradedAfterMs := optional_bounded (mi_degradedAfterMs input) "Degraded latency threshold" in
  let* downAfterMs := optional_bounded (mi_downAfterMs input) "Down latency threshold" in
  throw_if match degradedAfterMs, downAfterMs with Some g, Some d => d <? g | _, _ => false end
    as "400 Down latency threshold cannot be lower than degraded threshold" in
  throw_if cloudflare && String.eqb (mi_kind input) "icmp" as "400 Cloudflare cannot execute ICMP checks; select an Agent executor" in
  let* _ := if String.eqb (mi_kind input) "http" then boundedUtf8 (mi_requestBody input) 16384 "HTTP request body" else Ok tt in
  let* _ := if String.eqb (mi_kind input) "tcp" then boundedUtf8 (mi_tcpPayload input) 4096 "TCP payload" else Ok tt in
  throw_if (253 <? slen (mi_serverName input)) || str_exists is_space (mi_serverName input) as "400 TLS server name is invalid" in
  let* assertions := compileAssertions (mi_assertions input) in
  let* publicHeaders := parseHeaderLines (mi_requestHeaders input) in
  let* secretHeaders := parseHeaderLines (mi_secretRequestHeaders input) in
  throw_if existsb (fun kv => str_in (to_lower kv.1) (map (fun kv => to_lower kv.1) secretHeaders)) publicHeaders
    as "400 A request header cannot be both public and secret" in
  let* '(references, inserts) := wrapSecrets (secret_values input secretHeaders) workspaceId wrappingKey in
  let* secretHeaderReferences := header_references references secretHeaders [] in
  let* request := compileRequest input degradedAfterMs downAfterMs publicHeaders assertions in
  Ok (Compiled request assertions (SecretRefs secretHeaderReferences (obj_get "body" references) (obj_get "tcpPayload" references)) inserts).
End Compiler.

(** ** What the fields are once they have been accepted *)

Lemma boundedNumber_ok v lo hi label n : boundedNumber v lo hi label = Ok n -> num_int v = Some n /\ lo <= n <= hi.
Proof.
  unfold boundedNumber. destruct (num_int v) as [m|]; [|done]. destruct (_ || _) eqn:E; [done|]. intros [= ->].
  apply orb_false_iff in E as [E1 E2]. bool_hyps. split; [done | lia].
Qed.
Lemma optional_bounded_ok o label z : optional_bounded o label = Ok z -> match z with Some n => 0 <= n <= 30000 | None => True end.
Proof.
  unfold optional_bounded. destruct o as [v|]; [|by intros [= <-]]. intros H. apply rbind_ok in H as (n & Hn & [= <-]). apply boundedNumber_ok in Hn as [_ Hn]. exact Hn.
Qed.

(** A header the workers accept. *)
Definition sendable (kv : string * string) : Prop :=
  header_entry_blocked kv.1 = false /\ slen kv.2 <= 1024 /\ kv.1 <> "__proto__" /\ header_name_ok kv.1 = true.
Definition lower_names (l : list (string * string)) : list string := map (fun kv => to_lower kv.1) l.

Lemma set_own_fresh name value l : to_lower name ∉ lower_names l ->
  set_own name value l = if String.eqb name "__proto__" then l else (l ++ [(name, value)])%list.
Proof.
  intros H. unfold set_own. destruct (String.eqb name "__proto__"); [done|]. apply obj_set_fresh. intros Hin. apply H.
  apply in_map_iff in Hin as ([k v] & E & Hin). cbn in E. subst k. apply list_elem_of_In in Hin.
  by apply (list_elem_of_fmap_2 (fun kv => to_lower kv.1)) in Hin.
Qed.
Lemma header_lines_ok lines : forall names acc hs, header_lines lines names acc = Ok hs ->
  Forall sendable acc -> NoDup (lower_names acc) -> (forall x, x ∈ lower_names acc -> x ∈ names) ->
  Forall sendable hs /\ NoDup (lower_names hs) /\ (length hs <= length acc + length lines)%nat.
Proof.
  induction lines as [|line rest IH]; intros names acc hs; cbn [header_lines].
  - intros [= <-] H1 H2 _. split_and!; [done | done | cbn; lia].
  - destruct (_ <=? 0); [done|]. set (name := trim (str_take _ line)). set (value := trim (str_drop _ line)).
    destruct (negb _ || _ || _) eqn:E; [done|]. destruct (str_in (to_lower name) names) eqn:En; [done|]. intros H H1 H2 H3.
    apply orb_false_iff in E as [E E3]. apply orb_false_iff in E as [E1 E2]. apply negb_false_iff in E1. unfold header_name_shape in E1.
    apply andb_true_iff in E1 as [E1 E1'].
    assert (Hfresh : to_lower name ∉ lower_names acc). { intros Hin. apply H3, str_in_elem in Hin. congruence. }
    rewrite set_own_fresh in H by done. destruct (String.eqb_spec name "__proto__") as [Ep|Ep].
    + apply IH in H as (F1 & F2 & F3); [|done|done|intros x Hx; right; auto]. split_and!; [done | done | cbn; lia].
    + apply IH in H as (F1 & F2 & F3).
      * split_and!; [done | done|]. rewrite length_app in F3. cbn in *. lia.
      * apply Forall_app. split; [done|]. apply Forall_singleton. unfold sendable, header_entry_blocked. cbn [fst snd].
        change COMPILER_BLOCKED_HEADERS with BLOCKED_HEADERS in E2. rewrite E2, orb_false_r. bool_hyps. split_and!; first [done | lia | apply Z.ltb_ge; lia].
      * unfold lower_names. rewrite map_app. apply NoDup_app. split_and!; [done | | by repeat constructor; apply not_elem_of_nil].
        intros x Hx [->|Hx']%elem_of_cons; [done | by apply elem_of_nil in Hx'].
      * intros x Hx. unfold lower_names in Hx. rewrite map_app in Hx. apply elem_of_app in Hx as [Hx|Hx]; [right; auto|].
        apply list_elem_of_singleton in Hx as ->. by left.
Qed.
Lemma parseHeaderLines_ok value hs : parseHeaderLines value = Ok hs -> Forall sendable hs /\ NoDup (lower_names hs) /\ (length hs <= 32)%nat.
Proof.
  unfold parseHeaderLines. destruct (32 <? _) eqn:E; [done|]. intros H.
  apply header_lines_ok in H as (H1 & H2 & H3); [|constructor|constructor|intros x Hx; by apply elem_of_nil in Hx]. cbn [length] in H3. bool_hyps. split_and!; [done | done | lia].
Qed.

(** Reading such headers from a record gives them back. *)
Lemma names_unique_keys l : NoDup (lower_names l) -> NoDup (map fst l).
Proof. unfold lower_names. rewrite <- (map_map fst to_lower). apply NoDup_fmap_1. Qed.
Lemma parse_headers_back l : forall acc, Forall sendable l -> NoDup (lower_names (acc ++ l)%list) ->
  parse_headers (map (fun kv => (kv.1, JStr kv.2)) l) acc = Ok (acc ++ l)%list.
Proof.
  induction l as [|[k v] l IH]; intros acc Hl Hn; cbn [map parse_headers fst snd]; [by rewrite app_nil_r|].
  apply Forall_cons in Hl as [(H1 & H2 & H3 & _) Hl]. cbn [fst snd] in *. rewrite H1. rewrite (proj2 (Z.ltb_ge _ _)) by done. cbn [orb].
  assert (Hfresh : to_lower k ∉ lower_names acc).
  { unfold lower_names in *. rewrite map_app in Hn. apply NoDup_app in Hn as (_ & Hd & _). intros Hin. apply (Hd _ Hin). by left. }
  rewrite set_own_fresh by done. rewrite (proj2 (String.eqb_neq _ _)) by done. rewrite IH; [by rewrite <- app_assoc | done | by rewrite <- app_assoc].
Qed.
Lemma parse_secret_headers_back l : forall acc, Forall (fun kv => header_entry_blocked kv.1 = false /\ kv.1 <> "__proto__") l -> NoDup (lower_names (acc ++ l)%list) ->
  parse_secret_headers (map (fun kv => (kv.1, JStr kv.2)) l) acc = Ok (acc ++ l)%list.
Proof.
  induction l as [|[k v] l IH]; intros acc Hl Hn; cbn [map parse_secret_headers fst snd]; [by rewrite app_nil_r|].
  apply Forall_cons in Hl as [(H1 & H3) Hl]. cbn [fst snd] in *. rewrite H1.
  assert (Hfresh : to_lower k ∉ lower_names acc).
  { unfold lower_names in *. rewrite map_app in Hn. apply NoDup_app in Hn as (_ & Hd & _). intros Hin. apply (Hd _ Hin). by left. }
  rewrite set_own_fresh by done. rewrite (proj2 (String.eqb_neq _ _)) by done. rewrite IH; [by rewrite <- app_assoc | done | by rewrite <- app_assoc].
Qed.

Lemma distinct_sub seen l x : x ∈ distinct seen l -> x ∈ l.
Proof.
  revert seen. induction l as [|y l IH]; intros seen; cbn [distinct]; [done|]. destruct (existsb _ _); [intros H; right; eauto|].
  rewrite !elem_of_cons. intros [->|H]; [by left | right; eauto].
Qed.
Lemma distinct_length seen l : (length (distinct seen l) <= length l)%nat.
Proof. revert seen. induction l as [|y l IH]; intros seen; cbn [distinct]; [done|]. destruct (existsb _ _); cbn; [etransitivity; [apply IH|]; lia|]. specialize (IH (y :: seen)). lia. Qed.
Lemma expectedStatuses_ok value l : expectedStatuses value = Ok l -> (1 <= length l <= 20)%nat /\ Forall (fun n => 100 <= n <= 599) l.
Proof.
  unfold expectedStatuses. set (statuses := List.filter _ _). destruct (_ || _) eqn:E; [done|]. intros [= <-].
  apply orb_false_iff in E as [E E3]. apply orb_false_iff in E as [E1 E2]. apply Nat.eqb_neq in E1. bool_hyps. rewrite existsb_false_elem in E3.
  assert (Hall : forall s, s ∈ statuses -> exists n, num_int s = Some n /\ 100 <= n <= 599).
  { intros s Hs. specialize (E3 s Hs). cbv beta in E3. destruct (num_int s) as [n|]; [|done]. exists n. split; [done|].
    apply orb_false_iff in E3 as [F1 F2]. bool_hyps. lia. }
  clearbody statuses. split.
  - split.
    + destruct statuses as [|s l']; [done|]. destruct (Hall s ltac:(by left)) as (n & Hn & _).
      change (omap num_int (s :: l')) with (match num_int s with Some y => y :: omap num_int l' | None => omap num_int l' end). rewrite Hn. cbn. lia.
    + etransitivity; [apply distinct_length|]. etransitivity; [|apply (Nat2Z.inj_le _ 20); exact E2].
      clear. induction statuses as [|s l' IH]; [done|].
      change (omap num_int (s :: l')) with (match num_int s with Some y => y :: omap num_int l' | None => omap num_int l' end). destruct (num_int s); cbn; lia.
  - apply Forall_forall. intros n Hn. apply distinct_sub, list_elem_of_omap in Hn as (s & Hs & Hn). destruct (Hall s Hs) as (m & Hm & ?). congruence.
Qed.

(** ** Assertions read back *)

Definition severity_name (s : Severity) : string := match s with SevDegraded => "degraded" | SevDown => "down" end.
(** The worker's assertion is the one of the form. *)
Record reads_as (input : ServiceAssertionInput) (c : CheckAssertion) : Prop := {
  ra_source : source_name (as_source c) = si_source input;
  ra_operator : operator_name (as_operator c) = si_operator input;
  ra_selector : as_selector c = if String.eqb (si_selector input) "" then None else Some (si_selector input);
  ra_severity : severity_name (as_severity c) = si_severity input;
  ra_expected : exists e, assertionExpected input = Ok e /\ as_expected c = Some (json_of e);
}.

Lemma json_of_str v s : json_of (jout_of_json v) = JStr s -> v = JStr s.
Proof. destruct v as [|b|n|t|l|l]; cbn; try done. by destruct (is_finite n). Qed.
Lemma assertionExpected_ok input e : assertionExpected input = Ok e -> numbers_read_back e = true ->
  jout_ok e /\ (forall s, json_of e = JStr s -> slen s <= slen (si_expected input)) /\ (si_operator input = "matches" -> e = OStr (si_expected input)).
Proof.
  unfold assertionExpected. intros H Hn.
  assert (Hstr : Ok (OStr (si_expected input)) = Ok e -> jout_ok e /\ (forall s, json_of e = JStr s -> slen s <= slen (si_expected input)) /\
    (si_operator input = "matches" -> e = OStr (si_expected input))).
  { intros [= <-]. split_and!; [done | by intros s [= ->] | done]. }
  destruct (String.eqb_spec (si_operator input) "exists") as [Eo|]; [injection H as <-; split_and!; [done | done | by rewrite Eo]|].
  destruct (String.eqb (si_operator input) "greater_than" || _) eqn:Eg.
  { destruct (negb _); [done|]. injection H as <-. split_and!.
    - by apply (read_back_ok (JNum _)).
    - intros s Hs. by apply (json_of_str (JNum _)) in Hs.
    - intros E. by rewrite E in Eg. }
  destruct (String.eqb_spec (si_operator input) "type") as [_|]; [destruct (negb _); [done | by apply Hstr]|].
  destruct (String.eqb_spec (si_operator input) "equals") as [Eo|]; [|by apply Hstr].
  destruct (json_parse (si_expected input)) as [v|x] eqn:Ep; [|by apply Hstr]. injection H as <-. split_and!; [| |by rewrite Eo].
  - apply read_back_ok; [by eapply json_parse_wf | done].
  - intros s Hs. apply json_of_str in Hs as ->. by apply Z.lt_le_incl, json_parse_str.
Qed.

Lemma source_read s : s ∈ ASSERTION_SOURCES -> exists x, parse_source (Some (JStr s)) = Some x /\ source_name x = s.
Proof.
  intros [->|[->|[->|H]%elem_of_cons]%elem_of_cons]%elem_of_cons; [by exists header | by exists jsonpath | by exists body | by apply elem_of_nil in H].
Qed.
Lemma operator_read s : s ∈ ASSERTION_OPERATORS -> exists x, parse_operator (Some (JStr s)) = Some x /\ operator_name x = s.
Proof.
  intros H. apply list_elem_of_In in H. cbn in H.
  destruct H as [<-|[<-|[<-|[<-|[<-|[<-|[<-|[]]]]]]]];
    [exists exists_ | exists equals | exists contains | exists matches | exists type | exists greater_than | exists less_than]; split; reflexivity.
Qed.
Lemma severity_read s : negb (String.eqb s "degraded") && negb (String.eqb s "down") = false ->
  exists x, parse_severity (Some (JStr s)) = Some x /\ severity_name x = s.
Proof.
  unfold parse_severity. destruct (String.eqb_spec s "degraded") as [->|]; [by exists SevDegraded|].
  destruct (String.eqb_spec s "down") as [->|]; [by exists SevDown | done].
Qed.

Lemma compileAssertion_reads input a : compileAssertion input = Ok a -> numbers_read_back (ca_expected a) = true ->
  jout_ok (assertion_out a) /\ exists c, parseAssertion (json_of (assertion_out a)) = Ok c /\ reads_as input c.
Proof.
  unfold compileAssertion. destruct (negb _ || _ || _) eqn:E1; [done|]. destruct (_ || _) eqn:E2 in |- *; [done|].
  destruct (String.eqb (si_operator input) "matches" && _) eqn:E3; [done|]. destruct (String.eqb (si_source input) "jsonpath" && _) eqn:E4; [done|].
  destruct (String.eqb (si_source input) "header" && _) eqn:E5; [done|]. intros H Hn. apply rbind_ok in H as (e & He & [= <-]).
  cbn [ca_expected] in Hn. destruct (assertionExpected_ok input e He Hn) as (Hok & Hlen & Hm).
  apply orb_false_iff in E1 as [E1 Esev]. apply orb_false_iff in E1 as [Esrc Eop]. apply negb_false_iff, str_in_elem in Esrc, Eop.
  destruct (source_read _ Esrc) as (src & Hsrc & Nsrc). destruct (operator_read _ Eop) as (op & Hop & Nop). destruct (severity_read _ Esev) as (sev & Hsev & Nsev).
  apply orb_false_iff in E2 as [E2 E2']. split.
  { cbn. split; [apply (bool_decide_unpack _); vm_compute; exact I|]. split_and!; try done. by destruct (si_selector input). }
  assert (Hpar : parseAssertion (json_of (assertion_out (CompiledAssert (si_source input) (si_operator input)
      (if String.eqb (si_selector input) "" then None else Some (si_selector input)) e (si_severity input)))) =
    Ok (Assertion src op (if String.eqb (si_selector input) "" then None else Some (si_selector input)) (Some (json_of e)) sev)).
  2:{ eexists. split; [exact Hpar|]. split; try done. by exists e. }
  unfold parseAssertion, asRecord. cbn [assertion_out json_of map fst snd as_record rbind ca_source ca_operator ca_selector ca_expected ca_severity].
  cbn [obj_get String.eqb Ascii.eqb Bool.eqb]. rewrite Hsrc, Hop, Hsev. cbv zeta.
  assert (Hsel : match Some (json_of (nullable_out (if String.eqb (si_selector input) "" then None else Some (si_selector input)))) with
    | None | Some JNull => None | Some v => Some (js_string v) end = if String.eqb (si_selector input) "" then None else Some (si_selector input))
    by (by destruct (si_selector input)).
  cbv iota in Hsel |- *. rewrite Hsel. clear Hsel.
  assert (Hop' : op = matches -> si_operator input = "matches") by (intros ->; by rewrite <- Nop).
  assert (F1 : match (if String.eqb (si_selector input) "" then None else Some (si_selector input)) with
    Some s => (slen s =? 0) || (512 <? slen s) | None => false end = false).
  { destruct (String.eqb_spec (si_selector input) "") as [|Hne]; [done|]. rewrite E2, orb_false_r. apply Z.eqb_neq. unfold slen. destruct (si_selector input); [done | cbn; lia]. }
  rewrite F1. clear F1.
  assert (F2 : bool_decide (src = header) && bool_decide ((if String.eqb (si_selector input) "" then None else Some (si_selector input)) = None) = false).
  { destruct (decide (src = header)) as [->|]; [|by rewrite bool_decide_eq_false_2]. cbn in Nsrc. rewrite <- Nsrc in E5. cbn [String.eqb Ascii.eqb Bool.eqb andb] in E5.
    destruct (String.eqb_spec (si_selector input) "") as [E|]; [by rewrite E in E5|]. by rewrite (bool_decide_eq_false_2 (Some _ = None)), andb_false_r. }
  rewrite F2. clear F2.
  assert (F3 : bool_decide (src = jsonpath) && match (if String.eqb (si_selector input) "" then None else Some (si_selector input)) with
    Some s => negb (starts_with "$" s) || includes "(" s | None => true end = false).
  { destruct (decide (src = jsonpath)) as [->|]; [|by rewrite bool_decide_eq_false_2]. cbn in Nsrc. rewrite <- Nsrc in E4. cbn [String.eqb Ascii.eqb Bool.eqb andb] in E4.
    destruct (String.eqb_spec (si_selector input) "") as [E|]; [by rewrite E in E4|]. by rewrite E4, andb_false_r. }
  rewrite F3. clear F3.
  assert (F4 : bool_decide (op = matches) && match Some (json_of e) with Some (JStr _) => false | _ => true end = false).
  { destruct (decide (op = matches)) as [Eo|]; [|by rewrite bool_decide_eq_false_2]. rewrite (Hm (Hop' Eo)). cbn. apply andb_false_r. }
  rewrite F4. clear F4.
  assert (F5 : bool_decide (op = matches) && match Some (json_of e) with Some (JStr s) => 256 <? slen s | _ => false end = false).
  { destruct (decide (op = matches)) as [Eo|]; [|by rewrite bool_decide_eq_false_2]. rewrite (Hm (Hop' Eo)). cbn [json_of]. rewrite (Hop' Eo) in E3.
    cbn [String.eqb Ascii.eqb Bool.eqb andb] in E3. by rewrite E3, andb_false_r. }
  rewrite F5. clear F5.
  assert (F6 : match Some (json_of e) with Some (JStr s) => 2048 <? slen s | _ => false end = false).
  { destruct (json_of e) as [| | |s| |]; try done. specialize (Hlen s eq_refl). bool_hyps. apply Z.ltb_ge. lia. }
  rewrite F6. done.
Qed.

Lemma compileAssertions_read inputs l : compileAssertions inputs = Ok l -> forallb (fun a => numbers_read_back (ca_expected a)) l = true ->
  foldr (fun x P => jout_ok x /\ P) True (map assertion_out l) /\
  exists cs, parseAssertions (Some (JArr (map json_of (map assertion_out l)))) = Ok cs /\ Forall2 reads_as inputs cs.
Proof.
  unfold compileAssertions, parseAssertions. destruct (20 <? _) eqn:E; [done|]. intros H Hn. apply mapM_res_ok in H. rewrite !length_map.
  rewrite <- (Forall2_length _ _ _ H), E. clear E. induction H as [|input a inputs l Ha _ IH]; [split; [done|]; by exists []|].
  cbn [forallb] in Hn. apply andb_true_iff in Hn as [Hn1 Hn2]. destruct (IH Hn2) as (IH1 & cs & IH2 & IH3).
  destruct (compileAssertion_reads input a Ha Hn1) as (Ho & c & Hc & Hr). split; [by split|]. exists (c :: cs).
  cbn [map mapM_res]. rewrite Hc. cbn [rbind]. rewrite IH2. split; [done | by constructor].
Qed.

(** ** What is compiled runs *)

Section Runs.
Context `{UA : UrlApi} `{WC : WebCrypto} (uuid : nat -> string) (random : nat -> list byte).

(** The pieces of a compiled configuration. *)
Record compiled_from (input : CreateServiceMonitorInput) (workspaceId key : string) (c : CompiledServiceConfig)
    (degraded down : option Z) (public secret references : list (string * string)) : Prop := {
  cp_tls : mi_executorKind input = "cloudflare" -> mi_tlsVerify input = true;
  cp_sni : mi_executorKind input = "cloudflare" -> mi_kind input = "tcp" -> mi_serverName input = "";
  cp_body : mi_kind input = "http" -> slen (mi_requestBody input) <= 16384;
  cp_payload : mi_kind input = "tcp" -> slen (mi_tcpPayload input) <= 4096;
  cp_degraded : optional_bounded (mi_degradedAfterMs input) "Degraded latency threshold" = Ok degraded;
  cp_down : optional_bounded (mi_downAfterMs input) "Down latency threshold" = Ok down;
  cp_ordered : match degraded, down with Some g, Some d => d <? g | _, _ => false end = false;
  cp_assertions : compileAssertions (mi_assertions input) = Ok (cf_assertions c);
  cp_public : parseHeaderLines (mi_requestHeaders input) = Ok public;
  cp_secret : parseHeaderLines (mi_secretRequestHeaders input) = Ok secret;
  cp_apart : forall kv, kv ∈ public -> to_lower kv.1 ∉ lower_names secret;
  cp_wrapped : wrapSecrets uuid random (secret_values input secret) workspaceId key = Ok (references, cf_secrets c);
  cp_references : exists hs, header_references references secret [] = Ok hs /\
    cf_secretRefs c = SecretRefs hs (obj_get "body" references) (obj_get "tcpPayload" references);
  cp_request : compileRequest input degraded down public (cf_assertions c) = Ok (cf_request c);
}.
Lemma compile_parts input workspaceId key c : compileServiceConfig uuid random input workspaceId key = Ok c ->
  exists degraded down public secret references, compiled_from input workspaceId key c degraded down public secret references.
Proof.
  unfold compileServiceConfig. cbv zeta. destruct (_ || _ || _); [done|]. destruct (_ || _); [done|].
  destruct (String.eqb (mi_executorKind input) "cloudflare" && negb (mi_tlsVerify input)) eqn:E1; [done|].
  destruct (_ && _ && negb (String.eqb (mi_serverName input) "")) eqn:E2; [done|]. intros H.
  do 5 (apply rbind_ok in H as (? & _ & H)). apply rbind_ok in H as (degraded & Hg & H). apply rbind_ok in H as (down & Hd & H).
  destruct (match degraded, down with Some g, Some d => d <? g | _, _ => false end) eqn:Eo; [done|].
  destruct (_ && String.eqb (mi_kind input) "icmp"); [done|]. apply rbind_ok in H as (? & Hbody & H). apply rbind_ok in H as (? & Hpay & H).
  destruct (_ || _); [done|]. apply rbind_ok in H as (assertions & Ha & H). apply rbind_ok in H as (public & Hp & H).
  apply rbind_ok in H as (secret & Hs & H). destruct (existsb _ public) eqn:Ex; [done|]. apply rbind_ok in H as ([references inserts] & Hw & H).
  apply rbind_ok in H as (hs & Hh & H). apply rbind_ok in H as (request & Hr & [= <-]).
  exists degraded, down, public, secret, references. split; cbn [cf_assertions cf_secrets cf_secretRefs cf_request]; try done.
  - intros E. rewrite E in E1. by apply negb_false_iff in E1.
  - intros E E'. rewrite E, E' in E2. by apply negb_false_iff, String.eqb_eq in E2.
  - intros E. rewrite E in Hbody. cbn in Hbody. unfold boundedUtf8 in Hbody. destruct (16384 <? _) eqn:Eb; [done|].
    rewrite blen_encode_utf8 in Eb. bool_hyps. lia.
  - intros E. rewrite E in Hpay. cbn in Hpay. unfold boundedUtf8 in Hpay. destruct (4096 <? _) eqn:Eb; [done|].
    rewrite blen_encode_utf8 in Eb. bool_hyps. lia.
  - intros kv Hkv. rewrite existsb_false_elem in Ex. specialize (Ex kv Hkv). cbn beta in Ex. intros Hin. apply str_in_elem in Hin.
    unfold lower_names in Hin. congruence.
  - by exists hs.
Qed.

Lemma obj_json_ok (l : list (string * string)) : NoDup (map fst l) -> jout_ok (OObj (map (fun kv => (kv.1, OStr kv.2)) l)).
Proof. intros H. cbn. rewrite map_map. split; [exact H|]. clear H. by induction l as [|kv l IH]. Qed.
Lemma obj_json_of (l : list (string * string)) : json_of (OObj (map (fun kv => (kv.1, OStr kv.2)) l)) = JObj (map (fun kv => (kv.1, JStr kv.2)) l).
Proof. cbn. by rewrite map_map. Qed.
Lemma small_safe z : 0 <= z <= 2 ^ 31 -> safe_z z = true.
Proof. intros H. unfold safe_z, max_safe. lia. Qed.
Lemma nullable_bounded o : match o with Some n => 0 <= n <= 30000 | None => True end ->
  jout_ok (int_or_null o) /\ nullable (Some (json_of (int_or_null o))) (fun v => Validation.boundedInteger v 0 0 30000) = Ok o.
Proof.
  intros H. destruct o as [z|]; [|done]. assert (Hs : safe_z z = true) by (apply small_safe; lia). split; [exact Hs|].
  cbn. rewrite num_of_Z_int by done. rewrite (proj2 (Z.ltb_ge _ _)), (proj2 (Z.ltb_ge _ _)) by lia. done.
Qed.
Lemma integer_read z lo hi d : safe_z z = true -> lo <= z <= hi -> Validation.boundedInteger (Some (JNum (num_of_Z z))) d lo hi = Ok z.
Proof.
  intros Hs H. unfold Validation.boundedInteger, as_integer. rewrite num_of_Z_int by done.
  rewrite (proj2 (Z.ltb_ge z lo)), (proj2 (Z.ltb_ge hi z)) by lia. done.
Qed.
Lemma statuses_read l : Forall (fun n => 100 <= n <= 599) l ->
  foldr (fun x P => jout_ok x /\ P) True (map OInt l) /\ omap (fun v => as_integer (Some v)) (map json_of (map OInt l)) = l.
Proof.
  induction 1 as [|n l Hn _ [IH1 IH2]]; [done|]. assert (Hs : safe_z n = true) by (apply small_safe; lia). split; [by split|].
  cbn [map json_of]. change (omap (fun v => as_integer (Some v)) (JNum (num_of_Z n) :: map json_of (map OInt l))) with
    (match num_int (num_of_Z n) with Some y => y :: omap (fun v => as_integer (Some v)) (map json_of (map OInt l)) | None => omap (fun v => as_integer (Some v)) (map json_of (map OInt l)) end).
  by rewrite num_of_Z_int, IH2.
Qed.

(** What the worker is to do for an HTTP check of the form. *)
Record runs_as (input : CreateServiceMonitorInput) (u : url) (r : HttpCheckRequest) : Prop := {
  rn_url : h_url r = href u;
  rn_method : h_method r = JStr (mi_method input);
  rn_headers : parseHeaderLines (mi_requestHeaders input) = Ok (h_headers r);
  rn_body : h_body r = if mi_requestBodyIsSecret input || String.eqb (mi_requestBody input) "" then None else Some (mi_requestBody input);
  rn_statuses : expectedStatuses (mi_expectedStatuses input) = Ok (h_expectedStatus r);
  rn_degraded : optional_bounded (mi_degradedAfterMs input) "Degraded latency threshold" = Ok (h_degradedAfterMs r);
  rn_down : optional_bounded (mi_downAfterMs input) "Down latency threshold" = Ok (h_downAfterMs r);
  rn_redirects : num_int (mi_maxRedirects input) = Some (h_maxRedirects r);
  rn_bytes : num_int (mi_maxResponseBytes input) = Some (h_maxResponseBytes r);
  rn_tls : h_tlsVerify r = true;
  rn_sensitive : h_sensitiveHeaders r = [];
  rn_assertions : Forall2 reads_as (mi_assertions input) (h_assertions r);
}.

(** The request as the worker's parser sees it. *)
Lemma http_request_ok input degraded down public assertions request :
  String.eqb (mi_kind input) "http" = true -> compileRequest input degraded down public assertions = Ok request ->
  Forall sendable public -> NoDup (lower_names public) ->
  match degraded with Some n => 0 <= n <= 30000 | None => True end -> match down with Some n => 0 <= n <= 30000 | None => True end ->
  foldr (fun x P => jout_ok x /\ P) True (map assertion_out assertions) ->
  exists u statuses redirects bytes,
    url_parse (mi_url input) None = Ok u /\ (protocol u = "http:" \/ protocol u = "https:") /\ username u = "" /\ password u = "" /\
    str_in (mi_method input) ["GET"; "HEAD"; "POST"; "PUT"; "PATCH"; "DELETE"] = true /\
    expectedStatuses (mi_expectedStatuses input) = Ok statuses /\ num_int (mi_maxRedirects input) = Some redirects /\ 0 <= redirects <= 3 /\
    num_int (mi_maxResponseBytes input) = Some bytes /\ 1024 <= bytes <= 262144 /\
    json_parse (json_stringify (OObj request)) = Ok (JObj
      [("url", JStr (href u)); ("method", JStr (mi_method input)); ("headers", JObj (map (fun kv => (kv.1, JStr kv.2)) public));
       ("body", if mi_requestBodyIsSecret input || String.eqb (mi_requestBody input) "" then JNull else JStr (mi_requestBody input));
       ("expectedStatus", JArr (map json_of (map OInt statuses))); ("maxRedirects", JNum (num_of_Z redirects)); ("tlsVerify", JBool (mi_tlsVerify input));
       ("degradedAfterMs", json_of (int_or_null degraded)); ("downAfterMs", json_of (int_or_null down)); ("maxResponseBytes", JNum (num_of_Z bytes));
       ("assertions", JArr (map json_of (map assertion_out assertions)))]).
Proof.
  intros Hk H Hs Hn Hg Hd Ha. unfold compileRequest in H. rewrite Hk in H. destruct (url_parse (mi_url input) None) as [u|e] eqn:Hu; [|done].
  destruct (negb _ && _) eqn:E1; [done|]. destruct (_ || _) eqn:E2 in H; [done|]. destruct (negb (str_in _ _)) eqn:E3; [done|].
  apply rbind_ok in H as (statuses & Hst & H). apply rbind_ok in H as (redirects & Hre & H). apply rbind_ok in H as (bytes & Hby & [= <-]).
  apply boundedNumber_ok in Hre as [Hre Bre]. apply boundedNumber_ok in Hby as [Hby Bby]. destruct (expectedStatuses_ok _ _ Hst) as [_ Bst].
  apply orb_false_iff in E2 as [E2 E2']. apply negb_false_iff in E2, E2', E3. apply String.eqb_eq in E2, E2'.
  exists u, statuses, redirects, bytes. split_and!; try done; try lia.
  - apply andb_false_iff in E1 as [E1|E1]; apply negb_false_iff, String.eqb_eq in E1; auto.
  - rewrite json_parse_stringify.
    + unfold int_or_null. destruct (_ || _); destruct degraded, down; cbn [json_of map fst snd]; by rewrite map_map.
    + destruct (nullable_bounded degraded Hg) as [Jg _]. destruct (nullable_bounded down Hd) as [Jd _].
      pose proof (obj_json_ok public (names_unique_keys _ Hn)) as Jh. destruct (statuses_read _ Bst) as [Js _].
      split; [apply (bool_decide_unpack _); vm_compute; exact I|]. cbn [foldr snd]. split_and!; try done; try (by apply small_safe; lia).
      by destruct (_ || _).
Qed.

(** C31: What the form accepts is what the worker runs.  Of an HTTP check compiled for Cloudflare,
    the worker's parser reads the stored request back as the form said: the same URL, method,
    headers, body, statuses, thresholds, limits and assertions, the secret parts left out.  It can
    refuse it for two reasons only, both about the target: the normalised URL is longer than 2048
    characters, or its host is not public, which the compiler does not look at. *)
Theorem compiled_check_runs input workspaceId key c
  (Hc : compileServiceConfig uuid random input workspaceId key = Ok c)
  (Hk : mi_kind input = "http") (Hx : mi_executorKind input = "cloudflare")
  (Hnum : forallb (fun a => numbers_read_back (ca_expected a)) (cf_assertions c) = true)
  (Hurl : forall u, url_parse (mi_url input) None = Ok u -> url_parse (href u) None = Ok u) :
  let stored := parseHttpRequest (json_stringify (OObj (cf_request c))) in
  exists u, url_parse (mi_url input) None = Ok u /\
    ((2048 < slen (href u) /\ stored = Err "invalid_url") \/
     (assertPublicHostname (hostname u) = Err "blocked_target" /\ stored = Err "blocked_target") \/
     (public_url u /\ exists r, stored = Ok r /\ runs_as input u r)).
Proof.
  intros stored. destruct (compile_parts input workspaceId key c Hc) as (degraded & down & public & secret & references & P).
  destruct (parseHeaderLines_ok _ _ (cp_public _ _ _ _ _ _ _ _ _ P)) as (Hs & Hn & Hl).
  pose proof (optional_bounded_ok _ _ _ (cp_degraded _ _ _ _ _ _ _ _ _ P)) as Bg. pose proof (optional_bounded_ok _ _ _ (cp_down _ _ _ _ _ _ _ _ _ P)) as Bd.
  destruct (compileAssertions_read _ _ (cp_assertions _ _ _ _ _ _ _ _ _ P) Hnum) as (Ja & cs & Hcs & Hreads).
  destruct (http_request_ok input degraded down public (cf_assertions c) (cf_request c)) as
    (u & statuses & redirects & bytes & Hu & Hp & Hun & Hpw & Hm & Hst & Hre & Bre & Hby & Bby & Hjson); try done; [by rewrite Hk | apply P|].
  exists u. split; [done|]. unfold stored, parseHttpRequest. rewrite Hjson. cbn [rbind asRecord as_record].
  cbn [obj_get String.eqb Ascii.eqb Bool.eqb as_string]. destruct (2048 <? slen (href u)) eqn:E; [left; bool_hyps; split; [lia | done]|]. right.
  rewrite (Hurl u Hu). cbn [rbind]. rewrite Hun, Hpw. cbn [String.eqb negb orb].
  assert (Hpf : negb (String.eqb (protocol u) "http:") && negb (String.eqb (protocol u) "https:") = false).
  { destruct Hp as [->| ->]; [done|]. by rewrite andb_false_r. }
  rewrite Hpf. clear Hpf. destruct (assertPublicHostname (hostname u)) as [[]|e] eqn:Eh.
  2:{ left. assert (He : e = "blocked_target") by (clear -Eh; revert Eh; unfold assertPublicHostname; cbv zeta; match goal with |- (if ?b then _ else _) = _ -> _ => destruct b end; congruence). subst e. done. }
  right. split; [unfold public_url, public_host; done|]. cbn [rbind js_string]. cbv zeta. rewrite Hm. cbn [negb].
  destruct (expectedStatuses_ok _ _ Hst) as [Lst Bst]. destruct (statuses_read _ Bst) as [_ Rst]. rewrite Rst.
  rewrite (proj2 (Z.eqb_neq (Z.of_nat (length statuses)) 0)), (proj2 (Z.ltb_ge 20 _)) by lia. cbn [orb].
  set (body := if mi_requestBodyIsSecret input || String.eqb (mi_requestBody input) "" then None else Some (mi_requestBody input)).
  assert (Hbody : nullable_string (Some (if mi_requestBodyIsSecret input || String.eqb (mi_requestBody input) "" then JNull else JStr (mi_requestBody input))) = body)
    by (unfold body; by destruct (_ || _)).
  rewrite Hbody. assert (Hlen : match body with Some b => 16384 <? blen (encode_utf8 b) | None => false end = false).
  { unfold body. destruct (_ || _); [done|]. rewrite blen_encode_utf8. apply Z.ltb_ge. by apply (cp_body _ _ _ _ _ _ _ _ _ P). }
  rewrite Hlen. cbn [rbind asRecord as_record]. rewrite length_map, (proj2 (Z.ltb_ge 32 _)) by lia.
  rewrite (parse_headers_back public []) by done. cbn [rbind app].
  destruct (nullable_bounded degraded Bg) as [_ ->]. destruct (nullable_bounded down Bd) as [_ ->]. cbn [rbind].
  rewrite (cp_ordered _ _ _ _ _ _ _ _ _ P), (cp_tls _ _ _ _ _ _ _ _ _ P Hx).
  rewrite (integer_read redirects 0 3), (integer_read bytes 1024 262144) by (try apply small_safe; lia). cbn [rbind]. rewrite Hcs. cbn [rbind].
  eexists. split; [done|]. split; cbn; try done; apply P.
Qed.

(** A payload survives its encoding, within the worker's limits. *)
Definition payload_out (secret : bool) (s : string) : res jout :=
  if secret || String.eqb s "" then Ok ONull else let* t := base64Utf8 s in Ok (OStr t).
Definition payload_of (secret : bool) (s : string) : option (list byte) := if secret || String.eqb s "" then None else Some (encode_utf8 s).
Lemma filter_all p s : str_forall p s = true -> str_filter p s = s.
Proof. induction s as [|c s IH]; [done|]. cbn. intros H. apply andb_true_iff in H as [-> H]. by rewrite IH. Qed.
Lemma payload_reads secret s o field : payload_out secret s = Ok o ->
  jout_ok o /\ decodeBase64 (Some (json_of o)) field = Ok (payload_of secret s).
Proof.
  unfold payload_out, payload_of. destruct (secret || String.eqb s "") eqn:E; [by intros [= <-]|]. intros H.
  apply rbind_ok in H as (t & Ht & [= <-]). split; [done|]. unfold base64Utf8 in Ht. destruct (4096 <? _) eqn:El; [done|]. injection Ht as <-.
  apply orb_false_iff in E as [_ E]. apply String.eqb_neq in E. bool_hyps. cbn [json_of decodeBase64].
  pose proof (btoa_length (encode_utf8 s)) as Hlen.
  assert (Hd : (blen (encode_utf8 s) * 4 + 2) / 3 <= 5462) by (transitivity ((4096 * 4 + 2) / 3); [apply Z.div_le_mono; lia | done]).
  assert (Hne : String.eqb (btoa (encode_utf8 s)) "" = false).
  { apply String.eqb_neq. intros Hb. pose proof (atob_btoa (encode_utf8 s)) as Ha. rewrite Hb in Ha. cbn in Ha. injection Ha as Ha. by destruct s. }
  rewrite Hne, (proj2 (Z.ltb_ge 5464 _)) by lia. unfold platform_atob. rewrite filter_all.
  - rewrite atob_btoa, (proj2 (Z.ltb_ge 4096 _)) by lia. done.
  - eapply str_forall_impl; [|apply btoa_no_space]. intros c Hc. apply negb_true_iff in Hc. apply negb_true_iff.
    destruct c as [[] [] [] [] [] [] [] []]; first [reflexivity | discriminate].
Qed.

(** The same for TCP checks: the worker reads back host, port, transport and payloads byte by
    byte; only a host that is not public makes it refuse. *)
Theorem compiled_tcp_runs input workspaceId key c
  (Hc : compileServiceConfig uuid random input workspaceId key = Ok c)
  (Hk : mi_kind input = "tcp") (Hx : mi_executorKind input = "cloudflare") :
  let stored := parseTcpRequest (json_stringify (OObj (cf_request c))) in
  (assertPublicHostname (mi_hostname input) = Err "blocked_target" /\ stored = Err "blocked_target") \/
  (public_host (mi_hostname input) /\ exists port number,
     mi_port input = Some number /\ num_int number = Some port /\ 1 <= port <= 65535 /\
     stored = Ok (TcpRequest (mi_hostname input) port (mi_useTls input) true
       (payload_of (mi_tcpPayloadIsSecret input) (mi_tcpPayload input)) (payload_of false (mi_tcpResponsePrefix input)))).
Proof.
  intros stored. destruct (compile_parts input workspaceId key c Hc) as (degraded & down & public & secret & references & P).
  pose proof (cp_request _ _ _ _ _ _ _ _ _ P) as H. unfold compileRequest in H. rewrite Hk in H. cbn [String.eqb Ascii.eqb Bool.eqb] in H.
  destruct ((slen _ =? 0) || _) eqn:E; [done|]. apply orb_false_iff in E as [_ E]. apply rbind_ok in H as (port & Hp & H). apply rbind_ok in H as (payload & Hpay & H).
  apply rbind_ok in H as (prefix & Hpre & [= H]). apply boundedNumber_ok in Hp as [Hp Bp].
  destruct (payload_reads (mi_tcpPayloadIsSecret input) (mi_tcpPayload input) payload "tcp_payload" Hpay) as [J1 R1].
  destruct (payload_reads false (mi_tcpResponsePrefix input) prefix "tcp_response_prefix" Hpre) as [J2 R2].
  assert (Hs : safe_z port = true) by (apply small_safe; lia).
  unfold stored, parseTcpRequest. rewrite <- H, json_parse_stringify; cycle 1.
  { split; [apply (bool_decide_unpack _); vm_compute; exact I|]. cbn [foldr snd]. split_and!; try done. by destruct (mi_serverName input). }
  cbn [json_of map fst snd rbind asRecord as_record]. cbn [obj_get String.eqb Ascii.eqb Bool.eqb as_string]. rewrite E.
  destruct (assertPublicHostname (mi_hostname input)) as [[]|e] eqn:Eh; cbn [rbind].
  2:{ left. clear -Eh. revert Eh. unfold assertPublicHostname. cbv zeta. match goal with |- (if ?b then _ else _) = _ -> _ => destruct b end; [|done]. by intros [= <-]. }
  right. split; [done|]. destruct (mi_port input) as [n|] eqn:En; [|injection Hp as <-; lia]. exists port, n. split_and!; try done; try lia.
  unfold as_integer. rewrite num_of_Z_int by done. rewrite (proj2 (Z.ltb_ge port 1)), (proj2 (Z.ltb_ge 65535 port)) by lia. cbn [orb].
  rewrite (cp_sni _ _ _ _ _ _ _ _ _ P Hx Hk). cbn [String.eqb json_of is_nullish negb]. rewrite (cp_tls _ _ _ _ _ _ _ _ _ P Hx).
  rewrite R1, R2. cbn [rbind]. by destruct (mi_useTls input).
Qed.

(** ** Secrets arrive *)

Lemma dedup_from_spec l : forall seen, NoDup (dedup_from seen l) /\ (forall x, x ∈ dedup_from seen l <-> x ∈ l /\ x ∉ seen).
Proof.
  induction l as [|y l IH]; intros seen; cbn [dedup_from]; [split; [constructor | intros x; split; [intros H; by apply elem_of_nil in H | by intros [H _]]]|].
  destruct (str_in y seen) eqn:E.
  - apply str_in_elem in E. destruct (IH seen) as [H1 H2]. split; [done|]. intros x. rewrite H2, elem_of_cons. naive_solver.
  - assert (Hy : y ∉ seen) by (intros H; apply str_in_elem in H; congruence). destruct (IH (y :: seen)) as [H1 H2]. split.
    + apply NoDup_cons. split; [|done]. rewrite H2, elem_of_cons. tauto.
    + intros x. rewrite !elem_of_cons, H2, elem_of_cons. destruct (decide (x = y)) as [->|]; naive_solver.
Qed.
Lemma mapM_res_all {A B} (f : A -> res B) l : (forall x, x ∈ l -> exists y, f x = Ok y) -> exists ys, mapM_res f l = Ok ys /\ Forall2 (fun x y => f x = Ok y) l ys.
Proof.
  intros H. assert (Hys : exists ys, Forall2 (fun x y => f x = Ok y) l ys).
  { induction l as [|x l IH]; [by exists []|]. destruct (H x ltac:(by left)) as [y Hy]. destruct IH as [ys Hys]; [intros z Hz; apply H; by right|].
    exists (y :: ys). by constructor. }
  destruct Hys as [ys Hys]. exists ys. split; [by apply mapM_res_ok | done].
Qed.

Context `{WL : !WebCryptoLaws}.
(** The fresh values: twelve bytes, and identifiers that do not repeat. *)
Context (random_length : forall i, blen (random i) = 12) (uuid_fresh : forall i j, uuid i = uuid j -> i = j).

(** One wrapped secret: it opens to the value of its name. *)
Definition opens (workspaceId key : string) (e : string * string) (s : CheckSecretInsert) : Prop :=
  ci_name s = e.1 /\ 0 < slen (ci_id s) <= 128 /\
  unwrapCheckSecret (MkWrapped (ci_wrappedValue s) (ci_nonce s)) key workspaceId (ci_id s) = Ok e.2.
Lemma wrap_entries_spec workspaceId key entries : forall i l, wrap_entries uuid random i entries workspaceId key = Ok l ->
  Forall2 (opens workspaceId key) entries l /\ map ci_id l = map uuid (seq i (length entries)).
Proof.
  induction entries as [|[name value] rest IH]; intros i l; cbn [wrap_entries]; [by intros [= <-]|]. intros H.
  apply rbind_ok in H as (w & Hw & H). apply rbind_ok in H as (others & Ho & [= <-]). destruct (IH (S i) others Ho) as [IH1 IH2].
  split; [|cbn; by rewrite IH2]. constructor; [|done]. unfold opens. cbn [ci_name ci_id ci_wrappedValue ci_nonce fst snd]. split; [done|].
  destruct w as [ct n]. cbn. pose proof Hw as Hw'. destruct (secrets_and_configs_roundtrip (random i) key workspaceId (uuid i) (random_length i)) as [Hrt _].
  split; [|by apply Hrt]. unfold wrapCheckSecret in Hw'. destruct (_ || _) in Hw'; [done|]. apply rbind_ok in Hw' as (aad & Ha & _).
  unfold associatedData in Ha. destruct (_ || _) eqn:E in Ha; [done|]. apply orb_false_iff in E as [E E4]. apply orb_false_iff in E as [E E3].
  pose proof (slen_nonneg (uuid i)). bool_hyps. lia.
Qed.
Lemma wrapped_ids workspaceId key entries l : wrap_entries uuid random 0 entries workspaceId key = Ok l -> NoDup (map ci_id l).
Proof.
  intros H. apply wrap_entries_spec in H as [_ ->]. apply NoDup_fmap_2; [intros i j; apply uuid_fresh | apply NoDup_ListNoDup, seq_NoDup].
Qed.

(** The names of the secrets are distinct. *)
Lemma secret_names input secret : NoDup (map fst secret) -> NoDup (map fst (secret_values input secret)).
Proof.
  intros H. unfold secret_values. rewrite !map_app, map_map. cbn [fst].
  assert (Hh : forall x, x ∈ map (fun kv : string * string => "header:" ++ kv.1) secret -> starts_with "header:" x = true).
  { intros x Hx. apply list_elem_of_fmap in Hx as (kv & -> & _). apply prefix_app. }
  assert (Hn : NoDup (map (fun kv : string * string => "header:" ++ kv.1) secret)).
  { rewrite <- (map_map fst (fun k => "header:" ++ k)). apply NoDup_fmap_2; [|done]. intros a b E. injection E. done. }
  apply NoDup_app. split_and!; [done | |].
  - intros x Hx Hx'. apply Hh in Hx. apply elem_of_app in Hx' as [Hx'|Hx']; destruct (_ && _); cbn in Hx';
      first [by apply elem_of_nil in Hx' | apply list_elem_of_singleton in Hx' as ->; discriminate].
  - destruct (_ && _), (_ && _); cbn; apply (bool_decide_unpack _); vm_compute; exact I.
Qed.

(** References that lead to their values. *)
Lemma header_references_ok references secret : forall acc,
  (forall kv, kv ∈ secret -> exists id, obj_get ("header:" ++ kv.1) references = Some id /\ id <> "") ->
  Forall (fun kv => kv.1 <> "__proto__") secret -> NoDup (lower_names (acc ++ secret)%list) ->
  exists hs, header_references references secret acc = Ok (acc ++ hs)%list /\
    Forall2 (fun kv h => h.1 = kv.1 /\ obj_get ("header:" ++ kv.1) references = Some h.2) secret hs.
Proof.
  induction secret as [|[name value] rest IH]; intros acc Hr Hp Hn; cbn [header_references].
  - exists []. split; [by rewrite app_nil_r | done].
  - destruct (Hr (name, value) ltac:(by left)) as (id & Hid & Hne). cbn [fst] in *. rewrite Hid. rewrite (proj2 (String.eqb_neq _ _)) by done.
    apply Forall_cons in Hp as [Hp1 Hp]. cbn [fst] in Hp1.
    assert (Hfresh : to_lower name ∉ lower_names acc).
    { unfold lower_names in *. rewrite map_app in Hn. apply NoDup_app in Hn as (_ & Hd & _). intros Hin. apply (Hd _ Hin). by left. }
    rewrite set_own_fresh by done. rewrite (proj2 (String.eqb_neq _ _)) by done.
    destruct (IH (acc ++ [(name, id)])%list) as (hs & E & Hf); [intros kv Hkv; apply Hr; by right | done | |].
    { unfold lower_names in *. rewrite !map_app in *. cbn in *. by rewrite <- app_assoc. }
    exists ((name, id) :: hs). split; [by rewrite E, <- app_assoc | by constructor].
Qed.

Section References.
Context (workspaceId key : string) (values : list (string * string)) (inserts : list CheckSecretInsert).
Hypothesis Hnames : NoDup (map fst values).
Hypothesis Hopens : Forall2 (opens workspaceId key) values inserts.
Let refs := map (fun s => (ci_name s, ci_id s)) inserts.

Lemma refs_names : map fst refs = map fst values.
Proof using Hopens.
  unfold refs. rewrite map_map. cbn. revert Hopens. clear. induction 1 as [|e s l l' [E _] _ IH]; [done|]. cbn. f_equal; [exact E | exact IH].
Qed.
Lemma refs_get k id : obj_get k refs = Some id <-> exists s, s ∈ inserts /\ ci_name s = k /\ ci_id s = id.
Proof using Hopens Hnames.
  rewrite <- obj_get_elem by (by rewrite refs_names). unfold refs. rewrite list_elem_of_fmap. split.
  - intros (s & [= -> ->] & Hs). by exists s.
  - intros (s & Hs & <- & <-). by exists s.
Qed.
Lemma value_opens e : e ∈ values -> exists s, s ∈ inserts /\ opens workspaceId key e s /\ obj_get e.1 refs = Some (ci_id s).
Proof using Hopens Hnames.
  intros He. apply list_elem_of_lookup in He as [i Hi]. destruct (Forall2_lookup_l _ _ _ _ _ Hopens Hi) as (s & Hs & Ho).
  apply list_elem_of_lookup_2 in Hs. exists s. split_and!; [done | done|]. apply refs_get. exists s. split_and!; [done | apply Ho | done].
Qed.
Lemma insert_value s : s ∈ inserts -> exists e, e ∈ values /\ opens workspaceId key e s.
Proof using Hopens.
  intros Hs. apply list_elem_of_lookup in Hs as [i Hi]. destruct (Forall2_lookup_r _ _ _ _ _ Hopens Hi) as (e & He & Ho).
  apply list_elem_of_lookup_2 in He. by exists e.
Qed.

(** The rows that were inserted, among others, open to the values. *)
Context (db : list SecretRow).
Hypothesis Hids : NoDup (map ci_id inserts).
Hypothesis Hkeys : NoDup (map se_id db).
Hypothesis Hstored : forall s, s ∈ inserts -> MkSecret (ci_id s) workspaceId (ci_wrappedValue s) (ci_nonce s) ∈ db.
Lemma stored_plaintext row ids : cc_workspace_id row = workspaceId -> NoDup ids -> (forall id, id ∈ ids <-> id ∈ map ci_id inserts) ->
  let results := List.filter (fun s => String.eqb (se_workspace s) (cc_workspace_id row) && str_in (se_id s) ids) db in
  length results = length ids /\
  exists plaintext, mapM_res (unwrap_row row key) results = Ok plaintext /\
    forall e s, e ∈ values -> s ∈ inserts -> opens workspaceId key e s -> obj_get (ci_id s) plaintext = Some e.2.
Proof using Hopens Hids Hkeys Hstored.
  intros Hrow Hnd Hsame results.
  assert (Hres : forall r, r ∈ results <-> exists s, s ∈ inserts /\ r = MkSecret (ci_id s) workspaceId (ci_wrappedValue s) (ci_nonce s)).
  { intros r. unfold results. rewrite filter_In_elem, andb_true_iff, String.eqb_eq, str_in_elem, Hsame, Hrow. split.
    - intros (Hr & Hw & Hin). apply list_elem_of_fmap in Hin as (s & Es & Hs). exists s. split; [done|].
      apply (keys_unique_inj se_id db); [done | done | by apply Hstored | done].
    - intros (s & Hs & ->). split_and!; [by apply Hstored | done|]. by apply (list_elem_of_fmap_2 ci_id). }
  assert (Hrk : NoDup (map se_id results)).
  { unfold results. revert Hkeys. clear. induction db as [|r l IH]; cbn; [constructor|]. intros [H1 H2]%NoDup_cons. destruct (_ && _); [|by apply IH].
    cbn. apply NoDup_cons. split; [|by apply IH]. intros Hin. apply H1. apply list_elem_of_fmap in Hin as (x & -> & Hx). apply filter_In_elem in Hx as [Hx _].
    by apply (list_elem_of_fmap_2 se_id). }
  split.
  { rewrite <- (length_map se_id results). apply Permutation_length, NoDup_Permutation; [done | done|]. intros id. rewrite Hsame. split.
    - intros Hin. apply list_elem_of_fmap in Hin as (r & -> & Hr). apply Hres in Hr as (s & Hs & ->). by apply (list_elem_of_fmap_2 ci_id).
    - intros Hin. apply list_elem_of_fmap in Hin as (s & -> & Hs).
      apply (list_elem_of_fmap_2 se_id results (MkSecret (ci_id s) workspaceId (ci_wrappedValue s) (ci_nonce s))). apply Hres. by exists s. }
  assert (Hopen : forall r, r ∈ results -> exists text, unwrap_row row key r = Ok (se_id r, text)).
  { intros r Hr. apply Hres in Hr as (s & Hs & ->). destruct (insert_value s Hs) as (e & He & _ & _ & Hu). exists e.2. unfold unwrap_row. cbn [se_wrapped_value se_nonce se_id].
    by rewrite Hrow, Hu. }
  destruct (mapM_res_all (unwrap_row row key) results) as (plaintext & Hp & Hf); [intros r Hr; destruct (Hopen r Hr) as [t Ht]; by eexists|].
  exists plaintext. split; [done|]. intros e s He Hs (_ & _ & Hu).
  assert (Hpk : map fst plaintext = map se_id results).
  { clear -Hf. induction Hf as [|r p l l' H _ IH]; [done|]. cbn. rewrite IH. f_equal. unfold unwrap_row in H. by apply rbind_ok in H as (t & _ & [= <-]). }
  apply obj_get_elem; [by rewrite Hpk|]. assert (Hr : MkSecret (ci_id s) workspaceId (ci_wrappedValue s) (ci_nonce s) ∈ results) by (apply Hres; by exists s).
  apply list_elem_of_lookup in Hr as [i Hi]. destruct (Forall2_lookup_l _ _ _ _ _ Hf Hi) as (p & Hpi & Hpr). apply list_elem_of_lookup_2 in Hpi.
  unfold unwrap_row in Hpr. cbn [se_wrapped_value se_nonce se_id] in Hpr. rewrite Hrow, Hu in Hpr. by injection Hpr as <-.
Qed.
End References.

(** The references of a configuration: where they point, and that they parse as they were. *)
Lemma stored_references_parse r : Forall (fun kv => header_entry_blocked kv.1 = false /\ kv.1 <> "__proto__") (sr_headers r) ->
  NoDup (lower_names (sr_headers r)) -> (length (sr_headers r) <= 32)%nat -> secret_id_bad (sr_body r) = false -> secret_id_bad (sr_tcpPayload r) = false ->
  parseCheckSecretReferences (json_stringify (stored_references r)) = Ok r.
Proof.
  intros Hh Hn Hl Hb Ht. unfold parseCheckSecretReferences. rewrite json_parse_stringify; cycle 1.
  { split; [apply (bool_decide_unpack _); vm_compute; exact I|]. cbn [foldr snd]. split_and!; [by apply obj_json_ok, names_unique_keys | by destruct (sr_body r) | by destruct (sr_tcpPayload r) | done]. }
  rewrite stored_json. cbn [rbind asRecord as_record]. cbn [obj_get String.eqb Ascii.eqb Bool.eqb]. cbn [asRecord as_record rbind].
  rewrite length_map, (proj2 (Z.ltb_ge 32 _)) by lia. rewrite (parse_secret_headers_back (sr_headers r) []) by done. cbn [rbind app].
  assert (Hnull : forall o, nullable_string (Some (json_of (nullable_out o))) = o) by (by intros [x|]).
  rewrite !Hnull, Hb, Ht. by destruct r.
Qed.

Lemma value_names input secret k : k ∈ map fst (secret_values input secret) <->
  (exists kv, kv ∈ secret /\ k = "header:" ++ kv.1) \/
  (k = "body" /\ mi_requestBodyIsSecret input && negb (String.eqb (mi_requestBody input) "") = true) \/
  (k = "tcpPayload" /\ mi_tcpPayloadIsSecret input && negb (String.eqb (mi_tcpPayload input) "") = true).
Proof.
  unfold secret_values. rewrite !map_app, !elem_of_app, map_map. cbn [fst].
  assert (Hopt : forall (b : bool) name (v : string), k ∈ map fst (if b then [(name, v)] else []) <-> k = name /\ b = true).
  { intros [] name v; cbn; [rewrite list_elem_of_singleton; tauto | split; [intros H; by apply elem_of_nil in H | by intros [_ ?]]]. }
  rewrite !Hopt, list_elem_of_fmap. naive_solver.
Qed.

(** The values of a form that the worker is to put into the request, with these secret headers:
    the body and the payload when they are marked secret and not empty.  A secret payload of more
    than 4096 bytes is refused by the worker. *)
Definition entered_secrets (input : CreateServiceMonitorInput) (headers : list (string * string)) : res ResolvedCheckSecrets :=
  let body_secret := mi_requestBodyIsSecret input && negb (String.eqb (mi_requestBody input) "") in
  let payload_secret := mi_tcpPayloadIsSecret input && negb (String.eqb (mi_tcpPayload input) "") in
  throw_if payload_secret && (4096 <? slen (mi_tcpPayload input)) as "secret_payload_too_large" in
  Ok (Resolved headers (if body_secret then Some (mi_requestBody input) else None)
    (if payload_secret then Some (encode_utf8 (mi_tcpPayload input)) else None)).
Section Resolve.
Context (input : CreateServiceMonitorInput) (workspaceId key : string) (secret : list (string * string)) (inserts : list CheckSecretInsert)
  (hs : list (string * string)) (db : list SecretRow) (row : CheckConfigRow).
Let values := secret_values input secret.
Let refs := map (fun s => (ci_name s, ci_id s)) inserts.
Let body_secret := mi_requestBodyIsSecret input && negb (String.eqb (mi_requestBody input) "").
Let payload_secret := mi_tcpPayloadIsSecret input && negb (String.eqb (mi_tcpPayload input) "").
Hypothesis Hsecret : NoDup (map fst secret).
Hypothesis Hopens : Forall2 (opens workspaceId key) values inserts.
Hypothesis Hids : NoDup (map ci_id inserts).
Hypothesis Hhs : Forall2 (fun kv h => h.1 = kv.1 /\ obj_get ("header:" ++ kv.1) refs = Some h.2) secret hs.
Let r := SecretRefs hs (obj_get "body" refs) (obj_get "tcpPayload" refs).

Lemma names_distinct : NoDup (map fst values). Proof using Hsecret. by apply secret_names. Qed.
Lemma resolve_ids id : id ∈ referencedIds r <-> id ∈ map ci_id inserts.
Proof using Hsecret Hopens Hhs.
  pose proof (refs_get workspaceId key values inserts names_distinct Hopens) as Hget. fold refs in Hget.
  unfold referencedIds. rewrite (proj2 (dedup_from_spec _ []) id). cbn [r sr_headers sr_body sr_tcpPayload]. rewrite !elem_of_app. split.
  - assert (Hin : forall k, obj_get k refs = Some id -> id ∈ map ci_id inserts).
    { intros k H. apply Hget in H as (s & Hs & _ & <-). by apply (list_elem_of_fmap_2 ci_id). }
    assert (Hopt : forall k, id ∈ option_list (obj_get k refs) -> id ∈ map ci_id inserts).
    { intros k H. destruct (obj_get k refs) as [x|] eqn:E; [|by apply elem_of_nil in H]. apply list_elem_of_singleton in H as ->. eauto. }
    intros [[H|[H|H]] _]; [|eauto|eauto]. apply list_elem_of_fmap in H as (h & -> & Hh). apply list_elem_of_lookup in Hh as [i Hi].
    destruct (Forall2_lookup_r _ _ _ _ _ Hhs Hi) as (kv & _ & _ & E). eauto.
  - intros H. split; [|apply not_elem_of_nil]. apply list_elem_of_fmap in H as (s & -> & Hs).
    assert (Hg : obj_get (ci_name s) refs = Some (ci_id s)) by (apply Hget; by exists s).
    destruct (insert_value workspaceId key values inserts Hopens s Hs) as (e & He & En & _). apply (list_elem_of_fmap_2 fst) in He.
    rewrite <- En in He. apply value_names in He as [(kv & Hkv & E)|[[E _]|[E _]]]; rewrite E in Hg.
    + left. apply list_elem_of_lookup in Hkv as [i Hi]. destruct (Forall2_lookup_l _ _ _ _ _ Hhs Hi) as (h & Hh & _ & Eh).
      apply list_elem_of_lookup_2 in Hh. assert (ci_id s = h.2) as -> by congruence. by apply (list_elem_of_fmap_2 snd).
    + right. left. rewrite Hg. by left.
    + right. right. rewrite Hg. by left.
Qed.

Hypothesis Hkeys : NoDup (map se_id db).
Hypothesis Hstored : forall s, s ∈ inserts -> MkSecret (ci_id s) workspaceId (ci_wrappedValue s) (ci_nonce s) ∈ db.
Hypothesis Hrow : cc_workspace_id row = workspaceId.
(** A value under its reference, when the form has it. *)
Lemma optional_resolves plaintext (has : bool) name value :
  (forall e s, e ∈ values -> s ∈ inserts -> opens workspaceId key e s -> obj_get (ci_id s) plaintext = Some e.2) ->
  (has = true -> (name, value) ∈ values) -> (name ∈ map fst values -> has = true) ->
  optional_value plaintext (obj_get name refs) = Ok (if has then Some value else None).
Proof using Hsecret Hopens.
  intros Hplain H1 H2. destruct has.
  - destruct (value_opens workspaceId key values inserts names_distinct Hopens (name, value) (H1 eq_refl)) as (s & Hs & Ho & Hg).
    fold refs in Hg. cbn [fst] in Hg. rewrite Hg. cbn [optional_value]. unfold secret_value. by rewrite (Hplain _ s (H1 eq_refl) Hs Ho).
  - destruct (obj_get name refs) as [id|] eqn:E; [|done]. exfalso. apply (refs_get workspaceId key values inserts names_distinct Hopens) in E as (s & Hs & En & _).
    destruct (insert_value workspaceId key values inserts Hopens s Hs) as (e & He & Ee & _). enough (false = true) by done. apply H2.
    apply (list_elem_of_fmap_2 fst) in He. rewrite <- En, Ee. exact He.
Qed.
Lemma headers_resolve plaintext :
  (forall e s, e ∈ values -> s ∈ inserts -> opens workspaceId key e s -> obj_get (ci_id s) plaintext = Some e.2) ->
  mapM_res (header_value plaintext) hs = Ok secret.
Proof using Hsecret Hopens Hhs.
  intros Hplain. apply mapM_res_ok. assert (Hval : forall kv, kv ∈ secret -> exists id, obj_get ("header:" ++ kv.1) refs = Some id /\ obj_get id plaintext = Some kv.2).
  { intros kv Hkv. assert (He : ("header:" ++ kv.1, kv.2) ∈ values).
    { unfold values, secret_values. apply elem_of_app. left. by apply (list_elem_of_fmap_2 (fun kv => ("header:" ++ kv.1, kv.2))). }
    destruct (value_opens workspaceId key values inserts names_distinct Hopens _ He) as (s & Hs & Ho & Hg). exists (ci_id s). split; [exact Hg | by apply (Hplain _ s He Hs Ho)]. }
  revert Hhs Hval. clear. induction 1 as [|kv h l l' [E1 E2] _ IH]; intros Hval; constructor.
  - destruct (Hval kv ltac:(by left)) as (id & Hid & Hp). unfold header_value, secret_value. assert (h.2 = id) as -> by congruence. rewrite Hp. cbn. rewrite E1. by destruct kv.
  - apply IH. intros x Hx. apply Hval. by right.
Qed.
Lemma resolve_values : parseCheckSecretReferences (cc_secret_refs_json row) = Ok r ->
  resolveCheckSecrets db row key = entered_secrets input secret.
Proof using Hsecret Hopens Hids Hhs Hkeys Hstored Hrow.
  intros Hparse. unfold resolveCheckSecrets. rewrite Hparse. cbn [rbind]. cbv zeta.
  destruct (stored_plaintext workspaceId key values inserts Hopens db Hids Hkeys Hstored row (referencedIds r) Hrow) as (Hlen & plaintext & Hp & Hplain);
    [by apply dedup_from_spec | exact resolve_ids|].
  destruct (Nat.eqb_spec (length (referencedIds r)) 0) as [E0|_].
  - assert (Hi : inserts = []).
    { apply length_zero_iff_nil in E0. assert (Hno : forall id, id ∉ map ci_id inserts) by (intros id Hin; apply resolve_ids in Hin; rewrite E0 in Hin; by apply elem_of_nil in Hin).
      clear -Hno. destruct inserts as [|s l]; [done|]. destruct (Hno (ci_id s)). by left. }
    assert (Hv : values = []) by (pose proof (Forall2_length _ _ _ Hopens) as Hl; rewrite Hi in Hl; by destruct values).
    unfold values, secret_values in Hv. apply app_eq_nil in Hv as [Hv1 Hv]. apply app_eq_nil in Hv as [Hv2 Hv3].
    fold body_secret in Hv2. fold payload_secret in Hv3. assert (secret = []) as -> by (by destruct secret). unfold entered_secrets. fold body_secret payload_secret. destruct body_secret, payload_secret; done.
  - rewrite Hlen, Nat.eqb_refl. cbn [negb]. rewrite Hp. cbn [rbind r sr_headers sr_body sr_tcpPayload]. rewrite (headers_resolve plaintext Hplain). cbn [rbind].
    assert (Hopt : forall (b : bool) (name v k : string), k = name -> b = true -> (k, v) ∈ (if b then [(name, v)] else [])) by (intros b name v k -> ->; by left).
    rewrite (optional_resolves plaintext body_secret "body" (mi_requestBody input) Hplain); cycle 1.
    { intros Hb. unfold values, secret_values. rewrite !elem_of_app. right. left. by apply Hopt. }
    { intros Hin. apply value_names in Hin as [(kv & _ & E)|[[_ E]|[E _]]]; done. }
    rewrite (optional_resolves plaintext payload_secret "tcpPayload" (mi_tcpPayload input) Hplain); cycle 1.
    { intros Hb. unfold values, secret_values. rewrite !elem_of_app. right. right. by apply Hopt. }
    { intros Hin. apply value_names in Hin as [(kv & _ & E)|[[E _]|[_ E]]]; done. }
    unfold entered_secrets. fold body_secret payload_secret. cbn [rbind]. destruct payload_secret; cbn [fmap option_fmap option_map andb]; [|done]. by rewrite blen_encode_utf8.
Qed.
End Resolve.

(** Secrets reach the check they were entered for.  When the rows the compiler made are stored in
    the workspace, whatever else is in the table, the worker that reads the stored references
    resolves them to exactly the secret headers, body and payload of the form, unless it finds the
    payload too large ([entered_secrets]); with another workspace or another key it would not open them at all ([resolveCheckSecrets_scoped]). *)
Lemma wrapped_secrets_resolve input workspaceId key c db row
  (Hc : compileServiceConfig uuid random input workspaceId key = Ok c)
  (Hkeys : keys_unique se_id db)
  (Hstored : forall s, s ∈ cf_secrets c -> MkSecret (ci_id s) workspaceId (ci_wrappedValue s) (ci_nonce s) ∈ db)
  (Hrow : cc_workspace_id row = workspaceId) (Hrefs : cc_secret_refs_json row = json_stringify (stored_references (cf_secretRefs c))) :
  exists headers, parseHeaderLines (mi_secretRequestHeaders input) = Ok headers /\
    resolveCheckSecrets db row key = entered_secrets input headers.
Proof using random_length uuid_fresh WL.
  destruct (compile_parts input workspaceId key c Hc) as (degraded & down & public & secret & references & P).
  pose proof (cp_secret _ _ _ _ _ _ _ _ _ P) as Hsec. destruct (parseHeaderLines_ok _ _ Hsec) as (Hsend & Hlow & Hlen).
  exists secret. split; [done|]. pose proof (cp_wrapped _ _ _ _ _ _ _ _ _ P) as Hw. unfold wrapSecrets in Hw. apply rbind_ok in Hw as (inserts & Hw & [= Er Ei]). subst inserts.
  destruct (wrap_entries_spec _ _ _ _ _ Hw) as [Hopens _]. pose proof (wrapped_ids _ _ _ _ Hw) as Hids.
  pose proof (secret_names input secret (names_unique_keys _ Hlow)) as Hnames. rename P into Hparts.
  set (values := secret_values input secret) in *. set (inserts := cf_secrets c) in *.
  pose proof (value_opens workspaceId key values inserts Hnames Hopens) as Hval. rewrite Er in Hval.
  pose proof (refs_get workspaceId key values inserts Hnames Hopens) as Hget. rewrite Er in Hget.
  destruct (header_references_ok references secret []) as (hs & Ehs & Hhs).
  { intros kv Hkv. destruct (Hval ("header:" ++ kv.1, kv.2)) as (s & _ & (_ & Hl & _) & Hg); [unfold values, secret_values; apply elem_of_app; left;
      apply (list_elem_of_fmap_2 (fun kv => ("header:" ++ kv.1, kv.2)) secret kv Hkv)|].
    exists (ci_id s). split; [done|]. intros E. rewrite E in Hl. change (slen "") with 0 in Hl. lia. }
  { eapply Forall_impl; [exact Hsend|]. by intros kv (_ & _ & ? & _). }
  { done. }
  destruct (cp_references _ _ _ _ _ _ _ _ _ Hparts) as (hs' & Ehs' & Erefs). rewrite Ehs in Ehs'. injection Ehs' as <-. cbn [app] in *.
  assert (Hhn : map fst hs = map fst secret) by (clear -Hhs; induction Hhs as [|kv h l l' [E _] _ IH]; [done | cbn; by rewrite E, IH]).
  assert (Hlown : lower_names hs = lower_names secret) by (unfold lower_names; by rewrite <- !(map_map fst to_lower), Hhn).
  assert (Hbad : forall k, secret_id_bad (obj_get k references) = false).
  { intros k. destruct (obj_get k references) as [id|] eqn:E; [|done]. apply Hget in E as (s & Hs & _ & <-).
    destruct (insert_value workspaceId key values inserts Hopens s Hs) as (e & _ & _ & Hl & _). unfold secret_id_bad. rewrite (proj2 (Z.eqb_neq _ _)), (proj2 (Z.ltb_ge _ _)) by lia. done. }
  assert (Hparse : parseCheckSecretReferences (cc_secret_refs_json row) = Ok (cf_secretRefs c)).
  { rewrite Hrefs. apply stored_references_parse; rewrite Erefs; cbn [sr_headers sr_body sr_tcpPayload]; try apply Hbad.
    - apply Forall_forall. intros h Hh. apply list_elem_of_lookup in Hh as [i Hi]. destruct (Forall2_lookup_r _ _ _ _ _ Hhs Hi) as (kv & Hkv & E & _).
      apply list_elem_of_lookup_2 in Hkv. rewrite Forall_forall in Hsend. destruct (Hsend kv Hkv) as (F1 & _ & F2 & _). by rewrite E.
    - by rewrite Hlown.
    - by rewrite <- (length_map fst hs), Hhn, length_map. }
  rewrite Erefs, <- Er in Hparse. rewrite <- Er in Hhs.
  by apply (resolve_values input workspaceId key secret inserts hs db row (names_unique_keys _ Hlow) Hopens Hids Hhs Hkeys Hstored Hrow).
Qed.
End Runs.

(** ** A recorded form *)

Definition sc_uuid (i : nat) : string := "secret-" ++ z_to_string (Z.of_nat i).
Definition sc_random (i : nat) : list byte := repeat (byte_of_Z (Z.of_nat i)) 12.
Definition sc_key : string := "0123456789abcdef0123456789abcdef0123456789abcdef0123456789abcdef".
Definition sc_form (kind : string) : CreateServiceMonitorInput :=
  MonitorInput "Shop" "" kind "cloudflare" "" (num_of_Z 60) (num_of_Z 5000) (num_of_Z 1) true (num_of_Z 2) (num_of_Z 2)
    "https://shop.example/health" "GET" "200, 204" (num_of_Z 3) true (Some (num_of_Z 500)) None (num_of_Z 65536)
    "Accept: */*" "Authorization: Bearer x" "" false "shop.example" "" (Some (num_of_Z 443)) true "PING" true "PONG"
    [AssertionInput "jsonpath" "greater_than" "$.rate" "0.1" "degraded"; AssertionInput "body" "equals" "" (json_stringify (OObj [("ok", OBool true)])) "down"].
Definition sc_compiled (kind : string) : res CompiledServiceConfig := compileServiceConfig sc_uuid sc_random (sc_form kind) "w" sc_key.
Definition sc_checked (kind : string) : bool :=
  match sc_compiled kind with
  | Ok c => forallb (fun a => numbers_read_back (ca_expected a)) (cf_assertions c) && bool_decide (NoDup (map ci_id (cf_secrets c)))
  | Err _ => false
  end.
Lemma sc_compiles kind : sc_checked kind = true -> exists c, sc_compiled kind = Ok c /\
  forallb (fun a => numbers_read_back (ca_expected a)) (cf_assertions c) = true /\ NoDup (map ci_id (cf_secrets c)).
Proof.
  unfold sc_checked. destruct (sc_compiled kind) as [c|e]; [|done]. intros H. apply andb_true_iff in H as [H1 H2]. exists c.
  split_and!; [done | done | by apply bool_decide_eq_true in H2].
Qed.

Example compiled_check_runs_witness :
  exists c r, sc_compiled "http" = Ok c /\ parseHttpRequest (json_stringify (OObj (cf_request c))) = Ok r /\
    h_url r = "https://shop.example/health" /\ parseHeaderLines "Accept: */*" = Ok (h_headers r).
Proof.
  destruct (sc_compiles "http") as (c & Hc & Hn & _); [vm_compute; reflexivity|].
  destruct (compiled_check_runs sc_uuid sc_random (sc_form "http") "w" sc_key c Hc eq_refl eq_refl Hn) as (u & Hu & [[H _]|[[H _]|(_ & r & Hr & [Hurl _ Hhs _ _ _ _ _ _ _ _ _])]]).
  - intros u Hu. cbn in Hu. injection Hu as <-. vm_compute. reflexivity.
  - cbn in Hu. injection Hu as <-. vm_compute in H. discriminate.
  - cbn in Hu. injection Hu as <-. vm_compute in H. discriminate.
  - exists c, r. split; [exact Hc|]. split; [exact Hr|]. split; [|exact Hhs]. rewrite Hurl. cbn in Hu. injection Hu as <-. reflexivity.
Defined.
Example compiled_tcp_runs_witness :
  exists c r, sc_compiled "tcp" = Ok c /\ parseTcpRequest (json_stringify (OObj (cf_request c))) = Ok r /\
    t_port r = 443 /\ t_payload r = None /\ t_responsePrefix r = Some (encode_utf8 "PONG").
Proof.
  destruct (sc_compiles "tcp") as (c & Hc & _); [vm_compute; reflexivity|].
  destruct (compiled_tcp_runs sc_uuid sc_random (sc_form "tcp") "w" sc_key c Hc eq_refl eq_refl) as [[H _]|(_ & port & n & Hp & Hn & _ & Hs)].
  - vm_compute in H. discriminate.
  - exists c. eexists. split; [exact Hc|]. split; [exact Hs|]. cbn in Hp. injection Hp as <-. vm_compute in Hn. injection Hn as <-.
    split; [reflexivity|]. split; reflexivity.
Defined.
Definition sc_row (c : CompiledServiceConfig) : CheckConfigRow :=
  CheckConfig "check" 1 1 "w" 1 None 1 KTcp 60 0 5000 1 1 "" (json_stringify (stored_references (cf_secretRefs c))) 2 2 0.
Lemma sc_uuid_fresh i j : sc_uuid i = sc_uuid j -> i = j.
Proof. intros H. unfold sc_uuid in H. injection H as H. apply z_to_string_inj in H. lia. Qed.
Lemma sc_random_length i : blen (sc_random i) = 12.
Proof. unfold blen, sc_random. by rewrite repeat_length. Qed.
