(* ===== verification/Interleave.v ===== *)
(** * Interleave: actions whose database accesses interleave

    A server action is a sequence of accesses to a database (a query, a statement, a batch), each
    of them atomic, with the accesses of other requests in between.  [prog S A] is such an action:
    it is done, with a result or an error it throws, or it makes one access and goes on.  What it
    wrote before an error stays.

    [safe R G P p Q J] is an action's contract in the manner of rely and guarantee: while the
    others only move the database along [R], every access of the action moves it along [G]; from
    [P], a result has [Q] and a failure leaves [J].  The rules follow the structure of the program.
    [pool_steps] runs any number of actions, one access of one of them at a time, and
    [pool_guarantees] puts their contracts together. *)

From Stdlib Require Import ZArith Lia Bool String List.
From stdpp Require Import base tactics list relations.
From S2P Require Import Prelude.
Open Scope string_scope.
Open Scope Z_scope.

Inductive prog (S A : Type) : Type :=
| pdone (r : res A)
| paccess (f : S -> S * prog S A).
Arguments pdone {S A} r.
Arguments paccess {S A} f.

Section Programs.
Context {S : Type}.

Lemma prog_ind' {A} (P : prog S A -> Prop) (Hd : forall r, P (pdone r)) (Ha : forall f, (forall s, P (f s).2) -> P (paccess f)) p : P p.
Proof.
  revert p. fix IH 1. intros [r|f]; [apply Hd|]. apply Ha. intros s. destruct (f s) as [s' q]. apply IH.
Qed.

Definition pret {A} (a : A) : prog S A := pdone (Ok a).
Definition plift {A} (r : res A) : prog S A := pdone r.
Fixpoint pbind {A B} (p : prog S A) (k : A -> prog S B) : prog S B :=
  match p with
  | pdone (Ok a) => k a
  | pdone (Err e) => pdone (Err e)
  | paccess f => paccess (fun s => let '(s', q) := f s in (s', pbind q k))
  end.
(** [try { p } catch (cause) { h(cause) }] *)
Fixpoint pcatch {A} (p : prog S A) (h : string -> prog S A) : prog S A :=
  match p with
  | pdone (Ok a) => pdone (Ok a)
  | pdone (Err e) => h e
  | paccess f => paccess (fun s => let '(s', q) := f s in (s', pcatch q h))
  end.
(** The outcome as a value: [Promise.allSettled]. *)
Fixpoint settle {A} (p : prog S A) : prog S (res A) :=
  match p with
  | pdone r => pdone (Ok r)
  | paccess f => paccess (fun s => let '(s', q) := f s in (s', settle q))
  end.
Definition ask {A} (f : S -> res A) : prog S A := paccess (fun s => (s, pdone (f s))).
(** A statement that throws changes nothing. *)
Definition write {A} (f : S -> res (S * A)) : prog S A :=
  paccess (fun s => match f s with Ok (s', a) => (s', pdone (Ok a)) | Err e => (s, pdone (Err e)) end).

(** A run in which the others make one move before each access, as long as there are moves. *)
Fixpoint run {A} (moves : list (S -> S)) (p : prog S A) (s : S) {struct p} : res A * S :=
  match p with
  | pdone r => (r, s)
  | paccess f =>
      let '(moves, s) := match moves with [] => ([], s) | g :: moves => (moves, g s) end in
      let '(s', q) := f s in run moves q s'
  end.
Definition alone {A} (p : prog S A) (s : S) : res A * S := run [] p s.

(** ** Contracts *)

Section Contracts.
(** What the others may do, and what the action does. *)
Context (R G : S -> S -> Prop) `{!PreOrder R} `{!Reflexive G}.
Definition stable (P : S -> Prop) : Prop := forall s s', P s -> R s s' -> P s'.
Fixpoint ok {A} (p : prog S A) (post : res A -> S -> Prop) (s : S) : Prop :=
  match p with
  | pdone r => post r s
  | paccess f => forall s', R s s' -> let '(s2, q) := f s' in G s' s2 /\ ok q post s2
  end.
Definition safe {A} (P : S -> Prop) (p : prog S A) (Q : A -> S -> Prop) (J : S -> Prop) : Prop :=
  forall s, P s -> ok p (fun r s => match r with Ok a => Q a s | Err _ => J s end) s.

Lemma ok_mono {A} (p : prog S A) (post post' : res A -> S -> Prop) : (forall r s, post r s -> post' r s) -> forall s, ok p post s -> ok p post' s.
Proof.
  intros H. induction p as [r|f IH] using prog_ind'; intros s; [apply H|]. cbn [ok]. intros Hs s' HR. specialize (Hs s' HR). specialize (IH s').
  destruct (f s') as [s2 q]. destruct Hs as [HG Hs]. split; [done | by apply IH].
Qed.
Lemma ok_bind {A B} (p : prog S A) (k : A -> prog S B) post : forall s,
  ok p (fun r s => match r with Ok a => ok (k a) post s | Err e => post (Err e) s end) s -> ok (pbind p k) post s.
Proof.
  induction p as [[a|e]|f IH] using prog_ind'; intros s; [done | done|]. cbn [ok pbind]. intros Hs s' HR. specialize (Hs s' HR). specialize (IH s').
  destruct (f s') as [s2 q]. destruct Hs as [HG Hs]. split; [done | by apply IH].
Qed.
Lemma ok_catch {A} (p : prog S A) h post : forall s,
  ok p (fun r s => match r with Ok a => post (Ok a) s | Err e => ok (h e) post s end) s -> ok (pcatch p h) post s.
Proof.
  induction p as [[a|e]|f IH] using prog_ind'; intros s; [done | done|]. cbn [ok pcatch]. intros Hs s' HR. specialize (Hs s' HR). specialize (IH s').
  destruct (f s') as [s2 q]. destruct Hs as [HG Hs]. split; [done | by apply IH].
Qed.
Lemma ok_settle {A} (p : prog S A) post : forall s, ok p (fun r s => post (Ok r) s) s -> ok (settle p) post s.
Proof.
  induction p as [r|f IH] using prog_ind'; intros s; [done|]. cbn [ok settle]. intros Hs s' HR. specialize (Hs s' HR). specialize (IH s').
  destruct (f s') as [s2 q]. destruct Hs as [HG Hs]. split; [done | by apply IH].
Qed.

Lemma safe_weaken {A} (P P' : S -> Prop) (p : prog S A) (Q Q' : A -> S -> Prop) (J J' : S -> Prop) :
  safe P' p Q' J' -> (forall s, P s -> P' s) -> (forall a s, Q' a s -> Q a s) -> (forall s, J' s -> J s) -> safe P p Q J.
Proof. intros Hp HP HQ HJ s Hs. eapply ok_mono; [|by apply Hp, HP]. intros [a|e] s'; auto. Qed.
Lemma safe_bind {A B} P (p : prog S A) (k : A -> prog S B) M Q J :
  safe P p M J -> (forall a, safe (M a) (k a) Q J) -> safe P (pbind p k) Q J.
Proof. intros Hp Hk s Hs. apply ok_bind. eapply ok_mono; [|by apply Hp]. intros [a|e] s' H; [by apply Hk | done]. Qed.
Lemma safe_ret {A} (P : S -> Prop) (a : A) (Q : A -> S -> Prop) J : (forall s, P s -> Q a s) -> safe P (pret a) Q J.
Proof. intros HQ s Hs. by apply HQ. Qed.
Lemma safe_lift {A} (P : S -> Prop) (r : res A) (J : S -> Prop) : (forall s, P s -> J s) ->
  safe P (plift r) (fun a s => P s /\ r = Ok a) J.
Proof. intros HJ s Hs. cbn. destruct r; auto. Qed.
Lemma safe_refuse (P : S -> Prop) (b : bool) e (J : S -> Prop) : (forall s, P s -> J s) ->
  safe P (plift (if b then Err e else Ok tt)) (fun _ s => P s /\ b = false) J.
Proof. intros HJ s Hs. cbn. destruct b; auto. Qed.
Lemma safe_catch {A} P (p : prog S A) h Q J K : safe P p Q K -> (forall e, safe K (h e) Q J) -> safe P (pcatch p h) Q J.
Proof. intros Hp Hh s Hs. apply ok_catch. eapply ok_mono; [|by apply Hp]. intros [a|e] s' H; [done | by apply Hh]. Qed.
Lemma safe_settle {A} (P : S -> Prop) (p : prog S A) (Q : S -> Prop) J : safe P p (fun _ => Q) Q -> safe P (settle p) (fun _ => Q) J.
Proof. intros Hp s Hs. apply ok_settle. eapply ok_mono; [|by apply Hp]. by intros [a|e] s' H. Qed.
Lemma safe_write {A} P (f : S -> res (S * A)) Q J : stable P ->
  (forall s, P s -> match f s with Ok (s', a) => G s s' /\ Q a s' | Err _ => J s end) -> safe P (write f) Q J.
Proof.
  intros HP HQ s Hs. cbn. intros s' HR. specialize (HQ s' (HP s s' Hs HR)). destruct (f s') as [[s2 a]|e]; [done|]. split; [reflexivity | done].
Qed.
(** A query: afterwards the answer is known to have been true in a state that led here. *)
Definition seen {A} (f : S -> res A) (a : A) (P : S -> Prop) (s : S) : Prop := P s /\ exists s0, P s0 /\ R s0 s /\ f s0 = Ok a.
Lemma safe_ask {A} (P : S -> Prop) (f : S -> res A) J : stable P -> (forall s, P s -> J s) ->
  safe P (ask f) (fun a => seen f a P) J.
Proof.
  intros HP HJ s Hs. cbn. intros s' HR. apply (HP s) in HR; [|done]. split; [reflexivity|]. destruct (f s') eqn:E; [|by apply HJ]. split; [done|].
  exists s'. split_and!; [done | reflexivity | done].
Qed.
Lemma stable_seen {A} (f : S -> res A) a P : stable P -> stable (seen f a P).
Proof. intros HP s s' [Hs (s0 & H0 & HR & E)] Hss'. split; [by apply (HP s)|]. exists s0. split_and!; [done | by transitivity s | done]. Qed.
Lemma stable_and P (b : Prop) : stable P -> stable (fun s => P s /\ b).
Proof. intros HP s s' [Hs Hb] HR. split; [by apply (HP s) | done]. Qed.
(** Any number of moves of the others in between. *)
Lemma safe_run {A} P (p : prog S A) (J : S -> Prop) : safe P p (fun _ => J) J -> forall moves s, Forall (fun g => forall s, R s (g s)) moves -> P s ->
  J (run moves p s).2.
Proof.
  intros Hp moves s Ho Hs. specialize (Hp s Hs). clear P Hs. revert moves s Ho Hp.
  induction p as [[a|e]|f IH] using prog_ind'; intros moves s Ho Hp; [done | done|]. cbn [run ok] in *.
  assert (H : exists s1 rest, match moves with [] => ([], s) | g :: moves => (moves, g s) end = (rest, s1) /\ R s s1 /\ Forall (fun g => forall s, R s (g s)) rest).
  { destruct moves as [|g moves]; [by exists s, []|]. apply Forall_cons in Ho as [Hg Ho]. by exists (g s), moves. }
  destruct H as (s1 & rest & -> & HR & Ho'). specialize (Hp s1 HR). specialize (IH s1). destruct (f s1) as [s2 q]. apply IH; [done | apply Hp].
Qed.
End Contracts.

(** ** Many actions *)

(** One access of one action, or a move of the rest of the world. *)
Inductive pool_step {A} (world : S -> S -> Prop) : list (prog S A) * S -> list (prog S A) * S -> Prop :=
| step_action ts i f s s' q : ts !! i = Some (paccess f) -> f s = (s', q) -> pool_step world (ts, s) (<[i := q]> ts, s')
| step_world ts s s' : world s s' -> pool_step world (ts, s) (ts, s').
Definition pool_steps {A} world := rtc (@pool_step A world).

(** The run in which the actions take turns as [choices] says. *)
Fixpoint schedule {A} (choices : list nat) (c : list (prog S A) * S) : list (prog S A) * S :=
  match choices with
  | [] => c
  | i :: choices =>
      match c.1 !! i with
      | Some (paccess f) => let '(s, q) := f c.2 in schedule choices (<[i := q]> c.1, s)
      | _ => schedule choices c
      end
  end.
Lemma schedule_steps {A} world choices : forall c : list (prog S A) * S, pool_steps world c (schedule choices c).
Proof.
  induction choices as [|i choices IH]; intros [ts s]; cbn [schedule fst snd]; [done|].
  destruct (ts !! i) as [[r|f]|] eqn:E; [apply IH | | apply IH]. destruct (f s) as [s' q] eqn:Ef. eapply rtc_l; [by eapply step_action | apply IH].
Qed.

Section Pool.
Context {A : Type} (world : S -> S -> Prop) (R G : nat -> S -> S -> Prop) (R_preorder : forall i, PreOrder (R i)).
Local Existing Instance R_preorder.
Hypothesis world_rely : forall i s s', world s s' -> R i s s'.
Hypothesis guarantee_rely : forall i j s s', i <> j -> G j s s' -> R i s s'.
(** Every action is inside its contract, from a state that led to this one. *)
Definition pool_ok (ts : list (prog S A)) (s : S) : Prop :=
  forall i p, ts !! i = Some p -> exists s0 post, R i s0 s /\ ok (R i) (G i) p post s0.
Lemma pool_step_ok ts s ts' s' : pool_step world (ts, s) (ts', s') -> pool_ok ts s -> pool_ok ts' s' /\ (world s s' \/ exists i, G i s s').
Proof using All.
  intros H Hok. inversion H as [ts0 i f s0 s1 q Hi Hf | ts0 s0 s1 Hw]; subst.
  - destruct (Hok i _ Hi) as (s0 & post & HR & Hp). cbn [ok] in Hp. specialize (Hp s HR). rewrite Hf in Hp. destruct Hp as [HG Hq].
    split; [|right; by exists i]. intros j p Hj. destruct (decide (j = i)) as [->|Hne].
    + rewrite list_lookup_insert_eq in Hj by (by eapply lookup_lt_Some). injection Hj as <-. by exists s', post.
    + rewrite list_lookup_insert_ne in Hj by done. destruct (Hok j p Hj) as (t & post' & HR' & Hp'). exists t, post'. split; [|done].
      transitivity s; [done|]. by apply (guarantee_rely j i).
  - split; [|by left]. intros j p Hj. destruct (Hok j p Hj) as (t & post' & HR' & Hp'). exists t, post'. split; [|done].
    transitivity s; [done | by apply world_rely].
Qed.
Theorem pool_guarantees (I : S -> Prop) ts s ts' s' : (forall s s', world s s' -> I s -> I s') -> (forall i s s', G i s s' -> I s -> I s') ->
  pool_ok ts s -> pool_steps world (ts, s) (ts', s') -> I s -> I s'.
Proof using All.
  intros Hw HG Hok Hsteps. remember (ts, s) as c eqn:Ec. remember (ts', s') as c' eqn:Ec'. revert ts s Ec Hok.
  induction Hsteps as [c|c [ts1 s1] c2 Hstep Hsteps IH]; intros ts s Ec Hok HI; [congruence|]. subst c.
  destruct (pool_step_ok ts s ts1 s1 Hstep Hok) as [Hok1 [H|[i H]]]; apply (IH Ec' ts1 s1); eauto.
Qed.
End Pool.
End Programs.

(** [const x = await p; k] *)
Notation "'do' x '<-' p 'in' k" := (pbind p (fun x => k)) (at level 10, x name, p at level 100, k at level 200) : js_scope.
Notation "'do' ' x '<-' p 'in' k" := (pbind p (fun x => k)) (at level 10, x pattern, p at level 100, k at level 200) : js_scope.
(** [if (b) throw error(e)] between accesses *)
Notation "'refuse_if' b 'as' e 'in' k" := (pbind (plift (if b then Err e else Ok tt)) (fun _ => k))
  (at level 10, b at level 100, e at level 100, k at level 200) : js_scope.

#[export] Hint Resolve stable_seen stable_and : alphaping.
