(* ===== verification/ConfigTables.v ===== *)
(** * ConfigTables: the tables the service configuration writes, and its statements

    Rows of the control database as [apps/web/src/lib/server/service-config.ts] reads and writes
    them, with the constraints of the migrations that a statement can run into: primary keys, the
    [UNIQUE] columns, the [CHECK]s of [check_configs], its [NOT NULL] assignment revision and the
    reference to an agent.  A statement maps the database and the [changes()] of the statement
    before it to the new database and its own [changes()]; a batch runs its statements in one
    transaction, which a failing statement undoes. *)

From Stdlib Require Import ZArith Lia Bool String List.
From stdpp Require Import base tactics list strings.
From S2P Require Import Prelude.
From S2P Require Import Js.
From S2P Require Import Sql.
From S2P Require Import CheckPersistence.
From S2P Require Import Authz.
From S2P Require Import ControlTables.
From S2P Require Import Envelopes.
From S2P Require Import ServiceStateSync.
From S2P Require Import ControlPlane.
Open Scope string_scope.
Open Scope Z_scope.

(** ** Rows *)

(** [services] *)
Record config_service := ConfigService {
  sm_id : string;
  sm_pk : Z;
  sm_workspace : string;
  sm_name : string;
  sm_slug : string;
  sm_description : string;
  sm_rule : string;
  sm_maintenance : option Z;
  sm_created : Z;
  sm_updated : Z;
  sm_deleted : option Z;
}.
Inductive config_kind := kind_http | kind_tcp | kind_icmp.
#[export] Instance config_kind_eq_dec : EqDecision config_kind. Proof. solve_decision. Defined.
(** [check_configs] *)
Record check_config := CheckConf {
  kf_id : string;
  kf_pk : Z;
  kf_workspace : string;
  kf_service : string;
  kf_name : string;
  kf_kind : config_kind;
  kf_executor : executor_kind;
  kf_agent : option string;
  kf_assignment : Z;
  kf_enabled : Z;
  kf_interval : Z;
  kf_phase : Z;
  kf_timeout : Z;
  kf_retry : Z;
  kf_critical : Z;
  kf_request : string;
  kf_secret_refs : string;
  kf_failure : Z;
  kf_recovery : Z;
  kf_bytes : Z;
  kf_revision : Z;
  kf_claimed : Z;
  kf_created : Z;
  kf_updated : Z;
}.
(** [agents]; [xa_active] is [status = 'active']. *)
Record config_agent := ConfigAgent { xa_id : string; xa_machine : string; xa_workspace : string; xa_active : bool }.
(** [machines] *)
Record config_machine := ConfigMachine {
  xm_id : string;
  xm_workspace : string;
  xm_name : string;
  xm_revision : Z;
  xm_updated : Z;
  xm_deleted : option Z;
}.
(** [check_assertions] *)
Record assertion_row := AssertionRow {
  an_id : string;
  an_check : string;
  an_order : Z;
  an_source : string;
  an_operator : string;
  an_selector : option string;
  an_expected : string;
  an_severity : string;
  an_created : Z;
}.
(** [check_secrets]; the wrapping key id is always [v1]. *)
Record config_secret := ConfigSecret { ks_row : Envelopes.SecretRow; ks_name : string; ks_created : Z }.
Definition ks_id (s : config_secret) : string := se_id (ks_row s).
(** [dashboard_resources], [resource_public_policies] and [dashboards]. *)
Record dashboard_resource := DashboardResource { dr_dashboard : string; dr_type : ResourceType; dr_resource : string; dr_order : Z; dr_override : string }.
Record public_policy := PublicPolicy { pp_workspace : string; pp_type : ResourceType; pp_resource : string; pp_effect : string; pp_profile : string; pp_updated : Z }.
Record dashboard_row := DashboardRow { db_id : string; db_workspace : string; db_visibility : string; db_updated : Z }.
Definition dashboard_resource_key (r : dashboard_resource) : string * ResourceType * string := (dr_dashboard r, dr_type r, dr_resource r).
Definition public_policy_key (r : public_policy) : string * ResourceType * string := (pp_workspace r, pp_type r, pp_resource r).

(** The database; [cd_sequences] holds the two rows of [telemetry_resource_sequences], and
    [cd_telemetry] is the telemetry database. *)
Record config_db := ConfigDb {
  cd_workspaces : list workspace_row;
  cd_memberships : list membership;
  cd_grants : list grant_row;
  cd_incident_resources : list incident_resource;
  cd_sequences : list (string * Z);
  cd_services : list config_service;
  cd_checks : list check_config;
  cd_machines : list config_machine;
  cd_agents : list config_agent;
  cd_assertions : list assertion_row;
  cd_secrets : list config_secret;
  cd_dashboards : list dashboard_row;
  cd_resources : list dashboard_resource;
  cd_policies : list public_policy;
  cd_jobs : list ServiceStateSyncJob;
  cd_audits : list audit_row;
  cd_telemetry : telemetry_db;
}.
Definition with_sequences v (d : config_db) : config_db :=
  ConfigDb (cd_workspaces d) (cd_memberships d) (cd_grants d) (cd_incident_resources d) v (cd_services d)
    (cd_checks d) (cd_machines d) (cd_agents d) (cd_assertions d) (cd_secrets d) (cd_dashboards d) (cd_resources d)
    (cd_policies d) (cd_jobs d) (cd_audits d) (cd_telemetry d).
Definition with_services v (d : config_db) : config_db :=
  ConfigDb (cd_workspaces d) (cd_memberships d) (cd_grants d) (cd_incident_resources d) (cd_sequences d) v
    (cd_checks d) (cd_machines d) (cd_agents d) (cd_assertions d) (cd_secrets d) (cd_dashboards d) (cd_resources d)
    (cd_policies d) (cd_jobs d) (cd_audits d) (cd_telemetry d).
Definition with_checks v (d : config_db) : config_db :=
  ConfigDb (cd_workspaces d) (cd_memberships d) (cd_grants d) (cd_incident_resources d) (cd_sequences d)
    (cd_services d) v (cd_machines d) (cd_agents d) (cd_assertions d) (cd_secrets d) (cd_dashboards d)
    (cd_resources d) (cd_policies d) (cd_jobs d) (cd_audits d) (cd_telemetry d).
Definition with_machines v (d : config_db) : config_db :=
  ConfigDb (cd_workspaces d) (cd_memberships d) (cd_grants d) (cd_incident_resources d) (cd_sequences d)
    (cd_services d) (cd_checks d) v (cd_agents d) (cd_assertions d) (cd_secrets d) (cd_dashboards d)
    (cd_resources d) (cd_policies d) (cd_jobs d) (cd_audits d) (cd_telemetry d).
Definition with_assertions v (d : config_db) : config_db :=
  ConfigDb (cd_workspaces d) (cd_memberships d) (cd_grants d) (cd_incident_resources d) (cd_sequences d)
    (cd_services d) (cd_checks d) (cd_machines d) (cd_agents d) v (cd_secrets d) (cd_dashboards d) (cd_resources d)
    (cd_policies d) (cd_jobs d) (cd_audits d) (cd_telemetry d).
Definition with_secrets v (d : config_db) : config_db :=
  ConfigDb (cd_workspaces d) (cd_memberships d) (cd_grants d) (cd_incident_resources d) (cd_sequences d)
    (cd_services d) (cd_checks d) (cd_machines d) (cd_agents d) (cd_assertions d) v (cd_dashboards d)
    (cd_resources d) (cd_policies d) (cd_jobs d) (cd_audits d) (cd_telemetry d).
Definition with_dashboards v (d : config_db) : config_db :=
  ConfigDb (cd_workspaces d) (cd_memberships d) (cd_grants d) (cd_incident_resources d) (cd_sequences d)
    (cd_services d) (cd_checks d) (cd_machines d) (cd_agents d) (cd_assertions d) (cd_secrets d) v (cd_resources d)
    (cd_policies d) (cd_jobs d) (cd_audits d) (cd_telemetry d).
Definition with_resources v (d : config_db) : config_db :=
  ConfigDb (cd_workspaces d) (cd_memberships d) (cd_grants d) (cd_incident_resources d) (cd_sequences d)
    (cd_services d) (cd_checks d) (cd_machines d) (cd_agents d) (cd_assertions d) (cd_secrets d) (cd_dashboards d) v
    (cd_policies d) (cd_jobs d) (cd_audits d) (cd_telemetry d).
Definition with_policies v (d : config_db) : config_db :=
  ConfigDb (cd_workspaces d) (cd_memberships d) (cd_grants d) (cd_incident_resources d) (cd_sequences d)
    (cd_services d) (cd_checks d) (cd_machines d) (cd_agents d) (cd_assertions d) (cd_secrets d) (cd_dashboards d)
    (cd_resources d) v (cd_jobs d) (cd_audits d) (cd_telemetry d).
Definition with_jobs v (d : config_db) : config_db :=
  ConfigDb (cd_workspaces d) (cd_memberships d) (cd_grants d) (cd_incident_resources d) (cd_sequences d)
    (cd_services d) (cd_checks d) (cd_machines d) (cd_agents d) (cd_assertions d) (cd_secrets d) (cd_dashboards d)
    (cd_resources d) (cd_policies d) v (cd_audits d) (cd_telemetry d).
Definition with_audits v (d : config_db) : config_db :=
  ConfigDb (cd_workspaces d) (cd_memberships d) (cd_grants d) (cd_incident_resources d) (cd_sequences d)
    (cd_services d) (cd_checks d) (cd_machines d) (cd_agents d) (cd_assertions d) (cd_secrets d) (cd_dashboards d)
    (cd_resources d) (cd_policies d) (cd_jobs d) v (cd_telemetry d).
Definition with_telemetry v (d : config_db) : config_db :=
  ConfigDb (cd_workspaces d) (cd_memberships d) (cd_grants d) (cd_incident_resources d) (cd_sequences d)
    (cd_services d) (cd_checks d) (cd_machines d) (cd_agents d) (cd_assertions d) (cd_secrets d) (cd_dashboards d)
    (cd_resources d) (cd_policies d) (cd_jobs d) (cd_audits d) v.

(** What authorisation and the service state synchronisation see of it.  The synchronisation does
    not read a check's kind, and has no constructor for ICMP. *)
Definition cd_authz (d : config_db) : control_db :=
  ControlDb (cd_memberships d) (cd_grants d) (map (fun s => ServiceRow (sm_id s) (sm_workspace s) (sm_deleted s)) (cd_services d))
    (cd_incident_resources d) (cd_workspaces d).
Definition sync_row (c : check_config) : check_row :=
  CheckRow (kf_id c) (kf_pk c) (kf_workspace c) (kf_service c) (if decide (kf_kind c = kind_http) then KHttp else KTcp) (kf_executor c)
    (kf_enabled c) (kf_revision c) (kf_interval c) (kf_phase c) (kf_timeout c) (kf_retry c) (kf_critical c) (kf_request c)
    (kf_secret_refs c) (kf_failure c) (kf_recovery c) (kf_claimed c).
Definition cd_sync (d : config_db) : sync_control :=
  SyncControl (cd_workspaces d)
    (map (fun s => ServiceConfig (sm_id s) (sm_pk s) (sm_workspace s) (sm_maintenance s) (sm_deleted s)) (cd_services d))
    (map sync_row (cd_checks d)) (cd_jobs d).

(** [deleted_at IS NULL] *)
Definition live_service (s : config_service) : bool := bool_decide (sm_deleted s = None).
Definition live_machine (m : config_machine) : bool := bool_decide (xm_deleted m = None).

(** ** Statements *)

Definition statement := config_db -> Z -> res (config_db * Z).
(** [db.batch(statements)]: the [meta.changes] of every statement. *)
Fixpoint batch_from (changed : Z) (statements : list statement) (d : config_db) : res (config_db * list Z) :=
  match statements with
  | [] => Ok (d, [])
  | st :: rest =>
      let* '(d, n) := st d changed in
      let* '(d, results) := batch_from n rest d in
      Ok (d, n :: results)
  end.
Definition batch (statements : list statement) (d : config_db) : res (config_db * list Z) := batch_from 0 statements d.

(** An [INSERT ... SELECT ... WHERE guard]: [row] is [None] when a [NOT NULL] column would be null,
    [bad] says which constraint the row breaks. *)
Definition insert_select {R} (get : config_db -> list R) (set : list R -> config_db -> config_db) (constraints : R -> config_db -> bool)
    (guard : config_db -> bool) (row : config_db -> option R) : statement := fun d _ =>
  if guard d then
    match row d with
    | None => Err "NOT NULL constraint failed"
    | Some r => throw_if negb (constraints r d) as "constraint failed" in Ok (set (get d ++ [r])%list d, 1)
    end
  else Ok (d, 0).

Definition between (lo x hi : Z) : bool := (lo <=? x) && (x <=? hi).
(** The [CHECK]s of [check_configs]. *)
Definition check_columns_ok (c : check_config) : bool :=
  between 0 (kf_enabled c) 1 && between 5 (kf_interval c) 86400 && between 0 (kf_phase c) 86399 && between 100 (kf_timeout c) 30000 &&
  between 0 (kf_retry c) 3 && between 0 (kf_critical c) 1 && between 1 (kf_failure c) 20 && between 1 (kf_recovery c) 20 && (0 <? kf_revision c).
Definition check_insertable (c : check_config) (d : config_db) : bool :=
  negb (has_key kf_id (kf_id c) (cd_checks d)) && negb (has_key kf_pk (kf_pk c) (cd_checks d)) && check_columns_ok c &&
  match kf_agent c with None => true | Some a => has_key xa_id a (cd_agents d) end && has_key sm_id (kf_service c) (cd_services d).
Definition service_insertable (s : config_service) (d : config_db) : bool :=
  negb (has_key sm_id (sm_id s) (cd_services d)) && negb (has_key sm_pk (sm_pk s) (cd_services d)) &&
  negb (existsb (fun r => String.eqb (sm_workspace r) (sm_workspace s) && String.eqb (sm_slug r) (sm_slug s) && live_service r) (cd_services d)).
Definition assertion_insertable (a : assertion_row) (d : config_db) : bool :=
  negb (has_key an_id (an_id a) (cd_assertions d)) &&
  negb (existsb (fun r => String.eqb (an_check r) (an_check a) && (an_order r =? an_order a)) (cd_assertions d)) &&
  has_key kf_id (an_check a) (cd_checks d).
Definition secret_insertable (s : config_secret) (d : config_db) : bool := negb (has_key ks_id (ks_id s) (cd_secrets d)).

(** [UPDATE check_configs SET ... WHERE guard]: the new row may be impossible, as with a null
    assignment revision or a broken [CHECK]; the trigger of migration 0019 keeps revisions growing. *)
Definition update_checks (guard : check_config -> config_db -> bool) (set : check_config -> config_db -> option check_config) : statement := fun d _ =>
  let step c := if guard c d then
      match set c d with
      | None => Err "NOT NULL constraint failed: check_configs.assignment_revision"
      | Some c' => throw_if negb (check_columns_ok c') as "CHECK constraint failed: check_configs" in
          throw_if kf_revision c' <=? kf_revision c as "check config revision must increase" in Ok c'
      end
    else Ok c in
  let* rows := mapM_res step (cd_checks d) in
  Ok (with_checks rows d, count_if (fun c => guard c d) (cd_checks d)).

(** [DELETE FROM t WHERE guard]; deleting a check cascades to its assertions. *)
Definition delete_rows {R} (get : config_db -> list R) (set : list R -> config_db -> config_db) (guard : R -> config_db -> bool) : statement := fun d _ =>
  let '(rows, n) := delete_where (fun r => guard r d) (get d) in Ok (set rows d, n).
Definition delete_checks (guard : check_config -> config_db -> bool) : statement := fun d _ =>
  let '(rows, n) := delete_where (fun c => guard c d) (cd_checks d) in
  Ok (with_assertions (List.filter (fun a => negb (has_key kf_id (an_check a) (List.filter (fun c => guard c d) (cd_checks d)))) (cd_assertions d)) (with_checks rows d), n).

(** The audit row of [prepareAuditStatement] with [onlyIfPreviousStatementChanged], and
    [prepareServiceStateSyncJob(job, true)]. *)
Definition audit_after (row : audit_row) : statement := fun d changed =>
  if changed =? 1 then Ok (with_audits (cd_audits d ++ [row])%list d, 1) else Ok (d, 0).
Definition job_after (job : ServiceStateSyncJob) : statement := fun d changed =>
  let '(jobs, n) := prepareServiceStateSyncJob job true (changed =? 1) (cd_jobs d) in Ok (with_jobs jobs d, n).
