(* ===== verification/ServiceConfig.v ===== *)
(** * ServiceConfig: creating, changing and deleting services and their checks

    [apps/web/src/lib/server/service-config.ts].  An action loads the access of its request, reads
    what it is about to change, compiles the form, and writes everything in one batch whose
    conditions repeat what it checked before; between its accesses other requests run
    ([Interleave.prog]).  A check that an agent executes also advances the configuration revision
    of the agent's machine, which is what makes the agent fetch its configuration again.

    Identifiers and nonces come from the [fresh] record, the time from [now]; the normal form NFKD
    of a service's name is a parameter.  [loadMonitoringAccess] and [applyServiceStateSyncJob] are
    one access each. *)

From Stdlib Require Import ZArith Lia Bool String Ascii List.
From stdpp Require Import base tactics list strings.
From S2P Require Import Prelude.
From S2P Require Import Js.
From S2P Require Import JsString.
From S2P Require Import Sql.
From S2P Require Import Crypto.
From S2P Require Import Web.
From S2P Require Import CheckPersistence.
From S2P Require Import Authz.
From S2P Require Import ControlTables.
From S2P Require Import Validation.
From S2P Require Import Envelopes.
From S2P Require Import ServiceStateSync.
From S2P Require Import ControlPlane.
From S2P Require Import ControlRetention.
From S2P Require Import AuditLog.
From S2P Require Import ServiceCompiler.
From S2P Require Import Interleave.
From S2P Require Import ConfigTables.
Open Scope string_scope.
Open Scope Z_scope.

(** ** Limits *)

(* @src apps/web/src/lib/server/service-config.ts 54-55 AGENT_SELECTOR_PAGE_SIZE *)
Definition AGENT_SELECTOR_PAGE_SIZE : Z := 50.
Definition AGENT_SELECTOR_MAX_PAGE : Z := 100.
(* @src apps/web/src/lib/server/service-config.ts 56-56 MAX_WORKSPACE_SERVICES *)
Definition MAX_WORKSPACE_SERVICES : Z := 200.
(* @src apps/web/src/lib/server/service-config.ts 57-57 MAX_WORKSPACE_CHECKS *)
Definition MAX_WORKSPACE_CHECKS : Z := 1000.
(* @src apps/web/src/lib/server/service-config.ts MAX_AGENT_CHECKS *)
Definition MAX_AGENT_CHECKS : Z := 32.
(* @src apps/web/src/lib/server/service-config.ts MAX_AGENT_CONFIG_BYTES *)
Definition MAX_AGENT_CONFIG_BYTES : Z := 44 * 1024.

(* @src apps/web/src/lib/server/service-config.ts AddServiceCheckInput *)
Record AddServiceCheckInput := AddInput { ad_checkName : string; ad_monitor : CreateServiceMonitorInput }.
(* @src apps/web/src/lib/server/service-config.ts UpdateServiceCheckPolicyInput *)
Record UpdateServiceCheckPolicyInput := PolicyInput {
  up_enabled : bool;
  up_intervalSeconds : number;
  up_timeoutMs : number;
  up_retryCount : number;
  up_failureConfirmations : number;
  up_recoveryConfirmations : number;
  up_critical : bool;
}.
(* @src apps/web/src/lib/server/service-config.ts ReplaceServiceCheckConfigurationInput *)
Record ReplaceServiceCheckConfigurationInput := ReplaceInput { rc_add : AddServiceCheckInput; rc_replaceSecrets : bool }.
(** [{ ...input, name, description }] *)
Definition with_service (name description : string) (i : CreateServiceMonitorInput) : CreateServiceMonitorInput :=
  MonitorInput name description (mi_kind i) (mi_executorKind i) (mi_executorAgentId i) (mi_intervalSeconds i) (mi_timeoutMs i)
    (mi_retryCount i) (mi_critical i) (mi_failureConfirmations i) (mi_recoveryConfirmations i) (mi_url i) (mi_method i)
    (mi_expectedStatuses i) (mi_maxRedirects i) (mi_tlsVerify i) (mi_degradedAfterMs i) (mi_downAfterMs i) (mi_maxResponseBytes i)
    (mi_requestHeaders i) (mi_secretRequestHeaders i) (mi_requestBody i) (mi_requestBodyIsSecret i) (mi_hostname i) (mi_serverName i)
    (mi_port i) (mi_useTls i) (mi_tcpPayload i) (mi_tcpPayloadIsSecret i) (mi_tcpResponsePrefix i) (mi_assertions i).

(** What an action draws and the time it reads. *)
Record fresh := Fresh {
  fr_now : Z;
  fr_service : string;
  fr_check : string;
  fr_audit : string;
  fr_token : string;
  fr_assertion : nat -> string;
  fr_secret : nat -> string;
  fr_nonce : nat -> list Byte.byte;
}.

(** A number that has been accepted as an integer. *)
Definition bound_int (x : number) : Z := match num_int x with Some z => z | None => 0 end.
Definition kind_of (s : string) : config_kind := if String.eqb s "http" then kind_http else if String.eqb s "tcp" then kind_tcp else kind_icmp.
Definition kind_name (k : config_kind) : string := match k with kind_http => "http" | kind_tcp => "tcp" | kind_icmp => "icmp" end.
Definition executor_of (s : string) : executor_kind := if String.eqb s "agent" then agent else cloudflare.
Definition executor_name (e : executor_kind) : string := match e with agent => "agent" | cloudflare => "cloudflare" end.
Definition flag (b : bool) : Z := if b then 1 else 0.

(** ** Names *)

(** [replace(/[^a-z0-9]+/g, '-')]: [after] is whether the text before ended in such a run. *)
Fixpoint dashes (after : bool) (s : string) : string :=
  match s with
  | EmptyString => ""
  | String c s' =>
      if is_digit c || is_lower c then String c (dashes false s')
      else if after then dashes true s' else String "-" (dashes true s')
  end.
Definition drop_dash (s : string) : string := match s with String c r => if Ascii.eqb c "-" then r else s | EmptyString => "" end.
(* @src apps/web/src/lib/server/service-config.ts slugBase *)
Definition slugBase (nfkd : string -> string) (name : string) : string :=
  let normalized := str_take 48 (str_rev (drop_dash (str_rev (drop_dash (dashes false (nfkd (to_lower name))))))) in
  if String.eqb normalized "" then "service" else normalized.
(** The statement of [availableSlug], and its loop. *)
Definition slug_taken (workspaceId slug : string) (d : config_db) : bool :=
  existsb (fun s => String.eqb (sm_workspace s) workspaceId && String.eqb (sm_slug s) slug && live_service s) (cd_services d).
Fixpoint slug_from (fuel : nat) (workspaceId base : string) (suffix : Z) : prog config_db string :=
  match fuel with
  | O => plift (Err "409 A unique service slug could not be generated")
  | S fuel =>
      let slug := if suffix =? 1 then base else base ++ "-" ++ z_to_string suffix in
      do existing <- ask (fun d => Ok (slug_taken workspaceId slug d)) in
      if negb existing then pret slug else slug_from fuel workspaceId base (suffix + 1)
  end.
(* @src apps/web/src/lib/server/service-config.ts availableSlug *)
Definition availableSlug (nfkd : string -> string) (workspaceId name : string) : prog config_db string :=
  slug_from 100 workspaceId (slugBase nfkd name) 1.
(* @src apps/web/src/lib/server/service-config.ts nextSequence *)
Definition nextSequence (kind : string) : prog config_db Z :=
  write (fun d =>
    match obj_get kind (cd_sequences d) with
    | Some value => Ok (with_sequences (obj_set kind (value + 1) (cd_sequences d)) d, value + 1)
    | None => Err "500 Resource sequence is unavailable"
    end).
(* @src apps/web/src/lib/server/service-config.ts configurationBytes *)
Definition configurationBytes (compiled : CompiledServiceConfig) (preservedSecretBytes : Z) : Z :=
  blen (encode_utf8 (json_stringify (OObj (cf_request compiled)))) +
  sumZ (map (fun secret => blen (ci_wrappedValue secret)) (cf_secrets compiled)) + preservedSecretBytes + 512.

(** ** Capacity *)

(* @src apps/web/src/lib/server/service-config.ts AgentCapacityInput *)
Record AgentCapacityInput := AgentCapacity { cp_agentId : string; cp_excluded : option string; cp_configBytes : Z; cp_enforce : bool }.
(** The enabled checks of an agent, one of them left out. *)
Definition counted (agentId : string) (excluded : option string) (c : check_config) : bool :=
  bool_decide (kf_agent c = Some agentId) && (kf_enabled c =? 1) && match excluded with None => true | Some id => negb (String.eqb (kf_id c) id) end.
Definition capacity_rows (agentId : string) (excluded : option string) (d : config_db) : list check_config :=
  take (Z.to_nat MAX_AGENT_CHECKS) (List.filter (counted agentId excluded) (cd_checks d)).
(** The bindings of [agentCapacityBindings] in their places. *)
(* @src apps/web/src/lib/server/service-config.ts AGENT_CAPACITY_CONDITION *)
Definition AGENT_CAPACITY_CONDITION (capacity : AgentCapacityInput) (d : config_db) : bool :=
  let rows := capacity_rows (cp_agentId capacity) (cp_excluded capacity) d in
  negb (cp_enforce capacity) ||
  ((Z.of_nat (length rows) <? MAX_AGENT_CHECKS) && (sumZ (map kf_bytes rows) + cp_configBytes capacity <=? MAX_AGENT_CONFIG_BYTES)).
(* @src apps/web/src/lib/server/service-config.ts assertAgentCapacity *)
Definition assertAgentCapacity (capacity : AgentCapacityInput) : prog config_db unit :=
  if negb (cp_enforce capacity) then pret tt
  else ask (fun d =>
    let rows := capacity_rows (cp_agentId capacity) (cp_excluded capacity) d in
    throw_if MAX_AGENT_CHECKS <=? Z.of_nat (length rows) as "409 An Agent can run at most 32 enabled checks" in
    throw_if MAX_AGENT_CONFIG_BYTES <? sumZ (map kf_bytes rows) + cp_configBytes capacity
      as "409 The Agent configuration has reached its encrypted snapshot size limit" in Ok tt).

Definition live_services (workspaceId : string) (d : config_db) : list config_service :=
  List.filter (fun s => String.eqb (sm_workspace s) workspaceId && live_service s) (cd_services d).
(** Checks joined to their service; [services.id] is the primary key. *)
Definition live_checks (workspaceId : string) (d : config_db) : list check_config :=
  List.filter (fun c => String.eqb (kf_workspace c) workspaceId &&
    existsb (fun s => String.eqb (sm_id s) (kf_service c) && live_service s) (cd_services d)) (cd_checks d).
(** [NOT EXISTS (SELECT 1 FROM rows LIMIT 1 OFFSET n - 1)] *)
Definition fewer_than {A} (n : Z) (rows : list A) : bool := (length (take 1 (drop (Z.to_nat (n - 1)) rows)) =? 0)%nat.
(* @src apps/web/src/lib/server/service-config.ts finalWorkspaceMonitorCapacityCondition *)
Definition finalWorkspaceMonitorCapacityCondition (workspaceId : string) (includeServiceCapacity : bool) (d : config_db) : bool :=
  (negb includeServiceCapacity || fewer_than MAX_WORKSPACE_SERVICES (live_services workspaceId d)) &&
  fewer_than MAX_WORKSPACE_CHECKS (live_checks workspaceId d).
(* @src apps/web/src/lib/server/service-config.ts assertWorkspaceMonitorCapacity *)
Definition assertWorkspaceMonitorCapacity (workspaceId : string) (includeServiceCapacity : bool) : prog config_db unit :=
  do available <- ask (fun d => Ok (finalWorkspaceMonitorCapacityCondition workspaceId includeServiceCapacity d)) in
  if (available : bool) then pret tt
  else
    do serviceAvailable <- (if includeServiceCapacity then ask (fun d => Ok (fewer_than MAX_WORKSPACE_SERVICES (live_services workspaceId d)))
                            else pret true) in
    plift (Err (if (serviceAvailable : bool) then "409 A workspace can configure at most 1000 checks"
                else "409 A workspace can monitor at most 200 services")).

(** ** Statements *)

Section Actions.
Context `{UA : UrlApi} `{WC : WebCrypto} `{LO : Locale} (nfkd : string -> string) (fr : fresh).
Let now := fr_now fr.

(* @src apps/web/src/lib/server/service-config.ts applyServiceStateSyncOrDefer *)
Definition applyServiceStateSyncOrDefer (job : ServiceStateSyncJob) : prog config_db unit :=
  write (fun d =>
    let '(_, telemetry) := applyServiceStateSyncJob (cd_sync d) job now (cd_telemetry d) in
    Ok (with_telemetry telemetry d, tt)).

(** [canAccessResource] as a condition of the statement: on the row's workspace and resource. *)
Definition may (access : MonitoringAccess) (userId : string) (t : ResourceType) (workspaceId id : string) (d : config_db) : bool :=
  finalResourceCapabilityCondition access userId t workspaceId id manage (cd_authz d).
Definition advanced (m : config_machine) : config_machine :=
  ConfigMachine (xm_id m) (xm_workspace m) (xm_name m) (xm_revision m + 1) now (xm_deleted m).
Definition check_at (checkId workspaceId : string) (revision : Z) (d : config_db) : bool :=
  existsb (fun c => String.eqb (kf_id c) checkId && String.eqb (kf_workspace c) workspaceId && (kf_revision c =? revision)) (cd_checks d).
(* @src apps/web/src/lib/server/service-config.ts advanceAgentConfigurationStatement *)
Definition advanceAgentConfigurationStatement (workspaceId machineId : string) (capacity : option AgentCapacityInput)
    (expectedCheckRevision : option (string * Z)) (authorization : option (config_machine -> config_db -> bool)) : statement := fun d _ =>
  let '(rows, n) := update_where (fun m =>
    String.eqb (xm_id m) machineId && String.eqb (xm_workspace m) workspaceId && live_machine m &&
    match expectedCheckRevision with None => true | Some (checkId, revision) => check_at checkId workspaceId revision d end &&
    match capacity with None => true | Some c => AGENT_CAPACITY_CONDITION c d end &&
    match authorization with None => true | Some allowed => allowed m d end) advanced (cd_machines d) in
  Ok (with_machines rows d, n).
(** [CASE WHEN machine IS NULL THEN otherwise ELSE (SELECT desired_config_revision ...) END] *)
Definition assigned_revision (machineId : option string) (workspaceId : string) (capacity : AgentCapacityInput) (otherwise : Z) (d : config_db) : option Z :=
  match machineId with
  | None => Some otherwise
  | Some id =>
      xm_revision <$> List.find (fun m => String.eqb (xm_id m) id && String.eqb (xm_workspace m) workspaceId && live_machine m &&
        AGENT_CAPACITY_CONDITION capacity d) (cd_machines d)
  end.
Definition no_capacity (excluded : option string) (configBytes : Z) : AgentCapacityInput := AgentCapacity "" excluded configBytes false.

(** The rows of a new check. *)
Definition new_check (workspaceId serviceId checkName : string) (checkPk : Z) (input : CreateServiceMonitorInput)
    (compiled : CompiledServiceConfig) (configBytes assignment : Z) : check_config :=
  CheckConf (fr_check fr) checkPk workspaceId serviceId checkName (kind_of (mi_kind input)) (executor_of (mi_executorKind input))
    (if String.eqb (mi_executorKind input) "agent" then Some (mi_executorAgentId input) else None) assignment 1
    (bound_int (mi_intervalSeconds input)) (checkPk mod bound_int (mi_intervalSeconds input)) (bound_int (mi_timeoutMs input))
    (bound_int (mi_retryCount input)) (flag (mi_critical input)) (json_stringify (OObj (cf_request compiled)))
    (json_stringify (stored_references (cf_secretRefs compiled))) (bound_int (mi_failureConfirmations input))
    (bound_int (mi_recoveryConfirmations input)) configBytes 1 0 now now.
Definition check_statement (guard : config_db -> bool) (machineId : option string) (capacity : AgentCapacityInput) (workspaceId serviceId checkName : string)
    (checkPk : Z) (input : CreateServiceMonitorInput) (compiled : CompiledServiceConfig) (configBytes : Z) : statement :=
  insert_select cd_checks with_checks check_insertable guard (fun d =>
    new_check workspaceId serviceId checkName checkPk input compiled configBytes <$> assigned_revision machineId workspaceId capacity 0 d).
Definition assertion_statements (guard : config_db -> bool) (checkId : string) (assertions : list CompiledAssertion) : list statement :=
  imap (fun index a =>
    insert_select cd_assertions with_assertions assertion_insertable guard (fun _ =>
      Some (AssertionRow (fr_assertion fr index) checkId (Z.of_nat index) (ca_source a) (ca_operator a) (ca_selector a)
              (json_stringify (ca_expected a)) (ca_severity a) now))) assertions.
Definition stored_secret (workspaceId : string) (s : CheckSecretInsert) : config_secret :=
  ConfigSecret (MkSecret (ci_id s) workspaceId (ci_wrappedValue s) (ci_nonce s)) (ci_name s) now.
Definition secret_statements (guard : config_db -> bool) (workspaceId : string) (secrets : list CheckSecretInsert) : list statement :=
  map (fun s => insert_select cd_secrets with_secrets secret_insertable guard (fun _ => Some (stored_secret workspaceId s))) secrets.
(** [EXISTS (SELECT 1 FROM check_configs created ...)], [EXISTS (... service_state_sync_jobs ...)] *)
Definition check_exists (checkId workspaceId : string) (d : config_db) : bool :=
  existsb (fun c => String.eqb (kf_id c) checkId && String.eqb (kf_workspace c) workspaceId) (cd_checks d).
Definition job_queued (job : ServiceStateSyncJob) (d : config_db) : bool := existsb (same_job job) (cd_jobs d).

(** [try { results = await db.batch(statements) } catch ...], and the check of the decisive
    statement. *)
Definition commit (statements : list statement) (capacity : option AgentCapacityInput) (mutationIndex : nat) (message : string) : prog config_db unit :=
  do results <- pcatch (write (batch statements))
    (fun cause => do _ <- match capacity with Some c => assertAgentCapacity c | None => pret tt end in plift (Err cause)) in
  refuse_if negb (bool_decide (results !! mutationIndex = Some 1)) as message in pret tt.

(** ** Executors *)

(* @src apps/web/src/lib/server/service-config.ts 34-39 AgentRow *)
Record executor_row := ExecutorRow { xr_id : string; xr_machine : string; xr_probes : Z; xr_bytes : Z }.
Definition find_agent (agentId workspaceId : string) (d : config_db) : option executor_row :=
  (fun a => let rows := capacity_rows (xa_id a) None d in
    ExecutorRow (xa_id a) (xa_machine a) (Z.of_nat (length rows)) (sumZ (map kf_bytes rows))) <$>
  List.find (fun a => String.eqb (xa_id a) agentId && String.eqb (xa_workspace a) workspaceId && xa_active a) (cd_agents d).
Definition load_agent (input : CreateServiceMonitorInput) (workspaceId : string) : prog config_db (option executor_row) :=
  if String.eqb (mi_executorKind input) "agent" then ask (fun d => Ok (find_agent (mi_executorAgentId input) workspaceId d)) else pret None.
Definition full_agent (agent : option executor_row) : bool := match agent with Some a => MAX_AGENT_CHECKS <=? xr_probes a | None => false end.
Definition no_room (agent : option executor_row) (configBytes : Z) : bool :=
  match agent with Some a => MAX_AGENT_CONFIG_BYTES <? xr_bytes a + configBytes | None => false end.
Definition agent_capacity (agent : option executor_row) (configBytes : Z) : option AgentCapacityInput :=
  (fun a => AgentCapacity (xr_id a) None configBytes true) <$> agent.
Definition capacity_or_none (capacity : option AgentCapacityInput) (excluded : option string) (configBytes : Z) : AgentCapacityInput :=
  match capacity with Some c => c | None => no_capacity excluded configBytes end.

(** ** Creating a service *)

(** [EXISTS (SELECT 1 FROM memberships actor ...)] is [finalAdminCondition] on the same values. *)
Definition creation_allowed (userId workspaceId : string) (d : config_db) : bool :=
  finalAdminCondition userId workspaceId (cd_authz d) && finalWorkspaceMonitorCapacityCondition workspaceId true d.
Definition service_exists (serviceId workspaceId : string) (d : config_db) : bool :=
  existsb (fun s => String.eqb (sm_id s) serviceId && String.eqb (sm_workspace s) workspaceId) (cd_services d).
Definition service_live (serviceId workspaceId : string) (d : config_db) : bool :=
  existsb (fun s => String.eqb (sm_id s) serviceId && String.eqb (sm_workspace s) workspaceId && live_service s) (cd_services d).
(* @src apps/web/src/lib/server/service-config.ts 362-549 createServiceMonitor *)
Definition create_statements (access : MonitoringAccess) (userId : string) (input : CreateServiceMonitorInput) (compiled : CompiledServiceConfig)
    (configBytes : Z) (machine : option executor_row) (servicePk checkPk : Z) (slug : string) : list statement :=
  let workspaceId := m_workspaceId access in
  let capacity := agent_capacity machine configBytes in
  (match machine with
   | Some a => [advanceAgentConfigurationStatement workspaceId (xr_machine a) capacity None
                  (Some (fun m d => finalAdminCondition userId (xm_workspace m) (cd_authz d) && finalWorkspaceMonitorCapacityCondition (xm_workspace m) true d))]
   | None => []
   end ++
  [insert_select cd_services with_services service_insertable (creation_allowed userId workspaceId) (fun _ =>
     Some (ConfigService (fr_service fr) servicePk workspaceId (mi_name input) slug (mi_description input)
       (json_stringify (OObj [("failureConfirmations", ONum (mi_failureConfirmations input)); ("recoveryConfirmations", ONum (mi_recoveryConfirmations input))]))
       None now now None));
   audit_after (prepareAuditStatement (fr_audit fr) (AuditInput workspaceId userId "service.create" "service" (fr_service fr) None
     (Some (OObj [("name", OStr (mi_name input)); ("description", OStr (mi_description input)); ("checkId", OStr (fr_check fr));
                  ("kind", OStr (mi_kind input)); ("executorKind", OStr (mi_executorKind input))])) now));
   check_statement (service_live (fr_service fr) workspaceId) (xr_machine <$> machine) (capacity_or_none capacity None configBytes) workspaceId (fr_service fr)
     (mi_name input ++ " availability") checkPk input compiled configBytes;
   insert_select cd_resources with_resources (fun r d => negb (has_key dashboard_resource_key (dashboard_resource_key r) (cd_resources d)))
     (service_exists (fr_service fr) workspaceId) (fun _ => Some (DashboardResource (m_defaultDashboardId access) RService (fr_service fr) servicePk "inherit"));
   insert_select cd_policies with_policies (fun r d => negb (has_key public_policy_key (public_policy_key r) (cd_policies d)))
     (service_exists (fr_service fr) workspaceId) (fun _ => Some (PublicPolicy workspaceId RService (fr_service fr) "deny" "summary" now))] ++
  assertion_statements (check_exists (fr_check fr) workspaceId) (fr_check fr) (cf_assertions compiled) ++
  secret_statements (check_exists (fr_check fr) workspaceId) workspaceId (cf_secrets compiled))%list.
(** [mutationIndex] *)
Definition after_advance {A} (machine : option A) : nat := match machine with Some _ => 1 | None => 0 end.
(* @src apps/web/src/lib/server/service-config.ts createServiceMonitor *)
Definition createServiceMonitor (workspaceSlug userId wrappingKey : string) (input : CreateServiceMonitorInput) : prog config_db string :=
  do access <- ask (fun d => loadMonitoringAccess (cd_authz d) workspaceSlug userId) in
  do _ <- plift (requireAdmin access) in
  do _ <- assertWorkspaceMonitorCapacity (m_workspaceId access) true in
  do machine <- load_agent input (m_workspaceId access) in
  refuse_if String.eqb (mi_executorKind input) "agent" && bool_decide (machine = None) as "400 A valid Agent executor is required" in
  refuse_if full_agent machine as "409 An Agent can run at most 32 enabled checks" in
  do compiled <- plift (compileServiceConfig (fr_secret fr) (fr_nonce fr) input (m_workspaceId access) wrappingKey) in
  let configBytes := configurationBytes compiled 0 in
  refuse_if no_room machine configBytes as "409 The Agent configuration has reached its encrypted snapshot size limit" in
  (* Promise.all: all three run, then the first failure counts *)
  do servicePk <- settle (nextSequence "service") in
  do checkPk <- settle (nextSequence "check") in
  do slug <- settle (availableSlug nfkd (m_workspaceId access) (mi_name input)) in
  do servicePk <- plift servicePk in
  do checkPk <- plift checkPk in
  do slug <- plift slug in
  do _ <- commit (create_statements access userId input compiled configBytes machine servicePk checkPk slug)
            (agent_capacity machine configBytes) (after_advance machine)
            "409 Workspace access or monitoring capacity changed; reload and try again" in
  pret (fr_service fr).

(** ** The agents a check may run on *)

(* @src apps/web/src/lib/server/service-config.ts ServiceCheckAgent *)
Record ServiceCheckAgent := CheckAgent { sa_id : string; sa_name : string }.
Definition safe_integer (x : number) : option Z :=
  match num_int x with Some z => if Z.abs z <=? 9007199254740991 then Some z else None | None => None end.
(** [ORDER BY m.name, a.id LIMIT ? OFFSET ?] *)
Definition agent_leb (a b : config_agent * config_machine) : bool :=
  if String.eqb (xm_name a.2) (xm_name b.2) then String.leb (xa_id a.1) (xa_id b.1) else String.leb (xm_name a.2) (xm_name b.2).
Definition manageable_agents (access : MonitoringAccess) (userId serviceId : string) (d : config_db) : list (config_agent * config_machine) :=
  order_by agent_leb
    (a ← cd_agents d; m ← cd_machines d;
     if String.eqb (xm_id m) (xa_machine a) && String.eqb (xa_workspace a) (m_workspaceId access) && xa_active a && live_machine m &&
        may access userId RMachine (xm_workspace m) (xm_id m) d &&
        existsb (fun s => String.eqb (sm_id s) serviceId && String.eqb (sm_workspace s) (m_workspaceId access) && live_service s &&
          may access userId RService (sm_workspace s) (sm_id s) d) (cd_services d)
     then [(a, m)] else []).
(* @src apps/web/src/lib/server/service-config.ts listServiceCheckAgents *)
Definition listServiceCheckAgents (workspaceSlug userId serviceId : string) (agentPage : option number)
  : prog config_db (list ServiceCheckAgent * (Z * bool * bool)) :=
  do access <- ask (fun d => loadMonitoringAccess (cd_authz d) workspaceSlug userId) in
  do _ <- plift (requireResourceCapability access RService serviceId manage) in
  let requestedPage := match agentPage ≫= safe_integer with Some p => Z.min AGENT_SELECTOR_MAX_PAGE (Z.max 1 p) | None => 1 end in
  do service <- ask (fun d => Ok (service_live serviceId (m_workspaceId access) d)) in
  refuse_if negb service as "404 Service not found" in
  do agents <- ask (fun d => Ok (take (Z.to_nat (AGENT_SELECTOR_PAGE_SIZE + 1))
    (drop (Z.to_nat ((requestedPage - 1) * AGENT_SELECTOR_PAGE_SIZE)) (manageable_agents access userId serviceId d)))) in
  pret (map (fun am => CheckAgent (xa_id am.1) (xm_name am.2)) (take (Z.to_nat AGENT_SELECTOR_PAGE_SIZE) agents),
        (requestedPage, 1 <? requestedPage, AGENT_SELECTOR_PAGE_SIZE <? Z.of_nat (length agents))).

(** ** Adding a check *)

Definition find_service (serviceId workspaceId : string) (d : config_db) : option config_service :=
  List.find (fun s => String.eqb (sm_id s) serviceId && String.eqb (sm_workspace s) workspaceId && live_service s) (cd_services d).
Definition name_refused (checkName : string) : bool := (slen checkName <? 2) || (80 <? slen checkName).
Definition add_allowed (access : MonitoringAccess) (userId serviceId : string) (machine : option executor_row) (d : config_db) : bool :=
  may access userId RService (m_workspaceId access) serviceId d &&
  match machine with Some a => may access userId RMachine (m_workspaceId access) (xr_machine a) d | None => true end &&
  finalWorkspaceMonitorCapacityCondition (m_workspaceId access) false d && service_live serviceId (m_workspaceId access) d.
(* @src apps/web/src/lib/server/service-config.ts 706-892 addServiceCheck *)
Definition add_statements (access : MonitoringAccess) (userId serviceId checkName : string) (input : CreateServiceMonitorInput)
    (compiled : CompiledServiceConfig) (configBytes : Z) (machine : option executor_row) (checkPk : Z) : list statement :=
  let workspaceId := m_workspaceId access in
  let capacity := agent_capacity machine configBytes in
  (match machine with
   | Some a => [advanceAgentConfigurationStatement workspaceId (xr_machine a) capacity None
                  (Some (fun m d => may access userId RService (xm_workspace m) serviceId d && may access userId RMachine (xm_workspace m) (xm_id m) d &&
                     finalWorkspaceMonitorCapacityCondition (xm_workspace m) false d))]
   | None => []
   end ++
  [check_statement (add_allowed access userId serviceId machine) (xr_machine <$> machine) (capacity_or_none capacity None configBytes) workspaceId
     serviceId checkName checkPk input compiled configBytes;
   audit_after (prepareAuditStatement (fr_audit fr) (AuditInput workspaceId userId "service.check.create" "service" serviceId None
     (Some (OObj [("checkId", OStr (fr_check fr)); ("checkName", OStr checkName); ("kind", OStr (mi_kind input));
                  ("executorKind", OStr (mi_executorKind input)); ("critical", OBool (mi_critical input))])) now))] ++
  assertion_statements (check_exists (fr_check fr) workspaceId) (fr_check fr) (cf_assertions compiled) ++
  secret_statements (check_exists (fr_check fr) workspaceId) workspaceId (cf_secrets compiled))%list.
(* @src apps/web/src/lib/server/service-config.ts addServiceCheck *)
Definition addServiceCheck (workspaceSlug userId wrappingKey serviceId : string) (add : AddServiceCheckInput) : prog config_db string :=
  let input := ad_monitor add in
  do access <- ask (fun d => loadMonitoringAccess (cd_authz d) workspaceSlug userId) in
  do _ <- plift (requireResourceCapability access RService serviceId manage) in
  do service <- ask (fun d => Ok (find_service serviceId (m_workspaceId access) d)) in
  do service <- plift match service with Some s => Ok s | None => Err "404 Service not found" end in
  let checkName := trim (ad_checkName add) in
  refuse_if name_refused checkName as "400 Check name is invalid" in
  do _ <- assertWorkspaceMonitorCapacity (m_workspaceId access) false in
  do machine <- load_agent input (m_workspaceId access) in
  refuse_if String.eqb (mi_executorKind input) "agent" &&
      match machine with
      | None => true
      | Some a => negb (canAccessResource (m_role access) (m_grants access) RMachine (xr_machine a) manage)
      end as "400 A valid Agent executor is required" in
  refuse_if full_agent machine as "409 An Agent can run at most 32 enabled checks" in
  do compiled <- plift (compileServiceConfig (fr_secret fr) (fr_nonce fr) (with_service (sm_name service) (sm_description service) input)
                          (m_workspaceId access) wrappingKey) in
  let configBytes := configurationBytes compiled 0 in
  refuse_if no_room machine configBytes as "409 The Agent configuration has reached its encrypted snapshot size limit" in
  do checkPk <- nextSequence "check" in
  do _ <- commit (add_statements access userId serviceId checkName input compiled configBytes machine checkPk)
            (agent_capacity machine configBytes) (after_advance machine)
            "409 Service access or check capacity changed; reload and try again" in
  pret (fr_check fr).

(** ** Secret references *)

Definition text (v : json) : option string := match v with JStr s => if String.eqb s "" then None else Some s | _ => None end.
(** [data.k ?? null] is a text that is not empty, or null. *)
Definition optional_reference (o : option json) : option (option string) :=
  match o with None | Some JNull => Some None | Some v => Some <$> text v end.
(* @src apps/web/src/lib/server/service-config.ts parseSecretReferences *)
Definition parseSecretReferences (value : string) : option CheckSecretReferences :=
  match json_parse value with
  | Ok (JObj data) =>
      match match obj_get "headers" data with None => Some [] | Some (JObj headers) => Some headers | Some _ => None end with
      | None => None
      | Some headers =>
          match mapM (fun kv => pair kv.1 <$> text kv.2) headers with
          | None => None
          | Some headers =>
              body ← optional_reference (obj_get "body" data);
              tcpPayload ← optional_reference (obj_get "tcpPayload" data);
              Some (SecretRefs headers body tcpPayload)
          end
      end
  | _ => None
  end.
(* @src apps/web/src/lib/server/service-config.ts referencedSecretIds *)
Definition referencedSecretIds (value : string) : list string :=
  match json_parse value with
  | Ok (JObj config) =>
      let headers := match obj_get "headers" config with Some (JObj headers) => map (fun kv => Some kv.2) headers | _ => [] end in
      omap (fun o => o ≫= text) (obj_get "body" config :: obj_get "tcpPayload" config :: headers)
  | _ => []
  end.

(** ** Rows to edit *)

(* @src apps/web/src/lib/server/service-config.ts 906-934 CheckConfigurationEditRow *)
Record CheckConfigurationEditRow := EditRow {
  er_check : check_config;
  er_service_pk : Z;
  er_service_name : string;
  er_service_description : string;
  er_maintenance : option Z;
  er_workspace_pk : Z;
  er_machine : option string;
}.
(** [LEFT JOIN agents a ON a.id = c.executor_agent_id AND a.status = 'active'] *)
Definition executor_machine (c : check_config) (d : config_db) : option string :=
  match kf_agent c with
  | None => None
  | Some id => xa_machine <$> List.find (fun a => String.eqb (xa_id a) id && xa_active a) (cd_agents d)
  end.
(* @src apps/web/src/lib/server/service-config.ts 983-1000 replaceServiceCheckConfiguration *)
Definition load_check (checkId serviceId workspaceId : string) (d : config_db) : res CheckConfigurationEditRow :=
  match
    c ← cd_checks d; s ← cd_services d; w ← cd_workspaces d;
    if String.eqb (kf_id c) checkId && String.eqb (kf_service c) serviceId && String.eqb (kf_workspace c) workspaceId &&
       String.eqb (sm_id s) (kf_service c) && live_service s && String.eqb (ws_id w) (kf_workspace c) && bool_decide (ws_deleted w = None)
    then [EditRow c (sm_pk s) (sm_name s) (sm_description s) (sm_maintenance s) (ws_pk w) (executor_machine c d)] else []
  with
  | row :: _ => Ok row
  | [] => Err "404 Check not found"
  end.
Definition check_job (workspaceId serviceId : string) (row : CheckConfigurationEditRow) : ServiceStateSyncJob :=
  createServiceStateSyncJob (fr_token fr) workspaceId (er_workspace_pk row) serviceId (er_service_pk row)
    (Some (kf_id (er_check row))) (Some (kf_pk (er_check row))) check_configuration now None.
Definition by_agent (c : check_config) : bool := bool_decide (kf_executor c = agent).
(** [agentMachineId] *)
Definition edited_machine (row : CheckConfigurationEditRow) : option string := if by_agent (er_check row) then er_machine row else None.

(** ** Replacing what a check does *)

(** [compiled.request.k !== null]: a key that is missing is [undefined], not null. *)
Definition field_present (k : string) (request : list (string * jout)) : bool := match obj_get k request with Some ONull => false | _ => true end.
Definition public_header_names (request : list (string * jout)) : list string :=
  match obj_get "headers" request with Some (OObj headers) => map (fun kv => to_lower kv.1) headers | _ => [] end.
(** What may not change here. *)
Definition kind_changed (input : CreateServiceMonitorInput) (c : check_config) : bool :=
  negb (String.eqb (mi_kind input) (kind_name (kf_kind c))) || negb (String.eqb (mi_executorKind input) (executor_name (kf_executor c))) ||
  negb (bool_decide ((if String.eqb (mi_executorAgentId input) "" then None else Some (mi_executorAgentId input)) = kf_agent c)).
Definition policy_changed (input : CreateServiceMonitorInput) (c : check_config) : bool :=
  negb (bool_decide (num_int (mi_intervalSeconds input) = Some (kf_interval c))) || negb (bool_decide (num_int (mi_timeoutMs input) = Some (kf_timeout c))) ||
  negb (bool_decide (num_int (mi_retryCount input) = Some (kf_retry c))) || negb (bool_decide (num_int (mi_failureConfirmations input) = Some (kf_failure c))) ||
  negb (bool_decide (num_int (mi_recoveryConfirmations input) = Some (kf_recovery c))) || negb (Bool.eqb (mi_critical input) (kf_critical c =? 1)).
Definition submitted_secrets (input : CreateServiceMonitorInput) : bool :=
  (0 <? slen (trim (mi_secretRequestHeaders input))) || (mi_requestBodyIsSecret input && (0 <? slen (mi_requestBody input))) ||
  (mi_tcpPayloadIsSecret input && (0 <? slen (mi_tcpPayload input))).
(** The refusals of a replacement that keeps the stored secrets. *)
Definition keeps_secrets_private (existing : CheckSecretReferences) (request : list (string * jout)) : res unit :=
  throw_if existsb (fun name => str_in name (map (fun kv => to_lower kv.1) (sr_headers existing))) (public_header_names request)
    as "400 A stored secret header must be replaced before becoming public" in
  throw_if bool_decide (sr_body existing <> None) && field_present "body" request
    as "400 A stored secret body must be replaced before becoming public" in
  throw_if bool_decide (sr_tcpPayload existing <> None) && field_present "payloadBase64" request
    as "400 A stored secret TCP payload must be replaced before becoming public" in Ok tt.
(** The bytes of the secrets that stay, when all of them are there. *)
Definition stored_secret_bytes (workspaceId : string) (ids : list string) (d : config_db) : res Z :=
  let rows := List.filter (fun s => String.eqb (se_workspace (ks_row s)) workspaceId && str_in (ks_id s) ids) (cd_secrets d) in
  throw_if negb (Z.of_nat (length rows) =? Z.of_nat (length ids)) as "409 A stored check secret is unavailable" in
  Ok (sumZ (map (fun s => blen (se_wrapped_value (ks_row s))) rows)).
Definition reconfigured (checkName : string) (compiled : CompiledServiceConfig) (configBytes assignment : Z) (c : check_config) : check_config :=
  CheckConf (kf_id c) (kf_pk c) (kf_workspace c) (kf_service c) checkName (kf_kind c) (kf_executor c) (kf_agent c) assignment (kf_enabled c)
    (kf_interval c) (kf_phase c) (kf_timeout c) (kf_retry c) (kf_critical c) (json_stringify (OObj (cf_request compiled)))
    (json_stringify (stored_references (cf_secretRefs compiled))) (kf_failure c) (kf_recovery c) configBytes (kf_revision c + 1)
    (kf_claimed c) (kf_created c) now.
Definition in_check (checkId serviceId workspaceId : string) (c : check_config) : bool :=
  String.eqb (kf_id c) checkId && String.eqb (kf_service c) serviceId && String.eqb (kf_workspace c) workspaceId.
(** Managing the service, and the machine when the check runs on one. *)
Definition edit_allowed (access : MonitoringAccess) (userId : string) (machine : option string) (c : check_config) (d : config_db) : bool :=
  may access userId RService (kf_workspace c) (kf_service c) d &&
  match machine with Some id => may access userId RMachine (kf_workspace c) id d | None => true end.
(** [... on the machine's row] *)
Definition machine_allowed (access : MonitoringAccess) (userId serviceId : string) (onMachine : bool) (m : config_machine) (d : config_db) : bool :=
  may access userId RService (xm_workspace m) serviceId d && (negb onMachine || may access userId RMachine (xm_workspace m) (xm_id m) d).
(* @src apps/web/src/lib/server/service-config.ts 1152-1294 replaceServiceCheckConfiguration *)
Definition replace_statements (access : MonitoringAccess) (userId serviceId checkId : string) (row : CheckConfigurationEditRow) (replaceSecrets : bool)
    (checkName : string) (compiled : CompiledServiceConfig) (configBytes : Z) (capacity : option AgentCapacityInput) (oldSecretIds : list string)
    (audit : audit_row) : list statement :=
  let workspaceId := m_workspaceId access in
  let c0 := er_check row in
  let job := check_job workspaceId serviceId row in
  let machine := edited_machine row in
  (match machine with
   | Some id => [advanceAgentConfigurationStatement workspaceId id capacity (Some (checkId, kf_revision c0)) (Some (machine_allowed access userId serviceId true))]
   | None => []
   end ++
  [update_checks (fun c d => in_check checkId serviceId workspaceId c && (kf_revision c =? kf_revision c0) && edit_allowed access userId machine c d)
     (fun c d => (fun assignment => reconfigured checkName compiled configBytes assignment c) <$>
        assigned_revision machine workspaceId (capacity_or_none capacity (Some checkId) configBytes) (kf_assignment c) d);
   job_after job;
   audit_after audit;
   delete_rows cd_assertions with_assertions (fun a d => String.eqb (an_check a) checkId && job_queued job d)] ++
  assertion_statements (job_queued job) checkId (cf_assertions compiled) ++
  (if replaceSecrets && negb (bool_decide (oldSecretIds = []))
   then [delete_rows cd_secrets with_secrets (fun s d => String.eqb (se_workspace (ks_row s)) workspaceId && str_in (ks_id s) oldSecretIds && job_queued job d)]
   else []) ++
  secret_statements (job_queued job) workspaceId (cf_secrets compiled))%list.
(* @src apps/web/src/lib/server/service-config.ts replaceServiceCheckConfiguration *)
Definition replaceServiceCheckConfiguration (workspaceSlug userId wrappingKey serviceId checkId : string) (replace : ReplaceServiceCheckConfigurationInput)
  : prog config_db unit :=
  let input := ad_monitor (rc_add replace) in
  let replaceSecrets := rc_replaceSecrets replace in
  do access <- ask (fun d => loadMonitoringAccess (cd_authz d) workspaceSlug userId) in
  do _ <- plift (requireResourceCapability access RService serviceId manage) in
  do row <- ask (load_check checkId serviceId (m_workspaceId access)) in
  let c := er_check row in
  do _ <- plift (match edited_machine row with Some id => requireResourceCapability access RMachine id manage | None => Ok tt end) in
  let checkName := trim (ad_checkName (rc_add replace)) in
  refuse_if name_refused checkName as "400 Check name is invalid" in
  refuse_if kind_changed input c as "400 Check type and executor cannot be changed during target replacement" in
  refuse_if policy_changed input c as "400 Schedule and confirmation changes must use the Policy editor" in
  refuse_if negb replaceSecrets && submitted_secrets input as "400 Secret values require explicit replacement confirmation" in
  do existing <- plift match parseSecretReferences (kf_secret_refs c) with Some r => Ok r | None => Err "409 The stored secret references are invalid" end in
  do compiled <- plift (compileServiceConfig (fr_secret fr) (fr_nonce fr) (with_service (er_service_name row) (er_service_description row) input)
                          (m_workspaceId access) wrappingKey) in
  do _ <- plift (if replaceSecrets then Ok tt else keeps_secrets_private existing (cf_request compiled)) in
  let oldSecretIds := referencedSecretIds (kf_secret_refs c) in
  do preservedSecretBytes <- (if negb replaceSecrets && negb (bool_decide (oldSecretIds = []))
                              then ask (stored_secret_bytes (m_workspaceId access) oldSecretIds) else pret 0) in
  let final := if replaceSecrets then compiled else Compiled (cf_request compiled) (cf_assertions compiled) existing [] in
  let configBytes := configurationBytes final preservedSecretBytes in
  refuse_if by_agent c && (kf_enabled c =? 1) && bool_decide (kf_agent c = None) as "409 The Agent executor is unavailable" in
  let capacity := if by_agent c then Some (AgentCapacity (coalesce (kf_agent c) "") (Some checkId) configBytes (kf_enabled c =? 1)) else None in
  do _ <- match capacity with Some cp => assertAgentCapacity cp | None => pret tt end in
  refuse_if by_agent c && bool_decide (er_machine row = None) as "409 The Agent executor is unavailable" in
  let audit := prepareAuditStatement (fr_audit fr) (AuditInput (m_workspaceId access) userId "service.check.configuration.replace" "service" serviceId
    (Some (OObj [("checkId", OStr checkId); ("checkName", OStr (kf_name c)); ("request", OStr (kf_request c));
                 ("secretCount", OInt (Z.of_nat (length oldSecretIds)))]))
    (Some (OObj [("checkId", OStr checkId); ("checkName", OStr checkName); ("request", OStr (json_stringify (OObj (cf_request final))));
                 ("secretCount", OInt (Z.of_nat (length (referencedSecretIds (json_stringify (stored_references (cf_secretRefs final)))))))])) now) in
  do _ <- commit (replace_statements access userId serviceId checkId row replaceSecrets checkName final configBytes capacity oldSecretIds audit)
            capacity (after_advance (edited_machine row)) "409 Check configuration changed; reload and try again" in
  applyServiceStateSyncOrDefer (check_job (m_workspaceId access) serviceId row).

(** ** Changing when a check runs *)

(* @src apps/web/src/lib/server/service-config.ts boundedPolicyInteger *)
Definition boundedPolicyInteger (value : number) (minimum maximum : Z) (label : string) : res Z := boundedNumber value minimum maximum label.
Definition other_enabled (checkId serviceId workspaceId : string) (d : config_db) : bool :=
  existsb (fun r => String.eqb (kf_service r) serviceId && String.eqb (kf_workspace r) workspaceId && (kf_enabled r =? 1) && negb (String.eqb (kf_id r) checkId))
    (cd_checks d).
Definition rescheduled (input : UpdateServiceCheckPolicyInput) (assignment : Z) (c : check_config) : check_config :=
  CheckConf (kf_id c) (kf_pk c) (kf_workspace c) (kf_service c) (kf_name c) (kf_kind c) (kf_executor c) (kf_agent c) assignment (flag (up_enabled input))
    (bound_int (up_intervalSeconds input)) (kf_pk c mod bound_int (up_intervalSeconds input)) (bound_int (up_timeoutMs input))
    (bound_int (up_retryCount input)) (flag (up_critical input)) (kf_request c) (kf_secret_refs c) (bound_int (up_failureConfirmations input))
    (bound_int (up_recoveryConfirmations input)) (kf_bytes c) (kf_revision c + 1) (kf_claimed c) (kf_created c) now.
(* @src apps/web/src/lib/server/service-config.ts 1431-1516 updateServiceCheckPolicy *)
Definition policy_statements (access : MonitoringAccess) (userId serviceId checkId : string) (row : CheckConfigurationEditRow)
    (input : UpdateServiceCheckPolicyInput) (capacity : option AgentCapacityInput) (audit : audit_row) : list statement :=
  let workspaceId := m_workspaceId access in
  let c0 := er_check row in
  let machine := edited_machine row in
  (match machine with
   | Some id => [advanceAgentConfigurationStatement workspaceId id capacity None (Some (machine_allowed access userId serviceId (up_enabled input)))]
   | None => []
   end ++
  [update_checks (fun c d => in_check checkId serviceId workspaceId c && (kf_enabled c =? kf_enabled c0) &&
       edit_allowed access userId (if up_enabled input then machine else None) c d &&
       (up_enabled input || other_enabled (kf_id c) (kf_service c) (kf_workspace c) d))
     (fun c d => (fun assignment => rescheduled input assignment c) <$>
        assigned_revision machine workspaceId (capacity_or_none capacity (Some checkId) (kf_bytes c0)) (kf_assignment c) d);
   audit_after audit;
   job_after (check_job workspaceId serviceId row)])%list.
Definition policy_out (enabled : bool) (interval timeout retry failure recovery : number) (critical : bool) : jout :=
  OObj [("enabled", OBool enabled); ("intervalSeconds", ONum interval); ("timeoutMs", ONum timeout); ("retryCount", ONum retry);
        ("failureConfirmations", ONum failure); ("recoveryConfirmations", ONum recovery); ("critical", OBool critical)].
(* @src apps/web/src/lib/server/service-config.ts updateServiceCheckPolicy *)
Definition updateServiceCheckPolicy (workspaceSlug userId serviceId checkId : string) (input : UpdateServiceCheckPolicyInput) : prog config_db unit :=
  do access <- ask (fun d => loadMonitoringAccess (cd_authz d) workspaceSlug userId) in
  do _ <- plift (requireResourceCapability access RService serviceId manage) in
  do row <- ask (load_check checkId serviceId (m_workspaceId access)) in
  let c := er_check row in
  do _ <- plift (if by_agent c && up_enabled input then
      match kf_agent c, er_machine row with
      | Some _, Some machine => requireResourceCapability access RMachine machine manage
      | _, _ => Err "409 The Agent executor is unavailable"
      end else Ok tt) in
  do _ <- plift (boundedPolicyInteger (up_intervalSeconds input) (if by_agent c then 5 else 60) 86400 "Check interval") in
  do _ <- plift (boundedPolicyInteger (up_timeoutMs input) 100 30000 "Timeout") in
  do _ <- plift (boundedPolicyInteger (up_retryCount input) 0 3 "Retry count") in
  do _ <- plift (boundedPolicyInteger (up_failureConfirmations input) 1 20 "Failure confirmations") in
  do _ <- plift (boundedPolicyInteger (up_recoveryConfirmations input) 1 20 "Recovery confirmations") in
  do _ <- (if (kf_enabled c =? 1) && negb (up_enabled input)
           then ask (fun d => throw_if negb (other_enabled checkId serviceId (m_workspaceId access) d) as "409 A service must keep at least one enabled check" in Ok tt)
           else pret tt) in
  let capacity := if by_agent c then Some (AgentCapacity (coalesce (kf_agent c) "") (Some checkId) (kf_bytes c) (up_enabled input)) else None in
  do _ <- match capacity with Some cp => assertAgentCapacity cp | None => pret tt end in
  let audit := prepareAuditStatement (fr_audit fr) (AuditInput (m_workspaceId access) userId "service.check.policy.update" "service" serviceId
    (Some (policy_out (kf_enabled c =? 1) (num_of_Z (kf_interval c)) (num_of_Z (kf_timeout c)) (num_of_Z (kf_retry c)) (num_of_Z (kf_failure c))
             (num_of_Z (kf_recovery c)) (kf_critical c =? 1)))
    (Some (policy_out (up_enabled input) (up_intervalSeconds input) (up_timeoutMs input) (up_retryCount input) (up_failureConfirmations input)
             (up_recoveryConfirmations input) (up_critical input))) now) in
  do _ <- commit (policy_statements access userId serviceId checkId row input capacity audit)
            capacity (after_advance (edited_machine row)) "409 Check policy changed; reload and try again" in
  applyServiceStateSyncOrDefer (check_job (m_workspaceId access) serviceId row).

(** ** Deleting a check *)

Definition service_checks (serviceId workspaceId : string) (d : config_db) : list check_config :=
  List.filter (fun c => String.eqb (kf_service c) serviceId && String.eqb (kf_workspace c) workspaceId) (cd_checks d).
(** [SELECT ... WHERE ... AND remaining.id != check_configs.id] *)
Definition other_check (c : check_config) (d : config_db) : bool :=
  existsb (fun r => negb (String.eqb (kf_id r) (kf_id c))) (service_checks (kf_service c) (kf_workspace c) d).
(* @src apps/web/src/lib/server/service-config.ts 1615-1677 deleteServiceCheck *)
Definition delete_statements (access : MonitoringAccess) (userId serviceId checkId : string) (row : CheckConfigurationEditRow) (audit : audit_row) : list statement :=
  let workspaceId := m_workspaceId access in
  let secretIds := referencedSecretIds (kf_secret_refs (er_check row)) in
  (match edited_machine row with
   | Some id => [advanceAgentConfigurationStatement workspaceId id None None (Some (machine_allowed access userId serviceId false))]
   | None => []
   end ++
  [delete_checks (fun c d => in_check checkId serviceId workspaceId c && may access userId RService (kf_workspace c) (kf_service c) d && other_check c d);
   audit_after audit;
   job_after (check_job workspaceId serviceId row)] ++
  (if bool_decide (secretIds = []) then []
   else [delete_rows cd_secrets with_secrets (fun s d => String.eqb (se_workspace (ks_row s)) workspaceId && str_in (ks_id s) secretIds &&
           negb (existsb (in_check checkId serviceId workspaceId) (cd_checks d)))]))%list.
(* @src apps/web/src/lib/server/service-config.ts deleteServiceCheck *)
Definition deleteServiceCheck (workspaceSlug userId serviceId checkId : string) : prog config_db unit :=
  do access <- ask (fun d => loadMonitoringAccess (cd_authz d) workspaceSlug userId) in
  do _ <- plift (requireResourceCapability access RService serviceId manage) in
  do row <- settle (ask (load_check checkId serviceId (m_workspaceId access))) in
  do remaining <- ask (fun d => Ok (negb (fewer_than 2 (service_checks serviceId (m_workspaceId access) d)))) in
  do row <- plift row in
  refuse_if negb remaining as "409 A service must keep at least one check" in
  let c := er_check row in
  let audit := prepareAuditStatement (fr_audit fr) (AuditInput (m_workspaceId access) userId "service.check.delete" "service" serviceId
    (Some (OObj [("checkId", OStr checkId); ("enabled", OBool (kf_enabled c =? 1)); ("executorKind", OStr (executor_name (kf_executor c)));
                 ("critical", OBool (kf_critical c =? 1))])) None now) in
  do _ <- commit (delete_statements access userId serviceId checkId row audit) None (after_advance (edited_machine row))
            "409 A service must keep at least one check" in
  applyServiceStateSyncOrDefer (check_job (m_workspaceId access) serviceId row).

(** ** Public access *)

(** [... ON CONFLICT(key) DO UPDATE]: the row that is there is updated. *)
Definition upsert_select {R K} `{!EqDecision K} (key : R -> K) (get : config_db -> list R) (set : list R -> config_db -> config_db)
    (guard : config_db -> bool) (update : R -> R -> R) (row : R) : statement := fun d _ =>
  if guard d then let '(rows, n) := upsert key (fun _ _ => true) update row (get d) in Ok (set rows d, n) else Ok (d, 0).
Definition update_rows {R} (get : config_db -> list R) (set : list R -> config_db -> config_db) (guard : R -> config_db -> bool) (f : R -> R) : statement := fun d _ =>
  let '(rows, n) := update_where (fun r => guard r d) f (get d) in Ok (set rows d, n).
(** The service is there and the actor administers its workspace. *)
Definition public_allowed (userId serviceId workspaceId : string) (d : config_db) : bool :=
  existsb (fun s => String.eqb (sm_id s) serviceId && String.eqb (sm_workspace s) workspaceId && live_service s &&
    existsb (fun m => eqb (mb_workspace m) (sm_workspace s) && eqb (mb_user m) userId && eqb (mb_role m) admin && eqb (mb_status m) active) (cd_memberships d))
    (cd_services d).
Definition effect_name (isPublic : bool) : string := if isPublic then "allow" else "deny".
Definition visibility_out (effect profile visibility : string) : jout :=
  OObj [("effect", OStr effect); ("projectionProfile", OStr profile); ("dashboardVisibility", OStr visibility)].
(* @src apps/web/src/lib/server/service-config.ts 1714-1793 setServicePublicAccess *)
Definition public_statements (access : MonitoringAccess) (userId serviceId : string) (isPublic : bool) (audit : audit_row) : list statement :=
  let workspaceId := m_workspaceId access in
  let allowed := public_allowed userId serviceId workspaceId in
  ([upsert_select public_policy_key cd_policies with_policies allowed (fun _ excluded => excluded)
      (PublicPolicy workspaceId RService serviceId (effect_name isPublic) "detailed" now);
    upsert_select dashboard_resource_key cd_resources with_resources allowed
      (fun old excluded => DashboardResource (dr_dashboard old) (dr_type old) (dr_resource old) (dr_order old) (dr_override excluded))
      (DashboardResource (m_defaultDashboardId access) RService serviceId 0 (effect_name isPublic))] ++
   (if isPublic
    then [update_rows cd_dashboards with_dashboards
            (fun b d => String.eqb (db_id b) (m_defaultDashboardId access) && String.eqb (db_workspace b) workspaceId && finalAdminCondition userId (db_workspace b) (cd_authz d))
            (fun b => DashboardRow (db_id b) (db_workspace b) "public" now)]
    else []) ++
   [audit_after audit])%list.
(* @src apps/web/src/lib/server/service-config.ts setServicePublicAccess *)
Definition setServicePublicAccess (workspaceSlug userId serviceId : string) (isPublic : bool) : prog config_db unit :=
  do access <- ask (fun d => loadMonitoringAccess (cd_authz d) workspaceSlug userId) in
  do _ <- plift (requireAdmin access) in
  let workspaceId := m_workspaceId access in
  do service <- ask (fun d => Ok (service_live serviceId workspaceId d)) in
  do policy <- ask (fun d => Ok (find_key public_policy_key (workspaceId, RService, serviceId) (cd_policies d))) in
  do dashboard <- ask (fun d => Ok (List.find (fun b => String.eqb (db_id b) (m_defaultDashboardId access) && String.eqb (db_workspace b) workspaceId) (cd_dashboards d))) in
  refuse_if negb service as "404 Service not found" in
  do dashboard <- plift match dashboard with Some b => Ok b | None => Err "409 The default dashboard is unavailable" end in
  let audit := prepareAuditStatement (fr_audit fr) (AuditInput workspaceId userId "service.public_access.update" "service" serviceId
    (Some (visibility_out (match policy with Some p => pp_effect p | None => "deny" end) (match policy with Some p => pp_profile p | None => "summary" end)
             (db_visibility dashboard)))
    (Some (visibility_out (effect_name isPublic) "detailed" (if isPublic then "public" else db_visibility dashboard))) now) in
  commit (public_statements access userId serviceId isPublic audit) None 0 "409 Public access changed; reload and try again".

(** ** Maintenance *)

Definition maintained (until : option Z) (s : config_service) : config_service :=
  ConfigService (sm_id s) (sm_pk s) (sm_workspace s) (sm_name s) (sm_slug s) (sm_description s) (sm_rule s) until (sm_created s) now (sm_deleted s).
(* @src apps/web/src/lib/server/service-config.ts 1861-1871 setServiceMaintenance *)
Definition maintenance_statements (access : MonitoringAccess) (userId serviceId : string) (until : option Z) (audit : audit_row) (job : ServiceStateSyncJob)
  : list statement :=
  [update_rows cd_services with_services
     (fun s d => String.eqb (sm_id s) serviceId && String.eqb (sm_workspace s) (m_workspaceId access) && live_service s &&
        may access userId RService (sm_workspace s) (sm_id s) d) (maintained until);
   audit_after audit; job_after job].
(* @src apps/web/src/lib/server/service-config.ts setServiceMaintenance *)
Definition setServiceMaintenance (workspaceSlug userId serviceId : string) (maintenanceUntil : option number) : prog config_db unit :=
  do access <- ask (fun d => loadMonitoringAccess (cd_authz d) workspaceSlug userId) in
  do _ <- plift (requireResourceCapability access RService serviceId manage) in
  do service <- ask (fun d =>
    match s ← cd_services d; w ← cd_workspaces d;
          if String.eqb (ws_id w) (sm_workspace s) && String.eqb (sm_id s) serviceId && String.eqb (sm_workspace s) (m_workspaceId access) && live_service s
          then [(s, w)] else [] with
    | r :: _ => Ok r
    | [] => Err "404 Service not found"
    end) in
  let '(s, w) := service in
  do until <- plift match maintenanceUntil with
    | None => Ok None
    | Some x => match num_int x with
        | Some z => throw_if z <? 0 as "400 Maintenance end time is invalid" in Ok (Some z)
        | None => Err "400 Maintenance end time is invalid"
        end
    end in
  let job := createServiceStateSyncJob (fr_token fr) (m_workspaceId access) (ws_pk w) serviceId (sm_pk s) None None
    (if null_gt until now then maintenance_window else maintenance_window_ended) now until in
  let until_out (o : option Z) := match o with Some z => OInt z | None => ONull end in
  let audit := prepareAuditStatement (fr_audit fr) (AuditInput (m_workspaceId access) userId "service.maintenance.update" "service" serviceId
    (Some (OObj [("maintenanceUntil", until_out (sm_maintenance s))])) (Some (OObj [("maintenanceUntil", until_out until)])) now) in
  do _ <- commit (maintenance_statements access userId serviceId until audit job) None 0 "409 Service changed; reload and try again" in
  applyServiceStateSyncOrDefer job.
End Actions.
