(* ===== verification/ServiceLimits.v ===== *)
(** * ServiceLimits: what stays true of services and checks under concurrent configuration

    A workspace has at most 200 live services and 1000 checks of them, and an agent runs at most 32
    enabled checks of at most 44 KiB together.  The actions of [ServiceConfig] check these limits
    before they start and again inside their batch; the theorems say that the second check is
    enough, whatever other requests do between the accesses of an action ([rely]), unless a size
    goes stale ([stale_size_overflows_agent]). *)

From Stdlib Require Import ZArith Lia Bool String Ascii List.
From stdpp Require Import base tactics list strings relations.
From S2P Require Import Prelude.
From S2P Require Import Js.
From S2P Require Import Sql.
From S2P Require Import Crypto.
From S2P Require Import Web.
From S2P Require Import CheckPersistence.
From S2P Require Import Authz.
From S2P Require Import ControlTables.
From S2P Require Import Validation.
From S2P Require Import Envelopes.
From S2P Require Import ServiceStateSync.
From S2P Require Import ControlPlane.
From S2P Require Import AuditLog.
From S2P Require Import ServiceCompiler.
From S2P Require Import Interleave.
From S2P Require Import ConfigTables.
From S2P Require Import ServiceConfig.
Open Scope string_scope.
Open Scope Z_scope.

(** ** Sums over the rows a condition selects *)

Definition sum_by {A} (w : A -> Z) (p : A -> bool) (l : list A) : Z := sumZ (map w (List.filter p l)).
Lemma sum_by_cons {A} w (p : A -> bool) x l : sum_by w p (x :: l) = (if p x then w x else 0) + sum_by w p l.
Proof. unfold sum_by. cbn. by destruct (p x). Qed.
Lemma sum_by_app {A} w (p : A -> bool) l l' : sum_by w p (l ++ l')%list = sum_by w p l + sum_by w p l'.
Proof. induction l as [|x l IH]; [done|]. cbn [app]. rewrite !sum_by_cons, IH. lia. Qed.
Lemma sum_by_le {A} (w : A -> Z) (p q : A -> bool) l : (forall x, x ∈ l -> 0 <= w x) -> (forall x, x ∈ l -> p x = true -> q x = true) -> sum_by w p l <= sum_by w q l.
Proof.
  induction l as [|x l IH]; intros Hw Hpq; [done|]. rewrite !sum_by_cons. specialize (IH ltac:(intros; apply Hw; by right) ltac:(intros; apply Hpq; [by right | done])).
  pose proof (Hw x ltac:(by left)). specialize (Hpq x ltac:(by left)). destruct (p x); [rewrite Hpq by done; lia|]. destruct (q x); lia.
Qed.
Lemma sum_by_ext {A} w (p q : A -> bool) l : (forall x, x ∈ l -> p x = q x) -> sum_by w p l = sum_by w q l.
Proof.
  induction l as [|x l IH]; intros H; [done|]. rewrite !sum_by_cons, (H x), IH by (by left || (intros; apply H; by right)). done.
Qed.
Lemma length_sum_by {A} (p : A -> bool) l : Z.of_nat (length (List.filter p l)) = sum_by (fun _ => 1) p l.
Proof. induction l as [|x l IH]; [done|]. rewrite sum_by_cons, <- IH. cbn. destruct (p x); cbn; lia. Qed.
Lemma fewer_than_spec {A} n (rows : list A) : 1 <= n -> fewer_than n rows = true <-> Z.of_nat (length rows) < n.
Proof.
  intros Hn. unfold fewer_than. rewrite Nat.eqb_eq, length_take, length_drop. lia.
Qed.

(** ** The invariant *)

Record limits_ok (d : config_db) : Prop := {
  lm_ids : keys_unique kf_id (cd_checks d);
  lm_owned : forall c, c ∈ cd_checks d -> has_key sm_id (kf_service c) (cd_services d) = true;
  lm_executor : forall c, c ∈ cd_checks d -> kf_agent c <> None -> kf_executor c = agent;
  lm_bytes : forall c, c ∈ cd_checks d -> 0 <= kf_bytes c;
  lm_services : forall ws, Z.of_nat (length (live_services ws d)) <= MAX_WORKSPACE_SERVICES;
  lm_checks : forall ws, Z.of_nat (length (live_checks ws d)) <= MAX_WORKSPACE_CHECKS;
  lm_agents : forall a, sum_by (fun _ => 1) (counted a None) (cd_checks d) <= MAX_AGENT_CHECKS;
}.
(** The configurations of an agent's enabled checks fit its snapshot. *)
Definition agents_fit (d : config_db) : Prop := forall a, sum_by kf_bytes (counted a None) (cd_checks d) <= MAX_AGENT_CONFIG_BYTES.

(** What became of a row of [check_configs]. *)
Record later (c c' : check_config) : Prop := {
  lt_executor : kf_executor c' = kf_executor c;
  lt_agent : kf_agent c' = kf_agent c \/ kf_agent c' = None;
  lt_revision : kf_revision c <= kf_revision c';
  lt_same : kf_revision c' = kf_revision c -> kf_enabled c' = kf_enabled c /\ kf_bytes c' = kf_bytes c /\ kf_secret_refs c' = kf_secret_refs c;
}.
#[export] Instance later_preorder : PreOrder later.
Proof.
  split.
  - intros c. split; auto; lia.
  - intros a b c [E1 A1 V1 S1] [E2 A2 V2 S2]. split; [congruence | destruct A1, A2; intuition congruence | lia|].
    intros E. destruct S1 as (?&?&?); [lia|]. destruct S2 as (?&?&?); [lia|]. split_and!; congruence.
Qed.

(** Check [k] and service [sid] across a change: neither is created, and the check's configuration
    does not change without a new revision. *)
Record came (k sid : string) (d d' : config_db) : Prop := {
  cm_check : forall c', c' ∈ cd_checks d' -> kf_id c' = k -> exists c, c ∈ cd_checks d /\ kf_id c = k /\ later c c';
  cm_service : has_key sm_id sid (cd_services d) = false -> has_key sm_id sid (cd_services d') = false;
}.
#[export] Instance came_preorder k sid : PreOrder (came k sid).
Proof.
  split.
  - intros d. split; [|done]. intros c Hc Hk. exists c. by split_and!.
  - intros x y z [C1 S1] [C2 S2]. split; [|auto]. intros c Hc Hk. destruct (C2 c Hc Hk) as (c2 & H2 & K2 & E2).
    destruct (C1 c2 H2 K2) as (c1 & H1 & K1 & E1). exists c1. split_and!; [done | done | by transitivity c2].
Qed.

Section Rely.
Context (I : config_db -> Prop).
(** What other requests do while an action edits check [k] and creates service [sid]: they keep
    the invariant, and leave these two as said. *)
Definition rely (k sid : string) (d d' : config_db) : Prop := I d -> I d' /\ came k sid d d'.
(** What an action that may create [k0] and [sid0] does. *)
Definition guarantee (k0 sid0 : string) (d d' : config_db) : Prop :=
  I d -> I d' /\ forall k sid, k <> k0 -> sid <> sid0 -> came k sid d d'.
#[global] Instance rely_preorder k sid : PreOrder (rely k sid).
Proof.
  split; [intros d HI; by split|]. intros x y z H1 H2 HI. destruct (H1 HI) as [HI' C1]. destruct (H2 HI') as [HI'' C2]. split; [done | by transitivity y].
Qed.
#[global] Instance guarantee_refl k0 sid0 : Reflexive (guarantee k0 sid0).
Proof. intros d HI. split; [done|]. intros k sid _ _. reflexivity. Qed.
End Rely.

(** ** Statements and batches *)

Lemma batch_cons n st rest d d2 rs : batch_from n (st :: rest) d = Ok (d2, rs) ->
  exists d1 m rs', st d n = Ok (d1, m) /\ batch_from m rest d1 = Ok (d2, rs') /\ rs = m :: rs'.
Proof.
  cbn [batch_from]. intros H. apply rbind_ok in H as ([d1 m] & H1 & H). apply rbind_ok in H as ([d3 rs'] & H2 & [= <- <-]). by exists d1, m, rs'.
Qed.
Lemma batch_app l1 : forall l2 n d d2 rs, batch_from n (l1 ++ l2)%list d = Ok (d2, rs) ->
  exists d1 m rs1 rs2, batch_from n l1 d = Ok (d1, rs1) /\ batch_from m l2 d1 = Ok (d2, rs2) /\ rs = (rs1 ++ rs2)%list /\ length rs1 = length l1.
Proof.
  induction l1 as [|st l1 IH]; intros l2 n d d2 rs H.
  - by exists d, n, [], rs.
  - apply batch_cons in H as (d1 & m & rs' & H1 & H & ->). apply IH in H as (d3 & k & r1 & r2 & H2 & H3 & -> & Hl).
    exists d3, k, (m :: r1), r2. cbn. rewrite H1. cbn. rewrite H2. cbn. split_and!; [done | done | done | by rewrite Hl].
Qed.

(** A statement that leaves services and checks alone. *)
Definition quiet (st : statement) : Prop := forall d n d' m, st d n = Ok (d', m) -> cd_services d' = cd_services d /\ cd_checks d' = cd_checks d.
Lemma quiet_batch l : Forall quiet l -> forall n d d' rs, batch_from n l d = Ok (d', rs) -> cd_services d' = cd_services d /\ cd_checks d' = cd_checks d.
Proof.
  induction 1 as [|st l Hst Hl IH]; intros n d d' rs H; [by injection H as <- _|].
  apply batch_cons in H as (d1 & m & rs' & H1 & H & _). apply Hst in H1 as [E1 E2]. apply IH in H as [E3 E4]. by rewrite E3, E4.
Qed.
Lemma quiet_insert {R} (get : config_db -> list R) set constraints guard row :
  (forall v d, cd_services (set v d) = cd_services d /\ cd_checks (set v d) = cd_checks d) -> quiet (insert_select get set constraints guard row).
Proof.
  intros Hset d n d' m. unfold insert_select. destruct (guard d); [|by intros [= <- _]]. destruct (row d); [|done].
  destruct (negb _); [done|]. intros [= <- _]. apply Hset.
Qed.
Lemma quiet_delete {R} (get : config_db -> list R) set guard :
  (forall v d, cd_services (set v d) = cd_services d /\ cd_checks (set v d) = cd_checks d) -> quiet (delete_rows get set guard).
Proof. intros Hset d n d' m. unfold delete_rows. destruct (delete_where _ _). intros [= <- _]. apply Hset. Qed.
Lemma quiet_audit row : quiet (audit_after row).
Proof. intros d n d' m. unfold audit_after. destruct (n =? 1); by intros [= <- _]. Qed.
Lemma quiet_job job : quiet (job_after job).
Proof. intros d n d' m. unfold job_after. destruct (prepareServiceStateSyncJob _ _ _ _). by intros [= <- _]. Qed.
Lemma quiet_advance fr ws id capacity expected authorization : quiet (advanceAgentConfigurationStatement fr ws id capacity expected authorization).
Proof. intros d n d' m. unfold advanceAgentConfigurationStatement. destruct (update_where _ _ _). by intros [= <- _]. Qed.
Lemma quiet_assertions fr guard checkId assertions : Forall quiet (assertion_statements fr guard checkId assertions).
Proof. apply Forall_forall. intros st Hst. apply list_elem_of_lookup in Hst as [i Hi]. unfold assertion_statements in Hi. rewrite list_lookup_imap in Hi. apply fmap_Some in Hi as (a & _ & ->). by apply quiet_insert. Qed.
Lemma quiet_secrets fr guard ws secrets : Forall quiet (secret_statements fr guard ws secrets).
Proof. apply Forall_forall. intros st Hst. apply list_elem_of_fmap in Hst as (s & -> & _). by apply quiet_insert. Qed.
#[export] Hint Resolve quiet_audit quiet_job quiet_advance quiet_assertions quiet_secrets : alphaping.

(** ** Effects on the limits *)

Lemma limits_ext d d' : cd_services d' = cd_services d -> cd_checks d' = cd_checks d -> limits_ok d -> limits_ok d'.
Proof. intros Es Ec [A1 A2 A3 A4 A5 A6 A7]. unfold live_services, live_checks in *. split; unfold live_services, live_checks; rewrite ?Es, ?Ec; auto. Qed.
Lemma fit_ext d d' : cd_checks d' = cd_checks d -> agents_fit d -> agents_fit d'.
Proof. unfold agents_fit. by intros ->. Qed.

(** A new service: nothing refers to it yet. *)
Lemma limits_insert_service d s : limits_ok d -> service_insertable s d = true -> Z.of_nat (length (live_services (sm_workspace s) d)) < MAX_WORKSPACE_SERVICES ->
  limits_ok (with_services (cd_services d ++ [s])%list d) /\
  forall ws, live_checks ws (with_services (cd_services d ++ [s])%list d) = live_checks ws d.
Proof.
  intros [A1 A2 A3 A4 A5 A6 A7] Hi Hn. unfold service_insertable in Hi. bool_hyps. rename H into Hid.
  assert (Hlive : forall ws, live_checks ws (with_services (cd_services d ++ [s])%list d) = live_checks ws d).
  { intros ws. unfold live_checks. cbn [cd_checks cd_services with_services]. apply List.filter_ext_in. intros c Hc. f_equal.
    rewrite existsb_app. cbn [existsb]. rewrite orb_false_r. destruct (String.eqb (sm_id s) (kf_service c)) eqn:E; [|by rewrite orb_false_r].
    apply String.eqb_eq in E. apply list_elem_of_In in Hc. specialize (A2 c Hc). by rewrite <- E, Hid in A2. }
  split; [|done]. split; cbn [cd_checks cd_services with_services]; try done.
  - intros c Hc. specialize (A2 c Hc). apply has_key_elem. apply has_key_elem in A2. rewrite map_app. apply elem_of_app. by left.
  - intros ws. unfold live_services. cbn [cd_services with_services]. rewrite List.filter_app, length_app. cbn [List.filter].
    destruct (String.eqb (sm_workspace s) ws && live_service s) eqn:E; cbn [length]; [|specialize (A5 ws); unfold live_services in A5; lia].
    apply andb_true_iff in E as [E _]. apply String.eqb_eq in E as <-. unfold live_services in Hn. lia.
  - intros ws. rewrite Hlive. apply A6.
Qed.

(** A new check, enabled or not: the workspace and its agent have room. *)
Definition room_for (w : check_config -> Z) (limit : Z) (c : check_config) (d : config_db) : Prop :=
  forall a, counted a None c = true -> sum_by w (counted a None) (cd_checks d) + w c <= limit.
Lemma limits_insert_check d c : limits_ok d -> check_insertable c d = true -> (kf_agent c <> None -> kf_executor c = agent) -> 0 <= kf_bytes c ->
  Z.of_nat (length (live_checks (kf_workspace c) d)) < MAX_WORKSPACE_CHECKS -> room_for (fun _ => 1) MAX_AGENT_CHECKS c d ->
  limits_ok (with_checks (cd_checks d ++ [c])%list d).
Proof.
  intros [A1 A2 A3 A4 A5 A6 A7] Hi He Hb Hn Ha. unfold check_insertable in Hi. bool_hyps. rename H into Hid, H0 into Hs.
  split; cbn [cd_checks cd_services with_checks]; try done.
  - by apply keys_unique_app.
  - intros x Hx. apply elem_of_app in Hx as [Hx|Hx]; [by apply A2|]. by apply list_elem_of_singleton in Hx as ->.
  - intros x Hx. apply elem_of_app in Hx as [Hx|Hx]; [by apply A3|]. by apply list_elem_of_singleton in Hx as ->.
  - intros x Hx. apply elem_of_app in Hx as [Hx|Hx]; [by apply A4|]. by apply list_elem_of_singleton in Hx as ->.
  - intros ws. unfold live_checks. cbn [cd_checks cd_services with_checks]. rewrite List.filter_app, length_app. cbn [List.filter].
    specialize (A6 ws). unfold live_checks in A6. destruct (String.eqb (kf_workspace c) ws) eqn:E; cbn [andb]; [|cbn; lia].
    apply String.eqb_eq in E as <-. unfold live_checks in Hn. destruct (existsb _ _); cbn [length]; lia.
  - intros a. rewrite sum_by_app, sum_by_cons. specialize (A7 a). specialize (Ha a). destruct (counted a None c); cbn; [specialize (Ha eq_refl) | ]; cbn; lia.
Qed.
Lemma fit_insert_check d c : agents_fit d -> room_for kf_bytes MAX_AGENT_CONFIG_BYTES c d -> agents_fit (with_checks (cd_checks d ++ [c])%list d).
Proof.
  intros Hf Ha a. cbn [cd_checks with_checks]. rewrite sum_by_app, sum_by_cons. specialize (Hf a). specialize (Ha a).
  destruct (counted a None c); cbn; [specialize (Ha eq_refl)|]; lia.
Qed.

(** The capacity condition, read: fewer than 32 checks, hence all of them are counted. *)
Lemma capacity_spec cp d : AGENT_CAPACITY_CONDITION cp d = true -> cp_enforce cp = true ->
  sum_by (fun _ => 1) (counted (cp_agentId cp) (cp_excluded cp)) (cd_checks d) < MAX_AGENT_CHECKS /\
  sum_by kf_bytes (counted (cp_agentId cp) (cp_excluded cp)) (cd_checks d) + cp_configBytes cp <= MAX_AGENT_CONFIG_BYTES.
Proof.
  unfold AGENT_CAPACITY_CONDITION. intros H He. rewrite He in H. cbn [negb orb] in H. apply andb_true_iff in H as [H1 H2]. apply Z.ltb_lt in H1. apply Z.leb_le in H2.
  unfold capacity_rows in H1, H2. rewrite length_take in H1.
  assert (Hl : Z.of_nat (length (List.filter (counted (cp_agentId cp) (cp_excluded cp)) (cd_checks d))) < MAX_AGENT_CHECKS) by (unfold MAX_AGENT_CHECKS in *; lia).
  split; [by rewrite <- length_sum_by|]. unfold sum_by. rewrite take_ge in H2; [done|]. unfold MAX_AGENT_CHECKS in *. lia.
Qed.

(** An update of one check, [k]. *)
Definition changed_row (guard : check_config -> config_db -> bool) (set : check_config -> config_db -> option check_config) (d : config_db) (c c' : check_config) : Prop :=
  if guard c d then set c d = Some c' /\ kf_revision c < kf_revision c' else c' = c.
Lemma update_checks_spec guard set d n d' m : update_checks guard set d n = Ok (d', m) ->
  exists rows, d' = with_checks rows d /\ Forall2 (changed_row guard set d) (cd_checks d) rows /\ m = count_if (fun c => guard c d) (cd_checks d).
Proof.
  unfold update_checks. intros H. apply rbind_ok in H as (rows & Hrows & [= <- <-]). exists rows. split_and!; [done | | done].
  apply mapM_res_ok in Hrows. eapply Forall2_impl; [exact Hrows|]. intros c c' H. unfold changed_row. cbv beta zeta in H. destruct (guard c d); [|by injection H].
  destruct (set c d) as [x|]; [|done]. destruct (negb _); [done|]. destruct (_ <=? _) eqn:E; [done|]. injection H as ->. apply Z.leb_gt in E. done.
Qed.
Section OneRow.
Context (P : check_config -> check_config -> Prop) (k : string).
Hypothesis P_id : forall c c', P c c' -> kf_id c' = kf_id c.
Hypothesis P_other : forall c c', P c c' -> kf_id c <> k -> c' = c.
Lemma others_unchanged rows rows' : Forall2 P rows rows' -> k ∉ map kf_id rows -> rows' = rows.
Proof using P_other.
  induction 1 as [|c c' rows rows' Hc H IH]; intros Hk; [done|]. cbn in Hk. apply not_elem_of_cons in Hk as [Hk Hk']. rewrite IH by done. f_equal. by apply P_other.
Qed.
Lemma ids_unchanged rows rows' : Forall2 P rows rows' -> map kf_id rows' = map kf_id rows.
Proof using P_id. induction 1 as [|c c' rows rows' Hc H IH]; [done|]. cbn. by rewrite (P_id c c'), IH. Qed.
Lemma counted_excluding a c : kf_id c <> k -> counted a (Some k) c = counted a None c.
Proof. intros H. unfold counted. by rewrite (proj2 (String.eqb_neq _ _)) by done. Qed.
Lemma sum_one_row w a rows rows' : Forall2 P rows rows' -> keys_unique kf_id rows ->
  sum_by w (counted a None) rows' = sum_by w (counted a (Some k)) rows \/
  exists c c', P c c' /\ c ∈ rows /\ c' ∈ rows' /\ kf_id c = k /\ counted a None c' = true /\
    sum_by w (counted a None) rows' = sum_by w (counted a (Some k)) rows + w c'.
Proof using P_id P_other.
  induction 1 as [|c c' rows rows' Hc H IH]; intros Hu; [by left|]. apply NoDup_cons in Hu as [Hk Hu]. rewrite !sum_by_cons.
  destruct (decide (kf_id c = k)) as [E|E].
  - assert (Hs : sum_by w (counted a None) rows' = sum_by w (counted a (Some k)) rows).
    { rewrite E in Hk. rewrite (others_unchanged rows rows') by done. apply sum_by_ext. intros x Hx. symmetry. apply counted_excluding.
      intros Ex. apply Hk. rewrite <- Ex. by apply (list_elem_of_fmap_2 kf_id). }
    assert (Hc0 : counted a (Some k) c = false) by (unfold counted; by rewrite E, String.eqb_refl, andb_false_r). rewrite Hc0, Hs.
    destruct (counted a None c') eqn:Ec; [|left; lia]. right. exists c, c'. split_and!; [done | by left | by left | done | done | lia].
  - rewrite (P_other c c' Hc E), counted_excluding by done. destruct (IH Hu) as [->|(x & x' & Hx & H1 & H2 & H3 & H4 & ->)]; [by left|].
    right. exists x, x'. split_and!; [done | by right | by right | done | done | lia].
Qed.
End OneRow.

(** The update keeps the row's place, and room for it when it is enabled. *)
Lemma limits_update (P : check_config -> check_config -> Prop) k d rows : limits_ok d -> Forall2 P (cd_checks d) rows ->
  (forall c c', P c c' -> kf_id c' = kf_id c /\ kf_workspace c' = kf_workspace c /\ kf_service c' = kf_service c /\ kf_executor c' = kf_executor c /\
     kf_agent c' = kf_agent c /\ (0 <= kf_bytes c -> 0 <= kf_bytes c')) ->
  (forall c c', P c c' -> kf_id c <> k -> c' = c) ->
  (forall c c' a, P c c' -> c ∈ cd_checks d -> kf_id c = k -> counted a None c' = true ->
     sum_by (fun _ => 1) (counted a (Some k)) (cd_checks d) < MAX_AGENT_CHECKS) ->
  limits_ok (with_checks rows d).
Proof.
  intros [A1 A2 A3 A4 A5 A6 A7] HP Hkeep Hother Hroom. destruct d as [? ? ? ? ? services checks]. unfold live_services, live_checks in *. cbn [cd_checks cd_services with_checks] in *.
  assert (Hback : forall c', c' ∈ rows -> exists c, c ∈ checks /\ P c c').
  { intros c' Hc'. apply list_elem_of_lookup in Hc' as [i Hi]. destruct (Forall2_lookup_r _ _ _ _ _ HP Hi) as (c & Hc & HPc). exists c. split; [by apply list_elem_of_lookup_2 in Hc | done]. }
  split; unfold live_services, live_checks; cbn [cd_checks cd_services with_checks]; try done.
  - unfold keys_unique. rewrite (ids_unchanged P) with (rows := checks); [done | by intros c c' H; apply (Hkeep c c' H) | done].
  - intros c' Hc'. destruct (Hback c' Hc') as (c & Hc & H). destruct (Hkeep c c' H) as (_ & _ & -> & _). by apply A2.
  - intros c' Hc'. destruct (Hback c' Hc') as (c & Hc & H). destruct (Hkeep c c' H) as (_ & _ & _ & -> & -> & _). by apply A3.
  - intros c' Hc'. destruct (Hback c' Hc') as (c & Hc & H). destruct (Hkeep c c' H) as (_ & _ & _ & _ & _ & Hb). apply Hb. by apply A4.
  - intros ws. specialize (A6 ws). rewrite length_sum_by in *. replace (sum_by _ _ rows) with (sum_by (fun _ : check_config => 1) (fun c => String.eqb (kf_workspace c) ws && existsb (fun s => String.eqb (sm_id s) (kf_service c) && live_service s) services) checks); [done|].
    clear - HP Hkeep. induction HP as [|c c' l l' Hc H IH]; [done|]. rewrite !sum_by_cons, IH. destruct (Hkeep c c' Hc) as (_ & -> & -> & _). done.
  - intros a. destruct (sum_one_row P k (fun c c' H => proj1 (Hkeep c c' H)) Hother (fun _ => 1) a checks rows HP A1) as [->|(c & c' & H & Hc & _ & Hk & Hn & ->)].
    + transitivity (sum_by (fun _ => 1) (counted a None) checks); [|done]. apply sum_by_le; [lia|]. intros x _. unfold counted. intros Hx. apply andb_true_iff in Hx as [-> _]. done.
    + specialize (Hroom c c' a H Hc Hk Hn). lia.
Qed.

Lemma limits_delete d p assertions : limits_ok d -> limits_ok (with_assertions assertions (with_checks (List.filter p (cd_checks d)) d)).
Proof.
  intros [A1 A2 A3 A4 A5 A6 A7]. destruct d as [? ? ? ? ? services checks]. unfold live_services, live_checks in *. cbn [cd_checks cd_services] in *.
  assert (Hin : forall c, c ∈ List.filter p checks -> c ∈ checks) by (intros c Hc; by apply filter_In_elem in Hc as [? _]).
  assert (Hsum : forall q : check_config -> bool, sum_by (fun _ => 1) q (List.filter p checks) <= sum_by (fun _ => 1) q checks).
  { intros q. clear. induction checks as [|c l IH]; [done|]. cbn [List.filter]. destruct (p c); rewrite !sum_by_cons; destruct (q c); lia. }
  split; unfold live_services, live_checks; cbn [cd_checks cd_services with_checks with_assertions]; auto.
  - pose proof (delete_where_unique kf_id (fun c => negb (p c)) checks A1) as H. unfold delete_where in H. cbn [fst] in H.
    erewrite List.filter_ext in H; [exact H|]. intros c. apply negb_involutive.
  - intros ws. specialize (A6 ws). rewrite length_sum_by in *. etransitivity; [apply Hsum | exact A6].
  - intros a. etransitivity; [apply Hsum | apply A7].
Qed.
Lemma fit_delete d p assertions : limits_ok d -> agents_fit d -> agents_fit (with_assertions assertions (with_checks (List.filter p (cd_checks d)) d)).
Proof.
  intros [_ _ _ A4 _ _ _] Hf a. cbn [cd_checks with_checks with_assertions]. etransitivity; [|apply (Hf a)]. revert A4. clear. induction (cd_checks d) as [|c l IH]; intros Hb; [done|].
  specialize (IH ltac:(intros; apply Hb; by right)). pose proof (Hb c ltac:(by left)). cbn [List.filter]. destruct (p c); rewrite !sum_by_cons; destruct (counted a None c); lia.
Qed.
(** Changes of services that keep their identity. *)
Lemma limits_services d p f : limits_ok d -> (forall s, sm_id (f s) = sm_id s /\ sm_workspace (f s) = sm_workspace s /\ sm_deleted (f s) = sm_deleted s) ->
  limits_ok (with_services (update_where p f (cd_services d)).1 d).
Proof.
  intros [A1 A2 A3 A4 A5 A6 A7] Hf. destruct d as [? ? ? ? ? services checks]. unfold live_services, live_checks in *. cbn [cd_checks cd_services] in *.
  set (g s := if p s then f s else s).
  assert (Hg : forall s, sm_id (g s) = sm_id s /\ sm_workspace (g s) = sm_workspace s /\ live_service (g s) = live_service s).
  { intros s. unfold g, live_service. destruct (Hf s) as (E1 & E2 & E3). destruct (p s); [by rewrite E1, E2, E3 | done]. }
  change (update_where p f services).1 with (map g services).
  split; unfold live_services, live_checks; cbn [cd_checks cd_services with_services]; try done.
  - intros c Hc. specialize (A2 c Hc). apply has_key_elem. apply has_key_elem in A2. rewrite map_map. erewrite map_ext; [exact A2|]. intros s. apply Hg.
  - intros ws. specialize (A5 ws). rewrite length_sum_by in *. etransitivity; [|exact A5]. apply Z.eq_le_incl. clear - Hg. induction services as [|s l IH]; [done|].
    cbn [map]. rewrite !sum_by_cons, IH. destruct (Hg s) as (_ & -> & ->). done.
  - intros ws. etransitivity; [|exact (A6 ws)]. apply Z.eq_le_incl. do 2 f_equal. apply List.filter_ext. intros c. f_equal. clear - Hg.
    induction services as [|s l IH]; [done|]. cbn. rewrite IH. destruct (Hg s) as (-> & _ & ->). done.
Qed.

(** ** The batches *)

(** The limits, and with [b] also the sizes. *)
Definition core (b : bool) (d : config_db) : Prop := limits_ok d /\ (b = true -> agents_fit d).
Lemma core_ext b d d' : cd_services d' = cd_services d -> cd_checks d' = cd_checks d -> core b d -> core b d'.
Proof. intros Es Ec [H1 H2]. split; [by apply (limits_ext d)|]. intros Hb. apply (fit_ext d); auto. Qed.
Lemma core_quiet b l n d d' rs : Forall quiet l -> batch_from n l d = Ok (d', rs) -> core b d -> core b d'.
Proof. intros Hl H. destruct (quiet_batch l Hl n d d' rs H). by apply core_ext. Qed.

Ltac quiet_all := repeat first [apply Forall_nil_2 | apply Forall_cons_2 | apply Forall_app_2 | by apply quiet_insert | by apply quiet_delete | solve [auto with alphaping]].

(** [H] ran statements that leave services and checks alone. *)
Ltac by_quiet H := eapply core_quiet; [|exact H|]; [quiet_all|].

Section Batches.
Context `{UA : UrlApi} `{WC : WebCrypto} `{LO : Locale} (fr : fresh) (b : bool).

(** The executor an action read is the one of its form. *)
Definition executor_read (input : CreateServiceMonitorInput) (machine : option executor_row) : Prop :=
  match machine with
  | Some a => mi_executorKind input = "agent" /\ xr_id a = mi_executorAgentId input
  | None => mi_executorKind input <> "agent"
  end.
Lemma insert_select_effect {R} get set constraints guard (row : config_db -> option R) d n d' m : insert_select get set constraints guard row d n = Ok (d', m) ->
  (guard d = false /\ d' = d /\ m = 0) \/
  exists r, guard d = true /\ row d = Some r /\ constraints r d = true /\ d' = set (get d ++ [r])%list d /\ m = 1.
Proof.
  unfold insert_select. destruct (guard d) eqn:Eg; [|intros [= <- <-]; by left]. destruct (row d) as [r|]; [|done]. destruct (negb _) eqn:E; [done|].
  intros [= <- <-]. right. exists r. by apply negb_false_iff in E.
Qed.
Lemma assigned_capacity id ws capacity otherwise d a : assigned_revision (Some id) ws capacity otherwise d = Some a -> AGENT_CAPACITY_CONDITION capacity d = true.
Proof.
  unfold assigned_revision. intros H. apply fmap_Some in H as (m & Hm & _). apply find_some in Hm as [_ Hm]. by bool_hyps.
Qed.
(** The new check has room where it runs. *)
Lemma new_check_room ws serviceId name pk input compiled bytes machine assignment d : executor_read input machine ->
  assigned_revision (xr_machine <$> machine) ws (capacity_or_none (agent_capacity machine bytes) None bytes) 0 d = Some assignment ->
  let c := new_check fr ws serviceId name pk input compiled bytes assignment in
  room_for (fun _ => 1) MAX_AGENT_CHECKS c d /\ room_for kf_bytes MAX_AGENT_CONFIG_BYTES c d /\ (kf_agent c <> None -> kf_executor c = agent).
Proof.
  intros Hm Ha c. cbn [kf_agent kf_executor new_check c]. unfold executor_of. destruct machine as [a|]; cbn [executor_read] in Hm.
  - destruct Hm as [Hk Hid]. apply assigned_capacity, capacity_spec in Ha as [H1 H2]; [|done]. cbn in H1, H2.
    assert (Hc : forall i, counted i None c = true -> i = xr_id a).
    { intros i Hi. unfold counted in Hi. cbn [c new_check kf_agent] in Hi. rewrite Hk, String.eqb_refl in Hi. bool_hyps. congruence. }
    split_and!; [| | by rewrite Hk].
    + intros i Hi. apply Hc in Hi as ->. cbn. lia.
    + intros i Hi. apply Hc in Hi as ->. cbn. lia.
  - assert (Hc : forall i, counted i None c = false).
    { intros i. unfold counted. cbn [c new_check kf_agent]. by rewrite (proj2 (String.eqb_neq _ _)). }
    split_and!; [intros i; by rewrite Hc | intros i; by rewrite Hc | by rewrite (proj2 (String.eqb_neq _ _))].
Qed.
Lemma check_statement_core guard machine ws serviceId name pk input compiled bytes d n d' m : core b d -> executor_read input machine -> 0 <= bytes ->
  (guard d = true -> Z.of_nat (length (live_checks ws d)) < MAX_WORKSPACE_CHECKS) ->
  check_statement fr guard (xr_machine <$> machine) (capacity_or_none (agent_capacity machine bytes) None bytes) ws serviceId name pk input compiled bytes d n = Ok (d', m) ->
  core b d'.
Proof.
  intros [HL HF] Hm Hb Hg H. unfold check_statement in H. apply insert_select_effect in H as [(_ & -> & _)|(c & Hgd & Hrow & Hc & -> & _)]; [done|].
  apply fmap_Some in Hrow as (assignment & Ha & ->). destruct (new_check_room ws serviceId name pk input compiled bytes machine assignment d Hm Ha) as (R1 & R2 & R3).
  split; [|intros E; apply fit_insert_check; auto]. apply limits_insert_check; auto.
Qed.
Lemma configurationBytes_nonneg compiled preserved : 0 <= preserved -> 0 <= configurationBytes compiled preserved.
Proof.
  intros H. unfold configurationBytes, blen.
  assert (0 <= sumZ (map (fun secret => Z.of_nat (length (ci_wrappedValue secret))) (cf_secrets compiled))); [|lia].
  unfold sumZ. induction (cf_secrets compiled) as [|x l IH]; cbn [map foldr]; lia.
Qed.

(** The statement that advances the machine comes first, if there is one. *)
Lemma advance_quiet {A} (machine : option A) (f : A -> statement) : (forall a, quiet (f a)) -> Forall quiet (match machine with Some a => [f a] | None => [] end).
Proof. intros H. destruct machine; quiet_all; auto. Qed.

Lemma create_batch_core access userId input compiled bytes machine servicePk checkPk slug d d' rs : core b d -> executor_read input machine -> 0 <= bytes ->
  has_key sm_id (fr_service fr) (cd_services d) = false ->
  batch (create_statements fr access userId input compiled bytes machine servicePk checkPk slug) d = Ok (d', rs) -> core b d'.
Proof.
  intros HI Hm Hb Hfresh H. unfold batch, create_statements in H. set (ws := m_workspaceId access) in *. cbv zeta in H.
  apply batch_app in H as (d1 & n1 & r1 & r2 & H1 & H & _ & _). apply quiet_batch in H1 as [Es Ec]; [|apply advance_quiet; auto with alphaping].
  apply (core_ext b d d1 Es Ec) in HI as HI1. rewrite <- Es in Hfresh. clear HI Es Ec.
  apply batch_app in H as (d6 & n6 & r3 & r4 & H2 & H3 & _ & _). by_quiet H3. clear H3 d' r4.
  apply batch_cons in H2 as (d2 & n2 & r5 & Hs & H2 & _). apply batch_cons in H2 as (d3 & n3 & r6 & Ha & H2 & _).
  apply batch_cons in H2 as (d4 & n4 & r7 & Hc & H2 & _).
  assert (HI4 : core b d4).
  { apply quiet_audit in Ha as [Es Ec].
    assert (HI2 : core b d2 /\ (service_live (fr_service fr) ws d2 = true -> Z.of_nat (length (live_checks ws d2)) < MAX_WORKSPACE_CHECKS)).
    { apply insert_select_effect in Hs as [(Hg & -> & _)|(s & Hg & [= <-] & Hi & -> & _)].
      - split; [done|]. unfold service_live. intros Hl. apply existsb_exists_elem in Hl as (s & Hs & Hl). bool_hyps.
        assert (has_key sm_id (fr_service fr) (cd_services d1) = true); [|congruence]. apply has_key_elem. rewrite <- H. by apply (list_elem_of_fmap_2 sm_id).
      - unfold creation_allowed, finalWorkspaceMonitorCapacityCondition in Hg.
        apply andb_true_iff in Hg as [_ Hg]. apply andb_true_iff in Hg as [Gs Gk]. cbn [negb orb] in Gs.
        apply fewer_than_spec in Gs; [|done]. apply fewer_than_spec in Gk; [|done]. destruct HI1 as [HL HF].
        destruct (limits_insert_service d1 _ HL Hi) as [HL' Hlive]; [done|]. split; [|intros _; by rewrite Hlive]. split; [done|]. intros E. by apply (fit_ext d1); [|apply HF]. }
    destruct HI2 as [HI2 Hroom]. eapply check_statement_core; [apply (core_ext b d2); [exact Es | exact Ec | exact HI2] | exact Hm | exact Hb | | exact Hc].
    unfold service_live, live_checks in *. rewrite Es, Ec. exact Hroom. }
  by_quiet H2. exact HI4.
Qed.
Lemma add_batch_core access userId serviceId name input compiled bytes machine checkPk d d' rs : core b d -> executor_read input machine -> 0 <= bytes ->
  batch (add_statements fr access userId serviceId name input compiled bytes machine checkPk) d = Ok (d', rs) -> core b d'.
Proof.
  intros HI Hm Hb H. unfold batch, add_statements in H. set (ws := m_workspaceId access) in *. cbv zeta in H.
  apply batch_app in H as (d1 & n1 & r1 & r2 & H1 & H & _ & _). apply (core_quiet b) in H1; [|apply advance_quiet; auto with alphaping | done].
  apply batch_app in H as (d3 & n3 & r3 & r4 & H2 & H3 & _ & _). by_quiet H3. clear H3 d' r4.
  apply batch_cons in H2 as (d2 & n2 & r5 & Hc & H2 & _). by_quiet H2.
  eapply check_statement_core; [exact H1 | exact Hm | exact Hb | | exact Hc].
  unfold add_allowed, finalWorkspaceMonitorCapacityCondition. cbn [negb orb]. intros Hg.
  apply andb_true_iff in Hg as [Hg _]. apply andb_true_iff in Hg as [_ Hg]. by apply fewer_than_spec in Hg.
Qed.

(** *** Edits of one check *)

Lemma sum_counted (w : check_config -> Z) a c l : keys_unique kf_id l -> c ∈ l -> counted a None c = true ->
  sum_by w (counted a None) l = sum_by w (counted a (Some (kf_id c))) l + w c.
Proof.
  induction l as [|x l IH]; intros Hu Hc Hn; [by apply elem_of_nil in Hc|]. apply NoDup_cons in Hu as [Hx Hu]. rewrite !sum_by_cons.
  apply elem_of_cons in Hc as [->|Hc].
  - rewrite Hn. assert (counted a (Some (kf_id x)) x = false) as -> by (unfold counted; by rewrite String.eqb_refl, andb_false_r).
    rewrite (sum_by_ext w (counted a (Some (kf_id x))) (counted a None)); [lia|]. intros y Hy. apply counted_excluding. intros E. apply Hx. rewrite <- E.
    by apply (list_elem_of_fmap_2 kf_id).
  - rewrite (counted_excluding (kf_id c)); [rewrite (IH Hu Hc Hn); lia|]. intros E. apply Hx. rewrite E. by apply (list_elem_of_fmap_2 kf_id).
Qed.
(** An edit that keeps the row's identity and executor, and has room for a row that counts. *)
Lemma update_statement_core k guard set d n d' m : core b d -> update_checks guard set d n = Ok (d', m) ->
  (forall c, guard c d = true -> kf_id c = k) ->
  (forall c c', set c d = Some c' -> kf_id c' = kf_id c /\ kf_workspace c' = kf_workspace c /\ kf_service c' = kf_service c /\ kf_executor c' = kf_executor c /\
     kf_agent c' = kf_agent c /\ (0 <= kf_bytes c -> 0 <= kf_bytes c')) ->
  (forall c c' a, c ∈ cd_checks d -> guard c d = true -> set c d = Some c' -> counted a None c' = true ->
     sum_by (fun _ => 1) (counted a (Some k)) (cd_checks d) < MAX_AGENT_CHECKS /\
     (b = true -> sum_by kf_bytes (counted a (Some k)) (cd_checks d) + kf_bytes c' <= MAX_AGENT_CONFIG_BYTES)) ->
  core b d'.
Proof.
  intros [HL HF] H Hk Hkeep Hroom. apply update_checks_spec in H as (rows & -> & H & _).
  set (P c c' := c ∈ cd_checks d /\ changed_row guard set d c c').
  assert (HP : Forall2 P (cd_checks d) rows).
  { apply Forall2_same_length_lookup. split; [by apply Forall2_length in H|]. intros i x y Hx Hy. split; [by apply list_elem_of_lookup_2 in Hx|].
    by apply (Forall2_lookup_lr _ _ _ _ _ _ H Hx Hy). }
  assert (Hkeep' : forall c c', P c c' -> kf_id c' = kf_id c /\ kf_workspace c' = kf_workspace c /\ kf_service c' = kf_service c /\ kf_executor c' = kf_executor c /\
     kf_agent c' = kf_agent c /\ (0 <= kf_bytes c -> 0 <= kf_bytes c')).
  { intros c c' [_ Hc]. unfold changed_row in Hc. destruct (guard c d); [apply Hkeep, Hc|]. by subst. }
  assert (Hother : forall c c', P c c' -> kf_id c <> k -> c' = c).
  { intros c c' [_ Hc] Hne. unfold changed_row in Hc. destruct (guard c d) eqn:E; [by apply Hk in E | done]. }
  assert (Hr : forall c c' a, P c c' -> c ∈ cd_checks d -> kf_id c = k -> counted a None c' = true ->
     sum_by (fun _ => 1) (counted a (Some k)) (cd_checks d) < MAX_AGENT_CHECKS /\
     (b = true -> sum_by kf_bytes (counted a (Some k)) (cd_checks d) + kf_bytes c' <= MAX_AGENT_CONFIG_BYTES)).
  { intros c c' a [Hc Hcc] _ Ek Hn. unfold changed_row in Hcc. destruct (guard c d) eqn:E; [by apply (Hroom c c' a Hc E (proj1 Hcc))|]. subst.
    pose proof (sum_counted (fun _ => 1) a c _ (lm_ids d HL) Hc Hn). pose proof (sum_counted kf_bytes a c _ (lm_ids d HL) Hc Hn).
    pose proof (lm_agents d HL a). cbv beta in *. split; [lia|]. intros Eb. pose proof (HF Eb a). lia. }
  split.
  - apply (limits_update P k d rows HL HP Hkeep' Hother). intros c c' a H1 H2 H3 H4. by apply (Hr c c' a H1 H2 H3 H4).
  - intros Eb a. cbn [cd_checks with_checks].
    destruct (sum_one_row P k (fun c c' H => proj1 (Hkeep' c c' H)) Hother kf_bytes a _ rows HP (lm_ids d HL)) as [->|(c & c' & H1 & H2 & _ & H3 & H4 & ->)].
    + transitivity (sum_by kf_bytes (counted a None) (cd_checks d)); [|by apply HF]. apply sum_by_le; [apply (lm_bytes d HL)|].
      intros x _. unfold counted. intros Hx. apply andb_true_iff in Hx as [-> _]. done.
    + by apply (Hr c c' a H1 H2 H3 H4).
Qed.

(** The row an edit read, as the rows with its id came from it. *)
Definition current (c0 : check_config) (d : config_db) : Prop := forall c, c ∈ cd_checks d -> kf_id c = kf_id c0 -> later c0 c.
Definition row_read (row : CheckConfigurationEditRow) : Prop := kf_agent (er_check row) <> None -> kf_executor (er_check row) = agent.
Lemma edit_room row checkId ws capacity otherwise configBytes d assignment c c' a :
  row_read row -> current (er_check row) d -> kf_id (er_check row) = checkId -> c ∈ cd_checks d -> kf_id c = checkId ->
  (by_agent (er_check row) = true -> cp_enforce capacity = true -> cp_agentId capacity = coalesce (kf_agent (er_check row)) "" /\
     cp_excluded capacity = Some checkId /\ cp_configBytes capacity = configBytes /\ er_machine row <> None) ->
  assigned_revision (edited_machine row) ws capacity otherwise d = Some assignment -> cp_enforce capacity = true \/ by_agent (er_check row) = false ->
  kf_agent c' = kf_agent c -> counted a None c' = true ->
  sum_by (fun _ => 1) (counted a (Some checkId)) (cd_checks d) < MAX_AGENT_CHECKS /\
  sum_by kf_bytes (counted a (Some checkId)) (cd_checks d) + configBytes <= MAX_AGENT_CONFIG_BYTES.
Proof.
  intros Hread Hcur Hid Hc Hk Hcap Ha Henf Hag Hn. assert (Hl : later (er_check row) c) by (apply Hcur; congruence).
  unfold counted in Hn. apply andb_true_iff in Hn as [Hn _]. apply andb_true_iff in Hn as [Hn _]. apply bool_decide_eq_true in Hn. rewrite Hag in Hn.
  assert (H0 : kf_agent (er_check row) = Some a) by (destruct (lt_agent _ _ Hl) as [E|E]; congruence).
  assert (Hby : by_agent (er_check row) = true) by (unfold by_agent; apply bool_decide_eq_true, Hread; by rewrite H0).
  destruct Henf as [Henf|]; [|congruence]. destruct (Hcap Hby Henf) as (E1 & E2 & E3 & E4).
  unfold edited_machine in Ha. rewrite Hby in Ha. destruct (er_machine row) as [id|]; [|done]. apply assigned_capacity, capacity_spec in Ha; [|done].
  rewrite E1, E2, E3, H0 in Ha. exact Ha.
Qed.
Lemma in_check_id checkId serviceId ws c : in_check checkId serviceId ws c = true -> kf_id c = checkId.
Proof. unfold in_check. intros H. by bool_hyps. Qed.

Section Edits.
Context (access : MonitoringAccess) (userId serviceId checkId : string) (row : CheckConfigurationEditRow).
Let c0 := er_check row.
Context (d d' : config_db) (rs : list Z).
Hypothesis (HI : core b d) (Hread : row_read row) (Hid : kf_id c0 = checkId) (Hcur : current c0 d).

Lemma replace_batch_core replaceSecrets name compiled bytes ids audit : 0 <= bytes -> (by_agent c0 = true -> er_machine row <> None) ->
  let capacity := if by_agent c0 then Some (AgentCapacity (coalesce (kf_agent c0) "") (Some checkId) bytes (kf_enabled c0 =? 1)) else None in
  batch (replace_statements fr access userId serviceId checkId row replaceSecrets name compiled bytes capacity ids audit) d = Ok (d', rs) -> core b d'.
Proof using HI Hread Hid Hcur.
  intros Hb Hmach capacity H. unfold batch, replace_statements in H. set (ws := m_workspaceId access) in *. cbv zeta in H.
  apply batch_app in H as (d1 & n1 & r1 & r2 & H1 & H & _ & _). apply quiet_batch in H1 as [Es Ec]; [|apply advance_quiet; auto with alphaping].
  pose proof (core_ext b d d1 Es Ec HI) as HI1. assert (Hcur1 : current c0 d1) by (unfold current; rewrite Ec; exact Hcur). clear Es Ec.
  apply batch_app in H as (d3 & n3 & r3 & r4 & H2 & H3 & _ & _). by_quiet H3; [by destruct (replaceSecrets && _)%bool; quiet_all|]. clear H3 d' r4.
  apply batch_cons in H2 as (d2 & n2 & r5 & Hu & H2 & _). by_quiet H2. clear H2 d3 n3 r5.
  eapply (update_statement_core checkId); [exact HI1 | exact Hu | | |].
  - intros c Hc. cbv beta in Hc. bool_hyps. by eapply in_check_id.
  - intros c c' Hc. apply fmap_Some in Hc as (a & _ & ->). by split_and!.
  - intros c c' a Hc Hg Hs Hn. apply fmap_Some in Hs as (assignment & Ha & ->). cbv beta in Hg. bool_hyps. assert (Hk : kf_id c = checkId) by by eapply in_check_id.
    assert (Hen : kf_enabled c0 = 1).
    { destruct (lt_same _ _ (Hcur1 c Hc ltac:(congruence)) ltac:(done)) as [E _]. unfold counted in Hn. cbn in Hn. bool_hyps. congruence. }
    destruct (edit_room row checkId ws (capacity_or_none capacity (Some checkId) bytes) (kf_assignment c) bytes d1 assignment c
      (reconfigured fr name compiled bytes assignment c) a) as [R1 R2]; try done.
    + intros Hby _. fold c0 in Hby |- *. unfold capacity. rewrite Hby. cbn. split_and!; [done | done | done | by apply Hmach].
    + unfold capacity. destruct (by_agent c0) eqn:E; [left | by right]. cbn. by rewrite Hen.
Qed.

Lemma policy_batch_core input audit : (b = true -> up_enabled input = false) -> (by_agent c0 = true -> up_enabled input = true -> er_machine row <> None) ->
  let capacity := if by_agent c0 then Some (AgentCapacity (coalesce (kf_agent c0) "") (Some checkId) (kf_bytes c0) (up_enabled input)) else None in
  batch (policy_statements fr access userId serviceId checkId row input capacity audit) d = Ok (d', rs) -> core b d'.
Proof using HI Hread Hid Hcur.
  intros Hoff Hmach capacity H. unfold batch, policy_statements in H. set (ws := m_workspaceId access) in *. cbv zeta in H.
  apply batch_app in H as (d1 & n1 & r1 & r2 & H1 & H & _ & _). apply quiet_batch in H1 as [Es Ec]; [|apply advance_quiet; auto with alphaping].
  pose proof (core_ext b d d1 Es Ec HI) as HI1. assert (Hcur1 : current c0 d1) by (unfold current; rewrite Ec; exact Hcur). clear Es Ec.
  apply batch_cons in H as (d2 & n2 & r5 & Hu & H2 & _). by_quiet H2. clear H2 r5 d'.
  eapply (update_statement_core checkId); [exact HI1 | exact Hu | | |].
  - intros c Hc. cbv beta in Hc. bool_hyps. by eapply in_check_id.
  - intros c c' Hc. apply fmap_Some in Hc as (a & _ & ->). by split_and!.
  - intros c c' a Hc Hg Hs Hn. apply fmap_Some in Hs as (assignment & Ha & ->). cbv beta in Hg. bool_hyps. assert (Hk : kf_id c = checkId) by by eapply in_check_id.
    assert (Hen : up_enabled input = true) by (destruct (up_enabled input) eqn:E; [done|]; unfold counted in Hn; cbn in Hn; rewrite E in Hn; cbn in Hn; by rewrite andb_false_r in Hn).
    destruct (edit_room row checkId ws (capacity_or_none capacity (Some checkId) (kf_bytes c0)) (kf_assignment c) (kf_bytes c0) d1 assignment c
      (rescheduled fr input assignment c) a) as [R1 R2]; try done.
    + intros Hby _. fold c0 in Hby |- *. unfold capacity. rewrite Hby. cbn. split_and!; [done | done | done | by apply Hmach].
    + unfold capacity. destruct (by_agent c0) eqn:E; [left | by right]. cbn. done.
    + split; [done|]. intros Eb. specialize (Hoff Eb). congruence.
Qed.

Lemma delete_batch_core audit : batch (delete_statements fr access userId serviceId checkId row audit) d = Ok (d', rs) -> core b d'.
Proof using HI.
  intros H. unfold batch, delete_statements in H. set (ws := m_workspaceId access) in *. cbv zeta in H.
  apply batch_app in H as (d1 & n1 & r1 & r2 & H1 & H & _ & _). apply quiet_batch in H1 as [Es Ec]; [|apply advance_quiet; auto with alphaping].
  pose proof (core_ext b d d1 Es Ec HI) as HI1. clear Es Ec.
  apply batch_app in H as (d3 & n3 & r3 & r4 & H2 & H3 & _ & _). by_quiet H3; [by destruct (bool_decide _); quiet_all|]. clear H3 d' r4.
  apply batch_cons in H2 as (d2 & n2 & r5 & Hu & H2 & _). by_quiet H2. clear H2 d3 n3 r5.
  unfold delete_checks, delete_where in Hu. injection Hu as <- _. destruct HI1 as [HL HF]. split; [by apply limits_delete|]. intros E. apply fit_delete; auto.
Qed.
End Edits.

Lemma maintenance_batch_core access userId serviceId until audit job d d' rs : core b d ->
  batch (maintenance_statements fr access userId serviceId until audit job) d = Ok (d', rs) -> core b d'.
Proof.
  intros [HL HF] H. unfold batch, maintenance_statements in H. apply batch_cons in H as (d1 & n1 & r1 & Hu & H & _). by_quiet H. clear H r1 d'.
  unfold update_rows in Hu. destruct (update_where _ _ _) as [rows n] eqn:E in Hu. injection Hu as <- _.
  replace rows with ((update_where (fun s => String.eqb (sm_id s) serviceId && String.eqb (sm_workspace s) (m_workspaceId access) && live_service s &&
        may access userId RService (sm_workspace s) (sm_id s) d) (maintained fr until) (cd_services d)).1) by (by rewrite E).
  split; [apply limits_services; [done | intros s; by split_and!]|]. intros Eb. apply (fit_ext d); [done | by apply HF].
Qed.
Lemma public_batch_quiet access userId serviceId isPublic audit : Forall quiet (public_statements fr access userId serviceId isPublic audit).
Proof.
  assert (Hu : forall R K `(EqDecision K) (key : R -> K) get set guard update (r : R), (forall v d, cd_services (set v d) = cd_services d /\ cd_checks (set v d) = cd_checks d) ->
    quiet (upsert_select key get set guard update r)).
  { intros R K ? key get set guard update r Hset d n d' m. unfold upsert_select. destruct (guard d); [|by intros [= <- _]]. destruct (upsert _ _ _ _ _). intros [= <- _]. apply Hset. }
  assert (Hr : forall R (get : config_db -> list R) set guard f, (forall v d, cd_services (set v d) = cd_services d /\ cd_checks (set v d) = cd_checks d) ->
    quiet (update_rows get set guard f)).
  { intros R get set guard f Hset d n d' m. unfold update_rows. destruct (update_where _ _ _). intros [= <- _]. apply Hset. }
  unfold public_statements. destruct isPublic; quiet_all; first [by apply Hu | by apply Hr].
Qed.
End Batches.

(** ** What a batch leaves alone *)

Section Tame.
Context `{UA : UrlApi} `{WC : WebCrypto} `{LO : Locale} (fr : fresh).

(** Everything but the check and the service that the action may create. *)
Definition tame (st : statement) : Prop := forall d n d' m, st d n = Ok (d', m) ->
  forall k sid, k <> fr_check fr -> sid <> fr_service fr -> came k sid d d'.
Lemma came_ext k sid d d' : cd_services d' = cd_services d -> cd_checks d' = cd_checks d -> came k sid d d'.
Proof. intros Es Ec. split; [|by rewrite Es]. rewrite Ec. intros c Hc Hk. by exists c. Qed.
Lemma quiet_tame st : quiet st -> tame st.
Proof. intros H d n d' m E k sid _ _. destruct (H d n d' m E). by apply came_ext. Qed.
Lemma tame_batch l : Forall tame l -> forall n d d' rs, batch_from n l d = Ok (d', rs) ->
  forall k sid, k <> fr_check fr -> sid <> fr_service fr -> came k sid d d'.
Proof.
  induction 1 as [|st l Hst Hl IH]; intros n d d' rs H k sid Hk Hs; [by injection H as <- _|].
  apply batch_cons in H as (d1 & m & rs' & H1 & H & _). transitivity d1; [by apply (Hst d n d1 m H1) | by apply (IH m d1 d' rs' H)].
Qed.
Lemma tame_quiets l : Forall quiet l -> Forall tame l.
Proof. intros H. eapply Forall_impl; [exact H|]. apply quiet_tame. Qed.
Lemma tame_insert_service constraints guard row : (forall d s, row d = Some s -> sm_id s = fr_service fr) ->
  tame (insert_select cd_services with_services constraints guard row).
Proof.
  intros Hrow d n d' m H k sid Hk Hs. apply insert_select_effect in H as [(_ & -> & _)|(s & _ & Hr & _ & -> & _)]; [reflexivity|].
  apply Hrow in Hr. split; cbn [cd_checks cd_services with_services]; [intros c Hc Hkc; by exists c|]. intros Hf. apply not_true_is_false. intros Ht.
  apply has_key_elem in Ht. rewrite map_app in Ht. apply elem_of_app in Ht as [Ht|Ht]; [apply has_key_elem in Ht; congruence|].
  apply list_elem_of_singleton in Ht. congruence.
Qed.
Lemma tame_check guard machine capacity ws sid name pk input compiled bytes : tame (check_statement fr guard machine capacity ws sid name pk input compiled bytes).
Proof.
  intros d n d' m H k s Hk Hs. unfold check_statement in H. apply insert_select_effect in H as [(_ & -> & _)|(c & _ & Hr & _ & -> & _)]; [reflexivity|].
  apply fmap_Some in Hr as (a & _ & ->). split; [|done]. cbn [cd_checks with_checks]. intros c Hc Hkc. apply elem_of_app in Hc as [Hc|Hc]; [by exists c|].
  apply list_elem_of_singleton in Hc as ->. by destruct Hk.
Qed.
Lemma tame_update guard set : (forall c c' d, set c d = Some c' -> kf_id c' = kf_id c /\ kf_executor c' = kf_executor c /\ kf_agent c' = kf_agent c) ->
  tame (update_checks guard set).
Proof.
  intros Hset d n d' m H k sid Hk Hs. apply update_checks_spec in H as (rows & -> & H & _). split; [|done]. cbn [cd_checks with_checks]. intros c' Hc Hkc.
  apply list_elem_of_lookup in Hc as [i Hi]. destruct (Forall2_lookup_r _ _ _ _ _ H Hi) as (c & Hc & HP). apply list_elem_of_lookup_2 in Hc.
  unfold changed_row in HP. destruct (guard c d); [|subst; by exists c]. destruct HP as [HP Hrev]. destruct (Hset c c' d HP) as (E1 & E2 & E3).
  exists c. split_and!; [done | congruence|]. split; [done | by left | lia | intros ?; exfalso; lia].
Qed.
Lemma tame_delete guard : tame (delete_checks guard).
Proof.
  intros d n d' m H k sid Hk Hs. unfold delete_checks, delete_where in H. injection H as <- _. split; [|done]. cbn [cd_checks with_checks with_assertions].
  intros c Hc Hkc. apply filter_In_elem in Hc as [Hc _]. by exists c.
Qed.
Lemma tame_services guard f : (forall s, sm_id (f s) = sm_id s) -> tame (update_rows cd_services with_services guard f).
Proof.
  intros Hf d n d' m H k sid Hk Hs. unfold update_rows, update_where in H. injection H as <- _. split; cbn [cd_checks cd_services with_services]; [intros c Hc Hkc; by exists c|].
  intros Hn. rewrite <- Hn. clear Hn. unfold has_key. induction (cd_services d) as [|s l IH]; [done|]. cbn. f_equal; [|exact IH].
  unfold key_is. destruct (guard s d); [by rewrite Hf | done].
Qed.
End Tame.

(** ** The actions *)

Ltac stab := repeat first [apply stable_seen; [exact _|] | apply stable_and]; solve [eauto with alphaping].
Ltac peel := let s := fresh in let H := fresh in intros s H; repeat first [exact H | destruct H as [H _]].
Ltac bind_ask x := eapply safe_bind; [apply safe_ask; first [exact _ | stab | peel] | intros x; cbv beta].
Ltac bind_lift x := eapply safe_bind; [apply safe_lift; peel | intros x; cbv beta].
Ltac bind_refuse := eapply safe_bind; [apply safe_refuse; peel | intros ?; cbv beta].
Ltac bind_by L x := eapply safe_bind; [apply L; [stab | peel] | intros x; cbv beta].

(** ** A service keeps a check *)

Definition served (d : config_db) : Prop := forall s, s ∈ cd_services d -> live_service s = true -> exists c, c ∈ cd_checks d /\ kf_service c = sm_id s.
Lemma served_ext d d' : cd_services d' = cd_services d -> cd_checks d' = cd_checks d -> served d -> served d'.
Proof. unfold served. by intros -> ->. Qed.
Lemma served_more d d' : cd_services d' = cd_services d -> (forall c, c ∈ cd_checks d -> exists c', c' ∈ cd_checks d' /\ kf_service c' = kf_service c) -> served d -> served d'.
Proof.
  intros Es Hc H s Hs Hl. rewrite Es in Hs. destruct (H s Hs Hl) as (c & Hin & E). destruct (Hc c Hin) as (c' & Hin' & E'). exists c'. split; [done | congruence].
Qed.
Section Served.
Context `{UA : UrlApi} `{WC : WebCrypto} `{LO : Locale} (fr : fresh).
Lemma check_statement_served guard machine capacity ws sid name pk input compiled bytes d n d' m :
  check_statement fr guard machine capacity ws sid name pk input compiled bytes d n = Ok (d', m) -> cd_services d' = cd_services d /\
  (forall c, c ∈ cd_checks d -> c ∈ cd_checks d') /\ (guard d = true -> exists c, c ∈ cd_checks d' /\ kf_service c = sid).
Proof.
  unfold check_statement. intros H. apply insert_select_effect in H as [(Hg & -> & _)|(c & Hg & Hr & _ & -> & _)]; [split_and!; [done | done | congruence]|].
  cbn [cd_checks cd_services with_checks]. split_and!; [done | intros x Hx; apply elem_of_app; by left|]. intros _. apply fmap_Some in Hr as (a & _ & ->). eexists.
  split; [apply elem_of_app; right; by apply list_elem_of_singleton | done].
Qed.
Lemma create_batch_served access userId input compiled bytes machine servicePk checkPk slug d d' rs : served d ->
  batch (create_statements fr access userId input compiled bytes machine servicePk checkPk slug) d = Ok (d', rs) -> served d'.
Proof.
  intros HI H. unfold batch, create_statements in H. set (ws := m_workspaceId access) in *. cbv zeta in H.
  apply batch_app in H as (d1 & n1 & r1 & r2 & H1 & H & _ & _). apply quiet_batch in H1 as [Es Ec]; [|apply advance_quiet; auto with alphaping].
  apply (served_ext d d1 Es Ec) in HI as HI1. clear HI Es Ec.
  apply batch_app in H as (d6 & n6 & r3 & r4 & H2 & H3 & _ & _). apply quiet_batch in H3 as [Es6 Ec6]; [|quiet_all]. apply (served_ext d6 d' Es6 Ec6). clear Es6 Ec6 d' r4.
  apply batch_cons in H2 as (d2 & n2 & r5 & Hs & H2 & _). apply batch_cons in H2 as (d3 & n3 & r6 & Ha & H2 & _).
  apply batch_cons in H2 as (d4 & n4 & r7 & Hc & H2 & _). apply quiet_batch in H2 as [Es6 Ec6]; [|quiet_all]. apply (served_ext d4 d6 Es6 Ec6). clear Es6 Ec6 d6 r7.
  apply quiet_audit in Ha as [Es Ec]. apply check_statement_served in Hc as (Es4 & Hmore & Hnew).
  apply insert_select_effect in Hs as [(Hg & -> & _)|(s & Hg & [= <-] & Hi & -> & _)].
  - apply (served_more d1); [congruence | | exact HI1]. intros c Hcin. exists c. split; [|done]. apply Hmore. by rewrite Ec.
  - intros x Hx Hl. rewrite Es4, Es in Hx. cbn [cd_services with_services] in Hx. apply elem_of_app in Hx as [Hx|Hx].
    + destruct (HI1 x Hx Hl) as (c & Hcin & E). exists c. split; [|done]. apply Hmore. by rewrite Ec.
    + apply list_elem_of_singleton in Hx as ->. destruct Hnew as (c & Hcin & E); [|by exists c]. unfold service_live. rewrite Es. cbn [cd_services with_services].
      rewrite existsb_app. cbn. by rewrite !String.eqb_refl, orb_true_r.
Qed.
(** The other batches: what happens to the checks, and nothing to the services' identity. *)
Lemma add_batch_served access userId serviceId name input compiled bytes machine checkPk d d' rs : served d ->
  batch (add_statements fr access userId serviceId name input compiled bytes machine checkPk) d = Ok (d', rs) -> served d'.
Proof.
  intros HI H. unfold batch, add_statements in H. cbv zeta in H.
  apply batch_app in H as (d1 & n1 & r1 & r2 & H1 & H & _ & _). apply quiet_batch in H1 as [Es Ec]; [|apply advance_quiet; auto with alphaping].
  apply batch_app in H as (d3 & n3 & r3 & r4 & H2 & H3 & _ & _). apply quiet_batch in H3 as [Es3 Ec3]; [|quiet_all]. apply (served_ext d3 d' Es3 Ec3).
  apply batch_cons in H2 as (d2 & n2 & r5 & Hc & H2 & _). apply quiet_batch in H2 as [Es2 Ec2]; [|quiet_all]. apply (served_ext d2 d3 Es2 Ec2).
  apply check_statement_served in Hc as (Es4 & Hmore & _). apply (served_more d); [congruence | | done]. intros c Hcin. exists c. split; [|done]. apply Hmore. by rewrite Ec.
Qed.
Lemma update_served guard set d n d' m : (forall c c' d, set c d = Some c' -> kf_service c' = kf_service c) -> update_checks guard set d n = Ok (d', m) -> served d -> served d'.
Proof.
  intros Hset H. apply update_checks_spec in H as (rows & -> & H & _). apply served_more; [done|]. cbn [cd_checks with_checks]. intros c Hc.
  apply list_elem_of_lookup in Hc as [i Hi]. destruct (Forall2_lookup_l _ _ _ _ _ H Hi) as (c' & Hc' & HP). exists c'. split; [by apply list_elem_of_lookup_2 in Hc'|].
  unfold changed_row in HP. destruct (guard c d); [apply (Hset c c' d), HP | by subst].
Qed.
Lemma replace_batch_served access userId serviceId checkId row replaceSecrets name compiled bytes capacity ids audit d d' rs : served d ->
  batch (replace_statements fr access userId serviceId checkId row replaceSecrets name compiled bytes capacity ids audit) d = Ok (d', rs) -> served d'.
Proof.
  intros HI H. unfold batch, replace_statements in H. cbv zeta in H.
  apply batch_app in H as (d1 & n1 & r1 & r2 & H1 & H & _ & _). apply quiet_batch in H1 as [Es Ec]; [|apply advance_quiet; auto with alphaping].
  apply batch_app in H as (d3 & n3 & r3 & r4 & H2 & H3 & _ & _). apply quiet_batch in H3 as [Es3 Ec3]; [|destruct (replaceSecrets && _)%bool; quiet_all]. apply (served_ext d3 d' Es3 Ec3).
  apply batch_cons in H2 as (d2 & n2 & r5 & Hu & H2 & _). apply quiet_batch in H2 as [Es2 Ec2]; [|quiet_all]. apply (served_ext d2 d3 Es2 Ec2).
  eapply update_served; [|exact Hu | by apply (served_ext d)]. by intros ? ? ? (?&_&->)%fmap_Some.
Qed.
Lemma policy_batch_served access userId serviceId checkId row input capacity audit d d' rs : served d ->
  batch (policy_statements fr access userId serviceId checkId row input capacity audit) d = Ok (d', rs) -> served d'.
Proof.
  intros HI H. unfold batch, policy_statements in H. cbv zeta in H.
  apply batch_app in H as (d1 & n1 & r1 & r2 & H1 & H & _ & _). apply quiet_batch in H1 as [Es Ec]; [|apply advance_quiet; auto with alphaping].
  apply batch_cons in H as (d2 & n2 & r5 & Hu & H2 & _). apply quiet_batch in H2 as [Es2 Ec2]; [|quiet_all]. apply (served_ext d2 d' Es2 Ec2).
  eapply update_served; [|exact Hu | by apply (served_ext d)]. by intros ? ? ? (?&_&->)%fmap_Some.
Qed.
Lemma delete_batch_served access userId serviceId checkId row audit d d' rs : served d ->
  batch (delete_statements fr access userId serviceId checkId row audit) d = Ok (d', rs) -> served d'.
Proof.
  intros HI H. unfold batch, delete_statements in H. set (ws := m_workspaceId access) in *. cbv zeta in H.
  apply batch_app in H as (d1 & n1 & r1 & r2 & H1 & H & _ & _). apply quiet_batch in H1 as [Es Ec]; [|apply advance_quiet; auto with alphaping].
  apply (served_ext d d1 Es Ec) in HI. clear Es Ec.
  apply batch_app in H as (d3 & n3 & r3 & r4 & H2 & H3 & _ & _). apply quiet_batch in H3 as [Es3 Ec3]; [|destruct (bool_decide _); quiet_all]. apply (served_ext d3 d' Es3 Ec3).
  apply batch_cons in H2 as (d2 & n2 & r5 & Hu & H2 & _). apply quiet_batch in H2 as [Es2 Ec2]; [|quiet_all]. apply (served_ext d2 d3 Es2 Ec2).
  unfold delete_checks, delete_where in Hu. injection Hu as <- _. revert HI. apply served_more; [done|]. cbn [cd_checks with_checks with_assertions]. intros c Hc.
  match goal with |- context [List.filter ?p _] => set (kept := p) end. destruct (kept c) eqn:E; [exists c; split; [by apply filter_In_elem | done]|].
  unfold kept in E. apply negb_false_iff in E. apply andb_true_iff in E as [E Ho]. apply andb_true_iff in E as [E _]. apply in_check_id in E as Hid.
  unfold other_check in Ho. apply existsb_exists_elem in Ho as (r & Hr & Hne). apply filter_In_elem in Hr as [Hr Hk]. bool_hyps.
  exists r. split; [|done]. apply filter_In_elem. split; [done|]. unfold kept, in_check. rewrite (proj2 (String.eqb_neq (kf_id r) checkId)) by congruence. done.
Qed.
Lemma maintenance_batch_served access userId serviceId until audit job d d' rs : served d ->
  batch (maintenance_statements fr access userId serviceId until audit job) d = Ok (d', rs) -> served d'.
Proof.
  intros HI H. unfold batch, maintenance_statements in H. apply batch_cons in H as (d1 & n1 & r1 & Hu & H & _). apply quiet_batch in H as [Es Ec]; [|quiet_all].
  apply (served_ext d1 d' Es Ec). unfold update_rows, update_where in Hu. injection Hu as <- _. intros s Hs Hl. cbn [cd_checks cd_services with_services] in *.
  apply list_elem_of_fmap in Hs as (s0 & -> & Hs0). destruct (HI s0 Hs0) as (c & Hc & E); [|exists c]; destruct (_ && may _ _ _ _ _ _)%bool; done.
Qed.
End Served.

(** What holds throughout. *)
Definition inv (b : bool) (d : config_db) : Prop := core b d /\ served d.
Lemma inv_ext b d d' : cd_services d' = cd_services d -> cd_checks d' = cd_checks d -> inv b d -> inv b d'.
Proof. intros Es Ec [H1 H2]. split; [by apply (core_ext b d) | by apply (served_ext d)]. Qed.

Ltac tame_all := repeat first [progress cbv zeta | apply Forall_nil_2 | apply Forall_cons_2 | apply Forall_app_2 | apply tame_check | apply tame_delete
  | by apply tame_insert_service; intros ? ? [= <-] | by apply tame_services | apply tame_update; by intros ? ? ? (?&_&->)%fmap_Some
  | apply quiet_tame; first [by apply quiet_insert | by apply quiet_delete | solve [auto with alphaping]]
  | apply tame_quiets; first [by apply advance_quiet; auto with alphaping | solve [auto with alphaping]]
  | match goal with |- Forall _ (if ?b then _ else _) => destruct b end].

Section Contracts.
Context `{UA : UrlApi} `{WC : WebCrypto} `{LO : Locale} (nfkd : string -> string) (fr : fresh) (b : bool) (checkId serviceId : string).
Local Notation R := (rely (inv b) checkId serviceId).
Local Notation G := (guarantee (inv b) (fr_check fr) (fr_service fr)).

Lemma rely_quiet d d' : cd_services d' = cd_services d -> cd_checks d' = cd_checks d -> R d d' /\ G d d'.
Proof. intros Es Ec. split; (intros HI; split; [by apply (inv_ext b d)|]); intros; by apply came_ext. Qed.
Lemma stable_inv : stable R (inv b).
Proof. intros d d' H HR. by apply HR. Qed.
Lemma safe_quiet {A} P J (f : config_db -> res (config_db * A)) : stable R P -> (forall s, P s -> J s) ->
  (forall d d' a, f d = Ok (d', a) -> cd_services d' = cd_services d /\ cd_checks d' = cd_checks d) -> safe R G P (write f) (fun _ => P) J.
Proof.
  intros HP HJ Hf. apply safe_write; [exact _ | done|]. intros s Hs. destruct (f s) as [[s' a]|e] eqn:E; [|by apply HJ].
  apply Hf in E as [Es Ec]. destruct (rely_quiet s s' Es Ec) as [H1 H2]. split; [done | by apply (HP s)].
Qed.
Lemma safe_sequence kind P J : stable R P -> (forall s, P s -> J s) -> safe R G P (settle (nextSequence kind)) (fun _ => P) J.
Proof.
  intros HP HJ. apply safe_settle, safe_quiet; [done | done|]. intros d d' a. destruct (obj_get kind (cd_sequences d)); [by intros [= <- _] | done].
Qed.
Lemma safe_slug_from fuel ws base P J : stable R P -> (forall s, P s -> J s) -> forall suffix, safe R G P (slug_from fuel ws base suffix) (fun _ => P) J.
Proof.
  intros HP HJ. induction fuel as [|fuel IH]; intros suffix; cbn [slug_from].
  - eapply safe_weaken; [apply safe_lift; exact HJ | done | by intros a s [H _] | done].
  - eapply safe_bind; [apply safe_ask; first [exact _ | exact HP | exact HJ]|]. intros existing. cbv beta. destruct (negb existing).
    + apply safe_ret. by intros s [H _].
    + eapply safe_weaken; [apply IH | by intros s [H _] | done | done].
Qed.
Lemma safe_slug ws name P J : stable R P -> (forall s, P s -> J s) -> safe R G P (settle (availableSlug nfkd ws name)) (fun _ => P) J.
Proof.
  intros HP HJ. apply safe_settle. unfold availableSlug. by apply safe_slug_from.
Qed.
Lemma safe_workspace_capacity ws services P J : stable R P -> (forall s, P s -> J s) -> safe R G P (assertWorkspaceMonitorCapacity ws services) (fun _ => P) J.
Proof.
  intros HP HJ. unfold assertWorkspaceMonitorCapacity. eapply safe_bind; [apply safe_ask; first [exact _ | exact HP | exact HJ]|]. intros available. cbv beta.
  destruct available; [apply safe_ret; by intros s [H _]|]. eapply safe_bind with (M := fun _ => P).
  - destruct services; [|apply safe_ret; by intros s [H _]]. eapply safe_weaken; [apply safe_ask; first [exact _ | exact HP | exact HJ] | by intros s [H _] | by intros a s [H _] | done].
  - intros available. eapply safe_weaken; [apply safe_lift; exact HJ | done | by intros a s [H _] | done].
Qed.
Lemma safe_agent_capacity capacity P J : stable R P -> (forall s, P s -> J s) -> safe R G P (assertAgentCapacity capacity) (fun _ => P) J.
Proof.
  intros HP HJ. unfold assertAgentCapacity. destruct (negb _); [by apply safe_ret|].
  eapply safe_weaken; [apply safe_ask; first [exact _ | exact HP | exact HJ] | done | by intros a s [H _] | done].
Qed.
Lemma safe_load_agent input ws P J : stable R P -> (forall s, P s -> J s) ->
  safe R G P (load_agent input ws) (fun machine s => P s /\ (mi_executorKind input = "agent" /\ machine = None \/ executor_read input machine)) J.
Proof.
  intros HP HJ. unfold load_agent. destruct (String.eqb _ _) eqn:E.
  - apply String.eqb_eq in E. eapply safe_weaken; [apply safe_ask; first [exact _ | exact HP | exact HJ] | done | | done].
    intros machine s [Hs (s0 & _ & _ & [= <-])]. split; [done|]. destruct (find_agent _ _ s0) as [a|] eqn:Ea; [right | by left]. split; [done|].
    unfold find_agent in Ea. apply fmap_Some in Ea as (x & Hx & ->). apply find_some in Hx as [_ Hx]. bool_hyps. done.
  - apply String.eqb_neq in E. apply safe_ret. intros s Hs. split; [done | by right].
Qed.
Lemma safe_commit statements capacity ix message P (J : config_db -> Prop) : stable R P -> (forall s, P s -> J s) ->
  (forall s, P s -> inv b s) -> (forall s, J s -> inv b s) -> Forall (tame fr) statements ->
  (forall d d' rs, P d -> batch statements d = Ok (d', rs) -> J d') -> safe R G P (commit statements capacity ix message) (fun _ => J) J.
Proof.
  intros HP HJ HPI HJI Ht Hb. unfold commit. eapply safe_bind with (M := fun _ => J).
  - eapply safe_catch with (K := P).
    + apply safe_write; [exact _ | exact HP|]. intros s Hs. destruct (batch statements s) as [[s' rs]|e] eqn:E; [|done].
      pose proof (Hb s s' rs Hs E) as HJ'. split; [|done]. intros _. split; [by apply HJI|]. exact (tame_batch fr statements Ht 0 s s' rs E).
    + intros e. eapply safe_bind with (M := fun _ => P).
      * destruct capacity; [by apply safe_agent_capacity | by apply safe_ret].
      * intros _. eapply safe_weaken; [apply safe_lift; exact HJ | done | by intros a s [H [=]] | done].
  - intros results. eapply safe_bind; [apply safe_refuse; done|]. intros u. apply safe_ret. by intros s [H _].
Qed.
Lemma safe_sync job P J : stable R P -> (forall s, P s -> J s) -> safe R G P (applyServiceStateSyncOrDefer fr job) (fun _ => P) J.
Proof.
  intros HP HJ. apply safe_quiet; [done | done|]. intros d d' a. destruct (applyServiceStateSyncJob _ _ _ _). by intros [= <- _].
Qed.

Definition unborn (d : config_db) : Prop := inv b d /\ has_key sm_id (fr_service fr) (cd_services d) = false.
Ltac unstack H := repeat lazymatch type of H with inv _ _ => fail | unborn _ => fail | _ => destruct H as [H ?] end.

(** *** The row an edit reads *)

Lemma load_check_spec k s ws d row : load_check k s ws d = Ok row -> er_check row ∈ cd_checks d /\ in_check k s ws (er_check row) = true /\
  er_machine row = executor_machine (er_check row) d.
Proof.
  unfold load_check. intros H. set (rows := cd_checks d ≫= _) in H. destruct rows as [|r rest] eqn:E; [done|]. injection H as ->.
  assert (Hin : row ∈ rows) by (rewrite E; by left). unfold rows in Hin. apply list_elem_of_bind in Hin as (c & Hin & Hc).
  apply list_elem_of_bind in Hin as (x & Hin & _). apply list_elem_of_bind in Hin as (w & Hin & _).
  destruct (_ && bool_decide _) eqn:Eg in Hin; [|by apply elem_of_nil in Hin]. apply list_elem_of_singleton in Hin as ->. cbn. split_and!; [done | | done].
  unfold in_check. bool_hyps. subst. by rewrite !String.eqb_refl.
Qed.
Lemma seen_check k s ws row P d : k = checkId -> (forall d, P d -> inv b d) -> seen R (load_check k s ws) row P d ->
  row_read row /\ kf_id (er_check row) = checkId /\ current (er_check row) d.
Proof.
  intros -> HP [_ (d0 & H0 & HR & E)]. apply load_check_spec in E as (Hc & Hin & _). pose proof (in_check_id _ _ _ _ Hin) as Hid.
  destruct (HP d0 H0) as [[HL _] _]. split_and!; [intros Hag; by apply (lm_executor d0 HL) | done|]. intros c Hcd Hk. rewrite Hid in Hk.
  destruct (HR (HP d0 H0)) as [_ HC]. destruct (cm_check _ _ _ _ HC c Hcd Hk) as (c1 & H1 & Hk1 & Hl).
  assert (er_check row = c1) as -> by (apply (keys_unique_inj kf_id _ _ _ (lm_ids d0 HL) Hc H1); congruence). done.
Qed.

(** *** The contracts *)

Lemma stable_unborn : serviceId = fr_service fr -> stable R unborn.
Proof. intros -> d d' [H1 H2] HR. destruct (HR H1) as [H3 H4]. split; [done | by apply H4]. Qed.
Hint Resolve stable_inv stable_unborn : alphaping.

Lemma create_safe workspaceSlug userId wrappingKey input : serviceId = fr_service fr ->
  safe R G unborn (createServiceMonitor nfkd fr workspaceSlug userId wrappingKey input) (fun _ => inv b) (inv b).
Proof using Type.
  intros Hs. unfold createServiceMonitor. bind_ask access. bind_lift u. bind_by safe_workspace_capacity v. bind_by safe_load_agent machine.
  bind_refuse. bind_refuse. bind_lift compiled. cbv zeta. bind_refuse. bind_by safe_sequence spk. bind_by safe_sequence cpk. bind_by safe_slug sl.
  bind_lift servicePk. bind_lift checkPk. bind_lift slug. eapply safe_bind with (M := fun _ => inv b); [|intros z; by apply safe_ret].
  apply safe_commit; [stab | peel | peel | done | tame_all |]. intros d d' rs H Hb. unstack H. destruct H as [[HI HS] Hnew].
  split; [|by eapply create_batch_served]. eapply create_batch_core; [exact HI | | by apply configurationBytes_nonneg | exact Hnew | exact Hb].
  match goal with H : _ \/ executor_read _ _ |- _ => destruct H as [[Ek ->]|Hm]; [|done] end. rewrite Ek in *. discriminate.
Qed.
Lemma add_safe workspaceSlug userId wrappingKey sid add : safe R G (inv b) (addServiceCheck fr workspaceSlug userId wrappingKey sid add) (fun _ => inv b) (inv b).
Proof using Type.
  unfold addServiceCheck. cbv zeta. bind_ask access. bind_lift u. bind_ask found. bind_lift service. bind_refuse. bind_by safe_workspace_capacity v.
  bind_by safe_load_agent machine. bind_refuse. bind_refuse. bind_lift compiled. bind_refuse.
  eapply safe_bind; [apply safe_quiet; [stab | peel | intros d d' x; destruct (obj_get "check" (cd_sequences d)); [by intros [= <- _] | done]] | intros checkPk; cbv beta].
  eapply safe_bind with (M := fun _ => inv b); [|intros z; by apply safe_ret].
  apply safe_commit; [stab | peel | peel | done | tame_all |]. intros d d' rs H Hb. unstack H. destruct H as [HI HS].
  split; [|by eapply add_batch_served]. eapply add_batch_core; [exact HI | | by apply configurationBytes_nonneg | exact Hb].
  match goal with H : _ \/ executor_read _ _ |- _ => destruct H as [[Ek ->]|Hm]; [|done] end. rewrite Ek in *. discriminate.
Qed.
Lemma safe_optional_capacity capacity P J : stable R P -> (forall s, P s -> J s) ->
  safe R G P (match capacity with Some c => assertAgentCapacity c | None => pret tt end) (fun _ => P) J.
Proof. intros HP HJ. destruct capacity; [by apply safe_agent_capacity | by apply safe_ret]. Qed.
Lemma safe_optional_ask (asked : bool) f P J : stable R P -> (forall s, P s -> J s) ->
  safe R G P (if asked then ask f else pret tt) (fun _ => P) J.
Proof.
  intros HP HJ. destruct asked; [|by apply safe_ret]. eapply safe_weaken; [apply safe_ask; first [exact _ | exact HP | exact HJ] | done | by intros a s [H _] | done].
Qed.
Lemma safe_settled A (f : config_db -> res A) P J : stable R P -> (forall s, P s -> J s) -> safe R G P (settle (ask f)) (fun _ => P) J.
Proof.
  intros HP HJ. apply safe_settle. eapply (safe_weaken _ _ P P _ _ _ P P); [apply safe_ask; first [exact _ | exact HP | done] | done | by intros a s [H _] | done].
Qed.
Lemma stored_bytes_nonneg ws ids d n : stored_secret_bytes ws ids d = Ok n -> 0 <= n.
Proof.
  unfold stored_secret_bytes. cbv zeta. destruct (negb _); [done|]. intros [= <-]. unfold sumZ, blen. induction (List.filter _ _) as [|x l IH]; cbn [map foldr]; lia.
Qed.
Lemma safe_preserved (skip : bool) ws ids P J : stable R P -> (forall s, P s -> J s) ->
  safe R G P (if skip then ask (stored_secret_bytes ws ids) else pret 0) (fun n s => P s /\ 0 <= n) J.
Proof.
  intros HP HJ. destruct skip; [|by apply safe_ret]. eapply safe_weaken; [apply safe_ask; first [exact _ | exact HP | exact HJ] | done | | done].
  intros n s [Hs (s0 & _ & _ & E)]. split; [done | by eapply stored_bytes_nonneg].
Qed.
(** The check read before is still the one in the table, or gone. *)
Ltac edit_row row Hrow :=
  match goal with HI : inv b ?d, Hr : exists _, _ /\ _ /\ load_check ?k ?sid ?ws _ = Ok row |- _ =>
    assert (Hrow : seen R (load_check k sid ws) row (inv b) d);
    [split; [exact HI|]; let s0 := fresh in let Hs0 := fresh in let HR := fresh in let E := fresh in
       destruct Hr as (s0 & Hs0 & HR & E); unstack Hs0; by exists s0
    |destruct (seen_check _ _ _ _ _ _ eq_refl (fun _ => id) Hrow) as (Hread & Hid & Hcur)] end.

Lemma machine_known row : by_agent (er_check row) && bool_decide (er_machine row = None) = false -> by_agent (er_check row) = true -> er_machine row <> None.
Proof. intros H Hby. rewrite Hby in H. by apply bool_decide_eq_false in H. Qed.
Lemma replace_safe workspaceSlug userId wrappingKey sid replace :
  safe R G (inv b) (replaceServiceCheckConfiguration fr workspaceSlug userId wrappingKey sid checkId replace) (fun _ => inv b) (inv b).
Proof using Type.
  unfold replaceServiceCheckConfiguration. cbv zeta. bind_ask access. bind_lift u. bind_ask row. bind_lift u2. bind_refuse. bind_refuse. bind_refuse. bind_refuse.
  bind_lift existing. bind_lift compiled. bind_lift u3. bind_by safe_preserved preserved. bind_refuse. bind_by safe_optional_capacity u4. bind_refuse.
  eapply safe_bind with (M := fun _ => inv b); [|intros z; by apply safe_sync; [stab|]].
  apply safe_commit; [stab | peel | peel | done | tame_all |]. intros d d' rs H Hb. unstack H. edit_row row Hrow.
  destruct H as [HI HS]. split; [|by eapply replace_batch_served]. eapply replace_batch_core; [exact HI | exact Hread | exact Hid | exact Hcur | | | exact Hb]; [by apply configurationBytes_nonneg | by apply machine_known].
Qed.
Lemma policy_safe workspaceSlug userId sid input : (b = true -> up_enabled input = false) ->
  safe R G (inv b) (updateServiceCheckPolicy fr workspaceSlug userId sid checkId input) (fun _ => inv b) (inv b).
Proof using Type.
  intros Hoff. unfold updateServiceCheckPolicy. cbv zeta. bind_ask access. bind_lift u. bind_ask row. bind_lift u2.
  bind_lift v1. bind_lift v2. bind_lift v3. bind_lift v4. bind_lift v5.
  bind_by safe_optional_ask u3.
  bind_by safe_optional_capacity u4.
  eapply safe_bind with (M := fun _ => inv b); [|intros z; by apply safe_sync; [stab|]].
  apply safe_commit; [stab | peel | peel | done | tame_all |]. intros d d' rs H Hb. unstack H. edit_row row Hrow.
  destruct H as [HI HS]. split; [|by eapply policy_batch_served]. eapply policy_batch_core; [exact HI | exact Hread | exact Hid | exact Hcur | exact Hoff | | exact Hb].
  intros Hby Hen. match goal with H : (if _ then _ else Ok tt) = Ok u2 |- _ => rewrite Hby, Hen in H; cbn [andb] in H end.
  destruct (kf_agent (er_check row)); [|done]. by destruct (er_machine row).
Qed.
Lemma delete_safe workspaceSlug userId sid : safe R G (inv b) (deleteServiceCheck fr workspaceSlug userId sid checkId) (fun _ => inv b) (inv b).
Proof using Type.
  unfold deleteServiceCheck. bind_ask access. bind_lift u.
  bind_by (safe_settled CheckConfigurationEditRow) row.
  bind_ask remaining. bind_lift r. bind_refuse. cbv zeta. eapply safe_bind with (M := fun _ => inv b); [|intros z; by apply safe_sync; [stab|]].
  apply safe_commit; [stab | peel | peel | done | tame_all |]. intros d d' rs H Hb. unstack H. destruct H as [HI HS]. split; [by eapply delete_batch_core | by eapply delete_batch_served].
Qed.
Lemma maintenance_safe workspaceSlug userId sid until : safe R G (inv b) (setServiceMaintenance fr workspaceSlug userId sid until) (fun _ => inv b) (inv b).
Proof using Type.
  unfold setServiceMaintenance. bind_ask access. bind_lift u. bind_ask found. destruct found as [s w]. bind_lift bound. cbv zeta.
  eapply safe_bind with (M := fun _ => inv b); [|intros z; by apply safe_sync; [stab|]].
  apply safe_commit; [stab | peel | peel | done | tame_all |]. intros d d' rs H Hb. unstack H. destruct H as [HI HS]. split; [by eapply maintenance_batch_core | by eapply maintenance_batch_served].
Qed.
Lemma public_safe workspaceSlug userId sid isPublic : safe R G (inv b) (setServicePublicAccess fr workspaceSlug userId sid isPublic) (fun _ => inv b) (inv b).
Proof using Type.
  unfold setServicePublicAccess. cbv zeta. bind_ask access. bind_lift u. bind_ask service. bind_ask policy. bind_ask dashboard. bind_refuse. bind_lift board.
  apply safe_commit; [stab | peel | peel | done | apply tame_quiets, public_batch_quiet |]. intros d d' rs H Hb. unstack H. destruct (quiet_batch _ (public_batch_quiet fr _ _ _ _ _) _ _ _ _ Hb). by apply (inv_ext b d).
Qed.
End Contracts.

(** ** Requests *)

Inductive request :=
| create_request (workspaceSlug userId wrappingKey : string) (input : CreateServiceMonitorInput)
| add_request (workspaceSlug userId wrappingKey serviceId : string) (input : AddServiceCheckInput)
| replace_request (workspaceSlug userId wrappingKey serviceId checkId : string) (input : ReplaceServiceCheckConfigurationInput)
| policy_request (workspaceSlug userId serviceId checkId : string) (input : UpdateServiceCheckPolicyInput)
| delete_request (workspaceSlug userId serviceId checkId : string)
| public_request (workspaceSlug userId serviceId : string) (isPublic : bool)
| maintenance_request (workspaceSlug userId serviceId : string) (maintenanceUntil : option number).
(** The check it edits, or the new one. *)
Definition edited (fr : fresh) (r : request) : string :=
  match r with
  | replace_request _ _ _ _ checkId _ | policy_request _ _ _ checkId _ | delete_request _ _ _ checkId => checkId
  | _ => fr_check fr
  end.
Definition enables (r : request) : bool := match r with policy_request _ _ _ _ input => up_enabled input | _ => false end.

Section Requests.
Context `{UA : UrlApi} `{WC : WebCrypto} `{LO : Locale} (nfkd : string -> string).
Definition discard {A} (p : prog config_db A) : prog config_db unit := do _ <- p in pret tt.
Definition perform (fr : fresh) (r : request) : prog config_db unit :=
  match r with
  | create_request slug user key input => discard (createServiceMonitor nfkd fr slug user key input)
  | add_request slug user key service input => discard (addServiceCheck fr slug user key service input)
  | replace_request slug user key service check input => replaceServiceCheckConfiguration fr slug user key service check input
  | policy_request slug user service check input => updateServiceCheckPolicy fr slug user service check input
  | delete_request slug user service check => deleteServiceCheck fr slug user service check
  | public_request slug user service isPublic => setServicePublicAccess fr slug user service isPublic
  | maintenance_request slug user service until => setServiceMaintenance fr slug user service until
  end.
Lemma safe_discard {A} R G P (p : prog config_db A) (J : config_db -> Prop) : safe R G P p (fun _ => J) J -> safe R G P (discard p) (fun _ => J) J.
Proof. intros H. eapply safe_bind; [exact H|]. intros a. by apply safe_ret. Qed.
Lemma perform_safe b fr r : (b = true -> enables r = false) ->
  safe (rely (inv b) (edited fr r) (fr_service fr)) (guarantee (inv b) (fr_check fr) (fr_service fr)) (unborn fr b) (perform fr r) (fun _ => inv b) (inv b).
Proof.
  intros He. destruct r; cbn [perform edited enables] in *.
  - by apply safe_discard, create_safe.
  - apply safe_discard. eapply safe_weaken; [apply add_safe | by intros s [H _] | done | done].
  - eapply safe_weaken; [apply replace_safe | by intros s [H _] | done | done].
  - eapply safe_weaken; [by apply policy_safe | by intros s [H _] | done | done].
  - eapply safe_weaken; [apply delete_safe | by intros s [H _] | done | done].
  - eapply safe_weaken; [apply public_safe | by intros s [H _] | done | done].
  - eapply safe_weaken; [apply maintenance_safe | by intros s [H _] | done | done].
Qed.

(** Requests that run at the same time draw different identifiers, and none of them edits the
    check another one is creating. *)
Definition apart (requests : list (fresh * request)) : Prop := forall i j x y, requests !! i = Some x -> requests !! j = Some y -> i <> j ->
  edited x.1 x.2 <> fr_check y.1 /\ fr_service x.1 <> fr_service y.1.
(** The rest of the program creates no services or checks, and changes a check's configuration
    only with its revision (migration 0019 sees to that). *)
Definition world_ok (I : config_db -> Prop) (world : config_db -> config_db -> Prop) : Prop :=
  forall d d', world d d' -> (I d -> I d') /\ forall k sid, came k sid d d'.
Definition relies (I : config_db -> Prop) (requests : list (fresh * request)) (i : nat) : config_db -> config_db -> Prop :=
  match requests !! i with Some (fr, r) => rely I (edited fr r) (fr_service fr) | None => fun _ _ => True end.
Definition gives (I : config_db -> Prop) (requests : list (fresh * request)) (i : nat) : config_db -> config_db -> Prop :=
  match requests !! i with Some (fr, r) => guarantee I (fr_check fr) (fr_service fr) | None => eq end.
#[local] Instance relies_preorder I requests i : PreOrder (relies I requests i).
Proof. unfold relies. destruct (requests !! i) as [[fr r]|]; [exact _ | by split]. Qed.

Lemma limits_kept b world requests d ts d' : apart requests -> world_ok (inv b) world ->
  (forall x, x ∈ requests -> has_key sm_id (fr_service x.1) (cd_services d) = false /\ (b = true -> enables x.2 = false)) ->
  pool_steps world (map (fun x => perform x.1 x.2) requests, d) (ts, d') -> inv b d -> inv b d'.
Proof.
  intros Hapart Hworld Hnew Hrun HI. eapply (pool_guarantees world (relies (inv b) requests) (gives (inv b) requests)); [exact _ | | | | | | exact Hrun | exact HI].
  - intros i s s' Hw. destruct (Hworld s s' Hw) as [H1 H2]. unfold relies. destruct (requests !! i) as [[fr r]|]; [|done]. intros Hs. split; [by apply H1 | apply H2].
  - intros i j s s' Hne. unfold relies, gives. destruct (requests !! i) as [[fr r]|] eqn:Ei; [|done]. destruct (requests !! j) as [[fr' r']|] eqn:Ej; [|by intros ->].
    intros HG Hs. destruct (HG Hs) as [H1 H2]. destruct (Hapart i j _ _ Ei Ej Hne) as [H3 H4]. split; [done | by apply H2].
  - intros s s' Hw. apply (Hworld s s' Hw).
  - intros i s s'. unfold gives. destruct (requests !! i) as [[fr r]|]; [|by intros ->]. intros HG Hs. by apply HG.
  - intros i p Hp. rewrite list_lookup_fmap in Hp. apply fmap_Some in Hp as ([fr r] & Hi & ->). exists d, (fun o s => match o with Ok _ => inv b s | Err _ => inv b s end).
    unfold relies, gives. rewrite Hi. split; [reflexivity|]. apply list_elem_of_lookup_2 in Hi. destruct (Hnew _ Hi) as [H1 H2].
    by apply (perform_safe b fr r H2).
Qed.
End Requests.

Section Results.
Context `{UA : UrlApi} `{WC : WebCrypto} `{LO : Locale} (nfkd : string -> string).

(** C26: Any number of administrators may create, add, replace, reschedule, delete, publish and
    maintain at the same time, their accesses to the database interleaved in any order, and the
    rest of the program may do what [world_ok] allows in between: a workspace keeps at most 200
    live services and 1000 checks of them, an agent runs at most 32 enabled checks, and every live
    service keeps a check.  As long as nobody enables a check ([b = true]), the configurations of
    an agent's checks also stay within the 44 KiB of its snapshot. *)
Theorem configuration_limits_hold b world requests d ts d' : apart requests -> world_ok (inv b) world ->
  (forall x, x ∈ requests -> has_key sm_id (fr_service x.1) (cd_services d) = false /\ (b = true -> enables x.2 = false)) ->
  pool_steps world (map (fun x => perform nfkd x.1 x.2) requests, d) (ts, d') ->
  limits_ok d /\ served d /\ (b = true -> agents_fit d) -> limits_ok d' /\ served d' /\ (b = true -> agents_fit d').
Proof.
  intros Hapart Hworld Hnew Hrun (H1 & H2 & H3). destruct (limits_kept nfkd b world requests d ts d' Hapart Hworld Hnew Hrun) as [[H4 H5] H6]; [by split|].
  by split_and!.
Qed.
End Results.

(** ** Recorded requests *)

Definition sl_fresh (i : Z) : fresh :=
  Fresh 1000 ("new-service-" ++ z_to_string i) ("new-check-" ++ z_to_string i) ("audit-" ++ z_to_string i) ("token-" ++ z_to_string i)
    (fun n => "assertion-" ++ z_to_string i ++ "-" ++ z_to_string (Z.of_nat n)) (fun n => "secret-" ++ z_to_string i ++ "-" ++ z_to_string (Z.of_nat n)) sc_random.
Definition sl_service (i : nat) : config_service :=
  let id := "s" ++ z_to_string (Z.of_nat i) in ConfigService id (Z.of_nat i) "w" id id "" "{}" None 0 0 None.
Definition sl_check (i : nat) : check_config :=
  CheckConf ("c" ++ z_to_string (Z.of_nat i)) (Z.of_nat i) "w" ("s" ++ z_to_string (Z.of_nat i)) "check" kind_http cloudflare None 0 1 60 0 5000 1 1
    "{}" "{}" 2 2 600 1 0 0 0.
Definition sl_db (n : nat) (checks : list check_config) (agents : list config_agent) (machines : list config_machine) : config_db :=
  ConfigDb [WorkspaceRow "w" "shop" 1 "board" 10 None] [Membership "w" "admin" admin active] [] [] [("service", 1000); ("check", 1000)]
    (map sl_service (seq 0 n)) checks machines agents [] [] [] [] [] [] [] empty_db.
#[local] Instance sl_locale : Locale := String.leb.
Definition sl_requests : list (fresh * request) :=
  [(sl_fresh 1, create_request "shop" "admin" sc_key (sc_form "http")); (sl_fresh 2, create_request "shop" "admin" sc_key (sc_form "http"))].
(** Room for one more service, and two requests that both see it. *)
Definition sl_start : config_db := sl_db 199 (map sl_check (seq 0 199)) [] [].
Definition sl_run : list (prog config_db unit) * config_db :=
  schedule [0; 1; 0; 1; 0; 1; 0; 1; 0; 1; 0; 1]%nat (map (fun x => perform (fun s => s) x.1 x.2) sl_requests, sl_start).

Definition outcomes (ts : list (prog config_db unit)) : list (option (res unit)) := map (fun p => match p with pdone r => Some r | paccess _ => None end) ts.
Lemma sl_start_ok : limits_ok sl_start /\ served sl_start /\ (false = true -> agents_fit sl_start).
Proof.
  assert (Hc : forall c, c ∈ cd_checks sl_start -> exists i, (i < 199)%nat /\ c = sl_check i).
  { intros c Hc. apply list_elem_of_fmap in Hc as (i & -> & Hi). exists i. split; [|done]. apply list_elem_of_In, in_seq in Hi. lia. }
  split_and!; [|intros s Hs _|done].
  - split.
    + apply (bool_decide_unpack _). vm_compute. exact Logic.I.
    + intros c H. destruct (Hc c H) as (i & Hi & ->). apply has_key_elem. apply (list_elem_of_fmap_2 sm_id _ (sl_service i)).
      apply (list_elem_of_fmap_2 sl_service), list_elem_of_In, in_seq. lia.
    + intros c H. by destruct (Hc c H) as (i & _ & ->).
    + intros c H. destruct (Hc c H) as (i & _ & ->). cbn. lia.
    + intros ws. unfold live_services. pose proof (List.filter_length_le (fun s => String.eqb (sm_workspace s) ws && live_service s) (cd_services sl_start)) as H.
      change (length (cd_services sl_start)) with 199%nat in H. unfold MAX_WORKSPACE_SERVICES. lia.
    + intros ws. unfold live_checks. match goal with |- Z.of_nat (length (List.filter ?p _)) <= _ => pose proof (List.filter_length_le p (cd_checks sl_start)) as H end.
      change (length (cd_checks sl_start)) with 199%nat in H. unfold MAX_WORKSPACE_CHECKS. lia.
    + intros a. rewrite (sum_by_ext _ _ (fun _ => false)); [vm_compute; discriminate|]. intros c H. by destruct (Hc c H) as (i & _ & ->).
  - apply list_elem_of_fmap in Hs as (i & -> & Hi). exists (sl_check i). split; [by apply (list_elem_of_fmap_2 sl_check) | done].
Qed.
Lemma sl_apart : apart sl_requests.
Proof.
  intros i j x y Hi Hj Hne. destruct i as [|[|i]], j as [|[|j]]; try done; injection Hi as <-; injection Hj as <-; by split.
Qed.
Example configuration_limits_hold_witness :
  outcomes sl_run.1 = [Some (Ok tt); Some (Err "409 Workspace access or monitoring capacity changed; reload and try again")] /\
  length (cd_services sl_run.2) = 200%nat /\ limits_ok sl_run.2.
Proof.
  split; [vm_compute; reflexivity|]. split; [vm_compute; reflexivity|].
  refine (proj1 (configuration_limits_hold (fun s => s) false eq sl_requests sl_start sl_run.1 sl_run.2 sl_apart _ _ _ sl_start_ok)).
  - intros d d' <-. split; [done|]. intros k sid. reflexivity.
  - intros x Hx. apply elem_of_cons in Hx as [->|Hx]; [by split; [vm_compute; reflexivity|]|]. apply list_elem_of_singleton in Hx as ->. by split; [vm_compute; reflexivity|].
  - unfold sl_run. rewrite <- surjective_pairing. apply schedule_steps.
Defined.

(** ** What the limits do not survive *)

Definition st_form : CreateServiceMonitorInput :=
  MonitorInput "" "" "http" "agent" "a1" (num_of_Z 60) (num_of_Z 5000) (num_of_Z 1) true (num_of_Z 2) (num_of_Z 2)
    "https://shop.example/health" "GET" "200, 204" (num_of_Z 3) true None None (num_of_Z 65536) "Accept: */*" "" "" false "" "" None false "" false "" [].
Definition st_check (id : string) (pk enabled bytes : Z) : check_config :=
  CheckConf id pk "w" "s0" "check" kind_http agent (Some "a1") 1 enabled 60 0 5000 1 1 "{}" "{}" 2 2 bytes 1 0 0 0.
(** An agent with 700 bytes to spare, and a small check of it that is switched off. *)
Definition st_start : config_db :=
  sl_db 1 [st_check "c0" 0 1 (MAX_AGENT_CONFIG_BYTES - 700); st_check "c1" 1 0 600] [ConfigAgent "a1" "m1" "w" true] [ConfigMachine "m1" "w" "machine" 1 0 None].
Definition st_requests : list (fresh * request) :=
  [(sl_fresh 1, policy_request "shop" "admin" "s0" "c1" (PolicyInput true (num_of_Z 60) (num_of_Z 5000) (num_of_Z 1) (num_of_Z 2) (num_of_Z 2) true));
   (sl_fresh 2, replace_request "shop" "admin" sc_key "s0" "c1" (ReplaceInput (AddInput "bigger" st_form) true))].
(** The first request reads the check and its agent; the second replaces the configuration, which
    may be of any size as long as the check is off; the first switches the check on. *)
Definition st_run : list (prog config_db unit) * config_db :=
  schedule [0; 0; 0; 1; 1; 1; 1; 1; 0; 0]%nat (map (fun x => perform (fun s => s) x.1 x.2) st_requests, st_start).
Lemma st_fits : agents_fit st_start.
Proof.
  intros a. unfold sum_by, counted. cbn [cd_checks st_start sl_db List.filter st_check kf_agent kf_enabled]. destruct (decide (a = "a1")) as [->|H]; [vm_compute; discriminate|].
  rewrite bool_decide_eq_false_2 by congruence. vm_compute. discriminate.
Qed.
(** C38: The 44 KiB of an agent's configurations can be exceeded: enabling a check counts the size
    that was read before, and does not notice that the check, still switched off and therefore not
    limited, was given a larger configuration in between.  Both requests succeed. *)
Example stale_size_overflows_agent : agents_fit st_start /\
  outcomes st_run.1 = [Some (Ok tt); Some (Ok tt)] /\
  pool_steps eq (map (fun x => perform (fun s => s) x.1 x.2) st_requests, st_start) st_run /\
  MAX_AGENT_CONFIG_BYTES < sum_by kf_bytes (counted "a1" None) (cd_checks st_run.2).
Proof. split; [apply st_fits|]. split; [vm_compute; reflexivity|]. split; [apply schedule_steps | vm_compute; reflexivity]. Qed.

(** Deleting a check asks for another check, enabled or not, where switching one off asks for
    another enabled one: a service may be left with nothing that runs. *)
Definition dl_start : config_db := sl_db 1 [sl_check 0; CheckConf "c1" 1 "w" "s0" "check" kind_http cloudflare None 0 0 60 0 5000 1 1 "{}" "{}" 2 2 600 1 0 0 0] [] [].
Theorem deletion_leaves_nothing_enabled :
  (alone (perform (fun s => s) (sl_fresh 1) (policy_request "shop" "admin" "s0" "c0" (PolicyInput false (num_of_Z 60) (num_of_Z 5000) (num_of_Z 1) (num_of_Z 2) (num_of_Z 2) true))) dl_start).1
    = Err "409 A service must keep at least one enabled check" /\
  let '(r, d) := alone (perform (fun s => s) (sl_fresh 1) (delete_request "shop" "admin" "s0" "c0")) dl_start in
  r = Ok tt /\ map kf_id (cd_checks d) = ["c1"] /\ map kf_enabled (cd_checks d) = [0].
Proof. vm_compute. by split_and!. Qed.
