(* ===== verification/ServiceDelivery.v ===== *)
(** * ServiceDelivery: what a committed configuration means to whoever executes it

    Two consequences of a batch of [ServiceConfig] that went through.  An agent fetches its
    configuration when the revision of its machine moves, and the ingest worker
    ([workers/ingest/src/agent_config.rs]) refuses a snapshot with a check from a later revision:
    the batch moves the revision by one and stamps the check with it.  A check that the checks
    worker executes resolves its secrets to what was entered: the rows the batch stores are the
    ones the compiler made, and the stored references find them; only a payload that is too large
    is refused. *)

From Stdlib Require Import ZArith Lia Bool String Ascii List.
From stdpp Require Import base tactics list strings.
From S2P Require Import Prelude.
From S2P Require Import Js.
From S2P Require Import Sql.
From S2P Require Import Crypto.
From S2P Require Import Web.
From S2P Require Import CheckPersistence.
From S2P Require Import Authz.
From S2P Require Import ControlTables.
From S2P Require Import Validation.
From S2P Require Import Envelopes.
From S2P Require Import ServiceStateSync.
From S2P Require Import ChecksWorker.
From S2P Require Import ControlPlane.
From S2P Require Import ControlRetention.
From S2P Require Import AuditLog.
From S2P Require Import ServiceCompiler.
From S2P Require Import Interleave.
From S2P Require Import ConfigTables.
From S2P Require Import ServiceConfig.
From S2P Require Import ServiceLimits.
Open Scope string_scope.
Open Scope Z_scope.

(** ** Statements that leave a table alone *)

Section Leaves.
Context {B : Type} (get : config_db -> B).
Definition leaves (st : statement) : Prop := forall d n d' m, st d n = Ok (d', m) -> get d' = get d.
Lemma leaves_batch l : Forall leaves l -> forall n d d' rs, batch_from n l d = Ok (d', rs) -> get d' = get d.
Proof.
  induction 1 as [|st l Hst Hl IH]; intros n d d' rs H; [by injection H as <- _|].
  apply batch_cons in H as (d1 & m & rs' & H1 & H & _). rewrite (IH _ _ _ _ H). by apply (Hst _ _ _ _ H1).
Qed.
Lemma leaves_insert {R} (table : config_db -> list R) set constraints guard row : (forall v d, get (set v d) = get d) -> leaves (insert_select table set constraints guard row).
Proof. intros Hs d n d' m H. apply insert_select_effect in H as [(_ & -> & _)|(r & _ & _ & _ & -> & _)]; [done | apply Hs]. Qed.
Lemma leaves_delete {R} (table : config_db -> list R) set guard : (forall v d, get (set v d) = get d) -> leaves (delete_rows table set guard).
Proof. intros Hs d n d' m. unfold delete_rows. destruct (delete_where _ _). intros [= <- _]. apply Hs. Qed.
Lemma leaves_audit row : (forall v d, get (with_audits v d) = get d) -> leaves (audit_after row).
Proof. intros Hs d n d' m. unfold audit_after. destruct (n =? 1); intros [= <- _]; [apply Hs | done]. Qed.
Lemma leaves_job job : (forall v d, get (with_jobs v d) = get d) -> leaves (job_after job).
Proof. intros Hs d n d' m. unfold job_after. destruct (prepareServiceStateSyncJob _ _ _ _). intros [= <- _]. apply Hs. Qed.
Lemma leaves_assertions fr guard checkId assertions : (forall v d, get (with_assertions v d) = get d) -> Forall leaves (assertion_statements fr guard checkId assertions).
Proof.
  intros Hs. apply Forall_forall. intros st Hst. apply list_elem_of_lookup in Hst as [i Hi]. unfold assertion_statements in Hi. rewrite list_lookup_imap in Hi.
  apply fmap_Some in Hi as (a & _ & ->). by apply leaves_insert.
Qed.
Lemma leaves_secrets fr guard ws secrets : (forall v d, get (with_secrets v d) = get d) -> Forall leaves (secret_statements fr guard ws secrets).
Proof. intros Hs. apply Forall_forall. intros st Hst. apply list_elem_of_fmap in Hst as (s & -> & _). by apply leaves_insert. Qed.
End Leaves.
Ltac leave := repeat first [apply Forall_nil_2 | apply Forall_cons_2 | apply Forall_app_2 | by apply leaves_insert | by apply leaves_delete | by apply leaves_audit
  | by apply leaves_job | by apply leaves_assertions | by apply leaves_secrets | match goal with |- Forall _ (if ?b then _ else _) => destruct b end].
(** [H] ran statements that leave [get] alone. *)
Ltac left_alone get H E :=
  match type of H with batch_from _ _ ?a = Ok (?b, _) =>
    assert (E : get b = get a) by (eapply (leaves_batch get); [|exact H]; leave)
  end.

(** ** The revision of an agent's machine *)

Section Revision.
Context `{UA : UrlApi} `{WC : WebCrypto} `{LO : Locale} (fr : fresh).

(** The machine moves by one revision, and check [k] carries the new one. *)
Definition moves_revision (machineId k : string) (d d' : config_db) : Prop := exists m c,
  find_key xm_id machineId (cd_machines d) = Some m /\ live_machine m = true /\
  find_key xm_id machineId (cd_machines d') = Some (advanced fr m) /\
  c ∈ cd_checks d' /\ kf_id c = k /\ kf_assignment c = xm_revision m + 1.

Lemma advance_assigns ws id capacity expected authorization d n d1 n1 cp otherwise r :
  advanceAgentConfigurationStatement fr ws id capacity expected authorization d n = Ok (d1, n1) -> keys_unique xm_id (cd_machines d) ->
  assigned_revision (Some id) ws cp otherwise d1 = Some r ->
  (forall m, xm_workspace m = ws -> xm_id m = id ->
     match expected with None => true | Some (checkId, revision) => check_at checkId ws revision d end &&
     match capacity with None => true | Some c => AGENT_CAPACITY_CONDITION c d end && match authorization with None => true | Some allowed => allowed m d end = true) ->
  exists m, find_key xm_id id (cd_machines d) = Some m /\ live_machine m = true /\ find_key xm_id id (cd_machines d1) = Some (advanced fr m) /\ r = xm_revision m + 1.
Proof.
  unfold advanceAgentConfigurationStatement. intros H Hu Hr Hcond. set (p m := _ && _ && live_machine m && _ && _ && _) in H.
  destruct (update_where p (advanced fr) (cd_machines d)) as [rows k] eqn:E. injection H as <- _. cbn [cd_machines with_machines].
  apply fmap_Some in Hr as (m' & Hm' & ->). apply find_some in Hm' as [Hin Hm']. apply list_elem_of_In in Hin. cbn [cd_machines with_machines] in Hin. bool_hyps.
  unfold update_where in E. injection E as <- _. apply list_elem_of_fmap in Hin as (m & -> & Hin).
  assert (Hid : xm_id m = id /\ xm_workspace m = ws /\ live_machine m = true) by (destruct (p m); done). destruct Hid as (Hi & Hw & Hl).
  assert (Hp : p m = true).
  { unfold p. rewrite Hi, Hw, !String.eqb_refl, Hl. exact (Hcond m Hw Hi). }
  pose proof (find_key_unique xm_id id _ m Hu Hin Hi) as Hf. rewrite Hp. exists m. split_and!; [done | done | | done].
  pose proof (find_key_update xm_id id p (advanced fr) (cd_machines d)) as Hup. cbn [update_where fst] in Hup. rewrite Hup, Hf by done. cbn. by rewrite Hp.
Qed.

Lemma advance_effect ws id capacity expected authorization d n d1 n1 :
  advanceAgentConfigurationStatement fr ws id capacity expected authorization d n = Ok (d1, n1) -> exists rows, d1 = with_machines rows d.
Proof. unfold advanceAgentConfigurationStatement. destruct (update_where _ _ _) as [rows k]. intros [= <- _]. by exists rows. Qed.
Lemma second_result {A} (r1 r2 : list A) x y : length r1 = 1%nat -> (r1 ++ x :: r2)%list !! 1%nat = Some y -> x = y.
Proof. destruct r1 as [|z [|]]; try done. cbn. congruence. Qed.
Lemma one_changed {A} (p : A -> bool) l : count_if p l = 1 -> exists x, x ∈ l /\ p x = true.
Proof.
  intros H. destruct (List.filter p l) as [|x r] eqn:E; [unfold count_if in H; by rewrite E in H|]. exists x. apply filter_In_elem. rewrite E. by left.
Qed.

Lemma add_moves access userId sid name input compiled bytes a pk d d' rs : keys_unique xm_id (cd_machines d) ->
  batch (add_statements fr access userId sid name input compiled bytes (Some a) pk) d = Ok (d', rs) -> rs !! 1%nat = Some 1 ->
  moves_revision (xr_machine a) (fr_check fr) d d'.
Proof.
  intros Hu H Hrs. unfold batch, add_statements in H. set (ws := m_workspaceId access) in *. cbv zeta in H.
  apply batch_app in H as (d1 & n1 & r1 & r2 & H1 & H & -> & Hl). apply batch_cons in H1 as (d1' & m1 & r0 & H1 & [= -> <-] & ->).
  apply batch_app in H as (d3 & n3 & r3 & r4 & H2 & H3 & -> & _). left_alone cd_machines H3 Em3. left_alone cd_checks H3 Ec3.
  apply batch_cons in H2 as (d2 & n2 & r5 & Hc & H2 & ->). left_alone cd_machines H2 Em2. left_alone cd_checks H2 Ec2.
  cbn in Hrs. injection Hrs as ->. destruct (advance_effect _ _ _ _ _ _ _ _ _ H1) as (rows & Ed1).
  unfold check_statement in Hc. apply insert_select_effect in Hc as [(_ & _ & ?)|(c & Hg & Hr & _ & Ed2 & _)]; [done|].
  apply fmap_Some in Hr as (r & Hr & ->). destruct (advance_assigns _ _ _ _ _ _ _ _ _ _ _ _ H1 Hu Hr) as (m & Hm & Hlive & Hm1 & Er).
  - intros m Hw Hi. apply assigned_capacity in Hr. rewrite Ed1 in Hr, Hg. unfold add_allowed in Hg. apply andb_true_iff in Hg as [Hg _].
    apply andb_true_iff in Hg as [Hg Hcap]. apply andb_true_iff in Hg as [G1 G2]. rewrite Hw, Hi. cbn [andb]. rewrite !andb_true_iff.
    split_and!; [exact Hr | exact G1 | exact G2 | exact Hcap].
  - exists m, (new_check fr ws sid name pk input compiled bytes r). subst d2. split_and!; [done | done | by rewrite Em3, Em2 | | done | exact Er].
    rewrite Ec3, Ec2. cbn [cd_checks with_checks]. apply elem_of_app. right. by apply list_elem_of_singleton.
Qed.
Lemma create_moves access userId input compiled bytes a spk cpk slug d d' rs : keys_unique xm_id (cd_machines d) ->
  batch (create_statements fr access userId input compiled bytes (Some a) spk cpk slug) d = Ok (d', rs) -> rs !! 1%nat = Some 1 ->
  moves_revision (xr_machine a) (fr_check fr) d d'.
Proof.
  intros Hu H Hrs. unfold batch, create_statements in H. set (ws := m_workspaceId access) in *. cbv zeta in H.
  apply batch_app in H as (d1 & n1 & r1 & r2 & H1 & H & -> & Hl). apply batch_cons in H1 as (d1' & m1 & r0 & H1 & [= -> <-] & ->).
  apply batch_app in H as (d6 & n6 & r3 & r4 & H2 & H3 & -> & _). left_alone cd_machines H3 Em3. left_alone cd_checks H3 Ec3. clear H3.
  apply batch_cons in H2 as (d2 & n2 & r5 & Hs & H2 & ->). apply batch_cons in H2 as (d3 & n3 & r6 & Ha & H2 & _). apply batch_cons in H2 as (d4 & n4 & r7 & Hc & H2 & _).
  left_alone cd_machines H2 Em2. left_alone cd_checks H2 Ec2. clear H2. cbn in Hrs. injection Hrs as ->. destruct (advance_effect _ _ _ _ _ _ _ _ _ H1) as (rows & Ed1).
  apply insert_select_effect in Hs as [(_ & _ & ?)|(s & Hg & [= <-] & _ & Ed2 & _)]; [done|].
  assert (Ea : exists audits, d3 = with_audits audits d2) by (unfold audit_after in Ha; injection Ha as <- _; by eexists).
  destruct Ea as (audits & Ea). unfold check_statement in Hc. apply insert_select_effect in Hc as [(Hno & _)|(c & _ & Hr & _ & Ed4 & _)].
  - subst d3 d2. unfold service_live in Hno. cbn [cd_services with_audits with_services] in Hno. rewrite existsb_app in Hno. cbn in Hno.
    by rewrite !String.eqb_refl, orb_true_r in Hno.
  - apply fmap_Some in Hr as (r & Hr & ->). assert (Hr1 : assigned_revision (Some (xr_machine a)) ws (capacity_or_none (agent_capacity (Some a) bytes) None bytes) 0 d1 = Some r) by (subst d3 d2; exact Hr).
    destruct (advance_assigns _ _ _ _ _ _ _ _ _ _ _ _ H1 Hu Hr1) as (m & Hm & Hlive & Hm1 & Er).
    + intros m Hw Hi. apply assigned_capacity in Hr1. rewrite Ed1 in Hr1, Hg. unfold creation_allowed in Hg. rewrite Hw. apply andb_true_iff. split; [exact Hr1 | exact Hg].
    + exists m, (new_check fr ws (fr_service fr) (mi_name input ++ " availability") cpk input compiled bytes r). subst d4 d3 d2.
      split_and!; [done | done | by rewrite Em3, Em2 | | done | exact Er]. rewrite Ec3, Ec2. cbn [cd_checks with_checks]. apply elem_of_app. right. by apply list_elem_of_singleton.
Qed.
(** An edit: the update changed one row, which was allowed on the same database. *)
Lemma update_moves ws machineId capacity expected authorization guard set k d n d1 m1 n1 d2 : keys_unique xm_id (cd_machines d) ->
  advanceAgentConfigurationStatement fr ws machineId (Some capacity) expected authorization d n = Ok (d1, m1) -> update_checks guard set d1 n1 = Ok (d2, 1) ->
  (forall c c', set c d1 = Some c' -> exists r, assigned_revision (Some machineId) ws capacity (kf_assignment c) d1 = Some r /\ kf_assignment c' = r /\ kf_id c' = kf_id c) ->
  (forall c rows, c ∈ cd_checks d -> guard c (with_machines rows d) = true -> kf_id c = k /\ forall m, xm_workspace m = ws -> xm_id m = machineId ->
     match expected with None => true | Some (checkId, revision) => check_at checkId ws revision d end && match authorization with None => true | Some allowed => allowed m d end = true) ->
  moves_revision machineId k d d2.
Proof.
  intros Hu H1 H2 Hset Hcond. apply update_checks_spec in H2 as (rows2 & -> & HF & Hn). symmetry in Hn. apply one_changed in Hn as (c & Hc & Hg).
  destruct (advance_effect _ _ _ _ _ _ _ _ _ H1) as (rows & Ed1). apply list_elem_of_lookup in Hc as [i Hi].
  destruct (Forall2_lookup_l _ _ _ _ _ HF Hi) as (c' & Hc' & HP). unfold changed_row in HP. rewrite Hg in HP. destruct HP as [HP _].
  apply list_elem_of_lookup_2 in Hi, Hc'. destruct (Hset c c' HP) as (r & Hr & Er & Eid). rewrite Ed1 in Hg. destruct (Hcond c rows ltac:(by subst d1) Hg) as [Ek Hcond'].
  destruct (advance_assigns _ _ _ _ _ _ _ _ _ _ _ _ H1 Hu Hr) as (m & Hm & Hlive & Hm1 & E).
  - intros m Hw Hid. specialize (Hcond' m Hw Hid). apply assigned_capacity in Hr. subst d1. apply andb_true_iff in Hcond' as [-> ->]. rewrite andb_true_r. exact Hr.
  - exists m, c'. split_and!; [done | done | done | done | congruence | congruence].
Qed.
Lemma replace_moves access userId sid checkId row id replaceSecrets name compiled bytes capacity ids audit d d' rs : keys_unique xm_id (cd_machines d) ->
  edited_machine row = Some id ->
  batch (replace_statements fr access userId sid checkId row replaceSecrets name compiled bytes (Some capacity) ids audit) d = Ok (d', rs) -> rs !! 1%nat = Some 1 ->
  moves_revision id checkId d d'.
Proof.
  intros Hu Hm H Hrs. unfold batch, replace_statements in H. set (ws := m_workspaceId access) in *. cbv zeta in H. rewrite Hm in H.
  apply batch_app in H as (d1 & n1 & r1 & r2 & H1 & H & -> & Hl). apply batch_cons in H1 as (d1' & m1 & r0 & H1 & [= -> <-] & ->).
  apply batch_app in H as (d3 & n3 & r3 & r4 & H2 & H3 & -> & _). left_alone cd_machines H3 Em3. left_alone cd_checks H3 Ec3. clear H3.
  apply batch_cons in H2 as (d2 & n2 & r5 & Hc & H2 & ->). left_alone cd_machines H2 Em2. left_alone cd_checks H2 Ec2. cbn in Hrs. injection Hrs as ->.
  eapply update_moves in Hc; [|exact Hu | exact H1 | |].
  - destruct Hc as (m & c & F1 & F2 & F3 & F4 & F5 & F6). exists m, c. rewrite Em3, Em2, Ec3, Ec2. by split_and!.
  - intros c c' Hs. apply fmap_Some in Hs as (r & Hr & ->). by exists r.
  - intros c rows Hc' Hg. cbv beta in Hg. apply andb_true_iff in Hg as [Hg Ha]. apply andb_true_iff in Hg as [Hin Hrev]. pose proof (in_check_id _ _ _ _ Hin) as Hid.
    split; [done|]. intros m Hw Hi. unfold in_check in Hin. apply andb_true_iff in Hin as [Hin Ews]. apply andb_true_iff in Hin as [_ Esid].
    apply String.eqb_eq in Ews, Esid. unfold edit_allowed in Ha. rewrite Ews, Esid in Ha. unfold machine_allowed. rewrite Hw, Hi. cbn [negb orb].
    apply andb_true_iff. split; [|exact Ha]. apply existsb_exists_elem. exists c. split; [done|]. by rewrite Hid, Ews, Hrev, !String.eqb_refl.
Qed.
Lemma policy_moves access userId sid checkId row id input capacity audit d d' rs : keys_unique xm_id (cd_machines d) -> edited_machine row = Some id ->
  batch (policy_statements fr access userId sid checkId row input (Some capacity) audit) d = Ok (d', rs) -> rs !! 1%nat = Some 1 ->
  moves_revision id checkId d d'.
Proof.
  intros Hu Hm H Hrs. unfold batch, policy_statements in H. set (ws := m_workspaceId access) in *. cbv zeta in H. rewrite Hm in H.
  apply batch_app in H as (d1 & n1 & r1 & r2 & H1 & H & -> & Hl). apply batch_cons in H1 as (d1' & m1 & r0 & H1 & [= -> <-] & ->).
  apply batch_cons in H as (d2 & n2 & r5 & Hc & H2 & ->). left_alone cd_machines H2 Em2. left_alone cd_checks H2 Ec2. cbn in Hrs. injection Hrs as ->.
  eapply update_moves in Hc; [|exact Hu | exact H1 | |].
  - destruct Hc as (m & c & F1 & F2 & F3 & F4 & F5 & F6). exists m, c. rewrite Em2, Ec2. by split_and!.
  - intros c c' Hs. apply fmap_Some in Hs as (r & Hr & ->). by exists r.
  - intros c rows Hc' Hg. cbv beta in Hg. apply andb_true_iff in Hg as [Hg _]. apply andb_true_iff in Hg as [Hg Ha]. apply andb_true_iff in Hg as [Hin _].
    pose proof (in_check_id _ _ _ _ Hin) as Hid. split; [done|]. intros m Hw Hi. unfold in_check in Hin. apply andb_true_iff in Hin as [Hin Ews].
    apply andb_true_iff in Hin as [_ Esid]. apply String.eqb_eq in Ews, Esid. unfold edit_allowed in Ha. rewrite Ews, Esid in Ha. unfold machine_allowed. rewrite Hw, Hi. cbn [andb].
    apply andb_true_iff in Ha as [A1 A2]. apply andb_true_iff. split; [exact A1|]. destruct (up_enabled input); [exact A2 | done].
Qed.

(** A configuration change of a check that an agent executes reaches the agent: when the batch
    that creates, adds, replaces or reschedules it has gone through, the desired revision of the
    agent's machine has moved by exactly one and the check is assigned to that revision, so that
    the agent fetches a new snapshot and the ingest worker does not refuse it as a future one.
    Whether the machine's statement was allowed is decided by conditions that agree with the
    check's own. *)
Theorem agent_change_moves_revision access userId d d' rs (Hu : keys_unique xm_id (cd_machines d)) (Hrs : rs !! 1%nat = Some 1) :
  (forall input compiled bytes a spk cpk slug, batch (create_statements fr access userId input compiled bytes (Some a) spk cpk slug) d = Ok (d', rs) ->
     moves_revision (xr_machine a) (fr_check fr) d d') /\
  (forall sid name input compiled bytes a pk, batch (add_statements fr access userId sid name input compiled bytes (Some a) pk) d = Ok (d', rs) ->
     moves_revision (xr_machine a) (fr_check fr) d d') /\
  (forall sid checkId row id replaceSecrets name compiled bytes capacity ids audit, edited_machine row = Some id ->
     batch (replace_statements fr access userId sid checkId row replaceSecrets name compiled bytes (Some capacity) ids audit) d = Ok (d', rs) ->
     moves_revision id checkId d d') /\
  (forall sid checkId row id input capacity audit, edited_machine row = Some id ->
     batch (policy_statements fr access userId sid checkId row input (Some capacity) audit) d = Ok (d', rs) -> moves_revision id checkId d d').
Proof.
  split_and!; intros.
  - by eapply create_moves.
  - by eapply add_moves.
  - by eapply replace_moves.
  - by eapply policy_moves.
Qed.
End Revision.

(** ** The secrets of a new check *)

Lemma leaves_advance {B} (get : config_db -> B) `{UA : UrlApi} `{WC : WebCrypto} `{LO : Locale} fr ws id capacity expected authorization : (forall v d, get (with_machines v d) = get d) ->
  leaves get (advanceAgentConfigurationStatement fr ws id capacity expected authorization).
Proof. intros Hs d n d' m H. apply advance_effect in H as (rows & ->). apply Hs. Qed.

Section Secrets.
Context `{UA : UrlApi} `{WC : WebCrypto} `{LO : Locale} (fr : fresh).

Lemma secrets_stored guard ws l : (forall rows d, guard (with_secrets rows d) = guard d) -> forall n d d' rs,
  batch_from n (secret_statements fr guard ws l) d = Ok (d', rs) -> guard d = true -> keys_unique ks_id (cd_secrets d) ->
  keys_unique ks_id (cd_secrets d') /\ (forall s, s ∈ cd_secrets d -> s ∈ cd_secrets d') /\
  forall s, s ∈ l -> stored_secret fr ws s ∈ cd_secrets d'.
Proof.
  intros Hg. induction l as [|s l IH]; intros n d d' rs H G Hu; [injection H as <- _; split_and!; [done | done | by intros s ?%elem_of_nil]|].
  apply batch_cons in H as (d1 & m & rs' & H1 & H & _). apply insert_select_effect in H1 as [(? & _)|(r & _ & [= <-] & Hk & -> & _)]; [congruence|].
  apply negb_true_iff in Hk. destruct (IH _ _ _ _ H) as (U & M & S); [by rewrite Hg | | split_and!; [done | |]].
  - cbn [cd_secrets with_secrets]. unfold keys_unique. rewrite map_app. apply NoDup_app. split_and!; [done | | apply NoDup_singleton].
    intros k Hin Hs. apply list_elem_of_singleton in Hs as ->. apply list_elem_of_fmap in Hin as (x & E & Hx).
    assert (has_key ks_id (ks_id (stored_secret fr ws s)) (cd_secrets d) = true); [|congruence]. apply has_key_elem. cbn [map]. rewrite E. by apply (list_elem_of_fmap_2 ks_id).
  - intros x Hx. apply M. cbn. apply elem_of_app. by left.
  - intros x [->|Hx]%elem_of_cons; [|by apply S]. apply M. cbn. apply elem_of_app. right. by left.
Qed.
Lemma tail_stores chk ws assertions secrets n d d' rs :
  batch_from n (assertion_statements fr (check_exists chk ws) chk assertions ++ secret_statements fr (check_exists chk ws) ws secrets)%list d = Ok (d', rs) ->
  check_exists chk ws d = true -> keys_unique ks_id (cd_secrets d) ->
  cd_checks d' = cd_checks d /\ keys_unique ks_id (cd_secrets d') /\ forall s, s ∈ secrets -> stored_secret fr ws s ∈ cd_secrets d'.
Proof.
  intros H G Hu. left_alone cd_checks H Ec. split; [done|]. apply batch_app in H as (d1 & n1 & r1 & r2 & H1 & H & _ & _).
  left_alone cd_secrets H1 Es. left_alone cd_checks H1 Ec1. destruct (secrets_stored (check_exists chk ws) ws secrets (fun _ _ => eq_refl) _ _ _ _ H) as (U & _ & S); [| by rewrite Es | done].
  unfold check_exists. by rewrite Ec1.
Qed.

(** The only row with the identifier drawn for the check is the new one. *)
Definition only_new (k : string) (refs : string) (ws : string) (d' : config_db) : Prop :=
  forall c, c ∈ cd_checks d' -> kf_id c = k -> kf_workspace c = ws /\ kf_secret_refs c = refs.
Lemma loaded_row d t cursor row : row ∈ loadDueChecks (cd_sync d) t cursor ->
  exists c, c ∈ cd_checks d /\ cc_id row = kf_id c /\ cc_workspace_id row = kf_workspace c /\ cc_secret_refs_json row = kf_secret_refs c.
Proof.
  intros H. unfold loadDueChecks, RoundRobin.cyclic_page in H. apply elem_of_order_limit in H. apply list_elem_of_omap in H as (ck & Hck & H).
  cbn [cd_sync sy_checks] in Hck. apply list_elem_of_fmap in Hck as (c & -> & Hc). exists c. unfold due_row in H.
  repeat case_match; try done. injection H as <-. by split_and!.
Qed.
Lemma appended_only c rows d' : has_key kf_id (kf_id c) rows = false -> cd_checks d' = (rows ++ [c])%list ->
  only_new (kf_id c) (kf_secret_refs c) (kf_workspace c) d'.
Proof.
  intros Hk E x Hx Hid. rewrite E in Hx. apply elem_of_app in Hx as [Hx|Hx]; [|by apply list_elem_of_singleton in Hx as ->].
  assert (has_key kf_id (kf_id c) rows = true); [|congruence]. apply has_key_elem. rewrite <- Hid. by apply (list_elem_of_fmap_2 kf_id).
Qed.
Lemma insertable_new c d : check_insertable c d = true -> has_key kf_id (kf_id c) (cd_checks d) = false.
Proof. unfold check_insertable. rewrite !andb_true_iff, negb_true_iff. tauto. Qed.
Definition stored_check (ws : string) (compiled : CompiledServiceConfig) (d' : config_db) : Prop :=
  only_new (fr_check fr) (json_stringify (stored_references (cf_secretRefs compiled))) ws d' /\
  keys_unique ks_id (cd_secrets d') /\ forall s, s ∈ cf_secrets compiled -> stored_secret fr ws s ∈ cd_secrets d'.
Lemma new_check_stored guard machine capacity ws sid name pk input compiled bytes n d d1 n1 tail d' rs :
  check_statement fr guard machine capacity ws sid name pk input compiled bytes d n = Ok (d1, n1) -> n1 = 1 ->
  Forall (leaves cd_checks) tail -> Forall (leaves cd_secrets) tail ->
  batch_from n1 (tail ++ assertion_statements fr (check_exists (fr_check fr) ws) (fr_check fr) (cf_assertions compiled) ++
    secret_statements fr (check_exists (fr_check fr) ws) ws (cf_secrets compiled))%list d1 = Ok (d', rs) ->
  keys_unique ks_id (cd_secrets d) -> stored_check ws compiled d'.
Proof.
  intros Hc Hn Hl Hs H Hu. unfold check_statement in Hc. apply insert_select_effect in Hc as [(_ & _ & ->)|(c & _ & Hr & Hi & Ed & _)]; [done|].
  apply fmap_Some in Hr as (r & _ & ->). apply insertable_new in Hi. apply batch_app in H as (d2 & n2 & r1 & r2 & H1 & H & _ & _).
  assert (E1 : cd_checks d2 = cd_checks d1) by (by eapply (leaves_batch cd_checks)). assert (E2 : cd_secrets d2 = cd_secrets d1) by (by eapply (leaves_batch cd_secrets)).
  apply tail_stores in H as (Ec & U & S).
  - split; [|done]. apply (appended_only (new_check fr ws sid name pk input compiled bytes r) (cd_checks d) d' Hi). by rewrite Ec, E1, Ed.
  - unfold check_exists. rewrite E1, Ed. cbn [cd_checks with_checks]. rewrite existsb_app. cbn. by rewrite !String.eqb_refl, orb_true_r.
  - by rewrite E2, Ed.
Qed.

Lemma add_stores access userId sid name input compiled bytes agent pk d d' rs : keys_unique ks_id (cd_secrets d) ->
  batch (add_statements fr access userId sid name input compiled bytes agent pk) d = Ok (d', rs) -> rs !! after_advance agent = Some 1 ->
  stored_check (m_workspaceId access) compiled d'.
Proof.
  intros Hu H Hrs. unfold batch, add_statements in H. cbv zeta in H. apply batch_app in H as (d1 & n1 & r1 & r2 & H1 & H & -> & Hl).
  assert (E1 : cd_secrets d1 = cd_secrets d) by (eapply (leaves_batch cd_secrets); [|exact H1]; destruct agent; leave; by apply (leaves_advance cd_secrets)).
  apply batch_cons in H as (d2 & n2 & r3 & Hc & H & ->). rewrite lookup_app_r in Hrs by (rewrite Hl; by destruct agent). rewrite Hl in Hrs.
  assert (Hn : n2 = 1) by (destruct agent; cbn in Hrs; congruence).
  eapply (new_check_stored _ _ _ _ _ _ _ _ _ _ _ _ _ _ [_]) in Hc; [exact Hc | exact Hn | | | exact H | by rewrite E1]; leave.
Qed.
Lemma create_stores access userId input compiled bytes agent spk cpk slug d d' rs : keys_unique ks_id (cd_secrets d) ->
  batch (create_statements fr access userId input compiled bytes agent spk cpk slug) d = Ok (d', rs) -> rs !! after_advance agent = Some 1 ->
  stored_check (m_workspaceId access) compiled d'.
Proof.
  intros Hu H Hrs. unfold batch, create_statements in H. set (ws := m_workspaceId access) in *. cbv zeta in H. apply batch_app in H as (d1 & n1 & r1 & r2 & H1 & H & -> & Hl).
  assert (E1 : cd_secrets d1 = cd_secrets d) by (eapply (leaves_batch cd_secrets); [|exact H1]; destruct agent; leave; by apply (leaves_advance cd_secrets)).
  apply batch_cons in H as (d2 & n2 & r3 & Hs & H & ->). apply batch_cons in H as (d3 & n3 & r4 & Ha & H & ->). apply batch_cons in H as (d4 & n4 & r5 & Hc & H & ->).
  rewrite lookup_app_r in Hrs by (rewrite Hl; by destruct agent). rewrite Hl in Hrs.
  assert (Hn : n2 = 1) by (destruct agent; cbn in Hrs; congruence). subst n2.
  apply insert_select_effect in Hs as [(_ & _ & ?)|(s & _ & [= <-] & _ & Ed2 & _)]; [done|]. injection Ha as <- <-.
  assert (Hn : n4 = 1). { unfold check_statement in Hc. apply insert_select_effect in Hc as [(Hno & _)|(c & _ & _ & _ & _ & ?)]; [|done].
    unfold service_live in Hno. subst d2. cbn [cd_services with_audits with_services] in Hno. rewrite existsb_app in Hno. cbn in Hno. by rewrite !String.eqb_refl, orb_true_r in Hno. }
  eapply (new_check_stored _ _ _ _ _ _ _ _ _ _ _ _ _ _ [_; _]) in Hc; [exact Hc | exact Hn | | | exact H | by subst d2; cbn; rewrite E1]; leave.
Qed.
End Secrets.

(** ** A new check can be executed *)

Section Execution.
Context `{UA : UrlApi} `{WC : WebCrypto} `{LO : Locale} `{WL : !WebCryptoLaws} (fr : fresh).
Context (nonce_length : forall i, blen (fr_nonce fr i) = 12) (secret_fresh : forall i j, fr_secret fr i = fr_secret fr j -> i = j).

Lemma keys_unique_rows l : keys_unique ks_id l -> keys_unique se_id (map ks_row l).
Proof. unfold keys_unique. by rewrite map_map. Qed.
Lemma stored_check_resolves ws key input compiled d' t cursor row :
  compileServiceConfig (fr_secret fr) (fr_nonce fr) input ws key = Ok compiled ->
  stored_check fr ws compiled d' -> row ∈ loadDueChecks (cd_sync d') t cursor -> cc_id row = fr_check fr ->
  exists headers, parseHeaderLines (mi_secretRequestHeaders input) = Ok headers /\
    resolveCheckSecrets (map ks_row (cd_secrets d')) row key = entered_secrets input headers.
Proof using nonce_length secret_fresh WL.
  intros Hc (Honly & Hu & Hst) Hrow Hid. apply loaded_row in Hrow as (c & Hin & E1 & E2 & E3).
  destruct (Honly c Hin ltac:(congruence)) as [Ew Er].
  apply (wrapped_secrets_resolve (fr_secret fr) (fr_nonce fr) nonce_length secret_fresh input ws key compiled); [done | by apply keys_unique_rows | | congruence | congruence].
  intros s Hs. by apply (list_elem_of_fmap_2 ks_row _ (stored_secret fr ws s)), Hst.
Qed.

(** C32: What an administrator enters as a secret is what the checks worker sends.  Once the batch
    that creates a service with its first check, or adds a check to a service, has gone through,
    every row that the worker loads for that check from the database resolves to exactly the
    entered header values, and to the request body and TCP payload when they were marked secret:
    the form is parsed, every value wrapped, bound to its workspace and identifier and stored, the
    references written as JSON, read back, parsed, found, unwrapped and put in their places.  The
    exception is a secret TCP payload of more than 4096 bytes: the form refuses it for a TCP check,
    but not for a check of another kind, which does not use it; the payload is then stored all the
    same, and the worker refuses to run the check whenever it is due.  (The nonces drawn have
    twelve bytes, and the identifiers drawn for secrets differ.) *)
Theorem entered_secrets_reach_worker access userId key input compiled bytes agent d d' rs t cursor row
  (Hu : keys_unique ks_id (cd_secrets d))
  (Hc : compileServiceConfig (fr_secret fr) (fr_nonce fr) input (m_workspaceId access) key = Ok compiled)
  (Hb : (exists sid name pk, batch (add_statements fr access userId sid name input compiled bytes agent pk) d = Ok (d', rs)) \/
        (exists spk cpk slug, batch (create_statements fr access userId input compiled bytes agent spk cpk slug) d = Ok (d', rs)))
  (Hrs : rs !! after_advance agent = Some 1)
  (Hrow : row ∈ loadDueChecks (cd_sync d') t cursor) (Hid : cc_id row = fr_check fr) :
  exists headers, parseHeaderLines (mi_secretRequestHeaders input) = Ok headers /\
    let payload_secret := mi_tcpPayloadIsSecret input && negb (String.eqb (mi_tcpPayload input) "") in
    let refused := payload_secret && (4096 <? slen (mi_tcpPayload input)) in
    resolveCheckSecrets (map ks_row (cd_secrets d')) row key =
      (if refused then Err "secret_payload_too_large"
       else Ok (Resolved headers
         (if mi_requestBodyIsSecret input && negb (String.eqb (mi_requestBody input) "") then Some (mi_requestBody input) else None)
         (if payload_secret then Some (encode_utf8 (mi_tcpPayload input)) else None))) /\
    (mi_kind input = "tcp" -> refused = false).
Proof using nonce_length secret_fresh WL.
  destruct (stored_check_resolves (m_workspaceId access) key input compiled d' t cursor row Hc) as (headers & Hh & E); [|done|done|].
  - destruct Hb as [(sid & name & pk & Hb) | (spk & cpk & slug & Hb)]; [by eapply add_stores | by eapply create_stores].
  - exists headers. split; [done|]. cbv zeta. split; [exact E|]. intros Hk.
    destruct (compile_parts _ _ _ _ _ _ Hc) as (? & ? & ? & ? & ? & P). apply cp_payload in P; [|done]. rewrite (proj2 (Z.ltb_ge 4096 _)) by done. apply andb_false_r.
Qed.
End Execution.

(** ** Recorded batches *)

#[local] Instance dv_locale : Locale := String.leb.
Definition dv_access : MonitoringAccess := Monitoring "w" 1 "board" 10 admin [].
Definition dv_fresh : fresh := Fresh 1000 "new-service" "new-check" "audit" "token" (fun n => "assertion-" ++ z_to_string (Z.of_nat n)) sc_uuid sc_random.
Definition dv_start : config_db := sl_db 1 [sl_check 0] [] [].
Definition dv_run : res (CompiledServiceConfig * (config_db * list Z)) :=
  let* c := sc_compiled "tcp" in
  let* r := batch (create_statements dv_fresh dv_access "admin" (sc_form "tcp") c 600 None 1001 1002 "shop") dv_start in Ok (c, r).
Definition dv_checked : bool :=
  match dv_run with
  | Ok (c, (d', rs)) => bool_decide (rs !! 0%nat = Some 1) && bool_decide (List.nth_error (map cc_id (loadDueChecks (cd_sync d') 3720000 0)) 0 = Some "new-check")
  | Err _ => false
  end.
Lemma dv_runs : exists c d' rs row, sc_compiled "tcp" = Ok c /\ batch (create_statements dv_fresh dv_access "admin" (sc_form "tcp") c 600 None 1001 1002 "shop") dv_start = Ok (d', rs) /\
  rs !! 0%nat = Some 1 /\ row ∈ loadDueChecks (cd_sync d') 3720000 0 /\ cc_id row = "new-check".
Proof.
  assert (H : dv_checked = true) by (vm_compute; reflexivity). unfold dv_checked, dv_run in H. destruct (sc_compiled "tcp") as [c|]; [cbn [rbind] in H|done].
  destruct (batch _ dv_start) as [[d' rs]|] eqn:E; [cbn [rbind] in H|done]. apply andb_true_iff in H as [H1 H2]. apply bool_decide_eq_true in H1, H2.
  rewrite nth_error_map in H2. destruct (List.nth_error _ 0) as [row|] eqn:Er; [|done]. injection H2 as H2. apply List.nth_error_In in Er.
  exists c, d', rs, row. split_and!; [done | done | done | by apply list_elem_of_In | done].
Qed.
Example entered_secrets_reach_worker_witness :
  exists d' row, row ∈ loadDueChecks (cd_sync d') 3720000 0 /\
    resolveCheckSecrets (map ks_row (cd_secrets d')) row sc_key = Ok (Resolved [("Authorization", "Bearer x")] None (Some (encode_utf8 "PING"))).
Proof.
  destruct dv_runs as (c & d' & rs & row & Hc & Hb & Hrs & Hrow & Hid). exists d', row. split; [done|].
  destruct (entered_secrets_reach_worker dv_fresh sc_random_length sc_uuid_fresh dv_access "admin" sc_key (sc_form "tcp") c 600 None dv_start d' rs 3720000 0 row) as (hs & Hh & E & _);
    [apply (bool_decide_unpack _); vm_compute; exact Logic.I | exact Hc | right; by exists 1001, 1002, "shop" | exact Hrs | exact Hrow | exact Hid |].
  rewrite E. assert (F : parseHeaderLines "Authorization: Bearer x" = Ok [("Authorization", "Bearer x")]) by (vm_compute; reflexivity).
  cbn [sc_form mi_secretRequestHeaders] in Hh. rewrite F in Hh. injection Hh as <-. reflexivity.
Defined.

(** The exception: an HTTP check with a secret TCP payload of 4097 bytes is created, and is due;
    the worker refuses it. *)
Definition dv_large : CreateServiceMonitorInput :=
  MonitorInput "Shop" "" "http" "cloudflare" "" (num_of_Z 60) (num_of_Z 5000) (num_of_Z 1) true (num_of_Z 2) (num_of_Z 2)
    "https://shop.example/health" "GET" "200" (num_of_Z 3) true None None (num_of_Z 65536)
    "" "" "" false "" "" None true (string_of_list_ascii (repeat "x"%char (Z.to_nat 4097))) true "" [].
Definition dv_large_run : res (list (res ResolvedCheckSecrets)) :=
  let* c := compileServiceConfig sc_uuid sc_random dv_large "w" sc_key in
  let* r := batch (create_statements dv_fresh dv_access "admin" dv_large c 600 None 1001 1002 "shop") dv_start in
  Ok (map (fun row => resolveCheckSecrets (map ks_row (cd_secrets r.1)) row sc_key)
    (List.filter (fun row => String.eqb (cc_id row) "new-check") (loadDueChecks (cd_sync r.1) 3720000 0))).
Example large_payload_refused : dv_large_run = Ok [Err "secret_payload_too_large"].
Proof. vm_compute. reflexivity. Qed.

(** The check that is switched off, and its agent. *)
Definition dv_row : CheckConfigurationEditRow := EditRow (st_check "c1" 1 0 600) 0 "s0" "" None 1 (Some "m1").
Definition dv_policy : res (config_db * list Z) :=
  batch (policy_statements (sl_fresh 1) dv_access "admin" "s0" "c1" dv_row (PolicyInput true (num_of_Z 60) (num_of_Z 5000) (num_of_Z 1) (num_of_Z 2) (num_of_Z 2) true)
    (Some (AgentCapacity "a1" (Some "c1") 600 true)) (prepareAuditStatement "audit" (AuditInput "w" "admin" "service.check.update" "service" "s0" None None 1000))) st_start.
Example agent_change_moves_revision_witness : exists d' rs, dv_policy = Ok (d', rs) /\ moves_revision (sl_fresh 1) "m1" "c1" st_start d'.
Proof.
  assert (H : match dv_policy with Ok (_, rs) => bool_decide (rs !! 1%nat = Some 1) | Err _ => false end = true) by (vm_compute; reflexivity).
  destruct dv_policy as [[d' rs]|] eqn:E; [|done]. apply bool_decide_eq_true in H. exists d', rs. split; [reflexivity|].
  destruct (agent_change_moves_revision (sl_fresh 1) dv_access "admin" st_start d' rs) as (_ & _ & _ & P);
    [apply (bool_decide_unpack _); vm_compute; exact Logic.I | exact H | eapply P; [|exact E]; reflexivity].
Defined.
