(* ===== verification/SiteAppearance.v ===== *)
(** * SiteAppearance: the looks of a public page

    [packages/contracts/src/site-appearance.ts].  The settings an administrator saves are checked
    strictly; what is read back from the database or a cached page is normalized, and falls back
    to the default.  The logo's address is parsed by the platform ([Web.UrlApi]). *)

From Stdlib Require Import ZArith Lia Bool String Ascii List.
From stdpp Require Import base tactics list strings.
From S2P Require Import Prelude.
From S2P Require Import Js.
From S2P Require Import Base64Url.
From S2P Require Import Web.
From S2P Require Import JsonFacts.
Open Scope string_scope.
Open Scope Z_scope.

(* @src packages/contracts/src/site-appearance.ts appearancePalettes *)
Definition appearancePalettes : list string := ["iris"; "ocean"; "mint"; "sunset"; "rose"].
(* @src packages/contracts/src/site-appearance.ts appearanceModes *)
Definition appearanceModes : list string := ["system"; "light"; "dark"].
(* @src packages/contracts/src/site-appearance.ts appearanceDensities *)
Definition appearanceDensities : list string := ["comfortable"; "compact"].
(* @src packages/contracts/src/site-appearance.ts SiteAppearance *)
Record SiteAppearance := Appearance {
  ap_title : string;
  ap_description : string;
  ap_logoUrl : string;
  ap_palette : string;
  ap_mode : string;
  ap_density : string;
}.
(* @src packages/contracts/src/site-appearance.ts defaultSiteAppearance *)
Definition defaultSiteAppearance : SiteAppearance := Appearance "" "" "" "iris" "system" "comfortable".
(** The object with its properties in the order they are written. *)
Definition appearance_out (a : SiteAppearance) : jout :=
  OObj [("title", OStr (ap_title a)); ("description", OStr (ap_description a)); ("logoUrl", OStr (ap_logoUrl a));
        ("palette", OStr (ap_palette a)); ("mode", OStr (ap_mode a)); ("density", OStr (ap_density a))].
Definition appearance_props (a : SiteAppearance) : props := match json_of (appearance_out a) with JObj l => l | _ => [] end.

Definition control_char (c : ascii) : bool := (ord c <? 32)%N || (ord c =? 127)%N.
Definition address_char_refused (c : ascii) : bool := is_space c || Ascii.eqb c "\" || control_char c.

Section Appearance.
Context `{UA : UrlApi}.

(* @src packages/contracts/src/site-appearance.ts validateSiteLogoUrl *)
Definition validateSiteLogoUrl (value : option json) : res string :=
  match value with
  | None | Some JNull => Ok ""
  | Some (JStr value) =>
      if String.eqb value "" then Ok ""
      else
        let url := trim value in
        if String.eqb url "" then Ok ""
        else
          throw_if (512 <? slen url) || str_exists address_char_refused url
            as "Use a logo address of up to 512 characters without spaces or backslashes" in
          let local := starts_with "/" url && negb (starts_with "//" url) in
          let parsed := if local then let* base := url_parse "https://alphaping.invalid" None in url_parse url (Some base)
                        else url_parse url None in
          match parsed with
          | Err _ => Err "Use an HTTPS logo address or a path beginning with /"
          | Ok parsed =>
              throw_if negb (String.eqb (protocol parsed) "https:") || (negb local && negb (starts_with "https://" (to_lower url))) ||
                  negb (String.eqb (username parsed) "") || negb (String.eqb (password parsed) "")
                as "Use an HTTPS logo address without credentials, or a path beginning with /" in
              Ok url
          end
  | Some _ => Err "Enter a public logo image address"
  end.
Definition trimmed (v : option json) : string := match v with Some (JStr s) => trim s | _ => "" end.
Definition one_of (l : list string) (v : option json) : option string :=
  match v with Some (JStr s) => if str_in s l then Some s else None | _ => None end.
(* @src packages/contracts/src/site-appearance.ts validateSiteAppearance *)
Definition validateSiteAppearance (value : json) : res SiteAppearance :=
  match value with
  | JObj input =>
      let title := trimmed (obj_get "title" input) in
      let description := trimmed (obj_get "description" input) in
      throw_if (80 <? slen title) || (240 <? slen description) as "Use up to 80 characters for the title and 240 for the introduction" in
      match one_of appearancePalettes (obj_get "palette" input) with
      | None => Err "Choose a supported color palette"
      | Some palette =>
      match one_of appearanceModes (obj_get "mode" input) with
      | None => Err "Choose a supported color mode"
      | Some mode =>
      match one_of appearanceDensities (obj_get "density" input) with
      | None => Err "Choose a supported layout density"
      | Some density =>
          let* logoUrl := validateSiteLogoUrl (obj_get "logoUrl" input) in
          let appearance := Appearance title description logoUrl palette mode density in
          throw_if 2048 <? blen (encode_utf8 (json_stringify (appearance_out appearance))) as "Appearance settings are too large" in
          Ok appearance
      end end end
  | _ => Err "Appearance settings are invalid"
  end.
(** [{ ...defaults, ...value }] *)
Definition spread (defaults value : props) : props := fold_left (fun acc kv => obj_set kv.1 kv.2 acc) value defaults.
(* @src packages/contracts/src/site-appearance.ts normalizeSiteAppearance *)
Definition normalizeSiteAppearance (value : json) : SiteAppearance :=
  match value with
  | JObj l => rcatch (validateSiteAppearance (JObj (spread (appearance_props defaultSiteAppearance) l))) defaultSiteAppearance
  | _ => defaultSiteAppearance
  end.
(* @src packages/contracts/src/site-appearance.ts parseSiteAppearance *)
Definition parseSiteAppearance (value : option string) : SiteAppearance :=
  match value with
  | None => defaultSiteAppearance
  | Some value =>
      if String.eqb value "" || (2048 <? slen value) then defaultSiteAppearance
      else match json_parse value with Ok v => normalizeSiteAppearance v | Err _ => defaultSiteAppearance end
  end.

(** ** What the page can rely on *)

Definition appearance_ok (a : SiteAppearance) : Prop := validateSiteAppearance (json_of (appearance_out a)) = Ok a.

Lemma trim_left_idem s : trim_left (trim_left s) = trim_left s.
Proof. induction s as [|c s IH]; [done|]. cbn. destruct (is_space c) eqn:E; [done|]. cbn. by rewrite E. Qed.
Lemma trim_left_suffix s : exists p, s = p ++ trim_left s.
Proof. induction s as [|c s [p IH]]; [by exists ""|]. cbn. destruct (is_space c); [|by exists ""]. exists (String c p). cbn. by rewrite <- IH. Qed.
Lemma trim_left_prefix a b : trim_left (a ++ b) = a ++ b -> a <> "" -> trim_left a = a.
Proof. destruct a as [|c a]; [done|]. cbn. destruct (is_space c) eqn:E; [|done]. intros H _. exfalso.
  destruct (trim_left_suffix (a ++ b)) as [p Hp]. assert (L : String.length (a ++ b) = (String.length p + String.length (trim_left (a ++ b)))%nat) by (rewrite Hp at 1; by rewrite str_length_app).
  rewrite H in L. cbn in L. lia.
Qed.
Lemma trim_idem s : trim (trim s) = trim s.
Proof.
  unfold trim. set (t := trim_left s). set (v := trim_left (str_rev t)). destruct (decide (str_rev v = "")) as [->|Hne]; [done|].
  destruct (trim_left_suffix (str_rev t)) as [p Hp]. fold v in Hp. assert (Ht : t = str_rev v ++ str_rev p) by (by rewrite <- str_rev_append, <- Hp, str_rev_involutive).
  rewrite (trim_left_prefix (str_rev v) (str_rev p)); [|rewrite <- Ht; apply trim_left_idem | done]. rewrite str_rev_involutive. unfold v at 1. by rewrite trim_left_idem.
Qed.
Lemma logo_kept v url : validateSiteLogoUrl v = Ok url -> validateSiteLogoUrl (Some (JStr url)) = Ok url.
Proof.
  destruct v as [[| | |s| |]|]; try done; try by intros [= <-]. intros H. pose proof H as H0. cbn [validateSiteLogoUrl] in H0. cbv zeta in H0.
  destruct (String.eqb s "") eqn:Es; [by injection H0 as <-|]. destruct (String.eqb (trim s) "") eqn:Et; [by injection H0 as <-|].
  assert (url = trim s) as -> by (repeat case_match; congruence). rewrite <- H. cbn [validateSiteLogoUrl]. cbv zeta. by rewrite Es, Et, trim_idem, Et.
Qed.
Lemma one_of_kept l v s : one_of l v = Some s -> one_of l (Some (JStr s)) = Some s.
Proof. destruct v as [[| | |x| |]|]; try done. cbn. destruct (str_in x l) eqn:E; [|done]. intros [= ->]. by rewrite E. Qed.
Lemma trimmed_kept v : trimmed (Some (JStr (trimmed v))) = trimmed v.
Proof. destruct v as [[| | |x| |]|]; try done. apply trim_idem. Qed.

Lemma validated_ok value a : validateSiteAppearance value = Ok a -> appearance_ok a /\ blen (encode_utf8 (json_stringify (appearance_out a))) <= 2048.
Proof.
  destruct value as [| | | | |input]; try done. cbn [validateSiteAppearance]. cbv zeta. destruct (_ || _) eqn:E1; [done|].
  destruct (one_of appearancePalettes _) as [palette|] eqn:E2; [|done]. destruct (one_of appearanceModes _) as [mode|] eqn:E3; [|done].
  destruct (one_of appearanceDensities _) as [density|] eqn:E4; [|done]. intros H. apply rbind_ok in H as (logo & E5 & H). destruct (2048 <? _) eqn:E6; [done|]. injection H as <-.
  split; [|by apply Z.ltb_ge in E6]. unfold appearance_ok. cbn [json_of appearance_out map validateSiteAppearance fst snd ap_title ap_description ap_logoUrl ap_palette ap_mode ap_density obj_get].
  cbn [String.eqb Ascii.eqb Bool.eqb]. cbv zeta. rewrite !trimmed_kept, E1, (one_of_kept _ _ _ E2), (one_of_kept _ _ _ E3), (one_of_kept _ _ _ E4), (logo_kept _ _ E5). cbn [rbind]. by rewrite E6.
Qed.
Lemma default_ok : appearance_ok defaultSiteAppearance. Proof. reflexivity. Qed.
Lemma appearance_stored a : appearance_ok a -> blen (encode_utf8 (json_stringify (appearance_out a))) <= 2048.
Proof. intros H. exact (proj2 (validated_ok _ _ H)). Qed.
Lemma normalize_kept a : appearance_ok a -> normalizeSiteAppearance (json_of (appearance_out a)) = a.
Proof. intros H. change (rcatch (validateSiteAppearance (json_of (appearance_out a))) defaultSiteAppearance = a). by rewrite (H : validateSiteAppearance _ = _). Qed.
Lemma normalized_ok value : appearance_ok (normalizeSiteAppearance value).
Proof. destruct value; try apply default_ok. cbn [normalizeSiteAppearance]. destruct (validateSiteAppearance _) eqn:E; [by apply validated_ok in E as [? _] | apply default_ok]. Qed.
Lemma parsed_ok value : appearance_ok (parseSiteAppearance value).
Proof.
  unfold parseSiteAppearance. destruct value as [value|]; [|apply default_ok]. destruct (_ || _); [apply default_ok|]. destruct (json_parse value); [apply normalized_ok | apply default_ok].
Qed.
Lemma appearance_out_ok a : jout_ok (appearance_out a).
Proof. split; [|by split_and!]. apply (bool_decide_unpack _). reflexivity. Qed.
(** The settings that are saved are the settings that are shown: whatever [validateSiteAppearance]
    accepts, written as JSON to the dashboard's row, is read back exactly; and whatever text is in
    the row, even none or an older form, what is shown passes the same validation, so a palette, a
    mode or a logo address that was never validated does not reach the page. *)
Theorem appearance_roundtrip value a (H : validateSiteAppearance value = Ok a) :
  parseSiteAppearance (Some (json_stringify (appearance_out a))) = a /\
  forall text, let shown := parseSiteAppearance text in appearance_ok shown /\
    str_in (ap_palette shown) appearancePalettes = true /\ validateSiteLogoUrl (Some (JStr (ap_logoUrl shown))) = Ok (ap_logoUrl shown).
Proof.
  split.
  - destruct (validated_ok _ _ H) as [Ha Hl]. unfold parseSiteAppearance. rewrite blen_encode_utf8 in Hl. rewrite (proj2 (Z.ltb_ge 2048 _)) by done.
    destruct (String.eqb _ "") eqn:E; [apply String.eqb_eq in E; by apply (f_equal String.length) in E|]. cbn [orb].
    rewrite json_parse_stringify by apply appearance_out_ok. by apply normalize_kept.
  - intros text. cbv zeta. pose proof (parsed_ok text) as Hs. split; [done|]. set (s := parseSiteAppearance text) in *. clearbody s. unfold appearance_ok in Hs.
    cbn [validateSiteAppearance json_of appearance_out map fst snd obj_get String.eqb Ascii.eqb Bool.eqb] in Hs. cbv zeta in Hs. destruct (_ || _); [done|].
    destruct (one_of appearancePalettes _) as [palette|] eqn:E2; [|done]. destruct (one_of appearanceModes _) as [mode|]; [|done]. destruct (one_of appearanceDensities _) as [density|]; [|done].
    apply rbind_ok in Hs as (logo & E5 & Hs). destruct (2048 <? _); [done|]. injection Hs as <-. cbn [ap_palette ap_logoUrl] in *.
    split; [|by apply logo_kept in E5]. unfold one_of in E2. destruct (str_in (ap_palette s) appearancePalettes) eqn:E; [by injection E2 as <- | done].
Qed.
End Appearance.
Definition sa_input : json := JObj [("title", JStr " Shop "); ("palette", JStr "mint"); ("mode", JStr "dark"); ("density", JStr "compact"); ("logoUrl", JStr "/logo.png")].
Example appearance_roundtrip_witness :
  parseSiteAppearance (Some (json_stringify (appearance_out (Appearance "Shop" "" "/logo.png" "mint" "dark" "compact")))) = Appearance "Shop" "" "/logo.png" "mint" "dark" "compact".
Proof. apply (appearance_roundtrip sa_input). vm_compute. reflexivity. Defined.
