(* ===== verification/QueryBatches.v ===== *)
(** * QueryBatches: queries with more values than a statement can bind

    [packages/db/src/repositories/d1-query-batches.ts] and [incident-updates.ts].  A query over a
    list of keys is cut into statements of ninety keys; the rows come back batch by batch.  Where
    the query has an order and a limit, every statement has them, and the program sorts and cuts
    the rows again: [batched_rows_exact] is that this is the query in one piece. *)

From Stdlib Require Import ZArith Lia Bool String List Sorted Permutation.
From stdpp Require Import base tactics sets list strings sorting.
From S2P Require Import Prelude.
From S2P Require Import Js.
From S2P Require Import Sql.
Open Scope string_scope.
Open Scope Z_scope.

(* @src packages/db/src/repositories/d1-query-batches.ts D1_IN_BATCH_SIZE *)
Definition D1_IN_BATCH_SIZE : nat := 90.
(* @src packages/db/src/repositories/d1-query-batches.ts queryInBatches *)
Definition queryInBatches {Row Value} (values : list Value) (prepare : list Value -> list Row) : list Row :=
  flat_map prepare (chunks D1_IN_BATCH_SIZE values).
(* @src packages/db/src/repositories/d1-query-batches.ts queryEachInBatches *)
Definition queryEachInBatches {Row Value} (values : list Value) (prepare : Value -> list Row) : list Row :=
  flat_map (fun batch => flat_map prepare batch) (chunks D1_IN_BATCH_SIZE values).
(** [WHERE key IN (values)] *)
Definition where_in {Row Value} `{EqDecision Value} (key : Row -> Value) (values : list Value) (table : list Row) : list Row :=
  List.filter (fun r => bool_decide (key r ∈ values)) table.

(* @src packages/db/src/repositories/incident-updates.ts IncidentUpdateRecord *)
Record incident_update := IncidentUpdate {
  iu_id : string;
  iu_incident : string;
  iu_state : string;
  iu_body : string;
  iu_published : option Z;
  iu_created : Z;
}.
(** [COALESCE(published_at, created_at)] *)
Definition iu_time (u : incident_update) : Z := match iu_published u with Some t => t | None => iu_created u end.
(** [ORDER BY time DESC, id], and the comparison of the sort. *)
Definition update_leb (a b : incident_update) : bool :=
  if iu_time a =? iu_time b then String.leb (iu_id a) (iu_id b) else iu_time b <? iu_time a.
(* @src packages/db/src/repositories/incident-updates.ts loadLatestIncidentUpdates *)
Definition loadLatestIncidentUpdates (updates : list incident_update) (incidentIds : list string) (perIncidentLimit globalLimit : Z)
  : res (list incident_update) :=
  throw_if (perIncidentLimit <? 1) || (globalLimit <? 1) as "RangeError" in
  Ok (order_limit update_leb globalLimit
    (queryEachInBatches incidentIds (fun incidentId =>
       order_limit update_leb perIncidentLimit (List.filter (fun u => String.eqb (iu_incident u) incidentId) updates)))).

(** ** Batches without a limit *)

Lemma in_batches_concat {Row Value} (values : list Value) (prepare : Value -> list Row) :
  queryEachInBatches values prepare = flat_map prepare values.
Proof.
  unfold queryEachInBatches. rewrite <- (chunks_concat D1_IN_BATCH_SIZE values) at 2 by (unfold D1_IN_BATCH_SIZE; lia).
  generalize (chunks D1_IN_BATCH_SIZE values) as ls. induction ls as [|l ls IH]; [done|]. cbn. by rewrite IH, flat_map_app.
Qed.
Lemma filter_disjoint_perm {A} (p q : A -> bool) l : (forall x, p x = true -> q x = true -> False) ->
  List.filter p l ++ List.filter q l ≡ₚ List.filter (fun x => p x || q x) l.
Proof.
  intros Hd. induction l as [|x l IH]; [done|]. cbn. destruct (p x) eqn:Ep, (q x) eqn:Eq; cbn; [by destruct (Hd x) | by rewrite IH | | done].
  by rewrite <- Permutation_middle, IH.
Qed.
Section Batched.
Context {Row Value : Type} `{!EqDecision Value} (key : Row -> Value) (table : list Row).
Lemma where_in_app_perm l1 l2 : NoDup (l1 ++ l2) -> where_in key l1 table ++ where_in key l2 table ≡ₚ where_in key (l1 ++ l2) table.
Proof.
  intros Hnd. apply NoDup_app in Hnd as (_ & Hd & _). unfold where_in. rewrite filter_disjoint_perm.
  - erewrite List.filter_ext; [reflexivity|]. intros r. cbv beta. rewrite <- bool_decide_or. apply bool_decide_ext. by rewrite elem_of_app.
  - intros r H1 H2. apply bool_decide_eq_true in H1, H2. by apply (Hd (key r)).
Qed.
Lemma flat_map_where_in ls : NoDup (concat ls) -> flat_map (fun batch => where_in key batch table) ls ≡ₚ where_in key (concat ls) table.
Proof.
  induction ls as [|l ls IH]; intros H.
  - cbn. unfold where_in. induction table as [|r t IHt]; [done|]. cbn. done.
  - cbn [flat_map concat]. cbn [concat] in H. rewrite IH; [by apply where_in_app_perm|]. by apply NoDup_app in H as (_ & _ & ?).
Qed.
(** Distinct keys in batches are the keys in one statement, up to the order of the rows. *)
Lemma batches_perm values : NoDup values -> queryInBatches values (fun batch => where_in key batch table) ≡ₚ where_in key values table.
Proof.
  intros H. unfold queryInBatches. rewrite flat_map_where_in; rewrite chunks_concat; [done | unfold D1_IN_BATCH_SIZE; lia | done | unfold D1_IN_BATCH_SIZE; lia].
Qed.
Lemma elem_of_batches r values : r ∈ queryInBatches values (fun batch => where_in key batch table) <-> r ∈ table /\ key r ∈ values.
Proof.
  unfold queryInBatches. split.
  - intros H. apply list_elem_of_In, in_flat_map in H as (b & Hb & Hr). apply list_elem_of_In, filter_In_elem in Hr as [Hr Hk]. apply bool_decide_eq_true in Hk.
    split; [done|]. rewrite <- (chunks_concat D1_IN_BATCH_SIZE values) by (unfold D1_IN_BATCH_SIZE; lia). apply list_elem_of_In, in_concat. exists b. split; [done | by apply list_elem_of_In].
  - intros [Hr Hk]. rewrite <- (chunks_concat D1_IN_BATCH_SIZE values) in Hk by (unfold D1_IN_BATCH_SIZE; lia). apply list_elem_of_In, in_concat in Hk as (b & Hb & Hk).
    apply list_elem_of_In, in_flat_map. exists b. split; [done|]. apply list_elem_of_In, filter_In_elem. split; [done|]. by apply bool_decide_eq_true, list_elem_of_In.
Qed.
End Batched.

(** ** Batches with an order and a limit *)

Section Top.
Context {R : Type} (leb : R -> R -> bool).
Hypothesis leb_total : forall x y, leb x y = true \/ leb y x = true.
Hypothesis leb_trans : forall x y z, leb x y = true -> leb y z = true -> leb x z = true.

Lemma order_by_app a b : order_by leb (a ++ b) = foldr (insert_sorted leb) (order_by leb b) a.
Proof. apply foldr_app. Qed.
Lemma insert_head x l : Forall (fun y => leb x y = true) l -> insert_sorted leb x l = x :: l.
Proof. destruct l as [|y l]; [done|]. intros H. cbn. by rewrite (Forall_inv H). Qed.
Lemma order_by_sorted l : StronglySorted (Leb leb) l -> order_by leb l = l.
Proof. induction 1 as [|x l Hs IH Hx]; [done|]. change (insert_sorted leb x (order_by leb l) = x :: l). rewrite IH. by apply insert_head. Qed.
Lemma order_by_strong l : StronglySorted (Leb leb) (order_by leb l).
Proof. apply (@Sorted_StronglySorted R (Leb leb) leb_trans), order_by_Sorted, leb_total. Qed.

(** At least [n] rows of [s] come no later than [x]. *)
Definition filled (n : nat) (s : list R) (x : R) : Prop := (n <= length s)%nat /\ Forall (fun y => leb y x = true) (take n s).
Definition agree (s : list R) (x : R) : Prop := forall y, y ∈ s -> leb x y = true -> leb y x = true -> x = y.
Lemma filled_insert_same n : forall s x, StronglySorted (Leb leb) s -> filled n s x -> agree s x -> take n (insert_sorted leb x s) = take n s.
Proof.
  induction n as [|n IH]; intros s x Hs [Hl HF] Ha; [done|]. destruct s as [|y s]; [cbn in Hl; lia|]. cbn [take] in HF. pose proof (Forall_inv HF) as Hyx. apply Forall_inv_tail in HF.
  apply StronglySorted_inv in Hs as [Hs Hy]. cbn in Hl. specialize (IH s x Hs ltac:(split; [lia | done]) ltac:(intros z Hz; apply Ha; by right)). cbn [insert_sorted].
  destruct (leb x y) eqn:E; cbn [take]; [|by f_equal]. pose proof (Ha y ltac:(by left) E Hyx) as <-. f_equal. rewrite <- IH. by rewrite insert_head.
Qed.
Lemma filled_insert n : forall s x y, filled n s x -> filled n (insert_sorted leb y s) x.
Proof.
  induction n as [|n IH]; intros s x y [Hl HF]; [split; [lia | done]|]. destruct s as [|z s]; [cbn in Hl; lia|]. cbn [take] in HF. pose proof (Forall_inv HF) as Hz. cbn in Hl, Hz.
  cbn [insert_sorted]. destruct (leb y z) eqn:E.
  - split; [cbn; lia|]. cbn [take]. apply Forall_cons. split; [by apply (leb_trans y z x)|]. destruct n as [|n]; [done|]. cbn [take]. apply Forall_cons. split; [done|].
    apply Forall_inv_tail in HF. change (Forall (fun w => leb w x = true) (take n s)). replace (take n s) with (take n (take (S n) s)) by (rewrite take_take; f_equal; lia). by apply Forall_take.
  - destruct (IH s x y ltac:(split; [lia | by apply Forall_inv_tail in HF])) as [H1 H2]. split; [cbn; lia|]. cbn [take]. by apply Forall_cons.
Qed.
Lemma filled_order_by n b t x : filled n (order_by leb t) x -> filled n (order_by leb (b ++ t)) x.
Proof. intros H. rewrite order_by_app. induction b as [|y b IH]; [done|]. cbn. by apply filled_insert. Qed.

(** The rows the two sides may contain; among them the order has no ties. *)
Context (U : list R) (leb_anti : forall x y, x ∈ U -> y ∈ U -> leb x y = true -> leb y x = true -> x = y).
Lemma order_limit_perm n l l' : l ≡ₚ l' -> Forall (fun x => x ∈ U) l -> order_limit leb n l = order_limit leb n l'.
Proof.
  intros Hp HU. rewrite Forall_forall in HU. unfold order_limit. f_equal. apply (StronglySorted_unique_strong (Leb leb)); [|apply order_by_strong.. |by rewrite !order_by_perm].
  intros x y Hx Hy. apply elem_of_order_by in Hx, Hy. rewrite <- Hp in Hy. apply leb_anti; by apply HU.
Qed.
Lemma order_limit_late n d t : Forall (fun x => x ∈ U) (d ++ t) -> Forall (fun x => filled (Z.to_nat n) (order_by leb t) x) d -> order_limit leb n (d ++ t) = order_limit leb n t.
Proof.
  intros HU. induction d as [|x d IH]; [done|]. intros HF. apply Forall_cons in HF as [Hx HF]. cbn [app] in HU. apply Forall_cons in HU as [Hxu HU].
  rewrite <- (IH HU HF). unfold order_limit. cbn [app]. change (order_by leb (x :: (d ++ t))) with (insert_sorted leb x (order_by leb (d ++ t))).
  apply filled_insert_same; [apply order_by_strong | by apply filled_order_by|]. intros y Hy. apply elem_of_order_by in Hy. rewrite Forall_forall in HU. apply leb_anti; [done | by apply HU].
Qed.
(** Cutting a part first does not change what the whole keeps. *)
Lemma order_limit_cut n a b : Forall (fun x => x ∈ U) (a ++ b) -> order_limit leb n (order_limit leb n a ++ b) = order_limit leb n (a ++ b).
Proof.
  intros HU. set (t := order_limit leb n a). set (d := drop (Z.to_nat n) (order_by leb a)).
  assert (Ha : a ≡ₚ d ++ t) by (unfold d, t, order_limit; rewrite Permutation_app_comm, take_drop; symmetry; apply order_by_perm).
  assert (HU' : Forall (fun x => x ∈ U) (d ++ b ++ t)) by (rewrite Forall_forall in *; intros x Hx; apply HU; rewrite Ha; set_solver).
  rewrite (order_limit_perm n (a ++ b) (d ++ b ++ t)); [|by rewrite Ha, <- !app_assoc, (Permutation_app_comm t b) | done].
  rewrite (order_limit_late n d (b ++ t)); [apply order_limit_perm; [apply Permutation_app_comm|]; rewrite Forall_forall in *; intros x Hx; apply HU'; set_solver | done|].
  apply Forall_forall. intros x Hx. apply filled_order_by. pose proof (order_by_strong a) as Hs. rewrite <- (take_drop (Z.to_nat n) (order_by leb a)) in Hs. fold t d in Hs.
  rewrite order_by_sorted by (by apply StronglySorted_app_1_l in Hs). split.
  - unfold t, order_limit. rewrite length_take. assert (length d <> 0%nat) by (destruct d; [by apply elem_of_nil in Hx | done]). unfold d in H. rewrite length_drop in H. lia.
  - rewrite take_ge by (unfold t, order_limit; rewrite length_take; lia). apply Forall_forall. intros y Hy. by apply (StronglySorted_app_1_elem_of _ _ _ y x Hs).
Qed.
Lemma order_limit_cuts n ls : forall e, Forall (fun x => x ∈ U) (concat ls ++ e) ->
  order_limit leb n (flat_map (order_limit leb n) ls ++ e) = order_limit leb n (concat ls ++ e).
Proof.
  induction ls as [|l ls IH]; intros e HU; [done|]. cbn [flat_map concat] in *. rewrite <- !app_assoc in *. rewrite Forall_forall in HU.
  assert (Hf : forall x, x ∈ flat_map (order_limit leb n) ls -> x ∈ concat ls).
  { intros x Hx. apply list_elem_of_In, in_flat_map in Hx as (m & Hm & Hx). apply list_elem_of_In, elem_of_order_limit, list_elem_of_In in Hx. apply list_elem_of_In, in_concat. by exists m. }
  rewrite order_limit_cut by (apply Forall_forall; intros x Hx; apply HU; set_solver).
  rewrite (order_limit_perm n _ (flat_map (order_limit leb n) ls ++ (l ++ e))) by (first [apply Permutation_app_swap_app | apply Forall_forall; intros x Hx; apply HU; set_solver]).
  rewrite IH by (apply Forall_forall; intros x Hx; apply HU; set_solver). apply order_limit_perm; [apply Permutation_app_swap_app | apply Forall_forall; intros x Hx; apply HU; set_solver].
Qed.
End Top.

(** Ninety keys at a time, each statement with the order and the limit, sorted and cut again, is
    the statement with all the keys. *)
Lemma batched_rows_exact {R V} `{!EqDecision V} (key : R -> V) (leb : R -> R -> bool) table n values :
  (forall x y, leb x y = true \/ leb y x = true) -> (forall x y z, leb x y = true -> leb y z = true -> leb x z = true) ->
  (forall x y, x ∈ table -> y ∈ table -> leb x y = true -> leb y x = true -> x = y) -> NoDup values ->
  order_limit leb n (queryInBatches values (fun batch => order_limit leb n (where_in key batch table))) = order_limit leb n (where_in key values table).
Proof.
  intros Ht Htr Ha Hnd. set (ls := map (fun batch => where_in key batch table) (chunks D1_IN_BATCH_SIZE values)).
  assert (Hp : concat ls ≡ₚ where_in key values table) by (rewrite <- (batches_perm key table values Hnd); unfold ls, queryInBatches; rewrite flat_map_concat_map; reflexivity).
  assert (HU : Forall (fun x => x ∈ table) (concat ls ++ [])).
  { apply Forall_forall. intros x Hx. rewrite app_nil_r, Hp in Hx. by apply list_elem_of_In, filter_In in Hx as [Hx%list_elem_of_In _]. }
  transitivity (order_limit leb n (flat_map (order_limit leb n) ls ++ [])).
  - f_equal. rewrite app_nil_r. unfold ls, queryInBatches. clear. induction (chunks D1_IN_BATCH_SIZE values) as [|c cs IH]; [done|]. cbn [flat_map map]. rewrite IH. reflexivity.
  - rewrite (order_limit_cuts leb Ht Htr table Ha n ls [] HU). rewrite app_nil_r in *. by apply (order_limit_perm leb Ht Htr table Ha).
Qed.
