(* ===== verification/MachineInventory.v ===== *)
(** * MachineInventory: the containers an agent reported

    [parseContainerInventory] of [packages/db/src/repositories/machines.ts] with the types of
    [machine-models.ts]: the text the ingest worker stored is read back with every bound checked,
    or not at all; and the last error of a machine, taken from its commands and its runtimes. *)

From Stdlib Require Import ZArith Lia Bool String Ascii List.
From stdpp Require Import base tactics list strings.
From S2P Require Import Prelude.
From S2P Require Import Js.
From S2P Require Import Sql.
Open Scope string_scope.
Open Scope Z_scope.

(* @src packages/db/src/repositories/machine-models.ts MachineRuntimeStatus *)
Record MachineRuntimeStatus := RuntimeStatus {
  rt_kind : string;
  rt_instance : string;
  rt_availability : string;
  rt_version : string;
  rt_detailCode : string;
}.
Record container_port := ContainerPort { po_privatePort : Z; po_publicPort : Z; po_protocol : string }.
(* @src packages/db/src/repositories/machine-models.ts MachineContainer *)
Record MachineContainer := Container {
  ct_id : string;
  ct_runtime : string;
  ct_runtimeInstance : string;
  ct_name : string;
  ct_image : string;
  ct_state : string;
  ct_health : string;
  ct_startedAt : Z;
  ct_restartCount : Z;
  ct_cpuPermille : Z;
  ct_memoryUsedBytes : Z;
  ct_memoryLimitBytes : Z;
  ct_networkRxBps : Z;
  ct_networkTxBps : Z;
  ct_ports : list container_port;
}.
(* @src packages/db/src/repositories/machine-models.ts MachineContainerInventory *)
Record MachineContainerInventory := Inventory {
  in_observedAt : Z;
  in_runtimes : list MachineRuntimeStatus;
  in_containers : list MachineContainer;
}.

(* @src packages/db/src/repositories/machines.ts runtimeKinds *)
Definition runtimeKinds : list string := ["docker"; "colima-docker"; "colima-containerd"; "apple-container"; "unknown"].
(* @src packages/db/src/repositories/machines.ts runtimeAvailability *)
Definition runtimeAvailability : list string := ["available"; "absent"; "stopped"; "permission-denied"; "incompatible"; "error"; "unknown"].
(* @src packages/db/src/repositories/machines.ts containerStates *)
Definition containerStates : list string := ["created"; "running"; "paused"; "restarting"; "exited"; "dead"; "unknown"].
(* @src packages/db/src/repositories/machines.ts containerHealth *)
Definition containerHealth : list string := ["none"; "starting"; "healthy"; "unhealthy"; "unknown"].

(* @src packages/db/src/repositories/machines.ts boundedString *)
Definition inventory_string (value : option json) (maximum : Z) : option string :=
  match value with Some (JStr s) => if slen s <=? maximum then Some s else None | _ => None end.
(* @src packages/db/src/repositories/machines.ts safeInteger *)
Definition safeInteger (value : option json) : option Z :=
  match as_safe_int value with Some z => if 0 <=? z then Some z else None | None => None end.
(** A text that is not empty and is one of the set. *)
Definition named (value : option json) (names : list string) : option string :=
  match inventory_string value 32 with Some s => if negb (String.eqb s "") && str_in s names then Some s else None | None => None end.
(** [/^[a-f0-9]{32}$/] *)
Definition container_id (value : option json) : option string :=
  match inventory_string value 32 with
  | Some s => if (slen s =? 32) && str_forall (fun c => is_digit c || in_range 97 102 c) s then Some s else None
  | None => None
  end.
(* @src packages/db/src/repositories/machines.ts 325-348 parseContainerInventory *)
Definition parse_runtime (item : json) : option MachineRuntimeStatus :=
  match item with
  | JObj o =>
      kind ← named (obj_get "kind" o) runtimeKinds;
      availability ← named (obj_get "availability" o) runtimeAvailability;
      instance ← inventory_string (obj_get "instance" o) 64;
      version ← inventory_string (obj_get "version" o) 64;
      detailCode ← inventory_string (obj_get "detailCode" o) 64;
      Some (RuntimeStatus kind instance availability version detailCode)
  | _ => None
  end.
(* @src packages/db/src/repositories/machines.ts 385-392 parseContainerInventory *)
Definition parse_port (port : json) : option container_port :=
  match port with
  | JObj o =>
      privatePort ← safeInteger (obj_get "privatePort" o);
      publicPort ← safeInteger (obj_get "publicPort" o);
      protocol ← inventory_string (obj_get "protocol" o) 8;
      Some (ContainerPort privatePort publicPort protocol)
  | _ => None
  end.
(* @src packages/db/src/repositories/machines.ts 352-410 parseContainerInventory *)
Definition parse_container (item : json) : option MachineContainer :=
  match item with
  | JObj o =>
      match obj_get "ports" o with
      | Some (JArr ports) =>
          if (8 <? length ports)%nat then None
          else
            id ← container_id (obj_get "id" o);
            runtime ← named (obj_get "runtime" o) runtimeKinds;
            runtimeInstance ← inventory_string (obj_get "runtimeInstance" o) 64;
            name ← inventory_string (obj_get "name" o) 128;
            image ← inventory_string (obj_get "image" o) 512;
            state ← named (obj_get "state" o) containerStates;
            health ← named (obj_get "health" o) containerHealth;
            startedAt ← safeInteger (obj_get "startedAt" o);
            restartCount ← safeInteger (obj_get "restartCount" o);
            cpuPermille ← safeInteger (obj_get "cpuPermille" o);
            memoryUsedBytes ← safeInteger (obj_get "memoryUsedBytes" o);
            memoryLimitBytes ← safeInteger (obj_get "memoryLimitBytes" o);
            networkRxBps ← safeInteger (obj_get "networkRxBps" o);
            networkTxBps ← safeInteger (obj_get "networkTxBps" o);
            parsed ← mapM parse_port ports;
            Some (Container id runtime runtimeInstance name image state health startedAt restartCount cpuPermille memoryUsedBytes
              memoryLimitBytes networkRxBps networkTxBps parsed)
      | _ => None
      end
  | _ => None
  end.
(* @src packages/db/src/repositories/machines.ts parseContainerInventory *)
Definition parseContainerInventory (value : option string) : option MachineContainerInventory :=
  value ← value;
  if String.eqb value "" || (256 * 1024 <? slen value) then None
  else
    match json_parse value with
    | Ok (JObj o) =>
        match obj_get "runtimes" o, obj_get "containers" o with
        | Some (JArr runtimes), Some (JArr containers) =>
            observedAt ← safeInteger (obj_get "observedAt" o);
            if (16 <? length runtimes)%nat || (64 <? length containers)%nat then None
            else
              runtimes ← mapM parse_runtime runtimes;
              containers ← mapM parse_container containers;
              Some (Inventory observedAt runtimes containers)
        | _, _ => None
        end
    | _ => None
    end.

(** ** The last error *)

(* @src packages/db/src/repositories/machines.ts AgentCommandRow *)
Record AgentCommandRow := AgentCommand {
  cm_id : string;
  cm_type : string;
  cm_state : string;
  cm_result : option string;
  cm_created : Z;
  cm_completed : option Z;
}.
Record machine_error := MachineError { me_code : string; me_source : string; me_label : string; me_at : Z }.
(* @src packages/db/src/repositories/machines.ts nonempty *)
Definition nonempty (value : option string) : option string := match value with Some s => if String.eqb s "" then None else Some s | None => None end.
Definition command_error (c : AgentCommandRow) : machine_error :=
  MachineError (coalesce (nonempty (cm_result c)) "command_failed") "agent-command" (cm_type c) (coalesce (cm_completed c) (cm_created c)).
Definition runtime_error (observedAt : Z) (r : MachineRuntimeStatus) : machine_error :=
  MachineError (coalesce (nonempty (Some (rt_detailCode r))) (rt_availability r)) "container-runtime"
    (if String.eqb (rt_instance r) "" then rt_kind r else rt_kind r ++ ":" ++ rt_instance r) observedAt.
(* @src packages/db/src/repositories/machines.ts resolveLastMachineError *)
Definition resolveLastMachineError (commands : list AgentCommandRow) (inventory : option MachineContainerInventory) : option machine_error :=
  let failedCommand := hd_error (order_by (fun l r => me_at r <=? me_at l) (map command_error (List.filter (fun c => String.eqb (cm_state c) "failed") commands))) in
  let runtimeError := i ← inventory; hd_error (map (runtime_error (in_observedAt i))
    (List.filter (fun r => str_in (rt_availability r) ["stopped"; "permission-denied"; "incompatible"; "error"]) (in_runtimes i))) in
  match failedCommand, runtimeError with
  | None, r => r
  | Some c, None => Some c
  | Some c, Some r => if me_at r <=? me_at c then Some c else Some r
  end.

(** ** What was read is within the bounds *)

Definition container_ok (c : MachineContainer) : Prop :=
  slen (ct_id c) = 32 /\ slen (ct_name c) <= 128 /\ str_in (ct_state c) containerStates = true /\ str_in (ct_health c) containerHealth = true /\
  0 <= ct_cpuPermille c <= max_safe /\ 0 <= ct_memoryUsedBytes c <= max_safe.
Lemma bind_some {A B} (o : option A) (k : A -> option B) b : o ≫= k = Some b -> exists a, o = Some a /\ k a = Some b.
Proof. destruct o as [a|]; [|done]. by exists a. Qed.
Ltac option_inv := repeat match goal with H : _ ≫= _ = Some _ |- _ => apply bind_some in H as (? & ? & H) end.
Lemma safeInteger_range v z : safeInteger v = Some z -> 0 <= z <= max_safe.
Proof.
  unfold safeInteger, as_safe_int. destruct v as [[| |x| | |]|]; try done. unfold safe_int. destruct (num_int x) as [y|]; [|done].
  destruct (safe_z y) eqn:E; [|done]. destruct (0 <=? y) eqn:E2; [|done]. intros [= <-]. unfold safe_z in E. bool_hyps. apply Z.leb_le in E2. lia.
Qed.
Lemma named_in v names s : named v names = Some s -> str_in s names = true /\ slen s <= 32 /\ s <> "".
Proof.
  unfold named, inventory_string. destruct v as [[| | |x| |]|]; try done. destruct (slen x <=? 32) eqn:E; [|done]. destruct (_ && _) eqn:E2; [|done].
  intros [= <-]. apply andb_true_iff in E2 as [E1 E2]. apply Z.leb_le in E. split_and!; [done | done|]. intros ->. done.
Qed.
Lemma parse_container_ok item c : parse_container item = Some c -> container_ok c.
Proof.
  destruct item as [| | | | |o]; try done. cbn [parse_container]. destruct (obj_get "ports" o) as [[| | | |ports|]|]; try done. destruct (8 <? length ports)%nat; [done|].
  intros H. option_inv. injection H as <-. unfold container_ok. cbn.
  repeat match goal with
  | H : safeInteger _ = Some _ |- _ => apply safeInteger_range in H
  | H : named _ _ = Some _ |- _ => apply named_in in H as (? & ? & ?)
  end. split_and!; try done; try lia.
  - match goal with H : container_id _ = Some ?x |- slen ?x = 32 => unfold container_id in H; repeat case_match; try done; injection H as <-; bool_hyps; done end.
  - match goal with H : inventory_string (obj_get "name" o) 128 = Some ?x |- _ => unfold inventory_string in H; repeat case_match; try done; injection H as <- end. by apply Z.leb_le.
Qed.
Lemma parseContainerInventory_ok value i : parseContainerInventory value = Some i ->
  (length (in_runtimes i) <= 16)%nat /\ (length (in_containers i) <= 64)%nat /\ Forall container_ok (in_containers i) /\ 0 <= in_observedAt i <= max_safe.
Proof.
  unfold parseContainerInventory. intros H. apply bind_some in H as (s & _ & H). destruct (_ || _); [done|]. destruct (json_parse s) as [[| | | | |o]|]; try done.
  destruct (obj_get "runtimes" o) as [[| | | |runtimes|]|]; try done. destruct (obj_get "containers" o) as [[| | | |containers|]|]; try done.
  apply bind_some in H as (at_ & Hat & H). destruct (_ || _) eqn:E; [done|]. apply orb_false_iff in E as [E1 E2]. apply Nat.ltb_ge in E1, E2. option_inv. injection H as <-. cbn.
  match goal with H1 : mapM parse_runtime _ = Some _, H2 : mapM parse_container _ = Some _ |- _ => apply mapM_Some in H1, H2; pose proof (Forall2_length _ _ _ H1); pose proof (Forall2_length _ _ _ H2) end.
  split_and!; [lia | lia | | apply safeInteger_range in Hat; lia | apply safeInteger_range in Hat; lia].
  match goal with H2 : Forall2 _ containers _ |- _ => eapply Forall2_Forall_r; [exact H2|] end. apply Forall_forall. intros item _ c. apply parse_container_ok.
Qed.
