(* ===== verification/StatusTimeline.v ===== *)
(** * StatusTimeline: a service's last day in half hours

    The program draws the same timeline twice: [buildTimeline] of [public-status-projection.ts]
    fills 48 slots in place while it walks over the rows, [timelineForService] of [services.ts]
    groups the rows first and summarises every group.  [timelines_agree] is that a visitor and a
    member see the same.  States are read as text and unknown ones become [unknown]; the averages
    are [Math.round] of a quotient of safe integers. *)

From Stdlib Require Import ZArith Lia Bool String List.
From stdpp Require Import base tactics gmap list strings.
From S2P Require Import Prelude.
From S2P Require Import Js.
From S2P Require Import Sql.
From S2P Require Import CheckPersistence.
Open Scope string_scope.
Open Scope Z_scope.

(** [MonitorState] has the same values as the writer's [ServiceState]. *)
(* @src packages/db/src/repositories/service-models.ts StatusBucketRow *)
Record StatusBucketRow := BucketRow {
  br_resource : Z;
  br_start : Z;
  br_state : string;
  br_availability : Z;
  br_avg : option Z;
  br_max : option Z;
  br_summary : string;
}.
(* @src packages/db/src/repositories/service-models.ts ServiceTimelineBucket *)
Record ServiceTimelineBucket := TimelineBucket {
  tb_start : Z;
  tb_state : ServiceState;
  tb_availability : option Z;
  tb_latency : option Z;
  tb_summary : option string;
}.
#[export] Instance timeline_bucket_eq_dec : EqDecision ServiceTimelineBucket. Proof. solve_decision. Defined.

(* @src packages/db/src/repositories/services.ts normalizeState *)
Definition normalizeState (value : string) : ServiceState :=
  if String.eqb value "healthy" then SHealthy
  else if String.eqb value "degraded" then SDegraded
  else if String.eqb value "down" then SDown
  else if String.eqb value "maintenance" then SMaintenance
  else SUnknown.
(* @src packages/db/src/repositories/services.ts stateRank *)
Definition stateRank (s : ServiceState) : Z :=
  match s with SUnknown => 0 | SHealthy => 1 | SDegraded => 2 | SDown => 3 | SMaintenance => 4 end.
Lemma normalize_name s : normalizeState (state_name s) = s. Proof. by destruct s. Qed.
Lemma stateRank_inj a b : stateRank a = stateRank b -> a = b. Proof. by destruct a, b. Qed.

(** ** The public page *)

Definition BUCKET_MS : Z := 30 * 60000.
Record slot := Slot {
  so_start : Z;
  so_hasRows : bool;
  so_state : ServiceState;
  so_availabilityTotal : Z;
  so_availabilityCount : Z;
  so_latencyTotal : Z;
  so_latencyCount : Z;
  so_summaryCode : option string;
}.
(** One row of the loop, into its slot. *)
(* @src packages/db/src/repositories/public-status-projection.ts 190-201 buildTimeline *)
Definition count_row (row : StatusBucketRow) (b : slot) : slot :=
  let candidate := normalizeState (br_state row) in
  let worse := negb (so_hasRows b) || (stateRank (so_state b) <? stateRank candidate) in
  Slot (so_start b) true (if worse then candidate else so_state b)
    (so_availabilityTotal b + br_availability row) (so_availabilityCount b + 1)
    (match br_avg row with Some l => so_latencyTotal b + l | None => so_latencyTotal b end)
    (match br_avg row with Some _ => so_latencyCount b + 1 | None => so_latencyCount b end)
    (if worse then Some (br_summary row) else so_summaryCode b).
(* @src packages/db/src/repositories/public-status-projection.ts 185-189 buildTimeline *)
Definition place_row (servicePk start last : Z) (timeline : list slot) (row : StatusBucketRow) : list slot :=
  if negb (br_resource row =? servicePk) then timeline
  else
    let index := (br_start row - start) / BUCKET_MS in
    match (if index <? 0 then None else timeline !! Z.to_nat index) with
    | Some b => if last <=? br_start row then timeline else <[Z.to_nat index := count_row row b]> timeline
    | None => timeline
    end.
Definition average (total count : Z) : option Z := if count =? 0 then None else Some (round_div total count).
(* @src packages/db/src/repositories/public-status-projection.ts buildTimeline *)
Definition buildTimeline (servicePk : Z) (buckets : list StatusBucketRow) (now : Z) : list ServiceTimelineBucket :=
  let count := 48%nat in
  let last := now / BUCKET_MS * BUCKET_MS + BUCKET_MS in
  let start := last - Z.of_nat count * BUCKET_MS in
  let timeline := map (fun index => Slot (start + Z.of_nat index * BUCKET_MS) false SUnknown 0 0 0 0 None) (seq 0 count) in
  let timeline := fold_left (place_row servicePk start last) buckets timeline in
  map (fun b => TimelineBucket (so_start b) (so_state b) (average (so_availabilityTotal b) (so_availabilityCount b))
                  (average (so_latencyTotal b) (so_latencyCount b)) (so_summaryCode b)) timeline.

(** ** The members' page *)

(* @src packages/db/src/repositories/services.ts 298-306 timelineForService *)
Definition group_rows (servicePk bucketMs start last : Z) (groups : gmap Z (list StatusBucketRow)) (row : StatusBucketRow) : gmap Z (list StatusBucketRow) :=
  if negb (br_resource row =? servicePk) || (br_start row <? start) || (last <=? br_start row) then groups
  else
    let groupStart := br_start row / bucketMs * bucketMs in
    <[groupStart := (default [] (groups !! groupStart) ++ [row])%list]> groups.
Definition worse_of (worst : ServiceState) (row : StatusBucketRow) : ServiceState :=
  let candidate := normalizeState (br_state row) in if stateRank worst <? stateRank candidate then candidate else worst.
(* @src packages/db/src/repositories/services.ts 307-331 timelineForService *)
Definition summarize_group (bucketStart : Z) (group : list StatusBucketRow) : ServiceTimelineBucket :=
  let state := fold_left worse_of group SUnknown in
  let latencies := omap br_avg group in
  TimelineBucket bucketStart state (average (sumZ (map br_availability group)) (Z.of_nat (length group)))
    (average (sumZ latencies) (Z.of_nat (length latencies)))
    (br_summary <$> List.find (fun row => bool_decide (normalizeState (br_state row) = state)) group).
(* @src packages/db/src/repositories/services.ts timelineForService *)
Definition timelineForService (servicePk : Z) (rows : list StatusBucketRow) (now bucketSeconds : Z) (bucketCount : nat) : list ServiceTimelineBucket :=
  let bucketMs := bucketSeconds * 1000 in
  let last := now / bucketMs * bucketMs + bucketMs in
  let start := last - Z.of_nat bucketCount * bucketMs in
  let groups := fold_left (group_rows servicePk bucketMs start last) rows ∅ in
  map (fun index => let bucketStart := start + Z.of_nat index * bucketMs in summarize_group bucketStart (default [] (groups !! bucketStart))) (seq 0 bucketCount).

(** ** Both summarise the rows of every half hour *)

(** The rows of the slot that starts at [t]. *)
Definition in_slot (servicePk t : Z) (row : StatusBucketRow) : bool := (br_resource row =? servicePk) && (t <=? br_start row) && (br_start row <? t + BUCKET_MS).
Definition empty_slot (t : Z) : slot := Slot t false SUnknown 0 0 0 0 None.
Definition shown (b : slot) : ServiceTimelineBucket :=
  TimelineBucket (so_start b) (so_state b) (average (so_availabilityTotal b) (so_availabilityCount b)) (average (so_latencyTotal b) (so_latencyCount b)) (so_summaryCode b).

Lemma worst_rank group : forall s, stateRank s <= stateRank (fold_left worse_of group s) /\
  (forall row, row ∈ group -> stateRank (normalizeState (br_state row)) <= stateRank (fold_left worse_of group s)) /\
  (fold_left worse_of group s = s \/ exists row, row ∈ group /\ normalizeState (br_state row) = fold_left worse_of group s).
Proof.
  induction group as [|r group IH]; intros s; [split_and!; [done | by intros row ?%elem_of_nil | by left]|]. cbn [fold_left]. destruct (IH (worse_of s r)) as (H1 & H2 & H3).
  assert (Hr : stateRank s <= stateRank (worse_of s r) /\ stateRank (normalizeState (br_state r)) <= stateRank (worse_of s r)).
  { unfold worse_of. destruct (stateRank s <? _) eqn:E; bool_hyps; lia. }
  split_and!; [lia | |].
  - intros row [->|Hrow]%elem_of_cons; [lia | by apply H2].
  - destruct H3 as [H3|(row & Hrow & H3)]; [|right; exists row; by split; [right|]]. rewrite H3. unfold worse_of. destruct (stateRank s <? _); [right; exists r; by split; [left|] | by left].
Qed.
Lemma worst_found r group : List.find (fun row => bool_decide (normalizeState (br_state row) = fold_left worse_of (r :: group) SUnknown)) (r :: group) <> None.
Proof.
  intros H. pose proof (List.find_none _ _ H) as Hn. destruct (worst_rank (r :: group) SUnknown) as (_ & H2 & H3).
  assert (Hw : exists row, row ∈ r :: group /\ normalizeState (br_state row) = fold_left worse_of (r :: group) SUnknown).
  { destruct H3 as [H3|H3]; [|done]. exists r. split; [by left|]. specialize (H2 r ltac:(by left)). rewrite H3 in *. apply stateRank_inj. cbn in *. destruct (normalizeState (br_state r)); cbn in *; lia. }
  destruct Hw as (row & Hin & E). apply list_elem_of_In in Hin. specialize (Hn row Hin). cbv beta in Hn. by rewrite bool_decide_eq_true_2 in Hn.
Qed.
Lemma find_app {A} (p : A -> bool) l1 l2 : List.find p (l1 ++ l2) = match List.find p l1 with Some x => Some x | None => List.find p l2 end.
Proof. induction l1 as [|x l1 IH]; [done|]. cbn. by destruct (p x). Qed.

(** The fields of a slot that has counted the rows [group]. *)
Definition counted_slot (t : Z) (group : list StatusBucketRow) : slot :=
  let state := fold_left worse_of group SUnknown in
  Slot t (negb (bool_decide (group = []))) state (sumZ (map br_availability group)) (Z.of_nat (length group))
    (sumZ (omap br_avg group)) (Z.of_nat (length (omap br_avg group)))
    (br_summary <$> List.find (fun row => bool_decide (normalizeState (br_state row) = state)) group).
Lemma count_row_counted t group row : count_row row (counted_slot t group) = counted_slot t (group ++ [row]).
Proof.
  unfold counted_slot, count_row. cbn [so_start so_hasRows so_state so_availabilityTotal so_availabilityCount so_latencyTotal so_latencyCount so_summaryCode]. cbv zeta.
  rewrite fold_left_app. cbn [fold_left]. set (w := fold_left worse_of group SUnknown). set (c := normalizeState (br_state row)).
  assert (Hst : (if negb (negb (bool_decide (group = []))) || (stateRank w <? stateRank c) then c else w) = worse_of w row).
  { unfold worse_of. fold c. destruct (stateRank w <? stateRank c) eqn:E; [by rewrite orb_true_r|]. rewrite orb_false_r, negb_involutive. case_bool_decide as Hg; [|done]. subst w. rewrite Hg in E |- *. cbn in *.
    destruct c; cbn in *; done. }
  f_equal.
  - rewrite bool_decide_eq_false_2; [done|]. by destruct group.
  - exact Hst.
  - rewrite map_app, sumZ_app. cbn. lia.
  - rewrite length_app. cbn. lia.
  - rewrite omap_app, sumZ_app. cbn. destruct (br_avg row); cbn; lia.
  - rewrite omap_app, length_app. cbn. destruct (br_avg row); cbn; lia.
  - rewrite <- Hst, find_app. destruct group as [|r group].
    + cbn. by rewrite bool_decide_eq_true_2.
    + rewrite bool_decide_eq_false_2 by done. cbn [negb orb]. destruct (stateRank w <? stateRank c) eqn:E.
      * destruct (List.find _ (r :: group)) as [x|] eqn:Ef; [|cbn; by rewrite bool_decide_eq_true_2]. exfalso. apply List.find_some in Ef as [Hin Hx]. apply bool_decide_eq_true in Hx.
        destruct (worst_rank (r :: group) SUnknown) as (_ & H2 & _). apply list_elem_of_In in Hin. specialize (H2 x Hin). rewrite Hx in H2. fold w in H2. bool_hyps. lia.
      * pose proof (worst_found r group) as Hf. fold w in Hf. by destruct (List.find _ (r :: group)).
Qed.
Lemma shown_counted t group : shown (counted_slot t group) = summarize_group t group.
Proof. done. Qed.

Lemma slot_index servicePk start t row (i : nat) : t = start + Z.of_nat i * BUCKET_MS -> br_resource row = servicePk ->
  in_slot servicePk t row = true <-> (br_start row - start) / BUCKET_MS = Z.of_nat i.
Proof.
  intros -> E. unfold in_slot. rewrite E, Z.eqb_refl. cbn [andb]. unfold BUCKET_MS. rewrite andb_true_iff, Z.leb_le, Z.ltb_lt.
  pose proof (Z.div_mod (br_start row - start) (30 * 60000) ltac:(lia)) as Hd. pose proof (Z.mod_pos_bound (br_start row - start) (30 * 60000) ltac:(lia)). nia.
Qed.
Lemma place_row_slots servicePk start n (F : nat -> list StatusBucketRow) row :
  place_row servicePk start (start + Z.of_nat n * BUCKET_MS) (map (fun i => counted_slot (start + Z.of_nat i * BUCKET_MS) (F i)) (seq 0 n)) row =
  map (fun i => let t := start + Z.of_nat i * BUCKET_MS in counted_slot t (F i ++ (if in_slot servicePk t row then [row] else []))) (seq 0 n).
Proof.
  unfold place_row. destruct (br_resource row =? servicePk) eqn:Er; cbn [negb].
  2:{ apply map_ext. intros i. cbv zeta. unfold in_slot. rewrite Er. cbn [andb]. by rewrite app_nil_r. }
  apply Z.eqb_eq in Er. cbv zeta. set (q := (br_start row - start) / BUCKET_MS). set (f i := counted_slot (start + Z.of_nat i * BUCKET_MS) (F i)).
  assert (Hin : forall i : nat, in_slot servicePk (start + Z.of_nat i * BUCKET_MS) row = true <-> q = Z.of_nat i) by (intros i; by apply slot_index).
  assert (Hskip : (q < 0 \/ Z.of_nat n <= q) -> map f (seq 0 n) = map (fun i => let t := start + Z.of_nat i * BUCKET_MS in counted_slot t (F i ++ (if in_slot servicePk t row then [row] else []))) (seq 0 n)).
  { intros Hq. apply map_ext_in. intros i Hi. apply in_seq in Hi. cbv zeta. destruct (in_slot _ _ row) eqn:E; [apply Hin in E; lia | by rewrite app_nil_r]. }
  destruct (q <? 0) eqn:Eq; bool_hyps; [apply Hskip; lia|]. destruct (map f (seq 0 n) !! Z.to_nat q) as [b|] eqn:Eb.
  2:{ apply Hskip. apply lookup_ge_None in Eb. rewrite length_map, length_seq in Eb. lia. }
  assert (Hlt : (Z.to_nat q < n)%nat) by (apply lookup_lt_Some in Eb; by rewrite length_map, length_seq in Eb).
  assert (Hq : in_slot servicePk (start + Z.of_nat (Z.to_nat q) * BUCKET_MS) row = true) by (apply Hin; lia).
  assert (Hlast : (start + Z.of_nat n * BUCKET_MS <=? br_start row) = false).
  { unfold in_slot in Hq. unfold BUCKET_MS in *. bool_hyps. apply Z.leb_gt. nia. }
  rewrite Hlast. apply list_eq. intros i. rewrite list_lookup_fmap in Eb. apply fmap_Some in Eb as (k & Hk & ->). apply lookup_seq in Hk as [-> _]. rewrite Nat.add_0_l in *.
  rewrite list_lookup_fmap. destruct (decide (i = Z.to_nat q)) as [->|Hne].
  - rewrite list_lookup_insert_eq by (rewrite length_map, length_seq; lia). rewrite lookup_seq_lt by lia. cbn [fmap option_fmap option_map]. cbv beta zeta. rewrite Nat.add_0_l, Hq. unfold f. by rewrite count_row_counted.
  - rewrite list_lookup_insert_ne by done. rewrite list_lookup_fmap. destruct (seq 0 n !! i) as [k|] eqn:Ek; [|done]. apply lookup_seq in Ek as [-> _]. cbn [fmap option_fmap option_map]. cbv beta zeta. rewrite Nat.add_0_l.
    destruct (in_slot servicePk (start + Z.of_nat i * BUCKET_MS) row) eqn:E; [apply Hin in E; lia|]. by rewrite app_nil_r.
Qed.
Lemma fold_place_row servicePk start n rows : forall F,
  fold_left (place_row servicePk start (start + Z.of_nat n * BUCKET_MS)) rows (map (fun i => counted_slot (start + Z.of_nat i * BUCKET_MS) (F i)) (seq 0 n)) =
  map (fun i => let t := start + Z.of_nat i * BUCKET_MS in counted_slot t (F i ++ List.filter (in_slot servicePk t) rows)) (seq 0 n).
Proof.
  induction rows as [|row rows IH]; intros F; cbn [fold_left List.filter].
  - apply map_ext. intros i. cbv zeta. by rewrite app_nil_r.
  - rewrite place_row_slots. cbv zeta. rewrite (IH (fun i => F i ++ (if in_slot servicePk (start + Z.of_nat i * BUCKET_MS) row then [row] else []))%list). apply map_ext. intros i. cbv zeta.
    destruct (in_slot _ _ row); by rewrite <- app_assoc.
Qed.
Definition last_slot (now : Z) : Z := now / BUCKET_MS * BUCKET_MS.
Lemma buildTimeline_groups servicePk rows now : buildTimeline servicePk rows now =
  map (fun i => let t := last_slot now - 47 * BUCKET_MS + Z.of_nat i * BUCKET_MS in summarize_group t (List.filter (in_slot servicePk t) rows)) (seq 0 48).
Proof.
  unfold buildTimeline. cbv zeta. set (start := now / BUCKET_MS * BUCKET_MS + BUCKET_MS - Z.of_nat 48 * BUCKET_MS).
  replace (now / BUCKET_MS * BUCKET_MS + BUCKET_MS) with (start + Z.of_nat 48 * BUCKET_MS) by (unfold start; lia).
  pose proof (fold_place_row servicePk start 48 rows (fun _ => [])) as H. cbv beta in H.
  change (map (fun i => counted_slot (start + Z.of_nat i * BUCKET_MS) []) (seq 0 48)) with (map (fun i => empty_slot (start + Z.of_nat i * BUCKET_MS)) (seq 0 48)) in H.
  unfold empty_slot in H. rewrite H, map_map. apply map_ext. intros i. cbv zeta. cbn [app].
  replace (last_slot now - 47 * BUCKET_MS + Z.of_nat i * BUCKET_MS) with (start + Z.of_nat i * BUCKET_MS) by (unfold start, last_slot; lia). apply shown_counted.
Qed.

Definition in_window (servicePk bucketMs start last : Z) (k : Z) (row : StatusBucketRow) : bool :=
  (br_resource row =? servicePk) && (start <=? br_start row) && (br_start row <? last) && (br_start row / bucketMs * bucketMs =? k).
Lemma fold_group_rows servicePk bucketMs start last rows k : forall groups,
  default [] (fold_left (group_rows servicePk bucketMs start last) rows groups !! k) =
  (default [] (groups !! k) ++ List.filter (in_window servicePk bucketMs start last k) rows)%list.
Proof.
  induction rows as [|row rows IH]; intros groups; cbn [fold_left List.filter]; [by rewrite app_nil_r|]. rewrite IH. unfold group_rows, in_window at 2.
  destruct (br_resource row =? servicePk) eqn:E1; cbn [negb orb andb]; [|done]. rewrite (Z.ltb_antisym start), (Z.leb_antisym (br_start row) last).
  destruct (start <=? br_start row) eqn:E2; cbn [negb orb andb]; [|done]. destruct (br_start row <? last) eqn:E3; cbn [negb orb andb]; [|done].
  destruct (br_start row / bucketMs * bucketMs =? k) eqn:E4; bool_hyps.
  - subst k. rewrite lookup_insert_eq. simpl. by rewrite <- app_assoc.
  - by rewrite lookup_insert_ne.
Qed.
Lemma timelineForService_groups servicePk rows now : timelineForService servicePk rows now 1800 48 =
  map (fun i => let t := last_slot now - 47 * BUCKET_MS + Z.of_nat i * BUCKET_MS in summarize_group t (List.filter (in_slot servicePk t) rows)) (seq 0 48).
Proof.
  unfold timelineForService. cbv zeta. change (1800 * 1000) with BUCKET_MS. set (last := now / BUCKET_MS * BUCKET_MS + BUCKET_MS).
  apply map_ext_in. intros i Hi. apply in_seq in Hi. replace (last - Z.of_nat 48 * BUCKET_MS + Z.of_nat i * BUCKET_MS) with (last_slot now - 47 * BUCKET_MS + Z.of_nat i * BUCKET_MS) by (unfold last, last_slot; lia).
  f_equal. rewrite fold_group_rows, lookup_empty. simpl. apply List.filter_ext. intros row. unfold in_window, in_slot. destruct (br_resource row =? servicePk); [|done]. cbn [andb].
  apply eq_true_iff_eq. rewrite !andb_true_iff, Z.eqb_eq, !Z.leb_le, !Z.ltb_lt. unfold last, last_slot, BUCKET_MS in *.
  pose proof (Z.div_mod (br_start row) (30 * 60000) ltac:(lia)) as Hd. pose proof (Z.mod_pos_bound (br_start row) (30 * 60000) ltac:(lia)). nia.
Qed.

(** A visitor of the public page and a member see the same timeline.  The loop that fills 48
    slots in place, and the grouping that summarises afterwards, agree on every service, every
    list of rows in any order and any time: the same half hours, the same worst state, the same
    rounded averages and the same summary code, that of the first row with the worst state. *)
Theorem timelines_agree servicePk rows now : buildTimeline servicePk rows now = timelineForService servicePk rows now 1800 48.
Proof. by rewrite buildTimeline_groups, timelineForService_groups. Qed.

(** The timeline is the last day: 48 half hours without a gap, the last of which has [now] in it. *)
Lemma timeline_day servicePk rows now i b : buildTimeline servicePk rows now !! i = Some b -> (i < 48)%nat /\
  tb_start b = last_slot now - (47 - Z.of_nat i) * BUCKET_MS /\ last_slot now <= now < last_slot now + BUCKET_MS.
Proof.
  rewrite buildTimeline_groups, list_lookup_fmap. intros H. apply fmap_Some in H as (k & Hk & ->). apply lookup_seq in Hk as [-> Hk]. cbn [tb_start summarize_group].
  split_and!; [lia | unfold last_slot, BUCKET_MS; lia | |]; unfold last_slot, BUCKET_MS; pose proof (Z.div_mod now (30 * 60000) ltac:(lia)); pose proof (Z.mod_pos_bound now (30 * 60000) ltac:(lia)); lia.
Qed.
Lemma average_bound total count k : 0 <= count -> 0 <= total <= k * count -> match average total count with Some a => 0 <= a <= k | None => True end.
Proof. unfold average. intros Hc H. destruct (count =? 0) eqn:E; [done|]. bool_hyps. apply round_div_bounds; try lia; nia. Qed.
Lemma sumZ_between k l : Forall (fun x => 0 <= x <= k) l -> 0 <= sumZ l <= k * Z.of_nat (length l).
Proof. induction 1 as [|x l Hx _ IH]; cbn [sumZ foldr length]; [lia|]. unfold sumZ in IH. lia. Qed.
Lemma group_bounds t group : Forall (fun row => 0 <= br_availability row <= 1000 /\ match br_avg row with Some l => 0 <= l <= 120000 | None => True end) group ->
  match tb_availability (summarize_group t group) with Some a => 0 <= a <= 1000 | None => True end /\
  match tb_latency (summarize_group t group) with Some l => 0 <= l <= 120000 | None => True end.
Proof.
  intros H. cbn [summarize_group tb_availability tb_latency]. split; (apply average_bound; [lia|]).
  - rewrite <- (length_map br_availability group). apply sumZ_between, Forall_map. eapply Forall_impl; [exact H|]. by intros row [? _].
  - apply sumZ_between, Forall_forall. intros l Hl. apply list_elem_of_omap in Hl as (row & Hrow & E). rewrite Forall_forall in H. destruct (H row Hrow) as [_ Hl]. by rewrite E in Hl.
Qed.
