(* ===== verification/PublicStatus.v ===== *)
(** * PublicStatus: what a status page shows to everybody

    [packages/db/src/repositories/public-status.ts] and [public-status-projection.ts].  A page is
    put together from the control database (who is public, on which dashboard, in how much
    detail), and from the telemetry database (the latest values and the last day).  Both are
    lists of rows with the columns the queries read; a query is a comprehension with its
    conditions, an order and a limit.  Nothing is written. *)

From Stdlib Require Import ZArith Lia Bool String Ascii List.
From stdpp Require Import base tactics list strings.
From S2P Require Import Prelude.
From S2P Require Import Js.
From S2P Require Import Sql.
From S2P Require Import Web.
From S2P Require Import CheckPersistence.
From S2P Require Import Authz.
From S2P Require Import ConfigTables.
From S2P Require Import SiteAppearance.
From S2P Require Import QueryBatches.
From S2P Require Import MachineInventory.
From S2P Require Import StatusTimeline.
Open Scope string_scope.
Open Scope Z_scope.

(** ** Tables *)

Record st_workspace := StWorkspace { tw_id : string; tw_name : string; tw_slug : string; tw_pk : Z; tw_dashboard : string; tw_deleted : option Z }.
Record st_dashboard := StDashboard { td_id : string; td_name : string; td_appearance : string; td_visibility : string; td_deleted : option Z }.
Record st_machine := StMachine {
  tm_id : string; tm_workspace : string; tm_slug : string; tm_pk : Z; tm_name : string; tm_description : string; tm_offline : Z; tm_deleted : option Z;
}.
Record st_service := StService {
  ts_id : string; ts_workspace : string; ts_pk : Z; ts_name : string; ts_slug : option string; ts_description : string; ts_deleted : option Z;
}.
Record st_container := StContainer { tc_id : string; tc_workspace : string; tc_machine : string; tc_name : string; tc_deleted : option Z }.
Record st_check := StCheck { tk_pk : Z; tk_workspace : string; tk_service : string; tk_enabled : Z }.
Record st_incident := StIncident {
  ti_id : string; ti_workspace : string; ti_title : string; ti_summary : string; ti_severity : string; ti_state : string;
  ti_starts : Z; ti_resolved : option Z; ti_deleted : option Z;
}.
Record st_affected := StAffected { ta_incident : string; ta_type : ResourceType; ta_resource : string; ta_impact : string }.
Record st_announcement := StAnnouncement {
  tn_id : string; tn_workspace : string; tn_title : string; tn_body : string; tn_severity : string; tn_visibility : string;
  tn_starts : Z; tn_expires : Z; tn_deleted : option Z;
}.
Record control_side := ControlSide {
  cs_workspaces : list st_workspace;
  cs_dashboards : list st_dashboard;
  cs_resources : list dashboard_resource;
  cs_policies : list public_policy;
  cs_machines : list st_machine;
  cs_services : list st_service;
  cs_containers : list st_container;
  cs_checks : list st_check;
  cs_incidents : list st_incident;
  cs_affected : list st_affected;
  cs_updates : list incident_update;
  cs_announcements : list st_announcement;
}.
(** [machine_latest] *)
(* @src packages/db/src/repositories/public-status-projection.ts PublicMachineLatestRow *)
Record PublicMachineLatestRow := MachineLatest {
  ml_workspace : Z;
  ml_machine : Z;
  ml_observed : Z;
  ml_received : Z;
  ml_state : string;
  ml_cpu : Z;
  ml_memoryUsed : Z;
  ml_memoryTotal : Z;
  ml_storageUsed : Z;
  ml_storageTotal : Z;
  ml_rx : Z;
  ml_tx : Z;
  ml_inventory : option string;
}.
Record telemetry_side := TelemetrySide {
  ts_machines : list PublicMachineLatestRow;
  ts_services : list service_latest_row;
  ts_checks : list check_latest_row;
  ts_buckets : list status_bucket;
}.

(** ** Rows of the queries *)

(* @src packages/db/src/repositories/public-status.ts PublicWorkspaceRow *)
Record PublicWorkspaceRow := WorkspaceRow_ {
  wr_id : string; wr_name : string; wr_slug : string; wr_pk : Z; wr_dashboard : string; wr_dashboardName : string; wr_appearance : string;
}.
(* @src packages/db/src/repositories/public-status-projection.ts PublicMachineRow *)
Record PublicMachineRow := MachineRow_ {
  mr_id : string; mr_slug : string; mr_pk : Z; mr_name : string; mr_description : string; mr_offline : Z; mr_profile : string;
}.
(* @src packages/db/src/repositories/public-status-projection.ts PublicContainerRow *)
Record PublicContainerRow := ContainerRow_ { cr_id : string; cr_machine : string; cr_profile : string }.
(* @src packages/db/src/repositories/public-status-projection.ts PublicServiceRow *)
Record PublicServiceRow := ServiceRow_ {
  sr_id : string; sr_pk : Z; sr_name : string; sr_slug : option string; sr_description : string; sr_profile : string;
}.

(** ** Projections *)

Record public_container := PublicContainer { qc_name : string; qc_state : string; qc_health : string; qc_cpu : option Z; qc_memory : option Z }.
(* @src packages/db/src/repositories/public-status-projection.ts PublicStatusMachine *)
Record PublicStatusMachine := StatusMachine {
  qm_slug : string;
  qm_name : string;
  qm_description : string;
  qm_state : string;
  qm_observedAt : option Z;
  qm_cpu : option Z;
  qm_memoryUsed : option Z;
  qm_memoryTotal : option Z;
  qm_storageUsed : option Z;
  qm_storageTotal : option Z;
  qm_rx : option Z;
  qm_tx : option Z;
  qm_containers : list public_container;
}.
(* @src packages/db/src/repositories/public-status-projection.ts PublicStatusService *)
Record PublicStatusService := StatusService {
  qs_name : string;
  qs_slug : string;
  qs_description : string;
  qs_state : ServiceState;
  qs_lastCheckedAt : option Z;
  qs_lastTransitionAt : option Z;
  qs_availability : option Z;
  qs_timeline : list ServiceTimelineBucket;
}.

(* @src packages/db/src/repositories/public-status-projection.ts normalizeMachineState *)
Definition normalizeMachineState (value : string) : string :=
  if str_in value ["healthy"; "degraded"; "down"; "offline"; "maintenance"] then value else "unknown".
(** [new Map(rows.map((row) => [key(row), row])).get(k)]: the last row wins. *)
Definition map_get {R K} `{EqDecision K} (key : R -> K) (k : K) (rows : list R) : option R := last (List.filter (key_is key k) rows).
Definition detailed (profile : string) : bool := String.eqb profile "detailed".
Definition only_detailed {A} (profile : string) (latest : option PublicMachineLatestRow) (column : PublicMachineLatestRow -> A) : option A :=
  if detailed profile then column <$> latest else None.
(* @src packages/db/src/repositories/public-status-projection.ts 122-124 projectPublicStatusMachine *)
Definition stale (offlineAfter : Z) (now : Z) (latest : PublicMachineLatestRow) : bool := offlineAfter * 1000 <? now - ml_received latest.
(* @src packages/db/src/repositories/public-status-projection.ts 145-158 projectPublicStatusMachine *)
Definition project_container (inventory : option MachineContainerInventory) (policy : PublicContainerRow) : list public_container :=
  match map_get ct_id (cr_id policy) (match inventory with Some i => in_containers i | None => [] end) with
  | None => []
  | Some c => [PublicContainer (ct_name c) (ct_state c) (ct_health c)
      (if detailed (cr_profile policy) then Some (ct_cpuPermille c) else None) (if detailed (cr_profile policy) then Some (ct_memoryUsedBytes c) else None)]
  end.
(* @src packages/db/src/repositories/public-status-projection.ts projectPublicStatusMachine *)
Definition projectPublicStatusMachine (machine : PublicMachineRow) (latest : option PublicMachineLatestRow) (inventory : option MachineContainerInventory)
    (publicContainers : list PublicContainerRow) (now : Z) : PublicStatusMachine :=
  let shown {A} := @only_detailed A (mr_profile machine) latest in
  StatusMachine (mr_slug machine) (mr_name machine) (if detailed (mr_profile machine) then mr_description machine else "")
    (match latest with Some l => if stale (mr_offline machine) now l then "offline" else normalizeMachineState (ml_state l) | None => "unknown" end)
    (ml_observed <$> latest) (shown ml_cpu) (shown ml_memoryUsed) (shown ml_memoryTotal) (shown ml_storageUsed) (shown ml_storageTotal) (shown ml_rx) (shown ml_tx)
    (flat_map (project_container inventory) publicContainers).
(* @src packages/db/src/repositories/public-status-projection.ts projectPublicStatusService *)
Definition projectPublicStatusService (service : PublicServiceRow) (latest : option service_latest_row) (lastCheckedAt : option Z)
    (buckets : list StatusBucketRow) (now : Z) : PublicStatusService :=
  let serviceBuckets := List.filter (fun row => br_resource row =? sr_pk service) buckets in
  StatusService (sr_name service) (match sr_slug service with Some s => s | None => sr_id service end)
    (if detailed (sr_profile service) then sr_description service else "")
    (match latest with Some l => normalizeState (sl_state l) | None => SUnknown end) lastCheckedAt (sl_transition <$> latest)
    (average (sumZ (map br_availability serviceBuckets)) (Z.of_nat (length serviceBuckets)))
    (buildTimeline (sr_pk service) serviceBuckets now).

(** ** Who is public *)

Definition alive {A} (deleted : option A) : bool := match deleted with None => true | Some _ => false end.
(* @src packages/db/src/repositories/public-status.ts loadPublicWorkspace *)
Definition loadPublicWorkspace (c : control_side) (workspaceSlug : string) : res PublicWorkspaceRow :=
  match (w ← cs_workspaces c; d ← cs_dashboards c;
         if String.eqb (td_id d) (tw_dashboard w) && String.eqb (tw_slug w) workspaceSlug && alive (tw_deleted w) && alive (td_deleted d) &&
            String.eqb (td_visibility d) "public"
         then [WorkspaceRow_ (tw_id w) (tw_name w) (tw_slug w) (tw_pk w) (td_id d) (td_name d) (td_appearance d)] else []) with
  | [] => Err "PublicStatusNotFoundError"
  | w :: _ => Ok w
  end.
(** The dashboard shows the resource and does not deny it. *)
Definition placed (t : ResourceType) (dashboard : string) (r : dashboard_resource) : bool :=
  String.eqb (dr_dashboard r) dashboard && bool_decide (dr_type r = t) && negb (String.eqb (dr_override r) "deny").
(** The policy allows the resource. *)
Definition allows (t : ResourceType) (workspaceId id : string) (p : public_policy) : bool :=
  String.eqb (pp_workspace p) workspaceId && bool_decide (pp_type p = t) && String.eqb (pp_resource p) id && String.eqb (pp_effect p) "allow".

(** [ORDER BY dr.sort_order, m.name] *)
Definition placed_leb {A} (name : A -> string) (a b : Z * A) : bool := if a.1 =? b.1 then String.leb (name a.2) (name b.2) else a.1 <? b.1.
(** The rows that the query over machines joins and selects, and the query with its order and limit. *)
(* @src packages/db/src/repositories/public-status.ts 189-197 loadPublicMachineProjection *)
Definition joined_machines (workspaceId dashboard : string) (c : control_side) : list (Z * PublicMachineRow) :=
  dr ← cs_resources c; m ← cs_machines c; p ← cs_policies c;
  if placed RMachine dashboard dr && String.eqb (tm_id m) (dr_resource dr) && String.eqb (tm_workspace m) workspaceId && alive (tm_deleted m) &&
     allows RMachine (tm_workspace m) (tm_id m) p
  then [(dr_order dr, MachineRow_ (tm_id m) (tm_slug m) (tm_pk m) (tm_name m) (tm_description m) (tm_offline m) (pp_profile p))] else [].
(* @src packages/db/src/repositories/public-status.ts 512-519 loadPublicStatusPage *)
Definition joined_services (workspaceId dashboard : string) (c : control_side) : list (Z * PublicServiceRow) :=
  dr ← cs_resources c; s ← cs_services c; p ← cs_policies c;
  if placed RService dashboard dr && String.eqb (ts_id s) (dr_resource dr) && String.eqb (ts_workspace s) workspaceId && alive (ts_deleted s) &&
     allows RService (ts_workspace s) (ts_id s) p
  then [(dr_order dr, ServiceRow_ (ts_id s) (ts_pk s) (ts_name s) (ts_slug s) (ts_description s) (pp_profile p))] else [].
Definition listed {A} (name : A -> string) (rows : list (Z * A)) : list A := map snd (order_limit (placed_leb name) 200 rows).
(* @src packages/db/src/repositories/public-status.ts 186-202 loadPublicMachineProjection *)
Definition public_machines (workspaceId dashboard : string) (c : control_side) : list PublicMachineRow :=
  listed mr_name (joined_machines workspaceId dashboard c).
(* @src packages/db/src/repositories/public-status.ts 509-524 loadPublicStatusPage *)
Definition public_services (workspaceId dashboard : string) (c : control_side) : list PublicServiceRow :=
  listed sr_name (joined_services workspaceId dashboard c).

(** [hex(text)] *)
Fixpoint sql_hex (s : string) : string :=
  match s with EmptyString => "" | String c s' => String (upper_hex (ord c / 16)) (String (upper_hex (ord c mod 16)) (sql_hex s')) end.
(* @src packages/db/src/repositories/public-status.ts PublicContainerQueryRow *)
Record PublicContainerQueryRow := ContainerQueryRow { cq_row : PublicContainerRow; cq_nameKey : string; cq_idKey : string }.
(* @src packages/db/src/repositories/public-status.ts compareText *)
Definition compareText (left right : string) : Z := if String.ltb left right then -1 else if String.ltb right left then 1 else 0.
(** [compare(left, right) <= 0] for [compareText(name) || compareText(id)] *)
Definition container_key_leb (a b : PublicContainerQueryRow) : bool :=
  let byName := compareText (cq_nameKey a) (cq_nameKey b) in
  (if byName =? 0 then compareText (cq_idKey a) (cq_idKey b) else byName) <=? 0.
(** [ORDER BY c.name, c.id] *)
Definition container_leb (a b : st_container * public_policy) : bool :=
  if String.eqb (tc_name a.1) (tc_name b.1) then String.leb (tc_id a.1) (tc_id b.1) else String.leb (tc_name a.1) (tc_name b.1).
Definition container_row (cp : st_container * public_policy) : PublicContainerRow := ContainerRow_ (tc_id cp.1) (tc_machine cp.1) (pp_profile cp.2).
Definition container_query_row (cp : st_container * public_policy) : PublicContainerQueryRow :=
  ContainerQueryRow (container_row cp) (sql_hex (tc_name cp.1)) (sql_hex (tc_id cp.1)).
(** Live containers of the workspace with a policy that allows them. *)
Definition allowed_containers (workspaceId : string) (c : control_side) : list (st_container * public_policy) :=
  k ← cs_containers c; p ← cs_policies c;
  if String.eqb (tc_workspace k) workspaceId && alive (tc_deleted k) && allows RContainer (tc_workspace k) (tc_id k) p then [(k, p)] else [].
(* @src packages/db/src/repositories/public-status.ts 218-240 loadPublicMachineProjection *)
Definition public_container_rows (workspaceId : string) (machineIds : list string) (c : control_side) : list PublicContainerRow :=
  map cq_row (order_limit container_key_leb 500
    (queryInBatches machineIds (fun batch =>
       map container_query_row (order_limit container_leb 500 (where_in (fun kp => tc_machine kp.1) batch (allowed_containers workspaceId c)))))).
Definition latest_machine_rows (workspacePk : Z) (machinePks : list Z) (t : telemetry_side) : list PublicMachineLatestRow :=
  queryInBatches machinePks (fun batch => List.filter (fun l => (ml_workspace l =? workspacePk) && bool_decide (ml_machine l ∈ batch)) (ts_machines t)).
(* @src packages/db/src/repositories/public-status.ts loadPublicMachineProjection *)
Definition loadPublicMachineProjection (c : control_side) (t : telemetry_side) (workspace : PublicWorkspaceRow) (now : Z)
  : list PublicStatusMachine * list PublicMachineLatestRow :=
  let machines := public_machines (wr_id workspace) (wr_dashboard workspace) c in
  let latestMachines := latest_machine_rows (wr_pk workspace) (map mr_pk machines) t in
  let publicContainers := public_container_rows (wr_id workspace) (map mr_id machines) c in
  (map (fun machine =>
     let latest := map_get ml_machine (mr_pk machine) latestMachines in
     projectPublicStatusMachine machine latest (parseContainerInventory (latest ≫= ml_inventory))
       (List.filter (fun k => String.eqb (cr_machine k) (mr_id machine)) publicContainers) now) machines,
   latestMachines).

(** ** The page of one machine, the page of all, the page of one service *)

(* @src packages/db/src/repositories/public-status.ts summarizePublicStatusState *)
Definition summarizePublicStatusState (states : list string) : string :=
  if existsb (fun s => String.eqb s "down" || String.eqb s "offline") states then "down"
  else if existsb (String.eqb "degraded") states then "degraded"
  else if existsb (String.eqb "maintenance") states then "maintenance"
  else if negb (bool_decide (states = [])) && forallb (String.eqb "healthy") states then "healthy" else "unknown".
(** [rows.reduce<number | null>((latest, row) => Math.max(latest ?? 0, row.observed_at), start)] *)
Definition latest_time (start : option Z) (times : list Z) : option Z :=
  fold_left (fun latest t => Some (Z.max (coalesce latest 0) t)) times start.
(* @src packages/db/src/repositories/public-status.ts PublicMachinesStatusPage *)
Record PublicMachinesStatusPage := MachinesPage {
  gm_workspace : string * string; gm_dashboard : string * option SiteAppearance; gm_machines : list PublicStatusMachine; gm_overall : string; gm_updated : option Z;
}.
(* @src packages/db/src/repositories/public-status.ts PublicMachineStatusPage *)
Record PublicMachineStatusPage := MachinePage {
  g1_workspace : string * string; g1_dashboard : string * option SiteAppearance; g1_machine : PublicStatusMachine; g1_updated : option Z;
}.
(* @src packages/db/src/repositories/public-status.ts PublicServiceStatusPage *)
Record PublicServiceStatusPage := ServicePage {
  g2_workspace : string * string; g2_dashboard : string * option SiteAppearance; g2_service : PublicStatusService; g2_updated : option Z;
}.
(** ** Pages of services *)

(* @src packages/db/src/repositories/public-status.ts PublicStatusServicePagination *)
Record PublicStatusServicePagination := Pagination { gp_page : Z; gp_pageSize : Z; gp_pageCount : Z; gp_total : Z; gp_from : Z; gp_to : Z }.
(** A positive safe integer. *)
Definition positive_int (x : number) : option Z := match safe_int x with Some n => if 0 <? n then Some n else None | None => None end.
(* @src packages/db/src/repositories/public-status.ts buildPublicStatusServicePage *)
Definition buildPublicStatusServicePage {T} (services : list T) (requestedPage requestedPageSize : number) : list T * PublicStatusServicePagination :=
  let pageSize := match positive_int requestedPageSize with Some n => Z.min n 200 | None => 200 end in
  let total := Z.of_nat (length services) in
  let pageCount := Z.max 1 ((total + pageSize - 1) / pageSize) in
  let page := match positive_int requestedPage with Some n => Z.min n pageCount | None => 1 end in
  let offset := (page - 1) * pageSize in
  let to := Z.min (offset + pageSize) total in
  (take (Z.to_nat (to - offset)) (drop (Z.to_nat offset) services),
   Pagination page pageSize pageCount total (if total =? 0 then 0 else offset + 1) to).

(** ** The status page *)

Record page_incident := PageIncident {
  gi_id : string; gi_title : string; gi_summary : string; gi_severity : string; gi_state : string; gi_startsAt : Z; gi_resolvedAt : option Z;
  gi_affected : list (string * string); gi_updates : list (string * string * string * Z);
}.
Record page_announcement := PageAnnouncement { ga_id : string; ga_title : string; ga_body : string; ga_severity : string; ga_startsAt : Z; ga_expiresAt : Z }.
(* @src packages/db/src/repositories/public-status.ts PublicStatusPage *)
Record PublicStatusPage := StatusPage {
  gs_workspace : string * string;
  gs_dashboard : string * option SiteAppearance;
  gs_machines : list PublicStatusMachine;
  gs_services : list PublicStatusService;
  gs_incidents : list page_incident;
  gs_announcements : list page_announcement;
  gs_updatedAt : option Z;
}.
(* @src packages/db/src/repositories/public-status.ts PaginatedPublicStatusPage *)
Record PaginatedPublicStatusPage := PaginatedPage { gv_page : PublicStatusPage; gv_overall : string; gv_pagination : PublicStatusServicePagination }.

(* @src packages/db/src/repositories/public-status.ts PUBLIC_INCIDENT_UPDATES_PER_INCIDENT_LIMIT *)
Definition PUBLIC_INCIDENT_UPDATES_PER_INCIDENT_LIMIT : Z := 20.
(* @src packages/db/src/repositories/public-status.ts PUBLIC_INCIDENT_UPDATES_GLOBAL_LIMIT *)
Definition PUBLIC_INCIDENT_UPDATES_GLOBAL_LIMIT : Z := 200.
(* @src packages/db/src/repositories/public-status.ts INCIDENT_SERVICES_LIMIT *)
Definition INCIDENT_SERVICES_LIMIT : Z := 20.
Definition WEEK_MS : Z := 7 * 24 * 60 * 60000.

(** [[...new Map(rows.map((row) => [row.id, row])).values()]] *)
Definition map_put {R K} `{EqDecision K} (key : R -> K) (acc : list R) (row : R) : list R :=
  if has_key key (key row) acc then map (fun r => if key_is key (key row) r then row else r) acc else (acc ++ [row])%list.
Definition map_values {R K} `{EqDecision K} (key : R -> K) (rows : list R) : list R := fold_left (map_put key) rows [].
(** [ORDER BY i.starts_at DESC, i.id], and the comparison of the sort. *)
Definition incident_leb (a b : st_incident) : bool := if ti_starts a =? ti_starts b then String.leb (ti_id a) (ti_id b) else ti_starts b <? ti_starts a.
(** The incidents that affect a service of the batch. *)
Definition incidents_of (workspaceId : string) (now : Z) (c : control_side) (serviceIds : list string) : list st_incident :=
  List.filter (fun i => String.eqb (ti_workspace i) workspaceId && alive (ti_deleted i) &&
    existsb (fun a => String.eqb (ta_incident a) (ti_id i) && bool_decide (ta_type a = RService) && bool_decide (ta_resource a ∈ serviceIds)) (cs_affected c) &&
    (negb (String.eqb (ti_state i) "resolved") || match ti_resolved i with Some r => now - WEEK_MS <=? r | None => false end)) (cs_incidents c).
(* @src packages/db/src/repositories/public-status.ts 602-620 loadPublicStatusPage *)
Definition public_incidents (workspaceId : string) (now : Z) (c : control_side) (serviceIds : list string) : list st_incident :=
  order_limit incident_leb 20 (map_values ti_id (queryInBatches serviceIds (fun batch => order_limit incident_leb 20 (incidents_of workspaceId now c batch)))).
(* @src packages/db/src/repositories/public-status.ts 626-634 loadPublicStatusPage *)
Definition incident_services (c : control_side) (incidentIds : list string) : list st_affected :=
  queryEachInBatches incidentIds (fun incidentId => order_limit (fun a b => String.leb (ta_resource a) (ta_resource b)) (INCIDENT_SERVICES_LIMIT + 1)
    (List.filter (fun a => bool_decide (ta_type a = RService) && String.eqb (ta_incident a) incidentId) (cs_affected c))).
(* @src packages/db/src/repositories/public-status.ts 642-647 loadPublicStatusPage *)
Definition too_many_services (rows : list st_affected) : bool :=
  existsb (fun r => INCIDENT_SERVICES_LIMIT <? count_if (fun a => String.eqb (ta_incident a) (ta_incident r)) rows) rows.
(* @src packages/db/src/repositories/public-status.ts 660-685 loadPublicStatusPage *)
Definition show_incident (services : list PublicServiceRow) (affected : list st_affected) (updates : list incident_update) (i : st_incident) : page_incident :=
  PageIncident (ti_id i) (ti_title i) (ti_summary i) (ti_severity i) (ti_state i) (ti_starts i) (ti_resolved i)
    (omap (fun a => if String.eqb (ta_incident a) (ti_id i) then (fun s => (sr_name s, ta_impact a)) <$> map_get sr_id (ta_resource a) services else None) affected)
    (map (fun u => (iu_id u, iu_state u, iu_body u, iu_time u)) (List.filter (fun u => String.eqb (iu_incident u) (ti_id i)) updates)).
(* @src packages/db/src/repositories/public-status.ts 649-659 loadPublicStatusPage *)
Definition public_announcements (workspaceId : string) (now : Z) (c : control_side) : list st_announcement :=
  order_limit (fun a b => tn_starts b <=? tn_starts a) 20
    (List.filter (fun a => String.eqb (tn_workspace a) workspaceId && String.eqb (tn_visibility a) "public" && alive (tn_deleted a) &&
      (tn_starts a <=? now) && (now <? tn_expires a)) (cs_announcements c)).
Definition show_announcement (a : st_announcement) : page_announcement :=
  PageAnnouncement (tn_id a) (tn_title a) (tn_body a) (tn_severity a) (tn_starts a) (tn_expires a).

Section Pages.
Context `{UA : UrlApi}.

(* @src packages/db/src/repositories/public-status.ts loadPublicMachinesStatusPage *)
Definition loadPublicMachinesStatusPage (c : control_side) (t : telemetry_side) (workspaceSlug : string) (now : Z) : res PublicMachinesStatusPage :=
  let* workspace := loadPublicWorkspace c workspaceSlug in
  let '(machines, latest) := loadPublicMachineProjection c t workspace now in
  Ok (MachinesPage (wr_name workspace, wr_slug workspace) (wr_dashboardName workspace, Some (parseSiteAppearance (Some (wr_appearance workspace)))) machines
        (summarizePublicStatusState (map qm_state machines)) (latest_time None (map ml_observed latest))).

(** The joined row of a public resource found by its slug. *)
(* @src packages/db/src/repositories/public-status.ts 308-326 loadPublicMachineStatusPage *)
Definition find_public_machine (c : control_side) (workspaceSlug machineSlug : string) : option (PublicWorkspaceRow * PublicMachineRow) :=
  hd_error (w ← cs_workspaces c; d ← cs_dashboards c; dr ← cs_resources c; m ← cs_machines c; p ← cs_policies c;
    if String.eqb (td_id d) (tw_dashboard w) && placed RMachine (td_id d) dr && String.eqb (tm_id m) (dr_resource dr) && String.eqb (tm_workspace m) (tw_id w) &&
       allows RMachine (tw_id w) (tm_id m) p && String.eqb (tw_slug w) workspaceSlug && String.eqb (tm_slug m) machineSlug && alive (tw_deleted w) &&
       alive (td_deleted d) && String.eqb (td_visibility d) "public" && alive (tm_deleted m)
    then [(WorkspaceRow_ (tw_id w) (tw_name w) (tw_slug w) (tw_pk w) (td_id d) (td_name d) (td_appearance d),
           MachineRow_ (tm_id m) (tm_slug m) (tm_pk m) (tm_name m) (tm_description m) (tm_offline m) (pp_profile p))] else []).
(* @src packages/db/src/repositories/public-status.ts loadPublicMachineStatusPage *)
Definition loadPublicMachineStatusPage (c : control_side) (t : telemetry_side) (workspaceSlug machineSlug : string) (now : Z) : res PublicMachineStatusPage :=
  match find_public_machine c workspaceSlug machineSlug with
  | None => Err "PublicStatusNotFoundError"
  | Some (workspace, machine) =>
      let latest := List.find (fun l => (ml_workspace l =? wr_pk workspace) && (ml_machine l =? mr_pk machine)) (ts_machines t) in
      let publicContainers := map container_row (order_limit container_leb 100
        (List.filter (fun kp => String.eqb (tc_machine kp.1) (mr_id machine)) (allowed_containers (wr_id workspace) c))) in
      let projected := projectPublicStatusMachine machine latest (parseContainerInventory (latest ≫= ml_inventory)) publicContainers now in
      Ok (MachinePage (wr_name workspace, wr_slug workspace) (wr_dashboardName workspace, Some (parseSiteAppearance (Some (wr_appearance workspace))))
            projected (qm_observedAt projected))
  end.

Definition bucket_row (b : status_bucket) : StatusBucketRow :=
  BucketRow (sb_resource b) (sb_start b) (state_name (sb_state b)) (sb_availability b) (sb_avg b) (sb_max b) (sb_summary b).
(** [resource_type = 2 AND bucket_seconds = 300 AND bucket_start >= since], in the order of [bucket_start]. *)
Definition service_buckets (workspacePk since : Z) (servicePks : list Z) (t : telemetry_side) : list status_bucket :=
  order_by (fun a b => sb_start a <=? sb_start b) (List.filter (fun b => (sb_workspace b =? workspacePk) && (sb_type b =? 2) && (sb_seconds b =? 300) &&
    bool_decide (sb_resource b ∈ servicePks) && (since <=? sb_start b)) (ts_buckets t)).
Definition DAY_MS : Z := 24 * 60 * 60000.
(** [latest_checks] of the given checks. *)
Definition latest_check_rows (workspacePk : Z) (checkPks : list Z) (t : telemetry_side) : list check_latest_row :=
  queryInBatches checkPks (fun batch => List.filter (fun l => (cl_workspace l =? workspacePk) && bool_decide (cl_check l ∈ batch)) (ts_checks t)).
(* @src packages/db/src/repositories/public-status.ts 377-395 loadPublicServiceStatusPage *)
Definition find_public_service (c : control_side) (workspaceSlug serviceSlug : string) : option (PublicWorkspaceRow * PublicServiceRow) :=
  hd_error (w ← cs_workspaces c; d ← cs_dashboards c; dr ← cs_resources c; s ← cs_services c; p ← cs_policies c;
    if String.eqb (td_id d) (tw_dashboard w) && placed RService (td_id d) dr && String.eqb (ts_id s) (dr_resource dr) && String.eqb (ts_workspace s) (tw_id w) &&
       allows RService (tw_id w) (ts_id s) p && String.eqb (tw_slug w) workspaceSlug &&
       match ts_slug s with Some slug => String.eqb slug serviceSlug | None => String.eqb (ts_id s) serviceSlug end &&
       alive (tw_deleted w) && alive (td_deleted d) && String.eqb (td_visibility d) "public" && alive (ts_deleted s)
    then [(WorkspaceRow_ (tw_id w) (tw_name w) (tw_slug w) (tw_pk w) (td_id d) (td_name d) (td_appearance d),
           ServiceRow_ (ts_id s) (ts_pk s) (ts_name s) (ts_slug s) (ts_description s) (pp_profile p))] else []).
(* @src packages/db/src/repositories/public-status.ts loadPublicServiceStatusPage *)
Definition loadPublicServiceStatusPage (c : control_side) (t : telemetry_side) (workspaceSlug serviceSlug : string) (now : Z) : res PublicServiceStatusPage :=
  match find_public_service c workspaceSlug serviceSlug with
  | None => Err "PublicStatusNotFoundError"
  | Some (workspace, service) =>
      let checks := order_limit (fun a b => tk_pk a <=? tk_pk b) 1001
        (List.filter (fun k => String.eqb (tk_workspace k) (wr_id workspace) && String.eqb (tk_service k) (sr_id service) && (tk_enabled k =? 1)) (cs_checks c)) in
      throw_if (1000 <? length checks)%nat as "PublicStatusDataError" in
      let latest := List.find (fun l => (sl_workspace l =? wr_pk workspace) && (sl_service l =? sr_pk service)) (ts_services t) in
      let latestChecks := latest_check_rows (wr_pk workspace) (map tk_pk checks) t in
      let buckets := take 288 (service_buckets (wr_pk workspace) (now - DAY_MS) [sr_pk service] t) in
      let lastCheckedAt := fold_left Z.max (map cl_observed latestChecks) 0 in
      let projected := projectPublicStatusService service latest (if lastCheckedAt =? 0 then None else Some lastCheckedAt) (map bucket_row buckets) now in
      Ok (ServicePage (wr_name workspace, wr_slug workspace) (wr_dashboardName workspace, Some (parseSiteAppearance (Some (wr_appearance workspace))))
            projected (qs_lastCheckedAt projected))
  end.

(** [check_configs] rows of the services. *)
Definition enabled_checks (workspaceId : string) (serviceIds : list string) (c : control_side) : list st_check :=
  queryInBatches serviceIds (fun batch =>
    List.filter (fun k => String.eqb (tk_workspace k) workspaceId && (tk_enabled k =? 1) && bool_decide (tk_service k ∈ batch)) (cs_checks c)).
(** [lastCheckedByService.get(serviceId)]: the loop over the latest rows. *)
(* @src packages/db/src/repositories/public-status.ts 575-585 loadPublicStatusPage *)
Definition last_checked (checks : list st_check) (latestChecks : list check_latest_row) (serviceId : string) : option Z :=
  fold_left (fun last l => match map_get tk_pk (cl_check l) checks with
    | Some k => if String.eqb (tk_service k) serviceId then Some (Z.max (coalesce last 0) (cl_observed l)) else last
    | None => last
    end) latestChecks None.
(* @src packages/db/src/repositories/public-status.ts loadPublicStatusPage *)
Definition loadPublicStatusPage (c : control_side) (t : telemetry_side) (workspaceSlug : string) (now : Z) (servicePage servicePageSize : option number)
  : res PaginatedPublicStatusPage :=
  let* workspace := loadPublicWorkspace c workspaceSlug in
  let '(publicMachines, latestMachines) := loadPublicMachineProjection c t workspace now in
  let services := public_services (wr_id workspace) (wr_dashboard workspace) c in
  let '(pagedServices, pagination) := buildPublicStatusServicePage services (coalesce servicePage (num_of_Z 1)) (coalesce servicePageSize (num_of_Z 200)) in
  let serviceIds := map sr_id services in
  let checks := enabled_checks (wr_id workspace) serviceIds c in
  let latestServices := queryInBatches (map sr_pk services) (fun batch =>
    List.filter (fun l => (sl_workspace l =? wr_pk workspace) && bool_decide (sl_service l ∈ batch)) (ts_services t)) in
  let latestChecks := latest_check_rows (wr_pk workspace) (map tk_pk checks) t in
  let buckets := queryInBatches (map sr_pk pagedServices) (fun batch => map bucket_row (service_buckets (wr_pk workspace) (now - DAY_MS) batch t)) in
  let publicServices := map (fun service =>
    projectPublicStatusService service (map_get sl_service (sr_pk service) latestServices) (last_checked checks latestChecks (sr_id service))
      (List.filter (fun b => br_resource b =? sr_pk service) buckets) now) pagedServices in
  let incidentRows := public_incidents (wr_id workspace) now c serviceIds in
  let incidentIds := map ti_id incidentRows in
  let affected := incident_services c incidentIds in
  let* updates := loadLatestIncidentUpdates (cs_updates c) incidentIds PUBLIC_INCIDENT_UPDATES_PER_INCIDENT_LIMIT PUBLIC_INCIDENT_UPDATES_GLOBAL_LIMIT in
  throw_if too_many_services affected as "PublicStatusDataError" in
  let serviceUpdatedAt := latest_time None (map cl_observed latestChecks) in
  Ok (PaginatedPage
    (StatusPage (wr_name workspace, wr_slug workspace) (wr_dashboardName workspace, Some (parseSiteAppearance (Some (wr_appearance workspace))))
      publicMachines publicServices (map (show_incident services affected updates) incidentRows)
      (map show_announcement (public_announcements (wr_id workspace) now c)) (latest_time serviceUpdatedAt (map ml_observed latestMachines)))
    (summarizePublicStatusState (map qm_state publicMachines ++
       map (fun service => match map_get sl_service (sr_pk service) latestServices with Some l => sl_state l | None => "unknown" end) services)%list)
    pagination).
End Pages.
