(* ===== verification/PublicStatusPrivacy.v ===== *)
(** * PublicStatusPrivacy: a status page depends on public data only

    [public_view] says what of the two databases is public: the workspace's public dashboard, the
    resources placed on it that their policy allows, their descriptions and the metrics of machines
    and containers where the policy says [detailed], when services were checked and the last day of
    each, with its average latencies, the incidents that affect them and whether one affects more
    services than a page may have, and the public announcements of the moment.
    [status_page_confined] is that two pairs of databases with the same view have the same page, so
    nothing else shows through it. *)

From Stdlib Require Import ZArith Lia Bool String List Sorted Permutation.
From stdpp Require Import base tactics sets list strings sorting.
From S2P Require Import Prelude.
From S2P Require Import Js.
From S2P Require Import Sql.
From S2P Require Import Web.
From S2P Require Import CheckPersistence.
From S2P Require Import Authz.
From S2P Require Import ConfigTables.
From S2P Require Import SiteAppearance.
From S2P Require Import QueryBatches.
From S2P Require Import MachineInventory.
From S2P Require Import StatusTimeline.
From S2P Require Import PublicStatus.
Open Scope string_scope.
Open Scope Z_scope.

#[export] Instance container_row_eq_dec : EqDecision PublicContainerRow. Proof. solve_decision. Defined.

(** ** The public part *)

(** A description is public when the profile is [detailed]. *)
Definition blank_machine (m : PublicMachineRow) : PublicMachineRow :=
  MachineRow_ (mr_id m) (mr_slug m) (mr_pk m) (mr_name m) (if detailed (mr_profile m) then mr_description m else "") (mr_offline m) (mr_profile m).
Definition blank_service (s : PublicServiceRow) : PublicServiceRow :=
  ServiceRow_ (sr_id s) (sr_pk s) (sr_name s) (sr_slug s) (if detailed (sr_profile s) then sr_description s else "") (sr_profile s).
(** A public container: its row, and the name it is ordered by. *)
Definition container_key (kp : st_container * public_policy) : PublicContainerRow * string := (container_row kp, tc_name kp.1).
(** The latest values of a public machine: the metrics when it is detailed, and of its containers
    what their own policies allow. *)
Record latest_view := LatestView {
  lv_machine : Z;
  lv_observed : Z;
  lv_received : Z;
  lv_state : string;
  lv_metrics : option (Z * Z * Z * Z * Z * Z * Z);
  lv_containers : list (PublicContainerRow * list public_container);
}.
Definition detailed_pks (machines : list PublicMachineRow) : list Z := map mr_pk (List.filter (fun m => detailed (mr_profile m)) machines).
Definition view_latest (machines : list PublicMachineRow) (containers : list PublicContainerRow) (l : PublicMachineLatestRow) : latest_view :=
  LatestView (ml_machine l) (ml_observed l) (ml_received l) (ml_state l)
    (if bool_decide (ml_machine l ∈ detailed_pks machines)
     then Some (ml_cpu l, ml_memoryUsed l, ml_memoryTotal l, ml_storageUsed l, ml_storageTotal l, ml_rx l, ml_tx l) else None)
    (map (fun k => (k, project_container (parseContainerInventory (ml_inventory l)) k))
       (List.filter (fun k => bool_decide ((cr_machine k, ml_machine l) ∈ map (fun m => (mr_id m, mr_pk m)) machines)) containers)).
(** Five minutes of a service, whatever its profile: all but the highest latency. *)
Definition blank_bucket (b : StatusBucketRow) : StatusBucketRow := BucketRow (br_resource b) (br_start b) (br_state b) (br_availability b) (br_avg b) None (br_summary b).
Definition serves (ids : list string) (a : st_affected) : bool := bool_decide (ta_type a = RService) && bool_decide (ta_resource a ∈ ids).
(** An incident and whether it affects more services than a page may have, public or not. *)
Definition view_incident (c : control_side) (i : st_incident) : string * string * string * string * string * Z * option Z * bool :=
  (ti_id i, ti_title i, ti_summary i, ti_severity i, ti_state i, ti_starts i, ti_resolved i,
   INCIDENT_SERVICES_LIMIT <? count_if (fun a => bool_decide (ta_type a = RService) && String.eqb (ta_incident a) (ti_id i)) (cs_affected c)).

(** The columns of public rows that a page can depend on. *)
Record public_data := PublicData {
  pv_machines : list (Z * PublicMachineRow);
  pv_containers : list (PublicContainerRow * string);
  pv_latest : list latest_view;
  pv_services : list (Z * PublicServiceRow);
  pv_serviceLatest : list (Z * string * Z);
  pv_checks : list st_check;
  pv_checkLatest : list (Z * Z);
  pv_buckets : list StatusBucketRow;
  pv_incidents : list (string * string * string * string * string * Z * option Z * bool);
  pv_affected : list st_affected;
  pv_updates : list incident_update;
  pv_announcements : list page_announcement;
}.
Definition machine_ids (machines : list (Z * PublicMachineRow)) : list string := map (fun m => mr_id m.2) machines.
Definition view_of (w : PublicWorkspaceRow) (c : control_side) (t : telemetry_side) (now : Z) : public_data :=
  let machines := joined_machines (wr_id w) (wr_dashboard w) c in
  let services := joined_services (wr_id w) (wr_dashboard w) c in
  let containers := List.filter (fun kp => bool_decide (tc_machine kp.1 ∈ machine_ids machines)) (allowed_containers (wr_id w) c) in
  let serviceIds := map (fun s => sr_id s.2) services in
  let checks := List.filter (fun k => String.eqb (tk_workspace k) (wr_id w) && (tk_enabled k =? 1) && bool_decide (tk_service k ∈ serviceIds)) (cs_checks c) in
  let incidents := incidents_of (wr_id w) now c serviceIds in
  PublicData (map (fun m => (m.1, blank_machine m.2)) machines) (map container_key containers)
    (map (view_latest (map snd machines) (map container_row containers))
       (List.filter (fun l => (ml_workspace l =? wr_pk w) && bool_decide (ml_machine l ∈ map (fun m => mr_pk m.2) machines)) (ts_machines t)))
    (map (fun s => (s.1, blank_service s.2)) services)
    (map (fun l => (sl_service l, sl_state l, sl_transition l))
       (List.filter (fun l => (sl_workspace l =? wr_pk w) && bool_decide (sl_service l ∈ map (fun s => sr_pk s.2) services)) (ts_services t)))
    checks
    (map (fun l => (cl_check l, cl_observed l))
       (List.filter (fun l => (cl_workspace l =? wr_pk w) && bool_decide (cl_check l ∈ map tk_pk checks)) (ts_checks t)))
    (map (fun b => blank_bucket (bucket_row b)) (service_buckets (wr_pk w) (now - DAY_MS) (map (fun s => sr_pk s.2) services) t))
    (map (view_incident c) incidents)
    (List.filter (fun a => serves serviceIds a && bool_decide (ta_incident a ∈ map ti_id incidents)) (cs_affected c))
    (List.filter (fun u => bool_decide (iu_incident u ∈ map ti_id incidents)) (cs_updates c))
    (map show_announcement (List.filter (fun a => String.eqb (tn_workspace a) (wr_id w) && String.eqb (tn_visibility a) "public" && alive (tn_deleted a) &&
      (tn_starts a <=? now) && (now <? tn_expires a)) (cs_announcements c))).
Definition public_view (c : control_side) (t : telemetry_side) (workspaceSlug : string) (now : Z) : res (PublicWorkspaceRow * public_data) :=
  let* w := loadPublicWorkspace c workspaceSlug in Ok (w, view_of w c t now).

(** ** Orders and columns *)

Lemma insert_sorted_map {A B} (f : A -> B) lebA lebB : (forall x y, lebB (f x) (f y) = lebA x y) -> forall x l, map f (insert_sorted lebA x l) = insert_sorted lebB (f x) (map f l).
Proof. intros H x l. induction l as [|y l IH]; [done|]. cbn. rewrite H. destruct (lebA x y); [done|]. cbn. by rewrite IH. Qed.
Lemma order_by_map {A B} (f : A -> B) lebA lebB l : (forall x y, lebB (f x) (f y) = lebA x y) -> map f (order_by lebA l) = order_by lebB (map f l).
Proof. intros H. induction l as [|x l IH]; [done|]. cbn. rewrite (insert_sorted_map f lebA lebB) by done. f_equal. exact IH. Qed.
Lemma order_limit_map {A B} (f : A -> B) lebA lebB n l : (forall x y, lebB (f x) (f y) = lebA x y) -> map f (order_limit lebA n l) = order_limit lebB n (map f l).
Proof. intros H. unfold order_limit. by rewrite <- (order_by_map f lebA lebB), firstn_map by done. Qed.
Lemma filter_map_swap {A B} (f : A -> B) (p : B -> bool) l : List.filter p (map f l) = map f (List.filter (fun x => p (f x)) l).
Proof. induction l as [|x l IH]; [done|]. cbn. rewrite IH. by destruct (p (f x)). Qed.
Lemma filter_filter_and {A} (p q : A -> bool) l : List.filter p (List.filter q l) = List.filter (fun x => p x && q x) l.
Proof. induction l as [|x l IH]; [done|]. cbn. destruct (q x) eqn:Eq; cbn; rewrite IH; [by rewrite andb_true_r | by rewrite andb_false_r]. Qed.
Lemma filter_weaken {A} (p q : A -> bool) l : (forall x, p x = true -> q x = true) -> List.filter p (List.filter q l) = List.filter p l.
Proof. intros H. rewrite filter_filter_and. apply List.filter_ext. intros x. destruct (p x) eqn:E; [by rewrite (H x E) | done]. Qed.
Section FilterOrder.
Context {A : Type} (leb : A -> A -> bool).
Hypothesis leb_total : forall x y, leb x y = true \/ leb y x = true.
Hypothesis leb_trans : forall x y z, leb x y = true -> leb y z = true -> leb x z = true.
Lemma filter_insert (p : A -> bool) x l : StronglySorted (Leb leb) l -> List.filter p (insert_sorted leb x l) = if p x then insert_sorted leb x (List.filter p l) else List.filter p l.
Proof.
  induction 1 as [|y l Hs IH Hy]; [cbn; by destruct (p x)|]. cbn [insert_sorted List.filter]. destruct (leb x y) eqn:E; cbn [List.filter].
  - destruct (p x), (p y); cbn; try rewrite E; try done. rewrite insert_head; [done|]. rewrite Forall_forall in *. intros z Hz. apply filter_In_elem in Hz as [Hz _].
    apply (leb_trans x y z E). by apply Hy.
  - rewrite IH. destruct (p x), (p y); cbn; try rewrite E; done.
Qed.
Lemma filter_order_by (p : A -> bool) l : List.filter p (order_by leb l) = order_by leb (List.filter p l).
Proof.
  induction l as [|x l IH]; [done|]. cbn [order_by foldr]. rewrite filter_insert by (by apply order_by_strong). fold (order_by leb l). rewrite IH. cbn [List.filter]. by destruct (p x).
Qed.
End FilterOrder.

(** ** Machines *)

Definition container_of (l : latest_view) (k : PublicContainerRow) : list public_container :=
  match List.find (fun e => bool_decide (e.1 = k)) (lv_containers l) with Some e => e.2 | None => [] end.
(** The same machine from its public data. *)
Definition render_machine (now : Z) (m : PublicMachineRow) (l : option latest_view) (ks : list PublicContainerRow) : PublicStatusMachine :=
  let shown (column : Z * Z * Z * Z * Z * Z * Z -> Z) := if detailed (mr_profile m) then column <$> (l ≫= lv_metrics) else None in
  StatusMachine (mr_slug m) (mr_name m) (mr_description m)
    (match l with Some l => if mr_offline m * 1000 <? now - lv_received l then "offline" else normalizeMachineState (lv_state l) | None => "unknown" end)
    (lv_observed <$> l) (shown (fun '(a, _, _, _, _, _, _) => a)) (shown (fun '(_, a, _, _, _, _, _) => a)) (shown (fun '(_, _, a, _, _, _, _) => a))
    (shown (fun '(_, _, _, a, _, _, _) => a)) (shown (fun '(_, _, _, _, a, _, _) => a)) (shown (fun '(_, _, _, _, _, a, _) => a)) (shown (fun '(_, _, _, _, _, _, a) => a))
    (match l with Some l => flat_map (container_of l) ks | None => [] end).
Lemma find_keyed (g : PublicContainerRow -> list public_container) ks k : k ∈ ks -> List.find (fun e => bool_decide (e.1 = k)) (map (fun k => (k, g k)) ks) = Some (k, g k).
Proof. induction ks as [|x ks IH]; [by intros ?%elem_of_nil|]. cbn. case_bool_decide as E; [by subst x|]. intros [->|H]%elem_of_cons; [done | by apply IH]. Qed.
Lemma no_inventory_containers ks : flat_map (project_container None) ks = [].
Proof. by induction ks. Qed.
Lemma projected_from_view machines containers m l ks now : m ∈ machines ->
  match l with Some l => ml_machine l = mr_pk m | None => True end -> Forall (fun k => k ∈ containers /\ cr_machine k = mr_id m) ks ->
  projectPublicStatusMachine m l (parseContainerInventory (l ≫= ml_inventory)) ks now =
  render_machine now (blank_machine m) (view_latest machines containers <$> l) ks.
Proof.
  intros Hm Hl Hks. unfold projectPublicStatusMachine, render_machine, only_detailed. cbv zeta. cbn [blank_machine mr_slug mr_name mr_description mr_profile mr_offline].
  destruct l as [l|]; cbn [fmap option_fmap option_map mbind option_bind].
  2:{ change (parseContainerInventory None) with (@None MachineContainerInventory). rewrite no_inventory_containers. by destruct (detailed (mr_profile m)). }
  assert (Hd : detailed (mr_profile m) = true -> bool_decide (ml_machine l ∈ detailed_pks machines) = true).
  { intros E. apply bool_decide_eq_true. rewrite Hl. unfold detailed_pks. apply list_elem_of_fmap. exists m. split; [done|]. by apply filter_In_elem. }
  cbn [view_latest lv_received lv_state lv_observed lv_metrics].
  assert (Hc : flat_map (project_container (parseContainerInventory (ml_inventory l))) ks = flat_map (container_of (view_latest machines containers l)) ks).
  { clear Hd. induction Hks as [|k ks [Hk Hkm] _ IH]; [done|]. cbn [flat_map]. rewrite IH. f_equal. unfold container_of, view_latest. cbn [lv_containers].
    rewrite (find_keyed (fun k => project_container (parseContainerInventory (ml_inventory l)) k)); [done|]. apply filter_In_elem. split; [done|].
    apply bool_decide_eq_true. rewrite Hkm, Hl. by apply (list_elem_of_fmap_2 (fun m => (mr_id m, mr_pk m))). }
  rewrite Hc. destruct (detailed (mr_profile m)) eqn:E; [by rewrite Hd | done].
Qed.

Lemma str_leb_total a b : String.leb a b = true \/ String.leb b a = true.
Proof. unfold String.leb. rewrite (String.compare_antisym b a). by destruct (String.compare a b); auto. Qed.
Lemma str_leb_antisym a b : String.leb a b = true -> String.leb b a = true -> a = b.
Proof. apply String.leb_antisym. Qed.

Lemma listed_map {A} (f : A -> A) (name : A -> string) rows : (forall a, name (f a) = name a) -> map f (listed name rows) = listed name (map (fun r => (r.1, f r.2)) rows).
Proof.
  intros H. unfold listed. rewrite <- (order_limit_map (fun r => (r.1, f r.2)) (placed_leb name) (placed_leb name)); [by rewrite !map_map|].
  intros [i a] [j b]. unfold placed_leb. cbn. by rewrite !H.
Qed.
Lemma listed_elem {A} (name : A -> string) rows a : a ∈ listed name rows -> a ∈ map snd rows.
Proof. unfold listed. intros H. apply list_elem_of_fmap in H as (r & -> & H). apply elem_of_order_limit in H. by apply (list_elem_of_fmap_2 snd). Qed.
Lemma last_map {A B} (f : A -> B) l : last (map f l) = f <$> last l.
Proof. apply fmap_last. Qed.
Lemma map_get_map {A B K} `{EqDecision K} (f : A -> B) (keyA : A -> K) (keyB : B -> K) k l : (forall a, keyB (f a) = keyA a) -> map_get keyB k (map f l) = f <$> map_get keyA k l.
Proof. intros H. unfold map_get. rewrite filter_map_swap, last_map. do 2 f_equal. apply List.filter_ext. intros a. unfold key_is. by rewrite H. Qed.
Lemma map_get_elem {R K} `{EqDecision K} (key : R -> K) k l r : map_get key k l = Some r -> r ∈ l /\ key r = k.
Proof. unfold map_get. intros H. apply last_Some_elem_of in H. apply filter_In_elem in H as [Hin E]. split; [done|]. by apply bool_decide_eq_true in E. Qed.
Lemma map_get_key {R K} `{EqDecision K} (key : R -> K) k l : match map_get key k l with Some r => key r = k | None => True end.
Proof. destruct (map_get key k l) as [r|] eqn:E; [|done]. apply (map_get_elem key k l r E). Qed.
(** Rows looked up in batches, from a table that already has only rows with a wanted key. *)
Lemma batches_restrict {R V W} `{EqDecision V} (key : R -> V) (f : R -> W) (keyW : W -> V) (p : R -> bool) (known : list V) values table :
  (forall r, keyW (f r) = key r) -> (forall v, v ∈ values -> v ∈ known) ->
  map f (queryInBatches values (fun batch => List.filter (fun r => p r && bool_decide (key r ∈ batch)) table)) =
  queryInBatches values (fun batch => where_in keyW batch (map f (List.filter (fun r => p r && bool_decide (key r ∈ known)) table))).
Proof.
  intros Hf Hv. unfold queryInBatches. assert (Hin : Forall (fun b => forall v, v ∈ b -> v ∈ values) (chunks D1_IN_BATCH_SIZE values)).
  { apply Forall_forall. intros b Hb v Hvb. rewrite <- (chunks_concat D1_IN_BATCH_SIZE values) by (unfold D1_IN_BATCH_SIZE; lia). apply list_elem_of_In, in_concat.
    exists b. split; by apply list_elem_of_In. }
  induction Hin as [|b bs Hb _ IH]; [done|]. cbn [flat_map]. rewrite map_app. f_equal; [|exact IH]. unfold where_in. rewrite filter_map_swap. f_equal.
  rewrite filter_filter_and. apply List.filter_ext. intros r. rewrite Hf. destruct (p r); [|by rewrite andb_false_r]. cbn [andb]. case_bool_decide as E; [|done]. cbn [andb].
  symmetry. apply bool_decide_eq_true. by apply Hv, Hb.
Qed.
Lemma batches_elem {R V} `{EqDecision V} (key : R -> V) (p : R -> bool) values table r :
  r ∈ queryInBatches values (fun batch => List.filter (fun r => p r && bool_decide (key r ∈ batch)) table) -> r ∈ table /\ p r = true /\ key r ∈ values.
Proof.
  intros H. apply list_elem_of_In, in_flat_map in H as (b & Hb & Hr). apply list_elem_of_In, filter_In_elem in Hr as [Hr H]. apply andb_true_iff in H as [Hp Hk]. apply bool_decide_eq_true in Hk.
  split_and!; [done | done|]. rewrite <- (chunks_concat D1_IN_BATCH_SIZE values) by (unfold D1_IN_BATCH_SIZE; lia). apply list_elem_of_In, in_concat. exists b. split; [done | by apply list_elem_of_In].
Qed.

Definition view_key_leb (a b : PublicContainerRow * string) : bool :=
  container_key_leb (ContainerQueryRow a.1 (sql_hex a.2) (sql_hex (cr_id a.1))) (ContainerQueryRow b.1 (sql_hex b.2) (sql_hex (cr_id b.1))).
Definition view_name_leb (a b : PublicContainerRow * string) : bool :=
  if String.eqb a.2 b.2 then String.leb (cr_id a.1) (cr_id b.1) else String.leb a.2 b.2.
Definition view_containers (ids : list string) (containers : list (PublicContainerRow * string)) : list PublicContainerRow :=
  map fst (order_limit view_key_leb 500 (queryInBatches ids (fun batch => order_limit view_name_leb 500 (where_in (fun k => cr_machine k.1) batch containers)))).
Lemma flat_map_map_in {A B C} (f : B -> C) (g : A -> list B) l : map f (flat_map g l) = flat_map (fun a => map f (g a)) l.
Proof. induction l as [|a l IH]; [done|]. cbn. by rewrite map_app, IH. Qed.
Lemma flat_map_ext_in {A B} (f g : A -> list B) l : (forall a, a ∈ l -> f a = g a) -> flat_map f l = flat_map g l.
Proof. induction l as [|a l IH]; [done|]. intros H. cbn. rewrite (H a) by left. f_equal. apply IH. intros b Hb. apply H. by right. Qed.
Lemma chunk_in {V} (values b : list V) v : b ∈ chunks D1_IN_BATCH_SIZE values -> v ∈ b -> v ∈ values.
Proof.
  intros Hb Hv. rewrite <- (chunks_concat D1_IN_BATCH_SIZE values) by (unfold D1_IN_BATCH_SIZE; lia). apply list_elem_of_In, in_concat. exists b. split; by apply list_elem_of_In.
Qed.
Lemma containers_from_view ws ids (known : list string) c : (forall i, i ∈ ids -> i ∈ known) ->
  public_container_rows ws ids c = view_containers ids (map container_key (List.filter (fun kp => bool_decide (tc_machine kp.1 ∈ known)) (allowed_containers ws c))).
Proof.
  intros Hk. unfold public_container_rows, view_containers, queryInBatches.
  set (q (k : PublicContainerRow * string) := ContainerQueryRow k.1 (sql_hex k.2) (sql_hex (cr_id k.1))).
  assert (E : flat_map (fun batch => map container_query_row (order_limit container_leb 500 (where_in (fun kp => tc_machine kp.1) batch (allowed_containers ws c)))) (chunks D1_IN_BATCH_SIZE ids) =
    map q (flat_map (fun batch => order_limit view_name_leb 500 (where_in (fun k => cr_machine k.1) batch
      (map container_key (List.filter (fun kp => bool_decide (tc_machine kp.1 ∈ known)) (allowed_containers ws c))))) (chunks D1_IN_BATCH_SIZE ids))).
  { rewrite flat_map_map_in. apply flat_map_ext_in. intros b Hb. unfold where_in. rewrite filter_map_swap, <- (order_limit_map container_key container_leb view_name_leb) by done.
    rewrite map_map. f_equal. f_equal. symmetry. apply filter_weaken. intros kp H. apply bool_decide_eq_true in H. apply bool_decide_eq_true, Hk. by apply (chunk_in ids b). }
  rewrite E, <- (order_limit_map q view_key_leb container_key_leb) by done. by rewrite map_map.
Qed.

Definition view_machines (now : Z) (d : public_data) : list PublicStatusMachine * list Z :=
  let machines := listed mr_name (pv_machines d) in
  let latest := queryInBatches (map mr_pk machines) (fun batch => where_in lv_machine batch (pv_latest d)) in
  let containers := view_containers (map mr_id machines) (pv_containers d) in
  (map (fun m => render_machine now m (map_get lv_machine (mr_pk m) latest) (List.filter (fun k => String.eqb (cr_machine k) (mr_id m)) containers)) machines, map lv_observed latest).
Lemma view_containers_elem ids containers k : k ∈ view_containers ids containers -> k ∈ map fst containers.
Proof.
  unfold view_containers. intros H. apply list_elem_of_fmap in H as (x & -> & H). apply elem_of_order_limit in H. apply list_elem_of_In, in_flat_map in H as (b & _ & H).
  apply list_elem_of_In, elem_of_order_limit, filter_In_elem in H as [H _]. by apply (list_elem_of_fmap_2 fst).
Qed.
Lemma blank_pks l : map mr_pk (map blank_machine l) = map mr_pk l. Proof. by rewrite map_map. Qed.
Lemma blank_ids l : map mr_id (map blank_machine l) = map mr_id l. Proof. by rewrite map_map. Qed.
Lemma machines_from_view c t w now : let '(machines, latest) := loadPublicMachineProjection c t w now in (machines, map ml_observed latest) = view_machines now (view_of w c t now).
Proof.
  unfold loadPublicMachineProjection, public_machines, view_machines. cbv zeta. cbn [view_of pv_machines pv_latest pv_containers]. set (ms := joined_machines (wr_id w) (wr_dashboard w) c).
  set (known := List.filter (fun kp => bool_decide (tc_machine kp.1 ∈ machine_ids ms)) (allowed_containers (wr_id w) c)).
  rewrite <- (listed_map blank_machine mr_name ms) by done.
  rewrite (blank_pks (listed mr_name ms)), (blank_ids (listed mr_name ms)). set (view := view_latest (map snd ms) (map container_row known)).
  assert (Hpk : forall pk, pk ∈ map mr_pk (listed mr_name ms) -> pk ∈ map (fun m => mr_pk m.2) ms).
  { intros pk H. apply list_elem_of_fmap in H as (m & -> & H). apply listed_elem in H. apply list_elem_of_fmap in H as (r & -> & H). by apply (list_elem_of_fmap_2 (fun m => mr_pk m.2)). }
  assert (Hid : forall i, i ∈ map mr_id (listed mr_name ms) -> i ∈ machine_ids ms).
  { intros i H. apply list_elem_of_fmap in H as (m & -> & H). apply listed_elem in H. apply list_elem_of_fmap in H as (r & -> & H). by apply (list_elem_of_fmap_2 (fun m => mr_id m.2)). }
  unfold latest_machine_rows. set (latest := queryInBatches _ _ : list PublicMachineLatestRow).
  assert (El : queryInBatches (map mr_pk (listed mr_name ms)) (fun batch => where_in lv_machine batch
      (map view (List.filter (fun l => (ml_workspace l =? wr_pk w) && bool_decide (ml_machine l ∈ map (fun m => mr_pk m.2) ms)) (ts_machines t)))) = map view latest).
  { unfold latest. symmetry. by apply (batches_restrict ml_machine view lv_machine). }
  rewrite El, (containers_from_view (wr_id w) _ (machine_ids ms) c Hid). fold known. set (ks := view_containers _ _). rewrite (map_map blank_machine), map_map. f_equal. apply map_ext_in. intros m Hm. apply list_elem_of_In in Hm.
  rewrite (map_get_map view ml_machine lv_machine) by done. apply projected_from_view.
  - by apply listed_elem in Hm.
  - apply map_get_key.
  - apply Forall_forall. intros k Hk. apply filter_In_elem in Hk as [Hk E]. apply String.eqb_eq in E. split; [|done]. apply view_containers_elem in Hk. by rewrite map_map in Hk.
Qed.

(** ** Services *)

Definition render_service (now : Z) (s : PublicServiceRow) (latest : option (Z * string * Z)) (lastCheckedAt : option Z) (buckets : list StatusBucketRow) : PublicStatusService :=
  let rows := List.filter (fun row => br_resource row =? sr_pk s) buckets in
  StatusService (sr_name s) (match sr_slug s with Some slug => slug | None => sr_id s end) (sr_description s)
    (match latest with Some (_, state, _) => normalizeState state | None => SUnknown end) lastCheckedAt (snd <$> latest)
    (average (sumZ (map br_availability rows)) (Z.of_nat (length rows))) (buildTimeline (sr_pk s) rows now).
Definition service_latest_view (l : service_latest_row) : Z * string * Z := (sl_service l, sl_state l, sl_transition l).
Lemma place_blank pk a b timeline row : place_row pk a b timeline (blank_bucket row) = place_row pk a b timeline row.
Proof. done. Qed.
Lemma timeline_blank pk rows now : buildTimeline pk (map blank_bucket rows) now = buildTimeline pk rows now.
Proof.
  unfold buildTimeline. cbv zeta. f_equal. generalize (map (fun index : nat => Slot (now / BUCKET_MS * BUCKET_MS + BUCKET_MS - Z.of_nat 48 * BUCKET_MS + Z.of_nat index * BUCKET_MS) false SUnknown 0 0 0 0 None) (seq 0 48)).
  induction rows as [|row rows IH]; intros timeline; [done|]. cbn [map fold_left]. by rewrite place_blank, IH.
Qed.
Lemma service_from_view s latest last rows now :
  projectPublicStatusService s latest last rows now = render_service now (blank_service s) (service_latest_view <$> latest) last (map blank_bucket rows).
Proof.
  unfold projectPublicStatusService, render_service. cbv zeta. cbn [blank_service sr_name sr_slug sr_description sr_pk sr_id]. rewrite filter_map_swap. cbn [blank_bucket br_resource].
  rewrite map_map, length_map, timeline_blank. by destruct latest.
Qed.
Lemma page_map {A B} (f : A -> B) l p n : buildPublicStatusServicePage (map f l) p n = (map f (buildPublicStatusServicePage l p n).1, (buildPublicStatusServicePage l p n).2).
Proof. unfold buildPublicStatusServicePage. cbv zeta. rewrite length_map. cbn [fst snd]. by rewrite skipn_map, firstn_map. Qed.
Lemma page_elem {A} (l : list A) p n x : x ∈ (buildPublicStatusServicePage l p n).1 -> x ∈ l.
Proof. unfold buildPublicStatusServicePage. cbn [fst]. intros H. apply (elem_of_submseteq _ _ _ H). apply sublist_submseteq. etrans; [apply sublist_take | apply sublist_drop]. Qed.
Definition view_last_checked (checks : list st_check) (latest : list (Z * Z)) (serviceId : string) : option Z :=
  fold_left (fun last l => match map_get tk_pk l.1 checks with
    | Some k => if String.eqb (tk_service k) serviceId then Some (Z.max (coalesce last 0) l.2) else last
    | None => last
    end) latest None.
Lemma last_checked_view checks latest id : last_checked checks latest id = view_last_checked checks (map (fun l => (cl_check l, cl_observed l)) latest) id.
Proof. unfold last_checked, view_last_checked. generalize (@None Z). induction latest as [|l latest IH]; intros start; [done|]. cbn [fold_left map fst snd]. apply IH. Qed.
Lemma buckets_restrict ws since b (known : list Z) t : (forall pk, pk ∈ b -> pk ∈ known) ->
  map (fun x => blank_bucket (bucket_row x)) (service_buckets ws since b t) = where_in br_resource b (map (fun x => blank_bucket (bucket_row x)) (service_buckets ws since known t)).
Proof.
  intros Hk. unfold where_in. rewrite filter_map_swap. cbn [blank_bucket bucket_row br_resource]. f_equal. unfold service_buckets. rewrite filter_order_by.
  - f_equal. rewrite filter_filter_and. apply List.filter_ext. intros x. destruct (sb_workspace x =? ws), (sb_type x =? 2), (sb_seconds x =? 300), (since <=? sb_start x); cbn [andb]; rewrite ?andb_false_r, ?andb_true_r; try done.
    case_bool_decide as E; [|done]. cbn [andb]. symmetry. apply bool_decide_eq_true. by apply Hk.
  - intros x y. rewrite !Z.leb_le. lia.
  - intros x y z. rewrite !Z.leb_le. lia.
Qed.
Record services_view := ServicesView { vs_services : list PublicServiceRow; vs_paged : list PublicStatusService; vs_pagination : PublicStatusServicePagination; vs_states : list string; vs_times : list Z }.
Definition view_services (now : Z) (d : public_data) (page size : number) : services_view :=
  let services := listed sr_name (pv_services d) in
  let '(paged, pagination) := buildPublicStatusServicePage services page size in
  let ids := map sr_id services in
  let checks := queryInBatches ids (fun batch => where_in tk_service batch (pv_checks d)) in
  let latestServices := queryInBatches (map sr_pk services) (fun batch => where_in (fun l => l.1.1) batch (pv_serviceLatest d)) in
  let latestChecks := queryInBatches (map tk_pk checks) (fun batch => where_in fst batch (pv_checkLatest d)) in
  let buckets := queryInBatches (map sr_pk paged) (fun batch => where_in br_resource batch (pv_buckets d)) in
  ServicesView services
    (map (fun s => render_service now s (map_get (fun l => l.1.1) (sr_pk s) latestServices) (view_last_checked checks latestChecks (sr_id s))
       (List.filter (fun b => br_resource b =? sr_pk s) buckets)) paged) pagination
    (map (fun s => match map_get (fun l => l.1.1) (sr_pk s) latestServices with Some (_, state, _) => state | None => "unknown" end) services)
    (map snd latestChecks).
Lemma listed_known {A B} (name : A -> string) (key : A -> B) rows b : b ∈ map key (listed name rows) -> b ∈ map (fun r => key r.2) rows.
Proof. intros H. apply list_elem_of_fmap in H as (a & -> & H). apply listed_elem in H. apply list_elem_of_fmap in H as (r & -> & H). by apply (list_elem_of_fmap_2 (fun r => key r.2)). Qed.
Lemma blank_service_pks l : map sr_pk (map blank_service l) = map sr_pk l. Proof. by rewrite map_map. Qed.
Lemma blank_service_ids l : map sr_id (map blank_service l) = map sr_id l. Proof. by rewrite map_map. Qed.
(** The parts of the page that are about services. *)
Definition services_part (c : control_side) (t : telemetry_side) (w : PublicWorkspaceRow) (now : Z) (page size : number) : services_view :=
  let services := listed sr_name (joined_services (wr_id w) (wr_dashboard w) c) in
  let '(pagedServices, pagination) := buildPublicStatusServicePage services page size in
  let checks := enabled_checks (wr_id w) (map sr_id services) c in
  let latestServices := queryInBatches (map sr_pk services) (fun batch => List.filter (fun l => (sl_workspace l =? wr_pk w) && bool_decide (sl_service l ∈ batch)) (ts_services t)) in
  let latestChecks := latest_check_rows (wr_pk w) (map tk_pk checks) t in
  let buckets := queryInBatches (map sr_pk pagedServices) (fun batch => map bucket_row (service_buckets (wr_pk w) (now - DAY_MS) batch t)) in
  ServicesView (map blank_service services)
    (map (fun service => projectPublicStatusService service (map_get sl_service (sr_pk service) latestServices) (last_checked checks latestChecks (sr_id service))
       (List.filter (fun b => br_resource b =? sr_pk service) buckets) now) pagedServices) pagination
    (map (fun service => match map_get sl_service (sr_pk service) latestServices with Some l => sl_state l | None => "unknown" end) services)
    (map cl_observed latestChecks).
Lemma services_from_view c t w now page size : services_part c t w now page size = view_services now (view_of w c t now) page size.
Proof.
  unfold services_part. cbv zeta. unfold view_services. cbn [view_of pv_services pv_checks pv_serviceLatest pv_checkLatest pv_buckets]. set (ss := joined_services (wr_id w) (wr_dashboard w) c).
  rewrite <- (listed_map blank_service sr_name ss) by done. set (services := listed sr_name ss). rewrite page_map.
  destruct (buildPublicStatusServicePage services page size) as [paged pagination] eqn:Epage. cbn [fst snd]. rewrite blank_service_ids, !blank_service_pks.
  set (known := map (fun s => sr_id s.2) ss). set (knownPks := map (fun s => sr_pk s.2) ss).
  assert (Hids : forall i, i ∈ map sr_id services -> i ∈ known) by (intros i; apply (listed_known sr_name sr_id)).
  assert (Hpks : forall i, i ∈ map sr_pk services -> i ∈ knownPks) by (intros i; apply (listed_known sr_name sr_pk)).
  assert (Hpaged : forall i, i ∈ map sr_pk paged -> i ∈ knownPks).
  { intros i Hi. apply Hpks. apply list_elem_of_fmap in Hi as (s & -> & Hs). apply (list_elem_of_fmap_2 sr_pk). pose proof (page_elem services page size s) as H. rewrite Epage in H. by apply H. }
  assert (E1 : enabled_checks (wr_id w) (map sr_id services) c = queryInBatches (map sr_id services) (fun batch => where_in tk_service batch
    (List.filter (fun k => String.eqb (tk_workspace k) (wr_id w) && (tk_enabled k =? 1) && bool_decide (tk_service k ∈ known)) (cs_checks c)))).
  { pose proof (batches_restrict tk_service (fun k => k) tk_service (fun k => String.eqb (tk_workspace k) (wr_id w) && (tk_enabled k =? 1)) known (map sr_id services) (cs_checks c) (fun _ => eq_refl) Hids) as E.
    by rewrite !map_id in E. }
  rewrite <- E1. set (checks := enabled_checks _ _ _).
  assert (Hchecks : forall pk, pk ∈ map tk_pk checks -> pk ∈ map tk_pk (List.filter (fun k => String.eqb (tk_workspace k) (wr_id w) && (tk_enabled k =? 1) && bool_decide (tk_service k ∈ known)) (cs_checks c))).
  { intros pk H. apply list_elem_of_fmap in H as (k & -> & H). apply (list_elem_of_fmap_2 tk_pk). apply batches_elem in H as (H1 & H2 & H3). apply filter_In_elem. split; [done|].
    rewrite H2. cbn [andb]. apply bool_decide_eq_true. by apply Hids. }
  set (latestServices := queryInBatches (map sr_pk services) (fun batch => List.filter _ (ts_services t))).
  assert (E2 : queryInBatches (map sr_pk services) (fun batch => where_in (fun l => l.1.1) batch (map (fun l => (sl_service l, sl_state l, sl_transition l))
    (List.filter (fun l => (sl_workspace l =? wr_pk w) && bool_decide (sl_service l ∈ knownPks)) (ts_services t)))) = map service_latest_view latestServices).
  { symmetry. by apply (batches_restrict sl_service service_latest_view (fun l => l.1.1)). }
  rewrite E2. set (latestChecks := latest_check_rows _ _ _).
  assert (E3 : queryInBatches (map tk_pk checks) (fun batch => where_in fst batch (map (fun l => (cl_check l, cl_observed l))
    (List.filter (fun l => (cl_workspace l =? wr_pk w) && bool_decide (cl_check l ∈ map tk_pk (List.filter (fun k => String.eqb (tk_workspace k) (wr_id w) && (tk_enabled k =? 1) && bool_decide (tk_service k ∈ known)) (cs_checks c)))) (ts_checks t)))) =
    map (fun l => (cl_check l, cl_observed l)) latestChecks).
  { symmetry. by apply (batches_restrict cl_check (fun l => (cl_check l, cl_observed l)) fst). }
  rewrite E3. set (buckets := queryInBatches _ _ : list StatusBucketRow).
  assert (E4 : queryInBatches (map sr_pk paged) (fun batch => where_in br_resource batch (map (fun b => blank_bucket (bucket_row b)) (service_buckets (wr_pk w) (now - DAY_MS) knownPks t))) = map blank_bucket buckets).
  { unfold buckets, queryInBatches. rewrite flat_map_map_in. apply flat_map_ext_in. intros b Hb. rewrite map_map. symmetry. apply buckets_restrict. intros pk Hpk. apply Hpaged. by apply (chunk_in _ b). }
  rewrite E4. f_equal.
  - rewrite map_map. apply map_ext. intros s. rewrite service_from_view, (map_get_map service_latest_view sl_service (fun l => l.1.1)) by done. cbn [blank_service sr_pk sr_id].
    by rewrite filter_map_swap, last_checked_view.
  - rewrite map_map. apply map_ext. intros s. rewrite (map_get_map service_latest_view sl_service (fun l => l.1.1)) by done. cbn [blank_service sr_pk]. by destruct (map_get sl_service (sr_pk s) latestServices).
  - by rewrite map_map.
Qed.

(** ** Incidents *)

Definition incident_view : Type := string * string * string * string * string * Z * option Z * bool.
Definition vi_id (i : incident_view) : string := let '(id, _, _, _, _, _, _, _) := i in id.
Definition vi_starts (i : incident_view) : Z := let '(_, _, _, _, _, starts, _, _) := i in starts.
Definition vi_overloaded (i : incident_view) : bool := let '(_, _, _, _, _, _, _, b) := i in b.
Definition view_incident_leb (a b : incident_view) : bool := if vi_starts a =? vi_starts b then String.leb (vi_id a) (vi_id b) else vi_starts b <? vi_starts a.
Definition touches (affected : list st_affected) (batch : list string) (id : string) : bool :=
  existsb (fun a => String.eqb (ta_incident a) id && bool_decide (ta_type a = RService) && bool_decide (ta_resource a ∈ batch)) affected.
Definition view_incidents (d : public_data) (ids : list string) : list incident_view :=
  order_limit view_incident_leb 20 (map_values vi_id (queryInBatches ids (fun batch =>
    order_limit view_incident_leb 20 (List.filter (fun i => touches (pv_affected d) batch (vi_id i)) (pv_incidents d))))).
Definition render_incident (services : list PublicServiceRow) (affected : list st_affected) (updates : list incident_update) (i : incident_view) : page_incident :=
  let '(id, title, summary, severity, state, starts, resolved, _) := i in
  PageIncident id title summary severity state starts resolved
    (omap (fun a => (fun s => (sr_name s, ta_impact a)) <$> map_get sr_id (ta_resource a) services)
       (order_by (fun a b => String.leb (ta_resource a) (ta_resource b)) (List.filter (fun a => String.eqb (ta_incident a) id) affected)))
    (map (fun u => (iu_id u, iu_state u, iu_body u, iu_time u)) (List.filter (fun u => String.eqb (iu_incident u) id) updates)).

Lemma map_values_map {A B K} `{EqDecision K} (f : A -> B) (keyA : A -> K) (keyB : B -> K) l : (forall a, keyB (f a) = keyA a) -> map f (map_values keyA l) = map_values keyB (map f l).
Proof.
  intros H. unfold map_values. assert (E : forall acc, map f (fold_left (map_put keyA) l acc) = fold_left (map_put keyB) (map f l) (map f acc)); [|by apply (E [])].
  induction l as [|a l IH]; intros acc; [done|]. cbn [fold_left map]. rewrite IH. f_equal. unfold map_put. rewrite H.
  assert (Eh : has_key keyB (keyA a) (map f acc) = has_key keyA (keyA a) acc).
  { unfold has_key. clear IH. induction acc as [|x acc IH]; [done|]. cbn. rewrite IH. f_equal. unfold key_is. by rewrite H. }
  rewrite Eh. destruct (has_key keyA (keyA a) acc); [|by rewrite map_app]. rewrite !map_map. apply map_ext. intros x. unfold key_is. rewrite H. by destruct (bool_decide _).
Qed.
Lemma map_put_unique {A K} `{EqDecision K} (key : A -> K) acc a : keys_unique key acc -> keys_unique key (map_put key acc a).
Proof.
  intros H. unfold map_put. destruct (has_key key (key a) acc) eqn:E; [|by apply keys_unique_app]. unfold keys_unique in *. rewrite map_map.
  erewrite map_ext; [exact H|]. intros x. unfold key_is. by case_bool_decide.
Qed.
Lemma map_values_unique {A K} `{EqDecision K} (key : A -> K) l : keys_unique key (map_values key l).
Proof.
  unfold map_values. assert (G : forall acc, keys_unique key acc -> keys_unique key (fold_left (map_put key) l acc)); [|apply G; constructor].
  induction l as [|a l IH]; intros acc H; [done|]. cbn. by apply IH, map_put_unique.
Qed.
Lemma map_values_elem {A K} `{EqDecision K} (key : A -> K) l a : a ∈ map_values key l -> a ∈ l.
Proof.
  unfold map_values. assert (G : forall acc, a ∈ fold_left (map_put key) l acc -> a ∈ acc \/ a ∈ l); [|intros H; destruct (G [] H) as [?%elem_of_nil|?]; done].
  induction l as [|x l IH]; intros acc H; [by left|]. cbn in H. apply IH in H as [H|H]; [|by right; right]. unfold map_put in H. destruct (has_key _ _ _).
  - apply list_elem_of_fmap in H as (y & -> & Hy). destruct (key_is key (key x) y); [right; by left | by left].
  - apply elem_of_app in H as [H|H]; [by left|]. apply list_elem_of_singleton in H as ->. right. by left.
Qed.
Lemma unique_limit {A K} `{EqDecision K} (key : A -> K) leb n l : keys_unique key l -> keys_unique key (order_limit leb n l).
Proof.
  intros H. unfold keys_unique, order_limit in *. rewrite <- firstn_map. apply (sublist_NoDup _ (map key (order_by leb l))); [by rewrite (order_by_perm leb l) | apply sublist_take].
Qed.

Section Incidents.
Context (w : PublicWorkspaceRow) (c : control_side) (t : telemetry_side) (now : Z).
Let d := view_of w c t now.
Let known := map (fun s => sr_id s.2) (joined_services (wr_id w) (wr_dashboard w) c).
Let all := incidents_of (wr_id w) now c known.

Lemma touching batch i : (forall s, s ∈ batch -> s ∈ known) -> i ∈ all ->
  existsb (fun a => String.eqb (ta_incident a) (ti_id i) && bool_decide (ta_type a = RService) && bool_decide (ta_resource a ∈ batch)) (cs_affected c) =
  touches (pv_affected d) batch (ti_id i).
Proof.
  intros Hb Hi. apply eq_true_iff_eq. unfold touches. rewrite !existsb_exists_elem. cbn [d view_of pv_affected]. fold known. fold all. split.
  - intros (a & Ha & H). exists a. split; [|done]. bool_hyps. apply filter_In_elem. split; [done|]. unfold serves. rewrite !andb_true_iff, !bool_decide_eq_true.
    split_and!; [done | by apply Hb|]. subst. rewrite H. by apply (list_elem_of_fmap_2 ti_id).
  - intros (a & Ha & H). apply filter_In_elem in Ha as [Ha _]. by exists a.
Qed.
Lemma incidents_batch batch : (forall s, s ∈ batch -> s ∈ known) ->
  map (view_incident c) (incidents_of (wr_id w) now c batch) = List.filter (fun i => touches (pv_affected d) batch (vi_id i)) (pv_incidents d).
Proof.
  intros Hb. change (pv_incidents d) with (map (view_incident c) all). rewrite filter_map_swap. f_equal. cbn [view_incident vi_id].
  transitivity (List.filter (fun i => existsb (fun a => String.eqb (ta_incident a) (ti_id i) && bool_decide (ta_type a = RService) && bool_decide (ta_resource a ∈ batch)) (cs_affected c)) all).
  - unfold all, incidents_of. rewrite filter_filter_and. apply List.filter_ext. intros i. destruct (String.eqb _ _), (alive _), (_ || _); cbn [andb]; rewrite ?andb_false_r, ?andb_true_r; try done.
    destruct (existsb _ (cs_affected c)) eqn:E; [|done]. symmetry. cbn [andb]. apply existsb_exists_elem in E as (a & Ha & H). apply existsb_exists_elem. exists a. split; [done|].
    bool_hyps. rewrite !andb_true_iff, !bool_decide_eq_true. split_and!; [by apply String.eqb_eq | done | by apply Hb].
  - apply filter_ext_in. intros i Hi. apply list_elem_of_In in Hi. by apply touching.
Qed.
Lemma incidents_from_view ids : (forall s, s ∈ ids -> s ∈ known) -> map (view_incident c) (public_incidents (wr_id w) now c ids) = view_incidents d ids.
Proof.
  intros Hids. unfold public_incidents, view_incidents. rewrite (order_limit_map (view_incident c) incident_leb view_incident_leb), (map_values_map (view_incident c) ti_id vi_id) by done.
  do 2 f_equal. unfold queryInBatches. rewrite flat_map_map_in. apply flat_map_ext_in. intros b Hb. rewrite (order_limit_map (view_incident c) incident_leb view_incident_leb) by done. f_equal.
  apply incidents_batch. intros s Hs. apply Hids. by apply (chunk_in ids b).
Qed.
Lemma public_incidents_known ids i : (forall s, s ∈ ids -> s ∈ known) -> i ∈ public_incidents (wr_id w) now c ids -> i ∈ all.
Proof.
  intros Hids H. unfold public_incidents in H. apply elem_of_order_limit, map_values_elem in H. apply list_elem_of_In, in_flat_map in H as (b & Hb & H). apply list_elem_of_In in Hb.
  apply list_elem_of_In, elem_of_order_limit in H. unfold all, incidents_of in *. apply filter_In_elem in H as [H E]. apply filter_In_elem. split; [done|]. bool_hyps.
  rewrite !andb_true_iff. split_and!; try done; try by apply String.eqb_eq. match goal with H : existsb _ _ = true |- _ => apply existsb_exists_elem in H as (a & Ha & H) end. apply existsb_exists_elem. exists a. split; [done|].
  bool_hyps. rewrite !andb_true_iff, !bool_decide_eq_true. split_and!; [by apply String.eqb_eq | done | apply Hids; by apply (chunk_in ids b)].
Qed.
Lemma public_incidents_unique ids : NoDup (map ti_id (public_incidents (wr_id w) now c ids)).
Proof. apply (unique_limit ti_id), map_values_unique. Qed.
End Incidents.

Definition service_rows (c : control_side) (id : string) : list st_affected :=
  List.filter (fun a => bool_decide (ta_type a = RService) && String.eqb (ta_incident a) id) (cs_affected c).
Definition resource_leb (a b : st_affected) : bool := String.leb (ta_resource a) (ta_resource b).
Lemma filter_flat_map {A B} (p : B -> bool) (f : A -> list B) l : List.filter p (flat_map f l) = flat_map (fun a => List.filter p (f a)) l.
Proof. induction l as [|a l IH]; [done|]. cbn. by rewrite List.filter_app, IH. Qed.
(** The rows of one incident among those of all. *)
Lemma incident_services_of c ids id : NoDup ids -> id ∈ ids -> List.filter (fun a => String.eqb (ta_incident a) id) (incident_services c ids) = order_limit resource_leb 21 (service_rows c id).
Proof.
  unfold incident_services. rewrite in_batches_concat, filter_flat_map. intros Hnd Hin.
  assert (Hown : forall j, List.filter (fun a => String.eqb (ta_incident a) id) (order_limit resource_leb 21 (service_rows c j)) = if String.eqb j id then order_limit resource_leb 21 (service_rows c j) else []).
  { intros j. assert (Hall : forall a, a ∈ order_limit resource_leb 21 (service_rows c j) -> ta_incident a = j).
    { intros a Ha. apply elem_of_order_limit, filter_In_elem in Ha as [_ H]. bool_hyps. done. }
    destruct (String.eqb j id) eqn:E.
    - apply String.eqb_eq in E as <-. generalize dependent (order_limit resource_leb 21 (service_rows c j)). intros l Hl. induction l as [|a l IH]; [done|]. cbn. rewrite (Hl a) by left. rewrite String.eqb_refl. f_equal. apply IH. intros b Hb. apply Hl. by right.
    - generalize dependent (order_limit resource_leb 21 (service_rows c j)). intros l Hl. induction l as [|a l IH]; [done|]. cbn. rewrite (Hl a) by left. rewrite E. apply IH. intros b Hb. apply Hl. by right. }
  erewrite flat_map_ext_in by (intros j _; apply Hown). clear Hown. induction Hnd as [|j ids Hj Hnd IH]; [by apply elem_of_nil in Hin|]. cbn [flat_map].
  destruct (String.eqb j id) eqn:E.
  - apply String.eqb_eq in E as ->. assert (Hn : flat_map (fun a => if String.eqb a id then order_limit resource_leb 21 (service_rows c a) else []) ids = []); [|by rewrite Hn, app_nil_r].
    clear -Hj. induction ids as [|x ids IH]; [done|]. cbn. apply not_elem_of_cons in Hj as [Hx Hj]. rewrite IH by done. destruct (String.eqb x id) eqn:E; [apply String.eqb_eq in E; congruence | done].
  - cbn [app]. apply IH. apply elem_of_cons in Hin as [->|]; [by rewrite String.eqb_refl in E | done].
Qed.
Lemma incident_services_elem c ids a : a ∈ incident_services c ids -> ta_incident a ∈ ids.
Proof.
  unfold incident_services. rewrite in_batches_concat. intros H. apply list_elem_of_In, in_flat_map in H as (id & Hid & H). apply list_elem_of_In, elem_of_order_limit, filter_In_elem in H as [_ H].
  bool_hyps. subst. by apply list_elem_of_In.
Qed.
Lemma too_many_from_view c (rows : list st_incident) : NoDup (map ti_id rows) ->
  too_many_services (incident_services c (map ti_id rows)) = existsb (fun i => vi_overloaded (view_incident c i)) rows.
Proof.
  intros Hnd. set (ids := map ti_id rows) in *.
  assert (Hc : forall id, id ∈ ids -> (INCIDENT_SERVICES_LIMIT <? count_if (fun a => String.eqb (ta_incident a) id) (incident_services c ids)) = (INCIDENT_SERVICES_LIMIT <? Z.of_nat (length (service_rows c id)))).
  { intros id Hid. unfold count_if. rewrite incident_services_of by done. rewrite order_limit_count by lia. unfold INCIDENT_SERVICES_LIMIT. apply eq_true_iff_eq. rewrite !Z.ltb_lt. lia. }
  apply eq_true_iff_eq. unfold too_many_services. rewrite !existsb_exists_elem. split.
  - intros (a & Ha & H). pose proof (incident_services_elem _ _ _ Ha) as Hid. rewrite Hc in H by done. apply list_elem_of_fmap in Hid as (i & E & Hi). exists i. split; [done|]. rewrite E in H. exact H.
  - intros (i & Hi & H). assert (Hid : ti_id i ∈ ids) by (by apply (list_elem_of_fmap_2 ti_id)). change (INCIDENT_SERVICES_LIMIT <? Z.of_nat (length (service_rows c (ti_id i))) = true) in H.
    rewrite <- Hc in H by done. unfold count_if in H. destruct (List.filter _ (incident_services c ids)) as [|a l] eqn:E; [done|]. exists a.
    assert (Ha : a ∈ List.filter (fun a => String.eqb (ta_incident a) (ti_id i)) (incident_services c ids)) by (rewrite E; by left). apply filter_In_elem in Ha as [Ha Ea]. apply String.eqb_eq in Ea.
    split; [done|]. rewrite Ea. unfold count_if. by rewrite E.
Qed.

Lemma omap_guard {A B} (p : A -> bool) (g : A -> option B) l : omap (fun a => if p a then g a else None) l = omap g (List.filter p l).
Proof. induction l as [|a l IH]; [done|]. cbn. destruct (p a); cbn; by rewrite IH. Qed.
Lemma omap_filter {A B} (p : A -> bool) (g : A -> option B) l : (forall a, g a <> None -> p a = true) -> omap g l = omap g (List.filter p l).
Proof. intros H. rewrite <- omap_guard. induction l as [|a l IH]; [done|]. cbn. rewrite IH. destruct (p a) eqn:E; [done|]. destruct (g a) eqn:Eg; [|done]. rewrite H in E; [done | congruence]. Qed.
Lemma incident_shown w c t now services updates (rows : list st_incident) i :
  let known := map (fun s => sr_id s.2) (joined_services (wr_id w) (wr_dashboard w) c) in
  (forall s, s ∈ services -> sr_id s ∈ known) -> NoDup (map ti_id rows) -> i ∈ rows -> i ∈ incidents_of (wr_id w) now c known ->
  existsb (fun i => vi_overloaded (view_incident c i)) rows = false ->
  show_incident services (incident_services c (map ti_id rows)) updates i =
  render_incident (map blank_service services) (pv_affected (view_of w c t now)) updates (view_incident c i).
Proof.
  cbv zeta. set (known := map _ (joined_services _ _ _)). intros Hs Hnd Hi Hall Hfew. unfold show_incident, render_incident. cbn [view_incident]. f_equal.
  rewrite omap_guard, incident_services_of; [|done | by apply (list_elem_of_fmap_2 ti_id)].
  assert (Hlen : (length (service_rows c (ti_id i)) <= 20)%nat).
  { rewrite existsb_false_elem in Hfew. specialize (Hfew i Hi). change (INCIDENT_SERVICES_LIMIT <? Z.of_nat (length (service_rows c (ti_id i))) = false) in Hfew. unfold INCIDENT_SERVICES_LIMIT in Hfew. bool_hyps. lia. }
  unfold order_limit. rewrite take_ge by (rewrite (order_by_perm resource_leb); lia).
  assert (Eg : forall a : st_affected, (fun s => (sr_name s, ta_impact a)) <$> map_get sr_id (ta_resource a) (map blank_service services) = (fun s => (sr_name s, ta_impact a)) <$> map_get sr_id (ta_resource a) services).
  { intros a. rewrite (map_get_map blank_service sr_id sr_id) by done. by destruct (map_get sr_id (ta_resource a) services). }
  transitivity (omap (fun a => (fun s => (sr_name s, ta_impact a)) <$> map_get sr_id (ta_resource a) services)
    (order_by resource_leb (List.filter (fun a => String.eqb (ta_incident a) (ti_id i)) (pv_affected (view_of w c t now))))).
  2:{ apply list_omap_ext. apply Forall_Forall2_diag, Forall_forall. intros a _. symmetry. apply Eg. }
  rewrite (omap_filter (fun a => bool_decide (ta_resource a ∈ known))).
  - f_equal. rewrite filter_order_by; [|intros x y; apply str_leb_total | intros x y z; apply str_leb_trans]. f_equal. cbn [view_of pv_affected]. fold known. unfold service_rows.
    rewrite !filter_filter_and. apply List.filter_ext. intros a. unfold serves. destruct (String.eqb (ta_incident a) (ti_id i)) eqn:E; cbn [andb]; rewrite ?andb_false_r; [|done].
    apply String.eqb_eq in E. rewrite (bool_decide_eq_true_2 (ta_incident a ∈ _)) by (rewrite E; by apply (list_elem_of_fmap_2 ti_id)).
    by destruct (bool_decide (ta_type a = RService)), (bool_decide (ta_resource a ∈ known)).
  - intros a Ha. apply bool_decide_eq_true. destruct (map_get sr_id (ta_resource a) services) as [s|] eqn:E; [|done]. apply map_get_elem in E as [Hin <-]. by apply Hs.
Qed.

Lemma updates_restrict updates (known ids : list string) p g : (forall i, i ∈ ids -> i ∈ known) ->
  loadLatestIncidentUpdates updates ids p g = loadLatestIncidentUpdates (List.filter (fun u => bool_decide (iu_incident u ∈ known)) updates) ids p g.
Proof.
  intros Hk. unfold loadLatestIncidentUpdates. destruct (_ || _); [done|]. do 2 f_equal. rewrite !in_batches_concat. apply flat_map_ext_in. intros id Hid. f_equal.
  rewrite filter_weaken; [done|]. intros u H. apply String.eqb_eq in H. apply bool_decide_eq_true. rewrite H. by apply Hk.
Qed.

(** ** The page from the public data *)

Section Page.
Context `{UA : UrlApi}.
Definition view_announcement_leb (a b : page_announcement) : bool := ga_startsAt b <=? ga_startsAt a.
Definition render_page (w : PublicWorkspaceRow) (d : public_data) (now : Z) (servicePage servicePageSize : option number) : res PaginatedPublicStatusPage :=
  let '(machines, machineTimes) := view_machines now d in
  let services := view_services now d (coalesce servicePage (num_of_Z 1)) (coalesce servicePageSize (num_of_Z 200)) in
  let rows := view_incidents d (map sr_id (vs_services services)) in
  let* updates := loadLatestIncidentUpdates (pv_updates d) (map vi_id rows) PUBLIC_INCIDENT_UPDATES_PER_INCIDENT_LIMIT PUBLIC_INCIDENT_UPDATES_GLOBAL_LIMIT in
  throw_if existsb vi_overloaded rows as "PublicStatusDataError" in
  Ok (PaginatedPage
    (StatusPage (wr_name w, wr_slug w) (wr_dashboardName w, Some (parseSiteAppearance (Some (wr_appearance w))))
      machines (vs_paged services) (map (render_incident (vs_services services) (pv_affected d) updates) rows)
      (order_limit view_announcement_leb 20 (pv_announcements d)) (latest_time (latest_time None (vs_times services)) machineTimes))
    (summarizePublicStatusState (map qm_state machines ++ vs_states services)%list) (vs_pagination services)).

Lemma existsb_map {A B} (f : A -> B) p l : existsb p (map f l) = existsb (fun a => p (f a)) l.
Proof. induction l as [|a l IH]; [done|]. cbn. by rewrite IH. Qed.
Lemma page_from_view c t workspaceSlug now p s :
  loadPublicStatusPage c t workspaceSlug now p s = let* '(w, d) := public_view c t workspaceSlug now in render_page w d now p s.
Proof.
  unfold loadPublicStatusPage, public_services, public_view. destruct (loadPublicWorkspace c workspaceSlug) as [w|]; [|done]. cbn [rbind]. set (d := view_of w c t now). unfold render_page.
  pose proof (machines_from_view c t w now) as Em. destruct (loadPublicMachineProjection c t w now) as [machines latestMachines]. fold d in Em. rewrite <- Em. clear Em.
  set (page := coalesce p (num_of_Z 1)). set (size := coalesce s (num_of_Z 200)). pose proof (services_from_view c t w now page size) as Es. fold d in Es. rewrite <- Es. clear Es. unfold services_part.
  set (services := listed sr_name (joined_services (wr_id w) (wr_dashboard w) c)). destruct (buildPublicStatusServicePage services page size) as [paged pagination].
  cbv zeta. cbn [vs_services vs_paged vs_times vs_states vs_pagination]. rewrite blank_service_ids. set (ids := map sr_id services).
  assert (Hids : forall i, i ∈ ids -> i ∈ map (fun s => sr_id s.2) (joined_services (wr_id w) (wr_dashboard w) c)) by (intros i; apply (listed_known sr_name sr_id)).
  pose proof (incidents_from_view w c t now ids Hids) as Ei. fold d in Ei. rewrite <- Ei. clear Ei. set (rows := public_incidents (wr_id w) now c ids).
  pose proof (public_incidents_unique w c now ids) as Hnd. fold rows in Hnd. rewrite (map_map (view_incident c) vi_id). change (map (fun i => vi_id (view_incident c i)) rows) with (map ti_id rows).
  rewrite (updates_restrict (cs_updates c) (map ti_id (incidents_of (wr_id w) now c (map (fun s => sr_id s.2) (joined_services (wr_id w) (wr_dashboard w) c))))).
  2:{ intros i Hi. apply list_elem_of_fmap in Hi as (x & -> & Hx). apply (list_elem_of_fmap_2 ti_id). by apply (public_incidents_known w c now ids). }
  change (List.filter _ (cs_updates c)) with (pv_updates d). destruct (loadLatestIncidentUpdates (pv_updates d) (map ti_id rows) _ _) as [updates|]; [|done]. cbn [rbind].
  rewrite too_many_from_view, existsb_map by done. destruct (existsb (fun i => vi_overloaded (view_incident c i)) rows) eqn:Eo; [done|]. do 2 f_equal. f_equal.
  - rewrite map_map. apply map_ext_in. intros i Hi. apply list_elem_of_In in Hi. apply incident_shown; try done.
    + intros x Hx. apply Hids. by apply (list_elem_of_fmap_2 sr_id).
    + by apply (public_incidents_known w c now ids).
  - unfold public_announcements. by rewrite (order_limit_map show_announcement _ view_announcement_leb).
Qed.

(** C27: A status page reveals nothing but [public_view].  Two pairs of databases that agree on it give
    every visitor the same page, or the same error.  So the following has no influence on the page:
    workspaces that are not public; resources that are not on the dashboard, denied there or not
    allowed by their policy; containers without a policy of their own or on such a machine; the
    descriptions of machines and services and the metrics of machines and containers whose profile
    is [summary]; the highest latencies of services; announcements that are not public or not
    current; incidents that affect nothing public; and of the other services that a shown incident
    affects everything but one bit, whether there are more than twenty services in all, since the
    page is then refused.  What the view does hold of a public service whatever its profile are the
    state, the availability and the average latency of every five minutes of the last day. *)
Theorem status_page_confined c1 t1 c2 t2 workspaceSlug now servicePage servicePageSize
  (H : public_view c1 t1 workspaceSlug now = public_view c2 t2 workspaceSlug now) :
  loadPublicStatusPage c1 t1 workspaceSlug now servicePage servicePageSize = loadPublicStatusPage c2 t2 workspaceSlug now servicePage servicePageSize.
Proof. by rewrite !page_from_view, H. Qed.
End Page.

(** ** Two databases with the same public data *)

Definition pv_control (secret : string) (hidden : Z) : control_side :=
  ControlSide [StWorkspace "w" "Shop" "shop" 1 "d" None; StWorkspace "x" secret secret 2 "e" None]
    [StDashboard "d" "Status" "{}" "public" None; StDashboard "e" secret "{}" "private" None]
    [DashboardResource "d" RMachine "m1" 0 "inherit"; DashboardResource "d" RMachine "m2" 1 "deny"; DashboardResource "d" RService "s1" 0 "inherit"]
    [PublicPolicy "w" RMachine "m1" "allow" "summary" 0; PublicPolicy "w" RMachine "m2" "allow" "detailed" 0; PublicPolicy "w" RService "s1" "allow" "detailed" 0]
    [StMachine "m1" "w" "web" 11 "Web" secret 60 None; StMachine "m2" "w" "db" 12 secret secret 60 None]
    [StService "s1" "w" 21 "Checkout" (Some "checkout") "Payments" None; StService "s2" "w" 22 secret (Some secret) secret None]
    [StContainer "0123456789abcdef0123456789abcdef" "w" "m1" secret None] [StCheck 31 "w" "s1" 1; StCheck hidden "w" "s2" 1]
    [StIncident "i1" "w" "Slow payments" "We are looking into it" "minor" "investigating" 1000 None None; StIncident "i2" "w" secret secret "minor" "investigating" hidden None None]
    [StAffected "i1" RService "s1" "degraded"; StAffected "i1" RService "s2" "down"; StAffected "i2" RService "s2" "down"]
    [IncidentUpdate "u1" "i1" "investigating" "We are looking into it" None 1000; IncidentUpdate "u2" "i2" secret secret None 1000]
    [StAnnouncement "a1" "w" secret secret "info" "authenticated" 0 9000 None].
Definition pv_telemetry (hidden : Z) : telemetry_side :=
  TelemetrySide [MachineLatest 1 11 5000 5100 "healthy" hidden hidden hidden hidden hidden hidden hidden None; MachineLatest 1 12 hidden hidden "down" 1 1 1 1 1 1 1 None]
    [ServiceLatest 21 1 "degraded" 4000 "check_degraded" 4000 4000; ServiceLatest 22 1 "down" hidden "check_down" hidden hidden] []
    [StatusBucket 2 21 1 300000 300 SDegraded 900 (Some 120) (Some hidden) "check_degraded"; StatusBucket 2 22 1 300000 300 SDown hidden None None "check_down"].
Example status_page_confined_witness :
  pv_control "private" 40 <> pv_control "concealed" 50 /\ pv_telemetry 7 <> pv_telemetry 8 /\
  is_ok (loadPublicStatusPage (pv_control "private" 40) (pv_telemetry 7) "shop" 600000 None None) = true /\
  loadPublicStatusPage (pv_control "private" 40) (pv_telemetry 7) "shop" 600000 None None = loadPublicStatusPage (pv_control "concealed" 50) (pv_telemetry 8) "shop" 600000 None None.
Proof.
  split; [discriminate|]. split; [discriminate|]. split; [vm_compute; reflexivity|]. apply status_page_confined. vm_compute. reflexivity.
Defined.
