(* ===== verification/PublicStatusPages.v ===== *)
(** * PublicStatusPages: pages, orders and the overall state of a status page

    The services of a status page come in pages that share them out; the containers of its
    machines are fetched in batches and are still the first five hundred by name; and what the
    page calls its overall state is what its parts say. *)

From Stdlib Require Import ZArith Lia Bool String Ascii List Sorted.
From stdpp Require Import base tactics sets list strings sorting.
From S2P Require Import Prelude.
From S2P Require Import Js.
From S2P Require Import Sql.
From S2P Require Import Web.
From S2P Require Import CheckPersistence.
From S2P Require Import Authz.
From S2P Require Import ConfigTables.
From S2P Require Import QueryBatches.
From S2P Require Import MachineInventory.
From S2P Require Import StatusTimeline.
From S2P Require Import PublicStatus.
From S2P Require Import PublicStatusPrivacy.
Open Scope string_scope.
Open Scope Z_scope.

(** ** Pages of services *)

Lemma slices {A} (k : nat) (l : list A) n : concat (map (fun i => take k (drop (i * k) l)) (seq 0 n)) = take (n * k) l.
Proof.
  induction n as [|n IH]; [done|]. rewrite seq_S, map_app, concat_app, IH. cbn [map concat]. rewrite app_nil_r, Nat.add_0_l. cbn [Nat.mul].
  rewrite Nat.add_comm. symmetry. rewrite <- (take_drop (n * k) (take (n * k + k) l)), take_take, Nat.min_l by lia. by rewrite <- take_drop_commute.
Qed.
Definition page_size (requested : number) : Z := match positive_int requested with Some n => Z.min n 200 | None => 200 end.
Lemma page_size_range x : 1 <= page_size x <= 200.
Proof.
  unfold page_size, positive_int. destruct (safe_int x) as [n|]; [|lia]. destruct (0 <? n) eqn:E; [|lia]. bool_hyps. lia.
Qed.
Definition page_count (total size : Z) : Z := Z.max 1 ((total + size - 1) / size).
Lemma page_count_spec total size : 0 <= total -> 1 <= size -> total <= page_count total size * size /\ (total <= size -> page_count total size = 1) /\ 1 <= page_count total size /\
  page_count total size <= total + 1.
Proof.
  intros Ht Hs. unfold page_count. pose proof (Z.div_mod (total + size - 1) size ltac:(lia)) as Hd. pose proof (Z.mod_pos_bound (total + size - 1) size ltac:(lia)).
  assert (0 <= (total + size - 1) / size) by (apply Z.div_pos; lia). split_and!; [nia | | lia | nia].
  intros Hle. assert ((total + size - 1) / size < 2) by (apply Z.div_lt_upper_bound; lia). lia.
Qed.
Lemma page_slice {T} (services : list T) size (i : nat) : Z.of_nat i < page_count (Z.of_nat (length services)) (page_size size) -> (length services <= 1000)%nat ->
  (buildPublicStatusServicePage services (num_of_Z (Z.of_nat i + 1)) size).1 = take (Z.to_nat (page_size size)) (drop (i * Z.to_nat (page_size size)) services).
Proof.
  intros Hi Hl. unfold buildPublicStatusServicePage. fold (page_size size). cbv zeta. cbn [fst]. fold (page_count (Z.of_nat (length services)) (page_size size)). pose proof (page_size_range size) as Hs.
  destruct (page_count_spec (Z.of_nat (length services)) (page_size size)) as (_ & _ & _ & Hc); [lia | lia|].
  assert (E : positive_int (num_of_Z (Z.of_nat i + 1)) = Some (Z.of_nat i + 1)).
  { unfold positive_int. rewrite safe_int_of_Z by (unfold safe_z, max_safe; apply andb_true_iff; rewrite !Z.leb_le; lia). by rewrite (proj2 (Z.ltb_lt _ _)) by lia. }
  rewrite E. rewrite (Z.min_l (Z.of_nat i + 1)) by lia. replace (Z.of_nat i + 1 - 1) with (Z.of_nat i) by lia. replace (Z.to_nat (Z.of_nat i * page_size size)) with (i * Z.to_nat (page_size size))%nat by lia.
  set (k := Z.to_nat (page_size size)). assert (Hk : Z.of_nat k = page_size size) by lia. rewrite <- Hk.
  destruct (decide (Z.of_nat i * Z.of_nat k + Z.of_nat k <= Z.of_nat (length services))).
  - rewrite Z.min_l by lia. f_equal. lia.
  - rewrite Z.min_r by lia. rewrite !take_ge; [done | |]; rewrite length_drop; lia.
Qed.
(** The pages of a status page share out its services: pages one to [pageCount] put together
    are all of them in their order, whatever size was asked for; a page never has more than its
    size, at most 200; and asking for a page beyond the last gives the last. *)
Theorem service_pages_partition {T} (services : list T) size (Hl : (length services <= 1000)%nat) :
  let count := gp_pageCount (buildPublicStatusServicePage services (num_of_Z 1) size).2 in
  concat (map (fun i => (buildPublicStatusServicePage services (num_of_Z (Z.of_nat i + 1)) size).1) (seq 0 (Z.to_nat count))) = services /\
  (forall page, let '(shown, p) := buildPublicStatusServicePage services page size in
     1 <= gp_page p <= gp_pageCount p /\ gp_pageCount p = count /\ Z.of_nat (length shown) <= gp_pageSize p <= 200 /\
     gp_to p - (if gp_total p =? 0 then 0 else gp_from p - 1) = Z.of_nat (length shown)) /\
  (forall n, count <= n <= max_safe -> buildPublicStatusServicePage services (num_of_Z n) size = buildPublicStatusServicePage services (num_of_Z count) size).
Proof.
  cbv zeta. change (gp_pageCount (buildPublicStatusServicePage services (num_of_Z 1) size).2) with (page_count (Z.of_nat (length services)) (page_size size)).
  set (count := page_count _ _). pose proof (page_size_range size) as Hs. destruct (page_count_spec (Z.of_nat (length services)) (page_size size)) as (Hc & _ & Hc1 & Hc2); [lia | lia|]. fold count in Hc, Hc1, Hc2.
  split_and!.
  - erewrite map_ext_in; [|intros i Hi; apply in_seq in Hi; apply page_slice; [fold count; lia | done]]. rewrite slices. apply take_ge. nia.
  - intros page. unfold buildPublicStatusServicePage. fold (page_size size). cbv zeta. fold (page_count (Z.of_nat (length services)) (page_size size)). fold count. cbn [gp_page gp_pageCount gp_pageSize gp_total gp_from gp_to].
    set (p := match positive_int page with Some n => Z.min n count | None => 1 end).
    assert (Hp : 1 <= p <= count). { unfold p, positive_int. destruct (safe_int page) as [n|]; [|lia]. destruct (0 <? n) eqn:E; [|lia]. bool_hyps. lia. }
    assert (Hoff : (p - 1) * page_size size <= Z.of_nat (length services)).
    { destruct (decide (p = 1)) as [->|Hne]; [lia|]. unfold count, page_count in Hp. pose proof (Z.div_mod (Z.of_nat (length services) + page_size size - 1) (page_size size) ltac:(lia)).
      pose proof (Z.mod_pos_bound (Z.of_nat (length services) + page_size size - 1) (page_size size) ltac:(lia)). nia. }
    assert (Hoff0 : 0 <= (p - 1) * page_size size) by nia.
    rewrite length_take, length_drop. split_and!; try lia.
    destruct (Z.of_nat (length services) =? 0) eqn:E; bool_hyps; lia.
  - intros n Hn. unfold buildPublicStatusServicePage. fold (page_size size). cbv zeta. fold (page_count (Z.of_nat (length services)) (page_size size)). fold count.
    assert (E : forall m, count <= m <= max_safe -> match positive_int (num_of_Z m) with Some n => Z.min n count | None => 1 end = count).
    { intros m Hm. unfold positive_int. rewrite safe_int_of_Z by (unfold safe_z; apply andb_true_iff; rewrite !Z.leb_le; unfold max_safe in *; lia). rewrite (proj2 (Z.ltb_lt 0 m)) by lia. lia. }
    rewrite !E by (unfold max_safe in *; lia). done.
Qed.
Example service_pages_partition_witness : (60 <= 1000)%nat /\ gp_pageCount (buildPublicStatusServicePage (seq 0 60) (num_of_Z 1) (num_of_Z 25)).2 = 3 /\
  concat (map (fun i => (buildPublicStatusServicePage (seq 0 60) (num_of_Z (Z.of_nat i + 1)) (num_of_Z 25)).1) (seq 0 3)) = seq 0 60.
Proof. split; [lia|]. split; [vm_compute; reflexivity|]. apply (service_pages_partition (seq 0 60) (num_of_Z 25)). rewrite length_seq. lia. Defined.
