(* ===== verification/StatusSnapshot.v ===== *)
(** * StatusSnapshot: the cached copy of a status page

    [apps/web/src/lib/server/public-status-snapshot.ts], [apps/web/src/lib/public-status-view.ts]
    and the page's [load] in [apps/web/src/routes/status/[workspace]/+page.server.ts].  A page
    that was loaded is kept as JSON in the platform's cache; what is read back is checked field by
    field.  The cache is the platform's ([Cache], [Request], [Response]): it keeps texts under the
    addresses of requests, may forget them, and gives a stored text back as chunks of bytes. *)

From Stdlib Require Import ZArith Lia Bool String Ascii List.
From stdpp Require Import base tactics list gmap strings relations.
From S2P Require Import Prelude.
From S2P Require Import Js.
From S2P Require Import Web.
From S2P Require Import CheckPersistence.
From S2P Require Import SiteAppearance.
From S2P Require Import StatusTimeline.
From S2P Require Import PublicStatus.
From S2P Require Import PublicStatusPrivacy.
Open Scope string_scope.
Open Scope Z_scope.

(* @src apps/web/src/lib/public-status-view.ts PUBLIC_STATUS_SERVICE_PAGE_SIZE *)
Definition PUBLIC_STATUS_SERVICE_PAGE_SIZE : Z := 25.
(* @src apps/web/src/lib/public-status-view.ts PUBLIC_STATUS_MAX_SERVICE_PAGES *)
Definition PUBLIC_STATUS_MAX_SERVICE_PAGES : Z := 8.
(** [/^[1-9]\d*$/] *)
Definition is_page_number (s : string) : bool :=
  match s with String c s' => in_range 49 57 c && str_forall is_digit s' | EmptyString => false end.
(* @src apps/web/src/lib/public-status-view.ts normalizePublicStatusServicePage *)
Definition normalizePublicStatusServicePage (value : option string) : Z :=
  match value with
  | None => 1
  | Some value =>
      if String.eqb value "" || negb (is_page_number value) then 1
      else match safe_int (js_number value) with Some parsed => Z.min parsed PUBLIC_STATUS_MAX_SERVICE_PAGES | None => 1 end
  end.

(* @src apps/web/src/lib/server/public-status-snapshot.ts PUBLIC_STATUS_SNAPSHOT_TTL_SECONDS *)
Definition PUBLIC_STATUS_SNAPSHOT_TTL_SECONDS : Z := 5 * 60.
(* @src apps/web/src/lib/server/public-status-snapshot.ts PUBLIC_STATUS_FRESH_CACHE_TTL_SECONDS *)
Definition PUBLIC_STATUS_FRESH_CACHE_TTL_SECONDS : Z := 30.
(* @src apps/web/src/lib/server/public-status-snapshot.ts MAX_SNAPSHOT_BYTES *)
Definition MAX_SNAPSHOT_BYTES : Z := 1024 * 1024.
(* @src apps/web/src/lib/server/public-status-snapshot.ts serviceStates *)
Definition serviceStates : list string := ["healthy"; "degraded"; "down"; "maintenance"; "unknown"].
(* @src apps/web/src/lib/server/public-status-snapshot.ts machineStates *)
Definition machineStates : list string := ["healthy"; "degraded"; "down"; "offline"; "maintenance"; "unknown"].

(** ** Checked fields *)

(* @src apps/web/src/lib/server/public-status-snapshot.ts isRecord *)
Definition isRecord (value : option json) : option props := match value with Some (JObj o) => Some o | _ => None end.
(* @src apps/web/src/lib/server/public-status-snapshot.ts boundedString *)
Definition boundedString (value : option json) (maximum : Z) (allowEmpty : bool) : option string :=
  match value with
  | Some (JStr s) => if (slen s <=? maximum) && (allowEmpty || (0 <? slen s)) then Some s else None
  | _ => None
  end.
(* @src apps/web/src/lib/server/public-status-snapshot.ts integer *)
Definition integer (value : option json) (minimum maximum : Z) : option Z :=
  match as_safe_int value with Some z => if (minimum <=? z) && (z <=? maximum) then Some z else None | None => None end.
(** [undefined] is [None], and [null] is [Some None]. *)
(* @src apps/web/src/lib/server/public-status-snapshot.ts nullableInteger *)
Definition nullableInteger (value : option json) (minimum maximum : Z) : option (option Z) :=
  match value with Some JNull => Some None | _ => Some <$> integer value minimum maximum end.
(* @src apps/web/src/lib/server/public-status-snapshot.ts boundedArray *)
Definition boundedArray {T} (value : option json) (maximum : Z) (sanitize : json -> option T) : option (list T) :=
  match value with
  | Some (JArr l) => if maximum <? Z.of_nat (length l) then None else mapM sanitize l
  | _ => None
  end.
(** A text of the set. *)
Definition member (names : list string) (value : option json) : option string :=
  match value with Some (JStr s) => if str_in s names then Some s else None | _ => None end.

(** ** The parts of a page *)

(* @src apps/web/src/lib/server/public-status-snapshot.ts 80-103 sanitizeMachine *)
Definition sanitizeContainer (item : json) : option public_container :=
  item ← isRecord (Some item);
  containerName ← boundedString (obj_get "name" item) 200 false;
  state ← boundedString (obj_get "state" item) 64 false;
  health ← boundedString (obj_get "health" item) 64 false;
  containerCpu ← nullableInteger (obj_get "cpuPermille" item) 0 1000;
  containerMemory ← nullableInteger (obj_get "memoryUsedBytes" item) 0 max_safe;
  Some (PublicContainer containerName state health containerCpu containerMemory).
(* @src apps/web/src/lib/server/public-status-snapshot.ts sanitizeMachine *)
Definition sanitizeMachine (value : json) : option PublicStatusMachine :=
  value ← isRecord (Some value);
  slug ← boundedString (obj_get "slug" value) 200 false;
  name ← boundedString (obj_get "name" value) 200 false;
  description ← boundedString (obj_get "description" value) 2000 true;
  state ← member machineStates (obj_get "state" value);
  observedAt ← nullableInteger (obj_get "observedAt" value) 0 max_safe;
  cpuPermille ← nullableInteger (obj_get "cpuPermille" value) 0 1000;
  memoryUsedBytes ← nullableInteger (obj_get "memoryUsedBytes" value) 0 max_safe;
  memoryTotalBytes ← nullableInteger (obj_get "memoryTotalBytes" value) 0 max_safe;
  storageUsedBytes ← nullableInteger (obj_get "storageUsedBytes" value) 0 max_safe;
  storageTotalBytes ← nullableInteger (obj_get "storageTotalBytes" value) 0 max_safe;
  networkRxBps ← nullableInteger (obj_get "networkRxBps" value) 0 max_safe;
  networkTxBps ← nullableInteger (obj_get "networkTxBps" value) 0 max_safe;
  containers ← boundedArray (obj_get "containers" value) 500 sanitizeContainer;
  Some (StatusMachine slug name description state observedAt cpuPermille memoryUsedBytes memoryTotalBytes storageUsedBytes storageTotalBytes
          networkRxBps networkTxBps containers).
(* @src apps/web/src/lib/server/public-status-snapshot.ts 152-153 sanitizeService *)
Definition summary_code (value : option json) : option (option string) :=
  match value with Some JNull => Some None | _ => Some <$> boundedString value 128 false end.
(* @src apps/web/src/lib/server/public-status-snapshot.ts 147-171 sanitizeService *)
Definition sanitizeBucket (item : json) : option ServiceTimelineBucket :=
  item ← isRecord (Some item);
  bucketStart ← integer (obj_get "bucketStart" item) 0 max_safe;
  state ← member serviceStates (obj_get "state" item);
  bucketAvailability ← nullableInteger (obj_get "availabilityPermille" item) 0 1000;
  latencyMs ← nullableInteger (obj_get "latencyMs" item) 0 120000;
  summaryCode ← summary_code (obj_get "summaryCode" item);
  Some (TimelineBucket bucketStart (normalizeState state) bucketAvailability latencyMs summaryCode).
(* @src apps/web/src/lib/server/public-status-snapshot.ts sanitizeService *)
Definition sanitizeService (value : json) : option PublicStatusService :=
  value ← isRecord (Some value);
  name ← boundedString (obj_get "name" value) 200 false;
  slug ← boundedString (obj_get "slug" value) 200 false;
  description ← boundedString (obj_get "description" value) 2000 true;
  state ← member serviceStates (obj_get "state" value);
  lastCheckedAt ← nullableInteger (obj_get "lastCheckedAt" value) 0 max_safe;
  lastTransitionAt ← nullableInteger (obj_get "lastTransitionAt" value) 0 max_safe;
  availability ← nullableInteger (obj_get "availability24hPermille" value) 0 1000;
  timeline ← boundedArray (obj_get "timeline" value) 48 sanitizeBucket;
  Some (StatusService name slug description (normalizeState state) lastCheckedAt lastTransitionAt availability timeline).
(* @src apps/web/src/lib/server/public-status-snapshot.ts 204-210 sanitizeIncident *)
Definition sanitizeAffected (item : json) : option (string * string) :=
  item ← isRecord (Some item);
  name ← boundedString (obj_get "name" item) 200 false;
  impact ← member ["degraded"; "down"] (obj_get "impact" item);
  Some (name, impact).
(* @src apps/web/src/lib/server/public-status-snapshot.ts 211-219 sanitizeIncident *)
Definition sanitizeUpdate (item : json) : option (string * string * string * Z) :=
  item ← isRecord (Some item);
  updateId ← boundedString (obj_get "id" item) 128 false;
  state ← boundedString (obj_get "state" item) 64 false;
  body ← boundedString (obj_get "body" item) 8000 true;
  publishedAt ← integer (obj_get "publishedAt" item) 0 max_safe;
  Some (updateId, state, body, publishedAt).
(* @src apps/web/src/lib/server/public-status-snapshot.ts sanitizeIncident *)
Definition sanitizeIncident (value : json) : option page_incident :=
  value ← isRecord (Some value);
  id ← boundedString (obj_get "id" value) 128 false;
  title ← boundedString (obj_get "title" value) 300 false;
  summary ← boundedString (obj_get "summary" value) 4000 true;
  startsAt ← integer (obj_get "startsAt" value) 0 max_safe;
  resolvedAt ← nullableInteger (obj_get "resolvedAt" value) 0 max_safe;
  affectedServices ← boundedArray (obj_get "affectedServices" value) 200 sanitizeAffected;
  updates ← boundedArray (obj_get "updates" value) 20 sanitizeUpdate;
  severity ← member ["minor"; "major"; "critical"] (obj_get "severity" value);
  state ← member ["investigating"; "identified"; "monitoring"; "resolved"] (obj_get "state" value);
  Some (PageIncident id title summary severity state startsAt resolvedAt affectedServices updates).
(* @src apps/web/src/lib/server/public-status-snapshot.ts sanitizeAnnouncement *)
Definition sanitizeAnnouncement (value : json) : option page_announcement :=
  value ← isRecord (Some value);
  id ← boundedString (obj_get "id" value) 128 false;
  title ← boundedString (obj_get "title" value) 300 false;
  body ← boundedString (obj_get "body" value) 8000 true;
  severity ← member ["info"; "maintenance"; "minor"; "major"; "critical"] (obj_get "severity" value);
  startsAt ← integer (obj_get "startsAt" value) 0 max_safe;
  expiresAt ← integer (obj_get "expiresAt" value) 0 max_safe;
  Some (PageAnnouncement id title body severity startsAt expiresAt).
(* @src apps/web/src/lib/server/public-status-snapshot.ts sanitizePage *)
Definition sanitizePage `{UA : UrlApi} (value : json) (workspaceSlug : string) : option PublicStatusPage :=
  value ← isRecord (Some value);
  workspace ← isRecord (obj_get "workspace" value);
  dashboard ← isRecord (obj_get "dashboard" value);
  workspaceName ← boundedString (obj_get "name" workspace) 200 false;
  slug ← boundedString (obj_get "slug" workspace) 200 false;
  dashboardName ← boundedString (obj_get "name" dashboard) 200 false;
  machines ← boundedArray (obj_get "machines" value) 200 sanitizeMachine;
  services ← boundedArray (obj_get "services" value) 200 sanitizeService;
  incidents ← boundedArray (obj_get "incidents" value) 20 sanitizeIncident;
  announcements ← boundedArray (obj_get "announcements" value) 20 sanitizeAnnouncement;
  updatedAt ← nullableInteger (obj_get "updatedAt" value) 0 max_safe;
  if String.eqb slug workspaceSlug
  then Some (StatusPage (workspaceName, slug) (dashboardName, normalizeSiteAppearance <$> obj_get "appearance" dashboard)
               machines services incidents announcements updatedAt)
  else None.
(** [Math.max(1, Math.ceil(total / pageSize))] *)
Definition page_total (total pageSize : Z) : Z := Z.max 1 ((total + pageSize - 1) / pageSize).
(* @src apps/web/src/lib/server/public-status-snapshot.ts 327-346 sanitizeView *)
Definition pagination_ok (page : PublicStatusPage) (p : PublicStatusServicePagination) : bool :=
  (gp_pageSize p =? PUBLIC_STATUS_SERVICE_PAGE_SIZE) && (gp_pageCount p =? page_total (gp_total p) (gp_pageSize p)) && (gp_page p <=? gp_pageCount p) &&
  (gp_from p =? (if gp_total p =? 0 then 0 else (gp_page p - 1) * gp_pageSize p + 1)) && (gp_to p =? Z.min (gp_page p * gp_pageSize p) (gp_total p)) &&
  (Z.of_nat (length (gs_services page)) =? (if gp_total p =? 0 then 0 else gp_to p - gp_from p + 1)).
(* @src apps/web/src/lib/server/public-status-snapshot.ts sanitizeView *)
Definition sanitizeView `{UA : UrlApi} (value : json) (workspaceSlug : string) : option PaginatedPublicStatusPage :=
  view ← isRecord (Some value);
  pagination ← isRecord (obj_get "servicePagination" view);
  page ← sanitizePage value workspaceSlug;
  overallState ← member serviceStates (obj_get "overallState" view);
  currentPage ← integer (obj_get "page" pagination) 1 PUBLIC_STATUS_MAX_SERVICE_PAGES;
  pageSize ← integer (obj_get "pageSize" pagination) PUBLIC_STATUS_SERVICE_PAGE_SIZE max_safe;
  pageCount ← integer (obj_get "pageCount" pagination) 1 PUBLIC_STATUS_MAX_SERVICE_PAGES;
  total ← integer (obj_get "total" pagination) 0 200;
  from ← integer (obj_get "from" pagination) 0 200;
  to ← integer (obj_get "to" pagination) 0 200;
  let p := Pagination currentPage pageSize pageCount total from to in
  if pagination_ok page p then Some (PaginatedPage page overallState p) else None.

(** ** A page as the object that is serialised *)

Definition int_out (o : option Z) : jout := match o with Some z => OInt z | None => ONull end.
Definition text_out (o : option string) : jout := match o with Some s => OStr s | None => ONull end.
Definition container_out (k : public_container) : jout :=
  OObj [("name", OStr (qc_name k)); ("state", OStr (qc_state k)); ("health", OStr (qc_health k)); ("cpuPermille", int_out (qc_cpu k));
        ("memoryUsedBytes", int_out (qc_memory k))].
Definition machine_out (m : PublicStatusMachine) : jout :=
  OObj [("slug", OStr (qm_slug m)); ("name", OStr (qm_name m)); ("description", OStr (qm_description m)); ("state", OStr (qm_state m));
        ("observedAt", int_out (qm_observedAt m)); ("cpuPermille", int_out (qm_cpu m)); ("memoryUsedBytes", int_out (qm_memoryUsed m));
        ("memoryTotalBytes", int_out (qm_memoryTotal m)); ("storageUsedBytes", int_out (qm_storageUsed m)); ("storageTotalBytes", int_out (qm_storageTotal m));
        ("networkRxBps", int_out (qm_rx m)); ("networkTxBps", int_out (qm_tx m)); ("containers", OArr (map container_out (qm_containers m)))].
Definition bucket_out (b : ServiceTimelineBucket) : jout :=
  OObj [("bucketStart", OInt (tb_start b)); ("state", OStr (state_name (tb_state b))); ("availabilityPermille", int_out (tb_availability b));
        ("latencyMs", int_out (tb_latency b)); ("summaryCode", text_out (tb_summary b))].
Definition service_out (s : PublicStatusService) : jout :=
  OObj [("name", OStr (qs_name s)); ("slug", OStr (qs_slug s)); ("description", OStr (qs_description s)); ("state", OStr (state_name (qs_state s)));
        ("lastCheckedAt", int_out (qs_lastCheckedAt s)); ("lastTransitionAt", int_out (qs_lastTransitionAt s));
        ("availability24hPermille", int_out (qs_availability s)); ("timeline", OArr (map bucket_out (qs_timeline s)))].
Definition affected_out (a : string * string) : jout := OObj [("name", OStr a.1); ("impact", OStr a.2)].
Definition update_out (u : string * string * string * Z) : jout :=
  let '(id, state, body, publishedAt) := u in OObj [("id", OStr id); ("state", OStr state); ("body", OStr body); ("publishedAt", OInt publishedAt)].
Definition incident_out (i : page_incident) : jout :=
  OObj [("id", OStr (gi_id i)); ("title", OStr (gi_title i)); ("summary", OStr (gi_summary i)); ("severity", OStr (gi_severity i)); ("state", OStr (gi_state i));
        ("startsAt", OInt (gi_startsAt i)); ("resolvedAt", int_out (gi_resolvedAt i)); ("affectedServices", OArr (map affected_out (gi_affected i)));
        ("updates", OArr (map update_out (gi_updates i)))].
Definition announcement_out (a : page_announcement) : jout :=
  OObj [("id", OStr (ga_id a)); ("title", OStr (ga_title a)); ("body", OStr (ga_body a)); ("severity", OStr (ga_severity a));
        ("startsAt", OInt (ga_startsAt a)); ("expiresAt", OInt (ga_expiresAt a))].
Definition dashboard_out (d : string * option SiteAppearance) : jout :=
  OObj (("name", OStr d.1) :: match d.2 with Some a => [("appearance", appearance_out a)] | None => [] end).
Definition pagination_out (p : PublicStatusServicePagination) : jout :=
  OObj [("page", OInt (gp_page p)); ("pageSize", OInt (gp_pageSize p)); ("pageCount", OInt (gp_pageCount p)); ("total", OInt (gp_total p));
        ("from", OInt (gp_from p)); ("to", OInt (gp_to p))].
Definition view_out (v : PaginatedPublicStatusPage) : jout :=
  let page := gv_page v in
  OObj [("workspace", OObj [("name", OStr (gs_workspace page).1); ("slug", OStr (gs_workspace page).2)]); ("dashboard", dashboard_out (gs_dashboard page));
        ("machines", OArr (map machine_out (gs_machines page))); ("services", OArr (map service_out (gs_services page)));
        ("incidents", OArr (map incident_out (gs_incidents page))); ("announcements", OArr (map announcement_out (gs_announcements page)));
        ("updatedAt", int_out (gs_updatedAt page)); ("overallState", OStr (gv_overall v)); ("servicePagination", pagination_out (gv_pagination v))].

(** ** Snapshots *)

(* @src apps/web/src/lib/server/public-status-snapshot.ts PublicStatusSnapshot *)
Record PublicStatusSnapshot := Snapshot { sn_version : Z; sn_cachedAt : Z; sn_page : PaginatedPublicStatusPage }.
Definition snapshot_out (s : PublicStatusSnapshot) : jout :=
  OObj [("version", OInt (sn_version s)); ("cachedAt", OInt (sn_cachedAt s)); ("page", view_out (sn_page s))].
Definition with_announcements (page : PaginatedPublicStatusPage) (announcements : list page_announcement) : PaginatedPublicStatusPage :=
  let p := gv_page page in
  PaginatedPage (StatusPage (gs_workspace p) (gs_dashboard p) (gs_machines p) (gs_services p) (gs_incidents p) announcements (gs_updatedAt p))
    (gv_overall page) (gv_pagination page).
(* @src apps/web/src/lib/server/public-status-snapshot.ts visibleAnnouncements *)
Definition visibleAnnouncements (page : PaginatedPublicStatusPage) (now : Z) : list page_announcement :=
  List.filter (fun announcement => (ga_startsAt announcement <=? now) && (now <? ga_expiresAt announcement)) (gs_announcements (gv_page page)).

Section Cache.
Context `{UA : UrlApi}.

(* @src apps/web/src/lib/server/public-status-snapshot.ts publicStatusSnapshotKey *)
Definition publicStatusSnapshotKey (siteOrigin workspaceSlug : string) (servicePage : Z) : res string :=
  let normalizedPage := normalizePublicStatusServicePage (Some (z_to_string servicePage)) in
  let* base := url_parse siteOrigin None in
  let* u := url_parse ("/__alphaping_cache__/public-status/v2/" ++ encodeURIComponent workspaceSlug ++ "/services/" ++ z_to_string normalizedPage) (Some base) in
  Ok (href u).
(* @src apps/web/src/lib/server/public-status-snapshot.ts buildPublicStatusSnapshot *)
Definition buildPublicStatusSnapshot (page : PaginatedPublicStatusPage) (cachedAt : number) : res PublicStatusSnapshot :=
  match sanitizeView (json_of (view_out page)) (gs_workspace (gv_page page)).2, integer (Some (JNum cachedAt)) 0 max_safe with
  | Some sanitized, Some cachedAt => Ok (Snapshot 2 cachedAt sanitized)
  | _, _ => Err "invalid_public_status_snapshot"
  end.
(* @src apps/web/src/lib/server/public-status-snapshot.ts parsePublicStatusSnapshot *)
Definition parsePublicStatusSnapshot (value workspaceSlug : string) (now : Z) : option (PaginatedPublicStatusPage * Z) :=
  if String.eqb value "" || (MAX_SNAPSHOT_BYTES <? slen value) then None
  else match json_parse value with
       | Ok (JObj parsed) =>
           if negb (is_int 2 (obj_get "version" parsed)) then None
           else
             cachedAt ← integer (obj_get "cachedAt" parsed) 0 max_safe;
             if (now + 60000 <? cachedAt) || (PUBLIC_STATUS_SNAPSHOT_TTL_SECONDS * 1000 <? now - cachedAt) then None
             else
               content ← obj_get "page" parsed;
               page ← sanitizeView content workspaceSlug;
               Some (with_announcements page (visibleAnnouncements page now), cachedAt)
       | _ => None
       end.
(* @src apps/web/src/lib/server/public-status-snapshot.ts publicStatusSnapshotFreshMaxAge *)
Definition publicStatusSnapshotFreshMaxAge (cachedAt now : Z) : option Z :=
  if negb (safe_z cachedAt) || negb (safe_z now) || (now <? cachedAt) then None
  else
    let remainingMs := PUBLIC_STATUS_FRESH_CACHE_TTL_SECONDS * 1000 - (now - cachedAt) in
    if remainingMs <? 0 then None else Some ((remainingMs + 999) / 1000).

(** The answer of [cache.match]: its length when declared, and the chunks of its body. *)
Record cached_response := CachedResponse { ca_length : option string; ca_body : option (list (res (list byte))) }.
(* @src apps/web/src/lib/server/public-status-snapshot.ts 430-443 readBoundedSnapshotText *)
Fixpoint read_chunks (chunks : list (res (list byte))) (bytes : Z) (text : list byte) : res (list byte) :=
  match chunks with
  | [] => Ok text
  | Err e :: _ => Err e
  | Ok value :: rest =>
      throw_if MAX_SNAPSHOT_BYTES <? bytes + blen value as "public_status_snapshot_too_large" in
      read_chunks rest (bytes + blen value) (text ++ value)%list
  end.
(* @src apps/web/src/lib/server/public-status-snapshot.ts readBoundedSnapshotText *)
Definition readBoundedSnapshotText (response : cached_response) : res string :=
  throw_if match ca_length response with
           | Some declaredLength => negb (String.eqb declaredLength "") && str_forall is_digit declaredLength &&
               num_lt (num_of_Z MAX_SNAPSHOT_BYTES) (js_number declaredLength)
           | None => false
           end as "public_status_snapshot_too_large" in
  match ca_body response with
  | None => Ok ""
  | Some chunks => let* bytes := read_chunks chunks 0 [] in Ok (decode_utf8 bytes)
  end.
(** The request and the text [cache.put] is given. *)
(* @src apps/web/src/lib/server/public-status-snapshot.ts writePublicStatusSnapshot *)
Definition writePublicStatusSnapshot (siteOrigin : string) (page : PaginatedPublicStatusPage) (cachedAt : number) (servicePage : Z) : res (string * string) :=
  let* snapshot := buildPublicStatusSnapshot page cachedAt in
  let serialized := json_stringify (snapshot_out snapshot) in
  throw_if MAX_SNAPSHOT_BYTES <? blen (encode_utf8 serialized) as "public_status_snapshot_too_large" in
  let* key := publicStatusSnapshotKey siteOrigin (gs_workspace (gv_page page)).2 servicePage in
  Ok (key, serialized).
(** [match_] is [cache.match]. *)
(* @src apps/web/src/lib/server/public-status-snapshot.ts readPublicStatusSnapshot *)
Definition readPublicStatusSnapshot (match_ : string -> res (option cached_response)) (siteOrigin workspaceSlug : string) (now servicePage : Z)
  : res (option (PaginatedPublicStatusPage * Z)) :=
  let* key := publicStatusSnapshotKey siteOrigin workspaceSlug servicePage in
  let* response := match_ key in
  match response with
  | None => Ok None
  | Some response => match readBoundedSnapshotText response with Ok text => Ok (parsePublicStatusSnapshot text workspaceSlug now) | Err _ => Ok None end
  end.

(** ** The page's [load] *)

Inductive source := FromCache (maxAge : Z) | Live | FromSnapshot.
Inductive page_answer :=
| Shown (page : PaginatedPublicStatusPage) (from : source) (stale : bool) (snapshotAt : Z)
| HttpError (status : Z)
| Thrown (cause : string).
(** [bound]: the database is bound; [open] is [caches.open] with the cache's [match]; [live] what [loadPublicStatusPage] does at
    [now] for the page of services.  The second component is what the cache is asked to put. *)
(* @src apps/web/src/routes/status/[workspace]/+page.server.ts load *)
Definition load (bound : bool) (open : res (string -> res (option cached_response))) (live : Z -> Z -> res PaginatedPublicStatusPage)
    (siteOrigin workspaceSlug : string) (servicePageParam : option string) (now : Z) : page_answer * option (string * string) :=
  if negb bound then (HttpError 503, None) else
  let servicePage := normalizePublicStatusServicePage servicePageParam in
  let snapshot := match open with
                  | Ok match_ => rcatch (readPublicStatusSnapshot match_ siteOrigin workspaceSlug now servicePage) None
                  | Err _ => None
                  end in
  let freshCacheMaxAge := '(_, cachedAt) ← snapshot; publicStatusSnapshotFreshMaxAge cachedAt now in
  match snapshot, freshCacheMaxAge with
  | Some (page, cachedAt), Some maxAge => (Shown page (FromCache maxAge) false cachedAt, None)
  | _, _ =>
      match live servicePage now with
      | Ok page =>
          (Shown page Live false now,
           if is_ok open then match writePublicStatusSnapshot siteOrigin page (num_of_Z now) servicePage with Ok put => Some put | Err _ => None end else None)
      | Err cause =>
          if String.eqb cause "PublicStatusNotFoundError" then (HttpError 404, None)
          else match snapshot with
               | Some (page, cachedAt) => (Shown page FromSnapshot true cachedAt, None)
               | None => (if String.eqb cause "PublicStatusDataError" then HttpError 503 else Thrown cause, None)
               end
      end
  end.
End Cache.

(** ** What is read back is what was written *)

#[local] Arguments int_out : simpl never.
#[local] Arguments text_out : simpl never.
#[local] Arguments boundedString : simpl never.
#[local] Arguments integer : simpl never.
#[local] Arguments nullableInteger : simpl never.
#[local] Arguments boundedArray : simpl never.
#[local] Arguments member : simpl never.
#[local] Arguments summary_code : simpl never.
#[local] Arguments num_of_Z : simpl never.
#[local] Arguments normalizeState : simpl never.
#[local] Arguments state_name : simpl never.
Create HintDb kept.

Lemma boundedString_kept v m e s : boundedString v m e = Some s -> boundedString (Some (JStr s)) m e = Some s.
Proof. unfold boundedString. destruct v as [[| | |x| |]|]; try done. destruct (_ && _) eqn:E; [|done]. intros [= ->]. by rewrite E. Qed.
Lemma member_kept names v s : member names v = Some s -> member names (Some (JStr s)) = Some s.
Proof. unfold member. destruct v as [[| | |x| |]|]; try done. destruct (str_in x names) eqn:E; [|done]. intros [= ->]. by rewrite E. Qed.
Lemma integer_range v lo hi z : integer v lo hi = Some z -> lo <= z <= hi /\ safe_z z = true.
Proof.
  unfold integer. destruct (as_safe_int v) as [x|] eqn:E; [|done]. destruct (_ && _) eqn:Er; [|done]. intros [= ->]. bool_hyps. split; [lia|].
  destruct v as [[| |n| | |]|]; try done. cbn [as_safe_int] in E. unfold safe_int in E. destruct (num_int n) as [y|]; [|done]. destruct (safe_z y) eqn:Es; [|done]. by injection E as ->.
Qed.
Lemma integer_of_Z z lo hi : safe_z z = true -> integer (Some (JNum (num_of_Z z))) lo hi = if (lo <=? z) && (z <=? hi) then Some z else None.
Proof. intros H. unfold integer. cbn [as_safe_int]. by rewrite safe_int_of_Z. Qed.
Lemma integer_kept v lo hi z : integer v lo hi = Some z -> integer (Some (JNum (num_of_Z z))) lo hi = Some z.
Proof. intros H. destruct (integer_range _ _ _ _ H) as [[H1 H2] Hs]. rewrite integer_of_Z by done. by rewrite !(proj2 (Z.leb_le _ _)) by done. Qed.
Lemma nullable_kept v lo hi o : nullableInteger v lo hi = Some o -> nullableInteger (Some (json_of (int_out o))) lo hi = Some o.
Proof.
  unfold nullableInteger. intros H. assert (Hi : v = Some JNull /\ o = None \/ Some <$> integer v lo hi = Some o).
  { destruct v as [[| | | | |]|]; try (by right). left. by injection H as <-. }
  destruct Hi as [[_ ->]|Hi]; [done|]. destruct (integer v lo hi) as [z|] eqn:E; [|done]. injection Hi as <-. unfold int_out. cbn [json_of]. by rewrite (integer_kept _ _ _ _ E).
Qed.
Lemma nullable_out_ok v lo hi o : nullableInteger v lo hi = Some o -> jout_ok (int_out o).
Proof.
  unfold nullableInteger. intros H. assert (Hi : v = Some JNull /\ o = None \/ Some <$> integer v lo hi = Some o).
  { destruct v as [[| | | | |]|]; try (by right). left. by injection H as <-. }
  destruct Hi as [[_ ->]|Hi]; [done|]. destruct (integer v lo hi) as [z|] eqn:E; [|done]. injection Hi as <-. apply (integer_range _ _ _ _ E).
Qed.
Lemma nullable_text_kept v o : summary_code v = Some o -> summary_code (Some (json_of (text_out o))) = Some o.
Proof.
  unfold summary_code. intros H.
  assert (Hi : v = Some JNull /\ o = None \/ Some <$> boundedString v 128 false = Some o) by (destruct v as [[| | | | |]|]; try (by right); left; by injection H as <-).
  destruct Hi as [[_ ->]|Hi]; [done|]. destruct (boundedString v 128 false) as [s|] eqn:E; [|done]. injection Hi as <-. unfold text_out. cbn [json_of]. by rewrite (boundedString_kept _ _ _ _ E).
Qed.
Lemma array_inv {T} v m (f : json -> option T) l : boundedArray v m f = Some l ->
  exists js, v = Some (JArr js) /\ Z.of_nat (length js) <= m /\ mapM f js = Some l.
Proof.
  unfold boundedArray. destruct v as [[| | | |js|]|]; try done. destruct (_ <? _) eqn:E; [done|]. intros H. exists js. apply Z.ltb_ge in E. done.
Qed.
Lemma array_kept {T} v m (f : json -> option T) (out : T -> jout) l : (forall j x, f j = Some x -> f (json_of (out x)) = Some x) ->
  boundedArray v m f = Some l -> boundedArray (Some (JArr (map json_of (map out l)))) m f = Some l.
Proof.
  intros Hf H. destruct (array_inv _ _ _ _ H) as (js & -> & Hl & HM). apply mapM_Some in HM. unfold boundedArray.
  rewrite !length_map, <- (Forall2_length _ _ _ HM), (proj2 (Z.ltb_ge _ _)) by done. apply mapM_Some. clear H Hl.
  induction HM as [|j x js l Hj HM IH]; constructor; [by apply Hf in Hj | done].
Qed.
Lemma array_out_ok {T} v m (f : json -> option T) (out : T -> jout) l : (forall j x, f j = Some x -> jout_ok (out x)) ->
  boundedArray v m f = Some l -> foldr (fun x P => jout_ok x /\ P) True (map out l).
Proof.
  intros Hf H. destruct (array_inv _ _ _ _ H) as (js & -> & _ & HM). apply mapM_Some in HM. clear H.
  induction HM as [|j x js l Hj HM IH]; cbn; [done|]. split; [by apply Hf in Hj | done].
Qed.
Lemma state_kept v s : member serviceStates v = Some s -> state_name (normalizeState s) = s.
Proof.
  unfold member. destruct v as [[| | |x| |]|]; try done. destruct (str_in x serviceStates) eqn:E; [|done]. intros [= ->]. unfold str_in, serviceStates in E. cbn [existsb] in E.
  revert E. unfold normalizeState. repeat match goal with |- context [String.eqb s ?n] => destruct (String.eqb_spec s n) as [->|]; [intros _; reflexivity|] end. by cbn.
Qed.
#[local] Hint Resolve boundedString_kept member_kept integer_kept nullable_kept nullable_text_kept nullable_out_ok : kept.

(** The fields of an object that was accepted, and the same object written and read again. *)
Ltac fields H := repeat (let x := fresh "x" in let E := fresh "E" in apply bind_Some in H as (x & E & H)).
Ltac keep_fields := repeat (apply bind_Some; eexists; split; [cbn; eauto with kept|]).
Lemma container_kept j k : sanitizeContainer j = Some k -> sanitizeContainer (json_of (container_out k)) = Some k.
Proof. unfold sanitizeContainer at 1. intros H. fields H. injection H as <-. unfold sanitizeContainer. keep_fields. done. Qed.
Lemma container_out_ok j k : sanitizeContainer j = Some k -> jout_ok (container_out k).
Proof. unfold sanitizeContainer. intros H. fields H. injection H as <-. split; [by apply (bool_decide_unpack _)|]. cbn. split_and!; eauto with kept. Qed.
#[local] Hint Extern 2 (boundedArray _ _ _ = _) => eapply array_kept : kept.
#[local] Hint Extern 2 (foldr _ True (map _ _)) => eapply array_out_ok : kept.
#[local] Hint Resolve container_kept container_out_ok : kept.
Lemma machine_kept j m : sanitizeMachine j = Some m -> sanitizeMachine (json_of (machine_out m)) = Some m.
Proof. unfold sanitizeMachine at 1. intros H. fields H. injection H as <-. unfold sanitizeMachine. keep_fields. done. Qed.
Lemma machine_out_ok j m : sanitizeMachine j = Some m -> jout_ok (machine_out m).
Proof. unfold sanitizeMachine. intros H. fields H. injection H as <-. split; [by apply (bool_decide_unpack _)|]. cbn. split_and!; eauto with kept. Qed.
Lemma integer_out_ok v lo hi z : integer v lo hi = Some z -> safe_z z = true.
Proof. apply integer_range. Qed.
Lemma text_out_ok o : jout_ok (text_out o).
Proof. by destruct o. Qed.
#[local] Hint Resolve integer_out_ok text_out_ok : kept.
Lemma bucket_kept j b : sanitizeBucket j = Some b -> sanitizeBucket (json_of (bucket_out b)) = Some b.
Proof.
  unfold sanitizeBucket at 1. intros H. fields H. injection H as <-. unfold sanitizeBucket. unfold bucket_out. cbn [tb_state]. erewrite state_kept by eauto.
  keep_fields. done.
Qed.
Lemma bucket_out_ok j b : sanitizeBucket j = Some b -> jout_ok (bucket_out b).
Proof. unfold sanitizeBucket. intros H. fields H. injection H as <-. split; [by apply (bool_decide_unpack _)|]. cbn. split_and!; eauto with kept. Qed.
#[local] Hint Resolve bucket_kept bucket_out_ok : kept.
Lemma service_kept j s : sanitizeService j = Some s -> sanitizeService (json_of (service_out s)) = Some s.
Proof.
  unfold sanitizeService at 1. intros H. fields H. injection H as <-. unfold sanitizeService. unfold service_out. cbn [qs_state]. erewrite state_kept by eauto. keep_fields. done.
Qed.
Lemma service_out_ok j s : sanitizeService j = Some s -> jout_ok (service_out s).
Proof. unfold sanitizeService. intros H. fields H. injection H as <-. split; [by apply (bool_decide_unpack _)|]. cbn. split_and!; eauto with kept. Qed.
Lemma affected_kept j a : sanitizeAffected j = Some a -> sanitizeAffected (json_of (affected_out a)) = Some a.
Proof. unfold sanitizeAffected at 1. intros H. fields H. injection H as <-. unfold sanitizeAffected. keep_fields. done. Qed.
Lemma affected_out_ok a : jout_ok (affected_out a).
Proof. by split; [apply (bool_decide_unpack _)|]. Qed.
Lemma update_kept j u : sanitizeUpdate j = Some u -> sanitizeUpdate (json_of (update_out u)) = Some u.
Proof. unfold sanitizeUpdate at 1. intros H. fields H. injection H as <-. unfold sanitizeUpdate. keep_fields. done. Qed.
Lemma update_out_ok j u : sanitizeUpdate j = Some u -> jout_ok (update_out u).
Proof. unfold sanitizeUpdate. intros H. fields H. injection H as <-. split; [by apply (bool_decide_unpack _)|]. cbn. split_and!; eauto with kept. Qed.
#[local] Hint Resolve affected_kept affected_out_ok update_kept update_out_ok : kept.
Lemma incident_kept j i : sanitizeIncident j = Some i -> sanitizeIncident (json_of (incident_out i)) = Some i.
Proof. unfold sanitizeIncident at 1. intros H. fields H. injection H as <-. unfold sanitizeIncident. keep_fields. done. Qed.
Lemma incident_out_ok j i : sanitizeIncident j = Some i -> jout_ok (incident_out i).
Proof. unfold sanitizeIncident. intros H. fields H. injection H as <-. split; [by apply (bool_decide_unpack _)|]. cbn. split_and!; eauto with kept. Qed.
Lemma announcement_kept j a : sanitizeAnnouncement j = Some a -> sanitizeAnnouncement (json_of (announcement_out a)) = Some a.
Proof. unfold sanitizeAnnouncement at 1. intros H. fields H. injection H as <-. unfold sanitizeAnnouncement. keep_fields. done. Qed.
Lemma announcement_out_ok j a : sanitizeAnnouncement j = Some a -> jout_ok (announcement_out a).
Proof. unfold sanitizeAnnouncement. intros H. fields H. injection H as <-. split; [by apply (bool_decide_unpack _)|]. cbn. split_and!; eauto with kept. Qed.
#[local] Hint Resolve machine_kept machine_out_ok service_kept service_out_ok incident_kept incident_out_ok announcement_kept announcement_out_ok : kept.

(** What was accepted of a typed page is that page. *)
Create HintDb same.
Lemma string_same s m e t : boundedString (Some (JStr s)) m e = Some t -> t = s.
Proof. unfold boundedString. destruct (_ && _); [|done]. by intros [= ->]. Qed.
Lemma member_same names s t : member names (Some (JStr s)) = Some t -> t = s.
Proof. unfold member. destruct (str_in s names); [|done]. by intros [= ->]. Qed.
Lemma integer_same z lo hi t : safe_z z = true -> integer (Some (JNum (num_of_Z z))) lo hi = Some t -> t = z.
Proof. intros Hs. rewrite integer_of_Z by done. destruct (_ && _); [|done]. by intros [= ->]. Qed.
Lemma nullable_same o lo hi t : jout_ok (int_out o) -> nullableInteger (Some (json_of (int_out o))) lo hi = Some t -> t = o.
Proof.
  destruct o as [z|]; cbn; [|by intros _ [= <-]]. intros Hs. unfold nullableInteger, int_out. cbn [json_of]. destruct (integer _ _ _) as [y|] eqn:E; [|done].
  apply integer_same in E as ->; [|done]. by intros [= <-].
Qed.
Lemma text_same o t : summary_code (Some (json_of (text_out o))) = Some t -> t = o.
Proof.
  destruct o as [s|]; [|by intros [= <-]]. unfold summary_code, text_out. cbn [json_of]. destruct (boundedString _ _ _) as [y|] eqn:E; [|done].
  apply string_same in E as ->. by intros [= <-].
Qed.
Lemma array_same {T} m (f : json -> option T) (out : T -> jout) l t : (forall x y, jout_ok (out x) -> f (json_of (out x)) = Some y -> y = x) ->
  foldr (fun x P => jout_ok x /\ P) True (map out l) -> boundedArray (Some (JArr (map json_of (map out l)))) m f = Some t -> t = l.
Proof.
  intros Hf Hok H. destruct (array_inv _ _ _ _ H) as (js & [= <-] & _ & HM). apply mapM_Some in HM. clear H.
  revert t Hok HM. induction l as [|x l IH]; intros t Hok HM; cbn in *; [by inversion HM|]. inversion HM as [|? y ? t' Hy HM' E1 E2]; subst. destruct Hok as [Hx Hl].
  f_equal; [by apply Hf | by apply IH].
Qed.
Lemma state_same st t : member serviceStates (Some (JStr (state_name st))) = Some t -> normalizeState t = st.
Proof. intros H. apply member_same in H as ->. by destruct st. Qed.
#[local] Hint Resolve string_same member_same integer_same nullable_same text_same state_same : same.
#[local] Hint Extern 2 (_ = _) => eapply array_same : same.
Ltac same_fields Hok H := cbn in H; fields H; destruct Hok as [_ Hok]; cbn in Hok; destruct_and? Hok; injection H as <-; f_equal; eauto with same.
Lemma container_same k y : jout_ok (container_out k) -> sanitizeContainer (json_of (container_out k)) = Some y -> y = k.
Proof. intros Hok H. destruct k. same_fields Hok H. Qed.
#[local] Hint Resolve container_same : same.
Lemma machine_same m y : jout_ok (machine_out m) -> sanitizeMachine (json_of (machine_out m)) = Some y -> y = m.
Proof. intros Hok H. destruct m. same_fields Hok H. Qed.
Lemma bucket_same b y : jout_ok (bucket_out b) -> sanitizeBucket (json_of (bucket_out b)) = Some y -> y = b.
Proof. intros Hok H. destruct b. same_fields Hok H. Qed.
#[local] Hint Resolve bucket_same : same.
Lemma service_same s y : jout_ok (service_out s) -> sanitizeService (json_of (service_out s)) = Some y -> y = s.
Proof. intros Hok H. destruct s. same_fields Hok H. Qed.
Lemma affected_same a y : jout_ok (affected_out a) -> sanitizeAffected (json_of (affected_out a)) = Some y -> y = a.
Proof. intros Hok H. destruct a. same_fields Hok H. Qed.
Lemma update_same u y : jout_ok (update_out u) -> sanitizeUpdate (json_of (update_out u)) = Some y -> y = u.
Proof. intros Hok H. destruct u as [[[? ?] ?] ?]. same_fields Hok H. repeat f_equal; eauto with same. Qed.
#[local] Hint Resolve affected_same update_same : same.
Lemma incident_same i y : jout_ok (incident_out i) -> sanitizeIncident (json_of (incident_out i)) = Some y -> y = i.
Proof. intros Hok H. destruct i. same_fields Hok H. Qed.
Lemma announcement_same a y : jout_ok (announcement_out a) -> sanitizeAnnouncement (json_of (announcement_out a)) = Some y -> y = a.
Proof. intros Hok H. destruct a. same_fields Hok H. Qed.
#[local] Hint Resolve machine_same service_same incident_same announcement_same : same.

Section Snapshots.
Context `{UA : UrlApi}.
#[local] Arguments normalizeSiteAppearance : simpl never.
#[local] Arguments appearance_out : simpl never.

Lemma dashboard_appearance d : (forall a, d.2 = Some a -> appearance_ok a) ->
  normalizeSiteAppearance <$> obj_get "appearance" (match json_of (dashboard_out d) with JObj l => l | _ => [] end) = d.2.
Proof. intros H. unfold dashboard_out. destruct d as [n [a|]]; [|done]. cbn. f_equal. apply normalize_kept. by apply H. Qed.
Lemma dashboard_out_ok d : jout_ok (dashboard_out d).
Proof. destruct d as [n [a|]]; (split; [by apply (bool_decide_unpack _)|]); cbn; split_and!; try done. apply appearance_out_ok. Qed.
Lemma page_kept j slug p : sanitizePage j slug = Some p ->
  (gs_workspace p).2 = slug /\ (forall a, (gs_dashboard p).2 = Some a -> appearance_ok a) /\
  (forall overall pg, sanitizePage (json_of (view_out (PaginatedPage p overall pg))) slug = Some p) /\
  (forall overall pg, jout_ok (pagination_out pg) -> jout_ok (view_out (PaginatedPage p overall pg))).
Proof.
  unfold sanitizePage at 1. intros H. fields H. destruct (String.eqb_spec x3 slug) as [->|]; [|done]. injection H as <-. cbn [gs_workspace gs_dashboard snd].
  assert (Ha : forall a, normalizeSiteAppearance <$> obj_get "appearance" x1 = Some a -> appearance_ok a).
  { intros a. destruct (obj_get "appearance" x1); [|done]. cbn. intros [= <-]. apply normalized_ok. }
  split_and!; [done | exact Ha | |].
  - intros overall pg. unfold sanitizePage.
    do 11 (apply bind_Some; eexists; split; [cbn; eauto with kept|]). rewrite String.eqb_refl.
    pose proof (dashboard_appearance (x4, normalizeSiteAppearance <$> obj_get "appearance" x1) Ha) as Hd. cbn in Hd |- *. rewrite Hd. done.
  - intros overall pg Hp. split; [by apply (bool_decide_unpack _)|]. destruct Hp as [Hn Hp]. cbn in Hp. destruct_and! Hp. cbn.
    pose proof (dashboard_out_ok (x4, normalizeSiteAppearance <$> obj_get "appearance" x1)) as [Hd1 [_ Hd2]].
    split_and!; eauto with kept. by apply (bool_decide_unpack _).
Qed.
Lemma view_kept j slug v : sanitizeView j slug = Some v ->
  (gs_workspace (gv_page v)).2 = slug /\ sanitizeView (json_of (view_out v)) slug = Some v /\ jout_ok (view_out v).
Proof.
  unfold sanitizeView at 1. intros H. fields H. destruct (pagination_ok _ _) eqn:Ep; [|done]. injection H as <-.
  match goal with E : sanitizePage _ _ = Some _ |- _ => destruct (page_kept _ _ _ E) as (Hw & _ & Hk & Ho) end.
  split_and!; [done | |].
  - unfold sanitizeView. rewrite Hk. do 2 (apply bind_Some; eexists; split; [reflexivity|]). cbn [mbind option_bind].
    keep_fields. by rewrite Ep.
  - apply Ho. split; [by apply (bool_decide_unpack _)|]. cbn. split_and!; eauto with kept.
Qed.

Definition looks_ok (v : PaginatedPublicStatusPage) : Prop := forall a, (gs_dashboard (gv_page v)).2 = Some a -> appearance_ok a.
Lemma page_same v slug y : jout_ok (view_out v) -> looks_ok v -> sanitizePage (json_of (view_out v)) slug = Some y -> y = gv_page v.
Proof.
  intros Hok Ha H. pose proof (dashboard_appearance (gs_dashboard (gv_page v)) Ha) as Hd. destruct v as [[w d ms ss is_ ns u] overall pg]. destruct Hok as [_ Hok].
  cbn in Hok, Hd. destruct_and? Hok. unfold sanitizePage in H. apply bind_Some in H as (x & E & H). cbn in E. injection E as <-. cbn in H. fields H.
  destruct (String.eqb _ slug); [|done]. injection H as <-. rewrite Hd. cbn [gv_page].
  f_equal; eauto with same; [destruct w | destruct d]; f_equal; eauto with same.
Qed.
Lemma view_same v slug y : jout_ok (view_out v) -> looks_ok v -> sanitizeView (json_of (view_out v)) slug = Some y -> y = v.
Proof.
  intros Hok Ha H. unfold sanitizeView in H. do 3 (apply bind_Some in H as (? & ? & H)). match goal with E : sanitizePage _ _ = _ |- _ => apply page_same in E as ->; [|done..] end.
  destruct v as [p overall [pg_ ps_ pc_ pt_ pf_ po_]]. destruct Hok as [_ Hok]. cbn in Hok. destruct_and? Hok. do 2 (cbn in *; repeat match goal with E : Some _ = Some ?l |- _ => injection E as <- end). cbn in H. fields H.
  destruct (pagination_ok _ _); [|done]. injection H as <-. f_equal; [by eauto with same|]. f_equal; eauto with same.
Qed.

Lemma view_slug j slug v : sanitizeView j slug = Some v ->
  exists l w, j = JObj l /\ isRecord (obj_get "workspace" l) = Some w /\ boundedString (obj_get "slug" w) 200 false = Some slug.
Proof.
  unfold sanitizeView, sanitizePage. intros H. do 3 (apply bind_Some in H as (? & ? & H)). destruct j as [| | | | |l]; try done.
  match goal with E : mbind _ (isRecord (Some (JObj l))) = Some _ |- _ => cbn [isRecord mbind option_bind] in E; fields E; destruct (String.eqb_spec x5 slug) as [->|]; [|done] end.
  eauto.
Qed.
Lemma view_one_slug j s1 s2 v1 v2 : sanitizeView j s1 = Some v1 -> sanitizeView j s2 = Some v2 -> s1 = s2.
Proof. intros (l & w & -> & Hw & Hs)%view_slug (l' & w' & [= <-] & Hw' & Hs')%view_slug. congruence. Qed.

Lemma snapshot_written siteOrigin page at_ n key text : safe_z at_ = true -> writePublicStatusSnapshot siteOrigin page (num_of_Z at_) n = Ok (key, text) ->
  exists kept, sanitizeView (json_of (view_out page)) (gs_workspace (gv_page page)).2 = Some kept /\ 0 <= at_ /\
    text = json_stringify (snapshot_out (Snapshot 2 at_ kept)) /\ slen text <= MAX_SNAPSHOT_BYTES /\
    publicStatusSnapshotKey siteOrigin (gs_workspace (gv_page page)).2 n = Ok key.
Proof.
  intros Hs H. unfold writePublicStatusSnapshot, buildPublicStatusSnapshot in H. destruct (sanitizeView _ _) as [kept|]; [|done]. rewrite integer_of_Z in H by done.
  destruct ((0 <=? at_) && _) eqn:E; [|done]. cbn [rbind] in H. rewrite blen_encode_utf8 in H. destruct (MAX_SNAPSHOT_BYTES <? _) eqn:El; [done|].
  apply rbind_ok in H as (k & Hk & [= <- <-]). exists kept. bool_hyps. done.
Qed.
Lemma snapshot_parsed kept at_ slug now : sanitizeView (json_of (view_out kept)) (gs_workspace (gv_page kept)).2 = Some kept -> jout_ok (view_out kept) ->
  safe_z at_ = true -> 0 <= at_ -> let text := json_stringify (snapshot_out (Snapshot 2 at_ kept)) in slen text <= MAX_SNAPSHOT_BYTES ->
  parsePublicStatusSnapshot text slug now =
    if String.eqb (gs_workspace (gv_page kept)).2 slug && (at_ <=? now + 60000) && (now - at_ <=? 300000)
    then Some (with_announcements kept (visibleAnnouncements kept now), at_) else None.
Proof.
  intros Hk Hok Hs H0 text Hl. unfold parsePublicStatusSnapshot. rewrite (proj2 (Z.ltb_ge _ _)) by done.
  destruct (String.eqb_spec text "") as [E|_]; [by apply (f_equal String.length) in E|]. unfold text. rewrite json_parse_stringify.
  2:{ split; [by apply (bool_decide_unpack _)|]. cbn [foldr snd sn_version sn_cachedAt sn_page jout_ok]. by split_and!. }
  cbn [snapshot_out json_of map fst snd sn_version sn_cachedAt sn_page orb]. change (obj_get "version" _) with (Some (JNum (num_of_Z 2))).
  change (negb (is_int 2 (Some (JNum (num_of_Z 2))))) with false. cbn iota. change (obj_get "cachedAt" _) with (Some (JNum (num_of_Z at_))).
  rewrite integer_of_Z by done. unfold safe_z in Hs. bool_hyps. rewrite !(proj2 (Z.leb_le _ _)) by done. cbn [andb mbind option_bind].
  change (obj_get "page" _) with (Some (json_of (view_out kept))). cbn [mbind option_bind]. change (PUBLIC_STATUS_SNAPSHOT_TTL_SECONDS * 1000) with 300000.
  rewrite !Z.ltb_antisym. destruct (at_ <=? now + 60000), (now - at_ <=? 300000); cbn [negb orb]; rewrite ?andb_false_r, ?andb_true_r; try done.
  destruct (String.eqb_spec (gs_workspace (gv_page kept)).2 slug) as [<-|Hne]; [by rewrite Hk|].
  destruct (sanitizeView _ slug) as [v|] eqn:E; [|done]. by destruct Hne; eapply view_one_slug.
Qed.
(** A stored snapshot is read back exactly, and only for its own page and in its time: what
    [writePublicStatusSnapshot] stored for a page is, for five minutes (and a clock that is at
    most a minute behind), that page with the announcements visible by then, and nothing for
    another workspace or another moment.  A page whose numbers are safe integers and whose looks
    are valid, as loaded pages' are, is stored unchanged. *)
Theorem snapshot_roundtrip siteOrigin page at_ n key text (Hs : safe_z at_ = true)
  (Hw : writePublicStatusSnapshot siteOrigin page (num_of_Z at_) n = Ok (key, text)) :
  exists kept, (jout_ok (view_out page) -> looks_ok page -> kept = page) /\
    forall slug now, parsePublicStatusSnapshot text slug now =
      if String.eqb (gs_workspace (gv_page page)).2 slug && (at_ <=? now + 60000) && (now - at_ <=? 300000)
      then Some (with_announcements kept (visibleAnnouncements kept now), at_) else None.
Proof.
  destruct (snapshot_written _ _ _ _ _ _ Hs Hw) as (kept & Hk & H0 & -> & Hl & _). exists kept. split; [intros Hok Ha; by eapply view_same|].
  intros slug now. destruct (view_kept _ _ _ Hk) as (Hslug & Hkk & Hok). rewrite <- Hslug in *. by apply snapshot_parsed.
Qed.

(** ** A status page over time *)

(** The chunks of a body that can be read are those of the text. *)
Definition delivers (r : cached_response) (text : string) : Prop := forall pieces, ca_body r = Some (map Ok pieces) -> concat pieces = encode_utf8 text.
(** A [match] of the cache: a request finds nothing, fails, or gets the text that is kept. *)
Definition matches (cache : gmap string string) (match_ : string -> res (option cached_response)) : Prop :=
  forall key, match match_ key with Ok (Some r) => exists text, cache !! key = Some text /\ delivers r text | _ => True end.

Lemma read_chunks_ok chunks : forall n text out, read_chunks chunks n text = Ok out -> exists pieces, chunks = map Ok pieces /\ out = (text ++ concat pieces)%list.
Proof.
  induction chunks as [|[c|e] chunks IH]; intros n text out; cbn [read_chunks]; [|destruct (_ <? _); [done|]|done].
  - intros [= <-]. exists []. by rewrite app_nil_r.
  - intros H. destruct (IH _ _ _ H) as (pieces & -> & ->). exists (c :: pieces). cbn. by rewrite app_assoc.
Qed.
Lemma read_text r text got : delivers r text -> readBoundedSnapshotText r = Ok got -> got = "" \/ got = text.
Proof.
  unfold readBoundedSnapshotText. intros Hd. destruct (match ca_length r with Some _ => _ | None => _ end); [done|].
  destruct (ca_body r) as [chunks|] eqn:E; [|intros [= <-]; by left]. intros H. apply rbind_ok in H as (bytes & Hr & [= <-]).
  destruct (read_chunks_ok _ _ _ _ Hr) as (pieces & -> & ->). right. rewrite app_nil_l, (Hd pieces) by done. apply decode_encode_utf8.
Qed.

(** The databases over time. *)
Definition history := Z -> control_side * telemetry_side.
Definition loaded (dbs : history) (workspaceSlug : string) (servicePage now : Z) : res PaginatedPublicStatusPage :=
  loadPublicStatusPage (dbs now).1 (dbs now).2 workspaceSlug now (Some (num_of_Z servicePage)) (Some (num_of_Z PUBLIC_STATUS_SERVICE_PAGE_SIZE)).
(** What a visit gets: the page of the moment, or a failure of the database. *)
Definition lives (dbs : history) (workspaceSlug : string) (live : Z -> Z -> res PaginatedPublicStatusPage) : Prop :=
  forall servicePage now, live servicePage now = loaded dbs workspaceSlug servicePage now \/
    exists e, live servicePage now = Err e /\ e <> "PublicStatusNotFoundError".
(** The cache of a site: a visit may put a snapshot, and any entry may be forgotten. *)
Inductive site_step (dbs : history) (siteOrigin : string) : gmap string string -> gmap string string -> Prop :=
| visit_put cache bound open live slug param now answer key text :
    safe_z now = true -> (forall match_, open = Ok match_ -> matches cache match_) -> lives dbs slug live ->
    load bound open live siteOrigin slug param now = (answer, Some (key, text)) -> site_step dbs siteOrigin cache (<[key:=text]> cache)
| forgotten cache key : site_step dbs siteOrigin cache (delete key cache).

(** Every entry is the snapshot of a page that was loaded. *)
Definition entry_ok (dbs : history) (siteOrigin key text : string) : Prop :=
  exists slug n at_ page, safe_z at_ = true /\ loaded dbs slug n at_ = Ok page /\ writePublicStatusSnapshot siteOrigin page (num_of_Z at_) n = Ok (key, text).
Definition cache_ok (dbs : history) (siteOrigin : string) : gmap string string -> Prop := map_Forall (entry_ok dbs siteOrigin).

Lemma load_put bound open live siteOrigin slug param now answer key text : load bound open live siteOrigin slug param now = (answer, Some (key, text)) ->
  exists page, live (normalizePublicStatusServicePage param) now = Ok page /\
    writePublicStatusSnapshot siteOrigin page (num_of_Z now) (normalizePublicStatusServicePage param) = Ok (key, text).
Proof.
  unfold load. destruct (negb bound); [done|]. cbv zeta. destruct (match open with Ok _ => _ | Err _ => None end) as [[p a]|].
  all: cbn [mbind option_bind]; try (destruct (publicStatusSnapshotFreshMaxAge _ _); [done|]); destruct (live _ now) as [page|e]; [|repeat case_match; congruence].
  all: intros H; exists page; split; [done|]; destruct (is_ok open); [|done]; destruct (writePublicStatusSnapshot _ _ _ _); congruence.
Qed.
Lemma site_invariant dbs siteOrigin cache : rtc (site_step dbs siteOrigin) ∅ cache -> cache_ok dbs siteOrigin cache.
Proof.
  intros H. assert (Hinv : forall c1 c2, rtc (site_step dbs siteOrigin) c1 c2 -> cache_ok dbs siteOrigin c1 -> cache_ok dbs siteOrigin c2); [|by apply (Hinv _ _ H), map_Forall_empty].
  clear H. induction 1 as [c|c1 c2 c3 Hstep _ IH]; [done|]. intros Hc. apply IH. destruct Hstep as [cache' bound open live slug param now answer key text Hs _ Hl H|cache' key].
  - apply load_put in H as (page & Hp & Hw). apply map_Forall_insert_2; [|done]. exists slug, (normalizePublicStatusServicePage param), now, page. split_and!; try done.
    destruct (Hl (normalizePublicStatusServicePage param) now) as [<-|(e & He & _)]; [done | congruence].
  - by apply map_Forall_delete.
Qed.
Lemma loadPublicWorkspace_slug c slug w : loadPublicWorkspace c slug = Ok w -> wr_slug w = slug.
Proof.
  unfold loadPublicWorkspace. destruct (_ ≫= _) as [|w' l] eqn:E; [done|]. intros [= ->].
  assert (Hin : w ∈ w :: l) by (rewrite elem_of_cons; by left). rewrite <- E in Hin. apply list_elem_of_bind in Hin as (tw & Hin & _). apply list_elem_of_bind in Hin as (td & Hin & _).
  destruct (_ && _) eqn:Eb; [|by apply elem_of_nil in Hin]. apply list_elem_of_singleton in Hin as ->. cbn [wr_slug]. bool_hyps. congruence.
Qed.
Lemma loaded_page dbs slug n at_ page : loaded dbs slug n at_ = Ok page -> (gs_workspace (gv_page page)).2 = slug /\ looks_ok page.
Proof.
  unfold loaded, loadPublicStatusPage. intros H. apply rbind_ok in H as (w & Hw & H). destruct (loadPublicMachineProjection _ _ _ _). destruct (buildPublicStatusServicePage _ _ _).
  apply rbind_ok in H as (updates & _ & H). destruct (too_many_services _); [done|]. injection H as <-. cbn. split; [by eapply loadPublicWorkspace_slug|].
  intros a. cbn. intros [= <-]. exact (parsed_ok (Some (wr_appearance w))).
Qed.

(** The page of a snapshot, as it is shown later. *)
Definition shown_later (dbs : history) (siteOrigin slug : string) (servicePage at_ now : Z) (page : PaginatedPublicStatusPage) : Prop :=
  exists n original kept, loaded dbs slug n at_ = Ok original /\ publicStatusSnapshotKey siteOrigin slug n = publicStatusSnapshotKey siteOrigin slug servicePage /\
    (jout_ok (view_out original) -> kept = original) /\ page = with_announcements kept (visibleAnnouncements kept now).
Lemma read_back dbs siteOrigin cache match_ slug now servicePage page at_ : cache_ok dbs siteOrigin cache -> matches cache match_ ->
  readPublicStatusSnapshot match_ siteOrigin slug now servicePage = Ok (Some (page, at_)) ->
  shown_later dbs siteOrigin slug servicePage at_ now page /\ - 60000 <= now - at_ <= 300000 /\ 0 <= at_.
Proof.
  intros Hc Hm H. unfold readPublicStatusSnapshot in H. apply rbind_ok in H as (key & Hkey & H). apply rbind_ok in H as (r & Hr & H). specialize (Hm key). rewrite Hr in Hm.
  destruct r as [r|]; [|done]. destruct Hm as (text & Htext & Hd). destruct (readBoundedSnapshotText r) as [got|] eqn:Eg; [|done]. injection H as H.
  destruct (read_text r text got Hd Eg) as [->| ->]; [done|]. destruct (Hc _ _ Htext) as (slug' & n & at' & original & Hs & Hl & Hw).
  destruct (loaded_page _ _ _ _ _ Hl) as [Hslug Ha]. destruct (snapshot_written _ _ _ _ _ _ Hs Hw) as (kept & Hk & H0 & -> & Hlen & Hkey').
  destruct (view_kept _ _ _ Hk) as (Hkslug & Hkk & Hok). rewrite <- Hkslug in Hkk. rewrite snapshot_parsed in H by done.
  destruct (String.eqb_spec (gs_workspace (gv_page kept)).2 slug) as [E|]; cbn [andb] in H; [|done]. destruct (_ && _) eqn:Et; [|done].
  injection H as <- <-. bool_hyps. split; [|lia]. assert (slug' = slug) as -> by congruence. exists n, original, kept. split_and!; try done.
  - congruence.
  - intros Hj. by eapply view_same.
Qed.
(** A status page never shows anything but what its workspace showed, and never for long.  At
    any time, whatever the cache has kept or lost, a page that a visitor is shown is the page that
    the databases gave for that workspace and that page of services, at the moment it says: now,
    when it was loaded; at most thirty seconds ago from the cache, to be revalidated by then; or at
    most five minutes ago (a minute ahead, for another clock), marked stale, and only when loading
    it failed.  A workspace that is not public any more is not shown from an old snapshot. *)
Theorem status_page_served dbs siteOrigin cache bound open live slug param now page from stale at_ put
  (Hr : rtc (site_step dbs siteOrigin) ∅ cache) (Hm : forall match_, open = Ok match_ -> matches cache match_) (Hl : lives dbs slug live)
  (H : load bound open live siteOrigin slug param now = (Shown page from stale at_, put)) :
  let servicePage := normalizePublicStatusServicePage param in
  match from with
  | Live => loaded dbs slug servicePage now = Ok page /\ stale = false /\ at_ = now
  | FromCache maxAge => shown_later dbs siteOrigin slug servicePage at_ now page /\ stale = false /\
      0 <= now - at_ <= 30000 /\ (maxAge - 1) * 1000 < 30000 - (now - at_) <= maxAge * 1000
  | FromSnapshot => shown_later dbs siteOrigin slug servicePage at_ now page /\ stale = true /\ - 60000 <= now - at_ <= 300000 /\
      exists cause, live servicePage now = Err cause /\ cause <> "PublicStatusNotFoundError"
  end.
Proof.
  apply site_invariant in Hr. unfold load in H. destruct (negb bound); [done|]. cbv zeta in *. set (n := normalizePublicStatusServicePage param) in *.
  destruct (match open with Ok _ => _ | Err _ => None end) as [[p a]|] eqn:Es; cbn [mbind option_bind] in H.
  - assert (Hback : shown_later dbs siteOrigin slug n a now p /\ - 60000 <= now - a <= 300000 /\ 0 <= a).
    { destruct open as [match_|]; [|done]. destruct (readPublicStatusSnapshot _ _ _ _ _) as [s|] eqn:E; [|done]. cbn in Es. subst s. by eapply read_back; [..|exact E]; [|apply Hm]. }
    destruct (publicStatusSnapshotFreshMaxAge a now) as [age|] eqn:Ef.
    + injection H as <- <- <- <- <-. unfold publicStatusSnapshotFreshMaxAge in Ef. destruct (_ || (now <? a)) eqn:E1; [done|]. cbv zeta in Ef. destruct (_ <? 0) eqn:E2; [done|]. injection Ef as <-.
      bool_hyps. change (PUBLIC_STATUS_FRESH_CACHE_TTL_SECONDS * 1000) with 30000 in *. pose proof (Z.div_mod (30000 - (now - a) + 999) 1000 ltac:(lia)). pose proof (Z.mod_pos_bound (30000 - (now - a) + 999) 1000 ltac:(lia)).
      split; [apply Hback|]. split; [done|]. lia.
    + destruct (live n now) as [p'|cause] eqn:El.
      * injection H as <- <- <- <- _. destruct (Hl n now) as [<-|(e & He & _)]; [done | congruence].
      * destruct (String.eqb_spec cause "PublicStatusNotFoundError"); [done|]. injection H as <- <- <- <- _. destruct Hback as (? & ? & _). do 3 (split; [done|]). by exists cause.
  - destruct (live n now) as [p'|cause] eqn:El; [|repeat case_match; done].
    injection H as <- <- <- <- _. destruct (Hl n now) as [<-|(e & He & _)]; [done | congruence].
Qed.
Lemma array_refused {T} m (f : json -> option T) (out : T -> jout) l x : x ∈ l -> f (json_of (out x)) = None ->
  boundedArray (Some (JArr (map json_of (map out l)))) m f = None.
Proof.
  intros Hin Hx. destruct (boundedArray _ _ _) as [ys|] eqn:E; [|done]. exfalso. destruct (array_inv _ _ _ _ E) as (js & [= <-] & _ & HM). apply mapM_Some in HM.
  apply list_elem_of_lookup in Hin as (i & Hi). assert (Hj : map json_of (map out l) !! i = Some (json_of (out x))) by (by rewrite !list_lookup_fmap, Hi).
  destruct (Forall2_lookup_l _ _ _ _ _ HM Hj) as (y & _ & Hy). congruence.
Qed.
Lemma container_refused k cpu : qc_cpu k = Some cpu -> safe_z cpu = true -> 1000 < cpu -> sanitizeContainer (json_of (container_out k)) = None.
Proof.
  intros Hc Hs Hb. destruct (sanitizeContainer _) as [y|] eqn:Hy; [|done]. exfalso. unfold sanitizeContainer in Hy. cbn in Hy. rewrite Hc in Hy. fields Hy.
  match goal with E : nullableInteger _ 0 1000 = Some _ |- _ => rename E into He end. unfold nullableInteger, int_out in He. cbn [json_of] in He.
  by rewrite integer_of_Z, (proj2 (Z.leb_gt cpu 1000)), andb_false_r in He.
Qed.
Lemma machine_refused m k : k ∈ qm_containers m -> sanitizeContainer (json_of (container_out k)) = None -> sanitizeMachine (json_of (machine_out m)) = None.
Proof.
  intros Hk Hr. destruct (sanitizeMachine _) as [y|] eqn:Hy; [|done]. exfalso. unfold sanitizeMachine in Hy. cbn in Hy. fields Hy.
  match goal with E : boundedArray _ _ sanitizeContainer = Some _ |- _ => by rewrite (array_refused _ _ _ _ k Hk Hr) in E end.
Qed.
(** A page with a container that uses more than one processor is never cached: Docker reports
    more than 1000 per mille for it, the report and the page keep the number, and the snapshot's
    check refuses the whole page. *)
Theorem busy_container_uncached siteOrigin page at_ n m k cpu
  (Hm : m ∈ gs_machines (gv_page page)) (Hk : k ∈ qm_containers m) (Hc : qc_cpu k = Some cpu) (Hs : safe_z cpu = true) (Hb : 1000 < cpu) :
  writePublicStatusSnapshot siteOrigin page at_ n = Err "invalid_public_status_snapshot".
Proof.
  pose proof (machine_refused m k Hk (container_refused k cpu Hc Hs Hb)) as Hr. unfold writePublicStatusSnapshot, buildPublicStatusSnapshot.
  destruct (sanitizeView _ _) as [v|] eqn:E; [|done]. exfalso. unfold sanitizeView in E. do 3 (apply bind_Some in E as (? & ? & E)).
  match goal with P : sanitizePage _ _ = Some _ |- _ => unfold sanitizePage in P; cbn in P; fields P end.
  match goal with P : boundedArray _ _ sanitizeMachine = Some _ |- _ => by rewrite (array_refused _ _ _ _ m Hm Hr) in P end.
Qed.
End Snapshots.

(** ** A site that is visited twice, and a busy container *)

Definition sn_dbs : history := fun _ => (pv_control "private" 40, pv_telemetry 7).
Definition sn_visit (open : string -> res (option cached_response)) (now : Z) : page_answer * option (string * string) :=
  load true (Ok open) (loaded sn_dbs "shop") "https://status.example" "shop" (Some "1") now.
Definition sn_put : string * string := coalesce (sn_visit (fun _ => Ok None) 1700000000000).2 ("", "").
Definition sn_cache : gmap string string := <[sn_put.1 := sn_put.2]> ∅.
Definition kept_match (kept : string * string) (key : string) : res (option cached_response) :=
  Ok (if String.eqb key kept.1 then Some (CachedResponse None (Some [Ok (encode_utf8 kept.2)])) else None).
Lemma kept_matches kept : matches (<[kept.1 := kept.2]> ∅) (kept_match kept).
Proof.
  intros key. unfold kept_match. destruct (String.eqb_spec key kept.1) as [->|]; [|done]. exists kept.2. split; [by apply lookup_insert_eq|].
  intros pieces H. cbn in H. injection H as H. destruct pieces as [|p [|]]; try done. injection H as <-. cbn. by rewrite app_nil_r.
Qed.
Definition sn_match : string -> res (option cached_response) := kept_match sn_put.
Lemma sn_lives : lives sn_dbs "shop" (loaded sn_dbs "shop").
Proof. intros n now. by left. Qed.
Lemma sn_reached : rtc (site_step sn_dbs "https://status.example") ∅ sn_cache.
Proof.
  apply rtc_once. apply (visit_put _ _ _ true (Ok (fun _ => Ok None)) (loaded sn_dbs "shop") "shop" (Some "1") 1700000000000 (sn_visit (fun _ => Ok None) 1700000000000).1);
    [done | by intros match_ [= <-] | apply sn_lives | vm_compute; reflexivity].
Qed.
Example status_page_served_witness : exists page, sn_visit sn_match 1700000010000 = (Shown page (FromCache 20) false 1700000000000, None) /\
  (shown_later sn_dbs "https://status.example" "shop" 1 1700000000000 1700000010000 page /\ false = false /\ 0 <= 10000 <= 30000 /\ 19000 < 20000 <= 20000).
Proof.
  eexists. split; [vm_compute; reflexivity|].
  apply (status_page_served sn_dbs "https://status.example" sn_cache true (Ok sn_match) (loaded sn_dbs "shop") "shop" (Some "1") 1700000010000 _ (FromCache 20) false 1700000000000 None).
  - exact sn_reached.
  - intros match_ [= <-]. exact (kept_matches sn_put).
  - exact sn_lives.
  - vm_compute. reflexivity.
Defined.
Definition busy_page (cpu : Z) : PaginatedPublicStatusPage :=
  PaginatedPage (StatusPage ("Shop", "shop") ("Status", None)
    [StatusMachine "web" "Web" "" "healthy" (Some 5000) None None None None None None None [PublicContainer "db" "running" "none" (Some cpu) None]]
    [] [] [PageAnnouncement "a" "Hello" "" "info" 0 700000] (Some 5000)) "healthy" (Pagination 1 25 1 0 0 0).
Example snapshot_roundtrip_witness : exists key text, writePublicStatusSnapshot "https://status.example" (busy_page 900) (num_of_Z 600000) 1 = Ok (key, text) /\
  exists kept, (jout_ok (view_out (busy_page 900)) -> looks_ok (busy_page 900) -> kept = busy_page 900) /\
    forall slug now, parsePublicStatusSnapshot text slug now =
      if String.eqb "shop" slug && (600000 <=? now + 60000) && (now - 600000 <=? 300000) then Some (with_announcements kept (visibleAnnouncements kept now), 600000) else None.
Proof.
  eexists _, _. split; [vm_compute; reflexivity|]. eapply (snapshot_roundtrip "https://status.example" (busy_page 900) 600000 1); [reflexivity | vm_compute; reflexivity].
Defined.
Example busy_container_uncached_witness : 1000 < 2400 /\ is_ok (writePublicStatusSnapshot "https://status.example" (busy_page 900) (num_of_Z 600000) 1) = true /\
  writePublicStatusSnapshot "https://status.example" (busy_page 2400) (num_of_Z 600000) 1 = Err "invalid_public_status_snapshot".
Proof.
  split; [lia|]. split; [vm_compute; reflexivity|]. eapply (busy_container_uncached _ (busy_page 2400)); [by left | by left | reflexivity | reflexivity | lia].
Defined.
