(* ===== verification/MemberData.v ===== *)
(** * MemberData: what the pages of a workspace's members are read from

    The rows that the read side of [packages/db/src/repositories] selects from the control and the
    telemetry database, with the columns it names, and the access of a request: the workspace its
    slug names, when the user is an active member of it.  A query is a comprehension with its
    conditions, its order and its limit; nothing is written. *)

From Stdlib Require Import ZArith Lia Bool String List.
From stdpp Require Import base tactics list strings.
From S2P Require Import Prelude.
From S2P Require Import Js.
From S2P Require Import Sql.
From S2P Require Import Telemetry.
From S2P Require Import CheckPersistence.
From S2P Require Import Authz.
From S2P Require Import QueryBatches.
Open Scope string_scope.
Open Scope Z_scope.

(** ** The control database *)

Record workspace_cols := WorkspaceCols { wc_id : string; wc_name : string; wc_slug : string; wc_pk : Z; wc_dashboard : string; wc_interval : Z; wc_deleted : option Z }.
Record machine_cols := MachineCols {
  mc_id : string;
  mc_pk : Z;
  mc_workspace : string;
  mc_publicSlug : string;
  mc_name : string;
  mc_description : string;
  mc_expectedHost : option string;
  mc_labels : string;
  mc_sampling : Z;
  mc_report : Z;
  mc_offline : Z;
  mc_containers : Z;
  mc_maintenance : option Z;
  mc_revision : Z;
  mc_created : Z;
  mc_updated : Z;
  mc_deleted : option Z;
}.
(** [agents]; [gc_active] is [status = 'active']. *)
Record agent_cols := AgentCols {
  gc_id : string;
  gc_machine : string;
  gc_active : bool;
  gc_version : string;
  gc_platform : string;
  gc_arch : string;
  gc_applied : Z;
  gc_hostname : string;
  gc_osName : string;
  gc_osVersion : string;
  gc_kernel : string;
  gc_created : Z;
  gc_lastSeen : option Z;
}.
Record service_cols := ServiceCols {
  vc_id : string; vc_pk : Z; vc_workspace : string; vc_name : string; vc_slug : option string; vc_description : string;
  vc_maintenance : option Z; vc_created : Z; vc_deleted : option Z;
}.
Inductive probe_kind := probe_http | probe_tcp | probe_icmp.
#[export] Instance probe_kind_eq_dec : EqDecision probe_kind. Proof. solve_decision. Defined.
Record check_cols := CheckCols {
  hc_id : string;
  hc_pk : Z;
  hc_workspace : string;
  hc_service : string;
  hc_name : string;
  hc_kind : probe_kind;
  hc_byAgent : bool;
  hc_agent : option string;
  hc_enabled : Z;
  hc_interval : Z;
  hc_timeout : Z;
  hc_retry : Z;
  hc_critical : Z;
  hc_request : string;
  hc_secretRefs : string;
  hc_failure : Z;
  hc_recovery : Z;
  hc_assignment : Z;
  hc_created : Z;
}.
Record assertion_cols := AssertionCols {
  sc_check : string; sc_order : Z; sc_source : string; sc_operator : string; sc_selector : option string; sc_expected : string; sc_severity : string;
}.
Record command_cols := CommandCols {
  oc_id : string; oc_agent : string; oc_type : string; oc_state : string; oc_result : option string; oc_created : Z; oc_completed : option Z;
}.
Record policy_cols := PolicyCols { pc_workspace : string; pc_type : ResourceType; pc_resource : string; pc_effect : string }.
Record incident_cols := IncidentCols {
  ic_id : string; ic_workspace : string; ic_title : string; ic_summary : string; ic_severity : string; ic_state : string;
  ic_starts : Z; ic_resolved : option Z; ic_created : Z; ic_deleted : option Z;
}.
Record affected_cols := AffectedCols { fc_incident : string; fc_type : ResourceType; fc_resource : string; fc_impact : string }.
Record announcement_cols := AnnouncementCols {
  nc_id : string; nc_workspace : string; nc_title : string; nc_body : string; nc_severity : string; nc_visibility : string;
  nc_starts : Z; nc_expires : Z; nc_deleted : option Z;
}.
Record member_side := MemberSide {
  md_workspaces : list workspace_cols;
  md_memberships : list membership;
  md_grants : list grant_row;
  md_machines : list machine_cols;
  md_agents : list agent_cols;
  md_services : list service_cols;
  md_checks : list check_cols;
  md_assertions : list assertion_cols;
  md_commands : list command_cols;
  md_policies : list policy_cols;
  md_incidents : list incident_cols;
  md_affected : list affected_cols;
  md_updates : list incident_update;
  md_announcements : list announcement_cols;
}.
(** What the conditions of [Authz] see of it. *)
Definition md_authz (d : member_side) : control_db :=
  ControlDb (md_memberships d) (md_grants d) (map (fun s => ServiceRow (vc_id s) (vc_workspace s) (vc_deleted s)) (md_services d))
    (map (fun a => IncidentResource (fc_incident a) (fc_type a) (fc_resource a)) (md_affected d))
    (map (fun w => WorkspaceRow (wc_id w) (wc_slug w) (wc_pk w) (wc_dashboard w) (wc_interval w) (wc_deleted w)) (md_workspaces d)).

(** ** The telemetry database *)

(** [machine_latest] *)
(* @src packages/db/src/repositories/machines.ts MachineLatestRow *)
Record machine_latest_row := LatestRow {
  lr_machine : Z;
  lr_workspace : Z;
  lr_observed : Z;
  lr_received : Z;
  lr_state : string;
  lr_cpu : Z;
  lr_memoryUsed : Z;
  lr_memoryTotal : Z;
  lr_storageUsed : Z;
  lr_storageTotal : Z;
  lr_rxBps : Z;
  lr_txBps : Z;
  lr_rxTotal : Z;
  lr_txTotal : Z;
  lr_load : option Z;
  lr_uptime : option Z;
  lr_inventory : option string;
}.
(** [machine_rollups_5m] and [machine_rollups_1h] *)
(* @src packages/db/src/repositories/machine-history.ts HistoryRow *)
Record machine_rollup_row := MachineRollup {
  ru_machine : Z;
  ru_workspace : Z;
  ru_start : Z;
  ru_samples : Z;
  ru_cpuAvg : Z;
  ru_cpuMax : Z;
  ru_memoryAvg : Z;
  ru_storageMax : Z;
  ru_rxBytes : Z;
  ru_txBytes : Z;
}.
(** [machine_blocks] and [check_blocks] have the blocks of five minutes. *)
Record telemetry_pages := TelemetryPages {
  tp_machines : list machine_latest_row;
  tp_services : list service_latest_row;
  tp_checks : list check_latest_row;
  tp_buckets : list status_bucket;
  tp_events : list state_event;
  tp_machineBlocks : list block_row;
  tp_checkBlocks : list block_row;
  tp_machineRollups5m : list machine_rollup_row;
  tp_machineRollups1h : list machine_rollup_row;
  tp_checkRollups5m : list rollup_row;
  tp_checkRollups1h : list rollup_row;
}.

(** ** The access of a request *)

(** The workspace's row with the member's role; the same in every repository. *)
(* @src packages/db/src/repositories/machines.ts WorkspaceRow *)
Record MemberWorkspace := MemberOf { mw_id : string; mw_name : string; mw_slug : string; mw_pk : Z; mw_role : WorkspaceRole }.
Definition alive {A} (deleted : option A) : bool := match deleted with None => true | Some _ => false end.
Definition member_workspaces (d : member_side) (workspaceSlug userId : string) : list MemberWorkspace :=
  w ← md_workspaces d; m ← md_memberships d;
  if String.eqb (mb_workspace m) (wc_id w) && String.eqb (wc_slug w) workspaceSlug && alive (wc_deleted w) && String.eqb (mb_user m) userId &&
     bool_decide (mb_status m = active)
  then [MemberOf (wc_id w) (wc_name w) (wc_slug w) (wc_pk w) (mb_role m)] else [].
(** The same query in [machines.ts], [services.ts], [dashboard.ts], [incidents.ts] and
    [workspace-shell.ts], with each one's error. *)
(* @src packages/db/src/repositories/machines.ts loadWorkspaceAccess *)
Definition loadWorkspaceAccess (notFound : string) (d : member_side) (workspaceSlug userId : string) : res MemberWorkspace :=
  match member_workspaces d workspaceSlug userId with [] => Err notFound | w :: _ => Ok w end.
Definition query_access (w : MemberWorkspace) (userId : string) : ResourceQueryAccess := Access (mw_id w) userId (mw_role w).
(** [resourceCapabilityCondition(access, type, id, capability)] on this database. *)
Definition may (w : MemberWorkspace) (userId : string) (t : ResourceType) (id : string) (c : Capability) (d : member_side) : bool :=
  resourceCapabilityCondition (query_access w userId) t id c (md_authz d).
(** What the user's grants decide, in memory. *)
Definition decides (w : MemberWorkspace) (userId : string) (t : ResourceType) (id : string) (c : Capability) (d : member_side) : bool :=
  canAccessResource (mw_role w) (subject_grants (mw_id w) userId (md_authz d)) t id c.

(** [LEFT JOIN agents a ON a.machine_id = m.id AND a.status = 'active'] *)
Definition active_agents (d : member_side) (machineId : string) : list (option agent_cols) :=
  match List.filter (fun a => String.eqb (gc_machine a) machineId && gc_active a) (md_agents d) with
  | [] => [None]
  | l => map Some l
  end.
Definition visible_machine (d : member_side) (w : MemberWorkspace) (userId : string) (m : machine_cols) : bool :=
  String.eqb (mc_workspace m) (mw_id w) && alive (mc_deleted m) && may w userId RMachine (mc_id m) view d.
Definition visible_service (d : member_side) (w : MemberWorkspace) (userId : string) (s : service_cols) : bool :=
  String.eqb (vc_workspace s) (mw_id w) && alive (vc_deleted s) && may w userId RService (vc_id s) view d.
(** The machine with its agent, and whether the user manages it. *)
(* @src packages/db/src/repositories/machines.ts MachineRow *)
Record MachineRow := MachineRow_ { mh_machine : machine_cols; mh_agent : option agent_cols; mh_canManage : bool }.
(* @src packages/db/src/repositories/machines.ts loadMachineRow *)
Definition loadMachineRow (d : member_side) (w : MemberWorkspace) (userId machineId : string) : option MachineRow :=
  hd_error (m ← md_machines d; a ← active_agents d (mc_id m);
    if String.eqb (mc_id m) machineId && visible_machine d w userId m then [MachineRow_ m a (may w userId RMachine (mc_id m) manage d)] else []).
(* @src packages/db/src/repositories/machines.ts loadMachineRows *)
Definition loadMachineRows (d : member_side) (w : MemberWorkspace) (userId : string) : list (machine_cols * option agent_cols) :=
  order_limit (fun x y => String.leb (mc_name x.1) (mc_name y.1)) 500
    (m ← md_machines d; a ← active_agents d (mc_id m); if visible_machine d w userId m then [(m, a)] else []).
(* @src packages/db/src/repositories/machines.ts loadAuthorizedMachine *)
Definition loadAuthorizedMachine (d : member_side) (workspaceSlug userId machineId : string) : res (MemberWorkspace * MachineRow) :=
  let* access := loadWorkspaceAccess "MachineNotFoundError" d workspaceSlug userId in
  match loadMachineRow d access userId machineId with Some machine => Ok (access, machine) | None => Err "MachineNotFoundError" end.
(** The workspace's id and number, and the machine's number. *)
(* @src packages/db/src/repositories/machines.ts loadAuthorizedMachineScope *)
Definition loadAuthorizedMachineScope (d : member_side) (workspaceSlug userId machineId : string) : res (string * Z * Z) :=
  let* '(access, machine) := loadAuthorizedMachine d workspaceSlug userId machineId in
  Ok (mw_id access, mw_pk access, mc_pk (mh_machine machine)).
(* @src packages/db/src/repositories/services.ts loadServiceRow *)
Definition loadServiceRow (d : member_side) (w : MemberWorkspace) (userId serviceId : string) : option (service_cols * bool) :=
  (fun s => (s, may w userId RService (vc_id s) manage d)) <$>
    List.find (fun s => String.eqb (vc_id s) serviceId && visible_service d w userId s) (md_services d).
(* @src packages/db/src/repositories/services.ts loadServiceRows *)
Definition loadServiceRows (d : member_side) (w : MemberWorkspace) (userId : string) : list (service_cols * bool) :=
  map (fun s => (s, may w userId RService (vc_id s) manage d))
    (order_limit (fun x y => String.leb (vc_name x) (vc_name y)) 200 (List.filter (visible_service d w userId) (md_services d))).
(* @src packages/db/src/repositories/services.ts loadAuthorizedServiceScope *)
Definition loadAuthorizedServiceScope (d : member_side) (workspaceSlug userId serviceId : string) : res (string * Z * Z) :=
  let* access := loadWorkspaceAccess "ServiceNotFoundError" d workspaceSlug userId in
  match loadServiceRow d access userId serviceId with
  | Some (service, _) => Ok (mw_id access, mw_pk access, vc_pk service)
  | None => Err "ServiceNotFoundError"
  end.

(** ** What the access guarantees *)

(** An active member of a live workspace with this slug, in this role. *)
Definition is_member (d : member_side) (w : MemberWorkspace) (workspaceSlug userId : string) : Prop :=
  mw_slug w = workspaceSlug /\
  (exists c, c ∈ md_workspaces d /\ wc_deleted c = None /\ wc_id c = mw_id w /\ wc_name c = mw_name w /\ wc_slug c = mw_slug w /\ wc_pk c = mw_pk w) /\
  (exists m, m ∈ md_memberships d /\ mb_workspace m = mw_id w /\ mb_user m = userId /\ mb_role m = mw_role w /\ mb_status m = active).
Lemma access_member e d slug userId w : loadWorkspaceAccess e d slug userId = Ok w -> is_member d w slug userId.
Proof.
  unfold loadWorkspaceAccess. destruct (member_workspaces d slug userId) as [|w' l] eqn:E; [done|]. intros [= ->].
  assert (Hin : w ∈ w :: l) by (rewrite elem_of_cons; by left). rewrite <- E in Hin. unfold member_workspaces in Hin.
  apply list_elem_of_bind in Hin as (c & Hin & Hc). apply list_elem_of_bind in Hin as (m & Hin & Hm). destruct (_ && _) eqn:Eb; [|by apply elem_of_nil in Hin].
  apply list_elem_of_singleton in Hin as ->. unfold alive in Eb. destruct (wc_deleted c) eqn:Ed; [by rewrite !andb_false_r in Eb|]. bool_hyps.
  split_and!; cbn; [done | by exists c | by exists m].
Qed.
Lemma member_active d w slug userId : is_member d w slug userId -> activeRoleCondition (query_access w userId) (md_authz d) = true.
Proof.
  intros (_ & _ & m & Hm & H1 & H2 & H3 & H4). unfold activeRoleCondition. apply existsb_exists_elem. exists m. split; [done|]. cbn.
  rewrite H1, H2, H3, H4. by rewrite !bool_decide_eq_true_2 by done.
Qed.
(** For a member, the condition inside a query is the decision of the grants. *)
Lemma may_decides d w slug userId t id c : is_member d w slug userId -> may w userId t id c d = decides w userId t id c d.
Proof. intros H. unfold may. rewrite resourceCapability_decides, (member_active d w slug userId H). done. Qed.
Lemma not_alive {A} (o : option A) : alive o = true <-> o = None.
Proof. by destruct o. Qed.
Lemma in_active_agents d id a : Some a ∈ active_agents d id <-> a ∈ md_agents d /\ gc_machine a = id /\ gc_active a = true.
Proof.
  unfold active_agents. assert (H : a ∈ List.filter (fun a => String.eqb (gc_machine a) id && gc_active a) (md_agents d) <-> a ∈ md_agents d /\ gc_machine a = id /\ gc_active a = true).
  { rewrite filter_In_elem. rewrite andb_true_iff, String.eqb_eq. done. }
  rewrite <- H. destruct (List.filter _ _) as [|x l]; [split; [intros Hx; apply list_elem_of_singleton in Hx; done | by intros ?%elem_of_nil]|].
  rewrite (list_elem_of_fmap Some). split; [intros (y & [= ->] & Hy); done | intros Hy; by exists a].
Qed.
Lemma has_agent_row d id : exists a, a ∈ active_agents d id.
Proof.
  unfold active_agents. destruct (List.filter _ _) as [|x l]; [exists None | exists (Some x)]; cbn; rewrite elem_of_cons; by left.
Qed.

(** ** A workspace *)

(** An administrator and a member without grants, a machine with its agent, and a service
    with one check. *)
Definition demo_side : member_side :=
  MemberSide [WorkspaceCols "w" "Team" "team" 7 "{}" 300 None]
    [Membership "w" "ada" admin active; Membership "w" "bob" member active] []
    [MachineCols "m" 21 "w" "m-1" "db" "" None "{}" 10 60 180 0 None 1 0 0 None]
    [AgentCols "a" "m" true "1.0.0" "linux" "amd64" 1 "db" "Debian" "12" "6.1" 0 (Some 0)]
    [ServiceCols "s" 31 "w" "api" None "" None 0 None]
    [CheckCols "c" 41 "w" "s" "home" probe_http false None 1 60 5000 0 1 "{}" "{}" 2 2 1 0] [] [] [] [] [] [] [].
