(* ===== verification/TextDecoder.v ===== *)
(** * TextDecoder: the platform's UTF-8 decoder

    [new TextDecoder("utf-8", { fatal })] by the encoding standard: a state machine over the bytes,
    a replacement character or an error for each ill-formed sequence, and a leading byte order
    mark skipped.  A string of the model is the list of its UTF-8 bytes, so a decoder gives its
    input back when it is well-formed text; [JSON.stringify] of well-formed strings is one. *)

From Stdlib Require Import ZArith Lia Bool String List Ascii.
From stdpp Require Import base tactics list strings.
From S2P Require Import Prelude.
From S2P Require Import Js.
Open Scope string_scope.
Open Scope Z_scope.

(** ** The decoder *)

(** Inside a sequence: the bytes still needed, the bounds of the next one, the bytes read. *)
Record utf8_state := Inside { u_need : nat; u_lower : Z; u_upper : Z; u_read : list byte }.
(** A lead byte: a character of one byte, a longer sequence, or neither. *)
Definition utf8_lead (b : byte) : option (option utf8_state) :=
  let v := bz b in
  if v <? 128 then Some None
  else if v <? 194 then None
  else if v <? 224 then Some (Some (Inside 1 128 191 [b]))
  else if v <? 240 then Some (Some (Inside 2 (if v =? 224 then 160 else 128) (if v =? 237 then 159 else 191) [b]))
  else if v <? 245 then Some (Some (Inside 3 (if v =? 240 then 144 else 128) (if v =? 244 then 143 else 191) [b]))
  else None.
(** The characters, as their bytes; [None] is an ill-formed sequence. *)
Fixpoint utf8_run (st : option utf8_state) (bs : list byte) : list (option (list byte)) :=
  match bs with
  | [] => match st with None => [] | Some _ => [None] end
  | b :: rest =>
      let start tt :=
        match utf8_lead b with
        | Some None => Some [b] :: utf8_run None rest
        | Some (Some st') => utf8_run (Some st') rest
        | None => None :: utf8_run None rest
        end in
      match st with
      | None => start tt
      | Some u =>
          if (u_lower u <=? bz b) && (bz b <=? u_upper u) then
            match u_need u with
            | S (S n) => utf8_run (Some (Inside (S n) 128 191 (u_read u ++ [b])%list)) rest
            | _ => Some (u_read u ++ [b])%list :: utf8_run None rest
            end
          else None :: start tt
      end
  end.
Definition replacement : list byte := [Byte.xef; Byte.xbf; Byte.xbd].
Definition bom : list byte := [Byte.xef; Byte.xbb; Byte.xbf].
Definition strip_bom (bs : list byte) : list byte := if bool_decide (take 3 bs = bom) then drop 3 bs else bs.
(** [new TextDecoder().decode(bs)] and [new TextDecoder("utf-8", { fatal: true }).decode(bs)] *)
Definition decode_lossy (bs : list byte) : string :=
  decode_utf8 (concat (map (fun c => coalesce c replacement) (utf8_run None (strip_bom bs)))).
Definition decode_fatal (bs : list byte) : res string :=
  match mapM id (utf8_run None (strip_bom bs)) with Some cs => Ok (decode_utf8 (concat cs)) | None => Err "TypeError" end.

Example decode_invalid : utf8_run None [Byte.xc3; Byte.x41; Byte.xe2; Byte.x82; Byte.xac; Byte.xed; Byte.xa0] =
  [None; Some [Byte.x41]; Some [Byte.xe2; Byte.x82; Byte.xac]; None; None].
Proof. reflexivity. Qed.

(** ** Well-formed text *)

Definition wf_from (st : option utf8_state) (bs : list byte) : Prop := Forall (fun c => is_Some c) (utf8_run st bs).
Definition bytes_of (st : option utf8_state) : list byte := match st with None => [] | Some u => u_read u end.
(** The strings of the program: [TextEncoder] gives well-formed UTF-8. *)
Definition text_ok (s : string) : Prop := wf_from None (encode_utf8 s).

Lemma run_app st a b : wf_from st a -> utf8_run st (a ++ b)%list = (utf8_run st a ++ utf8_run None b)%list.
Proof.
  unfold wf_from. revert st. induction a as [|x a IH]; intros st H; cbn [app utf8_run] in *.
  - destruct st; [|done]. by apply Forall_cons in H as [[? ?] _].
  - destruct st as [u|]; [destruct (_ && _); [destruct (u_need u) as [|[|n]]|]|destruct (utf8_lead x) as [[u|]|]];
      repeat match goal with H : Forall _ (_ :: _) |- _ => apply Forall_cons in H as [? H] end; cbn [app];
      try (by rewrite IH); match goal with H : is_Some None |- _ => by destruct H end.
Qed.
Lemma wf_app st a b : wf_from st a -> wf_from None b -> wf_from st (a ++ b)%list.
Proof. intros Ha Hb. unfold wf_from. rewrite run_app by done. by apply Forall_app. Qed.
Lemma lead_read b u : utf8_lead b = Some (Some u) -> u_read u = [b].
Proof.
  unfold utf8_lead. destruct (bz b <? 128); [done|]. destruct (bz b <? 194); [done|].
  destruct (bz b <? 224); [by intros [= <-]|]. destruct (bz b <? 240); [by intros [= <-]|]. destruct (bz b <? 245); [by intros [= <-]|done].
Qed.
Lemma run_concat st a : wf_from st a -> concat (map (fun c => coalesce c replacement) (utf8_run st a)) = (bytes_of st ++ a)%list.
Proof.
  unfold wf_from. revert st. induction a as [|x a IH]; intros st H; cbn [utf8_run] in *.
  - destruct st; [|done]. by apply Forall_cons in H as [[? ?] _].
  - destruct st as [u|]; [destruct (_ && _); [destruct (u_need u) as [|[|n]]|]|destruct (utf8_lead x) as [[u|]|] eqn:El];
      repeat match goal with H : Forall _ (_ :: _) |- _ => apply Forall_cons in H as [? H] end; cbn [map concat coalesce bytes_of];
      try (match goal with H : is_Some None |- _ => by destruct H end); rewrite IH by done; cbn [bytes_of u_read app]; try by rewrite <- app_assoc.
    + by rewrite (lead_read _ _ El).
    + done.
Qed.
Lemma mapM_coalesce (l : list (option (list byte))) : Forall (fun c => is_Some c) l -> mapM id l = Some (map (fun c => coalesce c replacement) l).
Proof. induction 1 as [|c l [x ->] _ IH]; [done|]. cbn. by rewrite IH. Qed.
(** Text that is well formed and has no byte order mark decodes to itself, either way. *)
Lemma decode_text s : text_ok s -> take 3 (encode_utf8 s) <> bom -> decode_lossy (encode_utf8 s) = s /\ decode_fatal (encode_utf8 s) = Ok s.
Proof.
  intros Hs Hb. unfold decode_lossy, decode_fatal, strip_bom. rewrite bool_decide_eq_false_2 by done.
  rewrite mapM_coalesce by done. rewrite run_concat by done. cbn [bytes_of app]. by rewrite decode_encode_utf8.
Qed.

(** ** The text [JSON.stringify] writes *)

Definition is_ascii (c : ascii) : bool := (ord c <? 128)%N.
Lemma bz_of_ascii c : bz (Ascii.byte_of_ascii c) = Z.of_N (ord c).
Proof. unfold bz, ord. destruct c as [[] [] [] [] [] [] [] []]; reflexivity. Qed.
Lemma encode_cons c s : encode_utf8 (String c s) = Ascii.byte_of_ascii c :: encode_utf8 s.
Proof. done. Qed.
Lemma encode_app a b : encode_utf8 (a ++ b) = (encode_utf8 a ++ encode_utf8 b)%list.
Proof. induction a as [|c a IH]; cbn [String.append app]; [done|]. by rewrite !encode_cons, IH. Qed.
Lemma ascii_lead c : is_ascii c = true -> utf8_lead (Ascii.byte_of_ascii c) = Some None.
Proof. unfold is_ascii, utf8_lead. rewrite bz_of_ascii. intros H%N.ltb_lt. by rewrite (proj2 (Z.ltb_lt _ _)) by lia. Qed.
Lemma ascii_text s : str_forall is_ascii s = true -> text_ok s.
Proof.
  induction s as [|c s IH]; intros H; [by constructor|]. cbn in H. bool_hyps. unfold text_ok, wf_from. rewrite encode_cons. cbn [utf8_run].
  rewrite ascii_lead by done. constructor; [done|]. by apply IH.
Qed.
Lemma text_app a b : text_ok a -> text_ok b -> text_ok (a ++ b).
Proof. unfold text_ok. rewrite encode_app. apply wf_app. Qed.

Lemma wf_byte c s st : wf_from st (encode_utf8 (String c s)) -> is_ascii c = true -> st = None /\ wf_from None (encode_utf8 s) \/
  exists u, st = Some u /\ u_lower u <= bz (Ascii.byte_of_ascii c).
Proof.
  intros H Hc. unfold wf_from in *. rewrite encode_cons in H. cbn [utf8_run] in H. rewrite (ascii_lead c Hc) in H. destruct st as [u|].
  - right. exists u. split; [done|]. destruct (u_lower u <=? _) eqn:E; [by apply Z.leb_le|]. cbn in H. apply Forall_cons in H as [[? ?] _]. done.
  - left. split; [done|]. by apply Forall_cons in H as [_ H].
Qed.
(** Inside a sequence the bounds only admit bytes above the ASCII range. *)
Definition inside_ok (st : option utf8_state) : Prop := match st with None => True | Some u => 128 <= u_lower u end.
Lemma lead_inside b u : utf8_lead b = Some (Some u) -> inside_ok (Some u).
Proof.
  unfold utf8_lead, inside_ok. destruct (bz b <? 128); [done|]. destruct (bz b <? 194); [done|].
  destruct (bz b <? 224); [by intros [= <-]|]. destruct (bz b <? 240); [|destruct (bz b <? 245); [|done]]; intros [= <-]; cbn [u_lower]; destruct (bz b =? _); lia.
Qed.
Lemma esc_ascii c : is_ascii c = true -> str_forall is_ascii (esc_char c) = true.
Proof. intros H. destruct c as [[] [] [] [] [] [] [] []]; try discriminate H; reflexivity. Qed.
Lemma esc_high c : is_ascii c = false -> esc_char c = String c "".
Proof. intros H. destruct c as [[] [] [] [] [] [] [] []]; try discriminate H; reflexivity. Qed.
Lemma esc_wf s : forall st, inside_ok st -> wf_from st (encode_utf8 s) -> wf_from st (encode_utf8 (esc_str s)).
Proof.
  induction s as [|c s IH]; intros st Hi H; [done|]. cbn [esc_str]. destruct (is_ascii c) eqn:Ec.
  - destruct (wf_byte c s st H Ec) as [[-> H']|(u & -> & Hu)].
    + apply (text_app (esc_char c)); [by apply ascii_text, esc_ascii | by apply (IH None)].
    + exfalso. cbn in Hi. unfold is_ascii in Ec. rewrite bz_of_ascii in Hu. apply N.ltb_lt in Ec. lia.
  - rewrite (esc_high c Ec). change (String c "" ++ esc_str s) with (String c (esc_str s)). unfold wf_from in *. rewrite encode_cons in *. cbn [utf8_run] in *.
    destruct st as [u|]; [destruct (_ && _); [destruct (u_need u) as [|[|n]]|]|destruct (utf8_lead _) as [[u|]|] eqn:El];
      repeat match goal with H : Forall _ (_ :: _) |- _ => apply Forall_cons in H as [? H] end;
      try (match goal with H : is_Some None |- _ => by destruct H end); try (constructor; [done|]); apply IH; try done.
    by apply (lead_inside (Ascii.byte_of_ascii c)).
Qed.
Lemma quoted_text s : text_ok s -> text_ok (quoted s).
Proof.
  intros H. change (quoted s) with (String quote "" ++ (esc_str s ++ String quote "")). apply text_app; [by apply ascii_text|].
  apply text_app; [by apply esc_wf | by apply ascii_text].
Qed.
Lemma join_text sep l : text_ok sep -> Forall text_ok l -> text_ok (str_join sep l).
Proof.
  intros Hs Hl. induction Hl as [|x l Hx Hl IH]; [by constructor|]. cbn [str_join]. destruct l; [done|]. apply text_app; [done|]. by apply text_app.
Qed.
Lemma digits_ascii f z acc : str_forall is_ascii acc = true -> str_forall is_ascii (dec_digits f z acc) = true.
Proof.
  revert z acc. induction f as [|f IH]; intros z acc H; cbn [dec_digits]; [done|].
  assert (Hc : is_ascii (chr (Z.to_N (48 + z mod 10))) = true).
  { pose proof (Z.mod_pos_bound z 10 ltac:(lia)). unfold is_ascii, ord, chr. rewrite Ascii.N_ascii_embedding by lia. apply N.ltb_lt. lia. }
  destruct (z <? 10); [|apply IH]; cbn [str_forall]; by rewrite Hc, H.
Qed.
Lemma z_text z : text_ok (z_to_string z).
Proof.
  apply ascii_text. unfold z_to_string, nat_to_string. destruct (z <? 0); [|by apply digits_ascii].
  change ("-" ++ ?s) with (String "-" s). cbn [str_forall]. by rewrite digits_ascii.
Qed.
(** Every string of the value is text; its numbers are integers. *)
Fixpoint jout_text (o : jout) : Prop :=
  match o with
  | ONum _ => False
  | OStr s => text_ok s
  | OArr l => foldr (fun x P => jout_text x /\ P) True l
  | OObj l => foldr (fun kv P => (text_ok kv.1 /\ jout_text kv.2) /\ P) True l
  | _ => True
  end.
Lemma stringify_text o : jout_text o -> text_ok (json_stringify o).
Proof.
  induction o as [ |b|z|x|s|l IH|l IH] using jout_ind'; cbn [jout_text json_stringify]; intros H.
  - by apply ascii_text.
  - by apply ascii_text; destruct b.
  - apply z_text.
  - done.
  - by apply quoted_text.
  - change (String "[" ?s) with ("[" ++ s). apply text_app; [by apply ascii_text|]. apply text_app; [|by apply ascii_text].
    apply join_text; [by apply ascii_text|]. induction IH as [|x l Hx _ IHl]; cbn [map] in *; [constructor|]. destruct H as [H1 H2].
    constructor; [by apply Hx | by apply IHl].
  - change (String "{" ?s) with ("{" ++ s). apply text_app; [by apply ascii_text|]. apply text_app; [|by apply ascii_text].
    apply join_text; [by apply ascii_text|]. induction IH as [|x l Hx _ IHl]; cbn [map] in *; [constructor|]. destruct H as [[H1 H3] H2].
    constructor; [|by apply IHl]. apply text_app; [by apply quoted_text|]. change (String ":" ?s) with (":" ++ s). apply text_app; [by apply ascii_text | by apply Hx].
Qed.
(** An object's text has no byte order mark. *)
Lemma decode_stringify l : jout_text (OObj l) ->
  decode_lossy (encode_utf8 (json_stringify (OObj l))) = json_stringify (OObj l) /\
  decode_fatal (encode_utf8 (json_stringify (OObj l))) = Ok (json_stringify (OObj l)).
Proof. intros H. apply decode_text; [by apply stringify_text|]. cbn [json_stringify]. rewrite encode_cons. done. Qed.
