(* ===== verification/HistoryCursor.v ===== *)
(** * HistoryCursor: pages of a history

    [packages/db/src/repositories/history-cursor.ts]: the cursor a page of history ends with, and
    what the callers of [machine-history.ts] and [service-history.ts] share: the range and cursor
    validation, the pages cut from an ordered query, and following the cursors until there is no
    next one.  [Pages] says when doing so shows every row once. *)

From Stdlib Require Import ZArith Lia Bool String List.
From stdpp Require Import base tactics list strings sorting.
From S2P Require Import Prelude.
From S2P Require Import Js.
From S2P Require Import Base64Url.
From S2P Require Import Sql.
From S2P Require Import QueryBatches.
From S2P Require Import TextDecoder.
Open Scope string_scope.
Open Scope Z_scope.

(** ** The cursor *)

(* @src packages/db/src/repositories/history-cursor.ts HistoryResolution *)
Inductive HistoryResolution := raw | r5m | r1h.
#[export] Instance resolution_eq_dec : EqDecision HistoryResolution. Proof. solve_decision. Defined.
Definition resolution_name (r : HistoryResolution) : string := match r with raw => "raw" | r5m => "5m" | r1h => "1h" end.

(* @src packages/db/src/repositories/history-cursor.ts encodeHistoryCursor *)
Definition encodeHistoryCursor (resolution : HistoryResolution) (last : Z) : res string :=
  throw_if negb (safe_z last) || (last <? 0) as "HistoryCursorError" in
  Ok (encodeBase64Url (encode_utf8 (json_stringify (OObj [("v", OInt 1); ("resolution", OStr (resolution_name resolution)); ("last", OInt last)])))).

(* @src packages/db/src/repositories/history-cursor.ts isResolution *)
Definition isResolution (value : option json) : option HistoryResolution :=
  match value with
  | Some (JStr s) => if String.eqb s "raw" then Some raw else if String.eqb s "5m" then Some r5m else if String.eqb s "1h" then Some r1h else None
  | _ => None
  end.

(** Every failure is a [HistoryCursorError], the decoder's and the parser's included. *)
(* @src packages/db/src/repositories/history-cursor.ts decodeHistoryCursor *)
Definition decodeHistoryCursor (value : option string) (resolution : HistoryResolution) : res (option Z) :=
  match value with
  | None => Ok None
  | Some value =>
      throw_if (slen value =? 0) || (128 <? slen value) || negb (str_forall is_url_char value) as "HistoryCursorError" in
      match (let* bytes := decodeBase64Url value 96 in json_parse (decode_lossy bytes)) with
      | Err _ => Err "HistoryCursorError"
      | Ok parsed =>
          let* data := as_record "HistoryCursorError" parsed in
          throw_if negb (Nat.eqb (length data) 3) || negb (is_int 1 (obj_get "v" data)) ||
            negb (bool_decide (isResolution (obj_get "resolution" data) = Some resolution)) as "HistoryCursorError" in
          match as_safe_int (obj_get "last" data) with
          | Some last => throw_if last <? 0 as "HistoryCursorError" in Ok (Some last)
          | None => Err "HistoryCursorError"
          end
      end
  end.

(** ** Ranges *)

(** [validateMachineHistoryRange] and [validateServiceHistoryRange], with each one's error. *)
(* @src packages/db/src/repositories/machine-history.ts validateMachineHistoryRange *)
Definition validateHistoryRange (e : string) (resolution : HistoryResolution) (from to : Z) : res unit :=
  let maximumRange := match resolution with raw => 86400000 | r5m => 7 * 86400000 | r1h => 31 * 86400000 end in
  throw_if negb (safe_z from) || negb (safe_z to) || (from <? 0) || (to <=? from) || (maximumRange <? to - from) as e in Ok tt.
(** [validateCursor] of machines and [validatedCursor] of services. *)
(* @src packages/db/src/repositories/machine-history.ts validateCursor *)
Definition validateCursor (e : string) (cursor : option string) (resolution : HistoryResolution) (from to : Z) : res (option Z) :=
  match decodeHistoryCursor cursor resolution with
  | Err _ => Err e
  | Ok None => Ok None
  | Ok (Some last) => throw_if (last <? from - 300000) || (to <=? last) as e in Ok (Some last)
  end.

(** ** A page of an ordered query *)

Section Page.
Context {Row : Type} (key : Row -> Z).
Definition key_leb (a b : Row) : bool := key a <=? key b.
(** [AND key > ?] when there is a cursor. *)
Definition after_cursor (after : option Z) (r : Row) : bool := match after with None => true | Some k => k <? key r end.
(** [SELECT ... WHERE p AND key > ? ORDER BY key LIMIT size + 1] *)
Definition page_query (size : Z) (p : Row -> bool) (after : option Z) (table : list Row) : list Row :=
  order_limit key_leb (size + 1) (List.filter (fun r => p r && after_cursor after r) table).
(** The first [size] rows, and the cursor of the last of them when there are more. *)
(* @src packages/db/src/repositories/machine-history.ts 226-234 loadMachineHistory *)
Definition page_of (resolution : HistoryResolution) (size : Z) (rows : list Row) : res (list Row * option string) :=
  let pageRows := take (Z.to_nat size) rows in
  match last pageRows with
  | Some row =>
      if size <? Z.of_nat (length rows) then let* c := encodeHistoryCursor resolution (key row) in Ok (pageRows, Some c)
      else Ok (pageRows, None)
  | None => Ok (pageRows, None)
  end.
End Page.

(** Following the cursors, as a reader of the history does: the pages, in order. *)
Fixpoint follow {P} (fuel : nat) (load : option string -> res (list P * option string)) (cursor : option string) : res (list (list P)) :=
  match fuel with
  | O => Err "out_of_fuel"
  | S f =>
      let* '(points, next) := load cursor in
      match next with None => Ok [points] | Some c => let* rest := follow f load (Some c) in Ok (points :: rest) end
  end.

(** ** The cursor's round trip *)

Lemma safe_nonneg z : 0 <= z <= max_safe -> safe_z z = true.
Proof. intros H. unfold safe_z. apply andb_true_iff. rewrite !Z.leb_le. unfold max_safe in *. lia. Qed.
Lemma cursor_object r k : 0 <= k <= max_safe ->
  jout_ok (OObj [("v", OInt 1); ("resolution", OStr (resolution_name r)); ("last", OInt k)]) /\
  jout_text (OObj [("v", OInt 1); ("resolution", OStr (resolution_name r)); ("last", OInt k)]).
Proof.
  intros Hk. pose proof (safe_nonneg k Hk). split.
  - cbn [jout_ok]. split; [apply (bool_decide_unpack _); by vm_compute|]. cbn [foldr snd jout_ok]. done.
  - cbn. split_and!; try done; apply ascii_text; by destruct r.
Qed.
Lemma cursor_length r k : 0 <= k <= max_safe ->
  slen (json_stringify (OObj [("v", OInt 1); ("resolution", OStr (resolution_name r)); ("last", OInt k)])) <= 54.
Proof.
  intros Hk. pose proof (z_to_string_length k (safe_nonneg k Hk)) as Hl.
  set (pre := "{" ++ (quoted "v" ++ ":1," ++ quoted "resolution" ++ ":" ++ quoted (resolution_name r) ++ "," ++ quoted "last" ++ ":")).
  assert (E : json_stringify (OObj [("v", OInt 1); ("resolution", OStr (resolution_name r)); ("last", OInt k)]) = pre ++ z_to_string k ++ "}").
  { unfold pre. cbn [json_stringify map str_join fst snd]. by destruct r. }
  rewrite E, !slen_app. assert (slen pre <= 36) by (unfold pre; by destruct r). change (slen "}") with 1. lia.
Qed.
(** The cursor of a page's last row is accepted with that row's key, by the reader of the same
    resolution only. *)
Lemma cursor_roundtrip r k : 0 <= k <= max_safe -> exists c, encodeHistoryCursor r k = Ok c /\
  forall r', decodeHistoryCursor (Some c) r' = if bool_decide (r = r') then Ok (Some k) else Err "HistoryCursorError".
Proof.
  intros Hk. pose proof (safe_nonneg k Hk) as Hs. unfold encodeHistoryCursor. rewrite Hs, (proj2 (Z.ltb_ge _ _)) by lia. cbn [negb orb].
  eexists. split; [done|]. intros r'. unfold decodeHistoryCursor.
  set (o := [("v", OInt 1); ("resolution", OStr (resolution_name r)); ("last", OInt k)]).
  destruct (cursor_object r k Hk) as [Hok Htext]. fold o in Hok, Htext.
  pose proof (cursor_length r k Hk) as Hl. fold o in Hl. pose proof (slen_nonneg (json_stringify (OObj o))) as Hn.
  assert (Hp : 0 < slen (json_stringify (OObj o))).
  { unfold o. cbn [json_stringify]. rewrite slen_cons. match goal with |- context [slen ?s] => pose proof (slen_nonneg s) end. lia. }
  rewrite encodeBase64Url_alphabet, encodeBase64Url_length, blen_encode_utf8. cbn [negb orb].
  rewrite (proj2 (Z.eqb_neq _ _)), (proj2 (Z.ltb_ge _ _)); [|apply Z.lt_succ_r, Z.div_lt_upper_bound; lia|].
  2: { intros E. pose proof (Z.div_le_lower_bound (slen (json_stringify (OObj o)) * 4 + 2) 3 1 ltac:(lia) ltac:(lia)). lia. }
  cbn [orb]. rewrite decodeBase64Url_encode by (rewrite blen_encode_utf8; lia). cbn [rbind].
  rewrite (proj1 (decode_stringify o Htext)), json_parse_stringify by done. cbn [rbind json_of as_record].
  unfold o. cbn [map fst snd json_of length Nat.eqb negb orb obj_get String.eqb Ascii.eqb Bool.eqb].
  rewrite as_safe_int_num, (proj2 (Z.ltb_ge _ _)) by (done || lia).
  destruct r, r'; done.
Qed.

(** ** Following the cursors *)

Section Pages.
Context {Row P : Type} (key : Row -> Z) (resolution : HistoryResolution) (n : Z).
Context (all : list Row) (view : list Row -> list P) (load : option string -> res (list P * option string)) (Q : list Row -> Prop).
(** The cursor after the rows [pre], at least [n] of them: the one of the last. *)
Definition cursor_after (pre : list Row) (cursor : option string) : Prop :=
  match cursor with
  | None => pre = []
  | Some c => n <= Z.of_nat (length pre) /\ exists row, last pre = Some row /\ encodeHistoryCursor resolution (key row) = Ok c
  end.
(** What a loader does from there: it shows some of the rows left, at least one while there are
    more, and ends with the cursor after them. *)
Definition page_step (pre rem : list Row) (cursor : option string) : Prop :=
  exists consumed rest next, rem = (consumed ++ rest)%list /\ Q consumed /\ load cursor = Ok (view consumed, next) /\
    (rest = [] -> next = None) /\ (rest <> [] -> consumed <> [] /\ exists c, next = Some c /\ cursor_after (pre ++ consumed)%list (Some c)).
Hypothesis steps : forall pre rem cursor, all = (pre ++ rem)%list -> cursor_after pre cursor -> page_step pre rem cursor.
Lemma follow_steps fuel : forall pre rem cursor, all = (pre ++ rem)%list -> cursor_after pre cursor -> (length rem < fuel)%nat ->
  exists parts, concat parts = rem /\ Forall Q parts /\ follow fuel load cursor = Ok (map view parts).
Proof.
  induction fuel as [|f IH]; intros pre rem cursor Hall Hc Hf; [lia|].
  destruct (steps pre rem cursor Hall Hc) as (consumed & rest & next & -> & HQ & Hl & Hnone & Hsome). cbn [follow]. rewrite Hl. cbn [rbind].
  destruct rest as [|r rest].
  - rewrite (Hnone eq_refl). exists [consumed]. cbn. rewrite !app_nil_r. split; [done|]. split; [by repeat constructor | done].
  - destruct (Hsome ltac:(done)) as (Hne & c & -> & Hc'). rewrite app_assoc in Hall.
    destruct (IH _ _ _ Hall Hc') as (parts & Hp & HQs & Hf'). { rewrite length_app in Hf. destruct consumed; [done|]. cbn in Hf. cbn. lia. }
    rewrite Hf'. exists (consumed :: parts). cbn. rewrite Hp. split; [done|]. split; [by constructor | done].
Qed.
Lemma follow_all : exists parts, concat parts = all /\ Forall Q parts /\ follow (S (length all)) load None = Ok (map view parts).
Proof. apply (follow_steps _ [] all None); [done|done|lia]. Qed.
End Pages.

Lemma follow_map {A B} (f : A -> B) (load : option string -> res (list A * option string)) fuel : forall cursor,
  follow fuel (fun c => let* '(l, next) := load c in Ok (map f l, next)) cursor = let* pages := follow fuel load cursor in Ok (map (map f) pages).
Proof.
  induction fuel as [|n IH]; intros cursor; cbn [follow]; [done|]. destruct (load cursor) as [[l [c|]]|]; cbn [rbind]; try done.
  rewrite IH. by destruct (follow n load (Some c)).
Qed.
Lemma follow_ext {A} (load load' : option string -> res (list A * option string)) fuel : forall cursor, (forall c, load c = load' c) ->
  follow fuel load cursor = follow fuel load' cursor.
Proof.
  induction fuel as [|n IH]; intros cursor H; cbn [follow]; [done|]. rewrite H. destruct (load' cursor) as [[l [c|]]|]; cbn [rbind]; try done. by rewrite IH.
Qed.

(** *** Rows left after a cursor *)

Section Rows.
Context {Row : Type} (key : Row -> Z).
Definition key_lt (a b : Row) : Prop := key a < key b.
Lemma cursor_leb_total a b : key_leb key a b = true \/ key_leb key b a = true.
Proof. unfold key_leb. rewrite !Z.leb_le. lia. Qed.
Lemma cursor_leb_trans a b c : key_leb key a b = true -> key_leb key b c = true -> key_leb key a c = true.
Proof. unfold key_leb. rewrite !Z.leb_le. lia. Qed.
Lemma ordered_strict l : NoDup (map key l) -> StronglySorted key_lt (order_by (key_leb key) l).
Proof.
  intros Hn. pose proof (order_by_strong (key_leb key) cursor_leb_total cursor_leb_trans l) as Hs.
  assert (Hn' : NoDup (map key (order_by (key_leb key) l))) by (eapply (NoDup_Permutation_proper _ _); [apply fmap_Permutation, order_by_perm | done]).
  induction Hs as [|x l' Hs IH Hx]; [constructor|]. cbn in Hn'. apply NoDup_cons in Hn' as [Hk Hn']. constructor; [by apply IH|].
  rewrite Forall_forall in Hx |- *. intros y Hy. specialize (Hx y Hy). unfold Leb, key_leb in Hx. apply Z.leb_le in Hx. unfold key_lt.
  assert (key x <> key y); [|lia]. intros E. apply Hk. rewrite E. by apply (list_elem_of_fmap_2 key).
Qed.
Lemma key_lt_unique (l l' : list Row) : StronglySorted key_lt l -> StronglySorted key_lt l' -> l ≡ₚ l' -> l = l'.
Proof. apply StronglySorted_unique_strong. unfold key_lt. lia. Qed.
Lemma filter_strict (q : Row -> bool) l : StronglySorted key_lt l -> StronglySorted key_lt (List.filter q l).
Proof.
  induction 1 as [|x l Hs IH Hx]; cbn; [constructor|]. destruct (q x); [|done]. constructor; [done|].
  rewrite Forall_forall in Hx |- *. intros y [Hy _]%filter_In_elem. by apply Hx.
Qed.
Lemma filter_perm (q : Row -> bool) l l' : l ≡ₚ l' -> List.filter q l ≡ₚ List.filter q l'.
Proof. induction 1; cbn; try destruct (q x); try destruct (q y); try done; try by constructor. by etransitivity. Qed.
Lemma NoDup_map_filter (q : Row -> bool) l : NoDup (map key l) -> NoDup (map key (List.filter q l)).
Proof.
  induction l as [|x l IH]; cbn; [done|]. intros [Hx Hn]%NoDup_cons. destruct (q x); [|by apply IH]. cbn. constructor; [|by apply IH].
  intros H. apply Hx. apply (list_elem_of_fmap key) in H as (y & -> & [Hy _]%filter_In_elem). by apply (list_elem_of_fmap_2 key).
Qed.
Lemma order_filter (q : Row -> bool) l : NoDup (map key l) ->
  order_by (key_leb key) (List.filter q l) = List.filter q (order_by (key_leb key) l).
Proof.
  intros Hn. apply key_lt_unique; [by apply ordered_strict, NoDup_map_filter | by apply filter_strict, ordered_strict |].
  rewrite order_by_perm. apply filter_perm. by rewrite order_by_perm.
Qed.
Lemma last_app_in (pre : list Row) row : last pre = Some row -> exists pre', pre = (pre' ++ [row])%list.
Proof. intros H. apply last_Some in H as [l ->]. by exists l. Qed.
Lemma filter_none_left (p : Row -> bool) l : Forall (fun x => p x = false) l -> List.filter p l = [].
Proof. induction 1 as [|x l Hx _ IH]; [done|]. cbn. by rewrite Hx. Qed.
Lemma filter_every (p : Row -> bool) l : Forall (fun x => p x = true) l -> List.filter p l = l.
Proof. induction 1 as [|x l Hx _ IH]; [done|]. cbn. by rewrite Hx, IH. Qed.
(** The filter of the cursor leaves the rows after it. *)
Lemma after_suffix pre rem row : StronglySorted key_lt (pre ++ rem)%list -> last pre = Some row ->
  List.filter (after_cursor key (Some (key row))) (pre ++ rem)%list = rem.
Proof.
  intros Hs Hl. apply last_app_in in Hl as [pre' ->]. rewrite List.filter_app, filter_none_left, filter_every; [done| |].
  - apply Forall_forall. intros x Hx. apply Z.ltb_lt, (StronglySorted_app_1_elem_of key_lt _ _ row x Hs); [|done].
    rewrite elem_of_app, list_elem_of_singleton. by right.
  - apply Forall_forall. intros x Hx. apply Z.ltb_ge. apply elem_of_app in Hx as [Hx| ->%list_elem_of_singleton]; [|done].
    pose proof (StronglySorted_app_1_l key_lt _ _ Hs) as Hs'.
    pose proof (StronglySorted_app_1_elem_of key_lt _ _ x row Hs' Hx ltac:(by rewrite list_elem_of_singleton)) as H. unfold key_lt in H. lia.
Qed.
Lemma filter_and (p q : Row -> bool) l : List.filter (fun r => p r && q r) l = List.filter q (List.filter p l).
Proof. induction l as [|x l IH]; cbn; [done|]. destruct (p x); cbn; [destruct (q x); by rewrite IH | done]. Qed.
(** The page's query after [pre] gives the first rows of the rest. *)
Lemma page_query_rest size p table pre rem after : NoDup (map key (List.filter p table)) ->
  order_by (key_leb key) (List.filter p table) = (pre ++ rem)%list ->
  match after with None => pre = [] | Some k => exists row, last pre = Some row /\ key row = k end ->
  page_query key size p after table = take (Z.to_nat (size + 1)) rem.
Proof.
  intros Hn Hall Ha. unfold page_query, order_limit. rewrite filter_and. rewrite order_filter by done. f_equal. rewrite Hall.
  destruct after as [k|]; [|subst pre; by apply filter_every, Forall_forall].
  destruct Ha as (row & Hl & <-). apply after_suffix; [|done]. rewrite <- Hall. by apply ordered_strict.
Qed.
End Rows.

(** *** A page is a step *)

Section Step.
Context {Row P : Type} (key : Row -> Z) (resolution : HistoryResolution).
Lemma last_take_app (pre l : list Row) row : last l = Some row -> last (pre ++ l)%list = Some row.
Proof. intros (l' & ->)%last_Some. by rewrite app_assoc, last_snoc. Qed.
Lemma page_of_step size pre rem : 0 < size -> Forall (fun r => 0 <= key r <= max_safe) rem ->
  exists consumed rest next, rem = (consumed ++ rest)%list /\ Z.of_nat (length consumed) <= size /\
    page_of key resolution size (take (Z.to_nat (size + 1)) rem) = Ok (consumed, next) /\ (rest = [] -> next = None) /\
    (rest <> [] -> consumed <> [] /\ exists c, next = Some c /\ cursor_after key resolution size (pre ++ consumed)%list (Some c)).
Proof.
  intros Hs Hk. exists (take (Z.to_nat size) rem), (drop (Z.to_nat size) rem). unfold page_of. rewrite take_take.
  replace (Z.to_nat size `min` Z.to_nat (size + 1))%nat with (Z.to_nat size) by lia. rewrite (length_take _ (Z.to_nat (size + 1))).
  assert (Hle : Z.of_nat (length (take (Z.to_nat size) rem)) <= size) by (rewrite length_take; lia).
  pose proof (take_drop (Z.to_nat size) rem) as Htd.
  destruct (drop (Z.to_nat size) rem) as [|x rest] eqn:Ed.
  - exists None. split; [by rewrite Htd|]. split; [done|]. apply (f_equal length) in Ed. rewrite length_drop in Ed. cbn in Ed.
    split; [|done]. destruct (last _); [|done]. rewrite (proj2 (Z.ltb_ge _ _)) by lia. done.
  - apply (f_equal length) in Ed as El. rewrite length_drop in El. cbn in El.
    destruct (last (take (Z.to_nat size) rem)) as [row|] eqn:E; [|apply last_None, (f_equal length) in E; rewrite length_take in E; cbn in E; lia].
    assert (Hrow : 0 <= key row <= max_safe).
    { rewrite Forall_forall in Hk. apply Hk. apply last_Some_elem_of in E. apply elem_of_take in E as (i & Hi & _). by eapply list_elem_of_lookup_2. }
    rewrite (proj2 (Z.ltb_lt _ _)) by lia. destruct (cursor_roundtrip resolution (key row) Hrow) as (c & Hc & _). exists (Some c).
    rewrite Hc. cbn [rbind]. split; [by rewrite Htd|]. split; [done|]. split; [done|]. split; [done|]. intros _. split.
    { intros E0. by rewrite E0 in E. }
    exists c. split; [done|]. split; [rewrite length_app, length_take; lia|]. exists row. split; [|done]. by apply last_take_app.
Qed.
Lemma cursor_read e from to n (pre : list Row) cursor :
  (forall row, last pre = Some row -> n <= Z.of_nat (length pre) -> 0 <= key row <= max_safe /\ from - 300000 <= key row < to) -> cursor_after key resolution n pre cursor ->
  exists after, validateCursor e cursor resolution from to = Ok after /\
    match after with None => pre = [] | Some k => exists row, last pre = Some row /\ key row = k end.
Proof.
  intros Hk Hc. unfold validateCursor. destruct cursor as [c|]; [|by exists None].
  destruct Hc as (Hn & row & Hl & He). destruct (Hk row Hl Hn) as [Hs Hr]. destruct (cursor_roundtrip resolution (key row) Hs) as (c' & Hc' & Hd).
  rewrite He in Hc'. injection Hc' as <-. rewrite Hd, bool_decide_eq_true_2 by done. exists (Some (key row)).
  rewrite (proj2 (Z.ltb_ge _ _)), (proj2 (Z.leb_gt _ _)) by lia. split; [done|]. by exists row.
Qed.
End Step.
Lemma range_safe e r from to : validateHistoryRange e r from to = Ok tt -> 0 <= from /\ from < to /\ to <= max_safe.
Proof. unfold validateHistoryRange, safe_z. intros H. ok_inv. bool_hyps. lia. Qed.

(** ** The pages of a table *)

Section Table.
Context {Row P : Type} (key : Row -> Z) (view : Row -> P) (resolution : HistoryResolution) (size from to : Z) (e : string).
Context (p : Row -> bool) (table : list Row) (load : option string -> res (list P * option string)).
Definition rows_in_order : list Row := order_by (key_leb key) (List.filter p table).
Hypothesis size_pos : 0 < size.
Hypothesis keys : NoDup (map key (List.filter p table)).
Hypothesis range : 0 <= from /\ to <= max_safe.
Hypothesis in_range : Forall (fun r => 0 <= key r < to) rows_in_order.
(** No page ends with a row that the next request would refuse. *)
Hypothesis ends : forall pre rem row, rows_in_order = (pre ++ rem)%list -> size <= Z.of_nat (length pre) -> last pre = Some row -> from - 300000 <= key row.
Hypothesis loads : forall cursor after, validateCursor e cursor resolution from to = Ok after ->
  load cursor = let* '(rows, next) := page_of key resolution size (page_query key size p after table) in Ok (map view rows, next).
(** Following the cursors shows every row once, in order, in pages of at most [size]. *)
Lemma table_pages_complete : exists pages, follow (S (length rows_in_order)) load None = Ok pages /\
  concat pages = map view rows_in_order /\ Forall (fun page => Z.of_nat (length page) <= size) pages.
Proof.
  destruct range as [H0 Hsafe].
  destruct (follow_all key resolution size rows_in_order (map view) load (fun rows => Z.of_nat (length rows) <= size)) as (parts & Hp & HQ & Hf).
  - intros pre rem cursor Heq Hc. unfold page_step. assert (Hall' := in_range). rewrite Heq in Hall'. apply Forall_app in Hall' as [Hpre Hrem].
    destruct (cursor_read key resolution e from to size pre cursor) as (after & Ha & Hafter); [|done|].
    { intros row Hrow Hn. pose proof (ends pre rem row Heq Hn Hrow). apply last_Some_elem_of in Hrow. rewrite Forall_forall in Hpre. specialize (Hpre row Hrow). cbn in Hpre. lia. }
    destruct (page_of_step key resolution size pre rem) as (consumed & rest & next & -> & Hlen & Hpage & Hnext); [done| |].
    { eapply Forall_impl; [exact Hrem|]. intros r Hr'. cbn in Hr'. lia. }
    exists consumed, rest, next. split; [done|]. split; [done|]. split; [|done]. rewrite (loads cursor after Ha).
    by rewrite (page_query_rest key size _ _ pre (consumed ++ rest)%list after keys Heq Hafter), Hpage.
  - exists (map (map view) parts). split; [done|]. split; [by rewrite <- Hp, concat_map|].
    apply Forall_map. eapply Forall_impl; [exact HQ|]. intros x Hx. cbn. by rewrite length_map.
Qed.
End Table.
