(* ===== verification/MachineHistory.v ===== *)
(** * MachineHistory: a machine's history

    [packages/db/src/repositories/machine-history.ts]: the pages of rollups, and the raw pages,
    which decode the compressed reports of up to 72 blocks of five minutes.  The decompression
    stream is [Protobuf]'s parameter; [d1BlobToArrayBuffer] gives a BLOB's bytes. *)

From Stdlib Require Import ZArith Lia Bool String List.
From stdpp Require Import base tactics list strings sorting.
From S2P Require Import Prelude.
From S2P Require Import Js.
From S2P Require Import Sql.
From S2P Require Import Telemetry.
From S2P Require Import Protobuf.
From S2P Require Import CheckPersistence.
From S2P Require Import Authz.
From S2P Require Import MemberData.
From S2P Require Import QueryBatches.
From S2P Require Import HistoryCursor.
Open Scope string_scope.
Open Scope Z_scope.

(** ** Blocks of stored payloads *)

(** What the raw pages of machines and checks share: the rows of a page in order, each row's
    stored payloads decoded in turn, until a block would exceed the page's bytes. *)
Section Blocks.
Context {S P : Type} (decode : list byte -> res (list S)) (step : S -> list P -> res (list P)) (maxBytes : Z).
Fixpoint add_samples (samples : list S) (points : list P) : res (list P) :=
  match samples with [] => Ok points | s :: rest => let* points := step s points in add_samples rest points end.
Fixpoint add_payloads (payloads : list (list byte)) (points : list P) : res (list P) :=
  match payloads with
  | [] => Ok points
  | p :: rest => let* samples := decode p in let* points := add_samples samples points in add_payloads rest points
  end.
Definition row_payloads (r : block_row) : list (list byte) := omap (fun slot => se_payload <$> slot) (blk_slots r).
Definition row_bytes (r : block_row) : Z := sumZ (map blen (row_payloads r)).
(* @src packages/db/src/repositories/machine-history.ts 139-175 loadRawHistory *)
Fixpoint add_rows (rows : list block_row) (points : list P) (bytes processed : Z) : res (list P * Z) :=
  match rows with
  | [] => Ok (points, processed)
  | row :: rest =>
      if (0 <? processed) && (maxBytes <? bytes + row_bytes row) then Ok (points, processed)
      else let* points := add_payloads (row_payloads row) points in add_rows rest points (bytes + row_bytes row) (processed + 1)
  end.
End Blocks.

Definition RAW_BLOCK_PAGE_SIZE : Z := 72.
Definition RAW_PAGE_BYTES : Z := 4 * 1024 * 1024.
Definition block_in_range (workspacePk pk from to : Z) (r : block_row) : bool :=
  (blk_workspace r =? workspacePk) && (blk_pk r =? pk) && (from / 300000 * 300000 <=? blk_start r) && (blk_start r <? to).
(** The points of a raw page in the order of time, and the cursor of the last block read when
    the query gave more. *)
(* @src packages/db/src/repositories/machine-history.ts 125-190 loadRawHistory *)
Definition raw_page {S P} (decode : list byte -> res (list S)) (step : S -> list P -> res (list P)) (time : P -> Z) (error : string)
    (blocks : list block_row) (workspacePk pk from to : Z) (after : option Z) : res (list P * option string) :=
  let rows := page_query blk_start RAW_BLOCK_PAGE_SIZE (block_in_range workspacePk pk from to) after blocks in
  match add_rows decode step RAW_PAGE_BYTES (take (Z.to_nat RAW_BLOCK_PAGE_SIZE) rows) [] 0 0 with
  | Err _ => Err error
  | Ok (points, processed) =>
      let points := order_by (key_leb time) points in
      match (if 0 <? processed then rows !! Z.to_nat (processed - 1) else None) with
      | Some row => if processed <? Z.of_nat (length rows) then let* c := encodeHistoryCursor raw (blk_start row) in Ok (points, Some c) else Ok (points, None)
      | None => Ok (points, None)
      end
  end.

(** ** Machines *)

Definition RAW_POINT_LIMIT : Z := 2160.
Definition ROLLUP_PAGE_SIZE : Z := 744.
(* @src packages/db/src/repositories/machine-history.ts MachineHistoryPoint *)
Record MachineHistoryPoint := MachinePoint {
  hp_bucketStart : Z;
  hp_sampleCount : Z;
  hp_cpuAverage : Z;
  hp_cpuMax : Z;
  hp_memoryAverage : Z;
  hp_memoryTotal : option Z;
  hp_storageMax : Z;
  hp_storageTotal : option Z;
  hp_networkRx : Z;
  hp_networkTx : Z;
  hp_networkRxBps : option Z;
  hp_networkTxBps : option Z;
  hp_load1m : option Z;
  hp_uptime : option Z;
}.
(* @src packages/db/src/repositories/machine-history.ts rollupPoint *)
Definition rollupPoint (r : machine_rollup_row) : MachineHistoryPoint :=
  MachinePoint (ru_start r) (ru_samples r) (ru_cpuAvg r) (ru_cpuMax r) (ru_memoryAvg r) None (ru_storageMax r) None (ru_rxBytes r) (ru_txBytes r)
    None None None None.
(* @src packages/db/src/repositories/machine-history.ts 155-170 loadRawHistory *)
Definition sample_point (s : metric_sample) : MachineHistoryPoint :=
  MachinePoint (observedAt s) 1 (cpuPermille s) (cpuPermille s) (memoryUsedBytes s) (Some (memoryTotalBytes s)) (storageUsedBytes s)
    (Some (storageTotalBytes s)) 0 0 (Some (networkRxBps s)) (Some (networkTxBps s)) (load1mMilli s) (uptimeSeconds s).
(* @src packages/db/src/repositories/machine-history.ts 153-172 loadRawHistory *)
Definition machine_step (from to : Z) (s : metric_sample) (points : list MachineHistoryPoint) : res (list MachineHistoryPoint) :=
  if (observedAt s <? from) || (to <=? observedAt s) then Ok points
  else let points := (points ++ [sample_point s])%list in
       throw_if RAW_POINT_LIMIT <? Z.of_nat (length points) as "MachineHistoryDataError" in Ok points.
Definition in_rollups (workspacePk machinePk from to : Z) (r : machine_rollup_row) : bool :=
  (ru_workspace r =? workspacePk) && (ru_machine r =? machinePk) && (from <=? ru_start r) && (ru_start r <? to).

Section MachineHistory.
Context (decompress : list byte -> list (list byte) * option string).
(* @src packages/db/src/repositories/machine-history.ts loadRawHistory *)
Definition loadRawHistory (t : telemetry_pages) (workspacePk machinePk from to : Z) (after : option Z) : res (list MachineHistoryPoint * option string) :=
  raw_page (decodeCompressedMachineSamples decompress) (machine_step from to) hp_bucketStart "MachineHistoryDataError"
    (tp_machineBlocks t) workspacePk machinePk from to after.
(* @src packages/db/src/repositories/machine-history.ts loadMachineHistory *)
Definition loadMachineHistory (d : member_side) (t : telemetry_pages) (workspaceSlug userId machineId : string) (resolution : HistoryResolution)
    (from to : Z) (cursor : option string) : res (list MachineHistoryPoint * option string) :=
  let* '(_, workspacePk, machinePk) := loadAuthorizedMachineScope d workspaceSlug userId machineId in
  let* _ := validateHistoryRange "MachineHistoryRangeError" resolution from to in
  let* after := validateCursor "MachineHistoryRangeError" cursor resolution from to in
  match resolution with
  | raw => loadRawHistory t workspacePk machinePk from to after
  | _ =>
      let table := match resolution with r5m => tp_machineRollups5m t | _ => tp_machineRollups1h t end in
      let* '(rows, next) := page_of ru_start resolution ROLLUP_PAGE_SIZE
        (page_query ru_start ROLLUP_PAGE_SIZE (in_rollups workspacePk machinePk from to) after table) in
      Ok (map rollupPoint rows, next)
  end.

(** ** Rollups *)

Definition rollup_table (resolution : HistoryResolution) (t : telemetry_pages) : list machine_rollup_row :=
  match resolution with r5m => tp_machineRollups5m t | _ => tp_machineRollups1h t end.
Definition rollups_in_order (resolution : HistoryResolution) (t : telemetry_pages) (workspacePk machinePk from to : Z) : list machine_rollup_row :=
  order_by (key_leb ru_start) (List.filter (in_rollups workspacePk machinePk from to) (rollup_table resolution t)).

Lemma rollups_keys resolution t workspacePk machinePk from to : NoDup (map (fun r => (ru_machine r, ru_start r)) (rollup_table resolution t)) ->
  NoDup (map ru_start (List.filter (in_rollups workspacePk machinePk from to) (rollup_table resolution t))).
Proof.
  induction (rollup_table resolution t) as [|x l IH]; cbn [map List.filter]; [intros _; by constructor|]. intros [Hx Hn]%NoDup_cons. destruct (in_rollups _ _ _ _ x) eqn:E; [|by apply IH].
  cbn [map]. constructor; [|by apply IH]. intros H. apply Hx. apply (list_elem_of_fmap ru_start) in H as (y & Hy & [Hin Hp]%filter_In_elem).
  unfold in_rollups in *. bool_hyps. rewrite list_elem_of_fmap. exists y. split; [f_equal; lia | done].
Qed.
(** Following the pages of a rolled-up history from its start ends, and shows every bucket of
    the range once, in the order of time, in pages of at most 744: [(machine_pk, bucket_start)]
    is the table's key. *)
Theorem machine_rollups_paged d t workspaceSlug userId machineId resolution from to workspaceId workspacePk machinePk
  (Hr : resolution <> raw)
  (Hscope : loadAuthorizedMachineScope d workspaceSlug userId machineId = Ok (workspaceId, workspacePk, machinePk))
  (Hrange : validateHistoryRange "MachineHistoryRangeError" resolution from to = Ok tt)
  (Hkey : NoDup (map (fun r => (ru_machine r, ru_start r)) (rollup_table resolution t))) :
  exists pages, follow (S (length (rollups_in_order resolution t workspacePk machinePk from to)))
      (loadMachineHistory d t workspaceSlug userId machineId resolution from to) None = Ok pages /\
    concat pages = map rollupPoint (rollups_in_order resolution t workspacePk machinePk from to) /\
    Forall (fun page => Z.of_nat (length page) <= ROLLUP_PAGE_SIZE) pages.
Proof.
  destruct (range_safe _ _ _ _ Hrange) as (H0 & Hlt & Hsafe). pose proof (rollups_keys resolution t workspacePk machinePk from to Hkey) as Hn.
  assert (Hall : Forall (fun r => from <= ru_start r < to) (rollups_in_order resolution t workspacePk machinePk from to)).
  { apply Forall_forall. intros r Hin. unfold rollups_in_order in Hin. rewrite elem_of_order_by in Hin. apply filter_In_elem in Hin as [_ Hp].
    unfold in_rollups in Hp. bool_hyps. lia. }
  apply (table_pages_complete ru_start rollupPoint resolution ROLLUP_PAGE_SIZE from to "MachineHistoryRangeError"); try done.
  - eapply Forall_impl; [exact Hall|]. intros r Hr'. cbn in Hr'. lia.
  - intros pre rem row Heq _ Hrow%last_Some_elem_of. unfold rows_in_order, rollups_in_order in *. rewrite Heq in Hall. apply Forall_app in Hall as [Hpre _].
    rewrite Forall_forall in Hpre. specialize (Hpre row Hrow). cbn in Hpre. lia.
  - intros cursor after Ha. unfold loadMachineHistory. rewrite Hscope. cbn [rbind]. rewrite Hrange, Ha. cbn [rbind]. by destruct resolution.
Qed.
End MachineHistory.

Section RawPages.
Context {Sample P : Type} (decode : list byte -> res (list Sample)) (step : Sample -> list P -> res (list P)) (keep : Sample -> option P) (limit : Z) (error : string).
(** A step pushes the point of a sample it keeps, and throws past the limit. *)
Hypothesis step_law : forall s points, Z.of_nat (length points) <= limit ->
  step s points = match keep s with None => Ok points | Some p => if limit <? Z.of_nat (length points) + 1 then Err error else Ok (points ++ [p])%list end.
Definition block_samples (r : block_row) : res (list Sample) := let* l := mapM_res decode (row_payloads r) in Ok (concat l).
Definition block_points (r : block_row) : list P := match block_samples r with Ok l => omap keep l | Err _ => [] end.
Definition blocks_points (rows : list block_row) : list P := concat (map block_points rows).
Definition decodes (r : block_row) : Prop := is_ok (block_samples r) = true.

Lemma omap_app (a b : list Sample) : omap keep (a ++ b)%list = (omap keep a ++ omap keep b)%list.
Proof. induction a as [|x a IH]; cbn; [done|]. destruct (keep x); by rewrite ?IH. Qed.
Lemma add_samples_spec samples : forall points, Z.of_nat (length points) <= limit ->
  add_samples step samples points =
    if limit <? Z.of_nat (length points) + Z.of_nat (length (omap keep samples)) then Err error else Ok (points ++ omap keep samples)%list.
Proof.
  induction samples as [|s l IH]; intros points Hp; cbn [add_samples omap list_omap].
  - cbn. rewrite (proj2 (Z.ltb_ge _ _)) by lia. by rewrite app_nil_r.
  - rewrite step_law by done. cbn. destruct (keep s) as [p|]; cbn [rbind]; [|by apply IH].
    destruct (limit <? Z.of_nat (length points) + 1) eqn:E; bool_hyps; cbn [rbind length].
    + by rewrite (proj2 (Z.ltb_lt _ _)) by lia.
    + rewrite IH by (rewrite length_app; cbn; lia). rewrite length_app. cbn [length]. rewrite <- app_assoc. cbn [app].
      replace (Z.of_nat (length points + 1) + Z.of_nat (length (omap keep l))) with (Z.of_nat (length points) + Z.of_nat (S (length (omap keep l)))) by lia. done.
Qed.
Lemma add_payloads_spec payloads : forall points l, Z.of_nat (length points) <= limit -> mapM_res decode payloads = Ok l ->
  add_payloads decode step payloads points =
    if limit <? Z.of_nat (length points) + Z.of_nat (length (omap keep (concat l))) then Err error else Ok (points ++ omap keep (concat l))%list.
Proof.
  induction payloads as [|p rest IH]; intros points l Hp Hl; cbn [mapM_res add_payloads] in *.
  - injection Hl as <-. cbn. rewrite (proj2 (Z.ltb_ge _ _)) by lia. by rewrite app_nil_r.
  - ok_inv. match goal with H : decode p = Ok ?a, H' : mapM_res decode rest = Ok ?b |- _ => rename a into s; rename b into l'; rewrite H; rename H' into Hl' end.
    subst. cbn [rbind concat]. rewrite add_samples_spec by done. rewrite omap_app, length_app.
    destruct (limit <? Z.of_nat (length points) + Z.of_nat (length (omap keep s))) eqn:E; bool_hyps; cbn [rbind].
    + by rewrite (proj2 (Z.ltb_lt _ _)) by lia.
    + rewrite (IH _ l') by (done || rewrite length_app; lia). rewrite length_app, <- app_assoc.
      replace (Z.of_nat (length points + length (omap keep s)) + Z.of_nat (length (omap keep (concat l')))) with
        (Z.of_nat (length points) + Z.of_nat (length (omap keep s) + length (omap keep (concat l')))) by lia. done.
Qed.
Lemma row_spec r points : decodes r -> Z.of_nat (length points) <= limit ->
  add_payloads decode step (row_payloads r) points =
    if limit <? Z.of_nat (length points) + Z.of_nat (length (block_points r)) then Err error else Ok (points ++ block_points r)%list.
Proof.
  unfold decodes, block_points, block_samples. intros Hd Hp. destruct (mapM_res decode (row_payloads r)) as [l|e] eqn:E; [|done]. by apply add_payloads_spec.
Qed.
(** A page whose blocks decode, and have at most [k] points each, reads some of them in order,
    the first one at least. *)
Lemma add_rows_spec maxBytes k rows : forall points bytes processed, 0 <= processed -> 0 <= k ->
  Forall decodes rows -> Forall (fun r => Z.of_nat (length (block_points r)) <= k) rows -> Z.of_nat (length points) + k * Z.of_nat (length rows) <= limit ->
  exists consumed rest, rows = (consumed ++ rest)%list /\
    add_rows decode step maxBytes rows points bytes processed = Ok ((points ++ blocks_points consumed)%list, processed + Z.of_nat (length consumed)) /\
    (processed = 0 -> rows <> [] -> consumed <> []).
Proof.
  induction rows as [|r rows IH]; intros points bytes processed Hp Hk Hd Hl Hlim; cbn [add_rows].
  - exists [], []. cbn. rewrite app_nil_r, Z.add_0_r. done.
  - apply Forall_cons in Hd as [Hd Hds]. apply Forall_cons in Hl as [Hl Hls]. cbn [length] in Hlim.
    destruct ((0 <? processed) && _) eqn:E.
    + exists [], (r :: rows). cbn. rewrite app_nil_r, Z.add_0_r. bool_hyps. split; [done|]. split; [done|lia].
    + rewrite row_spec by (done || lia). rewrite (proj2 (Z.ltb_ge _ _)) by lia. cbn [rbind].
      destruct (IH (points ++ block_points r)%list (bytes + row_bytes r) (processed + 1)) as (consumed & rest & -> & He & _);
        try done; [lia|rewrite length_app; lia|].
      exists (r :: consumed), rest. split; [done|]. split; [|done]. rewrite He. unfold blocks_points. cbn [map concat length]. rewrite <- app_assoc.
      do 2 f_equal. lia.
Qed.
(** A page whose blocks decode and fit into its bytes, with more points than the limit, fails. *)
Lemma add_rows_over maxBytes rows : forall points bytes processed, Forall decodes rows -> Z.of_nat (length points) <= limit ->
  bytes + sumZ (map row_bytes rows) <= maxBytes -> limit < Z.of_nat (length points) + Z.of_nat (length (blocks_points rows)) ->
  add_rows decode step maxBytes rows points bytes processed = Err error.
Proof.
  induction rows as [|r rows IH]; intros points bytes processed Hd Hp Hb Hlim; cbn [add_rows].
  - cbn in Hlim. lia.
  - apply Forall_cons in Hd as [Hd Hds]. unfold blocks_points in Hlim. cbn [map concat sumZ foldr] in *. fold (sumZ (map row_bytes rows)) in Hb.
    rewrite length_app in Hlim.
    assert (Hnn : 0 <= sumZ (map row_bytes rows)).
    { clear. induction rows as [|r rows IH]; cbn; [done|]. fold (sumZ (map row_bytes rows)). enough (0 <= row_bytes r) by lia. unfold row_bytes.
      induction (row_payloads r) as [|p l IHl]; cbn; [done|]. fold (sumZ (map blen l)). pose proof (blen_nonneg p). lia. }
    rewrite (proj2 (Z.ltb_ge maxBytes _)) by lia. rewrite andb_false_r. rewrite row_spec by done.
    destruct (limit <? _) eqn:E; bool_hyps; cbn [rbind]; [done|].
    apply IH; [done|rewrite length_app; lia|lia|]. rewrite length_app. unfold blocks_points. lia.
Qed.

Context (time : P -> Z) (from to workspacePk pk : Z) (blocks : list block_row) (k : Z).
Hypothesis k_nonneg : 0 <= k.
Hypothesis page_fits : RAW_BLOCK_PAGE_SIZE * k <= limit.
Definition page_points (rows : list block_row) : list P := order_by (key_leb time) (blocks_points rows).
Lemma raw_page_step pre rem after : page_query blk_start RAW_BLOCK_PAGE_SIZE (block_in_range workspacePk pk from to) after blocks =
    take (Z.to_nat (RAW_BLOCK_PAGE_SIZE + 1)) rem ->
  Forall decodes rem -> Forall (fun r => Z.of_nat (length (block_points r)) <= k) rem -> Forall (fun r => 0 <= blk_start r <= max_safe) rem ->
  exists consumed rest next, rem = (consumed ++ rest)%list /\
    raw_page decode step time error blocks workspacePk pk from to after = Ok (page_points consumed, next) /\ (rest = [] -> next = None) /\
    (rest <> [] -> consumed <> [] /\ exists c, next = Some c /\ cursor_after blk_start raw 0 (pre ++ consumed)%list (Some c)).
Proof.
  intros Hq Hd Hk Hsafe. unfold raw_page. rewrite Hq, take_take. change (Z.to_nat RAW_BLOCK_PAGE_SIZE `min` Z.to_nat (RAW_BLOCK_PAGE_SIZE + 1))%nat with 72%nat.
  change (Z.to_nat (RAW_BLOCK_PAGE_SIZE + 1)) with 73%nat. unfold RAW_BLOCK_PAGE_SIZE in page_fits.
  assert (Hlen : Z.of_nat (length (take 72 rem)) <= 72) by (rewrite length_take; lia).
  destruct (add_rows_spec RAW_PAGE_BYTES k (take 72 rem) [] 0 0) as (consumed & rest & Heq & Hr & Hne);
    [lia|done|by apply Forall_take|by apply Forall_take|cbn [length]; nia|]. rewrite Hr. cbn [app]. rewrite Z.add_0_l.
  assert (Hrem : rem = (consumed ++ rest ++ drop 72 rem)%list) by (rewrite app_assoc, <- Heq; by rewrite take_drop).
  assert (Hcl : (length consumed <= 72)%nat) by (apply (f_equal length) in Heq; rewrite length_take, length_app in Heq; lia).
  exists consumed, (rest ++ drop 72 rem)%list. fold (page_points consumed).
  destruct (last consumed) as [row|] eqn:El; cycle 1.
  { apply last_None in El as ->. exists None. assert (take 72 rem = []) as H0 by (destruct (take 72 rem); [done|exfalso; by apply (Hne eq_refl)]).
    destruct rem as [|x rem']; [|done]. destruct rest; [|done]. cbn. split; [done|]. split; [done|]. split; [done|]. intros H; by destruct H. }
  assert (Hpos : 0 < Z.of_nat (length consumed)) by (destruct consumed; [done|cbn [length]; lia]).
  rewrite (proj2 (Z.ltb_lt _ _)) by done. rewrite last_lookup in El. replace (Z.to_nat (Z.of_nat (length consumed) - 1)) with (Init.Nat.pred (length consumed)) by lia.
  assert (Hrow : take 73 rem !! Init.Nat.pred (length consumed) = Some row).
  { rewrite lookup_take_lt by lia. rewrite Hrem. by apply lookup_app_l_Some. }
  rewrite Hrow. assert (Htot : length rem = (length consumed + length (rest ++ drop 72 rem))%nat) by (by rewrite Hrem, length_app at 1).
  assert (Hin : 0 <= blk_start row <= max_safe).
  { rewrite Forall_forall in Hsafe. apply Hsafe. rewrite Hrem, elem_of_app. left. by eapply list_elem_of_lookup_2. }
  destruct (rest ++ drop 72 rem)%list as [|x rest'] eqn:Er.
  - exists None. split; [done|]. split; [|done]. cbn [length] in Htot. rewrite length_take, (proj2 (Z.ltb_ge _ _)) by lia. done.
  - destruct (cursor_roundtrip raw (blk_start row) Hin) as (c & Hc & _). exists (Some c). split; [done|]. cbn [length] in Htot.
    rewrite length_take, (proj2 (Z.ltb_lt _ _)) by lia. rewrite Hc. split; [done|]. split; [done|]. intros _. split; [by intros ->|].
    exists c. split; [done|]. split; [lia|]. exists row. split; [|done]. apply last_take_app. by rewrite last_lookup.
Qed.

Definition blocks_in_order : list block_row := order_by (key_leb blk_start) (List.filter (block_in_range workspacePk pk from to) blocks).
Hypothesis blocks_key : NoDup (map block_key blocks).
Lemma blocks_starts : NoDup (map blk_start (List.filter (block_in_range workspacePk pk from to) blocks)).
Proof.
  induction blocks as [|x l IH]; cbn [map List.filter]; [constructor|]. cbn [map] in blocks_key. apply NoDup_cons in blocks_key as [Hx Hn].
  destruct (block_in_range _ _ _ _ x) eqn:E; [|by apply IH].
  cbn [map]. constructor; [|by apply IH]. intros H. apply Hx. apply (list_elem_of_fmap blk_start) in H as (y & Hy & [Hin Hp]%filter_In_elem).
  unfold block_in_range in *. bool_hyps. rewrite list_elem_of_fmap. exists y. split; [unfold block_key; f_equal; lia | done].
Qed.
Lemma page_points_perm parts : concat (map page_points parts) ≡ₚ blocks_points (concat parts).
Proof.
  unfold blocks_points. induction parts as [|x l IH]; cbn [map concat]; [done|]. rewrite map_app, concat_app, IH. unfold page_points. by rewrite order_by_perm.
Qed.
(** The raw pages of blocks that decode, with few enough points each, show every point once. *)
Lemma raw_pages_complete e load : 0 <= from -> from < to -> to <= max_safe ->
  (forall cursor after, validateCursor e cursor raw from to = Ok after -> load cursor = raw_page decode step time error blocks workspacePk pk from to after) ->
  Forall decodes blocks_in_order -> Forall (fun r => Z.of_nat (length (block_points r)) <= k) blocks_in_order ->
  exists pages, follow (S (length blocks_in_order)) load None = Ok pages /\ concat pages ≡ₚ blocks_points blocks_in_order /\
    Forall (fun page => StronglySorted (Leb (key_leb time)) page) pages.
Proof.
  intros H0 Hft Hto Hload Hd Hk. assert (Hr : Forall (fun r => from - 300000 <= blk_start r < to /\ 0 <= blk_start r) blocks_in_order).
  { apply Forall_forall. intros r Hin. unfold blocks_in_order in Hin. rewrite elem_of_order_by in Hin. apply filter_In_elem in Hin as [_ Hp].
    unfold block_in_range in Hp. bool_hyps. pose proof (Z.div_mod from 300000 ltac:(lia)). pose proof (Z.mod_pos_bound from 300000 ltac:(lia)).
    pose proof (Z.div_pos from 300000 H0 ltac:(lia)). lia. }
  destruct (follow_all blk_start raw 0 blocks_in_order page_points load (fun _ => True)) as (parts & Hp & _ & Hf).
  - intros pre rem cursor Heq Hc. unfold page_step. assert (Hr' := Hr). rewrite Heq in Hr', Hd, Hk.
    apply Forall_app in Hr' as [Hpre Hrem]. apply Forall_app in Hd as [_ Hd]. apply Forall_app in Hk as [_ Hk].
    destruct (cursor_read blk_start raw e from to 0 pre cursor) as (after & Ha & Hafter); [|done|].
    { intros row Hrow%last_Some_elem_of _. rewrite Forall_forall in Hpre. specialize (Hpre row Hrow). cbn in Hpre. lia. }
    pose proof (page_query_rest blk_start RAW_BLOCK_PAGE_SIZE _ _ pre rem after blocks_starts Heq Hafter) as Hq.
    destruct (raw_page_step pre rem after Hq Hd Hk) as (consumed & rest & next & H1 & H2 & H3).
    { eapply Forall_impl; [exact Hrem|]. intros r Hx. cbn in Hx. lia. }
    exists consumed, rest, next. split; [done|]. split; [done|]. by rewrite (Hload cursor after Ha).
  - exists (map page_points parts). split; [done|]. split; [by rewrite page_points_perm, Hp|].
    apply Forall_map, Forall_forall. intros x _. unfold page_points. apply order_by_strong; [apply cursor_leb_total | apply cursor_leb_trans].
Qed.
End RawPages.

(** ** The raw history of a machine *)

Section MachineRaw.
Context (decompress : list byte -> list (list byte) * option string).
Context (from to : Z).
Definition machine_keep (s : metric_sample) : option MachineHistoryPoint := if (observedAt s <? from) || (to <=? observedAt s) then None else Some (sample_point s).
Lemma machine_step_law s points : Z.of_nat (length points) <= RAW_POINT_LIMIT ->
  machine_step from to s points = match machine_keep s with
    | None => Ok points
    | Some p => if RAW_POINT_LIMIT <? Z.of_nat (length points) + 1 then Err "MachineHistoryDataError" else Ok (points ++ [p])%list end.
Proof.
  intros _. unfold machine_step, machine_keep. destruct (_ || _); [done|]. rewrite length_app. cbn [length]. by rewrite Nat2Z.inj_add.
Qed.
(** The points of the range that a block stores. *)
Definition machine_points (r : block_row) : list MachineHistoryPoint := block_points (decodeCompressedMachineSamples decompress) machine_keep r.
Definition machine_blocks (t : telemetry_pages) (workspacePk machinePk : Z) : list block_row :=
  blocks_in_order from to workspacePk machinePk (tp_machineBlocks t).
Definition decodable (r : block_row) : Prop := decodes (decodeCompressedMachineSamples decompress) r.

(** Following the raw pages of a machine whose blocks decode to at most thirty points of the
    range each (a sample every ten seconds) ends, and shows every point once. *)
Theorem machine_raw_paged d t workspaceSlug userId machineId workspaceId workspacePk machinePk
  (Hscope : loadAuthorizedMachineScope d workspaceSlug userId machineId = Ok (workspaceId, workspacePk, machinePk))
  (Hrange : validateHistoryRange "MachineHistoryRangeError" raw from to = Ok tt)
  (Hkey : NoDup (map block_key (tp_machineBlocks t)))
  (Hblocks : Forall (fun r => decodable r /\ Z.of_nat (length (machine_points r)) <= 30) (machine_blocks t workspacePk machinePk)) :
  exists pages, follow (S (length (machine_blocks t workspacePk machinePk)))
      (loadMachineHistory decompress d t workspaceSlug userId machineId raw from to) None = Ok pages /\
    concat pages ≡ₚ concat (map machine_points (machine_blocks t workspacePk machinePk)) /\
    Forall (fun page => StronglySorted (Leb (key_leb hp_bucketStart)) page) pages.
Proof.
  destruct (range_safe _ _ _ _ Hrange) as (H0 & Hlt & Hsafe). apply Forall_and in Hblocks as [Hd Hk].
  eapply (raw_pages_complete _ _ machine_keep RAW_POINT_LIMIT "MachineHistoryDataError" machine_step_law _ _ _ _ _ _ 30); try done.
  intros cursor after Ha. unfold loadMachineHistory. rewrite Hscope. cbn [rbind]. rewrite Hrange, Ha. done.
Qed.

(** A page with more points than the limit is an error, however the range is chosen: the page
    reads up to 72 blocks of five minutes, whatever the machine samples. *)
Theorem machine_raw_overflows d t workspaceSlug userId machineId workspaceId workspacePk machinePk
  (Hscope : loadAuthorizedMachineScope d workspaceSlug userId machineId = Ok (workspaceId, workspacePk, machinePk))
  (Hrange : validateHistoryRange "MachineHistoryRangeError" raw from to = Ok tt)
  (Hkey : NoDup (map block_key (tp_machineBlocks t)))
  (Hd : Forall decodable (take 72 (machine_blocks t workspacePk machinePk)))
  (Hbytes : sumZ (map row_bytes (take 72 (machine_blocks t workspacePk machinePk))) <= RAW_PAGE_BYTES)
  (Hmany : RAW_POINT_LIMIT < Z.of_nat (length (concat (map machine_points (take 72 (machine_blocks t workspacePk machinePk)))))) :
  loadMachineHistory decompress d t workspaceSlug userId machineId raw from to None = Err "MachineHistoryDataError".
Proof.
  unfold loadMachineHistory. rewrite Hscope. cbn [rbind]. rewrite Hrange. cbn [rbind validateCursor decodeHistoryCursor].
  unfold loadRawHistory, raw_page.
  rewrite (page_query_rest blk_start RAW_BLOCK_PAGE_SIZE _ _ [] _ None (blocks_starts _ _ _ _ _ Hkey) eq_refl eq_refl), take_take.
  change (Z.to_nat RAW_BLOCK_PAGE_SIZE `min` Z.to_nat (RAW_BLOCK_PAGE_SIZE + 1))%nat with 72%nat.
  fold (blocks_in_order from to workspacePk machinePk (tp_machineBlocks t)). fold (machine_blocks t workspacePk machinePk).
  by rewrite (add_rows_over _ _ machine_keep RAW_POINT_LIMIT "MachineHistoryDataError" machine_step_law) by done.
Qed.
End MachineRaw.

(** ** Examples *)

Definition demo_rollups (n : nat) : list machine_rollup_row := map (fun i => MachineRollup 21 7 (300000 * Z.of_nat i) 30 100 200 5 6 0 0) (seq 0 n).
Definition no_telemetry : telemetry_pages := TelemetryPages [] [] [] [] [] [] [] [] [] [] [].
Definition demo_rollup_pages : telemetry_pages := TelemetryPages [] [] [] [] [] [] [] (demo_rollups 800) [] [] [].
Example machine_rollups_paged_witness :
  Z.of_nat (length (demo_rollups 800)) = 800 /\
  exists pages, follow (S (length (rollups_in_order r5m demo_rollup_pages 7 21 0 604800000)))
      (loadMachineHistory (fun _ => ([], None)) demo_side demo_rollup_pages "team" "ada" "m" r5m 0 604800000) None = Ok pages /\
    concat pages = map rollupPoint (rollups_in_order r5m demo_rollup_pages 7 21 0 604800000) /\
    Forall (fun page => Z.of_nat (length page) <= ROLLUP_PAGE_SIZE) pages.
Proof.
  split; [reflexivity|].
  apply (machine_rollups_paged (fun _ => ([], None)) demo_side demo_rollup_pages "team" "ada" "m" r5m 0 604800000 "w" 7 21);
    [done|reflexivity|reflexivity|apply (bool_decide_unpack _); vm_compute; exact I].
Defined.

(** The reports of a machine: the payload names the minute, and the decompression stream gives
    its samples every [step] seconds. *)
Definition demo_sample (t : Z) : metric_sample := MetricSample t 421 5 8 0 0 10 20 30 40 None None.
Definition demo_report (step : Z) (payload : list byte) : list metric_sample :=
  map (fun i => demo_sample (60000 * match payload with b :: _ => bz b | [] => 0 end + 1000 * step * Z.of_nat i + 1)) (seq 0 (Z.to_nat (60 / step))).
Definition demo_decompress (step : Z) (payload : list byte) : list (list byte) * option string := ([encode_report (demo_report step payload)], None).
Definition demo_block (i : nat) : block_row :=
  BlockRow 21 7 (300000 * Z.of_nat i) (map (fun j => Some (SlotEntry [byte_of_Z (5 * Z.of_nat i + Z.of_nat j)] [] [])) (seq 0 5)) 1 0.
Definition demo_raw : telemetry_pages := TelemetryPages [] [] [] [] [] (map demo_block (seq 0 12)) [] [] [] [] [].
Example machine_raw_paged_witness :
  Z.of_nat (length (machine_blocks 0 3600000 demo_raw 7 21)) = 12 /\
  exists pages, follow (S (length (machine_blocks 0 3600000 demo_raw 7 21)))
      (loadMachineHistory (demo_decompress 10) demo_side demo_raw "team" "ada" "m" raw 0 3600000) None = Ok pages /\
    concat pages ≡ₚ concat (map (machine_points (demo_decompress 10) 0 3600000) (machine_blocks 0 3600000 demo_raw 7 21)) /\
    Forall (fun page => StronglySorted (Leb (key_leb hp_bucketStart)) page) pages.
Proof.
  split; [reflexivity|].
  apply (machine_raw_paged (demo_decompress 10) 0 3600000 demo_side demo_raw "team" "ada" "m" "w" 7 21);
    [reflexivity|reflexivity|apply (bool_decide_unpack _); vm_compute; exact I|].
  apply Forall_forall. intros r Hr.
  assert (Hall : forallb (fun r => is_ok (block_samples (decodeCompressedMachineSamples (demo_decompress 10)) r) &&
    (Z.of_nat (length (machine_points (demo_decompress 10) 0 3600000 r)) <=? 30)) (machine_blocks 0 3600000 demo_raw 7 21) = true) by (vm_compute; reflexivity).
  pose proof (proj1 (forallb_forall _ _) Hall r (proj1 (list_elem_of_In _ _) Hr)) as H. apply andb_true_iff in H as [H1 H2].
  split; [exact H1 | by apply Z.leb_le].
Defined.

(** An hour of a machine that samples every second. *)
Example machine_raw_overflows_witness :
  Z.of_nat (length (demo_report 1 [Byte.x00])) = 60 /\
  loadMachineHistory (demo_decompress 1) demo_side demo_raw "team" "ada" "m" raw 0 3600000 None = Err "MachineHistoryDataError".
Proof.
  split; [reflexivity|].
  apply (machine_raw_overflows (demo_decompress 1) 0 3600000 demo_side demo_raw "team" "ada" "m" "w" 7 21);
    [reflexivity|reflexivity|apply (bool_decide_unpack _); vm_compute; exact I| | |].
  - apply Forall_forall. intros r Hr.
    assert (Hall : forallb (fun r => is_ok (block_samples (decodeCompressedMachineSamples (demo_decompress 1)) r))
      (take 72 (machine_blocks 0 3600000 demo_raw 7 21)) = true) by (vm_compute; reflexivity).
    apply (proj1 (forallb_forall _ _) Hall r (proj1 (list_elem_of_In _ _) Hr)).
  - vm_compute. congruence.
  - vm_compute. reflexivity.
Defined.
