(* ===== verification/ServiceHistory.v ===== *)
(** * ServiceHistory: the history of a service and of its checks

    [packages/db/src/repositories/service-history.ts]: the status buckets of a service, by five
    minutes or grouped by the hour, and a check's history: its rollups, and its raw results,
    which read the payloads [CheckPersistence] stores. *)

From Stdlib Require Import ZArith Lia Bool String List.
From stdpp Require Import base tactics list strings sorting.
From S2P Require Import Prelude.
From S2P Require Import Js.
From S2P Require Import Sql.
From S2P Require Import Telemetry.
From S2P Require Import CheckPersistence.
From S2P Require Import Authz.
From S2P Require Import MemberData.
From S2P Require Import TextDecoder.
From S2P Require Import QueryBatches.
From S2P Require LiveTicket.
From S2P Require Import HistoryCursor.
From S2P Require Import MachineHistory.
Open Scope string_scope.
Open Scope Z_scope.

Definition CHECK_POINT_LIMIT : Z := 4320.
Definition MAX_CHECK_PAYLOAD_BYTES : Z := 64 * 1024.

(* @src packages/db/src/repositories/service-history.ts ServiceHistoryRow *)
Record ServiceHistoryRow := HistoryRow {
  hr_start : Z; hr_state : option string; hr_rank : option Z; hr_availability : Z; hr_avg : option Z; hr_max : option Z; hr_summary : option string;
}.
(* @src packages/db/src/repositories/service-history.ts ServiceHistoryPoint *)
Record ServiceHistoryPoint := ServicePoint {
  sp_bucketStart : Z; sp_state : ServiceState; sp_availability : Z; sp_latencyAvg : option Z; sp_latencyMax : option Z; sp_summary : option string;
}.
(* @src packages/db/src/repositories/service-history.ts RawCheckHistoryPoint *)
Record RawCheckPoint := RawPoint {
  rp_observedAt : Z; rp_state : CheckState; rp_latencyMs : option Z; rp_failureCode : option string; rp_failureSummary : option string;
}.
(* @src packages/db/src/repositories/service-history.ts CheckRollupHistoryPoint *)
Record CheckRollupPoint := RollupPoint {
  kp_bucketStart : Z; kp_total : Z; kp_healthy : Z; kp_degraded : Z; kp_down : Z; kp_unknown : Z; kp_latencyAvg : option Z; kp_latencyMax : option Z;
}.
#[export] Instance raw_check_point_eq_dec : EqDecision RawCheckPoint. Proof. solve_decision. Defined.
(* @src packages/db/src/repositories/service-history.ts 80-80 CheckHistoryPoint *)
Inductive CheckHistoryPoint := shown_raw (p : RawCheckPoint) | shown_rollup (p : CheckRollupPoint).

(** ** Stored payloads *)

(* @src packages/db/src/repositories/service-history.ts validState *)
Definition validState (value : option json) : option CheckState :=
  match value with
  | Some (JStr s) =>
      if String.eqb s "healthy" then Some CHealthy else if String.eqb s "degraded" then Some CDegraded
      else if String.eqb s "down" then Some CDown else if String.eqb s "unknown" then Some CUnknown else None
  | _ => None
  end.
(* @src packages/db/src/repositories/service-history.ts monitorState *)
Definition monitorState (value : option string) (rank : option Z) : ServiceState :=
  match value with
  | Some "healthy" => SHealthy | Some "degraded" => SDegraded | Some "down" => SDown | Some "maintenance" => SMaintenance | Some "unknown" => SUnknown
  | _ => match coalesce rank 0 with 4 => SMaintenance | 3 => SDown | 2 => SDegraded | 1 => SHealthy | _ => SUnknown end
  end.
(* @src packages/db/src/repositories/service-history.ts boundedOptionalString *)
Definition boundedOptionalString (value : option json) (maximum : Z) : res (option string) :=
  if is_nullish value then Ok None
  else match as_string value with
       | Some s => throw_if maximum <? slen s as "ServiceHistoryDataError" in Ok (Some s)
       | None => Err "ServiceHistoryDataError"
       end.
(* @src packages/db/src/repositories/service-history.ts optionalLatency *)
Definition optionalLatency (value : option json) : res (option Z) :=
  if is_nullish value then Ok None
  else match as_safe_int value with
       | Some n => throw_if (n <? 0) || (120000 <? n) as "ServiceHistoryDataError" in Ok (Some n)
       | None => Err "ServiceHistoryDataError"
       end.
(** [data] gives the properties of the object. *)
(* @src packages/db/src/repositories/service-history.ts 140-156 rawPoint *)
Definition raw_point (data : string -> option json) : res RawCheckPoint :=
  match as_safe_int (data "observedAtMs"), validState (data "state") with
  | Some observedAtMs, Some state =>
      throw_if observedAtMs <=? 0 as "ServiceHistoryDataError" in
      let* latencyMs := optionalLatency (data "latencyMs") in
      let* failureCode := boundedOptionalString (data "failureCode") 64 in
      let* failureSummary := boundedOptionalString (data "failureSummary") 512 in
      Ok (RawPoint observedAtMs state latencyMs failureCode failureSummary)
  | _, _ => Err "ServiceHistoryDataError"
  end.
(* @src packages/db/src/repositories/service-history.ts rawPoint *)
Definition rawPoint (value : json) : res RawCheckPoint :=
  let* data := as_record "ServiceHistoryDataError" value in raw_point (fun k => obj_get k data).
(* @src packages/db/src/repositories/service-history.ts decodeStoredCheckHistoryPayload *)
Definition decodeStoredCheckHistoryPayload (payload : list byte) : res (list RawCheckPoint) :=
  throw_if (blen payload =? 0) || (MAX_CHECK_PAYLOAD_BYTES <? blen payload) as "ServiceHistoryDataError" in
  match (let* text := decode_fatal payload in json_parse text) with
  | Err _ => Err "ServiceHistoryDataError"
  | Ok parsed =>
      let* data := as_record "ServiceHistoryDataError" parsed in
      if is_int 1 (obj_get "v" data) then
        let* point := raw_point (fun k => obj_get (if String.eqb k "observedAtMs" then "observedAt" else k) data) in Ok [point]
      else match obj_get "samples" data with
           | Some (JArr samples) =>
               throw_if negb (is_int 2 (obj_get "v" data)) || (12 <? Z.of_nat (length samples)) || bool_decide (samples = []) as "ServiceHistoryDataError" in
               mapM_res rawPoint samples
           | _ => Err "ServiceHistoryDataError"
           end
  end.

(** ** The queries *)

Definition in_buckets (workspacePk servicePk from to : Z) (b : status_bucket) : bool :=
  (sb_type b =? 2) && (sb_resource b =? servicePk) && (sb_seconds b =? 300) && (sb_workspace b =? workspacePk) &&
  (from <=? sb_start b) && (sb_start b <? to).
(** [CAST(bucket_start / 3600000 AS INTEGER) * 3600000] *)
Definition bucket_hour (b : status_bucket) : Z := sb_start b / 3600000 * 3600000.
Definition state_rank (s : ServiceState) : Z := match s with SMaintenance => 4 | SDown => 3 | SDegraded => 2 | SHealthy => 1 | SUnknown => 0 end.
(** [ROUND(AVG(x))] and [MAX(x)] of a group, [NULL] left out. *)
Definition round_avg (l : list Z) : option Z := match l with [] => None | _ => Some (round_div (sumZ l) (Z.of_nat (length l))) end.
Definition sql_max (l : list Z) : option Z := match l with [] => None | x :: l => Some (foldr Z.max x l) end.
(* @src packages/db/src/repositories/service-history.ts 258-264 loadServiceHistory *)
Definition bucket_row (b : status_bucket) : ServiceHistoryRow :=
  HistoryRow (sb_start b) (Some (state_name (sb_state b))) None (sb_availability b) (sb_avg b) (sb_max b) (Some (sb_summary b)).
(* @src packages/db/src/repositories/service-history.ts 265-276 loadServiceHistory *)
Definition hour_row (buckets : list status_bucket) (hour : Z) : ServiceHistoryRow :=
  let group := List.filter (fun b => bucket_hour b =? hour) buckets in
  HistoryRow hour None (sql_max (map (fun b => state_rank (sb_state b)) group)) (coalesce (round_avg (map sb_availability group)) 0)
    (round_avg (omap sb_avg group)) (sql_max (omap sb_max group)) None.
Definition hour_rows (buckets : list status_bucket) : list ServiceHistoryRow := map (hour_row buckets) (remove_dups (map bucket_hour buckets)).
(* @src packages/db/src/repositories/service-history.ts 288-295 loadServiceHistory *)
Definition service_point (r : ServiceHistoryRow) : ServiceHistoryPoint :=
  ServicePoint (hr_start r) (monitorState (hr_state r) (hr_rank r)) (hr_availability r) (hr_avg r) (hr_max r) (hr_summary r).
Definition history_rows (resolution : HistoryResolution) (t : telemetry_pages) (workspacePk servicePk from to : Z) : list ServiceHistoryRow :=
  let buckets := List.filter (in_buckets workspacePk servicePk from to) (tp_buckets t) in
  match resolution with r5m => map bucket_row buckets | _ => hour_rows buckets end.
(** The resolutions of a service's history: five minutes and one hour. *)
(* @src packages/db/src/repositories/service-history.ts loadServiceHistory *)
Definition loadServiceHistory (d : member_side) (t : telemetry_pages) (workspaceSlug userId serviceId : string) (resolution : HistoryResolution)
    (from to : Z) (cursor : option string) : res (list ServiceHistoryPoint * option string) :=
  let* '(_, workspacePk, servicePk) := loadAuthorizedServiceScope d workspaceSlug userId serviceId in
  let* _ := validateHistoryRange "ServiceHistoryRangeError" resolution from to in
  let* after := validateCursor "ServiceHistoryRangeError" cursor resolution from to in
  let* '(rows, next) := page_of hr_start resolution ROLLUP_PAGE_SIZE
    (page_query hr_start ROLLUP_PAGE_SIZE (fun _ => true) after (history_rows resolution t workspacePk servicePk from to)) in
  Ok (map service_point rows, next).

(* @src packages/db/src/repositories/service-history.ts loadAuthorizedCheckScope *)
Definition loadAuthorizedCheckScope (d : member_side) (workspaceSlug userId serviceId checkId : string) : res (Z * Z) :=
  let* '(workspaceId, workspacePk, _) := loadAuthorizedServiceScope d workspaceSlug userId serviceId in
  match List.find (fun c => String.eqb (hc_workspace c) workspaceId && String.eqb (hc_service c) serviceId && String.eqb (hc_id c) checkId) (md_checks d) with
  | Some check => Ok (workspacePk, hc_pk check)
  | None => Err "ServiceNotFoundError"
  end.
(* @src packages/db/src/repositories/service-history.ts 337-340 loadRawCheckHistory *)
Definition check_step (from to : Z) (point : RawCheckPoint) (points : list RawCheckPoint) : res (list RawCheckPoint) :=
  let points := if (from <=? rp_observedAt point) && (rp_observedAt point <? to) then (points ++ [point])%list else points in
  throw_if CHECK_POINT_LIMIT <? Z.of_nat (length points) as "ServiceHistoryDataError" in Ok points.
(* @src packages/db/src/repositories/service-history.ts loadRawCheckHistory *)
Definition loadRawCheckHistory (t : telemetry_pages) (workspacePk checkPk from to : Z) (after : option Z) : res (list RawCheckPoint * option string) :=
  raw_page decodeStoredCheckHistoryPayload (check_step from to) rp_observedAt "ServiceHistoryDataError" (tp_checkBlocks t) workspacePk checkPk from to after.
Definition in_check_rollups (workspacePk checkPk from to : Z) (r : rollup_row) : bool :=
  (ro_workspace r =? workspacePk) && (ro_check r =? checkPk) && (from <=? ro_start r) && (ro_start r <? to).
(* @src packages/db/src/repositories/service-history.ts 401-414 loadServiceCheckHistory *)
Definition check_rollup_point (r : rollup_row) : CheckRollupPoint :=
  RollupPoint (ro_start r) (ro_total r) (ro_healthy r) (ro_degraded r) (ro_down r)
    (Z.max 0 (ro_total r - ro_healthy r - ro_degraded r - ro_down r)) (ro_avg r) (ro_max r).
(* @src packages/db/src/repositories/service-history.ts loadServiceCheckHistory *)
Definition loadServiceCheckHistory (d : member_side) (t : telemetry_pages) (workspaceSlug userId serviceId checkId : string) (resolution : HistoryResolution)
    (from to : Z) (cursor : option string) : res (list CheckHistoryPoint * option string) :=
  let* '(workspacePk, checkPk) := loadAuthorizedCheckScope d workspaceSlug userId serviceId checkId in
  let* _ := validateHistoryRange "ServiceHistoryRangeError" resolution from to in
  let* after := validateCursor "ServiceHistoryRangeError" cursor resolution from to in
  match resolution with
  | raw => let* '(points, next) := loadRawCheckHistory t workspacePk checkPk from to after in Ok (map shown_raw points, next)
  | _ =>
      let table := match resolution with r5m => tp_checkRollups5m t | _ => tp_checkRollups1h t end in
      let* '(rows, next) := page_of ro_start resolution ROLLUP_PAGE_SIZE
        (page_query ro_start ROLLUP_PAGE_SIZE (in_check_rollups workspacePk checkPk from to) after table) in
      Ok (map (fun r => shown_rollup (check_rollup_point r)) rows, next)
  end.

(** ** Stored payloads decode *)

Definition text_opt (o : option string) (maximum : Z) : Prop := match o with Some s => text_ok s /\ slen s <= maximum | None => True end.
(** What the executors report: a latency within the longest timeout, a code, a summary. *)
Definition result_shown (r : ExecutedCheck) : Prop :=
  match ex_latencyMs r with Some l => 0 <= l <= 120000 | None => True end /\ text_opt (ex_failureCode r) 64 /\ text_opt (ex_failureSummary r) 512.

Lemma hex_ascii bs : str_forall is_ascii (hex bs) = true /\ slen (hex bs) = 2 * blen bs.
Proof.
  assert (Hb : forall b : byte, let s := String (hex_digit (Byte.to_N b / 16)) (String (hex_digit (Byte.to_N b mod 16)) "") in
    str_forall is_ascii s = true /\ slen s = 2) by (intros b; destruct b; split; reflexivity).
  unfold hex. induction bs as [|b bs [IH1 IH2]]; [done|]. unfold blen in *. cbn [map length].
  destruct (Hb b) as [H1 H2]. destruct bs as [|b' bs].
  - cbn [map str_join]. split; [exact H1 | exact H2].
  - cbn [map str_join] in *. rewrite !str_forall_app, !slen_app, H1, H2. change (slen "") with 0. split; [exact IH1|]. cbn [length] in *. lia.
Qed.

Lemma bounded_of_text o n : text_opt o n -> boundedOptionalString (Some (json_of (null_or_str o))) n = Ok o.
Proof. destruct o as [s|]; [|done]. intros [_ H]. cbn. by rewrite (proj2 (Z.ltb_ge _ _)). Qed.
Lemma latency_of_num l : match l with Some l => 0 <= l <= 120000 | None => True end -> optionalLatency (Some (json_of (null_or_num l))) = Ok l.
Proof.
  destruct l as [l|]; [|done]. intros H. unfold optionalLatency. cbn [null_or_num json_of is_nullish]. rewrite as_safe_int_num by (apply safe_nonneg; unfold max_safe; lia).
  by rewrite (proj2 (Z.ltb_ge l 0)), (proj2 (Z.ltb_ge 120000 l)) by lia.
Qed.
Lemma valid_exec s : validState (Some (JStr (exec_name s))) = Some (as_check s).
Proof. by destruct s. Qed.

Section Payload.
Context (config : CheckConfigRow) (id : list byte) (at_ : Z) (r : ExecutedCheck).
Hypothesis Hr : result_shown r.
Hypothesis Hrev : 0 <= cc_config_revision config <= max_safe.
Hypothesis Hat : 0 < at_ <= max_safe.
Hypothesis Hid : blen id <= 64.
Definition payload_object : list (string * jout) :=
  [("v", OInt 1); ("id", OStr (hex id)); ("configRevision", OInt (cc_config_revision config)); ("observedAt", OInt at_);
   ("state", OStr (exec_name (ex_state r))); ("latencyMs", null_or_num (ex_latencyMs r));
   ("failureCode", null_or_str (ex_failureCode r)); ("failureSummary", null_or_str (ex_failureSummary r))].
Lemma payload_object_ok : jout_ok (OObj payload_object) /\ jout_text (OObj payload_object).
Proof.
  destruct Hr as (Hl & Hc & Hs). pose proof (safe_nonneg _ Hrev) as H1. assert (H2 : safe_z at_ = true) by (apply safe_nonneg; lia).
  assert (H3 : match ex_latencyMs r with Some l => safe_z l = true | None => True end) by (destruct (ex_latencyMs r); [apply safe_nonneg; unfold max_safe; lia | done]).
  unfold payload_object. split.
  - cbn [jout_ok]. split; [apply (bool_decide_unpack _); by vm_compute|]. cbn [foldr snd jout_ok].
    destruct (ex_latencyMs r), (ex_failureCode r), (ex_failureSummary r); cbn; tauto.
  - cbn [jout_text foldr fst snd]. pose proof (ascii_text _ (proj1 (hex_ascii id))).
    assert (text_ok (exec_name (ex_state r))) by (apply ascii_text; by destruct (ex_state r)).
    unfold text_opt in *.
    split_and!; try (apply ascii_text; reflexivity); try done; try (destruct (ex_latencyMs r); done);
      [destruct (ex_failureCode r); [apply Hc | done] | destruct (ex_failureSummary r); [apply Hs | done]].
Qed.
Lemma payload_length : blen (result_payload config id at_ r) <= MAX_CHECK_PAYLOAD_BYTES /\ 0 < blen (result_payload config id at_ r).
Proof.
  unfold result_payload. fold payload_object. rewrite blen_encode_utf8. destruct payload_object_ok as [Hok _]. destruct Hr as (Hl & Hc & Hs). split.
  - pose proof (LiveTicket.stringify_length _ Hok) as H. etransitivity; [exact H|]. unfold payload_object, MAX_CHECK_PAYLOAD_BYTES.
    cbn [LiveTicket.jbound foldr fst snd]. rewrite (proj2 (hex_ascii id)). unfold text_opt in *.
    assert (slen (exec_name (ex_state r)) <= 8) by (by destruct (ex_state r)).
    assert (LiveTicket.jbound (null_or_num (ex_latencyMs r)) <= 20) by (by destruct (ex_latencyMs r)).
    assert (LiveTicket.jbound (null_or_str (ex_failureCode r)) <= 400) by (destruct (ex_failureCode r); cbn [null_or_str LiveTicket.jbound]; lia).
    assert (LiveTicket.jbound (null_or_str (ex_failureSummary r)) <= 3200) by (destruct (ex_failureSummary r); cbn [null_or_str LiveTicket.jbound]; lia).
    unfold slen in *. cbn [String.length] in *. lia.
  - cbn [json_stringify]. rewrite slen_cons. match goal with |- context [slen ?s] => pose proof (slen_nonneg s) end. lia.
Qed.
Lemma payload_decodes : decodeStoredCheckHistoryPayload (result_payload config id at_ r) =
  Ok [RawPoint at_ (as_check (ex_state r)) (ex_latencyMs r) (ex_failureCode r) (ex_failureSummary r)].
Proof.
  destruct payload_length as [H1 H2]. destruct payload_object_ok as [Hok Htext]. destruct Hr as (Hl & Hc & Hs).
  unfold decodeStoredCheckHistoryPayload. rewrite (proj2 (Z.eqb_neq _ _)), (proj2 (Z.ltb_ge _ _)) by lia. cbn [orb].
  unfold result_payload. fold payload_object. rewrite (proj2 (decode_stringify _ Htext)). cbn [rbind]. rewrite json_parse_stringify by done.
  cbn [json_of as_record rbind]. unfold raw_point, payload_object. cbn [map fst snd obj_get String.eqb Ascii.eqb Bool.eqb is_int json_of].
  change (is_int 1 (Some (JNum (num_of_Z 1)))) with true. cbn [rbind]. rewrite as_safe_int_num by (apply safe_nonneg; lia). rewrite valid_exec, (proj2 (Z.leb_gt _ _)) by lia.
  rewrite latency_of_num, !bounded_of_text by done. done.
Qed.
End Payload.

(** A stored result is shown as it was: the history reader decodes the payload
    [persistCheckResult] writes into a block to the one point of that result. *)
Theorem stored_payload_shown config id at_ r (Hr : result_shown r) (Hrev : 0 <= cc_config_revision config <= max_safe)
  (Hat : 0 < at_ <= max_safe) (Hid : blen id <= 64) :
  decodeStoredCheckHistoryPayload (result_payload config id at_ r) =
    Ok [RawPoint at_ (as_check (ex_state r)) (ex_latencyMs r) (ex_failureCode r) (ex_failureSummary r)].
Proof. by apply payload_decodes. Qed.

Lemma mapM_res_length {A B} (f : A -> res B) l ys : mapM_res f l = Ok ys -> length ys = length l.
Proof.
  revert ys. induction l as [|x l IH]; intros ys H; cbn [mapM_res] in H; [by injection H as <-|]. ok_inv. subst. cbn. f_equal. by apply IH.
Qed.
Lemma payload_at_most_twelve payload points : decodeStoredCheckHistoryPayload payload = Ok points -> (length points <= 12)%nat.
Proof.
  unfold decodeStoredCheckHistoryPayload. intros H. destruct (_ || _); [done|]. destruct (rbind _ _) as [parsed|]; [|done].
  destruct (as_record _ parsed) as [data|]; [|done]. cbn [rbind] in H. destruct (is_int 1 _).
  - ok_inv. subst. cbn. lia.
  - destruct (obj_get "samples" data) as [[]|]; try done. destruct (_ || _) eqn:E; [done|]. apply orb_false_iff in E as [[_ E]%orb_false_iff _].
    apply mapM_res_length in H. bool_hyps. lia.
Qed.

(** ** The raw history of a check *)

Section CheckRaw.
Context (from to : Z).
Definition check_keep (p : RawCheckPoint) : option RawCheckPoint := if (from <=? rp_observedAt p) && (rp_observedAt p <? to) then Some p else None.
Lemma check_step_law p points : Z.of_nat (length points) <= CHECK_POINT_LIMIT ->
  check_step from to p points = match check_keep p with
    | None => Ok points
    | Some p => if CHECK_POINT_LIMIT <? Z.of_nat (length points) + 1 then Err "ServiceHistoryDataError" else Ok (points ++ [p])%list end.
Proof.
  intros Hp. unfold check_step, check_keep. destruct (_ && _).
  - rewrite length_app. cbn [length]. by rewrite Nat2Z.inj_add.
  - by rewrite (proj2 (Z.ltb_ge _ _)).
Qed.
Definition check_points (r : block_row) : list RawCheckPoint := block_points decodeStoredCheckHistoryPayload check_keep r.
Definition check_blocks (t : telemetry_pages) (workspacePk checkPk : Z) : list block_row := blocks_in_order from to workspacePk checkPk (tp_checkBlocks t).
Lemma omap_length {A B} (f : A -> option B) l : (length (omap f l) <= length l)%nat.
Proof. induction l as [|x l IH]; cbn; [lia|]. destruct (f x); cbn; lia. Qed.
(** A block has five slots of at most twelve results. *)
Lemma check_points_bounded r : length (blk_slots r) = 5%nat -> Z.of_nat (length (check_points r)) <= 60.
Proof.
  intros Hs. unfold check_points, block_points, block_samples. destruct (mapM_res _ (row_payloads r)) as [l|] eqn:E; cbn [rbind]; [|cbn; lia].
  pose proof (omap_length check_keep (concat l)) as H1. enough (length (concat l) <= 12 * length (row_payloads r))%nat as H2.
  { assert (length (row_payloads r) <= 5)%nat by (unfold row_payloads; rewrite <- Hs; apply omap_length). lia. }
  clear H1. revert l E. induction (row_payloads r) as [|p ps IH]; intros l E; cbn [mapM_res] in E; [injection E as <-; cbn; lia|].
  ok_inv. subst. match goal with H : decodeStoredCheckHistoryPayload p = Ok ?a |- _ => apply payload_at_most_twelve in H end.
  match goal with H : mapM_res _ ps = Ok ?b |- _ => specialize (IH _ H) end. cbn [concat length]. rewrite length_app. lia.
Qed.
Definition readable (r : block_row) : Prop := decodes decodeStoredCheckHistoryPayload r.

(** Following the raw pages of a check's history ends, and shows every stored result of the
    range once: its blocks can never exceed a page's points. *)
Theorem check_raw_paged d t workspaceSlug userId serviceId checkId workspacePk checkPk
  (Hscope : loadAuthorizedCheckScope d workspaceSlug userId serviceId checkId = Ok (workspacePk, checkPk))
  (Hrange : validateHistoryRange "ServiceHistoryRangeError" raw from to = Ok tt)
  (Hblocks : blocks_ok (tp_checkBlocks t)) (Hread : Forall readable (tp_checkBlocks t)) :
  exists pages, follow (S (length (check_blocks t workspacePk checkPk)))
      (loadServiceCheckHistory d t workspaceSlug userId serviceId checkId raw from to) None = Ok pages /\
    concat pages ≡ₚ map shown_raw (concat (map check_points (check_blocks t workspacePk checkPk))).
Proof.
  destruct (range_safe _ _ _ _ Hrange) as (H0 & Hlt & Hsafe). destruct Hblocks as [Hkey Hok].
  assert (Hin : forall r, r ∈ check_blocks t workspacePk checkPk -> r ∈ tp_checkBlocks t).
  { intros r. unfold check_blocks, blocks_in_order. rewrite elem_of_order_by. by intros [Hr _]%filter_In_elem. }
  rewrite Forall_forall in Hok, Hread.
  set (load := fun cursor => let* after := validateCursor "ServiceHistoryRangeError" cursor raw from to in loadRawCheckHistory t workspacePk checkPk from to after).
  destruct (raw_pages_complete decodeStoredCheckHistoryPayload _ check_keep CHECK_POINT_LIMIT "ServiceHistoryDataError" check_step_law
    rp_observedAt from to workspacePk checkPk (tp_checkBlocks t) 60) with (e := "ServiceHistoryRangeError") (load := load) as (pages & Hf & Hp & _); try done.
  - intros cursor after Ha. unfold load. by rewrite Ha.
  - apply Forall_forall. intros r Hr. by apply Hread, Hin.
  - apply Forall_forall. intros r Hr. apply check_points_bounded, (Hok r), Hin, Hr.
  - exists (map (map shown_raw) pages). split.
    + etransitivity; [apply (follow_ext _ (fun c => let* '(l, next) := load c in Ok (map shown_raw l, next)))|].
      2: { rewrite follow_map. unfold check_blocks. by rewrite Hf. }
      intros c. unfold loadServiceCheckHistory. rewrite Hscope. cbn [rbind]. rewrite Hrange. cbn [rbind]. unfold load. by destruct (validateCursor _ _ _ _ _).
    + rewrite <- concat_map. by apply fmap_Permutation.
Qed.
End CheckRaw.

(** ** The status history of a service *)

(** Rows on a grid, in strict order, from [lo] on: the last one is that far. *)
Lemma grid_last {Row} (key : Row -> Z) g l : 0 < g -> forall lo row, StronglySorted (key_lt key) l -> Forall (fun r => key r mod g = 0 /\ lo <= key r) l ->
  last l = Some row -> lo + g * (Z.of_nat (length l) - 1) <= key row.
Proof.
  intros Hg. induction l as [|x l IH]; intros lo row Hs Hl Hrow; [done|]. apply StronglySorted_cons in Hs as [Hx Hs]. apply Forall_cons in Hl as [[Hm Hlo] Hl].
  destruct l as [|y l].
  - injection Hrow as ->. cbn [length]. lia.
  - change (last (y :: l) = Some row) in Hrow. specialize (IH (lo + g) row Hs). cbn [length] in *. enough (lo + g + g * (Z.of_nat (S (length l)) - 1) <= key row) by (rewrite !Nat2Z.inj_succ in *; nia).
    apply IH; [|done]. rewrite Forall_forall in Hl, Hx |- *. intros z Hz. destruct (Hl z Hz) as [Hzm _]. split; [done|]. specialize (Hx z Hz). unfold key_lt in Hx.
    pose proof (Z.div_mod (key x) g ltac:(lia)). pose proof (Z.div_mod (key z) g ltac:(lia)).
    assert (key x / g < key z / g) by nia. nia.
Qed.
Lemma bucket_starts workspacePk servicePk from to (t : list status_bucket) : NoDup (map bucket_key t) ->
  NoDup (map sb_start (List.filter (in_buckets workspacePk servicePk from to) t)).
Proof.
  induction t as [|x l IH]; cbn [map List.filter]; [intros _; constructor|]. intros [Hx Hn]%NoDup_cons. destruct (in_buckets _ _ _ _ x) eqn:E; [|by apply IH].
  cbn [map]. constructor; [|by apply IH]. intros H. apply Hx. apply (list_elem_of_fmap sb_start) in H as (y & Hy & [Hin Hp]%filter_In_elem).
  unfold in_buckets in *. bool_hyps. rewrite list_elem_of_fmap. exists y. split; [unfold bucket_key; f_equal; [f_equal; [f_equal|]|]; lia | done].
Qed.
Lemma history_starts resolution t workspacePk servicePk from to : NoDup (map bucket_key (tp_buckets t)) ->
  NoDup (map hr_start (history_rows resolution t workspacePk servicePk from to)).
Proof.
  intros Hk. unfold history_rows, hour_rows. destruct resolution; rewrite map_map; cbn [bucket_row hour_row hr_start]; [|by apply bucket_starts|];
    rewrite map_id; apply NoDup_remove_dups.
Qed.
Definition history_in_order (resolution : HistoryResolution) (t : telemetry_pages) (workspacePk servicePk from to : Z) : list ServiceHistoryRow :=
  rows_in_order hr_start (fun _ => true) (history_rows resolution t workspacePk servicePk from to).
Lemma history_row_range resolution t workspacePk servicePk from to r : 0 <= from ->
  r ∈ history_rows resolution t workspacePk servicePk from to -> from - 3600000 < hr_start r < to /\ 0 <= hr_start r /\
    (resolution = r5m -> from <= hr_start r) /\ (resolution <> r5m -> hr_start r mod 3600000 = 0).
Proof.
  intros H0 Hin. set (ok := fun b => in_buckets workspacePk servicePk from to b = true).
  assert (Hb : forall b, b ∈ List.filter (in_buckets workspacePk servicePk from to) (tp_buckets t) -> from <= sb_start b < to).
  { intros b [_ Hp]%filter_In_elem. unfold in_buckets in Hp. bool_hyps. lia. }
  unfold history_rows, hour_rows in Hin. destruct resolution.
  2: { apply (list_elem_of_fmap bucket_row) in Hin as (b & -> & Hin). specialize (Hb b Hin). cbn. split_and!; try done; lia. }
  all: apply (list_elem_of_fmap (hour_row _)) in Hin as (h & -> & Hin); rewrite elem_of_remove_dups in Hin; apply (list_elem_of_fmap bucket_hour) in Hin as (b & -> & Hin);
    specialize (Hb b Hin); cbn [hour_row hr_start]; unfold bucket_hour; pose proof (Z.div_mod (sb_start b) 3600000 ltac:(lia));
    pose proof (Z.mod_pos_bound (sb_start b) 3600000 ltac:(lia)); pose proof (Z.div_pos (sb_start b) 3600000 ltac:(lia) ltac:(lia));
    split; [lia|]; split; [lia|]; split; [done|]; intros _; by rewrite Z.mod_mul.
Qed.

(** Following the pages of a service's status history ends, and shows every bucket, or every
    hour of buckets, once and in order.  [bucket_key] is the table's primary key. *)
Theorem service_history_paged d t workspaceSlug userId serviceId resolution from to workspaceId workspacePk servicePk
  (Hr : resolution <> raw)
  (Hscope : loadAuthorizedServiceScope d workspaceSlug userId serviceId = Ok (workspaceId, workspacePk, servicePk))
  (Hrange : validateHistoryRange "ServiceHistoryRangeError" resolution from to = Ok tt)
  (Hkey : NoDup (map bucket_key (tp_buckets t))) :
  exists pages, follow (S (length (history_in_order resolution t workspacePk servicePk from to)))
      (loadServiceHistory d t workspaceSlug userId serviceId resolution from to) None = Ok pages /\
    concat pages = map service_point (history_in_order resolution t workspacePk servicePk from to) /\
    Forall (fun page => Z.of_nat (length page) <= ROLLUP_PAGE_SIZE) pages.
Proof.
  destruct (range_safe _ _ _ _ Hrange) as (H0 & Hlt & Hsafe). pose proof (history_starts resolution t workspacePk servicePk from to Hkey) as Hn.
  assert (Htrue : List.filter (fun _ => true) (history_rows resolution t workspacePk servicePk from to) = history_rows resolution t workspacePk servicePk from to)
    by (apply filter_every, Forall_forall; done).
  assert (Hall : forall r, r ∈ history_in_order resolution t workspacePk servicePk from to -> r ∈ history_rows resolution t workspacePk servicePk from to).
  { intros r. unfold history_in_order, rows_in_order. by rewrite Htrue, elem_of_order_by. }
  apply (table_pages_complete hr_start service_point resolution ROLLUP_PAGE_SIZE from to "ServiceHistoryRangeError"); try done.
  - by rewrite Htrue.
  - apply Forall_forall. intros r Hin. apply Hall in Hin. apply history_row_range in Hin; [lia|done].
  - intros pre rem row Heq Hlen Hrow. fold (history_in_order resolution t workspacePk servicePk from to) in Heq.
    assert (Hpre : forall r, r ∈ pre -> r ∈ history_rows resolution t workspacePk servicePk from to) by (intros r Hr'; apply Hall; rewrite Heq, elem_of_app; by left).
    assert (Hs : StronglySorted (key_lt hr_start) (pre ++ rem)%list) by (rewrite <- Heq; apply ordered_strict; by rewrite Htrue).
    apply StronglySorted_app_1_l in Hs. destruct (decide (resolution = r5m)) as [->|Hne].
    + apply last_Some_elem_of, Hpre, history_row_range in Hrow as (_ & _ & H5 & _); [|done]. specialize (H5 eq_refl). lia.
    + pose proof (grid_last hr_start 3600000 pre ltac:(lia) (from - 3600000) row Hs) as Hg. unfold ROLLUP_PAGE_SIZE in Hlen.
      enough (from - 3600000 + 3600000 * (Z.of_nat (length pre) - 1) <= hr_start row) by lia. apply Hg; [|done]. apply Forall_forall. intros r Hr'.
      apply Hpre, history_row_range in Hr' as (H1 & _ & _ & H2); [|done]. split; [by apply H2 | lia].
  - intros cursor after Ha. unfold loadServiceHistory. rewrite Hscope. cbn [rbind]. rewrite Hrange, Ha. done.
Qed.

(** An hour shows the worst state of its buckets, and its longest latency. *)
Lemma foldr_max_in l x : foldr Z.max x l ∈ x :: l /\ forall y, y ∈ x :: l -> y <= foldr Z.max x l.
Proof.
  induction l as [|z l [IH1 IH2]]; cbn.
  - split; [by left|]. intros y ->%list_elem_of_singleton. lia.
  - split.
    + destruct (Z.max_spec z (foldr Z.max x l)) as [[_ ->]|[_ ->]]; [|by right; left]. apply elem_of_cons in IH1 as [H|H]; [rewrite H; by left|by right; right].
    + intros y [->|[->|Hy]%elem_of_cons]%elem_of_cons; [|lia|]; [etransitivity; [apply IH2; by left|lia] | etransitivity; [apply IH2; by right|lia]].
Qed.
Lemma hour_state_worst buckets hour : (exists b, b ∈ buckets /\ bucket_hour b = hour) ->
  (exists b, b ∈ buckets /\ bucket_hour b = hour /\ sp_state (service_point (hour_row buckets hour)) = sb_state b) /\
  forall b, b ∈ buckets -> bucket_hour b = hour -> state_rank (sb_state b) <= state_rank (sp_state (service_point (hour_row buckets hour))).
Proof.
  intros (b0 & Hb0 & Hh0). unfold service_point, hour_row. cbn [sp_state hr_state hr_rank]. set (group := List.filter _ buckets).
  assert (Hg : forall b, b ∈ group <-> b ∈ buckets /\ bucket_hour b = hour) by (intros b; unfold group; rewrite filter_In_elem, Z.eqb_eq; done).
  assert (Hr : forall s, monitorState None (Some (state_rank s)) = s) by (by intros []).
  pose proof (proj2 (Hg b0) (conj Hb0 Hh0)) as Hg0. destruct group as [|b1 g] eqn:Eg; [by apply elem_of_nil in Hg0|].
  cbn [map sql_max]. destruct (foldr_max_in (map (fun b => state_rank (sb_state b)) g) (state_rank (sb_state b1))) as [H1 H2].
  change (state_rank (sb_state b1) :: map (fun b => state_rank (sb_state b)) g) with (map (fun b => state_rank (sb_state b)) (b1 :: g)) in H1, H2.
  apply (list_elem_of_fmap (fun b => state_rank (sb_state b))) in H1 as (b & Hb & Hin). rewrite Hb, Hr. split.
  - exists b. apply Hg in Hin as [H3 H4]. done.
  - intros b' Hb' Hh'. rewrite <- Hb. apply H2. apply (list_elem_of_fmap_2 (fun b => state_rank (sb_state b))), Hg. done.
Qed.

(** ** Examples *)

Example stored_payload_shown_witness :
  result_shown sample_down /\
  decodeStoredCheckHistoryPayload (result_payload sample_config [Byte.x01] 1700000000000 sample_down) =
    Ok [RawPoint 1700000000000 (as_check (ex_state sample_down)) (ex_latencyMs sample_down) (ex_failureCode sample_down) (ex_failureSummary sample_down)].
Proof.
  assert (H : result_shown sample_down).
  { unfold result_shown, sample_down, text_opt. cbn. split_and!; try done; try (apply ascii_text; reflexivity); by vm_compute. }
  split; [exact H|]. apply (stored_payload_shown sample_config [Byte.x01] 1700000000000 sample_down); [exact H| | |]; vm_compute; intuition congruence.
Defined.

Definition demo_payload (i : Z) : list byte :=
  encode_utf8 (json_stringify (OObj [("v", OInt 1); ("observedAt", OInt (300000 * i + 1)); ("state", OStr "healthy"); ("latencyMs", OInt 12)])).
Definition demo_check_block (i : nat) : block_row :=
  BlockRow 41 7 (300000 * Z.of_nat i) [Some (SlotEntry (demo_payload (Z.of_nat i)) [] []); None; None; None; None] 1 0.
Definition demo_checks : telemetry_pages := TelemetryPages [] [] [] [] [] [] (map demo_check_block (seq 0 80)) [] [] [] [].
Example check_raw_paged_witness :
  Z.of_nat (length (check_blocks 0 86400000 demo_checks 7 41)) = 80 /\
  exists pages, follow (S (length (check_blocks 0 86400000 demo_checks 7 41)))
      (loadServiceCheckHistory demo_side demo_checks "team" "ada" "s" "c" raw 0 86400000) None = Ok pages /\
    concat pages ≡ₚ map shown_raw (concat (map (check_points 0 86400000) (check_blocks 0 86400000 demo_checks 7 41))).
Proof.
  split; [reflexivity|].
  apply (check_raw_paged 0 86400000 demo_side demo_checks "team" "ada" "s" "c" 7 41); [reflexivity|reflexivity| |].
  - split; [apply (bool_decide_unpack _); vm_compute; exact I|]. apply Forall_forall. intros r Hr. apply (list_elem_of_fmap demo_check_block) in Hr as (i & -> & _).
    split; [done|]. unfold floorToFiveMinuteBlock. cbn [demo_check_block blk_start]. change BLOCK_INTERVAL_MS with 300000. rewrite (Z.mul_comm 300000), Z.div_mul by lia. lia.
  - apply Forall_forall. intros r Hr.
    assert (Hall : forallb (fun r => is_ok (block_samples decodeStoredCheckHistoryPayload r)) (tp_checkBlocks demo_checks) = true) by (vm_compute; reflexivity).
    apply (proj1 (forallb_forall _ _) Hall r (proj1 (list_elem_of_In _ _) Hr)).
Defined.

Definition demo_buckets : telemetry_pages :=
  TelemetryPages [] [] [] (map (fun i => StatusBucket 2 31 7 (300000 * Z.of_nat i) 300 SHealthy 1000 None None "check_healthy") (seq 0 800)) [] [] [] [] [] [] [].
Example service_history_paged_witness :
  Z.of_nat (length (history_in_order r1h demo_buckets 7 31 1 2678400000)) = 67 /\
  exists pages, follow (S (length (history_in_order r5m demo_buckets 7 31 0 604800000)))
      (loadServiceHistory demo_side demo_buckets "team" "ada" "s" r5m 0 604800000) None = Ok pages /\
    concat pages = map service_point (history_in_order r5m demo_buckets 7 31 0 604800000) /\
    Forall (fun page => Z.of_nat (length page) <= ROLLUP_PAGE_SIZE) pages.
Proof.
  split; [vm_compute; reflexivity|].
  apply (service_history_paged demo_side demo_buckets "team" "ada" "s" r5m 0 604800000 "w" 7 31);
    [done|reflexivity|reflexivity|apply (bool_decide_unpack _); vm_compute; exact I].
Defined.
