(* ===== verification/MachinePages.v ===== *)
(** * MachinePages: the machines a member sees

    [packages/db/src/repositories/machines.ts] and [machine-probes.ts]: the collection, the
    current values and the detail page of a machine, with the last error, the Agent's commands,
    the containers the member may see and the probe tasks of the Agent.  [MemberData] has the
    access, [MachineInventory] the parser of the stored container inventory. *)

From Stdlib Require Import ZArith Lia Bool String Ascii List SpecFloat.
From stdpp Require Import base tactics list strings.
From S2P Require Import Prelude.
From S2P Require Import Js.
From S2P Require Import Sql.
From S2P Require Import CheckPersistence.
From S2P Require Import Web.
From S2P Require Import Authz.
From S2P Require Import QueryBatches.
From S2P Require Import MachineInventory.
From S2P Require PublicStatus.
From S2P Require Import MemberData.
Open Scope string_scope.
Open Scope Z_scope.

(** ** A machine in a list *)

(* @src packages/db/src/repositories/dashboard.ts DashboardMachine *)
Record DashboardMachine := DashMachine {
  dm_id : string;
  dm_name : string;
  dm_labels : list (string * string);
  dm_state : string;
  dm_observedAt : option Z;
  dm_cpuPermille : Z;
  dm_memoryUsed : Z;
  dm_memoryTotal : Z;
  dm_storageUsed : Z;
  dm_storageTotal : Z;
  dm_rxBps : Z;
  dm_txBps : Z;
  dm_rxTotal : Z;
  dm_txTotal : Z;
  dm_load1m : option Z;
  dm_uptime : option Z;
  dm_agentVersion : option string;
  dm_platform : option string;
  dm_arch : option string;
  dm_containersEnabled : bool;
}.
(** [Object.entries(o).filter(([, value]) => typeof value === "string")] *)
Definition string_entries (o : props) : list (string * string) :=
  omap (fun kv => match kv.2 with JStr s => Some (kv.1, s) | _ => None end) o.
(* @src packages/db/src/repositories/machines.ts parseLabels *)
Definition parseLabels (value : string) : list (string * string) :=
  match json_parse value with Ok (JObj o) => string_entries o | _ => [] end.
(* @src packages/db/src/repositories/machines.ts normalizeState *)
Definition normalizeMachineState (state : string) : string :=
  if str_in state ["healthy"; "degraded"; "down"; "offline"; "maintenance"] then state else "unknown".
(** The report is older than the machine's offline threshold. *)
Definition is_stale (m : machine_cols) (l : machine_latest_row) (now : Z) : bool := mc_offline m * 1000 <? now - lr_received l.
(* @src packages/db/src/repositories/machines.ts toDashboardMachine *)
Definition toDashboardMachine (m : machine_cols) (a : option agent_cols) (latest : option machine_latest_row) (now : Z) : DashboardMachine :=
  DashMachine (mc_id m) (mc_name m) (parseLabels (mc_labels m))
    (match latest with None => "unknown" | Some l => if is_stale m l now then "offline" else normalizeMachineState (lr_state l) end)
    (lr_observed <$> latest) (coalesce (lr_cpu <$> latest) 0) (coalesce (lr_memoryUsed <$> latest) 0) (coalesce (lr_memoryTotal <$> latest) 0)
    (coalesce (lr_storageUsed <$> latest) 0) (coalesce (lr_storageTotal <$> latest) 0) (coalesce (lr_rxBps <$> latest) 0) (coalesce (lr_txBps <$> latest) 0)
    (coalesce (lr_rxTotal <$> latest) 0) (coalesce (lr_txTotal <$> latest) 0) (latest ≫= lr_load) (latest ≫= lr_uptime)
    (gc_version <$> a) (gc_platform <$> a) (gc_arch <$> a) (mc_containers m =? 1).
(* @src packages/db/src/repositories/machines.ts loadLatestRows *)
Definition loadLatestRows (t : telemetry_pages) (machinePks : list Z) : list machine_latest_row :=
  queryInBatches machinePks (fun batch => where_in lr_machine batch (tp_machines t)).
(* @src packages/db/src/repositories/machines.ts loadLatestDetailRow *)
Definition loadLatestDetailRow (t : telemetry_pages) (machinePk : Z) : option machine_latest_row :=
  List.find (fun l => lr_machine l =? machinePk) (tp_machines t).

(** [{ id, name, slug, role }] *)
Definition page_workspace (w : MemberWorkspace) : string * string * string * WorkspaceRole := (mw_id w, mw_name w, mw_slug w, mw_role w).
(* @src packages/db/src/repositories/machine-models.ts MachineCollection *)
Record MachineCollection := Collection { mx_workspace : string * string * string * WorkspaceRole; mx_machines : list DashboardMachine }.
(* @src packages/db/src/repositories/machines.ts loadMachineCollection *)
Definition loadMachineCollection (d : member_side) (t : telemetry_pages) (workspaceSlug userId : string) (now : Z) : res MachineCollection :=
  let* access := loadWorkspaceAccess "MachineNotFoundError" d workspaceSlug userId in
  let rows := loadMachineRows d access userId in
  let latest := loadLatestRows t (map (fun row => mc_pk row.1) rows) in
  Ok (Collection (page_workspace access) (map (fun row => toDashboardMachine row.1 row.2 (PublicStatus.map_get lr_machine (mc_pk row.1) latest) now) rows)).
(** The current values, and when they were received. *)
(* @src packages/db/src/repositories/machines.ts loadMachineCurrent *)
Definition loadMachineCurrent (d : member_side) (t : telemetry_pages) (workspaceSlug userId machineId : string) (now : Z) : res (DashboardMachine * option Z) :=
  let* '(_, machine) := loadAuthorizedMachine d workspaceSlug userId machineId in
  let latest := hd_error (loadLatestRows t [mc_pk (mh_machine machine)]) in
  Ok (toDashboardMachine (mh_machine machine) (mh_agent machine) latest now, lr_received <$> latest).

(** ** The probe tasks of the machine's Agent *)

(** The parts of a URL that are shown. *)
Class UrlView `{UA : UrlApi} := {
  (** [url.host] and [url.pathname] *)
  url_host : url -> string;
  url_pathname : url -> string;
  (** [url.username = ""; url.password = ""; url.search = ""; url.hash = ""] *)
  url_bare : url -> url;
}.
Definition check_state_name (s : CheckState) : string := match s with CHealthy => "healthy" | CDegraded => "degraded" | CDown => "down" | CUnknown => "unknown" end.
(* @src packages/db/src/repositories/machine-probes.ts probeState *)
Definition probeState (state : string) : CheckState :=
  if String.eqb state "healthy" then CHealthy else if String.eqb state "degraded" then CDegraded else if String.eqb state "down" then CDown else CUnknown.
Record probe_latest := ProbeLatest { bl_observedAt : Z; bl_state : CheckState; bl_latencyMs : option Z; bl_failureCode : option string }.
Record probe_bucket := ProbeBucket { bb_start : Z; bb_state : CheckState; bb_availability : Z; bb_avg : option Z; bb_max : option Z }.
(* @src packages/db/src/repositories/machine-models.ts MachineProbeTask *)
Record MachineProbeTask := ProbeTask {
  bt_id : string;
  bt_serviceId : string;
  bt_serviceName : string;
  bt_name : string;
  bt_kind : probe_kind;
  bt_target : string;
  bt_interval : Z;
  bt_timeout : Z;
  bt_revision : Z;
  bt_latest : option probe_latest;
  bt_history : list probe_bucket;
}.

Section MachinePages.
Context `{UV : UrlView}.
(** An object's truth is that it parses to one; [new URL] may throw. *)
(* @src packages/db/src/repositories/machine-probes.ts parseProbeTarget *)
Definition parseProbeTarget (kind : probe_kind) (requestJson : string) : string :=
  match json_parse requestJson with
  | Ok (JObj request) =>
      match kind, obj_get "url" request with
      | probe_http, Some (JStr s) =>
          match url_parse s None with Ok u => protocol u ++ "//" ++ url_host u ++ url_pathname u | Err _ => "Invalid target" end
      | _, _ =>
          match obj_get "hostname" request with
          | Some (JStr hostname) =>
              if String.eqb hostname "" then "Invalid target"
              else match kind, as_integer (obj_get "port" request), as_number (obj_get "port" request) with
                   | probe_tcp, Some _, Some port => hostname ++ ":" ++ num_to_string port
                   | _, _, _ => hostname
                   end
          | _ => "Invalid target"
          end
      end
  | _ => "Invalid target"
  end.
(** [ORDER BY s.name, c.name] *)
Definition probe_leb (a b : check_cols * service_cols) : bool :=
  if String.eqb (vc_name a.2) (vc_name b.2) then String.leb (hc_name a.1) (hc_name b.1) else String.leb (vc_name a.2) (vc_name b.2).
(* @src packages/db/src/repositories/machine-probes.ts 80-95 loadMachineProbeTasks *)
Definition configured_probes (d : member_side) (w : MemberWorkspace) (userId agentId : string) : list (check_cols * service_cols) :=
  order_limit probe_leb 32
    (c ← md_checks d; s ← md_services d;
     if String.eqb (vc_id s) (hc_service c) && hc_byAgent c && bool_decide (hc_agent c = Some agentId) && (hc_enabled c =? 1) &&
        String.eqb (hc_workspace c) (mw_id w) && alive (vc_deleted s) && may w userId RService (vc_id s) view d
     then [(c, s)] else []).
(* @src packages/db/src/repositories/machine-probes.ts 145-159 loadMachineProbeTasks *)
Definition probe_history (rows : list rollup_row) : list probe_bucket :=
  map (fun r => ProbeBucket (ro_start r)
    (if 0 <? ro_down r then CDown else if 0 <? ro_degraded r then CDegraded else if 0 <? ro_healthy r then CHealthy else CUnknown)
    (if ro_total r =? 0 then 0 else availability_permille (ro_healthy r) (ro_total r)) (ro_avg r) (ro_max r)) rows.
(* @src packages/db/src/repositories/machine-probes.ts loadMachineProbeTasks *)
Definition loadMachineProbeTasks (d : member_side) (t : telemetry_pages) (w : MemberWorkspace) (userId : string) (agentId : option string) (now : Z)
  : list MachineProbeTask :=
  match agentId with
  | None => []
  | Some agentId =>
      let configured := configured_probes d w userId agentId in
      let checkPks := map (fun cs => hc_pk cs.1) configured in
      let latest := where_in cl_check checkPks (tp_checks t) in
      let rollups := order_by (fun a b => ro_start a <=? ro_start b)
        (List.filter (fun r => bool_decide (ro_check r ∈ checkPks) && (now - 60 * 60000 <=? ro_start r)) (tp_checkRollups5m t)) in
      map (fun '(c, s) =>
        ProbeTask (hc_id c) (vc_id s) (vc_name s) (hc_name c) (hc_kind c) (parseProbeTarget (hc_kind c) (hc_request c)) (hc_interval c) (hc_timeout c)
          (hc_assignment c)
          ((fun l => ProbeLatest (cl_observed l) (probeState (check_state_name (cl_state l))) (cl_latency l) (cl_failure_code l))
             <$> PublicStatus.map_get cl_check (hc_pk c) latest)
          (probe_history (List.filter (fun r => ro_check r =? hc_pk c) rollups))) configured
  end.

(** ** The page of a machine *)

Record machine_info := MachineInfo {
  mi_id : string;
  mi_name : string;
  mi_description : string;
  mi_expectedHost : option string;
  mi_labels : list (string * string);
  mi_sampling : Z;
  mi_report : Z;
  mi_offline : Z;
  mi_containers : bool;
  mi_maintenance : option Z;
  mi_revision : Z;
  mi_createdAt : Z;
}.
Record agent_info := AgentInfo {
  ai_id : string;
  ai_version : string;
  ai_platform : string;
  ai_arch : string;
  ai_hostname : option string;
  ai_osName : option string;
  ai_osVersion : option string;
  ai_kernel : option string;
  ai_applied : Z;
  ai_enrolledAt : Z;
  ai_lastSeen : option Z;
}.
(* @src packages/db/src/repositories/machine-models.ts MachineDetail *)
Record MachineDetail := Detail {
  de_workspace : string * string * string * WorkspaceRole;
  de_machine : machine_info;
  de_latest : DashboardMachine;
  de_receivedAt : option Z;
  de_agent : option agent_info;
  de_lastError : option machine_error;
  de_commands : list AgentCommandRow;
  de_events : list (Z * string * string * string);
  de_inventory : option MachineContainerInventory;
  de_probes : list MachineProbeTask;
  de_canManage : bool;
}.
(** The user's grants on the machine and on the containers of its inventory. *)
(* @src packages/db/src/repositories/machines.ts loadMachineGrants *)
Definition loadMachineGrants (d : member_side) (w : MemberWorkspace) (userId machineId : string) (containerIds : list string) : list ResourceGrant :=
  if bool_decide (mw_role w = admin) then []
  else List.filter (fun g => grant_for RMachine machineId g || (bool_decide (resourceType g = RContainer) && bool_decide (resourceId g ∈ containerIds)))
         (subject_grants (mw_id w) userId (md_authz d)).
(* @src packages/db/src/repositories/machines.ts 627-636 loadMachineDetail *)
Definition agent_command_rows (d : member_side) (agent : option agent_cols) : list AgentCommandRow :=
  match agent with
  | None => []
  | Some a =>
      map (fun c => AgentCommand (oc_id c) (oc_type c) (oc_state c) (oc_result c) (oc_created c) (oc_completed c))
        (order_limit (fun x y => oc_created y <=? oc_created x) 8 (List.filter (fun c => String.eqb (oc_agent c) (gc_id a)) (md_commands d)))
  end.
(** The newest events of a resource. *)
Definition resource_events (t : telemetry_pages) (workspacePk type pk limit : Z) : list state_event :=
  order_limit (fun x y => ev_at y <=? ev_at x) limit
    (List.filter (fun e => (ev_workspace e =? workspacePk) && (ev_type e =? type) && (ev_resource e =? pk)) (tp_events t)).
(* @src packages/db/src/repositories/machines.ts 644-657 loadMachineDetail *)
Definition machine_info_of (m : machine_cols) : machine_info :=
  MachineInfo (mc_id m) (mc_name m) (mc_description m) (mc_expectedHost m) (parseLabels (mc_labels m)) (mc_sampling m) (mc_report m) (mc_offline m)
    (mc_containers m =? 1) (mc_maintenance m) (mc_revision m) (mc_created m).
(* @src packages/db/src/repositories/machines.ts 660-674 loadMachineDetail *)
Definition agent_info_of (a : agent_cols) : agent_info :=
  AgentInfo (gc_id a) (gc_version a) (gc_platform a) (gc_arch a) (nonempty (Some (gc_hostname a))) (nonempty (Some (gc_osName a)))
    (nonempty (Some (gc_osVersion a))) (nonempty (Some (gc_kernel a))) (gc_applied a) (gc_created a) (gc_lastSeen a).
(** [{ ...inventory, containers: inventory.containers.filter(...) }] *)
(* @src packages/db/src/repositories/machines.ts 692-699 loadMachineDetail *)
Definition visible_inventory (role : WorkspaceRole) (grants : list ResourceGrant) (machineId : string) (i : MachineContainerInventory) : MachineContainerInventory :=
  Inventory (in_observedAt i) (in_runtimes i) (List.filter (fun c => canAccessContainer role grants machineId (ct_id c) view) (in_containers i)).
(* @src packages/db/src/repositories/machines.ts loadMachineDetail *)
Definition loadMachineDetail (d : member_side) (t : telemetry_pages) (workspaceSlug userId machineId : string) (now : Z) : res MachineDetail :=
  let* '(access, machine) := loadAuthorizedMachine d workspaceSlug userId machineId in
  let m := mh_machine machine in
  let latestRow := loadLatestDetailRow t (mc_pk m) in
  let inventory := parseContainerInventory (latestRow ≫= lr_inventory) in
  let grants := loadMachineGrants d access userId (mc_id m) (match inventory with Some i => map ct_id (in_containers i) | None => [] end) in
  let events := resource_events t (mw_pk access) 1 (mc_pk m) 20 in
  let probeTasks := loadMachineProbeTasks d t access userId (gc_id <$> mh_agent machine) now in
  let commandRows := agent_command_rows d (mh_agent machine) in
  Ok (Detail (page_workspace access) (machine_info_of m) (toDashboardMachine m (mh_agent machine) latestRow now) (lr_received <$> latestRow)
    (agent_info_of <$> mh_agent machine) (resolveLastMachineError commandRows inventory) (if mh_canManage machine then commandRows else [])
    (map (fun e => (ev_at e, ev_previous e, ev_current e, ev_reason e)) events)
    (visible_inventory (mw_role access) grants (mc_id m) <$> inventory) probeTasks (mh_canManage machine)).
End MachinePages.

(** ** What a member's page shows *)

Lemma filter_filter {A} (p q : A -> bool) l : (forall x, q x = true -> p x = true) -> List.filter q (List.filter p l) = List.filter q l.
Proof.
  intros H. induction l as [|x l IH]; cbn; [done|]. destruct (p x) eqn:Ep; cbn; [destruct (q x); by rewrite IH|].
  destruct (q x) eqn:Eq; [by rewrite (H x Eq) in Ep | done].
Qed.
(** The grants that are loaded decide every container of the inventory as all of them would. *)
Lemma loaded_grants_enough d w userId machineId containerIds id : id ∈ containerIds ->
  canAccessContainer (mw_role w) (loadMachineGrants d w userId machineId containerIds) machineId id view =
  canAccessContainer (mw_role w) (subject_grants (mw_id w) userId (md_authz d)) machineId id view.
Proof.
  intros Hid. unfold loadMachineGrants, canAccessContainer, canAccessResource. destruct (bool_decide (mw_role w = admin)); [done|].
  rewrite !filter_filter; [done| |].
  - intros g ->. done.
  - intros g Hg. unfold grant_for in Hg. apply andb_true_iff in Hg as [H1 H2]. apply bool_decide_eq_true in H1, H2. apply orb_true_iff. right.
    rewrite H1, H2. by rewrite !bool_decide_eq_true_2.
Qed.
Lemma machine_row_of d w userId machineId r : loadMachineRow d w userId machineId = Some r ->
  mh_machine r ∈ md_machines d /\ mh_agent r ∈ active_agents d (mc_id (mh_machine r)) /\ mc_id (mh_machine r) = machineId /\
  mc_workspace (mh_machine r) = mw_id w /\ mc_deleted (mh_machine r) = None /\ may w userId RMachine machineId view d = true /\
  mh_canManage r = may w userId RMachine machineId manage d.
Proof.
  unfold loadMachineRow. intros H. assert (Hin : forall l, hd_error l = Some r -> r ∈ l) by (intros [|x l]; [done|]; intros [= ->]; rewrite elem_of_cons; by left).
  apply Hin in H. apply list_elem_of_bind in H as (m & H & Hm). apply list_elem_of_bind in H as (a & H & Ha).
  destruct (_ && _) eqn:E; [|by apply elem_of_nil in H]. apply list_elem_of_singleton in H as ->. cbn. unfold visible_machine in E. bool_hyps.
  rewrite not_alive in *. subst. done.
Qed.
Lemma authorized_machine d workspaceSlug userId machineId w r : loadAuthorizedMachine d workspaceSlug userId machineId = Ok (w, r) ->
  is_member d w workspaceSlug userId /\ loadMachineRow d w userId machineId = Some r.
Proof.
  unfold loadAuthorizedMachine. intros H. apply rbind_ok in H as (w' & Hw & H). destruct (loadMachineRow d w' userId machineId) as [r'|] eqn:E; [|done].
  injection H as -> ->. split; [by apply (access_member _ _ _ _ _ Hw) | done].
Qed.
Lemma authorized_error d workspaceSlug userId machineId e : loadAuthorizedMachine d workspaceSlug userId machineId = Err e -> e = "MachineNotFoundError".
Proof.
  unfold loadAuthorizedMachine, loadWorkspaceAccess. destruct (member_workspaces d workspaceSlug userId) as [|w l]; cbn; [by intros [= <-]|].
  destruct (loadMachineRow d w userId machineId); [done|by intros [= <-]].
Qed.

Section Pages.
Context `{UV : UrlView}.
Lemma probes_visible d t w userId agentId now p : p ∈ loadMachineProbeTasks d t w userId agentId now -> may w userId RService (bt_serviceId p) view d = true.
Proof.
  unfold loadMachineProbeTasks. destruct agentId as [a|]; [|by intros ?%elem_of_nil]. intros H. apply (list_elem_of_fmap _) in H as ([c s] & -> & H). cbn.
  apply elem_of_order_limit in H. apply list_elem_of_bind in H as (c' & H & _). apply list_elem_of_bind in H as (s' & H & _).
  destruct (_ && _) eqn:E; [|by apply elem_of_nil in H]. apply list_elem_of_singleton in H as [= -> ->]. by bool_hyps.
Qed.

(** C28: The page of a machine is a member's who may view it; nobody else learns that it exists. It
    has the Agent's commands only for who manages the machine, of the reported containers those
    that all of the member's grants allow, and only probe tasks of services the member sees.  (The
    machine's last error, which may be that of a failed command, is shown to all of them.) *)
Theorem machine_page_confined d t workspaceSlug userId machineId now :
  (forall page, loadMachineDetail d t workspaceSlug userId machineId now = Ok page ->
    exists w m, is_member d w workspaceSlug userId /\ m ∈ md_machines d /\ mc_id m = machineId /\ mc_workspace m = mw_id w /\ mc_deleted m = None /\
      de_machine page = machine_info_of m /\ decides w userId RMachine machineId view d = true /\
      de_canManage page = decides w userId RMachine machineId manage d /\ (de_canManage page = false -> de_commands page = []) /\
      (forall i, de_inventory page = Some i -> exists stored,
         parseContainerInventory (loadLatestDetailRow t (mc_pk m) ≫= lr_inventory) = Some stored /\
         forall c, c ∈ in_containers i <-> c ∈ in_containers stored /\
           canAccessContainer (mw_role w) (subject_grants (mw_id w) userId (md_authz d)) machineId (ct_id c) view = true) /\
      (forall p, p ∈ de_probes page -> decides w userId RService (bt_serviceId p) view d = true)) /\
  (forall e, loadMachineDetail d t workspaceSlug userId machineId now = Err e -> e = "MachineNotFoundError").
Proof.
  unfold loadMachineDetail. split.
  - intros page H. apply rbind_ok in H as ([w r] & Hr & [= <-]). apply authorized_machine in Hr as [Hm Hr].
    apply machine_row_of in Hr as (H1 & _ & H2 & H3 & H4 & H5 & H6). exists w, (mh_machine r).
    cbn [de_machine de_canManage de_commands de_inventory de_probes]. rewrite (may_decides d w _ _ _ _ _ Hm) in H5. rewrite (may_decides d w _ _ _ _ _ Hm) in H6.
    split_and!; try done.
    + by intros ->.
    + intros i Hi. destruct (parseContainerInventory _) as [stored|] eqn:Es; [|done]. exists stored. split; [done|]. injection Hi as <-. intros c.
      cbn [visible_inventory in_containers]. rewrite filter_In_elem. split; intros [Hc Ha]; (split; [done|]); rewrite <- H2 in *;
        rewrite loaded_grants_enough in * by (by apply (list_elem_of_fmap_2 ct_id)); done.
    + intros p Hp. rewrite <- (may_decides d w _ _ _ _ _ Hm). by apply (probes_visible _ _ _ _ _ _ _ Hp).
  - intros e H. destruct (loadAuthorizedMachine d workspaceSlug userId machineId) as [[w r]|e'] eqn:E; cbn in H; [done|].
    injection H as <-. by apply (authorized_error _ _ _ _ _ E).
Qed.
End Pages.

(** ** An example *)

#[export] Instance ToyView : UrlView := {|
  url_host := tu_host;
  url_pathname := fun u => match split_on "?" (tu_path u) with p :: _ => p | [] => tu_path u end;
  url_bare := fun u => ToyUrl (tu_scheme u) (tu_host u) (match split_on "?" (tu_path u) with p :: _ => p | [] => tu_path u end);
|}.
Definition demo_container (id name : string) : jout :=
  OObj [("id", OStr id); ("runtime", OStr "docker"); ("runtimeInstance", OStr ""); ("name", OStr name); ("image", OStr "img"); ("state", OStr "running");
        ("health", OStr "none"); ("startedAt", OInt 0); ("restartCount", OInt 0); ("cpuPermille", OInt 1); ("memoryUsedBytes", OInt 1);
        ("memoryLimitBytes", OInt 1); ("networkRxBps", OInt 0); ("networkTxBps", OInt 0); ("ports", OArr [])].
Definition id_a : string := "aaaaaaaaaaaaaaaaaaaaaaaaaaaaaaaa".
Definition id_b : string := "bbbbbbbbbbbbbbbbbbbbbbbbbbbbbbbb".
Definition demo_inventory : string :=
  json_stringify (OObj [("observedAt", OInt 1); ("runtimes", OArr []); ("containers", OArr [demo_container id_a "web"; demo_container id_b "db"])]).
Definition demo_latest : telemetry_pages :=
  TelemetryPages [LatestRow 21 7 1 1 "healthy" 5 1 2 1 2 0 0 0 0 None None (Some demo_inventory)] [] [] [] [] [] [] [] [] [] [].
(** Bob views the machine, but not its container b. *)
Definition demo_granted : member_side :=
  MemberSide (md_workspaces demo_side) (md_memberships demo_side)
    [Authz.GrantRow "w" "bob" (Grant RMachine "m" view allow); Authz.GrantRow "w" "bob" (Grant RContainer id_b view deny)]
    (md_machines demo_side) (md_agents demo_side) (md_services demo_side) (md_checks demo_side) [] [] [] [] [] [] [].
Example machine_page_confined_witness : exists page, loadMachineDetail demo_granted demo_latest "team" "bob" "m" 2 = Ok page /\
  (map ct_id <$> (in_containers <$> de_inventory page)) = Some [id_a] /\
  (exists w m, is_member demo_granted w "team" "bob" /\ m ∈ md_machines demo_granted /\ de_canManage page = decides w "bob" RMachine "m" manage demo_granted).
Proof.
  destruct (loadMachineDetail demo_granted demo_latest "team" "bob" "m" 2) as [page|e] eqn:E.
  - exists page. split; [reflexivity|]. split; [vm_compute in E; injection E as <-; reflexivity|].
    destruct (proj1 (machine_page_confined demo_granted demo_latest "team" "bob" "m" 2) page E) as (w & m & H1 & H2 & _ & _ & _ & _ & _ & H3 & _).
    exists w, m. split; [exact H1|]. split; [exact H2 | exact H3].
  - vm_compute in E. discriminate E.
Defined.
