(* ===== verification/ServicePages.v ===== *)
(** * ServicePages: the services a member sees

    [packages/db/src/repositories/services.ts]: the collection of services, the detail page with
    its checks, and the configuration a manager edits, read back from what [ServiceCompiler]
    stored.  [service-form.ts] of the web app is the form that is sent back. *)

From Stdlib Require Import ZArith Lia Bool String Ascii List SpecFloat.
From stdpp Require Import base tactics list strings.
From S2P Require Import Prelude.
From S2P Require Import Js.
From S2P Require Import Sql.
From S2P Require Import CheckPersistence.
From S2P Require Import Web.
From S2P Require Import Base64Url.
From S2P Require Import TextDecoder.
From S2P Require Import JsonFacts.
From S2P Require Import Authz.
From S2P Require Import QueryBatches.
From S2P Require Import StatusTimeline.
From S2P Require Import ServiceCompiler.
From S2P Require PublicStatus.
From S2P Require Import MemberData.
From S2P Require Import MachinePages.
Open Scope string_scope.
Open Scope Z_scope.

(* @src packages/db/src/repositories/services.ts 36-36 CHECK_PAGE_SIZE *)
Definition CHECK_PAGE_SIZE : Z := 50.
(* @src packages/db/src/repositories/services.ts 37-37 MAX_ASSERTIONS_PER_CHECK *)
Definition MAX_ASSERTIONS_PER_CHECK : Z := 20.
(** [Math.max(1, Math.ceil(total / CHECK_PAGE_SIZE))] *)
Definition check_pages (total : Z) : Z := Z.max 1 ((total + CHECK_PAGE_SIZE - 1) / CHECK_PAGE_SIZE).
(* @src packages/db/src/repositories/services.ts requestedCheckPage *)
Definition requestedCheckPage (value : option number) (total : Z) : Z :=
  match value ≫= safe_int with
  | Some v => if v <? 1 then 1 else Z.min v (check_pages total)
  | None => 1
  end.

(** ** Checks *)

(* @src packages/db/src/repositories/services.ts 153-164 loadCheckRows *)
Definition loadServiceCheckRows (d : member_side) (w : MemberWorkspace) (userId serviceId : string) : list check_cols :=
  order_limit (fun a b => hc_created a <=? hc_created b) 1000
    (List.filter (fun c => String.eqb (hc_workspace c) (mw_id w) && String.eqb (hc_service c) serviceId && may w userId RService (hc_service c) view d) (md_checks d)).
(** [ORDER BY c.service_id, c.created_at] *)
Definition check_leb (a b : check_cols) : bool :=
  if String.eqb (hc_service a) (hc_service b) then hc_created a <=? hc_created b else String.leb (hc_service a) (hc_service b).
(** The first services of the workspace by name, and the checks joined with them. *)
Definition visible_ids (limit : Z) (d : member_side) (w : MemberWorkspace) (userId : string) : list string :=
  map vc_id (order_limit (fun x y => String.leb (vc_name x) (vc_name y)) limit (List.filter (visible_service d w userId) (md_services d))).
(* @src packages/db/src/repositories/services.ts 165-181 loadCheckRows *)
Definition loadCheckRows (d : member_side) (w : MemberWorkspace) (userId : string) : list check_cols :=
  order_limit check_leb 1000
    (c ← md_checks d; id ← visible_ids 200 d w userId; if String.eqb id (hc_service c) && String.eqb (hc_workspace c) (mw_id w) then [c] else []).

(** ** Telemetry *)

Definition bucket_row_of (b : status_bucket) : StatusBucketRow :=
  BucketRow (sb_resource b) (sb_start b) (state_name (sb_state b)) (sb_availability b) (sb_avg b) (sb_max b) (sb_summary b).
Record service_telemetry := ServiceTelemetry { st_services : list service_latest_row; st_checks : list check_latest_row; st_buckets : list StatusBucketRow }.
Definition latest_services (t : telemetry_pages) (workspacePk : Z) (servicePks : list Z) : list service_latest_row :=
  queryInBatches servicePks (fun batch => List.filter (fun l => (sl_workspace l =? workspacePk) && bool_decide (sl_service l ∈ batch)) (tp_services t)).
(* @src packages/db/src/repositories/services.ts loadTelemetry *)
Definition loadTelemetry (t : telemetry_pages) (workspacePk : Z) (servicePks checkPks : list Z) (now : Z) : service_telemetry :=
  match servicePks with
  | [] => ServiceTelemetry [] [] []
  | _ =>
      let since := now - 24 * 60 * 60000 in
      ServiceTelemetry (latest_services t workspacePk servicePks)
        (queryInBatches checkPks (fun batch => List.filter (fun l => (cl_workspace l =? workspacePk) && bool_decide (cl_check l ∈ batch)) (tp_checks t)))
        (queryInBatches servicePks (fun batch => map bucket_row_of (order_by (fun a b => sb_start a <=? sb_start b)
           (List.filter (fun b => (sb_workspace b =? workspacePk) && (sb_type b =? 2) && (sb_seconds b =? 300) && bool_decide (sb_resource b ∈ batch) &&
                                  (since <=? sb_start b)) (tp_buckets t)))))
  end.
(** The state the latest results of the checks give. *)
(* @src packages/db/src/repositories/services.ts 417-425 summarizeService *)
Definition fallback_state (latestChecks : list check_latest_row) : ServiceState :=
  if existsb (fun c => (cl_critical c =? 1) && bool_decide (cl_state c = CDown)) latestChecks then SDown
  else if existsb (fun c => bool_decide (cl_state c = CDown) || bool_decide (cl_state c = CDegraded)) latestChecks then SDegraded
  else if existsb (fun c => bool_decide (cl_state c = CHealthy)) latestChecks then SHealthy else SUnknown.
(* @src packages/db/src/repositories/service-models.ts ServiceSummary *)
Record ServiceSummary := Summary {
  ss_id : string;
  ss_name : string;
  ss_slug : string;
  ss_description : string;
  ss_state : ServiceState;
  ss_checkCount : Z;
  ss_lastCheckedAt : option Z;
  ss_lastTransitionAt : option Z;
  ss_latencyMs : option Z;
  ss_availability24h : option Z;
  ss_timeline : list ServiceTimelineBucket;
  ss_canManage : bool;
}.
(* @src packages/db/src/repositories/services.ts summarizeService *)
Definition summarizeService (service : service_cols) (checks : list check_cols) (telemetry : service_telemetry) (canManage : bool) (now : Z) : ServiceSummary :=
  let latestService := List.find (fun l => sl_service l =? vc_pk service) (st_services telemetry) in
  let latestChecks := List.filter (fun l => bool_decide (cl_check l ∈ map hc_pk checks)) (st_checks telemetry) in
  let serviceBuckets := List.filter (fun b => br_resource b =? vc_pk service) (st_buckets telemetry) in
  let latencies := omap cl_latency latestChecks in
  Summary (vc_id service) (vc_name service) (coalesce (vc_slug service) (vc_id service)) (vc_description service)
    (match latestService with Some l => normalizeState (sl_state l) | None => fallback_state latestChecks end)
    (Z.of_nat (length checks)) (PublicStatus.latest_time None (map cl_observed latestChecks)) (sl_transition <$> latestService)
    (match latencies with [] => None | x :: l => Some (foldr Z.max x l) end)
    (average (sumZ (map br_availability serviceBuckets)) (Z.of_nat (length serviceBuckets)))
    (timelineForService (vc_pk service) (st_buckets telemetry) now 1800 48) canManage.
(* @src packages/db/src/repositories/service-models.ts ServiceCollection *)
Record ServiceCollection := SvCollection { vx_workspace : string * string * string * WorkspaceRole; vx_services : list ServiceSummary }.
(* @src packages/db/src/repositories/services.ts loadServiceCollection *)
Definition loadServiceCollection (d : member_side) (t : telemetry_pages) (workspaceSlug userId : string) (now : Z) : res ServiceCollection :=
  let* access := loadWorkspaceAccess "ServiceNotFoundError" d workspaceSlug userId in
  let services := loadServiceRows d access userId in
  let checks := List.filter (fun c => bool_decide (hc_service c ∈ map (fun s => vc_id s.1) services) && (hc_enabled c =? 1)) (loadCheckRows d access userId) in
  let telemetry := loadTelemetry t (mw_pk access) (map (fun s => vc_pk s.1) services) (map hc_pk checks) now in
  Ok (SvCollection (page_workspace access)
    (map (fun s => summarizeService s.1 (List.filter (fun c => String.eqb (hc_service c) (vc_id s.1)) checks) telemetry s.2 now) services)).

(** ** What is shown of a check *)

(* @src packages/db/src/repositories/services.ts CheckAssertionRow *)
Record CheckAssertionRow := CheckAssertion {
  xa_check : string; xa_source : string; xa_operator : string; xa_selector : option string; xa_expected : string; xa_severity : string;
}.
(* @src packages/db/src/repositories/services.ts objectValue *)
Definition objectValue (value : option json) : option props := match value with Some (JObj o) => Some o | _ => None end.
(* @src packages/db/src/repositories/services.ts stringValue *)
Definition stringValue (value : option json) (fallback : string) : string := coalesce (as_string value) fallback.
(* @src packages/db/src/repositories/services.ts numberValue *)
Definition numberValue (value : option json) (fallback : Z) : Z := coalesce (as_safe_int value) fallback.
(* @src packages/db/src/repositories/services.ts nullableNumberValue *)
Definition nullableNumberValue (value : option json) : option Z := as_safe_int value.
(* @src packages/db/src/repositories/services.ts decodeUtf8Base64 *)
Definition decodeUtf8Base64 (value : option json) : string :=
  match as_string value with
  | Some s => if 8192 <? slen s then "" else rcatch (let* bytes := atob s in decode_fatal bytes) ""
  | None => ""
  end.
(* @src packages/db/src/repositories/services.ts expectedInput *)
Definition expectedInput (value : string) : string :=
  match json_parse value with Ok (JStr s) => s | Ok JNull => "" | Ok v => json_stringify (jout_of_json v) | Err _ => "" end.
(** [service-models.ts]: an assertion as it is edited has the fields of the form's. *)
(* @src packages/db/src/repositories/services.ts 269-275 editConfiguration *)
Definition edit_assertion (a : CheckAssertionRow) : ServiceAssertionInput :=
  AssertionInput (xa_source a) (xa_operator a) (coalesce (xa_selector a) "") (expectedInput (xa_expected a)) (xa_severity a).
(* @src packages/db/src/repositories/service-models.ts ServiceCheckEditConfiguration *)
Record ServiceCheckEditConfiguration := EditConfiguration {
  ec_executorAgentId : option string;
  ec_url : string;
  ec_method : string;
  ec_expectedStatuses : string;
  ec_maxRedirects : Z;
  ec_tlsVerify : bool;
  ec_degradedAfterMs : option Z;
  ec_downAfterMs : option Z;
  ec_maxResponseBytes : Z;
  ec_requestHeaders : string;
  ec_requestBody : string;
  ec_hostname : string;
  ec_serverName : string;
  ec_port : option Z;
  ec_useTls : bool;
  ec_tcpPayload : string;
  ec_tcpResponsePrefix : string;
  ec_assertions : list ServiceAssertionInput;
  ec_secretHeaderNames : list string;
  ec_hasSecretBody : bool;
  ec_hasSecretTcpPayload : bool;
}.
(** [v !== false] *)
Definition not_false (v : option json) : bool := match v with Some (JBool false) => false | _ => true end.
Definition has_text (v : option json) : bool := match as_string v with Some s => negb (String.eqb s "") | None => false end.
(* @src packages/db/src/repositories/services.ts editConfiguration *)
Definition editConfiguration (check : check_cols) (assertions : list CheckAssertionRow) : option ServiceCheckEditConfiguration :=
  match json_parse (hc_request check), json_parse (hc_secretRefs check) with
  | Ok (JObj request), Ok (JObj secrets) =>
      let headers := coalesce (objectValue (obj_get "headers" request)) [] in
      let secretHeaders := coalesce (objectValue (obj_get "headers" secrets)) [] in
      let expectedStatus := match obj_get "expectedStatus" request with
        | Some (JArr l) => omap (fun v => match as_integer (Some v), v with Some _, JNum n => Some n | _, _ => None end) l
        | _ => [] end in
      let statuses := str_join ", " (map num_to_string expectedStatus) in
      Some (EditConfiguration (hc_agent check) (stringValue (obj_get "url" request) "") (stringValue (obj_get "method" request) "GET")
        (if String.eqb statuses "" then "200" else statuses)
        (numberValue (obj_get "maxRedirects" request) 3) (not_false (obj_get "tlsVerify" request))
        (nullableNumberValue (obj_get "degradedAfterMs" request)) (nullableNumberValue (obj_get "downAfterMs" request))
        (numberValue (obj_get "maxResponseBytes" request) 65536)
        (str_join (String (chr 10) "") (map (fun kv => kv.1 ++ ": " ++ kv.2) (string_entries headers)))
        (stringValue (obj_get "body" request) "") (stringValue (obj_get "hostname" request) "") (stringValue (obj_get "serverName" request) "")
        (nullableNumberValue (obj_get "port" request)) (is_str "on" (obj_get "secureTransport" request))
        (decodeUtf8Base64 (obj_get "payloadBase64" request)) (decodeUtf8Base64 (obj_get "responsePrefixBase64" request))
        (map edit_assertion (List.filter (fun a => String.eqb (xa_check a) (hc_id check)) assertions))
        (order_by String.leb (map fst (string_entries secretHeaders)))
        (has_text (obj_get "body" secrets)) (has_text (obj_get "tcpPayload" secrets)))
  | _, _ => None
  end.
(* @src packages/db/src/repositories/service-models.ts ServiceCheckSummary *)
Record ServiceCheckSummary := CheckSummary {
  cy_id : string;
  cy_name : string;
  cy_kind : probe_kind;
  cy_byAgent : bool;
  cy_enabled : bool;
  cy_interval : Z;
  cy_timeout : Z;
  cy_retry : Z;
  cy_critical : bool;
  cy_failure : Z;
  cy_recovery : Z;
  cy_target : string;
  cy_assertionCount : Z;
  cy_state : CheckState;
  cy_observedAt : option Z;
  cy_latencyMs : option Z;
  cy_failureCode : option string;
  cy_failureSummary : option string;
  cy_failures : Z;
  cy_successes : Z;
  cy_edit : option ServiceCheckEditConfiguration;
}.

Section ServicePages.
Context `{UV : UrlView}.
(* @src packages/db/src/repositories/services.ts sanitizedTarget *)
Definition sanitizedTarget (row : check_cols) : string * Z :=
  match json_parse (hc_request row) with
  | Ok (JObj config) =>
      let assertionCount := match obj_get "assertions" config with Some (JArr l) => Z.of_nat (length l) | _ => 0 end in
      match hc_kind row, obj_get "url" config, obj_get "hostname" config with
      | probe_http, Some (JStr s), _ =>
          match url_parse s None with Ok u => (href (url_bare u), assertionCount) | Err _ => ("Invalid configuration", 0) end
      | probe_tcp, _, Some (JStr hostname) | probe_icmp, _, Some (JStr hostname) =>
          (hostname ++ match as_number (obj_get "port" config) with Some port => ":" ++ num_to_string port | None => "" end, assertionCount)
      | _, _, _ => ("Configured target", assertionCount)
      end
  | _ => ("Invalid configuration", 0)
  end.
(* @src packages/db/src/repositories/services.ts 596-623 loadServiceDetail *)
Definition check_summary (canManage : bool) (assertions : list CheckAssertionRow) (latestByCheck : Z -> option check_latest_row) (c : check_cols) : ServiceCheckSummary :=
  let latest := latestByCheck (hc_pk c) in
  let target := sanitizedTarget c in
  CheckSummary (hc_id c) (hc_name c) (hc_kind c) (hc_byAgent c) (hc_enabled c =? 1) (hc_interval c) (hc_timeout c) (hc_retry c) (hc_critical c =? 1)
    (hc_failure c) (hc_recovery c) target.1 target.2 (coalesce (cl_state <$> latest) CUnknown) (cl_observed <$> latest) (latest ≫= cl_latency)
    (latest ≫= cl_failure_code) (latest ≫= cl_failure_summary) (coalesce (cl_failures <$> latest) 0) (coalesce (cl_successes <$> latest) 0)
    (if canManage then editConfiguration c assertions else None).
(** [ORDER BY a.check_id, a.sort_order] *)
Definition assertion_leb (a b : assertion_cols) : bool :=
  if String.eqb (sc_check a) (sc_check b) then sc_order a <=? sc_order b else String.leb (sc_check a) (sc_check b).
(* @src packages/db/src/repositories/services.ts 531-551 loadServiceDetail *)
Definition assertion_rows (d : member_side) (w : MemberWorkspace) (serviceId : string) (visibleChecks : list check_cols) : list CheckAssertionRow :=
  map (fun a => CheckAssertion (sc_check a) (sc_source a) (sc_operator a) (sc_selector a) (sc_expected a) (sc_severity a))
    (order_limit assertion_leb (Z.of_nat (length visibleChecks) * MAX_ASSERTIONS_PER_CHECK + 1)
      (a ← md_assertions d; c ← md_checks d;
       if String.eqb (hc_id c) (sc_check a) && String.eqb (hc_workspace c) (mw_id w) && String.eqb (hc_service c) serviceId &&
          bool_decide (hc_id c ∈ map hc_id visibleChecks)
       then [a] else [])).
(* @src packages/db/src/repositories/service-models.ts ServiceDetail *)
Record ServiceDetail := SvDetail {
  sd_workspace : string * string * string * WorkspaceRole;
  sd_service : ServiceSummary;
  sd_maintenance : option Z;
  sd_createdAt : Z;
  sd_checks : list ServiceCheckSummary;
  sd_page : Z;
  sd_pages : Z;
  sd_total : Z;
  sd_events : list (Z * ServiceState * ServiceState * string);
  sd_publicAccess : bool;
}.
(* @src packages/db/src/repositories/services.ts loadServiceDetail *)
Definition loadServiceDetail (d : member_side) (t : telemetry_pages) (workspaceSlug userId serviceId : string) (now : Z) (checkPage : option number)
  : res ServiceDetail :=
  let* access := loadWorkspaceAccess "ServiceNotFoundError" d workspaceSlug userId in
  match loadServiceRow d access userId serviceId with
  | None => Err "ServiceNotFoundError"
  | Some (service, canManage) =>
      let checks := loadServiceCheckRows d access userId (vc_id service) in
      let total := Z.of_nat (length checks) in
      let page := requestedCheckPage checkPage total in
      let visibleChecks := take (Z.to_nat CHECK_PAGE_SIZE) (drop (Z.to_nat ((page - 1) * CHECK_PAGE_SIZE)) checks) in
      let assertions := if canManage then assertion_rows d access (vc_id service) visibleChecks else [] in
      throw_if Z.of_nat (length visibleChecks) * MAX_ASSERTIONS_PER_CHECK <? Z.of_nat (length assertions)
        as "service assertion collection exceeds the supported limit" in
      let telemetry := loadTelemetry t (mw_pk access) [vc_pk service] (map hc_pk checks) now in
      let events := resource_events t (mw_pk access) 2 (vc_pk service) 50 in
      let policy := List.find (fun p => String.eqb (pc_workspace p) (mw_id access) && bool_decide (pc_type p = RService) && String.eqb (pc_resource p) (vc_id service))
        (md_policies d) in
      Ok (SvDetail (page_workspace access) (summarizeService service (List.filter (fun c => hc_enabled c =? 1) checks) telemetry canManage now)
        (vc_maintenance service) (vc_created service)
        (map (check_summary canManage assertions (fun pk => PublicStatus.map_get cl_check pk (st_checks telemetry))) visibleChecks)
        page (check_pages total) total
        (map (fun e => (ev_at e, normalizeState (ev_previous e), normalizeState (ev_current e), ev_reason e)) events)
        (match policy with Some p => String.eqb (pc_effect p) "allow" | None => false end))
  end.
End ServicePages.

(** ** What a member's page shows *)

Lemma service_row_of d w userId serviceId s c : loadServiceRow d w userId serviceId = Some (s, c) ->
  s ∈ md_services d /\ vc_id s = serviceId /\ vc_workspace s = mw_id w /\ vc_deleted s = None /\ may w userId RService serviceId view d = true /\
  c = may w userId RService serviceId manage d.
Proof.
  unfold loadServiceRow. destruct (List.find _ _) as [s'|] eqn:E; [|done]. intros [= -> <-]. apply List.find_some in E as [Hin Hp].
  unfold visible_service in Hp. bool_hyps. rewrite not_alive in *. subst. split; [by apply list_elem_of_In|]. done.
Qed.
(** The pages of a service's checks, from the first to the last, have every check once. *)
Lemma pages_concat {A} (l : list A) n : forall k, 
  concat (map (fun p => take (Z.to_nat CHECK_PAGE_SIZE) (drop (Z.to_nat (Z.of_nat p * CHECK_PAGE_SIZE)) l)) (seq k n)) =
  take (n * 50) (drop (k * 50) l).
Proof.
  change (Z.to_nat CHECK_PAGE_SIZE) with 50%nat. induction n as [|n IH]; intros k; [done|]. cbn [seq map concat]. rewrite IH.
  replace (Z.to_nat (Z.of_nat k * CHECK_PAGE_SIZE)) with (k * 50)%nat by (unfold CHECK_PAGE_SIZE; lia).
  replace (S n * 50)%nat with (50 + n * 50)%nat by lia. replace (S k * 50)%nat with (k * 50 + 50)%nat by lia. rewrite <- (drop_drop l).
  generalize (drop (k * 50) l). intros l'. rewrite <- (take_drop 50 l') at 3. rewrite take_app_ge, length_take by (rewrite length_take; lia).
  destruct (decide (50 <= length l'))%nat.
  - replace (50 + n * 50 - 50 `min` length l')%nat with (n * 50)%nat by lia. done.
  - rewrite (drop_ge l') by lia. by rewrite !take_nil.
Qed.
Lemma all_pages {A} (l : list A) : concat (map (fun p => take (Z.to_nat CHECK_PAGE_SIZE) (drop (Z.to_nat (Z.of_nat p * CHECK_PAGE_SIZE)) l))
    (seq 0 (Z.to_nat (check_pages (Z.of_nat (length l)))))) = l.
Proof.
  rewrite pages_concat. rewrite drop_0. apply take_ge. unfold check_pages, CHECK_PAGE_SIZE.
  pose proof (Z.div_mod (Z.of_nat (length l) + 50 - 1) 50 ltac:(lia)). pose proof (Z.mod_pos_bound (Z.of_nat (length l) + 50 - 1) 50 ltac:(lia)). lia.
Qed.
Lemma requested_in_range value total : 0 <= total -> 1 <= requestedCheckPage value total <= check_pages total.
Proof.
  intros H. unfold requestedCheckPage. assert (1 <= check_pages total) by (unfold check_pages; lia).
  destruct (value ≫= safe_int) as [v|]; [|lia]. destruct (v <? 1) eqn:E; bool_hyps; lia.
Qed.

Section Pages.
Context `{UV : UrlView}.
Lemma summary_edit canManage assertions latest c : cy_edit (check_summary canManage assertions latest c) = if canManage then editConfiguration c assertions else None.
Proof. done. Qed.
(** The page of a service is a member's who may view it; nobody else learns that it exists. The
    configurations of its checks are there only for who manages the service; of a target only
    the sanitized text is shown.  The page asked for is brought into range, and its checks are
    those of that page. *)
Theorem service_page_confined d t workspaceSlug userId serviceId now checkPage :
  (forall page, loadServiceDetail d t workspaceSlug userId serviceId now checkPage = Ok page ->
    exists w s, is_member d w workspaceSlug userId /\ s ∈ md_services d /\ vc_id s = serviceId /\ vc_workspace s = mw_id w /\ vc_deleted s = None /\
      decides w userId RService serviceId view d = true /\ ss_canManage (sd_service page) = decides w userId RService serviceId manage d /\
      (ss_canManage (sd_service page) = false -> forall c, c ∈ sd_checks page -> cy_edit c = None) /\
      (forall c, c ∈ sd_checks page -> exists k, k ∈ md_checks d /\ hc_service k = serviceId /\ hc_id k = cy_id c /\ cy_target c = (sanitizedTarget k).1) /\
      1 <= sd_page page <= sd_pages page /\
      map cy_id (sd_checks page) = map hc_id (take (Z.to_nat CHECK_PAGE_SIZE) (drop (Z.to_nat ((sd_page page - 1) * CHECK_PAGE_SIZE)) (loadServiceCheckRows d w userId serviceId)))) /\
  (forall e, loadServiceDetail d t workspaceSlug userId serviceId now checkPage = Err e ->
    e = "ServiceNotFoundError" \/ e = "service assertion collection exceeds the supported limit").
Proof.
  unfold loadServiceDetail. split.
  - intros page H. apply rbind_ok in H as (w & Hw & H). apply access_member in Hw as Hm. destruct (loadServiceRow d w userId serviceId) as [[s c]|] eqn:Es; [|done].
    apply service_row_of in Es as (H1 & H2 & H3 & H4 & H5 & H6). destruct (_ <? _) in H; [done|]. injection H as <-. exists w, s.
    cbn [sd_service sd_checks sd_page sd_pages summarizeService ss_canManage]. rewrite (may_decides d w _ _ _ _ _ Hm) in H5. rewrite (may_decides d w _ _ _ _ _ Hm) in H6.
    rewrite H2. split_and!; try done.
    + intros -> k Hk. apply (list_elem_of_fmap _) in Hk as (k' & -> & _). done.
    + intros k Hk. apply (list_elem_of_fmap _) in Hk as (k' & -> & Hk'). exists k'. cbn. apply elem_of_take in Hk' as (i & Hi & _).
      rewrite lookup_drop in Hi. apply list_elem_of_lookup_2, elem_of_order_limit, filter_In_elem in Hi as [Hin Hp].
      bool_hyps. done.
    + apply requested_in_range. lia.
    + apply requested_in_range. lia.
    + rewrite map_map. done.
  - intros e H. destruct (loadWorkspaceAccess _ d workspaceSlug userId) as [w|e'] eqn:E; cbn [rbind] in H.
    + destruct (loadServiceRow d w userId serviceId) as [[s c]|]; [|by injection H as <-; left]. destruct (_ <? _) in H; [injection H as <-; by right|done].
    + unfold loadWorkspaceAccess in E. destruct (member_workspaces _ _ _); [|done]. injection E as <-. injection H as <-. by left.
Qed.
End Pages.

Example service_page_confined_witness : exists page, loadServiceDetail demo_side demo_latest "team" "ada" "s" 2 None = Ok page /\
  map cy_id (sd_checks page) = ["c"] /\ 1 <= sd_page page <= sd_pages page /\
  exists w, is_member demo_side w "team" "ada" /\ ss_canManage (sd_service page) = decides w "ada" RService "s" manage demo_side.
Proof.
  destruct (loadServiceDetail demo_side demo_latest "team" "ada" "s" 2 None) as [page|e] eqn:E.
  - exists page. split; [reflexivity|]. destruct (proj1 (service_page_confined demo_side demo_latest "team" "ada" "s" 2 None) page E)
      as (w & s & H1 & _ & _ & _ & _ & _ & H2 & _ & _ & H3 & _).
    split; [vm_compute in E; injection E as <-; reflexivity|]. split; [exact H3|]. exists w. split; [exact H1 | exact H2].
  - vm_compute in E. discriminate E.
Defined.
