(* ===== verification/ServiceEdit.v ===== *)
(** * ServiceEdit: editing a check's configuration

    [apps/web/src/lib/server/service-form.ts], the form of a check, and what becomes of an
    assertion that a manager opens in the editor and saves again: [services.ts] shows the stored
    text, [service-config-compiler.ts] compiles what comes back. *)

From Stdlib Require Import ZArith Lia Bool String Ascii List SpecFloat.
From stdpp Require Import base tactics list strings.
From S2P Require Import Prelude.
From S2P Require Import Js.
From S2P Require Import Assertions.
From S2P Require Import JsonFacts.
From S2P Require Import Validation.
From S2P Require Import ServiceCompiler.
From S2P Require Import MemberData.
From S2P Require Import ServicePages.
Open Scope string_scope.
Open Scope Z_scope.

(** ** The form *)

(** [FormData] with text fields: the entries in order. *)
Definition form_data := list (string * string).
Definition form_get (name : string) (form : form_data) : option string := obj_get name form.
Definition form_getAll (name : string) (form : form_data) : list string := map snd (List.filter (fun kv => String.eqb kv.1 name) form).
(** [String(form.get(name))], [String(form.get(name) ?? fallback)], [Number(form.get(name))] and
    [form.get(name) ? Number(form.get(name)) : null] *)
Definition form_text (name : string) (form : form_data) : string := coalesce (form_get name form) "null".
Definition form_text_or (name fallback : string) (form : form_data) : string := coalesce (form_get name form) fallback.
Definition form_number (name : string) (form : form_data) : number := match form_get name form with Some s => js_number s | None => num_of_Z 0 end.
Definition form_optional (name : string) (form : form_data) : option number :=
  match form_get name form with Some s => if String.eqb s "" then None else Some (js_number s) | None => None end.
Definition form_is (name value : string) (form : form_data) : bool := bool_decide (form_get name form = Some value).

(** The name and the description are not part of this form. *)
(* @src apps/web/src/lib/server/service-form.ts parseServiceCheckForm *)
Definition parseServiceCheckForm (name description : string) (form : form_data) : CreateServiceMonitorInput :=
  let assertionSources := List.filter (fun v => negb (String.eqb v "none")) (form_getAll "assertionSource" form) in
  let at_or (l : list string) (i : nat) (d : string) := coalesce (l !! i) d in
  MonitorInput name description (form_text "kind" form) (form_text "executorKind" form) (form_text_or "executorAgentId" "" form)
    (form_number "intervalSeconds" form) (form_number "timeoutMs" form) (form_number "retryCount" form) (negb (form_is "critical" "off" form))
    (form_number "failureConfirmations" form) (form_number "recoveryConfirmations" form) (trim (form_text_or "url" "" form))
    (form_text_or "method" "GET" form) (form_text_or "expectedStatuses" "200" form)
    (match form_get "maxRedirects" form with Some s => js_number s | None => num_of_Z 3 end) (negb (form_is "tlsVerify" "off" form))
    (form_optional "degradedAfterMs" form) (form_optional "downAfterMs" form) (form_number "maxResponseBytes" form)
    (form_text_or "requestHeaders" "" form) (form_text_or "secretRequestHeaders" "" form) (form_text_or "requestBody" "" form)
    (form_is "requestBodyIsSecret" "on" form) (trim (form_text_or "hostname" "" form)) (trim (form_text_or "serverName" "" form))
    (form_optional "port" form) (form_is "useTls" "on" form) (form_text_or "tcpPayload" "" form) (form_is "tcpPayloadIsSecret" "on" form)
    (form_text_or "tcpResponsePrefix" "" form)
    (imap (fun i source => AssertionInput source (at_or (form_getAll "assertionOperator" form) i "exists") (at_or (form_getAll "assertionSelector" form) i "")
      (at_or (form_getAll "assertionExpected" form) i "") (at_or (form_getAll "assertionSeverity" form) i "down")) assertionSources).

(** The fields the editor's form sends for its assertions. *)
Definition assertion_fields (l : list ServiceAssertionInput) : form_data :=
  flat_map (fun a => [("assertionSource", si_source a); ("assertionOperator", si_operator a); ("assertionSelector", si_selector a);
                      ("assertionExpected", si_expected a); ("assertionSeverity", si_severity a)]) l.

(** ** An assertion edited without a change *)

(** The stored row: [JSON.stringify(assertion.expected)]. *)
(* @src apps/web/src/lib/server/service-config.ts 501-524 createServiceMonitor *)
Definition stored_assertion (checkId : string) (a : CompiledAssertion) : CheckAssertionRow :=
  CheckAssertion checkId (ca_source a) (ca_operator a) (ca_selector a) (json_stringify (ca_expected a)) (ca_severity a).
Definition edited (checkId : string) (a : CompiledAssertion) : ServiceAssertionInput := edit_assertion (stored_assertion checkId a).
(** A parsed value that its text gives back. *)
Definition reads_back (v : json) : Prop := numbers_read_back (jout_of_json v) = true /\ json_of (jout_of_json v) = v.

Lemma expected_string s : expectedInput (json_stringify (OStr s)) = s.
Proof. unfold expectedInput. by rewrite json_parse_stringify. Qed.
Lemma expected_null : expectedInput (json_stringify ONull) = "".
Proof. reflexivity. Qed.
Lemma expected_value v : json_wf v -> reads_back v -> (forall s, v <> JStr s) -> v <> JNull -> 
  expectedInput (json_stringify (jout_of_json v)) = json_stringify (jout_of_json v) /\ json_parse (json_stringify (jout_of_json v)) = Ok v.
Proof.
  intros Hw [Hn Hb] Hs H0. unfold expectedInput. rewrite json_parse_stringify by (by apply read_back_ok). rewrite Hb. split; [|done]. destruct v; try done. by destruct (Hs s).
Qed.
Lemma no_empty_json : exists e, json_parse "" = Err e.
Proof. by eexists. Qed.

(** What the editor can show without losing what it was: an [equals] assertion on a text that
    is no JSON itself, or on a value other than a text and [null]; a number that its text
    gives back. *)
Definition shown_faithfully (a : CompiledAssertion) : Prop :=
  if String.eqb (ca_operator a) "equals" then
    (exists s e, ca_expected a = OStr s /\ json_parse s = Err e) \/
    (exists v, ca_expected a = jout_of_json v /\ json_wf v /\ reads_back v /\ (forall s, v <> JStr s) /\ v <> JNull)
  else match ca_expected a with
       | ONum x => json_parse (num_to_string x) = Ok (JNum x) /\ js_number (num_to_string x) = x
       | _ => True
       end.

Lemma compiled_parts input a : compileAssertion input = Ok a ->
  ca_source a = si_source input /\ ca_operator a = si_operator input /\ coalesce (ca_selector a) "" = si_selector input /\ ca_severity a = si_severity input /\
  assertionExpected input = Ok (ca_expected a).
Proof.
  unfold compileAssertion. intros H. ok_inv. subst. cbn. destruct (String.eqb_spec (si_selector input) ""); done.
Qed.
(** Only the expected text differs from the compiled input. *)
Lemma edited_compiles id input a : compileAssertion input = Ok a -> slen (si_expected (edited id a)) <= 2048 ->
  (si_operator input = "matches" -> slen (si_expected (edited id a)) <= 256) ->
  compileAssertion (edited id a) = let* expected := assertionExpected (edited id a) in
    Ok (CompiledAssert (ca_source a) (ca_operator a) (ca_selector a) expected (ca_severity a)).
Proof.
  intros H Hl Hm. pose proof (compiled_parts input a H) as (H1 & H2 & H3 & H4 & _). unfold compileAssertion in *.
  assert (Hsel : (if String.eqb (si_selector (edited id a)) "" then None else Some (si_selector (edited id a))) = ca_selector a).
  { ok_inv. subst. cbn. destruct (String.eqb_spec (si_selector input) "") as [E|E]; cbn; [done|]. by destruct (String.eqb_spec (si_selector input) ""). }
  rewrite Hsel. clear Hsel. set (x := edited id a) in *.
  assert (E1 : si_source x = si_source input) by done. assert (E2 : si_operator x = si_operator input) by done.
  assert (E3 : si_selector x = si_selector input) by exact H3. assert (E4 : si_severity x = si_severity input) by exact H4.
  rewrite E1, E2, E3, E4, H1, H2, H4. destruct (negb _ || _ || _); [done|]. destruct (_ || (2048 <? slen (si_expected input))) eqn:E5; [done|].
  apply orb_false_iff in E5 as [E5 _]. rewrite E5, (proj2 (Z.ltb_ge _ _)) by done. cbn [orb].
  destruct (String.eqb (si_operator input) "matches" && (256 <? slen (si_expected input))) eqn:E6; [done|].
  assert (E7 : String.eqb (si_operator input) "matches" && (256 <? slen (si_expected x)) = false).
  { destruct (String.eqb_spec (si_operator input) "matches") as [Eo|]; [|done]. cbn. apply Z.ltb_ge. by apply Hm. }
  rewrite E7. destruct (_ && (negb _ || _)); [done|]. destruct (_ && (slen _ =? 0)); [done|]. done.
Qed.

Section Kept.
Context (id : string) (input : ServiceAssertionInput) (a : CompiledAssertion).
Hypothesis compiled : compileAssertion input = Ok a.
Hypothesis short : slen (si_expected (edited id a)) <= 2048.
Lemma edited_matches : si_operator input = "matches" -> si_expected (edited id a) = si_expected input.
Proof.
  intros Ho. pose proof (compiled_parts input a compiled) as (_ & _ & _ & _ & He). unfold assertionExpected in He. rewrite Ho in He. cbn in He.
  injection He as He. cbn [edited edit_assertion stored_assertion xa_expected si_expected]. rewrite <- He. apply expected_string.
Qed.
Lemma edited_form : compileAssertion (edited id a) = let* expected := assertionExpected (edited id a) in
    Ok (CompiledAssert (ca_source a) (ca_operator a) (ca_selector a) expected (ca_severity a)).
Proof.
  apply (edited_compiles id input a compiled short). intros Ho. rewrite edited_matches by done.
  unfold compileAssertion in compiled. rewrite Ho in compiled. cbn [String.eqb] in compiled. ok_inv. bool_hyps. cbn in *. lia.
Qed.
Lemma eta_compiled (b : CompiledAssertion) : CompiledAssert (ca_source b) (ca_operator b) (ca_selector b) (ca_expected b) (ca_severity b) = b.
Proof. by destruct b. Qed.
Lemma edited_same : shown_faithfully a -> assertionExpected (edited id a) = Ok (ca_expected a).
Proof.
  pose proof (compiled_parts input a compiled) as (_ & H2 & _ & _ & He). unfold shown_faithfully. rewrite H2.
  unfold assertionExpected in *. assert (Eop : si_operator (edited id a) = si_operator input) by exact H2. rewrite Eop.
  cbn [edited edit_assertion stored_assertion xa_expected si_expected].
  destruct (String.eqb_spec (si_operator input) "exists") as [E|_]; [rewrite E; cbn; intros _; by injection He as <-|].
  destruct (String.eqb (si_operator input) "greater_than" || _) eqn:En.
  - assert (String.eqb (si_operator input) "equals" = false) as ->.
    { apply orb_true_iff in En as [->%String.eqb_eq| ->%String.eqb_eq]; done. }
    cbv zeta in He. destruct (is_finite (js_number (si_expected input))) eqn:Ef; [|done]. injection He as <-. cbn [negb].
    intros [H5 H6]. assert (Hx : expectedInput (json_stringify (ONum (js_number (si_expected input)))) = num_to_string (js_number (si_expected input))).
    { unfold expectedInput. cbn [json_stringify]. rewrite Ef, H5. cbn. by rewrite Ef. }
    rewrite Hx, H6, Ef. done.
  - destruct (String.eqb_spec (si_operator input) "type") as [E|_].
    + rewrite E. change (String.eqb "type" "equals") with false. cbv iota. intros _. destruct (str_in (si_expected input) _) eqn:Ei; [|done]. injection He as <-. rewrite expected_string, Ei. done.
    + destruct (String.eqb (si_operator input) "equals").
      * intros [(s & e & Hs & Hp)|(v & Hv & Hw & Hr & Hs & H0)].
        -- rewrite Hs, expected_string, Hp. done.
        -- rewrite Hv. destruct (expected_value v Hw Hr Hs H0) as [-> ->]. done.
      * intros _. injection He as <-. by rewrite expected_string.
Qed.
(** A text that is JSON itself, and [null], come back as something else. *)
Lemma edited_changes : si_operator input = "equals" -> (ca_expected a = ONull \/ exists s v, ca_expected a = OStr s /\ json_parse s = Ok v) ->
  exists expected, assertionExpected (edited id a) = Ok expected /\ expected <> ca_expected a.
Proof.
  intros Ho Hc. pose proof (compiled_parts input a compiled) as (_ & H2 & _). unfold assertionExpected.
  assert (Eop : si_operator (edited id a) = "equals") by (rewrite <- Ho; exact H2). rewrite Eop. cbn [String.eqb Ascii.eqb Bool.eqb orb].
  cbn [edited edit_assertion stored_assertion xa_expected si_expected]. destruct Hc as [->|(s & v & -> & Hp)].
  - rewrite expected_null. destruct no_empty_json as [e ->]. by exists (OStr "").
  - rewrite expected_string, Hp. exists (jout_of_json v). split; [done|]. intros E.
    assert (v = JStr s) as -> by (destruct v; cbn in E; try done; congruence). apply json_parse_str in Hp. lia.
Qed.
End Kept.

(** An assertion that a manager opens in the editor and saves without a change compiles to what
    it was, when the editor can show it faithfully.  An [equals] assertion on [null], or on a
    text that is JSON itself (a quoted number, say), is saved as a different one: the editor
    shows the text without its quotes, and [null] as nothing. *)
Theorem assertion_edit id input a (Hc : compileAssertion input = Ok a) (Hl : slen (si_expected (edited id a)) <= 2048) :
  (shown_faithfully a -> compileAssertion (edited id a) = Ok a) /\
  (si_operator input = "equals" -> (ca_expected a = ONull \/ exists s v, ca_expected a = OStr s /\ json_parse s = Ok v) ->
    exists b, compileAssertion (edited id a) = Ok b /\ ca_expected b <> ca_expected a).
Proof.
  rewrite (edited_form id input a Hc Hl). split.
  - intros Hs. rewrite (edited_same id input a Hc Hs). cbn [rbind]. by rewrite eta_compiled.
  - intros Ho He. destruct (edited_changes id input a Hc Ho He) as (expected & -> & Hne). eexists. split; [done|]. exact Hne.
Qed.

(** [equals "5"], the text, becomes [equals 5], the number. *)
Definition quoted_five : ServiceAssertionInput := AssertionInput "jsonpath" "equals" "$.version" (quoted "5") "down".
Example assertion_edit_witness : exists a b, compileAssertion quoted_five = Ok a /\ ca_expected a = OStr "5" /\
  compileAssertion (edited "c" a) = Ok b /\ ca_expected b <> ca_expected a.
Proof.
  exists (CompiledAssert "jsonpath" "equals" (Some "$.version") (OStr "5") "down").
  assert (Hc : compileAssertion quoted_five = Ok (CompiledAssert "jsonpath" "equals" (Some "$.version") (OStr "5") "down")) by reflexivity.
  destruct (assertion_edit "c" quoted_five _ Hc ltac:(vm_compute; discriminate)) as [_ H].
  destruct H as (b & H1 & H2); [reflexivity|right; exists "5", (JNum (num_of_Z 5)); split; reflexivity|].
  exists b. split; [exact Hc|]. split; [reflexivity|]. split; [exact H1 | exact H2].
Defined.
