(* ===== verification/WorkspacePages.v ===== *)
(** * WorkspacePages: the frame of a workspace and its incidents

    [packages/db/src/repositories/workspace-shell.ts], which decides what the navigation offers,
    and [incidents.ts], the incident center of a member. *)

From Stdlib Require Import ZArith Lia Bool String List.
From stdpp Require Import base tactics list strings.
From S2P Require Import Prelude.
From S2P Require Import Js.
From S2P Require Import Sql.
From S2P Require Import Authz.
From S2P Require Import QueryBatches.
From S2P Require PublicStatus.
From S2P Require Import MemberData.
From S2P Require Import MachinePages.
Open Scope string_scope.
Open Scope Z_scope.

(** ** The navigation *)

(* @src packages/db/src/repositories/workspace-shell.ts WorkspaceShellNavigation *)
Record WorkspaceShellNavigation := Navigation { nv_machines : bool; nv_services : bool; nv_developer : bool }.
(* @src packages/db/src/repositories/workspace-shell.ts computeWorkspaceShellNavigation *)
Definition computeWorkspaceShellNavigation (role : WorkspaceRole) (grants : list ResourceGrant) (resources : list (ResourceType * string)) : WorkspaceShellNavigation :=
  let canView r := canAccessResource role grants r.1 r.2 view in
  Navigation (existsb (fun r => bool_decide (r.1 = RMachine) && canView r) resources) (existsb (fun r => bool_decide (r.1 = RService) && canView r) resources)
    (bool_decide (role = admin)).
(** The rows of [machines] or [services]: id, workspace, deletion. *)
Definition machine_rows (d : member_side) : list (string * string * option Z) := map (fun m => (mc_id m, mc_workspace m, mc_deleted m)) (md_machines d).
Definition service_rows (d : member_side) : list (string * string * option Z) := map (fun s => (vc_id s, vc_workspace s, vc_deleted s)) (md_services d).
(* @src packages/db/src/repositories/workspace-shell.ts 66-88 loadWorkspaceShell *)
Definition visibleResourceExists (d : member_side) (w : MemberWorkspace) (userId : string) (type : ResourceType) (table : list (string * string * option Z)) : bool :=
  if bool_decide (mw_role w = admin) then existsb (fun r => String.eqb r.1.2 (mw_id w) && alive r.2) table
  else existsb (fun allowed =>
    existsb (fun r => String.eqb r.1.1 (resourceId (gr_grant allowed)) && String.eqb r.1.2 (gr_workspace allowed) && alive r.2) table &&
    String.eqb (gr_workspace allowed) (mw_id w) && String.eqb (gr_user allowed) userId && bool_decide (resourceType (gr_grant allowed) = type) &&
    (bool_decide (capability (gr_grant allowed) = view) || bool_decide (capability (gr_grant allowed) = manage)) &&
    bool_decide (effect (gr_grant allowed) = allow) &&
    negb (existsb (fun denied => String.eqb (gr_workspace denied) (gr_workspace allowed) && String.eqb (gr_user denied) (gr_user allowed) &&
      bool_decide (resourceType (gr_grant denied) = resourceType (gr_grant allowed)) && String.eqb (resourceId (gr_grant denied)) (resourceId (gr_grant allowed)) &&
      bool_decide (capability (gr_grant denied) = view) && bool_decide (effect (gr_grant denied) = deny)) (md_grants d))) (md_grants d).
(* @src packages/db/src/repositories/workspace-shell.ts loadWorkspaceShell *)
Definition loadWorkspaceShell (d : member_side) (workspaceSlug userId : string) : res (MemberWorkspace * WorkspaceShellNavigation) :=
  let* workspace := loadWorkspaceAccess "WorkspaceShellNotFoundError" d workspaceSlug userId in
  Ok (workspace, Navigation (visibleResourceExists d workspace userId RMachine (machine_rows d)) (visibleResourceExists d workspace userId RService (service_rows d))
    (bool_decide (mw_role workspace = admin))).

(** The live resources of a workspace. *)
Definition live_resources (d : member_side) (workspaceId : string) : list (ResourceType * string) :=
  (map (fun r => (RMachine, r.1.1)) (List.filter (fun r => String.eqb r.1.2 workspaceId && alive r.2) (machine_rows d)) ++
   map (fun r => (RService, r.1.1)) (List.filter (fun r => String.eqb r.1.2 workspaceId && alive r.2) (service_rows d)))%list.

Lemma existsb_filter_map {A B} (p : A -> bool) (f : A -> B) (q : B -> bool) l : existsb q (map f (List.filter p l)) = existsb (fun x => p x && q (f x)) l.
Proof. induction l as [|x l IH]; cbn; [done|]. destruct (p x); cbn; by rewrite IH. Qed.
Lemma existsb_ext {A} (p q : A -> bool) l : (forall x, p x = q x) -> existsb p l = existsb q l.
Proof. intros H. induction l as [|x l IH]; cbn; [done|]. by rewrite H, IH. Qed.
Lemma existsb_never {A} (p : A -> bool) l : (forall x, p x = false) -> existsb p l = false.
Proof. intros H. induction l as [|x l IH]; cbn; [done|]. by rewrite H, IH. Qed.
(** A grant that shows the resource, and none that hides it. *)
Lemma view_decision grants t id : canAccessResource member grants t id view = true <->
  (exists g, g ∈ grants /\ resourceType g = t /\ resourceId g = id /\ effect g = allow) /\
  forall g, g ∈ grants -> resourceType g = t -> resourceId g = id -> capability g = view -> effect g = deny -> False.
Proof.
  unfold canAccessResource. rewrite bool_decide_eq_false_2 by done. destruct (existsb (fun g => deniesCapability g view) _) eqn:Ed.
  - split; [done|]. intros [_ Hn]. exfalso. apply existsb_exists_elem in Ed as (g & Hg & Hd). apply filter_In_elem in Hg as [Hg Hf].
    unfold grant_for, deniesCapability in *. bool_hyps. destruct g as [gt gi [] []]; cbn in *; try done. by apply (Hn (Grant gt gi view deny)).
  - rewrite existsb_exists_elem. pose proof (proj1 (existsb_false_elem _ _) Ed) as Hd. split.
    + intros (g & Hg & Ha). apply filter_In_elem in Hg as [Hg Hf]. split.
      * exists g. unfold grant_for, allowsCapability in *. bool_hyps. done.
      * intros g' Hg' <- <- Hc He. assert (Hin : g' ∈ List.filter (grant_for (resourceType g') (resourceId g')) grants).
        { apply filter_In_elem. split; [done|]. unfold grant_for. by rewrite !bool_decide_eq_true_2. }
        unfold grant_for in Hf. apply andb_true_iff in Hf as [Ht Hi]. specialize (Hd g' Hin). unfold deniesCapability in Hd. by rewrite Hc, He in Hd.
    + intros [(g & Hg & <- & <- & Ha) _]. exists g. split; [apply filter_In_elem; split; [done|]; unfold grant_for; by rewrite !bool_decide_eq_true_2|].
      unfold allowsCapability. rewrite Ha. by destruct (capability g).
Qed.
Lemma in_subject_grants d w userId g : g ∈ subject_grants (mw_id w) userId (md_authz d) <->
  exists r, r ∈ md_grants d /\ gr_workspace r = mw_id w /\ gr_user r = userId /\ gr_grant r = g.
Proof.
  unfold subject_grants. rewrite list_elem_of_fmap. cbn [resource_grants md_authz]. split.
  - intros (r & -> & [Hr Hp]%filter_In_elem). bool_hyps. by exists r.
  - intros (r & Hr & H1 & H2 & <-). exists r. split; [done|]. apply filter_In_elem. split; [done|]. by rewrite !bool_decide_eq_true_2.
Qed.
Lemma exists_agrees d w userId type table :
  visibleResourceExists d w userId type table =
  existsb (fun r => String.eqb r.1.2 (mw_id w) && alive r.2 && canAccessResource (mw_role w) (subject_grants (mw_id w) userId (md_authz d)) type r.1.1 view) table.
Proof.
  unfold visibleResourceExists. destruct (bool_decide (mw_role w = admin)) eqn:Er.
  - apply bool_decide_eq_true in Er. rewrite Er. apply existsb_ext. intros r. unfold canAccessResource. by rewrite bool_decide_eq_true_2, andb_true_r.
  - apply bool_decide_eq_false in Er. assert (mw_role w = member) as -> by (by destruct (mw_role w)).
    apply eq_true_iff_eq. rewrite !existsb_exists_elem. split.
    + intros (a & Ha & Hp). apply andb_true_iff in Hp as [Hp Hn]. apply negb_true_iff in Hn. pose proof (proj1 (existsb_false_elem _ _) Hn) as Hd.
      apply andb_true_iff in Hp as [Hp He]. apply andb_true_iff in Hp as [Hp _]. apply andb_true_iff in Hp as [Hp Ht]. apply andb_true_iff in Hp as [Hp Hu].
      apply andb_true_iff in Hp as [Hx Hw]. apply existsb_exists_elem in Hx as (r & Hr & Hx). bool_hyps. exists r. split; [done|].
      assert (Er2 : String.eqb r.1.2 (mw_id w) = true) by (apply String.eqb_eq; congruence). rewrite Er2.
      match goal with H : alive r.2 = true |- _ => rewrite H end. cbn [andb].
      apply view_decision. split.
      * exists (gr_grant a). split; [apply in_subject_grants; by exists a|]. done.
      * intros g Hg G1 G2 G3 G4. apply in_subject_grants in Hg as (r' & Hr' & G5 & G6 & <-). specialize (Hd r' Hr').
        cbn beta in Hd. rewrite G5, G6, G1, G2, G3, G4 in Hd. rewrite !bool_decide_eq_true_2, !(proj2 (String.eqb_eq _ _)) in Hd by congruence. done.
    + intros (r & Hr & Hp). apply andb_true_iff in Hp as [Hp Hc]. apply andb_true_iff in Hp as [Hw Ha]. apply String.eqb_eq in Hw.
      apply view_decision in Hc as [(g & Hg & Ht & Hi & He) Hn]. apply in_subject_grants in Hg as (a & Ha' & H5 & H6 & <-). exists a. split; [done|].
      apply andb_true_iff. split.
      * assert (existsb (fun r => String.eqb r.1.1 (resourceId (gr_grant a)) && String.eqb r.1.2 (gr_workspace a) && alive r.2) table = true) as ->.
        { apply existsb_exists_elem. exists r. split; [done|]. rewrite Hi, H5, Hw, !String.eqb_refl, Ha. done. }
        rewrite H5, H6, !String.eqb_refl, Ht, He, !bool_decide_eq_true_2 by done. cbn. by destruct (capability (gr_grant a)).
      * apply negb_true_iff, existsb_false_elem. intros x Hx. apply not_true_is_false. intros Hd. bool_hyps.
        apply (Hn (gr_grant x)); [apply in_subject_grants; exists x; split_and!; congruence|congruence|congruence|done|done].
Qed.
(** The navigation of a workspace offers exactly what the member's grants allow of its live
    resources: the statement and [computeWorkspaceShellNavigation] agree. *)
Theorem shell_navigation_agrees d workspaceSlug userId w nav (H : loadWorkspaceShell d workspaceSlug userId = Ok (w, nav)) :
  is_member d w workspaceSlug userId /\
  nav = computeWorkspaceShellNavigation (mw_role w) (subject_grants (mw_id w) userId (md_authz d)) (live_resources d (mw_id w)).
Proof.
  unfold loadWorkspaceShell in H. apply rbind_ok in H as (w' & Hw & [= <- <-]). split; [by apply (access_member _ _ _ _ _ Hw)|].
  unfold computeWorkspaceShellNavigation, live_resources. rewrite !existsb_app, !existsb_filter_map, !exists_agrees. f_equal.
  - rewrite (existsb_never (fun x => _ && (bool_decide ((RService, _).1 = RMachine) && _))), orb_false_r by (intros x; cbn; by rewrite andb_false_r).
    apply existsb_ext. intros r. cbn. done.
  - rewrite (existsb_never (fun x => _ && (bool_decide ((RMachine, _).1 = RService) && _))), orb_false_l by (intros x; cbn; by rewrite andb_false_r).
    apply existsb_ext. intros r. cbn. done.
Qed.

(** ** The incident center *)

(* @src packages/db/src/repositories/incidents.ts 11-13 INCIDENT_UPDATES_PER_INCIDENT_LIMIT *)
Definition INCIDENT_UPDATES_PER_INCIDENT_LIMIT : Z := 50.
Definition INCIDENT_UPDATES_GLOBAL_LIMIT : Z := 500.
Definition INCIDENT_SERVICES_LIMIT : Z := 20.
Record shown_incident := ShownIncident {
  si_id : string;
  si_title : string;
  si_summary : string;
  si_severity : string;
  si_state : string;
  si_startsAt : Z;
  si_resolvedAt : option Z;
  si_services : list (string * string * string);
  si_updates : list (string * string * string * Z);
  si_canManage : bool;
}.
(* @src packages/db/src/repositories/incidents.ts IncidentCenter *)
Record IncidentCenter := Center {
  ce_workspace : string * string * string * WorkspaceRole;
  ce_services : list (string * string * bool);
  ce_incidents : list shown_incident;
  ce_announcements : list announcement_cols;
  ce_canCreateIncident : bool;
  ce_canManageAnnouncements : bool;
}.
Definition sees_incident (d : member_side) (w : MemberWorkspace) (userId incidentId : string) : bool := incidentViewCondition (query_access w userId) incidentId (md_authz d).
Definition manages_incident (d : member_side) (w : MemberWorkspace) (userId incidentId : string) : bool := incidentManageCondition (query_access w userId) incidentId (md_authz d).
(* @src packages/db/src/repositories/incidents.ts 126-137 loadIncidentCenter *)
Definition incident_rows (d : member_side) (w : MemberWorkspace) (userId : string) : list (incident_cols * bool) :=
  map (fun i => (i, manages_incident d w userId (ic_id i)))
    (order_limit (fun a b => ic_starts b <=? ic_starts a) 100
      (List.filter (fun i => String.eqb (ic_workspace i) (mw_id w) && alive (ic_deleted i) && sees_incident d w userId (ic_id i)) (md_incidents d))).
(* @src packages/db/src/repositories/incidents.ts 140-148 loadIncidentCenter *)
Definition incident_services (d : member_side) (incidentIds : list string) : list affected_cols :=
  queryEachInBatches incidentIds (fun incidentId =>
    order_limit (fun a b => String.leb (fc_resource a) (fc_resource b)) (INCIDENT_SERVICES_LIMIT + 1)
      (List.filter (fun a => bool_decide (fc_type a = RService) && String.eqb (fc_incident a) incidentId) (md_affected d))).
(** The loop that counts: the count of some incident passes the limit. *)
(* @src packages/db/src/repositories/incidents.ts 156-161 loadIncidentCenter *)
Definition too_many_services (resources : list affected_cols) : bool :=
  existsb (fun a => INCIDENT_SERVICES_LIMIT <? count_if (fun b => String.eqb (fc_incident b) (fc_incident a)) resources) resources.
(* @src packages/db/src/repositories/incidents.ts 162-190 loadIncidentCenter *)
Definition show_incident (services : list (string * string * bool)) (resources : list affected_cols) (updates : list incident_update) (i : incident_cols * bool) : shown_incident :=
  ShownIncident (ic_id i.1) (ic_title i.1) (ic_summary i.1) (ic_severity i.1) (ic_state i.1) (ic_starts i.1) (ic_resolved i.1)
    (omap (fun a => if String.eqb (fc_incident a) (ic_id i.1)
                    then (fun s => (fc_resource a, s.1.2, fc_impact a)) <$> PublicStatus.map_get (fun s => s.1.1) (fc_resource a) services else None) resources)
    (map (fun u => (iu_id u, iu_state u, iu_body u, iu_time u)) (List.filter (fun u => String.eqb (iu_incident u) (ic_id i.1)) updates)) i.2.
(* @src packages/db/src/repositories/incidents.ts 191-202 loadIncidentCenter *)
Definition announcement_rows (d : member_side) (w : MemberWorkspace) (now : Z) : list announcement_cols :=
  let isAdmin := bool_decide (mw_role w = admin) in
  order_limit (fun a b => nc_starts b <=? nc_starts a) 100
    (List.filter (fun a => String.eqb (nc_workspace a) (mw_id w) && alive (nc_deleted a) && (now <? nc_expires a) && ((nc_starts a <=? now) || isAdmin) &&
       (negb (String.eqb (nc_visibility a) "private") || isAdmin)) (md_announcements d)).
(* @src packages/db/src/repositories/incidents.ts loadIncidentCenter *)
Definition loadIncidentCenter (d : member_side) (workspaceSlug userId : string) (now : Z) : res IncidentCenter :=
  let* workspace := loadWorkspaceAccess "IncidentCenterNotFoundError" d workspaceSlug userId in
  let services := map (fun s => (vc_id s.1, vc_name s.1, s.2)) (loadServiceRows d workspace userId) in
  let incidents := incident_rows d workspace userId in
  let incidentIds := map (fun i => ic_id i.1) incidents in
  let resources := incident_services d incidentIds in
  let* updates := loadLatestIncidentUpdates (md_updates d) incidentIds INCIDENT_UPDATES_PER_INCIDENT_LIMIT INCIDENT_UPDATES_GLOBAL_LIMIT in
  throw_if too_many_services resources as "IncidentCenterDataError" in
  Ok (Center (page_workspace workspace) services (map (show_incident services resources updates) incidents) (announcement_rows d workspace now)
    (bool_decide (mw_role workspace = admin) || existsb (fun s => s.2) services) (bool_decide (mw_role workspace = admin))).

(** An affected service of an incident that the member may view, by inheritance. *)
Definition inherits (d : member_side) (w : MemberWorkspace) (userId incidentId : string) : bool := inherits_view (query_access w userId) incidentId (md_authz d).
Lemma in_map_get {R K} `{EqDecision K} (key : R -> K) k rows r : PublicStatus.map_get key k rows = Some r -> r ∈ rows /\ key r = k.
Proof. unfold PublicStatus.map_get. intros H%last_Some_elem_of. apply filter_In_elem in H as [H Hk]. split; [done|]. by apply key_is_true. Qed.
Lemma service_rows_visible d w userId s : s ∈ loadServiceRows d w userId -> s.1 ∈ md_services d /\ vc_workspace s.1 = mw_id w /\ vc_deleted s.1 = None /\
  may w userId RService (vc_id s.1) view d = true /\ s.2 = may w userId RService (vc_id s.1) manage d.
Proof.
  unfold loadServiceRows. intros H. apply (list_elem_of_fmap _) in H as (x & -> & H). apply elem_of_order_limit, filter_In_elem in H as [Hin Hp]. cbn.
  unfold visible_service in Hp. bool_hyps. rewrite not_alive in *. done.
Qed.
Lemma incident_services_in d incidentIds a : a ∈ incident_services d incidentIds -> a ∈ md_affected d.
Proof.
  unfold incident_services, queryEachInBatches. intros H. apply list_elem_of_In, in_flat_map in H as (b & _ & H).
  apply in_flat_map in H as (i & _ & H). apply list_elem_of_In in H.
  by apply elem_of_order_limit, filter_In_elem in H as [H _].
Qed.
(** The incident center shows a member the incidents their grants allow, themselves or by a
    service they affect, with only those affected services the member may view; private and
    planned announcements are an administrator's. *)
Theorem incident_center_confined d workspaceSlug userId now page (H : loadIncidentCenter d workspaceSlug userId now = Ok page) :
  exists w, is_member d w workspaceSlug userId /\
    let grants := subject_grants (mw_id w) userId (md_authz d) in
    (forall i, i ∈ ce_incidents page -> canAccessIncident (mw_role w) grants (si_id i) view (inherits d w userId (si_id i)) = true /\
      (exists r, r ∈ md_incidents d /\ ic_id r = si_id i /\ ic_workspace r = mw_id w /\ ic_deleted r = None) /\
      forall s, s ∈ si_services i -> decides w userId RService s.1.1 view d = true /\ exists a, a ∈ md_affected d /\ fc_incident a = si_id i /\ fc_resource a = s.1.1) /\
    (forall s, s ∈ ce_services page -> decides w userId RService s.1.1 view d = true /\ s.2 = decides w userId RService s.1.1 manage d) /\
    (forall a, a ∈ ce_announcements page -> nc_workspace a = mw_id w /\ now < nc_expires a /\
      (mw_role w = member -> nc_starts a <= now /\ nc_visibility a <> "private")).
Proof.
  unfold loadIncidentCenter in H. apply rbind_ok in H as (w & Hw & H). apply access_member in Hw as Hm. apply rbind_ok in H as (updates & _ & H).
  destruct (too_many_services _) in H; [done|]. injection H as <-. exists w. split; [done|]. cbv zeta. cbn [ce_incidents ce_services ce_announcements]. split; [|split].
  - intros i Hi. apply (list_elem_of_fmap _) in Hi as ([r c] & -> & Hi). apply (list_elem_of_fmap _) in Hi as (r' & [= -> ->] & Hi).
    apply elem_of_order_limit, filter_In_elem in Hi as [Hin Hp]. cbn [show_incident si_id si_services fst]. bool_hyps. split; [|split].
    + match goal with H : sees_incident _ _ _ _ = true |- _ => unfold sees_incident in H;
        rewrite (proj1 (incidentConditions_agree _ _ _)) in H; apply andb_true_iff in H as [_ H]; exact H end.
    + exists r'. rewrite not_alive in *. done.
    + intros s Hs. apply list_elem_of_omap in Hs as (a & Ha & Hs). destruct (String.eqb_spec (fc_incident a) (ic_id r')) as [Ei|]; [|done].
      apply fmap_Some in Hs as (x & Hx & ->). apply in_map_get in Hx as [Hx Hk]. cbn. apply (list_elem_of_fmap _) in Hx as (y & -> & Hy).
      apply service_rows_visible in Hy as (_ & _ & _ & Hv & _). cbn in Hk. rewrite <- Hk. split; [by rewrite <- (may_decides d w _ _ _ _ _ Hm)|].
      exists a. split; [|by rewrite Hk]. by apply (incident_services_in d _ _ Ha).
  - intros s Hs. apply (list_elem_of_fmap _) in Hs as (y & -> & Hy). apply service_rows_visible in Hy as (_ & _ & _ & Hv & Hc). cbn.
    rewrite <- !(may_decides d w _ _ _ _ _ Hm). done.
  - intros a Ha. apply elem_of_order_limit, filter_In_elem in Ha as [_ Hp]. bool_hyps. split; [done|]. split; [lia|]. intros Hr. rewrite Hr in *.
    rewrite bool_decide_eq_false_2, !orb_false_r in * by done. bool_hyps. done.
Qed.

(** Bob sees the incident of a service he may view, without the service he may not. *)
Definition demo_incidents : member_side :=
  MemberSide (md_workspaces demo_side) (md_memberships demo_side) [Authz.GrantRow "w" "bob" (Grant RService "s" view allow)] [] []
    [ServiceCols "s" 31 "w" "api" None "" None 0 None; ServiceCols "z" 32 "w" "db" None "" None 0 None] [] [] [] []
    [IncidentCols "i" "w" "Outage" "" "major" "investigating" 5 None 5 None]
    [AffectedCols "i" RService "s" "down"; AffectedCols "i" RService "z" "down"] []
    [AnnouncementCols "n" "w" "Plan" "" "info" "private" 0 100 None].
Example incident_center_confined_witness : exists page, loadIncidentCenter demo_incidents "team" "bob" 10 = Ok page /\
  map si_services (ce_incidents page) = [[("s", "api", "down")]] /\ ce_announcements page = [] /\
  exists w, is_member demo_incidents w "team" "bob" /\
    forall s, s ∈ ce_services page -> decides w "bob" RService s.1.1 view demo_incidents = true /\ s.2 = decides w "bob" RService s.1.1 manage demo_incidents.
Proof.
  destruct (loadIncidentCenter demo_incidents "team" "bob" 10) as [page|e] eqn:E.
  - exists page. split; [reflexivity|]. destruct (incident_center_confined demo_incidents "team" "bob" 10 page E) as (w & H1 & _ & H2 & _).
    split; [vm_compute in E; injection E as <-; reflexivity|]. split; [vm_compute in E; injection E as <-; reflexivity|]. exists w. split; [exact H1 | exact H2].
  - vm_compute in E. discriminate E.
Defined.
Example shell_navigation_agrees_witness : exists w, loadWorkspaceShell demo_incidents "team" "bob" = Ok (w, Navigation false true false) /\
  Navigation false true false = computeWorkspaceShellNavigation (mw_role w) (subject_grants (mw_id w) "bob" (md_authz demo_incidents)) (live_resources demo_incidents (mw_id w)).
Proof.
  eexists. split; [reflexivity|]. apply (shell_navigation_agrees demo_incidents "team" "bob"). reflexivity.
Defined.
