(* ===== verification/DashboardPage.v ===== *)
(** * DashboardPage: the overview of a workspace

    [packages/db/src/repositories/dashboard.ts] computes the state of every machine and service
    once more than [machines.ts] and [services.ts] do.  The theorems say when the numbers and the
    previews of the overview are those of the pages it links to. *)

From Stdlib Require Import ZArith Lia Bool String List.
From stdpp Require Import base tactics list strings.
From S2P Require Import Prelude.
From S2P Require Import Js.
From S2P Require Import Sql.
From S2P Require Import CheckPersistence.
From S2P Require Import Authz.
From S2P Require Import AuditLog.
From S2P Require Import QueryBatches.
From S2P Require Import StatusTimeline.
From S2P Require PublicStatus.
From S2P Require Import MemberData.
From S2P Require Import MachinePages.
From S2P Require Import ServicePages.
From S2P Require Import WorkspacePages.
Open Scope string_scope.
Open Scope Z_scope.

(* @src packages/db/src/repositories/dashboard.ts DashboardService *)
Record DashboardService := DashService { ds_id : string; ds_name : string; ds_state : string; ds_lastCheckedAt : option Z; ds_timeline : list (Z * string) }.
Record dashboard_summary := DashSummary {
  du_machines : Z;
  du_online : Z;
  du_impaired : Z;
  du_offline : Z;
  du_rxBps : Z;
  du_txBps : Z;
  du_rxTotal : Z;
  du_txTotal : Z;
  du_services : Z;
  du_servicesDown : Z;
  du_activeIncidents : Z;
}.
(* @src packages/db/src/repositories/dashboard.ts DashboardSnapshot *)
Record DashboardSnapshot := Snapshot {
  dp_workspace : string * string * string * WorkspaceRole;
  dp_summary : dashboard_summary;
  dp_machines : list DashboardMachine;
  dp_services : list DashboardService;
}.
(* @src packages/db/src/repositories/dashboard.ts 133-133 DASHBOARD_MACHINE_PREVIEW *)
Definition DASHBOARD_MACHINE_PREVIEW : nat := 12.
(* @src packages/db/src/repositories/dashboard.ts 134-134 DASHBOARD_SERVICE_PREVIEW *)
Definition DASHBOARD_SERVICE_PREVIEW : nat := 10.
(** [{ ... }[state]]: [None] is [undefined]. *)
(* @src packages/db/src/repositories/dashboard.ts machineStatePriority *)
Definition machineStatePriority (state : string) : option Z :=
  obj_get state [("down", 0); ("degraded", 1); ("offline", 2); ("unknown", 3); ("maintenance", 4); ("healthy", 5)].
(* @src packages/db/src/repositories/dashboard.ts serviceStatePriority *)
Definition serviceStatePriority (state : string) : option Z := obj_get state [("down", 0); ("degraded", 1); ("unknown", 2); ("maintenance", 3); ("healthy", 4)].

Section Dashboard.
Context `{LO : Locale}.
(** [priority(left) - priority(right) || left.name.localeCompare(right.name)], at most zero *)
Definition preview_leb (l r : option Z) (lname rname : string) : bool :=
  match l, r with
  | Some a, Some b => if a =? b then locale_leb lname rname else a <? b
  | _, _ => locale_leb lname rname
  end.
Definition machine_preview_leb (l r : DashboardMachine) : bool :=
  preview_leb (machineStatePriority (dm_state l)) (machineStatePriority (dm_state r)) (dm_name l) (dm_name r).
Definition service_preview_leb (l r : DashboardService) : bool :=
  preview_leb (serviceStatePriority (ds_state l)) (serviceStatePriority (ds_state r)) (ds_name l) (ds_name r).

(* @src packages/db/src/repositories/dashboard.ts 211-237 loadDashboardSnapshot *)
Definition dashboard_machine (latestByMachine : Z -> option machine_latest_row) (now : Z) (row : machine_cols * option agent_cols) : DashboardMachine :=
  let machine := row.1 in
  let latest := latestByMachine (mc_pk machine) in
  let stale := match latest with Some l => mc_offline machine * 1000 <? now - lr_received l | None => false end in
  let state := match latest with None => "unknown" | Some l => if stale then "offline" else normalizeMachineState (lr_state l) end in
  DashMachine (mc_id machine) (mc_name machine) (parseLabels (mc_labels machine)) state
    (lr_observed <$> latest) (coalesce (lr_cpu <$> latest) 0) (coalesce (lr_memoryUsed <$> latest) 0) (coalesce (lr_memoryTotal <$> latest) 0)
    (coalesce (lr_storageUsed <$> latest) 0) (coalesce (lr_storageTotal <$> latest) 0) (coalesce (lr_rxBps <$> latest) 0) (coalesce (lr_txBps <$> latest) 0)
    (coalesce (lr_rxTotal <$> latest) 0) (coalesce (lr_txTotal <$> latest) 0) (latest ≫= lr_load) (latest ≫= lr_uptime)
    (gc_version <$> row.2) (gc_platform <$> row.2) (gc_arch <$> row.2) (mc_containers machine =? 1).
(** The services by name, up to five hundred. *)
(* @src packages/db/src/repositories/dashboard.ts 185-196 loadDashboardSnapshot *)
Definition dashboard_services (d : member_side) (w : MemberWorkspace) (userId : string) : list service_cols :=
  order_limit (fun x y => String.leb (vc_name x) (vc_name y)) 500 (List.filter (visible_service d w userId) (md_services d)).
(** Without [ORDER BY], the table's order. *)
(* @src packages/db/src/repositories/dashboard.ts 257-271 loadDashboardSnapshot *)
Definition dashboard_checks (d : member_side) (w : MemberWorkspace) (userId : string) : list check_cols :=
  take 1000 (c ← md_checks d; id ← visible_ids 500 d w userId;
    if String.eqb id (hc_service c) && String.eqb (hc_workspace c) (mw_id w) && (hc_enabled c =? 1) then [c] else []).
(** The last row of each key, as [new Map(rows)] keeps it. *)
(* @src packages/db/src/repositories/dashboard.ts 293-334 loadDashboardSnapshot *)
Definition dashboard_service (checks : list check_cols) (latestChecks : list check_latest_row) (latestServices : list service_latest_row) (now : Z) (service : service_cols)
  : DashboardService :=
  let serviceChecks := map hc_pk (List.filter (fun c => String.eqb (hc_service c) (vc_id service)) checks) in
  let current := omap (fun pk => PublicStatus.map_get cl_check pk latestChecks) serviceChecks in
  let critical pk := match PublicStatus.map_get hc_pk pk checks with Some c => hc_critical c =? 1 | None => false end in
  let fallbackState :=
    if existsb (fun l => bool_decide (cl_state l = CDown) && critical (cl_check l)) current then "down"
    else if existsb (fun l => bool_decide (cl_state l = CDown) || bool_decide (cl_state l = CDegraded)) current then "degraded"
    else if existsb (fun l => bool_decide (cl_state l = CHealthy)) current then "healthy" else "unknown" in
  DashService (vc_id service) (vc_name service)
    (if null_gt (vc_maintenance service) now then "maintenance"
     else match PublicStatus.map_get sl_service (vc_pk service) latestServices with Some l => sl_state l | None => fallbackState end)
    (PublicStatus.latest_time None (map cl_observed current)) [].
Definition is_state_in (states : list string) (m : DashboardMachine) : bool := str_in (dm_state m) states.
(* @src packages/db/src/repositories/dashboard.ts 239-250 loadDashboardSnapshot *)
Definition active_incidents (d : member_side) (w : MemberWorkspace) (userId : string) : list incident_cols :=
  order_limit (fun a b => ic_starts b <=? ic_starts a) 500
    (List.filter (fun i => String.eqb (ic_workspace i) (mw_id w) && alive (ic_deleted i) && negb (String.eqb (ic_state i) "resolved") &&
       sees_incident d w userId (ic_id i)) (md_incidents d)).
(* @src packages/db/src/repositories/dashboard.ts 349-381 loadDashboardSnapshot *)
Definition with_history (t : telemetry_pages) (workspacePk : Z) (allowedServices : list service_cols) (servicePreview : list DashboardService) (historyStart : Z)
  : list DashboardService :=
  let previewPks := map vc_pk (List.filter (fun s => bool_decide (vc_id s ∈ map ds_id servicePreview)) allowedServices) in
  let serviceBuckets := queryInBatches previewPks (fun batch =>
    order_by (fun a b => sb_start a <=? sb_start b)
      (List.filter (fun b => (sb_workspace b =? workspacePk) && (sb_type b =? 2) && (sb_seconds b =? 300) && bool_decide (sb_resource b ∈ batch) &&
         (historyStart <=? sb_start b) && (sb_start b <? historyStart + 30 * 300000)) (tp_buckets t))) in
  map (fun s =>
    DashService (ds_id s) (ds_name s) (ds_state s) (ds_lastCheckedAt s)
      (map (fun index =>
         let bucketStart := historyStart + Z.of_nat index * 300000 in
         (bucketStart,
          match vc_pk <$> PublicStatus.map_get vc_id (ds_id s) allowedServices with
          | Some pk => match PublicStatus.map_get (fun b => (sb_resource b, sb_start b)) (pk, bucketStart) serviceBuckets with
                       | Some b => state_name (sb_state b) | None => "unknown" end
          | None => "unknown"
          end)) (seq 0 30))) servicePreview.
(* @src packages/db/src/repositories/dashboard.ts 389-403 loadDashboardSnapshot *)
Definition summary_of (machines : list DashboardMachine) (services : list DashboardService) (activeIncidents : Z) : dashboard_summary :=
  DashSummary (Z.of_nat (length machines)) (count_if (is_state_in ["healthy"]) machines) (count_if (is_state_in ["degraded"; "down"]) machines)
    (count_if (is_state_in ["offline"]) machines) (sumZ (map dm_rxBps machines)) (sumZ (map dm_txBps machines)) (sumZ (map dm_rxTotal machines))
    (sumZ (map dm_txTotal machines)) (Z.of_nat (length services)) (count_if (fun s => String.eqb (ds_state s) "down") services) activeIncidents.
(* @src packages/db/src/repositories/dashboard.ts loadDashboardSnapshot *)
Definition loadDashboardSnapshot (d : member_side) (t : telemetry_pages) (workspaceSlug userId : string) (now : Z) : res DashboardSnapshot :=
  let* workspace := loadWorkspaceAccess "DashboardNotFoundError" d workspaceSlug userId in
  let allowedMachines := loadMachineRows d workspace userId in
  let allowedServices := dashboard_services d workspace userId in
  let latestMachines := queryInBatches (map (fun row => mc_pk row.1) allowedMachines) (fun batch => where_in lr_machine batch (tp_machines t)) in
  let machines := map (dashboard_machine (fun pk => PublicStatus.map_get lr_machine pk latestMachines) now) allowedMachines in
  let activeIncidents := active_incidents d workspace userId in
  let checks := dashboard_checks d workspace userId in
  let latestChecks := queryInBatches (map hc_pk checks) (fun batch => where_in cl_check batch (tp_checks t)) in
  let latestServices := latest_services t (mw_pk workspace) (map vc_pk allowedServices) in
  let services := map (dashboard_service checks latestChecks latestServices now) allowedServices in
  let machinePreview := take DASHBOARD_MACHINE_PREVIEW (order_by machine_preview_leb machines) in
  let servicePreview := take DASHBOARD_SERVICE_PREVIEW (order_by service_preview_leb services) in
  let historyStart := (now - 30 * 300000) / 300000 * 300000 in
  Ok (Snapshot (page_workspace workspace) (summary_of machines services (Z.of_nat (length activeIncidents))) machinePreview
    (with_history t (mw_pk workspace) allowedServices servicePreview historyStart)).

(** ** The overview and the pages it links to *)

Lemma dashboard_machine_same latest now row : dashboard_machine latest now row = toDashboardMachine row.1 row.2 (latest (mc_pk row.1)) now.
Proof. unfold dashboard_machine, toDashboardMachine, is_stale. by destruct (latest (mc_pk row.1)). Qed.
Definition machine_states : list string := ["healthy"; "degraded"; "down"; "offline"; "unknown"; "maintenance"].
Lemma machine_state_known m a latest now : dm_state (toDashboardMachine m a latest now) ∈ machine_states.
Proof.
  unfold toDashboardMachine. cbn [dm_state]. destruct latest as [l|]; [|apply str_in_elem; reflexivity]. destruct (is_stale _ _ _); [apply str_in_elem; reflexivity|].
  unfold normalizeMachineState. destruct (str_in (lr_state l) _) eqn:E; [|apply str_in_elem; reflexivity]. apply str_in_elem in E.
  unfold machine_states. rewrite !elem_of_cons in *. tauto.
Qed.
Lemma counts_partition ms : Forall (fun m => dm_state m ∈ machine_states) ms ->
  count_if (is_state_in ["healthy"]) ms + count_if (is_state_in ["degraded"; "down"]) ms + count_if (is_state_in ["offline"]) ms +
    count_if (is_state_in ["unknown"; "maintenance"]) ms = Z.of_nat (length ms).
Proof.
  induction 1 as [|m ms Hm _ IH]; [done|]. rewrite !count_if_cons. cbn [length]. rewrite Nat2Z.inj_succ.
  unfold is_state_in in *. cbv beta in *. unfold machine_states in Hm. rewrite !elem_of_cons in Hm.
  revert IH. repeat match goal with |- context [count_if ?f ms] => generalize (count_if f ms); intro end. intros IH.
  destruct Hm as [E|[E|[E|[E|[E|[E|E%elem_of_nil]]]]]]; [..|done]; rewrite E; cbn [str_in existsb String.eqb Ascii.eqb Bool.eqb orb]; lia.
Qed.
(** The machines of the overview, its counts and its totals are those of the machine page: every
    preview is an entry of the collection, and the summary is computed from all of them. *)
Theorem dashboard_machines_agree d t workspaceSlug userId now snapshot collection
  (Hd : loadDashboardSnapshot d t workspaceSlug userId now = Ok snapshot)
  (Hc : loadMachineCollection d t workspaceSlug userId now = Ok collection) :
  dp_workspace snapshot = mx_workspace collection /\
  dp_machines snapshot = take DASHBOARD_MACHINE_PREVIEW (order_by machine_preview_leb (mx_machines collection)) /\
  (exists services incidents, dp_summary snapshot = summary_of (mx_machines collection) services incidents) /\
  du_online (dp_summary snapshot) + du_impaired (dp_summary snapshot) + du_offline (dp_summary snapshot) +
    count_if (is_state_in ["unknown"; "maintenance"]) (mx_machines collection) = du_machines (dp_summary snapshot).
Proof.
  unfold loadDashboardSnapshot in Hd. unfold loadMachineCollection in Hc. apply rbind_ok in Hd as (w & Hw & [= <-]). apply rbind_ok in Hc as (w' & Hw' & [= <-]).
  assert (w' = w) as ->. { unfold loadWorkspaceAccess in *. destruct (member_workspaces _ _ _); [done|]. congruence. }
  cbn [dp_workspace dp_machines dp_summary mx_workspace mx_machines].
  set (rows := loadMachineRows d w userId).
  assert (E : map (dashboard_machine (fun pk => PublicStatus.map_get lr_machine pk (queryInBatches (map (fun row => mc_pk row.1) rows)
      (fun batch => where_in lr_machine batch (tp_machines t)))) now) rows =
    map (fun row => toDashboardMachine row.1 row.2 (PublicStatus.map_get lr_machine (mc_pk row.1) (loadLatestRows t (map (fun row => mc_pk row.1) rows))) now) rows).
  { apply map_ext. intros row. by rewrite dashboard_machine_same. }
  rewrite E. split; [done|]. split; [done|]. split; [by eexists _, _|]. cbn [summary_of du_machines du_online du_impaired du_offline].
  apply counts_partition, Forall_forall. intros m Hm. apply (list_elem_of_fmap _) in Hm as (row & -> & _). apply machine_state_known.
Qed.
End Dashboard.

#[local] Instance demo_locale : Locale := String.leb.
Example dashboard_machines_agree_witness : exists snapshot collection,
  loadDashboardSnapshot demo_granted demo_latest "team" "bob" 2 = Ok snapshot /\ loadMachineCollection demo_granted demo_latest "team" "bob" 2 = Ok collection /\
  map dm_state (dp_machines snapshot) = ["healthy"] /\
  dp_machines snapshot = take DASHBOARD_MACHINE_PREVIEW (order_by machine_preview_leb (mx_machines collection)).
Proof.
  eexists _, _. split; [reflexivity|]. split; [reflexivity|]. split; [reflexivity|].
  apply (dashboard_machines_agree demo_granted demo_latest "team" "bob" 2); reflexivity.
Defined.
