(* ===== verification/MachineSettings.v ===== *)
(** * MachineSettings: what an administrator may set for a machine

    The first part of [apps/web/src/lib/server/resources.ts]: the labels of a machine, which are
    entered one [key=value] per line or separated by commas and stored as a JSON object, and the
    other settings with their limits.  The form of
    [components/machines/machine-config.svelte] shows the stored labels again as lines.

    The keys of a JavaScript object that are array indices come first and in ascending order;
    [own_keys] is that order, and the stored text has it. *)

From Stdlib Require Import ZArith Lia Bool String Ascii List.
From stdpp Require Import base tactics list strings sorting.
From S2P Require Import Prelude.
From S2P Require Import Js.
From S2P Require Import Sql.
From S2P Require Import Base64Url.
From S2P Require Import ServiceCompiler.
From S2P Require Import SiteAppearance.
From S2P Require Import MemberData.
From S2P Require Import MachinePages.
Open Scope string_scope.
Open Scope Z_scope.

(** ** Labels *)

Definition labels := list (string * string).
(** A canonical array index: a decimal below 2^32 - 1 without leading zeros. *)
Definition array_index (key : string) : option Z :=
  match digits_value 10 key 0 with
  | Some z => if (slen key <=? 10) && (z <? 4294967295) && String.eqb key (z_to_string z) then Some z else None
  | None => None
  end.
Definition is_index (kv : string * string) : bool := match array_index kv.1 with Some _ => true | None => false end.
Definition index_leb (a b : string * string) : bool := coalesce (array_index a.1) 0 <=? coalesce (array_index b.1) 0.
(** The properties of an object to which these were added one after the other. *)
Definition own_keys (l : labels) : labels :=
  (order_by index_leb (List.filter is_index l) ++ List.filter (fun kv => negb (is_index kv)) l)%list.
Definition labels_out (l : labels) : jout := OObj (map (fun kv => (kv.1, OStr kv.2)) l).

(** [/^[A-Za-z0-9][A-Za-z0-9_.-]{0,62}$/] *)
Definition is_label_alnum (c : ascii) : bool := is_digit c || is_upper c || is_lower c.
Definition is_label_char (c : ascii) : bool := is_label_alnum c || existsb (Ascii.eqb c) ["_"%char; "."%char; "-"%char].
Definition label_key_shape (key : string) : bool :=
  match key with String c rest => is_label_alnum c && str_forall is_label_char rest && (slen rest <=? 62) | EmptyString => false end.

(** [value.split(/\r?\n|,/).map((entry) => entry.trim()).filter(Boolean)]: a carriage return
    before a line feed is trimmed with the rest of the white space. *)
Definition label_entries (value : string) : list string :=
  List.filter (fun entry => negb (String.eqb entry "")) (map trim (flat_map (split_on ",") (split_on (chr 10) value))).
(** The loop over the entries. *)
(* @src apps/web/src/lib/server/resources.ts 141-154 parseMachineLabels *)
Fixpoint add_labels (entries : list string) (l : labels) : res labels :=
  match entries with
  | [] => Ok l
  | entry :: rest =>
      let separator := index_of "=" entry in
      throw_if separator <=? 0 as "400 Labels must use key=value format" in
      let key := trim (str_take (Z.to_nat separator) entry) in
      let labelValue := trim (str_drop (Z.to_nat (separator + 1)) entry) in
      throw_if negb (label_key_shape key) as "400 Label key " ++ (if String.eqb key "" then "(empty)" else key) ++ " is invalid" in
      throw_if (slen labelValue =? 0) || (128 <? slen labelValue) as "400 Label " ++ key ++ " must have a value of at most 128 characters" in
      throw_if str_in key (map fst l) as "400 Label " ++ key ++ " is duplicated" in
      add_labels rest (l ++ [(key, labelValue)])%list
  end.
(* @src apps/web/src/lib/server/resources.ts parseMachineLabels *)
Definition parseMachineLabels (value : string) : res labels :=
  let entries := label_entries value in
  throw_if 20 <? Z.of_nat (length entries) as "400 A machine can have at most 20 labels" in
  let* added := add_labels entries [] in
  let l := own_keys added in
  throw_if 4096 <? blen (encode_utf8 (json_stringify (labels_out l))) as "400 Machine labels exceed the 4 KiB limit" in
  Ok l.
(** The text area of the form. *)
(* @src apps/web/src/lib/components/machines/machine-config.svelte 12-16 labels *)
Definition label_text (l : labels) : string := str_join (String (chr 10) "") (map (fun kv => kv.1 ++ "=" ++ kv.2) l).

(** ** The settings *)

(* @src apps/web/src/lib/server/resources.ts MachineConfigurationInput *)
Record MachineConfigurationInput := MachineInput {
  mq_name : string;
  mq_expectedHost : string;
  mq_description : string;
  mq_labels : string;
  mq_samplingIntervalSeconds : number;
  mq_reportIntervalSeconds : number;
  mq_offlineAfterSeconds : number;
  mq_containersEnabled : bool;
  mq_maintenanceUntil : option number;
}.
(** [labels] is an object: what [parseMachineLabels] gives, or whatever is stored. *)
(* @src apps/web/src/lib/server/resources.ts NormalizedMachineConfiguration *)
Record NormalizedMachineConfiguration := MachineConfig {
  nm_name : string;
  nm_expectedHost : option string;
  nm_description : string;
  nm_labels : jout;
  nm_samplingIntervalSeconds : Z;
  nm_reportIntervalSeconds : Z;
  nm_offlineAfterSeconds : Z;
  nm_containersEnabled : bool;
  nm_maintenanceUntil : option Z;
}.
(* @src apps/web/src/lib/server/resources.ts boundedInteger *)
Definition boundedInteger (value : number) (name : string) (minimum maximum : Z) : res Z :=
  let refused := Err ("400 " ++ name ++ " must be between " ++ z_to_string minimum ++ " and " ++ z_to_string maximum ++ " seconds") in
  match num_int value with
  | Some n => if (n <? minimum) || (maximum <? n) then refused else Ok n
  | None => refused
  end.
(* @src apps/web/src/lib/server/resources.ts normalizeMachineConfiguration *)
Definition normalizeMachineConfiguration (input : MachineConfigurationInput) : res NormalizedMachineConfiguration :=
  let name := trim (mq_name input) in
  let expectedHost := trim (mq_expectedHost input) in
  let description := trim (mq_description input) in
  throw_if (slen name <? 2) || (80 <? slen name) as "400 Machine name is invalid" in
  throw_if 253 <? slen expectedHost as "400 Expected host is invalid" in
  throw_if 500 <? slen description as "400 Description is too long" in
  let* sampling := boundedInteger (mq_samplingIntervalSeconds input) "Sampling interval" 1 300 in
  let* report := boundedInteger (mq_reportIntervalSeconds input) "Report interval" 60 900 in
  let* offline := boundedInteger (mq_offlineAfterSeconds input) "Offline threshold" 60 86400 in
  throw_if negb (report mod sampling =? 0) as "400 Report interval must be divisible by the sampling interval" in
  throw_if offline <? report as "400 Offline threshold cannot be shorter than the report interval" in
  let* maintenance := match mq_maintenanceUntil input with
    | None => Ok None
    | Some x => match num_int x with
        | Some z => throw_if z <? 0 as "400 Maintenance end time is invalid" in Ok (Some z)
        | None => Err "400 Maintenance end time is invalid"
        end
    end in
  let* l := parseMachineLabels (mq_labels input) in
  Ok (MachineConfig name (if String.eqb expectedHost "" then None else Some expectedHost) description (labels_out l) sampling report offline
        (mq_containersEnabled input) maintenance).

(** ** Facts about texts *)

Lemma str_forall_rev p s : str_forall p (str_rev s) = str_forall p s.
Proof. induction s as [|c s IH]; [done|]. rewrite str_rev_cons, str_forall_app, IH. cbn. by rewrite andb_true_r, andb_comm. Qed.
Lemma str_forall_trim_left p s : str_forall p s = true -> str_forall p (trim_left s) = true.
Proof. induction s as [|c s IH]; [done|]. cbn. intros H. destruct (is_space c); [|done]. apply IH. bool_hyps. by destruct (str_forall p s). Qed.
Lemma str_forall_trim p s : str_forall p s = true -> str_forall p (trim s) = true.
Proof. intros H. unfold trim. rewrite str_forall_rev. apply str_forall_trim_left. rewrite str_forall_rev. by apply str_forall_trim_left. Qed.
Lemma str_forall_drop p n : forall s, str_forall p s = true -> str_forall p (str_drop n s) = true.
Proof. induction n as [|n IH]; intros [|c s]; try done. cbn. intros H. apply IH. by apply andb_true_iff in H as [_ H]. Qed.
Lemma split_on_forall p sep s : str_forall p s = true -> Forall (fun x => str_forall p x = true) (split_on sep s).
Proof.
  induction s as [|c s IH]; cbn; [by repeat constructor|]. intros H. apply andb_true_iff in H as [Hc Hs]. specialize (IH Hs).
  destruct (Ascii.eqb c sep); [by constructor|]. destruct (split_on sep s) as [|h t]; [repeat constructor; cbn; by rewrite Hc|].
  apply Forall_cons in IH as [Hh Ht]. constructor; [cbn; by rewrite Hc, Hh | done].
Qed.
Lemma split_on_free sep s : Forall (fun x => str_forall (fun c => negb (Ascii.eqb c sep)) x = true) (split_on sep s).
Proof.
  induction s as [|c s IH]; cbn; [by repeat constructor|]. destruct (Ascii.eqb c sep) eqn:E; [by constructor|].
  destruct (split_on sep s) as [|h t]; [repeat constructor; cbn; by rewrite E|]. apply Forall_cons in IH as [Hh Ht]. constructor; [cbn; by rewrite E, Hh | done].
Qed.
Lemma split_on_join sep parts : parts <> [] -> Forall (fun x => str_forall (fun c => negb (Ascii.eqb c sep)) x = true) parts ->
  split_on sep (str_join (String sep "") parts) = parts.
Proof.
  induction parts as [|x parts IH]; [done|]. intros _ H. apply Forall_cons in H as [Hx H]. destruct parts as [|y parts]; [by apply split_on_none|].
  change (str_join (String sep "") (x :: y :: parts)) with (x ++ String sep (str_join (String sep "") (y :: parts))). rewrite split_on_app by done. by rewrite IH.
Qed.
Lemma trim_left_head a b : trim_left a = a -> a <> "" -> trim_left (a ++ b) = a ++ b.
Proof.
  destruct a as [|c a]; [done|]. cbn. destruct (is_space c); [|done]. intros H _. exfalso. destruct (trim_left_suffix a) as [p Hp].
  assert (L : String.length a = (String.length p + String.length (trim_left a))%nat) by (rewrite Hp at 1; by rewrite str_length_app). rewrite H in L. cbn in L. lia.
Qed.
Lemma trim_kept s : trim s = s -> trim_left s = s /\ trim_left (str_rev s) = str_rev s.
Proof.
  intros H. assert (Hl : trim_left s = s).
  { destruct (trim_left_suffix s) as [p Hp]. destruct (trim_left_suffix (str_rev (trim_left s))) as [q Hq].
    assert (L1 : String.length s = (String.length p + String.length (trim_left s))%nat) by (rewrite Hp at 1; by rewrite str_length_app).
    assert (L2 : String.length (trim_left s) = (String.length q + String.length s)%nat).
    { rewrite <- (str_rev_length (trim_left s)), Hq, str_length_app. f_equal. unfold trim in H. rewrite <- (str_rev_length (trim_left _)). by rewrite H. }
    destruct p; [by symmetry|]. cbn in L1. lia. }
  split; [done|]. unfold trim in H. rewrite Hl in H. rewrite <- H at 2. by rewrite str_rev_involutive.
Qed.
Lemma index_of_app c a b : str_forall (fun d => negb (Ascii.eqb d c)) a = true -> index_of c (a ++ String c b) = slen a.
Proof.
  induction a as [|d a IH]; [intros _; cbn; by rewrite Ascii.eqb_refl|]. rewrite slen_cons. cbn. intros H. apply andb_true_iff in H as [Hd Ha].
  apply negb_true_iff in Hd as ->. rewrite (IH Ha). pose proof (slen_nonneg a). destruct (slen a <? 0) eqn:E; [apply Z.ltb_lt in E|]; lia.
Qed.
Lemma str_take_app a b : str_take (String.length a) (a ++ b) = a.
Proof. induction a as [|c a IH]; [by destruct b|]. cbn. by rewrite IH. Qed.
Lemma label_char_plain c : is_label_char c = true ->
  Ascii.eqb c "=" = false /\ Ascii.eqb c "," = false /\ Ascii.eqb c (chr 10) = false /\ is_space c = false.
Proof. destruct c as [[] [] [] [] [] [] [] []]; vm_compute; by intros. Qed.

(** ** What is accepted *)

(** No comma and no line feed. *)
Definition one_entry (s : string) : bool := str_forall (fun c => negb (Ascii.eqb c ",") && negb (Ascii.eqb c (chr 10))) s.
Definition label_ok (kv : string * string) : Prop :=
  label_key_shape kv.1 = true /\ 1 <= slen kv.2 <= 128 /\ trim kv.2 = kv.2 /\ one_entry kv.2 = true.

Lemma key_chars key : label_key_shape key = true -> str_forall is_label_char key = true /\ key <> "".
Proof. destruct key as [|c r]; [done|]. cbn. intros H. bool_hyps. split; [|done]. unfold is_label_char at 1. rewrite H. cbn. done. Qed.
Lemma entries_clean value : Forall (fun e => one_entry e = true) (label_entries value).
Proof.
  apply Forall_forall. intros e He. unfold label_entries in He. apply filter_In_elem in He as [He _]. apply (list_elem_of_fmap trim) in He as (x & -> & Hx).
  apply str_forall_trim. apply list_elem_of_In, in_flat_map in Hx as (line & Hl & Hx). apply list_elem_of_In in Hl, Hx.
  pose proof (split_on_free (chr 10) value) as F1. rewrite Forall_forall in F1. specialize (F1 line Hl).
  pose proof (split_on_forall _ "," line F1) as F2. rewrite Forall_forall in F2. specialize (F2 x Hx).
  pose proof (split_on_free "," line) as F3. rewrite Forall_forall in F3. specialize (F3 x Hx). clear - F2 F3. unfold one_entry.
  induction x as [|c x IH]; [done|]. cbn in *. apply andb_true_iff in F2 as [-> F2]. apply andb_true_iff in F3 as [-> F3]. by rewrite IH.
Qed.
Lemma add_labels_ok entries : forall l l', Forall (fun e => one_entry e = true) entries -> add_labels entries l = Ok l' ->
  Forall label_ok l -> NoDup (map fst l) -> Forall label_ok l' /\ NoDup (map fst l') /\ length l' = (length l + length entries)%nat.
Proof.
  induction entries as [|e entries IH]; intros l l' He H Hl Hn; cbn [add_labels] in H; [injection H as <-; split_and!; [done | done | cbn; lia]|].
  apply Forall_cons in He as [H1 He]. cbv zeta in H. ok_inv. bool_hyps. apply (IH _ _ He) in H as (A & B & C); [|..].
  - split_and!; [done | done|]. rewrite length_app in C. cbn in *. lia.
  - apply Forall_app. split; [done|]. apply Forall_singleton. unfold label_ok. cbn [fst snd]. split_and!; [done | | done | apply trim_idem | unfold one_entry; by apply str_forall_trim, str_forall_drop].
    pose proof (slen_nonneg (trim (str_drop (Z.to_nat (index_of "=" e + 1)) e))). lia.
  - rewrite map_app. cbn. apply NoDup_app. split_and!; [done | | by repeat constructor; apply not_elem_of_nil].
    intros x Hx Hy. apply list_elem_of_singleton in Hy as ->. match goal with E : str_in _ _ = false |- _ => revert E end. unfold str_in.
    intros E. rewrite existsb_false_elem in E. specialize (E _ Hx). by rewrite String.eqb_refl in E.
Qed.

(** ** The order of an object's keys *)

Lemma order_by_id (l : labels) : Sorted (Leb index_leb) l -> order_by index_leb l = l.
Proof.
  induction 1 as [|x l Hs IH Hd]; [done|]. cbn. unfold order_by in IH. rewrite IH. destruct Hd as [|y l Hy]; [done|]. cbn. by rewrite Hy.
Qed.
Lemma own_keys_perm l : own_keys l ≡ₚ l.
Proof.
  unfold own_keys. rewrite order_by_perm. induction l as [|x l IH]; [done|]. cbn. destruct (is_index x); cbn; [by rewrite IH|].
  by rewrite <- Permutation_middle, IH.
Qed.
Lemma filter_app_bool {A} (p : A -> bool) a b : List.filter p (a ++ b)%list = (List.filter p a ++ List.filter p b)%list.
Proof. induction a as [|x a IH]; [done|]. cbn. destruct (p x); cbn; by rewrite IH. Qed.
Lemma filter_every_row {A} (p : A -> bool) l : (forall x, x ∈ l -> p x = true) -> List.filter p l = l.
Proof. induction l as [|x l IH]; [done|]. intros H. cbn. rewrite (H x) by (rewrite elem_of_cons; by left). f_equal. apply IH. intros y Hy. apply H. rewrite elem_of_cons. by right. Qed.
Lemma filter_no_row {A} (p : A -> bool) l : (forall x, x ∈ l -> p x = false) -> List.filter p l = [].
Proof. induction l as [|x l IH]; [done|]. intros H. cbn. rewrite (H x) by (rewrite elem_of_cons; by left). apply IH. intros y Hy. apply H. rewrite elem_of_cons. by right. Qed.
Lemma own_keys_idem l : own_keys (own_keys l) = own_keys l.
Proof.
  assert (H1 : forall x, x ∈ order_by index_leb (List.filter is_index l) -> is_index x = true) by (intros x; rewrite elem_of_order_by, filter_In_elem; tauto).
  assert (H2 : forall x, x ∈ List.filter (fun kv => negb (is_index kv)) l -> negb (is_index x) = true) by (intros x; rewrite filter_In_elem; tauto).
  assert (Hs : Sorted (Leb index_leb) (order_by index_leb (List.filter is_index l))).
  { apply order_by_Sorted. intros a b. unfold index_leb. rewrite !Z.leb_le. lia. }
  unfold own_keys. set (A := order_by index_leb (List.filter is_index l)) in *. set (B := List.filter (fun kv => negb (is_index kv)) l) in *.
  clearbody A B. rewrite !filter_app_bool. rewrite (filter_every_row is_index A) by (intros x Hx; by apply H1). rewrite (filter_every_row (fun kv => negb (is_index kv)) B) by (intros x Hx; by apply H2).
  rewrite (filter_no_row is_index B) by (intros x Hx; apply negb_true_iff; auto). rewrite (filter_no_row (fun kv => negb (is_index kv)) A) by (intros x Hx; apply negb_false_iff; auto).
  rewrite app_nil_r. cbn. by rewrite order_by_id.
Qed.

(** ** Reading the labels again *)

Definition label_entry (kv : string * string) : string := kv.1 ++ "=" ++ kv.2.
Lemma label_entry_ok kv : label_ok kv -> one_entry (label_entry kv) = true /\ trim (label_entry kv) = label_entry kv /\ label_entry kv <> "".
Proof.
  destruct kv as [k v]. unfold label_ok, label_entry. cbn [fst snd]. intros (Hk & Hv & Ht & Ho). apply key_chars in Hk as [Hk Hne]. split_and!.
  - unfold one_entry in *. rewrite !str_forall_app. rewrite Ho. replace (str_forall _ "=") with true by done. rewrite !andb_true_r. eapply str_forall_impl; [|exact Hk].
    intros c Hc. apply label_char_plain in Hc as (_ & E1 & E2 & _). by rewrite E1, E2.
  - assert (Hhead : trim_left (k ++ "=" ++ v) = k ++ "=" ++ v).
    { destruct k as [|c k]; [done|]. cbn in *. apply andb_true_iff in Hk as [Hc _]. apply label_char_plain in Hc as (_ & _ & _ & ->). done. }
    unfold trim. rewrite Hhead, str_rev_append, (str_rev_append "=" v), str_app_assoc.
    apply trim_kept in Ht as [_ Ht]. rewrite trim_left_head; [|done|].
    + rewrite !str_rev_append, !str_rev_involutive. by rewrite str_app_assoc.
    + intros E. apply (f_equal str_rev) in E. rewrite str_rev_involutive in E. rewrite E in Hv. change (slen (str_rev "")) with 0 in Hv. lia.
  - by destruct k.
Qed.
Lemma entries_read l : Forall label_ok l -> label_entries (label_text l) = map label_entry l.
Proof.
  intros H. unfold label_entries, label_text. change (fun kv : string * string => kv.1 ++ "=" ++ kv.2) with label_entry.
  destruct (decide (l = [])) as [->|Hne]; [done|]. rewrite split_on_join; [|by destruct l|].
  - clear Hne. induction H as [|kv l Hkv H IH]; [done|]. cbn [map flat_map]. apply label_entry_ok in Hkv as (H1 & H2 & H3).
    rewrite split_on_none; [|eapply str_forall_impl; [|exact H1]; intros c Hc; by apply andb_true_iff in Hc as [Hc _]]. cbn [app map List.filter].
    rewrite H2. rewrite (proj2 (String.eqb_neq _ _) H3). cbn [negb]. by rewrite IH.
  - apply Forall_map. eapply Forall_impl; [exact H|]. intros kv Hkv. apply label_entry_ok in Hkv as (H1 & _ & _). eapply str_forall_impl; [|exact H1].
    intros c Hc. by apply andb_true_iff in Hc as [_ Hc].
Qed.
Lemma add_labels_read l : forall l0, Forall label_ok l -> NoDup (map fst (l0 ++ l)%list) -> add_labels (map label_entry l) l0 = Ok (l0 ++ l)%list.
Proof.
  induction l as [|[k v] l IH]; intros l0 H Hn; [by rewrite app_nil_r|]. apply Forall_cons in H as [(Hk & Hv & Ht & Ho) H]. cbn [fst snd] in *.
  pose proof Hk as Hshape. apply key_chars in Hk as [Hk Hne]. cbn [map add_labels]. unfold label_entry. cbn [fst snd].
  change (k ++ "=" ++ v) with (k ++ String "=" v).
  rewrite index_of_app by (eapply str_forall_impl; [|exact Hk]; intros c Hc; by apply label_char_plain in Hc as (-> & _)).
  assert (Hpos : 0 < slen k) by (destruct k; [done|]; rewrite slen_cons; pose proof (slen_nonneg k); lia).
  replace (slen k <=? 0) with false by (symmetry; apply Z.leb_gt; lia).
  replace (Z.to_nat (slen k)) with (String.length k) by (unfold slen; lia). replace (Z.to_nat (slen k + 1)) with (String.length (k ++ "=")) by (rewrite str_length_app; unfold slen; cbn; lia).
  rewrite str_take_app. replace (k ++ String "=" v) with ((k ++ "=") ++ v) by (by rewrite str_app_assoc). rewrite str_drop_app.
  rewrite Ht, (trim_no_space k) by (eapply str_forall_impl; [|exact Hk]; intros c Hc; apply label_char_plain in Hc as (_ & _ & _ & ->); done).
  rewrite Hshape. cbn [negb]. replace (slen v =? 0) with false by (symmetry; apply Z.eqb_neq; lia). replace (128 <? slen v) with false by (symmetry; apply Z.ltb_ge; lia). cbn [orb].
  assert (str_in k (map fst l0) = false) as ->.
  { unfold str_in. apply existsb_false_elem. intros x Hx. apply String.eqb_neq. intros <-. rewrite map_app in Hn. apply NoDup_app in Hn as (_ & Hn & _).
    apply (Hn k Hx). cbn. rewrite elem_of_cons. by left. }
  rewrite IH; [by rewrite <- (assoc_L (++)) | done|]. by rewrite <- (assoc_L (++)).
Qed.
Lemma labels_shown l : NoDup (map fst l) -> parseLabels (json_stringify (labels_out l)) = l.
Proof.
  intros Hn. unfold parseLabels. rewrite json_parse_stringify.
  - unfold labels_out. cbn [json_of]. unfold string_entries. clear Hn. induction l as [|[k v] l IH]; [done|]. cbn. by f_equal.
  - cbn. split; [rewrite map_map; exact Hn|]. clear Hn. by induction l as [|[k v] l IH].
Qed.
Lemma accepted_labels value l : parseMachineLabels value = Ok l ->
  Forall label_ok l /\ NoDup (map fst l) /\ Z.of_nat (length l) <= 20 /\ blen (encode_utf8 (json_stringify (labels_out l))) <= 4096 /\ own_keys l = l.
Proof.
  unfold parseMachineLabels. cbv zeta. intros H. ok_inv. bool_hyps. subst l.
  match goal with E : add_labels _ [] = Ok ?x |- _ => rename x into l; rename E into Hadd end.
  apply add_labels_ok in Hadd as (A & B & C); [|apply entries_clean | by constructor | by constructor]. pose proof (own_keys_perm l) as Hp. split_and!.
  - by rewrite Hp.
  - by rewrite Hp.
  - rewrite Hp, C. cbn [length]. lia.
  - done.
  - apply own_keys_idem.
Qed.

(** What an administrator enters as labels is what the pages show, and saving the form again
    changes nothing: the accepted labels, stored as JSON, are read back by [parseLabels] one for
    one and in the same order, and the lines that the form makes of them are accepted as the same
    labels.  There are at most twenty, with different keys, in at most 4 KiB. *)
Theorem labels_roundtrip value l (H : parseMachineLabels value = Ok l) :
  parseLabels (json_stringify (labels_out l)) = l /\ parseMachineLabels (label_text l) = Ok l /\
  NoDup (map fst l) /\ Z.of_nat (length l) <= 20 /\ blen (encode_utf8 (json_stringify (labels_out l))) <= 4096.
Proof.
  apply accepted_labels in H as (H1 & H2 & H3 & H4 & H5). split_and!; [by apply labels_shown | | done | done | done].
  unfold parseMachineLabels. rewrite entries_read by done. cbv zeta. rewrite length_map.
  replace (20 <? Z.of_nat (length l)) with false by (symmetry; apply Z.ltb_ge; lia). rewrite (add_labels_read l []) by done. cbn [app rbind]. rewrite H5.
  destruct (4096 <? _) eqn:E; [apply Z.ltb_lt in E; lia | done].
Qed.
Definition demo_labels : string := " env = prod,10=b" ++ String (chr 13) (String (chr 10) "2=a=b") ++ String (chr 10) "" ++ ",zone=eu west".
Theorem labels_roundtrip_witness :
  parseMachineLabels demo_labels = Ok [("2", "a=b"); ("10", "b"); ("env", "prod"); ("zone", "eu west")] /\
  parseMachineLabels (label_text [("2", "a=b"); ("10", "b"); ("env", "prod"); ("zone", "eu west")]) = Ok [("2", "a=b"); ("10", "b"); ("env", "prod"); ("zone", "eu west")].
Proof.
  split; [vm_compute; reflexivity|].
  refine (proj1 (proj2 (labels_roundtrip demo_labels [("2", "a=b"); ("10", "b"); ("env", "prod"); ("zone", "eu west")] _))). vm_compute. reflexivity.
Defined.

Lemma boundedInteger_ok v name lo hi z : boundedInteger v name lo hi = Ok z -> lo <= z <= hi.
Proof. unfold boundedInteger. cbv zeta. destruct (num_int v) as [n|]; [|done]. destruct (_ || _) eqn:E; [done|]. intros [= <-]. bool_hyps. lia. Qed.
(** The accepted settings: what the columns of [machines] check, and what they do not. *)
Lemma settings_bounds input c : normalizeMachineConfiguration input = Ok c ->
  2 <= slen (nm_name c) <= 80 /\ slen (nm_description c) <= 500 /\
  1 <= nm_samplingIntervalSeconds c <= 300 /\ 60 <= nm_reportIntervalSeconds c <= 900 /\ 60 <= nm_offlineAfterSeconds c <= 86400 /\
  nm_reportIntervalSeconds c mod nm_samplingIntervalSeconds c = 0 /\ nm_reportIntervalSeconds c <= nm_offlineAfterSeconds c /\
  exists l, parseMachineLabels (mq_labels input) = Ok l /\ nm_labels c = labels_out l.
Proof.
  unfold normalizeMachineConfiguration. cbv zeta. intros H. ok_inv. bool_hyps. repeat match goal with E : boundedInteger _ _ _ _ = Ok _ |- _ => apply boundedInteger_ok in E end.
  subst c. cbn. split_and!; try lia. eauto.
Qed.
