(* ===== verification/Transaction.v ===== *)
(** * Transaction: statements of one batch

    [db.batch(statements)] runs its statements in one transaction.  A statement maps the database
    and the [changes()] of the statement before it to the new database and its own [changes()],
    or fails, which undoes the whole batch.  The database is any record of tables. *)

From Stdlib Require Import ZArith Lia Bool String List.
From stdpp Require Import base tactics list strings relations.
From S2P Require Import Prelude.
From S2P Require Import Sql.
From S2P Require Import Interleave.
Open Scope string_scope.
Open Scope Z_scope.

Section Transaction.
Context {D : Type}.

Definition stmt := D -> Z -> res (D * Z).
Fixpoint transaction_from (changed : Z) (l : list stmt) (d : D) : res (D * list Z) :=
  match l with
  | [] => Ok (d, [])
  | st :: rest =>
      let* '(d, n) := st d changed in
      let* '(d, results) := transaction_from n rest d in
      Ok (d, n :: results)
  end.
(** The [meta.changes] of every statement. *)
Definition transaction (l : list stmt) (d : D) : res (D * list Z) := transaction_from 0 l d.

Section Table.
Context {R : Type} (get : D -> list R) (set : list R -> D -> D).
(** [INSERT ... SELECT ... WHERE guard]; a row that breaks a constraint fails. *)
Definition insert_into (constraints : R -> D -> bool) (guard : D -> bool) (row : R) : stmt := fun d _ =>
  if guard d then throw_if negb (constraints row d) as "constraint failed" in Ok (set (get d ++ [row])%list d, 1) else Ok (d, 0).
(** [INSERT ... SELECT ... WHERE guard ON CONFLICT (key) DO UPDATE SET upd WHERE same] *)
Definition upsert_into {K} `{!EqDecision K} (key : R -> K) (constraints : R -> D -> bool) (guard : D -> bool) (same : R -> R -> bool) (upd : R -> R -> R) (row : R) : stmt := fun d _ =>
  if guard d then throw_if negb (constraints row d) as "constraint failed" in let '(rows, n) := upsert key same upd row (get d) in Ok (set rows d, n) else Ok (d, 0).
(** [UPDATE ... SET ... WHERE guard] *)
Definition update_set (constraints : R -> bool) (guard : R -> D -> bool) (f : R -> R) : stmt := fun d _ =>
  throw_if existsb (fun r => guard r d && negb (constraints (f r))) (get d) as "constraint failed" in
  let '(rows, n) := update_where (fun r => guard r d) f (get d) in Ok (set rows d, n).
(** [DELETE FROM ... WHERE guard] *)
Definition delete_from (guard : R -> D -> bool) : stmt := fun d _ =>
  let '(rows, n) := delete_where (fun r => guard r d) (get d) in Ok (set rows d, n).
(** [INSERT ... SELECT ... WHERE changes() = 1] *)
Definition insert_if_changed (row : R) : stmt := fun d changed => if changed =? 1 then Ok (set (get d ++ [row])%list d, 1) else Ok (d, 0).
End Table.

(** The batch, and what its results have to pass. *)
Definition settled (l : list stmt) (refused : list Z -> bool) (message : string) : prog D unit :=
  do results <- write (transaction l) in
  refuse_if refused results as message in pret tt.
(** The decisive statement has to have changed one row. *)
Definition decided (l : list stmt) (decisive : nat) (message : string) : prog D unit :=
  settled l (fun results => negb (bool_decide (results !! decisive = Some 1))) message.

(** ** Facts *)

Lemma transaction_cons st l d changed d' rs : transaction_from changed (st :: l) d = Ok (d', rs) ->
  exists d1 n rs', st d changed = Ok (d1, n) /\ transaction_from n l d1 = Ok (d', rs') /\ rs = n :: rs'.
Proof. cbn. intros H. apply rbind_ok in H as ([d1 n] & H1 & H). apply rbind_ok in H as ([d2 rs'] & H2 & [= <- <-]). by exists d1, n, rs'. Qed.
Lemma insert_into_effect {R} get set constraints guard (row : R) d n d' m : insert_into get set constraints guard row d n = Ok (d', m) ->
  (guard d = false /\ d' = d /\ m = 0) \/ (guard d = true /\ constraints row d = true /\ d' = set (get d ++ [row])%list d /\ m = 1).
Proof.
  unfold insert_into. destruct (guard d); [|intros [= <- <-]; by left]. destruct (constraints row d); [|done]. intros [= <- <-]. right. by split_and!.
Qed.
Lemma upsert_into_effect {R K} `{!EqDecision K} get set (key : R -> K) constraints guard same upd (row : R) d n d' m : upsert_into get set key constraints guard same upd row d n = Ok (d', m) ->
  (guard d = false /\ d' = d /\ m = 0) \/
  (guard d = true /\ constraints row d = true /\ d' = set (upsert key same upd row (get d)).1 d /\ m = (upsert key same upd row (get d)).2).
Proof.
  unfold upsert_into. destruct (guard d); [|intros [= <- <-]; by left]. destruct (constraints row d); [|done]. cbn. destruct (upsert _ _ _ _ _) as [rows k]. intros [= <- <-]. right. by split_and!.
Qed.
Lemma update_set_effect {R} get set constraints guard (f : R -> R) d n d' m : update_set get set constraints guard f d n = Ok (d', m) ->
  d' = set (map (fun r => if guard r d then f r else r) (get d)) d /\ m = count_if (fun r => guard r d) (get d) /\
  forall r, r ∈ get d -> guard r d = true -> constraints (f r) = true.
Proof.
  unfold update_set, update_where. destruct (existsb _ _) eqn:E; [done|]. intros [= <- <-]. split_and!; [done | done|].
  intros r Hr Hg. rewrite existsb_false_elem in E. specialize (E r Hr). rewrite Hg in E. cbn in E. by apply negb_false_iff in E.
Qed.
(** A statement that only moves the database along [P]. *)
Definition along (P : D -> D -> Prop) (st : stmt) : Prop := forall d n d' m, st d n = Ok (d', m) -> P d d'.
Lemma transaction_along (P : D -> D -> Prop) `{!PreOrder P} l : Forall (along P) l -> forall n d d' rs, transaction_from n l d = Ok (d', rs) -> P d d'.
Proof.
  induction 1 as [|st l Hst Hl IH]; intros n d d' rs H; [cbn in H; injection H as <- <-; reflexivity|].
  apply transaction_cons in H as (d1 & m & rs' & H1 & H2 & _). transitivity d1; [by eapply Hst | by eapply IH].
Qed.
End Transaction.

(** ** Actions that keep an invariant, and create something

    Some actions add a row under an id they draw at random.  [used] are the ids in use; an action
    relies on the others not to use the id it has drawn ([id]), and itself uses no other. *)

Section Births.
Context {D : Type} (I : D -> Prop) (used : D -> list string).

Definition rely (id : string) (d d' : D) : Prop := I d -> I d' /\ (id ∉ used d -> id ∉ used d').
Definition guarantee (id : string) (d d' : D) : Prop := I d -> I d' /\ forall k, k <> id -> k ∉ used d -> k ∉ used d'.
Definition unborn (id : string) (d : D) : Prop := I d /\ id ∉ used d.
#[export] Instance rely_preorder id : PreOrder (rely id).
Proof. split; [by intros d H|]. intros d1 d2 d3 H1 H2 H. destruct (H1 H) as [H3 H4]. destruct (H2 H3) as [H5 H6]. split; [done | auto]. Qed.
#[export] Instance guarantee_refl id : Reflexive (guarantee id).
Proof. by intros d H. Qed.
Lemma unborn_stable id : stable (rely id) (unborn id).
Proof. intros d d' [H1 H2] HR. destruct (HR H1) as [H3 H4]. split; auto. Qed.
Lemma unborn_ok id d : unborn id d -> I d.
Proof. by intros [H _]. Qed.
(** A batch that uses no new id. *)
Lemma no_birth id d d' : I d' -> used d' = used d -> guarantee id d d' /\ I d'.
Proof. intros H E. split; [|done]. intros _. split; [done|]. intros k _. by rewrite E. Qed.

Section Contracts.
Context (id : string).
(** Until it has written, an action can count on its id being unused. *)
Definition reading {A} (p : prog D A) : Prop := safe (rely id) (guarantee id) (unborn id) p (fun _ => unborn id) I.
Definition keeping {A} (p : prog D A) : Prop := safe (rely id) (guarantee id) (unborn id) p (fun _ => I) I.
Lemma keep_bind {A B} (p : prog D A) (k : A -> prog D B) : reading p -> (forall a, keeping (k a)) -> keeping (pbind p k).
Proof. intros Hp Hk. eapply safe_bind; [exact Hp | exact Hk]. Qed.
Lemma read_bind {A B} (p : prog D A) (k : A -> prog D B) : reading p -> (forall a, reading (k a)) -> reading (pbind p k).
Proof. intros Hp Hk. eapply safe_bind; [exact Hp | exact Hk]. Qed.
Lemma read_ask {A} (f : D -> res A) : reading (ask f).
Proof.
  apply (safe_weaken _ _ _ (unborn id) _ _ (fun a => seen (rely id) f a (unborn id)) _ I).
  - apply safe_ask; [exact _ | exact _ | apply unborn_stable | intros s; apply unborn_ok].
  - done.
  - by intros a s [H _].
  - done.
Qed.
Lemma read_lift {A} (r : res A) : reading (plift r).
Proof.
  apply (safe_weaken _ _ _ (unborn id) _ _ (fun a s => unborn id s /\ r = Ok a) _ I); [|done | by intros a s [H _] | done].
  apply safe_lift. intros s. apply unborn_ok.
Qed.
Lemma read_ret {A} (a : A) : reading (pret a).
Proof. by apply safe_ret. Qed.
(** A write that neither touches the invariant nor uses an id. *)
Lemma read_write {A} (f : D -> res (D * A)) : (forall d d' a, f d = Ok (d', a) -> (I d -> I d') /\ used d' = used d) -> reading (write f).
Proof.
  intros H. apply safe_write; [exact _ | apply unborn_stable|]. intros d [H1 H2]. destruct (f d) as [[d' a]|e] eqn:E; [|done]. destruct (H d d' a E) as [H3 H4].
  split; [by apply no_birth; [apply H3|]|]. split; [by apply H3 | by rewrite H4].
Qed.
Lemma keep_ret {A} (a : A) : keeping (pret a).
Proof. apply safe_ret. intros s. apply unborn_ok. Qed.
Lemma keep_decided l i message : (forall d d' rs, unborn id d -> transaction l d = Ok (d', rs) -> guarantee id d d' /\ I d') -> keeping (decided l i message).
Proof.
  intros H. eapply safe_bind with (M := fun _ => I).
  - apply safe_write; [exact _ | apply unborn_stable|]. intros d Hd. destruct (transaction l d) as [[d' rs]|] eqn:E; [by eapply H | by apply unborn_ok in Hd].
  - intros rs. eapply safe_bind with (M := fun _ => I); [|intros a; by apply safe_ret].
    apply (safe_weaken _ _ _ I _ _ (fun _ s => I s /\ negb (bool_decide (rs !! i = Some 1)) = false) _ I); [|done | by intros a s [? _] | done].
    by apply safe_refuse.
Qed.
Lemma keep_then {A B} (p : prog D B) (a : A) : keeping p -> keeping (pbind p (fun _ => pret a)).
Proof. intros Hp. eapply safe_bind; [exact Hp|]. intros u. by apply safe_ret. Qed.
End Contracts.

Section Requests.
Context {Q : Type} (drawn : Q -> string) (perform : Q -> prog D unit).
(** Different requests draw different ids; the rest of the program keeps the invariant and uses
    none of these ids. *)
Definition drawn_apart (requests : list Q) : Prop := forall i j x y, requests !! i = Some x -> requests !! j = Some y -> i <> j -> drawn x <> drawn y.
Definition world_keeps (requests : list Q) (world : D -> D -> Prop) : Prop :=
  forall d d', world d d' -> I d -> I d' /\ forall x, x ∈ requests -> drawn x ∉ used d -> drawn x ∉ used d'.
Definition relies (requests : list Q) (i : nat) : D -> D -> Prop := match requests !! i with Some x => rely (drawn x) | None => fun _ _ => True end.
Definition gives (requests : list Q) (i : nat) : D -> D -> Prop := match requests !! i with Some x => guarantee (drawn x) | None => eq end.
#[local] Instance relies_preorder requests i : PreOrder (relies requests i).
Proof. unfold relies. destruct (requests !! i) as [x|]; [exact _ | by split]. Qed.
(** Any number of such actions, interleaved, keep the invariant. *)
Theorem requests_keep world requests d ts d' : (forall x, keeping (drawn x) (perform x)) -> drawn_apart requests -> world_keeps requests world ->
  (forall x, x ∈ requests -> drawn x ∉ used d) -> pool_steps world (map perform requests, d) (ts, d') -> I d -> I d'.
Proof.
  intros Hsafe Hapart Hworld Hnew Hrun HI. eapply (pool_guarantees world (relies requests) (gives requests)); [exact _ | | | | | | exact Hrun | exact HI].
  - intros i s s' Hw. unfold relies. destruct (requests !! i) as [x|] eqn:Ei; [|done]. intros Hs. destruct (Hworld s s' Hw Hs) as [H1 H2]. split; [done|].
    apply H2. by eapply list_elem_of_lookup_2.
  - intros i j s s' Hne. unfold relies, gives. destruct (requests !! i) as [x|] eqn:Ei; [|done]. destruct (requests !! j) as [y|] eqn:Ej; [|by intros ->].
    intros HG Hs. destruct (HG Hs) as [H1 H2]. split; [done|]. apply H2. apply (Hapart i j _ _ Ei Ej Hne).
  - intros s s' Hw Hs. apply (Hworld s s' Hw Hs).
  - intros i s s'. unfold gives. destruct (requests !! i) as [x|]; [|by intros ->]. intros HG Hs. by apply HG.
  - intros i p Hp. rewrite list_lookup_fmap in Hp. apply fmap_Some in Hp as (x & Hi & ->). exists d, (fun _ => I).
    unfold relies, gives. rewrite Hi. split; [reflexivity|]. apply list_elem_of_lookup_2 in Hi. eapply ok_mono; [|apply (Hsafe x)].
    + by intros [[]|e] s.
    + split; [done|]. apply (Hnew _ Hi).
Qed.
End Requests.
End Births.

(** ** Actions that keep an invariant, whatever they draw *)

Section Steady.
Context {D : Type} (I : D -> Prop).
Definition keeps (d d' : D) : Prop := I d -> I d'.
#[local] Instance keeps_preorder : PreOrder keeps.
Proof. split; [by intros d H|]. intros d1 d2 d3 H1 H2 H. auto. Qed.
Lemma steady_stable : stable keeps I.
Proof. intros d d' H HR. auto. Qed.
Definition steady {A} (p : prog D A) : Prop := safe keeps keeps I p (fun _ => I) I.
Lemma steady_bind {A B} (p : prog D A) (k : A -> prog D B) : steady p -> (forall a, steady (k a)) -> steady (pbind p k).
Proof. intros Hp Hk. eapply safe_bind; [exact Hp | exact Hk]. Qed.
Lemma steady_ask {A} (f : D -> res A) : steady (ask f).
Proof.
  apply (safe_weaken _ _ _ I _ _ (fun a => seen keeps f a I) _ I); [|done | by intros a s [H _] | done].
  apply safe_ask; [exact _ | exact _ | apply steady_stable | done].
Qed.
Lemma steady_lift {A} (r : res A) : steady (plift r).
Proof. apply (safe_weaken _ _ _ I _ _ (fun a s => I s /\ r = Ok a) _ I); [|done | by intros a s [H _] | done]. by apply safe_lift. Qed.
Lemma steady_ret {A} (a : A) : steady (pret a).
Proof. by apply safe_ret. Qed.
Lemma steady_write {A} (f : D -> res (D * A)) : (forall d d' a, I d -> f d = Ok (d', a) -> I d') -> steady (write f).
Proof.
  intros H. apply safe_write; [exact _ | apply steady_stable|]. intros d Hd. destruct (f d) as [[d' a]|e] eqn:E; [|done]. split; [intros _|]; by eapply H.
Qed.
Lemma steady_settled l refused message : (forall d d' rs, I d -> transaction l d = Ok (d', rs) -> I d') -> steady (settled l refused message).
Proof.
  intros H. apply steady_bind; [|intros rs; apply steady_bind; [apply steady_lift | intros ?; apply steady_ret]].
  apply steady_write. intros d d' rs. apply H.
Qed.
(** Any number of such actions, interleaved with a world that keeps the invariant, keep it. *)
Theorem steady_pool {Q} (perform : Q -> prog D unit) requests world d ts d' : (forall x, x ∈ requests -> steady (perform x)) -> (forall s s', world s s' -> I s -> I s') ->
  pool_steps world (map perform requests, d) (ts, d') -> I d -> I d'.
Proof.
  intros Hsafe Hworld Hrun HI. eapply (pool_guarantees world (fun _ => keeps) (fun _ => keeps)); [intros; exact _ | by intros i | done | done | by intros i | | exact Hrun | exact HI].
  intros i p Hp. rewrite list_lookup_fmap in Hp. apply fmap_Some in Hp as (x & Hx & ->). apply list_elem_of_lookup_2 in Hx. exists d, (fun _ => I).
  split; [reflexivity|]. eapply ok_mono; [|apply (Hsafe x Hx); exact HI]. by intros [[]|e] s.
Qed.
End Steady.

(** What became of the actions of a pool. *)
Definition ended {D A} (ts : list (prog D A)) : list (option (res A)) := map (fun p => match p with pdone r => Some r | paccess _ => None end) ts.

(** *** Running one action *)

Section Runs.
Context {D : Type}.
(** A move of the others, if there is one left, and the database it gives. *)
Definition moved (moves : list (D -> D)) (s : D) : list (D -> D) * D := match moves with [] => ([], s) | g :: rest => (rest, g s) end.
Lemma run_ask {A B} (f : D -> res A) (k : A -> prog D B) moves s :
  run moves (pbind (ask f) k) s =
  (let '(rest, s1) := moved moves s in match f s1 with Ok a => run rest (k a) s1 | Err e => (Err e, s1) end).
Proof. cbn. destruct moves as [|g moves]; cbn; by destruct (f _). Qed.
Lemma run_lift {A B} (r : res A) (k : A -> prog D B) moves s :
  run moves (pbind (plift r) k) s = match r with Ok a => run moves (k a) s | Err e => (Err e, s) end.
Proof. by destruct r. Qed.
Lemma run_decided {B} l i message (b : B) moves s : run moves (pbind (decided l i message) (fun _ => pret b)) s =
  (let s1 := (moved moves s).2 in
   match transaction l s1 with
   | Ok (s2, rs) => (if bool_decide (rs !! i = Some 1) then Ok b else Err message, s2)
   | Err e => (Err e, s1)
   end).
Proof.
  unfold decided, settled. cbn. destruct moves as [|g moves]; cbn; destruct (transaction l _) as [[s2 rs]|e]; try done; cbn; by destruct (bool_decide _).
Qed.
Lemma run_decided_last l i message moves s : run moves (decided l i message) s =
  (let s1 := (moved moves s).2 in
   match transaction l s1 with
   | Ok (s2, rs) => (if bool_decide (rs !! i = Some 1) then Ok tt else Err message, s2)
   | Err e => (Err e, s1)
   end).
Proof.
  unfold decided, settled. cbn. destruct moves as [|g moves]; cbn; destruct (transaction l _) as [[s2 rs]|e]; try done; cbn; by destruct (bool_decide _).
Qed.
(** The rows a condition with the primary key selects, when it selects one. *)
Lemma count_if_id {R} (key : R -> string) (g : R -> bool) l k : keys_unique key l -> (forall r, g r = true -> key r = k) -> count_if g l = 1 ->
  exists r, r ∈ l /\ g r = true /\ forall x, x ∈ l -> g x = bool_decide (key x = k).
Proof.
  intros Hu Hg Hc. destruct (List.filter g l) as [|r rest] eqn:E; [unfold count_if in Hc; rewrite E in Hc; done|].
  assert (Hr : r ∈ List.filter g l) by (rewrite E, elem_of_cons; by left). apply filter_In_elem in Hr as [Hr Hgr]. exists r. split_and!; [done | done|].
  intros x Hx. destruct (g x) eqn:Ex.
  - symmetry. by apply bool_decide_eq_true, Hg.
  - symmetry. apply bool_decide_eq_false. intros Ek. assert (x = r) as -> by (apply (keys_unique_inj key l); [done | done | done|]; by rewrite Ek, (Hg r Hgr)). congruence.
Qed.
End Runs.
