(* ===== verification/MachineActions.v ===== *)
(** * MachineActions: machines and their enrollment tokens

    The actions of [apps/web/src/lib/server/resources.ts] on machines that are in use: adding a
    machine, changing its settings, and listing, revoking and replacing the token with which its
    Agent enrolls.  ([ResourceLifecycle] has deletion and recovery.)  An action reads, decides and
    writes one batch; other requests run between its accesses ([Interleave]).

    What an action draws at random and the time it reads come from a [draw]. *)

From Stdlib Require Import ZArith Lia Bool String Ascii List.
From stdpp Require Import base tactics list strings.
From S2P Require Import Prelude.
From S2P Require Import Js.
From S2P Require Import JsonFacts.
From S2P Require Import Sql.
From S2P Require Import Crypto.
From S2P Require Import Base64Url.
From S2P Require Import Envelopes.
From S2P Require Import Authz.
From S2P Require Import ControlPlane.
From S2P Require Import AuditLog.
From S2P Require Import Interleave.
From S2P Require Import ConfigTables.
From S2P Require Import MemberData.
From S2P Require Import MachineSettings.
From S2P Require Import Transaction.
Open Scope string_scope.
Open Scope Z_scope.

(** ** Tables *)

(** A row of [agent_enrollment_tokens]. *)
Record token_row := TokenRow {
  tk_id : string;
  tk_workspace : string;
  tk_machine : string;
  tk_digest : list byte;
  tk_expires : Z;
  tk_used : option Z;
  tk_revoked : option Z;
  tk_creator : string;
  tk_created : Z;
}.
(** The tables the actions use; [xd_sequence] is the row ['machine'] of
    [telemetry_resource_sequences], [xd_dashboards] the ids of [dashboards]. *)
Record machine_db := MachineDb {
  xd_authz : control_db;
  xd_sequence : option Z;
  xd_machines : list machine_cols;
  xd_tokens : list token_row;
  xd_dashboards : list string;
  xd_resources : list dashboard_resource;
  xd_policies : list public_policy;
  xd_audits : list audit_row;
}.
Definition put_sequence v d := MachineDb (xd_authz d) v (xd_machines d) (xd_tokens d) (xd_dashboards d) (xd_resources d) (xd_policies d) (xd_audits d).
Definition put_machines v d := MachineDb (xd_authz d) (xd_sequence d) v (xd_tokens d) (xd_dashboards d) (xd_resources d) (xd_policies d) (xd_audits d).
Definition put_tokens v d := MachineDb (xd_authz d) (xd_sequence d) (xd_machines d) v (xd_dashboards d) (xd_resources d) (xd_policies d) (xd_audits d).
Definition put_resources v d := MachineDb (xd_authz d) (xd_sequence d) (xd_machines d) (xd_tokens d) (xd_dashboards d) v (xd_policies d) (xd_audits d).
Definition put_policies v d := MachineDb (xd_authz d) (xd_sequence d) (xd_machines d) (xd_tokens d) (xd_dashboards d) (xd_resources d) v (xd_audits d).
Definition put_audits v d := MachineDb (xd_authz d) (xd_sequence d) (xd_machines d) (xd_tokens d) (xd_dashboards d) (xd_resources d) (xd_policies d) v.

(** What the migrations declare: keys, references and [CHECK]s. *)
Definition between (lo x hi : Z) : bool := (lo <=? x) && (x <=? hi).
Definition machine_columns_ok (m : machine_cols) : bool :=
  between 1 (mc_sampling m) 300 && between 60 (mc_report m) 900 && between 60 (mc_offline m) 86400 && between 0 (mc_containers m) 1.
Definition machine_insertable (m : machine_cols) (d : machine_db) : bool :=
  negb (has_key mc_id (mc_id m) (xd_machines d)) && negb (has_key mc_pk (mc_pk m) (xd_machines d)) &&
  negb (existsb (fun r => String.eqb (mc_workspace r) (mc_workspace m) && String.eqb (mc_publicSlug r) (mc_publicSlug m)) (xd_machines d)) &&
  has_key ws_id (mc_workspace m) (workspaces (xd_authz d)) && machine_columns_ok m.
Definition token_insertable (t : token_row) (d : machine_db) : bool :=
  negb (has_key tk_id (tk_id t) (xd_tokens d)) && negb (has_key tk_digest (tk_digest t) (xd_tokens d)) &&
  has_key mc_id (tk_machine t) (xd_machines d) && has_key ws_id (tk_workspace t) (workspaces (xd_authz d)).
Definition resource_insertable (r : dashboard_resource) (d : machine_db) : bool :=
  negb (has_key dashboard_resource_key (dashboard_resource_key r) (xd_resources d)) && bool_decide (dr_dashboard r ∈ xd_dashboards d).
Definition policy_insertable (p : public_policy) (d : machine_db) : bool :=
  negb (has_key public_policy_key (public_policy_key p) (xd_policies d)) && has_key ws_id (pp_workspace p) (workspaces (xd_authz d)).
(** [prepareAuditStatement] with [onlyIfPreviousStatementChanged] *)
Definition audit_changed (row : audit_row) : stmt := insert_if_changed xd_audits put_audits row.

(** ** Tokens *)

(** [bytes]: 32 random bytes. *)
(* @src apps/web/src/lib/server/resources.ts randomToken *)
Definition randomToken (bytes : list byte) : string := str_map to_url_char (str_filter (fun c => negb (Ascii.eqb c "=")) (btoa bytes)).
(* @src apps/web/src/lib/server/resources.ts decodeHexSecret *)
Definition decodeHexSecret (value : string) : res (list byte) := hex_key "500 Enrollment pepper is invalid" value.

(** What an action draws, and the time. *)
Record draw := Draw {
  dw_now : Z;
  dw_bytes : list byte;
  dw_token : string;
  dw_machine : string;
  dw_slug : string;
  dw_audit : string;
}.
(* @src apps/web/src/lib/server/resources.ts EnrollmentTokenSummary *)
Record EnrollmentTokenSummary := TokenSummary {
  et_id : string;
  et_expiresAt : Z;
  et_usedAt : option Z;
  et_revokedAt : option Z;
  et_createdAt : Z;
  et_state : string;
}.
(* @src apps/web/src/lib/server/resources.ts enrollmentTokenSummary *)
Definition enrollmentTokenSummary (row : token_row) (now : Z) : EnrollmentTokenSummary :=
  TokenSummary (tk_id row) (tk_expires row) (tk_used row) (tk_revoked row) (tk_created row)
    (match tk_used row, tk_revoked row with
     | Some _, _ => "used"
     | None, Some _ => "revoked"
     | None, None => if tk_expires row <=? now then "expired" else "active"
     end).
Definition int_out (o : option Z) : jout := match o with Some z => OInt z | None => ONull end.
Definition summary_out (s : EnrollmentTokenSummary) (revokedAt : option Z) (state : string) : jout :=
  OObj [("id", OStr (et_id s)); ("expiresAt", OInt (et_expiresAt s)); ("usedAt", int_out (et_usedAt s)); ("revokedAt", int_out revokedAt);
        ("createdAt", OInt (et_createdAt s)); ("state", OStr state)].
(** [used_at IS NULL AND revoked_at IS NULL] *)
Definition open_token (t : token_row) : bool := bool_decide (tk_used t = None) && bool_decide (tk_revoked t = None).
Definition token_of (workspaceId machineId : string) (t : token_row) : bool := String.eqb (tk_workspace t) workspaceId && String.eqb (tk_machine t) machineId.
Definition revoke (now : Z) (t : token_row) : token_row :=
  TokenRow (tk_id t) (tk_workspace t) (tk_machine t) (tk_digest t) (tk_expires t) (tk_used t) (Some now) (tk_creator t) (tk_created t).

(** ** Settings *)

(** The keys of an audited object are sorted before it is hashed. *)
(* @src apps/web/src/lib/server/resources.ts auditConfiguration *)
Definition auditConfiguration (c : NormalizedMachineConfiguration) (revision : Z) : jout :=
  OObj [("name", OStr (nm_name c)); ("expectedHost", match nm_expectedHost c with Some h => OStr h | None => ONull end); ("description", OStr (nm_description c));
        ("labels", nm_labels c); ("samplingIntervalSeconds", OInt (nm_samplingIntervalSeconds c)); ("reportIntervalSeconds", OInt (nm_reportIntervalSeconds c));
        ("offlineAfterSeconds", OInt (nm_offlineAfterSeconds c)); ("containersEnabled", OBool (nm_containersEnabled c));
        ("maintenanceUntil", int_out (nm_maintenanceUntil c)); ("desiredConfigRevision", OInt revision)].
(* @src apps/web/src/lib/server/resources.ts rowConfiguration *)
Definition rowConfiguration (row : machine_cols) : res NormalizedMachineConfiguration :=
  let* l := json_parse (mc_labels row) in
  Ok (MachineConfig (mc_name row) (mc_expectedHost row) (mc_description row) (jout_of_json l) (mc_sampling row) (mc_report row) (mc_offline row)
        (mc_containers row =? 1) (mc_maintenance row)).
(** The columns a configuration sets. *)
Definition configured (c : NormalizedMachineConfiguration) (revision now : Z) (m : machine_cols) : machine_cols :=
  MachineCols (mc_id m) (mc_pk m) (mc_workspace m) (mc_publicSlug m) (nm_name c) (nm_description c) (nm_expectedHost c) (json_stringify (nm_labels c))
    (nm_samplingIntervalSeconds c) (nm_reportIntervalSeconds c) (nm_offlineAfterSeconds c) (if nm_containersEnabled c then 1 else 0) (nm_maintenanceUntil c)
    revision (mc_created m) now (mc_deleted m).

Section Actions.
Context `{WC : WebCrypto} `{LO : Locale} (dw : draw).
Let now := dw_now dw.

(* @src apps/web/src/lib/server/resources.ts tokenDigest *)
Definition tokenDigest (token pepper : string) : res (list byte) :=
  let* key := decodeHexSecret pepper in Ok (hmac_sha256 key (encode_utf8 token)).
(** The token, its id and its digest. *)
(* @src apps/web/src/lib/server/resources.ts enrollmentMaterial *)
Definition enrollmentMaterial (pepper : string) : res (string * string * list byte) :=
  let token := randomToken (dw_bytes dw) in
  let* digest := tokenDigest token pepper in Ok (token, dw_token dw, digest).
(* @src apps/web/src/lib/server/resources.ts nextSequence *)
Definition nextSequence : prog machine_db Z :=
  write (fun d => match xd_sequence d with
    | Some value => Ok (put_sequence (Some (value + 1)) d, value + 1)
    | None => Err "500 Resource sequence is unavailable"
    end).
Definition load_access (workspaceSlug userId : string) : prog machine_db MonitoringAccess :=
  ask (fun d => loadMonitoringAccess (xd_authz d) workspaceSlug userId).

(** What is handed to the administrator. *)
Record issued := Issued { is_token : string; is_tokenId : string; is_machineId : string; is_expiresAt : Z }.
Definition enrollment_row (workspaceId machineId userId : string) (digest : list byte) : token_row :=
  TokenRow (dw_token dw) workspaceId machineId digest (now + 15 * 60000) None None userId now.
(** [EXISTS (SELECT 1 FROM machines created WHERE created.id = ? AND created.workspace_id = ?)] *)
Definition machine_there (workspaceId machineId : string) (d : machine_db) : bool :=
  existsb (fun m => String.eqb (mc_id m) machineId && String.eqb (mc_workspace m) workspaceId) (xd_machines d).
Definition machine_alive (workspaceId machineId : string) (d : machine_db) : bool :=
  existsb (fun m => String.eqb (mc_id m) machineId && String.eqb (mc_workspace m) workspaceId && alive (mc_deleted m)) (xd_machines d).

(** *** Adding a machine *)

Definition new_machine (workspaceId : string) (telemetryPk : Z) (c : NormalizedMachineConfiguration) : machine_cols :=
  configured c 1 now (MachineCols (dw_machine dw) telemetryPk workspaceId (str_filter (fun ch => negb (Ascii.eqb ch "-")) (dw_slug dw)) "" "" None "{}" 0 0 0 0 None 0 now now None).
(* @src apps/web/src/lib/server/resources.ts 233-316 createMachine *)
Definition creation (access : MonitoringAccess) (userId : string) (c : NormalizedMachineConfiguration) (telemetryPk : Z) (digest : list byte) : list stmt :=
  let workspaceId := m_workspaceId access in
  let there := machine_there workspaceId (dw_machine dw) in
  [insert_into xd_machines put_machines machine_insertable (fun d => finalAdminCondition userId workspaceId (xd_authz d)) (new_machine workspaceId telemetryPk c);
   audit_changed (prepareAuditStatement (dw_audit dw) (AuditInput workspaceId userId "machine.create" "machine" (dw_machine dw) None (Some (auditConfiguration c 1)) now));
   insert_into xd_tokens put_tokens token_insertable there (enrollment_row workspaceId (dw_machine dw) userId digest);
   insert_into xd_resources put_resources resource_insertable there (DashboardResource (m_defaultDashboardId access) RMachine (dw_machine dw) telemetryPk "inherit");
   insert_into xd_policies put_policies policy_insertable there (PublicPolicy workspaceId RMachine (dw_machine dw) "deny" "summary" now)].
(* @src apps/web/src/lib/server/resources.ts createMachine *)
Definition createMachine (workspaceSlug userId enrollmentPepper : string) (input : MachineConfigurationInput) : prog machine_db issued :=
  do access <- load_access workspaceSlug userId in
  do _ <- plift (requireAdmin access) in
  do configuration <- plift (normalizeMachineConfiguration input) in
  do telemetryPk <- nextSequence in
  do enrollment <- plift (enrollmentMaterial enrollmentPepper) in
  do _ <- decided (creation access userId configuration telemetryPk enrollment.2) 0 "409 Workspace access changed; reload and try again" in
  pret (Issued enrollment.1.1 enrollment.1.2 (dw_machine dw) (now + 15 * 60000)).

(** *** Changing a machine's settings *)

Definition find_machine (workspaceId machineId : string) (d : machine_db) : res machine_cols :=
  match List.find (fun m => String.eqb (mc_id m) machineId && String.eqb (mc_workspace m) workspaceId && alive (mc_deleted m)) (xd_machines d) with
  | Some m => Ok m
  | None => Err "404 Resource not found"
  end.
Definition may_configure (access : MonitoringAccess) (userId machineId : string) (revision : Z) (m : machine_cols) (d : machine_db) : bool :=
  String.eqb (mc_id m) machineId && String.eqb (mc_workspace m) (m_workspaceId access) && alive (mc_deleted m) && (mc_revision m =? revision) &&
  finalResourceCapabilityCondition access userId RMachine (mc_workspace m) (mc_id m) manage (xd_authz d).
(* @src apps/web/src/lib/server/resources.ts updateMachineConfiguration *)
Definition updateMachineConfiguration (workspaceSlug userId machineId : string) (input : MachineConfigurationInput) : prog machine_db Z :=
  do access <- load_access workspaceSlug userId in
  do _ <- plift (requireResourceCapability access RMachine machineId manage) in
  do existing <- ask (find_machine (m_workspaceId access) machineId) in
  do configuration <- plift (normalizeMachineConfiguration input) in
  let revision := mc_revision existing + 1 in
  do before <- plift (rowConfiguration existing) in
  let audit := prepareAuditStatement (dw_audit dw) (AuditInput (m_workspaceId access) userId "machine.configuration.update" "machine" machineId
    (Some (auditConfiguration before (mc_revision existing))) (Some (auditConfiguration configuration revision)) now) in
  do _ <- decided
    [update_set xd_machines put_machines machine_columns_ok (may_configure access userId machineId (mc_revision existing))
       (fun m => configured configuration (mc_revision m + 1) now m);
     audit_changed audit] 0 "409 Machine configuration changed; reload and try again" in
  pret revision.

(** *** Enrollment tokens *)

(* @src apps/web/src/lib/server/resources.ts requireAdminMachine *)
Definition requireAdminMachine (workspaceSlug userId machineId : string) : prog machine_db MonitoringAccess :=
  do access <- load_access workspaceSlug userId in
  do _ <- plift (requireAdmin access) in
  do _ <- ask (find_machine (m_workspaceId access) machineId) in
  pret access.
Definition newest_first (a b : token_row) : bool := tk_created b <=? tk_created a.
(* @src apps/web/src/lib/server/resources.ts listMachineEnrollmentTokens *)
Definition listMachineEnrollmentTokens (workspaceSlug userId machineId : string) : prog machine_db (list EnrollmentTokenSummary) :=
  do access <- requireAdminMachine workspaceSlug userId machineId in
  do tokens <- ask (fun d => Ok (order_limit newest_first 20 (List.filter (token_of (m_workspaceId access) machineId) (xd_tokens d)))) in
  pret (map (fun t => enrollmentTokenSummary t now) tokens).
(* @src apps/web/src/lib/server/resources.ts revokeMachineEnrollmentToken *)
Definition revokeMachineEnrollmentToken (workspaceSlug userId machineId tokenId : string) : prog machine_db unit :=
  do access <- requireAdminMachine workspaceSlug userId machineId in
  let workspaceId := m_workspaceId access in
  do token <- ask (fun d => match List.find (fun t => String.eqb (tk_id t) tokenId && token_of workspaceId machineId t) (xd_tokens d) with
    | Some t => Ok t
    | None => Err "404 Resource not found"
    end) in
  refuse_if negb (open_token token) as "409 Enrollment token is no longer revocable" in
  let summary := enrollmentTokenSummary token now in
  let audit := prepareAuditStatement (dw_audit dw) (AuditInput workspaceId userId "agent.enrollment.revoke" "machine" machineId
    (Some (summary_out summary (et_revokedAt summary) (et_state summary))) (Some (summary_out summary (Some now) "revoked")) now) in
  decided
    [update_set xd_tokens put_tokens (fun _ => true)
       (fun t d => String.eqb (tk_id t) tokenId && token_of workspaceId machineId t && open_token t && finalAdminCondition userId (tk_workspace t) (xd_authz d)) (revoke now);
     audit_changed audit] 0 "409 Enrollment token is no longer revocable".
Definition created_there (workspaceId tokenId : string) (d : machine_db) : bool :=
  existsb (fun t => String.eqb (tk_id t) tokenId && String.eqb (tk_workspace t) workspaceId) (xd_tokens d).
(* @src apps/web/src/lib/server/resources.ts 547-590 regenerateMachineEnrollmentToken *)
Definition regeneration (access : MonitoringAccess) (userId machineId : string) (digest : list byte) (audit : audit_row) : list stmt :=
  let workspaceId := m_workspaceId access in
  [insert_into xd_tokens put_tokens token_insertable (fun d => finalAdminCondition userId workspaceId (xd_authz d) && machine_alive workspaceId machineId d)
     (enrollment_row workspaceId machineId userId digest);
   audit_changed audit;
   update_set xd_tokens put_tokens (fun _ => true)
     (fun t d => token_of workspaceId machineId t && negb (String.eqb (tk_id t) (dw_token dw)) && open_token t && created_there workspaceId (dw_token dw) d) (revoke now)].
(* @src apps/web/src/lib/server/resources.ts regenerateMachineEnrollmentToken *)
Definition regenerateMachineEnrollmentToken (workspaceSlug userId enrollmentPepper machineId : string) : prog machine_db issued :=
  do access <- requireAdminMachine workspaceSlug userId machineId in
  let workspaceId := m_workspaceId access in
  do previous <- ask (fun d => Ok (order_limit newest_first 20 (List.filter (fun t => token_of workspaceId machineId t && open_token t) (xd_tokens d)))) in
  do enrollment <- plift (enrollmentMaterial enrollmentPepper) in
  let audit := prepareAuditStatement (dw_audit dw) (AuditInput workspaceId userId "agent.enrollment.regenerate" "machine" machineId
    (Some (OObj [("replacedTokenIds", OArr (map (fun t => OStr (tk_id t)) previous))]))
    (Some (OObj [("tokenId", OStr enrollment.1.2); ("expiresAt", OInt (now + 15 * 60000))])) now) in
  do _ <- decided (regeneration access userId machineId enrollment.2 audit) 0 "409 Workspace access changed; reload and try again" in
  pret (Issued enrollment.1.1 enrollment.1.2 machineId (now + 15 * 60000)).
End Actions.

(** ** At most one token to enroll with *)

(** Ids are unique, every token belongs to a machine of its workspace, and of a machine's tokens
    at most one is open: neither used nor revoked. *)
Record tokens_ok (d : machine_db) : Prop := TokensOk {
  ok_ids : keys_unique tk_id (xd_tokens d);
  ok_machines : keys_unique mc_id (xd_machines d);
  ok_owner : forall t, t ∈ xd_tokens d -> exists m, m ∈ xd_machines d /\ mc_id m = tk_machine t /\ mc_workspace m = tk_workspace t;
  ok_one : forall t t', t ∈ xd_tokens d -> t' ∈ xd_tokens d -> open_token t = true -> open_token t' = true -> tk_machine t = tk_machine t' -> tk_id t = tk_id t';
}.
Definition same_tables (d d' : machine_db) : Prop := xd_tokens d' = xd_tokens d /\ xd_machines d' = xd_machines d.
#[export] Instance same_tables_preorder : PreOrder same_tables.
Proof. split; [by intros d|]. intros d1 d2 d3 [H1 H2] [H3 H4]. split; congruence. Qed.
Lemma ok_same d d' : same_tables d d' -> tokens_ok d -> tokens_ok d'.
Proof. intros [Et Em] [H1 H2 H3 H4]. split; rewrite ?Et, ?Em; done. Qed.

Definition close (g : token_row -> bool) (now : Z) (t : token_row) : token_row := if g t then revoke now t else t.
Lemma close_kept g now t : tk_id (close g now t) = tk_id t /\ tk_machine (close g now t) = tk_machine t /\ tk_workspace (close g now t) = tk_workspace t /\
  (open_token (close g now t) = true -> open_token t = true /\ g t = false).
Proof. unfold close. destruct (g t); cbn; [|done]. split_and!; try done. unfold open_token. cbn. by rewrite andb_false_r. Qed.
(** Closing tokens keeps ids and owners, and leaves at most as many open. *)
Lemma close_ok g now d : keys_unique tk_id (xd_tokens d) -> keys_unique mc_id (xd_machines d) ->
  (forall t, t ∈ xd_tokens d -> exists m, m ∈ xd_machines d /\ mc_id m = tk_machine t /\ mc_workspace m = tk_workspace t) ->
  (forall t t', t ∈ xd_tokens d -> t' ∈ xd_tokens d -> open_token t = true -> open_token t' = true -> g t = false -> g t' = false ->
     tk_machine t = tk_machine t' -> tk_id t = tk_id t') ->
  tokens_ok (put_tokens (map (close g now) (xd_tokens d)) d).
Proof.
  intros H1 H2 H3 H4. split; cbn [xd_tokens xd_machines put_tokens]; [| done | |].
  - unfold keys_unique. rewrite map_map. erewrite map_ext; [exact H1|]. intros t. apply close_kept.
  - intros t Ht. apply (list_elem_of_fmap (close g now)) in Ht as (u & -> & Hu). destruct (H3 u Hu) as (m & Hm & E1 & E2).
    destruct (close_kept g now u) as (_ & -> & -> & _). by exists m.
  - intros t t' Ht Ht' Ho Ho' Em. apply (list_elem_of_fmap (close g now)) in Ht as (u & -> & Hu). apply (list_elem_of_fmap (close g now)) in Ht' as (v & -> & Hv).
    destruct (close_kept g now u) as (-> & E1 & _ & E2). destruct (close_kept g now v) as (-> & E3 & _ & E4). apply E2 in Ho as [? ?]. apply E4 in Ho' as [? ?].
    apply H4; try done. congruence.
Qed.
Lemma revoked_ok g now d : tokens_ok d -> tokens_ok (put_tokens (map (close g now) (xd_tokens d)) d).
Proof. intros [H1 H2 H3 H4]. apply close_ok; [done | done | done|]. intros t t' ? ? ? ? _ _ ?. by apply H4. Qed.
Lemma audit_same row : along same_tables (audit_changed row).
Proof. intros d n d' m. unfold audit_changed, insert_if_changed. destruct (n =? 1); by intros [= <- <-]. Qed.
Lemma insert_same {R} get set constraints guard (row : R) : (forall v d, same_tables d (set v d)) -> along same_tables (insert_into get set constraints guard row).
Proof. intros Hs d n d' m H. apply insert_into_effect in H as [(_ & -> & _)|(_ & _ & -> & _)]; [done | apply Hs]. Qed.

(** The machines a change may add. *)
Definition no_machine (id : string) (d : machine_db) : Prop := has_key mc_id id (xd_machines d) = false.
Lemma no_machine_elem id d : no_machine id d <-> id ∉ map mc_id (xd_machines d).
Proof. unfold no_machine. rewrite <- not_true_iff_false, has_key_elem. done. Qed.
Lemma no_machine_same id d d' : same_tables d d' -> no_machine id d -> no_machine id d'.
Proof. unfold no_machine. by intros [_ ->]. Qed.

Section Keeps.
Context `{WC : WebCrypto} `{LO : Locale} (dw : draw).
Let now := dw_now dw.

Lemma creation_ok access userId c pk digest d d' rs : tokens_ok d -> no_machine (dw_machine dw) d ->
  transaction (creation dw access userId c pk digest) d = Ok (d', rs) ->
  tokens_ok d' /\ forall id, id <> dw_machine dw -> no_machine id d -> no_machine id d'.
Proof.
  intros HI Hnew H. unfold transaction, creation in H. set (ws := m_workspaceId access) in *. set (there := machine_there ws (dw_machine dw)) in *. cbv zeta in H.
  apply transaction_cons in H as (d1 & n1 & r1 & H1 & H & _). apply transaction_cons in H as (d2 & n2 & r2 & H2 & H & _).
  apply transaction_cons in H as (d3 & n3 & r3 & H3 & H & _). apply audit_same in H2.
  assert (Hrest : same_tables d3 d').
  { eapply transaction_along; [exact _ | | exact H]. apply Forall_cons; split; [by apply insert_same|]. apply Forall_singleton. by apply insert_same. }
  apply insert_into_effect in H1 as [(_ & -> & _)|(_ & Hi & -> & _)].
  - assert (Hno : there d2 = false).
    { unfold there, machine_there. apply existsb_false_elem. intros m Hm. destruct H2 as [_ Em]. rewrite Em in Hm. apply andb_false_iff. left. apply String.eqb_neq.
      intros E. apply no_machine_elem in Hnew. apply Hnew. rewrite <- E. by apply (list_elem_of_fmap_2 mc_id). }
    apply insert_into_effect in H3 as [(_ & -> & _)|(Hg & _)]; [|congruence]. assert (Hs : same_tables d d') by (by transitivity d2).
    split; [by apply (ok_same d)|]. intros id _. by apply no_machine_same.
  - set (m := new_machine dw ws pk c) in *. set (dm := put_machines (xd_machines d ++ [m])%list d) in *. assert (Hid : mc_id m = dw_machine dw) by done.
    assert (Hdm : tokens_ok dm).
    { destruct HI as [I1 I2 I3 I4]. split; cbn [xd_tokens xd_machines dm put_machines]; [done | | | done].
      - apply keys_unique_app; [done|]. by rewrite Hid.
      - intros t Ht. destruct (I3 t Ht) as (x & Hx & E). exists x. split; [|done]. rewrite elem_of_app. by left. }
    assert (Hids : forall id, id <> dw_machine dw -> no_machine id d -> no_machine id dm).
    { intros id Hne. rewrite !no_machine_elem. unfold dm. cbn. rewrite map_app, elem_of_app. cbn. rewrite list_elem_of_singleton. tauto. }
    apply (ok_same dm d2 H2) in Hdm as H2ok. apply insert_into_effect in H3 as [(_ & -> & _)|(_ & Hi3 & -> & _)].
    + assert (Hs : same_tables dm d') by (by transitivity d2). split; [by apply (ok_same dm)|]. intros id Hne Hn. by apply (no_machine_same id dm), Hids.
    + destruct Hrest as [Et Em]. cbn in Et, Em. destruct H2 as [E2t E2m]. split.
      * apply (ok_same (put_tokens (xd_tokens d2 ++ [enrollment_row dw ws (dw_machine dw) userId digest])%list d2)); [by split|].
        destruct H2ok as [J1 J2 J3 J4]. unfold token_insertable in Hi3. bool_hyps.
        assert (Hfresh : forall t, t ∈ xd_tokens d2 -> tk_machine t <> dw_machine dw).
        { intros t Ht E. rewrite E2t in Ht. destruct (ok_owner d HI t Ht) as (x & Hx & E1 & _). apply no_machine_elem in Hnew. apply Hnew.
          rewrite <- E, <- E1. by apply (list_elem_of_fmap_2 mc_id). }
        split; cbn [xd_tokens xd_machines put_tokens].
        -- by apply keys_unique_app.
        -- done.
        -- intros t Ht. apply elem_of_app in Ht as [Ht|Ht]; [by apply J3|]. apply list_elem_of_singleton in Ht as ->. exists m. split; [|done]. rewrite E2m.
           unfold dm. cbn. rewrite elem_of_app, list_elem_of_singleton. by right.
        -- intros t t' Ht Ht' Ho Ho' E. apply elem_of_app in Ht as [Ht|Ht], Ht' as [Ht'|Ht'].
           ++ by apply J4.
           ++ apply list_elem_of_singleton in Ht' as ->. by apply Hfresh in Ht.
           ++ apply list_elem_of_singleton in Ht as ->. symmetry in E. by apply Hfresh in Ht'.
           ++ apply list_elem_of_singleton in Ht as ->. by apply list_elem_of_singleton in Ht' as ->.
      * intros id Hne Hn. unfold no_machine. rewrite Em, E2m. by apply Hids.
Qed.

(** What [regenerateMachineEnrollmentToken] writes: nothing, or the new token with all others of
    the machine closed. *)
Lemma regeneration_effect access userId machineId digest audit d d' rs : tokens_ok d ->
  transaction (regeneration dw access userId machineId digest audit) d = Ok (d', rs) ->
  xd_machines d' = xd_machines d /\
  ((rs !! 0%nat = Some 0 /\ exists g, xd_tokens d' = map (close g now) (xd_tokens d)) \/
   (rs !! 0%nat = Some 1 /\ finalAdminCondition userId (m_workspaceId access) (xd_authz d) = true /\
    (exists m, m ∈ xd_machines d /\ mc_id m = machineId /\ mc_workspace m = m_workspaceId access /\ mc_deleted m = None) /\
    let row := enrollment_row dw (m_workspaceId access) machineId userId digest in
    xd_tokens d' = (map (close (fun t => String.eqb (tk_machine t) machineId && open_token t) now) (xd_tokens d) ++ [row])%list /\
    has_key tk_id (tk_id row) (xd_tokens d) = false /\ has_key tk_digest (tk_digest row) (xd_tokens d) = false)).
Proof.
  intros HI H. unfold transaction, regeneration in H. set (ws := m_workspaceId access) in *. cbv zeta in H.
  apply transaction_cons in H as (d1 & n1 & r1 & H1 & H & ->). apply transaction_cons in H as (d2 & n2 & r2 & H2 & H & ->).
  apply transaction_cons in H as (d3 & n3 & r3 & H3 & H & ->). cbn in H. injection H as <- <-. apply audit_same in H2 as [Et Em].
  apply update_set_effect in H3 as (-> & _ & _). cbn [xd_machines xd_tokens put_tokens]. rewrite Em, Et.
  apply insert_into_effect in H1 as [(_ & -> & ->)|(Hg & Hi & -> & ->)]; (split; [done|]).
  - left. split; [done|]. by eexists.
  - right. cbn [xd_tokens put_tokens] in *. apply andb_true_iff in Hg as [Hadmin Halive]. unfold machine_alive in Halive. apply existsb_exists_elem in Halive as (m & Hm & Ha).
    bool_hyps. apply not_alive in H0. unfold token_insertable in Hi. bool_hyps. split_and!; [done | done | by exists m | | done | done].
    rewrite map_app. cbn [map]. set (row := enrollment_row dw ws machineId userId digest) in *.
    assert (Hthere : created_there ws (dw_token dw) d2 = true).
    { unfold created_there. apply existsb_exists_elem. exists row. split; [rewrite Et, elem_of_app, list_elem_of_singleton; by right|]. cbn. by rewrite !String.eqb_refl. }
    rewrite Hthere. f_equal; [|cbn; by rewrite String.eqb_refl, andb_false_r]. apply map_ext_in. intros t Ht. apply list_elem_of_In in Ht.
    unfold close. rewrite andb_true_r.
    assert (Hne : String.eqb (tk_id t) (dw_token dw) = false).
    { apply String.eqb_neq. intros E. match goal with E0 : has_key tk_id _ _ = false |- _ => rename E0 into Hk end.
      assert (has_key tk_id (dw_token dw) (xd_tokens d) = true); [|cbn in Hk; congruence]. apply has_key_elem. rewrite <- E. by apply (list_elem_of_fmap_2 tk_id). }
    rewrite Hne. cbn [negb]. rewrite andb_true_r. unfold token_of. destruct (String.eqb (tk_machine t) machineId) eqn:Em'; [|by rewrite andb_false_r].
    apply String.eqb_eq in Em'. destruct (ok_owner d HI t Ht) as (x & Hx & E1 & E2).
    assert (x = m) as -> by (apply (keys_unique_inj mc_id (xd_machines d)); [apply HI | done | done | congruence]).
    replace (String.eqb (tk_workspace t) ws) with true by (symmetry; apply String.eqb_eq; congruence). done.
Qed.
Lemma regeneration_ok access userId machineId digest audit d d' rs : tokens_ok d ->
  transaction (regeneration dw access userId machineId digest audit) d = Ok (d', rs) -> tokens_ok d' /\ xd_machines d' = xd_machines d.
Proof.
  intros HI H. apply regeneration_effect in H as [Em [(_ & g & Et)|(_ & _ & (m & Hm & E1 & E2 & _) & Et & Hid & _)]]; [| |done]; (split; [|done]).
  - apply (ok_same (put_tokens (map (close g now) (xd_tokens d)) d)); [by split | by apply revoked_ok].
  - set (row := enrollment_row dw _ _ _ _) in *. set (g := fun t : token_row => _) in *.
    pose proof (revoked_ok g now d HI) as [J1 J2 J3 J4]. cbn [xd_tokens xd_machines put_tokens] in *.
    assert (Hclosed : forall t, t ∈ map (close g now) (xd_tokens d) -> open_token t = true -> tk_machine t <> machineId).
    { intros t Ht Ho. apply (list_elem_of_fmap (close g now)) in Ht as (u & -> & Hu). destruct (close_kept g now u) as (_ & -> & _ & Hc). apply Hc in Ho as [Ho Hg].
      unfold g in Hg. rewrite Ho, andb_true_r in Hg. by apply String.eqb_neq. }
    split; rewrite ?Em, ?Et.
    + apply keys_unique_app; [done|]. apply not_true_iff_false. rewrite has_key_elem, map_map.
      replace (map (fun t => tk_id (close g now t)) (xd_tokens d)) with (map tk_id (xd_tokens d)) by (apply map_ext; intros t; symmetry; apply close_kept).
      rewrite <- has_key_elem, Hid. done.
    + done.
    + intros t Ht. apply elem_of_app in Ht as [Ht|Ht]; [by apply J3|]. apply list_elem_of_singleton in Ht as ->. by exists m.
    + intros t t' Ht Ht' Ho Ho' E. apply elem_of_app in Ht as [Ht|Ht], Ht' as [Ht'|Ht'].
      * by apply J4.
      * apply list_elem_of_singleton in Ht' as ->. by apply Hclosed in Ht.
      * apply list_elem_of_singleton in Ht as ->. symmetry in E. by apply Hclosed in Ht'.
      * apply list_elem_of_singleton in Ht as ->. by apply list_elem_of_singleton in Ht' as ->.
Qed.
Lemma revocation_ok g audit d d' rs :
  transaction [update_set xd_tokens put_tokens (fun _ => true) g (revoke now); audit_changed audit] d = Ok (d', rs) ->
  tokens_ok d -> tokens_ok d' /\ xd_machines d' = xd_machines d.
Proof.
  intros H HI. apply transaction_cons in H as (d1 & n1 & r1 & H1 & H & _). apply transaction_cons in H as (d2 & n2 & r2 & H2 & H & _). cbn in H. injection H as <- <-.
  apply audit_same in H2 as [Et Em]. apply update_set_effect in H1 as (-> & _ & _). cbn in Et, Em. split; [|done].
  apply (ok_same (put_tokens (map (close (fun t => g t d) now) (xd_tokens d)) d)); [by split | by apply revoked_ok].
Qed.
Lemma configured_kept c rev m : mc_id (configured c rev now m) = mc_id m /\ mc_workspace (configured c rev now m) = mc_workspace m.
Proof. done. Qed.
Lemma configuration_ok g c audit d d' rs :
  transaction [update_set xd_machines put_machines machine_columns_ok g (fun m => configured c (mc_revision m + 1) now m); audit_changed audit] d = Ok (d', rs) ->
  tokens_ok d -> tokens_ok d' /\ map mc_id (xd_machines d') = map mc_id (xd_machines d).
Proof.
  intros H HI. apply transaction_cons in H as (d1 & n1 & r1 & H1 & H & _). apply transaction_cons in H as (d2 & n2 & r2 & H2 & H & _). cbn in H. injection H as <- <-.
  apply audit_same in H2 as [Et Em]. apply update_set_effect in H1 as (-> & _ & _). cbn [xd_tokens xd_machines put_machines] in Et, Em.
  set (f := fun m => if g m d then configured c (mc_revision m + 1) now m else m) in *.
  assert (Hf : forall m, mc_id (f m) = mc_id m /\ mc_workspace (f m) = mc_workspace m) by (intros m; unfold f; by destruct (g m d)).
  assert (Hids : map mc_id (xd_machines d2) = map mc_id (xd_machines d)) by (rewrite Em, map_map; apply map_ext; intros m; apply Hf).
  split; [|done]. destruct HI as [H1 H2 H3 H4]. split; rewrite ?Et; try done.
  - unfold keys_unique. by rewrite Hids.
  - intros t Ht. destruct (H3 t Ht) as (m & Hm & E1 & E2). exists (f m). rewrite Em. split; [by apply (list_elem_of_fmap_2 f)|]. destruct (Hf m) as [-> ->]. done.
Qed.
End Keeps.

(** ** Any number of actions at the same time *)

Definition machine_ids (d : machine_db) : list string := map mc_id (xd_machines d).

Inductive request :=
| create_request (slug user pepper : string) (input : MachineConfigurationInput)
| update_request (slug user machine : string) (input : MachineConfigurationInput)
| list_request (slug user machine : string)
| revoke_request (slug user machine token : string)
| regenerate_request (slug user pepper machine : string).

Section Requests.
Context `{WC : WebCrypto} `{LO : Locale}.
Definition discard {A} (p : prog machine_db A) : prog machine_db unit := do _ <- p in pret tt.
Definition perform (dw : draw) (r : request) : prog machine_db unit :=
  match r with
  | create_request slug user pepper input => discard (createMachine dw slug user pepper input)
  | update_request slug user machine input => discard (updateMachineConfiguration dw slug user machine input)
  | list_request slug user machine => discard (listMachineEnrollmentTokens dw slug user machine)
  | revoke_request slug user machine token => revokeMachineEnrollmentToken dw slug user machine token
  | regenerate_request slug user pepper machine => discard (regenerateMachineEnrollmentToken dw slug user pepper machine)
  end.
Lemma read_admin id slug user machine : reading tokens_ok machine_ids id (requireAdminMachine slug user machine).
Proof.
  apply read_bind; [apply read_ask|]. intros access. apply read_bind; [apply read_lift|]. intros _. apply read_bind; [apply read_ask|]. intros _. apply read_ret.
Qed.
Lemma perform_machine_safe dw r : keeping tokens_ok machine_ids (dw_machine dw) (perform dw r).
Proof.
  destruct r as [slug user pepper input|slug user machine input|slug user machine|slug user machine token|slug user pepper machine]; cbn [perform]; unfold discard.
  - apply keep_then. do 3 (apply keep_bind; [first [apply read_ask | apply read_lift]|]; intros ?). apply keep_bind.
    { apply read_write. intros d d' pk. destruct (xd_sequence d); [|done]. intros [= <- <-]. split; [|done]. by apply ok_same. }
    intros pk. apply keep_bind; [apply read_lift|]. intros e. apply keep_then, keep_decided. intros d d' rs [H1 H2] H.
    apply no_machine_elem in H2. apply creation_ok in H as [H3 H4]; [|done|done]. split; [|done]. intros _. split; [done|].
    intros k Hk. unfold machine_ids. rewrite <- !no_machine_elem. auto.
  - apply keep_then. do 5 (apply keep_bind; [first [apply read_ask | apply read_lift]|]; intros ?). apply keep_then, keep_decided. intros d d' rs [H1 _] H.
    apply configuration_ok in H as [H3 H4]; [|done]. by apply no_birth.
  - apply keep_then. apply keep_bind; [apply read_admin|]. intros access. apply keep_bind; [apply read_ask|]. intros l. apply keep_ret.
  - apply keep_bind; [apply read_admin|]. intros access. do 2 (apply keep_bind; [first [apply read_ask | apply read_lift]|]; intros ?).
    apply keep_decided. intros d d' rs [H1 _] H. apply revocation_ok in H as [H3 H4]; [|done]. apply no_birth; [done | unfold machine_ids; by rewrite H4].
  - apply keep_then. apply keep_bind; [apply read_admin|]. intros access. do 2 (apply keep_bind; [first [apply read_ask | apply read_lift]|]; intros ?).
    apply keep_then, keep_decided. intros d d' rs [H1 _] H. apply regeneration_ok in H as [H3 H4]; [|done]. apply no_birth; [done | unfold machine_ids; by rewrite H4].
Qed.
Definition drawn_machine (x : draw * request) : string := dw_machine x.1.
Definition perform_request (x : draw * request) : prog machine_db unit := perform x.1 x.2.

(** C13: A machine never has two tokens to enroll with: however many administrators add machines,
    change them, and list, revoke and replace their tokens at the same time, their accesses to the
    database interleaved in any order with the rest of the program (Agents that use their token,
    deletion), at most one token of a machine is neither used nor revoked, and every token belongs
    to a machine of its own workspace. *)
Theorem one_enrollment_token world requests d ts d' : drawn_apart drawn_machine requests -> world_keeps tokens_ok machine_ids drawn_machine requests world ->
  (forall x, x ∈ requests -> drawn_machine x ∉ machine_ids d) ->
  pool_steps world (map perform_request requests, d) (ts, d') -> tokens_ok d -> tokens_ok d'.
Proof. apply requests_keep. intros [dw r]. apply perform_machine_safe. Qed.
End Requests.

(** ** Recorded requests *)

#[local] Instance md_locale : Locale := String.leb.
Definition md_pepper : string := "000102030405060708090a0b0c0d0e0f101112131415161718191a1b1c1d1e1f".
Definition md_draw (i : Z) : draw :=
  Draw (1000 + i) (repeat (byte_of_Z i) 32) ("token-" ++ z_to_string i) ("machine-" ++ z_to_string i) ("slug-" ++ z_to_string i) ("audit-" ++ z_to_string i).
Definition md_input : MachineConfigurationInput :=
  MachineInput " web " "" "edge" "env=prod" (num_of_Z 10) (num_of_Z 60) (num_of_Z 150) true None.
Definition md_machine : machine_cols := MachineCols "m" 21 "w" "m-1" "db" "" None "{}" 10 60 180 0 None 4 0 0 None.
Definition md_start : machine_db :=
  MachineDb (ControlDb [Membership "w" "ada" admin active; Membership "w" "bob" member active] [] [] [] [WorkspaceRow "w" "team" 7 "board" 10 None])
    (Some 21) [md_machine] [TokenRow "t" "w" "m" [] 900 None None "ada" 0] ["board"] [] [] [].
Definition md_requests : list (draw * request) :=
  [(md_draw 1, regenerate_request "team" "ada" md_pepper "m"); (md_draw 2, regenerate_request "team" "ada" md_pepper "m");
   (md_draw 3, create_request "team" "ada" md_pepper md_input); (md_draw 4, regenerate_request "team" "bob" md_pepper "m")].
Definition md_run : list (prog machine_db unit) * machine_db :=
  schedule [0; 1; 2; 3; 0; 1; 0; 1; 2; 2; 0; 1]%nat (map perform_request md_requests, md_start).
Lemma md_start_ok : tokens_ok md_start.
Proof.
  split; [apply (bool_decide_unpack _); vm_compute; exact Logic.I | apply (bool_decide_unpack _); vm_compute; exact Logic.I | |].
  - intros t Ht. apply list_elem_of_singleton in Ht as ->. exists md_machine. split; [apply list_elem_of_singleton|]; done.
  - intros t t' Ht Ht' _ _ _. apply list_elem_of_singleton in Ht as ->. by apply list_elem_of_singleton in Ht' as ->.
Qed.
Lemma md_apart : drawn_apart drawn_machine md_requests.
Proof. intros i j x y Hi Hj Hne. do 4 (destruct i as [|i]; [do 4 (destruct j as [|j]; [try done; injection Hi as <-; injection Hj as <-; done|]); done|]). done. Qed.
Theorem one_enrollment_token_witness :
  ended md_run.1 = [Some (Ok tt); Some (Ok tt); Some (Ok tt); Some (Err "404 Workspace not found")] /\
  map (fun t => (tk_id t, tk_machine t, open_token t)) (xd_tokens md_run.2) =
    [("t", "m", false); ("token-3", "machine-3", true); ("token-1", "m", false); ("token-2", "m", true)] /\ tokens_ok md_run.2.
Proof.
  split; [vm_compute; reflexivity|]. split; [vm_compute; reflexivity|].
  refine (one_enrollment_token eq md_requests md_start md_run.1 md_run.2 md_apart _ _ _ md_start_ok).
  - intros d d' <-. done.
  - intros x Hx. repeat (apply elem_of_cons in Hx as [->|Hx]; [apply (bool_decide_unpack _); vm_compute; exact Logic.I|]). by apply elem_of_nil in Hx.
  - unfold md_run. rewrite <- surjective_pairing. apply schedule_steps.
Defined.

(** ** No change is lost *)

Section Update.
Context `{WC : WebCrypto} `{LO : Locale} (dw : draw).
Let now := dw_now dw.

(** The administrators of the workspace or those who manage this machine, when the row changes. *)
Definition still_manages (access : MonitoringAccess) (userId : string) (m : machine_cols) (d : machine_db) : Prop :=
  finalResourceCapabilityCondition access userId RMachine (mc_workspace m) (mc_id m) manage (xd_authz d) = true.
(** [before] is the database that the batch found. *)
Definition exactly_configured (userId machineId : string) (access : MonitoringAccess) (seen m : machine_cols) (c : NormalizedMachineConfiguration) (before after : machine_db) : Prop :=
  m ∈ xd_machines before /\ mc_id m = machineId /\ mc_workspace m = m_workspaceId access /\ mc_deleted m = None /\
  mc_revision m = mc_revision seen /\ still_manages access userId m before /\
  xd_machines after = map (fun r => if String.eqb (mc_id r) machineId then configured c (mc_revision m + 1) now r else r) (xd_machines before) /\
  (exists row, xd_audits after = (xd_audits before ++ [row])%list /\ al_actor row = userId /\ al_resource row = machineId) /\
  after = put_audits (xd_audits after) (put_machines (xd_machines after) before).

Lemma update_batch_effect userId machineId access seen c audit d d' rs : keys_unique mc_id (xd_machines d) ->
  al_actor audit = userId -> al_resource audit = machineId ->
  transaction [update_set xd_machines put_machines machine_columns_ok (may_configure access userId machineId (mc_revision seen)) (fun m => configured c (mc_revision m + 1) now m);
               audit_changed audit] d = Ok (d', rs) ->
  if bool_decide (rs !! 0%nat = Some 1) then exists m, exactly_configured userId machineId access seen m c d d' else d' = d.
Proof.
  intros Hu Ha1 Ha2 H. apply transaction_cons in H as (d1 & n1 & r1 & H1 & H & ->). apply transaction_cons in H as (d2 & n2 & r2 & H2 & H & ->). cbn in H. injection H as <- <-.
  set (guard := may_configure access userId machineId (mc_revision seen)) in *.
  apply update_set_effect in H1 as (-> & -> & _). cbn [lookup list_lookup nth_error]. 
  assert (Hg : forall m, guard m d = true -> mc_id m = machineId) by (intros m Hm; unfold guard, may_configure in Hm; by bool_hyps).
  unfold audit_changed, insert_if_changed in H2. set (n := count_if (fun r => guard r d) (xd_machines d)) in *.
  destruct (n =? 1) eqn:En; injection H2 as <- <-.
  - apply Z.eqb_eq in En. rewrite bool_decide_eq_true_2 by (cbn; by rewrite En).
    destruct (count_if_id mc_id (fun r => guard r d) _ machineId Hu Hg En) as (m & Hm & Hgm & Hall). exists m.
    pose proof Hgm as Hgm'. unfold guard, may_configure in Hgm'. bool_hyps. match goal with E : alive _ = true |- _ => apply not_alive in E end.
    unfold exactly_configured, still_manages. split_and!; try done.
    + cbn [xd_machines put_machines put_audits]. apply map_ext_in. intros x Hx. apply list_elem_of_In in Hx. rewrite (Hall x Hx).
      destruct (String.eqb_spec (mc_id x) machineId) as [E|E]; [|by rewrite bool_decide_eq_false_2]. rewrite bool_decide_eq_true_2 by done.
      assert (x = m) as -> by (apply (keys_unique_inj mc_id (xd_machines d)); [done | done | done | congruence]). done.
    + exists audit. cbn. by split_and!.
  - rewrite bool_decide_eq_false_2 by (cbn; intros [= E]; apply Z.eqb_neq in En; done).
    assert (Hzero : forall r, r ∈ xd_machines d -> guard r d = false).
    { apply (count_if_zero mc_id). destruct (count_if_unique mc_id (fun r => guard r d) (xd_machines d) Hu) as [E|E]; [|done|].
      - intros x y _ _ Hx Hy. by rewrite (Hg x Hx), (Hg y Hy).
      - apply Z.eqb_neq in En. done. }
    destruct d. cbn in *. f_equal. unfold put_machines. cbn. f_equal.
    transitivity (map (fun r => r) xd_machines0); [|apply map_id]. apply map_ext_in. intros r Hr. apply list_elem_of_In in Hr. by rewrite Hzero.
Qed.

(** C19: A machine's settings change exactly as asked, once, and no change is lost.  Whatever other
    requests do between the three accesses of [updateMachineConfiguration], when it succeeds the
    settings it replaced are the ones it had read (their revision is unchanged, so is what it
    audits), the user still manages the machine, the form was accepted, and the batch changes the
    one row, to the accepted settings under the next revision, and adds one audit row; when it
    fails nothing was written. *)
Theorem machine_update_exact slug userId machineId input g1 g2 g3 s r s' :
  let s1 := g1 s in let s2 := g2 s1 in let s3 := g3 s2 in
  keys_unique mc_id (xd_machines s3) ->
  run [g1; g2; g3] (updateMachineConfiguration dw slug userId machineId input) s = (r, s') ->
  match r with
  | Ok revision => exists access seen c m, loadMonitoringAccess (xd_authz s1) slug userId = Ok access /\
      find_machine (m_workspaceId access) machineId s2 = Ok seen /\ normalizeMachineConfiguration input = Ok c /\
      revision = mc_revision seen + 1 /\ exactly_configured userId machineId access seen m c s3 s'
  | Err _ => s' = s1 \/ s' = s2 \/ s' = s3
  end.
Proof.
  intros s1 s2 s3 Hu H. unfold updateMachineConfiguration, load_access in H. rewrite run_ask in H. cbn [moved] in H. fold s1 in H.
  destruct (loadMonitoringAccess _ _ _) as [access|e] eqn:E1; [|injection H as <- <-; by left]. rewrite run_lift in H.
  destruct (requireResourceCapability _ _ _ _) as [[]|e]; [|injection H as <- <-; by left]. rewrite run_ask in H. cbn [moved] in H. fold s2 in H.
  destruct (find_machine _ _ _) as [seen|e] eqn:E2; [|injection H as <- <-; right; by left]. rewrite run_lift in H.
  destruct (normalizeMachineConfiguration input) as [c|e] eqn:E3; [|injection H as <- <-; right; by left]. cbv zeta in H. rewrite run_lift in H.
  destruct (rowConfiguration seen) as [before|e] eqn:E4; [|injection H as <- <-; right; by left]. rewrite run_decided in H. cbn [moved snd] in H. fold s3 in H. cbv zeta in H.
  destruct (transaction _ s3) as [[s4 rs]|e] eqn:E5; [|injection H as <- <-; right; by right].
  apply (update_batch_effect userId machineId access seen c) in E5; [|done|done|done]. destruct (bool_decide _); injection H as <- <-.
  - destruct E5 as [m Hm]. by exists access, seen, c, m.
  - right. by right.
Qed.
End Update.
Theorem machine_update_exact_witness :
  exists s', run [fun s => s; fun s => s; put_sequence (Some 50)] (updateMachineConfiguration (md_draw 1) "team" "ada" "m" md_input) md_start = (Ok 5, s') /\
  exists access seen c m, mc_labels seen = "{}" /\ exactly_configured (md_draw 1) "ada" "m" access seen m c (put_sequence (Some 50) md_start) s'.
Proof.
  eexists. split; [vm_compute; reflexivity|].
  refine (match machine_update_exact (md_draw 1) "team" "ada" "m" md_input (fun s => s) (fun s => s) (put_sequence (Some 50)) md_start (Ok 5) _ _ _ with
    ex_intro _ access (ex_intro _ seen (ex_intro _ c (ex_intro _ m (conj _ (conj H (conj _ (conj _ H')))))))  => ex_intro _ access (ex_intro _ seen (ex_intro _ c (ex_intro _ m (conj _ H')))) end).
  - apply (bool_decide_unpack _). vm_compute. exact Logic.I.
  - vm_compute. reflexivity.
  - clear H'. revert H. unfold find_machine. destruct (List.find _ _) as [x|] eqn:E; [|done]. intros [= <-]. apply List.find_some in E as [[<-|[]] _]. reflexivity.
Defined.
