(* ===== verification/IncidentActions.v ===== *)
(** * IncidentActions: incidents and announcements

    [apps/web/src/lib/server/incident-management.ts]: opening an incident for some services,
    posting an update to it, and publishing an announcement.  Who may do this is decided on what
    the action reads, and once more in the batch that writes ([finalServiceSetManageCondition]);
    other requests run in between.  The pages that show incidents are in [WorkspacePages]. *)

From Stdlib Require Import ZArith Lia Bool String Ascii List.
From stdpp Require Import base tactics list strings.
From S2P Require Import Prelude.
From S2P Require Import Js.
From S2P Require Import Sql.
From S2P Require Import Envelopes.
From S2P Require Import Authz.
From S2P Require Import Interleave.
From S2P Require Import QueryBatches.
From S2P Require Import MemberData.
From S2P Require Import Transaction.
Open Scope string_scope.
Open Scope Z_scope.

(** ** Tables *)

(** A row of [incidents]. *)
Record incident_row := IncidentRow {
  in_id : string;
  in_workspace : string;
  in_title : string;
  in_summary : string;
  in_severity : string;
  in_state : string;
  in_starts : Z;
  in_resolved : option Z;
  in_creator : string;
  in_created : Z;
  in_updated : Z;
  in_deleted : option Z;
}.
(** The tables; [incident_updates] are the rows the pages read, in the order of insertion. *)
Record incident_db := IncidentDb {
  nd_memberships : list membership;
  nd_grants : list grant_row;
  nd_services : list service_row;
  nd_workspaces : list workspace_row;
  nd_incidents : list incident_row;
  nd_affected : list affected_cols;
  nd_updates : list incident_update;
  nd_announcements : list announcement_cols;
}.
Definition put_incidents v d := IncidentDb (nd_memberships d) (nd_grants d) (nd_services d) (nd_workspaces d) v (nd_affected d) (nd_updates d) (nd_announcements d).
Definition put_affected v d := IncidentDb (nd_memberships d) (nd_grants d) (nd_services d) (nd_workspaces d) (nd_incidents d) v (nd_updates d) (nd_announcements d).
Definition put_updates v d := IncidentDb (nd_memberships d) (nd_grants d) (nd_services d) (nd_workspaces d) (nd_incidents d) (nd_affected d) v (nd_announcements d).
Definition put_announcements v d := IncidentDb (nd_memberships d) (nd_grants d) (nd_services d) (nd_workspaces d) (nd_incidents d) (nd_affected d) (nd_updates d) v.
(** What the conditions of [Authz] see of it. *)
Definition nd_authz (d : incident_db) : control_db :=
  ControlDb (nd_memberships d) (nd_grants d) (nd_services d) (map (fun a => IncidentResource (fc_incident a) (fc_type a) (fc_resource a)) (nd_affected d))
    (nd_workspaces d).
(** Keys, references and [CHECK]s. *)
Definition incident_insertable (i : incident_row) (d : incident_db) : bool :=
  negb (has_key in_id (in_id i) (nd_incidents d)) && has_key ws_id (in_workspace i) (nd_workspaces d) &&
  str_in (in_severity i) ["minor"; "major"; "critical"] && str_in (in_state i) ["investigating"; "identified"; "monitoring"; "resolved"].
Definition update_insertable (u : incident_update) (d : incident_db) : bool :=
  negb (has_key iu_id (iu_id u) (nd_updates d)) && has_key in_id (iu_incident u) (nd_incidents d).
Definition affected_key (a : affected_cols) : string * ResourceType * string := (fc_incident a, fc_type a, fc_resource a).
Definition affected_insertable (a : affected_cols) (d : incident_db) : bool :=
  negb (has_key affected_key (affected_key a) (nd_affected d)) && has_key in_id (fc_incident a) (nd_incidents d) && str_in (fc_impact a) ["degraded"; "down"].
Definition announcement_insertable (n : announcement_cols) (d : incident_db) : bool :=
  negb (has_key nc_id (nc_id n) (nd_announcements d)) && has_key ws_id (nc_workspace n) (nd_workspaces d).

(** ** Input *)

(* @src apps/web/src/lib/server/incident-management.ts MAX_INCIDENT_SERVICES *)
Definition MAX_INCIDENT_SERVICES : Z := 20.
(* @src apps/web/src/lib/server/incident-management.ts validText *)
Definition validText (value : string) (minimum maximum : Z) (label : string) : res string :=
  let trimmed := trim value in
  throw_if (slen trimmed <? minimum) || (maximum <? slen trimmed)
    as "400 " ++ label ++ " must contain between " ++ z_to_string minimum ++ " and " ++ z_to_string maximum ++ " characters" in Ok trimmed.
Record incident_input := IncidentInput {
  ni_title : string;
  ni_summary : string;
  ni_severity : string;
  ni_serviceIds : list string;
  ni_impact : string;
  ni_startsAt : number;
}.
Record announcement_input := AnnouncementInput {
  nn_title : string;
  nn_body : string;
  nn_severity : string;
  nn_visibility : string;
  nn_startsAt : number;
  nn_expiresAt : number;
}.

(** ** The services of an incident *)

Definition actor_in (workspaceId userId : string) (role : WorkspaceRole) (d : incident_db) : bool :=
  existsb (fun m => String.eqb (mb_workspace m) workspaceId && String.eqb (mb_user m) userId && bool_decide (mb_role m = role) && bool_decide (mb_status m = active))
    (nd_memberships d).
(** A live service of the workspace among these. *)
Definition listed_service (workspaceId : string) (serviceIds : list string) (s : service_row) : bool :=
  String.eqb (sv_workspace s) workspaceId && bool_decide (sv_deleted s = None) && str_in (sv_id s) serviceIds.
(** The grants that let a member manage a service: one that allows it, none that denies it. *)
Definition manages_service (workspaceId userId serviceId : string) (d : incident_db) : bool :=
  existsb (fun g => String.eqb (gr_workspace g) workspaceId && String.eqb (gr_user g) userId && bool_decide (resourceType (gr_grant g) = RService) &&
    String.eqb (resourceId (gr_grant g)) serviceId && bool_decide (capability (gr_grant g) = manage) && bool_decide (effect (gr_grant g) = allow)) (nd_grants d) &&
  negb (existsb (fun g => String.eqb (gr_workspace g) workspaceId && String.eqb (gr_user g) userId && bool_decide (resourceType (gr_grant g) = RService) &&
    String.eqb (resourceId (gr_grant g)) serviceId && (bool_decide (capability (gr_grant g) = view) || bool_decide (capability (gr_grant g) = manage)) &&
    bool_decide (effect (gr_grant g) = deny)) (nd_grants d)).
(* @src apps/web/src/lib/server/incident-management.ts finalServiceSetManageCondition *)
Definition finalServiceSetManageCondition (access : MonitoringAccess) (actorUserId : string) (serviceIds : list string) (d : incident_db) : bool :=
  let workspaceId := m_workspaceId access in
  if bool_decide (m_role access = admin) then
    actor_in workspaceId actorUserId admin d && (count_if (listed_service workspaceId serviceIds) (nd_services d) =? Z.of_nat (length serviceIds))
  else
    actor_in workspaceId actorUserId member d &&
    (count_if (fun s => listed_service workspaceId serviceIds s && manages_service (sv_workspace s) actorUserId (sv_id s) d) (nd_services d) =? Z.of_nat (length serviceIds)).

(** ** The actions *)

(** What an action draws, and the time. *)
Record incident_draw := IncidentDraw { nw_now : Z; nw_incident : string; nw_update : string; nw_announcement : string }.

Section Actions.
Context (dw : incident_draw).
Let now := nw_now dw.
Definition load_access (workspaceSlug userId : string) : prog incident_db MonitoringAccess := ask (fun d => loadMonitoringAccess (nd_authz d) workspaceSlug userId).
(** [EXISTS (SELECT 1 FROM incidents created WHERE created.id = ? AND created.workspace_id = ?)] *)
Definition incident_there (workspaceId incidentId : string) (d : incident_db) : bool :=
  existsb (fun i => String.eqb (in_id i) incidentId && String.eqb (in_workspace i) workspaceId) (nd_incidents d).
Definition starts_in_range (value : number) : option Z :=
  match safe_int value with
  | Some t => if (t <? now - 365 * 24 * 60 * 60000) || (now + 30 * 24 * 60 * 60000 <? t) then None else Some t
  | None => None
  end.
Definition opened (workspaceId title summary severity userId : string) (startsAt : Z) : incident_row :=
  IncidentRow (nw_incident dw) workspaceId title summary severity "investigating" startsAt None userId now now None.
(* @src apps/web/src/lib/server/incident-management.ts 147-201 createIncident *)
Definition opening (access : MonitoringAccess) (userId title summary severity impact : string) (serviceIds : list string) (startsAt : Z) : list stmt :=
  let workspaceId := m_workspaceId access in
  let there := incident_there workspaceId (nw_incident dw) in
  insert_into nd_incidents put_incidents incident_insertable (finalServiceSetManageCondition access userId serviceIds)
    (opened workspaceId title summary severity userId startsAt) ::
  insert_into nd_updates put_updates update_insertable there (IncidentUpdate (nw_update dw) (nw_incident dw) "investigating" summary (Some now) now) ::
  map (fun serviceId => insert_into nd_affected put_affected affected_insertable there (AffectedCols (nw_incident dw) RService serviceId impact)) serviceIds.
(* @src apps/web/src/lib/server/incident-management.ts createIncident *)
Definition createIncident (workspaceSlug userId : string) (input : incident_input) : prog incident_db string :=
  let serviceIds := dedup_from [] (ni_serviceIds input) in
  refuse_if bool_decide (serviceIds = []) as "400 Select at least one affected service" in
  refuse_if MAX_INCIDENT_SERVICES <? Z.of_nat (length serviceIds) as "400 An incident can affect at most 20 services" in
  refuse_if negb (str_in (ni_severity input) ["minor"; "major"; "critical"]) as "400 Incident severity is invalid" in
  refuse_if negb (str_in (ni_impact input) ["degraded"; "down"]) as "400 Incident impact is invalid" in
  do startsAt <- plift match starts_in_range (ni_startsAt input) with Some t => Ok t | None => Err "400 Incident start time is outside the allowed range" end in
  do title <- plift (validText (ni_title input) 2 120 "Incident title") in
  do summary <- plift (validText (ni_summary input) 2 2000 "Incident summary") in
  do access <- load_access workspaceSlug userId in
  do services <- ask (fun d => Ok (List.filter (listed_service (m_workspaceId access) serviceIds) (nd_services d))) in
  refuse_if negb (length services =? length serviceIds)%nat ||
      existsb (fun serviceId => negb (canAccessResource (m_role access) (m_grants access) RService serviceId manage)) serviceIds as "404 Service not found" in
  do _ <- decided (opening access userId title summary (ni_severity input) (ni_impact input) serviceIds startsAt) 0 "409 Incident access changed; reload and try again" in
  pret (nw_incident dw).

Definition in_incident (workspaceId incidentId : string) (i : incident_row) : bool :=
  String.eqb (in_id i) incidentId && String.eqb (in_workspace i) workspaceId && bool_decide (in_deleted i = None).
Definition affected_services (incidentId : string) (d : incident_db) : list string :=
  map fc_resource (List.filter (fun a => String.eqb (fc_incident a) incidentId && bool_decide (fc_type a = RService)) (nd_affected d)).
Definition with_state (state : string) (i : incident_row) : incident_row :=
  IncidentRow (in_id i) (in_workspace i) (in_title i) (in_summary i) (in_severity i) state (in_starts i) (if String.eqb state "resolved" then Some now else None)
    (in_creator i) (in_created i) now (in_deleted i).
(* @src apps/web/src/lib/server/incident-management.ts 270-292 appendIncidentUpdate *)
Definition posting (workspaceId incidentId state body : string) (authorization : incident_row -> incident_db -> bool) : list stmt :=
  [update_set nd_incidents put_incidents (fun _ => true) (fun i d => in_incident workspaceId incidentId i && authorization i d) (with_state state);
   insert_if_changed nd_updates put_updates (IncidentUpdate (nw_update dw) incidentId state body (Some now) now)].
(* @src apps/web/src/lib/server/incident-management.ts appendIncidentUpdate *)
Definition appendIncidentUpdate (workspaceSlug userId incidentId state body : string) : prog incident_db unit :=
  do access <- load_access workspaceSlug userId in
  do there <- ask (fun d => Ok (existsb (in_incident (m_workspaceId access) incidentId) (nd_incidents d))) in
  refuse_if negb there as "404 Incident not found" in
  do resources <- ask (fun d => Ok (take (Z.to_nat (MAX_INCIDENT_SERVICES + 1)) (affected_services incidentId d))) in
  refuse_if MAX_INCIDENT_SERVICES <? Z.of_nat (length resources) as "503 Incident resource scope exceeds the supported limit" in
  let inherited := negb (bool_decide (resources = [])) &&
    forallb (fun serviceId => canAccessResource (m_role access) (m_grants access) RService serviceId manage) resources in
  refuse_if negb (canAccessIncident (m_role access) (m_grants access) incidentId manage inherited) as "404 Incident not found" in
  let directIncidentAccess := canAccessIncident (m_role access) (m_grants access) incidentId manage false in
  refuse_if negb (str_in state ["investigating"; "identified"; "monitoring"; "resolved"]) as "400 Incident state is invalid" in
  do body <- plift (validText body 2 4000 "Incident update") in
  let authorization := if directIncidentAccess
    then fun i d => finalResourceCapabilityCondition access userId RIncident (in_workspace i) (in_id i) manage (nd_authz d)
    else fun _ d => finalServiceSetManageCondition access userId resources d in
  decided (posting (m_workspaceId access) incidentId state body authorization) 0 "409 Incident access changed; reload and try again".

(* @src apps/web/src/lib/server/incident-management.ts createAnnouncement *)
Definition createAnnouncement (workspaceSlug userId : string) (input : announcement_input) : prog incident_db unit :=
  do access <- load_access workspaceSlug userId in
  do _ <- plift (requireAdmin access) in
  refuse_if negb (str_in (nn_severity input) ["info"; "maintenance"; "minor"; "major"; "critical"]) ||
            negb (str_in (nn_visibility input) ["private"; "authenticated"; "public"]) as "400 Announcement options are invalid" in
  do times <- plift match safe_int (nn_startsAt input), safe_int (nn_expiresAt input) with
    | Some starts, Some expires =>
        throw_if (expires <=? starts) || (365 * 24 * 60 * 60000 <? expires - starts) as "400 Announcement expiry must be after its start and within one year" in Ok (starts, expires)
    | _, _ => Err "400 Announcement expiry must be after its start and within one year"
    end in
  do title <- plift (validText (nn_title input) 2 120 "Announcement title") in
  do body <- plift (validText (nn_body input) 2 4000 "Announcement body") in
  decided [insert_into nd_announcements put_announcements announcement_insertable (fun d => finalAdminCondition userId (m_workspaceId access) (nd_authz d))
             (AnnouncementCols (nw_announcement dw) (m_workspaceId access) title body (nn_severity input) (nn_visibility input) times.1 times.2 None)]
    0 "409 Workspace access changed; reload and try again".
End Actions.

(** ** The state of an incident is that of the update committed last *)

Definition updates_of (incidentId : string) (d : incident_db) : list incident_update := List.filter (fun u => String.eqb (iu_incident u) incidentId) (nd_updates d).
Definition incident_ids (d : incident_db) : list string := map in_id (nd_incidents d).
(** Every update belongs to an incident, the one committed last has the incident's state, and an
    incident has a time of resolution exactly while it is resolved. *)
Record incidents_ok (d : incident_db) : Prop := IncidentsOk {
  io_ids : keys_unique in_id (nd_incidents d);
  io_owner : forall u, u ∈ nd_updates d -> iu_incident u ∈ incident_ids d;
  io_last : forall i, i ∈ nd_incidents d -> exists u, last (updates_of (in_id i) d) = Some u /\ iu_state u = in_state i;
  io_resolved : forall i, i ∈ nd_incidents d -> (is_Some (in_resolved i) <-> in_state i = "resolved");
}.
(** The rows of incidents and updates stay. *)
Definition same_history (d d' : incident_db) : Prop := nd_incidents d' = nd_incidents d /\ nd_updates d' = nd_updates d.
#[export] Instance same_history_preorder : PreOrder same_history.
Proof. split; [by intros d|]. intros d1 d2 d3 [H1 H2] [H3 H4]. split; congruence. Qed.
Lemma history_ok d d' : same_history d d' -> incidents_ok d -> incidents_ok d'.
Proof. intros [Ei Eu] [H1 H2 H3 H4]. split; unfold incident_ids, updates_of in *; rewrite ?Ei, ?Eu; done. Qed.
Lemma history_ids d d' : same_history d d' -> incident_ids d' = incident_ids d.
Proof. intros [E _]. unfold incident_ids. by rewrite E. Qed.
Lemma updates_app i l d : updates_of i (put_updates (nd_updates d ++ l)%list d) = (updates_of i d ++ List.filter (fun u => String.eqb (iu_incident u) i) l)%list.
Proof. unfold updates_of. cbn. generalize (nd_updates d) as us. induction us as [|u us IH]; [done|]. cbn. destruct (String.eqb (iu_incident u) i); cbn; by rewrite IH. Qed.
Lemma no_updates i d : incidents_ok d -> i ∉ incident_ids d -> updates_of i d = [].
Proof.
  intros H Hi. unfold updates_of. destruct (List.filter _ _) as [|u l] eqn:E; [done|]. exfalso. assert (Hu : u ∈ u :: l) by (rewrite elem_of_cons; by left).
  rewrite <- E in Hu. apply filter_In_elem in Hu as [Hu Ei]. apply String.eqb_eq in Ei. apply Hi. rewrite <- Ei. by apply io_owner.
Qed.

Section Keeps.
Context (dw : incident_draw).
Let now := nw_now dw.

Lemma opening_ok access userId title summary severity impact ids starts d d' rs : incidents_ok d -> nw_incident dw ∉ incident_ids d ->
  transaction (opening dw access userId title summary severity impact ids starts) d = Ok (d', rs) ->
  incidents_ok d' /\ forall k, k <> nw_incident dw -> k ∉ incident_ids d -> k ∉ incident_ids d'.
Proof.
  intros HI Hnew H. unfold transaction, opening in H. cbv zeta in H. set (ws := m_workspaceId access) in *. set (there := incident_there ws (nw_incident dw)) in *.
  apply transaction_cons in H as (d1 & n1 & r1 & H1 & H & _). apply transaction_cons in H as (d2 & n2 & r2 & H2 & H & _).
  assert (Hrest : same_history d2 d').
  { eapply transaction_along; [exact _ | | exact H]. apply Forall_forall. intros st Hst. apply (list_elem_of_fmap (fun serviceId => _)) in Hst as (s & -> & _).
    intros x n x' m Hx. by apply insert_into_effect in Hx as [(_ & -> & _)|(_ & _ & -> & _)]. }
  apply insert_into_effect in H1 as [(_ & -> & _)|(_ & Hi & -> & _)].
  - assert (Hno : there d = false).
    { unfold there, incident_there. apply existsb_false_elem. intros i Hin. apply andb_false_iff. left. apply String.eqb_neq. intros E. apply Hnew. rewrite <- E.
      by apply (list_elem_of_fmap_2 in_id). }
    apply insert_into_effect in H2 as [(_ & -> & _)|(Hg & _)]; [|congruence]. split; [by apply (history_ok d)|]. intros k _. by rewrite (history_ids d d').
  - set (i := opened dw ws title summary severity userId starts) in *. set (di := put_incidents (nd_incidents d ++ [i])%list d) in *.
    assert (Hyes : there di = true).
    { unfold there, incident_there. apply existsb_exists_elem. exists i. split; [unfold di; cbn; rewrite elem_of_app, list_elem_of_singleton; by right|]. cbn. by rewrite !String.eqb_refl. }
    apply insert_into_effect in H2 as [(Hg & _)|(_ & _ & -> & _)]; [congruence|]. set (u := IncidentUpdate _ _ _ _ _ _) in *.
    set (du := put_updates (nd_updates di ++ [u])%list di) in *. assert (Hids : incident_ids du = (incident_ids d ++ [nw_incident dw])%list) by (unfold incident_ids, du, di; cbn; by rewrite map_app).
    split.
    + apply (history_ok du); [done|]. destruct HI as [I1 I2 I3 I4]. split.
      * apply (keys_unique_app in_id); [done|]. apply not_true_iff_false. rewrite has_key_elem. exact Hnew.
      * intros v Hv. rewrite Hids, elem_of_app. cbn in Hv. apply elem_of_app in Hv as [Hv|Hv]; [left; by apply I2|]. apply list_elem_of_singleton in Hv as ->. right. by apply list_elem_of_singleton.
      * intros j Hj. unfold du. rewrite updates_app. change (updates_of (in_id j) di) with (updates_of (in_id j) d). cbn in Hj. apply elem_of_app in Hj as [Hj|Hj].
        -- cbn [List.filter iu_incident u]. destruct (String.eqb_spec (nw_incident dw) (in_id j)) as [E|_]; [exfalso; apply Hnew; rewrite E; by apply (list_elem_of_fmap_2 in_id)|].
           rewrite app_nil_r. by apply I3.
        -- apply list_elem_of_singleton in Hj as ->. cbn [in_id i opened]. rewrite no_updates by done. cbn [List.filter iu_incident u]. rewrite String.eqb_refl. by exists u.
      * intros j Hj. cbn in Hj. apply elem_of_app in Hj as [Hj|Hj]; [by apply I4|]. apply list_elem_of_singleton in Hj as ->. cbn. split; [by intros [x Hx]|done].
    + intros k Hk Hkd. rewrite (history_ids du d') by done. rewrite Hids, elem_of_app, list_elem_of_singleton. tauto.
Qed.

Definition states : list string := ["investigating"; "identified"; "monitoring"; "resolved"].
(** The batch of [appendIncidentUpdate] changes one incident and adds its update, or nothing. *)
Lemma posting_effect ws id state body auth d d' rs : keys_unique in_id (nd_incidents d) ->
  transaction (posting dw ws id state body auth) d = Ok (d', rs) ->
  if bool_decide (rs !! 0%nat = Some 1) then
    (exists i, i ∈ nd_incidents d /\ in_id i = id /\ in_workspace i = ws /\ in_deleted i = None /\ auth i d = true) /\
    d' = put_updates (nd_updates d ++ [IncidentUpdate (nw_update dw) id state body (Some now) now])%list
           (put_incidents (map (fun i => if String.eqb (in_id i) id then with_state dw state i else i) (nd_incidents d)) d)
  else d' = d.
Proof.
  intros Hu H. unfold transaction, posting in H. apply transaction_cons in H as (d1 & n1 & r1 & H1 & H & ->). apply transaction_cons in H as (d2 & n2 & r2 & H2 & H & ->).
  cbn in H. injection H as <- <-. set (guard := fun i d => in_incident ws id i && auth i d) in *. apply update_set_effect in H1 as (-> & -> & _).
  assert (Hg : forall i, guard i d = true -> in_id i = id) by (intros i Hi; unfold guard, in_incident in Hi; by bool_hyps).
  unfold insert_if_changed in H2. set (n := count_if (fun r => guard r d) (nd_incidents d)) in *. destruct (n =? 1) eqn:En; injection H2 as <- <-.
  - apply Z.eqb_eq in En. rewrite bool_decide_eq_true_2 by (cbn; by rewrite En). destruct (count_if_id in_id (fun r => guard r d) _ id Hu Hg En) as (i & Hi & Hgi & Hall).
    split; [exists i; unfold guard, in_incident in Hgi; by bool_hyps|]. f_equal. f_equal. apply map_ext_in. intros x Hx. apply list_elem_of_In in Hx. rewrite (Hall x Hx).
    destruct (String.eqb_spec (in_id x) id) as [E|E]; [by rewrite bool_decide_eq_true_2 | by rewrite bool_decide_eq_false_2].
  - rewrite bool_decide_eq_false_2 by (cbn; intros [= E]; apply Z.eqb_neq in En; done).
    assert (Hzero : forall r, r ∈ nd_incidents d -> guard r d = false).
    { apply (count_if_zero in_id). destruct (count_if_unique in_id (fun r => guard r d) (nd_incidents d) Hu) as [E|E]; [|done|].
      - intros x y _ _ Hx Hy. by rewrite (Hg x Hx), (Hg y Hy).
      - apply Z.eqb_neq in En. done. }
    transitivity (put_incidents (nd_incidents d) d); [|by destruct d]. f_equal. transitivity (map (fun r => r) (nd_incidents d)); [|apply map_id].
    apply map_ext_in. intros r Hr. apply list_elem_of_In in Hr. by rewrite Hzero.
Qed.
Lemma posting_ok ws id state body auth d d' rs : incidents_ok d -> transaction (posting dw ws id state body auth) d = Ok (d', rs) ->
  incidents_ok d' /\ incident_ids d' = incident_ids d.
Proof.
  intros HI H. apply posting_effect in H; [|apply HI]. destruct (bool_decide _); [|by subst]. destruct H as [(i0 & Hi0 & Eid & _) ->].
  set (f := fun i => if String.eqb (in_id i) id then with_state dw state i else i). assert (Hf : forall i, in_id (f i) = in_id i) by (intros i; unfold f; by destruct (String.eqb _ _)).
  assert (Hids : map in_id (map f (nd_incidents d)) = map in_id (nd_incidents d)) by (rewrite map_map; apply map_ext; exact Hf).
  split; [|exact Hids]. set (di := put_incidents (map f (nd_incidents d)) d). destruct HI as [I1 I2 I3 I4]. split.
  - unfold keys_unique. cbn. by rewrite Hids.
  - intros u Hu. unfold incident_ids. cbn in *. rewrite Hids. apply elem_of_app in Hu as [Hu|Hu]; [by apply I2|]. apply list_elem_of_singleton in Hu as ->. cbn. rewrite <- Eid.
    by apply (list_elem_of_fmap_2 in_id).
  - intros j Hj. cbn in Hj. apply (list_elem_of_fmap f) in Hj as (i & -> & Hi). change (nd_updates d) with (nd_updates di). rewrite updates_app, Hf.
    change (updates_of (in_id i) di) with (updates_of (in_id i) d). cbn [List.filter iu_incident]. rewrite String.eqb_sym. unfold f.
    destruct (String.eqb (in_id i) id).
    + eexists. split; [apply last_snoc | done].
    + rewrite app_nil_r. by apply I3.
  - intros j Hj. cbn in Hj. apply (list_elem_of_fmap f) in Hj as (i & -> & Hi). unfold f. destruct (String.eqb (in_id i) id); [|by apply I4]. cbn.
    destruct (String.eqb_spec state "resolved") as [->|Hne]; [split; [done | by eexists] | split; [by intros [x Hx] | done]].
Qed.
End Keeps.

Inductive incident_request :=
| open_request (slug user : string) (input : incident_input)
| post_request (slug user incident state body : string)
| announce_request (slug user : string) (input : announcement_input).
Definition drawn_incident (x : incident_draw * incident_request) : string := nw_incident x.1.
Definition perform_incident (x : incident_draw * incident_request) : prog incident_db unit :=
  match x.2 with
  | open_request slug user input => do _ <- createIncident x.1 slug user input in pret tt
  | post_request slug user incident state body => appendIncidentUpdate x.1 slug user incident state body
  | announce_request slug user input => createAnnouncement x.1 slug user input
  end.
Ltac keep_reads := repeat (apply keep_bind; [first [apply read_ask | apply read_lift]|]; intros ?).
Lemma perform_incident_safe x : keeping incidents_ok incident_ids (drawn_incident x) (perform_incident x).
Proof.
  destruct x as [dw [slug user input|slug user incident state body|slug user input]]; cbn [perform_incident drawn_incident fst snd].
  - apply keep_then. unfold createIncident. cbv zeta. keep_reads. apply keep_then, keep_decided. intros d d' rs [H1 H2] H. apply opening_ok in H as [H3 H4]; [|done|done]. done.
  - unfold appendIncidentUpdate. cbv zeta. keep_reads. apply keep_decided. intros d d' rs [H1 _] H. apply posting_ok in H as [H3 H4]; [|done]. by apply no_birth.
  - unfold createAnnouncement. cbv zeta. keep_reads. apply keep_decided. intros d d' rs [H1 _] H. unfold transaction in H. apply transaction_cons in H as (d1 & n & r & Ha & H & _).
    cbn in H. injection H as <- <-. assert (Hs : same_history d d1) by (by apply insert_into_effect in Ha as [(_ & -> & _)|(_ & _ & -> & _)]).
    apply no_birth; [by apply (history_ok d) | by apply history_ids].
Qed.

(** *** What the pages show on top *)

Lemma update_leb_total a b : update_leb a b = true \/ update_leb b a = true.
Proof.
  unfold update_leb. rewrite (Z.eqb_sym (iu_time b)). destruct (Z.eqb_spec (iu_time a) (iu_time b)); [apply String.leb_total|].
  rewrite !Z.ltb_lt. lia.
Qed.
Lemma update_leb_trans a b c : update_leb a b = true -> update_leb b c = true -> update_leb a c = true.
Proof.
  unfold update_leb. destruct (Z.eqb_spec (iu_time a) (iu_time b)), (Z.eqb_spec (iu_time b) (iu_time c)), (Z.eqb_spec (iu_time a) (iu_time c));
    rewrite ?Z.ltb_lt; try lia. apply str_leb_trans.
Qed.
(** The newest update of an incident heads what the pages read. *)
Lemma newest_on_top d incident u perIncident global : 1 <= perIncident -> 1 <= global -> u ∈ updates_of incident d ->
  (forall v, v ∈ updates_of incident d -> v = u \/ iu_time v < iu_time u) ->
  exists rest, loadLatestIncidentUpdates (nd_updates d) [incident] perIncident global = Ok (u :: rest).
Proof.
  intros H1 H2 Hu Hall. unfold loadLatestIncidentUpdates. rewrite (proj2 (Z.ltb_ge perIncident 1)), (proj2 (Z.ltb_ge global 1)) by done.
  cbn [orb]. rewrite in_batches_concat. cbn [flat_map]. rewrite app_nil_r.
  assert (Hleb : forall v, v ∈ updates_of incident d -> v = u \/ update_leb v u = false).
  { intros v Hv. destruct (Hall v Hv) as [?|Hlt]; [by left|]. right. unfold update_leb. rewrite (proj2 (Z.eqb_neq _ _)) by lia. apply Z.ltb_ge. lia. }
  destruct (order_limit_top update_leb update_leb_total update_leb_trans perIncident (updates_of incident d) u H1 Hu Hleb) as [rest E].
  change (List.filter (fun u => String.eqb (iu_incident u) incident) (nd_updates d)) with (updates_of incident d).
  destruct (order_limit_top update_leb update_leb_total update_leb_trans global (order_limit update_leb perIncident (updates_of incident d)) u H2) as [rest' E'].
  - rewrite E. by left.
  - intros v Hv. apply Hleb. by apply elem_of_order_limit in Hv.
  - exists rest'. by rewrite E'.
Qed.
Lemma shown_state d i u perIncident global : incidents_ok d -> i ∈ nd_incidents d -> 1 <= perIncident -> 1 <= global ->
  last (updates_of (in_id i) d) = Some u -> (forall v, v ∈ updates_of (in_id i) d -> v = u \/ iu_time v < iu_time u) ->
  iu_state u = in_state i /\ exists rest, loadLatestIncidentUpdates (nd_updates d) [in_id i] perIncident global = Ok (u :: rest).
Proof.
  intros [_ _ H _] Hi H1 H2 Hl Hall. destruct (H i Hi) as (u' & Hu' & E). assert (u' = u) as -> by congruence. split; [done|].
  apply newest_on_top; [done | done | by apply last_Some_elem_of | done].
Qed.


(** ** Recorded requests *)

Definition ia_draw (i : Z) : incident_draw := IncidentDraw (1700000000000 + i) ("incident-" ++ z_to_string i) ("update-" ++ z_to_string i) ("announcement-" ++ z_to_string i).
Definition ia_input : incident_input := IncidentInput " Outage " "The API is down" "major" ["api"; "api"; "web"] "down" (num_of_Z 1700000000000).
Definition ia_grant (service : string) : grant_row := GrantRow "w" "bob" (Grant RService service manage allow).
Definition ia_start : incident_db :=
  IncidentDb [Membership "w" "ada" admin active; Membership "w" "bob" member active] [ia_grant "api"; ia_grant "web"]
    [ServiceRow "api" "w" None; ServiceRow "web" "w" None] [WorkspaceRow "w" "team" 7 "board" 10 None]
    [IncidentRow "i" "w" "Slow" "Slow answers" "minor" "identified" 5 None "ada" 5 5 None] [AffectedCols "i" RService "api" "degraded"; AffectedCols "i" RService "web" "degraded"]
    [IncidentUpdate "u1" "i" "investigating" "Slow answers" (Some 5) 5; IncidentUpdate "u2" "i" "identified" "A query" (Some 6) 6] [].
Definition ia_requests : list (incident_draw * incident_request) :=
  [(ia_draw 1, open_request "team" "bob" ia_input); (ia_draw 2, post_request "team" "ada" "i" "resolved" "All good"); (ia_draw 3, post_request "team" "bob" "i" "monitoring" "Watching");
   (ia_draw 4, announce_request "team" "bob" (AnnouncementInput "Note" "Text" "info" "public" (num_of_Z 1) (num_of_Z 2)))].
Definition ia_run : list (prog incident_db unit) * incident_db :=
  schedule [0; 1; 2; 3; 2; 1; 0; 1; 2; 1; 0; 2]%nat (map perform_incident ia_requests, ia_start).
Lemma ia_start_ok : incidents_ok ia_start.
Proof.
  split; [apply (bool_decide_unpack _); vm_compute; exact Logic.I | | |].
  - intros u Hu. repeat (apply elem_of_cons in Hu as [->|Hu]; [by left|]). by apply elem_of_nil in Hu.
  - intros i Hi. apply list_elem_of_singleton in Hi as ->. by eexists.
  - intros i Hi. apply list_elem_of_singleton in Hi as ->. split; [by intros [x Hx] | done].
Qed.
Lemma ia_apart : drawn_apart drawn_incident ia_requests.
Proof. intros i j x y Hi Hj Hne. do 4 (destruct i as [|i]; [do 4 (destruct j as [|j]; [try done; injection Hi as <-; injection Hj as <-; done|]); done|]). done. Qed.
(** The exception happens: Bob's update carries a later time and is committed first.  The incident
    ends resolved, while the pages show that it is being watched. *)
Definition ia_crossed : list (prog incident_db unit) * incident_db :=
  schedule [2; 2; 2; 1; 1; 1; 2; 1]%nat (map perform_incident ia_requests, ia_start).
Example crossed_posts_disagree :
  map (fun i => (in_id i, in_state i)) (nd_incidents ia_crossed.2) = [("i", "resolved")] /\
  map iu_id (nd_updates ia_crossed.2) = ["u1"; "u2"; "update-3"; "update-2"] /\
  match loadLatestIncidentUpdates (nd_updates ia_crossed.2) ["i"] 20 200 with Ok (u :: _) => iu_state u = "monitoring" | _ => False end.
Proof. split; [vm_compute; reflexivity|]. split; vm_compute; reflexivity. Qed.

(** ** A deleted service locks its incidents *)

Lemma count_if_short {R} (key : R -> string) (g : R -> bool) l ids x : keys_unique key l -> NoDup ids -> (forall r, r ∈ l -> g r = true -> key r ∈ ids /\ key r <> x) -> x ∈ ids ->
  count_if g l < Z.of_nat (length ids).
Proof.
  intros Hu Hn Hg Hx. unfold count_if. rewrite <- (length_map key). apply Nat2Z.inj_lt.
  assert (Hd : NoDup (x :: map key (List.filter g l))).
  { apply NoDup_cons. split.
    - intros H. apply list_elem_of_fmap in H as (r & Er & Hr). apply filter_In_elem in Hr as [Hr Hgr]. by apply (Hg r Hr Hgr).
    - pose proof (delete_where_unique key (fun r => negb (g r)) l Hu) as H. unfold keys_unique in H. cbn in H. erewrite filter_ext in H; [exact H|]. intros r. cbn. by rewrite negb_involutive. }
  apply (submseteq_length (x :: map key (List.filter g l)) ids). apply NoDup_submseteq; [done|]. intros k Hk. apply elem_of_cons in Hk as [->|Hk]; [done|].
  apply list_elem_of_fmap in Hk as (r & -> & Hr). apply filter_In_elem in Hr as [Hr Hgr]. by apply (Hg r Hr Hgr).
Qed.

(** A posting that nobody is authorised for changes nothing. *)
Lemma refused_posting dw workspaceId incident state body authorization d : (forall i, in_incident workspaceId incident i && authorization i d = false) ->
  transaction (posting dw workspaceId incident state body authorization) d = Ok (d, [0; 0]).
Proof.
  intros Hg. unfold posting, transaction. cbn [transaction_from]. unfold update_set, update_where, insert_if_changed.
  assert (He : existsb (fun r => in_incident workspaceId incident r && authorization r d && negb true) (nd_incidents d) = false) by (apply existsb_false_elem; intros r _; by rewrite Hg).
  rewrite He. assert (Hm : map (fun r => if in_incident workspaceId incident r && authorization r d then with_state dw state r else r) (nd_incidents d) = nd_incidents d).
  { rewrite <- (map_id (nd_incidents d)) at 2. apply map_ext. intros r. by rewrite Hg. }
  rewrite Hm. assert (Hc : count_if (fun r => in_incident workspaceId incident r && authorization r d) (nd_incidents d) = 0) by (apply (count_if_zero in_id); intros r _; apply Hg).
  rewrite Hc. cbn. by destruct d.
Qed.

(** A member who manages every service an incident affects may post updates to it, and the action
    lets them in; but once one of these services has been deleted the batch can no longer succeed,
    since it counts the managed services among the live ones only.  Until the service is restored
    the member's every update is refused as if access had changed, and the incident cannot be
    resolved by them. *)
Theorem deleted_service_locks_incident dw slug user incident state body d access service : let resources := affected_services incident d in
  loadMonitoringAccess (nd_authz d) slug user = Ok access -> m_role access = member ->
  existsb (in_incident (m_workspaceId access) incident) (nd_incidents d) = true ->
  forallb (fun id => canAccessResource member (m_grants access) RService id manage) resources = true ->
  canAccessIncident member (m_grants access) incident manage true = true -> canAccessIncident member (m_grants access) incident manage false = false ->
  NoDup resources -> Z.of_nat (length resources) <= MAX_INCIDENT_SERVICES -> keys_unique sv_id (nd_services d) ->
  service ∈ resources -> (forall s, s ∈ nd_services d -> sv_id s = service -> sv_deleted s <> None) ->
  str_in state ["investigating"; "identified"; "monitoring"; "resolved"] = true -> 2 <= slen (trim body) <= 4000 ->
  alone (appendIncidentUpdate dw slug user incident state body) d = (Err "409 Incident access changed; reload and try again", d).
Proof.
  intros resources Hload Hrole Hin Hall Hacc Hdir Hnd Hlen Hu Hs Hdel Hstate Hbody. unfold appendIncidentUpdate, load_access, alone. rewrite run_ask. cbn [moved]. rewrite Hload, run_ask. cbn [moved]. rewrite Hin. rewrite run_lift. cbn [negb].
  rewrite run_ask. cbn [moved]. assert (take (Z.to_nat (MAX_INCIDENT_SERVICES + 1)) (affected_services incident d) = resources) as ->.
  { apply take_ge. fold resources. lia. }
  rewrite (proj2 (Z.ltb_ge MAX_INCIDENT_SERVICES (Z.of_nat (length resources))) Hlen), run_lift. cbv zeta. rewrite Hrole. rewrite Hall.
  rewrite bool_decide_eq_false_2 by (intros E; rewrite E in Hs; by apply elem_of_nil in Hs). cbn [negb andb]. rewrite Hacc, run_lift. cbn [negb]. rewrite Hstate, run_lift. cbn [negb]. rewrite run_lift.
  unfold validText. cbv zeta. rewrite (proj2 (Z.ltb_ge (slen (trim body)) 2)), (proj2 (Z.ltb_ge 4000 (slen (trim body)))) by lia. cbn [orb]. rewrite Hdir, run_decided_last. cbn [moved snd].
  assert (Hfin : finalServiceSetManageCondition access user resources d = false).
  { unfold finalServiceSetManageCondition. cbv zeta. rewrite Hrole, bool_decide_eq_false_2 by done. apply andb_false_iff. right. apply Z.eqb_neq.
    enough (count_if (fun s => listed_service (m_workspaceId access) resources s && manages_service (sv_workspace s) user (sv_id s) d) (nd_services d) < Z.of_nat (length resources)) by lia.
    apply (count_if_short sv_id _ _ _ service); [done | done | | done]. intros s Hsd H. apply andb_true_iff in H as [H _]. unfold listed_service in H. rewrite !andb_true_iff in H. destruct H as [[_ Hl] Hi].
    apply bool_decide_eq_true in Hl. split; [apply existsb_exists_elem in Hi as (y & Hy & ->%String.eqb_eq); exact Hy|]. intros E. by apply (Hdel s Hsd E). }
  rewrite refused_posting; [done|]. intros i. by rewrite Hfin, andb_false_r.
Qed.
Definition ia_locked : incident_db :=
  IncidentDb (nd_memberships ia_start) (nd_grants ia_start) [ServiceRow "api" "w" None; ServiceRow "web" "w" (Some 50)] (nd_workspaces ia_start) (nd_incidents ia_start) (nd_affected ia_start) (nd_updates ia_start) [].
Definition ia_access : MonitoringAccess := match loadMonitoringAccess (nd_authz ia_locked) "team" "bob" with Ok a => a | Err _ => Monitoring "" 0 "" 0 member [] end.
Theorem deleted_service_locks_incident_witness :
  (alone (appendIncidentUpdate (ia_draw 5) "team" "bob" "i" "resolved" "All good") ia_start).1 = Ok tt /\
  alone (appendIncidentUpdate (ia_draw 5) "team" "bob" "i" "resolved" "All good") ia_locked = (Err "409 Incident access changed; reload and try again", ia_locked).
Proof.
  split; [vm_compute; reflexivity|].
  refine (deleted_service_locks_incident (ia_draw 5) "team" "bob" "i" "resolved" "All good" ia_locked ia_access "web" _ _ _ _ _ _ _ _ _ _ _ _ _);
    [vm_compute; reflexivity | vm_compute; reflexivity | vm_compute; reflexivity | vm_compute; reflexivity | vm_compute; reflexivity | vm_compute; reflexivity | | vm_compute; discriminate | | | | vm_compute; reflexivity | vm_compute; split; discriminate].
  - apply (bool_decide_unpack _). vm_compute. exact Logic.I.
  - apply (bool_decide_unpack _). vm_compute. exact Logic.I.
  - apply (bool_decide_unpack _). vm_compute. exact Logic.I.
  - intros s Hs. repeat (apply elem_of_cons in Hs as [->|Hs]; [done|]). by apply elem_of_nil in Hs.
Defined.
