(* ===== verification/ChannelConfig.v ===== *)
(** * ChannelConfig: what is configured for a notification channel

    The configuration of a channel in [apps/web/src/lib/server/notifications.ts]: what the form
    sends is checked, summarised for the page, and stored encrypted ([Envelopes]); the
    notification worker reads it back and makes requests of it ([Notifications]). *)

From Stdlib Require Import ZArith Lia Bool String Ascii List.
From stdpp Require Import base tactics list strings.
From S2P Require Import Prelude.
From S2P Require Import Js.
From S2P Require Import JsString.
From S2P Require Import Crypto.
From S2P Require Import Web.
From S2P Require Import Envelopes.
From S2P Require Import Notifications.
From S2P Require Import AuditLog.
From S2P Require Import Invitations.
From S2P Require Import ServiceCompiler.
From S2P Require Import SiteAppearance.
Open Scope string_scope.
Open Scope Z_scope.

(** ** Fields *)

(* @src apps/web/src/lib/server/notifications.ts PROVIDERS *)
Definition PROVIDERS : list (string * NotificationProvider) :=
  [("resend", Resend); ("smtp", Smtp); ("discord", Discord); ("telegram", Telegram); ("slack", Slack); ("bark", Bark)].
Definition provider_text (p : NotificationProvider) : string :=
  match p with Resend => "resend" | Smtp => "smtp" | Discord => "discord" | Telegram => "telegram" | Slack => "slack" | Bark => "bark" end.
(* @src apps/web/src/lib/server/notifications.ts DIMENSIONS *)
Definition DIMENSIONS : list (string * NotificationDimension) := [("availability", Availability); ("resource", Resource); ("recovery", Recovery)].
(* @src apps/web/src/lib/server/notifications.ts provider *)
Definition provider (value : string) : res NotificationProvider :=
  match obj_get value PROVIDERS with Some p => Ok p | None => Err "400 Provider is invalid" end.
(* @src apps/web/src/lib/server/notifications.ts dimension *)
Definition dimension (value : string) : res NotificationDimension :=
  match obj_get value DIMENSIONS with Some d => Ok d | None => Err "400 Notification dimension is invalid" end.
(* @src apps/web/src/lib/server/notifications.ts resourceType *)
Definition resourceType (value : string) : res string :=
  throw_if negb (String.eqb value "machine") && negb (String.eqb value "service") as "400 Resource type is invalid" in Ok value.
(* @src apps/web/src/lib/server/notifications.ts bounded *)
Definition bounded (value : option json) (field : string) (maximum : Z) : res string :=
  match value with
  | Some (JStr s) => throw_if String.eqb (trim s) "" || (maximum <? slen (trim s)) as "400 " ++ field ++ " is invalid" in Ok (trim s)
  | _ => Err ("400 " ++ field ++ " is required")
  end.
(* @src apps/web/src/lib/server/notifications.ts optional *)
Definition optional (value : option json) (maximum : Z) : res (option string) :=
  match value with
  | None | Some JNull => Ok None
  | Some (JStr s) =>
      if String.eqb s "" then Ok None
      else throw_if maximum <? slen (trim s) as "400 Optional channel value is too long" in Ok (if String.eqb (trim s) "" then None else Some (trim s))
  | Some _ => Err "400 Optional channel value is invalid"
  end.
(** [value.split(/[\n,]/)] *)
Definition lines_and_commas (s : string) : list string := split_on "," (str_map (fun c => if Ascii.eqb c (chr 10) then ","%char else c) s).
(* @src apps/web/src/lib/server/notifications.ts recipientList *)
Definition recipientList (value : option json) : res (list string) :=
  match value with
  | Some (JStr s) =>
      let recipients := List.filter (fun entry => negb (String.eqb entry "")) (map trim (lines_and_commas s)) in
      throw_if bool_decide (recipients = []) || (20 <? Z.of_nat (length recipients)) || existsb (fun entry => negb (email_shape entry)) recipients
        as "400 Email recipients are invalid" in
      Ok (dedup_from [] recipients)
  | _ => Err "400 At least one email recipient is required"
  end.
(** [string | null] in an object. *)
Definition nullable (o : option string) : jout := match o with Some s => OStr s | None => ONull end.
(** [String(config[key])] of a string, and of [null]. *)
Definition config_string (key : string) (config : list (string * jout)) : string :=
  match obj_get key config with Some (OStr s) => s | Some ONull => "null" | _ => "undefined" end.

Section Config.
Context `{UA : UrlApi} `{UP : !UrlPath}.

(** The [catch] also covers the error of [bounded]. *)
(* @src apps/web/src/lib/server/notifications.ts secureUrl *)
Definition secureUrl (value : option json) (field : string) : res url :=
  match (let* text := bounded value field 2048 in url_parse text None) with
  | Err _ => Err ("400 " ++ field ++ " must be a valid URL")
  | Ok parsed =>
      throw_if negb (String.eqb (protocol parsed) "https:") || negb (String.eqb (username parsed) "") || negb (String.eqb (password parsed) "")
        as "400 " ++ field ++ " must use HTTPS without embedded credentials" in
      Ok parsed
  end.
(* @src apps/web/src/lib/server/notifications.ts emailConfig *)
Definition emailConfig (input : props) (smtp : bool) : res (list (string * jout)) :=
  let* from := bounded (obj_get "from" input) "Sender" 254 in
  let* recipients := recipientList (obj_get "recipients" input) in
  if smtp then
    let* relayUrl := secureUrl (obj_get "relayUrl" input) "Relay URL" in
    let* relayToken := optional (obj_get "relayToken" input) 2048 in
    Ok [("relayUrl", OStr (href relayUrl)); ("relayToken", nullable relayToken); ("from", OStr from); ("recipients", OArr (map OStr recipients))]
  else
    let* apiKey := bounded (obj_get "apiKey" input) "Resend API key" 2048 in
    let* replyTo := optional (obj_get "replyTo" input) 254 in
    Ok [("apiKey", OStr apiKey); ("from", OStr from); ("recipients", OArr (map OStr recipients)); ("replyTo", nullable replyTo)].
(* @src apps/web/src/lib/server/notifications.ts parseNotificationChannelConfig *)
Definition parseNotificationChannelConfig (selectedProvider : NotificationProvider) (input : props) : res (list (string * jout)) :=
  let webhook_config (allowed : string -> string -> bool) :=
    let* webhook := secureUrl (obj_get "webhookUrl" input) "Webhook URL" in
    throw_if negb (allowed (to_lower (hostname webhook)) (pathname webhook)) as "400 " ++ provider_text selectedProvider ++ " webhook URL is invalid" in
    Ok [("webhookUrl", OStr (href webhook))] in
  match selectedProvider with
  | Resend => emailConfig input false
  | Smtp => emailConfig input true
  | Discord => webhook_config (fun host path => (String.eqb host "discord.com" || String.eqb host "discordapp.com") && starts_with "/api/webhooks/" path)
  | Slack => webhook_config (fun host path => String.eqb host "hooks.slack.com" && starts_with "/services/" path)
  | Telegram =>
      let* botToken := bounded (obj_get "botToken" input) "Bot token" 256 in
      throw_if negb (is_bot_token botToken) as "400 Bot token is invalid" in
      let* chatId := bounded (obj_get "chatId" input) "Chat ID" 128 in
      Ok [("botToken", OStr botToken); ("chatId", OStr chatId)]
  | Bark =>
      let* endpointValue := optional (obj_get "endpoint" input) 2048 in
      let* endpoint := match endpointValue with
        | Some text => let* u := secureUrl (Some (JStr text)) "Bark endpoint" in Ok (Some (href u))
        | None => Ok None
        end in
      let* deviceKey := bounded (obj_get "deviceKey" input) "Device key" 512 in
      let* group := optional (obj_get "group" input) 80 in
      Ok [("endpoint", nullable endpoint); ("deviceKey", OStr deviceKey); ("group", nullable group)]
  end.

(** [from.slice(from.lastIndexOf("@") + 1).replace(/>$/, "")] *)
Definition domain_of (from : string) : string :=
  let domain := str_drop (Z.to_nat (last_at 0 from (-1) + 1)) from in
  if ends_with ">" domain then str_take (String.length domain - 1) domain else domain.
(* @src apps/web/src/lib/server/notifications.ts summaryForConfig *)
Definition summaryForConfig (selectedProvider : NotificationProvider) (config : list (string * jout)) : res (list (string * jout)) :=
  let host text := let* u := url_parse text None in Ok (OStr (hostname u)) in
  match selectedProvider with
  | Resend | Smtp =>
      let from := config_string "from" config in
      let recipients := match obj_get "recipients" config with Some (OArr l) => l | _ => [] end in
      let* relay := match selectedProvider with
        | Smtp => let* relayHost := host (config_string "relayUrl" config) in Ok [("relayHost", relayHost)]
        | _ => Ok []
        end in
      Ok (("senderDomain", OStr (if includes "@" from then domain_of from else "configured")) ::
          ("recipientCount", OInt (Z.of_nat (length recipients))) :: relay)
  | Discord | Slack => let* webhookHost := host (config_string "webhookUrl" config) in Ok [("webhookHost", webhookHost)]
  | Telegram => Ok [("destination", OStr "Chat configured")]
  | Bark =>
      let* endpointHost := host (match obj_get "endpoint" config with Some (OStr s) => s | _ => "https://api.day.app" end) in
      Ok [("endpointHost", endpointHost); ("group", match obj_get "group" config with Some (OStr s) => OStr s | _ => OStr "AlphaPing" end)]
  end.
End Config.

(** ** What is configured is what is sent *)

(** Serialising an [https:] URL and parsing it gives the URL back (URL Standard, 4.5), and the
    text has no space around it; the default endpoint is an [https:] URL without credentials. *)
Class UrlReparses `{UA : UrlApi} `{UP : !UrlPath} := {
  href_parses s u : url_parse s None = Ok u -> protocol u = "https:" -> url_parse (href u) None = Ok u;
  href_trimmed s u : url_parse s None = Ok u -> trim (href u) = href u /\ href u <> "";
  bark_default : exists u, url_parse "https://api.day.app" None = Ok u /\ protocol u = "https:" /\ username u = "" /\ password u = "";
}.

Section Delivery.
Context `{UR : UrlReparses}.

(** A text field as it was entered. *)
Definition entered (key : string) (input : props) : string := match obj_get key input with Some (JStr s) => trim s | _ => "" end.
Lemma bounded_entered key input field maximum v : bounded (obj_get key input) field maximum = Ok v -> v = entered key input /\ trim v = v /\ v <> "" /\ slen v <= maximum.
Proof.
  unfold bounded, entered. destruct (obj_get key input) as [[| | |s| |]|]; try done. destruct (_ || _) eqn:E; [done|]. intros [= <-]. bool_hyps.
  split_and!; [done | apply trim_idem | done | lia].
Qed.
Lemma optional_entered key input maximum v : optional (obj_get key input) maximum = Ok v ->
  match v with Some t => t = entered key input /\ trim t = t /\ t <> "" | None => entered key input = "" end.
Proof.
  unfold optional, entered. destruct (obj_get key input) as [[| | |s| |]|]; try done; try (intros H; injection H as <-; done). destruct (String.eqb s "") eqn:E; [apply String.eqb_eq in E as ->; by intros [= <-]|].
  destruct (_ <? _); [done|]. destruct (String.eqb (trim s) "") eqn:E2; intros [= <-]; [by apply String.eqb_eq | split_and!; [done | apply trim_idem | by apply String.eqb_neq]].
Qed.
Definition clean (u : url) : Prop := protocol u = "https:" /\ username u = "" /\ password u = "".
Lemma secureUrl_entered key input field u : secureUrl (obj_get key input) field = Ok u ->
  url_parse (entered key input) None = Ok u /\ clean u /\ entered key input <> "".
Proof.
  unfold secureUrl. destruct (rbind _ _) as [v|] eqn:E; [|done]. apply rbind_ok in E as (text & Ht & E). apply bounded_entered in Ht as (-> & _ & Hne & _).
  destruct (_ || _) eqn:Eb; [done|]. intros [= <-]. bool_hyps. by split_and!.
Qed.
(** What the worker reads of a stored text. *)
Lemma stored_required key t config : obj_get key config = Some (JStr t) -> trim t = t -> t <> "" -> requiredString config key = Ok t.
Proof. intros H Ht Hne. unfold requiredString. rewrite H, Ht. by apply String.eqb_neq in Hne as ->. Qed.
Lemma stored_optional key (o : option string) x config : obj_get key config = Some (json_of (nullable o)) ->
  match o with Some t => t = x /\ trim t = t /\ t <> "" | None => x = "" end ->
  optionalString config key = Ok o.
Proof.
  intros H Ho. unfold optionalString. rewrite H. destruct o as [t|]; [|done]. cbn. destruct Ho as (_ & -> & Hne). by apply String.eqb_neq in Hne as ->.
Qed.
Lemma stored_url (allowed : option (string -> string -> bool)) s u : url_parse s None = Ok u -> clean u ->
  (match allowed with Some f => f (to_lower (hostname u)) (pathname u) = true | None => True end) -> httpsUrl (href u) allowed = Ok u.
Proof.
  intros Hp (H1 & H2 & H3) Ha. unfold httpsUrl. rewrite (href_parses s u Hp H1). cbn [rbind]. rewrite H1, H2, H3. destruct allowed as [f|]; [by rewrite Ha | done].
Qed.
Lemma includes_middle p a b : includes p (a ++ p ++ b) = true.
Proof.
  induction a as [|c a IH]; cbn [append].
  - pose proof (prefix_app p b) as H. destruct (p ++ b); cbn [includes]; by rewrite H.
  - cbn [includes]. rewrite IH. apply orb_true_r.
Qed.
Lemma email_at s : email_shape s = true -> includes "@" s = true.
Proof.
  unfold email_shape. destruct (split_on "@" s) as [|l [|d [|]]] eqn:E; try done. intros _. rewrite <- (split_join "@" s), E. cbn [str_join]. apply includes_middle.
Qed.
Lemma dedup_shorter l : forall seen, (length (dedup_from seen l) <= length l)%nat.
Proof. induction l as [|x l IH]; intros seen; cbn; [done|]. destruct (str_in x seen); [specialize (IH seen) | specialize (IH (x :: seen))]; cbn; lia. Qed.
Lemma stored_recipients value l config : recipientList value = Ok l -> obj_get "recipients" config = Some (json_of (OArr (map OStr l))) ->
  recipients config = Ok l.
Proof.
  intros H Hc. unfold recipientList in H. destruct value as [[| | |s| |]|]; try done. cbv zeta in H. set (r := List.filter _ _) in H. destruct (_ || _) eqn:E; [done|]. injection H as Hl.
  bool_hyps. rename H into Hne. destruct (dedup_from_spec r []) as [_ Hin]. rewrite Hl in Hin. pose proof (dedup_shorter r []) as Hlen. rewrite Hl in Hlen.
  assert (Hok : forall x, x ∈ l -> recipient (JStr x) = Some x).
  { intros x Hx. apply Hin in Hx as [Hx _]. rewrite existsb_false_elem in H0. specialize (H0 x Hx). apply negb_false_iff in H0. cbn. rewrite (email_at x H0).
    apply filter_In_elem in Hx as [Hx _]. apply list_elem_of_In, in_map_iff in Hx as (y & <- & _). by rewrite trim_idem. }
  unfold recipients. rewrite Hc. cbn [json_of]. rewrite map_map. cbn [json_of].
  assert (length (map (fun x => JStr x) l) =? 0 = false)%nat as ->. { rewrite length_map. apply Nat.eqb_neq. destruct l; [|done]. intros _. apply Hne. destruct r as [|x r']; [done|]. exfalso. apply (elem_of_nil x). apply Hin. split; [by left | apply not_elem_of_nil]. }
  assert (20 <? length (map (fun x => JStr x) l) = false)%nat as ->. { rewrite length_map. apply Nat.ltb_ge. lia. }
  cbn [orb]. assert (mapM recipient (map (fun x => JStr x) l) = Some l) as ->; [|done].
  clear -Hok. induction l as [|x l IH]; [done|]. cbn [map mapM]. cbn. change (recipient (JStr x) ≫= (fun y => mapM recipient (map (fun z => JStr z) l) ≫= (fun k => Some (y :: k))) = Some (x :: l)).
  rewrite Hok by (by left). cbn. rewrite IH; [done|]. intros y Hy. apply Hok. by right.
Qed.

Lemma strings_ok l : jout_ok (OArr (map OStr l)).
Proof. cbn. by induction l. Qed.
Lemma nullable_ok o : jout_ok (nullable o).
Proof. by destruct o. Qed.
Lemma config_stored provider input config : parseNotificationChannelConfig provider input = Ok config -> jout_ok (OObj config).
Proof.
  intros H. assert (Hk : NoDup (map fst config) /\ Forall (fun kv => jout_ok kv.2) config).
  { destruct provider; cbn [parseNotificationChannelConfig] in H; unfold emailConfig in H; cbv zeta in H;
      repeat (apply rbind_ok in H as (? & _ & H)); try (destruct (negb _) in H; [done|]); repeat (apply rbind_ok in H as (? & _ & H)); injection H as <-;
      (split; [apply (bool_decide_unpack _); vm_compute; exact Logic.I|]); repeat apply Forall_cons_2; try done; first [apply strings_ok | apply nullable_ok]. }
  destruct Hk as [H1 H2]. cbn [jout_ok]. split; [done|]. clear -H2. induction H2 as [|kv l Hkv Hl IH]; [done | by split].
Qed.
Definition bearer (token : string) : list (string * string) := [("content-type", "application/json"); ("authorization", "Bearer " ++ token)].
(** Where the request goes, and the credential it carries, in terms of the form. *)
Definition sent_as (provider : NotificationProvider) (input : props) (t : RequestTarget) : Prop :=
  let at_url key (f : url -> url) := exists u, url_parse (entered key input) None = Ok u /\ ta_url t = href (f u) in
  match provider with
  | Resend => ta_url t = "https://api.resend.com/emails" /\ ta_headers t = bearer (entered "apiKey" input)
  | Smtp => at_url "relayUrl" id /\ (entered "relayToken" input <> "" -> ta_headers t = bearer (entered "relayToken" input))
  | Discord | Slack => at_url "webhookUrl" id
  | Telegram => ta_url t = "https://api.telegram.org/bot" ++ entered "botToken" input ++ "/sendMessage"
  | Bark =>
      exists u, url_parse (if String.eqb (entered "endpoint" input) "" then "https://api.day.app" else entered "endpoint" input) None = Ok u /\
        ta_url t = href (set_pathname (drop_slash (pathname u) ++ "/" ++ encodeURIComponent (entered "deviceKey" input)) u)
  end.
End Delivery.

Section Channel.
Context `{WC : WebCrypto} `{WL : !WebCryptoLaws} `{UR : UrlReparses}.
Lemma config_requested provider input config payload content : parseNotificationChannelConfig provider input = Ok config -> message payload = Ok content ->
  exists t, buildRequest provider (map (fun kv => (kv.1, json_of kv.2)) config) payload = Ok t /\ sent_as provider input t.
Proof.
  intros H Hm. unfold buildRequest. rewrite Hm. destruct content as [subject text]. cbn [rbind].
  assert (Hurl : forall key field u, secureUrl (obj_get key input) field = Ok u -> trim (href u) = href u /\ href u <> "") by (intros key field u (Hu & _)%secureUrl_entered; by eapply href_trimmed).
  destruct provider; cbn [parseNotificationChannelConfig] in H; cbv zeta in H; try unfold emailConfig in H.
  - apply rbind_ok in H as (from & (_ & Hf1 & Hf2 & _)%bounded_entered & H). apply rbind_ok in H as (to & Hto & H). apply rbind_ok in H as (key & (-> & Hk1 & Hk2 & _)%bounded_entered & H).
    apply rbind_ok in H as (reply & Hr%optional_entered & H). injection H as <-. cbn [map fst snd].
    erewrite (stored_optional "replyTo" reply) by done. cbn [rbind]. erewrite (stored_required "from" from) by done. cbn [rbind]. erewrite (stored_recipients _ _ _ Hto) by reflexivity. cbn [rbind].
    erewrite (stored_required "apiKey" (entered "apiKey" input)) by done.
    cbn [rbind]. eexists. split; [reflexivity|]. done.
  - apply rbind_ok in H as (from & (_ & Hf1 & Hf2 & _)%bounded_entered & H). apply rbind_ok in H as (to & Hto & H). apply rbind_ok in H as (u & Hu & H).
    apply rbind_ok in H as (token & Hr%optional_entered & H). injection H as <-. cbn [map fst snd]. destruct (Hurl _ _ _ Hu) as [Ht1 Ht2]. apply secureUrl_entered in Hu as (Hu1 & Hu2 & _).
    erewrite (stored_required "relayUrl" (href u)) by done. cbn [rbind]. rewrite (stored_url None _ u Hu1 Hu2 Logic.I). cbn [rbind].
    erewrite (stored_optional "relayToken" token) by done. cbn [rbind]. erewrite (stored_required "from" from) by done. cbn [rbind]. erewrite (stored_recipients _ _ _ Hto) by reflexivity.
    cbn [rbind]. eexists. split; [reflexivity|]. split; [by exists u|]. intros Hne. destruct token as [t|]; [|done]. destruct Hr as (-> & _ & Hne2). apply String.eqb_neq in Hne2. cbn. by rewrite Hne2.
  - apply rbind_ok in H as (u & Hu & H). destruct (negb _) eqn:E in H; [done|]. injection H as <-. destruct (Hurl _ _ _ Hu) as [Ht1 Ht2]. apply secureUrl_entered in Hu as (Hu1 & Hu2 & _). apply negb_false_iff in E.
    cbn [map fst snd]. erewrite (stored_required "webhookUrl" (href u)) by done. cbn [rbind]. rewrite (stored_url (Some discord_url) _ u Hu1 Hu2 E). cbn [rbind]. eexists. split; [reflexivity|]. by exists u.
  - apply rbind_ok in H as (token & (-> & Ht1 & Ht2 & _)%bounded_entered & H). destruct (negb _) eqn:E in H; [done|]. apply rbind_ok in H as (chat & (_ & Hc1 & Hc2 & _)%bounded_entered & H). injection H as <-.
    cbn [map fst snd]. erewrite (stored_required "botToken" _) by done. cbn [rbind]. rewrite E. erewrite (stored_required "chatId" chat) by done. cbn [rbind]. eexists. split; [reflexivity|]. done.
  - apply rbind_ok in H as (u & Hu & H). destruct (negb _) eqn:E in H; [done|]. injection H as <-. destruct (Hurl _ _ _ Hu) as [Ht1 Ht2]. apply secureUrl_entered in Hu as (Hu1 & Hu2 & _). apply negb_false_iff in E.
    cbn [map fst snd]. erewrite (stored_required "webhookUrl" (href u)) by done. cbn [rbind]. rewrite (stored_url (Some slack_url) _ u Hu1 Hu2 E). cbn [rbind]. eexists. split; [reflexivity|]. by exists u.
  - apply rbind_ok in H as (text0 & Ho%optional_entered & H). apply rbind_ok in H as (endpoint & He & H). apply rbind_ok in H as (key & (-> & Hk1 & Hk2 & _)%bounded_entered & H).
    apply rbind_ok in H as (group & Hg%optional_entered & H). injection H as <-. cbn [map fst snd].
    assert (Hend : exists u, optionalString [("endpoint", json_of (nullable endpoint)); ("deviceKey", JStr (entered "deviceKey" input)); ("group", json_of (nullable group))] "endpoint" = Ok endpoint /\
      httpsUrl (coalesce endpoint "https://api.day.app") None = Ok u /\ url_parse (if String.eqb (entered "endpoint" input) "" then "https://api.day.app" else entered "endpoint" input) None = Ok u).
    { destruct text0 as [t|].
      - destruct Ho as (-> & Ho1 & Ho2). apply rbind_ok in He as (u & Hu & He). injection He as <-. exists u.
        assert (Hin : [("k", JStr (entered "endpoint" input))] = [("k", JStr (entered "endpoint" input))]) by done.
        change (Some (JStr (entered "endpoint" input))) with (obj_get "k" [("k", JStr (entered "endpoint" input))]) in Hu. apply secureUrl_entered in Hu as (Hu1 & Hu2 & _).
        cbn in Hu1. rewrite Ho1 in Hu1. destruct (href_trimmed _ _ Hu1) as [Ht1 Ht2]. split_and!.
        + by apply (stored_optional _ _ (href u)).
        + cbn. by apply (stored_url None _ u Hu1 Hu2).
        + by apply String.eqb_neq in Ho2 as ->.
      - injection He as <-. destruct bark_default as (u & Hu1 & Hu2 & Hu3 & Hu4). exists u. split_and!; [done | | by rewrite Ho]. cbn. unfold httpsUrl. rewrite Hu1. cbn. by rewrite Hu2, Hu3, Hu4. }
    destruct Hend as (u & E1 & E2 & E3). cbn [json_of]. rewrite E1. cbn [rbind]. rewrite E2. cbn [rbind]. erewrite (stored_required "deviceKey" _) by done. cbn [rbind].
    erewrite (stored_optional "group" group) by done. cbn [rbind]. eexists. split; [reflexivity|]. by exists u.
Qed.
End Channel.

Section Property.
Context `{WC : WebCrypto} `{WL : !WebCryptoLaws} `{UR : UrlReparses}.

(** C20: What an administrator configures for a channel is what the notification worker uses: a
    configuration the form accepts is stored encrypted for its workspace and channel, and from the
    stored row the worker always gets a configuration it can build a request from, for every
    message; the request goes where the form says and carries the credential entered there. *)
Theorem configured_channel_sends nonce keyHex workspace id provider input config w payload content : blen nonce = 12 ->
  parseNotificationChannelConfig provider input = Ok config -> wrapNotificationConfig nonce config keyHex workspace id = Ok w -> message payload = Ok content ->
  exists value target, unwrapNotificationConfig w keyHex workspace id = Ok value /\ buildRequest provider value payload = Ok target /\ sent_as provider input target.
Proof.
  intros Hn Hp Hw Hm. destruct (secrets_and_configs_roundtrip nonce keyHex workspace id Hn) as [_ Hrt]. destruct (Hrt config w (config_stored _ _ _ Hp) Hw) as (value & Hv & Hu).
  injection Hv as <-. destruct (config_requested provider input config payload content Hp Hm) as (t & Ht & Hs). by exists (map (fun kv => (kv.1, json_of kv.2)) config), t.
Qed.
End Property.

(** ** A configured channel *)

#[local] Instance toy_url_eq_dec : EqDecision toy_url. Proof. solve_decision. Defined.
(** The URLs of [ToyUrls] that read back as they were written. *)
Definition stable_url (u : toy_url) : bool :=
  bool_decide (toy_parse (href (UrlApi := ToyUrls) u) None = Ok u) && bool_decide (trim (href (UrlApi := ToyUrls) u) = href (UrlApi := ToyUrls) u) &&
  negb (String.eqb (href (UrlApi := ToyUrls) u) "").
Definition stable_parse (s : string) (base : option toy_url) : res toy_url :=
  let* u := toy_parse s base in throw_if negb (stable_url u) as "TypeError" in Ok u.
Definition StableUrls : UrlApi := {|
  url := toy_url; url_parse := stable_parse; protocol := tu_scheme; username := fun _ => ""; password := fun _ => ""; hostname := tu_host;
  origin := fun u => tu_scheme u ++ "//" ++ tu_host u; href := href (UrlApi := ToyUrls); ip_range := fun _ => None |}.
Definition StablePaths : UrlPath (UA := StableUrls) := {|
  pathname := (tu_path : url (UrlApi := StableUrls) -> string); set_pathname := (fun p u => ToyUrl (tu_scheme u) (tu_host u) p : url (UrlApi := StableUrls));
  set_pathname_protocol := fun _ _ => eq_refl; set_pathname_username := fun _ _ => eq_refl; set_pathname_password := fun _ _ => eq_refl; set_pathname_hostname := fun _ _ => eq_refl |}.
Lemma stable_parse_ok s u : stable_parse s None = Ok u ->
  toy_parse (href (UrlApi := ToyUrls) u) None = Ok u /\ trim (href (UrlApi := ToyUrls) u) = href (UrlApi := ToyUrls) u /\ href (UrlApi := ToyUrls) u <> "" /\ stable_url u = true.
Proof.
  intros H. apply rbind_ok in H as (v & _ & H). destruct (negb _) eqn:E in H; [done|]. injection H as <-. apply negb_false_iff in E. split_and!; [| | |done]; unfold stable_url in E; bool_hyps; try done.
Qed.
Lemma StableReparses : UrlReparses (UA := StableUrls) (UP := StablePaths).
Proof.
  split.
  - intros s u H _. destruct (stable_parse_ok s u H) as (H1 & _ & _ & H2). cbn. unfold stable_parse. cbn in H1. rewrite H1. cbn [rbind]. by rewrite H2.
  - intros s u H. by destruct (stable_parse_ok s u H) as (_ & H1 & H2 & _).
  - eexists. split; [vm_compute; reflexivity|]. done.
Qed.
Definition slack_form : props := [("name", JStr "ops"); ("webhookUrl", JStr "  https://hooks.slack.com/services/T/B/x ")].
Definition mail_form : props :=
  [("apiKey", JStr "re_key "); ("from", JStr "AlphaPing <ops@example.com>"); ("recipients", JStr ("a@example.com, b@example.com" ++ newline ++ "a@example.com")); ("replyTo", JStr "")].
Definition channel_config (p : NotificationProvider) (input : props) : list (string * jout) :=
  match parseNotificationChannelConfig (UA := StableUrls) (UP := StablePaths) p input with Ok c => c | Err _ => [] end.
Definition channel_key : string := "00112233445566778899aabbccddeeff00112233445566778899aabbccddeeff".
Definition channel_nonce : list byte := repeat (byte_of_Z 7) 12.
Definition channel_row_of (p : NotificationProvider) (input : props) : Wrapped :=
  match wrapNotificationConfig channel_nonce (channel_config p input) channel_key "w" "c" with Ok w => w | Err _ => MkWrapped [] [] end.
Definition sample_content : string * string := match message sample_payload with Ok c => c | Err _ => ("", "") end.
Theorem configured_channel_sends_witness :
  channel_config Resend mail_form = [("apiKey", OStr "re_key"); ("from", OStr "AlphaPing <ops@example.com>"); ("recipients", OArr [OStr "a@example.com"; OStr "b@example.com"]); ("replyTo", ONull)] /\
  summaryForConfig (UA := StableUrls) Resend (channel_config Resend mail_form) = Ok [("senderDomain", OStr "example.com"); ("recipientCount", OInt 2)] /\
  exists value target, unwrapNotificationConfig (channel_row_of Slack slack_form) channel_key "w" "c" = Ok value /\
    buildRequest (UA := StableUrls) (UP := StablePaths) Slack value sample_payload = Ok target /\ ta_url target = "https://hooks.slack.com/services/T/B/x".
Proof.
  split; [vm_compute; reflexivity|]. split; [vm_compute; reflexivity|].
  destruct (configured_channel_sends (UR := StableReparses) channel_nonce channel_key "w" "c" Slack slack_form (channel_config Slack slack_form) (channel_row_of Slack slack_form) sample_payload sample_content
    eq_refl ltac:(vm_compute; reflexivity) ltac:(vm_compute; reflexivity) ltac:(vm_compute; reflexivity)) as (value & target & H1 & H2 & u & H3 & H4).
  exists value, target. split; [exact H1|]. split; [exact H2|]. rewrite H4. vm_compute in H3. injection H3 as <-. reflexivity.
Defined.
(** What the form refuses: another host, an address with two at signs, a short token. *)
Example refused_forms :
  parseNotificationChannelConfig (UA := StableUrls) (UP := StablePaths) Slack [("webhookUrl", JStr "https://hooks.slack.com.evil.example/services/T")] = Err "400 slack webhook URL is invalid" /\
  recipientList (Some (JStr "a@b@c.example")) = Err "400 Email recipients are invalid" /\
  parseNotificationChannelConfig (UA := StableUrls) (UP := StablePaths) Telegram [("botToken", JStr "12:short"); ("chatId", JStr "1")] = Err "400 Bot token is invalid".
Proof. vm_compute. done. Qed.
