(* ===== verification/NotificationActions.v ===== *)
(** * NotificationActions: channels and rules

    The panel and the actions of [apps/web/src/lib/server/notifications.ts]: an administrator adds,
    renames, disables and removes channels ([ChannelConfig] has their configuration), and says
    which events of which resources go to which channel.  Other requests run between the accesses
    of an action ([Interleave]).  What the rules do is in [Discovery] and [Outbox]. *)

From Stdlib Require Import ZArith Lia Bool String Ascii List.
From stdpp Require Import base tactics list strings.
From S2P Require Import Prelude.
From S2P Require Import Js.
From S2P Require Import Sql.
From S2P Require Import Crypto.
From S2P Require Import Web.
From S2P Require Import Envelopes.
From S2P Require Import Authz.
From S2P Require Import Notifications.
From S2P Require Import Outbox.
From S2P Require Import ControlPlane.
From S2P Require Import AuditLog.
From S2P Require Import Interleave.
From S2P Require Import Transaction.
From S2P Require Import ChannelConfig.
Open Scope string_scope.
Open Scope Z_scope.

(** ** Tables *)

(** Rows of [notification_channels] and [notification_rules], with all their columns. *)
Record channel_cols := ChannelCols {
  cn_id : string;
  cn_workspace : string;
  cn_name : string;
  cn_provider : NotificationProvider;
  cn_ciphertext : list byte;
  cn_nonce : list byte;
  cn_key_id : string;
  cn_summary : string;
  cn_enabled : Z;
  cn_creator : string;
  cn_created : Z;
  cn_updated : Z;
}.
Record rule_cols := RuleCols {
  rl_id : string;
  rl_workspace : string;
  rl_type : string;
  rl_resource : string;
  rl_dimension : NotificationDimension;
  rl_channel : string;
  rl_enabled : Z;
  rl_creator : string;
  rl_created : Z;
  rl_updated : Z;
}.
(** The columns of [machines] and [services] that are used here. *)
Record named_resource := NamedResource { nr_id : string; nr_workspace : string; nr_name : string; nr_deleted : option Z }.
Record notify_db := NotifyDb {
  yd_authz : control_db;
  yd_machines : list named_resource;
  yd_services : list named_resource;
  yd_channels : list channel_cols;
  yd_rules : list rule_cols;
  yd_deliveries : list delivery_row;
  yd_audits : list audit_row;
}.
Definition put_channels v d := NotifyDb (yd_authz d) (yd_machines d) (yd_services d) v (yd_rules d) (yd_deliveries d) (yd_audits d).
Definition put_rules v d := NotifyDb (yd_authz d) (yd_machines d) (yd_services d) (yd_channels d) v (yd_deliveries d) (yd_audits d).
Definition put_notices v d := NotifyDb (yd_authz d) (yd_machines d) (yd_services d) (yd_channels d) (yd_rules d) v (yd_audits d).
Definition put_audits v d := NotifyDb (yd_authz d) (yd_machines d) (yd_services d) (yd_channels d) (yd_rules d) (yd_deliveries d) v.

(** Keys, references and [CHECK]s of the migration. *)
Definition channel_columns_ok (c : channel_cols) : bool :=
  (1 <=? slen (cn_name c)) && (slen (cn_name c) <=? 80) && (blen (cn_nonce c) =? 12) && ((cn_enabled c =? 0) || (cn_enabled c =? 1)).
Definition channel_insertable (c : channel_cols) (d : notify_db) : bool :=
  negb (has_key cn_id (cn_id c) (yd_channels d)) && has_key ws_id (cn_workspace c) (workspaces (yd_authz d)) && channel_columns_ok c.
Definition rule_key (r : rule_cols) : string * string * string * NotificationDimension := (rl_channel r, rl_type r, rl_resource r, rl_dimension r).
Definition audit_changed (row : audit_row) : stmt := insert_if_changed yd_audits put_audits row.
(** [DELETE FROM notification_channels ... ]: its rules and deliveries go with it.  [changes()]
    does not count those. *)
Definition delete_channels (guard : channel_cols -> notify_db -> bool) : stmt := fun d _ =>
  let gone id := existsb (fun c => String.eqb (cn_id c) id && guard c d) (yd_channels d) in
  let '(kept, n) := delete_where (fun c => guard c d) (yd_channels d) in
  Ok (put_notices (List.filter (fun x => negb (gone (dl_channel x))) (yd_deliveries d))
        (put_rules (List.filter (fun r => negb (gone (rl_channel r))) (yd_rules d)) (put_channels kept d)), n).
(** [INSERT INTO notification_rules ... ON CONFLICT (channel_id, resource_type, resource_id,
    dimension) DO UPDATE ... WHERE notification_rules.workspace_id = excluded.workspace_id] *)
Definition upsert_rule (guard : notify_db -> bool) (row : rule_cols) : stmt :=
  upsert_into yd_rules put_rules rule_key (fun r d => negb (has_key rl_id (rl_id r) (yd_rules d))) guard (fun old new => String.eqb (rl_workspace old) (rl_workspace new))
    (fun old new => RuleCols (rl_id old) (rl_workspace old) (rl_type old) (rl_resource old) (rl_dimension old) (rl_channel old) 1 (rl_creator old) (rl_created old) (rl_updated new)) row.

(** ** The panel *)

(* @src apps/web/src/lib/server/notifications.ts 20-22 MAX_CHANNELS *)
Definition MAX_CHANNELS : Z := 20.
Definition MAX_RULES : Z := 1000.
Definition MAX_RESOURCES : Z := 700.
(* @src apps/web/src/lib/server/notifications.ts parseSummary *)
Definition parseSummary (value : string) : props := match json_parse value with Ok (JObj l) => l | _ => [] end.

(** [ORDER BY] some keys: the first that differs decides. *)
Fixpoint ordered (l : list comparison) : bool := match l with [] => true | Eq :: rest => ordered rest | Lt :: _ => true | Gt :: _ => false end.
Definition name_compare (a b : option string) : comparison :=
  match a, b with Some x, Some y => String.compare x y | None, None => Eq | None, Some _ => Lt | Some _, None => Gt end.
(** A rule with the names it is shown with. *)
Record shown_rule := ShownRule { sh_rule : rule_cols; sh_resource : option string; sh_channel : string }.
Definition channel_leb (a b : channel_cols) : bool := ordered [Z.compare (cn_enabled b) (cn_enabled a); String.compare (cn_name a) (cn_name b); String.compare (cn_id a) (cn_id b)].
Definition rule_leb (a b : shown_rule) : bool :=
  ordered [name_compare (sh_resource a) (sh_resource b); String.compare (dimension_name (rl_dimension (sh_rule a))) (dimension_name (rl_dimension (sh_rule b)));
           String.compare (sh_channel a) (sh_channel b); String.compare (rl_id (sh_rule a)) (rl_id (sh_rule b))].
Definition resource_leb (a b : string * named_resource) : bool :=
  ordered [String.compare a.1 b.1; String.compare (nr_name a.2) (nr_name b.2); String.compare (nr_id a.2) (nr_id b.2)].

(* @src apps/web/src/lib/server/notifications.ts NotificationPanel *)
Record NotificationPanel := Panel {
  np_channels : list (string * string * NotificationProvider * props * bool * Z);
  np_rules : list (string * string * string * string * NotificationDimension * string * string * bool);
  np_resources : list (string * string * string);
}.
Definition channel_shown (c : channel_cols) := (cn_id c, cn_name c, cn_provider c, parseSummary (cn_summary c), cn_enabled c =? 1, cn_updated c).
Definition rule_shown (s : shown_rule) :=
  let r := sh_rule s in
  (rl_id r, rl_type r, rl_resource r, match sh_resource s with Some n => n | None => "Deleted resource" end, rl_dimension r, rl_channel r, sh_channel s, rl_enabled r =? 1).
(** The three queries of the panel. *)
Definition panel_channels (workspaceId : string) (d : notify_db) : list channel_cols :=
  order_limit channel_leb (MAX_CHANNELS + 1) (List.filter (fun c => String.eqb (cn_workspace c) workspaceId) (yd_channels d)).
Definition resource_name (d : notify_db) (r : rule_cols) : option string :=
  if String.eqb (rl_type r) "machine" then nr_name <$> find_key nr_id (rl_resource r) (yd_machines d)
  else nr_name <$> (if String.eqb (rl_type r) "service" then find_key nr_id (rl_resource r) (yd_services d) else None).
Definition panel_rules (workspaceId : string) (d : notify_db) : list shown_rule :=
  order_limit rule_leb (MAX_RULES + 1)
    (rule ← List.filter (fun r => String.eqb (rl_workspace r) workspaceId) (yd_rules d);
     channel ← List.filter (fun c => String.eqb (cn_id c) (rl_channel rule)) (yd_channels d);
     [ShownRule rule (resource_name d rule) (cn_name channel)]).
Definition live_in (workspaceId : string) (r : named_resource) : bool := String.eqb (nr_workspace r) workspaceId && bool_decide (nr_deleted r = None).
Definition panel_resources (workspaceId : string) (d : notify_db) : list (string * named_resource) :=
  order_limit resource_leb (MAX_RESOURCES + 1)
    (map (pair "machine") (List.filter (live_in workspaceId) (yd_machines d)) ++ map (pair "service") (List.filter (live_in workspaceId) (yd_services d)))%list.

Definition load_admin (workspaceSlug userId : string) : prog notify_db MonitoringAccess :=
  do access <- ask (fun d => loadMonitoringAccess (yd_authz d) workspaceSlug userId) in
  do _ <- plift (requireAdmin access) in
  pret access.
(* @src apps/web/src/lib/server/notifications.ts loadNotificationPanel *)
Definition loadNotificationPanel (workspaceSlug userId : string) : prog notify_db NotificationPanel :=
  do access <- load_admin workspaceSlug userId in
  let workspaceId := m_workspaceId access in
  do channels <- ask (fun d => Ok (panel_channels workspaceId d)) in
  do rules <- ask (fun d => Ok (panel_rules workspaceId d)) in
  do resources <- ask (fun d => Ok (panel_resources workspaceId d)) in
  refuse_if MAX_CHANNELS <? Z.of_nat (length channels) as "409 Too many notification channels" in
  refuse_if MAX_RULES <? Z.of_nat (length rules) as "409 Too many notification rules" in
  refuse_if MAX_RESOURCES <? Z.of_nat (length resources) as "409 Notification rules support up to 700 active resources per workspace" in
  pret (Panel (map channel_shown channels) (map rule_shown rules) (map (fun r => (nr_id r.2, r.1, nr_name r.2)) resources)).

(** ** The actions *)

(** What an action draws, and the time. *)
Record notify_draw := NotifyDraw { yw_now : Z; yw_id : string; yw_nonce : list byte; yw_audit : string }.
Record channel_input := ChannelInput { ci_name : string; ci_provider : string; ci_config : props }.
Record rule_input := RuleInput { ri_type : string; ri_resource : string; ri_dimension : string; ri_channel : string }.
(** [NOT EXISTS (SELECT 1 FROM t WHERE workspace_id = ? LIMIT 1 OFFSET maximum - 1)] *)
Definition below {R} (workspace : R -> string) (workspaceId : string) (maximum : Z) (t : list R) : bool :=
  count_if (fun r => String.eqb (workspace r) workspaceId) t <? maximum.
(** The decisive statement, the first, has to have changed a row. *)
Definition none_changed (results : list Z) : bool := match results with n :: _ => n <? 1 | [] => true end.

Section Actions.
Context `{WC : WebCrypto} `{LO : Locale} `{UA : UrlApi} `{UP : !UrlPath} (dw : notify_draw).
Let now := yw_now dw.
Definition admin_in (workspaceId userId : string) (d : notify_db) : bool := finalAdminCondition userId workspaceId (yd_authz d).
Definition audit_of (workspaceId userId action type resource : string) (before after : option jout) : stmt :=
  audit_changed (prepareAuditStatement (yw_audit dw) (AuditInput workspaceId userId action type resource before after now)).

(* @src apps/web/src/lib/server/notifications.ts 313-351 createNotificationChannel *)
Definition channel_creation (workspaceId userId : string) (c : channel_cols) : list stmt :=
  [insert_into yd_channels put_channels channel_insertable
     (fun d => admin_in workspaceId userId d && below cn_workspace workspaceId MAX_CHANNELS (yd_channels d)) c;
   audit_of workspaceId userId "notification_channel.create" "notification_channel" (yw_id dw) None
     (Some (OObj [("name", OStr (cn_name c)); ("provider", OStr (provider_text (cn_provider c)))]))].
(* @src apps/web/src/lib/server/notifications.ts createNotificationChannel *)
Definition createNotificationChannel (workspaceSlug userId wrappingKey : string) (input : channel_input) : prog notify_db string :=
  do access <- load_admin workspaceSlug userId in
  let workspaceId := m_workspaceId access in
  do selectedProvider <- plift (provider (ci_provider input)) in
  do name <- plift (bounded (Some (JStr (ci_name input))) "Channel name" 80) in
  do config <- plift (parseNotificationChannelConfig selectedProvider (ci_config input)) in
  do wrapped <- plift (wrapNotificationConfig (yw_nonce dw) config wrappingKey workspaceId (yw_id dw)) in
  do summary <- plift (summaryForConfig selectedProvider config) in
  do _ <- decided
    (channel_creation workspaceId userId
       (ChannelCols (yw_id dw) workspaceId name selectedProvider (wr_ciphertext wrapped) (wr_nonce wrapped) "v1" (json_stringify (OObj summary)) 1 userId now now))
    0 "409 Notification channel could not be created" in
  pret (yw_id dw).

Definition channel_here (workspaceId userId channelId : string) (c : channel_cols) (d : notify_db) : bool :=
  String.eqb (cn_id c) channelId && String.eqb (cn_workspace c) workspaceId && admin_in (cn_workspace c) userId d.
Definition renamed (name : string) (enabled : bool) (c : channel_cols) : channel_cols :=
  ChannelCols (cn_id c) (cn_workspace c) name (cn_provider c) (cn_ciphertext c) (cn_nonce c) (cn_key_id c) (cn_summary c) (if enabled then 1 else 0)
    (cn_creator c) (cn_created c) now.
(* @src apps/web/src/lib/server/notifications.ts updateNotificationChannel *)
Definition updateNotificationChannel (workspaceSlug userId channelId name : string) (enabled : bool) : prog notify_db unit :=
  do access <- load_admin workspaceSlug userId in
  let workspaceId := m_workspaceId access in
  do name <- plift (bounded (Some (JStr name)) "Channel name" 80) in
  decided
    [update_set yd_channels put_channels channel_columns_ok (channel_here workspaceId userId channelId) (renamed name enabled);
     audit_of workspaceId userId "notification_channel.update" "notification_channel" channelId None (Some (OObj [("name", OStr name); ("enabled", OBool enabled)]))]
    0 "404 Notification channel not found".
(** The count that is tested, [meta.changes], also has the rows that the deletion cascades to;
    it is at least one exactly when [changes()] is. *)
(* @src apps/web/src/lib/server/notifications.ts deleteNotificationChannel *)
Definition deleteNotificationChannel (workspaceSlug userId channelId : string) : prog notify_db unit :=
  do access <- load_admin workspaceSlug userId in
  let workspaceId := m_workspaceId access in
  settled
    [delete_channels (channel_here workspaceId userId channelId);
     audit_of workspaceId userId "notification_channel.delete" "notification_channel" channelId (Some (OObj [("present", OBool true)])) None]
    none_changed "404 Notification channel not found".

(** The [WHERE] of the insertion. *)
Definition rule_allowed (workspaceId userId type resourceId channelId : string) (d : notify_db) : bool :=
  admin_in workspaceId userId d &&
  existsb (fun r => String.eqb (nr_id r) resourceId && live_in workspaceId r) (if String.eqb type "machine" then yd_machines d else yd_services d) &&
  existsb (fun c => String.eqb (cn_id c) channelId && String.eqb (cn_workspace c) workspaceId) (yd_channels d) &&
  below rl_workspace workspaceId MAX_RULES (yd_rules d).
(* @src apps/web/src/lib/server/notifications.ts createNotificationRule *)
Definition createNotificationRule (workspaceSlug userId : string) (input : rule_input) : prog notify_db string :=
  do access <- load_admin workspaceSlug userId in
  let workspaceId := m_workspaceId access in
  do selectedType <- plift (resourceType (ri_type input)) in
  do selectedDimension <- plift (dimension (ri_dimension input)) in
  do resourceId <- plift (bounded (Some (JStr (ri_resource input))) "Resource" 128) in
  do channelId <- plift (bounded (Some (JStr (ri_channel input))) "Channel" 128) in
  do _ <- decided
    [upsert_rule (rule_allowed workspaceId userId selectedType resourceId channelId)
       (RuleCols (yw_id dw) workspaceId selectedType resourceId selectedDimension channelId 1 userId now now);
     audit_of workspaceId userId "notification_rule.create" "notification_rule" (yw_id dw) None
       (Some (OObj [("selectedType", OStr selectedType); ("resourceId", OStr resourceId); ("selectedDimension", OStr (dimension_name selectedDimension)); ("channelId", OStr channelId)]))]
    0 "409 Notification rule could not be created" in
  pret (yw_id dw).
(* @src apps/web/src/lib/server/notifications.ts deleteNotificationRule *)
Definition deleteNotificationRule (workspaceSlug userId ruleId : string) : prog notify_db unit :=
  do access <- load_admin workspaceSlug userId in
  let workspaceId := m_workspaceId access in
  decided
    [delete_from yd_rules put_rules (fun r d => String.eqb (rl_id r) ruleId && String.eqb (rl_workspace r) workspaceId && admin_in (rl_workspace r) userId d);
     audit_of workspaceId userId "notification_rule.delete" "notification_rule" ruleId (Some (OObj [("present", OBool true)])) None]
    0 "404 Notification rule not found".
End Actions.

(** ** What the page sends *)

Section Page.
Context `{WC : WebCrypto} `{LO : Locale} `{UA : UrlApi} `{UP : !UrlPath} (dw : notify_draw).
(** [String(form.get(key) ?? "")] of a form of texts. *)
Definition field (key : string) (form : list (string * string)) : string := match obj_get key form with Some v => v | None => "" end.
(* @src apps/web/src/routes/(app)/[workspace]/admin/notifications/+page.server.ts configFromForm *)
Definition configFromForm (form : list (string * string)) : props :=
  map (fun key => (key, JStr (field key form)))
    ["apiKey"; "from"; "recipients"; "replyTo"; "relayUrl"; "relayToken"; "webhookUrl"; "botToken"; "chatId"; "endpoint"; "deviceKey"; "group"].
Inductive page_action := create_channel | update_channel | delete_channel | create_rule | delete_rule.
(** [resource.indexOf("|")] *)
Fixpoint bar_index (i : Z) (s : string) : Z := match s with "" => -1 | String c rest => if Ascii.eqb c "|" then i else bar_index (i + 1) rest end.
(* @src apps/web/src/routes/(app)/[workspace]/admin/notifications/+page.server.ts 54-142 actions *)
Definition notification_action (action : page_action) (workspaceSlug userId wrappingKey : string) (form : list (string * string)) : prog notify_db unit :=
  match action with
  | create_channel =>
      do _ <- createNotificationChannel dw workspaceSlug userId wrappingKey (ChannelInput (field "name" form) (field "provider" form) (configFromForm form)) in pret tt
  | update_channel => updateNotificationChannel dw workspaceSlug userId (field "channelId" form) (field "name" form) (bool_decide (obj_get "enabled" form = Some "on"))
  | delete_channel => deleteNotificationChannel dw workspaceSlug userId (field "channelId" form)
  | create_rule =>
      let resource := field "resource" form in
      let separator := bar_index 0 resource in
      refuse_if separator <=? 0 as "400 A resource is required" in
      do _ <- createNotificationRule dw workspaceSlug userId
        (RuleInput (str_take (Z.to_nat separator) resource) (str_drop (Z.to_nat (separator + 1)) resource) (field "dimension" form) (field "channelId" form)) in pret tt
  | delete_rule => deleteNotificationRule dw workspaceSlug userId (field "ruleId" form)
  end.
End Page.

(** ** The limits hold, and the panel can always be opened *)

Definition in_workspace {R} (workspace : R -> string) (w : string) (r : R) : bool := String.eqb (workspace r) w.
(** Ids and rules are unique, a workspace has at most twenty channels and a thousand rules, every
    rule goes to a channel of its own workspace, every delivery to a channel, and every stored
    configuration has a nonce of twelve bytes. *)
Record notify_ok (d : notify_db) : Prop := NotifyOk {
  no_channels : keys_unique cn_id (yd_channels d);
  no_rules : keys_unique rl_id (yd_rules d);
  no_keys : keys_unique rule_key (yd_rules d);
  no_channel_count : forall w, count_if (in_workspace cn_workspace w) (yd_channels d) <= MAX_CHANNELS;
  no_rule_count : forall w, count_if (in_workspace rl_workspace w) (yd_rules d) <= MAX_RULES;
  no_owner : forall r, r ∈ yd_rules d -> exists c, c ∈ yd_channels d /\ cn_id c = rl_channel r /\ cn_workspace c = rl_workspace r;
  no_delivery : forall x, x ∈ yd_deliveries d -> exists c, c ∈ yd_channels d /\ cn_id c = dl_channel x;
  no_nonce : forall c, c ∈ yd_channels d -> blen (cn_nonce c) = 12;
}.
(** A batch that touches none of the three tables. *)
Definition same_notices (d d' : notify_db) : Prop := yd_channels d' = yd_channels d /\ yd_rules d' = yd_rules d /\ yd_deliveries d' = yd_deliveries d.
Lemma notify_same d d' : same_notices d d' -> notify_ok d -> notify_ok d'.
Proof. intros (E1 & E2 & E3) [H1 H2 H3 H4 H5 H6 H7 H8]. split; rewrite ?E1, ?E2, ?E3; done. Qed.

Lemma count_if_map {R} (p : R -> bool) (f : R -> R) l : (forall r, p (f r) = p r) -> count_if p (map f l) = count_if p l.
Proof. intros H. induction l as [|r l IH]; [done|]. cbn [map]. rewrite !count_if_cons, H, IH. done. Qed.
Lemma count_if_filter {R} (p q : R -> bool) l : count_if p (List.filter q l) <= count_if p l.
Proof. induction l as [|r l IH]; [done|]. cbn [List.filter]. rewrite count_if_cons. destruct (q r); [rewrite count_if_cons; lia|]. destruct (p r); lia. Qed.
(** One more row, in a workspace that has fewer than the most. *)
Lemma count_if_below {R} (workspace : R -> string) (r : R) maximum l : below workspace (workspace r) maximum l = true ->
  (forall w, count_if (in_workspace workspace w) l <= maximum) -> forall w, count_if (in_workspace workspace w) (l ++ [r])%list <= maximum.
Proof.
  unfold below. intros Hb Hl w. apply Z.ltb_lt in Hb. rewrite count_if_app, count_if_cons. change (count_if (in_workspace workspace w) []) with 0. specialize (Hl w).
  unfold in_workspace at 2. destruct (String.eqb (workspace r) w) eqn:E; [|lia]. apply String.eqb_eq in E as <-.
  change (count_if (fun r0 => String.eqb (workspace r0) (workspace r)) l) with (count_if (in_workspace workspace (workspace r)) l) in Hb. lia.
Qed.
Lemma filter_unique {R K} `{!EqDecision K} (key : R -> K) q l : keys_unique key l -> keys_unique key (List.filter q l).
Proof.
  intros H. pose proof (delete_where_unique key (fun r => negb (q r)) l H) as H'. cbn in H'. erewrite filter_ext; [exact H'|]. intros r. cbn. by rewrite negb_involutive.
Qed.

Lemma audit_kept row d n d' m : audit_changed row d n = Ok (d', m) -> notify_ok d -> notify_ok d'.
Proof. unfold audit_changed, insert_if_changed. destruct (n =? 1); intros [= <- <-]; [by apply notify_same | done]. Qed.
(** A change and its audit row. *)
Lemma audited st row (d d' : notify_db) rs : (forall d1 n, st d 0 = Ok (d1, n) -> notify_ok d -> notify_ok d1) ->
  notify_ok d -> transaction [st; audit_changed row] d = Ok (d', rs) -> notify_ok d'.
Proof.
  intros Hst Hd H. apply transaction_cons in H as (d1 & n & rs1 & H1 & H & _). apply transaction_cons in H as (d2 & m & rs2 & H2 & H & _). cbn in H. injection H as <- _.
  eapply audit_kept; [exact H2|]. by eapply Hst.
Qed.
Lemma channel_added guard c d d1 n : insert_into yd_channels put_channels channel_insertable guard c d 0 = Ok (d1, n) ->
  (guard d = true -> below cn_workspace (cn_workspace c) MAX_CHANNELS (yd_channels d) = true) -> notify_ok d -> notify_ok d1.
Proof.
  intros H Hb [H1 H2 H3 H4 H5 H6 H7 H8]. apply insert_into_effect in H as [(_ & -> & _)|(Hg & Hc & -> & _)]; [done|]. specialize (Hb Hg).
  unfold channel_insertable, channel_columns_ok in Hc. bool_hyps. split; cbn [yd_channels yd_rules yd_deliveries put_channels]; try done.
  - by apply keys_unique_app.
  - by apply count_if_below.
  - intros r Hr. destruct (H6 r Hr) as (x & Hx & E). exists x. split; [apply elem_of_app; by left | done].
  - intros r Hr. destruct (H7 r Hr) as (x & Hx & E). exists x. split; [apply elem_of_app; by left | done].
  - intros x Hx. apply elem_of_app in Hx as [Hx|Hx]; [by apply H8|]. apply list_elem_of_singleton in Hx as ->. lia.
Qed.
Lemma channel_changed constraints guard f d d1 n : update_set yd_channels put_channels constraints guard f d 0 = Ok (d1, n) ->
  (forall c, cn_id (f c) = cn_id c /\ cn_workspace (f c) = cn_workspace c /\ cn_nonce (f c) = cn_nonce c) -> notify_ok d -> notify_ok d1.
Proof.
  intros H Hf [H1 H2 H3 H4 H5 H6 H7 H8]. apply update_set_effect in H as (-> & _ & _). set (g := fun c => if guard c d then f c else c).
  assert (Hg : forall c, cn_id (g c) = cn_id c /\ cn_workspace (g c) = cn_workspace c /\ cn_nonce (g c) = cn_nonce c) by (intros c; unfold g; destruct (guard c d); [apply Hf | done]).
  split; cbn [yd_channels yd_rules yd_deliveries put_channels]; try done.
  - unfold keys_unique. rewrite map_map. erewrite map_ext; [exact H1|]. intros c. apply Hg.
  - intros w. rewrite count_if_map; [done|]. intros c. unfold in_workspace. destruct (Hg c) as (_ & E & _). fold (g c). by rewrite E.
  - intros r Hr. destruct (H6 r Hr) as (c & Hc & E1 & E2). exists (g c). destruct (Hg c) as (-> & -> & _). split; [|done]. by apply (list_elem_of_fmap_2 g).
  - intros r Hr. destruct (H7 r Hr) as (c & Hc & E). exists (g c). destruct (Hg c) as (-> & _ & _). split; [|done]. by apply (list_elem_of_fmap_2 g).
  - intros c Hc. apply (list_elem_of_fmap g) in Hc as (x & -> & Hx). destruct (Hg x) as (_ & _ & ->). by apply H8.
Qed.
Lemma channel_removed guard d d1 n : delete_channels guard d 0 = Ok (d1, n) -> notify_ok d -> notify_ok d1.
Proof.
  unfold delete_channels, delete_where. cbv zeta. intros [= <- <-] [H1 H2 H3 H4 H5 H6 H7 H8].
  assert (Hstay : forall c, c ∈ yd_channels d -> existsb (fun x => String.eqb (cn_id x) (cn_id c) && guard x d) (yd_channels d) = false -> c ∈ List.filter (fun c => negb (guard c d)) (yd_channels d)).
  { intros c Hc Hg. apply filter_In_elem. split; [done|]. rewrite existsb_false_elem in Hg. specialize (Hg c Hc). rewrite String.eqb_refl in Hg. cbn in Hg. by rewrite Hg. }
  split; cbn [yd_channels yd_rules yd_deliveries put_channels put_rules put_notices].
  - by apply filter_unique.
  - by apply filter_unique.
  - by apply filter_unique.
  - intros w. pose proof (count_if_filter (in_workspace cn_workspace w) (fun c => negb (guard c d)) (yd_channels d)). specialize (H4 w). lia.
  - intros w. match goal with |- count_if ?p (List.filter ?q ?l) <= _ => pose proof (count_if_filter p q l) end. specialize (H5 w). lia.
  - intros r Hr. apply filter_In_elem in Hr as [Hr Hg]. apply negb_true_iff in Hg. destruct (H6 r Hr) as (c & Hc & E1 & E2). exists c. rewrite <- E1 in Hg. split; [by apply Hstay | done].
  - intros r Hr. apply filter_In_elem in Hr as [Hr Hg]. apply negb_true_iff in Hg. destruct (H7 r Hr) as (c & Hc & E1). exists c. rewrite <- E1 in Hg. split; [by apply Hstay | done].
  - intros c Hc. apply filter_In_elem in Hc as [Hc _]. by apply H8.
Qed.
Lemma rule_added workspaceId userId type resource channel row d d1 n : upsert_rule (rule_allowed workspaceId userId type resource channel) row d 0 = Ok (d1, n) ->
  rl_workspace row = workspaceId -> rl_channel row = channel -> notify_ok d -> notify_ok d1.
Proof.
  unfold upsert_rule. intros H <- <- Hd. apply upsert_into_effect in H as [(_ & -> & _)|(Eg & Ei & -> & _)]; [done|]. apply negb_true_iff in Ei.
  match goal with |- context [upsert rule_key ?gg ?uu _ _] => set (g := gg) in *; set (u := uu) in * end. destruct Hd as [H1 H2 H3 H4 H5 H6 H7 H8].
  split; cbn [yd_channels yd_rules yd_deliveries put_rules]; try done.
  - unfold upsert. destruct (has_key rule_key _ _); [|by apply keys_unique_app]. by apply update_where_unique.
  - by apply upsert_unique.
  - unfold upsert. unfold rule_allowed in Eg. bool_hyps. destruct (has_key rule_key _ _); [|by apply count_if_below]. cbn [fst update_where].
    intros w. rewrite count_if_map; [done|]. intros r. by destruct (_ && _).
  - intros r Hr. apply elem_of_upsert in Hr as [Hr|[(old & Ho & _ & _ & ->)|[-> _]]]; [by apply H6 | exact (H6 old Ho)|].
    unfold rule_allowed in Eg. bool_hyps. match goal with E : existsb _ (yd_channels d) = true |- _ => apply existsb_exists_elem in E as (c & Hc & E) end. bool_hyps. by exists c.
Qed.
Lemma rule_removed guard d d1 n : delete_from yd_rules put_rules guard d 0 = Ok (d1, n) -> notify_ok d -> notify_ok d1.
Proof.
  unfold delete_from, delete_where. intros [= <- <-] [H1 H2 H3 H4 H5 H6 H7 H8]. split; cbn [yd_channels yd_rules yd_deliveries put_rules]; try done; try by apply filter_unique.
  - intros w. match goal with |- count_if ?p (List.filter ?q ?l) <= _ => pose proof (count_if_filter p q l) end. specialize (H5 w). lia.
  - intros r Hr. apply filter_In_elem in Hr as [Hr _]. by apply H6.
Qed.

Lemma order_limit_length {R} (leb : R -> R -> bool) n l : (length (order_limit leb n l) <= length l)%nat.
Proof. unfold order_limit. rewrite length_take. rewrite (Permutation_length (order_by_perm leb l)). lia. Qed.
Lemma bind_length {A B} (f : A -> list B) l : (forall x, x ∈ l -> (length (f x) <= 1)%nat) -> (length (l ≫= f) <= length l)%nat.
Proof.
  intros H. induction l as [|x l IH]; [done|]. cbn. rewrite length_app. specialize (H x ltac:(by left)) as Hx. assert (length (l ≫= f) <= length l)%nat; [|lia].
  apply IH. intros y Hy. apply H. by right.
Qed.
Lemma panel_fits workspaceId d : notify_ok d -> Z.of_nat (length (panel_channels workspaceId d)) <= MAX_CHANNELS /\ Z.of_nat (length (panel_rules workspaceId d)) <= MAX_RULES.
Proof.
  intros H. split.
  - pose proof (no_channel_count d H workspaceId) as Hc. unfold panel_channels. pose proof (order_limit_length channel_leb (MAX_CHANNELS + 1) (List.filter (fun c => String.eqb (cn_workspace c) workspaceId) (yd_channels d))) as Hl.
    change (Z.of_nat (length (List.filter (fun c => String.eqb (cn_workspace c) workspaceId) (yd_channels d))) <= MAX_CHANNELS) in Hc. lia.
  - pose proof (no_rule_count d H workspaceId) as Hc. unfold panel_rules. set (l := List.filter (fun r => String.eqb (rl_workspace r) workspaceId) (yd_rules d)).
    change (Z.of_nat (length l) <= MAX_RULES) in Hc.
    etransitivity; [|exact Hc]. apply Nat2Z.inj_le. etransitivity; [apply order_limit_length|]. apply bind_length. intros r _.
    assert (Hb : forall cs : list channel_cols, (length (cs ≫= (fun channel => [ShownRule r (resource_name d r) (cn_name channel)])) <= length cs)%nat) by (intros cs; apply bind_length; done).
    etransitivity; [apply Hb|]. pose proof (count_if_unique cn_id (fun c => String.eqb (cn_id c) (rl_channel r)) (yd_channels d) (no_channels d H)) as Hu.
    unfold count_if in Hu. destruct Hu as [Hu|Hu]; [intros x y _ _ Hx%String.eqb_eq Hy%String.eqb_eq; congruence | lia | lia].
Qed.
Lemma panel_opens slug user d : notify_ok d ->
  (alone (loadNotificationPanel slug user) d).1 <> Err "409 Too many notification channels" /\ (alone (loadNotificationPanel slug user) d).1 <> Err "409 Too many notification rules".
Proof.
  intros Hd. unfold loadNotificationPanel, load_admin, alone. cbn. destruct (loadMonitoringAccess _ _ _) as [access|e] eqn:E; cbn.
  2:{ unfold loadMonitoringAccess in E. repeat case_match; try done; injection E as <-; done. }
  destruct (requireAdmin access) as [[]|e] eqn:Ea; cbn; [|unfold requireAdmin in Ea; destruct (negb _) in Ea; [injection Ea as <-; done | done]].
  destruct (panel_fits (m_workspaceId access) d Hd) as [H1 H2]. apply Z.ltb_ge in H1, H2. rewrite H1. cbn. rewrite H2. cbn. by destruct (MAX_RESOURCES <? _).
Qed.

Section Requests.
Context `{WC : WebCrypto} `{LO : Locale} `{UA : UrlApi} `{UP : !UrlPath}.
(** What an administrator's page sends: the action, for a workspace, with the form. *)
Record page_request := PageRequest { pq_draw : notify_draw; pq_action : page_action; pq_slug : string; pq_user : string; pq_key : string; pq_form : list (string * string) }.
Definition perform_notification (x : page_request) : prog notify_db unit := notification_action (pq_draw x) (pq_action x) (pq_slug x) (pq_user x) (pq_key x) (pq_form x).
Lemma steady_then {A} (p : prog notify_db A) : steady notify_ok p -> steady notify_ok (pbind p (fun _ => pret tt)).
Proof. intros H. apply steady_bind; [exact H|]. intros a. apply steady_ret. Qed.
Ltac steady_reads := repeat (apply steady_bind; [first [apply steady_ask | apply steady_lift | apply steady_ret | apply steady_bind; [apply steady_ask|]; intros ?; apply steady_bind; [apply steady_lift|]; intros ?; apply steady_ret]|]; intros ?).
Lemma perform_notification_steady x : steady notify_ok (perform_notification x).
Proof.
  destruct x as [dw action slug user key form]. unfold perform_notification. cbn [pq_draw pq_action pq_slug pq_user pq_key pq_form]. destruct action; cbn [notification_action]; cbv zeta.
  - apply steady_then. unfold createNotificationChannel, load_admin. cbv zeta. steady_reads. apply steady_bind; [|intros ?; apply steady_ret]. apply steady_settled. intros d d' rs Hd H.
    eapply audited; [|exact Hd | exact H]. intros d1 n H1 H2. eapply channel_added; [exact H1| |exact H2]. intros Hg. by apply andb_true_iff in Hg as [_ Hg].
  - unfold updateNotificationChannel, load_admin. cbv zeta. steady_reads. apply steady_settled. intros d d' rs Hd H. eapply audited; [|exact Hd | exact H].
    intros d1 n H1. by eapply channel_changed.
  - unfold deleteNotificationChannel, load_admin. cbv zeta. steady_reads. apply steady_settled. intros d d' rs Hd H. eapply audited; [|exact Hd | exact H]. intros d1 n H1. by eapply channel_removed.
  - apply steady_bind; [apply steady_lift|]. intros ?. apply steady_then. unfold createNotificationRule, load_admin. cbv zeta. steady_reads. apply steady_bind; [|intros ?; apply steady_ret]. apply steady_settled.
    intros d d' rs Hd H. eapply audited; [|exact Hd | exact H]. intros d1 n H1. eapply rule_added; [exact H1 | done | done].
  - unfold deleteNotificationRule, load_admin. cbv zeta. steady_reads. apply steady_settled. intros d d' rs Hd H. eapply audited; [|exact Hd | exact H]. intros d1 n H1. by eapply rule_removed.
Qed.

(** C16: However many administrators add, change and remove channels and rules at the same time,
    interleaved in any order, a workspace never has more than twenty channels and a thousand
    rules, no rule exists twice, every rule goes to a channel of its own workspace and a removed
    channel leaves neither rules nor deliveries behind; so the notification page, whose queries
    stop at these limits, never refuses to open because of them. *)
Theorem notification_limits_hold world requests d ts d' : (forall s s', world s s' -> notify_ok s -> notify_ok s') ->
  pool_steps world (map perform_notification requests, d) (ts, d') -> notify_ok d ->
  notify_ok d' /\ forall slug user,
    (alone (loadNotificationPanel slug user) d').1 <> Err "409 Too many notification channels" /\
    (alone (loadNotificationPanel slug user) d').1 <> Err "409 Too many notification rules".
Proof.
  intros Hw Hrun Hd. assert (H : notify_ok d') by (eapply steady_pool; [intros x _; apply perform_notification_steady | exact Hw | exact Hrun | exact Hd]).
  split; [exact H|]. intros slug user. by apply panel_opens.
Qed.
End Requests.

(** ** Recorded requests *)

#[local] Instance na_locale : Locale := String.leb.
Definition na_draw (i : Z) : notify_draw := NotifyDraw (1000 + i) ("id-" ++ z_to_string i) (repeat (byte_of_Z i) 12) ("audit-" ++ z_to_string i).
Definition na_key : string := "00112233445566778899aabbccddeeff00112233445566778899aabbccddeeff".
Definition na_start : notify_db :=
  NotifyDb (ControlDb [Membership "w" "ada" admin active; Membership "w" "bob" member active] [] [] [] [WorkspaceRow "w" "team" 7 "board" 10 None])
    [NamedResource "m" "w" "web-1" None; NamedResource "old" "w" "gone" (Some 5)] []
    [ChannelCols "c" "w" "ops" Telegram [] (repeat (byte_of_Z 1) 12) "v1" "{}" 1 "ada" 1 1]
    [RuleCols "r" "w" "machine" "m" Availability "c" 0 "ada" 1 1] [] [].
Definition na_request (i : Z) (action : page_action) (user : string) (form : list (string * string)) : page_request := PageRequest (na_draw i) action "team" user na_key form.
Definition na_rule (resource dimension channel : string) : list (string * string) := [("resource", resource); ("dimension", dimension); ("channelId", channel)].
Definition na_requests : list page_request :=
  [na_request 1 create_channel "ada" [("name", " Slack "); ("provider", "slack"); ("webhookUrl", "https://hooks.slack.com/services/T/B/x")];
   na_request 2 create_rule "ada" (na_rule "machine|m" "availability" "c");
   na_request 3 create_rule "ada" (na_rule "machine|m" "recovery" "id-1");
   na_request 4 create_rule "ada" (na_rule "machine|old" "recovery" "c");
   na_request 5 delete_channel "ada" [("channelId", "c")];
   na_request 6 create_rule "bob" (na_rule "machine|m" "recovery" "c");
   na_request 7 create_channel "ada" [("name", "Slack"); ("provider", "pager")]].
Definition na_run : list (prog notify_db unit) * notify_db := schedule [0; 1; 0; 2; 3; 4; 1; 2; 3; 4; 5; 6]%nat (map perform_notification na_requests, na_start).
Lemma na_start_ok : notify_ok na_start.
Proof.
  split; try (apply (bool_decide_unpack _); vm_compute; exact Logic.I).
  - intros w. cbn [na_start yd_channels yd_rules]. rewrite count_if_cons. change (count_if _ []) with 0. unfold MAX_CHANNELS, MAX_RULES. destruct (in_workspace _ _ _); lia.
  - intros w. cbn [na_start yd_channels yd_rules]. rewrite count_if_cons. change (count_if _ []) with 0. unfold MAX_CHANNELS, MAX_RULES. destruct (in_workspace _ _ _); lia.
  - intros r Hr. apply list_elem_of_singleton in Hr as ->. eexists. split; [by left | done].
  - intros x Hx. by apply elem_of_nil in Hx.
  - intros c Hc. apply list_elem_of_singleton in Hc as ->. done.
Qed.
(** A rule that exists is enabled again, and goes with its channel. *)
Theorem notification_limits_hold_witness :
  ended na_run.1 = [Some (Ok tt); Some (Ok tt); Some (Ok tt); Some (Err "409 Notification rule could not be created"); Some (Ok tt);
                    Some (Err "404 Workspace not found"); Some (Err "400 Provider is invalid")] /\
  map (fun r => (rl_id r, rl_channel r, rl_enabled r)) (yd_rules na_run.2) = [("id-3", "id-1", 1)] /\
  map (fun c => (cn_id c, cn_name c, cn_summary c)) (yd_channels na_run.2) =
    [("id-1", "Slack", json_stringify (OObj [("webhookHost", OStr "hooks.slack.com")]))] /\
  map (fun a => (al_id a, al_resource a)) (yd_audits na_run.2) = [("audit-1", "id-1"); ("audit-2", "id-2"); ("audit-3", "id-3"); ("audit-5", "c")] /\
  notify_ok na_run.2.
Proof.
  do 4 (split; [vm_compute; reflexivity|]).
  refine (proj1 (notification_limits_hold eq na_requests na_start na_run.1 na_run.2 _ _ na_start_ok)).
  - intros s s' <-. done.
  - unfold na_run. rewrite <- surjective_pairing. apply schedule_steps.
Defined.
(** The audit row of an enabled rule, and the answer of the action, name an id that no rule has. *)
Example enabled_rule_id :
  let '(answer, d) := alone (createNotificationRule (na_draw 2) "team" "ada" (RuleInput "machine" "m" "availability" "c")) na_start in
  answer = Ok "id-2" /\ map rl_id (yd_rules d) = ["r"] /\ map al_resource (yd_audits d) = ["id-2"].
Proof. vm_compute. done. Qed.
