(* ===== verification/WorkspaceSettings.v ===== *)
(** * WorkspaceSettings: what an administrator decides for a workspace

    [apps/web/src/lib/server/workspace-settings.ts]: who may see the dashboard, which machines,
    services and containers the public may see, and how long data is kept.  The status pages read
    these tables ([PublicStatus]), the retention worker reads the days. *)

From Stdlib Require Import ZArith Lia Bool String Ascii List.
From stdpp Require Import base tactics list strings.
From S2P Require Import Prelude.
From S2P Require Import Js.
From S2P Require Import Sql.
From S2P Require Import Crypto.
From S2P Require Import Authz.
From S2P Require Import ControlPlane.
From S2P Require Import AuditLog.
From S2P Require Import Interleave.
From S2P Require Import ConfigTables.
From S2P Require Import QueryBatches.
From S2P Require Import PublicStatus.
From S2P Require Import Transaction.
From S2P Require Import NotificationActions.
Open Scope string_scope.
Open Scope Z_scope.

(** ** Tables *)

(** A dashboard with the columns that are written here. *)
Record dashboard_full := DashboardFull { df_shown : st_dashboard; df_workspace : string; df_updated : Z }.
(* @src apps/web/src/lib/server/workspace-settings.ts RetentionSettings *)
Record RetentionSettings := Retention {
  rawDays : number;
  rollup5mDays : number;
  rollup1hDays : number;
  eventDays : number;
  auditLogDays : number;
  expiredAnnouncementGraceDays : number;
  softDeleteGraceDays : number;
}.
(** A row of [retention_policies]. *)
Record retention_row := RetentionRow {
  rp_workspace : string;
  rp_raw : Z;
  rp_5m : Z;
  rp_1h : Z;
  rp_event : Z;
  rp_audit : Z;
  rp_announcement : Z;
  rp_softDelete : Z;
  rp_updated : Z;
}.
(** The tables; the rows of resources are those the status pages read. *)
Record settings_db := SettingsDb {
  zd_authz : control_db;
  zd_machines : list st_machine;
  zd_services : list st_service;
  zd_containers : list st_container;
  zd_checks : list st_check;
  zd_dashboards : list dashboard_full;
  zd_resources : list dashboard_resource;
  zd_policies : list public_policy;
  zd_retention : list retention_row;
  zd_audits : list audit_row;
}.
Definition put_dashboards v d := SettingsDb (zd_authz d) (zd_machines d) (zd_services d) (zd_containers d) (zd_checks d) v (zd_resources d) (zd_policies d) (zd_retention d) (zd_audits d).
Definition put_shown v d := SettingsDb (zd_authz d) (zd_machines d) (zd_services d) (zd_containers d) (zd_checks d) (zd_dashboards d) v (zd_policies d) (zd_retention d) (zd_audits d).
Definition put_policies v d := SettingsDb (zd_authz d) (zd_machines d) (zd_services d) (zd_containers d) (zd_checks d) (zd_dashboards d) (zd_resources d) v (zd_retention d) (zd_audits d).
Definition put_retention v d := SettingsDb (zd_authz d) (zd_machines d) (zd_services d) (zd_containers d) (zd_checks d) (zd_dashboards d) (zd_resources d) (zd_policies d) v (zd_audits d).
Definition put_audits v d := SettingsDb (zd_authz d) (zd_machines d) (zd_services d) (zd_containers d) (zd_checks d) (zd_dashboards d) (zd_resources d) (zd_policies d) (zd_retention d) v.
(** What the status pages see, with the tables that are not touched here. *)
Definition status_side (rest : control_side) (d : settings_db) : control_side :=
  ControlSide (cs_workspaces rest) (map df_shown (zd_dashboards d)) (zd_resources d) (zd_policies d) (zd_machines d) (zd_services d) (zd_containers d) (zd_checks d)
    (cs_incidents rest) (cs_affected rest) (cs_updates rest) (cs_announcements rest).
Definition audit_changed (row : audit_row) : stmt := insert_if_changed zd_audits put_audits row.

(** ** The resources of a workspace *)

Definition type_text (t : WorkspaceResourceType) : string := match t with wr_machine => "machine" | wr_service => "service" | wr_container => "container" end.
Definition resource_type (t : WorkspaceResourceType) : ResourceType := match t with wr_machine => RMachine | wr_service => RService | wr_container => RContainer end.
Definition resource_types : list (string * WorkspaceResourceType) := [("machine", wr_machine); ("service", wr_service); ("container", wr_container)].
(** The live resources of a kind: ids and names. *)
Definition live_resources (t : WorkspaceResourceType) (workspaceId : string) (d : settings_db) : list (string * string) :=
  let here w deleted := String.eqb w workspaceId && alive (A := Z) deleted in
  match t with
  | wr_machine => map (fun m => (tm_id m, tm_name m)) (List.filter (fun m => here (tm_workspace m) (tm_deleted m)) (zd_machines d))
  | wr_service => map (fun s => (ts_id s, ts_name s)) (List.filter (fun s => here (ts_workspace s) (ts_deleted s)) (zd_services d))
  | wr_container => map (fun k => (tc_id k, tc_name k)) (List.filter (fun k => here (tc_workspace k) (tc_deleted k)) (zd_containers d))
  end.
(** [EXISTS (SELECT 1 FROM ... WHERE id = ? AND workspace_id = ? AND deleted_at IS NULL)] *)
Definition resource_live (t : WorkspaceResourceType) (workspaceId resourceId : string) (d : settings_db) : bool :=
  existsb (fun r => String.eqb r.1 resourceId) (live_resources t workspaceId d).

(* @src apps/web/src/lib/server/workspace-settings.ts PublicResourceRow *)
Record PublicResourceRow := PublicRow { pr_type : WorkspaceResourceType; pr_id : string; pr_name : string; pr_policy : option public_policy }.
Definition policy_key (workspaceId : string) (t : WorkspaceResourceType) (resourceId : string) : string * ResourceType * string := (workspaceId, resource_type t, resourceId).
Definition resource_rows (workspaceId : string) (d : settings_db) : list PublicResourceRow :=
  t ← [wr_machine; wr_service; wr_container]; r ← live_resources t workspaceId d;
  [PublicRow t r.1 r.2 (find_key public_policy_key (policy_key workspaceId t r.1) (zd_policies d))].
(** [(resource_type, name, resource_id)] as a row value. *)
Definition row_value (r : PublicResourceRow) : list string := [type_text (pr_type r); pr_name r; pr_id r].
Fixpoint compare_values (a b : list string) : comparison :=
  match a, b with
  | x :: a, y :: b => match String.compare x y with Eq => compare_values a b | c => c end
  | [], [] => Eq
  | [], _ => Lt
  | _, [] => Gt
  end.
Definition values_leb (a b : list string) : bool := match compare_values a b with Gt => false | _ => true end.

(* @src apps/web/src/lib/server/workspace-settings.ts PublicResourceCursor *)
Record PublicResourceCursor := ResourceCursor { rc_type : WorkspaceResourceType; rc_name : string; rc_id : string }.
(* @src apps/web/src/lib/server/workspace-settings.ts encodePublicResourceCursor *)
Definition encodePublicResourceCursor (resource : PublicResourceRow) : string :=
  json_stringify (OArr [OStr (type_text (pr_type resource)); OStr (pr_name resource); OStr (pr_id resource)]).
(* @src apps/web/src/lib/server/workspace-settings.ts parsePublicResourceCursor *)
Definition parsePublicResourceCursor (value : option string) : option PublicResourceCursor :=
  match value with
  | None => None
  | Some value =>
      if String.eqb value "" || (1024 <? slen value) then None
      else match json_parse value with
        | Ok (JArr [JStr type; JStr name; JStr id]) =>
            match obj_get type resource_types with
            | Some t => if (512 <? slen name) || (slen id =? 0) || (512 <? slen id) then None else Some (ResourceCursor t name id)
            | None => None
            end
        | _ => None
        end
  end.
Definition cursor_value (c : PublicResourceCursor) : list string := [type_text (rc_type c); rc_name c; rc_id c].

(** ** The panel *)

(* @src apps/web/src/lib/server/workspace-settings.ts PUBLIC_RESOURCE_PAGE_SIZE *)
Definition PUBLIC_RESOURCE_PAGE_SIZE : Z := 50.
(* @src apps/web/src/lib/server/workspace-settings.ts STORAGE_ESTIMATE_RESOURCE_LIMIT *)
Definition STORAGE_ESTIMATE_RESOURCE_LIMIT : Z := 1000.
(** The numerator: what the estimate divides by 10^9. *)
(* @src apps/web/src/lib/server/workspace-settings.ts estimateTelemetryStorageGb *)
Definition estimateTelemetryStorage (machineCount checkCount : Z) (retention : retention_row) : Z :=
  let rawBytesPerDay := machineCount * 1440 * 2048 + checkCount * 1440 * 512 in
  let rollup5mBytesPerDay := (machineCount + checkCount) * 288 * 320 in
  let rollup1hBytesPerDay := (machineCount + checkCount) * 24 * 320 in
  rawBytesPerDay * rp_raw retention + rollup5mBytesPerDay * rp_5m retention + rollup1hBytesPerDay * rp_1h retention.
(* @src apps/web/src/lib/server/workspace-settings.ts PublicResourceSetting *)
Record PublicResourceSetting := ResourceSetting { ps_id : string; ps_type : WorkspaceResourceType; ps_name : string; ps_effect : string; ps_profile : string }.
(* @src apps/web/src/lib/server/workspace-settings.ts WorkspaceSettingsPanel *)
Record WorkspaceSettingsPanel := SettingsPanel {
  sp_visibility : string;
  sp_resources : list PublicResourceSetting;
  sp_previous : option string;
  sp_next : option string;
  sp_retention : retention_row;
  sp_storage : Z;
  sp_capped : bool;
}.
Definition setting_of (r : PublicResourceRow) : PublicResourceSetting :=
  ResourceSetting (pr_id r) (pr_type r) (pr_name r) (match pr_policy r with Some p => pp_effect p | None => "deny" end)
    (match pr_policy r with Some p => pp_profile p | None => "summary" end).
(** The page: its rows in ascending order, whether there are more in the direction it was asked
    for, and that direction. *)
Definition resource_query (cursor : option PublicResourceCursor) (before : bool) (rows : list PublicResourceRow) : list PublicResourceRow :=
  let beyond r := match cursor with
    | None => true
    | Some c => match compare_values (row_value r) (cursor_value c) with Lt => before | Gt => negb before | Eq => false end
    end in
  order_limit (fun a b => if before then values_leb (row_value b) (row_value a) else values_leb (row_value a) (row_value b)) (PUBLIC_RESOURCE_PAGE_SIZE + 1) (List.filter beyond rows).
Definition resource_page (requested : option string) (direction : option string) (rows : list PublicResourceRow) : list PublicResourceRow * option string * option string :=
  let cursor := parsePublicResourceCursor requested in
  let before := match cursor, direction with Some _, Some "before" => true | _, _ => false end in
  let results := resource_query cursor before rows in
  let hasMore := PUBLIC_RESOURCE_PAGE_SIZE <? Z.of_nat (length results) in
  let page := take (Z.to_nat PUBLIC_RESOURCE_PAGE_SIZE) results in
  let page := if before then rev page else page in
  let encoded r := encodePublicResourceCursor r in
  let previous :=
    if before then (if hasMore then encoded <$> head page else None)
    else match cursor with Some _ => (match head page with Some r => Some (encoded r) | None => requested end) | None => None end in
  let next :=
    if before then (match last page with Some r => Some (encoded r) | None => requested end)
    else if hasMore then encoded <$> last page else None in
  (page, previous, next).

Definition load_admin (workspaceSlug userId : string) : prog settings_db MonitoringAccess :=
  do access <- ask (fun d => loadMonitoringAccess (zd_authz d) workspaceSlug userId) in
  do _ <- plift (requireAdmin access) in
  pret access.
Definition default_dashboard (access : MonitoringAccess) (b : dashboard_full) : bool :=
  String.eqb (td_id (df_shown b)) (m_defaultDashboardId access) && String.eqb (df_workspace b) (m_workspaceId access).
Definition dashboard_visibility (access : MonitoringAccess) (d : settings_db) : option string :=
  (fun b => td_visibility (df_shown b)) <$> List.find (fun b => default_dashboard access b && alive (td_deleted (df_shown b))) (zd_dashboards d).
Definition retention_of (workspaceId : string) (d : settings_db) : option retention_row := List.find (fun r => String.eqb (rp_workspace r) workspaceId) (zd_retention d).
(** [SELECT COUNT( * ) FROM (SELECT 1 ... LIMIT 1001)] *)
Definition capped_count (n : Z) : Z := Z.min n (STORAGE_ESTIMATE_RESOURCE_LIMIT + 1).
(* @src apps/web/src/lib/server/workspace-settings.ts loadWorkspaceSettingsPanel *)
Definition loadWorkspaceSettingsPanel (workspaceSlug userId : string) (resourceCursor resourceDirection : option string) : prog settings_db WorkspaceSettingsPanel :=
  do access <- load_admin workspaceSlug userId in
  let workspaceId := m_workspaceId access in
  do dashboard <- ask (fun d => Ok (dashboard_visibility access d)) in
  do page <- ask (fun d => Ok (resource_page resourceCursor resourceDirection (resource_rows workspaceId d))) in
  do retention <- ask (fun d => Ok (retention_of workspaceId d)) in
  do counts <- ask (fun d => Ok (capped_count (Z.of_nat (length (live_resources wr_machine workspaceId d))),
                                 capped_count (count_if (fun c => String.eqb (tk_workspace c) workspaceId && (tk_enabled c =? 1)) (zd_checks d)))) in
  match dashboard, retention with
  | Some visibility, Some retention =>
      pret (SettingsPanel visibility (map setting_of page.1.1) page.1.2 page.2 retention
        (estimateTelemetryStorage (Z.min counts.1 STORAGE_ESTIMATE_RESOURCE_LIMIT) (Z.min counts.2 STORAGE_ESTIMATE_RESOURCE_LIMIT) retention)
        ((STORAGE_ESTIMATE_RESOURCE_LIMIT <? counts.1) || (STORAGE_ESTIMATE_RESOURCE_LIMIT <? counts.2)))
  | _, _ => plift (Err "500 Workspace settings are incomplete")
  end.

(** ** The actions *)

(** The time, and the id of the audit row. *)
Record settings_draw := SettingsDraw { zw_now : Z; zw_audit : string }.
Record policy_input := PolicyInput { pi_type : string; pi_resource : string; pi_effect : string; pi_profile : string }.
(** [Number.isInteger(value)] and the range. *)
Definition days_between (value : number) (minimum maximum : Z) (label : string) : res Z :=
  match num_int value with
  | Some n => throw_if (n <? minimum) || (maximum <? n) as "400 " ++ label ++ " must be between " ++ z_to_string minimum ++ " and " ++ z_to_string maximum ++ " days" in Ok n
  | None => Err ("400 " ++ label ++ " must be between " ++ z_to_string minimum ++ " and " ++ z_to_string maximum ++ " days")
  end.
(** The days as a row (of no workspace yet), when all are allowed. *)
(* @src apps/web/src/lib/server/workspace-settings.ts validateRetention *)
Definition validateRetention (input : RetentionSettings) : res retention_row :=
  let* raw := days_between (rawDays input) 1 90 "Raw retention" in
  let* five := days_between (rollup5mDays input) 7 365 "Five-minute retention" in
  let* hour := days_between (rollup1hDays input) 30 3650 "Hourly retention" in
  let* event := days_between (eventDays input) 30 3650 "Event retention" in
  let* audit := days_between (auditLogDays input) 30 3650 "Audit retention" in
  let* announcement := days_between (expiredAnnouncementGraceDays input) 1 90 "Announcement grace" in
  let* softDelete := days_between (softDeleteGraceDays input) 1 90 "Soft-delete grace" in
  Ok (RetentionRow "" raw five hour event audit announcement softDelete 0).
(** The [CHECK]s of the migrations. *)
Definition within (lo x hi : Z) : bool := (lo <=? x) && (x <=? hi).
Definition retention_columns_ok (r : retention_row) : bool :=
  within 1 (rp_raw r) 90 && within 7 (rp_5m r) 365 && within 30 (rp_1h r) 3650 && within 30 (rp_event r) 3650 && within 30 (rp_audit r) 3650 &&
  within 1 (rp_announcement r) 90 && within 1 (rp_softDelete r) 90.
Definition policy_insertable (p : public_policy) (d : settings_db) : bool :=
  has_key ws_id (pp_workspace p) (workspaces (zd_authz d)) && str_in (pp_effect p) ["allow"; "deny"] && str_in (pp_profile p) ["summary"; "detailed"].
Definition shown_insertable (r : dashboard_resource) (d : settings_db) : bool :=
  existsb (fun b => String.eqb (td_id (df_shown b)) (dr_dashboard r)) (zd_dashboards d) && str_in (dr_override r) ["inherit"; "allow"; "deny"] &&
  bool_decide (dr_type r ∈ [RMachine; RService]).
Definition days_out (names : list string) (r : retention_row) : jout :=
  OObj (zip names (map OInt [rp_raw r; rp_5m r; rp_1h r; rp_event r; rp_audit r; rp_announcement r; rp_softDelete r])).
Definition retention_columns : list string := ["raw_days"; "rollup_5m_days"; "rollup_1h_days"; "event_days"; "audit_log_days"; "expired_announcement_grace_days"; "soft_delete_grace_days"].
Definition retention_names : list string := ["rawDays"; "rollup5mDays"; "rollup1hDays"; "eventDays"; "auditLogDays"; "expiredAnnouncementGraceDays"; "softDeleteGraceDays"].

Section Actions.
Context `{WC : WebCrypto} `{LO : Locale} (dw : settings_draw).
Let now := zw_now dw.
Definition admin_in (workspaceId userId : string) (d : settings_db) : bool := finalAdminCondition userId workspaceId (zd_authz d).
Definition audit_of (workspaceId userId action type resource : string) (before after : option jout) : stmt :=
  audit_changed (prepareAuditStatement (zw_audit dw) (AuditInput workspaceId userId action type resource before after now)).

Definition with_visibility (visibility : string) (b : dashboard_full) : dashboard_full :=
  DashboardFull (StDashboard (td_id (df_shown b)) (td_name (df_shown b)) (td_appearance (df_shown b)) visibility (td_deleted (df_shown b))) (df_workspace b) now.
(* @src apps/web/src/lib/server/workspace-settings.ts updateDashboardVisibility *)
Definition updateDashboardVisibility (workspaceSlug actorUserId visibility : string) : prog settings_db unit :=
  refuse_if negb (str_in visibility ["private"; "authenticated"; "public"]) as "400 Dashboard visibility is invalid" in
  do access <- load_admin workspaceSlug actorUserId in
  do current <- ask (fun d => match dashboard_visibility access d with Some v => Ok v | None => Err "404 Dashboard not found" end) in
  decided
    [update_set zd_dashboards put_dashboards (fun _ => true) (fun b d => default_dashboard access b && admin_in (df_workspace b) actorUserId d) (with_visibility visibility);
     audit_of (m_workspaceId access) actorUserId "dashboard.visibility.update" "dashboard" (m_defaultDashboardId access)
       (Some (OObj [("visibility", OStr current)])) (Some (OObj [("visibility", OStr visibility)]))]
    0 "409 Dashboard access changed; reload and try again".

(** The two upserts and the audit row. *)
(* @src apps/web/src/lib/server/workspace-settings.ts 332-410 updateResourcePublicPolicy *)
Definition policy_statements (access : MonitoringAccess) (actorUserId : string) (t : WorkspaceResourceType) (resourceId effect profile : string) (audit : stmt) : list stmt :=
  let workspaceId := m_workspaceId access in
  let allowed d := admin_in workspaceId actorUserId d && resource_live t workspaceId resourceId d in
  (upsert_into zd_policies put_policies public_policy_key policy_insertable allowed (fun _ _ => true) (fun _ excluded => excluded)
     (PublicPolicy workspaceId (resource_type t) resourceId effect profile now) ::
   match t with
   | wr_container => []
   | wr_machine | wr_service =>
     [upsert_into zd_resources put_shown dashboard_resource_key shown_insertable allowed (fun _ _ => true)
        (fun old excluded => DashboardResource (dr_dashboard old) (dr_type old) (dr_resource old) (dr_order old) (dr_override excluded))
        (DashboardResource (m_defaultDashboardId access) (resource_type t) resourceId 0 (if String.eqb effect "allow" then "allow" else "deny"))]
   end ++
   [audit])%list.
Definition policy_out (p : public_policy) : jout := OObj [("effect", OStr (pp_effect p)); ("projection_profile", OStr (pp_profile p))].
(* @src apps/web/src/lib/server/workspace-settings.ts updateResourcePublicPolicy *)
Definition updateResourcePublicPolicy (workspaceSlug actorUserId : string) (input : policy_input) : prog settings_db unit :=
  do t <- plift (match obj_get (pi_type input) resource_types with Some t => Ok t | None => Err "400 Resource type is invalid" end) in
  refuse_if negb (str_in (pi_effect input) ["allow"; "deny"]) as "400 Public access setting is invalid" in
  refuse_if negb (str_in (pi_profile input) ["summary"; "detailed"]) as "400 Projection profile is invalid" in
  do access <- load_admin workspaceSlug actorUserId in
  let workspaceId := m_workspaceId access in
  do _ <- ask (fun d => throw_if negb (resource_live t workspaceId (pi_resource input) d) as "404 Resource not found" in Ok tt) in
  do current <- ask (fun d => Ok (find_key public_policy_key (policy_key workspaceId t (pi_resource input)) (zd_policies d))) in
  decided
    (policy_statements access actorUserId t (pi_resource input) (pi_effect input) (pi_profile input)
       (audit_of workspaceId actorUserId "resource_public_policy.update" (pi_type input) (pi_resource input) (policy_out <$> current)
          (Some (OObj [("effect", OStr (pi_effect input)); ("projectionProfile", OStr (pi_profile input))]))))
    0 "409 Public access policy changed; reload and try again".

(* @src apps/web/src/lib/server/workspace-settings.ts updateRetentionSettings *)
Definition updateRetentionSettings (workspaceSlug actorUserId : string) (retention : RetentionSettings) : prog settings_db unit :=
  do days <- plift (validateRetention retention) in
  do access <- load_admin workspaceSlug actorUserId in
  let workspaceId := m_workspaceId access in
  do current <- ask (fun d => match retention_of workspaceId d with Some r => Ok r | None => Err "404 Retention policy not found" end) in
  decided
    [update_set zd_retention put_retention retention_columns_ok (fun r d => String.eqb (rp_workspace r) workspaceId && admin_in (rp_workspace r) actorUserId d)
       (fun r => RetentionRow (rp_workspace r) (rp_raw days) (rp_5m days) (rp_1h days) (rp_event days) (rp_audit days) (rp_announcement days) (rp_softDelete days) now);
     audit_of workspaceId actorUserId "retention_policy.update" "workspace" workspaceId (Some (days_out retention_columns current)) (Some (days_out retention_names days))]
    0 "409 Retention policy changed; reload and try again".
End Actions.

(** ** What is decided is what the public sees *)

#[export] Instance workspace_resource_type_eq_dec : EqDecision WorkspaceResourceType. Proof. solve_decision. Defined.
(** The resources of a kind that the queries of the public status page select, with how much of each
    is shown: a container only when its machine is selected too. *)
Definition published (t : WorkspaceResourceType) (workspaceId dashboard : string) (c : control_side) : list (string * string) :=
  match t with
  | wr_machine => map (fun x => (mr_id x.2, mr_profile x.2)) (joined_machines workspaceId dashboard c)
  | wr_service => map (fun x => (sr_id x.2, sr_profile x.2)) (joined_services workspaceId dashboard c)
  | wr_container => map (fun x => (tc_id x.1, pp_profile x.2))
      (List.filter (fun x => bool_decide (tc_machine x.1 ∈ map (fun m => mr_id m.2) (joined_machines workspaceId dashboard c))) (allowed_containers workspaceId c))
  end.
(** Those that the page shows: the queries stop at 200 machines, 200 services and 500 containers. *)
Definition shown (t : WorkspaceResourceType) (workspaceId dashboard : string) (c : control_side) : list (string * string) :=
  match t with
  | wr_machine => map (fun m => (mr_id m, mr_profile m)) (public_machines workspaceId dashboard c)
  | wr_service => map (fun s => (sr_id s, sr_profile s)) (public_services workspaceId dashboard c)
  | wr_container => map (fun k => (cr_id k, cr_profile k)) (public_container_rows workspaceId (map mr_id (public_machines workspaceId dashboard c)) c)
  end.
(** There are no more than that. *)
Definition fits (t : WorkspaceResourceType) (workspaceId dashboard : string) (c : control_side) : Prop :=
  match t with
  | wr_machine => Z.of_nat (length (joined_machines workspaceId dashboard c)) <= 200
  | wr_service => Z.of_nat (length (joined_services workspaceId dashboard c)) <= 200
  | wr_container => Z.of_nat (length (joined_machines workspaceId dashboard c)) <= 200 /\
      Z.of_nat (length (queryInBatches (map mr_id (public_machines workspaceId dashboard c))
        (fun batch => where_in (fun kp => tc_machine kp.1) batch (allowed_containers workspaceId c)))) <= 500
  end.
(** A live container of the workspace, on the machine. *)
Definition container_on (workspaceId k machine : string) (d : settings_db) : Prop :=
  exists c, c ∈ zd_containers d /\ tc_id c = k /\ tc_machine c = machine /\ tc_workspace c = workspaceId /\ alive (tc_deleted c) = true.
(** The same of a machine or a service by keys: the resource lives, its policy allows it, its place
    on the dashboard does not deny it. *)
Definition permitted (workspaceId k profile : string) (t : WorkspaceResourceType) (d : settings_db) : Prop :=
  exists p, find_key public_policy_key (policy_key workspaceId t k) (zd_policies d) = Some p /\ pp_effect p = "allow" /\ pp_profile p = profile.
Definition placed_on (dashboard k : string) (t : WorkspaceResourceType) (d : settings_db) : Prop :=
  exists r, find_key dashboard_resource_key (dashboard, resource_type t, k) (zd_resources d) = Some r /\ dr_override r <> "deny".
Record settings_keys (d : settings_db) : Prop := SettingsKeys {
  sk_policies : keys_unique public_policy_key (zd_policies d);
  sk_resources : keys_unique dashboard_resource_key (zd_resources d);
}.
Lemma find_key_iff {R K} `{!EqDecision K} (key : R -> K) k l (P : R -> Prop) : keys_unique key l ->
  ((exists r, find_key key k l = Some r /\ P r) <-> exists r, r ∈ l /\ key r = k /\ P r).
Proof.
  intros Hu. split; intros (r & H).
  - destruct H as [H1 H2]. apply find_key_Some in H1 as [? ?]. by exists r.
  - destruct H as (H1 & H2 & H3). exists r. split; [|done]. by apply find_key_unique.
Qed.
Lemma allows_key t w k p : allows t w k p = true <-> public_policy_key p = (w, t, k) /\ pp_effect p = "allow".
Proof.
  unfold allows, public_policy_key. rewrite !andb_true_iff, !String.eqb_eq, bool_decide_eq_true. split; [by intros [[[-> ->] ->] ->] | intros [[= -> -> ->] ->]; done].
Qed.
Lemma placed_key t dash k r : placed t dash r = true /\ k = dr_resource r <-> dashboard_resource_key r = (dash, t, k) /\ dr_override r <> "deny".
Proof.
  unfold placed, dashboard_resource_key. rewrite !andb_true_iff, negb_true_iff, !String.eqb_eq, String.eqb_neq, bool_decide_eq_true.
  split; [by intros [[[-> ->] ?] ->] | intros [[= -> -> ->] ?]; done].
Qed.
Lemma elem_of_if {A} (b : bool) (x y : A) : x ∈ (if b then [y] else []) <-> b = true /\ x = y.
Proof. destruct b; [rewrite list_elem_of_singleton; tauto|]. split; [intros H; by apply elem_of_nil in H | by intros [? _]]. Qed.
Lemma live_elem t w k d : resource_live t w k d = true <->
  match t with
  | wr_machine => exists m, m ∈ zd_machines d /\ tm_id m = k /\ tm_workspace m = w /\ alive (tm_deleted m) = true
  | wr_service => exists m, m ∈ zd_services d /\ ts_id m = k /\ ts_workspace m = w /\ alive (ts_deleted m) = true
  | wr_container => exists m, m ∈ zd_containers d /\ tc_id m = k /\ tc_workspace m = w /\ alive (tc_deleted m) = true
  end.
Proof.
  unfold resource_live. rewrite existsb_exists_elem. destruct t; cbn [live_resources]; (split;
    [intros (x & Hx & E%String.eqb_eq); apply list_elem_of_fmap in Hx as (m & -> & Hm); apply filter_In_elem in Hm as [Hm Hw]; apply andb_true_iff in Hw as [Ew%String.eqb_eq Hw]; by exists m
    |intros (m & Hm & <- & <- & Hw); eexists; split; [apply list_elem_of_fmap_2, filter_In_elem; split; [exact Hm|]; by rewrite String.eqb_refl, Hw | apply String.eqb_refl]]).
Qed.
Lemma published_iff rest t w dash k profile d : t <> wr_container -> settings_keys d ->
  (k, profile) ∈ published t w dash (status_side rest d) <-> resource_live t w k d = true /\ permitted w k profile t d /\ placed_on dash k t d.
Proof.
  intros Ht [Hp Hr]. unfold permitted, placed_on. rewrite (find_key_iff public_policy_key _ _ (fun p => pp_effect p = "allow" /\ pp_profile p = profile)) by done.
  rewrite (find_key_iff dashboard_resource_key _ _ (fun r => dr_override r <> "deny")) by done. rewrite live_elem. unfold policy_key.
  destruct t; cbn [published resource_type]; rewrite list_elem_of_fmap.
  - unfold joined_machines. split.
    + intros ([o row] & Hkp & Hx). apply list_elem_of_bind in Hx as (dr & Hx & Hdr). apply list_elem_of_bind in Hx as (m & Hx & Hm). apply list_elem_of_bind in Hx as (p & Hx & Hpp).
      apply elem_of_if in Hx as [Hb Hx]. injection Hx as -> ->. injection Hkp as -> ->. rewrite !andb_true_iff in Hb. destruct Hb as ((((H1 & H2%String.eqb_eq) & H3%String.eqb_eq) & H4) & H5).
      apply allows_key in H5 as [H5 H6]. destruct (proj1 (placed_key RMachine dash (tm_id m) dr) (conj H1 H2)) as [H7 H8]. rewrite H3 in H5.
      split; [by exists m|]. split; [by exists p | by exists dr].
    + intros ((m & Hm & <- & Hw & Ha) & (p & Hpp & Hk & He & <-) & (dr & Hdr & Hdk & Ho)). destruct (proj2 (placed_key RMachine dash (tm_id m) dr) (conj Hdk Ho)) as [H1 H2].
      exists (dr_order dr, MachineRow_ (tm_id m) (tm_slug m) (tm_pk m) (tm_name m) (tm_description m) (tm_offline m) (pp_profile p)). split; [done|].
      apply list_elem_of_bind. exists dr. split; [|done]. apply list_elem_of_bind. exists m. split; [|done]. apply list_elem_of_bind. exists p. split; [|done]. apply elem_of_if. split; [|done].
      rewrite !andb_true_iff, !String.eqb_eq. rewrite <- Hw in Hk. split_and!; try done. by apply allows_key.
  - unfold joined_services. split.
    + intros ([o row] & Hkp & Hx). apply list_elem_of_bind in Hx as (dr & Hx & Hdr). apply list_elem_of_bind in Hx as (m & Hx & Hm). apply list_elem_of_bind in Hx as (p & Hx & Hpp).
      apply elem_of_if in Hx as [Hb Hx]. injection Hx as -> ->. injection Hkp as -> ->. rewrite !andb_true_iff in Hb. destruct Hb as ((((H1 & H2%String.eqb_eq) & H3%String.eqb_eq) & H4) & H5).
      apply allows_key in H5 as [H5 H6]. destruct (proj1 (placed_key RService dash (ts_id m) dr) (conj H1 H2)) as [H7 H8]. rewrite H3 in H5.
      split; [by exists m|]. split; [by exists p | by exists dr].
    + intros ((m & Hm & <- & Hw & Ha) & (p & Hpp & Hk & He & <-) & (dr & Hdr & Hdk & Ho)). destruct (proj2 (placed_key RService dash (ts_id m) dr) (conj Hdk Ho)) as [H1 H2].
      exists (dr_order dr, ServiceRow_ (ts_id m) (ts_pk m) (ts_name m) (ts_slug m) (ts_description m) (pp_profile p)). split; [done|].
      apply list_elem_of_bind. exists dr. split; [|done]. apply list_elem_of_bind. exists m. split; [|done]. apply list_elem_of_bind. exists p. split; [|done]. apply elem_of_if. split; [|done].
      rewrite !andb_true_iff, !String.eqb_eq. rewrite <- Hw in Hk. split_and!; try done. by apply allows_key.
  - done.
Qed.
Lemma published_container rest w dash k profile d : settings_keys d ->
  (k, profile) ∈ published wr_container w dash (status_side rest d) <->
  exists m, container_on w k m d /\ permitted w k profile wr_container d /\ exists q, (m, q) ∈ published wr_machine w dash (status_side rest d).
Proof.
  intros [Hp _]. unfold permitted. setoid_rewrite (find_key_iff public_policy_key _ _ (fun p => pp_effect p = "allow" /\ pp_profile p = profile)); [|done].
  unfold policy_key. cbn [published resource_type]. rewrite list_elem_of_fmap. split.
  - intros ([c p] & E & Hx). injection E as -> ->. apply filter_In_elem in Hx as [Hx Hm%bool_decide_eq_true]. unfold allowed_containers in Hx.
    apply list_elem_of_bind in Hx as (c' & Hx & Hc). apply list_elem_of_bind in Hx as (p' & Hx & Hpp).
    apply elem_of_if in Hx as [Hb Hx]. injection Hx as -> ->. rewrite !andb_true_iff in Hb. destruct Hb as ((H3%String.eqb_eq & H4) & H5).
    apply allows_key in H5 as [H5 H6]. rewrite H3 in H5. exists (tc_machine c'). split; [by exists c'|]. split; [by exists p'|].
    cbn in Hm. apply list_elem_of_fmap in Hm as (m & E & Hm). exists (mr_profile m.2). apply list_elem_of_fmap. exists m. by rewrite E.
  - intros (m & (c & Hc & <- & <- & Hw & Ha) & (p & Hpp & Hk & He & <-) & (q & Hq)). exists (c, p). split; [done|]. apply filter_In_elem. split.
    + apply list_elem_of_bind. exists c. split; [|done]. apply list_elem_of_bind. exists p. split; [|done].
      apply elem_of_if. split; [|done]. rewrite !andb_true_iff, !String.eqb_eq. rewrite <- Hw in Hk. split_and!; try done. by apply allows_key.
    + apply bool_decide_eq_true. apply list_elem_of_fmap in Hq as (x & E & Hx). injection E as E _. cbn. rewrite E. by apply (list_elem_of_fmap_2 (fun m => mr_id m.2)).
Qed.

(** ** What the page shows of it *)

Lemma listed_shown {A} (name : A -> string) rows a : a ∈ listed name rows -> a ∈ map snd rows.
Proof. unfold listed. intros H. apply list_elem_of_fmap in H as (r & -> & H). apply elem_of_order_limit in H. by apply (list_elem_of_fmap_2 snd). Qed.
Lemma listed_complete {A} (name : A -> string) (rows : list (Z * A)) a : Z.of_nat (length rows) <= 200 -> a ∈ map snd rows -> a ∈ listed name rows.
Proof. intros Hl H. apply list_elem_of_fmap in H as (r & -> & H). apply (list_elem_of_fmap_2 snd). by apply order_limit_all. Qed.
Lemma flat_map_length {A B C} (f : A -> list B) (g : A -> list C) l : (forall x, (length (f x) <= length (g x))%nat) ->
  (length (flat_map f l) <= length (flat_map g l))%nat.
Proof. intros H. induction l as [|x l IH]; [done|]. cbn. rewrite !length_app. pose proof (H x). lia. Qed.
Lemma flat_map_part {A B} (f : A -> list B) l x : x ∈ l -> (length (f x) <= length (flat_map f l))%nat.
Proof. induction l as [|y l IH]; [by intros ?%elem_of_nil|]. cbn. rewrite length_app. intros [->|H]%elem_of_cons; [lia|]. specialize (IH H). lia. Qed.
Lemma container_shown workspaceId ids c r : r ∈ public_container_rows workspaceId ids c ->
  exists kp, kp ∈ allowed_containers workspaceId c /\ tc_machine kp.1 ∈ ids /\ r = container_row kp.
Proof.
  unfold public_container_rows. intros H. apply list_elem_of_fmap in H as (q & -> & H). apply elem_of_order_limit in H.
  apply list_elem_of_In, in_flat_map in H as (b & Hb & H). apply list_elem_of_In, list_elem_of_fmap in H as (kp & -> & H). apply elem_of_order_limit in H.
  exists kp. unfold where_in in H. apply filter_In_elem in H as [Hk Hm%bool_decide_eq_true]. split_and!; try done.
  rewrite <- (chunks_concat D1_IN_BATCH_SIZE ids) by (unfold D1_IN_BATCH_SIZE; lia). apply list_elem_of_In, in_concat. exists b. split; [done | by apply list_elem_of_In].
Qed.
Lemma container_complete workspaceId ids c kp :
  Z.of_nat (length (queryInBatches ids (fun batch => where_in (fun kp => tc_machine kp.1) batch (allowed_containers workspaceId c)))) <= 500 ->
  kp ∈ allowed_containers workspaceId c -> tc_machine kp.1 ∈ ids -> container_row kp ∈ public_container_rows workspaceId ids c.
Proof.
  intros Hl Hk Hm. unfold public_container_rows, queryInBatches in *. set (select := fun batch => where_in (fun kp => tc_machine kp.1) batch (allowed_containers workspaceId c)) in *.
  change (container_row kp) with (cq_row (container_query_row kp)). apply (list_elem_of_fmap_2 cq_row). apply order_limit_all.
  - etrans; [|exact Hl]. apply Nat2Z.inj_le. apply flat_map_length. intros b. rewrite length_map. unfold order_limit. rewrite length_take, (order_by_perm container_leb). unfold select. cbv beta. lia.
  - rewrite <- (chunks_concat D1_IN_BATCH_SIZE ids) in Hm by (unfold D1_IN_BATCH_SIZE; lia). apply list_elem_of_In, in_concat in Hm as (b & Hb & Hm).
    apply list_elem_of_In, in_flat_map. exists b. split; [done|]. apply list_elem_of_In, (list_elem_of_fmap_2 container_query_row). apply order_limit_all.
    + etrans; [|exact Hl]. apply Nat2Z.inj_le. apply (flat_map_part select). by apply list_elem_of_In.
    + unfold where_in. apply filter_In_elem. split; [done|]. by apply bool_decide_eq_true, list_elem_of_In.
Qed.
(** The page shows nothing that is not selected, and all of it as long as it fits. *)
Lemma shown_published t w dash c : (forall x, x ∈ shown t w dash c -> x ∈ published t w dash c) /\
  (fits t w dash c -> forall x, x ∈ published t w dash c -> x ∈ shown t w dash c).
Proof.
  destruct t; cbn [shown published fits].
  - split; [intros x Hx | intros Hl x Hx]; apply list_elem_of_fmap in Hx as (m & -> & Hm).
    + apply listed_shown, list_elem_of_fmap in Hm as (r & -> & Hr). by apply (list_elem_of_fmap_2 (fun x => (mr_id x.2, mr_profile x.2))).
    + apply (list_elem_of_fmap_2 (fun m => (mr_id m, mr_profile m))), listed_complete; [done|]. by apply (list_elem_of_fmap_2 snd).
  - split; [intros x Hx | intros Hl x Hx]; apply list_elem_of_fmap in Hx as (m & -> & Hm).
    + apply listed_shown, list_elem_of_fmap in Hm as (r & -> & Hr). by apply (list_elem_of_fmap_2 (fun x => (sr_id x.2, sr_profile x.2))).
    + apply (list_elem_of_fmap_2 (fun m => (sr_id m, sr_profile m))), listed_complete; [done|]. by apply (list_elem_of_fmap_2 snd).
  - split; [intros x Hx | intros [Hl Hn] x Hx]; apply list_elem_of_fmap in Hx as (r & -> & Hr).
    + apply container_shown in Hr as (kp & Hk & Hm & ->). apply (list_elem_of_fmap_2 (fun x => (tc_id x.1, pp_profile x.2))), filter_In_elem. split; [done|].
      apply bool_decide_eq_true. apply list_elem_of_fmap in Hm as (m & -> & Hm). apply listed_shown, list_elem_of_fmap in Hm as (y & -> & Hy).
      by apply (list_elem_of_fmap_2 (fun m => mr_id m.2)).
    + apply filter_In_elem in Hr as [Hr Hm%bool_decide_eq_true].
      change (tc_id r.1, pp_profile r.2) with (cr_id (container_row r), cr_profile (container_row r)).
      apply (list_elem_of_fmap_2 (fun k => (cr_id k, cr_profile k))), container_complete; [done | done|].
      apply list_elem_of_fmap in Hm as (m & -> & Hm). apply (list_elem_of_fmap_2 mr_id), listed_complete; [done|]. by apply (list_elem_of_fmap_2 snd).
Qed.

Section Decision.
Context `{WC : WebCrypto} `{LO : Locale} (dw : settings_draw).
Let now := zw_now dw.
(** What a decision about a resource of a workspace changes on its dashboard; [before] is the
    database that the batch found, [after] the one it left, [rest] the tables the decision does not
    concern. *)
Record takes_effect (workspaceId dashboard : string) (t : WorkspaceResourceType) (resourceId effect profile : string) (before after : settings_db) : Prop := {
  (** Machines and services: the resource itself is selected exactly when allowed, with the chosen
      detail, every other one as before. *)
  te_resources : forall rest t' k p, t' <> wr_container -> (k, p) ∈ published t' workspaceId dashboard (status_side rest after) <->
    if bool_decide (t' = t /\ k = resourceId) then effect = "allow" /\ p = profile else (k, p) ∈ published t' workspaceId dashboard (status_side rest before);
  (** Containers: by their own policies, which change for the resource itself only, and with their
      machine, which appears or disappears when the decision is about it. *)
  te_containers : forall rest k p, (k, p) ∈ published wr_container workspaceId dashboard (status_side rest after) <->
    exists m, container_on workspaceId k m before /\
      (if bool_decide (wr_container = t /\ k = resourceId) then effect = "allow" /\ p = profile else permitted workspaceId k p wr_container before) /\
      (if bool_decide (wr_machine = t /\ m = resourceId) then effect = "allow" else exists q, (m, q) ∈ published wr_machine workspaceId dashboard (status_side rest before));
  (** Other workspaces. *)
  te_elsewhere : forall rest t' w' dash' k p, w' <> workspaceId -> dash' <> dashboard ->
    (k, p) ∈ published t' w' dash' (status_side rest after) <-> (k, p) ∈ published t' w' dash' (status_side rest before);
  (** Which workspaces have a public page at all. *)
  te_pages : forall rest slug, loadPublicWorkspace (status_side rest after) slug = loadPublicWorkspace (status_side rest before) slug;
  (** The page shows nothing but what is selected, and all of it unless there is more than fits. *)
  te_shown : forall rest t', let c := status_side rest after in
    (forall x, x ∈ shown t' workspaceId dashboard c -> x ∈ published t' workspaceId dashboard c) /\
    (fits t' workspaceId dashboard c -> forall x, x ∈ published t' workspaceId dashboard c -> x ∈ shown t' workspaceId dashboard c);
}.

Definition new_policy (workspaceId : string) (t : WorkspaceResourceType) (resourceId effect profile : string) : public_policy := PublicPolicy workspaceId (resource_type t) resourceId effect profile now.
Definition put_policy (row : public_policy) (d : settings_db) : settings_db :=
  put_policies (upsert public_policy_key (fun _ _ => true) (fun _ excluded => excluded) row (zd_policies d)).1 d.
Definition overridden (old excluded : dashboard_resource) : dashboard_resource := DashboardResource (dr_dashboard old) (dr_type old) (dr_resource old) (dr_order old) (dr_override excluded).
Definition put_place (row : dashboard_resource) (d : settings_db) : settings_db := put_shown (upsert dashboard_resource_key (fun _ _ => true) overridden row (zd_resources d)).1 d.
(** What the batch leaves: the policy, the place of a machine or service, an audit row. *)
Definition decided_on (access : MonitoringAccess) (t : WorkspaceResourceType) (resourceId effect profile : string) (row : audit_row) (d : settings_db) : settings_db :=
  let d1 := put_policy (new_policy (m_workspaceId access) t resourceId effect profile) d in
  let d2 := match t with
    | wr_container => d1
    | _ => put_place (DashboardResource (m_defaultDashboardId access) (resource_type t) resourceId 0 (if String.eqb effect "allow" then "allow" else "deny")) d1
    end in
  put_audits (zd_audits d2 ++ [row])%list d2.
Lemma upsert_one {R K} `{!EqDecision K} (key : R -> K) (upd : R -> R -> R) (r : R) (t : list R) : keys_unique key t -> (upsert key (fun _ _ => true) upd r t).2 = 1.
Proof. intros H. rewrite upsert_count by done. by destruct (find_key key (key r) t). Qed.
Lemma policy_batch access userId t resourceId effect profile row d d' rs : settings_keys d ->
  transaction (policy_statements dw access userId t resourceId effect profile (audit_changed row)) d = Ok (d', rs) ->
  if bool_decide (rs !! 0%nat = Some 1)
  then admin_in (m_workspaceId access) userId d = true /\ resource_live t (m_workspaceId access) resourceId d = true /\ d' = decided_on access t resourceId effect profile row d
  else d' = d.
Proof.
  intros [Hp Hr] H. unfold policy_statements in H. cbv zeta in H. cbn [app] in H. apply transaction_cons in H as (d1 & n1 & r1 & H1 & H & ->). cbn [lookup list_lookup].
  apply upsert_into_effect in H1 as [(Hg & -> & ->)|(Hg & _ & -> & ->)].
  - rewrite bool_decide_eq_false_2 by done.
    destruct t; cbn [app] in H; [| | apply transaction_cons in H as (d3 & n3 & r3 & H3 & H & _); cbn in H; injection H as <- _; unfold audit_changed, insert_if_changed in H3; cbn in H3; by injection H3 as <- _];
      (apply transaction_cons in H as (d2 & n2 & r2 & H2 & H & _); apply upsert_into_effect in H2 as [(_ & -> & ->)|(Hg2 & _)]; [|congruence];
       apply transaction_cons in H as (d3 & n3 & r3 & H3 & H & _); cbn in H; injection H as <- _; unfold audit_changed, insert_if_changed in H3; cbn in H3; by injection H3 as <- _).
  - rewrite upsert_one by done. rewrite upsert_one in H by done. rewrite bool_decide_eq_true_2 by done. apply andb_true_iff in Hg as [Hg1 Hg2]. split; [done|]. split; [done|].
    destruct t; cbn [app] in H; [| | apply transaction_cons in H as (d3 & n3 & r3 & H3 & H & _); cbn in H; injection H as <- _; unfold audit_changed, insert_if_changed in H3; cbn in H3; by injection H3 as <- _];
      (apply transaction_cons in H as (d2 & n2 & r2 & H2 & H & _); apply upsert_into_effect in H2 as [(Hg3 & _)|(_ & _ & -> & ->)];
       [exfalso; apply andb_false_iff in Hg3 as [Hg3|Hg3]; [change (admin_in (m_workspaceId access) userId d = false) in Hg3; congruence | change (resource_live wr_machine (m_workspaceId access) resourceId d = false) in Hg3 || change (resource_live wr_service (m_workspaceId access) resourceId d = false) in Hg3; congruence]|];
       rewrite upsert_one in H by done; apply transaction_cons in H as (d3 & n3 & r3 & H3 & H & _); cbn in H; injection H as <- _; unfold audit_changed, insert_if_changed in H3; cbn in H3; by injection H3 as <- _).
Qed.
Lemma policy_after w t id effect profile k d : find_key public_policy_key k (zd_policies (put_policy (new_policy w t id effect profile) d)) =
  if bool_decide (k = policy_key w t id) then Some (new_policy w t id effect profile) else find_key public_policy_key k (zd_policies d).
Proof.
  unfold put_policy. cbn [zd_policies put_policies]. rewrite find_key_upsert by done. change (public_policy_key (new_policy w t id effect profile)) with (policy_key w t id).
  destruct (bool_decide _) eqn:E; [|done]. by destruct (find_key _ _ _).
Qed.
Lemma place_after row k d : exists o, find_key dashboard_resource_key k (zd_resources (put_place row d)) =
  if bool_decide (k = dashboard_resource_key row) then Some (DashboardResource (dr_dashboard row) (dr_type row) (dr_resource row) o (dr_override row)) else find_key dashboard_resource_key k (zd_resources d).
Proof.
  unfold put_place. cbn [zd_resources put_shown]. rewrite find_key_upsert by done. destruct (bool_decide _) eqn:E; [|by exists 0]. apply bool_decide_eq_true in E as ->.
  destruct (find_key _ _ _) as [old|] eqn:Ef; [|by exists (dr_order row); destruct row]. apply find_key_Some in Ef as [_ Ek]. injection Ek as E1 E2 E3. exists (dr_order old). unfold overridden. by rewrite E1, E2, E3.
Qed.
Lemma settings_keys_after access t id effect profile row d : settings_keys d -> settings_keys (decided_on access t id effect profile row d).
Proof. intros [H1 H2]. destruct t; split; cbn; try done; try (by apply upsert_unique). Qed.
Lemma live_after access t id effect profile row d t' w k : resource_live t' w k (decided_on access t id effect profile row d) = resource_live t' w k d.
Proof. by destruct t, t'. Qed.
Lemma permitted_after access t id effect profile row d t' w k p :
  permitted w k p t' (decided_on access t id effect profile row d) <->
  if bool_decide (w = m_workspaceId access /\ t' = t /\ k = id) then effect = "allow" /\ p = profile else permitted w k p t' d.
Proof.
  unfold permitted. assert (find_key public_policy_key (policy_key w t' k) (zd_policies (decided_on access t id effect profile row d)) =
    find_key public_policy_key (policy_key w t' k) (zd_policies (put_policy (new_policy (m_workspaceId access) t id effect profile) d))) as -> by (by destruct t).
  rewrite policy_after. assert (bool_decide (policy_key w t' k = policy_key (m_workspaceId access) t id) = bool_decide (w = m_workspaceId access /\ t' = t /\ k = id)) as ->.
  { apply bool_decide_ext. unfold policy_key. split; [intros [= -> E ->]; by destruct t, t' | by intros (-> & -> & ->)]. }
  destruct (bool_decide _); [|done]. split; [intros (x & [= <-] & H1 & H2); done | intros [-> ->]; by eexists].
Qed.
Lemma placed_after access t id effect profile row d t' dash k : t' <> wr_container ->
  placed_on dash k t' (decided_on access t id effect profile row d) <->
  if bool_decide (dash = m_defaultDashboardId access /\ t' = t /\ k = id) then effect = "allow" else placed_on dash k t' d.
Proof.
  intros Ht'. unfold placed_on. destruct (decide (t = wr_container)) as [->|Ht].
  { rewrite bool_decide_eq_false_2 by (intros (_ & ? & _); done). done. }
  assert (E : zd_resources (decided_on access t id effect profile row d) =
    zd_resources (put_place (DashboardResource (m_defaultDashboardId access) (resource_type t) id 0 (if String.eqb effect "allow" then "allow" else "deny")) d)) by (by destruct t).
  rewrite E. destruct (place_after (DashboardResource (m_defaultDashboardId access) (resource_type t) id 0 (if String.eqb effect "allow" then "allow" else "deny")) (dash, resource_type t', k) d) as [o ->].
  erewrite (bool_decide_ext (_ = dashboard_resource_key _) (dash = m_defaultDashboardId access /\ t' = t /\ k = id)).
  2:{ split; [intros [= -> Et ->]; by destruct t, t' | by intros (-> & -> & ->)]. }
  destruct (bool_decide _); [|done]. split.
  - intros (r & Hr & Hne). injection Hr as <-. cbn in Hne. destruct (String.eqb_spec effect "allow"); done.
  - intros ->. eexists. split; [done|]. done.
Qed.
Lemma container_on_after access t id effect profile row d w k m :
  container_on w k m (decided_on access t id effect profile row d) <-> container_on w k m d.
Proof. unfold container_on. by destruct t. Qed.
Lemma dashboards_after access t id effect profile row d : zd_dashboards (decided_on access t id effect profile row d) = zd_dashboards d.
Proof. by destruct t. Qed.
(** Machines and services after a decision. *)
Lemma resources_after rest access t id effect profile row d t' k p : settings_keys d -> resource_live t (m_workspaceId access) id d = true -> t' <> wr_container ->
  (k, p) ∈ published t' (m_workspaceId access) (m_defaultDashboardId access) (status_side rest (decided_on access t id effect profile row d)) <->
  if bool_decide (t' = t /\ k = id) then effect = "allow" /\ p = profile
  else (k, p) ∈ published t' (m_workspaceId access) (m_defaultDashboardId access) (status_side rest d).
Proof.
  intros Hk Hl Ht. rewrite (published_iff rest t') by (done || by apply settings_keys_after). rewrite live_after, permitted_after, placed_after by done.
  destruct (decide (t' = t /\ k = id)) as [[-> ->]|Hne].
  - rewrite !bool_decide_eq_true_2 by done. split; [tauto|]. by intros [-> ->].
  - rewrite !bool_decide_eq_false_2 by tauto. by rewrite published_iff.
Qed.
Lemma decision_takes_effect access t id effect profile row d : settings_keys d -> resource_live t (m_workspaceId access) id d = true ->
  takes_effect (m_workspaceId access) (m_defaultDashboardId access) t id effect profile d (decided_on access t id effect profile row d).
Proof.
  intros Hk Hl. pose proof (settings_keys_after access t id effect profile row d Hk) as Hk'. split.
  - intros rest t' k p Ht. by apply resources_after.
  - intros rest k p. rewrite published_container by done. f_equiv. intros m. rewrite container_on_after, permitted_after. f_equiv. f_equiv.
    + rewrite (bool_decide_ext (_ /\ wr_container = t /\ k = id) (wr_container = t /\ k = id)) by tauto. done.
    + destruct (decide (wr_machine = t /\ m = id)) as [E|E].
      * rewrite bool_decide_eq_true_2 by done. setoid_rewrite resources_after; [|done|done|done]. rewrite bool_decide_eq_true_2 by done. split; [by intros (q & ? & _) | intros H; by exists profile].
      * rewrite bool_decide_eq_false_2 by done. setoid_rewrite resources_after; [|done|done|done]. by rewrite bool_decide_eq_false_2.
  - intros rest t' w' dash' k p Hw Hd.
    assert (Hsame : forall t' k p, t' <> wr_container -> (k, p) ∈ published t' w' dash' (status_side rest (decided_on access t id effect profile row d)) <->
      (k, p) ∈ published t' w' dash' (status_side rest d)).
    { intros t0 k0 p0 Ht. rewrite !published_iff by done. rewrite live_after, permitted_after, placed_after by done. rewrite !bool_decide_eq_false_2 by tauto. done. }
    destruct (decide (t' = wr_container)) as [->|Ht]; [|by apply Hsame]. rewrite !published_container by done. f_equiv. intros m.
    rewrite container_on_after, permitted_after, bool_decide_eq_false_2 by tauto. f_equiv. f_equiv. f_equiv. intros q. by apply Hsame.
  - intros rest slug. unfold status_side, loadPublicWorkspace. cbn [cs_workspaces cs_dashboards]. by rewrite dashboards_after.
  - intros rest t' c. apply shown_published.
Qed.

Lemma run_admin {B} slug userId (k : MonitoringAccess -> prog settings_db B) moves s : run moves (pbind (load_admin slug userId) k) s =
  (let '(rest, s1) := moved moves s in
   match loadMonitoringAccess (zd_authz s1) slug userId with
   | Ok access => match requireAdmin access with Ok _ => run rest (k access) s1 | Err e => (Err e, s1) end
   | Err e => (Err e, s1)
   end).
Proof. unfold load_admin. cbn. destruct moves as [|g moves]; cbn; destruct (loadMonitoringAccess _ _ _) as [access|e]; cbn; try done; by destruct (requireAdmin access). Qed.

End Decision.

(** What the form accepts the table accepts. *)
Lemma retention_accepted input r : validateRetention input = Ok r -> retention_columns_ok r = true.
Proof.
  assert (Hd : forall v lo hi label n, days_between v lo hi label = Ok n -> within lo n hi = true).
  { intros v lo hi label n. unfold days_between, within. destruct (num_int v) as [z|]; [|done]. destruct (_ || _) eqn:E; [done|]. intros [= <-]. bool_hyps. apply andb_true_iff. rewrite !Z.leb_le. lia. }
  unfold validateRetention. intros H. repeat (apply rbind_ok in H as (? & ?%Hd & H)). injection H as <-. unfold retention_columns_ok. cbn. by rewrite !andb_true_iff.
Qed.
(** A cursor that fits reads back. *)
Lemma resource_cursor_roundtrip r : slen (encodePublicResourceCursor r) <= 1024 -> slen (pr_name r) <= 512 -> 0 < slen (pr_id r) <= 512 ->
  parsePublicResourceCursor (Some (encodePublicResourceCursor r)) = Some (ResourceCursor (pr_type r) (pr_name r) (pr_id r)).
Proof.
  intros H1 H2 H3. unfold parsePublicResourceCursor. rewrite (proj2 (Z.ltb_ge 1024 _) H1). assert (String.eqb (encodePublicResourceCursor r) "" = false) as -> by done. cbn [orb].
  unfold encodePublicResourceCursor. rewrite json_parse_stringify by done. cbn [json_of map]. assert (obj_get (type_text (pr_type r)) resource_types = Some (pr_type r)) as -> by (by destruct (pr_type r)).
  rewrite (proj2 (Z.ltb_ge 512 (slen (pr_name r))) H2), (proj2 (Z.eqb_neq (slen (pr_id r)) 0)), (proj2 (Z.ltb_ge 512 (slen (pr_id r)))) by lia. done.
Qed.

(** ** A recorded decision *)

#[local] Instance ws_locale : Locale := String.leb.
Definition ws_draw : settings_draw := SettingsDraw 50 "audit-1".
Definition ws_rest : control_side := ControlSide [] [] [] [] [] [] [] [] [] [] [] [].
Definition ws_start : settings_db :=
  SettingsDb (ControlDb [Membership "w" "ada" admin active] [] [] [] [WorkspaceRow "w" "team" 7 "board" 10 None])
    [StMachine "m" "w" "m-1" 21 "db" "" 180 None; StMachine "n" "w" "n-1" 22 "web" "" 180 None] [StService "api" "w" 31 "API" (Some "api") "" None] [] []
    [DashboardFull (StDashboard "board" "Overview" "{}" "public" None) "w" 1]
    [DashboardResource "board" RMachine "m" 3 "deny"; DashboardResource "board" RMachine "n" 0 "inherit"]
    [PublicPolicy "w" RMachine "m" "deny" "summary" 1; PublicPolicy "w" RMachine "n" "allow" "summary" 1]
    [RetentionRow "w" 7 30 365 365 365 7 7 1] [].
Definition ws_input : policy_input := PolicyInput "machine" "m" "allow" "detailed".
Lemma ws_keys : settings_keys ws_start.
Proof. split; apply (bool_decide_unpack _); vm_compute; exact Logic.I. Qed.
Definition ws_same : settings_db -> settings_db := fun s => s.
(** The panel of this workspace. *)
Example settings_panel :
  match (alone (loadWorkspaceSettingsPanel "team" "ada" None None) ws_start).1 with
  | Ok p => sp_visibility p = "public" /\ map (fun r => (ps_id r, ps_effect r, ps_profile r)) (sp_resources p) = [("m", "deny", "summary"); ("n", "allow", "summary"); ("api", "deny", "summary")] /\
      sp_previous p = None /\ sp_next p = None /\ sp_capped p = false
  | Err _ => False
  end.
Proof. vm_compute. done. Qed.
