(* ===== verification/Setup.v ===== *)
(** * Setup: the first administrator, and new workspaces

    [apps/web/src/lib/server/setup.ts] sets an installation up: with the setup token anybody may
    create the first account and workspace, once.  [createWorkspace] and the lists of a user's
    workspaces are in [apps/web/src/lib/server/workspace-lifecycle.ts] ([ResourceLifecycle] has
    deletion and recovery). *)

From Stdlib Require Import ZArith Lia Bool String Ascii List.
From stdpp Require Import base tactics list strings.
From S2P Require Import Prelude.
From S2P Require Import Js.
From S2P Require Import Sql.
From S2P Require Import Crypto.
From S2P Require Import Authz.
From S2P Require Import ControlPlane.
From S2P Require Import AuditLog.
From S2P Require Import Invitations.
From S2P Require Import Interleave.
From S2P Require Import PublicStatus.
From S2P Require Import MemberData.
From S2P Require Import Transaction.
From S2P Require Import NotificationActions.
From S2P Require Import WorkspaceSettings.
Open Scope string_scope.
Open Scope Z_scope.

(** ** Tables *)

(** A row of [installations]. *)
Record installation_row := InstallationRow { nl_id : string; nl_state : string; nl_created : Z; nl_completed : option Z }.
(** The tables; [ud_sequence] is the row ['workspace'] of [telemetry_resource_sequences]. *)
Record setup_db := SetupDb {
  ud_workspaces : list workspace_cols;
  ud_memberships : list membership;
  ud_dashboards : list dashboard_full;
  ud_retention : list retention_row;
  ud_users : list user_row;
  ud_accounts : list account_row;
  ud_sequence : option Z;
  ud_installations : list installation_row;
  ud_audits : list audit_row;
}.
Definition put_workspaces v d := SetupDb v (ud_memberships d) (ud_dashboards d) (ud_retention d) (ud_users d) (ud_accounts d) (ud_sequence d) (ud_installations d) (ud_audits d).
Definition put_memberships v d := SetupDb (ud_workspaces d) v (ud_dashboards d) (ud_retention d) (ud_users d) (ud_accounts d) (ud_sequence d) (ud_installations d) (ud_audits d).
Definition put_boards v d := SetupDb (ud_workspaces d) (ud_memberships d) v (ud_retention d) (ud_users d) (ud_accounts d) (ud_sequence d) (ud_installations d) (ud_audits d).
Definition put_days v d := SetupDb (ud_workspaces d) (ud_memberships d) (ud_dashboards d) v (ud_users d) (ud_accounts d) (ud_sequence d) (ud_installations d) (ud_audits d).
Definition put_users v d := SetupDb (ud_workspaces d) (ud_memberships d) (ud_dashboards d) (ud_retention d) v (ud_accounts d) (ud_sequence d) (ud_installations d) (ud_audits d).
Definition put_accounts v d := SetupDb (ud_workspaces d) (ud_memberships d) (ud_dashboards d) (ud_retention d) (ud_users d) v (ud_sequence d) (ud_installations d) (ud_audits d).
Definition put_sequence v d := SetupDb (ud_workspaces d) (ud_memberships d) (ud_dashboards d) (ud_retention d) (ud_users d) (ud_accounts d) v (ud_installations d) (ud_audits d).
Definition put_installations v d := SetupDb (ud_workspaces d) (ud_memberships d) (ud_dashboards d) (ud_retention d) (ud_users d) (ud_accounts d) (ud_sequence d) v (ud_audits d).
Definition put_log v d := SetupDb (ud_workspaces d) (ud_memberships d) (ud_dashboards d) (ud_retention d) (ud_users d) (ud_accounts d) (ud_sequence d) (ud_installations d) v.
(** What access checks and the settings page see; machines, services and the like are [rest]'s. *)
Definition authz_workspace (w : workspace_cols) : workspace_row := WorkspaceRow (wc_id w) (wc_slug w) (wc_pk w) (wc_dashboard w) (wc_interval w) (wc_deleted w).
Definition ud_authz (d : setup_db) : control_db := ControlDb (ud_memberships d) [] [] [] (map authz_workspace (ud_workspaces d)).
Definition ud_settings (rest : settings_db) (d : setup_db) : settings_db :=
  SettingsDb (ud_authz d) (zd_machines rest) (zd_services rest) (zd_containers rest) (zd_checks rest) (ud_dashboards d) (zd_resources rest) (zd_policies rest) (ud_retention d) (ud_audits d).

(** Keys, references and [CHECK]s. *)
Definition workspace_insertable (w : workspace_cols) (d : setup_db) : bool :=
  negb (has_key wc_id (wc_id w) (ud_workspaces d)) && negb (has_key wc_pk (wc_pk w) (ud_workspaces d)) && negb (has_key wc_slug (wc_slug w) (ud_workspaces d)) &&
  within 1 (wc_interval w) 300.
Definition membership_insertable (m : membership) (d : setup_db) : bool :=
  negb (has_key membership_key (membership_key m) (ud_memberships d)) && has_key wc_id (mb_workspace m) (ud_workspaces d) && has_key us_id (mb_user m) (ud_users d).
Definition board_insertable (creator : string) (b : dashboard_full) (d : setup_db) : bool :=
  negb (has_key (fun x => td_id (df_shown x)) (td_id (df_shown b)) (ud_dashboards d)) && has_key wc_id (df_workspace b) (ud_workspaces d) && has_key us_id creator (ud_users d) &&
  str_in (td_visibility (df_shown b)) ["private"; "authenticated"; "public"].
Definition days_insertable (r : retention_row) (d : setup_db) : bool :=
  negb (has_key rp_workspace (rp_workspace r) (ud_retention d)) && has_key wc_id (rp_workspace r) (ud_workspaces d) && retention_columns_ok r.
Definition user_insertable (u : user_row) (d : setup_db) : bool := negb (has_key us_id (us_id u) (ud_users d)) && negb (has_key us_email (us_email u) (ud_users d)).
Definition account_insertable (a : account_row) (d : setup_db) : bool :=
  negb (has_key an_id (an_id a) (ud_accounts d)) && negb (has_key an_user (an_user a) (ud_accounts d)) && has_key us_id (an_user a) (ud_users d).
(** The unique index on [state] is only for rows that are complete. *)
Definition complete (n : installation_row) : bool := String.eqb (nl_state n) "complete".
Definition installed (d : setup_db) : bool := existsb complete (ud_installations d).
Definition installation_insertable (n : installation_row) (d : setup_db) : bool :=
  negb (has_key nl_id (nl_id n) (ud_installations d)) && negb (complete n && installed d).
(** [INSERT INTO ... VALUES ...] *)
Definition insert_values {R} (get : setup_db -> list R) (set : list R -> setup_db -> setup_db) (constraints : R -> setup_db -> bool) (row : R) : stmt :=
  insert_into get set constraints (fun _ => true) row.

(** ** Input *)

Definition slug_char (c : ascii) : bool := is_lower c || is_digit c || Ascii.eqb c "-".
(** [/^[a-z0-9][a-z0-9-]{1,46}[a-z0-9]$/] *)
Definition slug_shape (s : string) : bool :=
  (3 <=? slen s) && (slen s <=? 48) && str_forall slug_char s && negb (starts_with "-" s) && negb (ends_with "-" s).
(** [Number.isInteger(value) && minimum <= value <= maximum] *)
Definition integer_between (value : number) (minimum maximum : Z) (message : string) : res Z :=
  match num_int value with Some n => throw_if (n <? minimum) || (maximum <? n) as message in Ok n | None => Err message end.
Definition sampling_interval (value : number) : res Z :=
  let message := "400 Default sampling interval must divide the 60 second report period" in
  let* n := integer_between value 1 300 message in throw_if negb (60 mod n =? 0) as message in Ok n.
(** [value.length < 2 || value.length > 80] *)
Definition text_between (value : string) (minimum maximum : Z) (message : string) : res unit := throw_if (slen value <? minimum) || (maximum <? slen value) as message in Ok tt.

(* @src apps/web/src/lib/server/workspace-lifecycle.ts CreateWorkspaceInput *)
Record CreateWorkspaceInput := WorkspaceInput { wi_name : string; wi_slug : string; wi_rawDays : number; wi_interval : number; wi_visibility : string }.
(** What is stored of it. *)
Record workspace_choice := WorkspaceChoice { wk_name : string; wk_slug : string; wk_rawDays : Z; wk_interval : Z; wk_visibility : string }.
(* @src apps/web/src/lib/server/workspace-lifecycle.ts normalizeWorkspaceInput *)
Definition normalizeWorkspaceInput (input : CreateWorkspaceInput) : res workspace_choice :=
  let name := trim (wi_name input) in
  let slug := trim (wi_slug input) in
  let* _ := text_between name 2 80 "400 Workspace name is invalid" in
  throw_if negb (slug_shape slug) as "400 Workspace slug is invalid" in
  let* rawDays := integer_between (wi_rawDays input) 1 90 "400 Raw retention must be between 1 and 90 days" in
  let* interval := sampling_interval (wi_interval input) in
  throw_if negb (str_in (wi_visibility input) ["private"; "authenticated"; "public"]) as "400 Dashboard visibility is invalid" in
  Ok (WorkspaceChoice name slug rawDays interval (wi_visibility input)).

(* @src apps/web/src/lib/server/setup.ts SetupInput *)
Record SetupInput := Setup {
  si_token : string;
  si_name : string;
  si_email : string;
  si_password : string;
  si_workspaceName : string;
  si_workspaceSlug : string;
  si_rawDays : number;
  si_interval : number;
  si_visibility : string;
}.
(** The name and address of the administrator, and the workspace. *)
(* @src apps/web/src/lib/server/setup.ts normalizeSetupInput *)
Definition normalizeSetupInput (input : SetupInput) : res (string * string * workspace_choice) :=
  let name := trim (si_name input) in
  let email := to_lower (trim (si_email input)) in
  let workspaceName := trim (si_workspaceName input) in
  let workspaceSlug := trim (si_workspaceSlug input) in
  let* _ := text_between name 2 80 "400 Administrator name must contain 2 to 80 characters" in
  throw_if (slen email <? 3) || (254 <? slen email) || negb (email_shape email) as "400 A valid administrator email address is required" in
  let* _ := text_between (si_password input) 12 128 "400 Password must contain 12 to 128 characters" in
  let* _ := text_between workspaceName 2 80 "400 Workspace name must contain 2 to 80 characters" in
  throw_if negb (slug_shape workspaceSlug) as "400 Workspace slug is invalid" in
  let* rawDays := integer_between (si_rawDays input) 1 90 "400 Raw retention must be between 1 and 90 days" in
  let* interval := sampling_interval (si_interval input) in
  throw_if negb (str_in (si_visibility input) ["private"; "authenticated"; "public"]) as "400 Dashboard visibility is invalid" in
  Ok (name, email, WorkspaceChoice workspaceName workspaceSlug rawDays interval (si_visibility input)).

(** [difference |= left[i] ^ right[i]], over the length of the left one. *)
Fixpoint differences (left right : list byte) (difference : Z) : Z :=
  match left with
  | [] => difference
  | x :: rest => differences rest (tl right) (Z.lor difference (Z.lxor (bz x) (match right with y :: _ => bz y | [] => 0 end)))
  end.
(* @src apps/web/src/lib/server/setup.ts timingSafeEqual *)
Definition timingSafeEqual (left right : list byte) : bool := if negb (blen left =? blen right) then false else differences left right 0 =? 0.
(* @src apps/web/src/lib/server/setup.ts 16-16 MAX_TEXT_SECRET_LENGTH *)
Definition MAX_TEXT_SECRET_LENGTH : Z := 512.

Section Setup.
Context `{WC : WebCrypto} `{LO : Locale}.
(** [hashPassword] of better-auth. *)
Context (hashPassword : string -> string).

(* @src apps/web/src/lib/server/setup.ts validSetupToken *)
Definition validSetupToken (submitted expected : string) : bool :=
  if (slen submitted <? 20) || (MAX_TEXT_SECRET_LENGTH <? slen submitted) || (slen expected <? 20) || (MAX_TEXT_SECRET_LENGTH <? slen expected) then false
  else timingSafeEqual (sha256 (encode_utf8 submitted)) (sha256 (encode_utf8 expected)).

(** What an action draws, and the time. *)
Record setup_draw := SetupDraw { uw_now : Z; uw_user : string; uw_workspace : string; uw_dashboard : string; uw_installation : string; uw_account : string; uw_audit : string }.
Context (dw : setup_draw).
Let now := uw_now dw.

(** The rows every new workspace has: itself, its administrator, its dashboard, its retention. *)
Definition new_workspace (c : workspace_choice) (telemetryPk : Z) : workspace_cols :=
  WorkspaceCols (uw_workspace dw) (wk_name c) (wk_slug c) telemetryPk (uw_dashboard dw) (wk_interval c) None.
Definition new_days (c : workspace_choice) : retention_row := RetentionRow (uw_workspace dw) (wk_rawDays c) 30 365 365 365 7 7 now.
Definition new_board (c : workspace_choice) : dashboard_full := DashboardFull (StDashboard (uw_dashboard dw) "Overview" "{}" (wk_visibility c) None) (uw_workspace dw) now.
Definition workspace_statements (c : workspace_choice) (telemetryPk : Z) (userId : string) : list stmt :=
  [insert_values ud_workspaces put_workspaces workspace_insertable (new_workspace c telemetryPk);
   insert_values ud_memberships put_memberships membership_insertable (Membership (uw_workspace dw) userId admin active);
   insert_values ud_dashboards put_boards (board_insertable userId) (new_board c);
   insert_values ud_retention put_days days_insertable (new_days c)].

(** The first workspace takes the number 1. *)
Definition first_sequence : stmt := fun d _ => match ud_sequence d with Some 0 => Ok (put_sequence (Some 1) d, 1) | _ => Ok (d, 0) end.
(* @src apps/web/src/lib/server/setup.ts 102-164 initializeInstallation *)
Definition installation (name email password : string) (c : workspace_choice) : list stmt :=
  ([first_sequence;
    insert_values ud_users put_users user_insertable (UserRow (uw_user dw) name email true);
    insert_values ud_accounts put_accounts account_insertable (AccountRow (uw_account dw) (uw_user dw) (hashPassword password))] ++
   workspace_statements c 1 (uw_user dw) ++
   [insert_values ud_installations put_installations installation_insertable (InstallationRow (uw_installation dw) "complete" now (Some now))])%list.
(** A batch; when it fails, what made it fail is looked up. *)
Definition batch_or (l : list stmt) (taken : setup_db -> bool) (message : string) : prog setup_db unit :=
  pcatch (do _ <- write (transaction l) in pret tt)
    (fun cause => do found <- ask (fun d => Ok (taken d)) in if found : bool then plift (Err message) else plift (Err cause)).
(* @src apps/web/src/lib/server/setup.ts initializeInstallation *)
Definition initializeInstallation (expectedToken : string) (input : SetupInput) : prog setup_db string :=
  refuse_if negb (validSetupToken (si_token input) expectedToken) as "403 Invalid setup token" in
  do normalized <- plift (normalizeSetupInput input) in
  do existing <- ask (fun d => Ok (installed d)) in
  refuse_if existing as "409 AlphaPing is already initialized" in
  do _ <- batch_or (installation normalized.1.1 normalized.1.2 (si_password input) normalized.2) installed "409 AlphaPing is already initialized" in
  pret (wk_slug normalized.2).

(** ** Further workspaces *)

Definition slug_taken (slug : string) (d : setup_db) : bool := has_key wc_slug slug (ud_workspaces d).
Definition choice_out (c : workspace_choice) : jout :=
  OObj [("name", OStr (wk_name c)); ("slug", OStr (wk_slug c)); ("defaultSamplingIntervalSeconds", OInt (wk_interval c)); ("dashboardVisibility", OStr (wk_visibility c));
        ("rawDays", OInt (wk_rawDays c))].
(* @src apps/web/src/lib/server/workspace-lifecycle.ts 63-118 createWorkspace *)
Definition workspace_creation (c : workspace_choice) (telemetryPk : Z) (actorUserId : string) : list stmt :=
  (workspace_statements c telemetryPk actorUserId ++
   [insert_values ud_audits put_log (fun _ _ => true)
      (prepareAuditStatement (uw_audit dw) (AuditInput (uw_workspace dw) actorUserId "workspace.create" "workspace" (uw_workspace dw) None (Some (choice_out c)) now))])%list.
(* @src apps/web/src/lib/server/workspace-lifecycle.ts createWorkspace *)
Definition createWorkspace (actorUserId : string) (input : CreateWorkspaceInput) : prog setup_db (string * string) :=
  do normalized <- plift (normalizeWorkspaceInput input) in
  do actor <- ask (fun d => Ok (has_key us_id actorUserId (ud_users d))) in
  refuse_if negb actor as "404 Account not found" in
  do existing <- ask (fun d => Ok (slug_taken (wk_slug normalized) d)) in
  refuse_if existing as "409 Workspace slug is already in use" in
  do sequence <- write (fun d => match ud_sequence d with
    | Some value => Ok (put_sequence (Some (value + 1)) d, value + 1)
    | None => Err "500 Workspace sequence is unavailable"
    end) in
  do _ <- batch_or (workspace_creation normalized sequence actorUserId) (slug_taken (wk_slug normalized)) "409 Workspace slug is already in use" in
  pret (uw_workspace dw, wk_slug normalized).
End Setup.

(** ** An installation is set up once *)

Lemma insert_values_effect {R} get set constraints (row : R) d n d' m : insert_values get set constraints row d n = Ok (d', m) ->
  constraints row d = true /\ d' = set (get d ++ [row])%list d.
Proof. unfold insert_values. intros H. apply insert_into_effect in H as [(H & _)|(_ & Hc & -> & _)]; done. Qed.
Ltac next_insert H C := let d := fresh "d" in let n := fresh "n" in let r := fresh "r" in let H1 := fresh "H" in
  apply transaction_cons in H as (d & n & r & H1 & H & _); apply insert_values_effect in H1 as [C ->].

Section Once.
Context `{WC : WebCrypto} `{LO : Locale} (hashPassword : string -> string).
Inductive setup_request :=
| set_up_request (expectedToken : string) (input : SetupInput)
| workspace_request (userId : string) (input : CreateWorkspaceInput).
Definition perform_setup (x : setup_draw * setup_request) : prog setup_db unit :=
  match x.2 with
  | set_up_request expectedToken input => do _ <- initializeInstallation hashPassword x.1 expectedToken input in pret tt
  | workspace_request userId input => do _ <- createWorkspace x.1 userId input in pret tt
  end.
Definition setup_user (x : setup_draw * setup_request) : string := uw_user x.1.
Definition user_ids (d : setup_db) : list string := map us_id (ud_users d).
(** At most one installation is complete, and an account that a setup has created is there with
    the completed installation of the same setup. *)
Record setup_ok (requests : list (setup_draw * setup_request)) (d : setup_db) : Prop := SetupOk {
  so_one : forall m n, m ∈ ud_installations d -> n ∈ ud_installations d -> complete m = true -> complete n = true -> nl_id m = nl_id n;
  so_user : forall x, x ∈ requests -> setup_user x ∈ user_ids d -> exists n, n ∈ ud_installations d /\ complete n = true /\ nl_id n = uw_installation x.1;
}.
Context (requests : list (setup_draw * setup_request)).
Definition same_installation (d d' : setup_db) : Prop := ud_users d' = ud_users d /\ ud_installations d' = ud_installations d.
Lemma setup_same d d' : same_installation d d' -> setup_ok requests d -> setup_ok requests d'.
Proof. intros [E1 E2] [H1 H2]. split; unfold user_ids; rewrite ?E1, ?E2; done. Qed.
Lemma created_same dw c pk user d d' rs : transaction (workspace_creation dw c pk user) d = Ok (d', rs) -> same_installation d d'.
Proof.
  unfold workspace_creation, workspace_statements. cbn [app]. intros H. unfold transaction in H. next_insert H C1. next_insert H C2. next_insert H C3. next_insert H C4. next_insert H C5.
  cbn in H. injection H as <- _. done.
Qed.
Lemma installation_done dw name email password c d d' rs : transaction (installation hashPassword dw name email password c) d = Ok (d', rs) ->
  installed d = false /\ ud_installations d' = (ud_installations d ++ [InstallationRow (uw_installation dw) "complete" (uw_now dw) (Some (uw_now dw))])%list /\
  ud_users d' = (ud_users d ++ [UserRow (uw_user dw) name email true])%list.
Proof.
  unfold installation, workspace_statements. cbn [app]. intros H. unfold transaction in H. apply transaction_cons in H as (d0 & n0 & r0 & H0 & H & _).
  assert (E0 : same_installation d d0) by (unfold first_sequence in H0; by destruct (ud_sequence d) as [[]|]; injection H0 as <- _). destruct E0 as [E1 E2].
  next_insert H C1. next_insert H C2. next_insert H C3. next_insert H C4. next_insert H C5. next_insert H C6. next_insert H C7. cbn in H. injection H as <- _.
  unfold installation_insertable, installed in C7. cbn [complete nl_state ud_installations put_days put_boards put_memberships put_workspaces put_accounts put_users] in C7.
  apply andb_true_iff in C7 as [_ C7]. apply negb_true_iff in C7. cbn in C7. unfold installed. rewrite <- E2. split; [exact C7|]. cbn. by rewrite E1, E2.
Qed.
Lemma installation_ok dw r name email password c d d' rs : (dw, r) ∈ requests -> drawn_apart setup_user requests ->
  transaction (installation hashPassword dw name email password c) d = Ok (d', rs) -> setup_ok requests d -> setup_ok requests d'.
Proof.
  intros Hr Hapart H [H1 H2]. apply installation_done in H as (Hn & Ei & Eu). unfold installed in Hn. rewrite existsb_false_elem in Hn. split.
  - intros m n. rewrite Ei, !elem_of_app, !list_elem_of_singleton. intros [Hm| ->] [Hn'| ->] Hc Hc'; try done; [rewrite (Hn m Hm) in Hc | rewrite (Hn m Hm) in Hc | rewrite (Hn n Hn') in Hc']; done.
  - intros x Hx. unfold user_ids. rewrite Eu, map_app, elem_of_app. intros [Hu|Hu].
    + destruct (H2 x Hx Hu) as (n & Hin & Hc & _). rewrite (Hn n Hin) in Hc. done.
    + cbn in Hu. apply list_elem_of_singleton in Hu. apply list_elem_of_lookup in Hx as [i Hi]. apply list_elem_of_lookup in Hr as [j Hj].
      destruct (decide (i = j)) as [->|Hne]; [|exfalso; by apply (Hapart i j _ _ Hi Hj Hne)]. rewrite Hi in Hj. injection Hj as ->.
      eexists. split; [rewrite Ei; apply elem_of_app; right; by apply list_elem_of_singleton | done].
Qed.
Lemma steady_batch l taken message : (forall d d' rs, setup_ok requests d -> transaction l d = Ok (d', rs) -> setup_ok requests d') -> steady (setup_ok requests) (batch_or l taken message).
Proof.
  intros H. unfold batch_or. eapply safe_catch with (K := setup_ok requests).
  - apply (steady_bind (setup_ok requests)); [|intros ?; apply steady_ret]. apply steady_write. intros d d' rs. by apply H.
  - intros e. apply (steady_bind (setup_ok requests)); [apply steady_ask|]. intros [|]; apply steady_lift.
Qed.
Lemma perform_setup_steady x : drawn_apart setup_user requests -> x ∈ requests -> steady (setup_ok requests) (perform_setup x).
Proof.
  intros Hapart Hx. destruct x as [dw [token input|user input]]; unfold perform_setup; cbn [fst snd]; apply steady_bind; try (intros ?; apply steady_ret).
  - unfold initializeInstallation. repeat (apply steady_bind; [first [apply steady_ask | apply steady_lift]|]; intros ?). apply steady_bind; [|intros ?; apply steady_ret].
    apply steady_batch. intros d d' rs Hd H. by eapply installation_ok.
  - unfold createWorkspace. do 4 (apply steady_bind; [first [apply steady_ask | apply steady_lift]|]; intros ?). apply steady_bind; [apply steady_lift|]. intros ?.
    apply steady_bind; [apply steady_write; intros d d' v Hd H; destruct (ud_sequence d); [|done]; injection H as <- _; by apply (setup_same d)|]. intros ?.
    apply steady_bind; [|intros ?; apply steady_ret]. apply steady_batch. intros d d' rs Hd H. apply created_same in H. by apply (setup_same d).
Qed.
End Once.

Section Property.
Context `{WC : WebCrypto} `{LO : Locale} (hashPassword : string -> string).
(** C14: An installation is set up once.  However many people send the setup form at the same time,
    with whatever tokens, interleaved in any order with each other, with the creation of
    workspaces and with the rest of the program, at most one installation completes, and of the
    administrators that different requests would create at most one exists afterwards: a setup
    that lost leaves no account behind. *)
Theorem setup_only_once world requests d ts d' : drawn_apart setup_user requests -> drawn_apart (fun x => uw_installation x.1) requests ->
  (forall s s', world s s' -> setup_ok requests s -> setup_ok requests s') ->
  pool_steps world (map (perform_setup hashPassword) requests, d) (ts, d') -> setup_ok requests d ->
  (forall m n, m ∈ ud_installations d' -> n ∈ ud_installations d' -> complete m = true -> complete n = true -> nl_id m = nl_id n) /\
  forall i j x y, requests !! i = Some x -> requests !! j = Some y -> i <> j -> setup_user x ∈ user_ids d' -> setup_user y ∉ user_ids d'.
Proof.
  intros Hu Hi Hw Hrun Hd. assert (H : setup_ok requests d').
  { eapply steady_pool; [intros x; by apply perform_setup_steady | exact Hw | exact Hrun | exact Hd]. }
  split; [apply H|]. intros i j x y Hx Hy Hne Hxu Hyu. destruct (so_user _ _ H x ltac:(by eapply list_elem_of_lookup_2) Hxu) as (m & Hm & Hmc & Em).
  destruct (so_user _ _ H y ltac:(by eapply list_elem_of_lookup_2) Hyu) as (n & Hn & Hnc & En). apply (Hi i j x y Hx Hy Hne). rewrite <- Em, <- En. by apply (so_one _ _ H).
Qed.
End Property.

(** ** A new workspace is ready *)

Lemma differences_zero l : forall r acc, 0 <= acc -> length l = length r -> differences l r acc = 0 <-> acc = 0 /\ l = r.
Proof.
  induction l as [|x l IH]; intros [|y r] acc Ha Hl; try done; cbn [differences tl].
  - split; [by intros -> | by intros [-> _]].
  - assert (Hx : 0 <= Z.lxor (bz x) (bz y)) by (apply Z.lxor_nonneg; unfold bz; split; lia). rewrite IH; [|by apply Z.lor_nonneg | by injection Hl]. rewrite Z.lor_eq_0_iff, Z.lxor_eq_0_iff. split.
    + intros [[-> E] ->]. split; [done|]. f_equal. unfold bz in E. apply N2Z.inj in E. assert (Hb : Byte.of_N (Byte.to_N x) = Byte.of_N (Byte.to_N y)) by (by rewrite E). rewrite !Byte.of_to_N in Hb. by injection Hb.
    + by intros [-> [= -> ->]].
Qed.
(** The comparison that takes the same time on every input is equality. *)
Lemma digests_equal_spec l r : timingSafeEqual l r = true <-> l = r.
Proof.
  unfold timingSafeEqual, blen. destruct (Z.eqb_spec (Z.of_nat (length l)) (Z.of_nat (length r))) as [E|E]; cbn [negb].
  - rewrite Z.eqb_eq, differences_zero by lia. tauto.
  - split; [done|]. by intros ->.
Qed.

Section Ready.
Context `{WC : WebCrypto} `{LO : Locale} (dw : setup_draw).
(** The user opens the workspace as its administrator, and its settings page shows what was chosen. *)
Definition ready (c : workspace_choice) (telemetryPk : Z) (userId : string) (d : setup_db) : Prop :=
  loadMonitoringAccess (ud_authz d) (wk_slug c) userId = Ok (Monitoring (uw_workspace dw) telemetryPk (uw_dashboard dw) (wk_interval c) admin []) /\
  forall rest, exists panel, (alone (loadWorkspaceSettingsPanel (wk_slug c) userId None None) (ud_settings rest d)).1 = Ok panel /\
    sp_visibility panel = wk_visibility c /\ sp_retention panel = new_days dw c.
Lemma bind_skip {A B} (f : A -> list B) l l' : (forall x, x ∈ l -> f x = []) -> (l ++ l')%list ≫= f = l' ≫= f.
Proof. intros H. induction l as [|x l IH]; [done|]. cbn. rewrite (H x) by (by left). apply IH. intros y Hy. apply H. by right. Qed.
Lemma bind_nil {A B} (f : A -> list B) l : (forall x, x ∈ l -> f x = []) -> l ≫= f = [].
Proof. intros H. pose proof (bind_skip f l [] H) as E. by rewrite app_nil_r in E. Qed.
Lemma find_skip {A} (p : A -> bool) l x : (forall y, y ∈ l -> p y = false) -> p x = true -> List.find p (l ++ [x])%list = Some x.
Proof. intros H Hx. induction l as [|y l IH]; cbn; [by rewrite Hx|]. rewrite (H y) by (by left). apply IH. intros z Hz. apply H. by right. Qed.
Lemma no_key {R K} `{!EqDecision K} (key : R -> K) k l r : has_key key k l = false -> r ∈ l -> key r <> k.
Proof. intros H Hr E. assert (has_key key k l = true); [|congruence]. apply has_key_elem. rewrite <- E. by apply list_elem_of_fmap_2. Qed.
Lemma statements_ready c pk userId k d d' rs more : transaction_from k (workspace_statements dw c pk userId ++ more)%list d = Ok (d', rs) ->
  (forall e e' m rs', transaction_from m more e = Ok (e', rs') -> ud_workspaces e' = ud_workspaces e /\ ud_memberships e' = ud_memberships e /\ ud_dashboards e' = ud_dashboards e /\ ud_retention e' = ud_retention e) ->
  ready c pk userId d'.
Proof.
  intros H Hmore. unfold workspace_statements in H. cbn [app] in H. next_insert H C1. next_insert H C2. next_insert H C3. next_insert H C4.
  apply Hmore in H as (E1 & E2 & E3 & E4). cbn in E1, E2, E3, E4.
  unfold workspace_insertable in C1. unfold membership_insertable in C2. unfold board_insertable in C3. unfold days_insertable in C4. cbn in C2, C3, C4. bool_hyps.
  assert (Hload : loadMonitoringAccess (ud_authz d') (wk_slug c) userId = Ok (Monitoring (uw_workspace dw) pk (uw_dashboard dw) (wk_interval c) admin [])).
  { unfold loadMonitoringAccess, ud_authz. cbn [workspaces memberships]. rewrite E1, E2, map_app. cbn [map].
    rewrite bind_skip. 2:{ intros w Hw. apply (list_elem_of_fmap authz_workspace) in Hw as (x & -> & Hx). assert (Hs : wc_slug x <> wk_slug c) by (by eapply no_key).
      apply bind_nil. intros m _. rewrite (bool_decide_eq_false_2 (ws_slug (authz_workspace x) = wk_slug c)) by done. by rewrite andb_false_r. }
    cbn [mbind list_bind app]. rewrite app_nil_r. rewrite bind_skip.
    2:{ intros m Hm. assert (Hk : membership_key m <> (uw_workspace dw, userId)) by (by eapply no_key). cbn [authz_workspace new_workspace ws_id wc_id ws_slug wc_slug ws_deleted wc_deleted].
      destruct (decide (mb_workspace m = uw_workspace dw)) as [Ew|Ew]; [|by rewrite (bool_decide_eq_false_2 (mb_workspace m = _))].
      rewrite (bool_decide_eq_false_2 (mb_user m = userId)); [by rewrite andb_false_r|]. intros Eu. apply Hk. unfold membership_key. by rewrite Ew, Eu. }
    cbn. rewrite !bool_decide_eq_true_2 by done. done. }
  split; [exact Hload|]. intros rest. unfold loadWorkspaceSettingsPanel, alone. rewrite run_admin. cbn [moved].
  change (zd_authz (ud_settings rest d')) with (ud_authz d'). rewrite Hload. replace (requireAdmin _) with (Ok tt : res unit) by done. cbv zeta.
  assert (Hv : dashboard_visibility (Monitoring (uw_workspace dw) pk (uw_dashboard dw) (wk_interval c) admin []) (ud_settings rest d') = Some (wk_visibility c)).
  { unfold dashboard_visibility. cbn [zd_dashboards ud_settings]. rewrite E3. rewrite find_skip; [done | |].
    - intros b Hb. assert (Hk : td_id (df_shown b) <> uw_dashboard dw) by (by eapply (no_key (fun x => td_id (df_shown x)))). unfold default_dashboard. cbn [m_defaultDashboardId]. by apply String.eqb_neq in Hk as ->.
    - unfold default_dashboard. cbn. by rewrite !String.eqb_refl. }
  assert (Hr : retention_of (uw_workspace dw) (ud_settings rest d') = Some (new_days dw c)).
  { unfold retention_of. cbn [zd_retention ud_settings]. rewrite E4. rewrite find_skip; [done | |].
    - intros b Hb. assert (Hk : rp_workspace b <> uw_workspace dw) by (by eapply (no_key rp_workspace)). by apply String.eqb_neq in Hk as ->.
    - cbn. by rewrite !String.eqb_refl. }
  do 4 (rewrite run_ask; cbn [moved]). cbn [m_workspaceId]. rewrite Hv, Hr. eexists. split; [reflexivity|]. done.
Qed.
Lemma run_batch {B} l taken message (b : B) moves s a s' : run moves (pbind (batch_or l taken message) (fun _ => pret b)) s = (Ok a, s') ->
  a = b /\ exists rs, transaction l (moved moves s).2 = Ok (s', rs).
Proof.
  unfold batch_or. cbn. destruct moves as [|g moves]; cbn; destruct (transaction l _) as [[s2 rs]|e]; cbn.
  - intros [= <- <-]. split; [done | by eexists].
  - destruct (taken _); done.
  - intros [= <- <-]. split; [done | by eexists].
  - destruct moves as [|g' moves]; cbn; destruct (taken _); done.
Qed.
Lemma creation_ready c pk userId d d' rs : transaction (workspace_creation dw c pk userId) d = Ok (d', rs) -> ready c pk userId d'.
Proof.
  unfold transaction, workspace_creation. intros H. eapply (statements_ready c pk userId); [exact H|]. intros e e' m rs' He. next_insert He C. cbn in He. by injection He as <- _.
Qed.
Lemma installation_ready hashPassword name email password c d d' rs : transaction (installation hashPassword dw name email password c) d = Ok (d', rs) -> ready c 1 (uw_user dw) d'.
Proof.
  unfold installation. cbn [app]. intros H. unfold transaction in H. apply transaction_cons in H as (d0 & n0 & r0 & _ & H & _). next_insert H C1. next_insert H C2.
  eapply (statements_ready c 1 (uw_user dw)); [exact H|]. intros e e' m rs' He. next_insert He C. cbn in He. by injection He as <- _.
Qed.

(** C29: A workspace that has been created can be used.  Whatever other requests do in between, when
    [createWorkspace] succeeds the user is the administrator of the new workspace under the slug
    that is returned, and its settings page opens with the visibility and the retention that were
    chosen; and when the setup of an installation succeeds the token was right, the same holds for
    the new administrator, and the installation is complete. *)
Theorem new_workspace_ready hashPassword g1 g2 g3 g4 s s' :
  (forall userId input r, run [g1; g2; g3; g4] (createWorkspace dw userId input) s = (Ok r, s') ->
     exists c pk, normalizeWorkspaceInput input = Ok c /\ r = (uw_workspace dw, wk_slug c) /\ ready c pk userId s') /\
  (forall expected input slug, run [g1; g2] (initializeInstallation hashPassword dw expected input) s = (Ok slug, s') ->
     sha256 (encode_utf8 (si_token input)) = sha256 (encode_utf8 expected) /\
     exists name email c, normalizeSetupInput input = Ok (name, email, c) /\ slug = wk_slug c /\ ready c 1 (uw_user dw) s' /\ installed s' = true).
Proof.
  split.
  - intros userId input r H. unfold createWorkspace in H. rewrite run_lift in H. destruct (normalizeWorkspaceInput input) as [c|e]; [|done]. rewrite run_ask in H. cbn [moved] in H.
    rewrite run_lift in H. destruct (negb _) in H; [done|]. rewrite run_ask in H. cbn [moved] in H. rewrite run_lift in H. destruct (slug_taken _ _) in H; [done|].
    cbn [write pbind run moved] in H. destruct (ud_sequence _) as [v|] in H; [|done]. cbn [pbind run] in H. apply run_batch in H as (-> & rs & H).
    exists c, (v + 1). split; [done|]. split; [done|]. by eapply creation_ready.
  - intros expected input slug H. unfold initializeInstallation in H. rewrite run_lift in H. destruct (validSetupToken _ _) eqn:Et; cbn [negb] in H; [|done].
    rewrite run_lift in H. destruct (normalizeSetupInput input) as [[[name email] c]|e]; [|done]. rewrite run_ask in H. cbn [moved] in H. rewrite run_lift in H. destruct (installed _) in H; [done|].
    apply run_batch in H as (-> & rs & H). split; [unfold validSetupToken in Et; destruct (_ || _); [done | by apply digests_equal_spec]|].
    exists name, email, c. split; [done|]. split; [done|]. split; [by eapply installation_ready|]. apply installation_done in H as (_ & E & _). unfold installed. rewrite E, existsb_app. apply orb_true_r.
Qed.
End Ready.

(** ** Recorded requests *)

#[local] Instance sx_locale : Locale := String.leb.
Definition sx_hash (password : string) : string := "hash:" ++ password.
Definition sx_draw (i : Z) : setup_draw :=
  SetupDraw (1000 + i) ("user-" ++ z_to_string i) ("workspace-" ++ z_to_string i) ("board-" ++ z_to_string i) ("installation-" ++ z_to_string i) ("account-" ++ z_to_string i) ("audit-" ++ z_to_string i).
Definition sx_token : string := "a-long-enough-setup-token".
Definition sx_input (name slug : string) : SetupInput :=
  Setup sx_token name (name ++ "@example.com") "correct horse battery" "Operations" slug (num_of_Z 7) (num_of_Z 10) "public".
Definition sx_start : setup_db := SetupDb [] [] [] [] [] [] (Some 0) [] [].
Definition sx_requests : list (setup_draw * setup_request) :=
  [(sx_draw 1, set_up_request sx_token (sx_input "Ada" "team")); (sx_draw 2, set_up_request sx_token (sx_input "Eve" "evil")); (sx_draw 3, set_up_request "another-long-setup-token!" (sx_input "Bob" "bob"));
   (sx_draw 4, workspace_request "user-1" (WorkspaceInput "Second" "second" (num_of_Z 30) (num_of_Z 20) "private"))].
(** Both requests with the token find no installation, then both write. *)
Definition sx_run : list (prog setup_db unit) * setup_db := schedule [0; 1; 1; 0; 0; 3; 3; 3; 3]%nat (map (perform_setup sx_hash) sx_requests, sx_start).
Lemma sx_apart (f : setup_draw * setup_request -> string) : NoDup (map f sx_requests) -> drawn_apart f sx_requests.
Proof.
  intros H i j x y Hi Hj Hne E. apply Hne. eapply (NoDup_lookup (map f sx_requests) i j (f x) H); rewrite list_lookup_fmap; [by rewrite Hi | by rewrite Hj, E].
Qed.
Theorem setup_only_once_witness :
  ended sx_run.1 = [Some (Err "409 AlphaPing is already initialized"); Some (Ok tt); Some (Err "403 Invalid setup token"); Some (Err "404 Account not found")] /\
  map us_id (ud_users sx_run.2) = ["user-2"] /\ map an_user (ud_accounts sx_run.2) = ["user-2"] /\ map wc_slug (ud_workspaces sx_run.2) = ["evil"] /\
  ("user-1" ∉ user_ids sx_run.2).
Proof.
  do 4 (split; [vm_compute; reflexivity|]).
  refine (proj2 (setup_only_once sx_hash eq sx_requests sx_start sx_run.1 sx_run.2 (sx_apart _ _) (sx_apart _ _) _ _ _) 1%nat 0%nat _ _ eq_refl eq_refl _ _).
  - apply (bool_decide_unpack _). vm_compute. exact Logic.I.
  - apply (bool_decide_unpack _). vm_compute. exact Logic.I.
  - intros s s' <-. done.
  - unfold sx_run. rewrite <- surjective_pairing. apply schedule_steps.
  - split; [intros m n Hm; by apply elem_of_nil in Hm | intros x _ Hx; by apply elem_of_nil in Hx].
  - done.
  - apply (bool_decide_unpack _). vm_compute. exact Logic.I.
Defined.
Definition sx_same : setup_db -> setup_db := fun s => s.
Definition sx_installed : setup_db := (run [sx_same; sx_same] (initializeInstallation sx_hash (sx_draw 1) sx_token (sx_input "Ada" "team")) sx_start).2.
Theorem new_workspace_ready_witness :
  run [sx_same; sx_same] (initializeInstallation sx_hash (sx_draw 1) sx_token (sx_input "Ada" "team")) sx_start = (Ok "team", sx_installed) /\
  exists name email c, normalizeSetupInput (sx_input "Ada" "team") = Ok (name, email, c) /\ wk_visibility c = "public" /\ ready (sx_draw 1) c 1 "user-1" sx_installed.
Proof.
  assert (H : run [sx_same; sx_same] (initializeInstallation sx_hash (sx_draw 1) sx_token (sx_input "Ada" "team")) sx_start = (Ok "team", sx_installed)) by (vm_compute; reflexivity).
  split; [exact H|]. destruct (new_workspace_ready (sx_draw 1) sx_hash sx_same sx_same sx_same sx_same sx_start sx_installed) as [_ Hs].
  destruct (Hs sx_token (sx_input "Ada" "team") "team" H) as (_ & name & email & c & Hc & _ & Hr & _). exists name, email, c. split; [exact Hc|]. split; [|exact Hr].
  vm_compute in Hc. injection Hc as _ _ <-. reflexivity.
Defined.
