(* ===== verification/RequestGate.v ===== *)
(** * RequestGate: what happens to a request before a page sees it

    [apps/web/src/hooks.server.ts] and its parts in [apps/web/src/lib/server]: the body is bounded
    ([request-body.ts]), the hostname selects what of the site may be seen ([domain-routing.ts]),
    sign-in attempts are limited ([auth-rate-limit.ts]), nothing but the setup and the public
    status pages works before the installation is complete ([Setup]), and all other pages get the
    user's session. *)

From Stdlib Require Import ZArith Lia Bool String Ascii List.
From stdpp Require Import base tactics list strings.
From S2P Require Import Prelude.
From S2P Require Import Js.
From S2P Require Import JsonFacts.
From S2P Require Import Crypto.
From S2P Require Import Web.
From S2P Require Import CheckPersistence.
From S2P Require Import Envelopes.
From S2P Require Import Notifications.
From S2P Require Import Setup.
Open Scope string_scope.
Open Scope Z_scope.

(** ** The body *)

(* @src apps/web/src/lib/server/request-body.ts 3-3 MAX_AUTH_REQUEST_BODY_BYTES *)
Definition MAX_AUTH_REQUEST_BODY_BYTES : Z := 16 * 1024.
(* @src apps/web/src/lib/server/request-body.ts 4-4 MAX_FORM_REQUEST_BODY_BYTES *)
Definition MAX_FORM_REQUEST_BODY_BYTES : Z := 512 * 1024.
(* @src apps/web/src/lib/server/request-body.ts requestBodyLimit *)
Definition requestBodyLimit (pathname : string) : Z := if starts_with "/api/auth" pathname then MAX_AUTH_REQUEST_BODY_BYTES else MAX_FORM_REQUEST_BODY_BYTES.
(** A request: its headers, and the chunks a reader of the body gets, or that reading throws. *)
Record request := Request { rq_headers : headers; rq_body : option (list (res (list byte))) }.
(** The reader's loop: the chunks so far and their length. *)
Fixpoint read_bounded (maximumBytes : Z) (stream : list (res (list byte))) (chunks : list (list byte)) (totalBytes : Z) : res (list (list byte) * Z) :=
  match stream with
  | [] => Ok (chunks, totalBytes)
  | Err e :: _ => Err e
  | Ok value :: rest =>
      let totalBytes := totalBytes + blen value in
      throw_if maximumBytes <? totalBytes as "413 Request body is too large" in read_bounded maximumBytes rest (chunks ++ [value])%list totalBytes
  end.
(* @src apps/web/src/lib/server/request-body.ts withBoundedRequestBody *)
Definition withBoundedRequestBody (r : request) (maximumBytes : Z) : res request :=
  match rq_body r with
  | None => Ok r
  | Some stream =>
      let declared := obj_get "content-length" (rq_headers r) in
      throw_if match declared with
        | Some text => negb (String.eqb text "") && str_forall is_digit text && num_lt (num_of_Z maximumBytes) (js_number text)
        | None => false
        end as "413 Request body is too large" in
      let* '(chunks, _) := read_bounded maximumBytes stream [] 0 in
      Ok (Request (headers_delete "content-length" (rq_headers r)) (Some [Ok (concat chunks)]))
  end.

(** ** Hostnames *)

(** The parts of a URL that are not in [UrlApi]. *)
Class UrlParts `{UA : UrlApi} := { port : url -> string; search : url -> string; url_hash : url -> string }.
(** [value.replace(/\.$/, ...)] *)
Definition drop_dot (s : string) : string := if ends_with "." s then str_take (String.length s - 1) s else s.

(* @src apps/web/src/lib/server/domain-routing.ts 1-5 DomainRoute *)
Inductive DomainRoute :=
| admin_route (workspace : string)
| status_route (workspace : string)
| machine_route (workspace resource : string)
| service_route (workspace resource : string).
Definition route_workspace (r : DomainRoute) : string := match r with admin_route w | status_route w | machine_route w _ | service_route w _ => w end.
Definition is_admin_route (r : DomainRoute) : bool := match r with admin_route _ => true | _ => false end.
(** [/^[A-Za-z0-9_-]{1,200}$/] *)
Definition resource_slug (s : string) : bool := negb (String.eqb s "") && (slen s <=? 200) && str_forall is_token_tail s.

Section Routing.
Context `{UA : UrlApi} `{UP : !UrlPath} `{UX : !UrlParts}.

(* @src apps/web/src/lib/server/domain-routing.ts normalizeDomainHostname *)
Definition normalizeDomainHostname (value : string) : option string :=
  let input := drop_dot (to_lower (trim value)) in
  if (slen input =? 0) || (253 <? slen input) || includes "/" input then None
  else match url_parse ("https://" ++ input) None with
    | Err _ => None
    | Ok u =>
        if negb (String.eqb (username u) "") || negb (String.eqb (password u) "") || negb (String.eqb (port u) "") || negb (String.eqb (pathname u) "/") ||
           negb (String.eqb (search u) "") || negb (String.eqb (url_hash u) "") then None
        else Some (drop_dot (to_lower (hostname u)))
    end.
(** The target of one entry. *)
(* @src apps/web/src/lib/server/domain-routing.ts 56-72 parseDomainRoutes *)
Definition parse_route (value : props) : res DomainRoute :=
  match obj_get "workspace" value, as_string (obj_get "kind" value) with
  | Some (JStr workspace), Some kind =>
      throw_if negb (str_in kind ["admin"; "status"; "machine"; "service"]) || negb (slug_shape workspace) as "domain route target is invalid" in
      if str_in kind ["machine"; "service"] then
        match obj_get "resource" value with
        | Some (JStr resource) =>
            throw_if negb (resource_slug resource) as "domain resource route is invalid" in
            Ok (if String.eqb kind "machine" then machine_route workspace resource else service_route workspace resource)
        | _ => Err "domain resource route is invalid"
        end
      else
        match obj_get "resource" value with
        | Some _ => Err "domain route has an unexpected resource"
        | None => Ok (if String.eqb kind "admin" then admin_route workspace else status_route workspace)
        end
  | _, _ => Err "domain route target is invalid"
  end.
Fixpoint parse_routes (entries : props) (routes : list (string * DomainRoute)) : res (list (string * DomainRoute)) :=
  match entries with
  | [] => Ok routes
  | (configuredHost, value) :: rest =>
      match normalizeDomainHostname configuredHost, value with
      | Some host, JObj value =>
          throw_if String.eqb host "" as "domain route is invalid" in
          let* route := parse_route value in
          throw_if existsb (fun r => String.eqb r.1 host) routes as "domain route hostname is duplicated" in
          parse_routes rest (routes ++ [(host, route)])%list
      | _, _ => Err "domain route is invalid"
      end
  end.
(** The order of the entries only decides which error is reported. *)
(* @src apps/web/src/lib/server/domain-routing.ts parseDomainRoutes *)
Definition parseDomainRoutes (serialized : string) : res (list (string * DomainRoute)) :=
  throw_if 32 * 1024 <? blen (encode_utf8 serialized) as "domain route configuration is too large" in
  match json_parse (if String.eqb serialized "" then "{}" else serialized) with
  | Err _ => Err "domain route configuration is not valid JSON"
  | Ok (JObj parsed) => throw_if (100 <? length parsed)%nat as "domain route configuration is invalid" in parse_routes parsed []
  | Ok _ => Err "domain route configuration is invalid"
  end.
(** [cachedSerialized] and [cachedRoutes] *)
Record route_cache := RouteCache { kc_serialized : string; kc_routes : list (string * DomainRoute) }.
Definition initial_cache : route_cache := RouteCache "" [].
(* @src apps/web/src/lib/server/domain-routing.ts domainRouteForRequest *)
Definition domainRouteForRequest (cache : route_cache) (serialized hostname : string) : res (option DomainRoute) * route_cache :=
  match (if String.eqb serialized (kc_serialized cache) then Ok cache else let* routes := parseDomainRoutes serialized in Ok (RouteCache serialized routes)) with
  | Err e => (Err e, cache)
  | Ok cache =>
      (Ok (match normalizeDomainHostname hostname with
           | Some normalized => if String.eqb normalized "" then None else obj_get normalized (kc_routes cache)
           | None => None
           end), cache)
  end.
(* @src apps/web/src/lib/server/domain-routing.ts domainRouteAllowsPath *)
Definition domainRouteAllowsPath (route : DomainRoute) (pathname : string) : bool :=
  if is_admin_route route then true
  else if String.eqb pathname "/" || String.eqb pathname "/__data.json" || starts_with "/_app/" pathname then true
  else
    let statusRoot := "/status/" ++ encodeURIComponent (route_workspace route) in
    String.eqb pathname statusRoot || starts_with (statusRoot ++ "/") pathname.
End Routing.

(** ** Sign-in attempts *)

Section RateLimit.
Context `{WC : WebCrypto}.
(* @src apps/web/src/lib/server/auth-rate-limit.ts clientKey *)
Definition clientKey (h : headers) : string :=
  match obj_get "cf-connecting-ip" h with
  | Some value =>
      let address := trim value in
      if String.eqb address "" || (64 <? slen address) || negb (str_forall (fun c => is_hex c || Ascii.eqb c ":" || Ascii.eqb c ".") address) then "client:unknown"
      else "client:" ++ to_lower address
  | None => "client:unknown"
  end.
(* @src apps/web/src/lib/server/auth-rate-limit.ts accountKey *)
Definition accountKey (email : string) : string :=
  let normalized := to_lower (trim email) in
  if (slen normalized <? 3) || (254 <? slen normalized) then "account:invalid" else "account:" ++ hex (sha256 (encode_utf8 normalized)).
(** The two limiters: whether an attempt under a key is allowed. *)
(* @src apps/web/src/lib/server/auth-rate-limit.ts allowCredentialAttempt *)
Definition allowCredentialAttempt (edgeLimiter accountLimiter : string -> bool) (h : headers) (email : string) : bool :=
  edgeLimiter (clientKey h) && accountLimiter (accountKey email).
(** [text] is the body, or that it cannot be read. *)
(* @src apps/web/src/lib/server/auth-rate-limit.ts emailFromBetterAuthRequest *)
Definition emailFromBetterAuthRequest (text : res string) : string :=
  match (let* t := text in json_parse t) with
  | Ok (JObj value) => match obj_get "email" value with Some (JStr email) => email | _ => "" end
  | _ => ""
  end.
End RateLimit.

(** ** The hook *)

(* @src apps/web/src/hooks.server.ts requiresPrivateCaching *)
Definition requiresPrivateCaching (pathname : string) (authenticated : bool) : bool :=
  authenticated || String.eqb pathname "/login" || starts_with "/setup" pathname || starts_with "/invite/" pathname || starts_with "/api/auth" pathname.
(* @src apps/web/src/hooks.server.ts isPublicStatusPath *)
Definition isPublicStatusPath (pathname : string) : bool := starts_with "/status/" pathname.
(* @src apps/web/src/hooks.server.ts isPublicDomainRoot *)
Definition isPublicDomainRoot (route : option DomainRoute) (pathname : string) : bool :=
  match route with Some r => negb (is_admin_route r) && String.eqb pathname "/" | None => false end.
(** What becomes of a request: an error is thrown, the hook answers, the browser is sent to the
    setup, or the page runs, with a domain route, with a session or without looking for one, and
    whether its answer is marked private. *)
Inductive gate_outcome (U : Type) :=
| thrown (e : string)
| answered (status : Z)
| to_setup
| page (route : option DomainRoute) (session : option (option U)) (private : bool).
Arguments thrown {U} e. Arguments answered {U} status. Arguments to_setup {U}. Arguments page {U} route session private.

Section Hook.
Context `{WC : WebCrypto} `{UA : UrlApi} `{UP : !UrlPath} `{UX : !UrlParts} {U : Type}.
Record gate_request := GateRequest { gq_method : string; gq_pathname : string; gq_hostname : string; gq_request : request; gq_text : res string }.
(** The environment: whether the bindings are there, the configured routes, the two limiters,
    whether the installation is complete, and the session of a request. *)
Record gate_env := GateEnv {
  ge_bound : bool;
  ge_routes : string;
  ge_edge : string -> bool;
  ge_account : string -> bool;
  ge_installed : bool;
  ge_session : gate_request -> option U;
}.
(** After the domain has been decided. *)
(* @src apps/web/src/hooks.server.ts 78-138 handle *)
Definition handle_allowed (e : gate_env) (q : gate_request) (route : option DomainRoute) : gate_outcome U :=
  let pathname := gq_pathname q in
  if String.eqb pathname "/api/auth/sign-in/email" && String.eqb (gq_method q) "POST" &&
     negb (allowCredentialAttempt (ge_edge e) (ge_account e) (rq_headers (gq_request q)) (emailFromBetterAuthRequest (gq_text q))) then answered 429
  else if starts_with "/setup" pathname then page route None true
  else if isPublicStatusPath pathname || isPublicDomainRoot route pathname then page route None false
  else if negb (includes "." pathname) && negb (ge_installed e) then (if starts_with "/api/auth" pathname then answered 503 else to_setup)
  else
    let session := ge_session e q in
    page route (Some session) (requiresPrivateCaching pathname (match session with Some _ => true | None => false end)).
(* @src apps/web/src/hooks.server.ts handle *)
Definition handle (e : gate_env) (cache : route_cache) (q : gate_request) : gate_outcome U * route_cache :=
  match withBoundedRequestBody (gq_request q) (requestBodyLimit (gq_pathname q)) with
  | Err cause => (thrown cause, cache)
  | Ok bounded =>
      let q := GateRequest (gq_method q) (gq_pathname q) (gq_hostname q) bounded (gq_text q) in
      if negb (ge_bound e) then (page None None false, cache)
      else
        let '(found, cache) := domainRouteForRequest cache (ge_routes e) (gq_hostname q) in
        (match found with
         | Err _ => answered 503
         | Ok (Some route) => if domainRouteAllowsPath route (gq_pathname q) then handle_allowed e q (Some route) else answered 404
         | Ok None => handle_allowed e q None
         end, cache)
  end.
End Hook.

(** ** What a body can hold *)

Lemma read_bounded_spec maximum stream : forall chunks total, total = blen (concat chunks) -> total <= maximum ->
  match read_bounded maximum stream chunks total with
  | Ok (all, n) => n = blen (concat all) /\ n <= maximum /\ exists values, stream = map Ok values /\ all = (chunks ++ values)%list
  | Err _ => True
  end.
Proof.
  induction stream as [|[value|e] stream IH]; intros chunks total Ht Hm; cbn [read_bounded]; [|cbv zeta; destruct (maximum <? total + blen value) eqn:E; [done|] | done].
  - split; [done|]. split; [done|]. exists []. by rewrite app_nil_r.
  - apply Z.ltb_ge in E. specialize (IH (chunks ++ [value])%list (total + blen value)). destruct (read_bounded _ _ _ _) as [[all n]|]; [|done].
    destruct IH as (H1 & H2 & values & -> & ->); [rewrite concat_app; unfold blen in *; cbn; rewrite app_nil_r, length_app; lia | done|].
    split; [done|]. split; [done|]. exists (value :: values). by rewrite <- app_assoc.
Qed.
(** A page never gets a larger body than its path allows, and what it gets is what was sent. *)
Lemma bounded_body r maximum r' : 0 <= maximum -> withBoundedRequestBody r maximum = Ok r' ->
  match rq_body r with
  | None => r' = r
  | Some stream => exists values, stream = map Ok values /\ rq_body r' = Some [Ok (concat values)] /\ blen (concat values) <= maximum
  end.
Proof.
  intros Hm. unfold withBoundedRequestBody. destruct (rq_body r) as [stream|]; [|by intros [= <-]]. cbv zeta. destruct (match obj_get _ _ with Some _ => _ | None => _ end); [done|].
  intros H. apply rbind_ok in H as ([chunks n] & H & Hr). injection Hr as <-. pose proof (read_bounded_spec maximum stream [] 0 eq_refl Hm) as Hs. rewrite H in Hs.
  destruct Hs as (-> & Hn & values & -> & ->). by exists values.
Qed.

(** ** A hostname shows what it is configured for *)

Section Confined.
Context `{WC : WebCrypto} `{UA : UrlApi} `{UP : !UrlPath} `{UX : !UrlParts} {U : Type}.
(** The routes that are kept are those of the text they were read from. *)
Definition cache_ok (cache : route_cache) : Prop := parseDomainRoutes (kc_serialized cache) = Ok (kc_routes cache).
Lemma initial_cache_ok : cache_ok initial_cache.
Proof. reflexivity. Qed.
(** The answer without a cache. *)
Definition route_for (serialized hostname : string) : res (option DomainRoute) :=
  let* routes := parseDomainRoutes serialized in
  Ok (match normalizeDomainHostname hostname with Some normalized => if String.eqb normalized "" then None else obj_get normalized routes | None => None end).
Lemma cached_route cache serialized hostname : cache_ok cache ->
  (domainRouteForRequest cache serialized hostname).1 = route_for serialized hostname /\ cache_ok (domainRouteForRequest cache serialized hostname).2.
Proof.
  unfold domainRouteForRequest, route_for. intros Hc. destruct (String.eqb_spec serialized (kc_serialized cache)) as [->|Hne].
  - unfold cache_ok in Hc. rewrite Hc. done.
  - destruct (parseDomainRoutes serialized) as [routes|e] eqn:E; cbn [rbind]; [|done]. split; [done|]. exact E.
Qed.
(** A sequence of requests to one instance of the application. *)
Fixpoint routed (cache : route_cache) (requests : list (string * string)) : list (res (option DomainRoute)) :=
  match requests with
  | [] => []
  | (serialized, hostname) :: rest => let '(route, cache) := domainRouteForRequest cache serialized hostname in route :: routed cache rest
  end.
Lemma routed_agrees requests : forall cache, cache_ok cache -> routed cache requests = map (fun x => route_for x.1 x.2) requests.
Proof.
  induction requests as [|[serialized hostname] requests IH]; intros cache Hc; [done|]. cbn [routed map]. pose proof (cached_route cache serialized hostname Hc) as [H1 H2].
  destruct (domainRouteForRequest cache serialized hostname) as [route cache']. cbn in *. by rewrite H1, IH.
Qed.

Lemma route_slug value route : parse_route value = Ok route -> slug_shape (route_workspace route) = true.
Proof.
  unfold parse_route. destruct (obj_get "workspace" value) as [[| | |w| |]|]; try done. destruct (as_string _) as [kind|]; [|done]. destruct (_ || _) eqn:E; [done|]. apply orb_false_iff in E as [_ Ew]. apply negb_false_iff in Ew.
  repeat case_match; try done; by intros [= <-].
Qed.
Lemma routes_slugs entries : forall routes out, Forall (fun r => slug_shape (route_workspace r.2) = true) routes -> parse_routes entries routes = Ok out ->
  Forall (fun r => slug_shape (route_workspace r.2) = true) out.
Proof.
  induction entries as [|[host value] entries IH]; intros routes out Hr H; cbn [parse_routes] in H; [by injection H as <-|].
  destruct (normalizeDomainHostname host) as [h|]; [|done]. destruct value as [| | | | |v]; try done. destruct (String.eqb h ""); [done|]. apply rbind_ok in H as (route & Hp & H). destruct (existsb _ _); [done|].
  eapply IH; [|exact H]. apply Forall_app. split; [done|]. apply Forall_singleton. by eapply route_slug.
Qed.
Lemma obj_get_in {A} k (l : list (string * A)) v : obj_get k l = Some v -> (k, v) ∈ l.
Proof. induction l as [|[a b] l IH]; [done|]. cbn. destruct (String.eqb k a) eqn:E; [apply String.eqb_eq in E as ->; intros [= ->]; by left | intros H; right; auto]. Qed.
Lemma found_slug serialized hostname route : route_for serialized hostname = Ok (Some route) -> slug_shape (route_workspace route) = true.
Proof.
  unfold route_for. intros H. apply rbind_ok in H as (routes & Hp & H). destruct (normalizeDomainHostname hostname) as [h|]; [|done]. destruct (String.eqb h ""); [done|]. injection H as H.
  apply obj_get_in in H. unfold parseDomainRoutes in Hp. destruct (_ <? _); [done|]. destruct (json_parse _) as [[| | | | |parsed]|]; try done. destruct (_ <? _)%nat; [done|].
  apply routes_slugs in Hp; [|by constructor]. rewrite Forall_forall in Hp. exact (Hp _ H).
Qed.
Lemma slug_encoded s : str_forall slug_char s = true -> encodeURIComponent s = s.
Proof.
  unfold encodeURIComponent. induction s as [|c s IH]; [done|]. cbn [str_forall str_flat_map]. intros H. apply andb_true_iff in H as [Hc H]. rewrite IH by done.
  assert (uri_unreserved c = true) as ->; [|done]. unfold slug_char in Hc. apply orb_true_iff in Hc as [Hc|Hc]; [|apply Ascii.eqb_eq in Hc as ->; reflexivity].
  unfold uri_unreserved. apply orb_true_iff in Hc as [->| ->]; by rewrite ?orb_true_r.
Qed.
Lemma starts_with_split p s : starts_with p s = true <-> exists rest, s = p ++ rest.
Proof. unfold starts_with. split; [intros H; eexists; by apply prefix_drop | intros [rest ->]; apply prefix_app]. Qed.
(** [/status/<workspace>] or a page below it. *)
Definition status_page_of (workspace pathname : string) : Prop := pathname = "/status/" ++ workspace \/ exists rest, pathname = "/status/" ++ workspace ++ "/" ++ rest.
Lemma append_inj_l (p a b : string) : p ++ a = p ++ b -> a = b.
Proof. induction p as [|c p IH]; [done|]. cbn. intros [= H]. auto. Qed.
Lemma append_free (a b x y : string) : str_forall slug_char a = true -> str_forall slug_char b = true -> (x = "" \/ exists r, x = "/" ++ r) -> (y = "" \/ exists r, y = "/" ++ r) ->
  a ++ x = b ++ y -> a = b.
Proof.
  revert b. induction a as [|c a IH]; intros [|d b] Ha Hb Hx Hy E; [done | | |].
  - exfalso. cbn in E. destruct Hx as [->|[r ->]]; [done|]. cbn in E. injection E as <- _. cbn in Hb. done.
  - exfalso. cbn in E. destruct Hy as [->|[r ->]]; [done|]. cbn in E. injection E as -> _. cbn in Ha. done.
  - cbn in E. injection E as -> E. f_equal. cbn in Ha, Hb. apply andb_true_iff in Ha as [_ Ha], Hb as [_ Hb]. by apply IH.
Qed.
Lemma status_page_unique a b pathname : slug_shape a = true -> slug_shape b = true -> status_page_of a pathname -> status_page_of b pathname -> a = b.
Proof.
  unfold slug_shape. intros Ha Hb. bool_hyps. intros [->|[r ->]] [E|[r' E]]; apply append_inj_l in E.
  - done.
  - rewrite <- (str_app_nil_r a) in E. eapply append_free; [done | done | by left | right; by exists r' | exact E].
  - symmetry in E. rewrite <- (str_app_nil_r b) in E. symmetry. eapply append_free; [done | done | by left | right; by exists r | exact E].
  - eapply append_free; [done | done | right; by exists r | right; by exists r' | exact E].
Qed.

(** The routes of the hostnames are never stale: however requests and changes of the configured
    routes follow each other, every request to an instance of the application gets the route, or
    the error, that reading the configuration afresh would give. *)
Theorem domain_routes_agree requests : routed initial_cache requests = map (fun x => route_for x.1 x.2) requests.
Proof. apply routed_agrees, initial_cache_ok. Qed.

(** The root, the assets, or a page below the status page of the configured workspace. *)
Definition asset_path (pathname : string) : Prop := pathname = "/__data.json" \/ exists rest, pathname = "/_app/" ++ rest.
Definition public_path (workspace pathname : string) : Prop := pathname = "/" \/ asset_path pathname \/ status_page_of workspace pathname.
Lemma public_domain_paths route pathname : is_admin_route route = false -> slug_shape (route_workspace route) = true ->
  domainRouteAllowsPath route pathname = true <-> public_path (route_workspace route) pathname.
Proof.
  intros Ha Hs. unfold domainRouteAllowsPath, public_path, asset_path, status_page_of. rewrite Ha.
  rewrite slug_encoded by (unfold slug_shape in Hs; by bool_hyps). cbv zeta.
  assert (E : String.eqb pathname ("/status/" ++ route_workspace route) || starts_with (("/status/" ++ route_workspace route) ++ "/") pathname = true <->
    pathname = "/status/" ++ route_workspace route \/ exists rest, pathname = "/status/" ++ route_workspace route ++ "/" ++ rest).
  { rewrite orb_true_iff, String.eqb_eq, starts_with_split. split; (intros [->|[rest ->]]; [by left | right; exists rest]); by rewrite !str_app_assoc. }
  destruct (_ || _ || _) eqn:Er in |- *.
  - rewrite !orb_true_iff, !String.eqb_eq, starts_with_split in Er. split; [tauto | done].
  - rewrite E. assert (H : ~ (pathname = "/" \/ pathname = "/__data.json" \/ exists rest, pathname = "/_app/" ++ rest)); [|tauto].
    rewrite <- starts_with_split. rewrite <- !String.eqb_eq. rewrite !orb_false_iff in Er. destruct Er as [[-> ->] ->]. by intros [?|[?|?]].
Qed.
Lemma empty_prefix s : String.prefix "" s = true.
Proof. by destruct s. Qed.
(** What an allowed path gets. *)
Lemma allowed_open (e : gate_env (U := U)) q route : is_admin_route route = false ->
  gq_pathname q = "/" \/ status_page_of (route_workspace route) (gq_pathname q) -> handle_allowed e q (Some route) = page (Some route) None false.
Proof.
  intros Ha Hp. unfold handle_allowed, isPublicDomainRoot, isPublicStatusPath. rewrite Ha.
  destruct Hp as [E|[E|[rest E]]]; rewrite E; unfold starts_with; cbn; rewrite ?empty_prefix; reflexivity.
Qed.
Lemma allowed_asset (e : gate_env (U := U)) q route : asset_path (gq_pathname q) ->
  handle_allowed e q (Some route) = page (Some route) (Some (ge_session e q)) (match ge_session e q with Some _ => true | None => false end) \/
  handle_allowed e q (Some route) = to_setup /\ ge_installed e = false.
Proof.
  intros Hp. unfold handle_allowed, isPublicDomainRoot, isPublicStatusPath, requiresPrivateCaching. cbv zeta.
  destruct Hp as [E|[rest E]]; rewrite E.
  - left. unfold starts_with. cbn. rewrite ?andb_false_r. by destruct (ge_session e q).
  - unfold starts_with. cbn. rewrite ?empty_prefix, ?andb_false_r. cbn [negb andb orb]. destruct (ge_installed e); [rewrite andb_false_r|destruct (negb (includes "." rest))]; cbn [andb];
      first [right; split; reflexivity | left; destruct (ge_session e q); reflexivity].
Qed.

(** C15: A hostname for the public shows the public nothing else.  On a hostname that is configured
    for a status page, a machine or a service, once the body is within its bound, the outcome is
    decided by the path.  The root and the status pages of the configured workspace are shown
    without looking for a session.  The assets are served, or lead to the setup while there is no
    installation.  Every other path, whatever it is, is answered with 404 whether or not there is
    a session, whatever the limits of sign-in attempts say and whether or not the installation is
    complete: in particular the sign-in itself, all pages of administration, and the status pages
    of every other workspace.  The cache of routes stays true to what it was read from. *)
Theorem public_domain_confined (e : gate_env (U := U)) cache q route : cache_ok cache ->
  route_for (ge_routes e) (gq_hostname q) = Ok (Some route) -> is_admin_route route = false -> ge_bound e = true ->
  let out := (handle e cache q).1 in
  let workspace := route_workspace route in
  match withBoundedRequestBody (gq_request q) (requestBodyLimit (gq_pathname q)) with
  | Err cause => out = thrown cause
  | Ok bounded =>
      let session := ge_session e (GateRequest (gq_method q) (gq_pathname q) (gq_hostname q) bounded (gq_text q)) in
      (gq_pathname q = "/" \/ status_page_of workspace (gq_pathname q) -> out = page (Some route) None false) /\
      (asset_path (gq_pathname q) ->
         out = page (Some route) (Some session) (match session with Some _ => true | None => false end) \/
         out = to_setup /\ ge_installed e = false) /\
      (~ public_path workspace (gq_pathname q) -> out = answered 404) /\
      (forall other, slug_shape other = true -> other <> workspace -> status_page_of other (gq_pathname q) -> out = answered 404)
  end /\ cache_ok (handle e cache q).2.
Proof.
  intros Hc Hf Ha Hb out workspace. unfold out, handle. clear out. destruct (withBoundedRequestBody _ _) as [bounded|cause]; [|done].
  rewrite Hb. cbn [negb gq_hostname gq_pathname].
  pose proof (cached_route cache (ge_routes e) (gq_hostname q) Hc) as [H1 H2].
  destruct (domainRouteForRequest cache (ge_routes e) (gq_hostname q)) as [found cache']. cbn [fst snd] in H1, H2 |- *. rewrite Hf in H1. subst found.
  split; [|exact H2]. pose proof (found_slug _ _ _ Hf) as Hs. pose proof (public_domain_paths route (gq_pathname q) Ha Hs) as Hp.
  assert (Hno : ~ public_path workspace (gq_pathname q) -> domainRouteAllowsPath route (gq_pathname q) = false).
  { intros H. apply not_true_is_false. by rewrite Hp. }
  split_and!.
  - intros H. rewrite (proj2 Hp) by (unfold public_path; tauto). by apply allowed_open.
  - intros H. rewrite (proj2 Hp) by (unfold public_path; tauto). by apply allowed_asset.
  - intros H. by rewrite Hno.
  - intros other Ho Hne Hother. rewrite Hno; [done|]. intros [E|[[E|[rest E]]|E]];
      [rewrite E in Hother; by destruct Hother as [?|[? ?]].. |]. by apply Hne; eapply status_page_unique.
Qed.
End Confined.

(** ** A recorded configuration *)

#[local] Instance rg_parts : UrlParts (UA := ToyUrls) := {| port := fun _ => ""; search := fun _ => ""; url_hash := fun _ => "" |}.
Definition rg_routes : string :=
  json_stringify (OObj [("status.example.com", OObj [("kind", OStr "status"); ("workspace", OStr "team")]); ("Admin.Example.com.", OObj [("kind", OStr "admin"); ("workspace", OStr "team")])]).
Definition rg_env : gate_env (U := string) := GateEnv true rg_routes (fun _ => true) (fun _ => true) true (fun _ => Some "ada").
Definition rg_request (hostname pathname : string) : gate_request := GateRequest "GET" pathname hostname (Request [] None) (Ok "").
Theorem public_domain_confined_witness :
  route_for rg_routes "status.example.com" = Ok (Some (status_route "team")) /\
  map (fun x => (handle rg_env initial_cache (rg_request x.1 x.2)).1)
    [("status.example.com", "/"); ("status.example.com", "/status/team/machines"); ("status.example.com", "/status/other"); ("status.example.com", "/team/admin"); ("admin.example.com", "/team/admin");
     ("elsewhere.example.com", "/team")] =
    [page (Some (status_route "team")) None false; page (Some (status_route "team")) None false; answered 404; answered 404;
     page (Some (admin_route "team")) (Some (Some "ada")) true; page None (Some (Some "ada")) true] /\
  cache_ok (handle rg_env initial_cache (rg_request "status.example.com" "/status/other")).2.
Proof.
  split; [vm_compute; reflexivity|]. split; [vm_compute; reflexivity|].
  apply (public_domain_confined rg_env initial_cache (rg_request "status.example.com" "/status/other") (status_route "team"));
    [reflexivity | vm_compute; reflexivity | reflexivity | reflexivity].
Defined.
Example bounded_bodies :
  let body := Some [Ok [byte_of_Z 1]; Ok [byte_of_Z 2; byte_of_Z 3]] in
  withBoundedRequestBody (Request [("content-length", "3")] body) 3 = Ok (Request [] (Some [Ok [byte_of_Z 1; byte_of_Z 2; byte_of_Z 3]])) /\
  withBoundedRequestBody (Request [("content-length", "9")] body) 3 = Err "413 Request body is too large" /\
  withBoundedRequestBody (Request [] body) 2 = Err "413 Request body is too large".
Proof. vm_compute. done. Qed.
