(* ===== verification/AdminPages.v ===== *)
(** * AdminPages: what administrators and members find listed

    The panel of [apps/web/src/lib/server/workspace-access.ts] with the members, invitations and
    permissions of a workspace, the audit log of [workspace-audit.ts], and the list of a user's
    workspaces of [workspace-lifecycle.ts].  All of them come in pages of fifty.  The panel says
    what a member may do with each resource, and the list until when a deleted workspace can be
    restored; the theorems compare both with what is enforced ([Authz], [ResourceLifecycle]). *)

From Stdlib Require Import ZArith Lia Bool String List Sorted.
From stdpp Require Import base tactics list strings sorting.
From S2P Require Import Prelude.
From S2P Require Import Js.
From S2P Require Import Sql.
From S2P Require Import Crypto.
From S2P Require Import Authz.
From S2P Require Import ControlPlane.
From S2P Require Import AuditLog.
From S2P Require Import ResourceLifecycle.
From S2P Require Import SoftDelete.
From S2P Require Import WorkspaceAccess.
From S2P Require Import Invitations.
From S2P Require Import PublicStatusPages.
From S2P Require Import NotificationActions.
Open Scope string_scope.
Open Scope Z_scope.

(** ** Pages *)

(** [SELECT COUNT] over a subquery with [LIMIT ?] *)
Definition count_up_to {A} (limit : Z) (l : list A) : Z := Z.min limit (Z.of_nat (length l)).
(** [ORDER BY ... LIMIT PAGE_SIZE OFFSET (page - 1) * PAGE_SIZE] *)
Definition page_of_rows {A} (leb : A -> A -> bool) (page : Z) (l : list A) : list A :=
  take (Z.to_nat PAGE_SIZE) (drop (Z.to_nat ((page - 1) * PAGE_SIZE)) (order_by leb l)).

(** ** The access panel *)

(** The columns of these tables that [access_db] leaves out: when a membership was created, and
    the name of a container. *)
Record panel_db := PanelDb { pl_access : access_db; pl_since : membership -> Z; pl_container : owned_row -> string }.
(* @src apps/web/src/lib/server/workspace-access.ts WorkspaceAccessMember *)
Record WorkspaceAccessMember := AccessMember {
  wm_id : string;
  wm_name : string;
  wm_email : string;
  wm_role : WorkspaceRole;
  wm_status : membership_status;
  wm_createdAt : Z;
  wm_current : bool;
}.
(* @src apps/web/src/lib/server/workspace-access.ts WorkspaceAccessInvitation *)
Record WorkspaceAccessInvitation := AccessInvitation {
  wi_id : string;
  wi_email : string;
  wi_role : WorkspaceRole;
  wi_expiresAt : Z;
  wi_createdAt : Z;
  wi_expired : bool;
}.
(* @src apps/web/src/lib/server/workspace-access.ts WorkspaceAccessResource *)
Record WorkspaceAccessResource := AccessResource { wa_id : string; wa_type : WorkspaceResourceType; wa_name : string; wa_permission : ResourcePermission }.
(* @src apps/web/src/lib/server/workspace-access.ts WorkspaceAccessPanel *)
Record WorkspaceAccessPanel := AccessPanel {
  ap_members : list WorkspaceAccessMember;
  ap_invitations : list WorkspaceAccessInvitation;
  ap_selectedMemberId : option string;
  ap_resources : list WorkspaceAccessResource;
  ap_memberPagination : WorkspaceAccessPagination;
  ap_invitationPagination : WorkspaceAccessPagination;
  ap_resourcePagination : WorkspaceAccessPagination;
}.
(** The page numbers are integers or something else ([None]). *)
(* @src apps/web/src/lib/server/workspace-access.ts WorkspaceAccessRequest *)
Record WorkspaceAccessRequest := AccessRequest {
  rq_memberId : option string;
  rq_memberPage : option Z;
  rq_invitationPage : option Z;
  rq_resourcePage : option Z;
  rq_now : Z;
}.

(** The rows of the three queries. *)
(* @src apps/web/src/lib/server/workspace-access.ts 167-175 loadWorkspaceAccessPanel *)
Definition panel_members (p : panel_db) (workspaceId : string) : list (membership * user_row) :=
  m ← ct_memberships (ax_control (pl_access p));
  u ← ax_users (pl_access p);
  if String.eqb (us_id u) (mb_user m) && String.eqb (mb_workspace m) workspaceId && joined m then [(m, u)] else [].
Definition role_rank (r : WorkspaceRole) : Z := match r with admin => 0 | member => 1 end.
Definition member_leb (a b : membership * user_row) : bool :=
  ordered [Z.compare (role_rank (mb_role a.1)) (role_rank (mb_role b.1)); String.compare (us_name a.2) (us_name b.2); String.compare (us_email a.2) (us_email b.2);
           String.compare (mb_user a.1) (mb_user b.1)].
Definition panel_invitations (p : panel_db) (workspaceId : string) : list invitation_row :=
  List.filter (fun i => String.eqb (iv_workspace i) workspaceId && iv_pending i) (ax_invitations (pl_access p)).
Definition invitation_leb (a b : invitation_row) : bool := ordered [Z.compare (iv_created b) (iv_created a); String.compare (iv_id b) (iv_id a)].
(** A row of the union: type, id and name. *)
Definition union_row : Type := WorkspaceResourceType * string * string.
Definition live_managed {C} (workspaceId : string) (t : list (managed_row C)) : list (managed_row C) :=
  List.filter (fun r => String.eqb (mg_workspace r) workspaceId && bool_decide (mg_deleted r = None)) t.
(* @src apps/web/src/lib/server/workspace-access.ts 185-204 loadWorkspaceAccessPanel *)
Definition panel_resources (p : panel_db) (workspaceId : string) : list union_row :=
  let d := ax_control (pl_access p) in
  (map (fun r => (wr_machine, mg_id r, mg_name r)) (live_managed workspaceId (ct_machines d)) ++
   map (fun r => (wr_service, mg_id r, mg_name r)) (live_managed workspaceId (ct_services d)) ++
   map (fun r => (wr_container, ow_id r, pl_container p r))
     (List.filter (fun r => String.eqb (ow_workspace r) workspaceId && bool_decide (ow_deleted r = None)) (ct_owned d containers)))%list.
Definition union_leb (a b : union_row) : bool := ordered [String.compare (wr_name a.1.1) (wr_name b.1.1); String.compare a.2 b.2; String.compare a.1.2 b.1.2].

(** [`${grant.resource_type}:${grant.resource_id}`], the key of [grantsByResource]. *)
Definition resource_key (type id : string) : string := type ++ ":" ++ id.
Definition type_name (t : ResourceType) : string :=
  match t with RMachine => "machine" | RService => "service" | RContainer => "container" | RDashboard => "dashboard" | RIncident => "incident" end.
(* @src apps/web/src/lib/server/workspace-access.ts 219-231 loadWorkspaceAccessPanel *)
Definition panel_grants (d : control_tables) (workspaceId : string) (selectedMemberId : option string) (resourceIds : list string) : list ResourceGrant :=
  match selectedMemberId with
  | None => []
  | Some selected =>
      if String.eqb selected "" then []
      else map gr_grant (List.filter (fun g => String.eqb (gr_workspace g) workspaceId && String.eqb (gr_user g) selected &&
        str_in (type_name (resourceType (gr_grant g))) ["machine"; "service"; "container"] && str_in (resourceId (gr_grant g)) resourceIds) (ct_grants d))
  end.
(** A map from keys to lists, in the order of insertion. *)
Fixpoint push_grant (key : string) (g : ResourceGrant) (m : list (string * list ResourceGrant)) : list (string * list ResourceGrant) :=
  match m with
  | [] => [(key, [g])]
  | (k, l) :: rest => if String.eqb k key then (k, l ++ [g])%list :: rest else (k, l) :: push_grant key g rest
  end.
(* @src apps/web/src/lib/server/workspace-access.ts 232-238 loadWorkspaceAccessPanel *)
Definition grantsByResource (grants : list ResourceGrant) : list (string * list ResourceGrant) :=
  foldl (fun m g => push_grant (resource_key (type_name (resourceType g)) (resourceId g)) g m) [] grants.
Fixpoint map_get (key : string) (m : list (string * list ResourceGrant)) : option (list ResourceGrant) :=
  match m with [] => None | (k, l) :: rest => if String.eqb k key then Some l else map_get key rest end.
Definition member_shown (p : panel_db) (userId : string) (r : membership * user_row) : WorkspaceAccessMember :=
  AccessMember (mb_user r.1) (us_name r.2) (us_email r.2) (mb_role r.1) (mb_status r.1) (pl_since p r.1) (String.eqb (mb_user r.1) userId).
(* @src apps/web/src/lib/server/workspace-access.ts 215-218 loadWorkspaceAccessPanel *)
Definition select_member (members : list WorkspaceAccessMember) (requested : option string) : option string :=
  let selectableMembers := List.filter (fun m => bool_decide (wm_role m = member)) members in
  if existsb (fun m => bool_decide (Some (wm_id m) = requested)) selectableMembers then requested else wm_id <$> hd_error selectableMembers.
(* @src apps/web/src/lib/server/workspace-access.ts loadWorkspaceAccessPanel *)
Definition loadWorkspaceAccessPanel (p : panel_db) (workspaceSlug userId : string) (request : WorkspaceAccessRequest) : res WorkspaceAccessPanel :=
  let d := ax_control (pl_access p) in
  let* access := requireWorkspaceAdmin d workspaceSlug userId in
  let workspaceId := m_workspaceId access in
  let memberPagination := pagination (count_up_to (MAX_ENTRIES + 1) (panel_members p workspaceId)) (rq_memberPage request) in
  let invitationPagination := pagination (count_up_to (MAX_ENTRIES + 1) (panel_invitations p workspaceId)) (rq_invitationPage request) in
  let resourcePagination := pagination (count_up_to (MAX_ENTRIES + 1) (panel_resources p workspaceId)) (rq_resourcePage request) in
  let memberRows := page_of_rows member_leb (pg_page memberPagination) (panel_members p workspaceId) in
  let invitationRows := page_of_rows invitation_leb (pg_page invitationPagination) (panel_invitations p workspaceId) in
  let resourceRows := page_of_rows union_leb (pg_page resourcePagination) (panel_resources p workspaceId) in
  let members := map (member_shown p userId) memberRows in
  let selectedMemberId := select_member members (rq_memberId request) in
  let byResource := grantsByResource (panel_grants d workspaceId selectedMemberId (map (fun r => r.1.2) resourceRows)) in
  Ok (AccessPanel members
    (map (fun i => AccessInvitation (iv_id i) (iv_email i) (iv_role i) (iv_expires i) (iv_created i) (iv_expires i <=? rq_now request)) invitationRows)
    selectedMemberId
    (map (fun r => AccessResource r.1.2 r.1.1 r.2 (permissionFromGrants (default [] (map_get (resource_key (wr_name r.1.1) r.1.2) byResource)))) resourceRows)
    memberPagination invitationPagination resourcePagination).

(** ** The audit log *)

(* @src apps/web/src/lib/server/workspace-audit.ts 22-32 WorkspaceAuditPage *)
Record audit_entry := AuditEntry {
  ae_id : string;
  ae_action : string;
  ae_resourceType : string;
  ae_resourceId : string;
  ae_beforeDigest : option string;
  ae_afterDigest : option string;
  ae_createdAt : Z;
  ae_actorName : string;
  ae_actorEmail : option string;
}.
(* @src apps/web/src/lib/server/workspace-audit.ts WorkspaceAuditPage *)
Record WorkspaceAuditPage := AuditPage { aq_entries : list audit_entry; aq_page : Z; aq_pages : Z; aq_total : Z; aq_totalCapped : bool }.
Definition audits_of (workspaceId : string) (d : control_tables) : list audit_row := List.filter (fun a => String.eqb (al_workspace a) workspaceId) (ct_audits d).
Definition audit_leb (a b : audit_row) : bool := ordered [Z.compare (al_created b) (al_created a); String.compare (al_id b) (al_id a)].
(** [LEFT JOIN user u ON u.id = a.actor_user_id] *)
(* @src apps/web/src/lib/server/workspace-audit.ts 72-82 loadWorkspaceAuditPage *)
Definition entry_shown (users : list user_row) (a : audit_row) : audit_entry :=
  let actor := find_key us_id (al_actor a) users in
  AuditEntry (al_id a) (al_action a) (al_type a) (al_resource a) (al_before a) (al_after a) (al_created a)
    (default "Deleted user" (us_name <$> actor)) (us_email <$> actor).
(* @src apps/web/src/lib/server/workspace-audit.ts loadWorkspaceAuditPage *)
Definition loadWorkspaceAuditPage (s : access_db) (workspaceSlug userId : string) (requestedPage : option Z) : res WorkspaceAuditPage :=
  let page := match requestedPage with Some n => Z.min MAX_PAGE (Z.max 1 n) | None => 1 end in
  let* access := requireWorkspaceAdmin (ax_control s) workspaceSlug userId in
  let rows := audits_of (m_workspaceId access) (ax_control s) in
  let count := count_up_to (MAX_ENTRIES + 1) rows in
  let total := Z.min count MAX_ENTRIES in
  let pages := Z.max 1 (Z.min MAX_PAGE ((total + PAGE_SIZE - 1) / PAGE_SIZE)) in
  let selectedPage := Z.min page pages in
  Ok (AuditPage (map (entry_shown (ax_users s)) (page_of_rows audit_leb selectedPage rows)) selectedPage pages total (MAX_ENTRIES <? count)).

(** ** A user's workspaces *)

(* @src apps/web/src/lib/server/workspace-lifecycle.ts WorkspaceMembershipSummary *)
Record WorkspaceMembershipSummary := MembershipSummary {
  wz_id : string;
  wz_name : string;
  wz_slug : string;
  wz_role : WorkspaceRole;
  wz_deletedAt : option Z;
  wz_recoverableUntil : option Z;
}.
(* @src apps/web/src/lib/server/workspace-lifecycle.ts WorkspaceMembershipPage *)
Record WorkspaceMembershipPage := MembershipPage {
  wp_workspaces : list WorkspaceMembershipSummary;
  wp_page : Z;
  wp_pageSize : Z;
  wp_pages : Z;
  wp_total : Z;
  wp_totalCapped : bool;
  wp_activeCount : Z;
  wp_activeCountCapped : bool;
}.
(** The workspaces with the user's role. *)
Definition workspaces_of (userId : string) (d : control_tables) : list (workspace_state * WorkspaceRole) :=
  m ← ct_memberships d;
  w ← ct_workspaces d;
  if String.eqb (wk_id w) (mb_workspace m) && String.eqb (mb_user m) userId && bool_decide (mb_status m = active) then [(w, mb_role m)] else [].
Definition deleted_rank (w : workspace_state) : Z := if bool_decide (wk_deleted w = None) then 0 else 1.
Definition workspace_leb (a b : workspace_state * WorkspaceRole) : bool :=
  ordered [Z.compare (deleted_rank a.1) (deleted_rank b.1); String.compare (wk_name a.1) (wk_name b.1); String.compare (wk_id a.1) (wk_id b.1)].
(** [soft_delete_grace_days ?? 7] of the joined policy is [grace_days]. *)
(* @src apps/web/src/lib/server/workspace-lifecycle.ts mapWorkspaceMembership *)
Definition mapWorkspaceMembership (d : control_tables) (r : workspace_state * WorkspaceRole) : WorkspaceMembershipSummary :=
  MembershipSummary (wk_id r.1) (wk_name r.1) (wk_slug r.1) r.2 (wk_deleted r.1) ((fun t => t + grace_days d (wk_id r.1) * DAY_MS) <$> wk_deleted r.1).
(* @src apps/web/src/lib/server/workspace-lifecycle.ts listUserWorkspaces *)
Definition listUserWorkspaces (d : control_tables) (userId : string) : list WorkspaceMembershipSummary :=
  map (mapWorkspaceMembership d) (order_limit workspace_leb 200 (workspaces_of userId d)).
(** [WORKSPACE_PAGE_SIZE], [WORKSPACE_MAX_PAGE] and [WORKSPACE_MAX_ENTRIES] have the values of the
    access panel's constants. *)
(* @src apps/web/src/lib/server/workspace-lifecycle.ts listUserWorkspacePage *)
Definition listUserWorkspacePage (d : control_tables) (userId : string) (requested : option Z) : WorkspaceMembershipPage :=
  let rows := workspaces_of userId d in
  let counted := order_limit workspace_leb (MAX_ENTRIES + 1) rows in
  let count := Z.of_nat (length counted) in
  let active_count := count_if (fun r => bool_decide (wk_deleted r.1 = None)) counted in
  let total := Z.min count MAX_ENTRIES in
  let pages := Z.max 1 (Z.min MAX_PAGE ((total + PAGE_SIZE - 1) / PAGE_SIZE)) in
  let requestedPage := match requested with Some n => Z.max 1 n | None => 1 end in
  let page := Z.min requestedPage pages in
  MembershipPage (map (mapWorkspaceMembership d) (page_of_rows workspace_leb page rows)) page PAGE_SIZE pages total (MAX_ENTRIES <? count)
    (Z.min active_count MAX_ENTRIES) (MAX_ENTRIES <? active_count).

(** ** The panel shows what is enforced *)

Lemma map_get_push key g k m : default [] (map_get key (push_grant k g m)) = (default [] (map_get key m) ++ (if String.eqb k key then [g] else []))%list.
Proof.
  induction m as [|[k' l] m IH]; cbn; [by destruct (String.eqb k key)|].
  destruct (String.eqb_spec k' k) as [->|Hne]; cbn.
  - destruct (String.eqb k key); cbn; [done | by rewrite app_nil_r].
  - destruct (String.eqb_spec k' key) as [->|Hne']; cbn; [|exact IH]. apply String.eqb_neq in Hne. rewrite String.eqb_sym, Hne. by rewrite app_nil_r.
Qed.
Lemma map_get_grants key gs : default [] (map_get key (grantsByResource gs)) = List.filter (fun g => String.eqb (resource_key (type_name (resourceType g)) (resourceId g)) key) gs.
Proof.
  unfold grantsByResource. change (List.filter _ gs) with (default [] (map_get key []) ++ List.filter (fun g => String.eqb (resource_key (type_name (resourceType g)) (resourceId g)) key) gs)%list.
  generalize (@nil (string * list ResourceGrant)) as m. induction gs as [|g gs IH]; intros m; cbn [foldl List.filter]; [by rewrite app_nil_r|].
  rewrite IH, map_get_push, <- app_assoc. f_equal. by destruct (String.eqb _ key).
Qed.
Lemma resource_key_eqb t id type id' : String.eqb (resource_key (type_name t) id) (resource_key (wr_name type) id') = grant_for (wr_type type) id' (Grant t id view allow).
Proof. unfold grant_for, resource_key. cbn [resourceType resourceId]. rewrite <- string_eqb_decide. by destruct t, type. Qed.
Lemma wr_listed type : str_in (type_name (wr_type type)) ["machine"; "service"; "container"] = true.
Proof. by destruct type. Qed.
(** The permission shown is the one of the grants the decisions look at. *)
Lemma shown_permission d w u ids type id : u <> "" -> id ∈ ids ->
  default [] (map_get (resource_key (wr_name type) id) (grantsByResource (panel_grants d w (Some u) ids))) =
  List.filter (grant_for (wr_type type) id) (subject_grants w u (authz_view d)).
Proof.
  intros Hu Hid. rewrite map_get_grants. unfold panel_grants. apply String.eqb_neq in Hu. rewrite Hu. rewrite relevant_grants.
  induction (ct_grants d) as [|g l IH]; [done|]. cbn [List.filter]. set (p := _ && str_in (resourceId _) ids). unfold grant_on at 1.
  assert (E : (if p then String.eqb (resource_key (type_name (resourceType (gr_grant g))) (resourceId (gr_grant g))) (resource_key (wr_name type) id) else false) =
    String.eqb (gr_workspace g) w && String.eqb (gr_user g) u && bool_decide (resourceType (gr_grant g) = wr_type type) && String.eqb (resourceId (gr_grant g)) id).
  { rewrite resource_key_eqb. unfold p, grant_for. cbn [resourceType resourceId]. destruct (String.eqb (gr_workspace g) w && String.eqb (gr_user g) u); [|done]. cbn [andb].
    rewrite (string_eqb_decide (resourceId (gr_grant g)) id). destruct (bool_decide_reflect (resourceType (gr_grant g) = wr_type type)) as [->|]; [rewrite wr_listed | by destruct (_ && _)].
    cbn [andb]. destruct (bool_decide_reflect (resourceId (gr_grant g) = id)) as [->|]; [|clear; by destruct (str_in _ _)]. by rewrite (proj2 (str_in_elem _ _) Hid). }
  destruct p; cbn [map List.filter].
  - rewrite E. destruct (_ && String.eqb (resourceId (gr_grant g)) id); cbn [map]; by rewrite IH.
  - rewrite <- E. exact IH.
Qed.

(** What the grants on a resource allow and refuse, by the permission that is shown for them.
    A refusal also shows when only one of viewing and managing is refused; stored by the panel
    itself, both are. *)
Lemma permission_cases l : let refuses c := existsb (fun g => deniesCapability g c) l in let allows c := existsb (fun g => allowsCapability g c) l in
  match permissionFromGrants l with
  | perm_deny => refuses manage = true
  | perm_manage => (forall c, refuses c = false) /\ allows view = true /\ allows manage = true
  | perm_view => (forall c, refuses c = false) /\ allows view = true /\ allows manage = false
  | perm_none => (forall c, refuses c = false) /\ forall c, allows c = false
  end.
Proof.
  cbv zeta. unfold permissionFromGrants. destruct (existsb (fun g => bool_decide (effect g = deny)) l) eqn:Ed.
  { apply existsb_exists_elem in Ed as (g & Hg & Hd%bool_decide_eq_true). apply existsb_exists_elem. exists g. split; [done|]. unfold deniesCapability. rewrite Hd. by destruct (capability g). }
  assert (Hno : forall c, existsb (fun g => deniesCapability g c) l = false).
  { intros c. apply existsb_false_elem. intros g Hg. rewrite existsb_false_elem in Ed. unfold deniesCapability. by rewrite (Ed g Hg). }
  assert (Hall : forall c, (existsb (fun g => allowsCapability g c) l = true <-> exists g, g ∈ l /\ effect g = allow /\ (capability g = c \/ c = view /\ capability g = manage))).
  { intros c. rewrite existsb_exists_elem. unfold allowsCapability. setoid_rewrite andb_true_iff. setoid_rewrite orb_true_iff. setoid_rewrite andb_true_iff. by setoid_rewrite bool_decide_eq_true. }
  assert (Hcap : forall c, (existsb (fun g => bool_decide (effect g = allow) && bool_decide (capability g = c)) l = true <-> exists g, g ∈ l /\ effect g = allow /\ capability g = c)).
  { intros c. rewrite existsb_exists_elem. setoid_rewrite andb_true_iff. by setoid_rewrite bool_decide_eq_true. }
  destruct (existsb (fun g => bool_decide (effect g = allow) && bool_decide (capability g = manage)) l) eqn:Em.
  { apply Hcap in Em as (g & Hg & H1 & H2). split; [done|]. split; apply Hall; exists g; split_and!; auto. }
  assert (Hnm : forall g, g ∈ l -> effect g = allow -> capability g <> manage) by (intros g Hg H1 H2; apply not_true_iff_false in Em; apply Em, Hcap; by exists g).
  assert (Hm : existsb (fun g => allowsCapability g manage) l = false) by (apply not_true_is_false; intros (g & Hg & H1 & [H2|[? _]])%Hall; [by apply (Hnm g) | done]).
  destruct (existsb (fun g => bool_decide (effect g = allow) && bool_decide (capability g = view)) l) eqn:Ev; (split; [done|]).
  - apply Hcap in Ev as (g & Hg & H1 & H2). split; [|done]. apply Hall. exists g. auto.
  - intros [|]; [|exact Hm]. apply not_true_is_false. intros (g & Hg & H1 & [H2|[_ H2]])%Hall; [|by apply (Hnm g)].
    apply not_true_iff_false in Ev. apply Ev, Hcap. by exists g.
Qed.
(** What the panel means by a permission: what is decided about viewing and about managing. *)
Definition means (shown : ResourcePermission) (may : Capability -> bool) : Prop :=
  match shown with
  | perm_manage => may view = true /\ may manage = true
  | perm_view => may view = true /\ may manage = false
  | perm_none => may view = false /\ may manage = false
  | perm_deny => may manage = false
  end.
(** A container has a machine.  A permission of its own adds to what the machine's gives, and a
    refusal comes first; without one the machine's decides.  So "view" does not keep a member who
    may manage the machine from managing the container, and "none" stands for what the machine
    gives. *)
Definition container_means (shown : ResourcePermission) (may_machine may : Capability -> bool) : Prop :=
  match shown with
  | perm_manage => may view = true /\ may manage = true
  | perm_view => may view = true /\ may manage = may_machine manage
  | perm_none => forall c, may c = may_machine c
  | perm_deny => may manage = false
  end.
Lemma permission_means grants t id : means (permissionFromGrants (List.filter (grant_for t id) grants)) (canAccessResource member grants t id).
Proof.
  unfold canAccessResource. rewrite (bool_decide_eq_false_2 (member = admin)) by done. set (l := List.filter _ grants). pose proof (permission_cases l) as H. cbv zeta in H.
  destruct (permissionFromGrants l); cbn; [destruct H as (Hr & H) | destruct H as (Hr & H1 & H2).. | by rewrite H]; rewrite !Hr; [by rewrite !H | by rewrite H1, H2..].
Qed.
Lemma container_permission_means grants machineId id :
  container_means (permissionFromGrants (List.filter (grant_for RContainer id) grants)) (canAccessResource member grants RMachine machineId) (canAccessContainer member grants machineId id).
Proof.
  unfold canAccessContainer. rewrite (bool_decide_eq_false_2 (member = admin)) by done. set (l := List.filter _ grants). pose proof (permission_cases l) as H. cbv zeta in H.
  destruct (permissionFromGrants l); cbn; [destruct H as (Hr & H) | destruct H as (Hr & H1 & H2).. | by rewrite H]; [intros c; by rewrite Hr, H | by rewrite !Hr, H1, H2..].
Qed.
(** Whether a member's membership counts is a matter of its one row. *)
Lemma active_row d w u role row : keys_unique membership_key (ct_memberships d) -> row ∈ ct_memberships d -> mb_workspace row = w -> mb_user row = u -> mb_role row = role ->
  activeRoleCondition (Access w u role) (authz_view d) = bool_decide (mb_status row = active).
Proof.
  intros Hu Hr Hw Hus Hro. apply eq_true_iff_eq. rewrite bool_decide_eq_true. unfold activeRoleCondition. cbn [a_workspaceId a_userId a_role]. split.
  - intros (m & Hm & E)%existsb_exists_elem. bool_hyps. assert (m = row) as <-; [|done].
    apply (keys_unique_inj membership_key (ct_memberships d)); [done | done | done|]. unfold membership_key. congruence.
  - intros Ha. apply existsb_exists_elem. exists row. split; [done|]. by rewrite !bool_decide_eq_true_2 by congruence.
Qed.

Lemma panel_rows_in {A} (leb : A -> A -> bool) page l x : x ∈ page_of_rows leb page l -> x ∈ l.
Proof. 
  unfold page_of_rows. intros H. apply list_elem_of_lookup in H as [i Hi]. apply lookup_take_Some in Hi as [Hi _]. rewrite lookup_drop in Hi.
  apply (elem_of_order_by leb). by eapply list_elem_of_lookup_2.
Qed.
Lemma panel_resource_live p w r : r ∈ panel_resources p w -> resource_present (ax_control (pl_access p)) w r.1.1 r.1.2 = true.
Proof.
  unfold panel_resources, resource_present, requireWorkspaceResource, live_managed. rewrite !elem_of_app, !list_elem_of_fmap. setoid_rewrite filter_In_elem.
  intros [(x & -> & Hx & Hp)|[(x & -> & Hx & Hp)|(x & -> & Hx & Hp)]]; cbn; rewrite (proj2 (existsb_exists_elem _ _)); try done; exists x; (split; [done|]);
    apply andb_true_iff in Hp as [H1 H2]; by rewrite String.eqb_refl, H1, H2.
Qed.
Lemma panel_member_row p w user x : x ∈ panel_members p w -> let m := member_shown p user x in
  exists row, row ∈ ct_memberships (ax_control (pl_access p)) /\ mb_workspace row = w /\ mb_user row = wm_id m /\ mb_role row = wm_role m /\ mb_status row = wm_status m.
Proof.
  unfold panel_members. intros (m & Hx & Hm)%list_elem_of_bind. apply list_elem_of_bind in Hx as (u & Hx & _). destruct (_ && _) eqn:E; [|by apply elem_of_nil in Hx].
  apply list_elem_of_singleton in Hx as ->. bool_hyps. by exists m.
Qed.
Lemma selected_member members requested u : select_member members requested = Some u -> exists m, m ∈ members /\ wm_id m = u /\ wm_role m = member.
Proof.
  unfold select_member. destruct (existsb _ _) eqn:E.
  - intros ->. apply existsb_exists_elem in E as (m & Hm & E). apply filter_In_elem in Hm as [Hm Hr]. bool_hyps. exists m. split_and!; congruence.
  - destruct (List.filter _ members) as [|m l] eqn:El; [done|]. intros [= <-]. assert (Hm : m ∈ m :: l) by (by left). rewrite <- El in Hm.
    apply filter_In_elem in Hm as [Hm Hr]. bool_hyps. by exists m.
Qed.

(** ** Every page together *)

Lemma pages_share_out {A} (leb : A -> A -> bool) (l : list A) n : (length l <= n * Z.to_nat PAGE_SIZE)%nat ->
  concat (map (fun i => page_of_rows leb (Z.of_nat i + 1) l) (seq 0 n)) = order_by leb l.
Proof.
  intros Hn. rewrite <- (take_ge (order_by leb l) (n * Z.to_nat PAGE_SIZE)) by (by rewrite (order_by_perm leb l)). rewrite <- slices. f_equal.
  apply map_ext. intros i. unfold page_of_rows. do 2 f_equal. unfold PAGE_SIZE. lia.
Qed.
(** The number of pages of a list that is not cut off. *)
Definition pages_of_count (count : Z) : Z := Z.max 1 (Z.min MAX_PAGE ((Z.min count MAX_ENTRIES + PAGE_SIZE - 1) / PAGE_SIZE)).
Lemma pages_enough count : 0 <= count <= MAX_ENTRIES -> count <= pages_of_count count * PAGE_SIZE /\ 1 <= pages_of_count count <= MAX_PAGE.
Proof.
  unfold pages_of_count, MAX_ENTRIES, MAX_PAGE, PAGE_SIZE. intros H. rewrite (Z.min_l count) by lia.
  pose proof (Z.div_mod (count + 50 - 1) 50 ltac:(lia)). pose proof (Z.mod_pos_bound (count + 50 - 1) 50 ltac:(lia)).
  assert (0 <= (count + 50 - 1) / 50) by (apply Z.div_pos; lia). assert ((count + 50 - 1) / 50 < 101) by (apply Z.div_lt_upper_bound; lia). lia.
Qed.

(** What is listed on a page, when there is one. *)
Definition listed {P A} (content : P -> list A) (r : res P) : list A := match r with Ok p => content p | Err _ => [] end.
(** Pages one to [last] put together. *)
Definition all_pages {B} (last : Z) (load : option Z -> list B) : list B := concat (map (fun i => load (Some (Z.of_nat i + 1))) (seq 0 (Z.to_nat last))).
Lemma follow_pages {A B} (leb : A -> A -> bool) (shown : A -> B) (load : option Z -> list B) rows n :
  (forall i, 1 <= i <= n -> load (Some i) = map shown (page_of_rows leb i rows)) -> 1 <= n -> Z.of_nat (length rows) <= n * PAGE_SIZE ->
  all_pages n load = map shown (order_by leb rows).
Proof.
  intros Hload Hn Hl. unfold all_pages. rewrite <- (pages_share_out leb rows (Z.to_nat n)) by (unfold PAGE_SIZE in *; lia). rewrite concat_map, map_map. f_equal. apply map_ext_in.
  intros i Hi%in_seq. apply Hload. lia.
Qed.
Lemma counted_all {A} (l : list A) : Z.of_nat (length l) <= MAX_ENTRIES -> count_up_to (MAX_ENTRIES + 1) l = Z.of_nat (length l).
Proof. unfold count_up_to. lia. Qed.
Lemma pagination_page count i : 1 <= i <= pages_of_count count -> pg_page (pagination count (Some i)) = i.
Proof. intros H. cbn. fold (pages_of_count count). assert (pages_of_count count <= MAX_PAGE) by (unfold pages_of_count, MAX_PAGE; lia). unfold MAX_PAGE in *. lia. Qed.
Section Listed.
Context (s : access_db) (since : membership -> Z) (container : owned_row -> string) (slug userId : string) (access : MonitoringAccess).
Let panel := PanelDb s since container.
Let d := ax_control s.
Context (Ha : requireWorkspaceAdmin d slug userId = Ok access).
Let w := m_workspaceId access.

Lemma panel_page request shown : loadWorkspaceAccessPanel panel slug userId request = Ok shown ->
  ap_members shown = map (member_shown panel userId) (page_of_rows member_leb (pg_page (ap_memberPagination shown)) (panel_members panel w)) /\
  map (fun r => (wa_type r, wa_id r, wa_name r)) (ap_resources shown) = page_of_rows union_leb (pg_page (ap_resourcePagination shown)) (panel_resources panel w) /\
  ap_memberPagination shown = pagination (count_up_to (MAX_ENTRIES + 1) (panel_members panel w)) (rq_memberPage request) /\
  ap_resourcePagination shown = pagination (count_up_to (MAX_ENTRIES + 1) (panel_resources panel w)) (rq_resourcePage request).
Proof.
  unfold loadWorkspaceAccessPanel. cbn [pl_access panel]. fold d. rewrite Ha. cbn [rbind]. cbv zeta. intros [= <-]. cbn. split_and!; [done | | done | done].
  rewrite map_map. cbn. etransitivity; [|apply map_id]. apply map_ext. by intros [[t id] name].
Qed.
Lemma panel_loads request : exists shown, loadWorkspaceAccessPanel panel slug userId request = Ok shown.
Proof. unfold loadWorkspaceAccessPanel. cbn [pl_access panel]. fold d. rewrite Ha. cbn [rbind]. by eexists. Qed.
End Listed.

(** Nothing is missing from these lists and nothing is on two pages.  As long as there are at most
    five thousand entries, the pages from the first to the last, put together, are: the audit
    rows of the workspace, newest first; its members, administrators first; all its live
    machines, services and containers; and the workspaces of a user, deleted ones last.  A number
    beyond the last page gives the last page. *)
Theorem pages_list_everything s since container slug userId access (Ha : requireWorkspaceAdmin (ax_control s) slug userId = Ok access) :
  let w := m_workspaceId access in let p := PanelDb s since container in let d := ax_control s in
  (Z.of_nat (length (audits_of w d)) <= MAX_ENTRIES -> exists last,
     (forall i page, loadWorkspaceAuditPage s slug userId i = Ok page -> aq_pages page = last /\ aq_total page = Z.of_nat (length (audits_of w d))) /\
     all_pages last (fun i => listed aq_entries (loadWorkspaceAuditPage s slug userId i)) = map (entry_shown (ax_users s)) (order_by audit_leb (audits_of w d)) /\
     forall i, last <= i -> loadWorkspaceAuditPage s slug userId (Some i) = loadWorkspaceAuditPage s slug userId (Some last)) /\
  (Z.of_nat (length (panel_members p w)) <= MAX_ENTRIES -> exists last,
     (forall i m r, listed (fun x => [pg_pages (ap_memberPagination x)]) (loadWorkspaceAccessPanel p slug userId (AccessRequest m i None r 0)) = [last]) /\
     all_pages last (fun i => listed ap_members (loadWorkspaceAccessPanel p slug userId (AccessRequest None i None None 0))) = map (member_shown p userId) (order_by member_leb (panel_members p w))) /\
  (Z.of_nat (length (panel_resources p w)) <= MAX_ENTRIES -> exists last,
     (forall m i r, listed (fun x => [pg_pages (ap_resourcePagination x)]) (loadWorkspaceAccessPanel p slug userId (AccessRequest m i None r 0)) = [last]) /\
     forall m, all_pages last (fun i => listed (fun x => map (fun r => (wa_type r, wa_id r, wa_name r)) (ap_resources x)) (loadWorkspaceAccessPanel p slug userId (AccessRequest m None None i 0))) =
       order_by union_leb (panel_resources p w)) /\
  (Z.of_nat (length (workspaces_of userId d)) <= MAX_ENTRIES -> exists last,
     (forall i, wp_pages (listUserWorkspacePage d userId i) = last) /\
     all_pages last (fun i => wp_workspaces (listUserWorkspacePage d userId i)) = map (mapWorkspaceMembership d) (order_by workspace_leb (workspaces_of userId d))).
Proof.
  intros w p d. subst d p. split_and!; intros Hl.
  - destruct (pages_enough (Z.of_nat (length (audits_of w (ax_control s))))) as [H1 H2]; [lia|]. set (n := pages_of_count _) in *. exists n.
    assert (Hload : forall i, loadWorkspaceAuditPage s slug userId i = Ok (AuditPage (map (entry_shown (ax_users s)) (page_of_rows audit_leb
      (Z.min (match i with Some n => Z.min MAX_PAGE (Z.max 1 n) | None => 1 end) n) (audits_of w (ax_control s)))) (Z.min (match i with Some n => Z.min MAX_PAGE (Z.max 1 n) | None => 1 end) n)
      n (Z.of_nat (length (audits_of w (ax_control s)))) false)).
    { intros i. unfold loadWorkspaceAuditPage. rewrite Ha. cbn [rbind]. fold w. rewrite (counted_all _ Hl). fold (pages_of_count (Z.of_nat (length (audits_of w (ax_control s))))). fold n.
      rewrite (proj2 (Z.ltb_ge _ _) Hl). do 2 f_equal. lia. }
    split_and!.
    + intros i page. rewrite Hload. by intros [= <-].
    + apply follow_pages; [|lia | lia]. intros i Hi. rewrite Hload. cbn. do 2 f_equal. lia.
    + intros i Hi. rewrite !Hload. assert (E : Z.min (Z.min MAX_PAGE (Z.max 1 i)) n = Z.min (Z.min MAX_PAGE (Z.max 1 n)) n) by lia. by rewrite E.
  - destruct (pages_enough (Z.of_nat (length (panel_members (PanelDb s since container) w)))) as [H1 H2]; [lia|]. exists (pages_of_count (Z.of_nat (length (panel_members (PanelDb s since container) w)))). split.
    + intros i m r. destruct (panel_loads s since container slug userId access Ha (AccessRequest m i None r 0)) as [shown E]. rewrite E.
      apply (panel_page s since container slug userId access Ha) in E as (_ & _ & E & _). fold w in E. cbn [listed]. rewrite E. by rewrite (counted_all _ Hl).
    + apply follow_pages; [|lia | lia]. intros i Hi. destruct (panel_loads s since container slug userId access Ha (AccessRequest None (Some i) None None 0)) as [shown E]. rewrite E.
      apply (panel_page s since container slug userId access Ha) in E as (E1 & _ & E & _). fold w in E, E1. cbn [listed]. rewrite E1, E. cbn [rq_memberPage]. rewrite (counted_all _ Hl), pagination_page by lia. done.
  - destruct (pages_enough (Z.of_nat (length (panel_resources (PanelDb s since container) w)))) as [H1 H2]; [lia|]. exists (pages_of_count (Z.of_nat (length (panel_resources (PanelDb s since container) w)))). split.
    + intros m i r. destruct (panel_loads s since container slug userId access Ha (AccessRequest m i None r 0)) as [shown E]. rewrite E.
      apply (panel_page s since container slug userId access Ha) in E as (_ & _ & _ & E). fold w in E. cbn [listed]. rewrite E. by rewrite (counted_all _ Hl).
    + intros m. rewrite <- (map_id (order_by union_leb _)). apply follow_pages; [|lia | lia].
      intros i Hi. destruct (panel_loads s since container slug userId access Ha (AccessRequest m None None (Some i) 0)) as [shown E]. rewrite E.
      apply (panel_page s since container slug userId access Ha) in E as (_ & E1 & _ & E). fold w in E, E1. cbn [listed]. rewrite E1, E, map_id. cbn [rq_resourcePage]. rewrite (counted_all _ Hl), pagination_page by lia. done.
  - destruct (pages_enough (Z.of_nat (length (workspaces_of userId (ax_control s))))) as [H1 H2]; [lia|]. exists (pages_of_count (Z.of_nat (length (workspaces_of userId (ax_control s))))).
    assert (Hc : Z.of_nat (length (order_limit workspace_leb (MAX_ENTRIES + 1) (workspaces_of userId (ax_control s)))) = Z.of_nat (length (workspaces_of userId (ax_control s)))).
    { rewrite order_limit_count by done. unfold MAX_ENTRIES, PAGE_SIZE, MAX_PAGE in *. lia. }
    split.
    + intros i. unfold listUserWorkspacePage. cbn [wp_pages]. by rewrite Hc.
    + apply follow_pages; [|lia | lia]. intros i Hi. unfold listUserWorkspacePage. cbn [wp_workspaces]. rewrite Hc. fold (pages_of_count (Z.of_nat (length (workspaces_of userId (ax_control s))))).
      do 2 f_equal. lia.
Qed.

(** ** Until when a workspace can be restored *)

Lemma count_if_one {R} (key : R -> string) (g : R -> bool) l r : keys_unique key l -> r ∈ l -> (forall x, g x = true -> key x = key r) -> g r = true -> count_if g l = 1.
Proof.
  intros Hu Hr Hg Hgr. pose proof (count_if_key key (key r) g l Hu) as Hk. rewrite (find_key_unique key (key r) l r Hu Hr eq_refl), Hgr in Hk. rewrite <- Hk.
  apply count_if_ext. intros x. unfold key_is. destruct (g x) eqn:E; [|by rewrite andb_false_r]. rewrite andb_true_r. symmetry. apply bool_decide_eq_true. by apply Hg.
Qed.
Lemma head_only {A} (l : list A) x : x ∈ l -> (forall y, y ∈ l -> y = x) -> head l = Some x.
Proof. destruct l as [|y l]; [by intros ?%elem_of_nil|]. intros _ H. cbn. f_equal. apply H. by left. Qed.
Lemma listed_membership d userId w role : keys_unique wk_id (ct_workspaces d) -> keys_unique membership_key (ct_memberships d) -> (w, role) ∈ workspaces_of userId d ->
  load_membership d (fun x => String.eqb (wk_id x) (wk_id w)) userId = Some (w, role) /\ (role = admin -> actor_is_admin d (wk_id w) userId = true) /\ w ∈ ct_workspaces d.
Proof.
  intros Hw Hm H. unfold workspaces_of in H. apply list_elem_of_bind in H as (m & H & Hin). apply list_elem_of_bind in H as (x & H & Hx).
  destruct (_ && _) eqn:E; [|by apply elem_of_nil in H]. apply list_elem_of_singleton in H as [= <- ->]. bool_hyps. subst.
  split_and!; [| | done].
  - unfold load_membership. apply head_only.
    + apply list_elem_of_bind. exists w. split; [|by apply filter_In_elem; rewrite String.eqb_refl]. apply list_elem_of_bind. exists m. split; [|done].
      rewrite !String.eqb_refl, bool_decide_eq_true_2 by done. rewrite H, String.eqb_refl. cbn. by left.
    + intros [x r] Hy. apply list_elem_of_bind in Hy as (x' & Hy & Hx'). apply filter_In_elem in Hx' as [Hx' Ex]. apply String.eqb_eq in Ex.
      assert (x' = w) as -> by (by apply (keys_unique_inj wk_id (ct_workspaces d))).
      apply list_elem_of_bind in Hy as (m' & Hy & Hm'). destruct (_ && _) eqn:E; [|by apply elem_of_nil in Hy]. apply list_elem_of_singleton in Hy as [= -> ->]. bool_hyps.
      assert (m' = m) as ->; [|done]. apply (keys_unique_inj membership_key (ct_memberships d)); [done | done | done|]. unfold membership_key. congruence.
  - intros Hr. unfold actor_is_admin, finalAdminCondition. apply existsb_exists_elem. exists m. split; [done|]. rewrite !bool_decide_eq_true_2 by congruence. done.
Qed.
(** The list of a user's workspaces keeps its word.  A deleted workspace that it shows as
    recoverable until a time can be restored by an administrator before that time, unless the
    retention worker has begun to purge it, and is live again then; from that time on restoring it
    is refused and changes nothing. *)
Theorem workspace_recoverable_until `{WC : WebCrypto} `{LO : Locale} d userId s t auditId now (Hw : keys_unique wk_id (ct_workspaces d)) (Hm : keys_unique membership_key (ct_memberships d)) :
  s ∈ listUserWorkspaces d userId -> wz_recoverableUntil s = Some t -> wz_role s = admin ->
  let out := restoreWorkspace (fun d => d) d (wz_id s) userId auditId now in
  exists w, w ∈ ct_workspaces d /\ wk_id w = wz_id s /\
    if (now <? t) && bool_decide (wk_purge w = None)
    then out.1 = Ok (wz_slug s) /\ ct_workspaces out.2 = map (fun x => if String.eqb (wk_id x) (wz_id s) then set_workspace_deleted None now x else x) (ct_workspaces d)
    else out = (Err "409 The workspace recovery window has expired", d).
Proof.
  intros H Ht Hr out. unfold listUserWorkspaces in H. apply list_elem_of_fmap in H as ([w role] & -> & H). apply elem_of_order_limit in H. cbn in *. subst role.
  apply (listed_membership d userId w admin Hw Hm) in H as (Hl & Hadmin & Hin). specialize (Hadmin eq_refl). destruct (wk_deleted w) as [deleted|] eqn:Ed; [|done]. cbn in Ht. injection Ht as <-.
  exists w. split_and!; [done | done|]. unfold out, restoreWorkspace. cbn [wz_id mapWorkspaceMembership fst]. rewrite Hl. cbn [negb]. rewrite (bool_decide_eq_true_2 (admin = admin)) by done. cbn [negb]. rewrite Ed.
  destruct (now <? deleted + grace_days d (wk_id w) * DAY_MS) eqn:En.
  - rewrite (proj2 (Z.leb_gt _ _)) by (apply Z.ltb_lt in En; lia). cbn [andb]. destruct (bool_decide_reflect (wk_purge w = None)) as [Ep|Ep].
    + rewrite (bool_decide_eq_false_2 (wk_purge w <> None)) by auto. cbn [rbind]. unfold workspace_batch.
      set (g := fun r => _ && _ && _ && _).
      assert (Hg : forall x, x ∈ ct_workspaces d -> g x = String.eqb (wk_id x) (wk_id w)).
      { intros x Hx. unfold g. destruct (String.eqb_spec (wk_id x) (wk_id w)) as [E|]; [|done]. assert (x = w) as -> by (by apply (keys_unique_inj wk_id (ct_workspaces d))).
        by rewrite Ed, Ep, Hadmin, !bool_decide_eq_true_2. }
      assert (Hc : count_if g (ct_workspaces d) = 1).
      { apply (count_if_one wk_id g _ w); [done | done | | by rewrite Hg, String.eqb_refl]. intros x E. unfold g in E. bool_hyps. done. }
      unfold update_where. rewrite Hc. cbn. split; [done|]. apply map_ext_in. intros x Hx. apply list_elem_of_In in Hx. by rewrite (Hg x Hx).
    + by rewrite (bool_decide_eq_true_2 (wk_purge w <> None)).
  - rewrite (proj2 (Z.leb_le _ _)) by (apply Z.ltb_ge in En; lia). done.
Qed.

(** ** A workspace *)

(** Ann is an administrator, Bob a member who may view the machine, Cy one who may not. *)
#[local] Instance ad_locale : Locale := String.leb.
Definition ad_access : access_db :=
  AccessDb (set_memberships [Membership "w" "ann" admin active; Membership "w" "bob" member active; Membership "w" "cy" member suspended] wa_control)
    [Invitation "i" "w" "di@example.com" member [] 100 None None 5] [UserRow "ann" "Ann" "ann@example.com" true; UserRow "bob" "Bob" "bob@example.com" true; UserRow "cy" "Cy" "cy@example.com" false] [].
Definition ad_panel : panel_db := PanelDb ad_access (fun _ => 3) ow_id.
Definition ad_request (memberId : option string) : WorkspaceAccessRequest := AccessRequest memberId (Some 7) None (Some 1) 50.
Example ad_shown :
  listed (fun x => map wm_id (ap_members x)) (loadWorkspaceAccessPanel ad_panel "home" "ann" (ad_request None)) = ["ann"; "bob"; "cy"] /\
  listed (fun x => map (fun r => (wa_id r, wa_permission r)) (ap_resources x)) (loadWorkspaceAccessPanel ad_panel "home" "ann" (ad_request (Some "bob"))) = [("m", perm_view)] /\
  listed (fun x => map (fun r => (wa_id r, wa_permission r)) (ap_resources x)) (loadWorkspaceAccessPanel ad_panel "home" "ann" (ad_request (Some "cy"))) = [("m", perm_deny)] /\
  loadWorkspaceAccessPanel ad_panel "home" "bob" (ad_request None) = Err "404 Workspace not found".
Proof. vm_compute. done. Qed.
(** The same with a container on the machine: the panel shows Bob's permission for it as "none",
    and he may view it, since he may view the machine. *)
Definition ad_boxed : panel_db :=
  PanelDb (AccessDb (set_owned containers [Owned "box" "w" None "m" None] (ax_control ad_access)) (ax_invitations ad_access) (ax_users ad_access) (ax_accounts ad_access)) (fun _ => 3) ow_id.
Example pages_list_everything_witness :
  (exists access, requireWorkspaceAdmin (ax_control ad_access) "home" "ann" = Ok access) /\
  exists last, all_pages last (fun i => wp_workspaces (listUserWorkspacePage (ax_control ad_access) "ann" i)) = [MembershipSummary "w" "Home" "home" admin None None].
Proof.
  split; [eexists; vm_compute; reflexivity|]. destruct (requireWorkspaceAdmin (ax_control ad_access) "home" "ann") as [access|e] eqn:Ha; [|vm_compute in Ha; discriminate Ha].
  destruct (pages_list_everything ad_access (fun _ => 3) ow_id "home" "ann" access Ha) as (_ & _ & _ & H). destruct H as (last & _ & H); [vm_compute; discriminate|].
  exists last. rewrite H. vm_compute. reflexivity.
Defined.
(** The workspace was deleted at 1000. *)
Definition ad_deleted : control_tables := set_workspaces [WorkspaceState "w" 1 "home" "Home" "dash" 10 (Some 1000) None 1000] (ax_control ad_access).
Example workspace_recoverable_until_witness :
  map wz_recoverableUntil (listUserWorkspaces ad_deleted "ann") = [Some 604801000] /\
  (restoreWorkspace (fun d => d) ad_deleted "w" "ann" "id" 604800999).1 = Ok "home" /\
  restoreWorkspace (fun d => d) ad_deleted "w" "ann" "id" 604801000 = (Err "409 The workspace recovery window has expired", ad_deleted).
Proof.
  split; [vm_compute; reflexivity|]. split.
  - destruct (workspace_recoverable_until ad_deleted "ann" (MembershipSummary "w" "Home" "home" admin (Some 1000) (Some 604801000)) 604801000 "id" 604800999) as (w & Hw & _ & H);
      [apply (bool_decide_unpack _); vm_compute; exact I | apply (bool_decide_unpack _); vm_compute; exact I | by left | done | done|].
    apply list_elem_of_singleton in Hw as ->. apply H.
  - destruct (workspace_recoverable_until ad_deleted "ann" (MembershipSummary "w" "Home" "home" admin (Some 1000) (Some 604801000)) 604801000 "id" 604801000) as (w & Hw & _ & H);
      [apply (bool_decide_unpack _); vm_compute; exact I | apply (bool_decide_unpack _); vm_compute; exact I | by left | done | done|].
    apply list_elem_of_singleton in Hw as ->. apply H.
Defined.
