(* ===== verification/LivePage.v ===== *)
(** * LivePage: a machine's live values in the browser

    The two endpoints behind the live view of a machine,
    [machines/[machineId]/live-ticket/+server.ts] and [machines/[machineId]/latest/+server.ts], and
    the browser's side of them, [apps/web/src/lib/state/machine-live.ts].  The theorems put the
    pieces together: a ticket from the endpoint passes the browser's checks, the Worker in front
    of the hub and the hub itself ([LiveTicket], [LiveHub]), and what the browser falls back to
    is the machine that the server read ([MachinePages]). *)

From Stdlib Require Import ZArith Lia Bool String Ascii List.
From stdpp Require Import base tactics list strings.
From S2P Require Import Prelude.
From S2P Require Import Js.
From S2P Require Import Base64Url.
From S2P Require Import Crypto.
From S2P Require Import LiveTicket.
From S2P Require Import LiveHub.
From S2P Require Import Web.
From S2P Require Import CheckPersistence.
From S2P Require Import Authz.
From S2P Require Import QueryBatches.
From S2P Require Import MemberData.
From S2P Require Import MachinePages.
From S2P Require Import DashboardPage.
From S2P Require Import MachineSettings.
From S2P Require Import Setup.
From S2P Require Import RequestGate.
Open Scope string_scope.
Open Scope Z_scope.

(** An answer with a JSON body and, in the second endpoint, its tag; or one without a body. *)
Inductive live_answer := not_found | not_modified (tag : string) | answer (body : jout) (tag : option string).
(** What [response.json()] gives the browser. *)
Definition received (body : jout) : res json := json_parse (json_stringify body).

(** ** Tickets *)

Section Tickets.
Context `{WC : WebCrypto} `{UA : UrlApi} `{UP : !UrlParts} `{UV : !UrlView}.

(* @src apps/web/src/routes/(app)/[workspace]/machines/[machineId]/live-ticket/+server.ts liveOrigin *)
Definition liveOrigin (value : string) : option string :=
  if 256 <? slen value then None
  else match url_parse value None with
  | Err _ => None
  | Ok parsed =>
      if negb (String.eqb (protocol parsed) "wss:") || negb (String.eqb (username parsed) "") || negb (String.eqb (password parsed) "") ||
         negb (String.eqb (url_pathname parsed) "/") || negb (String.eqb (search parsed) "") || negb (String.eqb (url_hash parsed) "")
      then None else Some (protocol parsed ++ "//" ++ url_host parsed)
  end.
Definition unavailable : live_answer := answer (OObj [("available", OBool false)]) None.
(** [userId] is [None] without a session. *)
(* @src apps/web/src/routes/(app)/[workspace]/machines/[machineId]/live-ticket/+server.ts 29-66 GET *)
Definition live_ticket (LIVE_ORIGIN LIVE_TICKET_SECRET : string) (d : member_side) (userId : option string) (workspace machineId : string) (now : Z) : live_answer :=
  match userId with
  | None => not_found
  | Some userId =>
      match loadAuthorizedMachineScope d workspace userId machineId with
      | Err e => if String.eqb e "MachineNotFoundError" then not_found else unavailable
      | Ok (workspaceId, _, machinePk) =>
          match liveOrigin LIVE_ORIGIN with
          | None => unavailable
          | Some origin =>
              match signViewerLiveTicket (ViewerInput workspaceId userId (num_of_Z machinePk)) LIVE_TICKET_SECRET now with
              | Err _ => unavailable
              | Ok (ticket, expiresAt) =>
                  answer (OObj [("available", OBool true); ("url", OStr (origin ++ "/v1/live/" ++ encodeURIComponent workspaceId)); ("ticket", OStr ticket);
                                ("topic", OStr ("machine:" ++ z_to_string machinePk)); ("expiresAt", OInt expiresAt)]) None
              end
          end
      end
  end.

(* @src apps/web/src/lib/state/machine-live.ts MachineLiveTicket *)
Record MachineLiveTicket := LiveTicketOf { tk_url : string; tk_ticket : string; tk_topic : string; tk_expiresAt : Z }.
(** [/^machine:[1-9][0-9]{0,19}$/] is [is_machine_topic]. *)
(* @src apps/web/src/lib/state/machine-live.ts parseMachineLiveTicket *)
Definition parseMachineLiveTicket (value : json) (now : Z) : res MachineLiveTicket :=
  match value with
  | JObj value =>
      match url_parse (match as_string (obj_get "url" value) with Some u => u | None => "" end) None with
      | Err _ => Err "invalid_live_ticket_response"
      | Ok endpoint =>
          if negb (String.eqb (protocol endpoint) "wss:") || negb (String.eqb (username endpoint) "") || negb (String.eqb (password endpoint) "") || negb (String.eqb (url_hash endpoint) "")
          then Err "invalid_live_ticket_response"
          else match as_string (obj_get "ticket" value), as_string (obj_get "topic" value), as_safe_int (obj_get "expiresAt" value) with
          | Some ticket, Some topic, Some expiresAt =>
              throw_if (4096 <? slen ticket) || negb (is_machine_topic topic) || (expiresAt <=? now) as "invalid_live_ticket_response" in
              Ok (LiveTicketOf (href endpoint) ticket topic expiresAt)
          | _, _, _ => Err "invalid_live_ticket_response"
          end
      end
  | _ => Err "invalid_live_ticket_response"
  end.
(** [new WebSocket(ticket.url, [LIVE_PROTOCOL, `${LIVE_TICKET_PROTOCOL_PREFIX}${ticket.ticket}`])]: the
    request for the upgrade, its method, path and the header that names the protocols. *)
(* @src apps/web/src/lib/components/machines/machine-live.svelte 172-175 connect *)
Definition upgrade_request (ticket : MachineLiveTicket) : res (string * string * headers) :=
  let* u := url_parse (tk_url ticket) None in
  Ok ("GET", url_pathname u, [("sec-websocket-protocol", LIVE_PROTOCOL ++ ", " ++ LIVE_TICKET_PROTOCOL_PREFIX ++ tk_ticket ticket)]).
End Tickets.

(* @src apps/web/src/lib/state/machine-live.ts liveReconnectCeiling *)
Definition liveReconnectCeiling (attempt : number) : Z :=
  match safe_int attempt with
  | Some n => if n <? 0 then 300000 else Z.min 300000 (1000 * 2 ^ Z.min n 9)
  | None => 300000
  end.
(** The wait grows with the attempts, from one second to five minutes. *)
Lemma reconnect_ceiling m n : 0 <= m <= n -> n <= max_safe ->
  1000 <= liveReconnectCeiling (num_of_Z m) <= liveReconnectCeiling (num_of_Z n) /\ liveReconnectCeiling (num_of_Z n) <= 300000.
Proof.
  intros H Hn. unfold liveReconnectCeiling. rewrite !safe_int_of_Z by (unfold safe_z; apply andb_true_iff; rewrite !Z.leb_le; unfold max_safe in *; lia).
  rewrite !(proj2 (Z.ltb_ge _ 0)) by lia. assert (2 ^ Z.min m 9 <= 2 ^ Z.min n 9) by (apply Z.pow_le_mono_r; lia). assert (2 ^ 0 <= 2 ^ Z.min m 9) by (apply Z.pow_le_mono_r; lia). lia.
Qed.

(** ** The values to fall back to *)

(** The JSON text of a [DashboardMachine]. *)
Definition nullable {A} (f : A -> jout) (o : option A) : jout := match o with Some x => f x | None => ONull end.
Definition machine_out (m : DashboardMachine) : jout :=
  OObj [("id", OStr (dm_id m)); ("name", OStr (dm_name m)); ("labels", labels_out (dm_labels m)); ("state", OStr (dm_state m)); ("observedAt", nullable OInt (dm_observedAt m));
    ("cpuPermille", OInt (dm_cpuPermille m)); ("memoryUsedBytes", OInt (dm_memoryUsed m)); ("memoryTotalBytes", OInt (dm_memoryTotal m));
    ("storageUsedBytes", OInt (dm_storageUsed m)); ("storageTotalBytes", OInt (dm_storageTotal m)); ("networkRxBps", OInt (dm_rxBps m)); ("networkTxBps", OInt (dm_txBps m));
    ("networkRxTotal", OInt (dm_rxTotal m)); ("networkTxTotal", OInt (dm_txTotal m)); ("load1mMilli", nullable OInt (dm_load1m m)); ("uptimeSeconds", nullable OInt (dm_uptime m));
    ("agentVersion", nullable OStr (dm_agentVersion m)); ("platform", nullable OStr (dm_platform m)); ("arch", nullable OStr (dm_arch m)); ("containersEnabled", OBool (dm_containersEnabled m))].
Definition machine_tag (m : DashboardMachine) (latestReceivedAt : option Z) : string :=
  String quote ("machine-" ++ z_to_string (coalesce (dm_observedAt m) 0) ++ "-" ++ z_to_string (coalesce latestReceivedAt 0) ++ String quote "").
(** [ifNoneMatch] is the header of the request.  Reading the database may also throw. *)
(* @src apps/web/src/routes/(app)/[workspace]/machines/[machineId]/latest/+server.ts 7-33 GET *)
Definition latest_values (d : member_side) (t : telemetry_pages) (userId : option string) (workspace machineId : string) (ifNoneMatch : option string) (now : Z) : res live_answer :=
  match userId with
  | None => Ok not_found
  | Some userId =>
      match loadMachineCurrent d t workspace userId machineId now with
      | Err e => if String.eqb e "MachineNotFoundError" then Ok not_found else Err e
      | Ok (latest, latestReceivedAt) =>
          let tag := machine_tag latest latestReceivedAt in
          if bool_decide (ifNoneMatch = Some tag) then Ok (not_modified tag)
          else Ok (answer (OObj [("latest", machine_out latest); ("latestReceivedAt", nullable OInt latestReceivedAt)]) (Some tag))
      end
  end.

(* @src apps/web/src/lib/state/machine-live.ts metric *)
Definition metric (value : option json) : option Z :=
  match as_safe_int value with Some n => if 0 <=? n then Some n else None | None => None end.
(** [v === null ? null : metric(v)], where a [null] that was not there is refused. *)
Definition metric_or_null (value : option json) : option (option Z) :=
  match value with Some JNull => Some None | _ => Some <$> metric value end.
Definition string_or_null (value : option json) : option (option string) :=
  match value with Some JNull => Some None | Some (JStr s) => Some (Some s) | _ => None end.
Definition live_machine_states : list string := ["healthy"; "degraded"; "down"; "offline"; "maintenance"; "unknown"].
(* @src apps/web/src/lib/state/machine-live.ts isMachineState *)
Definition isMachineState (value : option json) : option string :=
  match value with Some (JStr s) => if str_in s live_machine_states then Some s else None | _ => None end.
(** The loop over the entries.  Assigning a text to [__proto__] does nothing; the properties of
    the result are in the order of their own keys. *)
(* @src apps/web/src/lib/state/machine-live.ts 72-75 labels *)
Fixpoint label_entries_of (l : props) : option (list (string * string)) :=
  match l with
  | [] => Some []
  | (key, item) :: rest =>
      match item with
      | JStr text => if (64 <? slen key) || (128 <? slen text) then None
                     else (fun r => if String.eqb key "__proto__" then r else (key, text) :: r) <$> label_entries_of rest
      | _ => None
      end
  end.
(* @src apps/web/src/lib/state/machine-live.ts labels *)
Definition live_labels (value : option json) : option (list (string * string)) :=
  match value with
  | Some (JObj l) => if 32 <? Z.of_nat (length l) then None else own_keys <$> label_entries_of l
  | _ => None
  end.
Definition bool_of (value : option json) : option bool := match value with Some (JBool b) => Some b | _ => None end.
(* @src apps/web/src/lib/state/machine-live.ts parseMachineLiveFallback *)
Definition parseMachineLiveFallback (value : json) : res DashboardMachine :=
  match value with
  | JObj value =>
      match obj_get "latest" value with
      | Some (JObj latest) =>
          let m key := metric (obj_get key latest) in
          match (id ← as_string (obj_get "id" latest); name ← as_string (obj_get "name" latest); machineLabels ← live_labels (obj_get "labels" latest);
                 state ← isMachineState (obj_get "state" latest); observedAt ← metric_or_null (obj_get "observedAt" latest);
                 cpuPermille ← m "cpuPermille"; _ ← (if 1000 <? cpuPermille then None else Some tt);
                 memoryUsedBytes ← m "memoryUsedBytes"; memoryTotalBytes ← m "memoryTotalBytes"; storageUsedBytes ← m "storageUsedBytes"; storageTotalBytes ← m "storageTotalBytes";
                 networkRxBps ← m "networkRxBps"; networkTxBps ← m "networkTxBps"; networkRxTotal ← m "networkRxTotal"; networkTxTotal ← m "networkTxTotal";
                 load1mMilli ← metric_or_null (obj_get "load1mMilli" latest); uptimeSeconds ← metric_or_null (obj_get "uptimeSeconds" latest);
                 agentVersion ← string_or_null (obj_get "agentVersion" latest); platform ← string_or_null (obj_get "platform" latest); arch ← string_or_null (obj_get "arch" latest);
                 containersEnabled ← bool_of (obj_get "containersEnabled" latest);
                 Some (DashMachine id name machineLabels state observedAt cpuPermille memoryUsedBytes memoryTotalBytes storageUsedBytes storageTotalBytes networkRxBps networkTxBps
                   networkRxTotal networkTxTotal load1mMilli uptimeSeconds agentVersion platform arch containersEnabled)) with
          | Some machine => Ok machine
          | None => Err "invalid_live_fallback"
          end
      | _ => Err "invalid_live_fallback"
      end
  | _ => Err "invalid_live_fallback"
  end.

(** ** From the page to the hub *)

Section Connection.
Context `{WC : WebCrypto} `{WCL : !WebCryptoLaws} `{UA : UrlApi} `{UP : !UrlParts} `{UV : !UrlView}.
(** A path of plain segments. *)
Definition plain_path (path : string) : bool := starts_with "/" path && str_forall (fun c => Ascii.eqb c "/" || slug_char c) path.
(** The text of an origin and a plain path is the address of that path, without anything else,
    and is its own serialization. *)
Definition plain_addresses : Prop := forall value u path, url_parse value None = Ok u -> protocol u = "wss:" -> plain_path path = true ->
  exists v, url_parse (protocol u ++ "//" ++ url_host u ++ path) None = Ok v /\ href v = protocol u ++ "//" ++ url_host u ++ path /\
    protocol v = "wss:" /\ username v = "" /\ password v = "" /\ url_hash v = "" /\ url_pathname v = path.

Lemma slug_plain w : str_forall slug_char w = true -> plain_path ("/v1/live/" ++ w) = true.
Proof.
  intros H. unfold plain_path. cbn. apply andb_true_iff. split; [destruct w; reflexivity|]. eapply str_forall_impl; [|exact H]. intros c ->. apply orb_true_r.
Qed.
Lemma live_path_of w : str_forall slug_char w = true -> 1 <= slen w -> live_path ("/v1/live/" ++ w) = Some w.
Proof.
  intros H Hl. unfold live_path. change (starts_with "/v1/live/" ("/v1/live/" ++ w)) with (String.prefix "/v1/live/" ("/v1/live/" ++ w)). rewrite prefix_app.
  change (str_drop 9 ("/v1/live/" ++ w)) with (str_drop (String.length "/v1/live/") ("/v1/live/" ++ w)). rewrite str_drop_app.
  destruct (String.eqb_spec w "") as [->|]; [done|]. cbn [negb andb].
  assert (str_forall (fun c => negb (Ascii.eqb c "/")) w = true) as ->; [|done]. eapply str_forall_impl; [|exact H]. intros c. destruct c as [[] [] [] [] [] [] [] []]; done.
Qed.
Definition ticket_char (c : ascii) : bool := is_url_char c || Ascii.eqb c ".".
Lemma signed_alphabet claims secret ticket : signClaims claims secret = Ok ticket -> str_forall ticket_char ticket = true.
Proof.
  unfold signClaims. remember (encodeBase64Url (encode_utf8 (json_stringify (claims_json claims)))) as p eqn:Hp. intros H. apply rbind_ok in H as (mac & _ & H).
  apply (f_equal (fun r => match r with Ok x => x | Err _ => "" end)) in H. cbv beta iota in H. rewrite <- H. clear H. rewrite !str_forall_app.
  assert (Hin : forall bytes, str_forall ticket_char (encodeBase64Url bytes) = true).
  { intros bytes. eapply str_forall_impl; [|apply encodeBase64Url_alphabet]. intros c Hc. unfold ticket_char. by rewrite Hc. }
  by rewrite Hp, !Hin.
Qed.
Lemma ticket_alphabet input secret now ticket expires : signViewerLiveTicket input secret now = Ok (ticket, expires) -> str_forall ticket_char ticket = true.
Proof.
  unfold signViewerLiveTicket. destruct (safe_int _) as [pk|]; [|done]. intros H. ok_step. apply rbind_ok in H as (t & Ht & H).
  injection H as -> _. by eapply signed_alphabet.
Qed.
Lemma protocols_ticket ticket : str_forall ticket_char ticket = true ->
  ticketFromProtocols (Some (LIVE_PROTOCOL ++ ", " ++ LIVE_TICKET_PROTOCOL_PREFIX ++ ticket)) = Ok ticket.
Proof.
  intros H. unfold ticketFromProtocols. cbn [fmap option_fmap option_map].
  change (LIVE_PROTOCOL ++ ", " ++ LIVE_TICKET_PROTOCOL_PREFIX ++ ticket) with (LIVE_PROTOCOL ++ String "," (" " ++ LIVE_TICKET_PROTOCOL_PREFIX ++ ticket)).
  rewrite split_on_app by reflexivity. rewrite split_on_none.
  2:{ cbn. eapply str_forall_impl; [|exact H]. intros c. destruct c as [[] [] [] [] [] [] [] []]; done. }
  cbn [map]. change (trim LIVE_PROTOCOL) with LIVE_PROTOCOL. change (trim (" " ++ LIVE_TICKET_PROTOCOL_PREFIX ++ ticket)) with (trim (LIVE_TICKET_PROTOCOL_PREFIX ++ ticket)).
  rewrite trim_no_space. 2:{ cbn. eapply str_forall_impl; [|exact H]. intros c. destruct c as [[] [] [] [] [] [] [] []]; done. }
  cbn [existsb]. rewrite String.eqb_refl. cbn [orb negb List.find]. change (starts_with LIVE_TICKET_PROTOCOL_PREFIX LIVE_PROTOCOL) with false.
  change (starts_with LIVE_TICKET_PROTOCOL_PREFIX (LIVE_TICKET_PROTOCOL_PREFIX ++ ticket)) with (String.prefix LIVE_TICKET_PROTOCOL_PREFIX (LIVE_TICKET_PROTOCOL_PREFIX ++ ticket)).
  rewrite prefix_app. by rewrite str_drop_app.
Qed.

(** What a ticket's answer was made of. *)
Lemma ticket_connects LIVE_ORIGIN secret d user slug machineId now body w wpk pk t (Hurls : plain_addresses) :
  loadAuthorizedMachineScope d slug user machineId = Ok (w, wpk, pk) ->
  str_forall slug_char w = true -> 1 <= slen w <= 128 -> 1 <= slen user <= 128 -> 0 < pk -> safe_z pk = true -> 0 <= now -> safe_z (now + 300000) = true ->
  live_ticket LIVE_ORIGIN secret d (Some user) slug machineId now = answer body None -> answer body None <> unavailable -> now <= t < now + 300000 ->
  exists value ticket path headers hs,
    received body = Ok value /\ parseMachineLiveTicket value t = Ok ticket /\ tk_topic ticket = "machine:" ++ z_to_string pk /\ tk_expiresAt ticket = now + 300000 /\
    upgrade_request ticket = Ok ("GET", path, headers) /\ worker_fetch secret "GET" path headers t = ToHub w hs /\
    requested_attachment hs t = Ok (Some (ViewerSocketAttachment user ("machine:" ++ z_to_string pk) (now + 300000))).
Proof.
  intros Hs Hw Hwl Hul Hpk Hsafe Hnow Hn H Hav Ht. unfold live_ticket in H. rewrite Hs in H. destruct (liveOrigin LIVE_ORIGIN) as [o|] eqn:Ho; [|by rewrite H in Hav].
  destruct (signViewerLiveTicket _ _ _) as [[ticket expires]|e] eqn:Esign; [|by rewrite H in Hav]. injection H as <-.
  set (input := ViewerInput w user (num_of_Z pk)) in *.
  assert (Hint : safe_int (in_machinePk input) = Some pk) by (by apply safe_int_of_Z).
  assert (expires = now + 300000) as ->.
  { unfold signViewerLiveTicket in Esign. rewrite Hint in Esign. ok_step. apply rbind_ok in Esign as (x & _ & [= _ <-]). done. }
  destruct (sign_verify_roundtrip input secret now t ticket (now + 300000) pk Hint Hwl Hul Hnow Hn Esign ltac:(lia)) as [Hverify Hlen].
  pose proof (ticket_alphabet _ _ _ _ _ Esign) as Halpha.
  unfold liveOrigin in Ho. destruct (256 <? _); [done|]. destruct (url_parse LIVE_ORIGIN None) as [u|] eqn:Eu; [|done]. destruct (_ || _) eqn:Eo; [done|]. injection Ho as <-. bool_hyps.
  destruct (Hurls LIVE_ORIGIN u ("/v1/live/" ++ w) Eu ltac:(done) (slug_plain w Hw)) as (v & Ev & Hhref & Hp & Hun & Hpw & Hh & Hpath).
  rewrite slug_encoded by done.
  assert (Hurl : (protocol u ++ "//" ++ url_host u) ++ "/v1/live/" ++ w = protocol u ++ "//" ++ url_host u ++ "/v1/live/" ++ w) by (by rewrite !str_app_assoc).
  eexists _, (LiveTicketOf (href v) ticket ("machine:" ++ z_to_string pk) (now + 300000)), ("/v1/live/" ++ w), _, _. split; [|split; [|split; [done|split; [done|]]]].
  - unfold received. apply json_parse_stringify. cbn. split_and!; try done. apply (bool_decide_unpack _). by vm_compute.
  - unfold parseMachineLiveTicket. cbn [json_of map fst snd]. change (obj_get "url" _) with (Some (JStr ((protocol u ++ "//" ++ url_host u) ++ "/v1/live/" ++ w))). cbn [as_string]. rewrite Hurl, Ev, Hp, Hun, Hpw, Hh.
    cbn [String.eqb Ascii.eqb Bool.eqb negb orb]. change (as_string (obj_get "ticket" _)) with (Some ticket). change (as_string (obj_get "topic" _)) with (Some ("machine:" ++ z_to_string pk)).
    change (obj_get "expiresAt" _) with (Some (JNum (num_of_Z (now + 300000)))). rewrite as_safe_int_num, machine_topic_ok by done.
    rewrite (proj2 (Z.ltb_ge _ _)) by lia. rewrite (proj2 (Z.leb_gt _ _)) by lia. done.
  - assert (Hc : (let* token := ticketFromProtocols (Some (LIVE_PROTOCOL ++ ", " ++ LIVE_TICKET_PROTOCOL_PREFIX ++ ticket)) in verifyLiveTicket token secret t) = Ok (viewer_claims input pk now)).
    { rewrite protocols_ticket by done. exact Hverify. }
    assert (Hf : worker_fetch secret "GET" ("/v1/live/" ++ w) [("sec-websocket-protocol", LIVE_PROTOCOL ++ ", " ++ LIVE_TICKET_PROTOCOL_PREFIX ++ ticket)] t =
      ToHub w (claims_headers (viewer_claims input pk now) [("sec-websocket-protocol", LIVE_PROTOCOL ++ ", " ++ LIVE_TICKET_PROTOCOL_PREFIX ++ ticket)])).
    { unfold worker_fetch. rewrite live_path_of by (done || lia). cbn [String.eqb Ascii.eqb Bool.eqb negb]. change (obj_get "sec-websocket-protocol" _) with (Some (LIVE_PROTOCOL ++ ", " ++ LIVE_TICKET_PROTOCOL_PREFIX ++ ticket)).
      rewrite Hc. cbn [claims_base viewer_claims workspaceId in_workspaceId]. by rewrite String.eqb_refl. }
    split; [unfold upgrade_request; cbn [tk_url tk_ticket]; rewrite Hhref, Ev; cbn [rbind]; by rewrite Hpath|]. split; [exact Hf|].
    apply (worker_hub_agree _ _ _ _ _ _ _ _ t Hf Hc); [|cbn; lia]. exists ("machine:" ++ z_to_string pk), pk. split; [done | by apply topicMachinePk_canonical].
Qed.

(** The ids of the database fit into addresses and tickets: a workspace's id, a UUID of
    [crypto.randomUUID()], has the characters of a slug and at most 128 of them, and the numbers
    of the machines are positive and exact. *)
Definition ids_fit (d : member_side) : Prop :=
  Forall (fun w => str_forall slug_char (wc_id w) = true /\ 1 <= slen (wc_id w) <= 128) (md_workspaces d) /\
  Forall (fun m => 0 < mc_pk m /\ safe_z (mc_pk m) = true) (md_machines d).
(** [m] is a live machine of the live workspace [w], and the user an active member of it whose
    role and grants let him view the machine. *)
Record may_watch (d : member_side) (slug user machineId : string) (w : workspace_cols) (m : machine_cols) : Prop := {
  mw_workspace : w ∈ md_workspaces d /\ wc_slug w = slug /\ wc_deleted w = None;
  mw_machine : m ∈ md_machines d /\ mc_id m = machineId /\ mc_workspace m = wc_id w /\ mc_deleted m = None;
  mw_member : exists mb, mb ∈ md_memberships d /\ mb_workspace mb = wc_id w /\ mb_user mb = user /\ mb_status mb = active /\
    canAccessResource (mb_role mb) (subject_grants (wc_id w) user (md_authz d)) RMachine machineId view = true;
}.
Lemma scope_viewer d slug user machineId w wpk pk : loadAuthorizedMachineScope d slug user machineId = Ok (w, wpk, pk) ->
  exists wc m, wc_id wc = w /\ mc_pk m = pk /\ may_watch d slug user machineId wc m.
Proof.
  unfold loadAuthorizedMachineScope. intros ([access r] & H & [= <- <- <-])%rbind_ok. apply authorized_machine in H as [Hm Hr].
  apply machine_row_of in Hr as (H1 & _ & H2 & H3 & H4 & Hv & _). rewrite (may_decides d access slug user _ _ _ Hm) in Hv.
  destruct Hm as (Hslug & (wc & Hwc & Hd & Hid & _ & Hs & _) & mb & Hmb & Hw & Hu & Hrole & Hst).
  exists wc, (mh_machine r). split_and!; [done | done|]. split; [split_and!; congruence | split_and!; congruence|].
  exists mb. rewrite Hid, Hrole. by split_and!.
Qed.
Lemma ticket_scope LIVE_ORIGIN secret d user slug machineId now body : live_ticket LIVE_ORIGIN secret d (Some user) slug machineId now = answer body None -> answer body None <> unavailable ->
  exists w wpk pk, loadAuthorizedMachineScope d slug user machineId = Ok (w, wpk, pk).
Proof.
  unfold live_ticket. destruct (loadAuthorizedMachineScope d slug user machineId) as [[[w wpk] pk]|e]; [by exists w, wpk, pk|]. destruct (String.eqb e _); [done|]. by intros ->.
Qed.

(** C36: A live connection is only for a member who may view the machine, and it works.  Whenever
    the endpoint answers with a ticket, the machine is a live one of the live workspace of that
    address, and the user an active member of it whose role and grants let him view the machine.
    Until the ticket expires the browser accepts the answer, and its request for a connection
    passes the Worker, which hands it to the hub of that workspace; the hub reads from it a
    viewer with this user's identity, for this machine alone, until the ticket expires.  (The ids
    of the database fit into tickets and addresses, [ids_fit], and the URL of an origin and a plain
    path reads back as it is written, [plain_addresses].) *)
Theorem live_page_connects LIVE_ORIGIN secret d user slug machineId now body t (Hurls : plain_addresses) (Hids : ids_fit d) :
  1 <= slen user <= 128 -> 0 <= now -> safe_z (now + 300000) = true ->
  live_ticket LIVE_ORIGIN secret d (Some user) slug machineId now = answer body None -> answer body None <> unavailable ->
  exists w m, may_watch d slug user machineId w m /\
  (now <= t < now + 300000 -> exists value ticket path headers hs,
    received body = Ok value /\ parseMachineLiveTicket value t = Ok ticket /\ tk_topic ticket = "machine:" ++ z_to_string (mc_pk m) /\ tk_expiresAt ticket = now + 300000 /\
    upgrade_request ticket = Ok ("GET", path, headers) /\ worker_fetch secret "GET" path headers t = ToHub (wc_id w) hs /\
    requested_attachment hs t = Ok (Some (ViewerSocketAttachment user ("machine:" ++ z_to_string (mc_pk m)) (now + 300000)))).
Proof.
  intros Hu Hnow Hn H Hav. destruct (ticket_scope _ _ _ _ _ _ _ _ H Hav) as (w & wpk & pk & Hs).
  destruct (scope_viewer _ _ _ _ _ _ _ Hs) as (wc & m & <- & <- & Hm). exists wc, m. split; [done|]. intros Ht.
  destruct Hids as [Hws Hms]. pose proof (proj1 (Forall_forall _ _) Hws wc) as Hwc. pose proof (proj1 (Forall_forall _ _) Hms m) as Hpks. destruct Hwc as [Hw Hwl]; [apply Hm|]. destruct Hpks as [Hpk Hsafe]; [apply Hm|].
  by apply (ticket_connects LIVE_ORIGIN secret d user slug machineId now body (wc_id wc) wpk (mc_pk m) t).
Qed.
End Connection.

(** ** The machine the browser falls back to *)

Definition in_range (z : Z) : Prop := 0 <= z /\ safe_z z = true.
Definition option_in_range (o : option Z) : Prop := match o with Some z => in_range z | None => True end.
(** The values of a report: counters that are exact numbers, and a share of the processor. *)
Record reported_ok (r : machine_latest_row) : Prop := {
  ro_counters : Forall in_range [lr_observed r; lr_received r; lr_cpu r; lr_memoryUsed r; lr_memoryTotal r; lr_storageUsed r; lr_storageTotal r; lr_rxBps r; lr_txBps r; lr_rxTotal r; lr_txTotal r];
  ro_cpu : lr_cpu r <= 1000;
  ro_load : option_in_range (lr_load r);
  ro_uptime : option_in_range (lr_uptime r);
}.
Lemma metric_num z : in_range z -> metric (Some (JNum (num_of_Z z))) = Some z.
Proof. intros [H1 H2]. unfold metric. rewrite as_safe_int_num by done. by rewrite (proj2 (Z.leb_le _ _)). Qed.
Lemma metric_or_null_num o : option_in_range o -> metric_or_null (Some (json_of (nullable OInt o))) = Some o.
Proof. destruct o as [z|]; [|done]. intros H. cbn. by rewrite metric_num. Qed.
Lemma string_or_null_str o : string_or_null (Some (json_of (nullable OStr o))) = Some o.
Proof. by destruct o. Qed.
Lemma label_entries_read l : Forall label_ok l -> label_entries_of (map (fun kv => (kv.1, json_of kv.2)) (map (fun kv => (kv.1, OStr kv.2)) l)) = Some l.
Proof.
  induction 1 as [|[k v] l Hk Hl IH]; [done|]. cbn. rewrite IH.
  destruct Hk as (H1 & H2 & _). cbn in H1, H2. destruct k as [|c k]; [done|]. cbn [label_key_shape] in H1. bool_hyps.
  rewrite (proj2 (Z.ltb_ge 64 _)) by (rewrite slen_cons; lia). rewrite (proj2 (Z.ltb_ge 128 _)) by lia. cbn [orb].
  destruct (String.eqb_spec (String c k) "__proto__") as [[= -> ->]|]; done.
Qed.
Lemma live_labels_read value l : parseMachineLabels value = Ok l -> live_labels (Some (json_of (labels_out l))) = Some l.
Proof.
  intros (H1 & H2 & H3 & H4 & H5)%accepted_labels. unfold labels_out. cbn [json_of live_labels]. rewrite !length_map. rewrite (proj2 (Z.ltb_ge _ _)) by lia. rewrite label_entries_read by done. cbn. by rewrite H5.
Qed.
Lemma nullable_int_ok o : option_in_range o -> jout_ok (nullable OInt o).
Proof. destruct o as [z|]; [|done]. by intros [_ H]. Qed.
(** The current values of a machine are ones that the browser accepts. *)
Lemma current_values d t user slug machineId now m receivedAt : loadMachineCurrent d t slug user machineId now = Ok (m, receivedAt) ->
  Forall reported_ok (tp_machines t) -> Forall (fun c => exists value l, parseMachineLabels value = Ok l /\ mc_labels c = json_stringify (labels_out l)) (md_machines d) ->
  (live_labels (Some (json_of (labels_out (dm_labels m)))) = Some (dm_labels m) /\ isMachineState (Some (JStr (dm_state m))) = Some (dm_state m) /\ NoDup (map fst (dm_labels m))) /\
  Forall in_range [dm_cpuPermille m; dm_memoryUsed m; dm_memoryTotal m; dm_storageUsed m; dm_storageTotal m; dm_rxBps m; dm_txBps m; dm_rxTotal m; dm_txTotal m] /\
  dm_cpuPermille m <= 1000 /\ option_in_range (dm_observedAt m) /\ option_in_range (dm_load1m m) /\ option_in_range (dm_uptime m) /\ option_in_range receivedAt.
Proof.
  intros H Hrows Hlabels. unfold loadMachineCurrent in H. apply rbind_ok in H as ([w r] & Hr & H). apply authorized_machine in Hr as (_ & Hin). apply machine_row_of in Hin as (Hin & _).
  set (latest := hd_error _) in H. injection H as <- <-.
  rewrite Forall_forall in Hlabels. destruct (Hlabels _ Hin) as (value & l & Hl & El).
  assert (Hlat : forall x, latest = Some x -> reported_ok x).
  { intros x Hx. rewrite Forall_forall in Hrows. apply Hrows. unfold latest in Hx. unfold loadLatestRows in Hx. destruct (queryInBatches _ _) as [|y rest] eqn:E; [done|]. cbn in Hx. injection Hx as ->.
    assert (Hx : x ∈ x :: rest) by (by left). rewrite <- E in Hx. apply elem_of_batches in Hx. tauto. }
  split.
  - pose proof (accepted_labels _ _ Hl) as (_ & Hn & _). cbn [toDashboardMachine dm_labels]. rewrite El, labels_shown by done. split_and!; [by eapply live_labels_read | | done].
    pose proof (machine_state_known (mh_machine r) (mh_agent r) latest now) as Hs. unfold isMachineState. rewrite (proj2 (str_in_elem _ _)); [done|].
    unfold live_machine_states, machine_states in *. rewrite !elem_of_cons in *. tauto.
  - assert (Z0 : in_range 0) by done. destruct latest as [x|]; cbn; [|split_and!; try done; by repeat constructor].
    destruct (Hlat x eq_refl) as [C Hc Hlo Hu]. rewrite !Forall_cons in C. destruct C as (C1 & C2 & C3 & C4 & C5 & C6 & C7 & C8 & C9 & C10 & C11 & _).
    split_and!; try done. repeat (apply Forall_cons; split; [assumption|]). by apply Forall_nil.
Qed.
(** What the browser falls back to is the machine as the server read it.  A member who may view
    the machine gets its current values, or is told that the ones he has (the tag) are current;
    and the browser reads the answer as exactly that machine.  The labels were accepted by the
    settings form and the values reported are exact numbers. *)
Theorem fallback_shows_machine d t user slug machineId tag now m receivedAt (H : loadMachineCurrent d t slug user machineId now = Ok (m, receivedAt))
  (Hrows : Forall reported_ok (tp_machines t)) (Hlabels : Forall (fun c => exists value l, parseMachineLabels value = Ok l /\ mc_labels c = json_stringify (labels_out l)) (md_machines d)) :
  exists body, latest_values d t (Some user) slug machineId tag now =
      Ok (if bool_decide (tag = Some (machine_tag m receivedAt)) then not_modified (machine_tag m receivedAt) else answer body (Some (machine_tag m receivedAt))) /\
    (let* value := received body in parseMachineLiveFallback value) = Ok m.
Proof.
  exists (OObj [("latest", machine_out m); ("latestReceivedAt", nullable OInt receivedAt)]). split; [unfold latest_values; rewrite H; by destruct (bool_decide _)|].
  destruct (current_values d t user slug machineId now m receivedAt H Hrows Hlabels) as ((H1 & H2 & H3) & (V & Hcpu & Ho & Hl & Hu & Hr)).
  rewrite !Forall_cons in V. destruct V as (V1 & V2 & V3 & V4 & V5 & V6 & V7 & V8 & V9 & _).
  unfold received. rewrite json_parse_stringify.
  - cbn [rbind json_of map fst snd]. unfold parseMachineLiveFallback. cbn [obj_get String.eqb Ascii.eqb Bool.eqb]. unfold machine_out. cbn [json_of map fst snd].
    cbn [obj_get String.eqb Ascii.eqb Bool.eqb as_string bool_of]. rewrite H1, H2, !metric_or_null_num, !string_or_null_str, !metric_num by done.
    cbn [mbind option_bind]. rewrite (proj2 (Z.ltb_ge _ _)) by lia. by destruct m.
  - cbn [jout_ok]. split; [apply (bool_decide_unpack _); by vm_compute|]. cbn [foldr snd]. split; [|split; [by apply nullable_int_ok | done]].
    unfold machine_out. cbn [jout_ok]. split; [apply (bool_decide_unpack _); by vm_compute|]. cbn [foldr snd jout_ok].
    split_and!; try done; try (by apply nullable_int_ok); try apply V1; try apply V2; try apply V3; try apply V4; try apply V5; try apply V6; try apply V7; try apply V8; try apply V9;
      try (by destruct (dm_agentVersion m)); try (by destruct (dm_platform m)); try (by destruct (dm_arch m)).
    unfold labels_out. cbn [jout_ok]. split; [rewrite map_map; exact H3|]. clear. by induction (dm_labels m) as [|kv l IH].
Qed.

(** ** A machine *)

(** Addresses [wss://host/path], with nothing else. *)
Definition no_slash (s : string) : bool := str_forall (fun c => negb (Ascii.eqb c "/")) s.
Definition wss_parse (s : string) (_ : option toy_url) : res toy_url :=
  if starts_with "wss://" s then
    let u := toy_split "wss:" (str_drop 6 s) in
    if no_slash (tu_host u) && String.eqb (to_lower (tu_host u)) (tu_host u) then Ok u else Err "TypeError"
  else Err "TypeError".
Definition WssUrls : UrlApi := {|
  url := toy_url; url_parse := wss_parse; protocol := tu_scheme; username := fun _ => ""; password := fun _ => ""; hostname := tu_host;
  origin := fun u => tu_scheme u ++ "//" ++ tu_host u; href := fun u => tu_scheme u ++ "//" ++ tu_host u ++ tu_path u; ip_range := fun _ => None |}.
Definition WssParts : @UrlParts WssUrls := {| port := (fun _ => "") : @url WssUrls -> string; search := fun _ => ""; url_hash := fun _ => "" |}.
Definition WssView : @UrlView WssUrls := {| url_host := tu_host : @url WssUrls -> string; url_pathname := tu_path : @url WssUrls -> string; url_bare := fun u => u |}.
Lemma wss_addresses : plain_addresses (UA := WssUrls) (UP := WssParts) (UV := WssView).
Proof.
  intros value u path Hu Hw Hpath. change (tu_scheme u = "wss:") in Hw.
  assert (Hh : no_slash (tu_host u) = true /\ to_lower (tu_host u) = tu_host u).
  { change (wss_parse value None = Ok u) in Hu. unfold wss_parse in Hu. destruct (starts_with _ _); [|done]. destruct (_ && _) eqn:E; [|done]. injection Hu as <-. by bool_hyps. }
  change (exists v, wss_parse (tu_scheme u ++ "//" ++ tu_host u ++ path) None = Ok v /\ tu_scheme v ++ "//" ++ tu_host v ++ tu_path v = tu_scheme u ++ "//" ++ tu_host u ++ path /\
    tu_scheme v = "wss:" /\ "" = "" /\ "" = "" /\ "" = "" /\ tu_path v = path). rewrite Hw. destruct Hh as [Hn Hl]. generalize dependent (tu_host u). intros host Hn Hl. clear Hu Hw.
  unfold plain_path in Hpath. apply andb_true_iff in Hpath as [Hp _]. destruct path as [|c path]; [done|]. unfold starts_with in Hp. cbn [String.prefix] in Hp.
  destruct (ascii_dec "/" c) as [<-|]; [|done].
  exists (ToyUrl "wss:" host (String "/" path)).
  assert (Ep : wss_parse ("wss:" ++ "//" ++ host ++ String "/" path) None = Ok (ToyUrl "wss:" host (String "/" path))).
  { unfold wss_parse. change ("wss:" ++ "//" ++ host ++ String "/" path) with ("wss://" ++ host ++ String "/" path).
    change (starts_with "wss://" ("wss://" ++ host ++ String "/" path)) with (String.prefix "wss://" ("wss://" ++ host ++ String "/" path)). rewrite prefix_app.
    change (str_drop 6 ("wss://" ++ host ++ String "/" path)) with (str_drop (String.length "wss://") ("wss://" ++ host ++ String "/" path)). rewrite str_drop_app.
    unfold toy_split. rewrite split_on_app by done. cbn [tu_host]. 
    rewrite !Hl, Hn, String.eqb_refl. cbn [andb]. by rewrite split_join. }
  by split_and!.
Qed.
(** Bob may view the machine. *)
Definition lp_side : member_side :=
  MemberSide (md_workspaces demo_side) (md_memberships demo_side) [GrantRow "w" "bob" (Grant RMachine "m" view allow)]
    (md_machines demo_side) (md_agents demo_side) (md_services demo_side) (md_checks demo_side) [] [] [] [] [] [] [].
Definition lp_answer (d : member_side) : live_answer := live_ticket (UA := WssUrls) (UP := WssParts) (UV := WssView) "wss://live.example.com/" sample_secret d (Some "bob") "team" "m" 1700000000000.
Example ticket_needs_view : lp_answer demo_side = not_found.
Proof. vm_compute. reflexivity. Qed.
Theorem live_page_connects_witness : exists body, lp_answer lp_side = answer body None /\ (exists w m, may_watch lp_side "team" "bob" "m" w m) /\
  exists w value ticket path headers hs, received body = Ok value /\ parseMachineLiveTicket (UA := WssUrls) (UP := WssParts) value 1700000299999 = Ok ticket /\
    worker_fetch sample_secret "GET" path headers 1700000299999 = ToHub w hs.
Proof.
  destruct (lp_answer lp_side) as [|tag|body tag] eqn:E; [vm_compute in E; discriminate E.. |].
  destruct tag as [tag|]; [vm_compute in E; discriminate E|]. exists body. split; [done|].
  destruct (live_page_connects (UA := WssUrls) (UP := WssParts) (UV := WssView) "wss://live.example.com/" sample_secret lp_side "bob" "team" "m" 1700000000000 body 1700000299999 wss_addresses)
    as (w & m & Hm & Hc); [| vm_compute; split; congruence | vm_compute; congruence | reflexivity | exact E | |].
  - split; (apply Forall_cons; split; [|by apply Forall_nil]); vm_compute; split_and!; congruence.
  - rewrite <- E. intros Hf. apply (f_equal (fun a => match a with answer (OObj ((_, OBool b) :: _)) _ => b | _ => false end)) in Hf. vm_compute in Hf. discriminate Hf.
  - split; [by exists w, m|]. destruct Hc as (value & ticket & path & headers & hs & H1 & H2 & _ & _ & _ & H6 & _); [vm_compute; split; congruence|].
    by exists (wc_id w), value, ticket, path, headers, hs.
Defined.
Definition lp_row : machine_latest_row := LatestRow 21 7 1700000000000 1700000000100 "healthy" 250 1024 4096 10 100 5 6 500 600 (Some 130) None None.
Definition lp_telemetry : telemetry_pages := TelemetryPages [lp_row] [] [] [] [] [] [] [] [] [] [].
Theorem fallback_shows_machine_witness : exists m body tag, loadMachineCurrent demo_side lp_telemetry "team" "ada" "m" 1700000001000 = Ok (m, Some 1700000000100) /\ dm_cpuPermille m = 250 /\
  latest_values demo_side lp_telemetry (Some "ada") "team" "m" None 1700000001000 = Ok (answer body (Some tag)) /\ (let* value := received body in parseMachineLiveFallback value) = Ok m.
Proof.
  eexists. destruct (fallback_shows_machine demo_side lp_telemetry "ada" "team" "m" None 1700000001000 (toDashboardMachine (MachineCols "m" 21 "w" "m-1" "db" "" None "{}" 10 60 180 0 None 1 0 0 None)
    (Some (AgentCols "a" "m" true "1.0.0" "linux" "amd64" 1 "db" "Debian" "12" "6.1" 0 (Some 0))) (Some lp_row) 1700000001000) (Some 1700000000100)) as (body & H1 & H2).
  - vm_compute. reflexivity.
  - apply Forall_cons. split; [|by apply Forall_nil]. split; [repeat (apply Forall_cons; split; [vm_compute; split; congruence|]); by apply Forall_nil | vm_compute; congruence | vm_compute; split; congruence | done].
  - apply Forall_cons. split; [|by apply Forall_nil]. exists "", []. split; vm_compute; reflexivity.
  - exists body, (machine_tag (toDashboardMachine (MachineCols "m" 21 "w" "m-1" "db" "" None "{}" 10 60 180 0 None 1 0 0 None)
      (Some (AgentCols "a" "m" true "1.0.0" "linux" "amd64" 1 "db" "Debian" "12" "6.1" 0 (Some 0))) (Some lp_row) 1700000001000) (Some 1700000000100)).
    split; [|split; [|split; [exact H1 | exact H2]]]; vm_compute; reflexivity.
Defined.
