(* ===== verification/AgentCommands.v ===== *)
(** * AgentCommands: commands an administrator queues for an Agent

    [apps/web/src/lib/server/agent-commands.ts], and the administrator's list of Agents in
    [apps/web/src/lib/server/monitoring-access.ts].  A command is one guarded row for an active
    Agent; other requests run between the accesses of the action ([Interleave]).  What becomes of
    queued commands is in [ControlRetention], how a member sees them in [MachinePages]. *)

From Stdlib Require Import ZArith Lia Bool String Ascii List.
From stdpp Require Import base tactics list strings.
From S2P Require Import Prelude.
From S2P Require Import Js.
From S2P Require Import Sql.
From S2P Require Import CheckPersistence.
From S2P Require Import Authz.
From S2P Require Import Interleave.
From S2P Require Import Transaction.
From S2P Require Import WorkspaceAccess.
From S2P Require Import PublicStatusPages.
From S2P Require Import NotificationActions.
From S2P Require Import AdminPages.
Open Scope string_scope.
Open Scope Z_scope.

(** ** Tables *)

(** The columns of [agents] and [machines] that are used here; [ya_active] is [status = 'active']. *)
Record agent_entry := AgentEntry { ya_id : string; ya_workspace : string; ya_machine : string; ya_active : bool }.
Record machine_entry := MachineEntry { ym_id : string; ym_name : string; ym_deleted : option Z }.
(** A row of [agent_commands]. *)
Record queued_command := Queued {
  qc_id : string;
  qc_workspace : string;
  qc_agent : string;
  qc_type : string;
  qc_payload : string;
  qc_state : string;
  qc_notBefore : Z;
  qc_expires : Z;
  qc_attemptLimit : Z;
  qc_payloadVersion : Z;
  qc_creator : string;
  qc_created : Z;
}.
Record command_db := CommandDb { kd_authz : control_db; kd_agents : list agent_entry; kd_machines : list machine_entry; kd_commands : list queued_command }.
Definition put_commands v d := CommandDb (kd_authz d) (kd_agents d) (kd_machines d) v.

(** ** Commands *)

(* @src apps/web/src/lib/server/agent-commands.ts CommandType *)
Inductive CommandType := check_update | install_version | redetect_runtimes.
#[export] Instance command_type_eq_dec : EqDecision CommandType. Proof. solve_decision. Defined.
Definition command_name (t : CommandType) : string :=
  match t with check_update => "check_update" | install_version => "install_version" | redetect_runtimes => "redetect_runtimes" end.
(** The longest prefix of characters of a class, and the rest. *)
Fixpoint span (p : ascii -> bool) (s : string) : string * string :=
  match s with
  | String c r => if p c then let '(a, b) := span p r in (String c a, b) else ("", s)
  | EmptyString => ("", "")
  end.
(** [[0-9]+\.], a number and the dot after it. *)
Definition number_dot (s : string) : option string :=
  match span is_digit s with (String _ _, String "." rest) => Some rest | _ => None end.
(** [[0-9A-Za-z.-]] *)
Definition is_version_char (c : ascii) : bool := is_digit c || is_upper c || is_lower c || Ascii.eqb c "." || Ascii.eqb c "-".
(** [(?:\+[0-9A-Za-z.-]+)?$] *)
Definition build_metadata (s : string) : bool :=
  match s with EmptyString => true | String "+" (String c rest) => is_version_char c && str_forall is_version_char rest | _ => false end.
(** The classes of the expression exclude the characters that end them, so that matching never has
    to give a character back. *)
(* @src apps/web/src/lib/server/agent-commands.ts VERSION_PATTERN *)
Definition VERSION_PATTERN (s : string) : bool :=
  match (rest ← number_dot s; number_dot rest) with
  | Some patch =>
      match span is_digit patch with
      | (String _ _, String "-" rest) => match span is_version_char rest with (String _ _, tail) => build_metadata tail | _ => false end
      | (String _ _, tail) => build_metadata tail
      | _ => false
      end
  | None => false
  end.
(* @src apps/web/src/lib/server/agent-commands.ts 24-24 queueAgentCommand *)
Record command_input := CommandInput { ci_type : CommandType; ci_version : option string; ci_bypassRollout : option bool }.
(* @src apps/web/src/lib/server/agent-commands.ts 50-55 queueAgentCommand *)
Definition command_payload (t : CommandType) (version : string) (bypassRollout : option bool) : jout :=
  OObj ((if String.eqb version "" then [] else [("version", OStr version)]) ++
        (match t with redetect_runtimes => [] | _ => [("bypassRollout", OBool (bool_decide (bypassRollout = Some true)))] end))%list.
(** [current.status = 'active' AND machine.deleted_at IS NULL] of this agent of this machine. *)
Definition agent_there (workspaceId machineId : string) (a : agent_entry) (d : command_db) : bool :=
  String.eqb (ya_workspace a) workspaceId && String.eqb (ya_machine a) machineId && ya_active a &&
  existsb (fun m => String.eqb (ym_id m) (ya_machine a) && bool_decide (ym_deleted m = None)) (kd_machines d).

Section Actions.
(** [crypto.randomUUID()] and [Date.now()] *)
Context (commandId : string) (now : Z).

(** A redetection needs the right to manage the machine, the other commands an administrator. *)
(* @src apps/web/src/lib/server/agent-commands.ts 57-69 queueAgentCommand *)
Definition command_authorization (access : MonitoringAccess) (userId machineId : string) (t : CommandType) : condition :=
  match t with
  | redetect_runtimes => finalResourceCapabilityCondition access userId RMachine (m_workspaceId access) machineId manage
  | _ => finalAdminCondition userId (m_workspaceId access)
  end.
(* @src apps/web/src/lib/server/agent-commands.ts 70-99 queueAgentCommand *)
Definition command_insertion (access : MonitoringAccess) (userId machineId agentId : string) (t : CommandType) (payload : string) : stmt :=
  insert_into kd_commands put_commands (fun r d => negb (has_key qc_id (qc_id r) (kd_commands d)))
    (fun d => command_authorization access userId machineId t (kd_authz d) &&
       existsb (fun a => String.eqb (ya_id a) agentId && agent_there (m_workspaceId access) machineId a d) (kd_agents d))
    (Queued commandId (m_workspaceId access) agentId (command_name t) payload "pending" now (now + 30 * 60000) 3 1 userId now).
(* @src apps/web/src/lib/server/agent-commands.ts queueAgentCommand *)
Definition queueAgentCommand (workspaceSlug userId machineId : string) (input : command_input) : prog command_db string :=
  do access <- ask (fun d => loadMonitoringAccess (kd_authz d) workspaceSlug userId) in
  do _ <- plift (match ci_type input with redetect_runtimes => requireResourceCapability access RMachine machineId manage | _ => requireAdmin access end) in
  do agent <- ask (fun d => match List.filter (fun a => agent_there (m_workspaceId access) machineId a d) (kd_agents d) with
                            | a :: _ => Ok (ya_id a) | [] => Err "409 Machine does not have an active Agent" end) in
  let version := trim (default "" (ci_version input)) in
  refuse_if bool_decide (ci_type input = install_version) && negb (VERSION_PATTERN version) as "400 Version must be an exact semantic version" in
  refuse_if negb (bool_decide (ci_type input = install_version)) && negb (String.eqb version "") as "400 This command does not accept a version" in
  let payload := json_stringify (command_payload (ci_type input) version (ci_bypassRollout input)) in
  do _ <- decided [command_insertion access userId machineId agent (ci_type input) payload] 0 "409 Machine access changed; reload and try again" in
  pret commandId.
End Actions.

(** ** The administrator's list of Agents *)

(* @src apps/web/src/lib/server/monitoring-access.ts DeveloperPanelData *)
Record DeveloperPanelData := DeveloperPanel { dv_agents : list (string * string); dv_page : Z; dv_hasPrevious : bool; dv_hasNext : bool; dv_interval : Z }.
(* @src apps/web/src/lib/server/monitoring-access.ts 26-27 AGENT_MAX_PAGE *)
Definition AGENT_PAGE_SIZE : Z := 50.
Definition AGENT_MAX_PAGE : Z := 100.
(** [value] is a safe integer or something else ([None]). *)
(* @src apps/web/src/lib/server/monitoring-access.ts requestedAgentPage *)
Definition requestedAgentPage (value : option Z) : Z := match value with Some n => Z.min AGENT_MAX_PAGE (Z.max 1 n) | None => 1 end.
(** Active agents with the name of their machine, for an administrator. *)
(* @src apps/web/src/lib/server/monitoring-access.ts 218-231 loadDeveloperPanel *)
Definition panel_agents (workspaceId userId : string) (d : command_db) : list (string * string) :=
  a ← kd_agents d;
  m ← kd_machines d;
  if String.eqb (ym_id m) (ya_machine a) && String.eqb (ya_workspace a) workspaceId && ya_active a && bool_decide (ym_deleted m = None) &&
     finalAdminCondition userId (ya_workspace a) (kd_authz d)
  then [(ya_id a, ym_name m)] else [].
Definition agent_leb (a b : string * string) : bool := ordered [String.compare a.2 b.2; String.compare a.1 b.1].
(* @src apps/web/src/lib/server/monitoring-access.ts loadDeveloperPanel *)
Definition loadDeveloperPanel (d : command_db) (workspaceSlug userId : string) (agentPage : option Z) : res DeveloperPanelData :=
  let* access := loadMonitoringAccess (kd_authz d) workspaceSlug userId in
  let* _ := requireAdmin access in
  let page := requestedAgentPage agentPage in
  let agents := take (Z.to_nat (AGENT_PAGE_SIZE + 1)) (drop (Z.to_nat ((page - 1) * AGENT_PAGE_SIZE)) (order_by agent_leb (panel_agents (m_workspaceId access) userId d))) in
  Ok (DeveloperPanel (take (Z.to_nat AGENT_PAGE_SIZE) agents) page (1 <? page) (AGENT_PAGE_SIZE <? Z.of_nat (length agents)) (m_defaultSamplingIntervalSeconds access)).

(** ** Every queued command was allowed *)

(** A command as the Agent finds it. *)
Definition command_ok (userId machineId : string) (input : command_input) (access : MonitoringAccess) (c : queued_command) (d : command_db) : Prop :=
  qc_workspace c = m_workspaceId access /\ qc_creator c = userId /\ qc_type c = command_name (ci_type input) /\ qc_state c = "pending" /\ qc_expires c = qc_created c + 1800000 /\
  (exists a, a ∈ kd_agents d /\ ya_id a = qc_agent c /\ ya_workspace a = qc_workspace c /\ ya_machine a = machineId /\ ya_active a = true /\
     exists m, m ∈ kd_machines d /\ ym_id m = machineId /\ ym_deleted m = None) /\
  (ci_type input <> redetect_runtimes -> finalAdminCondition userId (qc_workspace c) (kd_authz d) = true) /\
  (ci_type input = redetect_runtimes -> finalResourceCapabilityCondition access userId RMachine (qc_workspace c) machineId manage (kd_authz d) = true) /\
  exists version, qc_payload c = json_stringify (command_payload (ci_type input) version (ci_bypassRollout input)) /\
    (ci_type input = install_version <-> version <> "") /\ (version <> "" -> VERSION_PATTERN version = true).
Lemma pattern_not_empty s : VERSION_PATTERN s = true -> s <> "".
Proof. by intros H ->. Qed.
(** A command reaches an Agent only when it is allowed at that moment, and at most once.  Whatever
    other requests do between the three accesses of [queueAgentCommand], when it succeeds exactly
    one row was added, for an active Agent of this machine, which was not deleted, pending for
    thirty minutes, on behalf of somebody who still is an administrator (or, for a redetection,
    still manages the machine); it carries a version exactly when it installs one, and then an
    exact one.  When it fails no row was added. *)
Theorem queued_command_allowed commandId now slug userId machineId input g1 g2 g3 s r s' :
  let s1 := g1 s in let s2 := g2 s1 in let s3 := g3 s2 in
  run [g1; g2; g3] (queueAgentCommand commandId now slug userId machineId input) s = (r, s') ->
  match r with
  | Ok id => exists access c, loadMonitoringAccess (kd_authz s1) slug userId = Ok access /\ id = qc_id c /\
      s' = put_commands (kd_commands s3 ++ [c])%list s3 /\ command_ok userId machineId input access c s3
  | Err _ => s' = s1 \/ s' = s2 \/ s' = s3
  end.
Proof.
  intros s1 s2 s3 H. unfold queueAgentCommand in H. rewrite run_ask in H. cbn [moved] in H. fold s1 in H.
  destruct (loadMonitoringAccess _ _ _) as [access|e] eqn:Ea; [|injection H as <- <-; by left]. rewrite run_lift in H.
  destruct (match ci_type input with redetect_runtimes => _ | _ => _ end) as [[]|e]; [|injection H as <- <-; by left]. rewrite run_ask in H. cbn [moved] in H. fold s2 in H.
  destruct (match List.filter _ _ with a :: _ => _ | [] => _ end) as [agent|e]; [|injection H as <- <-; right; by left]. cbv zeta in H. set (version := trim _) in *. rewrite !run_lift in H.
  destruct (bool_decide (ci_type input = install_version) && negb (VERSION_PATTERN version)) eqn:E1; [injection H as <- <-; right; by left|].
  destruct (negb (bool_decide (ci_type input = install_version)) && negb (String.eqb version "")) eqn:E2; [injection H as <- <-; right; by left|].
  rewrite run_decided in H. cbn [moved snd] in H. fold s3 in H. cbv zeta in H.
  destruct (transaction _ s3) as [[s4 rs]|e] eqn:E5; [|injection H as <- <-; right; by right].
  apply transaction_cons in E5 as (d1 & n & rs' & E5 & Er & ->). cbn in Er. injection Er as -> <-. unfold command_insertion in E5. apply insert_into_effect in E5 as [(Hg & -> & ->)|(Hg & _ & -> & ->)].
  - rewrite bool_decide_eq_false_2 in H by done. injection H as <- <-. right. by right.
  - rewrite bool_decide_eq_true_2 in H by done. injection H as <- <-. exists access. eexists. split; [done|]. split; [|split; [reflexivity|]]; [done|].
    apply andb_true_iff in Hg as [Hauth Hag]. apply existsb_exists_elem in Hag as (a & Ha & Hag). unfold agent_there in Hag. bool_hyps.
    match goal with Hm : existsb _ (kd_machines s3) = true |- _ => apply existsb_exists_elem in Hm as (m & Hm & Em); bool_hyps end.
    unfold command_ok. cbn [qc_workspace qc_creator qc_type qc_state qc_expires qc_created qc_agent qc_payload]. split_and!; try done.
    + exists a. split_and!; try done. exists m. split_and!; congruence.
    + intros Hne. unfold command_authorization in Hauth. by destruct (ci_type input).
    + intros He. by rewrite He in Hauth.
    + exists version. split; [done|]. destruct (bool_decide_reflect (ci_type input = install_version)) as [He|He]; cbn [andb negb] in E1, E2.
      * apply negb_false_iff in E1. split; [split; [intros _; by apply pattern_not_empty | done] | done].
      * apply negb_false_iff, String.eqb_eq in E2. split; [split; [done | by rewrite E2] | by rewrite E2].
Qed.

(** ** The list of Agents is complete *)

(** Following the pages of the administrator's list as long as there is a next one shows every
    active Agent of a live machine of the workspace once, ordered by the machine's name, as long
    as there are at most five thousand. *)
Theorem developer_panel_complete d slug userId access (Ha : loadMonitoringAccess (kd_authz d) slug userId = Ok access) (Hr : requireAdmin access = Ok tt) :
  let rows := panel_agents (m_workspaceId access) userId d in
  let page i := loadDeveloperPanel d slug userId (Some (Z.of_nat i + 1)) in
  Z.of_nat (length rows) <= AGENT_PAGE_SIZE * AGENT_MAX_PAGE ->
  exists n, (forall i, (i < n)%nat -> listed (fun p => [dv_hasNext p]) (page i) = [negb (i =? n - 1)%nat]) /\
    concat (map (fun i => listed dv_agents (page i)) (seq 0 n)) = order_by agent_leb rows.
Proof.
  intros rows page Hl. unfold AGENT_PAGE_SIZE, AGENT_MAX_PAGE in Hl.
  destruct (page_count_spec (Z.of_nat (length rows)) 50) as (H1 & H2 & H3 & _); [lia | lia|]. set (n := page_count (Z.of_nat (length rows)) 50) in *.
  assert (Hn : n <= 100 /\ (1 < n -> (n - 1) * 50 < Z.of_nat (length rows))).
  { unfold n, page_count in *. pose proof (Z.div_mod (Z.of_nat (length rows) + 50 - 1) 50 ltac:(lia)). pose proof (Z.mod_pos_bound (Z.of_nat (length rows) + 50 - 1) 50 ltac:(lia)). lia. }
  assert (Hpage : forall i, (i < Z.to_nat n)%nat -> page i = Ok (DeveloperPanel (take 50 (drop (i * 50) (order_by agent_leb rows))) (Z.of_nat i + 1) (1 <? Z.of_nat i + 1)
    (50 <? Z.of_nat (length (take 51 (drop (i * 50) (order_by agent_leb rows))))) (m_defaultSamplingIntervalSeconds access))).
  { intros i Hi. unfold page, loadDeveloperPanel. rewrite Ha. cbn [rbind]. rewrite Hr. cbn [rbind]. fold rows. unfold requestedAgentPage, AGENT_MAX_PAGE, AGENT_PAGE_SIZE.
    replace (Z.min 100 (Z.max 1 (Z.of_nat i + 1))) with (Z.of_nat i + 1) by lia. replace (Z.to_nat ((Z.of_nat i + 1 - 1) * 50)) with (i * 50)%nat by lia.
    change (Z.to_nat (50 + 1)) with 51%nat. change (Z.to_nat 50) with 50%nat. rewrite take_take. done. }
  exists (Z.to_nat n). split.
  - intros i Hi. rewrite Hpage by done. cbn [listed dv_hasNext]. f_equal. rewrite length_take, length_drop, (order_by_perm agent_leb rows).
    destruct (i =? Z.to_nat n - 1)%nat eqn:E; bool_hyps; [apply Z.ltb_ge | apply Z.ltb_lt]; cbn [negb]; lia.
  - rewrite <- (take_ge (order_by agent_leb rows) (Z.to_nat n * 50)) by (rewrite (order_by_perm agent_leb rows); lia). rewrite <- slices. f_equal.
    apply map_ext_in. intros i Hi%in_seq. by rewrite Hpage by lia.
Qed.

(** ** A machine *)

Example versions : map VERSION_PATTERN ["1.2.3"; "10.0.0-rc.1"; "1.2.3+build-7"; "1.2.3-a+b"; "1.2"; "v1.2.3"; "1.2.3-"; "1.2.3-a+"; "1.2.3 "; "1..3"] =
  [true; true; true; true; false; false; false; false; false; false].
Proof. reflexivity. Qed.
Definition ac_db : command_db :=
  CommandDb (ControlDb [Membership "w" "ada" admin active; Membership "w" "bob" member active] [GrantRow "w" "bob" (Grant RMachine "m" manage allow)] [] [] [WorkspaceRow "w" "team" 7 "d" 10 None])
    [AgentEntry "a0" "w" "m" false; AgentEntry "a" "w" "m" true] [MachineEntry "m" "db" None] [].
Example commands_refused :
  (alone (queueAgentCommand "id" 5 "team" "bob" "m" (CommandInput check_update None None)) ac_db).1 = Err "404 Workspace not found" /\
  (alone (queueAgentCommand "id" 5 "team" "bob" "m" (CommandInput redetect_runtimes None None)) ac_db).1 = Ok "id" /\
  (alone (queueAgentCommand "id" 5 "team" "ada" "m" (CommandInput install_version (Some "latest") None)) ac_db).1 = Err "400 Version must be an exact semantic version" /\
  (alone (queueAgentCommand "id" 5 "team" "ada" "m" (CommandInput check_update (Some "1.2.3") None)) ac_db).1 = Err "400 This command does not accept a version".
Proof. vm_compute. done. Qed.
Theorem queued_command_allowed_witness :
  exists s', run [fun s => s; fun s => s; fun s => s] (queueAgentCommand "id" 5 "team" "ada" "m" (CommandInput install_version (Some " 1.2.3 ") None)) ac_db = (Ok "id", s') /\
  exists c access, s' = put_commands [c] ac_db /\ qc_payload c = json_stringify (OObj [("version", OStr "1.2.3"); ("bypassRollout", OBool false)]) /\
    command_ok "ada" "m" (CommandInput install_version (Some " 1.2.3 ") None) access c ac_db.
Proof.
  eexists. split; [vm_compute; reflexivity|].
  pose proof (queued_command_allowed "id" 5 "team" "ada" "m" (CommandInput install_version (Some " 1.2.3 ") None) (fun s => s) (fun s => s) (fun s => s) ac_db (Ok "id") _ eq_refl) as (access & c & _ & _ & H & Hc).
  exists c, access. split; [exact H|]. split; [|exact Hc].
  change (match kd_commands (put_commands (kd_commands ac_db ++ [c])%list ac_db) with [x] => qc_payload x | _ => "" end = json_stringify (OObj [("version", OStr "1.2.3"); ("bypassRollout", OBool false)])).
  rewrite <- H. vm_compute. reflexivity.
Defined.
Theorem developer_panel_complete_witness :
  (exists access, loadMonitoringAccess (kd_authz ac_db) "team" "ada" = Ok access /\ requireAdmin access = Ok tt) /\
  exists n, concat (map (fun i => listed dv_agents (loadDeveloperPanel ac_db "team" "ada" (Some (Z.of_nat i + 1)))) (seq 0 n)) = [("a", "db")].
Proof.
  destruct (loadMonitoringAccess (kd_authz ac_db) "team" "ada") as [access|e] eqn:Ha; [|vm_compute in Ha; discriminate Ha].
  assert (Hr : requireAdmin access = Ok tt) by (vm_compute in Ha; injection Ha as <-; reflexivity). split; [by exists access|].
  destruct (developer_panel_complete ac_db "team" "ada" access Ha Hr) as (n & _ & H); [vm_compute in Ha; injection Ha as <-; vm_compute; congruence|].
  exists n. rewrite H. vm_compute in Ha. injection Ha as <-. vm_compute. reflexivity.
Defined.
