(* ===== verification/SetupEnvironment.v ===== *)
(** * SetupEnvironment: is the deployment fit to be set up

    [apps/web/src/lib/server/setup-environment.ts] looks at the bindings, secrets and origins of a
    deployment before an installation is set up, and [routes/setup/+page.server.ts] lets nobody
    through otherwise.  The theorem says what a ready report is worth: the keys and secrets it
    has seen are ones that the rest of the program can use. *)

From Stdlib Require Import ZArith Lia Bool String Ascii List.
From stdpp Require Import base tactics list strings.
From S2P Require Import Prelude.
From S2P Require Import Js.
From S2P Require Import Crypto.
From S2P Require Import LiveTicket.
From S2P Require Import Web.
From S2P Require Import Envelopes.
From S2P Require Import Interleave.
From S2P Require Import Transaction.
From S2P Require Import MachinePages.
From S2P Require Import MachineActions.
From S2P Require Import Setup.
From S2P Require Import RequestGate.
From S2P Require Import LivePage.
Open Scope string_scope.
Open Scope Z_scope.

(* @src apps/web/src/lib/server/setup-environment.ts SetupEnvironmentCheck *)
Record SetupEnvironmentCheck := EnvironmentCheck { ec_id : string; ec_label : string; ec_detail : string; ec_ready : bool }.
(* @src apps/web/src/lib/server/setup-environment.ts SetupEnvironmentReport *)
Record SetupEnvironmentReport := EnvironmentReport { er_ready : bool; er_checks : list SetupEnvironmentCheck }.
(** The names of a database's tables, or [None] when it could not be read. *)
(* @src apps/web/src/lib/server/setup-environment.ts SetupEnvironmentSnapshot *)
Record SetupEnvironmentSnapshot := EnvironmentSnapshot {
  es_controlTables : option (list string);
  es_telemetryTables : option (list string);
  es_betterAuthSecret : string;
  es_setupToken : string;
  es_enrollmentTokenPepper : string;
  es_checkSecretWrappingKey : string;
  es_notificationSecretWrappingKey : string;
  es_liveTicketSecret : string;
  es_ingestOrigin : string;
  es_liveOrigin : string;
  es_webCryptoAvailable : bool;
  es_authRateLimitersAvailable : bool;
}.
(* @src apps/web/src/lib/server/setup-environment.ts 36-46 CONTROL_TABLES *)
Definition CONTROL_TABLES : list string :=
  ["account"; "dashboards"; "installations"; "memberships"; "notification_channels"; "retention_policies"; "telemetry_resource_sequences"; "user"; "workspaces"].
(* @src apps/web/src/lib/server/setup-environment.ts 48-53 TELEMETRY_TABLES *)
Definition TELEMETRY_TABLES : list string := ["check_result_blocks_5m"; "machine_latest"; "retention_cursors"; "telemetry_blocks_5m"].
(* @src apps/web/src/lib/server/setup-environment.ts hasRequiredTables *)
Definition hasRequiredTables (actual : option (list string)) (required : list string) : bool :=
  match actual with None => false | Some available => forallb (fun table => str_in table available) required end.
(** [/(change[-_ ]?me|example|placeholder|replace)/i] *)
Definition placeholder_text (value : string) : bool :=
  existsb (fun p => includes p (to_lower value)) ["changeme"; "change-me"; "change_me"; "change me"; "example"; "placeholder"; "replace"].
(* @src apps/web/src/lib/server/setup-environment.ts configuredTextSecret *)
Definition configuredTextSecret (value : string) : bool := (32 <=? slen value) && (slen value <=? 512) && negb (placeholder_text value).
(** [/^([0-9a-f])\1{63}$/i]: one digit, sixty-four times. *)
Definition one_digit (value : string) : bool :=
  match to_lower value with String c rest => (slen value =? 64) && is_hex c && str_forall (Ascii.eqb c) rest | EmptyString => false end.
(* @src apps/web/src/lib/server/setup-environment.ts configuredHexSecret *)
Definition configuredHexSecret (value : string) : bool := (slen value =? 64) && str_forall is_hex value && negb (one_digit value).

Section Environment.
Context `{UA : UrlApi} `{UP : !UrlParts} `{UV : !UrlView}.
(* @src apps/web/src/lib/server/setup-environment.ts validOrigin *)
Definition validOrigin (value scheme : string) : bool :=
  if (slen value =? 0) || (256 <? slen value) then false
  else match url_parse value None with
  | Ok parsed =>
      String.eqb (protocol parsed) scheme && String.eqb (username parsed) "" && String.eqb (password parsed) "" && String.eqb (url_pathname parsed) "/" &&
      String.eqb (search parsed) "" && String.eqb (url_hash parsed) "" && (0 <? slen (url_host parsed))
  | Err _ => false
  end.
Definition checked (id label : string) (ready : bool) (good bad : string) : SetupEnvironmentCheck := EnvironmentCheck id label (if ready then good else bad) ready.
(* @src apps/web/src/lib/server/setup-environment.ts evaluateSetupEnvironment *)
Definition evaluateSetupEnvironment (s : SetupEnvironmentSnapshot) : SetupEnvironmentReport :=
  let checks :=
    [checked "control-db" "Control database" (hasRequiredTables (es_controlTables s) CONTROL_TABLES)
       "D1 is reachable and control migrations are present" "CONTROL_DB is unavailable or requires migrations";
     checked "telemetry-db" "Telemetry database" (hasRequiredTables (es_telemetryTables s) TELEMETRY_TABLES)
       "D1 is reachable and telemetry migrations are present" "TELEMETRY_DB is unavailable or requires migrations";
     checked "auth-secrets" "Initialization secrets" (configuredTextSecret (es_betterAuthSecret s) && configuredTextSecret (es_setupToken s))
       "Setup and authentication secrets meet the minimum length" "SETUP_TOKEN and BETTER_AUTH_SECRET must be configured";
     checked "auth-rate-limiters" "Authentication rate limits" (es_authRateLimitersAvailable s)
       "Client and account credential rate limiters are available" "AUTH_EDGE_RATE_LIMITER or AUTH_ACCOUNT_RATE_LIMITER is unavailable";
     checked "data-secrets" "Data channel secrets"
       (configuredHexSecret (es_enrollmentTokenPepper s) && configuredHexSecret (es_checkSecretWrappingKey s) && configuredHexSecret (es_notificationSecretWrappingKey s) && configuredTextSecret (es_liveTicketSecret s))
       "Enrollment, check, notification, and live channel secrets are configured" "Enrollment, check, notification, or live channel secrets are missing";
     checked "worker-runtime" "Worker endpoints" (es_webCryptoAvailable s && validOrigin (es_ingestOrigin s) "https:" && validOrigin (es_liveOrigin s) "wss:")
       "Web Crypto and secure ingest/live origins are available" "Worker crypto or secure service origins are unavailable"] in
  EnvironmentReport (forallb ec_ready checks) checks.
(** What the deployment is asked: the tables of its databases (which may fail) and its variables. *)
(* @src apps/web/src/lib/server/setup-environment.ts tableNames *)
Definition tableNames (rows : res (list string)) : option (list string) := match rows with Ok names => Some names | Err _ => None end.
Record deployment := Deployment { dp_control : res (list string); dp_telemetry : res (list string); dp_variables : SetupEnvironmentSnapshot }.
(* @src apps/web/src/lib/server/setup-environment.ts inspectSetupEnvironment *)
Definition inspectSetupEnvironment (e : deployment) : SetupEnvironmentReport :=
  let v := dp_variables e in
  evaluateSetupEnvironment (EnvironmentSnapshot (tableNames (dp_control e)) (tableNames (dp_telemetry e)) (es_betterAuthSecret v) (es_setupToken v) (es_enrollmentTokenPepper v)
    (es_checkSecretWrappingKey v) (es_notificationSecretWrappingKey v) (es_liveTicketSecret v) (es_ingestOrigin v) (es_liveOrigin v) (es_webCryptoAvailable v) (es_authRateLimitersAvailable v)).
(* @src apps/web/src/lib/server/setup-environment.ts unavailableSetupEnvironment *)
Definition unavailableSetupEnvironment : SetupEnvironmentReport :=
  EnvironmentReport false [EnvironmentCheck "worker-runtime" "Cloudflare runtime" "Cloudflare bindings are unavailable in this environment" false].

End Environment.

(** ** The setup page *)

Section Page.
Context `{UA : UrlApi} `{UP : !UrlParts} `{UV : !UrlView} `{WC : WebCrypto} (hashPassword : string -> string) (dw : setup_draw).
(** A failure with its text and the step of the form to go back to, or the redirect. *)
Inductive setup_answer := setup_failed (cause : string) (step : Z) | setup_redirect (location : string).
(** [isHttpError(cause)]: the texts of [error(status, message)] begin with the status. *)
Definition http_text (cause : string) : bool :=
  match cause with String a (String b (String c (String " " _))) => is_digit a && is_digit b && is_digit c | _ => false end.
(** [form.get(key)], or an empty text; a missing number is zero, as an empty text is.
    [String(form.get("dashboardVisibility"))] of a missing field is "null". *)
Definition setup_field (key : string) (form : list (string * string)) : string := default "" (obj_get key form).
Definition setup_form (form : list (string * string)) : SetupInput :=
  Setup.Setup (setup_field "token" form) (trim (setup_field "name" form)) (trim (setup_field "email" form)) (setup_field "password" form) (trim (setup_field "workspaceName" form)) (trim (setup_field "workspaceSlug" form))
    (js_number (setup_field "rawDays" form)) (js_number (setup_field "defaultSamplingIntervalSeconds" form)) (default "null" (obj_get "dashboardVisibility" form)).
(** [bound] is that there is a database at all. *)
(* @src apps/web/src/routes/setup/+page.server.ts 37-77 actions *)
Definition setup_action (bound : bool) (e : deployment) (form : list (string * string)) : prog setup_db setup_answer :=
  if negb bound then pret (setup_failed "503 Cloudflare bindings are unavailable" 1)
  else if negb (er_ready (inspectSetupEnvironment e)) then pret (setup_failed "503 Resolve the environment checks before initialization" 1)
  else pcatch (do _ <- initializeInstallation hashPassword dw (es_setupToken (dp_variables e)) (setup_form form) in pret (setup_redirect "/setup"))
         (fun cause => pret (if http_text cause then setup_failed cause (if starts_with "403 " cause then 2 else 5) else setup_failed "500 Initialization failed" 5)).
End Page.

(** ** What a ready report is worth *)

Lemma ready_text value : configuredTextSecret value = true -> 32 <= slen value <= 512.
Proof. unfold configuredTextSecret. intros H. bool_hyps. lia. Qed.
Lemma hex_value c : is_hex c = true -> exists n, hex_val c = Some n.
Proof. destruct c as [[] [] [] [] [] [] [] []]; intros H; vm_compute in H |- *; try discriminate H; by eexists. Qed.
Lemma hex_pairs n : forall s, String.length s = (2 * n)%nat -> str_forall is_hex s = true -> exists bs, hex_bytes s = Some bs /\ length bs = n.
Proof.
  induction n as [|n IH]; intros s Hl Hs; [destruct s; [by exists []|done]|]. destruct s as [|a [|b s]]; [done | cbn in Hl; lia|]. cbn [str_forall] in Hs. bool_hyps.
  destruct (IH s) as (bs & E & Hn); [cbn in Hl; lia | done|]. destruct (hex_value a) as [x Ex]; [done|]. destruct (hex_value b) as [y Ey]; [done|].
  exists (byte_of_Z (16 * Z.of_N x + Z.of_N y) :: bs). cbn. rewrite Ex, Ey, E. split; [done|]. cbn. by rewrite Hn.
Qed.
Lemma ready_hex e value : configuredHexSecret value = true -> exists key, hex_key e value = Ok key /\ blen key = 32.
Proof.
  unfold configuredHexSecret, hex_key. intros H. apply andb_true_iff in H as [H _]. rewrite H. bool_hyps. destruct (hex_pairs 32 value) as (bs & -> & Hn); [unfold slen in *; lia | done|].
  exists bs. split; [done|]. unfold blen. lia.
Qed.
(** A report that says ready can be relied on.  The tables are there; the keys for enrollment
    tokens, for the secrets of checks and for the configurations of channels are accepted where
    they are used, each with 32 bytes; live tickets can be signed; the installer who has the
    setup token is let in; and the live view's endpoint has an address to hand out.  Without
    these the setup page refuses every form before it reads anything. *)
Theorem ready_environment_works `{UA : UrlApi} `{UP : !UrlParts} `{UV : !UrlView} `{WC : WebCrypto} `{WCL : !WebCryptoLaws} e :
  let v := dp_variables e in
  (er_ready (inspectSetupEnvironment e) = true ->
    (exists control telemetry, dp_control e = Ok control /\ dp_telemetry e = Ok telemetry /\ CONTROL_TABLES ⊆ control /\ TELEMETRY_TABLES ⊆ telemetry) /\
    (exists key, decodeHexSecret (es_enrollmentTokenPepper v) = Ok key /\ blen key = 32) /\
    (exists key, decodeHexKey (es_checkSecretWrappingKey v) = Ok key /\ blen key = 32) /\
    (exists key, decodeKey (es_notificationSecretWrappingKey v) = Ok key /\ blen key = 32) /\
    (forall label parts, exists mac, keyedDigest (es_liveTicketSecret v) label parts = Ok mac) /\
    validSetupToken (es_setupToken v) (es_setupToken v) = true /\
    exists origin, liveOrigin (es_liveOrigin v) = Some origin) /\
  (er_ready (inspectSetupEnvironment e) = false -> forall hashPassword dw bound form moves d, exists cause,
    run moves (setup_action hashPassword dw bound e form) d = (Ok (setup_failed cause 1), d)).
Proof.
  intros v. split.
  - intros H. unfold inspectSetupEnvironment, evaluateSetupEnvironment in H. cbn [er_ready forallb ec_ready checked es_controlTables es_telemetryTables es_betterAuthSecret es_setupToken
      es_enrollmentTokenPepper es_checkSecretWrappingKey es_notificationSecretWrappingKey es_liveTicketSecret es_ingestOrigin es_liveOrigin es_webCryptoAvailable es_authRateLimitersAvailable] in H.
    fold v in H. rewrite andb_true_r in H. repeat (rewrite andb_true_iff in H).
    destruct H as (Hc & Ht & (_ & Htoken) & _ & (((Hp & Hk) & Hn) & Hlive) & ((_ & _) & Horigin)). split_and!.
    + unfold tableNames, hasRequiredTables in Hc, Ht. destruct (dp_control e) as [control|]; [|done]. destruct (dp_telemetry e) as [telemetry|]; [|done].
      rewrite forallb_forall in Hc, Ht. exists control, telemetry. split_and!; [done | done | |]; intros x Hx; apply str_in_elem; [apply Hc | apply Ht]; by apply list_elem_of_In.
    + by apply ready_hex.
    + by apply ready_hex.
    + by apply ready_hex.
    + intros label parts. apply ready_text in Hlive. unfold keyedDigest. rewrite blen_encode_utf8. rewrite (proj2 (Z.ltb_ge _ _)) by lia. by eexists.
    + apply ready_text in Htoken. unfold validSetupToken, MAX_TEXT_SECRET_LENGTH. rewrite (proj2 (Z.ltb_ge _ 20)), (proj2 (Z.ltb_ge 512 _)) by lia. cbn [orb]. by apply digests_equal_spec.
    + unfold validOrigin in Horigin. unfold liveOrigin. destruct (_ || _) eqn:E; [done|]. bool_hyps. rewrite (proj2 (Z.ltb_ge 256 _)) by lia.
      destruct (url_parse (es_liveOrigin v) None) as [u|]; [|done]. repeat (rewrite andb_true_iff in Horigin). destruct Horigin as ((((((H1 & H2) & H3) & H4) & H5) & H6) & _).
      rewrite H1, H2, H3, H4, H5, H6. by eexists.
  - intros H hashPassword dw bound form moves d. unfold setup_action. rewrite H. destruct bound; cbn; by eexists.
Qed.

(** ** A deployment *)

Definition BothUrls : UrlApi := {|
  url := toy_url; url_parse := fun s base => if starts_with "wss://" s then wss_parse s None else toy_parse s base; protocol := tu_scheme; username := fun _ => ""; password := fun _ => "";
  hostname := tu_host; origin := fun u => tu_scheme u ++ "//" ++ tu_host u; href := fun u => tu_scheme u ++ "//" ++ tu_host u ++ tu_path u; ip_range := fun _ => None |}.
Definition BothParts : @UrlParts BothUrls := {| port := (fun _ => "") : @url BothUrls -> string; search := fun _ => ""; url_hash := fun _ => "" |}.
Definition BothView : @UrlView BothUrls := {| url_host := tu_host : @url BothUrls -> string; url_pathname := tu_path : @url BothUrls -> string; url_bare := fun u => u |}.
Definition sv_key : string := "00112233445566778899aabbccddeeff00112233445566778899aabbccddeeff".
Definition sv_variables (ingest : string) : SetupEnvironmentSnapshot :=
  EnvironmentSnapshot None None sample_secret sample_secret sv_key sv_key sv_key sample_secret ingest "wss://live.test" true true.
Definition sv_deployment (ingest : string) : deployment := Deployment (Ok ("sessions" :: CONTROL_TABLES)) (Ok TELEMETRY_TABLES) (sv_variables ingest).
Example rejected_secrets : map configuredHexSecret [sv_key; AuditLog.repeat_string 64 "a"; AuditLog.repeat_string 63 "a"] = [true; false; false] /\
  map configuredTextSecret [sample_secret; "please-Change-Me-0123456789abcdef0"; "short"] = [true; false; false].
Proof. vm_compute. done. Qed.
Theorem ready_environment_works_witness :
  er_ready (inspectSetupEnvironment (UA := BothUrls) (UP := BothParts) (UV := BothView) (sv_deployment "https://ingest.test")) = true /\
  (exists key, decodeHexKey sv_key = Ok key /\ blen key = 32) /\
  exists cause, run [] (setup_action (UA := BothUrls) (UP := BothParts) (UV := BothView) (fun p => p) (SetupDraw 1 "u" "w" "d" "i" "a" "l") true (sv_deployment "http://ingest.test") []) sx_start =
    (Ok (setup_failed cause 1), sx_start).
Proof.
  split; [vm_compute; reflexivity|]. split.
  - apply (ready_environment_works (UA := BothUrls) (UP := BothParts) (UV := BothView) (sv_deployment "https://ingest.test")). vm_compute. reflexivity.
  - apply (ready_environment_works (UA := BothUrls) (UP := BothParts) (UV := BothView) (sv_deployment "http://ingest.test")). vm_compute. reflexivity.
Defined.
